(* ===== verification/_CoqProject ===== *)
-Q . S2P
Prelude.v
Rows.v
GoStrings.v
Dates.v
Json.v
Decimal.v
LocalCache.v
EAP.v
Identity.v
Guard.v
Nas.v
MSCHAPv2.v
VerifierCache.v
RadiusDaemon.v
SubscriberCache.v
Jobqueue.v
SessionHistory.v
LiveSessions.v
HotspotStore.v
Hotspot.v
FUP.v
SessionControl.v
Accounting.v
Gst.v
Billing.v
Dunning.v
Renewal.v
Subscribers.v
Inventory.v
Crm.v
Workflow.v
Revenue.v
Reconcile.v
Egress.v
Partner.v
Webhooks.v
Tickets.v
Ledger.v
Procurement.v
Access.v
Cwmp.v
Tr069.v
Csv.v
Gstr1.v
Archive.v
Reporting.v
Notify.v
Announcements.v
