(* ===== verification/Prelude.v ===== *)
(** * Verification of the ISP BSS/OSS platform

    The platform sells, meters and bills internet access. Three programs share
    one PostgreSQL database: [cmd/radiusd] answers the access servers (RADIUS
    authentication and accounting), [cmd/api] serves operators and the
    customers' portal, and [cmd/worker] runs the background tasks and the
    periodic scans (usage, dunning, renewal). The components meet in the
    tables: a wallet debit moves a subscriber's status, the status decides what
    RADIUS answers, an accounting record feeds the usage scan, and the scan
    queues a task that changes a running session's rate. This development
    models those components as executable definitions and proves what makes
    each of them correct, or exhibits the run on which it is not.

    ** Files, and the code each one models

    Shared ground:
    - [Prelude]: results, Go slices, Unicode-free character classes, list and
      map lemmas, the tactics.
    - [Rows], [Dates]: listings and sums over tables; the calendar.
    - [GoStrings], [Json]: the parts of strings, strconv, fmt and
      encoding/json the sources use.
    - [Decimal]: the decimal library as a class of operations and laws, with a
      rational instance; percentages.

    Authentication and accounting (src/internal/radius, nas, localcache, cache):
    - [LocalCache]: [Module Store] and [Module Counter], the in-process TTL map
      and window counter.
    - [EAP], [MSCHAPv2]: the packet codecs and the RFC 2759 computation.
    - [Identity]: MAC normalisation, service authorisation, effective rate.
    - [Guard]: the brute-force guard over [Counter].
    - [Nas]: vendor attributes and the inventory resolver.
    - [VerifierCache]: the two-tier fast verifier cache.
    - [RadiusDaemon] ([Module Daemon]): the PAP, MAB and EAP handlers over all
      of the above; [DBQuerier] is the interface to the subscriber lookup.
    - [SubscriberCache]: the read-through cache, an instance of [DBQuerier].
    - [Accounting]: the accounting handler over the session history, the
      hotspot grants, the live table and [DBQuerier].

    Sessions, usage and the task queue (src/internal/db/fup.go, cache, fup,
    jobqueue, hotspot, api/sessions.go):
    - [SessionHistory] ([Module History]), [LiveSessions]: the session tables.
    - [Jobqueue]: the tasks table and its workers, as a step relation.
    - [FUP]: the usage scans and the CoA, disconnect, warning and throttle
      handlers; [SessionControl]: the operator's endpoints on them.
    - [HotspotStore], [Hotspot]: vouchers, devices and grants; the captive
      portal, its attempt limiter and the quota scan.

    Money (src/internal/billing, db/billing.go, portal, cmd/api/main.go,
    revenue):
    - [Gst]: states and invoice arithmetic.
    - [Billing]: the billing tables, the recharge transaction with its journal
      entry, [Recharge] and [Post].
    - [Dunning]: the collection ladder and its scan.
    - [Renewal]: the renewal scan and the portal's renewal callback.
    - [Revenue]: franchise commissions and statements, and the operator's
      recharge, the gateway's webhook and the portal's renewal that settle them.
    - [Reconcile]: the nightly reconciliation, forecasts and recovery reports.

    Operators (src/internal/api, inventory, crm, workflow and their stores):
    - [Subscribers]: signup, PATCH, plan changes and bulk operations.
    - [Inventory]: devices, purchases and stock levels.
    - [Crm]: leads and their conversion.
    - [Workflow]: two-person approval of sensitive actions, and field tasks.
    - [Tickets]: support tickets, their SLA clocks and the warning scan.
    - [Access]: tokens, the route table, console sections and sessions, staff
      accounts, the portal's sign-in.

    Books and returns (src/internal/ledger, procurement, billing/gstr1*.go,
    archive, reporting and their stores):
    - [Ledger]: the chart, journal entries and statements of account;
      [Procurement]: purchase orders and the expense each books.
    - [Gstr1]: the monthly outward-supplies return; [Csv]: the writer of its
      files and of the reports'.
    - [Archive] ([Modules Path] and [Archive]): the local document store, the
      archived documents and the retention sweep.
    - [Reporting]: the reporting views, their queries, downloads and scheduled
      exports.

    Outside parties (src/internal/partner, tr069, notifications and their
    stores):
    - [Egress]: the addresses a webhook may reach; [Partner]: keys, endpoints
      and the key guard; [Webhooks]: signing, fan-out and delivery.
    - [Cwmp], [Tr069]: the TR-069 messages, templates, sessions and task queue.
    - [Notify]: the dispatcher, its channels, opt-outs and delivery callbacks;
      [Announcements] ([Module Ann]): staff broadcasts.

    A Go struct is a [Record], a string enumeration keeps its strings where the
    database's CHECK does and is an [Inductive] otherwise, and a Go function or
    method is a [Definition] or [Fixpoint] of the same name. A component's state is
    the record of what it keeps in memory and the tables it reads and writes.
    The table of a statement's WHERE and SET clauses is the definition named
    after the Go method that runs it.

    ** What the theorems show

    - Authentication: an Access-Accept is justified and there is one reply per
      request ([accept_is_justified], [one_answer_per_request]); the guard is
      its lockout specification ([guard_refines_lockout]); a cached verifier or
      subscriber is recent ([verifier_hit_is_recent_bcrypt],
      [cached_answer_is_recent]); codecs round-trip ([eap_codec]); the sweep of
      a cache cannot be observed ([sweeps_unobservable]).
    - Sessions and usage: one open row per session, an exact stop, at most one
      processing of a retransmission, an exact breach query, time-boxed speed
      overrides; and the lost CoA of a failed enqueue.
    - The queue: one worker per task and bounded retries while leases hold, and
      what an overrun lease does.
    - Hotspot: a voucher is used once, the portal grants only on a proof, and
      attempts are bounded.
    - Money: the balance and the ledger move together and journals balance, a
      token pays once, invoices are exact, a renewal charges what it invoices,
      payment decides service; and the runs on which balances are lost or
      charges stand alone.
    - Revenue: a commission is settled once per reference with a balanced
      entry, books kept by the wallet raise no alert, consolidated statements
      add up; and the commissions and forecasts no money backs.
    - Operators: subscribers stay billable under every operation, a device is
      issued once, sensitive actions need two people and are executed once, an
      approved termination is complete, and what the console does is covered by
      a role and an audit entry ([two_people_and_once],
      [console_action_accountable]); and the paths around them.
    - Books and returns: every entry balances and the statements agree
      ([books_agree]), an order is expensed once ([order_expensed_once]), the
      return's totals are its lines' at the rates the invoices were issued with
      ([return_reconciles], [filed_at_the_issued_rate]).
    - Documents: what is archived reads back until its purge date, a crash
      leaves whole files, keys stay under the root, and the sweep removes what
      is due and nothing else.
    - Reports: a scoped caller sees only rows of the own franchise, and a
      scheduled export holds what the download would have ([Reporting]).
    - Outside parties: no connection to a reserved address
      ([egress_never_private]), deliveries are recorded with their outcome
      ([delivery_recorded]), a key works until revoked; a device gets each task
      at most once ([rpc_handed_once]) and reads back its configuration
      ([configuration_arrives]).
    - Notices: a send queues one task per recipient and happens once, whoever
      opted out hears nothing, every dispatch is accounted for, and delivery
      callbacks converge in any order ([callbacks_converge]).

    Several files end with runs on which a wish does not hold (lost updates,
    races between unlocked statements, records that outlive their purpose);
    those are [Example]s or theorems of their own, next to the property whose
    hypotheses exclude them.

    Invariants are proved by induction over step relations whose steps are the
    modelled statements, so an interleaving of programs is a sequence of steps
    and a failing or crashing call is a step of its own.

    ** Abstractions

    - Each SQL statement is one atomic function on its tables; a transaction is
      one as well, whose failure restores every table but the id sequences,
      which PostgreSQL does not roll back. Whether a statement can be executed at
      all is an argument ([up] and the like), so every error path is reachable.
      Lengths of VARCHAR columns are modelled where a theorem depends on them.
    - A handler reads the clock once; successive readings inside one call are
      equal. Instants and durations are nanoseconds (or seconds, where a file
      says so) in [Z]; days are 24 hours, the server's zone having no daylight
      saving; [time.Duration.Hours] compares as the exact quotient.
    - Strings are ASCII. Machine integers are [Z] with their range written out
      where overflow is possible ([bigint] sums, 64-bit octet counters, 32-bit
      gigaword arithmetic).
    - Money is [Z] in the column's smallest unit inside the database and a
      [Decimal] in Go; the conversions round as the column does.
    - Third-party code is a class or an argument: decimals ([DecimalLaws]),
      hashes and ciphers ([Crypto], [Mac], bcrypt), the RADIUS packet library,
      PostgreSQL's inet functions, the UDP exchange with the access server. Each
      theorem that assumes laws of such code has a witness with a concrete
      instance.
    - An HTTP handler takes the decoded request and gives the status and the
      new state; routing, JSON syntax, response bodies and most audit text are
      left out.

    ** Fuel and bounds

    Recursion is structural, or on a bound that is a number in the definition:
    - the dunning walk has the source's own eight steps, and [walk_terminates]
      shows that six are enough;
    - [Json.parse_members] has the length of the text, of which every member
      consumes some ([parse_members_reads]); [Hotspot.grouped] the length of
      the code;
    - [Egress.groups] has 8, the groups of an IPv6 address, as the source's loop;
    - [Cwmp.itoa_loop] has the 20 digits of its buffer, enough for 64 bits.
    The reference readers [Cwmp.read_set] and [Notify.read_mail] take the number
    of parameters and of header lines, which their theorems name. Generators
    that retry in the source (voucher codes, client numbers) take the random
    draws as a list.

    ** Not modelled

    Sockets, worker-pool lifetimes, tickers, metrics, HTML and PDF rendering,
    HTTP and SMTP clients, object storage, configuration, the Windows service
    glue and certificates: they carry no state transitions of the platform's
    own. The alerts on bursts of failed authentications
    (radius/authalert.go, alerting) are left out, being counters in front of
    an HTTP pager whose answers nothing reads; so are the console's and the
    portal's pages beyond what their handlers write, the catalogue's and the
    NAS table's single-statement reads and writes, connection pooling, and the
    programs' wiring. *)

From stdpp Require Export base option list gmap strings fin_maps.
From Stdlib Require Export ZArith Lia.
From Stdlib Require Import Ascii.

Open Scope Z_scope.

(** ** Fallible operations: a Go [(T, error)] pair *)

Inductive result (E A : Type) : Type :=
| Ok (a : A)
| Err (e : E).
Arguments Ok {E A} a.
Arguments Err {E A} e.

Definition rbind {E A B} (m : result E A) (k : A -> result E B) : result E B :=
  match m with Ok a => k a | Err e => Err e end.

Definition is_ok {E A} (m : result E A) : bool :=
  match m with Ok _ => true | Err _ => false end.

Declare Scope go_scope.
Delimit Scope go_scope with go.
Notation "'let!' x ':=' m 'in' k" := (rbind m (fun x => k))
  (at level 10, x binder, m at level 100, k at level 200) : go_scope.

Lemma rbind_Ok_inv {E A B} (m : result E A) (k : A -> result E B) b :
  rbind m k = Ok b -> exists a, m = Ok a /\ k a = Ok b.
Proof. destruct m; simpl; [eauto | discriminate]. Qed.

(** Go's [b[i]], [b[lo:hi]] and [b[lo:]]: out of range is a run-time panic,
    which a model reports as the error value [panic]. *)
Section Slices.
Context {E A : Type} (panic : E).

Definition index (b : list A) (i : nat) : result E A :=
  match b !! i with Some x => Ok x | None => Err panic end.

Definition slice (b : list A) (lo hi : nat) : result E (list A) :=
  if ((lo <=? hi) && (hi <=? length b))%nat then Ok (take (hi - lo) (drop lo b))
  else Err panic.

Definition slice_from (b : list A) (lo : nat) : result E (list A) :=
  slice b lo (length b).

Lemma index_Ok b i x : b !! i = Some x -> index b i = Ok x.
Proof. unfold index. by intros ->. Qed.

Lemma index_lt b i : (i < length b)%nat -> exists x, b !! i = Some x /\ index b i = Ok x.
Proof.
  intros [x Hx]%lookup_lt_is_Some. exists x. split; [done | by apply index_Ok].
Qed.

Lemma slice_in b lo hi :
  (lo <= hi <= length b)%nat -> slice b lo hi = Ok (take (hi - lo) (drop lo b)).
Proof.
  intros [Hlo Hhi]. unfold slice.
  by rewrite (proj2 (Nat.leb_le _ _) Hlo), (proj2 (Nat.leb_le _ _) Hhi).
Qed.

Lemma slice_from_in b lo :
  (lo <= length b)%nat -> slice_from b lo = Ok (drop lo b).
Proof.
  intros. unfold slice_from. rewrite slice_in by lia.
  rewrite take_ge; [done | rewrite length_drop; lia].
Qed.

End Slices.

(** ** Machine-width integers *)

Definition u8 (z : Z) : Z := z mod 256.
Definition u16 (z : Z) : Z := z mod 65536.

(** Two's-complement wrap-around of a signed 64-bit result. *)
Definition i64 (z : Z) : Z := (z + 2 ^ 63) mod 2 ^ 64 - 2 ^ 63.

Definition max_int64 : Z := 2 ^ 63 - 1.

Lemma i64_small z : - 2 ^ 63 <= z <= max_int64 -> i64 z = z.
Proof. unfold i64, max_int64. intros. rewrite Z.mod_small; lia. Qed.

Lemma i64_range z : - 2 ^ 63 <= i64 z <= max_int64.
Proof.
  unfold i64, max_int64.
  pose proof (Z.mod_pos_bound (z + 2 ^ 63) (2 ^ 64) ltac:(lia)). lia.
Qed.

Definition is_byte (z : Z) : Prop := 0 <= z < 256.

Lemma u8_byte z : is_byte (u8 z).
Proof. unfold u8, is_byte. apply Z.mod_pos_bound. lia. Qed.

Lemma u8_id z : is_byte z -> u8 z = z.
Proof. unfold u8, is_byte. apply Z.mod_small. Qed.

(** A high part shifted over a low part that fits below it is a sum. *)
Lemma lor_shiftl_add hi lo n :
  0 <= n -> 0 <= lo < 2 ^ n -> Z.lor (Z.shiftl hi n) lo = hi * 2 ^ n + lo.
Proof.
  intros Hn Hlo. rewrite <- (Z.shiftl_mul_pow2 hi n) by done.
  enough (Z.land (Z.shiftl hi n) lo = 0) as H0
    by (pose proof (Z.add_lor_land (Z.shiftl hi n) lo); lia).
  apply Z.bits_inj'. intros k Hk.
  rewrite Z.land_spec, Z.bits_0, Z.shiftl_spec by done.
  destruct (Z.lt_ge_cases k n) as [Hlt | Hge].
  - by rewrite Z.testbit_neg_r by lia.
  - rewrite <- (Z.mod_small lo (2 ^ n)), Z.mod_pow2_bits_high by lia.
    apply andb_false_r.
Qed.

(** [binary.BigEndian.PutUint16] and [binary.BigEndian.Uint16]. *)
Definition put_be16 (z : Z) : list Z :=
  [Z.shiftr (u16 z) 8; Z.land (u16 z) 255].
Definition get_be16 (hi lo : Z) : Z := Z.lor (Z.shiftl hi 8) lo.

#[global] Arguments put_be16 : simpl never.
#[global] Arguments get_be16 : simpl never.

Lemma put_be16_divmod z : put_be16 z = [u16 z / 256; u16 z mod 256].
Proof.
  unfold put_be16. change 255 with (Z.ones 8).
  by rewrite Z.land_ones, Z.shiftr_div_pow2 by lia.
Qed.

Lemma get_be16_add hi lo : is_byte lo -> get_be16 hi lo = hi * 256 + lo.
Proof. intros. unfold get_be16. rewrite lor_shiftl_add; [done | lia | done]. Qed.

Lemma get_put_be16 z : get_be16 (u16 z / 256) (u16 z mod 256) = u16 z.
Proof.
  rewrite get_be16_add by (apply Z.mod_pos_bound; lia).
  pose proof (Z.div_mod (u16 z) 256 ltac:(lia)). lia.
Qed.

Lemma put_be16_bytes z : Forall is_byte (put_be16 z).
Proof.
  rewrite put_be16_divmod. unfold is_byte, u16.
  pose proof (Z.mod_pos_bound z 65536 ltac:(lia)).
  repeat constructor; try (apply Z.mod_pos_bound; lia).
  - apply Z.div_pos; lia.
  - apply Z.div_lt_upper_bound; lia.
Qed.

(** ** Bytes and strings: Go's [[]byte(s)] and [string(b)] *)

Definition char_code (a : ascii) : Z := Z.of_N (N_of_ascii a).
Definition char_of (z : Z) : ascii := ascii_of_N (Z.to_N (u8 z)).

Fixpoint bytes_of_string (s : string) : list Z :=
  match s with
  | EmptyString => []
  | String a s => char_code a :: bytes_of_string s
  end.

Fixpoint string_of_bytes (b : list Z) : string :=
  match b with
  | [] => EmptyString
  | z :: b => String (char_of z) (string_of_bytes b)
  end.

Lemma char_code_byte a : is_byte (char_code a).
Proof.
  unfold char_code, is_byte. pose proof (N_ascii_bounded a). lia.
Qed.

Lemma char_of_char_code a : char_of (char_code a) = a.
Proof.
  unfold char_of. rewrite u8_id by apply char_code_byte.
  unfold char_code. rewrite N2Z.id. apply ascii_N_embedding.
Qed.

Lemma char_code_of_byte z : is_byte z -> char_code (char_of z) = z.
Proof.
  intros Hz. unfold char_code, char_of. rewrite u8_id by done.
  unfold is_byte in Hz. rewrite N_ascii_embedding by lia. lia.
Qed.

Lemma string_of_bytes_of_string s : string_of_bytes (bytes_of_string s) = s.
Proof. induction s; simpl; [done |]. rewrite char_of_char_code. congruence. Qed.

Lemma bytes_of_string_of_bytes b :
  Forall is_byte b -> bytes_of_string (string_of_bytes b) = b.
Proof.
  induction 1; simpl; [done |]. rewrite char_code_of_byte by done. congruence.
Qed.

Lemma bytes_of_string_bytes s : Forall is_byte (bytes_of_string s).
Proof. induction s; simpl; constructor; auto using char_code_byte. Qed.

Lemma length_bytes_of_string s : length (bytes_of_string s) = String.length s.
Proof. induction s; simpl; congruence. Qed.

Lemma bytes_of_string_inj s t : bytes_of_string s = bytes_of_string t -> s = t.
Proof.
  intros H%(f_equal string_of_bytes). by rewrite !string_of_bytes_of_string in H.
Qed.

(** ASCII classification, as Go compares a rune against literals. *)
Definition in_range (lo hi : Z) (a : ascii) : bool :=
  (lo <=? char_code a) && (char_code a <=? hi).

(** ** Step relations: zero or more transitions *)

Section Star.
Context {S : Type} (step : S -> S -> Prop).

Inductive star : S -> S -> Prop :=
| star_refl s : star s s
| star_step s1 s2 s3 : step s1 s2 -> star s2 s3 -> star s1 s3.

Lemma star_one s1 s2 : step s1 s2 -> star s1 s2.
Proof. econstructor; [done | constructor]. Qed.

Lemma star_trans s1 s2 s3 : star s1 s2 -> star s2 s3 -> star s1 s3.
Proof. induction 1; eauto using star_step. Qed.

(** An invariant of the step relation holds in every reachable state. *)
Lemma star_invariant (I : S -> Prop) :
  (forall s1 s2, I s1 -> step s1 s2 -> I s2) ->
  forall s1 s2, star s1 s2 -> I s1 -> I s2.
Proof. intros Hstep. induction 1; eauto. Qed.

End Star.

(** ** Association lists over gmap folds and other list facts *)

Lemma foldl_snoc {A B} (f : A -> B -> A) a l x :
  foldl f a (l ++ [x]) = f (foldl f a l) x.
Proof. by rewrite foldl_app. Qed.

Lemma foldl_invariant {A B} (I : A -> Prop) (f : A -> B -> A) l a :
  (forall a b, I a -> I (f a b)) -> I a -> I (foldl f a l).
Proof. intros Hf. revert a. induction l; simpl; auto. Qed.

(** ** Tactics *)

(** Case on the boolean comparisons and conditionals of a handler, keeping
    each guard as an arithmetic fact. *)
Ltac case_bool :=
  match goal with
  | |- context [if (?x <=? ?y) then _ else _] => destruct (Z.leb_spec x y)
  | |- context [if (?x <? ?y) then _ else _] => destruct (Z.ltb_spec x y)
  | |- context [if (?x =? ?y) then _ else _] => destruct (Z.eqb_spec x y)
  | |- context [if negb ?b then _ else _] => destruct b eqn:?
  | |- context [if ?b then _ else _] => destruct b eqn:?
  end; simpl in *.

Ltac destruct_guards :=
  repeat match goal with
  | H : (_ && _)%bool = true |- _ => apply andb_true_iff in H as [? ?]
  | H : negb _ = true |- _ => apply negb_true_iff in H
  | H : negb _ = false |- _ => apply negb_false_iff in H
  | H : (_ <? _) = true |- _ => apply Z.ltb_lt in H
  | H : (_ <? _) = false |- _ => apply Z.ltb_ge in H
  | H : (_ <=? _) = true |- _ => apply Z.leb_le in H
  | H : (_ <=? _) = false |- _ => apply Z.leb_gt in H
  | H : (_ =? _) = true |- _ => apply Z.eqb_eq in H
  | H : (_ =? _) = false |- _ => apply Z.eqb_neq in H
  | H : String.eqb _ _ = true |- _ => apply String.eqb_eq in H
  | H : String.eqb _ _ = false |- _ => apply String.eqb_neq in H
  | H : bool_decide _ = true |- _ => apply bool_decide_eq_true in H
  | H : bool_decide _ = false |- _ => apply bool_decide_eq_false in H
  end.

Create HintDb go discriminated.
Create Rewrite HintDb go.
#[export] Hint Resolve u8_byte char_code_byte bytes_of_string_bytes put_be16_bytes : go.
#[export] Hint Resolve star_refl star_one : go.
#[export] Hint Rewrite string_of_bytes_of_string length_bytes_of_string : go.

(** ** The first element in an order: [ORDER BY ... LIMIT 1] *)

Section MinBy.
Context {A : Type} (le : A -> A -> bool).
Hypothesis le_refl : forall a, le a a = true.
Hypothesis le_total : forall a b, le a b = false -> le b a = true.
Hypothesis le_trans : forall a b c, le a b = true -> le b c = true -> le a c = true.

Fixpoint min_by (l : list A) : option A :=
  match l with
  | [] => None
  | a :: l =>
      match min_by l with
      | None => Some a
      | Some b => Some (if le a b then a else b)
      end
  end.

Lemma min_by_spec l :
  match min_by l with
  | None => l = []
  | Some a => a ∈ l /\ forall b, b ∈ l -> le a b = true
  end.
Proof using le_refl le_total le_trans.
  induction l as [| a l IH]; simpl; [done |]. destruct (min_by l) as [b|].
  - destruct IH as [Hb Hmin]. destruct (le a b) eqn:Hab.
    + split; [by left |]. intros c [-> | Hc]%elem_of_cons; [apply le_refl |].
      eapply le_trans; [exact Hab | by apply Hmin].
    + split; [by right |]. intros c [-> | Hc]%elem_of_cons; [by apply le_total | by apply Hmin].
  - subst l. split; [by left |]. intros c [-> | []%elem_of_nil]%elem_of_cons. apply le_refl.
Qed.
End MinBy.

(** Filtering by a boolean, as membership. *)
Lemma elem_of_filterb {A} (f : A -> bool) (l : list A) (x : A) :
  x ∈ List.filter f l <-> x ∈ l /\ f x = true.
Proof. by rewrite !list_elem_of_In, filter_In. Qed.

Lemma filter_none {A} (f : A -> bool) (l : list A) :
  (forall x, x ∈ l -> f x = false) -> List.filter f l = [].
Proof.
  induction l as [| a l IH]; intros Hf; simpl; [done |].
  rewrite Hf by set_solver. apply IH. set_solver.
Qed.
