(* ===== verification/Rows.v ===== *)
(** * Rows of a table: listings in id order, and sums

    What the statements of the stores share: a table is a [gmap] from ids to
    rows, a listing is its rows in id order, and an aggregate is a sum over
    them that does not depend on how the map enumerates them. *)

From S2P Require Import Prelude.
From stdpp Require Import sorting.

Local Open Scope Z_scope.

(** ** Sums *)

Definition sum_by {A} (f : A -> Z) (l : list A) : Z := foldr (fun x acc => f x + acc) 0 l.

Lemma sum_by_app {A} (f : A -> Z) l1 l2 : sum_by f (l1 ++ l2) = sum_by f l1 + sum_by f l2.
Proof. induction l1 as [| x l1 IH]; simpl; lia. Qed.

Lemma sum_by_ext {A B} (f : A -> Z) (g : B -> Z) (P : A -> B -> Prop) l1 l2 :
  Forall2 P l1 l2 -> (forall x y, P x y -> f x = g y) -> sum_by f l1 = sum_by g l2.
Proof. intros Hl Hp. induction Hl as [| x y l1 l2 Hxy _ IH]; simpl; [done |]. rewrite (Hp x y Hxy). lia. Qed.

Lemma filter_andb {A} (p q : A -> bool) l :
  List.filter (fun x => p x && q x) l = List.filter q (List.filter p l).
Proof.
  induction l as [| x l IH]; simpl; [done |]. destruct (p x); simpl; [| done]. by destruct (q x); rewrite IH.
Qed.

Lemma filter_comm {A} (p q : A -> bool) l : List.filter q (List.filter p l) = List.filter p (List.filter q l).
Proof. rewrite <- !filter_andb. apply List.filter_ext. intros x. apply andb_comm. Qed.

Lemma sum_by_none {A} (f : A -> Z) l : (forall x, x ∈ l -> f x = 0) -> sum_by f l = 0.
Proof.
  induction l as [| x l IH]; intros Hf; simpl; [done |]. rewrite Hf, IH; [done | | by left].
  intros y Hy. apply Hf. by right.
Qed.

(** Summing each key's elements sums them all. *)
Lemma sum_by_keys {A} (key g : A -> Z) (ks : list Z) l :
  NoDup ks -> (forall x, x ∈ l -> key x ∈ ks) ->
  sum_by (fun k => sum_by g (List.filter (fun x => key x =? k) l)) ks = sum_by g l.
Proof.
  intros Hk. induction l as [| x l IH]; intros Hin; simpl.
  { apply sum_by_none. done. }
  rewrite <- IH by (intros y Hy; apply Hin; by right). specialize (Hin x (list_elem_of_here x l)).
  clear IH. induction Hk as [| k ks Hnk Hk IH]; [by apply not_elem_of_nil in Hin |]. simpl.
  destruct (Z.eqb_spec (key x) k) as [<- | Hne]; simpl.
  - enough (forall ks', key x ∉ ks' -> sum_by (fun k => sum_by g (if key x =? k then
      x :: List.filter (fun y => key y =? k) l else List.filter (fun y => key y =? k) l)) ks' =
      sum_by (fun k => sum_by g (List.filter (fun y => key y =? k) l)) ks') as -> by (done || lia).
    induction ks' as [| k' ks' IH']; simpl; [done |]. intros Hn. rewrite IH' by set_solver.
    rewrite (proj2 (Z.eqb_neq (key x) k')) by set_solver. done.
  - apply elem_of_cons in Hin as [? | Hin]; [done |]. specialize (IH Hin). lia.
Qed.

(** ** Rows in id order *)

Definition by_id {A} (a b : Z * A) : Prop := a.1 <= b.1.
#[global] Instance by_id_dec {A} : RelDecision (@by_id A).
Proof. intros a b. unfold by_id. apply _. Defined.

#[global] Instance by_id_trans {A} : Transitive (@by_id A).
Proof. intros a b c. unfold by_id. lia. Qed.
#[global] Instance by_id_total {A} : Total (@by_id A).
Proof. intros a b. unfold by_id. lia. Qed.

(** Rows of a table in id order depend on the rows alone. *)
Lemma sorted_rows {A} (p : Z * A -> bool) (m1 m2 : gmap Z A) :
  (forall i x, p (i, x) = true -> m1 !! i = Some x <-> m2 !! i = Some x) ->
  merge_sort by_id (List.filter p (map_to_list m1)) = merge_sort by_id (List.filter p (map_to_list m2)).
Proof.
  intros Hm. assert (forall m : gmap Z A, NoDup (List.filter p (map_to_list m))) as Hnd.
  { intros m. apply NoDup_ListNoDup, List.NoDup_filter, NoDup_ListNoDup, NoDup_map_to_list. }
  assert (List.filter p (map_to_list m1) ≡ₚ List.filter p (map_to_list m2)) as Hperm.
  { apply NoDup_Permutation; [done | done |]. intros [i x]. rewrite !elem_of_filterb, !elem_of_map_to_list.
    split; intros [Hl Hp]; (split; [by apply Hm | done]). }
  apply (StronglySorted_unique_strong by_id).
  - intros [i x] [j y] Hx Hy. rewrite merge_sort_Permutation in Hx, Hy. rewrite <- Hperm in Hy.
    apply elem_of_filterb in Hx as [Hx _], Hy as [Hy _]. apply elem_of_map_to_list in Hx, Hy.
    unfold by_id. simpl. intros H1 H2. assert (i = j) as -> by lia. by simplify_eq.
  - apply StronglySorted_merge_sort; apply _.
  - apply StronglySorted_merge_sort; apply _.
  - by rewrite !merge_sort_Permutation.
Qed.

(** ** Totals of a table *)

Lemma length_sum {A} (l : list A) : Z.of_nat (length l) = sum_by (fun _ => 1) l.
Proof. induction l as [| x l IH]; simpl; lia. Qed.

Lemma sum_by_Permutation {A} (f : A -> Z) l1 l2 : l1 ≡ₚ l2 -> sum_by f l1 = sum_by f l2.
Proof. induction 1; simpl; lia. Qed.

(** Two tables with the same keys and the same value at each have the same
    total. *)
Lemma sum_tables {A} (f g : Z * A -> Z) (m1 m2 : gmap Z A) :
  (forall i, match m1 !! i, m2 !! i with
             | Some x, Some y => f (i, x) = g (i, y) | None, None => True | _, _ => False end) ->
  sum_by f (map_to_list m1) = sum_by g (map_to_list m2).
Proof.
  revert m2. induction m1 as [| i x m Hi IH] using map_ind; intros m2 Hm.
  - assert (m2 = ∅) as ->; [| by rewrite !map_to_list_empty].
    apply map_empty. intros j. specialize (Hm j). rewrite lookup_empty in Hm. by destruct (m2 !! j).
  - pose proof (Hm i) as Hx. rewrite lookup_insert, decide_True in Hx by done.
    destruct (m2 !! i) as [y |] eqn:Hy; [| done].
    rewrite (sum_by_Permutation _ _ _ (map_to_list_insert m i x Hi)).
    rewrite <- (sum_by_Permutation _ _ _ (map_to_list_delete m2 i y Hy)). simpl. rewrite Hx. f_equal.
    apply IH. intros j. specialize (Hm j). destruct (decide (i = j)) as [<- | Hne].
    + by rewrite Hi, lookup_delete, decide_True.
    + rewrite lookup_insert, decide_False in Hm by done. by rewrite lookup_delete, decide_False.
Qed.

(** An optional key without duplicates names its element. *)
Lemma omap_NoDup_inj {A B} (f : A -> option B) (l : list A) x y b :
  NoDup (omap f l) -> x ∈ l -> y ∈ l -> f x = Some b -> f y = Some b -> x = y.
Proof.
  induction l as [| a l IH]; [by intros _ ?%not_elem_of_nil |].
  intros Hnd Hx Hy Hfx Hfy. simpl in Hnd.
  assert (forall z, z ∈ l -> f z = Some b -> f a = Some b -> False) as Hout.
  { intros z Hz Hfz Hfa. rewrite Hfa in Hnd. apply NoDup_cons in Hnd as [Hn _].
    apply Hn, list_elem_of_omap. eauto. }
  assert (NoDup (omap f l)) as Hnd' by (destruct (f a); [by apply NoDup_cons in Hnd as [_ ?] | done]).
  apply elem_of_cons in Hx as [-> | Hx], Hy as [-> | Hy]; [done | | |]; [exfalso; eauto .. | eauto].
Qed.
