(* ===== verification/GoStrings.v ===== *)
(** * Go's strings and strconv, as the sources use them

    [strings.TrimSpace], [ToUpper], [ReplaceAll], [SplitN(s, sep, 2)],
    [strconv.ParseUint] and [FormatInt] on ASCII text. Bytes above 127 are
    never spaces, letters or digits here. *)

From S2P Require Import Prelude.
From Stdlib Require Import Ascii.
From stdpp Require Export pretty.

Open Scope Z_scope.


Fixpoint map_string (f : ascii -> ascii) (s : string) : string :=
  match s with
  | EmptyString => EmptyString
  | String c s => String (f c) (map_string f s)
  end.

Definition is_space (c : ascii) : bool := in_range 9 13 c || Ascii.eqb c " ".
Definition is_decimal (c : ascii) : bool := in_range 48 57 c.
Definition upper_char (c : ascii) : ascii :=
  if in_range 97 122 c then char_of (char_code c - 32) else c.

Definition to_upper : string -> string := map_string upper_char.

Fixpoint trim_left (s : string) : string :=
  match s with
  | EmptyString => EmptyString
  | String c s' => if is_space c then trim_left s' else s
  end.

Fixpoint trim_right (s : string) : string :=
  match s with
  | EmptyString => EmptyString
  | String c s =>
      match trim_right s with
      | EmptyString => if is_space c then EmptyString else String c EmptyString
      | t => String c t
      end
  end.

Definition trim_space (s : string) : string := trim_right (trim_left s).

(** [strings.ReplaceAll(s, c, EmptyString)] for a one-byte [c]. *)
Fixpoint remove_char (c : ascii) (s : string) : string :=
  match s with
  | EmptyString => EmptyString
  | String a s => if Ascii.eqb a c then remove_char c s else String a (remove_char c s)
  end.

(** The two halves of [strings.SplitN(s, sep, 2)], or [strings.Cut]. *)
Fixpoint cut (c : ascii) (s : string) : option (string * string) :=
  match s with
  | EmptyString => None
  | String a s =>
      if Ascii.eqb a c then Some (EmptyString, s)
      else match cut c s with Some (x, y) => Some (String a x, y) | None => None end
  end.

(** [strings.Split(s, c)] for a one-byte [c]. *)
Fixpoint split_on (c : ascii) (s : string) : list string :=
  match s with
  | EmptyString => [EmptyString]
  | String a s =>
      if Ascii.eqb a c then EmptyString :: split_on c s
      else match split_on c s with
           | [] => [String a EmptyString]
           | x :: l => String a x :: l
           end
  end.

Fixpoint last_char (s : string) : option (string * ascii) :=
  match s with
  | EmptyString => None
  | String a s =>
      match last_char s with
      | None => Some (EmptyString, a)
      | Some (x, l) => Some (String a x, l)
      end
  end.

(** [strings.ToLower] on ASCII. *)
Definition lower_char (c : ascii) : ascii :=
  if in_range 65 90 c then char_of (char_code c + 32) else c.
Definition to_lower : string -> string := map_string lower_char.

(** [strconv.ParseUint(s, 10, bits)], with [max = 2^bits - 1]. *)
Fixpoint digits_value (acc : Z) (s : string) : option Z :=
  match s with
  | EmptyString => Some acc
  | String c s =>
      if is_decimal c then digits_value (10 * acc + (char_code c - 48)) s else None
  end.

Definition parse_uint (max : Z) (s : string) : option Z :=
  match s with
  | EmptyString => None
  | _ =>
      match digits_value 0 s with
      | Some n => if n <=? max then Some n else None
      | None => None
      end
  end.

(** [strconv.Atoi]: the value on success. *)
Definition atoi (s : string) : option Z :=
  match s with
  | String c t =>
      if Ascii.eqb c "+" then parse_uint max_int64 t
      else if Ascii.eqb c "-" then option_map Z.opp (parse_uint (max_int64 + 1) t)
      else parse_uint max_int64 s
  | EmptyString => None
  end.

Definition format_int (z : Z) : string := pretty z.

(** fmt's [%0nd] *)
Fixpoint zeros (n : nat) : string := match n with O => EmptyString | S n => String "0" (zeros n) end.

Definition padded (n : nat) (z : Z) : string :=
  let digits := format_int (Z.abs z) in
  let sign := if z <? 0 then "-"%string else EmptyString in
  sign +:+ zeros (n - String.length digits - String.length sign) +:+ digits.

(** [io.LimitReader]: at most [n] bytes. *)
Fixpoint limited (n : Z) (s : string) : string :=
  match s with
  | EmptyString => EmptyString
  | String a s => if n <=? 0 then EmptyString else String a (limited (n - 1) s)
  end.

(** What a text column accepts: UTF-8 without the zero byte. *)
Definition continuation (lo hi z : Z) : bool := (lo <=? z) && (z <=? hi).

Fixpoint utf8 (b : list Z) : bool :=
  match b with
  | [] => true
  | z :: b =>
      if (1 <=? z) && (z <=? 127) then utf8 b
      else if (194 <=? z) && (z <=? 223) then
        match b with c1 :: b => continuation 128 191 c1 && utf8 b | _ => false end
      else if (224 <=? z) && (z <=? 239) then
        match b with
        | c1 :: c2 :: b =>
            continuation (if z =? 224 then 160 else 128) (if z =? 237 then 159 else 191) c1 &&
            continuation 128 191 c2 && utf8 b
        | _ => false
        end
      else if (240 <=? z) && (z <=? 244) then
        match b with
        | c1 :: c2 :: c3 :: b =>
            continuation (if z =? 240 then 144 else 128) (if z =? 244 then 143 else 191) c1 &&
            continuation 128 191 c2 && continuation 128 191 c3 && utf8 b
        | _ => false
        end
      else false
  end.

Definition pg_text (s : string) : bool := utf8 (bytes_of_string s).

(** VARCHAR(n): at most [n] characters. *)
Definition runes (s : string) : nat :=
  length (List.filter (fun z => negb (continuation 128 191 z)) (bytes_of_string s)).

Definition fits (n : nat) (s : string) : bool := pg_text s && (runes s <=? n)%nat.

(** ** Facts *)

#[local] Arguments String.append : simpl nomatch.

Fixpoint string_forall (p : ascii -> bool) (s : string) : bool :=
  match s with EmptyString => true | String c s => p c && string_forall p s end.

Lemma string_forall_app p s t :
  string_forall p (s +:+ t) = string_forall p s && string_forall p t.
Proof. induction s as [|c s IH]; simpl; [done | by rewrite IH, andb_assoc]. Qed.

Lemma string_forall_impl (p q : ascii -> bool) s :
  (forall c, p c = true -> q c = true) -> string_forall p s = true -> string_forall q s = true.
Proof.
  intros Hpq. induction s as [|c s IH]; simpl; [done |].
  rewrite !andb_true_iff. intros [Hc Hs]. auto.
Qed.

Lemma string_app_nil_r s : s +:+ EmptyString = s.
Proof. induction s; simpl; congruence. Qed.

Lemma string_app_assoc s t u : (s +:+ t) +:+ u = s +:+ (t +:+ u).
Proof. induction s; simpl; congruence. Qed.

Lemma string_app_length s t :
  String.length (s +:+ t) = (String.length s + String.length t)%nat.
Proof. induction s; simpl; congruence. Qed.

Definition numeral_char (c : ascii) : bool := is_decimal c || Ascii.eqb c "-".

Lemma pretty_N_char_numeral y : numeral_char (pretty_N_char y) = true.
Proof. destruct y as [|p]; [done |]. by do 4 (destruct p as [p|p|]; try done). Qed.

Lemma pretty_N_go_decimal x s :
  string_forall numeral_char s = true -> string_forall numeral_char (pretty_N_go x s) = true.
Proof.
  revert s. induction (N.lt_wf_0 x) as [x _ IH]; intros s Hs.
  destruct (decide (0 < x)%N) as [Hx|].
  - rewrite pretty_N_go_step by done. apply IH; [by apply N.div_lt |]. simpl.
    apply andb_true_iff. split; [apply pretty_N_char_numeral | done].
  - replace x with 0%N by lia. by rewrite pretty_N_go_0.
Qed.

Lemma format_int_chars z : string_forall numeral_char (format_int z) = true.
Proof.
  unfold format_int, pretty, pretty_Z. destruct z as [|p|p]; [done | |].
  all: unfold pretty_positive, pretty, pretty_N; case_decide; [done |];
    simpl; by apply pretty_N_go_decimal.
Qed.

Lemma format_int_inj z w : format_int z = format_int w -> z = w.
Proof. apply pretty_Z_inj. Qed.

(** Splitting at the last separator is unambiguous when the tail has none. *)
Lemma app_sep_inj c a b x y :
  string_forall (fun d => negb (Ascii.eqb d c)) x = true ->
  string_forall (fun d => negb (Ascii.eqb d c)) y = true ->
  a +:+ String c x = b +:+ String c y -> a = b /\ x = y.
Proof.
  intros Hx Hy. revert b. induction a as [|k a IH]; intros [|l b]; simpl; intros E.
  - by injection E.
  - injection E as -> ->. rewrite string_forall_app in Hx. simpl in Hx.
    rewrite Ascii.eqb_refl in Hx. by rewrite andb_false_r in Hx.
  - injection E as -> <-. rewrite string_forall_app in Hy. simpl in Hy.
    rewrite Ascii.eqb_refl in Hy. by rewrite andb_false_r in Hy.
  - injection E as -> E. by destruct (IH b E) as [-> ->].
Qed.

(** Splitting after the longest run of [p] characters is unambiguous. *)
Definition stops (p : ascii -> bool) (s : string) : Prop :=
  match s with String c _ => p c = false | EmptyString => True end.

Lemma span_inj p a b x y :
  string_forall p a = true -> string_forall p b = true -> stops p x -> stops p y ->
  a +:+ x = b +:+ y -> a = b /\ x = y.
Proof.
  revert b. induction a as [| k a IH]; intros [| l b]; simpl; intros Ha Hb Hx Hy E.
  - done.
  - subst x. simpl in Hx. by rewrite Hx in Hb.
  - subst y. simpl in Hy. by rewrite Hy in Ha.
  - apply andb_true_iff in Ha as [_ Ha], Hb as [_ Hb]. injection E as -> E.
    by destruct (IH b Ha Hb Hx Hy E) as [-> ->].
Qed.

Lemma digits_value_nonneg s acc n : 0 <= acc -> digits_value acc s = Some n -> 0 <= n.
Proof.
  revert acc. induction s as [|c s IH]; simpl; intros acc Ha H; [by simplify_eq |].
  destruct (is_decimal c) eqn:Hc; [| done]. apply IH in H; [done |].
  unfold is_decimal, in_range in Hc. destruct_guards. lia.
Qed.

Lemma parse_uint_range max s n : parse_uint max s = Some n -> 0 <= n <= max.
Proof.
  unfold parse_uint. destruct s as [|c s]; [done |].
  destruct (digits_value 0 (String c s)) as [m|] eqn:Hm; [| done].
  destruct (Z.leb_spec m max); [| done]. intros [= <-].
  apply digits_value_nonneg in Hm; lia.
Qed.

Lemma cut_app c a b :
  string_forall (fun d => negb (Ascii.eqb d c)) a = true -> cut c (a +:+ String c b) = Some (a, b).
Proof.
  induction a as [|d a IH]; simpl; [by rewrite Ascii.eqb_refl |].
  rewrite andb_true_iff, negb_true_iff. intros [-> Ha]. by rewrite IH.
Qed.

Lemma split_on_none c a :
  string_forall (fun d => negb (Ascii.eqb d c)) a = true -> split_on c a = [a].
Proof.
  induction a as [|d a IH]; simpl; [done |].
  rewrite andb_true_iff, negb_true_iff. intros [-> Ha]. by rewrite IH.
Qed.

Lemma split_on_app c a b :
  string_forall (fun d => negb (Ascii.eqb d c)) a = true ->
  split_on c (a +:+ String c b) = a :: split_on c b.
Proof.
  induction a as [|d a IH]; simpl; [by rewrite Ascii.eqb_refl |].
  rewrite andb_true_iff, negb_true_iff. intros [-> Ha]. by rewrite IH.
Qed.

Lemma last_char_app s c : last_char (s +:+ String c EmptyString) = Some (s, c).
Proof. induction s as [|d s IH]; simpl; [done | by rewrite IH]. Qed.

#[export] Hint Rewrite string_app_nil_r string_app_assoc string_app_length : go.
