(* ===== verification/Dates.v ===== *)
(** * Calendar dates

    The proleptic Gregorian calendar as Go's [time] package and PostgreSQL's
    [date] use it: days are counted from 1970-01-01, [parse_date] is
    [time.Parse] with the layout [2006-01-02], and an instant is a number of
    nanoseconds since that day. *)

From S2P Require Import Prelude GoStrings.
From Stdlib Require Import Ascii.

Local Open Scope Z_scope.

Module Dates.

Definition second : Z := 1000000000.
Definition day : Z := 86400 * second.

Definition date : Type := (Z * Z * Z)%type.

(** The civil date of a day number. *)
Definition civil (days : Z) : date :=
  let z := days + 719468 in
  let era := z / 146097 in
  let doe := z mod 146097 in
  let yoe := (doe - doe / 1460 + doe / 36524 - doe / 146096) / 365 in
  let doy := doe - (365 * yoe + yoe / 4 - yoe / 100) in
  let mp := (5 * doy + 2) / 153 in
  let m := if mp <? 10 then mp + 3 else mp - 9 in
  (yoe + era * 400 + (if m <=? 2 then 1 else 0), m, doy - (153 * mp + 2) / 5 + 1).

(** The day number of a civil date. *)
Definition day_number (d : date) : Z :=
  let '(y, m, d) := d in
  let y := if m <=? 2 then y - 1 else y in
  let yoe := y mod 400 in
  let doy := (153 * (if 2 <? m then m - 3 else m + 9) + 2) / 5 + d - 1 in
  y / 400 * 146097 + (yoe * 365 + yoe / 4 - yoe / 100 + doy) - 719468.

Definition leap (y : Z) : bool := (y mod 4 =? 0) && (negb (y mod 100 =? 0) || (y mod 400 =? 0)).

Definition days_in_month (y m : Z) : Z :=
  if m =? 2 then if leap y then 29 else 28
  else if (m =? 4) || (m =? 6) || (m =? 9) || (m =? 11) then 30 else 31.

Definition digit (a : ascii) : option Z := if is_decimal a then Some (char_code a - 48) else None.

Fixpoint number (acc : Z) (l : list ascii) : option Z :=
  match l with
  | [] => Some acc
  | a :: l => d ← digit a; number (acc * 10 + d) l
  end.

Definition parse_date (s : string) : option date :=
  match String.list_ascii_of_string s with
  | [y1; y2; y3; y4; d1; m1; m2; d2; a; b] =>
      y ← number 0 [y1; y2; y3; y4]; m ← number 0 [m1; m2]; d ← number 0 [a; b];
      if Ascii.eqb d1 "-" && Ascii.eqb d2 "-" && (1 <=? m) && (m <=? 12) && (1 <=? d) && (d <=? days_in_month y m)
      then Some (y, m, d) else None
  | _ => None
  end.

(** [t.AddDate(years, months, days)] *)
Definition add_date (t years months days : Z) : Z :=
  let '(y, m, d) := civil (t / day) in
  let m' := m - 1 + months in
  day_number (y + years + m' / 12, m' mod 12 + 1, d + days) * day + t mod day.

(** Midnight at the start of the date, in the zone the instants are read in. *)
Definition midnight (d : date) : Z := day_number d * day.

Example calendar_examples :
  parse_date "2028-02-29" = Some (2028, 2, 29) /\ day_number (2028, 2, 29) = 21243 /\ add_date (midnight (2024, 2, 29)) 1 0 0 = midnight (2025, 3, 1) /\ civil 21243 = (2028, 2, 29) /\
  parse_date "2027-02-29" = None /\ parse_date "2026-8-1" = None /\ civil 0 = (1970, 1, 1).
Proof. vm_compute. done. Qed.

End Dates.
