(* ===== verification/Json.v ===== *)
(** * encoding/json, as the task payloads use it

    Flat objects of integers, strings and booleans: [Marshal] prints them the way
    [encoding/json] does (HTML escaping on, no white space), [Unmarshal] reads
    them back with white space and every escape below U+0080; nested values
    and fractional numbers, which no payload of the program has, are refused.
    [go_quote] is [fmt]'s [%q], which one payload is built with. Strings are
    ASCII. *)

From S2P Require Import Prelude GoStrings.
From Stdlib Require Import Ascii.
From stdpp Require Import pretty.

Local Open Scope Z_scope.

Module Json.

Inductive value : Type := VInt (z : Z) | VStr (s : string) | VBool (b : bool).

Definition object : Type := list (string * value).

Definition dquote : ascii := "034"%char.
Definition backslash : ascii := "092"%char.
Definition lower_u : ascii := "u"%char.
Definition lower_x : ascii := "x"%char.

(** ** Printing *)

Definition hex_digit (n : Z) : ascii := if n <? 10 then char_of (48 + n) else char_of (87 + n).

Definition hex2 (c : ascii) : string :=
  String (hex_digit (char_code c / 16)) (String (hex_digit (char_code c mod 16)) EmptyString).

(** The short escapes both printers know. *)
Definition short_escape (c : ascii) : option ascii :=
  let n := char_code c in
  if (n =? 34) || (n =? 92) then Some c
  else if n =? 8 then Some "b"%char
  else if n =? 12 then Some "f"%char
  else if n =? 10 then Some "n"%char
  else if n =? 13 then Some "r"%char
  else if n =? 9 then Some "t"%char
  else None.

Definition html_char (c : ascii) : bool :=
  Ascii.eqb c "<" || Ascii.eqb c ">" || Ascii.eqb c "&".

Definition escape (c : ascii) : string :=
  match short_escape c with
  | Some e => String backslash (String e EmptyString)
  | None =>
      if (char_code c <? 32) || html_char c
      then String backslash (String lower_u (String "0" (String "0" (hex2 c))))
      else String c EmptyString
  end.

Fixpoint concat_map (f : ascii -> string) (s : string) : string :=
  match s with EmptyString => EmptyString | String c s => f c +:+ concat_map f s end.

Definition quoted (body : string) : string := String dquote (body +:+ String dquote EmptyString).

Definition print_string (s : string) : string := quoted (concat_map escape s).

Definition print_value (v : value) : string :=
  match v with
  | VInt z => format_int z | VStr s => print_string s
  | VBool b => if b then "true" else "false"
  end.

(** One member whose value is already text, and an object of such members. *)
Definition member (k text : string) : string := print_string k +:+ String ":" text.

Fixpoint members (l : list (string * string)) : string :=
  match l with
  | [] => EmptyString
  | [(k, t)] => member k t
  | (k, t) :: l => member k t +:+ String "," (members l)
  end.

Definition object_text (l : list (string * string)) : string :=
  String "{" (members l +:+ String "}" EmptyString).

Definition Marshal (o : object) : string :=
  object_text (map (fun p => (p.1, print_value p.2)) o).

(** [fmt]'s [%q]. *)
Definition go_escape (c : ascii) : string :=
  match short_escape c with
  | Some e => String backslash (String e EmptyString)
  | None =>
      if char_code c =? 7 then String backslash (String "a" EmptyString)
      else if char_code c =? 11 then String backslash (String "v" EmptyString)
      else if (char_code c <? 32) || (char_code c =? 127)
      then String backslash (String lower_x (hex2 c))
      else String c EmptyString
  end.

Definition go_quote (s : string) : string := quoted (concat_map go_escape s).

(** ** Reading *)

Definition is_ws (c : ascii) : bool :=
  let n := char_code c in (n =? 32) || (n =? 9) || (n =? 10) || (n =? 13).

Fixpoint skip_ws (s : string) : string :=
  match s with String c t => if is_ws c then skip_ws t else s | EmptyString => s end.

Definition hex_value (c : ascii) : option Z :=
  if in_range 48 57 c then Some (char_code c - 48)
  else if in_range 97 102 c then Some (char_code c - 87)
  else if in_range 65 70 c then Some (char_code c - 55)
  else None.

Definition unescape (e : ascii) : option ascii :=
  let n := char_code e in
  if (n =? 34) || (n =? 92) || (n =? 47) then Some e
  else if n =? 98 then Some "008"%char
  else if n =? 102 then Some "012"%char
  else if n =? 110 then Some "010"%char
  else if n =? 114 then Some "013"%char
  else if n =? 116 then Some "009"%char
  else None.

Definition hex4 (a b c d : ascii) : option Z :=
  w ← hex_value a; x ← hex_value b; y ← hex_value c; z ← hex_value d;
  Some (((w * 16 + x) * 16 + y) * 16 + z).

Definition push (c : ascii) (r : option (string * string)) : option (string * string) :=
  match r with Some (s, rest) => Some (String c s, rest) | None => None end.

(** A string literal after its opening quote, and what follows it. *)
Fixpoint str_body (s : string) : option (string * string) :=
  match s with
  | EmptyString => None
  | String c s1 =>
      if Ascii.eqb c dquote then Some (EmptyString, s1)
      else if Ascii.eqb c backslash then
        match s1 with
        | EmptyString => None
        | String e s2 =>
            if Ascii.eqb e lower_u then
              match s2 with
              | String a (String b (String x (String y s3))) =>
                  match hex4 a b x y with
                  | Some n => if n <? 128 then push (char_of n) (str_body s3) else None
                  | None => None
                  end
              | _ => None
              end
            else match unescape e with Some d => push d (str_body s2) | None => None end
        end
      else if char_code c <? 32 then None
      else push c (str_body s1)
  end.

Fixpoint span (p : ascii -> bool) (s : string) : string * string :=
  match s with
  | EmptyString => (EmptyString, EmptyString)
  | String c t => if p c then let '(a, b) := span p t in (String c a, b) else (EmptyString, s)
  end.

Definition starts_with (p : ascii -> bool) (s : string) : bool :=
  match s with String c _ => p c | EmptyString => false end.

Definition fraction_char (c : ascii) : bool :=
  Ascii.eqb c "." || Ascii.eqb c "e" || Ascii.eqb c "E".

Definition in_int64 (z : Z) : bool := (- 2 ^ 63 <=? z) && (z <=? max_int64).

(** The digits of an integer literal: no leading zero, within int64. *)
Definition parse_digits (neg : bool) (s : string) : option (Z * string) :=
  let '(ds, rest) := span is_decimal s in
  if starts_with fraction_char rest then None
  else if starts_with (Ascii.eqb "0") ds && (1 <? Z.of_nat (String.length ds)) then None
  else
    match ds, digits_value 0 ds with
    | String _ _, Some n =>
        let n := if neg then - n else n in if in_int64 n then Some (n, rest) else None
    | _, _ => None
    end.

Definition parse_number (s : string) : option (Z * string) :=
  match s with
  | String c t => if Ascii.eqb c "-" then parse_digits true t else parse_digits false s
  | EmptyString => None
  end.

Fixpoint cut_prefix (p s : string) : option string :=
  match p, s with
  | EmptyString, _ => Some s
  | String a p, String b s => if Ascii.eqb a b then cut_prefix p s else None
  | String _ _, EmptyString => None
  end.

Definition parse_value (s : string) : option (value * string) :=
  match s with
  | String c t =>
      if Ascii.eqb c dquote
      then match str_body t with Some (x, rest) => Some (VStr x, rest) | None => None end
      else match cut_prefix "true" s, cut_prefix "false" s with
           | Some rest, _ => Some (VBool true, rest)
           | None, Some rest => Some (VBool false, rest)
           | None, None =>
               match parse_number s with Some (z, rest) => Some (VInt z, rest) | None => None end
           end
  | EmptyString => None
  end.

Definition expect (c : ascii) (s : string) : option string :=
  match skip_ws s with String d t => if Ascii.eqb d c then Some t else None | EmptyString => None end.

(** [key : value] *)
Definition parse_member (s : string) : option (string * value * string) :=
  s ← expect dquote s;
  '(k, s) ← str_body s;
  s ← expect ":" s;
  '(v, s) ← parse_value (skip_ws s);
  Some (k, v, s).

Fixpoint parse_members (fuel : nat) (s : string) : option (object * string) :=
  match fuel with
  | O => None
  | S fuel =>
      '(k, v, s) ← parse_member s;
      match expect "," s with
      | Some s => '(o, s) ← parse_members fuel s; Some ((k, v) :: o, s)
      | None => s ← expect "}" s; Some ([(k, v)], s)
      end
  end.

Definition parse_object (s : string) : option (object * string) :=
  s ← expect "{" s;
  match expect "}" s with
  | Some s => Some ([], s)
  | None => parse_members (String.length s) s
  end.

Definition Unmarshal (s : string) : option object :=
  '(o, s) ← parse_object s;
  match skip_ws s with EmptyString => Some o | String _ _ => None end.

(** A struct field of the object: the last member whose name matches up to
    case, the zero value when there is none, an error on another type. *)
Definition lookup_field (k : string) (o : object) : option value :=
  foldl (fun acc p => if String.eqb (to_lower p.1) k then Some p.2 else acc) None o.

Definition field_int (k : string) (o : object) : option Z :=
  match lookup_field k o with None => Some 0 | Some (VInt z) => Some z | Some _ => None end.
Definition field_str (k : string) (o : object) : option string :=
  match lookup_field k o with
  | None => Some EmptyString | Some (VStr s) => Some s | Some _ => None
  end.
Definition field_bool (k : string) (o : object) : option bool :=
  match lookup_field k o with
  | None => Some false | Some (VBool b) => Some b | Some _ => None
  end.

(** [json.Unmarshal] of a task's payload into the struct [build] fills. *)
Definition unmarshal {A} (build : object -> option A) (payload : list Z) : option A :=
  o ← Unmarshal (string_of_bytes payload); build o.

(** ** Strings read back *)

#[local] Arguments String.append : simpl nomatch.

Definition ascii7 (c : ascii) : bool := char_code c <? 128.

Lemma str_body_escape c rest :
  ascii7 c = true -> str_body (escape c +:+ rest) = push c (str_body rest).
Proof. by destruct c as [[] [] [] [] [] [] [] []]. Qed.

Lemma str_body_print s rest :
  string_forall ascii7 s = true ->
  str_body (concat_map escape s +:+ String dquote rest) = Some (s, rest).
Proof.
  induction s as [|c s IH]; [done |]. intros [Hc Hs]%andb_true_iff. simpl.
  rewrite string_app_assoc, str_body_escape, IH by done. done.
Qed.

(** What [%q] writes that JSON reads back. *)
Definition json_safe (c : ascii) : bool :=
  let n := char_code c in negb ((n =? 127) || ((n <? 32) && negb (bool_decide (is_Some (short_escape c))))).

Lemma str_body_go_escape c rest :
  ascii7 c = true ->
  str_body (go_escape c +:+ rest) = if json_safe c then push c (str_body rest) else None.
Proof. by destruct c as [[] [] [] [] [] [] [] []]. Qed.

Lemma str_body_go_quote s rest :
  string_forall ascii7 s = true ->
  str_body (concat_map go_escape s +:+ String dquote rest) =
  if string_forall json_safe s then Some (s, rest) else None.
Proof.
  induction s as [|c s IH]; [done |]. intros [Hc Hs]%andb_true_iff. simpl.
  rewrite string_app_assoc, str_body_go_escape, IH by done.
  destruct (json_safe c); [| done]. by destruct (string_forall json_safe s).
Qed.

(** ** Numbers read back *)

Lemma span_app p a rest :
  string_forall p a = true -> starts_with p rest = false -> span p (a +:+ rest) = (a, rest).
Proof.
  intros Ha Hr. induction a as [|c a IH]; simpl.
  - destruct rest as [|c rest]; [done |]. simpl in *. by rewrite Hr.
  - apply andb_true_iff in Ha as [-> Ha]. by rewrite IH.
Qed.

Lemma pretty_N_char_code x : (x < 10)%N -> char_code (pretty_N_char x) = 48 + Z.of_N x.
Proof. intros Hx. destruct x as [|p]; [done |]. do 4 (destruct p as [p|p|]; try done; try lia). Qed.

Lemma is_decimal_pretty x : (x < 10)%N -> is_decimal (pretty_N_char x) = true.
Proof. intros Hx. unfold is_decimal, in_range. rewrite pretty_N_char_code by done. lia. Qed.

Lemma digits_value_pretty_go x s : digits_value 0 (pretty_N_go x s) = digits_value (Z.of_N x) s.
Proof.
  revert s. induction (N.lt_wf_0 x) as [x _ IH]; intros s.
  destruct (decide (0 < x)%N) as [Hx|].
  - rewrite pretty_N_go_step by done. rewrite IH by by apply N.div_lt. simpl.
    assert (x mod 10 < 10)%N by (apply N.mod_lt; lia).
    rewrite is_decimal_pretty, pretty_N_char_code by done. f_equal.
    pose proof (N.div_mod x 10 ltac:(lia)). lia.
  - replace x with 0%N by lia. by rewrite pretty_N_go_0.
Qed.

Lemma digits_value_pretty (x : N) : digits_value 0 (pretty x) = Some (Z.of_N x).
Proof.
  unfold pretty, pretty_N. case_decide as Hx; [by subst |]. by rewrite digits_value_pretty_go.
Qed.

Lemma pretty_N_go_head x s : (0 < x)%N -> starts_with (Ascii.eqb "0") (pretty_N_go x s) = false.
Proof.
  revert s. induction (N.lt_wf_0 x) as [x _ IH]; intros s Hx.
  rewrite pretty_N_go_step by done.
  destruct (decide (0 < x / 10)%N) as [Hq|Hq]; [apply IH; [by apply N.div_lt | done] |].
  assert (x / 10 = 0)%N as Hz by (apply N.le_0_r, N.le_ngt, Hq). rewrite Hz, pretty_N_go_0. cbn [starts_with].
  assert (x < 10)%N by (apply N.div_small_iff; [done | exact Hz]). rewrite N.mod_small by done.
  apply Ascii.eqb_neq. intros E. pose proof (pretty_N_char_code x ltac:(done)) as Hc.
  rewrite <- E in Hc. change (char_code "0") with 48 in Hc. lia.
Qed.

Lemma pretty_decimal (x : N) : string_forall is_decimal (pretty x) = true.
Proof.
  assert (forall s, string_forall is_decimal s = true -> string_forall is_decimal (pretty_N_go x s) = true) as H.
  { induction (N.lt_wf_0 x) as [x _ IH]; intros s Hs. destruct (decide (0 < x)%N) as [Hx|].
    - rewrite pretty_N_go_step by done. apply IH; [by apply N.div_lt |]. simpl.
      rewrite is_decimal_pretty; [done | apply N.mod_lt; lia].
    - replace x with 0%N by lia. by rewrite pretty_N_go_0. }
  unfold pretty, pretty_N. case_decide; [done |]. by apply H.
Qed.

Lemma format_int_decimal z : 0 <= z -> string_forall is_decimal (format_int z) = true.
Proof. intros Hz. destruct z as [| p | p]; [done | apply (pretty_decimal (N.pos p)) | lia]. Qed.

Lemma pretty_no_leading_zero (x : N) :
  starts_with (Ascii.eqb "0") (pretty x) && (1 <? Z.of_nat (String.length (pretty x))) = false.
Proof.
  unfold pretty, pretty_N. case_decide; [done |]. by rewrite pretty_N_go_head by lia.
Qed.

Lemma pretty_nonempty (x : N) : pretty x <> EmptyString.
Proof. intros E. pose proof (digits_value_pretty x) as H. rewrite E in H. simpl in H.
  injection H as H. destruct x; [done | lia]. Qed.

Lemma parse_digits_pretty (x : N) (neg : bool) rest :
  starts_with is_decimal rest = false -> starts_with fraction_char rest = false ->
  let z := if neg then - Z.of_N x else Z.of_N x in
  in_int64 z = true -> parse_digits neg (pretty x +:+ rest) = Some (z, rest).
Proof.
  intros Hd Hf z Hz. unfold parse_digits.
  rewrite (span_app is_decimal (pretty x) rest (pretty_decimal x) Hd), Hf, pretty_no_leading_zero.
  pose proof (digits_value_pretty x) as Hv. pose proof (pretty_nonempty x).
  destruct (pretty x); [done |]. rewrite Hv. cbn zeta. fold z. by rewrite Hz.
Qed.

Lemma parse_number_pretty (x : N) rest :
  starts_with is_decimal rest = false -> starts_with fraction_char rest = false ->
  in_int64 (Z.of_N x) = true -> parse_number (pretty x +:+ rest) = Some (Z.of_N x, rest).
Proof.
  intros Hd Hf Hz. rewrite <- (parse_digits_pretty x false rest Hd Hf Hz).
  pose proof (pretty_decimal x) as Hp. pose proof (pretty_nonempty x).
  destruct (pretty x) as [|c t]; [done |]. simpl in Hp |- *. apply andb_true_iff in Hp as [Hc _].
  by destruct (Ascii.eqb_spec c "-") as [-> |].
Qed.

Lemma parse_number_format z rest :
  in_int64 z = true -> starts_with is_decimal rest = false -> starts_with fraction_char rest = false ->
  parse_number (format_int z +:+ rest) = Some (z, rest).
Proof.
  intros Hz Hd Hf. destruct z as [|p|p].
  - by apply (parse_number_pretty 0).
  - by apply (parse_number_pretty (N.pos p)).
  - by apply (parse_digits_pretty (N.pos p) true).
Qed.

(** ** Objects read back *)

#[local] Arguments expect : simpl never.


#[local] Arguments parse_member : simpl never.

Definition ends_value (s : string) : Prop :=
  starts_with is_decimal s = false /\ starts_with fraction_char s = false.

(** [text] reads back as [v] in front of anything that ends a value. *)
Definition reads (text : string) (v : value) : Prop :=
  starts_with is_ws text = false /\
  forall rest, ends_value rest -> parse_value (text +:+ rest) = Some (v, rest).

Definition value_ok (v : value) : bool :=
  match v with VInt z => in_int64 z | VStr s => string_forall ascii7 s | VBool _ => true end.

Lemma quoted_reads body s :
  (forall rest, str_body (body +:+ String dquote rest) = Some (s, rest)) -> reads (quoted body) (VStr s).
Proof.
  intros Hb. split; [done |]. intros rest _. unfold quoted. simpl.
  rewrite string_app_assoc. simpl. by rewrite Hb.
Qed.

Lemma format_int_head z : exists c t, format_int z = String c t /\ (is_decimal c || Ascii.eqb c "-") = true.
Proof.
  pose proof (format_int_chars z) as H. destruct (format_int z) as [|c t] eqn:E.
  - exfalso. unfold format_int, pretty, pretty_Z, pretty_positive in E.
    destruct z; [done | by apply pretty_nonempty in E | done].
  - exists c, t. split; [done |]. by apply andb_true_iff in H as [H _].
Qed.

Lemma print_value_reads v : value_ok v = true -> reads (print_value v) v.
Proof.
  destruct v as [z|s|b]; simpl; intros Hv.
  - destruct (format_int_head z) as (c & t & Hc & Hd). split.
    + rewrite Hc. simpl. apply orb_true_iff in Hd as [Hd | Hd%Ascii.eqb_eq]; [| by subst].
      unfold is_decimal, is_ws, in_range in *. lia.
    + intros rest [He Hf]. pose proof (parse_number_format z rest Hv He Hf) as Hp.
      rewrite Hc in Hp |- *. cbn [String.append parse_value cut_prefix] in Hp |- *.
      destruct (Ascii.eqb_spec c dquote) as [-> |]; [done |].
      assert (Ascii.eqb "t" c = false /\ Ascii.eqb "f" c = false) as [-> ->].
      { split; apply Ascii.eqb_neq; intros <-; vm_compute in Hd; done. }
      by rewrite Hp.
  - apply quoted_reads. intros rest. by apply str_body_print.
  - destruct b; split; done.
Qed.

#[local] Arguments parse_value : simpl never.
#[local] Arguments str_body : simpl never.

Lemma expect_here c rest : is_ws c = false -> expect c (String c rest) = Some rest.
Proof. intros Hc. unfold expect. simpl. by rewrite Hc, Ascii.eqb_refl. Qed.

Lemma expect_other c d rest : is_ws d = false -> c <> d -> expect c (String d rest) = None.
Proof. intros Hd Hn. unfold expect. simpl. rewrite Hd. by destruct (Ascii.eqb_spec d c) as [-> |]. Qed.

Lemma skip_ws_reads text rest : text <> EmptyString -> starts_with is_ws text = false ->
  skip_ws (text +:+ rest) = text +:+ rest.
Proof. destruct text as [|c t]; [done |]. simpl. by intros _ ->. Qed.

Lemma reads_nonempty text v : reads text v -> text <> EmptyString.
Proof. intros [_ H] ->. by specialize (H EmptyString (conj eq_refl eq_refl)). Qed.

Lemma parse_member_reads k text v rest :
  string_forall ascii7 k = true -> reads text v -> ends_value rest ->
  parse_member (member k text +:+ rest) = Some (k, v, rest).
Proof.
  intros Hk Hr He. unfold parse_member, member, print_string, quoted. simpl.
  rewrite !string_app_assoc. simpl. rewrite str_body_print by done. simpl.
  rewrite skip_ws_reads; [| by eapply reads_nonempty | by destruct Hr].
  destruct Hr as [_ Hr]. by rewrite Hr.
Qed.

#[local] Arguments member : simpl never.

(** Members given as text, and the values they read back as. *)
Definition all_read (l : list (string * string)) (o : object) : Prop :=
  Forall2 (fun p q => p.1 = q.1 /\ string_forall ascii7 p.1 = true /\ reads p.2 q.2) l o.

Lemma parse_members_reads l o rest fuel :
  all_read l o -> l <> [] -> (length l <= fuel)%nat ->
  parse_members fuel (members l +:+ String "}" rest) = Some (o, rest).
Proof.
  intros H. revert fuel. induction H as [|[k t] [k' v] l o (Hkk & Hk & Hr) Hall IH]; [done |].
  cbn [fst snd] in Hkk, Hk, Hr. subst k'. intros [|fuel] _ Hf; simpl in Hf; [lia |].
  destruct l as [|p l].
  - inversion Hall; subst. cbn [members parse_members].
    rewrite (parse_member_reads k t v) by done. done.
  - cbn [members parse_members]. rewrite string_app_assoc. cbn [String.append].
    rewrite (parse_member_reads k t v) by done. cbn [mbind option_bind].
    rewrite expect_here by done. rewrite IH; [done | done | simpl in *; lia].
Qed.

Lemma length_members l : (length l <= String.length (members l))%nat.
Proof.
  induction l as [|[k t] l IH]; [done |].
  assert (1 <= String.length (member k t))%nat by (unfold member, print_string, quoted; simpl; lia).
  destruct l as [|p l]; [done |]. set (q := p :: l) in *.
  change (members ((k, t) :: q)) with (member k t +:+ String "," (members q)).
  rewrite string_app_length. cbn [String.length length]. lia.
Qed.

Lemma Unmarshal_text l o :
  all_read l o -> Unmarshal (object_text l) = Some o.
Proof.
  intros H. unfold Unmarshal, object_text, parse_object. rewrite expect_here by done. simpl.
  destruct l as [|[k t] l].
  - by inversion H.
  - assert (exists m, members ((k, t) :: l) = String dquote m) as [m Hm]
      by (destruct l; unfold member, print_string, quoted; eauto).
    pose proof (length_members ((k, t) :: l)) as Hlen.
    pose proof (parse_members_reads _ _ EmptyString
      (String.length (members ((k, t) :: l) +:+ String "}" EmptyString)) H) as Hp.
    rewrite Hm in Hp, Hlen |- *. simpl String.append in Hp |- *. rewrite expect_other by done.
    rewrite Hp; [done | done |]. simpl in *. rewrite string_app_length. lia.
Qed.

Lemma all_read_values o :
  Forall (fun p => string_forall ascii7 p.1 = true /\ value_ok p.2 = true) o ->
  all_read (map (fun p => (p.1, print_value p.2)) o) o.
Proof.
  unfold all_read. induction 1 as [|[k v] o [Hk Hv] _ IH]; constructor; [| done].
  split; [done |]. split; [done | by apply print_value_reads].
Qed.

(** What [Marshal] prints, [Unmarshal] reads back. *)
Lemma Unmarshal_Marshal o :
  Forall (fun p => string_forall ascii7 p.1 = true /\ value_ok p.2 = true) o ->
  Unmarshal (Marshal o) = Some o.
Proof. intros H. by apply Unmarshal_text, all_read_values. Qed.

Definition ascii_text (s : string) : bool := string_forall ascii7 s.

Lemma unmarshal_text {A} (build : object -> option A) l o :
  all_read l o -> unmarshal build (bytes_of_string (object_text l)) = build o.
Proof.
  intros H. unfold unmarshal. rewrite string_of_bytes_of_string, (Unmarshal_text l o) by done. done.
Qed.

Lemma unmarshal_marshal {A} (build : object -> option A) o :
  Forall (fun p => ascii_text p.1 = true /\ value_ok p.2 = true) o ->
  unmarshal build (bytes_of_string (Marshal o)) = build o.
Proof. intros H. by apply unmarshal_text, all_read_values. Qed.

(** A member whose value does not read back makes the whole text unreadable. *)
Definition refuses (text : string) : Prop :=
  text <> EmptyString /\ starts_with is_ws text = false /\
  forall rest, parse_value (text +:+ rest) = None.

Lemma parse_member_refuses k text rest :
  string_forall ascii7 k = true -> refuses text -> parse_member (member k text +:+ rest) = None.
Proof.
  intros Hk (Hn & Hw & Hr). unfold parse_member, member, print_string, quoted. simpl.
  rewrite !string_app_assoc. simpl. rewrite str_body_print by done. simpl.
  rewrite skip_ws_reads by done. by rewrite Hr.
Qed.

Lemma parse_members_refuses l o k t l2 rest fuel :
  all_read l o -> string_forall ascii7 k = true -> refuses t ->
  parse_members fuel (members (l ++ (k, t) :: l2) +:+ String "}" rest) = None.
Proof.
  intros H Hk Ht. revert fuel. induction H as [|[k' t'] [k'' v] l o (Hkk & Hk' & Hr) Hall IH]; intros [|fuel]; try done.
  - cbn [app parse_members]. assert (exists x, members ((k, t) :: l2) +:+ String "}" rest = member k t +:+ x) as [x ->].
    { destruct l2 as [|p l2]; [by eexists |]. cbn [members]. rewrite string_app_assoc. by eexists. }
    by rewrite parse_member_refuses.
  - cbn [fst snd] in Hk', Hr. set (q := l ++ (k, t) :: l2) in *.
    assert (members ((k', t') :: q) = member k' t' +:+ String "," (members q)) as Hm
      by (unfold q; by destruct l).
    change (((k', t') :: l) ++ (k, t) :: l2) with ((k', t') :: q). rewrite Hm, string_app_assoc.
    cbn [parse_members String.append]. rewrite (parse_member_reads k' t' v) by done.
    cbn [mbind option_bind]. rewrite expect_here by done. by rewrite IH.
Qed.

Lemma Unmarshal_refuses l o k t l2 :
  all_read l o -> string_forall ascii7 k = true -> refuses t ->
  Unmarshal (object_text (l ++ (k, t) :: l2)) = None.
Proof.
  intros H Hk Ht. unfold Unmarshal, object_text, parse_object. rewrite expect_here by done. simpl.
  assert (exists m, members (l ++ (k, t) :: l2) = String dquote m) as [m Hm].
  { destruct l as [|[a b] l]; simpl app; [destruct l2 | destruct (l ++ (k, t) :: l2)];
      unfold member, print_string, quoted; eauto. }
  pose proof (parse_members_refuses l o k t l2 EmptyString
    (String.length (members (l ++ (k, t) :: l2) +:+ String "}" EmptyString)) H Hk Ht) as Hp.
  rewrite Hm in Hp |- *. simpl String.append in Hp |- *. rewrite expect_other by done.
  by rewrite Hp.
Qed.

Lemma go_quote_reads s :
  string_forall ascii7 s = true -> string_forall json_safe s = true -> reads (go_quote s) (VStr s).
Proof. intros Hs Hj. apply quoted_reads. intros rest. by rewrite str_body_go_quote, Hj. Qed.

Lemma go_quote_refuses s :
  string_forall ascii7 s = true -> string_forall json_safe s = false -> refuses (go_quote s).
Proof.
  intros Hs Hj. split; [done |]. split; [done |]. intros rest. unfold go_quote, quoted, parse_value.
  simpl. rewrite string_app_assoc. simpl. by rewrite str_body_go_quote, Hj.
Qed.

Definition plain (c : ascii) : bool := ascii7 c && negb (char_code c <? 32) && negb (Ascii.eqb c dquote) && negb (Ascii.eqb c backslash).

(** Text put between quotes as it is, as [%s] does. *)
Lemma str_body_plain s rest :
  string_forall plain s = true -> str_body (s +:+ String dquote rest) = Some (s, rest).
Proof.
  induction s as [|c s IH]; [done |]. intros [Hc Hs]%andb_true_iff. unfold plain in Hc.
  rewrite !andb_true_iff, !negb_true_iff in Hc. destruct Hc as (((_ & H1) & H2) & H3).
  cbn [String.append]. unfold str_body. fold str_body. rewrite H1, H2, H3. by rewrite IH.
Qed.

Lemma plain_reads s : string_forall plain s = true -> reads (quoted s) (VStr s).
Proof. intros Hs. apply quoted_reads. intros rest. by apply str_body_plain. Qed.

End Json.
