(* ===== verification/Decimal.v ===== *)
(** * The decimal library, as the code relies on it

    Amounts and percentages go through [github.com/shopspring/decimal], which
    is not part of the repository. [Decimal] names the operations the code
    calls and [DecimalLaws] their documented meaning over the rationals:
    addition, subtraction, multiplication and comparison are exact, division
    keeps [DivisionPrecision] (16) digits, [Round] rounds half away from zero
    and [Floor] down. [RationalDecimal] is a concrete instance. *)

From S2P Require Import Prelude.
From Stdlib Require Import QArith Qround Qabs.

Local Open Scope Z_scope.

(** ** Rounding half away from zero *)

Definition half_away (n : Z) (d : positive) : Z :=
  Z.sgn n * ((2 * Z.abs n + Zpos d) / (2 * Zpos d)).

Definition pow10 (places : Z) : positive := Z.to_pos (10 ^ places).

Definition round_half_away (places : Z) (q : Q) : Q :=
  half_away (Qnum q * Zpos (pow10 places)) (Qden q) # pow10 places.

(** [IntPart]: truncation towards zero. *)
Definition trunc (q : Q) : Z := if Qnum q <? 0 then - Qfloor (- q) else Qfloor q.

Lemma half_away_scale n d k : half_away (n * Zpos k) (d * k) = half_away n d.
Proof.
  unfold half_away. rewrite Z.sgn_mul, Z.abs_mul. simpl (Z.sgn (Zpos k)). rewrite Z.mul_1_r.
  f_equal. rewrite Pos2Z.inj_mul. change (Z.abs (Zpos k)) with (Zpos k).
  replace (2 * (Z.abs n * Zpos k) + Zpos d * Zpos k) with ((2 * Z.abs n + Zpos d) * Zpos k) by ring.
  replace (2 * (Zpos d * Zpos k)) with (2 * Zpos d * Zpos k) by ring.
  by rewrite Z.div_mul_cancel_r by lia.
Qed.

#[global] Instance round_half_away_proper places : Proper (Qeq ==> Qeq) (round_half_away places).
Proof.
  intros [n1 d1] [n2 d2] Heq. unfold Qeq in Heq. simpl in Heq. unfold round_half_away. simpl.
  replace (half_away (n1 * Zpos (pow10 places)) d1) with (half_away (n2 * Zpos (pow10 places)) d2);
    [reflexivity |].
  rewrite <- (half_away_scale (n2 * _) d2 d1), <- (half_away_scale (n1 * _) d1 d2).
  rewrite (Pos.mul_comm d1 d2). f_equal. nia.
Qed.

#[global] Instance trunc_proper : Proper (Qeq ==> eq) trunc.
Proof.
  intros q1 q2 Heq. unfold trunc.
  assert ((Qnum q1 <? 0) = (Qnum q2 <? 0)) as ->.
  { unfold Qeq in Heq. destruct q1 as [n1 d1], q2 as [n2 d2]. simpl in *. nia. }
  case_match; by rewrite Heq.
Qed.

(** Truncating a quotient rounded to so many digits is exact division, when
    the divisor is small enough for the rounding not to reach the next
    integer. *)
Lemma trunc_round_quotient places a b :
  0 <= places -> 0 <= a -> 0 < b < 2 * 10 ^ places ->
  trunc (round_half_away places (inject_Z a / inject_Z b)) = a / b.
Proof.
  intros Hp Ha Hb. set (s := 10 ^ places) in *.
  assert (0 < s) as Hs by (unfold s; lia).
  assert (Zpos (pow10 places) = s) as Hpow by (unfold pow10; fold s; rewrite Z2Pos.id; [done | lia]).
  assert (inject_Z a / inject_Z b == a # Z.to_pos b)%Q as ->.
  { unfold Qeq, Qdiv, Qinv, inject_Z. destruct b as [| p |]; simpl; lia. }
  assert (half_away (a * s) (Z.to_pos b) = s * (a / b) + (2 * (s * (a mod b)) + b) / (2 * b)) as Hh.
  { unfold half_away. rewrite Z2Pos.id by lia. rewrite Z.abs_eq by nia.
    assert ((2 * (a * s) + b) / (2 * b) = s * (a / b) + (2 * (s * (a mod b)) + b) / (2 * b)) as Hq.
    { rewrite (Z.div_mod a b) at 1 by lia.
      replace (2 * ((b * (a / b) + a mod b) * s) + b)
        with (2 * (s * (a mod b)) + b + s * (a / b) * (2 * b)) by ring.
      rewrite Z.div_add by lia. lia. }
    rewrite Hq. destruct (Z.eq_dec a 0) as [-> | Hne].
    - rewrite Z.div_0_l, Z.mod_0_l by lia. simpl. rewrite !Z.mul_0_r. simpl.
      by rewrite Z.div_small by lia.
    - rewrite Z.sgn_pos by nia. lia. }
  pose proof (Z.mod_pos_bound a b ltac:(lia)) as Hm.
  assert (0 <= (2 * (s * (a mod b)) + b) / (2 * b) < s) as Hr.
  { split; [apply Z.div_pos; nia | apply Z.div_lt_upper_bound; nia]. }
  unfold round_half_away. simpl Qnum. simpl Qden. rewrite Hpow, Hh. unfold trunc.
  pose proof (Z.div_pos a b Ha ltac:(lia)). simpl Qnum.
  replace (_ <? 0) with false by nia. unfold Qfloor. rewrite Hpow.
  rewrite Z.mul_comm, Z.div_add_l by lia. rewrite (Z.div_small _ s) by done. lia.
Qed.

(** ** The interface *)

Class Decimal : Type := {
  dec : Type;
  NewFromInt : Z -> dec;
  NewFromRatio : Z -> positive -> dec;
  Add : dec -> dec -> dec;
  Sub : dec -> dec -> dec;
  Mul : dec -> dec -> dec;
  Div : dec -> dec -> dec;
  Round : dec -> Z -> dec;
  Floor : dec -> dec;
  Less : dec -> dec -> bool;
  IntPart : dec -> Z
}.

(** [val]: the number a decimal stands for. [NewFromRatio] stands for the
    constants the code writes in decimal notation. *)
Class DecimalLaws `{Decimal} : Type := {
  val : dec -> Q;
  val_NewFromInt z : (val (NewFromInt z) == inject_Z z)%Q;
  val_NewFromRatio n d : (val (NewFromRatio n d) == n # d)%Q;
  val_Add a b : (val (Add a b) == val a + val b)%Q;
  val_Sub a b : (val (Sub a b) == val a - val b)%Q;
  val_Mul a b : (val (Mul a b) == val a * val b)%Q;
  val_Div a b : (~ val b == 0 -> val (Div a b) == round_half_away 16 (val a / val b))%Q;
  val_Round a places : (val (Round a places) == round_half_away places (val a))%Q;
  val_Floor a : (val (Floor a) == inject_Z (Qfloor (val a)))%Q;
  val_Less a b : Less a b = true <-> (val a < val b)%Q;
  val_IntPart a : - 2 ^ 63 <= trunc (val a) < 2 ^ 63 -> IntPart a = trunc (val a)
}.

(** The percentage both usage reports compute. *)
Definition percentage `{Decimal} (used total : Z) : Z :=
  IntPart (Div (Mul (NewFromInt used) (NewFromInt 100)) (NewFromInt total)).

Lemma percentage_exact `{DecimalLaws} used total :
  0 <= used < 2 ^ 56 -> 0 < total < 2 * 10 ^ 16 -> percentage used total = used * 100 / total.
Proof.
  intros Hu Ht. unfold percentage.
  assert (val (Div (Mul (NewFromInt used) (NewFromInt 100)) (NewFromInt total)) ==
    round_half_away 16 (inject_Z (used * 100) / inject_Z total))%Q as Hv.
  { rewrite val_Div, val_Mul, !val_NewFromInt; [by rewrite inject_Z_mult |].
    rewrite val_NewFromInt. unfold Qeq. simpl. lia. }
  assert (trunc (val (Div (Mul (NewFromInt used) (NewFromInt 100)) (NewFromInt total))) =
    used * 100 / total) as Htr by (rewrite Hv; apply trunc_round_quotient; lia).
  rewrite val_IntPart; rewrite Htr; [done |]. split.
  - pose proof (Z.div_pos (used * 100) total). lia.
  - apply Z.div_lt_upper_bound; nia.
Qed.

(** ** Money: hundredths, and NUMERIC columns with two decimals *)

(** [parseDecimal] of a NUMERIC(_,2) column read as text. *)
Definition of_paise `{Decimal} (z : Z) : dec := NewFromRatio z 100.

(** Storing a decimal in a NUMERIC(precision,2) column: PostgreSQL rounds half
    away from zero and refuses what does not fit; the column holds hundredths. *)
Definition numeric `{Decimal} (precision : Z) (d : dec) : option Z :=
  let r := Round d 2 in
  let limit := 10 ^ (precision - 2) in
  if Less (NewFromInt (- limit)) r && Less r (NewFromInt limit)
  then Some (IntPart (Mul r (NewFromInt 100))) else None.

Definition is_zero `{Decimal} (d : dec) : bool := negb (Less d (NewFromInt 0)) && negb (Less (NewFromInt 0) d).
Definition is_negative `{Decimal} (d : dec) : bool := Less d (NewFromInt 0).
(** [LessThanOrEqual] *)
Definition less_eq `{Decimal} (a b : dec) : bool := negb (Less b a).

(** The decimal is exactly [z] hundredths. *)
Definition is_paise `{DecimalLaws} (d : dec) (z : Z) : Prop := (val d == z # 100)%Q.

(** Rounding moves a number by at most half a unit of the last place. *)
Lemma half_away_near n d : Z.abs (2 * (half_away n d * Zpos d) - 2 * n) <= Zpos d.
Proof.
  unfold half_away. pose proof (Z.div_mod (2 * Z.abs n + Zpos d) (2 * Zpos d) ltac:(lia)) as Hd.
  pose proof (Z.mod_pos_bound (2 * Z.abs n + Zpos d) (2 * Zpos d) ltac:(lia)) as Hm.
  set (k := (2 * Z.abs n + Zpos d) / (2 * Zpos d)) in *. destruct (Z.sgn_spec n) as [[? ->] | [[? ->] | [? ->]]]; nia.
Qed.

Lemma round_half_away_near places q :
  (Qabs (round_half_away places q - q) <= 1 # (2 * pow10 places))%Q.
Proof.
  destruct q as [n d]. unfold round_half_away. cbn [Qnum Qden].
  pose proof (half_away_near (n * Zpos (pow10 places)) d) as Hn.
  set (h := half_away _ _) in *. set (s := pow10 places) in *.
  apply Qabs_Qle_condition. unfold Qle, Qminus, Qplus, Qopp. cbn [Qnum Qden].
  rewrite !Pos2Z.inj_mul. nia.
Qed.

Lemma half_away_exact z k : half_away (z * Zpos k) k = z.
Proof.
  rewrite <- (Pos.mul_1_l k) at 2. rewrite half_away_scale. unfold half_away.
  replace (2 * Z.abs z + 1) with (1 + Z.abs z * 2) by ring. change (2 * Zpos 1) with 2.
  rewrite Z.div_add by lia. change (1 / 2) with 0. lia.
Qed.

(** Rounding does not pass a whole number. *)
Lemma half_away_le n d z : n <= z * Zpos d -> half_away n d <= z.
Proof.
  intros Hn. unfold half_away. set (q := (2 * Z.abs n + Zpos d) / (2 * Zpos d)).
  assert (2 * Zpos d * q <= 2 * Z.abs n + Zpos d < 2 * Zpos d * q + 2 * Zpos d) as Hq.
  { pose proof (Z.div_mod (2 * Z.abs n + Zpos d) (2 * Zpos d)).
    pose proof (Z.mod_pos_bound (2 * Z.abs n + Zpos d) (2 * Zpos d)). fold q in H. lia. }
  destruct (Z.sgn_spec n) as [[? ->] | [[? ->] | [? ->]]]; nia.
Qed.

Lemma round_paise z : (round_half_away 2 (z # 100) == z # 100)%Q.
Proof. unfold round_half_away, Qnum, Qden. change (Zpos (pow10 2)) with (Zpos 100). by rewrite half_away_exact. Qed.

Section Money.
Context `{DecimalLaws}.

Lemma paise_of z : is_paise (of_paise z) z.
Proof. apply val_NewFromRatio. Qed.

Lemma paise_add a b x y : is_paise a x -> is_paise b y -> is_paise (Add a b) (x + y).
Proof.
  unfold is_paise. intros Ha Hb. rewrite val_Add, Ha, Hb. unfold Qeq, Qplus. simpl. lia.
Qed.

Lemma paise_sub a b x y : is_paise a x -> is_paise b y -> is_paise (Sub a b) (x - y).
Proof.
  unfold is_paise. intros Ha Hb. rewrite val_Sub, Ha, Hb. unfold Qeq, Qminus, Qplus, Qopp. simpl. lia.
Qed.

Lemma paise_zero : is_paise (NewFromInt 0) 0.
Proof. unfold is_paise. rewrite val_NewFromInt. reflexivity. Qed.

Lemma paise_inj d x y : is_paise d x -> is_paise d y -> x = y.
Proof. unfold is_paise. intros -> Hq. unfold Qeq in Hq. simpl in Hq. lia. Qed.

Lemma paise_less a b x y : is_paise a x -> is_paise b y -> Less a b = (x <? y).
Proof.
  intros Ha Hb. apply eq_bool_prop_intro. rewrite !Is_true_true, val_Less, Z.ltb_lt.
  unfold is_paise in *. rewrite Ha, Hb. unfold Qlt. simpl. lia.
Qed.

Lemma paise_less_eq a b x y : is_paise a x -> is_paise b y -> less_eq a b = (x <=? y).
Proof. intros Ha Hb. unfold less_eq. rewrite (paise_less b a y x) by done. by rewrite Z.leb_antisym. Qed.

Lemma paise_is_zero a x : is_paise a x -> is_zero a = (x =? 0).
Proof.
  intros Ha. unfold is_zero. rewrite (paise_less a _ x 0), (paise_less _ a 0 x) by (done || apply paise_zero).
  lia.
Qed.

Lemma paise_is_negative a x : is_paise a x -> is_negative a = (x <? 0).
Proof. intros Ha. apply (paise_less a _ x 0 Ha paise_zero). Qed.

(** A whole number of hundredths is stored as it is, when it fits. *)
Lemma numeric_paise p d z :
  2 <= p <= 16 -> is_paise d z -> Z.abs z < 10 ^ p -> numeric p d = Some z.
Proof.
  intros Hp Hd Hz. unfold is_paise in Hd.
  assert (10 ^ p = 10 ^ (p - 2) * 100) as Hpow by (rewrite <- Z.pow_add_r with (c := 2) by lia; f_equal; lia).
  assert (10 ^ p <= 10 ^ 16) as Hle by (apply Z.pow_le_mono_r; lia).
  assert (val (Round d 2) == z # 100)%Q as Hr by (rewrite val_Round, Hd; apply round_paise).
  unfold numeric. replace (Less _ _ && Less _ _) with true.
  - f_equal. assert (val (Mul (Round d 2) (NewFromInt 100)) == inject_Z z)%Q as Hv.
    { rewrite val_Mul, Hr, val_NewFromInt. unfold Qeq. simpl. lia. }
    assert (trunc (val (Mul (Round d 2) (NewFromInt 100))) = z) as Ht.
    { rewrite Hv. unfold trunc. simpl. case_match; unfold Qfloor; simpl; rewrite Z.div_1_r; lia. }
    rewrite val_IntPart; rewrite Ht; lia.
  - symmetry. apply andb_true_iff. rewrite !val_Less, Hr, !val_NewFromInt.
    unfold Qlt, inject_Z. simpl. lia.
Qed.

(** What is stored is the nearest hundredth, within the precision. *)
Lemma numeric_Some p d z :
  2 <= p <= 16 -> numeric p d = Some z ->
  (z # 100 == round_half_away 2 (val d))%Q /\ Z.abs z < 10 ^ p.
Proof.
  intros Hp. unfold numeric.
  assert (10 ^ p = 10 ^ (p - 2) * 100) as Hpow by (rewrite <- Z.pow_add_r with (c := 2) by lia; f_equal; lia).
  assert (10 ^ p <= 10 ^ 16) as Hle by (apply Z.pow_le_mono_r; lia).
  destruct (Less _ _) eqn:H1; [| done]. destruct (Less (Round d 2) _) eqn:H2; [| done]. simpl.
  intros [= <-]. apply val_Less in H1, H2.
  set (n := half_away (Qnum (val d) * 100) (Qden (val d))).
  assert (val (Round d 2) == n # 100)%Q as Hr by (rewrite val_Round; reflexivity).
  rewrite Hr, val_NewFromInt in H1, H2. unfold Qlt, inject_Z in H1, H2. simpl in H1, H2.
  assert (val (Mul (Round d 2) (NewFromInt 100)) == inject_Z n)%Q as Hv.
  { rewrite val_Mul, Hr, val_NewFromInt. unfold Qeq. simpl. lia. }
  assert (trunc (val (Mul (Round d 2) (NewFromInt 100))) = n) as Ht.
  { rewrite Hv. unfold trunc. simpl. case_match; unfold Qfloor; simpl; rewrite Z.div_1_r; lia. }
  rewrite val_IntPart; rewrite Ht; [| lia]. split; [reflexivity | lia].
Qed.

Lemma numeric_le p d z n :
  2 <= p <= 16 -> numeric p d = Some z -> (val d <= n # 100)%Q -> z <= n.
Proof.
  intros Hp [Hz _]%numeric_Some Hle; [| done]. unfold round_half_away, Qeq in Hz. simpl in Hz.
  pose proof (half_away_le (Qnum (val d) * 100) (Qden (val d)) n) as Hh. unfold Qle in Hle. simpl in Hle.
  change (Zpos (pow10 2)) with 100 in Hz. lia.
Qed.

Lemma numeric_inv p d z z' :
  2 <= p <= 16 -> is_paise d z -> numeric p d = Some z' -> z' = z.
Proof.
  intros Hp Hd [Hq _]%numeric_Some; [| done]. unfold is_paise in Hd.
  rewrite Hd, round_paise in Hq. unfold Qeq in Hq. simpl in Hq. lia.
Qed.

End Money.

(** ** A concrete instance *)

Definition RationalDecimal : Decimal := {|
  dec := Q;
  NewFromInt := inject_Z;
  NewFromRatio n d := n # d;
  Add := Qplus;
  Sub := Qminus;
  Mul := Qmult;
  Div a b := round_half_away 16 (a / b)%Q;
  Round a places := round_half_away places a;
  Floor a := inject_Z (Qfloor a);
  Less a b := negb (Qle_bool b a);
  IntPart := trunc
|}.

Definition RationalLaws : @DecimalLaws RationalDecimal.
Proof.
  refine (@Build_DecimalLaws RationalDecimal (fun q => q) _ _ _ _ _ _ _ _ _ _); try reflexivity.
  intros a b. simpl. rewrite negb_true_iff, <- not_true_iff_false, Qle_bool_iff.
  split; [apply Qnot_le_lt | apply Qlt_not_le].
Defined.
