(* ===== verification/LocalCache.v ===== *)
(** * internal/localcache: the in-process TTL map and window counter

    [Module Store] is [localcache.Store] (ttlmap.go), [Module Counter] is
    [localcache.Counter] (counter.go). Instants and durations are nanoseconds
    in [Z]; [time.Time]'s zero value ("no expiry") is [None]. Every operation
    takes the reading of [time.Now()] it makes as its first argument. The
    mutex makes each operation one atomic step, so a concurrent run is a
    sequence of these steps. *)

From S2P Require Import Prelude.

Module Store.

Section Store.
Context {V : Type}.

(** [entry[V]]: a value and its expiry. *)
Record entry : Type := Entry { val : V; expires : option Z }.

Implicit Types (s : gmap string entry) (k : string).

Definition Get (now : Z) k s : option V :=
  match s !! k with
  | None => None
  | Some e =>
      match expires e with
      | None => None
      | Some x => if x <? now then None else Some (val e)
      end
  end.

Definition Set_ (now : Z) k (v : V) (ttl : Z) s : gmap string entry :=
  <[k := Entry v (Some (now + ttl))]> s.

Definition holds (now : Z) k s : bool :=
  match s !! k with
  | Some e => match expires e with Some x => now <? x | None => false end
  | None => false
  end.

Definition TrySet (now : Z) k (v : V) (ttl : Z) s : bool * gmap string entry :=
  if holds now k s then (false, s) else (true, <[k := Entry v (Some (now + ttl))]> s).

Definition Delete k s : gmap string entry := delete k s.

Definition TTL (now : Z) k s : Z :=
  match s !! k with
  | None => 0
  | Some e =>
      match expires e with
      | None => 0
      | Some x => if 0 <? x - now then x - now else 0
      end
  end.

Definition unexpired (now : Z) (e : entry) : bool :=
  match expires e with Some x => now <? x | None => false end.

Definition Keys (now : Z) s : list string :=
  omap (fun ke => if unexpired now ke.2 then Some ke.1 else None) (map_to_list s).

Definition Len (now : Z) s : Z :=
  foldl (fun n ke => if unexpired now (snd ke) then n + 1 else n) 0 (map_to_list s).

(** [ExpireNow] backdates the expiry by one second. *)
Definition ExpireNow (now : Z) k s : gmap string entry :=
  match s !! k with
  | None => s
  | Some e => <[k := Entry (val e) (Some (now - 1000000000))]> s
  end.

Definition dead (now : Z) (e : entry) : bool :=
  match expires e with None => true | Some x => x <? now end.

Definition sweep (now : Z) s : gmap string entry :=
  omap (fun e => if dead now e then None else Some e) s.

(** ** Observational equivalence

    Two stores are the same from [now] on when they agree on every entry that
    is not already dead: nothing a caller can do at [now] or later tells them
    apart. *)
Definition equiv_at (now : Z) s1 s2 : Prop := sweep now s1 = sweep now s2.

#[global] Instance equiv_at_equivalence now : Equivalence (equiv_at now).
Proof.
  unfold equiv_at. split; [by intros ? | by intros ??? | by intros ??? -> ->].
Qed.

Lemma lookup_sweep now s k :
  sweep now s !! k = e ← s !! k; if dead now e then None else Some e.
Proof. apply lookup_omap. Qed.

Lemma dead_mono now t e : now <= t -> dead now e = true -> dead t e = true.
Proof. unfold dead. destruct (expires e); [rewrite !Z.ltb_lt; lia | done]. Qed.

Lemma sweep_sweep now t s : now <= t -> sweep t (sweep now s) = sweep t s.
Proof.
  intros Hle. apply map_eq. intros k. rewrite !lookup_sweep.
  destruct (s !! k) as [e|]; simpl; [| done].
  destruct (dead now e) eqn:Hd; simpl; [| done].
  by rewrite (dead_mono now t).
Qed.

Lemma equiv_at_mono now t s1 s2 : now <= t -> equiv_at now s1 s2 -> equiv_at t s1 s2.
Proof.
  unfold equiv_at. intros Hle H.
  by rewrite <- (sweep_sweep now t s1), H, sweep_sweep.
Qed.

Lemma sweep_equiv now s : equiv_at now (sweep now s) s.
Proof. by apply sweep_sweep. Qed.

Lemma equiv_at_lookup now s1 s2 k :
  equiv_at now s1 s2 ->
  (e ← s1 !! k; if dead now e then None else Some e) =
  (e ← s2 !! k; if dead now e then None else Some e).
Proof. intros H. by rewrite <- !lookup_sweep, H. Qed.

Lemma Get_swept now k s :
  Get now k s = val <$> (sweep now s !! k).
Proof.
  rewrite lookup_sweep. unfold Get, dead.
  destruct (s !! k) as [[v [x|]]|]; simpl; [| done | done].
  by destruct (x <? now).
Qed.

Lemma holds_swept now k s : holds now k s = holds now k (sweep now s).
Proof.
  unfold holds. rewrite lookup_sweep. unfold dead.
  destruct (s !! k) as [[v [x|]]|]; simpl; [| done | done].
  destruct (Z.ltb_spec x now); simpl; [| done].
  apply Z.ltb_ge. lia.
Qed.

#[global] Instance Get_proper now k : Proper (equiv_at now ==> eq) (Get now k).
Proof. intros s1 s2 H. by rewrite !Get_swept, H. Qed.

#[global] Instance holds_proper now k : Proper (equiv_at now ==> eq) (holds now k).
Proof. intros s1 s2 H. by rewrite (holds_swept now k s1), H, <- holds_swept. Qed.

Lemma sweep_insert now k e s :
  sweep now (<[k := e]> s) =
  if dead now e then delete k (sweep now s) else <[k := e]> (sweep now s).
Proof.
  apply map_eq. intros j. rewrite lookup_sweep.
  destruct (decide (k = j)) as [<-|Hne].
  - rewrite lookup_insert_eq. simpl.
    destruct (dead now e); by simplify_map_eq.
  - rewrite lookup_insert_ne by done.
    destruct (dead now e); simplify_map_eq; by rewrite lookup_sweep.
Qed.

#[global] Instance insert_proper now k e : Proper (equiv_at now ==> equiv_at now) (insert k e).
Proof. intros s1 s2 H. unfold equiv_at. by rewrite !sweep_insert, H. Qed.

#[global] Instance Delete_proper now k : Proper (equiv_at now ==> equiv_at now) (Delete k).
Proof.
  intros s1 s2 H. apply map_eq. intros j. rewrite !lookup_sweep. unfold Delete.
  destruct (decide (k = j)) as [<-|Hne].
  - by rewrite !lookup_delete_eq.
  - rewrite !lookup_delete_ne by done. by apply equiv_at_lookup.
Qed.

(** ** What an entry answers after it is written *)

Lemma Get_Set now t k v ttl s :
  Get t k (Set_ now k v ttl s) = if now + ttl <? t then None else Some v.
Proof. unfold Get, Set_. by rewrite lookup_insert_eq. Qed.

Lemma Get_Set_ne now t k j v ttl s : k <> j -> Get t j (Set_ now k v ttl s) = Get t j s.
Proof. intros. unfold Get, Set_. by rewrite lookup_insert_ne. Qed.

Lemma Get_Delete t k s : Get t k (Delete k s) = None.
Proof. unfold Get, Delete. by rewrite lookup_delete_eq. Qed.

Lemma Get_Delete_ne t k j s : k <> j -> Get t j (Delete k s) = Get t j s.
Proof. intros. unfold Get, Delete. by rewrite lookup_delete_ne. Qed.

Lemma holds_insert t k v x s : holds t k (<[k := Entry v (Some x)]> s) = (t <? x).
Proof. unfold holds. by rewrite lookup_insert_eq. Qed.

(** ** Runs of the store, sweeper included *)

Inductive op : Type :=
| OGet (k : string)
| OSet (k : string) (v : V) (ttl : Z)
| OTrySet (k : string) (v : V) (ttl : Z)
| ODelete (k : string)
| OSweep.

Inductive answer : Type :=
| AValue (v : option V)
| AWon (b : bool)
| ADone.

Definition exec (now : Z) (o : op) s : answer * gmap string entry :=
  match o with
  | OGet k => (AValue (Get now k s), s)
  | OSet k v ttl => (ADone, Set_ now k v ttl s)
  | OTrySet k v ttl => let '(b, s') := TrySet now k v ttl s in (AWon b, s')
  | ODelete k => (ADone, Delete k s)
  | OSweep => (ADone, sweep now s)
  end.

Fixpoint run (ops : list (Z * op)) s : list answer :=
  match ops with
  | [] => []
  | (t, o) :: ops =>
      let '(a, s') := exec t o s in
      match o with OSweep => run ops s' | _ => a :: run ops s' end
  end.

Definition is_sweep (o : Z * op) : bool :=
  match o.2 with OSweep => true | _ => false end.

Fixpoint without_sweeps (ops : list (Z * op)) : list (Z * op) :=
  match ops with
  | [] => []
  | o :: ops => if is_sweep o then without_sweeps ops else o :: without_sweeps ops
  end.

Fixpoint clock_monotone (now : Z) (ops : list (Z * op)) : Prop :=
  match ops with
  | [] => True
  | (t, _) :: ops => now <= t /\ clock_monotone t ops
  end.

Lemma exec_equiv now o s1 s2 :
  equiv_at now s1 s2 ->
  (exec now o s1).1 = (exec now o s2).1 /\
  equiv_at now (exec now o s1).2 (exec now o s2).2.
Proof.
  intros H. destruct o; simpl.
  - split; [by rewrite H | done].
  - split; [done |]. by apply insert_proper.
  - unfold TrySet. rewrite (holds_proper now k s1 s2 H).
    destruct (holds now k s2); simpl; [done |].
    split; [done |]. by apply insert_proper.
  - split; [done |]. by apply Delete_proper.
  - split; [done |]. by rewrite !sweep_equiv.
Qed.

Lemma run_without_sweeps_equiv ops now s1 s2 :
  clock_monotone now ops -> equiv_at now s1 s2 ->
  run ops s1 = run (without_sweeps ops) s2.
Proof.
  revert now s1 s2. induction ops as [|[t o] ops IH]; intros now s1 s2; [done |].
  intros [Hle Hmono] H. apply (equiv_at_mono _ t) in H; [| done].
  destruct o; simpl.
  5: { apply (IH t); [done |]. by rewrite sweep_equiv. }
  1: { f_equal; [by rewrite H | by apply (IH t)]. }
  1: { f_equal. apply (IH t); [done |]. by apply insert_proper. }
  2: { f_equal. apply (IH t); [done |]. by apply Delete_proper. }
  destruct (exec_equiv t (OTrySet k v ttl) _ _ H) as [Ha Hs]. simpl in Ha, Hs.
  destruct (TrySet t k v ttl s1), (TrySet t k v ttl s2). simpl in *.
  f_equal; [done |]. by apply (IH t).
Qed.

End Store.
Arguments entry : clear implicits.
Arguments op : clear implicits.
Arguments answer : clear implicits.

(** The background sweeper is invisible. Whatever the interleaving of
    [sweep] with [Get], [Set], [TrySet] and [Delete], as long as the clock does
    not run backwards every caller gets the answers it would get from a store
    that is never swept: sweeping only reclaims memory. *)
Theorem sweeps_unobservable {V} (ops : list (Z * op V)) (now : Z) (s : gmap string (entry V)) :
  clock_monotone now ops -> run ops s = run (without_sweeps ops) s.
Proof. intros H. by apply (run_without_sweeps_equiv ops now). Qed.

Lemma sweeps_unobservable_witness :
  run [(1, OSet "k"%string 7 5); (6, OSweep); (6, OGet "k"%string); (7, OSweep);
       (7, OTrySet "k"%string 9 5)] ∅ = [ADone; AValue (Some 7); AWon true].
Proof.
  rewrite (sweeps_unobservable _ 0); [vm_compute; reflexivity | simpl; lia].
Defined.

End Store.

Module Counter.

(** [counterEntry]. *)
Record counterEntry : Type := Entry { count : Z; expires : option Z }.

Implicit Types (c : gmap string counterEntry) (k : string).

Definition lapsed (now : Z) (e : counterEntry) : bool :=
  match expires e with Some x => x <? now | None => false end.

Definition Incr (now : Z) k c : Z * gmap string counterEntry :=
  let e := match c !! k with
           | Some e => if lapsed now e then Entry 0 None else e
           | None => Entry 0 None
           end in
  let n := i64 (count e + 1) in
  (n, <[k := Entry n (expires e)]> c).

Definition Expire (now : Z) k (ttl : Z) c : gmap string counterEntry :=
  match c !! k with
  | None => c
  | Some e => <[k := Entry (count e) (Some (now + ttl))]> c
  end.

Definition Get (now : Z) k c : Z * bool :=
  match c !! k with
  | Some e => if lapsed now e then (0, false) else (count e, true)
  | None => (0, false)
  end.

Definition Reset k c : gmap string counterEntry := delete k c.

Definition Len (now : Z) c : Z :=
  foldl (fun n ke =>
           match expires (snd ke) with
           | None => n + 1
           | Some x => if now <? x then n + 1 else n
           end) 0 (map_to_list c).

Definition ExpireNow (now : Z) k c : gmap string counterEntry :=
  match c !! k with
  | None => c
  | Some e => <[k := Entry (count e) (Some (now - 1000000000))]> c
  end.

Definition TTL (now : Z) k c : Z :=
  match c !! k with
  | None => 0
  | Some e =>
      match expires e with
      | None => 0
      | Some x => if 0 <? x - now then x - now else 0
      end
  end.

Definition sweep (now : Z) c : gmap string counterEntry :=
  omap (fun e => if lapsed now e then None else Some e) c.

(** What the key's entry is worth at [now]: the live count and expiry. *)
Definition live (now : Z) k c : option counterEntry :=
  match c !! k with
  | Some e => if lapsed now e then None else Some e
  | None => None
  end.

Lemma live_sweep now t k c : now <= t -> live t k (sweep now c) = live t k c.
Proof.
  intros Hle. unfold live, sweep. rewrite lookup_omap.
  destruct (c !! k) as [[n [x|]]|]; simpl; [| done | done].
  unfold lapsed. simpl. destruct (Z.ltb_spec x now); simpl; [| done].
  by rewrite (proj2 (Z.ltb_lt x t)) by lia.
Qed.

Lemma Get_live now k c :
  Get now k c = match live now k c with Some e => (count e, true) | None => (0, false) end.
Proof. unfold Get, live. destruct (c !! k) as [e|]; [| done]. by destruct (lapsed now e). Qed.

End Counter.
