(* ===== verification/EAP.v ===== *)
(** * internal/radius/eap.go: EAP and MS-CHAPv2 packet codecs

    Bytes are [Z] in [0, 256). Indexing and slicing go through [index] and
    [slice], so an out-of-range access is the value [Panic]; the theorems show
    it is never returned. *)

From S2P Require Import Prelude.

Local Open Scope go_scope.

Module EAP.

Definition EAPCodeRequest : Z := 1.
Definition EAPCodeResponse : Z := 2.
Definition EAPCodeSuccess : Z := 3.
Definition EAPCodeFailure : Z := 4.

Definition EAPTypeIdentity : Z := 1.
Definition EAPTypeNak : Z := 3.
Definition EAPTypeMSCHAPv2 : Z := 26.

Definition MSCHAPv2OpChallenge : Z := 1.
Definition MSCHAPv2OpResponse : Z := 2.
Definition MSCHAPv2OpSuccess : Z := 3.
Definition MSCHAPv2OpFailure : Z := 4.

Definition eapHeaderLen : Z := 4.

Inductive error : Type :=
| ErrShortEAP
| ErrEAPLengthMismatch (declared have : Z)
| ErrMSShort (have : Z)
| ErrMSOpcode (got : Z)
| ErrMSValueSize (got : Z)
| ErrMSTruncated (declared have : Z)
| Panic.

Record EAPPacket : Type := MkEAPPacket {
  Code : Z;
  Identifier : Z;
  Type_ : Z;
  Data : list Z
}.

Definition header_only (code : Z) : bool :=
  (code =? EAPCodeSuccess) || (code =? EAPCodeFailure).

Definition len (b : list Z) : Z := Z.of_nat (length b).

Definition ParseEAP (b : list Z) : result error EAPPacket :=
  if len b <? eapHeaderLen then Err ErrShortEAP
  else
    let! b2 := index Panic b 2 in
    let! b3 := index Panic b 3 in
    let declared := get_be16 b2 b3 in
    if negb (declared =? len b) then Err (ErrEAPLengthMismatch declared (len b))
    else
      let! code := index Panic b 0 in
      let! id := index Panic b 1 in
      if header_only code then Ok (MkEAPPacket code id 0 [])
      else if len b <? eapHeaderLen + 1 then Err ErrShortEAP
      else
        let! ty := index Panic b 4 in
        let! data := slice_from Panic b 5 in
        Ok (MkEAPPacket code id ty data).

Definition Encode (p : EAPPacket) : list Z :=
  if header_only (Code p) then
    [Code p; Identifier p] ++ put_be16 eapHeaderLen
  else
    let total := eapHeaderLen + 1 + len (Data p) in
    [Code p; Identifier p] ++ put_be16 total ++ [Type_ p] ++ Data p.

(** ** MS-CHAPv2 sub-packets *)

Record MSCHAPv2Challenge : Type := MkChallenge {
  c_MSCHAPv2ID : Z;
  c_Challenge : list Z;
  c_Name : string
}.

Definition EncodeChallenge (c : MSCHAPv2Challenge) : list Z :=
  let msLength := 4 + 1 + len (c_Challenge c) + Z.of_nat (String.length (c_Name c)) in
  [MSCHAPv2OpChallenge; c_MSCHAPv2ID c] ++ put_be16 msLength ++
  [u8 (len (c_Challenge c))] ++ c_Challenge c ++ bytes_of_string (c_Name c).

Record MSCHAPv2Response : Type := MkResponse {
  r_MSCHAPv2ID : Z;
  r_PeerChallenge : list Z;
  r_NTResponse : list Z;
  r_Flags : Z;
  r_Name : string
}.

Definition ParseMSCHAPv2Response (data : list Z) : result error MSCHAPv2Response :=
  if len data <? 5 then Err (ErrMSShort (len data))
  else
    let! op := index Panic data 0 in
    if negb (op =? MSCHAPv2OpResponse) then Err (ErrMSOpcode op)
    else
      let! valueSize := index Panic data 4 in
      if negb (valueSize =? 49) then Err (ErrMSValueSize valueSize)
      else if len data <? 5 + valueSize then Err (ErrMSTruncated valueSize (len data - 5))
      else
        let! value := slice Panic data 5 (5 + Z.to_nat valueSize) in
        let! id := index Panic data 1 in
        let! peer := slice Panic value 0 16 in
        let! nt := slice Panic value 24 48 in
        let! flags := index Panic value 48 in
        let! name := slice_from Panic data (5 + Z.to_nat valueSize) in
        Ok (MkResponse id peer nt flags (string_of_bytes name)).

Definition EncodeMSCHAPv2Success (mschapID : Z) (authenticatorResponse : string) : list Z :=
  let msLength := 4 + Z.of_nat (String.length authenticatorResponse) in
  [MSCHAPv2OpSuccess; mschapID] ++ put_be16 msLength ++
  bytes_of_string authenticatorResponse.

Definition EncodeMSCHAPv2Failure (mschapID : Z) : list Z :=
  let message := "E=691 R=0 C=00000000000000000000000000000000 V=3 M=Authentication failed"%string in
  let msLength := 4 + Z.of_nat (String.length message) in
  [MSCHAPv2OpFailure; mschapID] ++ put_be16 msLength ++ bytes_of_string message.

(** ** Well-formedness: what Go's types give for free *)

Record wf (p : EAPPacket) : Prop := {
  wf_code : is_byte (Code p);
  wf_id : is_byte (Identifier p);
  wf_type : is_byte (Type_ p);
  wf_data : Forall is_byte (Data p);
  (** Success and Failure carry no type and no data *)
  wf_header : header_only (Code p) = true -> Type_ p = 0 /\ Data p = [];
  (** the length field is 16 bits wide *)
  wf_length : eapHeaderLen + 1 + len (Data p) < 65536
}.

Lemma put_be16_get z :
  exists hi lo, put_be16 z = [hi; lo] /\ get_be16 hi lo = u16 z.
Proof. rewrite put_be16_divmod. do 2 eexists. split; [done | apply get_put_be16]. Qed.

Lemma u16_id z : 0 <= z < 65536 -> u16 z = z.
Proof. apply Z.mod_small. Qed.

(** Parsing a buffer whose first five bytes are explicit. *)
Lemma ParseEAP_cons5 c i h l t d :
  get_be16 h l = 5 + len d -> header_only c = false ->
  ParseEAP (c :: i :: h :: l :: t :: d) = Ok (MkEAPPacket c i t d).
Proof.
  intros Hlen Hc. unfold ParseEAP.
  assert (len (c :: i :: h :: l :: t :: d) = 5 + len d) as Hl by (unfold len; simpl; lia).
  rewrite Hl. unfold eapHeaderLen.
  rewrite (proj2 (Z.ltb_ge (5 + len d) 4)) by (unfold len; lia). simpl.
  rewrite Hlen, Z.eqb_refl. simpl. rewrite Hc.
  rewrite (proj2 (Z.ltb_ge (5 + len d) (4 + 1))) by (unfold len; lia).
  rewrite slice_from_in by (simpl; lia). done.
Qed.

Lemma ParseEAP_cons4 c i h l d :
  get_be16 h l = 4 + len d -> header_only c = true ->
  ParseEAP (c :: i :: h :: l :: d) = Ok (MkEAPPacket c i 0 []).
Proof.
  intros Hlen Hc. unfold ParseEAP.
  assert (len (c :: i :: h :: l :: d) = 4 + len d) as Hl by (unfold len; simpl; lia).
  rewrite Hl. unfold eapHeaderLen.
  rewrite (proj2 (Z.ltb_ge (4 + len d) 4)) by (unfold len; lia). simpl.
  rewrite Hlen, Z.eqb_refl. simpl. by rewrite Hc.
Qed.

Lemma ParseEAP_Encode p : wf p -> ParseEAP (Encode p) = Ok p.
Proof.
  intros [_ _ _ _ Hh Hlen]. destruct p as [c i t d]. unfold Encode.
  cbn [Code Identifier Type_ Data] in *. destruct (header_only c) eqn:Hc.
  - destruct (Hh eq_refl) as [-> ->]. by apply (ParseEAP_cons4 c i 0 4 []).
  - destruct (put_be16_get (eapHeaderLen + 1 + len d)) as (h & l & -> & Hg).
    apply ParseEAP_cons5; [| done]. rewrite Hg. unfold eapHeaderLen, len in *.
    rewrite u16_id; lia.
Qed.

Lemma get_be16_put h l : is_byte h -> is_byte l -> put_be16 (get_be16 h l) = [h; l].
Proof.
  intros Hh Hl. rewrite put_be16_divmod, get_be16_add by done. unfold is_byte in *.
  rewrite u16_id by lia. rewrite (Z.mul_comm h 256).
  rewrite Z.add_comm, Z.mul_comm, Z.div_add, Z.mod_add by lia.
  by rewrite Z.div_small, Z.mod_small by lia.
Qed.

(** Splitting a buffer known to hold at least four bytes. *)
Lemma at_least_four (b : list Z) :
  eapHeaderLen <= len b -> exists c i h l d, b = c :: i :: h :: l :: d.
Proof.
  unfold eapHeaderLen, len. intros H.
  do 4 (destruct b as [|? b]; simpl in H; [lia |]). by do 5 eexists.
Qed.

(** The buffers [ParseEAP] accepts, by inversion of its guards. *)
Lemma ParseEAP_inv b :
  match ParseEAP b with
  | Ok p =>
      exists c i h l d, b = c :: i :: h :: l :: d /\ get_be16 h l = len b /\
      if header_only c then p = MkEAPPacket c i 0 []
      else exists t d', d = t :: d' /\ p = MkEAPPacket c i t d'
  | Err ErrShortEAP =>
      len b < eapHeaderLen \/
      (len b = eapHeaderLen /\ exists c, head b = Some c /\ header_only c = false)
  | Err (ErrEAPLengthMismatch declared have) => declared <> have /\ have = len b
  | Err _ => False
  end.
Proof.
  destruct (Z.lt_ge_cases (len b) eapHeaderLen) as [Hlt | Hge].
  { unfold ParseEAP. rewrite (proj2 (Z.ltb_lt _ _) Hlt). by left. }
  destruct (at_least_four b Hge) as (c & i & h & l & d & ->).
  destruct (Z.eqb_spec (get_be16 h l) (len (c :: i :: h :: l :: d))) as [Heq | Hne].
  - destruct (header_only c) eqn:Hc.
    + rewrite ParseEAP_cons4; [| rewrite Heq; unfold len; simpl; lia | done].
      exists c, i, h, l, d. by rewrite Hc.
    + destruct d as [|t d].
      * unfold ParseEAP. rewrite (proj2 (Z.ltb_ge _ _) Hge). simpl.
        rewrite Heq, Z.eqb_refl. simpl. rewrite Hc. right. split; [done |].
        exists c. done.
      * rewrite ParseEAP_cons5; [| rewrite Heq; unfold len; simpl; lia | done].
        exists c, i, h, l, (t :: d). rewrite Hc. by eauto 6.
  - unfold ParseEAP. rewrite (proj2 (Z.ltb_ge _ _) Hge). simpl.
    rewrite (proj2 (Z.eqb_neq _ _) Hne). done.
Qed.

(** The EAP codec is exact. Every well-formed packet survives
    encode-then-parse; every buffer the parser accepts declares exactly its own
    length and re-encodes to itself, except that a Success or Failure keeps
    only its 4-byte header; and no buffer, however hostile, makes the parser
    index out of range. *)
Theorem eap_codec :
  (forall p, wf p -> ParseEAP (Encode p) = Ok p) /\
  (forall b, Forall is_byte b ->
    match ParseEAP b with
    | Ok p =>
        if header_only (Code p) then
          Encode p = take 2 b ++ put_be16 4 /\ 4 <= len b
        else Encode p = b
    | Err e => e <> Panic
    end).
Proof.
  split; [exact ParseEAP_Encode |]. intros b Hb. pose proof (ParseEAP_inv b) as Hinv.
  destruct (ParseEAP b) as [p | []]; try done.
  destruct Hinv as (c & i & h & l & d & -> & Hlen & Hp).
  apply Forall_cons in Hb as [_ Hb]. apply Forall_cons in Hb as [_ Hb].
  apply Forall_cons in Hb as [Hh Hb]. apply Forall_cons in Hb as [Hl _].
  destruct (header_only c) eqn:Hc.
  - subst p. simpl. rewrite Hc. unfold Encode. simpl. rewrite Hc.
    split; [done | unfold len; simpl; lia].
  - destruct Hp as (t & d' & -> & ->). unfold Encode. cbn [Code Identifier Type_ Data].
    rewrite Hc. replace (eapHeaderLen + 1 + len d') with (get_be16 h l)
      by (rewrite Hlen; unfold len, eapHeaderLen; simpl; lia).
    by rewrite get_be16_put.
Qed.

(** The 49-byte value of RFC 2759, between its header and the trailing name. *)
Definition response_layout (id l1 l2 : Z) (peer reserved nt : list Z) (flags : Z)
    (name : list Z) : list Z :=
  [MSCHAPv2OpResponse; id; l1; l2; 49] ++ peer ++ reserved ++ nt ++ [flags] ++ name.

Lemma take_drop_app_exact (A : Type) (x y z : list A) n m :
  length x = n -> length y = m -> take m (drop n (x ++ y ++ z)) = y.
Proof.
  intros <- <-. rewrite drop_app_length. by rewrite take_app_length.
Qed.

Lemma ParseMSCHAPv2Response_layout id l1 l2 peer reserved nt flags name :
  length peer = 16%nat -> length reserved = 8%nat -> length nt = 24%nat ->
  ParseMSCHAPv2Response (response_layout id l1 l2 peer reserved nt flags name) =
  Ok (MkResponse id peer nt flags (string_of_bytes name)).
Proof.
  intros Hp Hr Hn. unfold ParseMSCHAPv2Response.
  set (data := response_layout id l1 l2 peer reserved nt flags name).
  assert (length data = 54 + length name)%nat as Hlen.
  { unfold data, response_layout. rewrite !length_app. simpl. lia. }
  assert (len data = 54 + len name) as Hl by (unfold len; lia).
  rewrite (proj2 (Z.ltb_ge (len data) 5)) by (unfold len in *; lia).
  simpl. rewrite (proj2 (Z.ltb_ge (len data) (5 + 49))) by (unfold len in *; lia).
  change (Z.to_nat 49) with 49%nat. change (S (S (S (S (S 49))))) with 54%nat.
  rewrite slice_in by lia.
  assert (take 49 (drop 5 data) = peer ++ reserved ++ nt ++ [flags]) as Hval.
  { replace data with ([MSCHAPv2OpResponse; id; l1; l2; 49] ++
      (peer ++ reserved ++ nt ++ [flags]) ++ name)
      by (unfold data, response_layout; by rewrite <- !app_assoc).
    apply take_drop_app_exact; [done |]. rewrite !length_app. simpl. lia. }
  change (54 - 5)%nat with 49%nat. rewrite Hval. simpl.
  rewrite !slice_in by (rewrite !length_app; simpl; lia). simpl.
  rewrite drop_0, (take_app_length' peer) by done.
  replace (take 24 (drop 24 _)) with nt.
  2: { rewrite app_assoc. symmetry. apply take_drop_app_exact; [| done].
       rewrite length_app. lia. }
  erewrite index_Ok; [| rewrite !lookup_app_r by lia; by replace (48 - _ - _ - _)%nat with 0%nat by lia].
  cbn [rbind]. rewrite slice_from_in by lia. cbn [rbind].
  assert (drop 54 data = name) as ->; [| done].
  replace data with (([MSCHAPv2OpResponse; id; l1; l2; 49] ++
      peer ++ reserved ++ nt ++ [flags]) ++ name)
    by (unfold data, response_layout; by rewrite <- !app_assoc).
  rewrite (drop_app_length' ([_; _; _; _; _] ++ _)); [done |].
  rewrite !length_app. simpl. lia.
Qed.

Lemma split_at (A : Type) n (l : list A) :
  (n <= length l)%nat -> exists x y, l = x ++ y /\ length x = n.
Proof.
  intros H. exists (take n l), (drop n l).
  split; [by rewrite take_drop | apply length_take_le; lia].
Qed.

(** A payload that passes the parser's guards has the RFC layout. *)
Lemma response_layout_exists data :
  54 <= len data -> data !! 0%nat = Some MSCHAPv2OpResponse -> data !! 4%nat = Some 49 ->
  exists id l1 l2 peer reserved nt flags name,
    data = response_layout id l1 l2 peer reserved nt flags name /\
    length peer = 16%nat /\ length reserved = 8%nat /\ length nt = 24%nat.
Proof.
  unfold len. intros Hlen H0 H4.
  do 5 (destruct data as [|? data]; simpl in Hlen; [lia |]). simpl in *. simplify_eq.
  destruct (split_at _ 16 data ltac:(lia)) as (peer & d1 & -> & Hp).
  rewrite length_app in Hlen.
  destruct (split_at _ 8 d1 ltac:(lia)) as (res & d2 & -> & Hr).
  rewrite length_app in Hlen.
  destruct (split_at _ 24 d2 ltac:(lia)) as (nt & d3 & -> & Hn).
  rewrite length_app in Hlen.
  destruct d3 as [|flags name]; simpl in Hlen; [lia |].
  by exists z0, z1, z2, peer, res, nt, flags, name.
Qed.

Lemma ParseMSCHAPv2Response_guards data :
  match ParseMSCHAPv2Response data with
  | Ok _ => 54 <= len data /\ data !! 0%nat = Some MSCHAPv2OpResponse /\
            data !! 4%nat = Some 49
  | Err e => e = Panic -> 54 <= len data /\
            data !! 0%nat = Some MSCHAPv2OpResponse /\ data !! 4%nat = Some 49
  end.
Proof.
  unfold ParseMSCHAPv2Response. destruct (Z.ltb_spec (len data) 5); [done |].
  unfold len in *.
  destruct (index_lt Panic data 0 ltac:(lia)) as (op & Hop & ->). simpl.
  destruct (Z.eqb_spec op MSCHAPv2OpResponse) as [-> |]; [| done]. simpl.
  destruct (index_lt Panic data 4 ltac:(lia)) as (vs & Hvs & ->). simpl.
  destruct (Z.eqb_spec vs 49) as [-> |]; [| done]. simpl.
  destruct (Z.ltb_spec (Z.of_nat (length data)) (5 + 49)); [done |].
  repeat match goal with
  | |- context [rbind ?m _] => destruct m; simpl
  end; auto.
Qed.

(** The MS-CHAPv2 response parser accepts exactly the payloads with
    RFC 2759's layout (opcode 2, Value-Size 49: 16 peer challenge, 8 reserved,
    24 NT response, 1 flags, then the name), returns those fields, ignores the
    reserved bytes and the MS-Length field, and never indexes out of range. *)
Theorem mschapv2_response_grammar (data : list Z) (r : MSCHAPv2Response) :
  (ParseMSCHAPv2Response data = Ok r <->
   exists id l1 l2 peer reserved nt flags name,
     data = response_layout id l1 l2 peer reserved nt flags name /\
     length peer = 16%nat /\ length reserved = 8%nat /\ length nt = 24%nat /\
     r = MkResponse id peer nt flags (string_of_bytes name)) /\
  ParseMSCHAPv2Response data <> Err Panic.
Proof.
  pose proof (ParseMSCHAPv2Response_guards data) as Hg. split; [split |].
  - intros Hr. rewrite Hr in Hg. destruct Hg as (Hl & H0 & H4).
    destruct (response_layout_exists data Hl H0 H4)
      as (id & l1 & l2 & p & s & n & f & nm & -> & Hp & Hs & Hn).
    rewrite ParseMSCHAPv2Response_layout in Hr by done. injection Hr as <-.
    by exists id, l1, l2, p, s, n, f, nm.
  - intros (id & l1 & l2 & p & s & n & f & nm & -> & Hp & Hs & Hn & ->).
    by apply ParseMSCHAPv2Response_layout.
  - intros Hr. rewrite Hr in Hg. destruct (Hg eq_refl) as (Hl & H0 & H4).
    destruct (response_layout_exists data Hl H0 H4)
      as (id & l1 & l2 & p & s & n & f & nm & -> & Hp & Hs & Hn).
    by rewrite ParseMSCHAPv2Response_layout in Hr.
Qed.

(** What [wf] asks of the packets this server itself builds. *)
Lemma wf_request ty id data :
  is_byte id -> is_byte ty -> Forall is_byte data -> 5 + len data < 65536 ->
  wf (MkEAPPacket EAPCodeRequest id ty data).
Proof. intros. split; simpl; try done; unfold eapHeaderLen; lia. Qed.

End EAP.
