(* ===== verification/Identity.v ===== *)
(** * internal/radius: who is asking, and what they are entitled to

    [NormaliseMAC], [looksLikeMAB] (mab.go), [StripDomain] (mschapv2.go),
    [AuthorisesService] (authorisation.go), the [Subscriber] record (daemon.go)
    and [effectiveRateLimit] (handlers.go). *)

From S2P Require Import Prelude.
From Stdlib Require Import Ascii.

Module Identity.

(** ** MAC addresses *)

Definition is_digit : ascii -> bool := in_range 48 57.
Definition is_upper_hex : ascii -> bool := in_range 65 70.
Definition is_lower_hex : ascii -> bool := in_range 97 102.
Definition is_separator (c : ascii) : bool :=
  Ascii.eqb c ":" || Ascii.eqb c "-" || Ascii.eqb c "." || Ascii.eqb c " ".

(** The scanning loop of [NormaliseMAC]; a byte of a multi-byte rune falls in
    the default branch exactly as the rune itself does. *)
Fixpoint scan_hex (s : string) : option (list ascii) :=
  match s with
  | EmptyString => Some []
  | String c s =>
      if is_digit c || is_upper_hex c then cons c <$> scan_hex s
      else if is_lower_hex c then
        cons (char_of (char_code c - 32)) <$> scan_hex s
      else if is_separator c then scan_hex s
      else None
  end.

(** The formatting loop: two digits at a time, a colon before each pair but
    the first. *)
Fixpoint join_pairs (first : bool) (h : list ascii) : string :=
  match h with
  | a :: b :: h =>
      let rest := String a (String b (join_pairs false h)) in
      if first then rest else String ":" rest
  | _ => EmptyString
  end.

Definition NormaliseMAC (s : string) : option string :=
  match scan_hex s with
  | None => None
  | Some h => if (length h =? 12)%nat then Some (join_pairs true h) else None
  end.

Definition looksLikeMAB (username password : string) : bool :=
  match NormaliseMAC username with
  | None => false
  | Some mac =>
      if String.eqb password EmptyString then true
      else match NormaliseMAC password with
           | None => false
           | Some pw => String.eqb pw mac
           end
  end.

Definition hex_char (c : ascii) : bool := is_digit c || is_upper_hex c.

Lemma scan_hex_upper s h : scan_hex s = Some h -> Forall (fun c => hex_char c = true) h.
Proof.
  revert h. induction s as [|c s IH]; simpl; intros h H; [by simplify_eq |].
  unfold hex_char in *.
  destruct (is_digit c || is_upper_hex c) eqn:Hd.
  { destruct (scan_hex s); simplify_eq/=. constructor; eauto. }
  destruct (is_lower_hex c) eqn:Hl.
  - destruct (scan_hex s); simplify_eq/=. constructor; [| eauto].
    unfold is_digit, is_upper_hex, is_lower_hex, in_range in *.
    rewrite !char_code_of_byte by (destruct_guards; unfold is_byte; lia).
    destruct_guards. apply orb_true_iff. right. apply andb_true_iff.
    split; apply Z.leb_le; lia.
  - destruct (is_separator c); [eauto | done].
Qed.

Lemma scan_hex_colon s : scan_hex (String ":" s) = scan_hex s.
Proof. done. Qed.

Lemma scan_hex_join b h :
  Forall (fun c => hex_char c = true) h -> Nat.Even (length h) ->
  scan_hex (join_pairs b h) = Some h.
Proof.
  revert b. induction h as [h IH] using (induction_ltof1 _ (@length ascii)).
  intros b Hh Hev. unfold ltof in IH.
  destruct h as [|x [|y h]]; [done | by apply Nat.even_spec in Hev |].
  apply Forall_cons in Hh as [Hx Hh]. apply Forall_cons in Hh as [Hy Hh].
  unfold hex_char in *.
  assert (scan_hex (String x (String y (join_pairs false h))) = Some (x :: y :: h)) as E.
  { simpl. rewrite Hx, Hy, IH; simpl; [done | lia | done |].
    by apply Nat.even_spec in Hev; apply Nat.even_spec. }
  cbn [join_pairs]. destruct b; [exact E |]. by rewrite scan_hex_colon.
Qed.

Lemma join_pairs_length h :
  length h = 12%nat -> String.length (join_pairs true h) = 17%nat.
Proof. intros. by do 13 (destruct h as [|? h]; try done). Qed.

Lemma NormaliseMAC_Some s m :
  NormaliseMAC s = Some m <->
  exists h, scan_hex s = Some h /\ length h = 12%nat /\ m = join_pairs true h.
Proof.
  unfold NormaliseMAC. destruct (scan_hex s) as [h|]; [| naive_solver].
  destruct (Nat.eqb_spec (length h) 12); naive_solver.
Qed.

Lemma NormaliseMAC_canonical s m : NormaliseMAC s = Some m -> NormaliseMAC m = Some m.
Proof.
  intros (h & Hs & Hl & ->)%NormaliseMAC_Some. apply NormaliseMAC_Some. exists h.
  split; [| done]. apply scan_hex_join; [by eapply scan_hex_upper |].
  rewrite Hl. by apply Nat.even_spec.
Qed.

(** One device, one spelling. A normalised MAC is 17 characters, is its
    own normal form, and two spellings normalise to the same MAC exactly when
    they carry the same hexadecimal digits up to case, whatever separators
    each uses. *)
Theorem mac_normal_form (s t m n : string) :
  NormaliseMAC s = Some m -> NormaliseMAC t = Some n ->
  String.length m = 17%nat /\ NormaliseMAC m = Some m /\
  (m = n <-> scan_hex s = scan_hex t).
Proof.
  intros Hm Hn. split; [| split; [by eapply NormaliseMAC_canonical |]].
  - apply NormaliseMAC_Some in Hm as (h & _ & Hl & ->). by apply join_pairs_length.
  - pose proof (NormaliseMAC_canonical _ _ Hm) as (h1 & Hs1 & Hl1 & E1)%NormaliseMAC_Some.
    apply NormaliseMAC_Some in Hm as (h & Hs & Hl & ->).
    apply NormaliseMAC_Some in Hn as (k & Ht & Hk & ->).
    assert (forall h s, scan_hex s = Some h -> length h = 12%nat ->
              scan_hex (join_pairs true h) = Some h) as Hj.
    { intros h' s' Hs' Hl'. apply scan_hex_join; [by eapply scan_hex_upper |].
      rewrite Hl'. by apply Nat.even_spec. }
    rewrite Hs, Ht. split; [| congruence].
    intros E. rewrite <- (Hj h s), <- (Hj k t) by done. by rewrite E.
Qed.

Lemma mac_normal_form_witness :
  NormaliseMAC "aabb.ccdd.eeff" = Some "AA:BB:CC:DD:EE:FF"%string /\
  NormaliseMAC "AA-bb-CC-dd-EE-ff" = Some "AA:BB:CC:DD:EE:FF"%string /\
  scan_hex "aabb.ccdd.eeff" = scan_hex "AA-bb-CC-dd-EE-ff".
Proof.
  split; [reflexivity | split; [reflexivity |]].
  apply (mac_normal_form "aabb.ccdd.eeff" "AA-bb-CC-dd-EE-ff"
           "AA:BB:CC:DD:EE:FF" "AA:BB:CC:DD:EE:FF"); reflexivity.
Defined.

Lemma looksLikeMAB_true u p :
  looksLikeMAB u p = true <->
  exists mac, NormaliseMAC u = Some mac /\
    (p = EmptyString \/ NormaliseMAC p = Some mac).
Proof.
  unfold looksLikeMAB. destruct (NormaliseMAC u) as [mac|]; [| naive_solver].
  destruct (String.eqb_spec p EmptyString) as [-> | Hp]; [naive_solver |].
  destruct (NormaliseMAC p) as [pw|]; [| naive_solver].
  destruct (String.eqb_spec pw mac); naive_solver.
Qed.

(** ** [StripDomain]: everything up to the last backslash is dropped *)

Fixpoint last_index (c : ascii) (s : string) : option nat :=
  match s with
  | EmptyString => None
  | String a s =>
      match last_index c s with
      | Some i => Some (S i)
      | None => if Ascii.eqb a c then Some O else None
      end
  end.

Fixpoint drop_string (n : nat) (s : string) : string :=
  match n, s with
  | O, _ => s
  | S n, String _ s => drop_string n s
  | S _, EmptyString => EmptyString
  end.

Definition backslash : ascii := char_of 92.

Definition StripDomain (username : string) : string :=
  match last_index backslash username with
  | Some i => drop_string (S i) username
  | None => username
  end.

Lemma last_index_drop c s i :
  last_index c s = Some i -> last_index c (drop_string (S i) s) = None.
Proof.
  revert i. induction s as [|a s IH]; intros i H; [done |]. simpl in H.
  destruct (last_index c s) as [j|] eqn:Hj; simplify_eq; [by apply (IH j) |].
  destruct (Ascii.eqb a c); by simplify_eq.
Qed.

Lemma StripDomain_idempotent u : StripDomain (StripDomain u) = StripDomain u.
Proof.
  unfold StripDomain at 2 3. destruct (last_index backslash u) as [i|] eqn:Hi.
  - unfold StripDomain. by rewrite (last_index_drop _ _ _ Hi).
  - unfold StripDomain. by rewrite Hi.
Qed.

(** ** Entitlement *)

Definition AuthorisesService (status : string) : bool :=
  String.eqb status "active" || String.eqb status "grace_period" ||
  String.eqb status "soft_suspended".

Record Subscriber : Type := MkSubscriber {
  ID : Z;
  Username : string;
  PasswordHash : string;
  Status : string;
  RateLimitStr : string;
  FUPActive : bool;
  FUPThrottle : string;
  SpeedOverrideRateLimit : string;
  SpeedOverrideExpiresAt : option Z;
  PlanID : Z;
  NTHash : list Z;
  VolumeGB : Z
}.

Definition nonempty (s : string) : bool := negb (String.eqb s EmptyString).

Definition effectiveRateLimit (now : Z) (sub : Subscriber) : string :=
  if nonempty (SpeedOverrideRateLimit sub) &&
     match SpeedOverrideExpiresAt sub with None => true | Some x => now <? x end
  then SpeedOverrideRateLimit sub
  else if FUPActive sub && nonempty (FUPThrottle sub) then FUPThrottle sub
  else RateLimitStr sub.

Definition RateLimitForSubscriber (now : Z) (sub : Subscriber) : string :=
  effectiveRateLimit now sub.

(** An override in force: set, and not past its expiry. *)
Definition override_live (now : Z) (sub : Subscriber) : Prop :=
  SpeedOverrideRateLimit sub <> EmptyString /\
  match SpeedOverrideExpiresAt sub with None => True | Some x => now < x end.

Lemma effectiveRateLimit_override now sub :
  override_live now sub -> effectiveRateLimit now sub = SpeedOverrideRateLimit sub.
Proof.
  intros [Hne Hx]. unfold effectiveRateLimit, nonempty.
  rewrite (proj2 (String.eqb_neq _ _) Hne). simpl.
  destruct (SpeedOverrideExpiresAt sub); [| done].
  by rewrite (proj2 (Z.ltb_lt _ _) Hx).
Qed.

Lemma effectiveRateLimit_no_override now sub :
  ~ override_live now sub ->
  effectiveRateLimit now sub =
  if FUPActive sub && nonempty (FUPThrottle sub) then FUPThrottle sub else RateLimitStr sub.
Proof.
  intros Hn. unfold effectiveRateLimit, override_live, nonempty in *.
  destruct (String.eqb_spec (SpeedOverrideRateLimit sub) EmptyString); [done |]. simpl.
  destruct (SpeedOverrideExpiresAt sub) as [x|]; [| exfalso; tauto].
  destruct (Z.ltb_spec now x); [exfalso; tauto | done].
Qed.

End Identity.
