(* ===== verification/Guard.v ===== *)
(** * internal/radius/ratelimit.go: the brute-force guard

    [BruteForceGuard] over [localcache.Counter], and its abstract
    specification: a lockout is ten failures, none of them cleared by a reset
    or separated by more than the lockout duration. [RecordFailure]'s two clock
    readings (one in [Incr], one in [Expire]) are taken as one instant. *)

From S2P Require Import Prelude LocalCache.

Module Guard.

Definition MaxFailedAttempts : Z := 10.
Definition LockoutDuration : Z := 15 * 60 * 1000000000.

Definition BruteForceKey (username : string) : string := ("bf_attempts:" +:+ username)%string.

Implicit Types (g : gmap string Counter.counterEntry) (u : string).

(** [Check]: (blocked, hasFailures). *)
Definition Check_ (now : Z) u g : bool * bool :=
  match Counter.Get now (BruteForceKey u) g with
  | (n, true) => if MaxFailedAttempts <=? n then (true, true) else (false, true)
  | (_, false) => (false, false)
  end.

Definition IsBlocked (now : Z) u g : bool := (Check_ now u g).1.

Definition RecordFailure (now : Z) u g : gmap string Counter.counterEntry :=
  let '(_, g) := Counter.Incr now (BruteForceKey u) g in
  Counter.Expire now (BruteForceKey u) LockoutDuration g.

Definition Reset_ u g : gmap string Counter.counterEntry :=
  Counter.Reset (BruteForceKey u) g.

(** ** Histories *)

Inductive event : Type :=
| Failed (t : Z) (u : string)
| Cleared (t : Z) (u : string)
| Swept (t : Z).

Definition at_ (e : event) : Z :=
  match e with Failed t _ => t | Cleared t _ => t | Swept t => t end.

Definition apply_event g (e : event) : gmap string Counter.counterEntry :=
  match e with
  | Failed t u => RecordFailure t u g
  | Cleared _ u => Reset_ u g
  | Swept t => Counter.sweep t g
  end.

(** The guard's state after a history, newest event first. *)
Fixpoint state (h : list event) : gmap string Counter.counterEntry :=
  match h with [] => ∅ | e :: h => apply_event (state h) e end.

Fixpoint ordered (now : Z) (h : list event) : Prop :=
  match h with [] => True | e :: h => at_ e <= now /\ ordered (at_ e) h end.

(** The specification: how many of [u]'s failures still count at [now]. *)
Fixpoint streak (now : Z) u (h : list event) : Z :=
  match h with
  | [] => 0
  | Failed t u' :: h =>
      if String.eqb u' u then
        if t + LockoutDuration <? now then 0 else 1 + streak t u h
      else streak now u h
  | Cleared _ u' :: h => if String.eqb u' u then 0 else streak now u h
  | Swept _ :: h => streak now u h
  end.

(** When [u]'s counter lapses: its latest failure plus the lockout. *)
Fixpoint lapse u (h : list event) : option Z :=
  match h with
  | [] => None
  | Failed t u' :: h => if String.eqb u' u then Some (t + LockoutDuration) else lapse u h
  | Cleared _ u' :: h => if String.eqb u' u then None else lapse u h
  | Swept _ :: h => lapse u h
  end.

Lemma BruteForceKey_inj u v : BruteForceKey u = BruteForceKey v -> u = v.
Proof. unfold BruteForceKey. intros H. by simplify_eq/=. Qed.

Lemma streak_bounds now u h : 0 <= streak now u h <= Z.of_nat (length h).
Proof.
  revert now. induction h as [|[t v|t v|t] h IH]; intros now; simpl streak; simpl length.
  - lia.
  - pose proof (IH t). pose proof (IH now). repeat case_match; lia.
  - pose proof (IH now). repeat case_match; lia.
  - specialize (IH now). lia.
Qed.

Lemma streak_zero now u h : lapse u h = None -> streak now u h = 0.
Proof.
  induction h as [|[t v|t v|t] h IH]; simpl; try done; case_match; auto; discriminate.
Qed.

Lemma streak_lapsed now u h x : lapse u h = Some x -> x < now -> streak now u h = 0.
Proof.
  induction h as [|[t v|t v|t] h IH]; simpl; intros Hx Hlt; try done; auto;
    case_match; simplify_eq; auto.
  by rewrite (proj2 (Z.ltb_lt _ _) Hlt).
Qed.

Lemma streak_live now u h x :
  lapse u h = Some x -> now <= x -> streak now u h = streak x u h /\ 1 <= streak now u h.
Proof.
  induction h as [|[t v|t v|t] h IH]; simpl; intros Hx Hle; try done; auto;
    case_match; simplify_eq; auto.
  rewrite (proj2 (Z.ltb_ge _ _)), (proj2 (Z.ltb_ge (t + _) (t + _))) by lia.
  pose proof (streak_bounds t u h). lia.
Qed.

(** What a user's entry is worth, as the specification sees it. *)
Definition expected (now : Z) u (h : list event) : option Counter.counterEntry :=
  match lapse u h with
  | Some x => if x <? now then None else Some (Counter.Entry (streak now u h) (Some x))
  | None => None
  end.

Lemma live_insert_ne now k j e g :
  k <> j -> Counter.live now j (<[k := e]> g) = Counter.live now j g.
Proof. intros. unfold Counter.live. by rewrite lookup_insert_ne. Qed.

Lemma live_RecordFailure_ne now t u v g :
  u <> v -> Counter.live now (BruteForceKey v) (RecordFailure t u g) =
            Counter.live now (BruteForceKey v) g.
Proof.
  intros Hne. assert (BruteForceKey u <> BruteForceKey v) as Hk
    by (intros ?%BruteForceKey_inj; done).
  unfold RecordFailure, Counter.Incr, Counter.Expire. simpl.
  rewrite lookup_insert_eq. by rewrite !live_insert_ne.
Qed.

Lemma live_RecordFailure now t u g :
  t <= now ->
  Counter.live now (BruteForceKey u) (RecordFailure t u g) =
  if t + LockoutDuration <? now then None
  else Some (Counter.Entry
         (i64 (match Counter.live t (BruteForceKey u) g with
               | Some e => Counter.count e | None => 0 end + 1))
         (Some (t + LockoutDuration))).
Proof.
  intros Hle. unfold RecordFailure, Counter.Incr, Counter.Expire, Counter.live. simpl.
  rewrite !lookup_insert_eq. simpl. unfold Counter.lapsed at 1. simpl.
  destruct (t + LockoutDuration <? now); [done |]. do 3 f_equal.
  destruct (g !! BruteForceKey u) as [e|]; simpl; [| done].
  by destruct (Counter.lapsed t e).
Qed.

Lemma live_lapsed_mono now t k g :
  t <= now -> Counter.live t k g = None -> Counter.live now k g = None.
Proof.
  unfold Counter.live, Counter.lapsed. intros Hle.
  destruct (g !! k) as [[n [x|]]|]; simpl; [| done | done].
  destruct (Z.ltb_spec x t); [| done]. intros _.
  by rewrite (proj2 (Z.ltb_lt x now)) by lia.
Qed.

Lemma ordered_later t now h : t <= now -> ordered t h -> ordered now h.
Proof. destruct h; simpl; [done | intros ? [? ?]; split; [lia | done]]. Qed.

(** The guard's entry for each user is exactly the specification's. *)
Lemma state_expected h now u :
  ordered now h -> Z.of_nat (length h) <= max_int64 ->
  Counter.live now (BruteForceKey u) (state h) = expected now u h.
Proof.
  revert now. induction h as [|e h IH]; intros now Hord Hlen; [done |].
  destruct Hord as [Hle Hord]. simpl length in Hlen.
  assert (Counter.live now (BruteForceKey u) (state h) = expected now u h) as IHnow
    by (apply IH; [by eapply ordered_later | lia]).
  unfold expected in *. destruct e as [t v|t v|t]; simpl at_ in *; simpl state;
    simpl lapse; simpl streak.
  - destruct (String.eqb_spec v u) as [-> | Hne]; [| by rewrite live_RecordFailure_ne].
    rewrite live_RecordFailure, IH by (done || lia). pose proof (streak_bounds t u h).
    destruct (t + LockoutDuration <? now); [done |]. do 3 f_equal.
    destruct (lapse u h) as [x|] eqn:Hx; [destruct (Z.ltb_spec x t) |]; simpl.
    + by rewrite (streak_lapsed t u h x).
    + rewrite i64_small by lia. lia.
    + by rewrite (streak_zero t).
  - destruct (String.eqb_spec v u) as [-> | Hne].
    + unfold Counter.live, Reset_, Counter.Reset. by rewrite lookup_delete_eq.
    + rewrite <- IHnow. unfold Counter.live, Reset_, Counter.Reset.
      rewrite lookup_delete_ne; [done |]. intros ?%BruteForceKey_inj. done.
  - by rewrite Counter.live_sweep.
Qed.

(** C6: the guard refines its lockout policy. After any history of failures,
    resets and sweeps for any number of users, [Check] reports a user blocked
    exactly when ten of that user's failures still count (no reset since, no
    two more than [LockoutDuration] apart, the last no older than that), and
    reports a counter exactly when at least one does; other users' histories
    and the sweeper never matter. *)
Theorem guard_refines_lockout (h : list event) (now : Z) (u : string) :
  ordered now h -> Z.of_nat (length h) <= max_int64 ->
  Check_ now u (state h) =
  (MaxFailedAttempts <=? streak now u h, 0 <? streak now u h).
Proof.
  intros Hord Hlen. unfold Check_. rewrite Counter.Get_live, state_expected by done.
  unfold expected. destruct (lapse u h) as [x|] eqn:Hx.
  - destruct (Z.ltb_spec x now); simpl.
    + by rewrite (streak_lapsed now u h x).
    + destruct (streak_live now u h x) as [_ H1]; [done | done |].
      rewrite (proj2 (Z.ltb_lt 0 _)) by lia.
      by destruct (MaxFailedAttempts <=? streak now u h).
  - by rewrite streak_zero.
Qed.

Lemma guard_refines_lockout_witness :
  Check_ 20 "u" (state (Failed 12 "v" :: replicate 9 (Failed 11 "u") ++
                         [Swept 10; Failed 9 "u"; Cleared 5 "u"; Failed 3 "u"]))
  = (true, true).
Proof.
  rewrite guard_refines_lockout; [vm_compute; reflexivity | simpl; lia | vm_compute; congruence].
Defined.

End Guard.
