(* ===== verification/Nas.v ===== *)
(** * internal/nas: vendor bandwidth attributes and the NAS resolver

    The per-vendor attribute builders (mikrotik.go, huawei.go, zte.go,
    cisco.go, juniper.go, wireless.go over common.go), the builder registry
    (registry.go) and the cached NAS inventory (resolver.go).
    [radius.NewVendorSpecific] belongs to the RADIUS packet library and is a
    section variable; so is [crypto.Decrypt] of a stored secret here. *)

From S2P Require Import Prelude GoStrings.
From Stdlib Require Import Ascii.

Local Open Scope go_scope.

Module Nas.

(** [Vendor] is a string type; these are its registered values. *)
Definition VendorMikrotik : string := "mikrotik".
Definition VendorHuawei : string := "huawei".
Definition VendorZTE : string := "zte".
Definition VendorCisco : string := "cisco".
Definition VendorJuniper : string := "juniper".
Definition VendorCiscoWLC : string := "cisco_wlc".
Definition VendorAruba : string := "aruba".
Definition VendorRuckus : string := "ruckus".

Record RateProfile : Type := MkProfile { RateLimitString : string; ProfileName : string }.
Record Attr : Type := MkAttr { Type_ : Z; Value : list Z }.

Record Device : Type := MkDevice {
  ID : Z;
  IP : string;
  Vendor : string;
  Secret : string;
  CoAPort : Z;
  PoDPort : Z;
  AllowMAB : bool
}.

Inductive error : Type :=
| EmptyRateLimit
| EmptyProfile (vendor : string)
| RateFormat (s : string)
| EmptyToken
| BadToken (tok : string)
| TokenOverflow (tok : string)
| ValueTooLong (vendorID subType len : Z)
| BuildVSA.

(** ** common.go *)

Definition max_uint32 : Z := 2 ^ 32 - 1.

Definition uint32BE (v : Z) : list Z :=
  [u8 (Z.shiftr v 24); u8 (Z.shiftr v 16); u8 (Z.shiftr v 8); u8 v].

Definition split_unit (tok : string) : Z * string :=
  match last_char tok with
  | Some (num, "k"%char) | Some (num, "K"%char) => (1000, num)
  | Some (num, "m"%char) | Some (num, "M"%char) => (1000000, num)
  | Some (num, "g"%char) | Some (num, "G"%char) => (1000000000, num)
  | _ => (1, tok)
  end.

Definition parseRateToken (tok : string) : result error Z :=
  let tok := trim_space tok in
  if String.eqb tok EmptyString then Err EmptyToken
  else
    let '(mult, numPart) := split_unit tok in
    match parse_uint max_uint32 numPart with
    | None => Err (BadToken tok)
    | Some n =>
        let val := n * mult in
        if max_uint32 <? val then Err (TokenOverflow tok) else Ok val
    end.

Definition parseRateLimitString (s : string) : result error (Z * Z) :=
  match cut "/" s with
  | None => Err (RateFormat s)
  | Some (p0, p1) =>
      let! first := parseRateToken p0 in
      let! second := parseRateToken p1 in
      Ok (first, second)
  end.

Section Builders.
(** [radius.NewVendorSpecific(vendorID, value)]; [None] is its error. *)
Variable NewVendorSpecific : Z -> list Z -> option (list Z).

Definition buildVendorSubAttr (vendorID subType : Z) (value : list Z) : result error Attr :=
  let n := Z.of_nat (length value) in
  if 255 <? 2 + n then Err (ValueTooLong vendorID subType n)
  else
    let data := [subType; u8 (2 + n)] ++ value in
    match NewVendorSpecific vendorID data with
    | None => Err BuildVSA
    | Some v => Ok (MkAttr 26 v)
    end.

Definition mikrotikRateLimitAttrs (rateLimit : string) : result error (list Attr) :=
  if String.eqb rateLimit EmptyString then Err EmptyRateLimit
  else
    let rl := bytes_of_string rateLimit in
    let n := Z.of_nat (length rl) in
    let len_byte := if 2 + n <=? 255 then u8 (2 + n) else 255 in
    match NewVendorSpecific 14988 ([8; len_byte] ++ rl) with
    | None => Err BuildVSA
    | Some v => Ok [MkAttr 26 v]
    end.

Definition rateAttrs (vendorID inType outType : Z) (rateLimit : string) : result error (list Attr) :=
  let! io := parseRateLimitString rateLimit in
  let! inAttr := buildVendorSubAttr vendorID inType (uint32BE io.1) in
  let! outAttr := buildVendorSubAttr vendorID outType (uint32BE io.2) in
  Ok [inAttr; outAttr].

Definition huaweiRateAttrs : string -> result error (list Attr) := rateAttrs 2011 24 25.
Definition zteRateAttrs : string -> result error (list Attr) := rateAttrs 3902 201 202.

Definition buildAVPair (pair : string) : result error Attr :=
  buildVendorSubAttr 9 1 (bytes_of_string pair).

Definition ciscoAVPairAttrs (profileName : string) : result error (list Attr) :=
  if String.eqb profileName EmptyString then Err (EmptyProfile VendorCisco)
  else
    let! i := buildAVPair ("subscriber:sub-qos-policy-in=" +:+ profileName) in
    let! o := buildAVPair ("subscriber:sub-qos-policy-out=" +:+ profileName) in
    Ok [i; o].

Definition juniperFilterAttrs (profileName : string) : result error (list Attr) :=
  if String.eqb profileName EmptyString then Err (EmptyProfile VendorJuniper)
  else Ok [MkAttr 11 (bytes_of_string profileName)].

Definition wirelessProfileAttrs (vendorName : string) (vendorID subType : Z)
    (profileName : string) : result error (list Attr) :=
  if String.eqb profileName EmptyString then Err (EmptyProfile vendorName)
  else
    let! a := buildVendorSubAttr vendorID subType (bytes_of_string profileName) in
    Ok [a].

(** [AttributeBuilder]: what every vendor implements. *)
Record AttributeBuilder : Type := MkBuilder {
  BuildAccept : RateProfile -> result error (list Attr);
  BuildCoA : RateProfile -> result error (list Attr)
}.

Definition on_rate (f : string -> result error (list Attr)) : AttributeBuilder :=
  MkBuilder (fun p => f (RateLimitString p)) (fun p => f (RateLimitString p)).
Definition on_profile (f : string -> result error (list Attr)) : AttributeBuilder :=
  MkBuilder (fun p => f (ProfileName p)) (fun p => f (ProfileName p)).

Definition builders : list (string * AttributeBuilder) :=
  [(VendorMikrotik, on_rate mikrotikRateLimitAttrs);
   (VendorHuawei, on_rate huaweiRateAttrs);
   (VendorZTE, on_rate zteRateAttrs);
   (VendorCisco, on_profile ciscoAVPairAttrs);
   (VendorJuniper, on_profile juniperFilterAttrs);
   (VendorCiscoWLC, on_profile (wirelessProfileAttrs VendorCiscoWLC 14179 2));
   (VendorAruba, on_profile (wirelessProfileAttrs VendorAruba 14823 1));
   (VendorRuckus, on_profile (wirelessProfileAttrs VendorRuckus 25053 1))].

Definition registered (vendor : string) : option AttributeBuilder :=
  snd <$> List.find (fun b => String.eqb (fst b) vendor) builders.

Definition KnownVendor (vendor : string) : bool := bool_decide (is_Some (registered vendor)).

Definition BuilderFor (vendor : string) : AttributeBuilder :=
  match registered vendor with
  | Some b => b
  | None => on_rate mikrotikRateLimitAttrs
  end.

Definition BuildAcceptAttrs (vendor : string) (p : RateProfile) : result error (list Attr) :=
  BuildAccept (BuilderFor vendor) p.
Definition BuildCoAAttrs (vendor : string) (p : RateProfile) : result error (list Attr) :=
  BuildCoA (BuilderFor vendor) p.

End Builders.

(** Reading four big-endian bytes back. *)
Definition be32 (b : list Z) : Z :=
  match b with
  | [a; b; c; d] => ((a * 256 + b) * 256 + c) * 256 + d
  | _ => 0
  end.

Lemma be32_uint32BE v : 0 <= v <= max_uint32 -> be32 (uint32BE v) = v.
Proof.
  unfold be32, uint32BE, u8, max_uint32. rewrite !Z.shiftr_div_pow2 by lia.
  intros. change (2 ^ 24) with (256 * (256 * 256)). change (2 ^ 16) with (256 * 256).
  change (2 ^ 8) with 256. rewrite <- !Z.div_div by lia.
  assert (v / 256 / 256 / 256 < 256) by (repeat (apply Z.div_lt_upper_bound; [lia |]); lia).
  pose proof (Z.div_pos v 256 ltac:(lia) ltac:(lia)).
  pose proof (Z.div_pos (v / 256) 256 ltac:(lia) ltac:(lia)).
  pose proof (Z.div_pos (v / 256 / 256) 256 ltac:(lia) ltac:(lia)).
  rewrite (Z.mod_small (v / 256 / 256 / 256)) by lia.
  pose proof (Z.div_mod v 256). pose proof (Z.div_mod (v / 256) 256).
  pose proof (Z.div_mod (v / 256 / 256) 256). lia.
Qed.

Lemma parseRateToken_range tok v : parseRateToken tok = Ok v -> 0 <= v <= max_uint32.
Proof.
  unfold parseRateToken. destruct (String.eqb _ _); [done |].
  destruct (split_unit (trim_space tok)) as [mult num] eqn:Hu.
  destruct (parse_uint max_uint32 num) as [n|] eqn:Hn; [| done].
  destruct (Z.ltb_spec max_uint32 (n * mult)); [done |]. intros [= <-].
  apply parse_uint_range in Hn. enough (0 <= mult) by nia.
  unfold split_unit in Hu. repeat case_match; simplify_eq; lia.
Qed.

Lemma parseRateLimitString_range s a b :
  parseRateLimitString s = Ok (a, b) -> 0 <= a <= max_uint32 /\ 0 <= b <= max_uint32.
Proof.
  unfold parseRateLimitString. destruct (cut "/" s) as [[p0 p1]|]; [| done].
  intros (x & Hx & (y & Hy & [= -> ->])%rbind_Ok_inv)%rbind_Ok_inv.
  eauto using parseRateToken_range.
Qed.

(** Any 4-byte sub-attribute is a length-6 type-length-value triple. *)
Lemma buildVendorSubAttr_four nvs vid st value a :
  length value = 4%nat -> buildVendorSubAttr nvs vid st value = Ok a ->
  exists v, nvs vid ([st; 6] ++ value) = Some v /\ a = MkAttr 26 v.
Proof.
  intros Hl. unfold buildVendorSubAttr. rewrite Hl.
  change (255 <? 2 + Z.of_nat 4) with false. change (u8 (2 + Z.of_nat 4)) with 6.
  destruct (nvs vid ([st; 6] ++ value)) as [v|]; [| done]. intros [= <-]. by exists v.
Qed.

(** What a rate-based vendor is told is the plan's rate, to the bit. When
    the Huawei or ZTE builder succeeds, the plan's rate string parsed to two
    values that fit 32 bits, and the two sub-attributes it emits are
    type-length-value triples of length 6 whose 4-byte value decodes back to
    exactly those rates, first for input and second for output. *)
Theorem rate_attributes_exact (nvs : Z -> list Z -> option (list Z))
    (vendorID inType outType : Z) (s : string) (attrs : list Attr) :
  rateAttrs nvs vendorID inType outType s = Ok attrs ->
  exists a b v w,
    parseRateLimitString s = Ok (a, b) /\ attrs = [MkAttr 26 v; MkAttr 26 w] /\
    nvs vendorID ([inType; 6] ++ uint32BE a) = Some v /\ be32 (uint32BE a) = a /\
    nvs vendorID ([outType; 6] ++ uint32BE b) = Some w /\ be32 (uint32BE b) = b.
Proof.
  unfold rateAttrs. intros ([a b] & Hp & H)%rbind_Ok_inv.
  destruct (parseRateLimitString_range _ _ _ Hp) as [Ha Hb].
  apply rbind_Ok_inv in H as (x & Hx & (y & Hy & [= <-])%rbind_Ok_inv).
  apply buildVendorSubAttr_four in Hx as (v & Hv & ->); [| done].
  apply buildVendorSubAttr_four in Hy as (w & Hw & ->); [| done].
  exists a, b, v, w. auto 8 using be32_uint32BE.
Qed.

Lemma rate_attributes_exact_witness :
  exists a b v w,
    parseRateLimitString "50M/ 10m" = Ok (a, b) /\
    [MkAttr 26 [24; 6; 2; 250; 240; 128]; MkAttr 26 [25; 6; 0; 152; 150; 128]] =
      [MkAttr 26 v; MkAttr 26 w] /\
    Some ([24; 6] ++ uint32BE a) = Some v /\ be32 (uint32BE a) = a /\
    Some ([25; 6] ++ uint32BE b) = Some w /\ be32 (uint32BE b) = b.
Proof. apply (rate_attributes_exact (fun _ v => Some v) 2011 24 25). reflexivity. Defined.

(** ** resolver.go: the cached inventory *)

Record DeviceRow : Type := MkDeviceRow {
  row_ID : Z;
  row_IP : string;
  row_Vendor : string;
  row_RadiusSecretEncrypted : string;
  row_CoAPort : Z;
  row_PoDPort : Z;
  row_AllowMAB : bool
}.

Record PlanProfileRow : Type := MkPlanProfileRow {
  prof_PlanID : Z;
  prof_Vendor : string;
  prof_Name : string
}.

Record Resolver : Type := MkResolver {
  byIP : gmap string Device;
  planProfiles : gmap string string;
  defaultSecret : string;
  defaultCoAPort : Z;
  defaultPoDPort : Z
}.

Definition NewResolver (secret : string) (port : Z) : Resolver :=
  MkResolver ∅ ∅ secret port port.

Definition planVendorKey (planID : Z) (vendor : string) : string :=
  format_int planID +:+ String ":" vendor.

Section Refresh.
Variable Decrypt : string -> option string.

Definition device_of_row (r : Resolver) (row : DeviceRow) (secret : string) : Device :=
  let coaPort := if row_CoAPort row =? 0 then defaultCoAPort r else row_CoAPort row in
  let podPort := if row_PoDPort row =? 0 then defaultPoDPort r else row_PoDPort row in
  MkDevice (row_ID row) (row_IP row) (row_Vendor row) secret coaPort podPort (row_AllowMAB row).

Definition add_row (r : Resolver) (next : gmap string Device) (row : DeviceRow) : gmap string Device :=
  match Decrypt (row_RadiusSecretEncrypted row) with
  | None => next
  | Some secret => <[row_IP row := device_of_row r row secret]> next
  end.

Definition add_profile (next : gmap string string) (row : PlanProfileRow) : gmap string string :=
  <[planVendorKey (prof_PlanID row) (prof_Vendor row) := prof_Name row]> next.

(** [Refresh] with the two store answers; [false] is its error return. *)
Definition Refresh (devices : option (list DeviceRow)) (profiles : option (list PlanProfileRow))
    (r : Resolver) : bool * Resolver :=
  match devices with
  | None => (false, r)
  | Some rows =>
      match profiles with
      | None => (false, r)
      | Some prows =>
          (true, MkResolver (foldl (add_row r) ∅ rows) (foldl add_profile ∅ prows)
                   (defaultSecret r) (defaultCoAPort r) (defaultPoDPort r))
      end
  end.

End Refresh.

Definition ResolveProfile (r : Resolver) (planID : Z) (vendor : string) : string :=
  match planProfiles r !! planVendorKey planID vendor with
  | Some name => name
  | None => EmptyString
  end.

Definition Resolve (r : Resolver) (ip : string) : Device :=
  match byIP r !! ip with
  | Some d => d
  | None => MkDevice 0 ip VendorMikrotik (defaultSecret r) (defaultCoAPort r) (defaultPoDPort r) false
  end.

(** [net.Addr]: a UDP address renders its IP; any other address goes through
    [net.SplitHostPort], whose answer the value carries. *)
Inductive Addr : Type :=
| UDPAddr (ip : string)
| OtherAddr (host : option string).

Definition hostFromAddr (a : Addr) : option string :=
  match a with UDPAddr ip => Some ip | OtherAddr h => h end.

Definition ResolveAddr (r : Resolver) (a : Addr) : Device :=
  match hostFromAddr a with
  | None => MkDevice 0 EmptyString VendorMikrotik (defaultSecret r) (defaultCoAPort r)
              (defaultPoDPort r) false
  | Some ip => Resolve r ip
  end.

Definition RADIUSSecret (r : Resolver) (a : Addr) : string := Secret (ResolveAddr r a).

(** ** The specification: the last usable row for a key wins *)

Definition usable (Decrypt : string -> option string) (ip : string) (row : DeviceRow) : option (DeviceRow * string) :=
  if String.eqb (row_IP row) ip then
    match Decrypt (row_RadiusSecretEncrypted row) with
    | Some secret => Some (row, secret)
    | None => None
    end
  else None.

Lemma last_snoc_omap {A B} (f : A -> option B) l x :
  last (omap f (l ++ [x])) = match f x with Some y => Some y | None => last (omap f l) end.
Proof.
  rewrite omap_app. simpl. destruct (f x); [by rewrite last_snoc | by rewrite app_nil_r].
Qed.

Lemma add_rows_lookup Decrypt r rows ip :
  foldl (add_row Decrypt r) ∅ rows !! ip =
  (fun p => device_of_row r p.1 p.2) <$> last (omap (usable Decrypt ip) rows).
Proof.
  induction rows as [|row rows IH] using rev_ind; [done |].
  rewrite foldl_snoc, last_snoc_omap. unfold add_row at 1. unfold usable at 1.
  destruct (String.eqb_spec (row_IP row) ip) as [<- | Hne];
    destruct (Decrypt (row_RadiusSecretEncrypted row)); try done.
  - by rewrite lookup_insert_eq.
  - by rewrite lookup_insert_ne.
Qed.

Lemma planVendorKey_inj p v q w :
  string_forall (fun d => negb (Ascii.eqb d ":")) v = true ->
  string_forall (fun d => negb (Ascii.eqb d ":")) w = true ->
  planVendorKey p v = planVendorKey q w -> p = q /\ v = w.
Proof.
  intros Hv Hw H. unfold planVendorKey in H. apply app_sep_inj in H as [Hp ->]; [| done | done].
  by apply format_int_inj in Hp.
Qed.

(** The resolver serves the inventory and nothing else. After a successful
    refresh, a NAS resolves to its last row whose secret decrypts, with the
    default ports standing in for zeros; any other address gets the MikroTik
    default with the shared secret and with MAC authentication off. A refresh
    either of whose queries fails leaves every answer as it was. *)
Theorem resolver_serves_inventory (Decrypt : string -> option string)
    (devices : option (list DeviceRow)) (profiles : option (list PlanProfileRow))
    (r : Resolver) (ip : string) :
  let '(ok, r') := Refresh Decrypt devices profiles r in
  match devices, profiles with
  | Some rows, Some _ =>
      ok = true /\
      match last (omap (usable Decrypt ip) rows) with
      | Some (row, secret) => Resolve r' ip = device_of_row r row secret
      | None => Vendor (Resolve r' ip) = VendorMikrotik /\
                Secret (Resolve r' ip) = defaultSecret r /\
                AllowMAB (Resolve r' ip) = false
      end
  | _, _ => ok = false /\ r' = r
  end.
Proof.
  destruct devices as [rows|]; [| done]. destruct profiles as [prows|]; [| done].
  simpl. split; [done |]. unfold Resolve. simpl. rewrite add_rows_lookup.
  by destruct (last _) as [[row secret]|].
Qed.

End Nas.
