(* ===== verification/MSCHAPv2.v ===== *)
(** * internal/radius/mschapv2.go: MS-CHAPv2 verification (RFC 2759)

    The hash and cipher primitives are an interface, [Crypto]; the key
    expansion, challenge hashing, response computation and comparison built
    on them are the source's. *)

From S2P Require Import Prelude GoStrings.
From Stdlib Require Import Ascii.

Local Open Scope go_scope.

Module MSCHAPv2.

(** [md4.New], [sha1.New] and a [des] block under an 8-byte key. *)
Class Crypto : Type := {
  md4 : list Z -> list Z;
  sha1 : list Z -> list Z;
  des_encrypt : list Z -> list Z -> list Z
}.

(** The sizes their documentation fixes. *)
Class CryptoSizes `{Crypto} : Prop := {
  md4_size m : length (md4 m) = 16%nat;
  sha1_size m : length (sha1 m) = 20%nat;
  des_size k b : length (des_encrypt k b) = length b
}.

Inductive error : Type :=
| ErrNoNTHash
| ErrBadNTResponse
| ErrChallengeSize (authenticator peer : Z)
| ErrHashSize (n : Z)
| ErrResponseSize (n : Z)
| Panic.

Definition len (b : list Z) : Z := Z.of_nat (length b).
Definition ntHashLen : Z := 16.

Definition magic1 : list Z := bytes_of_string "Magic server to client signing constant".
Definition magic2 : list Z := bytes_of_string "Pad to make it do more than one iteration".

(** Inserting a parity bit after every seven key bits. *)
Definition desKeyFromSeven (k : list Z) : list Z :=
  let k7 i := nth i k 0 in
  [k7 0%nat;
   u8 (Z.lor (u8 (Z.shiftl (k7 0%nat) 7)) (Z.shiftr (k7 1%nat) 1));
   u8 (Z.lor (u8 (Z.shiftl (k7 1%nat) 6)) (Z.shiftr (k7 2%nat) 2));
   u8 (Z.lor (u8 (Z.shiftl (k7 2%nat) 5)) (Z.shiftr (k7 3%nat) 3));
   u8 (Z.lor (u8 (Z.shiftl (k7 3%nat) 4)) (Z.shiftr (k7 4%nat) 4));
   u8 (Z.lor (u8 (Z.shiftl (k7 4%nat) 3)) (Z.shiftr (k7 5%nat) 5));
   u8 (Z.lor (u8 (Z.shiftl (k7 5%nat) 2)) (Z.shiftr (k7 6%nat) 6));
   u8 (Z.shiftl (k7 6%nat) 1)].

(** [utf16.Encode] of the runes of a password, and their little-endian bytes. *)
Definition utf16_units (r : Z) : list Z :=
  if (0 <=? r) && (r <? 55296) || (57344 <=? r) && (r <? 65536) then [r]
  else if (65536 <=? r) && (r <=? 1114111) then
    [55296 + Z.land (Z.shiftr (r - 65536) 10) 1023; 56320 + Z.land (r - 65536) 1023]
  else [65533].

Definition utf16le (runes : list Z) : list Z :=
  flat_map (fun u => [u8 u; u8 (Z.shiftr u 8)]) (flat_map utf16_units runes).

Definition hex_digit (n : Z) : ascii := char_of (if n <? 10 then 48 + n else 87 + n).
Fixpoint hex_encode (b : list Z) : string :=
  match b with
  | [] => EmptyString
  | z :: b => String (hex_digit (z / 16)) (String (hex_digit (z mod 16)) (hex_encode b))
  end.

Section Protocol.
Context `{Crypto}.

Definition NTPasswordHash (runes : list Z) : list Z := md4 (utf16le runes).
Definition hashNTPasswordHash (ntHash : list Z) : list Z := md4 ntHash.

Definition challengeHash (peerChallenge authenticatorChallenge : list Z) (username : string) : list Z :=
  take 8 (sha1 (peerChallenge ++ authenticatorChallenge ++ bytes_of_string username)).

(** The loop over [i = 0, 1, 2]: three DES blocks of the challenge. *)
Definition challengeResponse (challenge ntHash : list Z) : result error (list Z) :=
  if negb (len challenge =? 8) then Err (ErrChallengeSize (len challenge) 8)
  else if negb (len ntHash =? ntHashLen) then Err (ErrHashSize (len ntHash))
  else
    let padded := ntHash ++ replicate 5 0 in
    Ok (foldl (fun out i =>
                 let key := desKeyFromSeven (take 7 (drop (i * 7) padded)) in
                 out ++ des_encrypt key challenge) [] [0; 1; 2]%nat).

Definition GenerateNTResponse (authenticatorChallenge peerChallenge : list Z)
    (username : string) (ntHash : list Z) : result error (list Z) :=
  if negb (len authenticatorChallenge =? 16) || negb (len peerChallenge =? 16) then
    Err (ErrChallengeSize (len authenticatorChallenge) (len peerChallenge))
  else challengeResponse (challengeHash peerChallenge authenticatorChallenge username) ntHash.

Definition GenerateAuthenticatorResponse (ntHash ntResponse peerChallenge
    authenticatorChallenge : list Z) (username : string) : result error string :=
  if negb (len ntResponse =? 24) then Err (ErrResponseSize (len ntResponse))
  else if negb (len ntHash =? ntHashLen) then Err (ErrHashSize (len ntHash))
  else
    let hashHash := hashNTPasswordHash ntHash in
    let digest := sha1 (hashHash ++ ntResponse ++ magic1) in
    let chHash := challengeHash peerChallenge authenticatorChallenge username in
    Ok ("S=" +:+ to_upper (hex_encode (sha1 (digest ++ chHash ++ magic2)))).

(** The byte-by-byte comparison loop. *)
Fixpoint same_bytes (expected got : list Z) : bool :=
  match expected, got with
  | [], [] => true
  | x :: expected, y :: got => (x =? y) && same_bytes expected got
  | _, _ => false
  end.

Definition VerifyMSCHAPv2 (ntHash authenticatorChallenge peerChallenge ntResponse : list Z)
    (username : string) : result error string :=
  if len ntHash =? 0 then Err ErrNoNTHash
  else
    let! expected := GenerateNTResponse authenticatorChallenge peerChallenge username ntHash in
    if negb (len expected =? len ntResponse) then Err ErrBadNTResponse
    else if negb (same_bytes expected ntResponse) then Err ErrBadNTResponse
    else GenerateAuthenticatorResponse ntHash ntResponse peerChallenge
           authenticatorChallenge username.

Lemma same_bytes_eq x y : same_bytes x y = true <-> x = y.
Proof.
  revert y. induction x as [|a x IH]; intros [|b y]; simpl; try done.
  rewrite andb_true_iff, Z.eqb_eq, IH. naive_solver.
Qed.

Lemma challengeResponse_size challenge ntHash r `{!CryptoSizes} :
  challengeResponse challenge ntHash = Ok r -> length r = 24%nat.
Proof.
  unfold challengeResponse, len. destruct (Z.eqb_spec (Z.of_nat (length challenge)) 8); [| done].
  simpl. destruct (negb _); [done |]. intros [= <-].
  rewrite !length_app, !des_size. simpl. lia.
Qed.

(** MS-CHAPv2 verification is sound and complete. A response is accepted
    exactly when the subscriber has a 16-byte NT hash, both challenges are 16
    bytes, and the response is the one RFC 2759 computes from that hash and
    those challenges; a subscriber with no hash is reported as not enrolled,
    and a response that differs in any byte is refused. *)
Theorem verify_mschapv2_exact `{!CryptoSizes} (ntHash ac pc nr : list Z) (u : string) :
  (is_ok (VerifyMSCHAPv2 ntHash ac pc nr u) = true <->
   GenerateNTResponse ac pc u ntHash = Ok nr /\ length ntHash = 16%nat) /\
  (ntHash = [] -> VerifyMSCHAPv2 ntHash ac pc nr u = Err ErrNoNTHash) /\
  (forall expected, GenerateNTResponse ac pc u ntHash = Ok expected -> expected <> nr ->
     VerifyMSCHAPv2 ntHash ac pc nr u = Err ErrBadNTResponse).
Proof.
  assert (forall e, GenerateNTResponse ac pc u ntHash = Ok e ->
            len ntHash = 16 /\ length e = 24%nat) as Hgen.
  { intros e. unfold GenerateNTResponse. destruct (_ || _); [done |]. intros He. split.
    - revert He. unfold challengeResponse, ntHashLen. destruct (negb _); [done |].
      by destruct (Z.eqb_spec (len ntHash) 16).
    - by eapply challengeResponse_size. }
  assert (forall e, GenerateNTResponse ac pc u ntHash = Ok e -> e <> nr ->
            VerifyMSCHAPv2 ntHash ac pc nr u = Err ErrBadNTResponse) as Hbad.
  { intros e He Hne. destruct (Hgen e He) as [Hl _]. unfold VerifyMSCHAPv2.
    rewrite Hl, He. simpl. destruct (negb (len e =? len nr)); [done |].
    destruct (same_bytes e nr) eqn:Hs; [| done]. by apply same_bytes_eq in Hs. }
  split; [split | split; [by intros -> | exact Hbad]].
  - unfold VerifyMSCHAPv2. destruct (len ntHash =? 0); [done |].
    destruct (GenerateNTResponse ac pc u ntHash) as [e|] eqn:He; [| done]. simpl.
    destruct (Hgen e eq_refl) as [Hl _].
    destruct (negb (len e =? len nr)); [done |].
    destruct (same_bytes e nr) eqn:Hs; [| done]. apply same_bytes_eq in Hs as ->.
    split; [done | unfold len in Hl; lia].
  - intros [He Hl]. destruct (Hgen nr He) as [Hl' Hr]. unfold VerifyMSCHAPv2.
    rewrite Hl', He. simpl. rewrite Z.eqb_refl, (proj2 (same_bytes_eq nr nr)) by done. simpl.
    unfold GenerateAuthenticatorResponse, ntHashLen. rewrite Hl'. unfold len.
    by rewrite Hr.
Qed.

End Protocol.

(** A toy instance: enough to run the protocol code on concrete inputs. *)
#[export] Instance toy_crypto : Crypto := {|
  md4 m := take 16 (m ++ replicate 16 7);
  sha1 m := take 20 (m ++ replicate 20 9);
  des_encrypt k b := zip_with Z.lxor b (take (length b) (k ++ replicate (length b) 0))
|}.

#[export] Instance toy_sizes : CryptoSizes.
Proof.
  split; intros; cbn [md4 sha1 des_encrypt toy_crypto].
  - rewrite length_take, length_app, length_replicate. lia.
  - rewrite length_take, length_app, length_replicate. lia.
  - rewrite length_zip_with, length_take, length_app, length_replicate. lia.
Qed.

Lemma verify_mschapv2_exact_witness :
  is_ok (VerifyMSCHAPv2 (replicate 16 3) (replicate 16 1) (replicate 16 2)
           (match GenerateNTResponse (replicate 16 1) (replicate 16 2) "alice" (replicate 16 3)
            with Ok r => r | Err _ => [] end) "alice") = true /\
  VerifyMSCHAPv2 [] (replicate 16 1) (replicate 16 2) [] "alice" = Err ErrNoNTHash.
Proof.
  split.
  - apply (verify_mschapv2_exact (replicate 16 3) (replicate 16 1) (replicate 16 2)).
    split; vm_compute; reflexivity.
  - apply (verify_mschapv2_exact [] (replicate 16 1) (replicate 16 2) [] "alice"). reflexivity.
Defined.

(** ** The DES key expansion loses no key bit *)

Definition be_value (base : Z) : list Z -> Z := foldl (fun acc x => acc * base + x) 0.

Lemma or_split x y n m :
  n + m = 8 -> 0 < n -> 0 < m -> is_byte x -> is_byte y ->
  u8 (Z.lor (u8 (Z.shiftl x m)) (Z.shiftr y n)) = (x mod 2 ^ n) * 2 ^ m + y / 2 ^ n.
Proof.
  unfold is_byte. intros Hnm Hn Hm Hx Hy. unfold u8.
  assert (256 = 2 ^ n * 2 ^ m) as E by (rewrite <- Z.pow_add_r by lia; by rewrite Hnm).
  assert (0 < 2 ^ n) by (apply Z.pow_pos_nonneg; lia).
  assert (0 < 2 ^ m) by (apply Z.pow_pos_nonneg; lia).
  assert (0 <= y / 2 ^ n < 2 ^ m) as Hq.
  { split; [apply Z.div_pos; lia | apply Z.div_lt_upper_bound; lia]. }
  assert (Z.shiftl x m mod 256 = Z.shiftl (x mod 2 ^ n) m) as ->.
  { rewrite !Z.shiftl_mul_pow2 by lia. rewrite E. by rewrite Z.mul_mod_distr_r by lia. }
  rewrite Z.shiftr_div_pow2, lor_shiftl_add by lia.
  pose proof (Z.mod_pos_bound x (2 ^ n) ltac:(lia)). apply Z.mod_small. nia.
Qed.

(** Expanding seven key bytes to eight keeps all 56 key bits, in order.
    Dropping the parity bit of each output byte and reading the seven-bit
    groups as one number gives back the number the input bytes spell. *)
Theorem des_key_bits_preserved (k : list Z) :
  length k = 7%nat -> Forall is_byte k ->
  length (desKeyFromSeven k) = 8%nat /\ Forall is_byte (desKeyFromSeven k) /\
  be_value 128 (map (fun b => b / 2) (desKeyFromSeven k)) = be_value 256 k.
Proof.
  intros Hl Hb. do 8 (destruct k as [|? k]; try done).
  repeat match goal with H : Forall is_byte (_ :: _) |- _ => apply Forall_cons in H as [? ?] end.
  split; [done |]. unfold desKeyFromSeven. simpl nth.
  split; [repeat apply Forall_cons_2; auto using u8_byte |].
  rewrite (or_split z z0 1 7), (or_split z0 z1 2 6), (or_split z1 z2 3 5), (or_split z2 z3 4 4),
    (or_split z3 z4 5 3), (or_split z4 z5 6 2) by done.
  replace (u8 (Z.shiftl z5 1)) with ((z5 mod 128) * 2).
  2: { unfold u8. rewrite Z.shiftl_mul_pow2 by lia. change 256 with (128 * 2).
       change (2 ^ 1) with 2. by rewrite Z.mul_mod_distr_r by lia. }
  unfold be_value, is_byte in *. simpl. change (2 ^ 1) with 2. change (2 ^ 2) with 4.
  change (2 ^ 3) with 8. change (2 ^ 4) with 16. change (2 ^ 5) with 32.
  change (2 ^ 6) with 64. change (2 ^ 7) with 128.
  Z.to_euclidean_division_equations. lia.
Qed.

Lemma des_key_bits_preserved_witness :
  be_value 128 (map (fun b => b / 2) (desKeyFromSeven [255; 1; 2; 3; 128; 77; 200]))
  = be_value 256 [255; 1; 2; 3; 128; 77; 200].
Proof.
  apply des_key_bits_preserved; [reflexivity |]. repeat constructor; discriminate.
Defined.

End MSCHAPv2.
