(* ===== verification/VerifierCache.v ===== *)
(** * internal/radius/verifiercache.go and internal/db/verifiercache.go

    The two-tier fast-verifier cache: an in-process map (L1) and the
    [radius_verifier_cache] table (L2). The keyed hash is the interface
    [Mac]; the message it is applied to is the source's length-prefixed
    encoding. The SQL statements are modelled as functions on the table, a
    [gmap] keyed by its primary key. *)

From S2P Require Import Prelude LocalCache.
From stdpp Require Import sorting.

Local Open Scope Z_scope.

Module VerifierCache.

(** [hmac.New(sha256.New, secret)] applied to a message. *)
Class Mac : Type := hmac : list Z -> list Z -> list Z.

Definition verifierCacheTTL : Z := 5 * 60 * 1000000000.

Definition verifierKey (username : string) : string := "radius_verifier:" +:+ username.

(** [binary.BigEndian.PutUint64]. *)
Definition put_be64 (z : Z) : list Z :=
  map (fun i => u8 (Z.shiftr z (8 * (7 - i)))) [0; 1; 2; 3; 4; 5; 6; 7].

Definition writeLengthPrefixed (s : string) : list Z :=
  put_be64 (Z.of_nat (String.length s)) ++ bytes_of_string s.

Definition message (password passwordHash : string) : list Z :=
  writeLengthPrefixed password ++ writeLengthPrefixed passwordHash.

(** One row of [radius_verifier_cache]; [subscriber_id] is the key. *)
Record Row : Type := MkRow { username : string; verifier_ : list Z; expires_at : Z }.

Abbreviation table := (gmap Z Row).

(** ** internal/db: the statements *)

(** [WHERE expires_at > NOW() ORDER BY expires_at DESC LIMIT 100000]. *)
Definition later (a b : Row) : Prop := expires_at b <= expires_at a.
#[export] Instance later_dec : RelDecision later.
Proof. intros a b. unfold later. apply _. Defined.

Definition LoadActive (now : Z) (t : table) : list Row :=
  take (Z.to_nat 100000)
    (merge_sort later (filter (fun r => now < expires_at r) (snd <$> map_to_list t))).

(** [username] is UNIQUE: writing another subscriber's is a constraint error. *)
Definition username_taken (id : Z) (u : string) (t : table) : bool :=
  existsb (fun kr => negb (kr.1 =? id) && String.eqb (username kr.2) u) (map_to_list t).

Definition Save (id : Z) (u : string) (mac : list Z) (expiresAt : Z) (t : table) : option table :=
  if username_taken id u t then None else Some (<[id := MkRow u mac expiresAt]> t).

Definition DeleteByUsername (u : string) (t : table) : table :=
  filter (fun kr => username kr.2 <> u) t.

Definition ReapExpired (now : Z) (t : table) : Z * table :=
  let kept := filter (fun kr => now < expires_at kr.2) t in
  (Z.of_nat (size t) - Z.of_nat (size kept), kept).

(** ** internal/radius: the cache *)

Record VerifierCache : Type := MkCache {
  store : gmap string (Store.entry (list Z));
  persist : option table
}.

Section Cache.
Context `{Mac} (secret : list Z).

Definition verifier (password passwordHash : string) : list Z :=
  hmac secret (message password passwordHash).

Definition bytes_eqb (x y : list Z) : bool := bool_decide (x = y).

Definition Check_ (now : Z) (u password passwordHash : string) (c : VerifierCache) : bool :=
  match Store.Get now (verifierKey u) (store c) with
  | None => false
  | Some cachedMAC => bytes_eqb (verifier password passwordHash) cachedMAC
  end.

(** [db_up] is whether the L2 round trip succeeds; the [bool] is [err == nil]. *)
Definition Store_ (now : Z) (db_up : bool) (id : Z) (u password passwordHash : string)
    (c : VerifierCache) : bool * VerifierCache :=
  let mac := verifier password passwordHash in
  let expiresAt := now + verifierCacheTTL in
  let l1 := Store.Set_ now (verifierKey u) mac verifierCacheTTL (store c) in
  match persist c with
  | None => (true, MkCache l1 None)
  | Some t =>
      match (if db_up then Save id u mac expiresAt t else None) with
      | None => (false, MkCache l1 (Some t))
      | Some t' => (true, MkCache l1 (Some t'))
      end
  end.

Definition warm_row (now : Z) (acc : Z * gmap string (Store.entry (list Z))) (row : Row) :
    Z * gmap string (Store.entry (list Z)) :=
  let ttl := expires_at row - now in
  if ttl <=? 0 then acc
  else (acc.1 + 1, Store.Set_ now (verifierKey (username row)) (verifier_ row) ttl acc.2).

(** [queried] is the database's clock when the query ran, [now] the daemon's. *)
Definition Warm (queried now : Z) (db_up : bool) (c : VerifierCache) : Z * VerifierCache :=
  match persist c with
  | None => (0, c)
  | Some t =>
      if db_up then
        let '(n, l1) := foldl (warm_row now) (0, store c) (LoadActive queried t) in
        (n, MkCache l1 (Some t))
      else (0, c)
  end.

Definition Invalidate (db_up : bool) (u : string) (c : VerifierCache) : bool * VerifierCache :=
  let l1 := Store.Delete (verifierKey u) (store c) in
  match persist c with
  | None => (true, MkCache l1 None)
  | Some t => if db_up then (true, MkCache l1 (Some (DeleteByUsername u t)))
              else (false, MkCache l1 (Some t))
  end.

(** ** The system: two processes, restarts, reaping, and the log of
    successful password comparisons *)

Record comparison : Type := MkComparison {
  cmp_at : Z; cmp_user : string; cmp_password : string; cmp_hash : string
}.

Inductive step : (list comparison * VerifierCache) -> (list comparison * VerifierCache) -> Prop :=
(** the daemon compared the password with bcrypt, then stored *)
| step_store log c now up id u p h :
    step (log, c) (MkComparison now u p h :: log, (Store_ now up id u p h c).2)
| step_warm log c queried now up :
    step (log, c) (log, (Warm queried now up c).2)
| step_restart log c :
    step (log, c) (log, MkCache ∅ (persist c))
| step_invalidate log c up u :
    step (log, c) (log, (Invalidate up u c).2)
(** api_service deletes the shared row *)
| step_delete_row log c t u :
    persist c = Some t -> step (log, c) (log, MkCache (store c) (Some (DeleteByUsername u t)))
| step_reap log c t now :
    persist c = Some t -> step (log, c) (log, MkCache (store c) (Some (ReapExpired now t).2))
| step_sweep log c now :
    step (log, c) (log, MkCache (Store.sweep now (store c)) (persist c)).

(** A verifier is backed when some comparison produced it and it expires no
    later than that comparison allows. *)
Definition backed (log : list comparison) (u : string) (mac : list Z) (expiry : Z) : Prop :=
  exists k, k ∈ log /\ cmp_user k = u /\ mac = verifier (cmp_password k) (cmp_hash k) /\
    expiry <= cmp_at k + verifierCacheTTL.

Definition l1_backed log (s : gmap string (Store.entry (list Z))) : Prop :=
  forall u e x, s !! verifierKey u = Some e -> Store.expires e = Some x ->
    backed log u (Store.val e) x.

Definition l2_backed log (t : table) : Prop :=
  forall id r, t !! id = Some r -> backed log (username r) (verifier_ r) (expires_at r).

Definition invariant (s : list comparison * VerifierCache) : Prop :=
  l1_backed s.1 (store s.2) /\ forall t, persist s.2 = Some t -> l2_backed s.1 t.

Lemma verifierKey_inj u v : verifierKey u = verifierKey v -> u = v.
Proof. unfold verifierKey. intros. by simplify_eq/=. Qed.

Lemma backed_more log log' u mac x : backed log u mac x -> backed (log' ++ log) u mac x.
Proof.
  intros (k & Hk & H1). exists k. split; [| done]. apply elem_of_app. by right.
Qed.

Lemma l1_backed_set log s u mac now ttl :
  l1_backed log s -> backed log u mac (now + ttl) ->
  l1_backed log (Store.Set_ now (verifierKey u) mac ttl s).
Proof.
  intros Hs Hb v e x. unfold Store.Set_.
  destruct (decide (u = v)) as [-> | Hne].
  - rewrite lookup_insert_eq. intros [= <-]. simpl. by intros [= <-].
  - rewrite lookup_insert_ne by (intros ?%verifierKey_inj; done). apply Hs.
Qed.

Lemma LoadActive_row queried t r : r ∈ LoadActive queried t -> exists id, t !! id = Some r.
Proof.
  intros Hr.
  assert (r ∈ merge_sort later (filter (fun r => queried < expires_at r) (snd <$> map_to_list t)))
    as Hin.
  { unfold LoadActive in Hr. rewrite <- (take_drop (Z.to_nat 100000) (merge_sort _ _)).
    apply elem_of_app. by left. }
  rewrite merge_sort_Permutation in Hin. apply list_elem_of_filter in Hin as [_ Hin].
  apply list_elem_of_fmap in Hin as ([id r'] & -> & Hin). exists id.
  by apply elem_of_map_to_list.
Qed.

Lemma warm_backed log now rows n s :
  (forall r, r ∈ rows -> backed log (username r) (verifier_ r) (expires_at r)) ->
  l1_backed log s -> l1_backed log (foldl (warm_row now) (n, s) rows).2.
Proof.
  revert n s. induction rows as [|r rows IH]; intros n s Hrows Hs; [done |]. simpl.
  unfold warm_row at 2. simpl. destruct (Z.leb_spec (expires_at r - now) 0).
  - apply IH; [| done]. intros r' Hr'. apply Hrows. by right.
  - apply IH; [intros r' Hr'; apply Hrows; by right |].
    apply l1_backed_set; [done |].
    replace (now + (expires_at r - now)) with (expires_at r) by lia. apply Hrows. by left.
Qed.

Lemma l1_backed_sub log s s' :
  (forall k e, s' !! k = Some e -> s !! k = Some e) -> l1_backed log s -> l1_backed log s'.
Proof. intros Hsub Hs u e x He. by apply Hs, Hsub. Qed.

Lemma l2_backed_filter log t (P : Z * Row -> Prop) `{!forall x, Decision (P x)} :
  l2_backed log t -> l2_backed log (filter P t).
Proof. intros Ht id r Hr. apply map_lookup_filter_Some in Hr as [Hr _]. by apply (Ht id). Qed.

Lemma Store_backed log c now up id u p h :
  invariant (log, c) -> invariant (MkComparison now u p h :: log, (Store_ now up id u p h c).2).
Proof.
  intros [H1 H2]. unfold invariant in *. simpl in *.
  assert (backed (MkComparison now u p h :: log) u (verifier p h) (now + verifierCacheTTL)) as Hnew.
  { exists (MkComparison now u p h). split; [by left | done]. }
  assert (l1_backed (MkComparison now u p h :: log)
            (Store.Set_ now (verifierKey u) (verifier p h) verifierCacheTTL (store c))) as Hl1.
  { apply l1_backed_set; [| done]. intros v e x He Hx.
    apply (backed_more log [_]). by apply H1. }
  unfold Store_. destruct (persist c) as [t|]; [| split; [done | by intros]].
  assert (l2_backed (MkComparison now u p h :: log) t) as Ht.
  { intros i r Hr. apply (backed_more log [_]). by apply (H2 t eq_refl i). }
  destruct up; [unfold Save; destruct (username_taken id u t) |]; simpl;
    split; try done; intros t' [= <-]; try done.
  intros i r. destruct (decide (id = i)) as [-> |].
  - rewrite lookup_insert_eq. by intros [= <-].
  - rewrite lookup_insert_ne by done. apply Ht.
Qed.

Lemma step_invariant s1 s2 : invariant s1 -> step s1 s2 -> invariant s2.
Proof.
  intros Hinv Hstep. destruct Hstep.
  1: by apply Store_backed.
  all: destruct Hinv as [H1 H2]; simpl in H1, H2; unfold invariant; simpl.
  - unfold Warm. destruct (persist c) as [t|] eqn:Ht; [| split; [done | simpl; rewrite Ht; by intros]].
    destruct up; [| split; [done | simpl; by rewrite Ht]].
    pose proof (warm_backed log now (LoadActive queried t) 0 (store c)) as Hw.
    destruct (foldl _ _ _) as [n l1]. simpl in *. split; [| intros ? [= <-]; by apply H2].
    apply Hw; [| done]. intros r (id & Hr)%LoadActive_row. by apply (H2 t eq_refl id).
  - split; [intros u e x; by rewrite lookup_empty | done].
  - unfold Invalidate.
    assert (l1_backed log (Store.Delete (verifierKey u) (store c))).
    { apply (l1_backed_sub _ (store c)); [| done]. intros k e.
      unfold Store.Delete. by intros [_ ?]%lookup_delete_Some. }
    destruct (persist c) as [t|]; [| done].
    destruct up; simpl; (split; [done |]); intros t' [= <-]; [| by apply H2].
    apply l2_backed_filter. by apply H2.
  - split; [done |]. intros t' [= <-]. apply l2_backed_filter. by apply H2.
  - split; [done |]. intros t' [= <-]. apply l2_backed_filter. by apply H2.
  - split; [| done]. apply (l1_backed_sub _ (store c)); [| done]. intros k e.
    rewrite Store.lookup_sweep. destruct (store c !! k) as [e'|]; simpl; [| done].
    by destruct (Store.dead now e').
Qed.

(** Two different password/hash pairs with the same keyed digest. *)
Definition collision (p h p' h' : string) : Prop :=
  message p h <> message p' h' /\ verifier p h = verifier p' h'.

End Cache.

(** The length prefix makes the message encoding injective. *)
Lemma put_be64_length z : length (put_be64 z) = 8%nat.
Proof. done. Qed.

Lemma put_be64_byte z (n : nat) : (n <= 7)%nat ->
  nth (7 - n) (put_be64 z) 0 = z / 2 ^ (8 * Z.of_nat n) mod 256.
Proof.
  intros Hn. unfold put_be64, u8.
  do 8 (destruct n as [|n]; [simpl nth; by rewrite Z.shiftr_div_pow2 by lia |]). lia.
Qed.

Lemma put_be64_inj a b :
  0 <= a < 2 ^ 64 -> 0 <= b < 2 ^ 64 -> put_be64 a = put_be64 b -> a = b.
Proof.
  intros Ha Hb E.
  assert (forall n : nat, (n <= 8)%nat -> a mod 2 ^ (8 * Z.of_nat n) = b mod 2 ^ (8 * Z.of_nat n)) as Hn.
  { induction n as [|n IH]; intros Hle; [by rewrite !Z.mod_1_r |].
    replace (8 * Z.of_nat (S n)) with (8 * Z.of_nat n + 8) by lia.
    rewrite Z.pow_add_r by lia.
    assert (0 < 2 ^ (8 * Z.of_nat n)) by (apply Z.pow_pos_nonneg; lia).
    rewrite !Z.rem_mul_r by lia. rewrite IH by lia. do 2 f_equal.
    pose proof (put_be64_byte a n ltac:(lia)) as Ea.
    pose proof (put_be64_byte b n ltac:(lia)) as Eb.
    change (2 ^ 8) with 256. congruence. }
  specialize (Hn 8%nat ltac:(lia)). change (8 * Z.of_nat 8) with 64 in Hn.
  by rewrite !Z.mod_small in Hn.
Qed.

Definition short (s : string) : Prop := Z.of_nat (String.length s) < 2 ^ 64.

Lemma message_inj p h p' h' :
  short p -> short p' -> message p h = message p' h' -> p = p' /\ h = h'.
Proof.
  unfold short, message, writeLengthPrefixed. intros Hp Hp' E.
  rewrite <- !app_assoc in E. apply app_inj_1 in E as [El E]; [| done].
  apply put_be64_inj in El; [| lia | lia].
  apply app_inj_1 in E as [Ep E]; [| rewrite !length_bytes_of_string; lia].
  apply app_inj_1 in E as [_ E]; [| done].
  eauto using bytes_of_string_inj.
Qed.

(** A cache hit means a recent bcrypt success for the same password. In
    every state the daemon and api_service can reach from an empty cache,
    through restarts, warmups, invalidations, database failures, reaping and
    sweeping, [Check] accepts a password only if bcrypt accepted that same
    password against that same stored hash for that same user at most
    [verifierCacheTTL] earlier, or the keyed hash has a collision. Warmup
    never extends a verifier's life. *)
Theorem verifier_hit_is_recent_bcrypt `{Mac} (secret : list Z) (persisted : bool)
    (log : list comparison) (c : VerifierCache) (now : Z) (u p h : string) :
  star (step secret) ([], MkCache ∅ (if persisted then Some ∅ else None)) (log, c) ->
  Check_ secret now u p h c = true ->
  short p -> Forall (fun k => short (cmp_password k)) log ->
  exists k, k ∈ log /\ cmp_user k = u /\ now <= cmp_at k + verifierCacheTTL /\
    ((cmp_password k = p /\ cmp_hash k = h) \/
     collision secret p h (cmp_password k) (cmp_hash k)).
Proof.
  intros Hreach Hcheck Hp Hlog.
  assert (invariant secret (log, c)) as [H1 _].
  { eapply star_invariant; [apply step_invariant | exact Hreach |]. split.
    - intros v e x. simpl. by rewrite lookup_empty.
    - simpl. intros t Ht. destruct persisted; simplify_eq/=. intros i r. by rewrite lookup_empty. }
  unfold Check_, Store.Get in Hcheck. simpl in H1.
  destruct (store c !! verifierKey u) as [[mac [x|]]|] eqn:He; simpl in Hcheck; try done.
  destruct (Z.ltb_spec x now); [done |]. apply bool_decide_eq_true in Hcheck.
  destruct (H1 u _ x He eq_refl) as (k & Hk & Hu & Hm & Hx). simpl in Hm.
  exists k. split; [done |]. split; [done |]. split; [lia |].
  destruct (decide (message p h = message (cmp_password k) (cmp_hash k))) as [Em | Em].
  - left. apply message_inj in Em as [-> ->]; [done | done |].
    rewrite Forall_forall in Hlog. by apply Hlog.
  - right. split; [done | congruence].
Qed.

(** A transparent stand-in for the keyed hash, to run the cache concretely. *)
#[export] Instance toy_mac : Mac := fun secret m => secret ++ m.

Lemma verifier_hit_is_recent_bcrypt_witness :
  exists log c k,
    star (step [1]) ([], MkCache ∅ (Some ∅)) (log, c) /\
    k ∈ log /\ cmp_user k = "bob"%string /\ 100 <= cmp_at k + verifierCacheTTL /\
    ((cmp_password k = "pw"%string /\ cmp_hash k = "h"%string) \/
     collision [1] "pw" "h" (cmp_password k) (cmp_hash k)).
Proof.
  assert (star (step [1]) ([], MkCache ∅ (Some ∅))
    ([MkComparison 7 "bob" "pw" "h"],
     (Warm 50 60 true (MkCache ∅ (persist (Store_ [1] 7 true 3 "bob" "pw" "h"
        (MkCache ∅ (Some ∅))).2))).2)) as Hreach.
  { eapply star_step; [apply (step_store _ [] _ 7 true 3 "bob" "pw" "h") |].
    eapply star_step; [apply step_restart |].
    eapply star_step; [apply (step_warm _ _ _ 50 60 true) | apply star_refl]. }
  destruct (verifier_hit_is_recent_bcrypt [1] true _ _ 100 "bob" "pw" "h" Hreach) as (k & Hk).
  - vm_compute. reflexivity.
  - vm_compute. reflexivity.
  - repeat constructor.
  - eexists _, _, k. split; [exact Hreach | exact Hk].
Defined.

End VerifierCache.
