(* ===== verification/RadiusDaemon.v ===== *)
(** * internal/radius: the authentication handlers

    [handleRequest], [handleAuth], [applyRateLimit] (handlers.go), [handleMAB]
    (mab.go), the EAP-MSCHAPv2 conversation (eap_handler.go, eap_session.go)
    and the outcome accounting (daemon.go), over the components they use.

    A handler is a function on the daemon's state. What it writes to the NAS,
    the outcomes it counts and the subscriber records it reads are appended to
    the state's trace, newest last. One packet is handled at one instant: the
    clock readings a handler makes are taken to be equal. The EAP session
    object is shared by pointer between the store and the handler; the handler
    saves it in the same step it changes it, so the model stores values. *)

From S2P Require Import Prelude GoStrings LocalCache EAP Identity Guard MSCHAPv2.
From S2P Require Import VerifierCache Nas.

Local Open Scope Z_scope.

Module Daemon.

Import Identity.

(** ** What the daemon calls outside the repository *)

(** The RADIUS packet library's setters ([true]: no error) and bcrypt. *)
Class Library : Type := {
  NewVendorSpecific : Z -> list Z -> option (list Z);
  EAPMessage_Set : list Z -> bool;
  State_Set : string -> bool;
  MessageAuthenticator_Set : list Z -> bool;
  CompareHashAndPassword : string -> string -> bool
}.

(** [DBQuerier]: the subscriber lookup the daemon is given. It may fail
    ([Err]), find nobody ([Ok None]), and change the state behind it (a cache
    fills). *)
Class DBQuerier (DB : Type) : Type :=
  GetSubscriberByUsername : Z -> string -> DB -> result unit (option Subscriber) * DB.

(** ** Packets *)

Definition CodeAccessRequest : Z := 1.
Definition CodeAccessAccept : Z := 2.
Definition CodeAccessReject : Z := 3.
Definition CodeAccountingRequest : Z := 4.
Definition CodeAccountingResponse : Z := 5.
Definition CodeAccessChallenge : Z := 11.

(** A request, as the attribute getters read it. *)
Record Request : Type := MkRequest {
  Code : Z;
  RemoteAddr : Nas.Addr;
  UserName : string;
  UserPassword : string;
  EAPMessage : list Z;
  State_ : string
}.

Record Response : Type := MkResponse {
  resp_Code : Z;
  resp_EAPMessage : option (list Z);
  resp_State : option string;
  resp_Attrs : list Nas.Attr;
  resp_MessageAuthenticator : bool
}.

Definition respond (code : Z) : Response := MkResponse code None None [] false.

(** ** EAP sessions *)

Inductive EAPStage : Type :=
| StageIdentityRequested
| StageChallengeIssued
| StageAwaitingSuccessAck.

Record EAPSession : Type := MkSession {
  Stage : EAPStage;
  s_Username : string;
  AuthenticatorChallenge : list Z;
  PeerChallenge : list Z;
  NTResponse : list Z;
  MSCHAPv2ID : Z;
  EAPIdentifier : Z;
  AuthenticatorResponse : string
}.

Definition eapSessionTTL : Z := 60 * 1000000000.
Definition eapSessionKey (state : string) : string := "radius_eap:" +:+ state.

Abbreviation sessions := (gmap string (Store.entry EAPSession)).

Definition SaveSession (now : Z) (state : string) (sess : EAPSession) (m : sessions) : sessions :=
  Store.Set_ now (eapSessionKey state) sess eapSessionTTL m.
Definition LoadSession (now : Z) (state : string) (m : sessions) : option EAPSession :=
  Store.Get now (eapSessionKey state) m.
Definition DeleteSession (state : string) (m : sessions) : sessions :=
  Store.Delete (eapSessionKey state) m.

(** [NewState] and [NewChallenge] on the 16 bytes the system's generator
    returned, [None] when it failed. *)
Definition NewState (random : option (list Z)) : option string := MSCHAPv2.hex_encode <$> random.
Definition NewChallenge (random : option (list Z)) : option (list Z) := random.

(** ** The daemon *)

Inductive event : Type :=
| Wrote (resp : Response)
| Outcome (nas : string) (accepted : bool)
| Found (at_ : Z) (username : string) (sub : Subscriber).

Record Config : Type := MkConfig {
  nasResolver : option Nas.Resolver;
  mabDB : option (Z -> string -> Z -> result unit (option Subscriber));
  verifierSecret : list Z
}.

Record Daemon {DB : Type} : Type := MkDaemon {
  db : DB;
  guard : gmap string Counter.counterEntry;
  verifierCache : VerifierCache.VerifierCache;
  eapSessions : option sessions;
  trace : list event
}.
Arguments Daemon : clear implicits.
Arguments MkDaemon {DB} _ _ _ _ _.

(** What the outside world answers while one packet is handled. *)
Record Env : Type := MkEnv {
  now : Z;
  l2_up : bool;
  random_challenge : option (list Z);
  random_state : option (list Z)
}.

Section Handlers.
Context {DB : Type} `{DBQuerier DB, Library, MSCHAPv2.Crypto, VerifierCache.Mac}.
Variable cfg : Config.

Abbreviation D := (Daemon DB).
Implicit Types (d : D) (r : Request) (e : Env) (sub : Subscriber).

Definition log_event (x : event) d : D :=
  MkDaemon (db d) (guard d) (verifierCache d) (eapSessions d) (trace d ++ [x]).
Definition with_guard g d : D :=
  MkDaemon (db d) g (verifierCache d) (eapSessions d) (trace d).
Definition with_verifiers c d : D :=
  MkDaemon (db d) (guard d) c (eapSessions d) (trace d).
Definition with_sessions (f : sessions -> sessions) d : D :=
  MkDaemon (db d) (guard d) (verifierCache d) (f <$> eapSessions d) (trace d).

Definition Write (resp : Response) d : D := log_event (Wrote resp) d.

(** *** Outcomes (daemon.go) *)

Definition unregisteredNAS : string := "unregistered".

Definition nas_label r : string :=
  match nasResolver cfg with
  | None => unregisteredNAS
  | Some res =>
      let device := Nas.ResolveAddr res (RemoteAddr r) in
      if String.eqb (Nas.IP device) EmptyString then unregisteredNAS else Nas.IP device
  end.

Definition recordAuthOutcome r (accepted : bool) d : D :=
  log_event (Outcome (nas_label r) accepted) d.
Definition authAccepted r d : D := recordAuthOutcome r true d.
Definition authRejected r d : D := recordAuthOutcome r false d.

Definition lookup_subscriber e (username : string) d : result unit (option Subscriber) * D :=
  let '(res, db') := GetSubscriberByUsername (now e) username (db d) in
  let d' := MkDaemon db' (guard d) (verifierCache d) (eapSessions d) (trace d) in
  match res with
  | Ok (Some sub) => (res, log_event (Found (now e) username sub) d')
  | _ => (res, d')
  end.

Definition recordAuthFailure e (username : string) d : D :=
  with_guard (Guard.RecordFailure (now e) username (guard d)) d.

(** *** Bandwidth attributes (handlers.go) *)

Definition vendor_profile r (planID : Z) : string * string :=
  match nasResolver cfg with
  | None => (Nas.VendorMikrotik, EmptyString)
  | Some res =>
      let device := Nas.ResolveAddr res (RemoteAddr r) in
      (Nas.Vendor device, Nas.ResolveProfile res planID (Nas.Vendor device))
  end.

Definition rate_attrs r (planID : Z) (rateLimit : string) : list Nas.Attr :=
  let '(vendor, profile) := vendor_profile r planID in
  match Nas.BuildAcceptAttrs NewVendorSpecific vendor (Nas.MkProfile rateLimit profile) with
  | Ok attrs => attrs
  | Err _ => []
  end.

Definition add_attrs (resp : Response) (attrs : list Nas.Attr) : Response :=
  MkResponse (resp_Code resp) (resp_EAPMessage resp) (resp_State resp)
    (resp_Attrs resp ++ attrs) (resp_MessageAuthenticator resp).

Definition applyRateLimit e (resp : Response) sub r : Response :=
  add_attrs resp (rate_attrs r (PlanID sub) (effectiveRateLimit (now e) sub)).

(** *** MAC authentication (mab.go) *)

Definition reject r d : D := authRejected r (Write (respond CodeAccessReject) d).

Definition handleMAB e r d : bool * D :=
  if negb (looksLikeMAB (UserName r) (UserPassword r)) then (false, d)
  else
    match mabDB cfg with
    | None => (false, d)
    | Some authorizeMAC =>
        match nasResolver cfg with
        | None => (true, reject r d)
        | Some res =>
            let device := Nas.ResolveAddr res (RemoteAddr r) in
            if negb (Nas.AllowMAB device) then (true, reject r d)
            else
              let mac := match NormaliseMAC (UserName r) with
                         | Some m => m | None => EmptyString end in
              match authorizeMAC (now e) mac (Nas.ID device) with
              | Err _ => (true, reject r d)
              | Ok None => (true, reject r d)
              | Ok (Some sub) =>
                  if negb (AuthorisesService (Status sub)) then (true, reject r d)
                  else
                    let resp := applyRateLimit e (respond CodeAccessAccept) sub r in
                    (true, Write resp (authAccepted r d))
              end
        end
    end.

(** *** EAP replies (eap_handler.go) *)

Definition set_eap (resp : Response) (b : list Z) : option Response :=
  if EAPMessage_Set b then
    Some (MkResponse (resp_Code resp) (Some b) (resp_State resp) (resp_Attrs resp)
            (resp_MessageAuthenticator resp))
  else None.

Definition set_state (resp : Response) (s : string) : option Response :=
  if State_Set s then
    Some (MkResponse (resp_Code resp) (resp_EAPMessage resp) (Some s) (resp_Attrs resp)
            (resp_MessageAuthenticator resp))
  else None.

Definition writeWithMessageAuthenticator (resp : Response) d : D :=
  Write (MkResponse (resp_Code resp) (resp_EAPMessage resp) (resp_State resp)
           (resp_Attrs resp) (MessageAuthenticator_Set (replicate 16 0))) d.

Definition writeEAPReject r (eapID : Z) d : D :=
  let resp := respond CodeAccessReject in
  let failure := EAP.Encode (EAP.MkEAPPacket EAP.EAPCodeFailure eapID 0 []) in
  let resp := match set_eap resp failure with Some resp' => resp' | None => resp end in
  authRejected r (writeWithMessageAuthenticator resp d).

Definition writeEAPChallenge r (state : string) (pkt : EAP.EAPPacket) d : D :=
  match set_eap (respond CodeAccessChallenge) (EAP.Encode pkt) with
  | None => writeEAPReject r (EAP.Identifier pkt) d
  | Some resp =>
      match set_state resp state with
      | None => writeEAPReject r (EAP.Identifier pkt) d
      | Some resp => writeWithMessageAuthenticator resp d
      end
  end.

Definition eapFail r (eapID : Z) (state : string) d : D :=
  let d := if String.eqb state EmptyString then d else with_sessions (DeleteSession state) d in
  writeEAPReject r eapID d.

(** *** The EAP conversation *)

Definition eapServerName : string := "isp-bss-oss".

Definition eap_username r (pkt : EAP.EAPPacket) : string :=
  let username :=
    if (EAP.Type_ pkt =? EAP.EAPTypeIdentity) && negb (bool_decide (EAP.Data pkt = []))
    then string_of_bytes (EAP.Data pkt) else UserName r in
  StripDomain username.

Definition eapStart e r (pkt : EAP.EAPPacket) d : D :=
  let username := eap_username r pkt in
  if String.eqb username EmptyString then writeEAPReject r (EAP.Identifier pkt) d
  else
    let '(blocked, _) := Guard.Check_ (now e) username (guard d) in
    if blocked then authRejected r (writeEAPReject r (EAP.Identifier pkt) d)
    else
      match NewChallenge (random_challenge e) with
      | None => writeEAPReject r (EAP.Identifier pkt) d
      | Some challenge =>
          match NewState (random_state e) with
          | None => writeEAPReject r (EAP.Identifier pkt) d
          | Some state =>
              let sess := MkSession StageChallengeIssued username challenge [] [] 0
                            (u8 (EAP.Identifier pkt + 1)) EmptyString in
              let d := with_sessions (SaveSession (now e) state sess) d in
              let payload := EAP.EncodeChallenge
                (EAP.MkChallenge (EAP.Identifier pkt) challenge eapServerName) in
              writeEAPChallenge r state
                (EAP.MkEAPPacket EAP.EAPCodeRequest (EAPIdentifier sess) EAP.EAPTypeMSCHAPv2
                   payload) d
          end
      end.

Definition eapVerifyResponse e r (pkt : EAP.EAPPacket) (state : string) (sess : EAPSession) d : D :=
  match EAP.ParseMSCHAPv2Response (EAP.Data pkt) with
  | Err _ => eapFail r (EAP.Identifier pkt) state d
  | Ok resp =>
      let '(res, d) := lookup_subscriber e (s_Username sess) d in
      match res with
      | Err _ | Ok None =>
          eapFail r (EAP.Identifier pkt) state (recordAuthFailure e (s_Username sess) d)
      | Ok (Some sub) =>
          if negb (AuthorisesService (Status sub)) then eapFail r (EAP.Identifier pkt) state d
          else
            match MSCHAPv2.VerifyMSCHAPv2 (NTHash sub) (AuthenticatorChallenge sess)
                    (EAP.r_PeerChallenge resp) (EAP.r_NTResponse resp) (s_Username sess) with
            | Err MSCHAPv2.ErrNoNTHash => eapFail r (EAP.Identifier pkt) state d
            | Err _ =>
                eapFail r (EAP.Identifier pkt) state (recordAuthFailure e (s_Username sess) d)
            | Ok authenticatorResponse =>
                let sess' := MkSession StageAwaitingSuccessAck (s_Username sess)
                  (AuthenticatorChallenge sess) (EAP.r_PeerChallenge resp)
                  (EAP.r_NTResponse resp) (EAP.r_MSCHAPv2ID resp)
                  (u8 (EAP.Identifier pkt + 1)) authenticatorResponse in
                let d := with_sessions (SaveSession (now e) state sess') d in
                writeEAPChallenge r state
                  (EAP.MkEAPPacket EAP.EAPCodeRequest (EAPIdentifier sess') EAP.EAPTypeMSCHAPv2
                     (EAP.EncodeMSCHAPv2Success (EAP.r_MSCHAPv2ID resp) authenticatorResponse)) d
            end
      end
  end.

(** The rate [eapFinish] computes for itself. *)
Definition eapRateLimit sub : string :=
  if FUPActive sub && nonempty (FUPThrottle sub) then FUPThrottle sub else RateLimitStr sub.

Definition eapFinish e r (state : string) (sess : EAPSession) d : D :=
  let d := with_sessions (DeleteSession state) d in
  let '(res, d) := lookup_subscriber e (s_Username sess) d in
  match res with
  | Err _ | Ok None => writeEAPReject r (EAPIdentifier sess) d
  | Ok (Some sub) =>
      let d := with_guard (Guard.Reset_ (s_Username sess) (guard d)) d in
      let success := EAP.Encode (EAP.MkEAPPacket EAP.EAPCodeSuccess (EAPIdentifier sess) 0 []) in
      match set_eap (respond CodeAccessAccept) success with
      | None => writeEAPReject r (EAPIdentifier sess) d
      | Some resp =>
          let resp := add_attrs resp (rate_attrs r (PlanID sub) (eapRateLimit sub)) in
          authAccepted r (writeWithMessageAuthenticator resp d)
      end
  end.

Definition handleEAP e r d : bool * D :=
  if bool_decide (EAPMessage r = []) then (false, d)
  else
    match eapSessions d with
    | None => (true, writeEAPReject r 0 d)
    | Some sessions =>
        match EAP.ParseEAP (EAPMessage r) with
        | Err _ => (true, writeEAPReject r 0 d)
        | Ok pkt =>
            let state := State_ r in
            if String.eqb state EmptyString then (true, eapStart e r pkt d)
            else
              match LoadSession (now e) state sessions with
              | None => (true, writeEAPReject r (EAP.Identifier pkt) d)
              | Some sess =>
                  match Stage sess with
                  | StageChallengeIssued => (true, eapVerifyResponse e r pkt state sess d)
                  | StageAwaitingSuccessAck => (true, eapFinish e r state sess d)
                  | StageIdentityRequested => (true, eapFail r (EAP.Identifier pkt) state d)
                  end
              end
        end
    end.

(** *** Password authentication (handlers.go) *)

(** The credential check: the fast verifier, then bcrypt, which on success
    fills the verifier cache. *)
Definition check_password e (username password : string) sub d : bool * D :=
  if VerifierCache.Check_ (verifierSecret cfg) (now e) username password (PasswordHash sub)
       (verifierCache d)
  then (true, d)
  else if CompareHashAndPassword (PasswordHash sub) password then
    (true, with_verifiers (VerifierCache.Store_ (verifierSecret cfg) (now e) (l2_up e)
             (ID sub) username password (PasswordHash sub) (verifierCache d)).2 d)
  else (false, d).

Definition handlePAP e r d : D :=
  let username := UserName r in
  let password := UserPassword r in
  let '(blocked, hasFailures) := Guard.Check_ (now e) username (guard d) in
  if blocked then reject r d
  else
    let '(res, d) := lookup_subscriber e username d in
    match res with
    | Err _ | Ok None => reject r (recordAuthFailure e username d)
    | Ok (Some sub) =>
        if negb (AuthorisesService (Status sub)) then reject r d
        else
          let '(authenticated, d) := check_password e username password sub d in
          if negb authenticated then reject r (recordAuthFailure e username d)
          else
            let d := if hasFailures then with_guard (Guard.Reset_ username (guard d)) d else d in
            let resp := applyRateLimit e (respond CodeAccessAccept) sub r in
            authAccepted r (Write resp d)
    end.

Definition handleAuth e r d : D :=
  let '(taken, d) := handleEAP e r d in
  if taken then d
  else
    let '(taken, d) := handleMAB e r d in
    if taken then d else handlePAP e r d.

(** ** What a handler adds to the trace *)

Definition replies (t : list event) : list Response :=
  omap (fun x => match x with Wrote resp => Some resp | _ => None end) t.
Definition outcomes (t : list event) : list bool :=
  omap (fun x => match x with Outcome _ ok => Some ok | _ => None end) t.

Definition delta d d' (rs : list Response) (os : list bool) : Prop :=
  replies (trace d') = replies (trace d) ++ rs /\
  outcomes (trace d') = outcomes (trace d) ++ os.

Lemma delta_trans d1 d2 d3 rs1 os1 rs2 os2 :
  delta d1 d2 rs1 os1 -> delta d2 d3 rs2 os2 -> delta d1 d3 (rs1 ++ rs2) (os1 ++ os2).
Proof. intros [E1 E2] [F1 F2]. split; [rewrite F1, E1 | rewrite F2, E2]; by rewrite app_assoc. Qed.

Lemma delta_same_trace d d' : trace d' = trace d -> delta d d' [] [].
Proof. intros E. split; by rewrite E, app_nil_r. Qed.

Lemma delta_event x d :
  delta d (log_event x d)
    (match x with Wrote resp => [resp] | _ => [] end)
    (match x with Outcome _ ok => [ok] | _ => [] end).
Proof. split; simpl; unfold replies, outcomes; rewrite omap_app; by destruct x. Qed.

Lemma delta_Write resp d : delta d (Write resp d) [resp] [].
Proof. apply (delta_event (Wrote resp)). Qed.

(** Chaining a silent prefix or suffix. *)
Lemma delta_before d0 d d' rs os :
  delta d0 d [] [] -> delta d d' rs os -> delta d0 d' rs os.
Proof. intros Ha Hb. apply (delta_trans _ _ _ _ _ _ _ Ha Hb). Qed.

Lemma delta_lookup e u d : delta d (lookup_subscriber e u d).2 [] [].
Proof.
  unfold lookup_subscriber. destruct (GetSubscriberByUsername _ _ _) as [[[sub|]|] db'];
    try by apply delta_same_trace.
  apply (delta_before _ (MkDaemon db' (guard d) (verifierCache d) (eapSessions d) (trace d)));
    [by apply delta_same_trace | apply delta_event].
Qed.

Lemma delta_reply_outcome resp r ok d :
  delta d (recordAuthOutcome r ok (Write resp d)) [resp] [ok].
Proof. apply (delta_trans d (Write resp d) _ [resp] [] [] [ok]); apply delta_event. Qed.

Lemma delta_outcome_reply resp r ok d :
  delta d (Write resp (recordAuthOutcome r ok d)) [resp] [ok].
Proof. apply (delta_trans d (recordAuthOutcome r ok d) _ [] [ok] [resp] []); apply delta_event. Qed.

Lemma delta_writeEAPReject r i d :
  exists resp, resp_Code resp = CodeAccessReject /\ delta d (writeEAPReject r i d) [resp] [false].
Proof.
  unfold writeEAPReject. eexists. split; [| apply delta_reply_outcome].
  unfold set_eap. by destruct (EAPMessage_Set _).
Qed.

Lemma delta_writeEAPChallenge r st pkt d :
  exists resp, (resp_Code resp = CodeAccessReject /\ delta d (writeEAPChallenge r st pkt d) [resp] [false]) \/
               (resp_Code resp = CodeAccessChallenge /\ delta d (writeEAPChallenge r st pkt d) [resp] []).
Proof.
  unfold writeEAPChallenge, set_eap, set_state.
  destruct (EAPMessage_Set (EAP.Encode pkt)); [destruct (State_Set st) |].
  - eexists. right. split; [| apply delta_Write]. done.
  - destruct (delta_writeEAPReject r (EAP.Identifier pkt) d) as (resp & ? & ?). eauto.
  - destruct (delta_writeEAPReject r (EAP.Identifier pkt) d) as (resp & ? & ?). eauto.
Qed.

(** ** What can justify each kind of answer *)

(** The opening EAP packet of a user whose lockout is in force. *)
Definition eap_locked_out e r d : Prop :=
  EAPMessage r <> [] /\ is_Some (eapSessions d) /\ State_ r = EmptyString /\
  exists pkt, EAP.ParseEAP (EAPMessage r) = Ok pkt /\
    eap_username r pkt <> EmptyString /\
    (Guard.Check_ (now e) (eap_username r pkt) (guard d)).1 = true.

Definition password_accepted e r sub d : Prop :=
  VerifierCache.Check_ (verifierSecret cfg) (now e) (UserName r) (UserPassword r)
    (PasswordHash sub) (verifierCache d) = true \/
  CompareHashAndPassword (PasswordHash sub) (UserPassword r) = true.

Inductive verdict e r d : Response -> list bool -> Prop :=
| verdict_reject resp :
    resp_Code resp = CodeAccessReject -> ~ eap_locked_out e r d -> verdict e r d resp [false]
| verdict_locked_out resp :
    resp_Code resp = CodeAccessReject -> eap_locked_out e r d -> verdict e r d resp [false; false]
| verdict_challenge resp :
    resp_Code resp = CodeAccessChallenge -> verdict e r d resp []
| verdict_pap sub :
    EAPMessage r = [] ->
    (Guard.Check_ (now e) (UserName r) (guard d)).1 = false ->
    (GetSubscriberByUsername (now e) (UserName r) (db d)).1 = Ok (Some sub) ->
    AuthorisesService (Status sub) = true ->
    password_accepted e r sub d ->
    verdict e r d (applyRateLimit e (respond CodeAccessAccept) sub r) [true]
| verdict_mab sub res authorizeMAC mac :
    EAPMessage r = [] ->
    nasResolver cfg = Some res -> mabDB cfg = Some authorizeMAC ->
    NormaliseMAC (UserName r) = Some mac ->
    (UserPassword r = EmptyString \/ NormaliseMAC (UserPassword r) = Some mac) ->
    Nas.AllowMAB (Nas.ResolveAddr res (RemoteAddr r)) = true ->
    authorizeMAC (now e) mac (Nas.ID (Nas.ResolveAddr res (RemoteAddr r))) = Ok (Some sub) ->
    AuthorisesService (Status sub) = true ->
    verdict e r d (applyRateLimit e (respond CodeAccessAccept) sub r) [true]
| verdict_eap sub m sess resp :
    eapSessions d = Some m -> LoadSession (now e) (State_ r) m = Some sess ->
    Stage sess = StageAwaitingSuccessAck ->
    (GetSubscriberByUsername (now e) (s_Username sess) (db d)).1 = Ok (Some sub) ->
    resp_Code resp = CodeAccessAccept ->
    resp_Attrs resp = rate_attrs r (PlanID sub) (eapRateLimit sub) ->
    verdict e r d resp [true].

(** One reply, with a verdict that justifies it. *)
Definition answered e r d d' : Prop := exists resp os, delta d d' [resp] os /\ verdict e r d resp os.

Lemma lookup_result e u d : (lookup_subscriber e u d).1 = (GetSubscriberByUsername (now e) u (db d)).1.
Proof.
  unfold lookup_subscriber. by destruct (GetSubscriberByUsername _ _ _) as [[[sub|]|] db'].
Qed.

Lemma answered_reject e r i d0 d :
  ~ eap_locked_out e r d0 -> delta d0 d [] [] -> answered e r d0 (writeEAPReject r i d).
Proof.
  intros Hn Hd. destruct (delta_writeEAPReject r i d) as (resp & Hc & Hr).
  exists resp, [false]. split; [by eapply delta_before | by apply verdict_reject].
Qed.

Lemma answered_plain_reject e r d0 d :
  ~ eap_locked_out e r d0 -> delta d0 d [] [] -> answered e r d0 (reject r d).
Proof.
  intros Hn Hd. exists (respond CodeAccessReject), [false].
  split; [| by apply verdict_reject].
  eapply delta_before; [exact Hd | apply delta_reply_outcome].
Qed.

Lemma answered_challenge e r st pkt d0 d :
  ~ eap_locked_out e r d0 -> delta d0 d [] [] -> answered e r d0 (writeEAPChallenge r st pkt d).
Proof.
  intros Hn Hd. destruct (delta_writeEAPChallenge r st pkt d) as (resp & [[Hc Hr]|[Hc Hr]]).
  - exists resp, [false]. split; [by eapply delta_before | by apply verdict_reject].
  - exists resp, []. split; [by eapply delta_before | by apply verdict_challenge].
Qed.

Lemma answered_eapFail e r i st d0 d :
  ~ eap_locked_out e r d0 -> delta d0 d [] [] -> answered e r d0 (eapFail r i st d).
Proof.
  intros Hn Hd. unfold eapFail. apply answered_reject; [done |].
  destruct (String.eqb st EmptyString); [done |].
  eapply delta_before; [exact Hd | by apply delta_same_trace].
Qed.

Lemma not_locked_state e r d : State_ r <> EmptyString -> ~ eap_locked_out e r d.
Proof. intros Hs (_ & _ & Hn & _). done. Qed.

Lemma not_locked_no_eap e r d : EAPMessage r = [] -> ~ eap_locked_out e r d.
Proof. intros Hs (Hn & _). done. Qed.

Lemma eapStart_answered e r pkt d :
  EAPMessage r <> [] -> is_Some (eapSessions d) -> State_ r = EmptyString ->
  EAP.ParseEAP (EAPMessage r) = Ok pkt -> answered e r d (eapStart e r pkt d).
Proof.
  intros Hm Hs Hst Hp. unfold eapStart.
  destruct (String.eqb_spec (eap_username r pkt) EmptyString) as [Hu | Hu].
  { apply answered_reject; [| by apply delta_same_trace].
    intros (_ & _ & _ & p & Hp' & Hu' & _). congruence. }
  destruct (Guard.Check_ (now e) (eap_username r pkt) (guard d)) as [blocked hf] eqn:Hg.
  destruct blocked.
  { destruct (delta_writeEAPReject r (EAP.Identifier pkt) d) as (resp & Hc & Hr).
    exists resp, [false; false]. split.
    - apply (delta_trans _ (writeEAPReject r (EAP.Identifier pkt) d) _ [resp] [false] [] [false]);
        [done | apply delta_event].
    - apply verdict_locked_out; [done |]. repeat split; try done. exists pkt.
      split; [done |]. split; [done |]. by rewrite Hg. }
  assert (~ eap_locked_out e r d) as Hn.
  { intros (_ & _ & _ & p & Hp' & _ & Hb). assert (p = pkt) as -> by congruence.
    by rewrite Hg in Hb. }
  destruct (NewChallenge _) as [challenge|]; [| by apply answered_reject, delta_same_trace].
  destruct (NewState _) as [state|]; [| by apply answered_reject, delta_same_trace].
  by apply answered_challenge, delta_same_trace.
Qed.

Lemma eapVerify_answered e r pkt state sess d :
  State_ r <> EmptyString -> answered e r d (eapVerifyResponse e r pkt state sess d).
Proof.
  intros Hs%(not_locked_state e r d). unfold eapVerifyResponse.
  destruct (EAP.ParseMSCHAPv2Response _); [| by apply answered_eapFail, delta_same_trace].
  pose proof (delta_lookup e (s_Username sess) d) as Hd.
  destruct (lookup_subscriber e (s_Username sess) d) as [[[sub|]|] d']; simpl in Hd;
    try by apply answered_eapFail.
  destruct (AuthorisesService (Status sub)); simpl; [| by apply answered_eapFail].
  destruct (MSCHAPv2.VerifyMSCHAPv2 _ _ _ _ _) as [ar|[]]; try by apply answered_eapFail.
  by apply answered_challenge.
Qed.

Lemma eapFinish_answered e r m sess d :
  State_ r <> EmptyString -> eapSessions d = Some m ->
  LoadSession (now e) (State_ r) m = Some sess -> Stage sess = StageAwaitingSuccessAck ->
  answered e r d (eapFinish e r (State_ r) sess d).
Proof.
  intros Hs Hm Hl Hst. unfold eapFinish.
  set (d0 := with_sessions (DeleteSession (State_ r)) d).
  assert (delta d d0 [] []) as Hd0 by by apply delta_same_trace.
  pose proof (delta_before _ _ _ _ _ Hd0 (delta_lookup e (s_Username sess) d0)) as Hd.
  pose proof (lookup_result e (s_Username sess) d0) as Hres.
  change (db d0) with (db d) in Hres.
  apply (not_locked_state e r d) in Hs.
  destruct (lookup_subscriber e (s_Username sess) d0) as [[[sub|]|] d']; simpl in Hd, Hres;
    try by apply answered_reject.
  assert (delta d (with_guard (Guard.Reset_ (s_Username sess) (guard d')) d') [] []) as Hg
    by (eapply delta_before; [exact Hd | by apply delta_same_trace]).
  destruct (set_eap (respond CodeAccessAccept) _) as [resp|] eqn:Hset; [| by apply answered_reject].
  eexists _, [true]. split.
  - eapply delta_before; [exact Hg |]. apply delta_reply_outcome.
  - unfold set_eap in Hset. destruct (EAPMessage_Set _); [| done]. injection Hset as <-.
    by eapply verdict_eap.
Qed.

Lemma handleEAP_answered e r d :
  match handleEAP e r d with
  | (true, d') => answered e r d d'
  | (false, d') => d' = d /\ EAPMessage r = []
  end.
Proof.
  unfold handleEAP. case_bool_decide as Hm; [done |].
  destruct (eapSessions d) as [m|] eqn:Hse.
  2: { apply answered_reject; [| by apply delta_same_trace].
       intros (_ & [? Hs] & _). congruence. }
  destruct (EAP.ParseEAP (EAPMessage r)) as [pkt|] eqn:Hp.
  2: { apply answered_reject; [| by apply delta_same_trace].
       intros (_ & _ & _ & p & Hp' & _). congruence. }
  destruct (String.eqb_spec (State_ r) EmptyString) as [Hst | Hst].
  { by apply eapStart_answered. }
  destruct (LoadSession (now e) (State_ r) m) as [sess|] eqn:Hl.
  2: { apply answered_reject; [by apply not_locked_state | by apply delta_same_trace]. }
  destruct (Stage sess) eqn:Hstage.
  - apply answered_eapFail; [by apply not_locked_state | by apply delta_same_trace].
  - by apply eapVerify_answered.
  - by apply (eapFinish_answered e r m).
Qed.

Lemma handleMAB_answered e r d :
  EAPMessage r = [] ->
  match handleMAB e r d with
  | (true, d') => answered e r d d'
  | (false, d') => d' = d
  end.
Proof.
  intros Hm. pose proof (not_locked_no_eap e r d Hm) as Hn. unfold handleMAB.
  destruct (looksLikeMAB (UserName r) (UserPassword r)) eqn:Hmab; simpl; [| done].
  apply looksLikeMAB_true in Hmab as (mac & Hmac & Hpw). rewrite Hmac.
  destruct (mabDB cfg) as [authorizeMAC|] eqn:Hq; [| done].
  destruct (nasResolver cfg) as [res|] eqn:Hr; [| by apply answered_plain_reject, delta_same_trace].
  destruct (Nas.AllowMAB _) eqn:Ha; simpl; [| by apply answered_plain_reject, delta_same_trace].
  destruct (authorizeMAC _ mac _) as [[sub|]|] eqn:Hs;
    try by apply answered_plain_reject, delta_same_trace.
  destruct (AuthorisesService (Status sub)) eqn:Hst; simpl;
    [| by apply answered_plain_reject, delta_same_trace].
  eexists _, [true]. split; [apply delta_outcome_reply | by eapply verdict_mab].
Qed.

Lemma delta_check_password e u p sub d : delta d (check_password e u p sub d).2 [] [].
Proof. unfold check_password. repeat case_match; by apply delta_same_trace. Qed.

Lemma check_password_accepted e r sub d d0 :
  verifierCache d = verifierCache d0 ->
  (check_password e (UserName r) (UserPassword r) sub d).1 = true ->
  password_accepted e r sub d0.
Proof.
  unfold check_password, password_accepted. intros <-.
  destruct (VerifierCache.Check_ _ _ _ _ _ _) eqn:Hc; [auto |].
  destruct (CompareHashAndPassword _ _) eqn:Hb; [auto | done].
Qed.

Lemma lookup_verifiers e u d : verifierCache (lookup_subscriber e u d).2 = verifierCache d.
Proof.
  unfold lookup_subscriber. by destruct (GetSubscriberByUsername _ _ _) as [[[sub|]|] db'].
Qed.

Lemma handlePAP_answered e r d : EAPMessage r = [] -> answered e r d (handlePAP e r d).
Proof.
  intros Hm. pose proof (not_locked_no_eap e r d Hm) as Hn. unfold handlePAP.
  destruct (Guard.Check_ (now e) (UserName r) (guard d)) as [blocked hf] eqn:Hg.
  destruct blocked; [by apply answered_plain_reject, delta_same_trace |].
  pose proof (delta_lookup e (UserName r) d) as Hd.
  pose proof (lookup_result e (UserName r) d) as Hres.
  pose proof (lookup_verifiers e (UserName r) d) as Hv.
  destruct (lookup_subscriber e (UserName r) d) as [[[sub|]|] d']; simpl in Hd, Hres, Hv;
    try by apply answered_plain_reject.
  destruct (AuthorisesService (Status sub)) eqn:Hst; simpl; [| by apply answered_plain_reject].
  pose proof (delta_check_password e (UserName r) (UserPassword r) sub d') as Hc.
  pose proof (check_password_accepted e r sub d' d Hv) as Hok.
  destruct (check_password e (UserName r) (UserPassword r) sub d') as [[] d2]; simpl in *.
  2: { apply answered_plain_reject; [done |]. by eapply delta_before, Hc. }
  eexists _, [true]. split.
  - eapply delta_before; [exact Hd |]. eapply delta_before; [exact Hc |].
    destruct hf; [| apply delta_reply_outcome].
    eapply delta_before; [| apply delta_reply_outcome]. by apply delta_same_trace.
  - apply verdict_pap; auto. by rewrite Hg.
Qed.

Lemma handleAuth_answered e r d : answered e r d (handleAuth e r d).
Proof.
  unfold handleAuth. pose proof (handleEAP_answered e r d) as He.
  destruct (handleEAP e r d) as [[] d1]; [done |]. destruct He as [-> Hm].
  pose proof (handleMAB_answered e r d Hm) as Hb.
  destruct (handleMAB e r d) as [[] d2]; [done |]. subst d2. by apply handlePAP_answered.
Qed.

(** ** Reachable daemons: what a finished EAP exchange rests on *)

Inductive step : D -> D -> Prop :=
| step_packet e r d : step d (handleAuth e r d)
| step_sweep t d : step d (with_sessions (Store.sweep t) d)
(** everything else the process does to the database, the guard and the
    verifier cache *)
| step_world db' g c d : step d (MkDaemon db' g c (eapSessions d) (trace d)).

(** The session's NT response verified against the record the daemon looked up
    at [t], of a subscriber authorised then. *)
Definition verified (t : Z) d (sess : EAPSession) : Prop :=
  exists sub, Found t (s_Username sess) sub ∈ trace d /\
    AuthorisesService (Status sub) = true /\
    is_ok (MSCHAPv2.VerifyMSCHAPv2 (NTHash sub) (AuthenticatorChallenge sess)
             (PeerChallenge sess) (NTResponse sess) (s_Username sess)) = true.

(** An entry is remembered for [eapSessionTTL] after its verification. *)
Definition verified_entry d (en : Store.entry EAPSession) : Prop :=
  exists t, Store.expires en = Some (t + eapSessionTTL) /\ verified t d (Store.val en).

Definition sessions_verified d : Prop :=
  forall m k en, eapSessions d = Some m -> m !! k = Some en ->
    Stage (Store.val en) = StageAwaitingSuccessAck -> verified_entry d en.

Definition pres d d' : Prop :=
  (forall x, x ∈ trace d -> x ∈ trace d') /\ (sessions_verified d -> sessions_verified d').

Lemma pres_trans d1 d2 d3 : pres d1 d2 -> pres d2 d3 -> pres d1 d3.
Proof. intros [E1 E2] [F1 F2]. split; auto. Qed.

Lemma verified_mono d d' en :
  (forall x, x ∈ trace d -> x ∈ trace d') -> verified_entry d en -> verified_entry d' en.
Proof. intros Ht (t & Hx & sub & Hin & Hrest). exists t. split; [done |]. exists sub. auto. Qed.

Lemma pres_quiet d d' :
  eapSessions d' = eapSessions d -> (forall x, x ∈ trace d -> x ∈ trace d') -> pres d d'.
Proof.
  intros Es Et. split; [done |]. intros Hv m k en Hm Hk Hst. rewrite Es in Hm.
  eapply verified_mono; [exact Et | by eapply Hv].
Qed.

(** A change of the session table that only keeps old entries or adds
    justified ones. *)
Lemma pres_sessions f d :
  (forall m k en, eapSessions d = Some m -> f m !! k = Some en ->
     Stage (Store.val en) = StageAwaitingSuccessAck ->
     m !! k = Some en \/ verified_entry d en) ->
  pres d (with_sessions f d).
Proof.
  intros Hf. split; [done |]. intros Hv m k en Hm Hk Hst. simpl in Hm.
  destruct (eapSessions d) as [m0|] eqn:Hd; simplify_eq/=.
  destruct (Hf m0 k en eq_refl Hk Hst) as [Hold | Hnew].
  - by eapply (Hv m0 k en).
  - by eapply verified_mono; [| exact Hnew].
Qed.

Lemma pres_delete st d : pres d (with_sessions (DeleteSession st) d).
Proof.
  apply pres_sessions. intros m k en _ Hk _. left.
  unfold DeleteSession, Store.Delete in Hk. by apply lookup_delete_Some in Hk as [_ ?].
Qed.

Lemma pres_save t st sess d :
  (Stage sess = StageAwaitingSuccessAck -> verified t d sess) ->
  pres d (with_sessions (SaveSession t st sess) d).
Proof.
  intros Hs. apply pres_sessions. intros m k en _ Hk Hst.
  unfold SaveSession, Store.Set_ in Hk.
  apply lookup_insert_Some in Hk as [[_ <-] | [_ Hk]]; [right | by left].
  exists t. split; [done | by apply Hs].
Qed.

Lemma pres_refl d : pres d d.
Proof. by apply pres_quiet. Qed.

Lemma pres_event x d : pres d (log_event x d).
Proof. apply pres_quiet; [done |]. intros y Hy. apply elem_of_app. by left. Qed.

Lemma pres_reject_eap r i d : pres d (writeEAPReject r i d).
Proof. eapply pres_trans; apply pres_event. Qed.

Lemma pres_reject r d : pres d (reject r d).
Proof. eapply pres_trans; apply pres_event. Qed.

Lemma pres_challenge r st pkt d : pres d (writeEAPChallenge r st pkt d).
Proof.
  unfold writeEAPChallenge. destruct (set_eap _ _); [| apply pres_reject_eap].
  destruct (set_state _ _); [apply pres_event | apply pres_reject_eap].
Qed.

Lemma pres_fail r i st d : pres d (eapFail r i st d).
Proof.
  unfold eapFail. destruct (String.eqb st EmptyString); [apply pres_reject_eap |].
  eapply pres_trans; [apply pres_delete | apply pres_reject_eap].
Qed.

Lemma pres_guard g d : pres d (with_guard g d).
Proof. by apply pres_quiet. Qed.

Lemma pres_lookup e u d : pres d (lookup_subscriber e u d).2.
Proof.
  unfold lookup_subscriber. destruct (GetSubscriberByUsername _ _ _) as [[[sub|]|] db'];
    try by apply pres_quiet.
  apply pres_quiet; [done |]. intros y Hy. apply elem_of_app. by left.
Qed.

Lemma lookup_found e u d sub :
  (lookup_subscriber e u d).1 = Ok (Some sub) ->
  Found (now e) u sub ∈ trace (lookup_subscriber e u d).2.
Proof.
  unfold lookup_subscriber. destruct (GetSubscriberByUsername _ _ _) as [[[s|]|] db'];
    simpl; try done. intros [= ->]. apply elem_of_app. right. by left.
Qed.

Lemma pres_check_password e u p sub d : pres d (check_password e u p sub d).2.
Proof. unfold check_password. repeat case_match; by apply pres_quiet. Qed.

Create HintDb pres discriminated.
#[local] Hint Resolve pres_refl pres_event pres_reject_eap pres_reject pres_challenge
  pres_fail pres_guard pres_delete : pres.
#[local] Hint Extern 2 (pres _ (eapFail _ _ _ (recordAuthFailure _ _ _))) =>
  eapply pres_trans; [apply pres_guard | apply pres_fail] : pres.

Lemma pres_eapStart e r pkt d : pres d (eapStart e r pkt d).
Proof.
  unfold eapStart. destruct (String.eqb _ _); [auto with pres |].
  destruct (Guard.Check_ _ _ _) as [[] hf].
  - eapply pres_trans; [apply pres_reject_eap | apply pres_event].
  - destruct (NewChallenge _); [| auto with pres]. destruct (NewState _); [| auto with pres].
    eapply pres_trans; [| apply pres_challenge]. by apply pres_save.
Qed.

Lemma pres_eapVerify e r pkt st sess d : pres d (eapVerifyResponse e r pkt st sess d).
Proof.
  unfold eapVerifyResponse. destruct (EAP.ParseMSCHAPv2Response _) as [resp|]; [| auto with pres].
  pose proof (pres_lookup e (s_Username sess) d) as Hl.
  pose proof (lookup_found e (s_Username sess) d) as Hf.
  destruct (lookup_subscriber e (s_Username sess) d) as [res d']. simpl in *.
  eapply pres_trans; [exact Hl |].
  destruct res as [[sub|]|]; auto with pres.
  destruct (AuthorisesService (Status sub)) eqn:Ha; simpl; [| auto with pres].
  destruct (MSCHAPv2.VerifyMSCHAPv2 _ _ _ _ _) as [ar|[]] eqn:Hv; auto with pres.
  eapply pres_trans; [| apply pres_challenge]. apply pres_save. intros _.
  exists sub. simpl. rewrite Hv. auto.
Qed.

Lemma pres_eapFinish e r st sess d : pres d (eapFinish e r st sess d).
Proof.
  unfold eapFinish. set (d0 := with_sessions (DeleteSession st) d).
  apply (pres_trans _ d0); [apply pres_delete |].
  pose proof (pres_lookup e (s_Username sess) d0) as Hl.
  destruct (lookup_subscriber e (s_Username sess) d0) as [res d']. simpl in *.
  apply (pres_trans _ d'); [exact Hl |]. destruct res as [[sub|]|]; auto with pres.
  apply (pres_trans _ (with_guard (Guard.Reset_ (s_Username sess) (guard d')) d'));
    [apply pres_guard |].
  destruct (set_eap _ _); [| auto with pres]. eapply pres_trans; apply pres_event.
Qed.

Lemma pres_handleAuth e r d : pres d (handleAuth e r d).
Proof.
  unfold handleAuth.
  assert (pres d (handleEAP e r d).2) as He.
  { unfold handleEAP. destruct (bool_decide _); [apply pres_refl |].
    destruct (eapSessions d) as [m|]; [| apply pres_reject_eap].
    destruct (EAP.ParseEAP _) as [pkt|]; [| apply pres_reject_eap].
    destruct (String.eqb _ _); [apply pres_eapStart |].
    destruct (LoadSession _ _ _) as [sess|]; [| apply pres_reject_eap].
    destruct (Stage sess); simpl; auto using pres_eapVerify, pres_eapFinish with pres. }
  destruct (handleEAP e r d) as [[] d1]; [done |]. simpl in He.
  eapply pres_trans; [exact He |].
  assert (pres d1 (handleMAB e r d1).2) as Hm.
  { unfold handleMAB. repeat case_match; simpl;
      first [solve [auto with pres] | eapply pres_trans; apply pres_event]. }
  destruct (handleMAB e r d1) as [[] d2]; [done |]. simpl in Hm.
  eapply pres_trans; [exact Hm |]. unfold handlePAP.
  destruct (Guard.Check_ _ _ _) as [[] hf]; [auto with pres |].
  pose proof (pres_lookup e (UserName r) d2) as Hl.
  destruct (lookup_subscriber e (UserName r) d2) as [res d3]. simpl in *.
  eapply pres_trans; [exact Hl |].
  assert (forall d', pres d' (reject r (recordAuthFailure e (UserName r) d'))) as Hrej
    by (intros d'; eapply pres_trans; [apply pres_guard | apply pres_reject]).
  destruct res as [[sub|]|]; auto.
  destruct (negb _); [auto with pres |].
  pose proof (pres_check_password e (UserName r) (UserPassword r) sub d3) as Hc.
  destruct (check_password _ _ _ _ _) as [[] d4]; simpl in *;
    (eapply pres_trans; [exact Hc |]); [| auto].
  eapply pres_trans; [| eapply pres_trans; apply pres_event].
  destruct hf; auto with pres.
Qed.

Lemma step_verified d d' : sessions_verified d -> step d d' -> sessions_verified d'.
Proof.
  intros Hv Hstep. destruct Hstep as [e r d | t d | db' g c d].
  - by apply (pres_handleAuth e r d).
  - assert (pres d (with_sessions (Store.sweep t) d)) as [_ Hp]; [| by apply Hp].
    apply pres_sessions. intros m k en _ Hk _. left.
    rewrite Store.lookup_sweep in Hk. destruct (m !! k) as [en'|]; simpl in Hk; [| done].
    by destruct (Store.dead t en').
  - by apply (pres_quiet d).
Qed.

(** A daemon that has handled nothing yet. *)
Definition fresh (d : D) : Prop :=
  trace d = [] /\ forall m, eapSessions d = Some m -> m = ∅.

Lemma reachable_verified d0 d : fresh d0 -> star step d0 d -> sessions_verified d.
Proof.
  intros [Ht Hm] Hstar. eapply star_invariant; [apply step_verified | exact Hstar |].
  intros m k en He Hk. rewrite (Hm m He) in Hk. by rewrite lookup_empty in Hk.
Qed.

(** C2: every Access-Request gets exactly one answer, and the outcome
    counters record it. The answer is an accept, a reject or a challenge; an
    accept counts one success, a challenge counts nothing, a reject counts one
    failure. The one exception is the opening EAP packet of a user who is
    locked out: its single reject is counted as two failures. *)
Theorem one_answer_per_request e r d :
  exists resp os,
    replies (trace (handleAuth e r d)) = replies (trace d) ++ [resp] /\
    outcomes (trace (handleAuth e r d)) = outcomes (trace d) ++ os /\
    ((resp_Code resp = CodeAccessAccept /\ os = [true]) \/
     (resp_Code resp = CodeAccessChallenge /\ os = []) \/
     (resp_Code resp = CodeAccessReject /\ ~ eap_locked_out e r d /\ os = [false]) \/
     (resp_Code resp = CodeAccessReject /\ eap_locked_out e r d /\ os = [false; false])).
Proof.
  destruct (handleAuth_answered e r d) as (resp & os & [Hr Ho] & Hv).
  exists resp, os. split; [done |]. split; [done |].
  destruct Hv; auto 6.
Qed.

(** C1: nobody gets on the network without a verified credential. In every
    reachable daemon, an Access-Accept answers either a password that matched
    (bcrypt, or the verifier cache) of a subscriber whose status authorises
    service and who is not locked out; or a registered MAC, on a NAS that
    allows MAC authentication, of a subscriber whose status authorises service;
    or the acknowledgement of an EAP exchange whose NT response had verified,
    at most [eapSessionTTL] (a minute) earlier, against the record of a
    subscriber whose status authorised service then. The acknowledgement itself
    looks the subscriber up again for the rate only, not for the status (see
    [suspended_during_eap]). The bandwidth attributes are the ones that method
    computes. *)
Theorem accept_is_justified d0 d e r resp :
  fresh d0 -> star step d0 d ->
  replies (trace (handleAuth e r d)) = replies (trace d) ++ [resp] ->
  resp_Code resp = CodeAccessAccept ->
  exists sub,
    (EAPMessage r = [] /\
     (Guard.Check_ (now e) (UserName r) (guard d)).1 = false /\
     (GetSubscriberByUsername (now e) (UserName r) (db d)).1 = Ok (Some sub) /\
     AuthorisesService (Status sub) = true /\ password_accepted e r sub d /\
     resp_Attrs resp = rate_attrs r (PlanID sub) (effectiveRateLimit (now e) sub)) \/
    (EAPMessage r = [] /\
     exists res authorizeMAC mac, nasResolver cfg = Some res /\ mabDB cfg = Some authorizeMAC /\
       NormaliseMAC (UserName r) = Some mac /\
       (UserPassword r = EmptyString \/ NormaliseMAC (UserPassword r) = Some mac) /\
       Nas.AllowMAB (Nas.ResolveAddr res (RemoteAddr r)) = true /\
       authorizeMAC (now e) mac (Nas.ID (Nas.ResolveAddr res (RemoteAddr r))) = Ok (Some sub) /\
       AuthorisesService (Status sub) = true /\
       resp_Attrs resp = rate_attrs r (PlanID sub) (effectiveRateLimit (now e) sub)) \/
    (exists m sess, eapSessions d = Some m /\
       LoadSession (now e) (State_ r) m = Some sess /\
       (exists t, now e <= t + eapSessionTTL /\ verified t d sess) /\
       (GetSubscriberByUsername (now e) (s_Username sess) (db d)).1 = Ok (Some sub) /\
       resp_Attrs resp = rate_attrs r (PlanID sub) (eapRateLimit sub)).
Proof.
  intros Hf Hs Hr Hc. destruct (handleAuth_answered e r d) as (resp' & os & [Hr' _] & Hv).
  rewrite Hr' in Hr. apply app_inv_head in Hr as [= ->].
  destruct Hv as [? Hx | ? Hx | ? Hx | sub | sub res az mac | sub m sess resp Hm Hl Hst ?? Ha];
    try (by rewrite Hx in Hc).
  - exists sub. left. auto 7.
  - exists sub. right. left. split; [done |]. exists res, az, mac. auto 10.
  - exists sub. right. right. exists m, sess. repeat split; try done.
    unfold LoadSession, Store.Get in Hl.
    destruct (m !! eapSessionKey (State_ r)) as [en|] eqn:Hk; [| done].
    destruct (Store.expires en) as [x|] eqn:Hx; [| done]. destruct (x <? now e) eqn:Hlt; [done |].
    injection Hl as <-. destruct (reachable_verified d0 d Hf Hs m _ en Hm Hk Hst) as (t & Ht & Hv).
    exists t. split; [| done]. assert (x = t + eapSessionTTL) as -> by congruence. lia.
Qed.

Lemma eapFinish_accept e r st sess sub d :
  let success := EAP.Encode (EAP.MkEAPPacket EAP.EAPCodeSuccess (EAPIdentifier sess) 0 []) in
  (GetSubscriberByUsername (now e) (s_Username sess) (db d)).1 = Ok (Some sub) ->
  EAPMessage_Set success = true ->
  delta d (eapFinish e r st sess d)
    [MkResponse CodeAccessAccept (Some success) None (rate_attrs r (PlanID sub) (eapRateLimit sub))
       (MessageAuthenticator_Set (replicate 16 0))] [true].
Proof.
  intros success Hdb Hset. unfold eapFinish. set (d0 := with_sessions (DeleteSession st) d).
  pose proof (delta_lookup e (s_Username sess) d0) as Hd.
  pose proof (lookup_result e (s_Username sess) d0) as Hres.
  change (db d0) with (db d) in Hres. rewrite Hdb in Hres.
  destruct (lookup_subscriber e (s_Username sess) d0) as [res d']. simpl in Hd, Hres. subst res.
  unfold set_eap. fold success. rewrite Hset.
  eapply delta_before; [exact (delta_before _ _ _ _ _ (delta_same_trace d d0 eq_refl) Hd) |].
  apply (delta_before _ (with_guard (Guard.Reset_ (s_Username sess) (guard d')) d'));
    [by apply delta_same_trace | apply delta_reply_outcome].
Qed.

(** The EAP path does not shape a session like the other two. When an
    acknowledged EAP exchange is accepted, the attributes come from the FUP or
    plan rate alone; they are built from the same rate as a password login's
    exactly when no speed override is in force, or the override happens to
    equal that rate. *)
Theorem eap_accept_ignores_override e r st sess sub d :
  (GetSubscriberByUsername (now e) (s_Username sess) (db d)).1 = Ok (Some sub) ->
  EAPMessage_Set (EAP.Encode (EAP.MkEAPPacket EAP.EAPCodeSuccess (EAPIdentifier sess) 0 [])) = true ->
  (exists resp,
     replies (trace (eapFinish e r st sess d)) = replies (trace d) ++ [resp] /\
     resp_Code resp = CodeAccessAccept /\
     resp_Attrs resp = rate_attrs r (PlanID sub) (eapRateLimit sub)) /\
  (eapRateLimit sub = effectiveRateLimit (now e) sub <->
   ~ override_live (now e) sub \/ SpeedOverrideRateLimit sub = eapRateLimit sub).
Proof.
  intros Hdb Hset. split.
  - destruct (eapFinish_accept e r st sess sub d Hdb Hset) as [Hr _].
    eexists. split; [exact Hr | done].
  - assert (Decision (override_live (now e) sub)) as Hdec
      by (unfold override_live; destruct (SpeedOverrideExpiresAt sub); apply _).
    destruct Hdec as [Ho | Ho].
    + rewrite effectiveRateLimit_override by done. naive_solver.
    + rewrite effectiveRateLimit_no_override by done. unfold eapRateLimit. naive_solver.
Qed.

(** The per-NAS outcome label is the sender's address whenever the
    resolver can read one, registered or not. Two different unregistered
    senders therefore count under two different labels; only a sender without
    a readable address falls into the shared bucket. *)
Theorem outcome_label_of_unregistered res r ip :
  nasResolver cfg = Some res -> RemoteAddr r = Nas.UDPAddr ip ->
  Nas.byIP res !! ip = None ->
  nas_label r = if String.eqb ip EmptyString then unregisteredNAS else ip.
Proof.
  intros Hc Hr Hn. unfold nas_label. rewrite Hc, Hr. unfold Nas.ResolveAddr. simpl.
  unfold Nas.Resolve. by rewrite Hn.
Qed.

End Handlers.

(** ** A concrete daemon *)

Module Demo.

#[export] Existing Instance MSCHAPv2.toy_crypto.
#[export] Existing Instance VerifierCache.toy_mac.

#[export] Instance library : Library := {|
  NewVendorSpecific _ v := Some v;
  EAPMessage_Set b := (length b <=? 253)%nat;
  State_Set _ := true;
  MessageAuthenticator_Set _ := true;
  CompareHashAndPassword h p := String.eqb h ("hash:" +:+ p)
|}.

#[export] Instance table_querier : DBQuerier (gmap string Subscriber) :=
  fun _ u t => (Ok (t !! u), t).

Definition bob : Subscriber :=
  MkSubscriber 7 "bob" "hash:pw" "active" "50M/50M" false EmptyString "90M/90M" None 1
    (replicate 16 3) 100.

Definition cfg : Config := MkConfig None None [1].
Definition env : Env := MkEnv 1000 true (Some (replicate 16 4)) (Some (replicate 16 5)).
Definition start : Daemon (gmap string Subscriber) :=
  MkDaemon {["bob"%string := bob]} ∅ (VerifierCache.MkCache ∅ None) (Some ∅) [].

Definition state : string := MSCHAPv2.hex_encode (replicate 16 5).
Definition eap_request (state : string) (p : EAP.EAPPacket) : Request :=
  MkRequest CodeAccessRequest (Nas.UDPAddr "10.0.0.1") "bob" EmptyString (EAP.Encode p) state.

Definition nt : list Z :=
  match MSCHAPv2.GenerateNTResponse (replicate 16 4) (replicate 16 9) "bob" (replicate 16 3) with
  | Ok r => r | Err _ => [] end.

(** Identity, then the NT response, then the acknowledgement. *)
Definition identity : Request :=
  eap_request EmptyString (EAP.MkEAPPacket EAP.EAPCodeResponse 1 EAP.EAPTypeIdentity (bytes_of_string "bob")).
Definition answer : Request :=
  eap_request state (EAP.MkEAPPacket EAP.EAPCodeResponse 2 EAP.EAPTypeMSCHAPv2
    (EAP.response_layout 1 0 54 (replicate 16 9) (replicate 8 0) nt 0 [])).
Definition ack : Request :=
  eap_request state (EAP.MkEAPPacket EAP.EAPCodeResponse 3 EAP.EAPTypeMSCHAPv2 [3]).

Definition before_ack : Daemon (gmap string Subscriber) :=
  handleAuth cfg env answer (handleAuth cfg env identity start).

Example conversation :
  map resp_Code (replies (trace (handleAuth cfg env ack before_ack))) =
  [CodeAccessChallenge; CodeAccessChallenge; CodeAccessAccept].
Proof. vm_compute. reflexivity. Qed.

(** Suspended between the NT response and its acknowledgement: still accepted. *)
Definition suspended_bob : Subscriber :=
  MkSubscriber 7 "bob" "hash:pw" "hard_suspended" "50M/50M" false EmptyString "90M/90M" None 1
    (replicate 16 3) 100.

Example suspended_during_eap :
  let d := MkDaemon {["bob"%string := suspended_bob]} (guard before_ack) (verifierCache before_ack)
             (eapSessions before_ack) (trace before_ack) in
  AuthorisesService (Status suspended_bob) = false /\
  map resp_Code (replies (trace (handleAuth cfg env ack d))) =
  [CodeAccessChallenge; CodeAccessChallenge; CodeAccessAccept].
Proof. vm_compute. auto. Qed.

Definition final_reply : Response :=
  default (respond 0) (last (replies (trace (handleAuth cfg env ack before_ack)))).

End Demo.
Import (hints) Demo.

Lemma accept_is_justified_witness :
  exists m sess, eapSessions Demo.before_ack = Some m /\
    LoadSession 1000 Demo.state m = Some sess /\
    exists t, 1000 <= t + eapSessionTTL /\ verified t Demo.before_ack sess.
Proof.
  destruct (accept_is_justified Demo.cfg Demo.start Demo.before_ack Demo.env Demo.ack
              Demo.final_reply) as (sub & [[Hx _] | [[Hx _] | (m & sess & Hm & Hl & Hv & _)]]).
  - split; [reflexivity |]. intros m [= <-]. reflexivity.
  - eapply star_step; [apply step_packet |]. apply star_one. apply step_packet.
  - vm_compute. reflexivity.
  - vm_compute. reflexivity.
  - vm_compute in Hx. discriminate.
  - vm_compute in Hx. discriminate.
  - exists m, sess. auto.
Defined.

Definition demo_session : EAPSession :=
  MkSession StageAwaitingSuccessAck "bob" (replicate 16 4) (replicate 16 9) Demo.nt 1 3 EmptyString.

Lemma eap_accept_ignores_override_witness :
  eapRateLimit Demo.bob <> effectiveRateLimit 1000 Demo.bob /\
  exists resp,
    replies (trace (eapFinish Demo.cfg Demo.env Demo.ack Demo.state demo_session Demo.start)) = [resp] /\
    resp_Attrs resp = rate_attrs Demo.cfg Demo.ack 1 "50M/50M".
Proof.
  destruct (eap_accept_ignores_override Demo.cfg Demo.env Demo.ack Demo.state demo_session
              Demo.bob Demo.start) as [(resp & Hr & _ & Ha) Hiff]; [reflexivity | reflexivity |].
  split.
  - intros [Hn | Heq]%Hiff; [| discriminate Heq]. apply Hn. split; [discriminate | exact I].
  - exists resp. split; [exact Hr | exact Ha].
Defined.

Lemma outcome_label_of_unregistered_witness :
  nas_label (MkConfig (Some (Nas.NewResolver "secret" 3799)) None [])
    (MkRequest CodeAccessRequest (Nas.UDPAddr "203.0.113.9") "x" EmptyString [] EmptyString)
  = "203.0.113.9"%string.
Proof.
  exact (outcome_label_of_unregistered
    (MkConfig (Some (Nas.NewResolver "secret" 3799)) None []) (Nas.NewResolver "secret" 3799)
    (MkRequest CodeAccessRequest (Nas.UDPAddr "203.0.113.9") "x" EmptyString [] EmptyString)
    "203.0.113.9" eq_refl eq_refl eq_refl).
Defined.

End Daemon.
