(* ===== verification/SubscriberCache.v ===== *)
(** * internal/cache/subscriber.go: the subscriber cache

    The in-process read-through cache in front of the authentication lookup,
    over [localcache]. It implements the daemon's [DBQuerier] interface for
    any underlying one. The lookup and the fill are also given as separate
    steps, because two requests and an invalidation can interleave between
    them. *)

From S2P Require Import Prelude GoStrings LocalCache Identity RadiusDaemon.

Local Open Scope Z_scope.

Module SubscriberCache.

Definition second : Z := 1000000000.
Definition DefaultSubscriberTTL : Z := 60 * second.

Definition SubscriberCacheKey (username : string) : string := "subscriber:auth:" +:+ username.

(** The stored form: every field of the record, and the negative flag. *)
Record cachedSubscriber : Type := MkCached {
  c_ID : Z;
  c_Username : string;
  c_PasswordHash : string;
  c_Status : string;
  c_RateLimitStr : string;
  c_FUPActive : bool;
  c_FUPThrottle : string;
  c_PlanID : Z;
  c_VolumeGB : Z;
  c_SpeedOverrideRateLimit : string;
  c_SpeedOverrideExpiresAt : option Z;
  c_NTHash : list Z;
  c_NotFound : bool
}.

Definition to_cached (username : string) (sub : option Identity.Subscriber) : cachedSubscriber :=
  match sub with
  | None => MkCached 0 username EmptyString EmptyString EmptyString false EmptyString 0 0
              EmptyString None [] true
  | Some s =>
      MkCached (Identity.ID s) (Identity.Username s) (Identity.PasswordHash s) (Identity.Status s)
        (Identity.RateLimitStr s) (Identity.FUPActive s) (Identity.FUPThrottle s)
        (Identity.PlanID s) (Identity.VolumeGB s) (Identity.SpeedOverrideRateLimit s)
        (Identity.SpeedOverrideExpiresAt s) (Identity.NTHash s) false
  end.

Definition of_cached (e : cachedSubscriber) : option Identity.Subscriber :=
  if c_NotFound e then None
  else Some (Identity.MkSubscriber (c_ID e) (c_Username e) (c_PasswordHash e) (c_Status e)
    (c_RateLimitStr e) (c_FUPActive e) (c_FUPThrottle e) (c_SpeedOverrideRateLimit e)
    (c_SpeedOverrideExpiresAt e) (c_PlanID e) (c_NTHash e) (c_VolumeGB e)).

Abbreviation store := (gmap string (Store.entry cachedSubscriber)).

Record SubscriberCache {DB : Type} : Type := MkCache { db : DB; entries : store; ttl : Z }.
Arguments SubscriberCache : clear implicits.
Arguments MkCache {DB} _ _ _.

Definition NewSubscriberCache {DB} (inner : DB) (ttl : Z) : SubscriberCache DB :=
  MkCache inner ∅ (if ttl <=? 0 then DefaultSubscriberTTL else ttl).

(** How long an answer is kept: a negative one for a quarter, at least a
    second. *)
Definition ttl_for (ttl : Z) (sub : option Identity.Subscriber) : Z :=
  match sub with
  | Some _ => ttl
  | None => let q := Z.quot ttl 4 in if q <? second then second else q
  end.

Definition fill (now ttl : Z) (username : string) (sub : option Identity.Subscriber) (s : store) : store :=
  Store.Set_ now (SubscriberCacheKey username) (to_cached username sub) (ttl_for ttl sub) s.

Definition cacheResult {DB} (now : Z) (username : string) (sub : option Identity.Subscriber)
    (c : SubscriberCache DB) : SubscriberCache DB :=
  MkCache (db c) (fill now (ttl c) username sub (entries c)) (ttl c).

Definition cached_answer (now : Z) (username : string) (s : store) : option (option Identity.Subscriber) :=
  of_cached <$> Store.Get now (SubscriberCacheKey username) s.

#[export] Instance GetSubscriberByUsername {DB} `{Daemon.DBQuerier DB} :
    Daemon.DBQuerier (SubscriberCache DB) :=
  fun now username c =>
    match cached_answer now username (entries c) with
    | Some sub => (Ok sub, c)
    | None =>
        let '(res, db') := Daemon.GetSubscriberByUsername now username (db c) in
        let c' := MkCache db' (entries c) (ttl c) in
        match res with
        | Err e => (Err e, c')
        | Ok sub => (Ok sub, cacheResult now username sub c')
        end
    end.

Definition InvalidateSubscriber {DB} (username : string) (c : SubscriberCache DB) : SubscriberCache DB :=
  MkCache (db c) (Store.Delete (SubscriberCacheKey username) (entries c)) (ttl c).

(** ** Interleavings *)

Inductive event : Type :=
| Looked (at_ : Z) (username : string) (sub : option Identity.Subscriber)
| Invalidated (at_ : Z) (username : string).

Record system : Type := MkSystem {
  cache : store;
  clock : Z;
  inflight : list (Z * string * option Identity.Subscriber);
  log : list event
}.

(** [step_look]: a request missed and its query read the database.
    [step_fill]: it caches what it read. *)
Inductive step (ttl : Z) : system -> system -> Prop :=
| step_look s username sub :
    cached_answer (clock s) username (cache s) = None ->
    step ttl s (MkSystem (cache s) (clock s) ((clock s, username, sub) :: inflight s)
                  (Looked (clock s) username sub :: log s))
| step_fill s l1 at_ username sub l2 :
    inflight s = l1 ++ (at_, username, sub) :: l2 ->
    step ttl s (MkSystem (fill (clock s) ttl username sub (cache s)) (clock s) (l1 ++ l2) (log s))
| step_invalidate s username :
    step ttl s (MkSystem (Store.Delete (SubscriberCacheKey username) (cache s)) (clock s)
                  (inflight s) (Invalidated (clock s) username :: log s))
| step_sweep s : step ttl s (MkSystem (Store.sweep (clock s) (cache s)) (clock s) (inflight s) (log s))
| step_tick s now : clock s <= now -> step ttl s (MkSystem (cache s) now (inflight s) (log s)).

Definition init (now : Z) : system := MkSystem ∅ now [] [].

Lemma SubscriberCacheKey_inj u v : SubscriberCacheKey u = SubscriberCacheKey v -> u = v.
Proof. unfold SubscriberCacheKey. intros. by simplify_eq/=. Qed.

Lemma of_to_cached u sub : of_cached (to_cached u sub) = sub.
Proof. by destruct sub as [[]|]. Qed.

(** What stands behind a cached entry. *)
Definition sourced (ttl : Z) (s : system) (username : string) (e : Store.entry cachedSubscriber) : Prop :=
  exists read filled sub,
    Looked read username sub ∈ log s /\ read <= filled <= clock s /\
    Store.val e = to_cached username sub /\ Store.expires e = Some (filled + ttl_for ttl sub).

Definition cache_inv (ttl : Z) (s : system) : Prop :=
  (forall at_ u sub, (at_, u, sub) ∈ inflight s -> Looked at_ u sub ∈ log s /\ at_ <= clock s) /\
  (forall k e, cache s !! k = Some e -> exists u, k = SubscriberCacheKey u /\ sourced ttl s u e).

Lemma sourced_later ttl s s' u e :
  clock s <= clock s' -> (forall x, x ∈ log s -> x ∈ log s') -> sourced ttl s u e -> sourced ttl s' u e.
Proof.
  intros Hc Hl (read & filled & sub & H1 & H2 & H3 & H4). exists read, filled, sub.
  split; [by apply Hl |]. split; [lia | done].
Qed.

Lemma step_cache_inv ttl s s' : cache_inv ttl s -> step ttl s s' -> cache_inv ttl s'.
Proof.
  intros [Hi Hc] Hstep. destruct Hstep as
    [s u sub Hmiss | s l1 at_ u sub l2 Hin | s u | s | s now Hle]; split; simpl.
  - intros at_ u' sub' [[= -> -> ->] | Hx]%elem_of_cons; [split; [by left | lia] |].
    destruct (Hi _ _ _ Hx). split; [by right | done].
  - intros k e (v & -> & Hs)%Hc. exists v. split; [done |].
    eapply sourced_later; [| | exact Hs]; simpl; [lia | intros x Hx; by right].
  - intros at' u' sub' Hx. apply Hi. rewrite Hin. set_solver.
  - intros k e. unfold fill, Store.Set_. intros [[<- <-] | [Hne Hk]]%lookup_insert_Some.
    + exists u. split; [done |]. destruct (Hi at_ u sub) as [Hl Hle]; [rewrite Hin; set_solver |].
      exists at_, (clock s), sub. simpl. repeat split; try done; lia.
    + destruct (Hc k e Hk) as (v & -> & Hs). by exists v.
  - intros at_ u' sub' Hx. destruct (Hi _ _ _ Hx). split; [by right | done].
  - unfold Store.Delete. intros k e [_ Hk]%lookup_delete_Some. destruct (Hc k e Hk) as (v & -> & Hs). exists v.
    split; [done |]. eapply sourced_later; [| | exact Hs]; simpl; [lia | intros x Hx; by right].
  - done.
  - intros k e Hk. rewrite Store.lookup_sweep in Hk. destruct (cache s !! k) as [e'|] eqn:Hk'; simpl in Hk; [| done].
    destruct (Store.dead (clock s) e'); [done |]. injection Hk as <-.
    destruct (Hc k e' Hk') as (v & -> & Hs). by exists v.
  - intros at_ u' sub' Hx. destruct (Hi _ _ _ Hx). split; [done | lia].
  - intros k e (v & -> & Hs)%Hc. exists v. split; [done |].
    eapply sourced_later; [| | exact Hs]; simpl; [lia | done].
Qed.

(** A cached answer is a recent answer. However requests, invalidations
    and sweeps interleave, what the cache returns for a user is, field for
    field, what a database lookup for that user returned, and it was cached
    no longer ago than the TTL (for "no such user", a quarter of it, at least
    a second). *)
Theorem cached_answer_is_recent ttl start s u sub :
  star (step ttl) (init start) s -> cached_answer (clock s) u (cache s) = Some sub ->
  exists read filled,
    Looked read u sub ∈ log s /\ read <= filled <= clock s /\ clock s <= filled + ttl_for ttl sub.
Proof.
  intros Hstar Ha. assert (cache_inv ttl s) as [_ Hc].
  { eapply star_invariant; [intros s1 s2; apply step_cache_inv | exact Hstar |]. split; simpl.
    - intros ? ? ? []%elem_of_nil.
    - intros k e. by rewrite lookup_empty. }
  unfold cached_answer, Store.Get in Ha.
  destruct (cache s !! SubscriberCacheKey u) as [e|] eqn:Hk; simpl in Ha; [| done].
  destruct (Hc _ _ Hk) as (v & ->%SubscriberCacheKey_inj & read & filled & sub' & Hl & Hle & Hv & Hx).
  rewrite Hx in Ha. destruct (filled + ttl_for ttl sub' <? clock s) eqn:Hlt; simpl in Ha; [done |].
  rewrite Hv, of_to_cached in Ha. injection Ha as <-.
  exists read, filled. repeat split; try done; lia.
Qed.

Definition suspended : Identity.Subscriber :=
  Identity.MkSubscriber 7 "bob" "hash" "active" "50M/50M" false EmptyString EmptyString None 1 [] 100.

Definition looked : system :=
  MkSystem ∅ 0 [(0, "bob"%string, Some suspended)] [Looked 0 "bob" (Some suspended)].
Definition filled_late : system :=
  MkSystem (fill 2 DefaultSubscriberTTL "bob" (Some suspended) ∅) 2 []
    [Invalidated 1 "bob"; Looked 0 "bob" (Some suspended)].

Lemma looked_reachable ttl : star (step ttl) (init 0) looked.
Proof. apply star_one. apply (step_look ttl (init 0)). reflexivity. Qed.

Lemma filled_late_reachable : star (step DefaultSubscriberTTL) looked filled_late.
Proof.
  eapply star_step; [apply (step_tick _ looked 1); done |].
  eapply star_step; [apply (step_invalidate _ _ "bob") |].
  eapply star_step; [apply (step_tick _ _ 2); done |]. apply star_one.
  apply (step_fill _ (MkSystem ∅ 2 [(0, "bob"%string, Some suspended)]
    [Invalidated 1 "bob"; Looked 0 "bob" (Some suspended)]) [] 0 "bob" (Some suspended) []).
  reflexivity.
Qed.

(** Invalidation does not reach a lookup in flight. A request that read
    the database before an invalidation may cache what it read after it, and
    the record the invalidation was meant to drop is then served until its
    TTL, although nothing read the database since. *)
Theorem invalidation_misses_inflight :
  exists s,
    star (step DefaultSubscriberTTL) (init 0) s /\
    cached_answer (clock s) "bob" (cache s) = Some (Some suspended) /\
    (exists t, Invalidated t "bob" ∈ log s /\ t <= clock s /\
       forall read sub, Looked read "bob" sub ∈ log s -> read < t) /\
    cached_answer (clock s + DefaultSubscriberTTL) "bob" (cache s) = Some (Some suspended).
Proof.
  exists filled_late. split; [eapply star_trans; [apply looked_reachable | apply filled_late_reachable] |].
  split; [reflexivity |]. split; [| reflexivity]. exists 1. split; [by left |]. split; [done |].
  intros read sub [Hx | [Hx | []%elem_of_nil]%elem_of_cons]%elem_of_cons; [done |].
  by injection Hx as -> _.
Qed.

Lemma cached_answer_is_recent_witness :
  exists read, Looked read "bob" (Some suspended) ∈ log filled_late /\ read <= 2.
Proof.
  destruct (cached_answer_is_recent DefaultSubscriberTTL 0 filled_late "bob" (Some suspended))
    as (read & filled & Hl & Hle & _).
  - eapply star_trans; [apply looked_reachable | apply filled_late_reachable].
  - reflexivity.
  - exists read. split; [exact Hl | simpl in Hle; lia].
Defined.

End SubscriberCache.
