(* ===== verification/Jobqueue.v ===== *)
(** * internal/jobqueue: the background task queue

    The [jobqueue_tasks] table (migration 037) as a map from row id to row,
    the client's [Enqueue], the server's claim, run, retry, lease reaper and
    retention sweep, and the inspector's reads. Each SQL statement is one
    atomic function on the table; instants and durations are nanoseconds. The
    worker pool's interleavings are the step relation [step]. *)

From S2P Require Import Prelude GoStrings.

Local Open Scope Z_scope.

Module Jobqueue.

Definition second : Z := 1000000000.

Inductive Status : Type := Pending | Processing | Completed | Dead.

#[global] Instance Status_eq_dec : EqDecision Status.
Proof. solve_decision. Defined.

(** ** Tasks and options (task.go) *)

Record options : Type := MkOptions {
  o_queue : string;
  o_maxRetry : Z;
  o_timeout : Z;
  o_retention : Z;
  o_taskID : string;
  o_processIn : Z
}.

Definition no_options : options := MkOptions EmptyString 0 0 0 EmptyString 0.

Definition Option : Type := options -> options.

Definition Queue (name : string) : Option := fun o =>
  MkOptions name (o_maxRetry o) (o_timeout o) (o_retention o) (o_taskID o) (o_processIn o).
Definition MaxRetry (n : Z) : Option := fun o =>
  MkOptions (o_queue o) n (o_timeout o) (o_retention o) (o_taskID o) (o_processIn o).
Definition Timeout_ (d : Z) : Option := fun o =>
  MkOptions (o_queue o) (o_maxRetry o) d (o_retention o) (o_taskID o) (o_processIn o).
Definition Retention (d : Z) : Option := fun o =>
  MkOptions (o_queue o) (o_maxRetry o) (o_timeout o) d (o_taskID o) (o_processIn o).
Definition TaskID (id : string) : Option := fun o =>
  MkOptions (o_queue o) (o_maxRetry o) (o_timeout o) (o_retention o) id (o_processIn o).
Definition ProcessIn (d : Z) : Option := fun o =>
  MkOptions (o_queue o) (o_maxRetry o) (o_timeout o) (o_retention o) (o_taskID o) d.

Record Task : Type := MkTask { typ : string; payload : list Z; opts : options }.

Definition apply_options (os : list Option) (o : options) : options :=
  foldl (fun acc opt => opt acc) o os.

Definition NewTask (taskType : string) (payload : list Z) (os : list Option) : Task :=
  MkTask taskType payload (apply_options os no_options).

Definition DefaultQueue : string := "default".

(** ** The table *)

Record TaskRow : Type := MkRow {
  task_id : option string;
  queue : string;
  task_type : string;
  row_payload : list Z;
  status : Status;
  max_retry : Z;
  retry_count : Z;
  timeout_seconds : option Z;
  run_after : Z;
  locked_by : option string;
  lease_expires_at : option Z;
  last_error : option string;
  retention_until : option Z;
  completed_at : option Z
}.

Record table : Type := MkTable { rows : gmap Z TaskRow; next_id : Z }.

Definition with_rows (f : gmap Z TaskRow -> gmap Z TaskRow) (t : table) : table :=
  MkTable (f (rows t)) (next_id t).

Inductive error : Type := ErrTaskIDConflict | ErrDatabase.

Definition id_taken (tid : string) (t : table) : bool :=
  existsb (fun p => bool_decide (task_id p.2 = Some tid)) (map_to_list (rows t)).

Definition nonzero (d : Z) (v : Z) : option Z := if 0 <? d then Some v else None.

Definition enqueued_row (now : Z) (task : Task) (o : options) : TaskRow :=
  MkRow (if String.eqb (o_taskID o) EmptyString then None else Some (o_taskID o))
    (if String.eqb (o_queue o) EmptyString then DefaultQueue else o_queue o)
    (typ task) (payload task) Pending (o_maxRetry o) 0
    (nonzero (o_timeout o) (o_timeout o / second)) (now + o_processIn o) None None None
    (nonzero (o_retention o) (now + o_retention o)) None.

(** [EnqueueContext]: the id sequence advances even when the insert fails. *)
Definition EnqueueContext (now : Z) (up : bool) (task : Task) (os : list Option) (t : table) :
    result error Z * table :=
  let o := apply_options os (opts task) in
  if negb up then (Err ErrDatabase, t)
  else
    let t' := MkTable (rows t) (next_id t + 1) in
    if negb (String.eqb (o_taskID o) EmptyString) && id_taken (o_taskID o) t
    then (Err ErrTaskIDConflict, t')
    else (Ok (next_id t), with_rows (<[next_id t := enqueued_row now task o]>) t').

(** ** The server (server.go) *)

Record claimedTask : Type := MkClaimed {
  ct_id : Z;
  ct_taskType : string;
  ct_payload : list Z;
  ct_queue : string;
  ct_retryCount : Z;
  ct_maxRetry : Z;
  ct_timeout : Z;
  ct_retained : bool
}.

(** [selectionOrder] before its shuffle; the shuffle is an argument of
    [claimNext], any permutation of this list. *)
Definition selectionOrder (queues : list (string * Z)) : list string :=
  flat_map (fun q => replicate (Z.to_nat (Z.max 1 q.2)) q.1) queues.

Definition due (now : Z) (q : string) (r : TaskRow) : bool :=
  bool_decide (status r = Pending) && String.eqb (queue r) q && (run_after r <=? now).

(** [ORDER BY run_after, id] *)
Definition before (a b : Z * TaskRow) : bool :=
  (run_after a.2 <? run_after b.2) || ((run_after a.2 =? run_after b.2) && (a.1 <=? b.1)).

Definition next_due (now : Z) (q : string) (t : table) : option (Z * TaskRow) :=
  min_by before (List.filter (fun p => due now q p.2) (map_to_list (rows t))).

Definition claimed_row (now : Z) (lease : Z) (worker : string) (r : TaskRow) : TaskRow :=
  MkRow (task_id r) (queue r) (task_type r) (row_payload r) Processing (max_retry r)
    (retry_count r) (timeout_seconds r) (run_after r) (Some worker) (Some (now + lease))
    (last_error r) (retention_until r) (completed_at r).

Definition claim_of (id : Z) (r : TaskRow) : claimedTask :=
  MkClaimed id (task_type r) (row_payload r) (queue r) (retry_count r) (max_retry r)
    (default 0 (timeout_seconds r) * second) (bool_decide (is_Some (retention_until r))).

Fixpoint claimNext (now lease : Z) (worker : string) (order : list string) (t : table) :
    option claimedTask * table :=
  match order with
  | [] => (None, t)
  | q :: order =>
      match next_due now q t with
      | None => claimNext now lease worker order t
      | Some (id, r) =>
          (Some (claim_of id r), with_rows (<[id := claimed_row now lease worker r]>) t)
      end
  end.

(** What running the handler came to: [nil], or an error, possibly wrapping
    [SkipRetry]. A panic is an error that does not. *)
Inductive outcome : Type := Succeeded | Failed (message : string) (skipRetry : bool).

Definition backoffSchedule : list Z :=
  [10 * second; 30 * second; 60 * second; 300 * second; 900 * second; 1800 * second;
   3600 * second; 7200 * second].

Definition backoff (retryCount : Z) : Z :=
  let n := Z.of_nat (length backoffSchedule) in
  let retryCount := if retryCount <? 0 then 0 else retryCount in
  if n <=? retryCount then default 0 (backoffSchedule !! Z.to_nat (n - 1))
  else default 0 (backoffSchedule !! Z.to_nat retryCount).

Definition completed_row (now : Z) (r : TaskRow) : TaskRow :=
  MkRow (task_id r) (queue r) (task_type r) (row_payload r) Completed (max_retry r)
    (retry_count r) (timeout_seconds r) (run_after r) None None None (retention_until r)
    (Some now).

Definition dead_row (now : Z) (message : string) (r : TaskRow) : TaskRow :=
  MkRow (task_id r) (queue r) (task_type r) (row_payload r) Dead (max_retry r)
    (retry_count r) (timeout_seconds r) (run_after r) None None (Some message)
    (retention_until r) (Some now).

Definition retried_row (now delay : Z) (message : string) (r : TaskRow) : TaskRow :=
  MkRow (task_id r) (queue r) (task_type r) (row_payload r) Pending (max_retry r)
    (retry_count r + 1) (timeout_seconds r) (now + delay) None None (Some message)
    (retention_until r) (completed_at r).

Definition finish (now : Z) (retryDelay : option (Z -> Z)) (ct : claimedTask) (o : outcome)
    (t : table) : table :=
  match o with
  | Succeeded =>
      if ct_retained ct then with_rows (alter (completed_row now) (ct_id ct)) t
      else with_rows (delete (ct_id ct)) t
  | Failed message skipRetry =>
      if skipRetry || (ct_maxRetry ct <=? ct_retryCount ct)
      then with_rows (alter (dead_row now message) (ct_id ct)) t
      else
        let delay := match retryDelay with
                     | Some f => f (ct_retryCount ct)
                     | None => backoff (ct_retryCount ct)
                     end in
        with_rows (alter (retried_row now delay message) (ct_id ct)) t
  end.

(** [ServeMux] and [run]: an unregistered type is dead-lettered at once. *)
Abbreviation ServeMux := (gmap string (list Z -> outcome)).

Definition run_outcome (mux : ServeMux) (ct : claimedTask) : outcome :=
  match mux !! ct_taskType ct with
  | None => Failed "jobqueue: no handler registered" true
  | Some handler => handler (ct_payload ct)
  end.

Definition run (now : Z) (retryDelay : option (Z -> Z)) (mux : ServeMux) (ct : claimedTask)
    (t : table) : table :=
  finish now retryDelay ct (run_outcome mux ct) t.

Definition lease_lapsed (now : Z) (r : TaskRow) : bool :=
  bool_decide (status r = Processing) &&
  match lease_expires_at r with Some e => e <? now | None => false end.

Definition reaped_row (r : TaskRow) : TaskRow :=
  MkRow (task_id r) (queue r) (task_type r) (row_payload r) Pending (max_retry r)
    (retry_count r) (timeout_seconds r) (run_after r) None None
    (Some "lease expired; worker presumed dead") (retention_until r) (completed_at r).

Definition reapExpiredLeases (now : Z) : table -> table :=
  with_rows (fmap (fun r => if lease_lapsed now r then reaped_row r else r)).

Definition finished (s : Status) : bool := bool_decide (s = Completed) || bool_decide (s = Dead).

Definition swept (now : Z) (r : TaskRow) : bool :=
  finished (status r) && match retention_until r with Some u => u <? now | None => false end.

Definition sweepRetained (now : Z) : table -> table :=
  with_rows (filter (fun p => negb (swept now p.2) = true)).

(** ** The inspector (inspector.go) *)

Definition in_state (q : string) (s : Status) (r : TaskRow) : bool :=
  String.eqb (queue r) q && bool_decide (status r = s).

Definition count_rows (q : string) (s : Status) (t : table) : Z :=
  Z.of_nat (length (List.filter (fun p => in_state q s p.2) (map_to_list (rows t)))).

Definition DeadCount (q : string) (t : table) : Z := count_rows q Dead t.
Definition QueueDepth (q : string) (t : table) : Z := count_rows q Pending t.

Record TaskState : Type := MkTaskState {
  ts_ID : Z; ts_Status : Status; ts_RetryCount : Z; ts_MaxRetry : Z; ts_LastError : string
}.

Definition TaskByID (id : Z) (t : table) : option TaskState :=
  r ← rows t !! id;
  Some (MkTaskState id (status r) (retry_count r) (max_retry r) (default EmptyString (last_error r))).

(** ** Claiming *)

Lemma before_total a b : before a b = false -> before b a = true.
Proof. unfold before. destruct a as [i ra], b as [j rb]; simpl. lia. Qed.

Lemma before_trans a b c : before a b = true -> before b c = true -> before a c = true.
Proof. unfold before. destruct a, b, c; simpl. lia. Qed.

Lemma before_refl a : before a a = true.
Proof. unfold before. destruct a; simpl. lia. Qed.

Lemma next_due_spec now q t :
  match next_due now q t with
  | None => forall id r, rows t !! id = Some r -> due now q r = false
  | Some (id, r) =>
      rows t !! id = Some r /\ due now q r = true /\
      forall id' r', rows t !! id' = Some r' -> due now q r' = true -> before (id, r) (id', r') = true
  end.
Proof.
  unfold next_due. pose proof (min_by_spec before before_refl before_total before_trans
    (List.filter (fun p => due now q p.2) (map_to_list (rows t)))) as Hs.
  assert (forall id r, (id, r) ∈ List.filter (fun p => due now q p.2) (map_to_list (rows t)) <->
    rows t !! id = Some r /\ due now q r = true) as Hin.
  { intros id r. rewrite elem_of_filterb. by rewrite elem_of_map_to_list. }
  destruct (min_by before _) as [[id r]|].
  - destruct Hs as [Hm Hmin]. apply Hin in Hm as [Hr Hd]. split; [done |]. split; [done |].
    intros id' r' Hr' Hd'. apply Hmin, Hin. done.
  - intros id r Hr. destruct (due now q r) eqn:Hd; [| done].
    assert ((id, r) ∈ List.filter (fun p => due now q p.2) (map_to_list (rows t))) as Hc
      by (by apply Hin). rewrite Hs in Hc. by apply elem_of_nil in Hc.
Qed.

Lemma claimNext_spec now lease w order t :
  match claimNext now lease w order t with
  | (None, t') => t' = t /\ forall q id r, q ∈ order -> rows t !! id = Some r -> due now q r = false
  | (Some ct, t') =>
      exists pre q post r,
        order = pre ++ q :: post /\
        (forall q' id r', q' ∈ pre -> rows t !! id = Some r' -> due now q' r' = false) /\
        rows t !! ct_id ct = Some r /\ due now q r = true /\
        (forall id' r', rows t !! id' = Some r' -> due now q r' = true ->
           before (ct_id ct, r) (id', r') = true) /\
        ct = claim_of (ct_id ct) r /\
        t' = with_rows (<[ct_id ct := claimed_row now lease w r]>) t
  end.
Proof.
  induction order as [| q order IH]; simpl.
  - split; [done |]. intros q id r []%elem_of_nil.
  - pose proof (next_due_spec now q t) as Hq. destruct (next_due now q t) as [[id r]|].
    + destruct Hq as (Hr & Hd & Hmin). exists [], q, order, r. split; [done |].
      split; [intros q' ? ? []%elem_of_nil |]. done.
    + destruct (claimNext now lease w order t) as [[ct|] t'].
      * destruct IH as (pre & q0 & post & r & -> & Hpre & Hrest).
        exists (q :: pre), q0, post, r. split; [done |]. split; [| done].
        intros q' id r' [-> | Hin]%elem_of_cons; eauto.
      * destruct IH as [-> Hn]. split; [done |].
        intros q' id r [-> | Hin]%elem_of_cons; eauto.
Qed.

Lemma elem_of_selectionOrder queues q :
  q ∈ selectionOrder queues <-> exists weight, (q, weight) ∈ queues.
Proof.
  unfold selectionOrder. rewrite list_elem_of_In, in_flat_map. split.
  - intros ([name weight] & Hin & Hq). rewrite <- list_elem_of_In in Hin. rewrite <- list_elem_of_In in Hq.
    apply elem_of_replicate in Hq as [-> _]. by exists weight.
  - intros [weight Hin]. exists (q, weight). rewrite <- list_elem_of_In. split; [done |].
    rewrite <- list_elem_of_In. apply elem_of_replicate. split; [done | simpl; lia].
Qed.

(** A claim takes the oldest due task of the first queue that has one, in
    the shuffled order, changes nothing but that task's claim, and finds
    nothing only when no configured queue has anything due: no queue is
    starved by the weights. *)
Theorem claim_exact now lease worker queues order t :
  order ≡ₚ selectionOrder queues ->
  match claimNext now lease worker order t with
  | (None, t') =>
      t' = t /\ forall q weight id r, (q, weight) ∈ queues -> rows t !! id = Some r ->
        due now q r = false
  | (Some ct, t') =>
      exists pre q post r,
        order = pre ++ q :: post /\
        (forall q' id r', q' ∈ pre -> rows t !! id = Some r' -> due now q' r' = false) /\
        rows t !! ct_id ct = Some r /\ due now q r = true /\
        (forall id' r', rows t !! id' = Some r' -> due now q r' = true ->
           before (ct_id ct, r) (id', r') = true) /\
        ct = claim_of (ct_id ct) r /\
        t' = with_rows (<[ct_id ct := claimed_row now lease worker r]>) t
  end.
Proof.
  intros Hp. pose proof (claimNext_spec now lease worker order t) as Hs.
  destruct (claimNext now lease worker order t) as [[ct|] t']; [done |].
  destruct Hs as [-> Hn]. split; [done |]. intros q weight id r Hq. apply Hn.
  rewrite Hp. apply elem_of_selectionOrder. by exists weight.
Qed.

(** ** The running system *)

Record system : Type := MkSystem {
  tbl : table;
  clock : Z;
  running : list claimedTask;
  log : list (Z * outcome)
}.

Definition failures (id : Z) (l : list (Z * outcome)) : Z :=
  Z.of_nat (length (List.filter (fun p => (p.1 =? id) &&
    match p.2 with Failed _ _ => true | Succeeded => false end) l)).
Definition successes (id : Z) (l : list (Z * outcome)) : Z :=
  Z.of_nat (length (List.filter (fun p => (p.1 =? id) &&
    match p.2 with Failed _ _ => false | Succeeded => true end) l)).

(** Every handler still running holds an unexpired lease. *)
Definition leases_hold (s : system) : Prop :=
  forall ct r e, ct ∈ running s -> rows (tbl s) !! ct_id ct = Some r ->
    lease_expires_at r = Some e -> clock s <= e.

(** One atomic statement of one process. [step_crash] is a worker that dies,
    or whose outcome could not be written. With [in_time], time passes only
    while every running handler is within its lease. *)
Inductive step (in_time : bool) : system -> system -> Prop :=
| step_enqueue s up task os :
    step in_time s (MkSystem (EnqueueContext (clock s) up task os (tbl s)).2 (clock s) (running s) (log s))
| step_claim s lease worker order ct t' :
    claimNext (clock s) lease worker order (tbl s) = (Some ct, t') -> 0 < lease ->
    step in_time s (MkSystem t' (clock s) (ct :: running s) (log s))
| step_finish s l1 ct l2 retryDelay o :
    running s = l1 ++ ct :: l2 ->
    step in_time s (MkSystem (finish (clock s) retryDelay ct o (tbl s)) (clock s) (l1 ++ l2)
            ((ct_id ct, o) :: log s))
| step_crash s l1 ct l2 :
    running s = l1 ++ ct :: l2 -> step in_time s (MkSystem (tbl s) (clock s) (l1 ++ l2) (log s))
| step_reap s :
    step in_time s (MkSystem (reapExpiredLeases (clock s) (tbl s)) (clock s) (running s) (log s))
| step_sweep s :
    step in_time s (MkSystem (sweepRetained (clock s) (tbl s)) (clock s) (running s) (log s))
| step_tick s now :
    clock s <= now ->
    (in_time = true -> leases_hold (MkSystem (tbl s) now (running s) (log s))) ->
    step in_time s (MkSystem (tbl s) now (running s) (log s)).

Definition init (now : Z) : system := MkSystem (MkTable ∅ 1) now [] [].

(** What the log says of a row, by its status. *)
Definition counted (l : list (Z * outcome)) (id : Z) (r : TaskRow) : Prop :=
  0 <= retry_count r /\
  match status r with
  | Pending | Processing =>
      failures id l = retry_count r /\ retry_count r <= Z.max 0 (max_retry r) /\ successes id l = 0
  | Dead => failures id l <= Z.max 0 (max_retry r) + 1 /\ successes id l = 0
  | Completed => failures id l <= Z.max 0 (max_retry r) /\ successes id l = 1
  end.

Record queue_inv (s : system) : Prop := {
  inv_fresh id r : rows (tbl s) !! id = Some r -> id < next_id (tbl s);
  inv_running ct : ct ∈ running s -> exists r e,
    rows (tbl s) !! ct_id ct = Some r /\ status r = Processing /\ ct = claim_of (ct_id ct) r /\
    lease_expires_at r = Some e /\ clock s <= e;
  inv_single : NoDup (map ct_id (running s));
  inv_counted id r : rows (tbl s) !! id = Some r -> counted (log s) id r;
  inv_gone id : rows (tbl s) !! id = None -> successes id (log s) <= 1;
  inv_unused id : next_id (tbl s) <= id -> failures id (log s) = 0 /\ successes id (log s) = 0;
  inv_task_id id id' r r' tid : rows (tbl s) !! id = Some r -> rows (tbl s) !! id' = Some r' ->
    task_id r = Some tid -> task_id r' = Some tid -> id = id'
}.

Lemma failures_cons id p l :
  failures id (p :: l) =
  (if (p.1 =? id) && match p.2 with Failed _ _ => true | Succeeded => false end then 1 else 0)
  + failures id l.
Proof. unfold failures. simpl. case_match; simpl; lia. Qed.

Lemma successes_cons id p l :
  successes id (p :: l) =
  (if (p.1 =? id) && match p.2 with Failed _ _ => false | Succeeded => true end then 1 else 0)
  + successes id l.
Proof. unfold successes. simpl. case_match; simpl; lia. Qed.

Lemma counted_other id id' o l r : id' <> id -> counted l id r -> counted ((id', o) :: l) id r.
Proof.
  intros Hne. unfold counted. rewrite failures_cons, successes_cons. simpl.
  replace (id' =? id) with false by lia. done.
Qed.

(** What [finish] does to the rows, given the row it was claimed from. *)
Lemma finish_row now rd ct o t r :
  rows t !! ct_id ct = Some r -> ct = claim_of (ct_id ct) r ->
  next_id (finish now rd ct o t) = next_id t /\
  (forall id, id <> ct_id ct -> rows (finish now rd ct o t) !! id = rows t !! id) /\
  match rows (finish now rd ct o t) !! ct_id ct with
  | None => o = Succeeded
  | Some r' =>
      task_id r' = task_id r /\ max_retry r' = max_retry r /\
      match status r' with
      | Completed => o = Succeeded /\ retry_count r' = retry_count r
      | Dead => o <> Succeeded /\ retry_count r' = retry_count r
      | Pending => o <> Succeeded /\ retry_count r' = retry_count r + 1 /\ retry_count r < max_retry r
      | Processing => False
      end
  end.
Proof.
  intros Hr Hct. unfold finish, with_rows.
  assert (ct_retryCount ct = retry_count r /\ ct_maxRetry ct = max_retry r) as [Hc Hm]
    by (rewrite Hct; done).
  destruct o as [| m skip]; [destruct (ct_retained ct) | destruct (skip || _) eqn:Hs]; simpl;
    (split; [done |]); (split; [intros id Hne; by rewrite ?lookup_alter_ne, ?lookup_delete_ne |]);
    rewrite ?lookup_alter_eq, ?lookup_delete_eq, ?Hr; simpl; try done.
  repeat (split; [done |]). lia.
Qed.

Lemma id_taken_spec tid t :
  id_taken tid t = true <->
  exists i r, rows t !! i = Some r /\ task_id r = Some tid.
Proof.
  unfold id_taken. rewrite existsb_exists. split.
  - intros ([i r] & Hin & Hr%bool_decide_eq_true). exists i, r.
    split; [| done]. by apply elem_of_map_to_list, list_elem_of_In.
  - intros (i & r & Hi & Hr). exists (i, r). split; [| by apply bool_decide_eq_true].
    by apply list_elem_of_In, elem_of_map_to_list.
Qed.

Lemma enqueue_inv s up task os :
  queue_inv s ->
  queue_inv (MkSystem (EnqueueContext (clock s) up task os (tbl s)).2 (clock s) (running s) (log s)).
Proof.
  intros Hi. pose proof Hi as [Hf Hr Hs Hc Hg Hu Ht]. unfold EnqueueContext.
  destruct up; simpl; [| by destruct s].
  set (o := apply_options os (opts task)). destruct (_ && _) eqn:Htaken; simpl.
  { constructor; simpl; try done.
    - intros id r Hid. pose proof (Hf id r Hid). lia.
    - intros id Hid. apply Hu. lia. }
  assert (rows (tbl s) !! next_id (tbl s) = None) as Hnone.
  { destruct (rows (tbl s) !! next_id (tbl s)) as [r|] eqn:E; [| done]. apply Hf in E. lia. }
  assert (forall id r tid, rows (tbl s) !! id = Some r -> task_id r = Some tid ->
    task_id (enqueued_row (clock s) task o) = Some tid -> False) as Hfree.
  { intros id r tid Hid Htid. unfold enqueued_row. simpl.
    destruct (String.eqb (o_taskID o) EmptyString); simpl in *; [done |]. intros [= <-].
    unfold id_taken in Htaken. apply not_true_iff_false in Htaken. apply Htaken.
    apply existsb_exists. exists (id, r). split; [| by apply bool_decide_eq_true].
    apply list_elem_of_In. by apply elem_of_map_to_list. }
  constructor; simpl.
  - intros id r [[<- <-] | [Hne Hid]]%lookup_insert_Some; [lia |]. pose proof (Hf id r Hid). lia.
  - intros ct Hct. destruct (Hr ct Hct) as (r & e & Hrow & Hrest). exists r, e.
    rewrite lookup_insert_ne; [done |]. intros Heq. congruence.
  - done.
  - intros id r [[<- <-] | [Hne Hid]]%lookup_insert_Some; [| by apply Hc].
    destruct (Hu (next_id (tbl s)) ltac:(lia)) as [H1 H2].
    unfold counted. simpl. rewrite H1, H2. lia.
  - intros id [Hid _]%lookup_insert_None. by apply Hg.
  - intros id Hid. apply Hu. lia.
  - intros id id' r r' tid [[<- <-] | [Hne Hid]]%lookup_insert_Some
      [[<- <-] | [Hne' Hid']]%lookup_insert_Some H1 H2; [done | | | by eapply (Ht id id')];
      exfalso; [apply (Hfree id' r' tid) | apply (Hfree id r tid)]; done.
Qed.

Lemma claim_inv s lease w order ct t' :
  claimNext (clock s) lease w order (tbl s) = (Some ct, t') -> 0 < lease ->
  queue_inv s -> queue_inv (MkSystem t' (clock s) (ct :: running s) (log s)).
Proof.
  intros Hcl Hlease [Hf Hr Hs Hc Hg Hu Ht].
  pose proof (claimNext_spec (clock s) lease w order (tbl s)) as Hspec. rewrite Hcl in Hspec.
  destruct Hspec as (_ & q & _ & r & _ & _ & Hrow & Hdue & _ & Hct & ->).
  assert (status r = Pending) as Hp.
  { unfold due in Hdue. destruct (bool_decide (status r = Pending)) eqn:Hb; [| done].
    by apply bool_decide_eq_true in Hb. }
  assert (forall ct', ct' ∈ running s -> ct_id ct' <> ct_id ct) as Hidle.
  { intros ct' Hin Heq. destruct (Hr ct' Hin) as (r' & e & Hr' & Hst & _). congruence. }
  constructor; simpl.
  - intros id r' [[<- <-] | [Hne Hid]]%lookup_insert_Some; eauto.
  - intros ct' [-> | Hin]%elem_of_cons.
    + eexists _, _. rewrite lookup_insert_eq. repeat split; [exact Hct | simpl; lia].
    + rewrite lookup_insert_ne by (intros Heq; by eapply Hidle). by apply Hr.
  - constructor; [| done]. intros (ct' & Heq & Hin)%list_elem_of_fmap. by apply (Hidle ct').
  - intros id r' [[<- <-] | [Hne Hid]]%lookup_insert_Some; [| by apply Hc].
    pose proof (Hc _ _ Hrow) as Hcr. unfold counted in *. rewrite Hp in Hcr. by simpl.
  - intros id [Hid _]%lookup_insert_None. by apply Hg.
  - done.
  - assert (forall id r', (<[ct_id ct:=claimed_row (clock s) lease w r]> (rows (tbl s))) !! id = Some r' ->
      exists r0, rows (tbl s) !! id = Some r0 /\ task_id r0 = task_id r') as Hback.
    { intros id r' [[<- <-] | [Hne Hid]]%lookup_insert_Some; eauto. }
    intros id id' r1 r2 tid (r1' & Hr1 & He1)%Hback (r2' & Hr2 & He2)%Hback H1 H2.
    eapply (Ht id id' r1' r2' tid); congruence.
Qed.

Lemma finish_inv s l1 ct l2 rd o :
  running s = l1 ++ ct :: l2 -> queue_inv s ->
  queue_inv (MkSystem (finish (clock s) rd ct o (tbl s)) (clock s) (l1 ++ l2)
               ((ct_id ct, o) :: log s)).
Proof.
  intros Hrun [Hf Hr Hs Hc Hg Hu Ht]. rewrite Hrun in Hs, Hr.
  destruct (Hr ct) as (r & e & Hrow & Hst & Hct & _); [set_solver |].
  destruct (finish_row (clock s) rd ct o (tbl s) r Hrow Hct) as (Hnext & Hother & Hself).
  rewrite map_app in Hs. simpl in Hs.
  pose proof (Hc _ _ Hrow) as Hcr. unfold counted in Hcr. rewrite Hst in Hcr.
  assert (NoDup (map ct_id (l1 ++ l2)) /\ forall ct', ct' ∈ l1 ++ l2 -> ct_id ct' <> ct_id ct)
    as [Hnd Hne].
  { rewrite map_app. apply NoDup_app in Hs as (H1 & H12 & [H2 H3]%NoDup_cons). split.
    - apply NoDup_app. split; [done |]. split; [| done]. intros x Hx Hx2.
      apply (H12 x Hx). by right.
    - intros ct' [Hin | Hin]%elem_of_app Heq.
      + apply (H12 (ct_id ct)); [rewrite <- Heq; by apply list_elem_of_fmap_2 | by left].
      + apply H2. rewrite <- Heq. by apply list_elem_of_fmap_2. }
  constructor; simpl.
  - rewrite Hnext. intros id r' Hid. destruct (decide (id = ct_id ct)) as [-> | Hd]; [eauto |].
    rewrite Hother in Hid by done. eauto.
  - intros ct' Hin. rewrite Hother by auto. apply Hr. set_solver.
  - done.
  - intros id r' Hid. destruct (decide (id = ct_id ct)) as [-> | Hd].
    + rewrite Hid in Hself. destruct Hself as (_ & Hm & Hself). unfold counted.
      rewrite failures_cons, successes_cons, Z.eqb_refl. simpl.
      destruct (status r'), o; simpl; try done; try (by destruct Hself); rewrite ?Hm; lia.
    + rewrite Hother in Hid by done. apply counted_other; eauto.
  - intros id Hid. rewrite successes_cons. simpl. destruct (decide (id = ct_id ct)) as [-> | Hd].
    + rewrite Z.eqb_refl. destruct o; simpl; lia.
    + rewrite Hother in Hid by done. replace (ct_id ct =? id) with false by lia. simpl.
      pose proof (Hg id Hid). lia.
  - rewrite Hnext. intros id Hid. rewrite failures_cons, successes_cons. simpl.
    pose proof (Hf _ _ Hrow). replace (ct_id ct =? id) with false by lia. by apply Hu.
  - assert (forall id r', rows (finish (clock s) rd ct o (tbl s)) !! id = Some r' ->
      exists r0, rows (tbl s) !! id = Some r0 /\ task_id r0 = task_id r') as Hback.
    { intros id r' Hid. destruct (decide (id = ct_id ct)) as [-> | Hd].
      - rewrite Hid in Hself. exists r. split; [done |]. by destruct Hself.
      - rewrite Hother in Hid by done. eauto. }
    intros id id' a b tid (a' & Ha & Hea)%Hback (b' & Hb & Heb)%Hback H1 H2.
    eapply (Ht id id' a' b' tid); congruence.
Qed.

Lemma crash_inv s l1 ct l2 :
  running s = l1 ++ ct :: l2 -> queue_inv s ->
  queue_inv (MkSystem (tbl s) (clock s) (l1 ++ l2) (log s)).
Proof.
  intros Hrun [Hf Hr Hs Hc Hg Hu Ht]. rewrite Hrun in Hs, Hr. constructor; simpl; try done.
  - intros ct' Hin. apply Hr. set_solver.
  - rewrite map_app in *. simpl in Hs. apply NoDup_app in Hs as (H1 & H12 & [H2 H3]%NoDup_cons).
    apply NoDup_app. split; [done |]. split; [| done]. intros x Hx Hx2. apply (H12 x Hx). by right.
Qed.

Lemma reap_inv s :
  queue_inv s ->
  queue_inv (MkSystem (reapExpiredLeases (clock s) (tbl s)) (clock s) (running s) (log s)).
Proof.
  intros [Hf Hr Hs Hc Hg Hu Ht].
  assert (forall id r', rows (reapExpiredLeases (clock s) (tbl s)) !! id = Some r' ->
    exists r, rows (tbl s) !! id = Some r /\ task_id r = task_id r' /\
      (counted (log s) id r -> counted (log s) id r')) as Hback.
  { intros id r'. unfold reapExpiredLeases, with_rows. simpl. rewrite lookup_fmap.
    destruct (rows (tbl s) !! id) as [r|]; simpl; [| done]. intros [= <-].
    exists r. destruct (lease_lapsed (clock s) r) eqn:Hl; [| done].
    split; [done |]. split; [done |]. unfold counted, lease_lapsed in *. simpl.
    destruct (status r) eqn:Hst; rewrite ?bool_decide_false in Hl by done; done. }
  constructor; simpl.
  - intros id r' (r & Hid & _)%Hback. eauto.
  - intros ct Hct. destruct (Hr ct Hct) as (r & e & Hrow & Hst & Hcl & He & Hle).
    exists r, e. rewrite lookup_fmap, Hrow. simpl. unfold lease_lapsed. rewrite He.
    replace (e <? clock s) with false by lia. by rewrite andb_false_r.
  - done.
  - intros id r' (r & Hid & _ & Hcn)%Hback. eauto.
  - intros id Hid. rewrite lookup_fmap, fmap_None in Hid. eauto.
  - done.
  - intros id id' a b tid (a' & Ha & Hea & _)%Hback (b' & Hb & Heb & _)%Hback H1 H2.
    eapply (Ht id id' a' b' tid); congruence.
Qed.

Lemma sweep_inv s :
  queue_inv s ->
  queue_inv (MkSystem (sweepRetained (clock s) (tbl s)) (clock s) (running s) (log s)).
Proof.
  intros [Hf Hr Hs Hc Hg Hu Ht].
  assert (forall id r, rows (sweepRetained (clock s) (tbl s)) !! id = Some r ->
    rows (tbl s) !! id = Some r) as Hback.
  { intros id r. unfold sweepRetained, with_rows. simpl. by intros [? _]%map_lookup_filter_Some. }
  constructor; simpl; try (by eauto).
  - intros ct Hct. destruct (Hr ct Hct) as (r & e & Hrow & Hst & Hrest).
    exists r, e. split; [| done]. apply map_lookup_filter_Some. split; [done |]. simpl.
    unfold swept, finished. by rewrite Hst.
  - intros id Hid. destruct (rows (tbl s) !! id) as [r|] eqn:Hrow; [| by apply Hg].
    pose proof (Hc id r Hrow) as [_ Hcr]. destruct (status r); lia.
Qed.

Lemma tick_inv s now :
  clock s <= now -> leases_hold (MkSystem (tbl s) now (running s) (log s)) ->
  queue_inv s -> queue_inv (MkSystem (tbl s) now (running s) (log s)).
Proof.
  intros Hle Hlease [Hf Hr Hs Hc Hg Hu Ht]. constructor; simpl; try done.
  intros ct Hct. destruct (Hr ct Hct) as (r & e & Hrow & Hst & Hcl & He & _).
  exists r, e. repeat split; try done. by apply (Hlease ct r e).
Qed.

Lemma step_inv s s' : queue_inv s -> step true s s' -> queue_inv s'.
Proof.
  intros Hi Hstep. destruct Hstep as
    [s up task os | s lease w order ct t' Hc Hl | s l1 ct l2 rd o Hrun | s l1 ct l2 Hrun | s | s
    | s now Hle Hlease].
  - by apply enqueue_inv.
  - by eapply claim_inv.
  - by eapply finish_inv.
  - by eapply crash_inv.
  - by apply reap_inv.
  - by apply sweep_inv.
  - apply tick_inv; auto.
Qed.

Lemma init_inv now : queue_inv (init now).
Proof.
  constructor; simpl; try done.
  - intros ct []%elem_of_nil.
  - constructor.
Qed.

Lemma reachable_inv now s : star (step true) (init now) s -> queue_inv s.
Proof.
  intros Hstar. eapply star_invariant; [| exact Hstar | apply init_inv].
  intros s1 s2 H Hs. by eapply step_inv.
Qed.

(** C7: while every handler finishes within its lease, the queue runs tasks
    the way its options promise: no task is run by two workers at once, none
    is completed twice, a task that is still owed work has failed at most
    [MaxRetry] times and is never run again after it completed or died, a
    dead one at most [MaxRetry + 1] times, and no two rows share a TaskID. *)
Theorem runs_bounded now s :
  star (step true) (init now) s ->
  NoDup (map ct_id (running s)) /\
  (forall id, successes id (log s) <= 1) /\
  (forall id r, rows (tbl s) !! id = Some r ->
     failures id (log s) <= Z.max 0 (max_retry r) + (if bool_decide (status r = Dead) then 1 else 0) /\
     (successes id (log s) = 1 <-> status r = Completed) /\
     (forall ct, ct ∈ running s -> ct_id ct = id -> status r = Processing) /\
     (forall id' r' tid, rows (tbl s) !! id' = Some r' -> task_id r = Some tid ->
        task_id r' = Some tid -> id = id')).
Proof.
  intros [Hf Hr Hs Hc Hg Hu Ht]%reachable_inv. split; [done |].
  assert (forall id r, rows (tbl s) !! id = Some r ->
    failures id (log s) <= Z.max 0 (max_retry r) + (if bool_decide (status r = Dead) then 1 else 0) /\
    (successes id (log s) = 1 <-> status r = Completed)) as Hrow.
  { intros id r Hid. pose proof (Hc id r Hid) as [Hpos Hst].
    destruct (status r); simpl in Hst |- *; split; try split; try done; lia. }
  split.
  - intros id. destruct (rows (tbl s) !! id) as [r|] eqn:Hid; [| by apply Hg].
    pose proof (Hc id r Hid) as [_ Hst]. destruct (status r); lia.
  - intros id r Hid. destruct (Hrow id r Hid) as [H1 H2]. split; [done |]. split; [done |].
    split; [| by eauto]. intros ct Hin <-. destruct (Hr ct Hin) as (r' & e & Hr' & Hst & _). congruence.
Qed.

Definition demo_task : Task :=
  NewTask "network:coa_send" [1; 2] [Queue "net"; MaxRetry 1; Retention (3600 * second)].

(** A script of statements, run from a state. *)
Inductive act : Type :=
| Enqueue_ (task : Task)
| Claim_ (worker : string)
| Finish_ (n : nat) (o : outcome)
| Reap_
| Wait_ (until : Z).

Definition lease_len : Z := 300 * second.

Definition perform (in_time : bool) (a : act) (s : system) : option system :=
  match a with
  | Enqueue_ task =>
      Some (MkSystem (EnqueueContext (clock s) true task [] (tbl s)).2 (clock s) (running s) (log s))
  | Claim_ w =>
      match claimNext (clock s) lease_len w ["net"%string] (tbl s) with
      | (Some ct, t') => Some (MkSystem t' (clock s) (ct :: running s) (log s))
      | (None, _) => None
      end
  | Finish_ n o =>
      ct ← running s !! n;
      Some (MkSystem (finish (clock s) None ct o (tbl s)) (clock s)
              (take n (running s) ++ drop (S n) (running s)) ((ct_id ct, o) :: log s))
  | Reap_ => Some (MkSystem (reapExpiredLeases (clock s) (tbl s)) (clock s) (running s) (log s))
  | Wait_ now =>
      if (clock s <=? now) && (negb in_time || forallb (fun ct =>
        match rows (tbl s) !! ct_id ct with
        | Some r => match lease_expires_at r with Some e => now <=? e | None => true end
        | None => true
        end) (running s))
      then Some (MkSystem (tbl s) now (running s) (log s)) else None
  end.

Fixpoint script (in_time : bool) (l : list act) (s : system) : option system :=
  match l with
  | [] => Some s
  | a :: l => s' ← perform in_time a s; script in_time l s'
  end.

Lemma perform_step in_time a s s' : perform in_time a s = Some s' -> step in_time s s'.
Proof.
  destruct a as [task | w | n o | | now]; unfold perform.
  - intros [= <-]. apply step_enqueue.
  - destruct (claimNext _ lease_len _ _ _) as [[ct|] t'] eqn:Hc; [| done]. intros [= <-].
    apply (step_claim _ _ lease_len w ["net"%string]); done.
  - destruct (running s !! n) as [ct|] eqn:Hn; [| done]. intros [= <-].
    apply step_finish. symmetry. by apply take_drop_middle.
  - intros [= <-]. apply step_reap.
  - destruct (_ && _) eqn:Hok; [| done]. intros [= <-].
    apply andb_true_iff in Hok as [Hle Hok]. apply step_tick; [lia |]. intros ->.
    intros ct r e Hin Hr He. simpl in *. rewrite forallb_forall in Hok.
    apply list_elem_of_In, Hok in Hin. rewrite Hr, He in Hin. lia.
Qed.

Lemma script_star in_time l s s' : script in_time l s = Some s' -> star (step in_time) s s'.
Proof.
  revert s. induction l as [| a l IH]; simpl; intros s.
  - intros [= <-]. constructor.
  - destruct (perform in_time a s) as [s1|] eqn:Hp; [| done]. simpl. intros H.
    eapply star_step; [by eapply perform_step | by apply IH].
Qed.

Definition retry_script : list act :=
  [Enqueue_ demo_task; Claim_ "w"; Wait_ second; Finish_ 0 (Failed "nak" false);
   Wait_ (20 * second); Claim_ "w"; Finish_ 0 Succeeded].

Lemma runs_bounded_witness :
  exists s, script true retry_script (init 0) = Some s /\
    successes 1 (log s) <= 1 /\ failures 1 (log s) = 1.
Proof.
  eexists. split; [vm_compute; reflexivity |]. split; [| reflexivity].
  apply (runs_bounded 0). apply (script_star true retry_script). vm_compute. reflexivity.
Defined.

(** The status of a row, for stating what a run reached. *)
Definition status_of (id : Z) (s : system) : option Status := status <$> rows (tbl s) !! id.

Definition overrun_script : list act :=
  [Enqueue_ demo_task; Claim_ "slow"; Wait_ (301 * second); Reap_; Claim_ "fast";
   Finish_ 0 Succeeded].
Definition late_script : list act := [Finish_ 0 (Failed "timeout" false)].
Definition again_script : list act :=
  [Wait_ (400 * second); Claim_ "fast"; Finish_ 0 Succeeded].

(** The lease is not a fence. A worker that outlives its lease still
    records its outcome over whatever the row has become: a task another
    worker has completed goes back to pending, and is run, and completed, a
    second time. *)
Theorem late_finish_reopens :
  exists completed reopened final,
    star (step false) (init 0) completed /\ status_of 1 completed = Some Completed /\
    star (step false) completed reopened /\ status_of 1 reopened = Some Pending /\
    star (step false) reopened final /\ status_of 1 final = Some Completed /\
    successes 1 (log final) = 2.
Proof.
  eexists _, _, _.
  split; [apply (script_star false overrun_script); vm_compute; reflexivity |].
  split; [reflexivity |].
  split; [apply (script_star false late_script); vm_compute; reflexivity |].
  split; [reflexivity |].
  split; [apply (script_star false again_script); vm_compute; reflexivity |].
  split; reflexivity.
Qed.

Definition one_task : table := (EnqueueContext 0 true demo_task [] (MkTable ∅ 1)).2.

Lemma claim_exact_witness :
  let '(o, t') := claimNext 0 second "w" ["net"%string] one_task in
  exists ct r, o = Some ct /\ rows one_task !! ct_id ct = Some r /\
    t' = with_rows (<[ct_id ct := claimed_row 0 second "w" r]>) one_task.
Proof.
  pose proof (claim_exact 0 second "w" [("net"%string, 1)] ["net"%string] one_task (reflexivity _)) as H.
  assert (is_Some (claimNext 0 second "w" ["net"%string] one_task).1) as Hs by (vm_compute; eauto).
  destruct (claimNext 0 second "w" ["net"%string] one_task) as [[ct|] t'].
  - destruct H as (pre & q & post & r & _ & _ & Hr & _ & _ & _ & Ht). exists ct, r. auto.
  - destruct Hs as [x Hx]. discriminate Hx.
Defined.

End Jobqueue.
