(* ===== verification/SessionHistory.v ===== *)
(** * internal/db/fup.go: the session history and the queries on it

    [subscriber_session_history], [subscribers], [plans], [cgnat_allocations]
    and [lea_audit_log] as values, one function per method of [FUPStore]. Each
    method is one SQL statement, hence one atomic step. Instants are numbers
    on PostgreSQL's clock; [up] says whether the statement could be executed.
    The columns this store neither reads nor writes are left out, and length
    limits of VARCHAR columns are not modelled. *)

From S2P Require Import Prelude GoStrings.

Local Open Scope Z_scope.

Module History.

(** What the store relies on PostgreSQL for: [inet] and [cidr] input, as the
    canonical text or [None] for an input error, and the text collation. *)
Class Postgres : Type := {
  inet : string -> option string;
  cidr : string -> option string;
  text_le : string -> string -> bool
}.

Record SessionRow : Type := MkSessionRow {
  row_id : Z;
  subscriber_id : Z;
  session_id : string;
  nas_ip_address : string;
  assigned_ipv4 : option string;
  assigned_ipv6_prefix : option string;
  start_time : Z;
  stop_time : option Z;
  input_octets : Z;
  output_octets : Z;
  terminate_cause : option string
}.

Record SubscriberRow : Type := MkSubscriberRow {
  username : string;
  status : string;
  plan_id : Z;
  fup_active : bool;
  speed_override_rate_limit : option string;
  speed_override_expires_at : option Z
}.

Record PlanRow : Type := MkPlanRow {
  rate_limit_string : string;
  fup_threshold_bytes : Z;
  fup_throttle_string : option string
}.

Record CgnatRow : Type := MkCgnatRow {
  c_subscriber_id : Z;
  public_ip : string;
  port_start : Z;
  port_end : Z;
  allocated_at : Z;
  released_at : option Z
}.

Record AuditRow : Type := MkAuditRow {
  accessor_identity : string;
  accessor_role : string;
  queried_public_ip : string;
  queried_port : option Z;
  queried_timestamp : Z;
  result_subscriber_id : option Z;
  result_row_count : Z
}.

Record DB : Type := MkDB {
  history : list SessionRow;
  next_row : Z;
  subscribers : gmap Z SubscriberRow;
  plans : gmap Z PlanRow;
  cgnat : list CgnatRow;
  lea_audit_log : list AuditRow
}.

Inductive error : Type := ErrNotFound | ErrQuery.

Definition with_history (f : list SessionRow -> list SessionRow) (d : DB) : DB :=
  MkDB (f (history d)) (next_row d) (subscribers d) (plans d) (cgnat d) (lea_audit_log d).
Definition with_subscriber (id : Z) (f : SubscriberRow -> SubscriberRow) (d : DB) : DB :=
  MkDB (history d) (next_row d) (alter f id (subscribers d)) (plans d) (cgnat d) (lea_audit_log d).

Definition is_open (r : SessionRow) : bool :=
  match stop_time r with None => true | Some _ => false end.

(** [WHERE session_id = $1 AND stop_time IS NULL] *)
Definition open_for (sid : string) (r : SessionRow) : bool :=
  String.eqb (session_id r) sid && is_open r.

Definition nullif_empty (s : string) : option string :=
  if String.eqb s EmptyString then None else Some s.

Section Store.
Context `{Postgres}.

(** A nullable column given as text, cast: [None] is the cast's error. *)
Definition cast_opt (cast : string -> option string) (s : string) : option (option string) :=
  match nullif_empty s with
  | None => Some None
  | Some s => match cast s with Some v => Some (Some v) | None => None end
  end.

(** *** The accounting writes *)

(** The INSERT .. WHERE NOT EXISTS: [seen] says whether the statement's own
    snapshot of the table held an open row of the session. *)
Definition insert_session (seen : bool) (now : Z) (up : bool) (subscriberID : Z)
    (sessionID nasIP assignedIP ipv6Prefix : string) (d : DB) : result error unit * DB :=
  if negb up then (Err ErrQuery, d)
  else
    match inet nasIP, cast_opt inet assignedIP, cast_opt cidr ipv6Prefix with
    | Some nas, Some ip4, Some pfx =>
        if seen then (Ok tt, d)
        else if bool_decide (is_Some (subscribers d !! subscriberID)) then
          let row := MkSessionRow (next_row d) subscriberID sessionID nas ip4 pfx now None 0 0 None in
          (Ok tt, MkDB (history d ++ [row]) (next_row d + 1) (subscribers d) (plans d) (cgnat d)
                    (lea_audit_log d))
        else (Err ErrQuery, d)
    | _, _, _ => (Err ErrQuery, d)
    end.

(** A Start that no other Start of the session overlaps. *)
Definition StartSession (now : Z) (up : bool) (subscriberID : Z)
    (sessionID nasIP assignedIP ipv6Prefix : string) (d : DB) : result error unit * DB :=
  insert_session (existsb (open_for sessionID) (history d)) now up subscriberID sessionID nasIP assignedIP ipv6Prefix d.

Definition set_octets (i o : Z) (r : SessionRow) : SessionRow :=
  MkSessionRow (row_id r) (subscriber_id r) (session_id r) (nas_ip_address r) (assigned_ipv4 r)
    (assigned_ipv6_prefix r) (start_time r) (stop_time r) i o (terminate_cause r).

Definition UpdateSessionOctets (up : bool) (sessionID : string) (inputOctets outputOctets : Z)
    (d : DB) : result error bool * DB :=
  if negb up then (Err ErrQuery, d)
  else (Ok (existsb (open_for sessionID) (history d)),
        with_history (map (fun r => if open_for sessionID r
                                    then set_octets inputOctets outputOctets r else r)) d).

Definition stopped (now i o : Z) (cause : string) (r : SessionRow) : SessionRow :=
  MkSessionRow (row_id r) (subscriber_id r) (session_id r) (nas_ip_address r) (assigned_ipv4 r)
    (assigned_ipv6_prefix r) (start_time r) (Some now) i o (nullif_empty cause).

Definition StopSession (now : Z) (up : bool) (sessionID : string) (inputOctets outputOctets : Z)
    (cause : string) (d : DB) : result error bool * DB :=
  if negb up then (Err ErrQuery, d)
  else (Ok (existsb (open_for sessionID) (history d)),
        with_history (map (fun r => if open_for sessionID r
                                    then stopped now inputOctets outputOctets cause r else r)) d).

(** *** Superseded sessions *)

(** [b] shows that [a] has ended: same subscriber, same NAS, later start. *)
Definition supersedes (a b : SessionRow) : bool :=
  (subscriber_id b =? subscriber_id a) && String.eqb (nas_ip_address b) (nas_ip_address a) &&
  (start_time a <? start_time b).

(** [MIN(b.start_time)] over the later sessions. *)
Definition successor (h : list SessionRow) (a : SessionRow) : option Z :=
  min_by Z.leb (map start_time (List.filter (supersedes a) h)).

Definition closed_at (t : Z) (r : SessionRow) : SessionRow :=
  MkSessionRow (row_id r) (subscriber_id r) (session_id r) (nas_ip_address r) (assigned_ipv4 r)
    (assigned_ipv6_prefix r) (start_time r) (Some t) (input_octets r) (output_octets r)
    (Some (default "superseded-no-acct-stop" (terminate_cause r))).

Definition close_superseded (h : list SessionRow) (r : SessionRow) : SessionRow :=
  if is_open r then match successor h r with Some t => closed_at t r | None => r end else r.

Definition superseded (h : list SessionRow) (r : SessionRow) : bool :=
  is_open r && match successor h r with Some _ => true | None => false end.

Definition CloseSupersededSessions (up : bool) (d : DB) : result error Z * DB :=
  if negb up then (Err ErrQuery, d)
  else (Ok (Z.of_nat (length (List.filter (superseded (history d)) (history d)))),
        with_history (fun h => map (close_superseded h) h) d).

(** *** Live usage and the FUP queries *)

Record SessionStats : Type := MkStats {
  SubscriberID : Z;
  Username : string;
  NasIP : string;
  FUPThreshold : Z;
  BytesUsed : Z;
  FUPActive : bool;
  FUPThrottle : string
}.

Definition in_bigint (z : Z) : bool := (- 2 ^ 63 <=? z) && (z <? 2 ^ 63).

Definition open_rows (id : Z) (h : list SessionRow) : list SessionRow :=
  List.filter (fun r => (subscriber_id r =? id) && is_open r) h.

Definition octets (r : SessionRow) : Z := input_octets r + output_octets r.
Definition sum_octets (l : list SessionRow) : Z := foldr (fun r acc => octets r + acc) 0 l.

(** [GROUP BY h.subscriber_id] *)
Definition online (h : list SessionRow) : list Z :=
  remove_dups (map subscriber_id (List.filter is_open h)).

Definition max_nas (l : list SessionRow) : string :=
  foldr (fun r acc => if text_le acc (nas_ip_address r) then nas_ip_address r else acc)
    EmptyString l.

(** One row of the join, when the subscriber and the plan exist. The sum of a
    row's two counters is a bigint and overflows; the SUM is a numeric, which
    must fit an int64 to be read. *)
Definition stats_of (d : DB) (id : Z) : option (SubscriberRow * SessionStats) :=
  s ← subscribers d !! id;
  p ← plans d !! plan_id s;
  let l := open_rows id (history d) in
  Some (s, MkStats id (username s) (max_nas l) (fup_threshold_bytes p) (sum_octets l)
             (fup_active s) (default EmptyString (fup_throttle_string p))).

Definition usage_overflows (d : DB) : bool :=
  existsb (fun r => is_open r && negb (in_bigint (octets r))) (history d).

Definition candidates (d : DB) : list SessionStats :=
  map snd (List.filter (fun p =>
    (0 <? FUPThreshold p.2) && negb (fup_active p.1) &&
    (String.eqb (status p.1) "active" || String.eqb (status p.1) "grace_period"))
    (omap (stats_of d) (online (history d)))).

Definition scan_stats (d : DB) (l : list SessionStats) : result error (list SessionStats) :=
  if usage_overflows d || existsb (fun st => negb (in_bigint (BytesUsed st))) l
  then Err ErrQuery else Ok l.

Definition GetActiveSessionsAboveFUP (up : bool) (d : DB) : result error (list SessionStats) :=
  if negb up then Err ErrQuery
  else scan_stats d (List.filter (fun st => FUPThreshold st <=? BytesUsed st) (candidates d)).

Definition FUPWarningPct : Z := 80.

(** The product in the bound is a bigint too. *)
Definition GetSessionsAtWarning (up : bool) (pct : Z) (d : DB) : result error (list SessionStats) :=
  let pct := if (pct <=? 0) || (100 <=? pct) then FUPWarningPct else pct in
  if negb up then Err ErrQuery
  else if existsb (fun st => negb (in_bigint (FUPThreshold st * pct))) (candidates d)
  then Err ErrQuery
  else scan_stats d (List.filter (fun st =>
         (FUPThreshold st * pct / 100 <=? BytesUsed st) && (BytesUsed st <? FUPThreshold st))
         (candidates d)).

(** *** Updates of one subscriber *)

Definition set_fup (active : bool) (s : SubscriberRow) : SubscriberRow :=
  MkSubscriberRow (username s) (status s) (plan_id s) active (speed_override_rate_limit s)
    (speed_override_expires_at s).

Definition set_override (rate : option string) (expires : option Z) (s : SubscriberRow) : SubscriberRow :=
  MkSubscriberRow (username s) (status s) (plan_id s) (fup_active s) rate expires.

Definition update_subscriber (up : bool) (id : Z) (f : SubscriberRow -> SubscriberRow) (d : DB) :
    result error unit * DB :=
  if negb up then (Err ErrQuery, d)
  else match subscribers d !! id with
       | None => (Err ErrNotFound, d)
       | Some _ => (Ok tt, with_subscriber id f d)
       end.

Definition SetFUPActive (up : bool) (id : Z) (active : bool) : DB -> result error unit * DB :=
  update_subscriber up id (set_fup active).
Definition SetSpeedOverride (up : bool) (id : Z) (rate : string) (expiresAt : option Z) :
    DB -> result error unit * DB :=
  update_subscriber up id (set_override (Some rate) expiresAt).
Definition ClearSpeedOverride (up : bool) (id : Z) : DB -> result error unit * DB :=
  update_subscriber up id (set_override None None).

Definition override_expired (now : Z) (s : SubscriberRow) : bool :=
  match speed_override_expires_at s with Some e => e <=? now | None => false end.

Definition ListExpiredSpeedOverrides (now : Z) (up : bool) (d : DB) : result error (list Z) :=
  if negb up then Err ErrQuery
  else Ok (map fst (List.filter (fun p => override_expired now p.2) (map_to_list (subscribers d)))).

(** *** The session to control *)

(** [ORDER BY start_time DESC] *)
Definition newest (a b : SessionRow) : bool := start_time b <=? start_time a.

Definition rate_in_force (now : Z) (s : SubscriberRow) (p : PlanRow) : string :=
  let throttle := default EmptyString (fup_throttle_string p) in
  let normal := if fup_active s && negb (String.eqb throttle EmptyString)
                then throttle else rate_limit_string p in
  match speed_override_rate_limit s with
  | Some rate =>
      match speed_override_expires_at s with
      | None => rate
      | Some e => if now <? e then rate else normal
      end
  | None => normal
  end.

Definition GetSubscriberNASSession (now : Z) (up : bool) (id : Z) (d : DB) :
    result error (string * string * string * Z) :=
  if negb up then Err ErrQuery
  else
    match subscribers d !! id with
    | None => Err ErrNotFound
    | Some s =>
        match plans d !! plan_id s with
        | None => Err ErrNotFound
        | Some p =>
            match min_by newest (open_rows id (history d)) with
            | None => Err ErrNotFound
            | Some r => Ok (nas_ip_address r, session_id r, rate_in_force now s p, plan_id s)
            end
        end
    end.

Definition ResolveSessionSubscriber (up : bool) (sessionID : string) (d : DB) :
    result error (Z * string) :=
  if negb up then Err ErrQuery
  else match List.find (open_for sessionID) (history d) with
       | None => Err ErrNotFound
       | Some r => Ok (subscriber_id r, nas_ip_address r)
       end.

(** *** Law-enforcement lookups *)

Record LEAResult : Type := MkLEA {
  lea_subscriber : Z;
  lea_session : option string;
  lea_start : Z;
  lea_stop : option Z;
  lea_source : string
}.

Definition ended_before (at_ : Z) (stop : option Z) : bool :=
  match stop with Some t => t <? at_ | None => false end.

Definition known (d : DB) (id : Z) : bool := bool_decide (is_Some (subscribers d !! id)).

Definition lookupDirectIP (up : bool) (publicIP : string) (at_ : Z) (d : DB) :
    result error (option LEAResult) :=
  if negb up then Err ErrQuery
  else match inet publicIP with
  | None => Err ErrQuery
  | Some ip =>
      match min_by newest (List.filter (fun r =>
              bool_decide (assigned_ipv4 r = Some ip) && (start_time r <=? at_) &&
              known d (subscriber_id r)) (history d)) with
      | None => Ok None
      | Some r =>
          if ended_before at_ (stop_time r) then Ok None
          else Ok (Some (MkLEA (subscriber_id r) (Some (session_id r)) (start_time r)
                           (stop_time r) "direct_ip"))
      end
  end.

Definition newest_block (a b : CgnatRow) : bool := allocated_at b <=? allocated_at a.

Definition lookupCGNAT (up : bool) (publicIP : string) (port at_ : Z) (d : DB) :
    result error (option LEAResult) :=
  if negb up then Err ErrQuery
  else match inet publicIP with
  | None => Err ErrQuery
  | Some ip =>
      match min_by newest_block (List.filter (fun c =>
              String.eqb (public_ip c) ip && (port_start c <=? port) && (port <=? port_end c) &&
              (allocated_at c <=? at_) && known d (c_subscriber_id c)) (cgnat d)) with
      | None => Ok None
      | Some c =>
          if ended_before at_ (released_at c) then Ok None
          else Ok (Some (MkLEA (c_subscriber_id c) None (allocated_at c) (released_at c) "cgnat"))
      end
  end.

Definition LookupByPublicIP (up : bool) (publicIP : string) (port : option Z) (at_ : Z) (d : DB) :
    result error (option LEAResult) :=
  match port with
  | Some port => lookupCGNAT up publicIP port at_ d
  | None => lookupDirectIP up publicIP at_ d
  end.

Definition RecordLEAAudit (up : bool) (entry : AuditRow) (d : DB) : result error unit * DB :=
  if negb up then (Err ErrQuery, d)
  else match inet (queried_public_ip entry) with
  | None => (Err ErrQuery, d)
  | Some ip =>
      let row := MkAuditRow (accessor_identity entry) (accessor_role entry) ip (queried_port entry)
                   (queried_timestamp entry) (result_subscriber_id entry) (result_row_count entry) in
      (Ok tt, MkDB (history d) (next_row d) (subscribers d) (plans d) (cgnat d)
                (lea_audit_log d ++ [row]))
  end.

(** ** At most one open row per session *)

Definition open_count (sid : string) (h : list SessionRow) : nat :=
  length (List.filter (open_for sid) h).

(** A Start whose statement has taken its snapshot and not yet inserted. *)
Record Starting : Type := MkStarting { g_session : string; g_seen : bool }.

(** The statements that write the history, over the table and the Starts under
    way. A Start takes its snapshot, then inserts or fails; with [racing] false,
    no two Starts of one session are under way together. *)
Inductive write (racing : bool) : DB * list Starting -> DB * list Starting -> Prop :=
| write_snapshot sid d gs :
    racing = true \/ sid ∉ map g_session gs ->
    write racing (d, gs) (d, MkStarting sid (existsb (open_for sid) (history d)) :: gs)
| write_insert now up id sid seen nas ip pfx d l1 l2 :
    write racing (d, l1 ++ MkStarting sid seen :: l2) ((insert_session seen now up id sid nas ip pfx d).2, l1 ++ l2)
| write_update up sid i o d gs : write racing (d, gs) ((UpdateSessionOctets up sid i o d).2, gs)
| write_stop now up sid i o cause d gs : write racing (d, gs) ((StopSession now up sid i o cause d).2, gs)
| write_close up d gs : write racing (d, gs) ((CloseSupersededSessions up d).2, gs).

Definition one_open (d : DB) : Prop := forall sid, (open_count sid (history d) <= 1)%nat.

Lemma open_count_map_le sid f h :
  (forall r, open_for sid (f r) = true -> open_for sid r = true) ->
  (open_count sid (map f h) <= open_count sid h)%nat.
Proof.
  intros Hf. unfold open_count. induction h as [| r h IH]; simpl; [lia |].
  destruct (open_for sid (f r)) eqn:Hr.
  - rewrite (Hf _ Hr). simpl. lia.
  - destruct (open_for sid r); simpl; lia.
Qed.

Lemma open_count_none sid h :
  existsb (open_for sid) h = false -> open_count sid h = 0%nat.
Proof.
  unfold open_count. induction h as [| r h IH]; simpl; [done |].
  intros [-> Hh]%orb_false_iff. by apply IH.
Qed.

Lemma open_for_octets sid i o r : open_for sid (set_octets i o r) = open_for sid r.
Proof. done. Qed.

Lemma close_superseded_open sid h r :
  open_for sid (close_superseded h r) = true -> open_for sid r = true.
Proof.
  unfold close_superseded. destruct (is_open r) eqn:Ho; [| done].
  destruct (successor h r); [| done]. unfold open_for at 1. simpl. by rewrite andb_false_r.
Qed.

Lemma StartSession_Ok now up id sid nas ip pfx d d' :
  StartSession now up id sid nas ip pfx d = (Ok tt, d') ->
  (existsb (open_for sid) (history d) = true /\ d' = d) \/
  (existsb (open_for sid) (history d) = false /\
   exists row, history d' = history d ++ [row] /\ subscribers d' = subscribers d /\
     plans d' = plans d /\ session_id row = sid /\ subscriber_id row = id /\
     start_time row = now /\ stop_time row = None /\ octets row = 0).
Proof.
  unfold StartSession, insert_session. destruct up; simpl; [| done].
  destruct (inet nas), (cast_opt inet ip), (cast_opt cidr pfx); try done.
  destruct (existsb (open_for sid) (history d)) eqn:He.
  - intros [= <-]. by left.
  - destruct (bool_decide _); [| done]. intros [= <-]. right. split; [done |].
    eexists. by repeat split.
Qed.

Lemma StartSession_Err now up id sid nas ip pfx d e d' :
  StartSession now up id sid nas ip pfx d = (Err e, d') -> d' = d.
Proof. unfold StartSession, insert_session. intros Hs. repeat case_match; simplify_eq; done. Qed.

Lemma open_count_app sid h h' : open_count sid (h ++ h') = (open_count sid h + open_count sid h')%nat.
Proof. unfold open_count. by rewrite List.filter_app, length_app. Qed.

(** An insert that saw no open row while there was none. *)
Lemma insert_open_count seen now up id sid nas ip pfx d sid' :
  (seen = false -> open_count sid (history d) = 0%nat) -> one_open d ->
  (open_count sid' (history (insert_session seen now up id sid nas ip pfx d).2) <= 1)%nat /\
  (sid' <> sid -> open_count sid' (history (insert_session seen now up id sid nas ip pfx d).2) = open_count sid' (history d)).
Proof.
  intros Hsn Hd. specialize (Hd sid'). unfold insert_session. destruct up; simpl; [| done].
  destruct (inet nas), (cast_opt inet ip), (cast_opt cidr pfx); try done. destruct seen; [done |].
  specialize (Hsn eq_refl). destruct (bool_decide _); [| done]. simpl. rewrite open_count_app.
  unfold open_count at 2 4. simpl. unfold open_for. simpl. rewrite andb_true_r.
  destruct (String.eqb_spec sid sid') as [-> |]; simpl; split; try lia. done.
Qed.

Lemma StartSession_one_open now up id sid nas ip pfx d :
  one_open d -> one_open (StartSession now up id sid nas ip pfx d).2.
Proof. intros Hd sid'. apply insert_open_count; [intros Hs; by apply open_count_none | done]. Qed.

(** Starts that saw no open row, one per session, while there is none. *)
Definition starts_ok (s : DB * list Starting) : Prop :=
  one_open s.1 /\ NoDup (map g_session s.2) /\
  forall g, g ∈ s.2 -> g_seen g = false -> open_count (g_session g) (history s.1) = 0%nat.

Lemma starts_ok_le d d' gs :
  (forall sid, (open_count sid (history d') <= open_count sid (history d))%nat) ->
  starts_ok (d, gs) -> starts_ok (d', gs).
Proof.
  intros Hle (Hd & Hn & Hg). split_and!; simpl in *; auto.
  - intros sid. etransitivity; [apply Hle | apply Hd].
  - intros g Hin Hs. specialize (Hle (g_session g)). rewrite (Hg g Hin Hs) in Hle. lia.
Qed.

Lemma write_starts_ok s s' : starts_ok s -> write false s s' -> starts_ok s'.
Proof.
  intros Hs Hw. destruct Hw as
    [sid d gs Hnew | now up id sid seen nas ip pfx d l1 l2 | up sid i o d gs | now up sid i o cause d gs | up d gs].
  - destruct Hs as (Hd & Hn & Hg), Hnew as [| Hnew]; [done |]. split_and!; simpl in *; [done | by constructor |].
    intros g [-> | Hin]%elem_of_cons Hsn; [by apply open_count_none | by apply Hg].
  - destruct Hs as (Hd & Hn & Hg). simpl in *. rewrite map_app in Hn. cbn [map g_session] in Hn.
    pose proof (fun sid' => insert_open_count seen now up id sid nas ip pfx d sid'
      (Hg (MkStarting sid seen) ltac:(apply elem_of_app; right; left)) Hd) as Hi.
    apply NoDup_app in Hn as (Hn1 & Hd1 & [Hn2 Hn3]%NoDup_cons).
    split_and!; simpl.
    + intros sid'. apply Hi.
    + rewrite map_app. apply NoDup_app. split_and!; auto. intros x Hx Hx2. apply (Hd1 x Hx). by right.
    + intros g Hin Hsn. destruct (Hi (g_session g)) as [_ ->].
      * apply Hg; [| done]. apply elem_of_app in Hin as [|]; apply elem_of_app; [by left | right; by right].
      * intros E. apply elem_of_app in Hin as [Hin | Hin]; apply (list_elem_of_fmap_2 g_session) in Hin; rewrite E in Hin.
        -- apply (Hd1 sid Hin). left.
        -- by apply Hn2.
  - eapply starts_ok_le; [| exact Hs]. intros sid'. unfold UpdateSessionOctets. destruct up; simpl; [| done].
    apply open_count_map_le. intros r. by case_match.
  - eapply starts_ok_le; [| exact Hs]. intros sid'. unfold StopSession. destruct up; simpl; [| done].
    apply open_count_map_le. intros r. case_match; [| done]. unfold open_for at 1. simpl. by rewrite andb_false_r.
  - eapply starts_ok_le; [| exact Hs]. intros sid'. unfold CloseSupersededSessions. destruct up; simpl; [| done].
    apply open_count_map_le, close_superseded_open.
Qed.

(** C8: a session is never open twice, unless two Starts of it race. Whatever
    Accounting-Starts, updates, stops and cleanups are executed, overlapping as
    they like except that two Starts of the same session do not, each session
    id has at most one open row; an accepted Start leaves exactly one, and a
    retransmission of it after that, whatever else it carries, changes nothing.
    Two racing Starts can both insert ([racing_starts_open_twice]), as the
    source says; the accounting handler's duplicate detection is what keeps
    retransmissions from racing. *)
Theorem session_open_once d0 d gs :
  history d0 = [] -> star (write false) (d0, []) (d, gs) ->
  (forall sid, (open_count sid (history d) <= 1)%nat) /\
  (forall now up id sid nas ip pfx d',
     StartSession now up id sid nas ip pfx d = (Ok tt, d') ->
     open_count sid (history d') = 1%nat /\
     forall now' up' id' nas' ip' pfx', (StartSession now' up' id' sid nas' ip' pfx' d').2 = d').
Proof.
  intros H0 Hstar. assert (one_open d) as Hd.
  { assert (starts_ok (d, gs)) as [Hd _]; [| exact Hd].
    eapply star_invariant; [apply write_starts_ok | exact Hstar |]. split_and!; simpl.
    - intros sid. rewrite H0. unfold open_count. simpl. lia.
    - constructor.
    - intros g Hg. by apply not_elem_of_nil in Hg. }
  split; [exact Hd |]. intros now up id sid nas ip pfx d' Hs.
  assert (existsb (open_for sid) (history d') = true /\ (open_count sid (history d') <= 1)%nat)
    as [Hex Hle].
  { pose proof (StartSession_one_open now up id sid nas ip pfx d Hd) as Hw. rewrite Hs in Hw.
    split; [| apply Hw]. destruct (StartSession_Ok _ _ _ _ _ _ _ _ _ Hs)
      as [[He ->] | (Hn & row & Hh & _ & _ & Hrow & _ & _ & Hopen & _)]; [done |].
    rewrite Hh, existsb_app. simpl. unfold open_for at 2, is_open.
    by rewrite Hrow, Hopen, String.eqb_refl, orb_true_r. }
  split.
  - apply existsb_exists in Hex as (r & Hin & Hr).
    assert (r ∈ List.filter (open_for sid) (history d')) as Hm
      by (apply elem_of_filterb; split; [by apply list_elem_of_In | done]).
    unfold open_count in *. destruct (List.filter _ _); [by apply elem_of_nil in Hm | simpl in *; lia].
  - intros. unfold StartSession, insert_session. rewrite Hex. by repeat case_match.
Qed.

(** ** Superseded sessions *)

Lemma successor_spec h a :
  match successor h a with
  | None => forall b, b ∈ h -> supersedes a b = false
  | Some t => (exists b, b ∈ h /\ supersedes a b = true /\ start_time b = t) /\
              forall b, b ∈ h -> supersedes a b = true -> t <= start_time b
  end.
Proof.
  unfold successor. pose proof (min_by_spec Z.leb ltac:(intros; lia) ltac:(intros; lia)
    ltac:(intros; lia) (map start_time (List.filter (supersedes a) h))) as Hs.
  destruct (min_by _ _) as [t|].
  - destruct Hs as [(b & -> & [Hb Hsup]%elem_of_filterb)%list_elem_of_fmap Hmin]. split; [by exists b |].
    intros b' Hb' Hsup'. apply Z.leb_le, Hmin. apply list_elem_of_fmap_2. by apply elem_of_filterb.
  - intros b Hb. destruct (supersedes a b) eqn:Hsup; [| done].
    assert (b ∈ List.filter (supersedes a) h) as Hf by (by apply elem_of_filterb).
    destruct (List.filter _ _); [by apply elem_of_nil in Hf | done].
Qed.

(** What the comparison of two rows reads. *)
Definition placement (r : SessionRow) : Z * string * Z :=
  (subscriber_id r, nas_ip_address r, start_time r).

Lemma placement_close h r : placement (close_superseded h r) = placement r.
Proof. unfold close_superseded. by repeat case_match. Qed.

Lemma supersedes_placement a b a' b' :
  placement a = placement a' -> placement b = placement b' -> supersedes a b = supersedes a' b'.
Proof. unfold placement, supersedes. congruence. Qed.

Lemma close_superseded_final h a b :
  a ∈ map (close_superseded h) h -> b ∈ map (close_superseded h) h ->
  is_open a = true -> supersedes a b = false.
Proof.
  intros (a0 & -> & Ha)%list_elem_of_fmap (b0 & -> & Hb)%list_elem_of_fmap Ho.
  rewrite (supersedes_placement _ _ a0 b0) by apply placement_close.
  unfold close_superseded in Ho. destruct (is_open a0) eqn:Ho0; [| congruence].
  pose proof (successor_spec h a0) as Hs. destruct (successor h a0); [done | by apply Hs].
Qed.

Lemma close_superseded_again h : 
  let h' := map (close_superseded h) h in
  map (close_superseded h') h' = h' /\ List.filter (superseded h') h' = [].
Proof.
  intros h'.
  assert (forall a, a ∈ h' -> is_open a = true -> successor h' a = None) as Hn.
  { intros a Ha Ho. pose proof (successor_spec h' a) as Hs. destruct (successor h' a); [| done].
    destruct Hs as [(b & Hb & Hsup & _) _]. by rewrite (close_superseded_final h a b) in Hsup. }
  split.
  - transitivity (map (fun x => x) h'); [apply map_ext_in | apply map_id]. intros a Ha%list_elem_of_In.
    unfold close_superseded. destruct (is_open a) eqn:Ho; [| done]. by rewrite Hn.
  - destruct (List.filter _ _) as [| a l] eqn:Hf; [done |].
    assert (a ∈ List.filter (superseded h') h') as [Ha Hs]%elem_of_filterb
      by (rewrite Hf; by left).
    unfold superseded in Hs. destruct (is_open a) eqn:Ho; [| done]. by rewrite Hn in Hs.
Qed.

(** Closing superseded sessions closes exactly the open rows that have a
    later session of the same subscriber on the same NAS, at the start of the
    next such session, and touches nothing else. Afterwards the open rows of a
    subscriber on a NAS all started at the latest start known there, and
    running it again closes nothing. *)
Theorem close_superseded_exact d :
  let d' := (CloseSupersededSessions true d).2 in
  history d' = map (close_superseded (history d)) (history d) /\
  (forall r, r ∈ history d ->
     (close_superseded (history d) r = r /\
      (is_open r = true -> forall b, b ∈ history d -> supersedes r b = false)) \/
     (exists b t, is_open r = true /\ b ∈ history d /\ supersedes r b = true /\
        t = start_time b /\ start_time r < t /\
        (forall b', b' ∈ history d -> supersedes r b' = true -> t <= start_time b') /\
        close_superseded (history d) r = closed_at t r)) /\
  (forall a b, a ∈ history d' -> b ∈ history d' -> is_open a = true ->
     subscriber_id b = subscriber_id a -> nas_ip_address b = nas_ip_address a ->
     start_time b <= start_time a) /\
  CloseSupersededSessions true d' = (Ok 0, d').
Proof.
  simpl. split; [done |]. split; [| split].
  - intros r Hr. unfold close_superseded. destruct (is_open r) eqn:Ho; [| by left].
    pose proof (successor_spec (history d) r) as Hs. destruct (successor _ r) as [t|]; [| by left].
    right. destruct Hs as [(b & Hb & Hsup & <-) Hmin]. exists b, (start_time b).
    repeat split; try done. unfold supersedes in Hsup. lia.
  - intros a b Ha Hb Ho Hsub Hnas. pose proof (close_superseded_final _ _ _ Ha Hb Ho) as Hs.
    unfold supersedes in Hs. rewrite Hsub, Hnas, Z.eqb_refl, String.eqb_refl in Hs. simpl in Hs. lia.
  - unfold CloseSupersededSessions. simpl.
    destruct (close_superseded_again (history d)) as [H1 H2]. rewrite H2.
    unfold with_history. simpl. by rewrite H1.
Qed.

(** ** Who is over quota *)

Lemma elem_of_online id h : id ∈ online h <-> exists r, r ∈ open_rows id h.
Proof.
  unfold online, open_rows. rewrite elem_of_remove_dups, list_elem_of_fmap. split.
  - intros (r & -> & [Hr Ho]%elem_of_filterb). exists r. apply elem_of_filterb.
    by rewrite Z.eqb_refl, Ho.
  - intros (r & [Hr [Hid Ho]%andb_true_iff]%elem_of_filterb). exists r.
    split; [lia | by apply elem_of_filterb].
Qed.

(** A subscriber the FUP machinery is answerable for. *)
Definition metered (d : DB) (id : Z) (s : SubscriberRow) (p : PlanRow) : Prop :=
  subscribers d !! id = Some s /\ plans d !! plan_id s = Some p /\
  0 < fup_threshold_bytes p /\ fup_active s = false /\
  (status s = "active"%string \/ status s = "grace_period"%string) /\
  exists r, r ∈ open_rows id (history d).

Lemma elem_of_candidates d st :
  st ∈ candidates d <->
  exists s p, metered d (SubscriberID st) s p /\ st = MkStats (SubscriberID st) (username s)
    (max_nas (open_rows (SubscriberID st) (history d))) (fup_threshold_bytes p)
    (sum_octets (open_rows (SubscriberID st) (history d))) false
    (default EmptyString (fup_throttle_string p)).
Proof.
  unfold candidates. rewrite list_elem_of_fmap. split.
  - intros ([s st'] & -> & [Hin Hg]%elem_of_filterb). simpl in *.
    apply list_elem_of_omap in Hin as (id & Hid & Hst). unfold stats_of in Hst.
    destruct (subscribers d !! id) as [s'|] eqn:Hs; [| done]. simpl in Hst.
    destruct (plans d !! plan_id s') as [p|] eqn:Hp; [| done]. simpl in Hst.
    injection Hst as <- <-. simpl in *.
    destruct (fup_active s') eqn:Hf; [by rewrite andb_false_r in Hg |].
    exists s', p. split; [| done].
    apply elem_of_online in Hid. repeat split; try done; [lia |].
    apply andb_true_iff in Hg as [_ [Hg | Hg]%orb_true_iff]; apply String.eqb_eq in Hg; auto.
  - intros (s & p & (Hs & Hp & Hpos & Hf & Hst & Hon) & ->).
    eexists (s, _). split; [reflexivity |]. apply elem_of_filterb. split.
    + apply list_elem_of_omap. exists (SubscriberID st). split; [by apply elem_of_online |].
      unfold stats_of. rewrite Hs. simpl. rewrite Hp. simpl. by rewrite Hf.
    + simpl. rewrite Hf. destruct Hst as [-> | ->]; simpl; lia.
Qed.

Lemma candidates_nodup d : NoDup (map SubscriberID (candidates d)).
Proof.
  unfold candidates. set (g := fun p : SubscriberRow * SessionStats => _).
  assert (forall l, NoDup l ->
    NoDup (map SubscriberID (map snd (List.filter g (omap (stats_of d) l)))) /\
    forall x, x ∈ map SubscriberID (map snd (List.filter g (omap (stats_of d) l))) -> x ∈ l) as H0.
  { induction l as [| id l IH]; [by split; [constructor |] |].
    intros [Hnot Hl]%NoDup_cons. destruct (IH Hl) as [IH1 IH2]. simpl.
    assert (forall s st, stats_of d id = Some (s, st) -> SubscriberID st = id) as Hid.
    { unfold stats_of. intros s st. destruct (subscribers d !! id) as [s'|]; simpl; [| done].
      destruct (plans d !! plan_id s'); simpl; [| done]. by intros [= <- <-]. }
    destruct (stats_of d id) as [[s st]|] eqn:Hst; simpl; [| set_solver].
    destruct (g (s, st)); simpl; [| set_solver]. rewrite (Hid s st eq_refl).
    split; [constructor; [by intros ?%IH2 | done] | set_solver]. }
  apply H0. apply NoDup_remove_dups.
Qed.

Lemma NoDup_map_filterb {A B} (f : A -> B) g (l : list A) :
  NoDup (map f l) -> NoDup (map f (List.filter g l)).
Proof.
  induction l as [| a l IH]; simpl; [done |]. intros [Hn Hl]%NoDup_cons.
  destruct (g a); simpl; [| by apply IH]. constructor; [| by apply IH].
  intros (b & Hb & [Hin _]%elem_of_filterb)%list_elem_of_fmap. apply Hn. rewrite Hb.
  by apply list_elem_of_fmap_2.
Qed.

(** The breach query, when it answers, lists exactly the metered
    subscribers whose open sessions add up to their plan's threshold, each
    once, with that exact total; it fails rather than wrap a counter. *)
Theorem breaches_exact up d l :
  GetActiveSessionsAboveFUP up d = Ok l ->
  NoDup (map SubscriberID l) /\
  (forall id used, (exists st, st ∈ l /\ SubscriberID st = id /\ BytesUsed st = used) <->
     used = sum_octets (open_rows id (history d)) /\
     exists s p, metered d id s p /\ fup_threshold_bytes p <= used) /\
  (forall r, r ∈ history d -> is_open r = true -> - 2 ^ 63 <= octets r < 2 ^ 63).
Proof.
  unfold GetActiveSessionsAboveFUP, scan_stats. destruct up; simpl; [| done].
  destruct (usage_overflows d || _) eqn:Hov; [done |]. intros [= <-].
  apply orb_false_iff in Hov as [Hov _]. split; [| split].
  - apply NoDup_map_filterb, candidates_nodup.
  - intros id used. split.
    + intros (st & [Hin Hge]%elem_of_filterb & <- & <-).
      apply elem_of_candidates in Hin as (s & p & Hm & Heq). rewrite Heq in Hge. simpl in Hge.
      split; [by rewrite Heq at 1 |]. exists s, p. split; [done |]. rewrite Heq. simpl. lia.
    + intros [-> (s & p & Hm & Hge)].
      exists (MkStats id (username s) (max_nas (open_rows id (history d))) (fup_threshold_bytes p)
                (sum_octets (open_rows id (history d))) false
                (default EmptyString (fup_throttle_string p))).
      split; [| done]. apply elem_of_filterb. split; [| simpl; lia].
      apply elem_of_candidates. by exists s, p.
  - intros r Hr Ho. unfold usage_overflows in Hov. apply not_true_iff_false in Hov.
    destruct (in_bigint (octets r)) eqn:Hb; [unfold in_bigint in Hb; lia |].
    exfalso. apply Hov, existsb_exists. exists r. rewrite Ho, Hb. split; [by apply list_elem_of_In | done].
Qed.

Lemma open_rows_stop_all id now sid i o cause h :
  (forall r, r ∈ open_rows id h -> session_id r = sid) ->
  open_rows id (map (fun r => if open_for sid r then stopped now i o cause r else r) h) = [].
Proof.
  unfold open_rows. induction h as [| r h IH]; intros Hall; simpl; [done |].
  destruct (open_for sid r) eqn:Hr; simpl.
  - rewrite andb_false_r. apply IH. intros r' [Hin Hc]%elem_of_filterb. apply Hall.
    apply elem_of_filterb. split; [by right | done].
  - destruct ((subscriber_id r =? id) && is_open r) eqn:Hc.
    + exfalso. assert (session_id r = sid) as Hs
        by (apply Hall, elem_of_filterb; split; [by left | done]).
      apply andb_true_iff in Hc as [_ Ho]. unfold open_for in Hr.
      rewrite Hs, String.eqb_refl, Ho in Hr. done.
    + apply IH. intros r' [Hin Hc']%elem_of_filterb. apply Hall.
      apply elem_of_filterb. split; [by right | done].
Qed.

(** The usage the quota is measured on is forgotten on reconnect. When a
    subscriber's only open session stops, at whatever octet counts, and a new
    one starts, their measured usage is zero, and the breach query does not
    list them whatever they have consumed. *)
Theorem reconnect_forgets_usage d d1 d2 now1 now2 id sid sid' i o cause nas ip pfx matched :
  (forall r, r ∈ open_rows id (history d) -> session_id r = sid) ->
  StopSession now1 true sid i o cause d = (Ok matched, d1) ->
  existsb (open_for sid') (history d1) = false ->
  StartSession now2 true id sid' nas ip pfx d1 = (Ok tt, d2) ->
  sum_octets (open_rows id (history d2)) = 0 /\
  forall l st, GetActiveSessionsAboveFUP true d2 = Ok l -> st ∈ l -> SubscriberID st <> id.
Proof.
  intros Hall Hstop Hnew Hstart. unfold StopSession in Hstop. simpl in Hstop.
  injection Hstop as _ <-.
  destruct (StartSession_Ok _ _ _ _ _ _ _ _ _ Hstart)
    as [[He _] | (_ & row & Hh & _ & _ & _ & _ & _ & _ & Hz)]; [congruence |].
  assert (sum_octets (open_rows id (history d2)) = 0) as Hsum.
  { rewrite Hh. simpl. unfold open_rows. rewrite List.filter_app.
    fold (open_rows id (map (fun r => if open_for sid r then stopped now1 i o cause r else r) (history d))).
    rewrite open_rows_stop_all by done. simpl. case_match; simpl; lia. }
  split; [done |]. intros l st Hl Hin <-.
  unfold GetActiveSessionsAboveFUP, scan_stats in Hl. simpl in Hl.
  destruct (usage_overflows d2 || _); [done |]. injection Hl as <-.
  apply elem_of_filterb in Hin as [Hin Hge]. apply elem_of_candidates in Hin as (s & p & Hm & Heq).
  destruct Hm as (_ & _ & Hpos & _). rewrite Heq in Hge. simpl in Hge. lia.
Qed.

(** ** Who held the address *)

Lemma newest_spec l :
  match min_by newest l with
  | None => l = []
  | Some r => r ∈ l /\ forall b, b ∈ l -> start_time b <= start_time r
  end.
Proof.
  pose proof (min_by_spec newest ltac:(unfold newest; intros; lia)
    ltac:(unfold newest; intros; lia) ltac:(unfold newest; intros; lia) l) as Hs.
  destruct (min_by newest l); [| done]. destruct Hs as [Hr Hmin]. split; [done |].
  intros b Hb. specialize (Hmin b Hb). unfold newest in Hmin. lia.
Qed.

(** One holder at a time: of two sessions with the address, the one that
    started first had ended when the other started. *)
Definition exclusive (ip : string) (h : list SessionRow) : Prop :=
  forall a b, a ∈ h -> b ∈ h -> assigned_ipv4 a = Some ip -> assigned_ipv4 b = Some ip ->
    a = b \/ (exists t, stop_time a = Some t /\ start_time a < start_time b /\ t < start_time b) \/
    (exists t, stop_time b = Some t /\ start_time b < start_time a /\ t < start_time a).

Definition held (ip : string) (at_ : Z) (r : SessionRow) : Prop :=
  assigned_ipv4 r = Some ip /\ start_time r <= at_ /\ ended_before at_ (stop_time r) = false.

(** An answer to a law-enforcement query names a session that held the
    address at the instant asked about, and when sessions hold an address one
    at a time, the answer is exactly the holder: nobody when there was none. *)
Theorem lea_names_the_holder publicIP ip at_ d :
  inet publicIP = Some ip -> exclusive ip (history d) ->
  (forall r, r ∈ history d -> is_Some (subscribers d !! subscriber_id r)) ->
  match lookupDirectIP true publicIP at_ d with
  | Ok (Some res) => exists r, r ∈ history d /\ held ip at_ r /\
      res = MkLEA (subscriber_id r) (Some (session_id r)) (start_time r) (stop_time r) "direct_ip" /\
      forall r', r' ∈ history d -> held ip at_ r' -> r' = r
  | Ok None => forall r, r ∈ history d -> ~ held ip at_ r
  | Err _ => False
  end.
Proof.
  intros Hip Hex Hknown. unfold lookupDirectIP. simpl. rewrite Hip.
  set (l := List.filter _ (history d)).
  assert (forall r, r ∈ l <-> r ∈ history d /\ assigned_ipv4 r = Some ip /\ start_time r <= at_) as Hl.
  { intros r. unfold l. rewrite elem_of_filterb, !andb_true_iff, bool_decide_eq_true. unfold known.
    split.
    - intros (H1 & [H2 H3] & _). repeat split; try done. lia.
    - intros (H1 & H2 & H3). repeat split; try done; [lia |].
      apply bool_decide_eq_true. by apply Hknown. }
  pose proof (newest_spec l) as Hs. destruct (min_by newest l) as [r|].
  - destruct Hs as [(Hr & Hri & Hrs)%Hl Hmax].
    assert (forall r', r' ∈ history d -> held ip at_ r' -> r' = r) as Honly.
    { intros r' Hr' (Hi & Hst & He). destruct (Hex r' r Hr' Hr Hi Hri) as
        [-> | [(t & Ht & _ & Hlt) | (t & _ & Hlt & _)]]; [done | |].
      - unfold ended_before in He. rewrite Ht in He. lia.
      - assert (start_time r' <= start_time r) by (apply Hmax, Hl; done). lia. }
    destruct (ended_before at_ (stop_time r)) eqn:He.
    + intros r' Hr' Hh. rewrite (Honly r' Hr' Hh) in Hh. destruct Hh as (_ & _ & Hc). congruence.
    + exists r. done.
  - intros r Hr (Hi & Hst & _). assert (r ∈ l) as Hc by (by apply Hl). rewrite Hs in Hc.
    by apply elem_of_nil in Hc.
Qed.

End Store.

(** ** A concrete database *)

#[export] Instance toy_postgres : Postgres := {|
  inet s := if String.eqb s EmptyString then None else Some s;
  cidr s := Some s;
  text_le a b := String.leb a b
|}.

Definition demo_db : DB :=
  MkDB [] 1 {[7 := MkSubscriberRow "bob" "active" 1 false None None]}
    {[1 := MkPlanRow "50M/50M" 1000 (Some "2M/2M"%string)]} [] [].

Definition after_start : DB :=
  (StartSession 10 true 7 "s1" "10.0.0.1" "100.64.0.9" EmptyString demo_db).2.
Definition after_update : DB := (UpdateSessionOctets true "s1" 900 300 after_start).2.
Definition after_stop : DB := (StopSession 20 true "s1" 900 300 "User-Request" after_update).2.
Definition after_restart : DB :=
  (StartSession 30 true 7 "s2" "10.0.0.1" "100.64.0.9" EmptyString after_stop).2.

Example used_then_forgotten :
  (BytesUsed <$> default [] (match GetActiveSessionsAboveFUP true after_update with
                             | Ok l => Some l | Err _ => None end),
   BytesUsed <$> default [] (match GetActiveSessionsAboveFUP true after_restart with
                             | Ok l => Some l | Err _ => None end)) = ([1200], []).
Proof. vm_compute. reflexivity. Qed.

(** Two Starts whose snapshots are both taken before either inserts. *)
Example racing_starts_open_twice :
  exists d, star (write true) (demo_db, []) (d, []) /\ open_count "s1" (history d) = 2%nat.
Proof.
  eexists. split.
  - eapply star_step; [apply (write_snapshot true "s1"); by left |].
    eapply star_step; [apply (write_snapshot true "s1"); by left |].
    eapply star_step; [apply (write_insert true 10 true 7 "s1" false "10.0.0.1" "100.64.0.9" EmptyString _ [] [_]) |].
    apply star_one. apply (write_insert true 10 true 7 "s1" false "10.0.0.1" "100.64.0.9" EmptyString _ [] []).
  - vm_compute. reflexivity.
Qed.

Lemma session_open_once_witness :
  history after_restart <> [] /\ (open_count "s2" (history after_restart) <= 1)%nat.
Proof.
  split; [discriminate |]. apply (session_open_once demo_db after_restart []); [reflexivity |].
  eapply star_step; [apply (write_snapshot false "s1"); right; apply not_elem_of_nil |].
  eapply star_step; [apply (write_insert false 10 true 7 "s1" false "10.0.0.1" "100.64.0.9" EmptyString _ [] []) |].
  eapply star_step; [apply (write_update false true "s1" 900 300) |].
  eapply star_step; [apply (write_stop false 20 true "s1" 900 300 "User-Request") |].
  eapply star_step; [apply (write_snapshot false "s2"); right; apply not_elem_of_nil |].
  apply star_one. apply (write_insert false 30 true 7 "s2" false "10.0.0.1" "100.64.0.9" EmptyString _ [] []).
Defined.

Lemma breaches_exact_witness :
  exists l, GetActiveSessionsAboveFUP true after_update = Ok l /\ NoDup (map SubscriberID l).
Proof.
  eexists. split; [vm_compute; reflexivity |].
  apply (breaches_exact true after_update). vm_compute. reflexivity.
Defined.

Lemma reconnect_forgets_usage_witness :
  sum_octets (open_rows 7 (history after_update)) = 1200 /\
  sum_octets (open_rows 7 (history after_restart)) = 0.
Proof.
  split; [reflexivity |].
  apply (reconnect_forgets_usage after_update after_stop after_restart 20 30 7 "s1" "s2" 900 300
           "User-Request" "10.0.0.1" "100.64.0.9" EmptyString true).
  - intros r Hr. vm_compute in Hr. apply list_elem_of_In in Hr as [<- | []]. reflexivity.
  - reflexivity.
  - reflexivity.
  - reflexivity.
Defined.

Lemma lea_names_the_holder_witness :
  exists r, r ∈ history after_restart /\ held "100.64.0.9" 15 r.
Proof.
  assert (exclusive "100.64.0.9" (history after_restart)) as Hex.
  { intros a b Ha Hb _ _. vm_compute in Ha, Hb.
    apply list_elem_of_In in Ha as [<- | [<- | []]]; apply list_elem_of_In in Hb as [<- | [<- | []]].
    - by left.
    - right. left. exists 20. done.
    - right. right. exists 20. done.
    - by left. }
  assert (forall r, r ∈ history after_restart -> is_Some (subscribers after_restart !! subscriber_id r)) as Hk.
  { intros r Hr. vm_compute in Hr. apply list_elem_of_In in Hr as [<- | [<- | []]];
      (eexists; vm_compute; reflexivity). }
  pose proof (lea_names_the_holder "100.64.0.9" "100.64.0.9" 15 after_restart eq_refl Hex Hk) as Hl.
  vm_compute in Hl. destruct Hl as (r & Hr & Hh & _). exists r. split; [exact Hr | exact Hh].
Defined.

End History.
