(* ===== verification/LiveSessions.v ===== *)
(** * internal/cache/session.go: live sessions

    The [live_sessions] table, one row per subscriber, written by the RADIUS
    accounting path and read by the health endpoint and the portal. Instants
    and ages are nanoseconds; [up] says whether a statement could be executed,
    [known] which subscriber ids the foreign key accepts. *)

From S2P Require Import Prelude GoStrings Decimal.

Local Open Scope Z_scope.

Module LiveSessions.

(** [radius.LiveSession]: what Accounting-Start knows. *)
Record LiveSession : Type := MkLive {
  l_SessionID : string;
  l_SubscriberID : Z;
  l_NasIP : string;
  l_AssignedIP : string;
  l_BytesTotal : Z;
  l_SpeedProfile : string;
  l_FUPThrottled : bool
}.

Record Session : Type := MkSession {
  SessionID : string;
  SubscriberID : Z;
  NasIP : string;
  AssignedIP : string;
  BytesIn : Z;
  BytesOut : Z;
  BytesTotal : Z;
  SpeedProfile : string;
  FUPThrottled : bool;
  StartedAt : Z
}.

(** A row: the session and [updated_at]. *)
Record row : Type := MkRow { sess : Session; updated_at : Z }.
Abbreviation table := (gmap Z row).

Definition SessionTTL : Z := 30 * 60 * 1000000000.

(** ** Writes *)

Definition Put (known : Z -> bool) (now : Z) (up : bool) (s : LiveSession) (t : table) : bool * table :=
  if up && known (l_SubscriberID s) then
    (true, <[l_SubscriberID s := MkRow (MkSession (l_SessionID s) (l_SubscriberID s) (l_NasIP s)
       (l_AssignedIP s) 0 0 (l_BytesTotal s) (l_SpeedProfile s) (l_FUPThrottled s) now) now]> t)
  else (false, t).

Definition with_octets (i o : Z) (s : Session) : Session :=
  MkSession (SessionID s) (SubscriberID s) (NasIP s) (AssignedIP s) i o (BytesTotal s)
    (SpeedProfile s) (FUPThrottled s) (StartedAt s).
Definition with_profile (rate : string) (s : Session) : Session :=
  MkSession (SessionID s) (SubscriberID s) (NasIP s) (AssignedIP s) (BytesIn s) (BytesOut s)
    (BytesTotal s) rate (FUPThrottled s) (StartedAt s).

(** [UPDATE ... WHERE session_id = $1] *)
Definition update_session (now : Z) (sessionID : string) (f : Session -> Session) (t : table) : table :=
  (fun r => if String.eqb (SessionID (sess r)) sessionID then MkRow (f (sess r)) now else r) <$> t.

Definition UpdateOctets (now : Z) (up : bool) (sessionID : string) (inputOctets outputOctets : Z)
    (t : table) : bool * table :=
  if up then (true, update_session now sessionID (with_octets inputOctets outputOctets) t)
  else (false, t).

Definition UpdateSpeedProfile (now : Z) (up : bool) (sessionID rateLimit : string) (t : table) :
    bool * table :=
  if up then (true, update_session now sessionID (with_profile rateLimit) t) else (false, t).

Definition Delete (up : bool) (subscriberID : Z) (t : table) : bool * table :=
  if up then (true, delete subscriberID t) else (false, t).

Definition DeleteBySessionID (up : bool) (sessionID : string) (t : table) : bool * table :=
  if up then (true, filter (fun p => String.eqb (SessionID (sess p.2)) sessionID = false) t)
  else (false, t).

(** One tick of [StalenessSweeper.Run]. *)
Definition sweep (now : Z) (up : bool) (t : table) : table :=
  if up then filter (fun p => (updated_at p.2 <? now - SessionTTL) = false) t else t.

(** ** Reads *)

Definition get (now : Z) (up : bool) (subscriberID : Z) (t : table) : result unit (option Session) :=
  if negb up then Err tt
  else Ok (r ← t !! subscriberID; if now - SessionTTL <? updated_at r then Some (sess r) else None).

Definition Get : Z -> bool -> Z -> table -> result unit (option Session) := get.

Definition BytesUsed (s : Session) : Z := i64 (BytesIn s + BytesOut s).

Section Views.
Context `{Decimal}.

Definition PctUsed (s : Session) : Z :=
  if BytesTotal s <=? 0 then 0 else percentage (BytesUsed s) (BytesTotal s).

Definition age_hours (d : Z) : Z := d / (3600 * 1000000000).
Definition age_minutes (d : Z) : Z := d / (60 * 1000000000).

Definition formatAge (d : Z) : string :=
  let d := if d <? 0 then 0 else d in
  let hours := age_hours d in
  let minutes := age_minutes d mod 60 in
  if 0 <? hours then format_int hours +:+ "h" +:+ format_int minutes +:+ "m"
  else format_int minutes +:+ "m".

(** [health.SessionSummary] *)
Record SessionSummary : Type := MkSummary {
  h_SessionID : string;
  h_NasIP : string;
  h_AssignedIP : string;
  h_BytesUsed : Z;
  h_BytesTotal : Z;
  h_PctUsed : Z;
  h_SpeedProfile : string;
  h_SessionAge : string
}.

Definition GetActiveSession (now : Z) (up : bool) (subscriberID : Z) (t : table) :
    result unit (option SessionSummary) :=
  rbind (get now up subscriberID t) (fun o => Ok (s ← o;
    Some (MkSummary (SessionID s) (NasIP s) (AssignedIP s) (BytesUsed s) (BytesTotal s) (PctUsed s)
            (SpeedProfile s) (formatAge (now - StartedAt s))))).

(** [portal.ActiveSession]; the percentage is given before its conversion to
    a float. *)
Record ActiveSession : Type := MkActive {
  p_SessionID : string;
  p_NASIP : string;
  p_AssignedIP : string;
  p_BytesIn : Z;
  p_BytesOut : Z;
  p_GBUsed : dec;
  p_GBIncluded : dec;
  p_PctUsed : dec;
  p_SpeedProfile : string;
  p_FUPThrottled : bool;
  p_StartedAt : Z
}.

Definition bytesPerGB : Z := 1024 * 1024 * 1024.
Definition gb (b : Z) : dec := Round (Div (NewFromInt b) (NewFromInt bytesPerGB)) 2.

Definition PortalSession (now : Z) (up : bool) (subscriberID : Z) (t : table) :
    result unit (option ActiveSession) :=
  rbind (get now up subscriberID t) (fun o => Ok (s ← o;
    let pct := if 0 <? BytesTotal s
               then Round (Div (Mul (NewFromInt (BytesUsed s)) (NewFromInt 100))
                             (NewFromInt (BytesTotal s))) 2
               else NewFromInt 0 in
    Some (MkActive (SessionID s) (NasIP s) (AssignedIP s) (BytesIn s) (BytesOut s)
            (gb (BytesUsed s)) (gb (BytesTotal s)) pct (SpeedProfile s) (FUPThrottled s)
            (StartedAt s)))).

(** The quota percentage is the exact integer quotient, so it reaches 100 no
    earlier and no later than the quota does. *)
Lemma PctUsed_exact `{!DecimalLaws} s :
  0 <= BytesIn s -> 0 <= BytesOut s -> BytesIn s + BytesOut s < 2 ^ 56 ->
  0 < BytesTotal s < 2 * 10 ^ 16 ->
  PctUsed s = (BytesIn s + BytesOut s) * 100 / BytesTotal s /\
  (100 <= PctUsed s <-> BytesTotal s <= BytesIn s + BytesOut s).
Proof.
  intros Hi Ho Hs Ht. unfold PctUsed, BytesUsed. rewrite i64_small by (unfold max_int64; lia).
  replace (BytesTotal s <=? 0) with false by lia. rewrite percentage_exact by lia.
  split; [done |]. set (u := BytesIn s + BytesOut s). split.
  - intros H100. pose proof (Z.mul_div_le (u * 100) (BytesTotal s) ltac:(lia)) as Hm.
    pose proof (Z.mul_le_mono_nonneg_l 100 _ (BytesTotal s) ltac:(lia) H100). lia.
  - intros Hle. apply Z.div_le_lower_bound; nia.
Qed.

End Views.

(** ** One row per subscriber, keyed by it *)

Definition keyed (t : table) : Prop :=
  forall id r, t !! id = Some r -> SubscriberID (sess r) = id.

Inductive write (known : Z -> bool) : table -> table -> Prop :=
| write_put now up s t : write known t (Put known now up s t).2
| write_octets now up sid i o t : write known t (UpdateOctets now up sid i o t).2
| write_profile now up sid rate t : write known t (UpdateSpeedProfile now up sid rate t).2
| write_delete up id t : write known t (Delete up id t).2
| write_delete_session up sid t : write known t (DeleteBySessionID up sid t).2
| write_sweep now up t : write known t (sweep now up t).

Lemma lookup_update_session now sid f t id :
  update_session now sid f t !! id =
  (fun r => if String.eqb (SessionID (sess r)) sid then MkRow (f (sess r)) now else r) <$> t !! id.
Proof. unfold update_session. by rewrite lookup_fmap. Qed.

Lemma keyed_update now sid f t :
  (forall s, SubscriberID (f s) = SubscriberID s) -> keyed t -> keyed (update_session now sid f t).
Proof.
  intros Hf Hk id r. rewrite lookup_update_session. intros (r0 & Hr0 & ->)%fmap_Some.
  apply Hk in Hr0. case_match; simpl; [by rewrite Hf | done].
Qed.

Lemma write_keyed known t t' : keyed t -> write known t t' -> keyed t'.
Proof.
  intros Hk Hw. destruct Hw as [now up s t | now up sid i o t | now up sid rate t | up id t
    | up sid t | now up t].
  - unfold Put. case_match; simpl; [| done].
    intros id r [[<- <-] | [_ Hr]]%lookup_insert_Some; [done | by apply Hk].
  - unfold UpdateOctets. destruct up; simpl; [by apply keyed_update | done].
  - unfold UpdateSpeedProfile. destruct up; simpl; [by apply keyed_update | done].
  - unfold Delete. destruct up; simpl; [| done]. intros id' r [_ Hr]%lookup_delete_Some. by apply Hk.
  - unfold DeleteBySessionID. destruct up; simpl; [| done].
    intros id' r [Hr _]%map_lookup_filter_Some. by apply Hk.
  - unfold sweep. destruct up; [| done]. intros id' r [Hr _]%map_lookup_filter_Some. by apply Hk.
Qed.

(** A sweep is invisible to the reads. *)
Lemma get_sweep now up up' id t : get now up id (sweep now up' t) = get now up id t.
Proof.
  unfold get, sweep. destruct up, up'; simpl; try done. f_equal.
  destruct (t !! id) as [r|] eqn:Hr.
  - destruct (updated_at r <? now - SessionTTL) eqn:Hold.
    + replace (filter _ t !! id) with (@None row); simpl.
      * replace (now - SessionTTL <? updated_at r) with false by lia. done.
      * symmetry. apply map_lookup_filter_None. right. intros x Hx. simpl. congruence.
    + replace (filter _ t !! id) with (Some r); [done |].
      symmetry. by apply map_lookup_filter_Some.
  - replace (filter _ t !! id) with (@None row); [done |].
    symmetry. apply map_lookup_filter_None. by left.
Qed.

(** A live session is shown only while accounting keeps it alive. After
    any writes, a read of a subscriber returns that subscriber's own row, and
    only if it was written within the last thirty minutes; whether the
    staleness sweep has run makes no difference to any read; and the quota
    percentage reported for it is the exact integer quotient. *)
Theorem live_session_reads `{DecimalLaws} known t now up id s :
  star (write known) ∅ t -> get now up id t = Ok (Some s) ->
  SubscriberID s = id /\
  (exists at_, t !! id = Some (MkRow s at_) /\ now < at_ + SessionTTL) /\
  (forall up', get now up id (sweep now up' t) = Ok (Some s)) /\
  (0 <= BytesIn s -> 0 <= BytesOut s -> BytesIn s + BytesOut s < 2 ^ 56 ->
   0 < BytesTotal s < 2 * 10 ^ 16 ->
   (100 <= PctUsed s <-> BytesTotal s <= BytesIn s + BytesOut s)).
Proof.
  intros Hstar Hget.
  assert (keyed t) as Hk by (eapply star_invariant; [apply write_keyed | exact Hstar | done]).
  assert (exists r, t !! id = Some r /\ now - SessionTTL < updated_at r /\ sess r = s)
    as (r & Hr & Hlive & <-).
  { unfold get in Hget. destruct up; simpl in Hget; [| done]. injection Hget as Hget.
    destruct (t !! id) as [r|]; simpl in Hget; [| done]. exists r.
    destruct (now - SessionTTL <? updated_at r) eqn:Hl; [| done]. injection Hget as ->.
    split; [done |]. split; [lia | done]. }
  split; [by apply Hk |]. split; [exists (updated_at r); destruct r; simpl in *; split; [done | lia] |].
  split; [intros up'; by rewrite get_sweep |].
  intros. by apply PctUsed_exact.
Qed.

Definition demo_live : LiveSession := MkLive "s1" 7 "10.0.0.1" "100.64.0.9" 1000 "50M/50M" false.
Definition demo_table : table :=
  (UpdateOctets 20 true "s1" 600 400 (Put (fun _ => true) 10 true demo_live ∅).2).2.

Lemma live_session_reads_witness :
  exists s, get 30 true 7 demo_table = Ok (Some s) /\ @PctUsed RationalDecimal s = 100 /\
    SubscriberID s = 7.
Proof.
  eexists. split; [vm_compute; reflexivity |]. split; [vm_compute; reflexivity |].
  apply (@live_session_reads RationalDecimal RationalLaws (fun _ => true) demo_table 30 true 7).
  - eapply star_step; [apply write_put |]. apply star_one. apply write_octets.
  - vm_compute. reflexivity.
Defined.

End LiveSessions.
