(* ===== verification/HotspotStore.v ===== *)
(** * internal/db/hotspot.go: devices, vouchers and grants

    The tables of migrations 034, 035 and 044 and the statements on them.
    Amounts are in hundredths of the currency unit and percentages in
    hundredths of a percent, as the NUMERIC columns hold them; instants are
    nanoseconds. [up] says whether a statement could be executed. The listing
    of vouchers for operators is not modelled. *)

From S2P Require Import Prelude GoStrings Decimal Identity.
From stdpp Require Import sorting.

Local Open Scope Z_scope.

Module HotspotStore.

Definition minute : Z := 60 * 1000000000.

Record DeviceRow : Type := MkDevice {
  d_id : Z; d_subscriber : Z; d_label : option string; d_nas : option Z; d_active : bool;
  first_seen_at : option Z; d_last_seen_at : option Z
}.

Record VoucherRow : Type := MkVoucher {
  code_hash : string;
  code_prefix : string;
  v_plan : Z;
  franchise_id : option Z;
  duration_minutes : Z;
  data_cap_bytes : Z;
  v_status : string;
  redeemed_by_mac : option string;
  redeemed_at : option Z;
  v_expires_at : option Z;
  valid_until : option Z;
  sale_amount : Z
}.

Record GrantRow : Type := MkGrant {
  mac_address : string;
  g_subscriber : option Z;
  g_voucher : option Z;
  g_nas : option Z;
  g_plan : Z;
  g_expires_at : Z;
  revoked_at : option Z;
  bytes_used : Z;
  g_session_id : option string;
  g_nas_ip : option string;
  last_seen_at : option Z;
  exhausted_at : option Z
}.

Record CommissionRow : Type := MkCommission {
  cm_franchise : Z; cm_sale : Z; cm_rate : Z; cm_amount : Z
}.

(** The columns read from [subscribers] and [plans]. *)
Record SubscriberRow : Type := MkSub {
  s_username : string; s_password_hash : string; s_status : string; s_plan : Z; s_fup_active : bool
}.
Record PlanRow : Type := MkPlan { p_rate_limit : string; p_fup_throttle : option string }.

Record DB : Type := MkDB {
  devices : gmap string DeviceRow;
  vouchers : gmap Z VoucherRow;
  grants : gmap Z GrantRow;
  commissions : gmap Z CommissionRow;
  subscribers : gmap Z SubscriberRow;
  plans : gmap Z PlanRow;
  franchises : gmap Z Z;
  next_id : Z
}.

Definition with_devices f (d : DB) : DB :=
  MkDB (f (devices d)) (vouchers d) (grants d) (commissions d) (subscribers d) (plans d) (franchises d) (next_id d).
Definition with_vouchers f (d : DB) : DB :=
  MkDB (devices d) (f (vouchers d)) (grants d) (commissions d) (subscribers d) (plans d) (franchises d) (next_id d).
Definition with_grants f (d : DB) : DB :=
  MkDB (devices d) (vouchers d) (f (grants d)) (commissions d) (subscribers d) (plans d) (franchises d) (next_id d).
Definition with_commissions f (d : DB) : DB :=
  MkDB (devices d) (vouchers d) (grants d) (f (commissions d)) (subscribers d) (plans d) (franchises d) (next_id d).
Definition with_franchises (rates : gmap Z Z) (d : DB) : DB :=
  MkDB (devices d) (vouchers d) (grants d) (commissions d) (subscribers d) (plans d) rates (next_id d).
(** The sequences behind the SERIAL columns, as one counter. *)
Definition bump (d : DB) : DB :=
  MkDB (devices d) (vouchers d) (grants d) (commissions d) (subscribers d) (plans d) (franchises d) (next_id d + 1).

(** ** Authorisation *)

(** [nas_id IS NULL OR nas_id = $2] *)
Definition on_nas (bound : option Z) (nasID : Z) : bool :=
  match bound with None => true | Some n => n =? nasID end.

Definition live_grant (now : Z) (g : GrantRow) : bool :=
  bool_decide (revoked_at g = None) && (now <? g_expires_at g).

Definition device_match (mac : string) (nasID : Z) (d : DB) : option Identity.Subscriber :=
  h ← devices d !! mac;
  if d_active h && on_nas (d_nas h) nasID then
    s ← subscribers d !! d_subscriber h;
    p ← plans d !! s_plan s;
    Some (Identity.MkSubscriber (d_subscriber h) (s_username s) (s_password_hash s) (s_status s)
            (p_rate_limit p) (s_fup_active s) (default EmptyString (p_fup_throttle p)) EmptyString
            None (s_plan s) [] 0)
  else None.

(** [ORDER BY g.expires_at DESC LIMIT 1] over the live grants of the MAC whose
    plan exists. *)
Definition latest (a b : Z * GrantRow) : bool := g_expires_at b.2 <=? g_expires_at a.2.

Definition usable_grant (now : Z) (mac : string) (nasID : Z) (d : DB) (g : GrantRow) : bool :=
  String.eqb (mac_address g) mac && live_grant now g && on_nas (g_nas g) nasID &&
  bool_decide (is_Some (plans d !! g_plan g)).

Definition grant_subscriber (d : DB) (id : Z) (g : GrantRow) : option Identity.Subscriber :=
  p ← plans d !! g_plan g;
  let s := g_subscriber g ≫= (fun sid => subscribers d !! sid) in
  Some (match s, g_subscriber g with
        | Some s, Some sid =>
            Identity.MkSubscriber sid (s_username s) (s_password_hash s) (s_status s)
              (p_rate_limit p) (s_fup_active s) (default EmptyString (p_fup_throttle p)) EmptyString
              None (g_plan g) [] 0
        | _, _ =>
            Identity.MkSubscriber 0 ("voucher:" +:+ format_int id) EmptyString "active"
              (p_rate_limit p) false (default EmptyString (p_fup_throttle p)) EmptyString
              None (g_plan g) [] 0
        end).

Definition grant_match (now : Z) (mac : string) (nasID : Z) (d : DB) : option Identity.Subscriber :=
  '(id, g) ← min_by latest (List.filter (fun p => usable_grant now mac nasID d p.2) (map_to_list (grants d)));
  grant_subscriber d id g.

Definition touch (now : Z) (h : DeviceRow) : DeviceRow :=
  MkDevice (d_id h) (d_subscriber h) (d_label h) (d_nas h) (d_active h)
    (Some (default now (first_seen_at h))) (Some now).

(** [AuthorizeMAC]: the two SELECTs in order; the second statement's failure
    ([seen_up] false) is ignored. *)
Definition AuthorizeMAC (now : Z) (up seen_up : bool) (mac : string) (nasID : Z) (d : DB) :
    result unit (option Identity.Subscriber) * DB :=
  if negb up then (Err tt, d)
  else
    match (match device_match mac nasID d with Some s => Some s | None => grant_match now mac nasID d end) with
    | None => (Ok None, d)
    | Some sub => (Ok (Some sub), if seen_up then with_devices (alter (touch now) mac) d else d)
    end.

Definition RegisterDevice (up : bool) (mac : string) (subscriberID : Z) (label : string)
    (nasID : option Z) (d : DB) : option Z * DB :=
  if up && bool_decide (is_Some (subscribers d !! subscriberID)) then
    let label := if String.eqb label EmptyString then None else Some label in
    match devices d !! mac with
    | Some h =>
        (Some (d_id h), with_devices (<[mac := MkDevice (d_id h) subscriberID label nasID true
           (first_seen_at h) (d_last_seen_at h)]>) (bump d))
    | None =>
        (Some (next_id d), with_devices (<[mac := MkDevice (next_id d) subscriberID label nasID true
           None None]>) (bump d))
    end
  else (None, d).

Definition deactivated (h : DeviceRow) : DeviceRow :=
  MkDevice (d_id h) (d_subscriber h) (d_label h) (d_nas h) false (first_seen_at h) (d_last_seen_at h).

Definition DeactivateDevice (up : bool) (mac : string) (d : DB) : result unit bool * DB :=
  if negb up then (Err tt, d)
  else match devices d !! mac with
       | Some h => if d_active h then (Ok true, with_devices (alter deactivated mac) d) else (Ok false, d)
       | None => (Ok false, d)
       end.

(** ** Vouchers *)

Record NewVoucher : Type := MkNew {
  CodeHash : string; CodePrefix : string; PlanID : Z; FranchiseID : option Z;
  DurationMinutes : Z; DataCapBytes : Z; ExpiresAt : option Z; SaleAmount : Z
}.

Definition hash_taken (h : string) (d : DB) : bool :=
  existsb (fun p => String.eqb (code_hash p.2) h) (map_to_list (vouchers d)).

(** The insert and the constraints it is checked against. *)
Definition CreateVoucher (up : bool) (v : NewVoucher) (d : DB) : option Z * DB :=
  if up && negb (hash_taken (CodeHash v) d) && bool_decide (is_Some (plans d !! PlanID v)) &&
     match FranchiseID v with None => true | Some f => bool_decide (is_Some (franchises d !! f)) end &&
     (0 <? DurationMinutes v) && (0 <=? DataCapBytes v) && (0 <=? SaleAmount v)
  then (Some (next_id d), with_vouchers (<[next_id d := MkVoucher (CodeHash v) (CodePrefix v) (PlanID v)
          (FranchiseID v) (DurationMinutes v) (DataCapBytes v) "unused" None None (ExpiresAt v) None
          (SaleAmount v)]>) (bump d))
  else (None, d).

Definition voided (v : VoucherRow) : VoucherRow :=
  MkVoucher (code_hash v) (code_prefix v) (v_plan v) (franchise_id v) (duration_minutes v)
    (data_cap_bytes v) "void" (redeemed_by_mac v) (redeemed_at v) (v_expires_at v) (valid_until v)
    (sale_amount v).

Definition VoidVoucher (up : bool) (id : Z) (d : DB) : result unit bool * DB :=
  if negb up then (Err tt, d)
  else match vouchers d !! id with
       | Some v => if String.eqb (v_status v) "unused" then (Ok true, with_vouchers (alter voided id) d)
                   else (Ok false, d)
       | None => (Ok false, d)
       end.

Definition claimable (now : Z) (h : string) (v : VoucherRow) : bool :=
  String.eqb (code_hash v) h && String.eqb (v_status v) "unused" &&
  match v_expires_at v with None => true | Some e => now <? e end.

Definition claimed (now : Z) (mac : string) (v : VoucherRow) : VoucherRow :=
  MkVoucher (code_hash v) (code_prefix v) (v_plan v) (franchise_id v) (duration_minutes v)
    (data_cap_bytes v) "used" (Some mac) (Some now) (v_expires_at v)
    (Some (now + duration_minutes v * minute)) (sale_amount v).

(** [ROUND(sale_amount * commission_rate_pct / 100, 2)], in hundredths. *)
Definition commission_amount (sale rate : Z) : Z := half_away (sale * rate) 10000.

Definition commission_for (d : DB) (v : VoucherRow) : option CommissionRow :=
  f ← franchise_id v;
  rate ← franchises d !! f;
  if 0 <? sale_amount v
  then Some (MkCommission f (sale_amount v) rate (commission_amount (sale_amount v) rate)) else None.

(** One statement: claim, commission, grant. [code_hash] is unique, so the
    claim touches at most one row; a voucher that already has a commission
    row makes the whole statement fail. *)
Definition RedeemVoucher (now : Z) (up : bool) (codeHash mac : string) (nasID : option Z) (d : DB) :
    result unit Z * DB :=
  if negb up then (Err tt, d)
  else
    match List.find (fun p => claimable now codeHash p.2) (map_to_list (vouchers d)) with
    | None => (Ok 0, d)
    | Some (vid, v) =>
        let v' := claimed now mac v in
        let grant := MkGrant mac None (Some vid) nasID (v_plan v) (default 0 (valid_until v')) None 0
                       None None None None in
        let d1 := with_grants (<[next_id d := grant]>) (with_vouchers (<[vid := v']>) (bump d)) in
        match commission_for d v with
        | None => (Ok (next_id d), d1)
        | Some c =>
            if bool_decide (is_Some (commissions d !! vid)) then (Err tt, d)
            else (Ok (next_id d), with_commissions (<[vid := c]>) d1)
        end
    end.

Definition grantable_status (s : string) : bool :=
  negb (String.eqb s "hard_suspended") && negb (String.eqb s "terminated").

Definition GrantForSubscriber (now : Z) (up : bool) (mac : string) (subscriberID : Z)
    (nasID : option Z) (minutes : Z) (d : DB) : result unit Z * DB :=
  if negb up then (Err tt, d)
  else match subscribers d !! subscriberID with
       | None => (Ok 0, d)
       | Some s =>
           if grantable_status (s_status s) then
             (Ok (next_id d), with_grants (<[next_id d := MkGrant mac (Some subscriberID) None nasID
                (s_plan s) (now + minutes * minute) None 0 None None None None]>) (bump d))
           else (Ok 0, d)
       end.

(** ** Metering and revocation *)

Section Inet.
(** [inet] input, as for the session history. *)
Variable inet : string -> option string.

Definition metered (now used : Z) (session : string) (nas : option string) (g : GrantRow) : GrantRow :=
  MkGrant (mac_address g) (g_subscriber g) (g_voucher g) (g_nas g) (g_plan g) (g_expires_at g)
    (revoked_at g) used
    (if String.eqb session EmptyString then g_session_id g else Some session)
    (match nas with None => g_nas_ip g | Some ip => Some ip end)
    (Some now) (exhausted_at g).

(** [bytes_used >= 0] is a CHECK: a negative total fails when a row matches. *)
Definition RecordGrantUsage (now : Z) (up : bool) (mac sessionID nasIP : string) (bytesUsed : Z)
    (d : DB) : result unit bool * DB :=
  let nas := if String.eqb nasIP EmptyString then Some None
             else match inet nasIP with Some ip => Some (Some ip) | None => None end in
  match up, nas with
  | true, Some nas =>
      let hit g := String.eqb (mac_address g) mac && live_grant now g in
      let matched := existsb (fun p => hit p.2) (map_to_list (grants d)) in
      if matched && (bytesUsed <? 0) then (Err tt, d)
      else (Ok matched, with_grants (fmap (fun g => if hit g then metered now bytesUsed sessionID nas g else g)) d)
  | _, _ => (Err tt, d)
  end.
End Inet.

Record OverCapGrant : Type := MkOver {
  o_GrantID : Z; o_MAC : string; o_VoucherID : Z; o_SessionID : string; o_NASIP : string;
  o_BytesUsed : Z; o_CapBytes : Z
}.

(** The grant's voucher, when the grant is live and at its cap. *)
Definition over_cap (now : Z) (d : DB) (id : Z) (g : GrantRow) : option OverCapGrant :=
  vid ← g_voucher g;
  v ← vouchers d !! vid;
  if live_grant now g && (0 <? data_cap_bytes v) && (data_cap_bytes v <=? bytes_used g)
  then Some (MkOver id (mac_address g) vid (default EmptyString (g_session_id g))
               (default EmptyString (g_nas_ip g)) (bytes_used g) (data_cap_bytes v))
  else None.

Definition more_used (a b : OverCapGrant) : Prop := o_BytesUsed b <= o_BytesUsed a.
#[global] Instance more_used_dec : RelDecision more_used.
Proof. intros a b. unfold more_used. apply _. Defined.

Definition ListGrantsOverCap (now : Z) (up : bool) (limit : Z) (d : DB) : result unit (list OverCapGrant) :=
  let limit := if (limit <=? 0) || (500 <? limit) then 100 else limit in
  if negb up then Err tt
  else Ok (take (Z.to_nat limit)
         (merge_sort more_used (omap (fun p => over_cap now d p.1 p.2) (map_to_list (grants d))))).

Definition ended (now : Z) (exhausted : bool) (g : GrantRow) : GrantRow :=
  MkGrant (mac_address g) (g_subscriber g) (g_voucher g) (g_nas g) (g_plan g) (g_expires_at g)
    (Some now) (bytes_used g) (g_session_id g) (g_nas_ip g) (last_seen_at g)
    (if exhausted then Some now else exhausted_at g).

Definition end_grant (now : Z) (exhausted up : bool) (id : Z) (d : DB) : result unit bool * DB :=
  if negb up then (Err tt, d)
  else match grants d !! id with
       | Some g => if bool_decide (revoked_at g = None)
                   then (Ok true, with_grants (<[id := ended now exhausted g]>) d) else (Ok false, d)
       | None => (Ok false, d)
       end.

Definition MarkGrantExhausted (now : Z) : bool -> Z -> DB -> result unit bool * DB := end_grant now true.
Definition RevokeGrant (now : Z) : bool -> Z -> DB -> result unit bool * DB := end_grant now false.

(** [GetVoucherCommissionSummary]: count, sales and commission. *)
Definition GetVoucherCommissionSummary (up : bool) (franchise : Z) (d : DB) : result unit (Z * Z * Z) :=
  if negb up then Err tt
  else
    let l := List.filter (fun c => cm_franchise c =? franchise) (map snd (map_to_list (commissions d))) in
    Ok (Z.of_nat (length l), foldr (fun c a => cm_sale c + a) 0 l, foldr (fun c a => cm_amount c + a) 0 l).

(** ** Vouchers are single use *)

(** Every statement that writes. *)
Inductive write (inet : string -> option string) : DB -> DB -> Prop :=
| w_authorize now up seen mac nas d : write inet d (AuthorizeMAC now up seen mac nas d).2
| w_register up mac sub label nas d : write inet d (RegisterDevice up mac sub label nas d).2
| w_deactivate up mac d : write inet d (DeactivateDevice up mac d).2
| w_create up v d : write inet d (CreateVoucher up v d).2
| w_void up id d : write inet d (VoidVoucher up id d).2
| w_redeem now up h mac nas d : write inet d (RedeemVoucher now up h mac nas d).2
| w_grant now up mac sub nas minutes d : write inet d (GrantForSubscriber now up mac sub nas minutes d).2
| w_usage now up mac sid nas used d : write inet d (RecordGrantUsage inet now up mac sid nas used d).2
| w_end now exhausted up id d : write inet d (end_grant now exhausted up id d).2
(** partner management changes the commission rates *)
| w_rates rates d : write inet d (with_franchises rates d).

(** What a statement may do to a grant: everything that says whose it is
    stays. *)
Definition same_source (g g' : GrantRow) : Prop :=
  mac_address g' = mac_address g /\ g_subscriber g' = g_subscriber g /\ g_voucher g' = g_voucher g /\
  g_expires_at g' = g_expires_at g.

Record voucher_inv (d : DB) : Prop := {
  vi_next : 0 < next_id d;
  vi_vouchers id v : vouchers d !! id = Some v -> id < next_id d;
  vi_grants id g : grants d !! id = Some g -> id < next_id d;
  vi_hash id id' v v' : vouchers d !! id = Some v -> vouchers d !! id' = Some v' ->
    code_hash v = code_hash v' -> id = id';
  vi_source id g vid : grants d !! id = Some g -> g_voucher g = Some vid ->
    g_subscriber g = None /\
    exists v, vouchers d !! vid = Some v /\ v_status v = "used"%string /\
      redeemed_by_mac v = Some (mac_address g) /\ valid_until v = Some (g_expires_at g);
  vi_once id id' g g' vid : grants d !! id = Some g -> grants d !! id' = Some g' ->
    g_voucher g = Some vid -> g_voucher g' = Some vid -> id = id';
  vi_commission vid c : commissions d !! vid = Some c ->
    exists v, vouchers d !! vid = Some v /\ v_status v = "used"%string /\
      franchise_id v = Some (cm_franchise c) /\ cm_sale c = sale_amount v /\
      cm_amount c = commission_amount (cm_sale c) (cm_rate c)
}.

(** A statement that keeps the vouchers and the commissions, and the source
    of every grant, keeps the invariant. *)
Lemma voucher_inv_frame d d' :
  next_id d <= next_id d' -> vouchers d' = vouchers d -> commissions d' = commissions d ->
  (forall id g', grants d' !! id = Some g' ->
     (exists g, grants d !! id = Some g /\ same_source g g') \/
     (id = next_id d /\ next_id d < next_id d' /\ g_voucher g' = None)) ->
  voucher_inv d -> voucher_inv d'.
Proof.
  intros Hn Hv Hc Hg [H0 H1 H2 H3 H4 H5 H6]. constructor; rewrite ?Hv, ?Hc; try done.
  - lia.
  - intros id v Hid. pose proof (H1 id v Hid). lia.
  - intros id g' [(g & Hid & _) | (-> & Hlt & _)]%Hg; [| lia]. pose proof (H2 id g Hid). lia.
  - intros id g' vid [(g & Hid & Hm & Hs & Hvo & He) | (_ & _ & Hnone)]%Hg Hvid; [| congruence].
    rewrite Hm, Hs, He. apply (H4 id); congruence.
  - intros id id' g g' vid [(g0 & Hid & _ & _ & Hvo & _) | (_ & _ & Hnone)]%Hg
      [(g0' & Hid' & _ & _ & Hvo' & _) | (_ & _ & Hnone')]%Hg E E'; try congruence.
    apply (H5 id id' g0 g0' vid); congruence.
Qed.

Lemma same_source_refl g : same_source g g.
Proof. done. Qed.

(** The terms a voucher is sold with. *)
Definition terms (v : VoucherRow) : NewVoucher :=
  MkNew (code_hash v) (code_prefix v) (v_plan v) (franchise_id v) (duration_minutes v) (data_cap_bytes v)
    (v_expires_at v) (sale_amount v).

(** How a statement may change a voucher. *)
Definition voucher_kept (d d' : DB) : Prop :=
  forall id v, vouchers d !! id = Some v ->
    exists v', vouchers d' !! id = Some v' /\ terms v' = terms v /\
      (v_status v <> "unused"%string -> v' = v).

Lemma voucher_kept_same d d' : vouchers d' = vouchers d -> voucher_kept d d'.
Proof. intros Hv id v Hid. exists v. by rewrite Hv. Qed.

Lemma claimable_spec now h v :
  claimable now h v = true -> code_hash v = h /\ v_status v = "unused"%string.
Proof. unfold claimable. intros [[H1 H2]%andb_true_iff _]%andb_true_iff. by split; apply String.eqb_eq. Qed.

Lemma find_claimable now h d vid v :
  List.find (fun p => claimable now h p.2) (map_to_list (vouchers d)) = Some (vid, v) ->
  vouchers d !! vid = Some v /\ claimable now h v = true.
Proof.
  intros [Hin Hc]%find_some. split; [| done]. apply elem_of_map_to_list. by apply list_elem_of_In.
Qed.

Lemma hash_free h d id v : hash_taken h d = false -> vouchers d !! id = Some v -> code_hash v <> h.
Proof.
  unfold hash_taken. intros Hh Hid <-. apply not_true_iff_false in Hh. apply Hh, existsb_exists.
  exists (id, v). rewrite String.eqb_refl. split; [| done]. apply list_elem_of_In.
  by apply elem_of_map_to_list.
Qed.

Lemma create_inv up v d :
  voucher_inv d ->
  voucher_inv (CreateVoucher up v d).2 /\ voucher_kept d (CreateVoucher up v d).2.
Proof.
  intros Hi. unfold CreateVoucher. destruct (_ && _) eqn:Hg; simpl; [| split; [done | by apply voucher_kept_same]].
  assert (hash_taken (CodeHash v) d = false) as Hfree.
  { destruct (hash_taken (CodeHash v) d); [| done]. destruct up; simpl in Hg; discriminate. }
  destruct Hi as [H0 H1 H2 H3 H4 H5 H6].
  assert (forall id, is_Some (vouchers d !! id) -> id <> next_id d) as Hne.
  { intros id [w Hw] ->. apply H1 in Hw. lia. }
  split.
  - constructor; simpl; try done.
    + lia.
    + intros id w [[<- <-] | [_ Hw]]%lookup_insert_Some; [lia |]. pose proof (H1 id w Hw). lia.
    + intros id g Hid. pose proof (H2 id g Hid). lia.
    + intros id id' w w' [[<- <-] | [Hd Hw]]%lookup_insert_Some [[<- <-] | [Hd' Hw']]%lookup_insert_Some Hh;
        simpl in *; [done | | | by apply (H3 id id' w w')].
      * exfalso. by apply (hash_free _ _ _ _ Hfree Hw').
      * exfalso. by apply (hash_free _ _ _ _ Hfree Hw).
    + intros id g vid Hid Hvid. destruct (H4 id g vid Hid Hvid) as [Hs (w & Hw & Hr)].
      split; [done |]. exists w. rewrite lookup_insert_ne; [done |]. intros Heq. by apply (Hne vid).
    + intros vid c Hc. destruct (H6 vid c Hc) as (w & Hw & Hr). exists w.
      rewrite lookup_insert_ne; [done |]. intros Heq. by apply (Hne vid).
  - intros id w Hw. exists w. simpl. rewrite lookup_insert_ne; [done |]. intros Heq.
    by apply (Hne id).
Qed.

Lemma void_inv up id d :
  voucher_inv d -> voucher_inv (VoidVoucher up id d).2 /\ voucher_kept d (VoidVoucher up id d).2.
Proof.
  intros Hi. unfold VoidVoucher. destruct up; simpl; [| split; [done | by apply voucher_kept_same]].
  destruct (vouchers d !! id) as [v|] eqn:Hv; simpl; [| split; [done | by apply voucher_kept_same]].
  destruct (String.eqb (v_status v) "unused") eqn:Hs; simpl;
    [| split; [done | by apply voucher_kept_same]].
  apply String.eqb_eq in Hs. destruct Hi as [H0 H1 H2 H3 H4 H5 H6].
  assert (forall id' w, alter voided id (vouchers d) !! id' = Some w ->
    exists w0, vouchers d !! id' = Some w0 /\ code_hash w0 = code_hash w) as Hback.
  { intros id' w [(-> & w0 & Hw0 & ->) | [_ Hw]]%lookup_alter_Some; eauto. }
  assert (forall vid w, vouchers d !! vid = Some w -> v_status w = "used"%string ->
    alter voided id (vouchers d) !! vid = Some w) as Hused.
  { intros vid w Hw Hu. rewrite lookup_alter_ne; [done |]. intros ->. congruence. }
  split.
  - constructor; simpl; try done.
    + intros id' w (w0 & Hw0 & _)%Hback. eauto.
    + intros i j w w' (w0 & Hw0 & Hh)%Hback (w1 & Hw1 & Hh')%Hback E. apply (H3 i j w0 w1); congruence.
    + intros gid g vid Hid Hvid. destruct (H4 gid g vid Hid Hvid) as [Hsub (w & Hw & Hu & Hr)].
      split; [done |]. exists w. split; [by apply Hused | done].
    + intros vid c Hc. destruct (H6 vid c Hc) as (w & Hw & Hu & Hr). exists w.
      split; [by apply Hused | done].
  - intros i w Hw. simpl. destruct (decide (i = id)) as [-> | Hne].
    + rewrite lookup_alter_eq, Hw. simpl. eexists. split; [done |]. split; [done |]. congruence.
    + rewrite lookup_alter_ne by done. by exists w.
Qed.

Lemma redeem_inv now up h mac nas d :
  voucher_inv d ->
  voucher_inv (RedeemVoucher now up h mac nas d).2 /\
  voucher_kept d (RedeemVoucher now up h mac nas d).2.
Proof.
  intros Hi. unfold RedeemVoucher. destruct up; simpl; [| split; [done | by apply voucher_kept_same]].
  destruct (List.find _ _) as [[vid v]|] eqn:Hf; [| split; [done | by apply voucher_kept_same]].
  apply find_claimable in Hf as [Hv Hc]. apply claimable_spec in Hc as [Hh Hs].
  set (g := MkGrant _ _ _ _ _ _ _ _ _ _ _ _).
  set (d1 := with_grants _ _).
  assert (voucher_kept d d1) as Hk.
  { intros i w Hw. simpl. destruct (decide (i = vid)) as [-> | Hne].
    - rewrite lookup_insert_eq. eexists. split; [done |]. simplify_eq. split; [done |]. congruence.
    - rewrite lookup_insert_ne by done. by exists w. }
  assert (forall gid g', grants d !! gid = Some g' -> g_voucher g' <> Some vid) as Hfree.
  { intros gid g' Hg' Hvid. destruct (vi_source d Hi gid g' vid Hg' Hvid) as [_ (w & Hw & Hu & _)].
    congruence. }
  assert (commissions d !! vid = None) as Hnc.
  { destruct (commissions d !! vid) as [c|] eqn:Hcm; [| done].
    destruct (vi_commission d Hi vid c Hcm) as (w & Hw & Hu & _). congruence. }
  destruct Hi as [H0 H1 H2 H3 H4 H5 H6].
  assert (forall i w, <[vid:=claimed now mac v]> (vouchers d) !! i = Some w ->
    exists w0, vouchers d !! i = Some w0 /\ code_hash w0 = code_hash w) as Hback.
  { intros i w [[<- <-] | [_ Hw]]%lookup_insert_Some; eauto. }
  assert (forall i w, vouchers d !! i = Some w -> v_status w = "used"%string ->
    <[vid:=claimed now mac v]> (vouchers d) !! i = Some w) as Hused.
  { intros i w Hw Hu. rewrite lookup_insert_ne; [done |]. intros ->. congruence. }
  assert (voucher_inv d1) as Hd1.
  { constructor; simpl.
    - lia.
    - intros i w (w0 & Hw0 & _)%Hback. pose proof (H1 i w0 Hw0). lia.
    - intros i g' [[<- <-] | [_ Hg']]%lookup_insert_Some; [lia |]. pose proof (H2 i g' Hg'). lia.
    - intros i j w w' (w0 & Hw0 & E)%Hback (w1 & Hw1 & E')%Hback E''. apply (H3 i j w0 w1); congruence.
    - intros i g' u [[<- <-] | [_ Hg']]%lookup_insert_Some Hu.
      + simpl in Hu. injection Hu as <-. split; [done |]. exists (claimed now mac v).
        by rewrite lookup_insert_eq.
      + destruct (H4 i g' u Hg' Hu) as [Hsub (w & Hw & Hus & Hr)]. split; [done |]. exists w.
        split; [by apply Hused | done].
    - intros i j g1 g2 u [[<- <-] | [_ Hg1]]%lookup_insert_Some [[<- <-] | [_ Hg2]]%lookup_insert_Some E1 E2;
        simpl in *; [done | | | by apply (H5 i j g1 g2 u)].
      + exfalso. apply (Hfree j g2 Hg2). congruence.
      + exfalso. apply (Hfree i g1 Hg1). congruence.
    - intros u c Hcm. destruct (H6 u c Hcm) as (w & Hw & Hus & Hr). exists w.
      split; [by apply Hused | done]. }
  destruct (commission_for d v) as [c|] eqn:Hcf; [| by split].
  rewrite bool_decide_false by (rewrite Hnc; by intros [? ?]). simpl.
  split; [| exact Hk]. destruct Hd1 as [G0 G1 G2 G3 G4 G5 G6]. constructor; try done.
  simpl. intros u c' [[<- <-] | [_ Hcm]]%lookup_insert_Some; [| by apply G6].
  exists (claimed now mac v). rewrite lookup_insert_eq. unfold commission_for in Hcf.
  destruct (franchise_id v) as [f|] eqn:Hfr; simpl in Hcf; [| done].
  destruct (franchises d !! f); simpl in Hcf; [| done].
  destruct (0 <? sale_amount v); [| done]. injection Hcf as <-. done.
Qed.

Lemma write_inv inet d d' :
  voucher_inv d -> write inet d d' -> voucher_inv d' /\ voucher_kept d d'.
Proof.
  intros Hi Hw.
  assert (forall d', next_id d <= next_id d' -> vouchers d' = vouchers d ->
    commissions d' = commissions d -> grants d' = grants d -> voucher_inv d' /\ voucher_kept d d') as Hsame.
  { intros e Hn Hv Hc Hg. split; [| by apply voucher_kept_same].
    apply (voucher_inv_frame d); try done. rewrite Hg. intros id g Hid. left. by exists g. }
  destruct Hw as [now up seen mac nas d | up mac sub label nas d | up mac d | up v d | up id d
    | now up h mac nas d | now up mac sub nas minutes d | now up mac sid nas used d | now ex up id d | rates d].
  - unfold AuthorizeMAC. repeat case_match; apply Hsame; done.
  - unfold RegisterDevice. repeat case_match; apply Hsame; simpl; done || lia.
  - unfold DeactivateDevice. repeat case_match; apply Hsame; done.
  - by apply create_inv.
  - by apply void_inv.
  - by apply redeem_inv.
  - unfold GrantForSubscriber. destruct up; simpl; [| by apply Hsame].
    destruct (subscribers d !! sub) as [s|]; [| by apply Hsame].
    destruct (grantable_status (s_status s)); [| by apply Hsame]. simpl.
    split; [| by apply voucher_kept_same]. apply (voucher_inv_frame d); simpl; try done; [lia |].
    intros id g [[<- <-] | [_ Hg]]%lookup_insert_Some; [right | left; by exists g].
    split; [done |]. split; [lia | done].
  - unfold RecordGrantUsage. destruct up; [| by apply Hsame].
    destruct (if String.eqb nas EmptyString then _ else _) as [n|]; [| by apply Hsame].
    destruct (_ && (used <? 0)); [by apply Hsame |]. simpl.
    split; [| by apply voucher_kept_same]. apply (voucher_inv_frame d); simpl; try done.
    intros id g. rewrite lookup_fmap. intros (g0 & Hg0 & ->)%fmap_Some. left. exists g0.
    split; [done |]. by case_match.
  - unfold end_grant. destruct up; simpl; [| by apply Hsame].
    destruct (grants d !! id) as [g|] eqn:Hg; [| by apply Hsame].
    destruct (bool_decide _); [| by apply Hsame]. simpl.
    split; [| by apply voucher_kept_same]. apply (voucher_inv_frame d); simpl; try done.
    intros i g' [[<- <-] | [_ Hg']]%lookup_insert_Some; left; eauto using same_source_refl.
    exists g. by split.
  - by apply Hsame.
Qed.

(** A voucher that is no longer unused gets no commission any more. *)
Lemma write_commission inet d d' vid v :
  vouchers d !! vid = Some v -> v_status v <> "unused"%string -> write inet d d' ->
  commissions d' !! vid = commissions d !! vid.
Proof.
  intros Hv Hu Hw. destruct Hw; try done; unfold AuthorizeMAC, RegisterDevice, DeactivateDevice, CreateVoucher,
    VoidVoucher, GrantForSubscriber, RecordGrantUsage, end_grant; try by repeat case_match.
  unfold RedeemVoucher. destruct (negb up); [done |].
  destruct (List.find _ _) as [[vid' v']|] eqn:Hf; [| done].
  apply find_claimable in Hf as [Hv' Hc]. apply claimable_spec in Hc as [_ Hs].
  destruct (commission_for d v'); [| done]. destruct (bool_decide _); [done |]. simpl.
  apply lookup_insert_ne. congruence.
Qed.

(** A database in which nothing has been issued. *)
Definition blank (d : DB) : Prop :=
  0 < next_id d /\ vouchers d = ∅ /\ grants d = ∅ /\ commissions d = ∅.

Lemma blank_inv d : blank d -> voucher_inv d.
Proof.
  intros (Hn & Hv & Hg & Hc).
  constructor; rewrite ?Hv, ?Hg, ?Hc; try done; intros *; by rewrite lookup_empty.
Qed.

Lemma star_inv inet d d' : voucher_inv d -> star (write inet) d d' -> voucher_inv d'.
Proof.
  intros Hi Hs. eapply star_invariant; [| exact Hs | exact Hi]. intros a b Ha Hab.
  by destruct (write_inv inet a b Ha Hab).
Qed.

(** A code whose voucher is no longer unused. *)
Definition spent (h : string) (d : DB) : Prop :=
  exists vid v, vouchers d !! vid = Some v /\ code_hash v = h /\ v_status v <> "unused"%string.

Lemma star_spent inet h d d' : voucher_inv d -> spent h d -> star (write inet) d d' -> spent h d'.
Proof.
  intros Hi Hsp Hs. assert (voucher_inv d' /\ spent h d') as [_ ?]; [| done].
  eapply (star_invariant _ (fun e => voucher_inv e /\ spent h e)); [| exact Hs | done].
  intros a b [Ha (vid & v & Hv & Hh & Hu)] Hab. destruct (write_inv inet a b Ha Hab) as [Hb Hk].
  split; [done |]. destruct (Hk vid v Hv) as (v' & Hv' & _ & Heq). rewrite Heq in Hv' by done.
  by exists vid, v.
Qed.

Lemma spent_refused now h mac nas d :
  voucher_inv d -> spent h d -> RedeemVoucher now true h mac nas d = (Ok 0, d).
Proof.
  intros Hi (vid & v & Hv & Hh & Hu). unfold RedeemVoucher. simpl.
  destruct (List.find _ _) as [[vid' v']|] eqn:Hf; [| done].
  apply find_claimable in Hf as [Hv' Hc]. apply claimable_spec in Hc as [Hh' Hs'].
  assert (vid = vid') as <- by (apply (vi_hash d Hi vid vid' v v'); congruence). congruence.
Qed.

Lemma redeemed_spent now up h mac nas d gid d' :
  RedeemVoucher now up h mac nas d = (Ok gid, d') -> gid <> 0 ->
  spent h d' /\ gid = next_id d /\
  exists vid v, vouchers d !! vid = Some v /\ v_status v = "unused"%string /\ code_hash v = h /\
    (match v_expires_at v with None => True | Some e => now < e end) /\
    grants d' !! gid = Some (MkGrant mac None (Some vid) nas (v_plan v)
      (now + duration_minutes v * minute) None 0 None None None None) /\
    vouchers d' !! vid = Some (claimed now mac v) /\
    (commissions d !! vid = None -> commissions d' !! vid = commission_for d v).
Proof.
  unfold RedeemVoucher. destruct up; simpl; [| done].
  destruct (List.find _ _) as [[vid v]|] eqn:Hf; [| intros [= <- _] []; done].
  apply find_claimable in Hf as [Hv Hc]. pose proof (claimable_spec _ _ _ Hc) as [Hh Hs].
  set (g := MkGrant _ _ _ _ _ _ _ _ _ _ _ _). set (d1 := with_grants _ _). intros Hr Hgid.
  assert (gid = next_id d /\ vouchers d' = vouchers d1 /\ grants d' = grants d1) as (-> & Hv1 & Hg1).
  { destruct (commission_for d v); [case_match; [done |] |]; by simplify_eq. }
  split; [| split; [done |]].
  - exists vid, (claimed now mac v). rewrite Hv1. simpl. by rewrite lookup_insert_eq.
  - exists vid, v. split_and!; try done.
    + unfold claimable in Hc. destruct (v_expires_at v); [| done].
      apply andb_true_iff in Hc as [_ Hc]. lia.
    + rewrite Hg1. simpl. by rewrite lookup_insert_eq.
    + rewrite Hv1. simpl. by rewrite lookup_insert_eq.
    + intros Hn. destruct (commission_for d v) as [c |]; [| by simplify_eq].
      case_match; [done |]. simplify_eq. simpl. apply lookup_insert_eq.
Qed.

Lemma star_terms inet d d' vid v :
  voucher_inv d -> vouchers d !! vid = Some v -> star (write inet) d d' ->
  exists v', vouchers d' !! vid = Some v' /\ terms v' = terms v /\ (v_status v <> "unused"%string -> v' = v).
Proof.
  intros Hi Hv Hs. assert (voucher_inv d' /\ exists v', vouchers d' !! vid = Some v' /\ terms v' = terms v /\
    (v_status v <> "unused"%string -> v' = v)) as [_ ?]; [| done].
  eapply (star_invariant _ (fun e => voucher_inv e /\ exists v', vouchers e !! vid = Some v' /\ terms v' = terms v /\
    (v_status v <> "unused"%string -> v' = v))); [| exact Hs | by eauto].
  intros a b [Ha (v1 & Hv1 & Ht1 & Hk1)] Hab. destruct (write_inv inet a b Ha Hab) as [Hb Hk].
  split; [done |]. destruct (Hk vid v1 Hv1) as (v2 & Hv2 & Ht2 & Hk2). exists v2.
  split; [done |]. split; [congruence |]. intros Hu. specialize (Hk1 Hu) as ->. auto.
Qed.

Lemma star_commission inet d d' vid v :
  voucher_inv d -> vouchers d !! vid = Some v -> v_status v <> "unused"%string -> star (write inet) d d' ->
  commissions d' !! vid = commissions d !! vid.
Proof.
  intros Hi Hv Hu Hs. induction Hs as [d | d d1 d2 Hw Hs IH]; [done |].
  destruct (write_inv inet d d1 Hi Hw) as [Hi1 Hk]. destruct (Hk vid v Hv) as (v1 & Hv1 & _ & Heq).
  rewrite Heq in Hv1 by done. rewrite IH by done. by eapply write_commission.
Qed.

(** The commission a sale of [nv] is due under the franchises' rates. *)
Definition commission_due (rates : gmap Z Z) (nv : NewVoucher) : option CommissionRow :=
  f ← FranchiseID nv;
  rate ← rates !! f;
  if 0 <? SaleAmount nv
  then Some (MkCommission f (SaleAmount nv) rate (commission_amount (SaleAmount nv) rate)) else None.

Lemma created_voucher up nv d vid d' :
  CreateVoucher up nv d = (Some vid, d') ->
  exists v, vouchers d' !! vid = Some v /\ terms v = nv.
Proof.
  unfold CreateVoucher. destruct (_ && _); [| done]. intros [= <- <-]. eexists. split; [apply lookup_insert_eq |].
  by destruct nv.
Qed.

(** A sold code, redeemed: its own voucher, on the terms of the sale. *)
Lemma sold_redeemed inet up nv d vid d1 d2 now up' mac nas gid d3 :
  voucher_inv d -> CreateVoucher up nv d = (Some vid, d1) -> star (write inet) d1 d2 ->
  RedeemVoucher now up' (CodeHash nv) mac nas d2 = (Ok gid, d3) -> gid <> 0 ->
  (match ExpiresAt nv with None => True | Some e => now < e end) /\
  grants d3 !! gid = Some (MkGrant mac None (Some vid) nas (PlanID nv) (now + DurationMinutes nv * minute)
    None 0 None None None None) /\
  commissions d3 !! vid = commission_due (franchises d2) nv /\
  forall d4, star (write inet) d3 d4 -> commissions d4 !! vid = commissions d3 !! vid.
Proof.
  intros Hi Hc Hs Hr Hgid.
  assert (voucher_inv d1) as Hi1 by (destruct (create_inv up nv d Hi) as [H1 _]; by rewrite Hc in H1).
  pose proof (star_inv inet d1 d2 Hi1 Hs) as Hi2.
  assert (voucher_inv d3) as Hi3 by (destruct (redeem_inv now up' (CodeHash nv) mac nas d2 Hi2) as [H1 _]; by rewrite Hr in H1).
  destruct (created_voucher _ _ _ _ _ Hc) as (v0 & Hv0 & Ht0).
  destruct (star_terms inet d1 d2 vid v0 Hi1 Hv0 Hs) as (v & Hv & Ht & _). rewrite Ht0 in Ht.
  destruct (redeemed_spent _ _ _ _ _ _ _ _ Hr Hgid) as (_ & _ & vid' & v' & Hv' & Hu & Hh & Hx & Hg & Hcl & Hcm).
  assert (vid' = vid) as -> by (apply (vi_hash d2 Hi2 vid' vid v' v Hv' Hv); by rewrite Hh, <- Ht).
  assert (v' = v) as -> by congruence. rewrite <- Ht. split; [exact Hx |]. split; [exact Hg |]. split.
  - rewrite Hcm; [done |]. destruct (commissions d2 !! vid) as [c |] eqn:Hc2; [| done].
    destruct (vi_commission d2 Hi2 vid c Hc2) as (w & Hw & Hw' & _). congruence.
  - intros d4 Hs4. eapply star_commission; [exact Hi3 | exact Hcl | done | exact Hs4].
Qed.

(** C9: a voucher is single use. Whatever statements interleave, changes of
    the commission rates included: a sold code, redeemed at any later time,
    opens a grant for the MAC that asked, on the plan and for the minutes of
    the sale and not past the sale's expiry, and books the commission the sale
    is due at the rate its franchise has at that moment, which stays; a
    redemption opens a grant only for a voucher that was unused and not stale,
    and every later attempt with the same code, from any device and at any
    time, is refused and changes nothing; no voucher ever stands behind two
    grants; and a commission exists only for a redeemed voucher of that
    franchise, for the voucher's price. *)
Theorem voucher_single_use inet d0 d :
  blank d0 -> star (write inet) d0 d ->
  (forall up nv vid d1 d2 now up' mac nas gid d3,
     CreateVoucher up nv d = (Some vid, d1) -> star (write inet) d1 d2 ->
     RedeemVoucher now up' (CodeHash nv) mac nas d2 = (Ok gid, d3) -> gid <> 0 ->
     (match ExpiresAt nv with None => True | Some e => now < e end) /\
     grants d3 !! gid = Some (MkGrant mac None (Some vid) nas (PlanID nv) (now + DurationMinutes nv * minute)
       None 0 None None None None) /\
     commissions d3 !! vid = commission_due (franchises d2) nv /\
     forall d4, star (write inet) d3 d4 -> commissions d4 !! vid = commissions d3 !! vid) /\
  (forall now up h mac nas gid d1,
     RedeemVoucher now up h mac nas d = (Ok gid, d1) -> gid <> 0 ->
     (exists vid v, vouchers d !! vid = Some v /\ v_status v = "unused"%string /\ code_hash v = h /\
        (match v_expires_at v with None => True | Some e => now < e end) /\
        grants d1 !! gid = Some (MkGrant mac None (Some vid) nas (v_plan v)
          (now + duration_minutes v * minute) None 0 None None None None)) /\
     forall d2 now' mac' nas', star (write inet) d1 d2 ->
       RedeemVoucher now' true h mac' nas' d2 = (Ok 0, d2)) /\
  (forall id id' g g' vid, grants d !! id = Some g -> grants d !! id' = Some g' ->
     g_voucher g = Some vid -> g_voucher g' = Some vid -> id = id') /\
  (forall vid c, commissions d !! vid = Some c ->
     exists v, vouchers d !! vid = Some v /\ v_status v = "used"%string /\
       franchise_id v = Some (cm_franchise c) /\ cm_sale c = sale_amount v /\
       cm_amount c = commission_amount (cm_sale c) (cm_rate c)).
Proof.
  intros Hb Hs. pose proof (star_inv inet d0 d (blank_inv d0 Hb) Hs) as Hi.
  split; [intros *; by apply sold_redeemed |]. split; [| split; [apply (vi_once d Hi) | apply (vi_commission d Hi)]].
  intros now up h mac nas gid d1 Hr Hgid.
  destruct (redeemed_spent _ _ _ _ _ _ _ _ Hr Hgid) as (Hsp & _ & vid & v & Hv & Hu & Hh & Hx & Hg & _).
  split; [by exists vid, v |].
  assert (voucher_inv d1) as Hi1.
  { destruct (redeem_inv now up h mac nas d Hi) as [H1 _]. by rewrite Hr in H1. }
  intros d2 now' mac' nas' Hs2.
  apply spent_refused; [by apply (star_inv inet d1) | by apply (star_spent inet h d1)].
Qed.

(** ** What is metered *)

Lemma usage_bytes inet now mac sid nas used d d' id g :
  RecordGrantUsage inet now true mac sid nas used d = (Ok true, d') ->
  grants d !! id = Some g -> mac_address g = mac -> live_grant now g = true ->
  exists g', grants d' !! id = Some g' /\ bytes_used g' = used /\ same_source g g' /\
    revoked_at g' = revoked_at g.
Proof.
  unfold RecordGrantUsage. intros Hr Hg Hm Hl.
  destruct (if String.eqb nas EmptyString then _ else _) as [n|]; [| done].
  destruct (_ && (used <? 0)); [done |]. simplify_eq. simpl. rewrite lookup_fmap, Hg. simpl.
  rewrite String.eqb_refl, Hl. simpl. eexists. split; [done |]. done.
Qed.

Lemma usage_vouchers inet now up mac sid nas used d :
  vouchers (RecordGrantUsage inet now up mac sid nas used d).2 = vouchers d.
Proof. unfold RecordGrantUsage. by repeat case_match. Qed.

(** The data cap is measured per session, not per voucher. Accounting
    assigns each report to the grant, so when a voucher's user reconnects the
    new session's total replaces the old one: with both sessions below the
    cap the grant is never listed as over it, however much was used in
    total. *)
Theorem cap_is_per_session inet t1 t2 now mac s1 s2 nas u1 u2 d d1 d2 id g vid v :
  grants d !! id = Some g -> mac_address g = mac -> g_voucher g = Some vid ->
  vouchers d !! vid = Some v -> revoked_at g = None -> t1 <= t2 < g_expires_at g ->
  RecordGrantUsage inet t1 true mac s1 nas u1 d = (Ok true, d1) ->
  RecordGrantUsage inet t2 true mac s2 nas u2 d1 = (Ok true, d2) ->
  u1 < data_cap_bytes v -> u2 < data_cap_bytes v ->
  (exists g2, grants d2 !! id = Some g2 /\ bytes_used g2 = u2) /\
  (forall x, grants d1 !! id = Some x -> over_cap now d1 id x = None) /\
  (forall x, grants d2 !! id = Some x -> over_cap now d2 id x = None).
Proof.
  intros Hg Hm Hvo Hv Hrev Ht H1 H2 Hu1 Hu2.
  assert (live_grant t1 g = true) as Hl1
    by (unfold live_grant; rewrite bool_decide_true by done; simpl; lia).
  destruct (usage_bytes _ _ _ _ _ _ _ _ _ _ H1 Hg Hm Hl1) as (g1 & Hg1 & Hb1 & Hs1 & Hr1).
  destruct Hs1 as (Hm1 & _ & Hv1 & He1).
  assert (live_grant t2 g1 = true) as Hl2
    by (unfold live_grant; rewrite bool_decide_true by congruence; simpl; rewrite He1; lia).
  destruct (usage_bytes _ _ _ _ _ _ _ _ _ _ H2 Hg1 ltac:(congruence) Hl2) as (g2 & Hg2 & Hb2 & Hs2 & _).
  destruct Hs2 as (_ & _ & Hv2 & _).
  pose proof (usage_vouchers inet t1 true mac s1 nas u1 d) as Hk1. rewrite H1 in Hk1. simpl in Hk1.
  pose proof (usage_vouchers inet t2 true mac s2 nas u2 d1) as Hk2. rewrite H2 in Hk2. simpl in Hk2.
  split; [by exists g2 |]. unfold over_cap. split; intros x Hx.
  - assert (x = g1) as -> by congruence. rewrite Hv1, Hvo. simpl. rewrite Hk1, Hv. simpl.
    replace (data_cap_bytes v <=? bytes_used g1) with false by lia. by rewrite andb_false_r.
  - assert (x = g2) as -> by congruence. rewrite Hv2, Hv1, Hvo. simpl. rewrite Hk2, Hk1, Hv. simpl.
    replace (data_cap_bytes v <=? bytes_used g2) with false by lia. by rewrite andb_false_r.
Qed.

(** ** Who is granted access *)

(** The statuses the schema allows (migrations 003 and 048). *)
Definition statuses : list string :=
  ["pending_payment"; "active"; "grace_period"; "soft_suspended"; "hard_suspended"; "terminated"]%string.

(** The captive portal's status gate is not the one RADIUS applies. A
    subscriber login opens a grant exactly when the account is neither
    hard-suspended nor terminated; of the statuses the schema allows, the one
    that is granted here and refused by every RADIUS path is
    [pending_payment]: an account that has never paid. *)
Theorem portal_gate_differs now mac sub nas minutes d s :
  0 < next_id d -> subscribers d !! sub = Some s -> s_status s ∈ statuses ->
  ((exists gid, (GrantForSubscriber now true mac sub nas minutes d).1 = Ok gid /\ gid <> 0) <->
     s_status s <> "hard_suspended"%string /\ s_status s <> "terminated"%string) /\
  ((exists gid, (GrantForSubscriber now true mac sub nas minutes d).1 = Ok gid /\ gid <> 0) /\
     Identity.AuthorisesService (s_status s) = false <-> s_status s = "pending_payment"%string).
Proof.
  intros Hn Hs Hin.
  assert ((exists gid, (GrantForSubscriber now true mac sub nas minutes d).1 = Ok gid /\ gid <> 0) <->
    s_status s <> "hard_suspended"%string /\ s_status s <> "terminated"%string) as Hiff.
  { unfold GrantForSubscriber. simpl. rewrite Hs. unfold grantable_status.
    destruct (String.eqb (s_status s) "hard_suspended") eqn:E1;
      [apply String.eqb_eq in E1 | apply String.eqb_neq in E1]; simpl.
    - split; [intros (? & [= <-] & ?); done | naive_solver].
    - destruct (String.eqb (s_status s) "terminated") eqn:E2;
        [apply String.eqb_eq in E2 | apply String.eqb_neq in E2]; simpl.
      + split; [intros (? & [= <-] & ?); done | naive_solver].
      + split; [done |]. intros _. exists (next_id d). split; [done | lia]. }
  split; [exact Hiff |]. rewrite Hiff. unfold statuses in Hin. rewrite !elem_of_cons, elem_of_nil in Hin.
  destruct Hin as [-> | [-> | [-> | [-> | [-> | [-> | []]]]]]]; split; naive_solver.
Qed.

(** ** A concrete database *)

Definition demo : DB :=
  MkDB ∅ ∅ ∅ ∅ {[7 := MkSub "bob" "hash" "pending_payment" 1 false]}
    {[1 := MkPlan "10M/10M" None]} {[3 := 1250]} 1.

Definition demo_voucher : NewVoucher := MkNew "h1" "HS-ABCD" 1 (Some 3) 60 1000 None 9999.
Definition with_voucher : DB := (CreateVoucher true demo_voucher demo).2.
Definition redeemed : DB := (RedeemVoucher 0 true "h1" "AA:BB:CC:DD:EE:FF" None with_voucher).2.
Definition used_once : DB :=
  (RecordGrantUsage Some 10 true "AA:BB:CC:DD:EE:FF" "s1" "10.0.0.1" 999 redeemed).2.
Definition used_twice : DB :=
  (RecordGrantUsage Some 20 true "AA:BB:CC:DD:EE:FF" "s2" "10.0.0.1" 998 used_once).2.

Example commission_rounds : cm_amount <$> commissions redeemed !! 1 = Some 1250.
Proof. vm_compute. reflexivity. Qed.

Lemma voucher_single_use_witness :
  (grants redeemed !! 2 = Some (MkGrant "AA:BB:CC:DD:EE:FF" None (Some 1) None 1 (0 + 60 * minute) None 0 None None None None) /\
   commissions redeemed !! 1 = Some (MkCommission 3 9999 1250 1250)) /\
  exists gid, (RedeemVoucher 0 true "h1" "AA:BB:CC:DD:EE:FF" None with_voucher).1 = Ok gid /\ gid <> 0 /\
    RedeemVoucher 5 true "h1" "11:22:33:44:55:66" None redeemed = (Ok 0, redeemed).
Proof.
  split.
  - destruct (voucher_single_use Some demo demo) as [Hsold _]; [by repeat split | constructor |].
    destruct (Hsold true demo_voucher 1 with_voucher with_voucher 0 true "AA:BB:CC:DD:EE:FF"%string None 2 redeemed)
      as (_ & Hg & Hc & _).
    + reflexivity.
    + constructor.
    + reflexivity.
    + discriminate.
    + split; [exact Hg |]. rewrite Hc. reflexivity.
  - exists 2. split; [vm_compute; reflexivity |]. split; [discriminate |].
    destruct (voucher_single_use Some demo with_voucher) as (_ & Huse & _).
    + repeat split.
    + apply star_one. apply w_create.
    + destruct (Huse 0 true "h1"%string "AA:BB:CC:DD:EE:FF"%string None 2 redeemed) as [_ Hlater].
      * reflexivity.
      * discriminate.
      * apply (Hlater redeemed 5 "11:22:33:44:55:66"%string None). constructor.
Defined.

Lemma cap_is_per_session_witness :
  exists v g, vouchers used_twice !! 1 = Some v /\ grants used_twice !! 2 = Some g /\
    data_cap_bytes v < 999 + 998 /\ over_cap 30 used_twice 2 g = None.
Proof.
  destruct (cap_is_per_session Some 10 20 30 "AA:BB:CC:DD:EE:FF" "s1" "s2" "10.0.0.1" 999 998
    redeemed used_once used_twice 2
    (MkGrant "AA:BB:CC:DD:EE:FF" None (Some 1) None 1 (60 * minute) None 0 None None None None) 1
    (claimed 0 "AA:BB:CC:DD:EE:FF" (MkVoucher "h1" "HS-ABCD" 1 (Some 3) 60 1000 "unused" None None None None 9999)))
    as ((g & Hg & _) & _ & Hno); try (vm_compute; reflexivity); try (vm_compute; split; congruence).
  eexists _, g. split; [vm_compute; reflexivity |]. split; [exact Hg |]. split; [reflexivity |].
  by apply Hno.
Defined.

Lemma portal_gate_differs_witness :
  (exists gid, (GrantForSubscriber 0 true "AA:BB:CC:DD:EE:FF" 7 None 720 demo).1 = Ok gid /\ gid <> 0) /\
  Identity.AuthorisesService "pending_payment" = false.
Proof.
  apply (portal_gate_differs 0 "AA:BB:CC:DD:EE:FF" 7 None 720 demo
           (MkSub "bob" "hash" "pending_payment" 1 false)).
  - reflexivity.
  - reflexivity.
  - left.
  - reflexivity.
Defined.

End HotspotStore.
