(* ===== verification/Hotspot.v ===== *)
(** * internal/hotspot: the captive portal, its limiter and the quota scanner

    Voucher codes (hotspot.go), the attempt limiter (limiter.go), the portal's
    two redemption endpoints (portal.go) and the data-cap scanner (quota.go),
    over the store of HotspotStore. SHA-256 and bcrypt are arguments; a
    response is the status and notice the handler renders. *)

From S2P Require Import Prelude GoStrings LocalCache Identity HotspotStore.
From stdpp Require Import sorting.
From Stdlib Require Import Ascii.

Local Open Scope Z_scope.

Module Hotspot.

Import HotspotStore.

(** ** Voucher codes (hotspot.go) *)

Definition codeAlphabet : string := "23456789ABCDEFGHJKMNPQRSTVWXYZ".
Definition codeSecretLen : nat := 12.
Definition codeGroupLen : nat := 4.
Definition codeLabel : string := "HS".

Definition dash : ascii := "-"%char.
Definition blank_char : ascii := " "%char.

Definition NormaliseCode (s : string) : string :=
  remove_char blank_char (remove_char dash (to_upper (trim_space s))).

Record GeneratedVoucher : Type := MkGenerated { Plaintext : string; Prefix : string; Hash : string }.

Definition symbol (n : Z) : ascii := default dash (String.get (Z.to_nat n) codeAlphabet).

Fixpoint string_of_chars (l : list ascii) : string :=
  match l with [] => EmptyString | c :: l => String c (string_of_chars l) end.

(** The groups of the code, each behind a dash. *)
Fixpoint grouped (fuel : nat) (l : list ascii) : string :=
  match fuel with
  | O => EmptyString
  | S fuel =>
      match l with
      | [] => EmptyString
      | _ => String dash (string_of_chars (take codeGroupLen l) +:+ grouped fuel (drop codeGroupLen l))
      end
  end.

Section Codes.
(** [hex.EncodeToString(sha256.Sum256(s))] *)
Variable sha256_hex : string -> string.

Definition HashCode (plaintext : string) : string := sha256_hex (NormaliseCode plaintext).

(** [GenerateCode] on the numbers [rand.Int] returned, [None] when it failed. *)
Definition GenerateCode (random : option (list Z)) : option GeneratedVoucher :=
  match random with
  | None => None
  | Some ns =>
      let chars := map symbol ns in
      let plaintext := codeLabel +:+ grouped codeSecretLen chars in
      Some (MkGenerated plaintext
        (codeLabel +:+ String dash (string_of_chars (take codeGroupLen chars)))
        (HashCode plaintext))
  end.
End Codes.

(** ** The attempt limiter (limiter.go) *)

Definition DefaultAttemptLimit : Z := 10.
Definition DefaultAttemptWindow : Z := 15 * 60 * 1000000000.

Record Limiter : Type := MkLimiter {
  counter : gmap string Counter.counterEntry; limit : Z; window : Z
}.

Definition NewLimiter : Limiter := MkLimiter ∅ DefaultAttemptLimit DefaultAttemptWindow.

Definition attempt_key (key : string) : string := "hotspot:attempts:" +:+ key.

Definition Allow (now : Z) (key : string) (l : Limiter) : bool * Limiter :=
  let '(count, c) := Counter.Incr now (attempt_key key) (counter l) in
  let c := if count =? 1 then Counter.Expire now (attempt_key key) (window l) c else c in
  (count <=? limit l, MkLimiter c (limit l) (window l)).

(** ** The portal's endpoints (portal.go) *)

Definition safeRedirect (raw : string) : string :=
  if String.eqb raw EmptyString then EmptyString
  else
    let lower := to_lower raw in
    if negb (String.prefix "http://" lower) && negb (String.prefix "https://" lower)
    then EmptyString else raw.

(** The request, as the form accessors and [net.SplitHostPort] read it. *)
Record HTTPRequest : Type := MkHTTP {
  form_ok : bool;
  remote_host : string;
  param_mac : string;
  param_nasid : string;
  param_link : string;
  param_code : string;
  param_username : string;
  param_password : string
}.

Record sessionRequest : Type := MkSessionRequest { MAC : string; NASID : option Z; Redirect : string }.

Definition readSessionRequest (r : HTTPRequest) : option sessionRequest :=
  match Identity.NormaliseMAC (param_mac r) with
  | None => None
  | Some mac =>
      let nasid := match atoi (param_nasid r) with
                   | Some id => if 0 <? id then Some id else None
                   | None => None
                   end in
      Some (MkSessionRequest mac nasid (safeRedirect (param_link r)))
  end.


Record Page : Type := MkPage {
  code : Z; page_session : option sessionRequest; notice : string; granted : bool
}.

Definition landing (status : Z) (req : option sessionRequest) (notice : string) : Page :=
  MkPage status req notice false.

Definition Landing (r : HTTPRequest) : Page :=
  match readSessionRequest r with
  | None => landing 200 None "This hotspot is not passing your device address through. Please ask the venue's staff for help."
  | Some req => landing 200 (Some req) EmptyString
  end.





Section Portal.
Variable sha256_hex : string -> string.
Variable compare : string -> string -> bool.
(** [SubscriberCredentialQuerier]: id and password hash. *)
Variable lookup : string -> result unit (option (Z * string)).





End Portal.

(** ** The quota scanner (quota.go) *)

Definition defaultQuotaBatch : Z := 100.

(** One scan's surroundings: whether each statement succeeds, and the
    disconnector, if any. *)
Record ScanEnv : Type := MkScanEnv {
  list_up : bool;
  mark_up : Z -> bool;
  has_pod : bool
}.

(** The grants ended, and the disconnects attempted, in order. *)
Fixpoint enforce (now : Z) (e : ScanEnv) (over : list OverCapGrant) (ended : Z)
    (pods : list (string * string)) (d : DB) : Z * list (string * string) * DB :=
  match over with
  | [] => (ended, pods, d)
  | g :: over =>
      match MarkGrantExhausted now (mark_up e (o_GrantID g)) (o_GrantID g) d with
      | (Err _, d) => enforce now e over ended pods d
      | (Ok false, d) => enforce now e over ended pods d
      | (Ok true, d) =>
          if negb (has_pod e) || String.eqb (o_SessionID g) EmptyString || String.eqb (o_NASIP g) EmptyString
          then enforce now e over (ended + 1) pods d
          else enforce now e over (ended + 1) (pods ++ [(o_NASIP g, o_SessionID g)]) d
      end
  end.

Definition ScanOnce (now : Z) (e : ScanEnv) (batch : Z) (d : DB) :
    result unit (Z * list (string * string)) * DB :=
  match ListGrantsOverCap now (list_up e) batch d with
  | Err _ => (Err tt, d)
  | Ok over => let '(n, pods, d') := enforce now e over 0 [] d in (Ok (n, pods), d')
  end.

(** ** The scanner ends exactly what is over its cap *)

Lemma over_cap_id now d id g o : over_cap now d id g = Some o -> o_GrantID o = id /\ live_grant now g = true.
Proof.
  unfold over_cap. destruct (g_voucher g) as [vid|]; simpl; [| done].
  destruct (vouchers d !! vid) as [v|]; simpl; [| done].
  destruct (live_grant now g); simpl; [| done]. destruct (_ && _); [| done]. by intros [= <-].
Qed.

Definition all_over (now : Z) (d : DB) : list OverCapGrant :=
  omap (fun p => over_cap now d p.1 p.2) (map_to_list (grants d)).

Lemma elem_of_all_over now d o :
  o ∈ all_over now d <-> exists g, grants d !! o_GrantID o = Some g /\ over_cap now d (o_GrantID o) g = Some o.
Proof.
  unfold all_over. rewrite list_elem_of_omap. split.
  - intros ([id g] & Hin%elem_of_map_to_list & Ho). simpl in Ho.
    destruct (over_cap_id _ _ _ _ _ Ho) as [<- _]. by exists g.
  - intros (g & Hg & Ho). exists (o_GrantID o, g). split; [by apply elem_of_map_to_list | done].
Qed.

Lemma all_over_nodup now d : NoDup (map o_GrantID (all_over now d)).
Proof.
  unfold all_over. pose proof (NoDup_fst_map_to_list (grants d)) as Hn. revert Hn.
  generalize (map_to_list (grants d)). intros l.
  assert (NoDup (map fst l) ->
    NoDup (map o_GrantID (omap (fun p => over_cap now d p.1 p.2) l)) /\
    forall x, x ∈ map o_GrantID (omap (fun p => over_cap now d p.1 p.2) l) -> x ∈ map fst l) as H0.
  { induction l as [| [id g] l IH]; simpl; [by split; [constructor |] |].
    intros [Hid Hl]%NoDup_cons. destruct (IH Hl) as [IH1 IH2].
    destruct (over_cap now d id g) as [o|] eqn:Ho; simpl; [| set_solver].
    destruct (over_cap_id _ _ _ _ _ Ho) as [-> _]. split; [| set_solver].
    constructor; [by intros ?%IH2 | done]. }
  intros Hn. by apply H0.
Qed.

Lemma listed_over now limit d l :
  ListGrantsOverCap now true limit d = Ok l ->
  NoDup (map o_GrantID l) /\ (forall o, o ∈ l -> o ∈ all_over now d) /\
  (0 < limit <= 500 -> Z.of_nat (length (all_over now d)) <= limit -> forall o, o ∈ all_over now d -> o ∈ l).
Proof.
  unfold ListGrantsOverCap. simpl. intros [= <-]. fold (all_over now d).
  set (n := Z.to_nat _). pose proof (merge_sort_Permutation more_used (all_over now d)) as Hp.
  split; [| split].
  - apply (sublist_NoDup _ (map o_GrantID (merge_sort more_used (all_over now d)))).
    + rewrite (Permutation_map _ Hp). apply all_over_nodup.
    + apply (fmap_sublist o_GrantID), sublist_take.
  - intros o (i & Hi & _)%elem_of_take. rewrite <- Hp. by apply (list_elem_of_lookup_2 _ i).
  - intros Hl Hlen o Ho. rewrite take_ge; [by rewrite Hp |]. rewrite Hp. unfold n.
    replace ((limit <=? 0) || (500 <? limit)) with false by lia. lia.
Qed.

Definition pod_of (e : ScanEnv) (o : OverCapGrant) : list (string * string) :=
  if negb (has_pod e) || String.eqb (o_SessionID o) EmptyString || String.eqb (o_NASIP o) EmptyString
  then [] else [(o_NASIP o, o_SessionID o)].

Definition ended_ids (l : list OverCapGrant) (id : Z) : bool := existsb (fun o => o_GrantID o =? id) l.

(** What [enforce] comes to when every statement succeeds. *)
Lemma enforce_all now e l : forall n pods d,
  (forall o, o ∈ l -> mark_up e (o_GrantID o) = true) -> NoDup (map o_GrantID l) ->
  (forall o, o ∈ l -> exists g, grants d !! o_GrantID o = Some g /\ revoked_at g = None) ->
  let '(n', pods', d') := enforce now e l n pods d in
  n' = n + Z.of_nat (length l) /\ pods' = pods ++ flat_map (pod_of e) l /\ vouchers d' = vouchers d /\
  forall id, grants d' !! id =
    (fun g => if ended_ids l id then ended now true g else g) <$> grants d !! id.
Proof.
  induction l as [| o l IH]; simpl; intros n pods d Hup Hnd Hlive.
  - rewrite app_nil_r. repeat split; try lia. intros id. by destruct (grants d !! id).
  - apply NoDup_cons in Hnd as [Hnot Hnd]. destruct (Hlive o ltac:(by left)) as (g & Hg & Hr).
    unfold MarkGrantExhausted, end_grant. rewrite (Hup o) by left. simpl. rewrite Hg.
    rewrite bool_decide_true by done.
    set (d1 := with_grants _ d). set (pods1 := pods ++ pod_of e o).
    assert (forall x, x ∈ l -> exists g', grants d1 !! o_GrantID x = Some g' /\ revoked_at g' = None) as Hl1.
    { intros x Hx. destruct (Hlive x ltac:(by right)) as (g' & Hg' & Hr'). exists g'. split; [| done].
      simpl. rewrite lookup_insert_ne; [done |]. intros Heq. apply Hnot. rewrite Heq.
      by apply list_elem_of_fmap_2. }
    specialize (IH (n + 1) pods1 d1 ltac:(intros x Hx; apply Hup; by right) Hnd Hl1).
    assert (forall pods2 (b : bool), pods1 = (if b then pods else pods2) ->
      (if b then enforce now e l (n + 1) pods d1 else enforce now e l (n + 1) pods2 d1) =
      enforce now e l (n + 1) pods1 d1) as -> by (intros pods2 [] ->; done).
    2: { unfold pods1, pod_of. destruct (_ || String.eqb (o_NASIP o) EmptyString); [by rewrite app_nil_r | done]. }
    destruct (enforce now e l (n + 1) pods1 d1) as [[n' pods'] d'].
    destruct IH as (-> & -> & Hv & Hlook). split; [lia |].
    split; [unfold pods1; by rewrite <- app_assoc |]. split; [done |].
    intros id. rewrite Hlook. simpl. destruct (decide (o_GrantID o = id)) as [<- | Hne].
    + rewrite lookup_insert_eq, Hg. simpl. rewrite Z.eqb_refl. simpl.
      assert (ended_ids l (o_GrantID o) = false) as ->; [| done].
      apply not_true_iff_false. intros (x & Hx & Heq)%existsb_exists. apply Hnot.
      replace (o_GrantID o) with (o_GrantID x) by lia. apply list_elem_of_fmap_2. by apply list_elem_of_In.
    + rewrite lookup_insert_ne by done. by replace (o_GrantID o =? id) with false by lia.
Qed.

(** A quota scan ends exactly the grants it lists, and those are live
    grants at their cap. When every statement succeeds, each listed grant is
    revoked and marked exhausted, every other grant is untouched, the count
    returned is the number ended, and a disconnect is attempted for each whose
    session and NAS are known, in order. A revoked grant authorises nobody, and
    when the batch covers all that is over the cap, a second scan finds
    nothing. *)
Theorem quota_scan_exact now e batch d :
  list_up e = true -> (forall id, mark_up e id = true) ->
  exists l d',
    ScanOnce now e batch d = (Ok (Z.of_nat (length l), flat_map (pod_of e) l), d') /\
    (forall o, o ∈ l -> exists g v, grants d !! o_GrantID o = Some g /\ live_grant now g = true /\
       g_voucher g = Some (o_VoucherID o) /\ vouchers d !! o_VoucherID o = Some v /\
       0 < data_cap_bytes v <= bytes_used g) /\
    (forall id, grants d' !! id = (fun g => if ended_ids l id then ended now true g else g) <$> grants d !! id) /\
    (forall id g mac nas, ended_ids l id = true -> grants d' !! id = Some g ->
       usable_grant now mac nas d' g = false) /\
    (0 < batch <= 500 -> Z.of_nat (length (all_over now d)) <= batch -> all_over now d' = []).
Proof.
  intros Hlist Hmark. unfold ScanOnce. rewrite Hlist.
  destruct (ListGrantsOverCap now true batch d) as [l | []] eqn:Hl; [| done].
  destruct (listed_over now batch d l Hl) as (Hnd & Hsub & Hall).
  assert (forall o, o ∈ l -> exists g v, grants d !! o_GrantID o = Some g /\ live_grant now g = true /\
    g_voucher g = Some (o_VoucherID o) /\ vouchers d !! o_VoucherID o = Some v /\
    0 < data_cap_bytes v <= bytes_used g) as Hwhat.
  { intros o (g & Hg & Ho)%Hsub%elem_of_all_over. exists g.
    destruct (over_cap_id _ _ _ _ _ Ho) as [_ Hlive]. unfold over_cap in Ho.
    destruct (g_voucher g) as [vid|]; simpl in Ho; [| done].
    destruct (vouchers d !! vid) as [v|] eqn:Hv; simpl in Ho; [| done]. exists v.
    destruct (live_grant now g); simpl in Ho; [| done].
    destruct (0 <? data_cap_bytes v) eqn:H1, (data_cap_bytes v <=? bytes_used g) eqn:H2; simpl in Ho; try done.
    assert (o_VoucherID o = vid) as -> by (by injection Ho as <-). repeat split; try done; lia. }
  pose proof (enforce_all now e l 0 [] d (fun o _ => Hmark _) Hnd) as He.
  destruct (enforce now e l 0 [] d) as [[n pods] d']. destruct He as (-> & -> & Hv & Hlook).
  { intros o Ho. destruct (Hwhat o Ho) as (g & _ & Hg & Hlive & _). exists g. split; [done |].
    unfold live_grant in Hlive. apply andb_true_iff in Hlive as [Hr _]. by apply bool_decide_eq_true in Hr. }
  exists l, d'. split; [done |]. split; [exact Hwhat |]. split; [exact Hlook |]. split.
  - intros id g mac nas Hid Hg. rewrite Hlook, Hid in Hg. destruct (grants d !! id); [| done].
    simpl in Hg. injection Hg as <-. unfold usable_grant, live_grant. simpl.
    rewrite andb_false_r. done.
  - intros Hb Hlen. destruct (all_over now d') as [| o ol] eqn:Hover; [done |]. exfalso.
    assert (o ∈ all_over now d') as (g' & Hg' & Ho)%elem_of_all_over by (rewrite Hover; by left).
    rewrite Hlook in Hg'. destruct (grants d !! o_GrantID o) as [g|] eqn:Hg; [| done].
    simpl in Hg'. destruct (over_cap_id _ _ _ _ _ Ho) as [_ Hlive].
    destruct (ended_ids l (o_GrantID o)) eqn:Hend; [by injection Hg' as <- |].
    injection Hg' as <-. apply not_true_iff_false in Hend. apply Hend, existsb_exists.
    exists o. split; [| lia]. apply list_elem_of_In, Hall; try done. apply elem_of_all_over.
    exists g. split; [done |]. unfold over_cap in Ho |- *. by rewrite Hv in Ho.
Qed.

(** ** The limiter's budget *)

#[local] Arguments Allow : simpl never.

Inductive limiter_event : Type := Attempt (key : string) | Sweep.

#[local] Instance limiter_event_eq_dec : EqDecision limiter_event.
Proof. solve_decision. Defined.

Definition limiter_step (now : Z) (ev : limiter_event) (l : Limiter) : Limiter :=
  match ev with
  | Attempt key => (Allow now key l).2
  | Sweep => MkLimiter (Counter.sweep now (counter l)) (limit l) (window l)
  end.

(** One for an allowed attempt for [key]. *)
Definition hit (key : string) (now : Z) (ev : limiter_event) (l : Limiter) : Z :=
  match ev with
  | Attempt k => if String.eqb k key && (Allow now k l).1 then 1 else 0
  | Sweep => 0
  end.
#[local] Arguments hit : simpl never.

Lemma hit_self key now l : hit key now (Attempt key) l = if (Allow now key l).1 then 1 else 0.
Proof. unfold hit. by rewrite String.eqb_refl. Qed.

Lemma hit_other key now ev l : ev <> Attempt key -> hit key now ev l = 0.
Proof.
  intros Hne. unfold hit. destruct ev as [k|]; [| done].
  by rewrite (proj2 (String.eqb_neq k key)) by congruence.
Qed.

(** How many attempts for [key] a run allows. *)
Fixpoint allowed_count (key : string) (evs : list (Z * limiter_event)) (l : Limiter) : Z :=
  match evs with
  | [] => 0
  | (now, ev) :: evs =>
      hit key now ev l + allowed_count key evs (limiter_step now ev l)
  end.

(** Event times are in order and all within [lo, hi]. *)
Fixpoint timed (lo hi : Z) (evs : list (Z * limiter_event)) : Prop :=
  match evs with
  | [] => True
  | (t, _) :: evs => lo <= t <= hi /\ timed t hi evs
  end.

Lemma attempt_key_inj k k' : attempt_key k = attempt_key k' -> k = k'.
Proof. unfold attempt_key. intros. by simplify_eq/=. Qed.

Abbreviation live_at now key l := (Counter.live now (attempt_key key) (counter l)).

Lemma lookup_Allow_ne t k key l :
  k <> key -> counter (Allow t k l).2 !! attempt_key key = counter l !! attempt_key key.
Proof.
  intros Hne. assert (attempt_key k <> attempt_key key) as Hk by (intros ?%attempt_key_inj; done).
  unfold Allow, Counter.Incr, Counter.Expire. simpl. destruct (i64 _ =? 1); simpl.
  - rewrite lookup_insert_eq. by rewrite !lookup_insert_ne.
  - by rewrite lookup_insert_ne.
Qed.

(** A later attempt of a key whose count is live. *)
Lemma Allow_live t key l n x :
  live_at t key l = Some (Counter.Entry n (Some x)) -> 1 <= n < max_int64 ->
  (Allow t key l).1 = (n + 1 <=? limit l) /\
  counter (Allow t key l).2 !! attempt_key key = Some (Counter.Entry (n + 1) (Some x)).
Proof.
  unfold Allow, Counter.live, Counter.Incr. destruct (counter l !! attempt_key key) as [e|]; [| done].
  destruct (Counter.lapsed t e) eqn:He; [done |]. intros [= ->] Hn. simpl.
  rewrite i64_small by (unfold max_int64 in *; lia). replace (n + 1 =? 1) with false by lia. simpl.
  by rewrite lookup_insert_eq.
Qed.

(** The first attempt of a window. *)
Lemma Allow_first t key l :
  live_at t key l = None ->
  (Allow t key l).1 = (1 <=? limit l) /\
  counter (Allow t key l).2 !! attempt_key key = Some (Counter.Entry 1 (Some (t + window l))).
Proof.
  unfold Allow, Counter.live, Counter.Incr. intros Hl.
  assert ((match counter l !! attempt_key key with
           | Some e => if Counter.lapsed t e then Counter.Entry 0 None else e
           | None => Counter.Entry 0 None
           end) = Counter.Entry 0 None) as ->.
  { destruct (counter l !! attempt_key key) as [e|]; [| done]. by destruct (Counter.lapsed t e). }
  simpl. unfold Counter.Expire. rewrite lookup_insert_eq. simpl. by rewrite lookup_insert_eq.
Qed.

Lemma limit_step t ev l : limit (limiter_step t ev l) = limit l /\ window (limiter_step t ev l) = window l.
Proof.
  destruct ev as [k|]; [| done]. unfold limiter_step, Allow.
  by destruct (Counter.Incr t (attempt_key k) (counter l)).
Qed.

Lemma live_found t key l e :
  counter l !! attempt_key key = Some e -> Counter.lapsed t e = false -> live_at t key l = Some e.
Proof. unfold Counter.live. by intros -> ->. Qed.

Lemma live_lookup t key l e : live_at t key l = Some e -> counter l !! attempt_key key = Some e.
Proof.
  unfold Counter.live. destruct (counter l !! attempt_key key) as [e'|]; [| done].
  destruct (Counter.lapsed t e'); [done |]. by intros [= ->].
Qed.

(** What a step leaves of another key's count, read no earlier. *)
Lemma live_step t now ev key l :
  t <= now -> ev <> Attempt key -> live_at now key (limiter_step t ev l) = live_at now key l.
Proof.
  intros Hle Hne. destruct ev as [k|]; unfold limiter_step.
  - unfold Counter.live. rewrite lookup_Allow_ne by congruence. done.
  - by apply Counter.live_sweep.
Qed.

(** Inside a window the budget only shrinks. [evs] is also short enough not
    to overflow the counter. *)
Lemma allowed_in_window key n x evs : forall l lo hi,
  (forall now, lo <= now <= hi -> live_at now key l = Some (Counter.Entry n (Some x))) ->
  hi <= x -> 1 <= n -> n + Z.of_nat (length evs) <= max_int64 -> timed lo hi evs ->
  allowed_count key evs l <= Z.max 0 (limit l - n).
Proof.
  revert n. induction evs as [| [t ev] evs IH]; intros n l lo hi Hl Hx Hn Hlen Ht; simpl; [lia |].
  simpl in Hlen. destruct Ht as [Hlo Ht]. destruct (limit_step t ev l) as [Hlim _].
  destruct (decide (ev = Attempt key)) as [-> | Hne].
  - destruct (Allow_live t key l n x (Hl t Hlo)) as [Ha Hc]; [lia |].
    rewrite hit_self, Ha. change (limiter_step t (Attempt key) l) with (Allow t key l).2 in *.
    assert (allowed_count key evs (Allow t key l).2 <= Z.max 0 (limit l - (n + 1))).
    { rewrite <- Hlim. apply (IH (n + 1) _ t hi); try lia; [| done]. intros now Hnow.
      apply live_found; [exact Hc | unfold Counter.lapsed; simpl; lia]. }
    destruct (n + 1 <=? limit l) eqn:Hle; lia.
  - assert (allowed_count key evs (limiter_step t ev l) <= Z.max 0 (limit l - n)).
    { rewrite <- Hlim. apply (IH n _ t hi); try lia; [| done]. intros now Hnow.
      rewrite live_step by (done || lia). apply Hl. lia. }
    rewrite hit_other by done. lia.
Qed.

(** A counter's entry has an expiry and a positive count below [bound]. *)
Definition counts_ok (bound : Z) (key : string) (l : Limiter) : Prop :=
  forall e, counter l !! attempt_key key = Some e ->
    exists x, Counter.expires e = Some x /\ 1 <= Counter.count e <= bound.

Lemma counts_ok_step bound t ev key l :
  counts_ok bound key l -> 0 <= bound < max_int64 - 1 -> counts_ok (bound + 1) key (limiter_step t ev l).
Proof.
  intros Hok Hb e He. destruct (decide (ev = Attempt key)) as [-> | Hne].
  - change (limiter_step t (Attempt key) l) with (Allow t key l).2 in He.
    destruct (live_at t key l) as [[n x]|] eqn:Hlive.
    + pose proof (live_lookup _ _ _ _ Hlive) as Hl.
      destruct (Hok _ Hl) as (y & Hy & Hn). simpl in Hy, Hn. subst x.
      destruct (Allow_live t key l n y Hlive) as [_ Hc]; [lia |]. exists y.
      rewrite Hc in He. injection He as <-. simpl. split; [done | lia].
    + destruct (Allow_first t key l Hlive) as [_ Hc]. rewrite Hc in He. injection He as <-.
      eexists. simpl. split; [done | lia].
  - assert (counter l !! attempt_key key = Some e) as Hl.
    { destruct ev as [k|]; unfold limiter_step in He;
        [by rewrite lookup_Allow_ne in He by congruence |].
      simpl in He. unfold Counter.sweep in He. rewrite lookup_omap in He.
      destruct (counter l !! attempt_key key) as [e0|]; simpl in He; [| done].
      by destruct (Counter.lapsed t e0). }
    destruct (Hok e Hl) as (x & Hx & Hn). exists x. split; [done | lia].
Qed.

Definition run_limiter (evs : list (Z * limiter_event)) (l : Limiter) : Limiter :=
  foldl (fun l p => limiter_step p.1 p.2 l) l evs.

Lemma counts_ok_run evs key : forall l bound,
  counts_ok bound key l -> 0 <= bound -> bound + Z.of_nat (length evs) < max_int64 - 1 ->
  counts_ok (bound + Z.of_nat (length evs)) key (run_limiter evs l) /\
  limit (run_limiter evs l) = limit l /\ window (run_limiter evs l) = window l.
Proof.
  induction evs as [| [t ev] evs IH]; simpl; intros l bound Hok Hb Hlen.
  - by rewrite Z.add_0_r.
  - destruct (limit_step t ev l) as [Hlim Hwin].
    destruct (IH (limiter_step t ev l) (bound + 1)) as (H1 & H2 & H3);
      [apply counts_ok_step; [done | lia] | lia | lia |].
    rewrite H2, H3. split; [| done]. by replace (bound + Z.of_nat (S (length evs)))
      with (bound + 1 + Z.of_nat (length evs)) by lia.
Qed.

Lemma allowed_from key start hi evs : forall l lo bound,
  start <= lo -> hi <= start + window l -> 0 <= limit l -> timed lo hi evs ->
  counts_ok bound key l -> 0 <= bound -> bound + Z.of_nat (length evs) < max_int64 - 1 ->
  allowed_count key evs l <=
  match live_at lo key l with
  | None => limit l
  | Some e => Z.max 0 (limit l - Counter.count e) + limit l
  end.
Proof.
  induction evs as [| [t ev] evs IH]; intros l lo bound Hs Hh Hlim Ht Hok Hb Hlen; simpl in *.
  - case_match; lia.
  - destruct Ht as [Hlo Ht]. destruct (limit_step t ev l) as [Hl Hw].
    assert (forall e, live_at t key l = Some e -> live_at lo key l = Some e) as Hback.
    { intros e. unfold Counter.live, Counter.lapsed. destruct (_ !! _) as [e0|]; [| done].
      destruct (Counter.expires e0); [| done]. repeat case_match; try done; lia. }
    assert (counts_ok (bound + 1) key (limiter_step t ev l)) as Hok'
      by (apply counts_ok_step; [done | lia]).
    specialize (IH (limiter_step t ev l) t (bound + 1) ltac:(lia) ltac:(lia) ltac:(lia) Ht Hok'
                  ltac:(lia) ltac:(lia)). rewrite Hl in IH.
    destruct (decide (ev = Attempt key)) as [-> | Hne].
    + rewrite hit_self. change (limiter_step t (Attempt key) l) with (Allow t key l).2 in *.
      destruct (live_at t key l) as [[n x]|] eqn:Hlive.
      * rewrite (Hback _ eq_refl). pose proof (live_lookup _ _ _ _ Hlive) as Hc0.
        destruct (Hok _ Hc0) as (y & Hy & Hn). simpl in Hy, Hn. subst x.
        destruct (Allow_live t key l n y Hlive) as [Ha Hc]; [lia |].
        assert (live_at t key (Allow t key l).2 = Some (Counter.Entry (n + 1) (Some y))) as Hl2.
        { apply live_found; [done |]. unfold Counter.live in Hlive. rewrite Hc0 in Hlive.
          unfold Counter.lapsed in *. simpl in *. by destruct (y <? t). }
        rewrite Hl2 in IH. cbn [Counter.count] in IH |- *. rewrite Ha. destruct (n + 1 <=? limit l) eqn:Hle; lia.
      * destruct (Allow_first t key l Hlive) as [Ha Hc]. rewrite Ha.
        assert (allowed_count key evs (Allow t key l).2 <= Z.max 0 (limit l - 1)).
        { rewrite <- Hl. apply (allowed_in_window key 1 (t + window l) evs _ t hi); try lia; [| done].
          intros now Hnow. apply live_found; [done |]. unfold Counter.lapsed. simpl. lia. }
        destruct (1 <=? limit l) eqn:Hle, (live_at lo key l); lia.
    + rewrite hit_other by done. rewrite (live_step t t) in IH by done.
      destruct (live_at t key l) as [e|] eqn:Hlive; [rewrite (Hback e eq_refl); lia |].
      case_match; lia.
Qed.

(** Guessing is metered. In any run of the limiter, over any interleaving
    of attempts by any clients and sweeps of the counter, the attempts one
    client is allowed within one window's length number at most twice the
    limit, and at most the limit when the client had no count running at the
    start of it. *)
Theorem attempts_are_bounded key evs0 evs lim win lo hi :
  let l := run_limiter evs0 (MkLimiter ∅ lim win) in
  0 <= lim -> hi <= lo + win -> timed lo hi evs ->
  Z.of_nat (length evs0) + Z.of_nat (length evs) < max_int64 - 1 ->
  allowed_count key evs l <= 2 * lim /\
  (live_at lo key l = None -> allowed_count key evs l <= lim).
Proof.
  intros l Hlim Hhi Ht Hlen.
  destruct (counts_ok_run evs0 key (MkLimiter ∅ lim win) 0) as (Hok & Hl & Hw);
    [intros e; simpl; by rewrite lookup_empty | lia | lia |]. fold l in Hok, Hl, Hw. simpl in Hl, Hw.
  pose proof (allowed_from key lo hi evs l lo (Z.of_nat (length evs0)) ltac:(lia) ltac:(lia)
    ltac:(lia) Ht Hok ltac:(lia) ltac:(lia)) as Hb. rewrite Hl in Hb. split.
  - destruct (live_at lo key l) as [e|] eqn:Hlive; [| lia].
    pose proof (live_lookup _ _ _ _ Hlive) as Hc.
    destruct (Hok e Hc) as (x & _ & Hn). lia.
  - intros Hnone. by rewrite Hnone in Hb.
Qed.

(** ** Codes as people type them *)

#[local] Arguments String.append : simpl nomatch.

(** What is left of a string when case and the cosmetic characters are
    ignored. *)
Definition essence (s : string) : string := remove_char blank_char (remove_char dash (to_upper s)).

(** No white space other than blanks. *)
Definition plain_char (c : ascii) : bool := negb (is_space c) || Ascii.eqb c blank_char.
Definition plain (s : string) : bool := string_forall plain_char s.

Definition code_char (c : ascii) : bool :=
  negb (is_space c) && negb (Ascii.eqb c dash) && Ascii.eqb (upper_char c) c.

Lemma plain_space c : plain_char c = true -> is_space c = true -> c = blank_char.
Proof. unfold plain_char. intros [H | H]%orb_true_iff Hs; [by rewrite Hs in H | by apply Ascii.eqb_eq]. Qed.

Lemma essence_cons c s :
  essence (String c s) =
  if Ascii.eqb (upper_char c) dash then essence s
  else if Ascii.eqb (upper_char c) blank_char then essence s
  else String (upper_char c) (essence s).
Proof.
  unfold essence, to_upper. simpl. destruct (Ascii.eqb (upper_char c) dash); [done |]. simpl.
  by destruct (Ascii.eqb (upper_char c) blank_char).
Qed.

Lemma essence_trim_left s : plain s = true -> essence (trim_left s) = essence s.
Proof.
  induction s as [| c s IH]; [done |]. intros [Hc Hs]%andb_true_iff. simpl.
  destruct (is_space c) eqn:Hsp; [| done]. rewrite IH by done.
  by rewrite (plain_space c Hc Hsp).
Qed.

Lemma essence_trim_right s : plain s = true -> essence (trim_right s) = essence s.
Proof.
  induction s as [| c s IH]; [done |]. intros [Hc Hs]%andb_true_iff. simpl.
  rewrite (essence_cons c s), <- IH by done. destruct (trim_right s) as [| c' t] eqn:Ht.
  - destruct (is_space c) eqn:Hsp; [by rewrite (plain_space c Hc Hsp) |]. apply essence_cons.
  - apply essence_cons.
Qed.

Lemma plain_trim_left s : plain s = true -> plain (trim_left s) = true.
Proof.
  induction s as [| c s IH]; [done |]. intros [Hc Hs]%andb_true_iff. simpl.
  destruct (is_space c); [by apply IH |]. unfold plain. simpl. by rewrite Hc.
Qed.

Lemma NormaliseCode_plain s : plain s = true -> NormaliseCode s = essence s.
Proof.
  intros Hs. change (essence (trim_space s) = essence s). unfold trim_space.
  rewrite essence_trim_right by (by apply plain_trim_left). by apply essence_trim_left.
Qed.

Lemma essence_code s : string_forall code_char s = true -> essence s = s.
Proof.
  induction s as [| c s IH]; [done |]. intros [Hc Hs]%andb_true_iff.
  rewrite essence_cons, IH by done. unfold code_char in Hc.
  apply andb_true_iff in Hc as [[Hsp Hd]%andb_true_iff Hup]. apply Ascii.eqb_eq in Hup. rewrite Hup.
  apply negb_true_iff in Hd. rewrite Hd.
  assert (Ascii.eqb c blank_char = false) as ->; [| done].
  apply Ascii.eqb_neq. intros ->. discriminate.
Qed.

Lemma essence_app s t : essence (s +:+ t) = essence s +:+ essence t.
Proof.
  induction s as [| c s IH]; [done |]. simpl. rewrite !essence_cons, IH.
  by destruct (Ascii.eqb (upper_char c) dash), (Ascii.eqb (upper_char c) blank_char).
Qed.

Lemma string_of_chars_app l l' : string_of_chars (l ++ l') = string_of_chars l +:+ string_of_chars l'.
Proof. induction l; simpl; congruence. Qed.

Lemma forall_chars p l : (forall c, c ∈ l -> p c = true) -> string_forall p (string_of_chars l) = true.
Proof.
  induction l as [| c l IH]; intros Hl; simpl; [done |]. rewrite (Hl c) by left. simpl.
  apply IH. intros c' Hc'. apply Hl. by right.
Qed.

Lemma essence_grouped fuel : forall l,
  (forall c, c ∈ l -> code_char c = true) -> (length l <= fuel)%nat ->
  essence (grouped fuel l) = string_of_chars l /\ plain (grouped fuel l) = true.
Proof.
  induction fuel as [| fuel IH]; intros l Hl Hlen; [by destruct l; [| simpl in Hlen; lia] |].
  destruct l as [| c l]; [done |]. set (w := c :: l) in *. cbn [grouped].
  assert (essence (grouped fuel (drop codeGroupLen w)) = string_of_chars (drop codeGroupLen w) /\
    plain (grouped fuel (drop codeGroupLen w)) = true) as [IH1 IH2].
  { apply IH.
    - intros x Hx. apply Hl. rewrite <- (take_drop codeGroupLen w). apply elem_of_app. by right.
    - rewrite length_drop. unfold codeGroupLen, w in *. simpl in *. lia. }
  assert (string_forall code_char (string_of_chars (take codeGroupLen w)) = true) as Ht.
  { apply forall_chars. intros x Hx. apply Hl. rewrite <- (take_drop codeGroupLen w).
    apply elem_of_app. by left. }
  change (match w with [] => EmptyString | _ => String dash (string_of_chars (take codeGroupLen w) +:+
    grouped fuel (drop codeGroupLen w)) end) with
    (String dash (string_of_chars (take codeGroupLen w) +:+ grouped fuel (drop codeGroupLen w))).
  split.
  - rewrite essence_cons. simpl (Ascii.eqb (upper_char dash) dash).
    rewrite essence_app, IH1, essence_code by done.
    by rewrite <- string_of_chars_app, take_drop.
  - unfold plain in *. cbn [string_forall]. rewrite string_forall_app, IH2.
    rewrite (string_forall_impl code_char plain_char _ ltac:(unfold code_char, plain_char; intros x;
      destruct (is_space x); done) Ht). done.
Qed.

Lemma symbol_code n : 0 <= n < 30 -> code_char (symbol n) = true.
Proof.
  intros Hn. assert (n ∈ seqZ 0 30) as Hin by (apply elem_of_seqZ; lia).
  assert (forallb (fun n => code_char (symbol n)) (seqZ 0 30) = true) as Hall by (vm_compute; reflexivity).
  rewrite forallb_forall in Hall. by apply Hall, list_elem_of_In.
Qed.

Lemma symbol_inj n m : 0 <= n < 30 -> 0 <= m < 30 -> symbol n = symbol m -> n = m.
Proof.
  intros Hn Hm Heq. assert (n ∈ seqZ 0 30) as Hin by (apply elem_of_seqZ; lia).
  assert (m ∈ seqZ 0 30) as Him by (apply elem_of_seqZ; lia).
  assert (forallb (fun n => forallb (fun m => negb (Ascii.eqb (symbol n) (symbol m)) || (n =? m))
    (seqZ 0 30)) (seqZ 0 30) = true) as Hall by (vm_compute; reflexivity).
  rewrite forallb_forall in Hall. apply list_elem_of_In, Hall in Hin. rewrite forallb_forall in Hin.
  apply list_elem_of_In, Hin in Him. rewrite Heq, Ascii.eqb_refl in Him. simpl in Him. lia.
Qed.

Lemma string_of_chars_inj l l' : string_of_chars l = string_of_chars l' -> l = l'.
Proof. revert l'. induction l; intros []; simpl; try done. intros [= -> H]. f_equal. auto. Qed.

(** Voucher codes survive the counter. A generated code normalises to its
    label and its twelve symbols, so anything a person types that agrees with
    it up to case, dashes and blanks has the stored hash; normalising first,
    as the portal does, changes nothing; and different random draws give
    codes with different normal forms, so all 30^12 draws are distinct codes. *)
Theorem typed_codes_match sha256_hex ns gv :
  GenerateCode sha256_hex (Some ns) = Some gv -> length ns = codeSecretLen ->
  (forall n, n ∈ ns -> 0 <= n < 30) ->
  NormaliseCode (Plaintext gv) = codeLabel +:+ string_of_chars (map symbol ns) /\
  (forall typed, plain typed = true -> essence typed = essence (Plaintext gv) ->
     HashCode sha256_hex typed = Hash gv /\
     HashCode sha256_hex (NormaliseCode typed) = Hash gv) /\
  (forall ns', length ns' = codeSecretLen -> (forall n, n ∈ ns' -> 0 <= n < 30) ->
     NormaliseCode (codeLabel +:+ grouped codeSecretLen (map symbol ns')) = NormaliseCode (Plaintext gv) ->
     ns' = ns).
Proof.
  assert (forall ns, length ns = codeSecretLen -> (forall n, n ∈ ns -> 0 <= n < 30) ->
    plain (codeLabel +:+ grouped codeSecretLen (map symbol ns)) = true /\
    essence (codeLabel +:+ grouped codeSecretLen (map symbol ns)) = codeLabel +:+ string_of_chars (map symbol ns) /\
    string_forall code_char (codeLabel +:+ string_of_chars (map symbol ns)) = true) as Hcode.
  { intros ks Hlen Hr.
    assert (forall c, c ∈ map symbol ks -> code_char c = true) as Hc.
    { intros c (n & -> & Hn)%list_elem_of_fmap. by apply symbol_code, Hr. }
    destruct (essence_grouped codeSecretLen (map symbol ks) Hc) as [He Hp];
      [by rewrite length_map, Hlen |].
    split; [unfold plain in *; by rewrite string_forall_app, Hp |].
    split; [by rewrite essence_app, He |].
    rewrite string_forall_app. simpl. by apply forall_chars. }
  intros Hg Hlen Hr.
  assert (gv = MkGenerated (codeLabel +:+ grouped codeSecretLen (map symbol ns))
    (codeLabel +:+ String dash (string_of_chars (take codeGroupLen (map symbol ns))))
    (HashCode sha256_hex (codeLabel +:+ grouped codeSecretLen (map symbol ns)))) as ->
    by (unfold GenerateCode in Hg; congruence). clear Hg.
  destruct (Hcode ns Hlen Hr) as (Hp & He & Hf). cbn [Plaintext Hash].
  rewrite NormaliseCode_plain, He by done. split; [done |]. split.
  - intros typed Ht Heq. unfold HashCode. rewrite !NormaliseCode_plain by done. rewrite Heq, He.
    split; [done |]. rewrite NormaliseCode_plain; [by rewrite essence_code |].
    eapply string_forall_impl; [| exact Hf]. intros c. unfold code_char, plain_char.
    by destruct (is_space c).
  - intros ns' Hlen' Hr'. destruct (Hcode ns' Hlen' Hr') as (Hp' & He' & _).
    rewrite NormaliseCode_plain, He' by done. unfold codeLabel. intros Heq. simplify_eq/=.
    apply string_of_chars_inj in Heq. revert Hr Hr' Heq. clear. revert ns'.
    induction ns as [| n ns IH]; intros [| m ns'] Hr Hr' Heq; simpl in Heq; try done.
    injection Heq as Hs Heq. f_equal.
    + symmetry. apply symbol_inj; [apply Hr; by left | apply Hr'; by left | done].
    + apply IH; [| | done]; intros x Hx; [apply Hr | apply Hr']; by right.
Qed.

(** ** What the portal grants and reveals *)








(** ** Concrete runs *)

Definition demo_numbers : list Z := [0; 1; 2; 3; 10; 11; 12; 13; 26; 27; 28; 29].
Definition demo_code : GeneratedVoucher :=
  default (MkGenerated EmptyString EmptyString EmptyString) (GenerateCode (fun s => s) (Some demo_numbers)).

Example the_code : Plaintext demo_code = "HS-2345-CDEF-WXYZ"%string.
Proof. vm_compute. reflexivity. Qed.


Lemma typed_codes_match_witness :
  HashCode (fun s => s) " hs 2345cdef wxyz" = Hash demo_code.
Proof.
  destruct (typed_codes_match (fun s => s) demo_numbers demo_code) as (_ & Hm & _).
  - reflexivity.
  - reflexivity.
  - intros n Hn. apply list_elem_of_In in Hn. simpl in Hn. lia.
  - apply Hm; reflexivity.
Defined.



Lemma attempts_are_bounded_witness :
  allowed_count "k" (replicate 30 (5, Attempt "k")) (run_limiter [(1, Attempt "k")] NewLimiter)
    <= 2 * DefaultAttemptLimit.
Proof.
  destruct (attempts_are_bounded "k" [(1, Attempt "k")] (replicate 30 (5, Attempt "k"))
           DefaultAttemptLimit DefaultAttemptWindow 5 5) as [Hb _].
  - vm_compute. discriminate.
  - vm_compute. discriminate.
  - simpl. lia.
  - vm_compute. reflexivity.
  - exact Hb.
Defined.

Definition over_db : DB :=
  (RecordGrantUsage Some 10 true "AA:BB:CC:DD:EE:FF" "s1" "10.0.0.1" 1200 redeemed).2.

Lemma quota_scan_exact_witness :
  exists d', ScanOnce 20 (MkScanEnv true (fun _ => true) true) 100 over_db =
    (Ok (1, [("10.0.0.1", "s1")%string]), d') /\ all_over 20 d' = [].
Proof.
  destruct (quota_scan_exact 20 (MkScanEnv true (fun _ => true) true) 100 over_db eq_refl
    (fun _ => eq_refl)) as (l & d' & Hs & _ & _ & _ & Hagain).
  exists d'. split; [rewrite Hs; vm_compute in Hs |- *; congruence |].
  apply Hagain; [lia | vm_compute; discriminate].
Defined.

End Hotspot.
