(* ===== verification/FUP.v ===== *)
(** * internal/fup: the usage scanner, the control-packet tasks and the
      dead-letter monitor

    [scan] over the session store ([History.DB]) and the task queue
    ([Jobqueue.table]); the CoA, PoD, warning and throttle-notice handlers;
    [checkOnce] of the dead-letter monitor; and the session-control endpoints
    of internal/api/sessions.go that enqueue the same tasks. Every call that
    can fail takes its outcome from the environment. The UDP exchange with
    the NAS is an argument: the response code, or nothing. *)

From S2P Require Import Prelude GoStrings Json Decimal Identity Nas Jobqueue SessionHistory LiveSessions.
From Stdlib Require Import Ascii.

Local Open Scope Z_scope.

Module FUP.

Definition TaskTypeCoA : string := "network:coa_send".
Definition TaskTypePoD : string := "network:pod_send".
Definition TaskTypeFUPWarning : string := "notif:fup_warning".
Definition TaskTypeFUPThrottled : string := "notif:fup_throttled".
Definition QueueNetCommands : string := "network_commands".
Definition QueueNotifications : string := "notifications".

Definition hour : Z := 3600 * 1000000000.

(** ** Payloads *)

Record CoAPayload : Type := MkCoA { coa_SubscriberID : Z; coa_NasIP : string }.

(** [omitempty] fields: the zero value is not printed. *)
Record PoDPayload : Type := MkPoD { pod_SubscriberID : Z; pod_NasIP : string; pod_SessionID : string }.

Record ThrottledPayload : Type := MkThrottled {
  th_SubscriberID : Z; th_Username : string; th_ThrottleSpeed : string
}.

Record WarningPayload : Type := MkWarning { w_SubscriberID : Z; w_Username : string; w_PctUsed : Z }.

Definition marshal_coa (p : CoAPayload) : string :=
  Json.Marshal [("subscriber_id", Json.VInt (coa_SubscriberID p)); ("nas_ip", Json.VStr (coa_NasIP p))]%string.

Definition omit_zero (k : string) (z : Z) : Json.object :=
  if z =? 0 then [] else [(k, Json.VInt z)].
Definition omit_empty (k s : string) : Json.object :=
  if String.eqb s EmptyString then [] else [(k, Json.VStr s)].

Definition marshal_pod (p : PoDPayload) : string :=
  Json.Marshal (omit_zero "subscriber_id" (pod_SubscriberID p) ++ omit_empty "nas_ip" (pod_NasIP p) ++
                omit_empty "session_id" (pod_SessionID p)).

Definition marshal_throttled (p : ThrottledPayload) : string :=
  Json.Marshal [("subscriber_id", Json.VInt (th_SubscriberID p)); ("username", Json.VStr (th_Username p));
                ("throttle_speed", Json.VStr (th_ThrottleSpeed p))]%string.

(** The two payloads the scanner builds with [Sprintf]. *)
Definition sprintf_coa (id : Z) (nasIP : string) : string :=
  Json.object_text [("subscriber_id", format_int id); ("nas_ip", Json.quoted nasIP)]%string.

Definition sprintf_warning (id : Z) (username : string) (pct : Z) : string :=
  Json.object_text [("subscriber_id", format_int id); ("username", Json.go_quote username);
                    ("pct_used", format_int pct)]%string.

Definition coa_of (o : Json.object) : option CoAPayload :=
  id ← Json.field_int "subscriber_id" o; ip ← Json.field_str "nas_ip" o; Some (MkCoA id ip).
Definition pod_of (o : Json.object) : option PoDPayload :=
  id ← Json.field_int "subscriber_id" o; ip ← Json.field_str "nas_ip" o;
  sid ← Json.field_str "session_id" o; Some (MkPoD id ip sid).
Definition throttled_of (o : Json.object) : option ThrottledPayload :=
  id ← Json.field_int "subscriber_id" o; u ← Json.field_str "username" o;
  sp ← Json.field_str "throttle_speed" o; Some (MkThrottled id u sp).
Definition warning_of (o : Json.object) : option WarningPayload :=
  id ← Json.field_int "subscriber_id" o; u ← Json.field_str "username" o;
  pct ← Json.field_int "pct_used" o; Some (MkWarning id u pct).

(** ** The scanner (scanner.go) *)

Record world : Type := MkWorld { hist : History.DB; tasks : Jobqueue.table }.

(** Which of the scan's calls can be executed. *)
Record ScanEnv : Type := MkScanEnv {
  breaches_up : bool;
  expired_up : bool;
  warnings_up : bool;
  flag_up : Z -> bool;
  clear_up : Z -> bool;
  coa_up : Z -> bool;
  revert_up : Z -> bool;
  notice_up : Z -> bool;
  warn_up : Z -> bool
}.

Definition all_up : ScanEnv :=
  MkScanEnv true true true (fun _ => true) (fun _ => true) (fun _ => true) (fun _ => true)
    (fun _ => true) (fun _ => true).

Inductive error : Type := ErrQuery | ErrEnqueue.

Definition net_options (retries : Z) : list Jobqueue.Option :=
  [Jobqueue.Queue QueueNetCommands; Jobqueue.MaxRetry retries; Jobqueue.Retention (24 * hour)].

Definition notice_options (tid : string) : list Jobqueue.Option :=
  [Jobqueue.Queue QueueNotifications; Jobqueue.TaskID tid; Jobqueue.MaxRetry 3;
   Jobqueue.Retention (24 * hour)].

Definition coa_task (payload : string) : Jobqueue.Task :=
  Jobqueue.NewTask TaskTypeCoA (bytes_of_string payload) (net_options 5).

Definition WarningTaskID (subscriberID threshold : Z) : string :=
  "fupwarn-" +:+ format_int subscriberID +:+ "-" +:+ format_int threshold.
Definition ThrottledTaskID (subscriberID threshold : Z) : string :=
  "fupthrottled-" +:+ format_int subscriberID +:+ "-" +:+ format_int threshold.

Definition enqueue (now : Z) (up : bool) (task : Jobqueue.Task) (w : world) :
    result Jobqueue.error Z * world :=
  let '(r, t) := Jobqueue.EnqueueContext now up task [] (tasks w) in (r, MkWorld (hist w) t).

Definition warning_task (st : History.SessionStats) (pct : Z) : Jobqueue.Task :=
  Jobqueue.NewTask TaskTypeFUPWarning
    (bytes_of_string (sprintf_warning (History.SubscriberID st) (History.Username st) pct))
    (notice_options (WarningTaskID (History.SubscriberID st) (History.FUPThreshold st))).

Definition throttled_task (st : History.SessionStats) : Jobqueue.Task :=
  Jobqueue.NewTask TaskTypeFUPThrottled
    (bytes_of_string (marshal_throttled (MkThrottled (History.SubscriberID st) (History.Username st)
      (History.FUPThrottle st))))
    (notice_options (ThrottledTaskID (History.SubscriberID st) (History.FUPThreshold st))).

(** Its errors are logged by the caller, whatever they are. *)
Definition enqueueThrottledNotice (now : Z) (e : ScanEnv) (st : History.SessionStats) (w : world) : world :=
  (enqueue now (notice_up e (History.SubscriberID st)) (throttled_task st) w).2.

Section Scanner.
Context `{History.Postgres} `{Decimal}.

Fixpoint breach_loop (now : Z) (e : ScanEnv) (l : list History.SessionStats) (w : world) :
    result error unit * world :=
  match l with
  | [] => (Ok tt, w)
  | st :: l =>
      let id := History.SubscriberID st in
      if (History.FUPThreshold st =? 0) || History.FUPActive st then breach_loop now e l w
      else if History.FUPThreshold st <=? History.BytesUsed st then
        let '(r, h) := History.SetFUPActive (flag_up e id) id true (hist w) in
        let w := MkWorld h (tasks w) in
        match r with
        | Err _ => breach_loop now e l w
        | Ok _ =>
            let '(r, w) := enqueue now (coa_up e id)
                             (coa_task (sprintf_coa id (History.NasIP st))) w in
            match r with
            | Err _ => (Err ErrEnqueue, w)
            | Ok _ => breach_loop now e l (enqueueThrottledNotice now e st w)
            end
        end
      else breach_loop now e l w
  end.

Definition scanBreaches (now : Z) (e : ScanEnv) (w : world) : result error unit * world :=
  match History.GetActiveSessionsAboveFUP (breaches_up e) (hist w) with
  | Err _ => (Err ErrQuery, w)
  | Ok l => breach_loop now e l w
  end.

Definition revert_one (now : Z) (e : ScanEnv) (w : world) (id : Z) : world :=
  let '(r, h) := History.ClearSpeedOverride (clear_up e id) id (hist w) in
  let w := MkWorld h (tasks w) in
  match r with
  | Err _ => w
  | Ok _ => (enqueue now (revert_up e id) (coa_task (marshal_coa (MkCoA id EmptyString))) w).2
  end.

Definition scanExpiredOverrides (now : Z) (e : ScanEnv) (w : world) : result error unit * world :=
  match History.ListExpiredSpeedOverrides now (expired_up e) (hist w) with
  | Err _ => (Err ErrQuery, w)
  | Ok ids => (Ok tt, foldl (revert_one now e) w ids)
  end.

Definition UsagePct (bytesUsed threshold : Z) : Z :=
  if threshold =? 0 then 0 else percentage bytesUsed threshold.

Fixpoint warning_loop (now : Z) (e : ScanEnv) (l : list History.SessionStats) (w : world) :
    result error unit * world :=
  match l with
  | [] => (Ok tt, w)
  | st :: l =>
      if (History.FUPThreshold st =? 0) || History.FUPActive st then warning_loop now e l w
      else
        let pct := UsagePct (History.BytesUsed st) (History.FUPThreshold st) in
        let '(r, w) := enqueue now (warn_up e (History.SubscriberID st)) (warning_task st pct) w in
        match r with
        | Err Jobqueue.ErrTaskIDConflict | Ok _ => warning_loop now e l w
        | Err _ => (Err ErrEnqueue, w)
        end
  end.

Definition scanWarnings (now : Z) (e : ScanEnv) (w : world) : result error unit * world :=
  match History.GetSessionsAtWarning (warnings_up e) History.FUPWarningPct (hist w) with
  | Err _ => (Err ErrQuery, w)
  | Ok l => warning_loop now e l w
  end.

Definition scan (now : Z) (e : ScanEnv) (w : world) : result error unit * world :=
  match scanBreaches now e w with
  | (Err x, w) => (Err x, w)
  | (Ok _, w) =>
      match scanExpiredOverrides now e w with
      | (Err x, w) => (Err x, w)
      | (Ok _, w) => scanWarnings now e w
      end
  end.

Definition ScanOnce : Z -> ScanEnv -> world -> result error unit * world := scan.

End Scanner.

(** ** Control packets (coa_task.go, pod_task.go) *)

Definition DefaultCoAPort : Z := 1700.

Definition CodeDisconnectRequest : Z := 40.
Definition CodeDisconnectACK : Z := 41.
Definition CodeCoARequest : Z := 43.
Definition CodeCoAACK : Z := 44.

(** The request: its code, Acct-Session-Id and the vendor attributes. *)
Record ControlPacket : Type := MkPacket { cp_code : Z; cp_session : string; cp_attrs : list Nas.Attr }.

Record Sent : Type := MkSent { to_ip : string; to_port : Z; with_secret : string; packet : ControlPacket }.

Record ControlHandler : Type := MkControl {
  secret : string;
  port : Z;
  nasResolver : option Nas.Resolver;
  liveSessions : bool
}.

Definition effectivePort (h : ControlHandler) : Z := if port h =? 0 then DefaultCoAPort else port h.

Section Control.
Context `{History.Postgres}.
Variable NewVendorSpecific : Z -> list Z -> option (list Z).
(** Encode, send and await the response: its code, or [None]. *)
Variable exchange : Sent -> option Z.

Definition sendReliableControl (m : Sent) (ackCode : Z) : bool :=
  match exchange m with Some code => code =? ackCode | None => false end.

Definition coa_target (h : ControlHandler) (nasIP rateLimit : string) (planID : Z) :
    string * Z * string * string :=
  match nasResolver h with
  | None => (secret h, effectivePort h, Nas.VendorMikrotik, EmptyString)
  | Some r =>
      let device := Nas.Resolve r nasIP in
      (Nas.Secret device, Nas.CoAPort device, Nas.Vendor device,
       Nas.ResolveProfile r planID (Nas.Vendor device))
  end.

(** [CoAHandler.ProcessTask]: the outcome, the packet put on the wire and the
    live table. *)
Definition process_coa (now : Z) (session_up refresh_up : bool) (h : ControlHandler)
    (payload : list Z) (d : History.DB) (t : LiveSessions.table) :
    Jobqueue.outcome * option Sent * LiveSessions.table :=
  match Json.unmarshal coa_of payload with
  | None => (Jobqueue.Failed "coa: unmarshal payload" false, None, t)
  | Some p =>
      match History.GetSubscriberNASSession now session_up (coa_SubscriberID p) d with
      | Err _ => (Jobqueue.Failed "coa: get NAS session" false, None, t)
      | Ok (nasIP, sessionID, rateLimit, planID) =>
          let '(sec, prt, vendor, profile) := coa_target h nasIP rateLimit planID in
          match Nas.BuildCoAAttrs NewVendorSpecific vendor (Nas.MkProfile rateLimit profile) with
          | Err _ => (Jobqueue.Failed "coa: build vendor attributes" false, None, t)
          | Ok attrs =>
              let m := MkSent nasIP prt sec (MkPacket CodeCoARequest sessionID attrs) in
              if sendReliableControl m CodeCoAACK then
                (Jobqueue.Succeeded, Some m,
                 if liveSessions h
                 then (LiveSessions.UpdateSpeedProfile now refresh_up sessionID rateLimit t).2 else t)
              else (Jobqueue.Failed "radius control" false, Some m, t)
          end
      end
  end.

Definition direct (p : PoDPayload) : bool :=
  negb (String.eqb (pod_NasIP p) EmptyString) && negb (String.eqb (pod_SessionID p) EmptyString).

(** [PoDHandler.ProcessTask] *)
Definition process_pod (now : Z) (session_up : bool) (h : ControlHandler) (payload : list Z)
    (d : History.DB) : Jobqueue.outcome * option Sent :=
  match Json.unmarshal pod_of payload with
  | None => (Jobqueue.Failed "pod: unmarshal payload" false, None)
  | Some p =>
      let target := if direct p then Ok (pod_NasIP p, pod_SessionID p)
                    else match History.GetSubscriberNASSession now session_up (pod_SubscriberID p) d with
                         | Err e => Err e
                         | Ok (nasIP, sessionID, _, _) => Ok (nasIP, sessionID)
                         end in
      match target with
      | Err _ => (Jobqueue.Failed "pod: get NAS session" true, None)
      | Ok (nasIP, sessionID) =>
          let '(sec, prt) := match nasResolver h with
                             | None => (secret h, effectivePort h)
                             | Some r => let device := Nas.Resolve r nasIP in
                                         (Nas.Secret device, Nas.PoDPort device)
                             end in
          let m := MkSent nasIP prt sec (MkPacket CodeDisconnectRequest sessionID []) in
          if sendReliableControl m CodeDisconnectACK then (Jobqueue.Succeeded, Some m)
          else (Jobqueue.Failed "radius control" false, Some m)
      end
  end.

End Control.

Definition NewDirectPoDTask (nasIP sessionID : string) : Jobqueue.Task :=
  Jobqueue.NewTask TaskTypePoD (bytes_of_string (marshal_pod (MkPoD 0 nasIP sessionID)))
    [Jobqueue.Queue QueueNetCommands; Jobqueue.MaxRetry 3].

(** ** Notices (warning_task.go, throttled_task.go) *)

Record Notice : Type := MkNotice {
  n_subscriber : Z; n_template : string; n_event : string; n_vars : list string
}.

Section Notices.
(** The dispatcher; [None] when none is configured. *)
Variable notifier : option (Notice -> bool).

Definition dispatch (n : Notice) : Jobqueue.outcome :=
  match notifier with
  | None => Jobqueue.Failed "notifier not configured" false
  | Some send => if send n then Jobqueue.Succeeded else Jobqueue.Failed "dispatch" false
  end.

Definition process_warning (payload : list Z) : Jobqueue.outcome :=
  match Json.unmarshal warning_of payload with
  | None => Jobqueue.Failed "fup warning: unmarshal payload" true
  | Some p => dispatch (MkNotice (w_SubscriberID p) "TMPL-001" "fup_warning_80pct"
                [w_Username p; format_int (w_PctUsed p) +:+ "%"])
  end.

Definition process_throttled (payload : list Z) : Jobqueue.outcome :=
  match Json.unmarshal throttled_of payload with
  | None => Jobqueue.Failed "fup throttled: unmarshal payload" true
  | Some p =>
      let speed := if String.eqb (th_ThrottleSpeed p) EmptyString then "a reduced speed"%string
                   else th_ThrottleSpeed p in
      dispatch (MkNotice (th_SubscriberID p) "TMPL-002" "fup_throttle_applied"
                  [th_Username p; speed])
  end.

End Notices.

(** ** The dead-letter monitor (deadletter_monitor.go) *)

Definition DefaultDeadLetterReminder : Z := hour.

Record DeadLetterMonitor : Type := MkMonitor {
  reminder : Z;
  lastAlerted : Z;
  lastAlertAt : option Z
}.

Definition NewDeadLetterMonitor : DeadLetterMonitor := MkMonitor DefaultDeadLetterReminder 0 None.

(** The count alerted, if any; [dead] is [None] when it could not be read. *)
Definition checkOnce (now : Z) (dead : option Z) (m : DeadLetterMonitor) : option Z * DeadLetterMonitor :=
  match dead with
  | None => (None, m)
  | Some dead =>
      if dead =? 0 then
        (None, if 0 <? lastAlerted m then MkMonitor (reminder m) 0 None else m)
      else
        let rem := if reminder m <=? 0 then DefaultDeadLetterReminder else reminder m in
        let newIncident := lastAlerted m =? 0 in
        let gotWorse := lastAlerted m <? dead in
        let stale := match lastAlertAt m with None => false | Some t => rem <=? now - t end in
        if negb newIncident && negb gotWorse && negb stale then (None, m)
        else (Some dead, MkMonitor (reminder m) dead (Some now))
  end.

(** ** What the handlers read is what was written *)

Lemma int_reads z : Json.in_int64 z = true -> Json.reads (format_int z) (Json.VInt z).
Proof. apply (Json.print_value_reads (Json.VInt z)). Qed.

Lemma omit_zero_ok k z :
  Json.ascii_text k = true -> Json.in_int64 z = true ->
  Forall (fun p => Json.ascii_text p.1 = true /\ Json.value_ok p.2 = true) (omit_zero k z).
Proof. intros Hk Hz. unfold omit_zero. destruct (z =? 0); by repeat constructor. Qed.

Lemma omit_empty_ok k s :
  Json.ascii_text k = true -> Json.ascii_text s = true ->
  Forall (fun p => Json.ascii_text p.1 = true /\ Json.value_ok p.2 = true) (omit_empty k s).
Proof. intros Hk Hs. unfold omit_empty. destruct (String.eqb s EmptyString); by repeat constructor. Qed.

(** Every payload the package enqueues decodes, in the handler of its
    task, to the fields it was made from, whether it went through
    [json.Marshal] or was put together with [Sprintf] - except that a warning
    whose username holds a character [%q] escapes in Go's own way does not
    decode, and its task is dead-lettered without a retry. *)
Theorem payloads_decode id pct u ip sid sp notifier :
  Json.in_int64 id = true -> Json.in_int64 pct = true ->
  Json.ascii_text u = true -> Json.ascii_text ip = true -> Json.ascii_text sid = true -> Json.ascii_text sp = true ->
  Json.unmarshal coa_of (bytes_of_string (marshal_coa (MkCoA id ip))) = Some (MkCoA id ip) /\
  Json.unmarshal pod_of (bytes_of_string (marshal_pod (MkPoD id ip sid))) = Some (MkPoD id ip sid) /\
  Json.unmarshal throttled_of (bytes_of_string (marshal_throttled (MkThrottled id u sp))) =
    Some (MkThrottled id u sp) /\
  (string_forall Json.plain ip = true ->
     Json.unmarshal coa_of (bytes_of_string (sprintf_coa id ip)) = Some (MkCoA id ip)) /\
  (if string_forall Json.json_safe u
   then Json.unmarshal warning_of (bytes_of_string (sprintf_warning id u pct)) = Some (MkWarning id u pct)
   else process_warning notifier (bytes_of_string (sprintf_warning id u pct)) =
        Jobqueue.Failed "fup warning: unmarshal payload" true).
Proof.
  intros Hid Hpct Hu Hip Hsid Hsp. split; [| split; [| split; [| split]]].
  - unfold marshal_coa. by rewrite Json.unmarshal_marshal by by repeat constructor.
  - unfold marshal_pod. rewrite Json.unmarshal_marshal.
    + cbn [pod_SubscriberID pod_NasIP pod_SessionID]. unfold omit_zero, omit_empty. destruct (Z.eqb_spec id 0) as [-> |], (String.eqb_spec ip EmptyString) as [-> |],
        (String.eqb_spec sid EmptyString) as [-> |]; reflexivity.
    + repeat apply Forall_app_2; by first [apply omit_zero_ok | apply omit_empty_ok].
  - unfold marshal_throttled. by rewrite Json.unmarshal_marshal by by repeat constructor.
  - intros Hp. unfold sprintf_coa.
    rewrite (Json.unmarshal_text _ _ [("subscriber_id", Json.VInt id); ("nas_ip", Json.VStr ip)]%string); [done |].
    repeat constructor; first [done | by apply int_reads | by apply Json.plain_reads].
  - destruct (string_forall Json.json_safe u) eqn:Hj.
    + unfold sprintf_warning. rewrite (Json.unmarshal_text _ _ [("subscriber_id", Json.VInt id);
        ("username", Json.VStr u); ("pct_used", Json.VInt pct)]%string); [done |].
      repeat constructor; first [done | by apply int_reads | by apply Json.go_quote_reads].
    + unfold process_warning, Json.unmarshal, sprintf_warning. rewrite string_of_bytes_of_string.
      pose proof (Json.Unmarshal_refuses [("subscriber_id", format_int id)]%string
        [("subscriber_id", Json.VInt id)]%string "username" (Json.go_quote u)
        [("pct_used", format_int pct)]%string) as Hn. cbn [app] in Hn.
      rewrite Hn; [done | | done | by apply Json.go_quote_refuses].
      repeat constructor; first [done | by apply int_reads].
Qed.

(** ** A breach scan *)

#[local] Arguments Jobqueue.EnqueueContext : simpl never.
#[local] Arguments coa_task : simpl never.
#[local] Arguments throttled_task : simpl never.
#[local] Arguments warning_task : simpl never.

Section BreachScan.
Context `{History.Postgres}.

Definition ids (l : list History.SessionStats) : list Z := map History.SubscriberID l.

(** What one breached session adds to the queue. *)
Definition breach_tasks (now : Z) (e : ScanEnv) (t : Jobqueue.table) (st : History.SessionStats) :
    Jobqueue.table :=
  let id := History.SubscriberID st in
  let t := (Jobqueue.EnqueueContext now true (coa_task (sprintf_coa id (History.NasIP st))) [] t).2 in
  (Jobqueue.EnqueueContext now (notice_up e id) (throttled_task st) [] t).2.

Definition flag (d : History.DB) (st : History.SessionStats) : History.DB :=
  History.with_subscriber (History.SubscriberID st) (History.set_fup true) d.

Definition breached (st : History.SessionStats) : Prop :=
  History.FUPThreshold st <> 0 /\ History.FUPActive st = false /\
  History.FUPThreshold st <= History.BytesUsed st.

Lemma EnqueueContext_untagged now task t :
  Jobqueue.o_taskID (Jobqueue.opts task) = EmptyString ->
  exists t', Jobqueue.EnqueueContext now true task [] t = (Ok (Jobqueue.next_id t), t').
Proof. intros Ht. unfold Jobqueue.EnqueueContext. simpl. rewrite Ht. by eexists. Qed.

Lemma flag_known st d id : is_Some (History.subscribers d !! id) -> is_Some (History.subscribers (flag d st) !! id).
Proof. simpl. rewrite lookup_alter_is_Some. done. Qed.

Lemma breach_loop_up now e l w :
  (forall st, st ∈ l -> breached st /\ is_Some (History.subscribers (hist w) !! History.SubscriberID st) /\
     flag_up e (History.SubscriberID st) = true /\ coa_up e (History.SubscriberID st) = true) ->
  breach_loop now e l w =
    (Ok tt, MkWorld (foldl flag (hist w) l) (foldl (breach_tasks now e) (tasks w) l)).
Proof.
  revert w. induction l as [|st l IH]; intros w Hl; cbn [breach_loop foldl]; [by destruct w |].
  destruct (Hl st ltac:(by left)) as ((Ht & Ha & Hu) & [s Hs] & Hf & Hc).
  apply Z.eqb_neq in Ht. apply Z.leb_le in Hu. rewrite Ht, Ha, Hu. cbn [orb].
  unfold History.SetFUPActive, History.update_subscriber. rewrite Hf, Hs. cbn [negb].
  destruct (EnqueueContext_untagged now (coa_task (sprintf_coa (History.SubscriberID st) (History.NasIP st)))
    (tasks w) eq_refl) as [t' Ht'].
  unfold enqueue at 1. rewrite Hc. cbn [hist tasks]. rewrite Ht'.
  unfold enqueueThrottledNotice, enqueue. cbn [hist tasks].
  destruct (Jobqueue.EnqueueContext now _ (throttled_task st) [] t') as [r t''] eqn:E. cbn [snd].
  assert (breach_tasks now e (tasks w) st = t'') as ->
    by (unfold breach_tasks; rewrite Ht'; cbn [snd]; by rewrite E).
  rewrite IH; [done |]. intros st' Hst'. cbn [hist].
  destruct (Hl st' ltac:(by right)) as (Hb & Hk & Hf' & Hc'). split; [done |].
  split; [by apply flag_known | done].
Qed.

Lemma flags_lookup l d id :
  History.subscribers (foldl flag d l) !! id =
  (fun s => if bool_decide (id ∈ ids l) then History.set_fup true s else s) <$> History.subscribers d !! id.
Proof.
  revert d. induction l as [|st l IH]; intros d; simpl.
  - by destruct (History.subscribers d !! id).
  - rewrite IH. simpl. destruct (decide (History.SubscriberID st = id)) as [<- | Hn].
    + rewrite lookup_alter_eq. destruct (History.subscribers d !! _) as [s|]; [| done]. simpl. f_equal.
      rewrite (bool_decide_true (_ ∈ _ :: _)) by by left. by case_bool_decide.
    + rewrite lookup_alter_ne by done. destruct (History.subscribers d !! id); [| done]. simpl. f_equal.
      destruct (decide (id ∈ ids l)) as [Hin|Hin].
      * rewrite !bool_decide_true; [done | by right | done].
      * rewrite !bool_decide_false; [done | by intros [-> | ?]%elem_of_cons | done].
Qed.

Lemma flags_frame l d :
  History.history (foldl flag d l) = History.history d /\
  History.plans (foldl flag d l) = History.plans d /\
  History.cgnat (foldl flag d l) = History.cgnat d /\
  History.lea_audit_log (foldl flag d l) = History.lea_audit_log d.
Proof. revert d. induction l as [|st l IH]; intros d; simpl; [done |]. by destruct (IH (flag d st)) as (-> & -> & -> & ->). Qed.

Lemma above_spec up d l :
  History.GetActiveSessionsAboveFUP up d = Ok l ->
  up = true /\ History.usage_overflows d = false /\
  l = List.filter (fun st => History.FUPThreshold st <=? History.BytesUsed st) (History.candidates d).
Proof.
  unfold History.GetActiveSessionsAboveFUP, History.scan_stats. destruct up; simpl; [| done].
  destruct (History.usage_overflows d); simpl; [done |]. by destruct (existsb _ _); intros [= <-].
Qed.

Lemma above_breached up d l st :
  History.GetActiveSessionsAboveFUP up d = Ok l -> st ∈ l ->
  breached st /\ exists s, History.subscribers d !! History.SubscriberID st = Some s /\
    History.fup_active s = false.
Proof.
  intros (_ & _ & ->)%above_spec [Hin Hge]%elem_of_filterb.
  apply History.elem_of_candidates in Hin as (s & p & (Hs & _ & Hpos & Hf & _) & Heq).
  split; [| by exists s]. rewrite Heq in Hge |- *. unfold breached. simpl in *. lia.
Qed.

(** Nobody is left over quota once everybody listed is flagged. *)
Lemma above_after_flags d l :
  History.GetActiveSessionsAboveFUP true d = Ok l ->
  History.GetActiveSessionsAboveFUP true (foldl flag d l) = Ok [].
Proof.
  intros Hl. pose proof (above_spec _ _ _ Hl) as (_ & Hov & Hdef).
  destruct (flags_frame l d) as (Hh & Hp & _).
  unfold History.GetActiveSessionsAboveFUP, History.scan_stats. simpl.
  assert (List.filter (fun st => History.FUPThreshold st <=? History.BytesUsed st)
    (History.candidates (foldl flag d l)) = []) as ->.
  { destruct (List.filter _ (History.candidates (foldl flag d l))) as [|st rest] eqn:E; [done |]. exfalso.
    assert (st ∈ st :: rest) as Hin by by left. rewrite <- E in Hin.
    apply elem_of_filterb in Hin as [Hin Hge].
    apply History.elem_of_candidates in Hin as (s & p & Hm & Heq).
    destruct Hm as (Hs & Hpl & Hpos & Hf & Hst & Hon). rewrite flags_lookup in Hs.
    destruct (History.subscribers d !! History.SubscriberID st) as [s0|] eqn:Hs0; [| done].
    simpl in Hs. injection Hs as Hs. case_bool_decide as Hid; subst s; [done |]. apply Hid.
    unfold ids. apply list_elem_of_fmap. exists st. split; [done |]. subst l.
    apply elem_of_filterb. split; [| done]. apply History.elem_of_candidates.
    exists s0, p. rewrite Hh, Hp in *. split; [by repeat split | done]. }
  unfold History.usage_overflows in *. rewrite Hh, Hov. done.
Qed.

(** A scan in which every call succeeds flags exactly the subscribers the
    breach query lists and enqueues, for each of them in the order of the
    query, one CoA task naming them and their throttle notice; it changes
    nothing else, nobody is over quota afterwards, and the next scan, whatever
    works in it, finds nothing to do. *)
Theorem breach_scan_exact now e w l :
  breaches_up e = true -> History.GetActiveSessionsAboveFUP true (hist w) = Ok l ->
  (forall st, st ∈ l -> flag_up e (History.SubscriberID st) = true /\ coa_up e (History.SubscriberID st) = true) ->
  exists w', scanBreaches now e w = (Ok tt, w') /\
    tasks w' = foldl (breach_tasks now e) (tasks w) l /\
    (forall id, History.subscribers (hist w') !! id =
       (fun s => if bool_decide (id ∈ ids l) then History.set_fup true s else s)
         <$> History.subscribers (hist w) !! id) /\
    History.history (hist w') = History.history (hist w) /\
    History.plans (hist w') = History.plans (hist w) /\
    (forall now' e', (scanBreaches now' e' w').2 = w').
Proof.
  intros Hup Hl He. unfold scanBreaches at 1. rewrite Hup, Hl, breach_loop_up.
  - eexists. split; [reflexivity |]. cbn [hist tasks].
    destruct (flags_frame l (hist w)) as (Hh & Hp & _).
    split; [done |]. split; [apply flags_lookup |]. split; [done |]. split; [done |].
    intros now' e'. unfold scanBreaches. cbn [hist]. destruct (breaches_up e'); [| done].
    by rewrite above_after_flags.
  - intros st Hst. destruct (above_breached _ _ _ _ Hl Hst) as (Hb & s & Hs & _).
    split; [done |]. split; [by eexists | by apply He].
Qed.

(** *** A scan that could not enqueue *)

Definition flagged (id : Z) (w : world) : Prop :=
  exists s, History.subscribers (hist w) !! id = Some s /\ History.fup_active s = true.

Definition coa_for (id : Z) (r : Jobqueue.TaskRow) : Prop :=
  Jobqueue.task_type r = TaskTypeCoA /\
  exists ip, Jobqueue.row_payload r = bytes_of_string (sprintf_coa id ip).

(** Every breach CoA for [id] was already there. *)
Definition no_new_coa (id : Z) (t t' : Jobqueue.table) : Prop :=
  forall tid r, Jobqueue.rows t' !! tid = Some r -> coa_for id r -> Jobqueue.rows t !! tid = Some r.

Lemma no_new_refl id t : no_new_coa id t t.
Proof. by intros tid r. Qed.

Lemma no_new_trans id t1 t2 t3 : no_new_coa id t1 t2 -> no_new_coa id t2 t3 -> no_new_coa id t1 t3.
Proof. intros H1 H2 tid r Hr Hc. apply H1; [by apply H2 | done]. Qed.

#[local] Arguments String.append : simpl nomatch.

Lemma cut_format_int z x : cut ","%char (format_int z +:+ String ","%char x) = Some (format_int z, x).
Proof.
  apply cut_app. eapply string_forall_impl; [| apply format_int_chars].
  intros c Hc. by destruct (Ascii.eqb_spec c ","%char) as [-> |].
Qed.

Lemma sprintf_coa_inj id ip id' ip' : sprintf_coa id ip = sprintf_coa id' ip' -> id = id'.
Proof.
  unfold sprintf_coa, Json.object_text. cbn [Json.members]. unfold Json.member. rewrite !string_app_assoc.
  cbn [String.append]. intros E. injection E as E.
  apply (f_equal (cut ","%char)) in E. cbn [String.append] in E.
  rewrite !cut_format_int in E. by simplify_eq.
Qed.

Lemma bytes_coa_inj id ip id' ip' :
  bytes_of_string (sprintf_coa id ip) = bytes_of_string (sprintf_coa id' ip') -> id = id'.
Proof. intros E. by eapply sprintf_coa_inj, bytes_of_string_inj. Qed.

(** Enqueueing any other task adds no CoA for [id]. *)
Lemma enqueue_no_new id now up task w :
  (Jobqueue.typ task = TaskTypeCoA -> forall ip, Jobqueue.payload task <> bytes_of_string (sprintf_coa id ip)) ->
  no_new_coa id (tasks w) (tasks (enqueue now up task w).2).
Proof.
  intros Hother tid r Hr [Ht [ip Hp]]. unfold enqueue, Jobqueue.EnqueueContext in Hr.
  destruct up; [| done]. cbn [negb] in Hr. destruct (_ && _); [done |]. cbn in Hr.
  apply lookup_insert_Some in Hr as [[_ <-] | [_ Hr]]; [| done].
  exfalso. exact (Hother Ht ip Hp).
Qed.

Lemma coa_task_other id st :
  id <> History.SubscriberID st ->
  let task := coa_task (sprintf_coa (History.SubscriberID st) (History.NasIP st)) in
  Jobqueue.typ task = TaskTypeCoA -> forall ip, Jobqueue.payload task <> bytes_of_string (sprintf_coa id ip).
Proof.
  intros Hn task _ ip E. apply Hn. symmetry.
  apply (bytes_coa_inj _ (History.NasIP st) _ ip). exact E.
Qed.

Lemma SetFUPActive_flagged up sid w id :
  let w' := MkWorld (History.SetFUPActive up sid true (hist w)).2 (tasks w) in
  (flagged id w -> flagged id w') /\
  ((History.SetFUPActive up sid true (hist w)).1 = Ok tt -> flagged sid w').
Proof.
  unfold History.SetFUPActive, History.update_subscriber, flagged. destruct up; cbn; [| by split].
  destruct (History.subscribers (hist w) !! sid) as [s|] eqn:Hs; cbn; [| by split]. split.
  - intros (s' & Hs' & Hf). destruct (decide (sid = id)) as [<- | Hn].
    + rewrite lookup_alter_eq, Hs. by eexists.
    + rewrite lookup_alter_ne by done. by eexists.
  - intros _. rewrite lookup_alter_eq, Hs. by eexists.
Qed.

Lemma flagged_hist id w w' : hist w' = hist w -> flagged id w -> flagged id w'.
Proof. unfold flagged. by intros ->. Qed.

(** One pass of the loop: flags stay, and only the listed get a CoA. *)
Lemma breach_loop_keeps now e l w id :
  (flagged id w -> flagged id (breach_loop now e l w).2) /\
  (id ∉ ids l -> no_new_coa id (tasks w) (tasks (breach_loop now e l w).2)).
Proof.
  revert w. induction l as [|st l IH]; intros w; cbn [breach_loop]; [by split; [| intros; apply no_new_refl] |].
  change (ids (st :: l)) with (History.SubscriberID st :: ids l). rewrite not_elem_of_cons.
  assert (forall w', (flagged id w -> flagged id w') ->
    (id <> History.SubscriberID st -> no_new_coa id (tasks w) (tasks w')) ->
    (flagged id w -> flagged id (breach_loop now e l w').2) /\
    (id <> History.SubscriberID st /\ id ∉ ids l ->
     no_new_coa id (tasks w) (tasks (breach_loop now e l w').2))) as Hgo.
  { intros w' Hf Hn. destruct (IH w') as [IHf IHn]. split; [auto |].
    intros [Hid Hin]. eapply no_new_trans; eauto. }
  destruct (_ || _); [apply Hgo; [done | intros; apply no_new_refl] |].
  destruct (_ <=? _); [| apply Hgo; [done | intros; apply no_new_refl]].
  destruct (SetFUPActive_flagged (flag_up e (History.SubscriberID st)) (History.SubscriberID st) w id) as [Hfl _].
  destruct (History.SetFUPActive _ _ _ _) as [[u|x] h]; cbn in Hfl;
    [| apply Hgo; [done | intros; apply no_new_refl]].
  set (w1 := MkWorld h (tasks w)) in *.
  pose proof (enqueue_no_new id now (coa_up e (History.SubscriberID st))
    (coa_task (sprintf_coa (History.SubscriberID st) (History.NasIP st))) w1) as Hc.
  assert (hist (enqueue now (coa_up e (History.SubscriberID st))
    (coa_task (sprintf_coa (History.SubscriberID st) (History.NasIP st))) w1).2 = hist w1) as Hh
    by (unfold enqueue; by destruct (Jobqueue.EnqueueContext _ _ _ _ _)).
  destruct (enqueue now _ (coa_task _) w1) as [[n|x] w2]; cbn [snd] in Hc, Hh.
  - apply Hgo.
    + intros Hf%Hfl. unfold enqueueThrottledNotice, enqueue.
      destruct (Jobqueue.EnqueueContext _ _ _ _ _). eapply flagged_hist; [| exact Hf]. done.
    + intros Hid. eapply no_new_trans; [apply Hc; by apply coa_task_other |].
      apply enqueue_no_new. intros E. discriminate E.
  - split; [intros Hf%Hfl; eapply flagged_hist; eauto |]. intros [Hid _]. apply Hc. by apply coa_task_other.
Qed.

(** A pass that stops at an enqueue leaves a flagged subscriber with no CoA. *)
Lemma breach_loop_stops now e l w x w' :
  NoDup (ids l) -> breach_loop now e l w = (Err x, w') ->
  exists st, st ∈ l /\ flagged (History.SubscriberID st) w' /\
    no_new_coa (History.SubscriberID st) (tasks w) (tasks w').
Proof.
  revert w. induction l as [|st l IH]; intros w; cbn [breach_loop]; [done |].
  intros [Hnot Hnd]%NoDup_cons Hrun.
  assert (forall w1, breach_loop now e l w1 = (Err x, w') ->
    (forall id, id <> History.SubscriberID st -> no_new_coa id (tasks w) (tasks w1)) ->
    exists st0, st0 ∈ st :: l /\ flagged (History.SubscriberID st0) w' /\
      no_new_coa (History.SubscriberID st0) (tasks w) (tasks w')) as Hgo.
  { intros w1 H1 Hn. destruct (IH w1 Hnd H1) as (st' & Hin & Hf & Hc). exists st'.
    split; [by right |]. split; [done |]. eapply no_new_trans; [apply Hn | exact Hc].
    intros E. apply Hnot. rewrite <- E. by apply list_elem_of_fmap_2. }
  destruct (_ || _); [eapply Hgo; [exact Hrun | intros; apply no_new_refl] |].
  destruct (_ <=? _); [| eapply Hgo; [exact Hrun | intros; apply no_new_refl]].
  destruct (SetFUPActive_flagged (flag_up e (History.SubscriberID st)) (History.SubscriberID st) w 0) as [_ Hfl].
  destruct (History.SetFUPActive _ _ _ _) as [[[]|y] h]; cbn in Hfl;
    [| eapply Hgo; [exact Hrun | intros; apply no_new_refl]].
  specialize (Hfl eq_refl). set (w1 := MkWorld h (tasks w)) in *.
  pose proof (fun id => enqueue_no_new id now (coa_up e (History.SubscriberID st))
    (coa_task (sprintf_coa (History.SubscriberID st) (History.NasIP st))) w1) as Hc.
  destruct (enqueue now _ (coa_task _) w1) as [[n|y] w2] eqn:Eq; cbn [snd] in Hc.
  - eapply Hgo; [exact Hrun |]. intros id Hid.
    eapply no_new_trans; [apply Hc; by apply coa_task_other |]. apply enqueue_no_new. intros E. discriminate E.
  - injection Hrun as _ <-. exists st. split; [by left |]. unfold enqueue in Eq.
    destruct (Jobqueue.EnqueueContext _ _ _ _ _) as [r t] eqn:Ee. injection Eq as -> <-. split; [done |].
    cbn [tasks]. unfold Jobqueue.EnqueueContext in Ee. cbn in Ee.
    destruct (negb _); [injection Ee as _ <-; apply no_new_refl | discriminate Ee].
Qed.

(** The throttle that is never applied. When a breach scan fails because
    one CoA could not be enqueued, a subscriber it had listed is left flagged
    as throttled with no CoA task for them; and no later breach scan, however
    many run and whatever works in them, lists them or enqueues that CoA. *)
Theorem lost_coa_is_final now e w w1 :
  scanBreaches now e w = (Err ErrEnqueue, w1) ->
  exists id, (exists l, History.GetActiveSessionsAboveFUP true (hist w) = Ok l /\ id ∈ ids l) /\
    forall w2, star (fun a b => exists now' e', b = (scanBreaches now' e' a).2) w1 w2 ->
      flagged id w2 /\ no_new_coa id (tasks w) (tasks w2) /\
      forall l2, History.GetActiveSessionsAboveFUP true (hist w2) = Ok l2 -> id ∉ ids l2.
Proof.
  unfold scanBreaches at 1. destruct (History.GetActiveSessionsAboveFUP _ _) as [l|] eqn:Hl; [| done].
  assert (forall id w2 l2 b, flagged id w2 -> History.GetActiveSessionsAboveFUP b (hist w2) = Ok l2 -> id ∉ ids l2) as Hout.
  { intros id w2 l2 b (s & Hs & Hf) Hl2 (st & -> & Hst)%list_elem_of_fmap.
    destruct (above_breached _ _ _ _ Hl2 Hst) as (_ & s' & Hs' & Hf'). congruence. }
  pose proof (above_spec _ _ _ Hl) as (Hb & _ & Hdef). rewrite Hb in Hl. intros Hrun.
  assert (NoDup (ids l)) as Hnd by (subst l; apply History.NoDup_map_filterb, History.candidates_nodup).
  destruct (breach_loop_stops _ _ _ _ _ _ Hnd Hrun) as (st & Hin & Hf & Hn).
  exists (History.SubscriberID st). split; [exists l; split; [done | by apply list_elem_of_fmap_2] |].
  intros w2 Hstar.
  assert (flagged (History.SubscriberID st) w2 /\ no_new_coa (History.SubscriberID st) (tasks w) (tasks w2)) as [Hf2 Hn2].
  { eapply (star_invariant _ (fun x => flagged (History.SubscriberID st) x /\
      no_new_coa (History.SubscriberID st) (tasks w) (tasks x))); [| exact Hstar | by split].
    intros a b [Ha Hna] (now' & e' & ->). unfold scanBreaches.
    destruct (History.GetActiveSessionsAboveFUP _ (hist a)) as [la|] eqn:Hla; [| done]. cbn [snd].
    destruct (breach_loop_keeps now' e' la a (History.SubscriberID st)) as [Kf Kn].
    split; [by apply Kf |]. eapply no_new_trans; [exact Hna |]. apply Kn. by eapply Hout. }
  split; [done |]. split; [done |]. intros l2. by apply Hout.
Qed.

End BreachScan.

(** ** Warnings *)

Section Warnings.
Context `{History.Postgres} `{Decimal}.

Definition fresh (t : Jobqueue.table) : Prop :=
  forall i, is_Some (Jobqueue.rows t !! i) -> i < Jobqueue.next_id t.

Definition warn_id (st : History.SessionStats) : string :=
  WarningTaskID (History.SubscriberID st) (History.FUPThreshold st).

Definition warned (st : History.SessionStats) (t : Jobqueue.table) : Prop :=
  Jobqueue.id_taken (warn_id st) t = true.

Lemma warned_mono st t t' : Jobqueue.rows t ⊆ Jobqueue.rows t' -> warned st t -> warned st t'.
Proof.
  unfold warned. rewrite !Jobqueue.id_taken_spec. intros Hs (i & r & Hi & Hr). exists i, r.
  split; [by eapply lookup_weaken | done].
Qed.

Definition warning_row (now : Z) (st : History.SessionStats) : Jobqueue.TaskRow :=
  Jobqueue.enqueued_row now (warning_task st (UsagePct (History.BytesUsed st) (History.FUPThreshold st)))
    (Jobqueue.opts (warning_task st 0)).

Lemma warn_id_nonempty st : String.eqb (warn_id st) EmptyString = false.
Proof. done. Qed.

(** Enqueueing one warning. *)
Lemma EnqueueContext_warning now up st t :
  let '(r, t') := Jobqueue.EnqueueContext now up
    (warning_task st (UsagePct (History.BytesUsed st) (History.FUPThreshold st))) [] t in
  (Jobqueue.rows t' = Jobqueue.rows t \/
   ~ warned st t /\ Jobqueue.rows t' = <[Jobqueue.next_id t := warning_row now st]> (Jobqueue.rows t)) /\
  (fresh t -> fresh t') /\
  (up = true -> warned st t' /\ r <> Err Jobqueue.ErrDatabase).
Proof.
  unfold Jobqueue.EnqueueContext. destruct up; cbn [negb]; [| split; [by left | by split]].
  change (Jobqueue.o_taskID _) with (warn_id st). rewrite warn_id_nonempty. cbn [negb andb].
  destruct (Jobqueue.id_taken (warn_id st) t) eqn:Ht.
  - split; [by left |]. split; [intros Hf i Hi; specialize (Hf i Hi); cbn; lia |].
    intros _. split; [exact Ht | done].
  - split; [| split].
    + right. unfold warned. by rewrite Ht.
    + intros Hf i. cbn. rewrite lookup_insert_is_Some. intros [<- | [_ Hi]]; [lia |].
      specialize (Hf i Hi). lia.
    + intros _. split; [| done]. apply Jobqueue.id_taken_spec. exists (Jobqueue.next_id t). eexists.
      cbn. rewrite lookup_insert_eq. done.
Qed.

(** The loop's effect, when every enqueue can be executed. *)
Definition new_warnings (now : Z) (l : list History.SessionStats) (t t' : Jobqueue.table) : Prop :=
  forall i r, Jobqueue.rows t' !! i = Some r -> Jobqueue.rows t !! i = Some r \/
    exists st, st ∈ l /\ ~ warned st t /\ r = warning_row now st.

Lemma warning_loop_up now e l w :
  (forall st, st ∈ l -> History.FUPThreshold st <> 0 /\ History.FUPActive st = false /\
     warn_up e (History.SubscriberID st) = true) ->
  fresh (tasks w) ->
  exists w', warning_loop now e l w = (Ok tt, w') /\ hist w' = hist w /\
    Jobqueue.rows (tasks w) ⊆ Jobqueue.rows (tasks w') /\
    (forall st, st ∈ l -> warned st (tasks w')) /\
    new_warnings now l (tasks w) (tasks w').
Proof.
  revert w. induction l as [|st l IH]; intros w Hl Hf.
  - exists w. split; [by destruct w |]. repeat split; try done; [by intros st ?%not_elem_of_nil | intros i r ?; by left].
  - destruct (Hl st ltac:(by left)) as (Ht & Ha & Hu). apply Z.eqb_neq in Ht. cbn [warning_loop].
    rewrite Ht, Ha, Hu. cbn [orb]. unfold enqueue.
    pose proof (EnqueueContext_warning now true st (tasks w)) as He.
    destruct (Jobqueue.EnqueueContext _ _ _ _ _) as [r t']. destruct He as (Hrows & Hf' & Hw).
    destruct (Hw eq_refl) as [Hwarn Hr]. set (w1 := MkWorld (hist w) t').
    assert (Jobqueue.rows (tasks w) ⊆ Jobqueue.rows t') as Hsub.
    { destruct Hrows as [-> | [_ ->]]; [done |]. apply insert_subseteq.
      apply eq_None_not_Some. intros Hi. specialize (Hf _ Hi). lia. }
    destruct (IH w1) as (w' & Hrun & Hh & Hs & Hall & Hnew);
      [intros st' Hst'; apply Hl; by right | by apply Hf' |]. cbn in Hh, Hs.
    exists w'. split; [by destruct r as [|[]] |]. split; [done |]. split; [by etrans |]. split.
    + intros st' [-> | Hin]%elem_of_cons; [by eapply warned_mono | by apply Hall].
    + intros i r0 [Hi | (st' & Hin & Hnw & ->)]%Hnew.
      * cbn in Hi. destruct Hrows as [E | [Hnw E]]; rewrite E in Hi; [by left |].
        apply lookup_insert_Some in Hi as [[_ <-] | [_ Hi]]; [| by left].
        right. exists st. split; [by left | done].
      * right. exists st'. split; [by right |]. split; [| done].
        intros Hc. apply Hnw. by eapply warned_mono.
Qed.

Lemma warning_loop_idle now e l w :
  (forall st, st ∈ l -> warned st (tasks w)) ->
  hist (warning_loop now e l w).2 = hist w /\
  Jobqueue.rows (tasks (warning_loop now e l w).2) = Jobqueue.rows (tasks w).
Proof.
  revert w. induction l as [|st l IH]; intros w Hl; cbn [warning_loop]; [done |].
  destruct (_ || _); [apply IH; intros; apply Hl; by right |]. unfold enqueue.
  pose proof (EnqueueContext_warning now (warn_up e (History.SubscriberID st)) st (tasks w)) as He.
  destruct (Jobqueue.EnqueueContext _ _ _ _ _) as [r t'].
  destruct He as ([Hrows | [Hn _]] & _); [| exfalso; apply Hn, Hl; by left].
  assert (hist (warning_loop now e l (MkWorld (hist w) t')).2 = hist w /\
    Jobqueue.rows (tasks (warning_loop now e l (MkWorld (hist w) t')).2) = Jobqueue.rows (tasks w)) as Hgo.
  { destruct (IH (MkWorld (hist w) t')) as [-> ->]; [| done].
    intros st' Hin. unfold warned. rewrite Jobqueue.id_taken_spec. cbn [tasks]. rewrite Hrows. apply Jobqueue.id_taken_spec.
    apply Hl. by right. }
  by destruct r as [|[]].
Qed.

Lemma warning_spec up pct d l :
  History.GetSessionsAtWarning up pct d = Ok l ->
  0 < pct < 100 ->
  up = true /\ forall st, st ∈ l -> st ∈ History.candidates d /\
    History.FUPThreshold st * pct / 100 <= History.BytesUsed st < History.FUPThreshold st.
Proof.
  unfold History.GetSessionsAtWarning, History.scan_stats. intros Hl Hp.
  replace ((pct <=? 0) || (100 <=? pct)) with false in Hl by lia.
  destruct up; [| done]. cbn [negb] in Hl. destruct (existsb _ _); [done |].
  destruct (_ || _); [done |]. injection Hl as <-. split; [done |].
  intros st [Hin Hb]%elem_of_filterb. split; [done | lia].
Qed.

(** An 80% scan whose calls succeed leaves a warning task on the queue
    for every subscriber it lists, adding one - stating the share of the quota
    used, 79 to 99 percent - exactly when the queue held none for that
    subscriber and quota; and while those tasks are kept, no later scan adds
    another. *)
Theorem warnings_exact `{!DecimalLaws} now e w l :
  fresh (tasks w) -> warnings_up e = true ->
  History.GetSessionsAtWarning true History.FUPWarningPct (hist w) = Ok l ->
  (forall st, st ∈ l -> warn_up e (History.SubscriberID st) = true) ->
  exists w', scanWarnings now e w = (Ok tt, w') /\ hist w' = hist w /\
    Jobqueue.rows (tasks w) ⊆ Jobqueue.rows (tasks w') /\
    (forall st, st ∈ l -> warned st (tasks w')) /\
    (forall i r, Jobqueue.rows (tasks w') !! i = Some r -> Jobqueue.rows (tasks w) !! i = Some r \/
       exists st pct, st ∈ l /\ ~ warned st (tasks w) /\
         Jobqueue.task_id r = Some (warn_id st) /\
         Jobqueue.row_payload r =
           bytes_of_string (sprintf_warning (History.SubscriberID st) (History.Username st) pct) /\
         (100 <= History.FUPThreshold st < 2 * 10 ^ 16 -> 79 <= pct <= 99)) /\
    (forall now' e', Jobqueue.rows (tasks (scanWarnings now' e' w').2) = Jobqueue.rows (tasks w')).
Proof.
  intros Hf Hup Hl He. destruct (warning_spec _ _ _ _ Hl ltac:(done)) as [_ Hspec].
  assert (forall st, st ∈ l -> History.FUPThreshold st <> 0 /\ History.FUPActive st = false /\
    warn_up e (History.SubscriberID st) = true) as Hl'.
  { intros st Hst. destruct (Hspec st Hst) as [Hc _].
    apply History.elem_of_candidates in Hc as (s & p & (_ & _ & Hpos & _) & Heq).
    rewrite Heq. cbn. split; [lia |]. split; [done |]. by apply He. }
  destruct (warning_loop_up now e l w Hl' Hf) as (w' & Hrun & Hh & Hs & Hall & Hnew).
  exists w'. unfold scanWarnings at 1. rewrite Hup, Hl. split; [done |]. split; [done |].
  split; [done |]. split; [done |]. split.
  - intros i r [Hi | (st & Hin & Hnw & ->)]%Hnew; [by left | right].
    exists st. eexists. split; [done |]. split; [done |]. split; [done |]. split; [reflexivity |].
    intros Ht. destruct (Hspec st Hin) as [Hc Hb].
    unfold UsagePct. replace (History.FUPThreshold st =? 0) with false by lia.
    unfold History.FUPWarningPct in Hb. set (T := History.FUPThreshold st) in *.
    set (u := History.BytesUsed st) in *.
    pose proof (Z.div_mod (T * 80) 100 ltac:(lia)). pose proof (Z.mod_pos_bound (T * 80) 100 ltac:(lia)).
    rewrite percentage_exact by lia. split.
    + apply Z.div_le_lower_bound; lia.
    + apply Z.lt_succ_r, Z.div_lt_upper_bound; lia.
  - intros now' e'. unfold scanWarnings. rewrite Hh.
    destruct (History.GetSessionsAtWarning (warnings_up e') _ (hist w)) as [l'|] eqn:Hl2; [| done].
    assert (l' = l) as -> by (destruct (warnings_up e'); [congruence | done]).
    by apply warning_loop_idle.
Qed.

End Warnings.

(** ** What a CoA carries *)

(** The row as [GetSubscriberByUsername] (internal/db/subscribers.go) hands it
    to authentication; the columns the session store does not have are
    arguments. *)
Definition radius_view (id : Z) (hash : string) (nt : list Z) (vol : Z)
    (s : History.SubscriberRow) (p : History.PlanRow) : Identity.Subscriber :=
  Identity.MkSubscriber id (History.username s) hash (History.status s) (History.rate_limit_string p)
    (History.fup_active s) (default EmptyString (History.fup_throttle_string p))
    (default EmptyString (History.speed_override_rate_limit s)) (History.speed_override_expires_at s)
    (History.plan_id s) nt vol.

Lemma rate_agrees now id hash nt vol s p :
  History.speed_override_rate_limit s <> Some EmptyString ->
  History.rate_in_force now s p = Identity.effectiveRateLimit now (radius_view id hash nt vol s p).
Proof.
  intros Hne. unfold History.rate_in_force, Identity.effectiveRateLimit, Identity.nonempty, radius_view. cbn.
  destruct (History.speed_override_rate_limit s) as [rate|]; cbn; [| done].
  destruct (String.eqb_spec rate EmptyString) as [-> | _]; [done |]. cbn.
  by destruct (History.speed_override_expires_at s).
Qed.

Lemma builders_agree nvs vendor p : Nas.BuildCoAAttrs nvs vendor p = Nas.BuildAcceptAttrs nvs vendor p.
Proof.
  unfold Nas.BuildCoAAttrs, Nas.BuildAcceptAttrs, Nas.BuilderFor, Nas.registered.
  destruct (List.find _ (Nas.builders nvs)) as [[v b]|] eqn:E; [| done].
  apply List.find_some in E as [E _]. cbn.
  repeat (destruct E as [E | E]; [injection E as _ <-; done |]). done.
Qed.

Section CoA.
Context `{History.Postgres}.
Variable nvs : Z -> list Z -> option (list Z).
Variable exchange : Sent -> option Z.

(** Whatever the task's payload says, the packet a CoA task puts on the
    wire addresses the subscriber's most recent open session at its own NAS,
    and carries exactly the bandwidth attributes an Access-Accept issued to
    that subscriber at that moment would carry. The task succeeds only on the
    NAS's CoA-ACK, and is otherwise left to be retried; the live table shows
    the new rate only after the ACK. *)
Theorem coa_sends_current_rate now up refresh h payload d t out m t' :
  process_coa nvs exchange now up refresh h payload d t = (out, Some m, t') ->
  exists p s pl r, Json.unmarshal coa_of payload = Some p /\
    History.subscribers d !! coa_SubscriberID p = Some s /\ History.plans d !! History.plan_id s = Some pl /\
    r ∈ History.open_rows (coa_SubscriberID p) (History.history d) /\
    (forall r', r' ∈ History.open_rows (coa_SubscriberID p) (History.history d) ->
       History.start_time r' <= History.start_time r) /\
    to_ip m = History.nas_ip_address r /\
    cp_code (packet m) = CodeCoARequest /\ cp_session (packet m) = History.session_id r /\
    (History.speed_override_rate_limit s <> Some EmptyString -> forall hash nt vol,
       let sub := radius_view (coa_SubscriberID p) hash nt vol s pl in
       let '(sec, prt, vendor, profile) :=
         coa_target h (to_ip m) (Identity.effectiveRateLimit now sub) (Identity.PlanID sub) in
       Nas.BuildAcceptAttrs nvs vendor (Nas.MkProfile (Identity.effectiveRateLimit now sub) profile) =
         Ok (cp_attrs (packet m)) /\ to_port m = prt /\ with_secret m = sec) /\
    (exchange m = Some CodeCoAACK <-> out = Jobqueue.Succeeded) /\
    (exchange m <> Some CodeCoAACK -> (exists msg, out = Jobqueue.Failed msg false) /\ t' = t) /\
    (exchange m = Some CodeCoAACK -> liveSessions h = true -> refresh = true ->
       t' = LiveSessions.update_session now (cp_session (packet m))
              (LiveSessions.with_profile (History.rate_in_force now s pl)) t).
Proof.
  unfold process_coa, History.GetSubscriberNASSession.
  destruct (Json.unmarshal coa_of payload) as [p|]; [| done]. destruct up; [| done]. cbn [negb].
  destruct (History.subscribers d !! coa_SubscriberID p) as [s|] eqn:Hs; [| done].
  destruct (History.plans d !! History.plan_id s) as [pl|] eqn:Hp; [| done].
  pose proof (History.newest_spec (History.open_rows (coa_SubscriberID p) (History.history d))) as Hn.
  destruct (min_by History.newest _) as [r|]; [| done]. destruct Hn as [Hr Hlast].
  destruct (coa_target h _ _ _) as [[[sec prt] vendor] profile] eqn:Htg.
  destruct (Nas.BuildCoAAttrs nvs vendor _) as [attrs|] eqn:Ha; [| done].
  set (m0 := MkSent _ _ _ _). unfold sendReliableControl. intros Hrun.
  assert (m = m0) as -> by (destruct (exchange m0) as [c|]; [destruct (c =? CodeCoAACK) |]; congruence).
  exists p, s, pl, r. repeat (split; [done |]). split.
  { intros Hne hash nt vol. cbv zeta. rewrite <- (rate_agrees now _ hash nt vol s pl Hne).
    change (Identity.PlanID _) with (History.plan_id s). change (to_ip m0) with (History.nas_ip_address r).
    rewrite Htg, <- builders_agree, Ha. done. }
  destruct (decide (exchange m0 = Some CodeCoAACK)) as [E | E].
  - rewrite E in Hrun. cbn in Hrun. injection Hrun as <- <-. repeat split; try done.
    by intros _ -> ->.
  - assert (match exchange m0 with Some code => code =? CodeCoAACK | None => false end = false) as Hno.
    { destruct (exchange m0) as [c|]; [| done]. apply Z.eqb_neq. congruence. }
    rewrite Hno in Hrun. injection Hrun as <- <-. split; [by split |].
    split; [intros _; split; [by eexists | done] | done].
Qed.

End CoA.

(** ** When the monitor pages *)

Definition poll : Type := (Z * option Z)%type.

Definition watch (m : DeadLetterMonitor) (l : list poll) : DeadLetterMonitor :=
  foldl (fun m p => (checkOnce p.1 p.2 m).2) m l.

(** The alert raised at a poll that follows [pre]. *)
Definition alerted (m : DeadLetterMonitor) (pre : list poll) (p : poll) : Prop :=
  is_Some (checkOnce p.1 p.2 (watch m pre)).1.

(** The polls [l] after [pre] raise no alert and never see an empty queue. *)
Definition quiet (m : DeadLetterMonitor) (pre l : list poll) : Prop :=
  forall a p b, l = a ++ p :: b -> p.2 <> Some 0 /\ ~ alerted m (pre ++ a) p.

Lemma watch_app m a b : watch m (a ++ b) = watch (watch m a) b.
Proof. unfold watch. by rewrite foldl_app. Qed.

Lemma checkOnce_silent t o m : o <> Some 0 -> (checkOnce t o m).1 = None -> (checkOnce t o m).2 = m.
Proof.
  unfold checkOnce. destruct o as [c|]; [| done]. intros Hc.
  destruct (Z.eqb_spec c 0) as [-> |]; [done |]. by destruct (_ && _).
Qed.

Lemma quiet_watch m pre l : quiet m pre l -> watch m (pre ++ l) = watch m pre.
Proof.
  revert pre. induction l as [|p l IH]; intros pre Hq; [by rewrite app_nil_r |].
  replace (pre ++ p :: l) with ((pre ++ [p]) ++ l) by by rewrite <- app_assoc.
  destruct (Hq [] p l eq_refl) as [Hz Ha]. rewrite app_nil_r in Ha.
  rewrite IH.
  - rewrite watch_app. simpl. apply checkOnce_silent; [done |]. by apply eq_None_not_Some.
  - intros a q b ->. rewrite <- app_assoc. apply (Hq (p :: a) q b). done.
Qed.

Lemma quiet_snoc m pre l p :
  quiet m pre l -> p.2 <> Some 0 -> ~ alerted m (pre ++ l) p -> quiet m pre (l ++ [p]).
Proof.
  intros Hq Hz Ha a q b E. destruct b as [|x b _] using rev_ind.
  - apply app_inj_tail in E as [-> ->]. done.
  - rewrite app_comm_cons, app_assoc in E. apply app_inj_tail in E as [-> _]. by eapply Hq.
Qed.

Definition counts_ok (l : list poll) : Prop := forall p c, p ∈ l -> p.2 = Some c -> 0 <= c.

(** The monitor's two fields are its last alert of the present incident. *)
Definition last_alert (m : DeadLetterMonitor) (pre : list poll) : Prop :=
  match lastAlertAt (watch m pre) with
  | None => lastAlerted (watch m pre) = 0
  | Some t0 => exists pre1 c0 pre2, pre = pre1 ++ (t0, Some c0) :: pre2 /\ 0 < c0 /\
      lastAlerted (watch m pre) = c0 /\ alerted m pre1 (t0, Some c0) /\
      quiet m (pre1 ++ [(t0, Some c0)]) pre2
  end.

Lemma watch_reminder m pre : reminder (watch m pre) = reminder m.
Proof.
  induction pre as [|p pre IH] using rev_ind; [done |]. rewrite watch_app. simpl. rewrite <- IH.
  unfold checkOnce. destruct p.2 as [c|]; [| done]. by repeat case_match.
Qed.

Lemma alerted_state m pre t c :
  c <> 0 -> alerted m pre (t, Some c) ->
  watch m (pre ++ [(t, Some c)]) = MkMonitor (reminder m) c (Some t).
Proof.
  intros Hc [x Hx]. rewrite watch_app. simpl in *. rewrite <- (watch_reminder m pre).
  unfold checkOnce in *. destruct (Z.eqb_spec c 0); [done |]. by destruct (_ && _).
Qed.

Lemma last_alert_holds r pre :
  counts_ok pre -> last_alert (MkMonitor r 0 None) pre.
Proof.
  induction pre as [|p pre IH] using rev_ind; [done |]. intros Hok.
  assert (last_alert (MkMonitor r 0 None) pre) as Hl
    by (apply IH; intros q c Hq; apply Hok; apply elem_of_app; by left).
  set (m := MkMonitor r 0 None) in *. destruct p as [t o].
  destruct (decide (o = Some 0)) as [-> | Hz].
  - unfold last_alert in *. rewrite !watch_app. simpl. unfold checkOnce. simpl.
    destruct (0 <? lastAlerted (watch m pre)) eqn:Hp; [done |].
    destruct (lastAlertAt (watch m pre)) as [t0|]; [| done].
    destruct Hl as (? & c0 & ? & _ & Hc0 & E & _). lia.
  - destruct (checkOnce t o (watch m pre)).1 as [x|] eqn:Ha.
    + destruct o as [c|]; [| done].
      assert (0 <= c) by (eapply Hok; [apply elem_of_app; right; by left | done]).
      assert (0 < c) by (destruct (decide (c = 0)); [congruence | lia]).
      assert (alerted m pre (t, Some c)) as Hal by (eexists; exact Ha).
      unfold last_alert. rewrite alerted_state by (done || lia). simpl.
      exists pre, c, []. split; [done |]. split; [done |]. split; [done |]. split; [exact Hal |].
      intros a q b E. by destruct a.
    + assert (~ alerted m pre (t, o)) as Hna by (unfold alerted; simpl; rewrite Ha; by intros [y Hy]).
      unfold last_alert in *. rewrite watch_app. simpl.
      rewrite (checkOnce_silent _ _ _ Hz Ha).
      destruct (lastAlertAt (watch m pre)) as [t0|]; [| done].
      destruct Hl as (pre1 & c0 & pre2 & -> & Hc0 & E & Hal & Hq).
      exists pre1, c0, (pre2 ++ [(t, o)]). rewrite <- app_assoc. simpl.
      split; [done |]. split; [done |]. split; [done |]. split; [done |].
      apply quiet_snoc; [done | done |]. by rewrite <- app_assoc.
Qed.

(** The monitor pages at a poll that finds dead tasks unless it already
    has, for this incident, recently enough and for at least as many: unless
    its last alert since the queue was last empty is less than a reminder
    interval old and reported no fewer tasks. A poll of an empty queue, or one
    that could not read the count, never pages. *)
Theorem pages_exactly_on_news r pre t o :
  0 < r -> counts_ok (pre ++ [(t, o)]) ->
  let m := MkMonitor r 0 None in
  alerted m pre (t, o) <->
  exists c, o = Some c /\ 0 < c /\
    ~ exists pre1 t0 c0 pre2, pre = pre1 ++ (t0, Some c0) :: pre2 /\ 0 < c0 /\
        alerted m pre1 (t0, Some c0) /\ quiet m (pre1 ++ [(t0, Some c0)]) pre2 /\
        c <= c0 /\ t - t0 < r.
Proof.
  intros Hr Hok m.
  assert (last_alert m pre) as Hl
    by (apply last_alert_holds; intros q c Hq; apply Hok; apply elem_of_app; by left).
  assert (forall pre1 t0 c0 pre2, pre = pre1 ++ (t0, Some c0) :: pre2 -> 0 < c0 ->
    alerted m pre1 (t0, Some c0) -> quiet m (pre1 ++ [(t0, Some c0)]) pre2 ->
    watch m pre = MkMonitor r c0 (Some t0)) as Hst.
  { intros pre1 t0 c0 pre2 -> Hc0 Ha Hq.
    replace (pre1 ++ (t0, Some c0) :: pre2) with ((pre1 ++ [(t0, Some c0)]) ++ pre2) by by rewrite <- app_assoc.
    rewrite quiet_watch by done. apply alerted_state; [lia | done]. }
  unfold last_alert in Hl. unfold alerted at 1. simpl. unfold checkOnce.
  destruct o as [c|]; [| split; [by intros [x Hx] | by intros (c & E & _)]].
  assert (0 <= c) by (eapply Hok; [apply elem_of_app; right; by left | done]).
  destruct (Z.eqb_spec c 0) as [-> | Hc]; [split; [by intros [x Hx] | intros (c & E & ? & _); simplify_eq; lia] |].
  split.
  - intros Hal. exists c. split; [done |]. split; [lia |]. intros (pre1 & t0 & c0 & pre2 & -> & Hc0 & Ha & Hq & Hle & Hlt).
    rewrite (Hst pre1 t0 c0 pre2 eq_refl Hc0 Ha Hq) in Hal. cbn in Hal.
    replace (r <=? 0) with false in Hal by lia.
    replace (c0 =? 0) with false in Hal by lia. replace (c0 <? c) with false in Hal by lia.
    replace (r <=? t - t0) with false in Hal by lia. by destruct Hal.
  - intros (c' & E & _ & Hno). injection E as <-.
    destruct (_ && _) eqn:Hsil; [| by eexists]. exfalso. apply Hno.
    apply andb_true_iff in Hsil as [[Hni Hgw]%andb_true_iff Hst'].
    rewrite !negb_true_iff in *. rewrite watch_reminder in Hst'. cbn [reminder m] in Hst'.
    replace (r <=? 0) with false in Hst' by lia.
    destruct (lastAlertAt (watch m pre)) as [t0|]; [| lia].
    destruct Hl as (pre1 & c0 & pre2 & Hpre & Hc0 & Hla & Ha & Hq).
    exists pre1, t0, c0, pre2. split; [done |]. split; [done |]. split; [done |]. split; [done |]. lia.
Qed.

(** ** Concrete runs *)

#[local] Existing Instance History.toy_postgres.

Definition no_tasks : Jobqueue.table := Jobqueue.MkTable ∅ 1.
Definition over_quota : world := MkWorld History.after_update no_tasks.
Definition bob : History.SessionStats := History.MkStats 7 "bob" "10.0.0.1" 1000 1200 false "2M/2M".

Example over_quota_listed : History.GetActiveSessionsAboveFUP true (hist over_quota) = Ok [bob].
Proof. vm_compute. reflexivity. Qed.

Lemma payloads_decode_witness :
  process_warning None (bytes_of_string (sprintf_warning 7 (String "127"%char EmptyString) 83)) =
    Jobqueue.Failed "fup warning: unmarshal payload" true.
Proof.
  apply (payloads_decode 7 83 (String "127"%char EmptyString) "10.0.0.1" "s1" "2M/2M" None); reflexivity.
Defined.

Lemma breach_scan_exact_witness :
  exists w', scanBreaches 15 all_up over_quota = (Ok tt, w') /\
    History.subscribers (hist w') !! 7 =
      Some (History.MkSubscriberRow "bob" "active" 1 true None None).
Proof.
  destruct (breach_scan_exact 15 all_up over_quota [bob]) as (w' & Hr & _ & Hs & _).
  - reflexivity.
  - exact over_quota_listed.
  - intros st _. split; reflexivity.
  - exists w'. split; [exact Hr |]. rewrite Hs. vm_compute. reflexivity.
Defined.

Definition coa_down : ScanEnv :=
  MkScanEnv true true true (fun _ => true) (fun _ => true) (fun _ => false) (fun _ => true)
    (fun _ => true) (fun _ => true).

Lemma lost_coa_is_final_witness :
  exists id, forall l2, History.GetActiveSessionsAboveFUP true
    (hist (scanBreaches 15 coa_down over_quota).2) = Ok l2 -> id ∉ ids l2.
Proof.
  destruct (lost_coa_is_final 15 coa_down over_quota (scanBreaches 15 coa_down over_quota).2)
    as (id & _ & Hall).
  - vm_compute. reflexivity.
  - exists id. apply Hall. apply star_refl.
Defined.

Definition near_quota : world :=
  MkWorld (History.UpdateSessionOctets true "s1" 500 310 History.after_start).2 no_tasks.

Lemma warnings_exact_witness :
  let _ := RationalDecimal in
  exists w', scanWarnings 15 all_up near_quota = (Ok tt, w') /\
    forall now' e', Jobqueue.rows (tasks (scanWarnings now' e' w').2) = Jobqueue.rows (tasks w').
Proof.
  destruct (@warnings_exact _ RationalDecimal RationalLaws 15 all_up near_quota
    [History.MkStats 7 "bob" "10.0.0.1" 1000 810 false "2M/2M"]) as (w' & Hr & _ & _ & _ & _ & Hagain).
  - intros i [r Hr]. vm_compute in Hr. discriminate Hr.
  - reflexivity.
  - vm_compute. reflexivity.
  - reflexivity.
  - exists w'. split; [exact Hr | exact Hagain].
Defined.

Definition demo_handler : ControlHandler := MkControl "s3cret" 0 None false.
Definition demo_nvs (v : Z) (b : list Z) : option (list Z) := Some b.

Lemma coa_sends_current_rate_witness :
  let run := process_coa demo_nvs (fun _ => Some CodeCoAACK) 15 true true demo_handler
               (bytes_of_string (sprintf_coa 7 "10.0.0.1")) History.after_update ∅ in
  run.1.1 = Jobqueue.Succeeded /\ exists m, run.1.2 = Some m /\ to_ip m = "10.0.0.1"%string /\
    cp_code (packet m) = CodeCoARequest.
Proof.
  intros run. split; [vm_compute; reflexivity |].
  destruct run.1.2 as [m|] eqn:Em; [| vm_compute in Em; discriminate Em].
  destruct (coa_sends_current_rate demo_nvs (fun _ => Some CodeCoAACK) 15 true true demo_handler
    (bytes_of_string (sprintf_coa 7 "10.0.0.1")) History.after_update ∅ run.1.1 m run.2)
    as (p & s & pl & r & Hp & _ & _ & Hr & _ & Hip & Hcode & _).
  - fold run. rewrite <- Em. by destruct run as [[? ?] ?].
  - exists m. split; [reflexivity |]. split; [| exact Hcode]. rewrite Hip.
    vm_compute in Hp. injection Hp as <-. vm_compute in Hr.
    apply list_elem_of_In in Hr as [<- | []]. reflexivity.
Defined.

Lemma pages_exactly_on_news_witness :
  alerted (MkMonitor hour 0 None) [(0, Some 2); (30, Some 2)] (60, Some 3) /\
  ~ alerted (MkMonitor hour 0 None) [(0, Some 2); (30, Some 2)] (60, Some 2).
Proof.
  assert (forall c, 0 <= c -> counts_ok ([(0, Some 2); (30, Some 2)] ++ [(60, Some c)])) as Hok.
  { intros c Hc p x Hp Hx. apply list_elem_of_In in Hp. simpl in Hp.
    destruct Hp as [<- | [<- | [<- | []]]]; simpl in Hx; simplify_eq; lia. }
  split.
  - eexists. vm_compute. reflexivity.
  - intros Ha. apply (pages_exactly_on_news hour _ _ _ ltac:(reflexivity) (Hok 2 ltac:(lia))) in Ha.
    destruct Ha as (c & E & _ & Hno). injection E as <-. apply Hno.
    exists [], 0, 2, [(30, Some 2)]. split; [reflexivity |]. split; [lia |].
    split; [eexists; vm_compute; reflexivity |]. split; [| vm_compute; split; [discriminate | reflexivity]].
    intros a p b E. destruct a as [|x [|y a]]; [| discriminate E | discriminate E].
    injection E as <- <-. split; [done |]. intros [x Hx]. vm_compute in Hx. discriminate Hx.
Defined.

End FUP.
