(* ===== verification/SessionControl.v ===== *)
(** * internal/api/sessions.go: the operator's session endpoints

    Each handler takes the path parameter and the decoded body as it found
    them ([None] for a parse error), whether its dependencies are configured,
    and which calls can be executed; it gives the HTTP status and the new
    state. The audit line and the JSON of the reply are not modelled. *)

From S2P Require Import Prelude GoStrings Json Decimal Nas Jobqueue SessionHistory LiveSessions FUP.

Local Open Scope Z_scope.

Module SessionControl.

Definition sessionTaskRetention : Z := 24 * FUP.hour.

Record Handler : Type := MkHandler { sessions : bool; sessionCtl : bool; taskQueue : bool }.

Record Env : Type := MkEnv { resolve_up : bool; write_up : bool; enqueue_up : bool }.

Section Handlers.
Context `{History.Postgres} `{Decimal}.

Definition control_task (taskType payload : string) : Jobqueue.Task :=
  Jobqueue.NewTask taskType (bytes_of_string payload)
    [Jobqueue.Queue FUP.QueueNetCommands; Jobqueue.MaxRetry 5; Jobqueue.Retention sessionTaskRetention].

Definition pod_payload (subscriberID : Z) : string :=
  FUP.marshal_pod (FUP.MkPoD subscriberID EmptyString EmptyString).

Definition GetActiveSession (now : Z) (up : bool) (h : Handler) (id : option Z) (t : LiveSessions.table) :
    Z * option LiveSessions.SessionSummary :=
  match id with
  | None => (400, None)
  | Some id =>
      if negb (sessions h) then (503, None)
      else match LiveSessions.GetActiveSession now up id t with
           | Err _ => (500, None)
           | Ok None => (404, None)
           | Ok (Some s) => (200, Some s)
           end
  end.

Definition DisconnectSession (now : Z) (h : Handler) (e : Env) (sessionID : string) (w : FUP.world) :
    Z * FUP.world :=
  if String.eqb sessionID EmptyString then (400, w)
  else if negb (sessionCtl h) || negb (taskQueue h) then (503, w)
  else
    match History.ResolveSessionSubscriber (resolve_up e) sessionID (FUP.hist w) with
    | Err _ => (404, w)
    | Ok (subscriberID, nasIP) =>
        match FUP.enqueue now (enqueue_up e) (control_task FUP.TaskTypePoD (pod_payload subscriberID)) w with
        | (Err _, w) => (500, w)
        | (Ok _, w) => (202, w)
        end
    end.

Definition FUPOverride (now : Z) (h : Handler) (e : Env) (sessionID : string) (action : option string)
    (w : FUP.world) : Z * FUP.world :=
  if String.eqb sessionID EmptyString then (400, w)
  else if negb (sessionCtl h) || negb (taskQueue h) then (503, w)
  else
    match action with
    | None => (400, w)
    | Some action =>
        if negb (String.eqb action "apply") && negb (String.eqb action "remove") then (422, w)
        else
          match History.ResolveSessionSubscriber (resolve_up e) sessionID (FUP.hist w) with
          | Err _ => (404, w)
          | Ok (subscriberID, nasIP) =>
              let active := String.eqb action "apply" in
              let '(r, d) := History.SetFUPActive (write_up e) subscriberID active (FUP.hist w) in
              let w := FUP.MkWorld d (FUP.tasks w) in
              match r with
              | Err _ => (500, w)
              | Ok _ =>
                  match FUP.enqueue now (enqueue_up e)
                          (control_task FUP.TaskTypeCoA (FUP.marshal_coa (FUP.MkCoA subscriberID nasIP))) w with
                  | (Err _, w) => (500, w)
                  | (Ok _, w) => (202, w)
                  end
              end
          end
    end.

(** Its error is only logged. *)
Definition enqueueSpeedOverrideCoA (now : Z) (e : Env) (subscriberID : Z) (w : FUP.world) : FUP.world :=
  (FUP.enqueue now (enqueue_up e)
     (control_task FUP.TaskTypeCoA (FUP.marshal_coa (FUP.MkCoA subscriberID EmptyString))) w).2.

(** [duration_minutes] to an instant: none for zero; the product is an int64. *)
Definition override_expiry (now minutes : Z) : option Z :=
  if 0 <? minutes then Some (now + i64 (minutes * (60 * 1000000000))) else None.

Definition SpeedOverride (now : Z) (h : Handler) (e : Env) (id : option Z) (body : option (string * Z))
    (w : FUP.world) : Z * FUP.world :=
  match id with
  | None => (400, w)
  | Some id =>
      if negb (sessionCtl h) || negb (taskQueue h) then (503, w)
      else
        match body with
        | None => (400, w)
        | Some (rate, minutes) =>
            if String.eqb rate EmptyString then (422, w)
            else if minutes <? 0 then (422, w)
            else
              let '(r, d) := History.SetSpeedOverride (write_up e) id rate (override_expiry now minutes)
                               (FUP.hist w) in
              let w := FUP.MkWorld d (FUP.tasks w) in
              match r with
              | Err _ => (500, w)
              | Ok _ => (202, enqueueSpeedOverrideCoA now e id w)
              end
        end
  end.

Definition ClearSpeedOverride (now : Z) (h : Handler) (e : Env) (id : option Z) (w : FUP.world) :
    Z * FUP.world :=
  match id with
  | None => (400, w)
  | Some id =>
      if negb (sessionCtl h) || negb (taskQueue h) then (503, w)
      else
        let '(r, d) := History.ClearSpeedOverride (write_up e) id (FUP.hist w) in
        let w := FUP.MkWorld d (FUP.tasks w) in
        match r with
        | Err _ => (500, w)
        | Ok _ => (202, enqueueSpeedOverrideCoA now e id w)
        end
  end.

(** ** Lemmas *)

Lemma enqueue_up_Ok now task w :
  Jobqueue.o_taskID (Jobqueue.opts task) = EmptyString ->
  FUP.enqueue now true task w =
    (Ok (Jobqueue.next_id (FUP.tasks w)),
     FUP.MkWorld (FUP.hist w) (Jobqueue.MkTable
       (<[Jobqueue.next_id (FUP.tasks w) := Jobqueue.enqueued_row now task (Jobqueue.opts task)]>
          (Jobqueue.rows (FUP.tasks w))) (Jobqueue.next_id (FUP.tasks w) + 1))).
Proof. intros Ht. unfold FUP.enqueue, Jobqueue.EnqueueContext. cbn. by rewrite Ht. Qed.

Lemma enqueue_down now task w : FUP.enqueue now false task w = (Err Jobqueue.ErrDatabase, w).
Proof. by destruct w. Qed.

Lemma unmarshal_pod id :
  Json.in_int64 id = true ->
  Json.unmarshal FUP.pod_of (bytes_of_string (pod_payload id)) = Some (FUP.MkPoD id EmptyString EmptyString).
Proof.
  intros Hid. unfold pod_payload, FUP.marshal_pod. rewrite Json.unmarshal_marshal.
  - unfold FUP.omit_zero, FUP.omit_empty. cbn [FUP.pod_SubscriberID FUP.pod_NasIP FUP.pod_SessionID].
    by destruct (Z.eqb_spec id 0) as [-> |].
  - repeat apply Forall_app_2; try done. by apply FUP.omit_zero_ok.
Qed.

(** A task was added for the subscriber, and nothing else changed. *)
Definition queued (taskType : string) (payload : string) (now : Z) (t t' : Jobqueue.table) : Prop :=
  exists r, Jobqueue.rows t' = <[Jobqueue.next_id t := r]> (Jobqueue.rows t) /\
    Jobqueue.status r = Jobqueue.Pending /\ Jobqueue.task_type r = taskType /\
    Jobqueue.queue r = FUP.QueueNetCommands /\ Jobqueue.row_payload r = bytes_of_string payload /\
    Jobqueue.run_after r = now.

Lemma enqueue_queued now ty payload w :
  exists n w', FUP.enqueue now true (control_task ty payload) w = (Ok n, w') /\
    FUP.hist w' = FUP.hist w /\ queued ty payload now (FUP.tasks w) (FUP.tasks w').
Proof.
  rewrite enqueue_up_Ok by done. do 2 eexists. split; [reflexivity |]. split; [done |].
  eexists. repeat split; try reflexivity. cbn. lia.
Qed.

(** "disconnect this session" disconnects the subscriber's latest one.
    When the endpoint answers 202 for an open session, it has queued a
    disconnect task, and whenever that task runs, on whatever the database
    then holds, the Disconnect-Request it sends names the most recently
    started open session of the session's subscriber - which need not be the
    session the operator named. *)
Theorem disconnect_hits_newest now h e sid w w' :
  DisconnectSession now h e sid w = (202, w') ->
  (forall r, r ∈ History.history (FUP.hist w) -> Json.in_int64 (History.subscriber_id r) = true) ->
  exists r, r ∈ History.history (FUP.hist w) /\ History.open_for sid r = true /\
    FUP.hist w' = FUP.hist w /\
    queued FUP.TaskTypePoD (pod_payload (History.subscriber_id r)) now (FUP.tasks w) (FUP.tasks w') /\
    forall exchange now2 up ch d out m,
      FUP.process_pod exchange now2 up ch (bytes_of_string (pod_payload (History.subscriber_id r))) d =
        (out, Some m) ->
      FUP.cp_code (FUP.packet m) = FUP.CodeDisconnectRequest /\
      exists r', r' ∈ History.open_rows (History.subscriber_id r) (History.history d) /\
        FUP.cp_session (FUP.packet m) = History.session_id r' /\
        FUP.to_ip m = History.nas_ip_address r' /\
        forall r2, r2 ∈ History.open_rows (History.subscriber_id r) (History.history d) ->
          History.start_time r2 <= History.start_time r'.
Proof.
  unfold DisconnectSession, History.ResolveSessionSubscriber. intros Hrun Hid.
  destruct (String.eqb sid EmptyString); [done |]. destruct (_ || _); [done |].
  destruct (resolve_up e); [cbn [negb] in Hrun | done].
  destruct (List.find (History.open_for sid) _) as [r|] eqn:Hf; [| done].
  apply List.find_some in Hf as [Hin Ho]. apply list_elem_of_In in Hin.
  destruct (enqueue_up e); [| by rewrite enqueue_down in Hrun].
  destruct (enqueue_queued now FUP.TaskTypePoD (pod_payload (History.subscriber_id r)) w)
    as (n & w1 & Hq & Hh & Hqueued).
  rewrite Hq in Hrun. injection Hrun as <-. exists r. repeat (split; [done |]).
  intros exchange now2 up ch d out m. unfold FUP.process_pod.
  rewrite unmarshal_pod by by apply Hid. cbn [FUP.direct FUP.pod_NasIP FUP.pod_SessionID].
  unfold FUP.direct. cbn [FUP.pod_NasIP FUP.pod_SessionID FUP.pod_SubscriberID String.eqb negb andb].
  unfold History.GetSubscriberNASSession. destruct up; [cbn [negb] | done].
  destruct (History.subscribers d !! _) as [s|]; [| done].
  destruct (History.plans d !! _) as [p|]; [| done].
  pose proof (History.newest_spec (History.open_rows (History.subscriber_id r) (History.history d))) as Hn.
  destruct (min_by History.newest _) as [r'|]; [| done]. destruct Hn as [Hr' Hlast].
  intros Hm. assert (exists sec prt, m = FUP.MkSent (History.nas_ip_address r') prt sec
    (FUP.MkPacket FUP.CodeDisconnectRequest (History.session_id r') [])) as (sec & prt & ->).
  { destruct (FUP.nasResolver ch); cbn zeta in Hm; destruct (FUP.sendReliableControl _ _ _);
      injection Hm as _ <-; by do 2 eexists. }
  split; [done |]. exists r'. done.
Qed.

(** ** Speed overrides *)

Lemma revert_lookup now e l w id :
  NoDup l ->
  History.subscribers (FUP.hist (foldl (FUP.revert_one now e) w l)) !! id =
  (fun s => if bool_decide (id ∈ l) && FUP.clear_up e id then History.set_override None None s else s)
    <$> History.subscribers (FUP.hist w) !! id.
Proof.
  revert w. induction l as [|x l IH]; intros w.
  - intros _. simpl. by destruct (History.subscribers (FUP.hist w) !! id).
  - intros [Hx Hl]%NoDup_cons. cbn [foldl]. rewrite IH by done.
    assert (History.subscribers (FUP.hist (FUP.revert_one now e w x)) =
      if FUP.clear_up e x then alter (History.set_override None None) x (History.subscribers (FUP.hist w))
      else History.subscribers (FUP.hist w)) as ->.
    { unfold FUP.revert_one, History.ClearSpeedOverride, History.update_subscriber.
      destruct (FUP.clear_up e x); [| by destruct w]. cbn [negb].
      destruct (History.subscribers (FUP.hist w) !! x) as [s|] eqn:Hs.
      - unfold FUP.enqueue. by destruct (Jobqueue.EnqueueContext _ _ _ _ _).
      - symmetry. apply map_eq. intros i. destruct (decide (i = x)) as [-> | Hn];
          [by rewrite lookup_alter_eq, Hs | by rewrite lookup_alter_ne]. }
    destruct (decide (x = id)) as [<- | Hn].
    + rewrite (bool_decide_false (x ∈ l)), (bool_decide_true (x ∈ x :: l)) by (done || by left).
      cbn [andb]. destruct (FUP.clear_up e x).
      * rewrite lookup_alter_eq. by destruct (History.subscribers (FUP.hist w) !! x).
      * by destruct (History.subscribers (FUP.hist w) !! x).
    + replace ((if FUP.clear_up e x then alter (History.set_override None None) x (History.subscribers (FUP.hist w))
        else History.subscribers (FUP.hist w)) !! id) with (History.subscribers (FUP.hist w) !! id)
        by (destruct (FUP.clear_up e x); [by rewrite lookup_alter_ne | done]).
      destruct (History.subscribers (FUP.hist w) !! id); [| done]. cbn. do 2 f_equal.
      assert (bool_decide (id ∈ l) = bool_decide (id ∈ x :: l)) as ->; [| done].
      apply bool_decide_ext. rewrite elem_of_cons. naive_solver.
Qed.

Lemma NoDup_expired now (m : gmap Z History.SubscriberRow) :
  NoDup (map fst (List.filter (fun p => History.override_expired now p.2) (map_to_list m))).
Proof. apply History.NoDup_map_filterb, NoDup_fst_map_to_list. Qed.

Definition minute : Z := 60 * 1000000000.

(** An override the API accepts is in force for its time and no longer.
    After a 202 the subscriber's rate is the requested one until the expiry
    (for ever when no duration was given) and the plan's or the throttle's
    from then on; a CoA was queued, unless that could not be executed, which
    the answer does not tell; and the first scan after the expiry that can
    execute its statements removes the override from the row. *)
Theorem speed_override_is_time_boxed now h e id rate minutes w w' s p :
  SpeedOverride now h e (Some id) (Some (rate, minutes)) w = (202, w') ->
  History.subscribers (FUP.hist w) !! id = Some s -> minutes * minute < 2 ^ 63 ->
  exists s', History.subscribers (FUP.hist w') !! id = Some s' /\
    (forall t, History.rate_in_force t s' p =
       if (minutes =? 0) || (t <? now + minutes * minute) then rate
       else History.rate_in_force t (History.set_override None None s) p) /\
    (enqueue_up e = true ->
       queued FUP.TaskTypeCoA (FUP.marshal_coa (FUP.MkCoA id EmptyString)) now (FUP.tasks w) (FUP.tasks w')) /\
    (enqueue_up e = false -> FUP.tasks w' = FUP.tasks w) /\
    (forall t e2 w2, 0 < minutes -> FUP.hist w2 = FUP.hist w' -> now + minutes * minute <= t ->
       FUP.expired_up e2 = true -> FUP.clear_up e2 id = true ->
       History.subscribers (FUP.hist (FUP.scanExpiredOverrides t e2 w2).2) !! id =
         Some (History.set_override None None s)).
Proof.
  unfold SpeedOverride, minute. intros Hrun Hs Hsmall. destruct (_ || _); [done |].
  destruct (String.eqb_spec rate EmptyString) as [-> | Hrate]; [done |].
  destruct (Z.ltb_spec minutes 0) as [| Hmin]; [done |].
  unfold History.SetSpeedOverride, History.update_subscriber in Hrun.
  destruct (write_up e); [cbn [negb] in Hrun | done]. rewrite Hs in Hrun. cbn in Hrun.
  injection Hrun as <-.
  set (x := override_expiry now minutes).
  set (w1 := FUP.MkWorld (History.with_subscriber id (History.set_override (Some rate) x) (FUP.hist w)) (FUP.tasks w)).
  assert (FUP.hist (enqueueSpeedOverrideCoA now e id w1) = FUP.hist w1) as Hh
    by (unfold enqueueSpeedOverrideCoA, FUP.enqueue; by destruct (Jobqueue.EnqueueContext _ _ _ _ _)).
  rewrite Hh. exists (History.set_override (Some rate) x s).
  assert (History.subscribers (FUP.hist w1) !! id = Some (History.set_override (Some rate) x s)) as Hs1
    by (cbn; by rewrite lookup_alter_eq, Hs).
  assert (x = if 0 <? minutes then Some (now + minutes * (60 * 1000000000)) else None) as Hx.
  { unfold x, override_expiry. destruct (Z.ltb_spec 0 minutes); [| done]. rewrite i64_small; [done |].
    unfold max_int64. lia. }
  split; [exact Hs1 |]. split; [| split; [| split]].
  - intros t. unfold History.rate_in_force. cbn. rewrite Hx.
    destruct (Z.ltb_spec 0 minutes), (Z.eqb_spec minutes 0); try lia; done.
  - intros Hup. unfold enqueueSpeedOverrideCoA. rewrite Hup.
    destruct (enqueue_queued now FUP.TaskTypeCoA (FUP.marshal_coa (FUP.MkCoA id EmptyString)) w1)
      as (n & w2 & Hq & _ & Hqueued). by rewrite Hq.
  - intros Hup. unfold enqueueSpeedOverrideCoA. by rewrite Hup, enqueue_down.
  - intros t e2 w2 Hpos Hw2 Ht Hex Hcl. unfold FUP.scanExpiredOverrides, History.ListExpiredSpeedOverrides.
    rewrite Hex. cbn [negb snd]. rewrite revert_lookup by apply NoDup_expired. rewrite Hw2, Hs1. cbn. f_equal.
    rewrite Hcl, bool_decide_true; [done |].
    apply list_elem_of_fmap. exists (id, History.set_override (Some rate) x s). split; [done |].
    apply elem_of_filterb. split; [by apply elem_of_map_to_list |]. cbn.
    rewrite Hx. replace (0 <? minutes) with true by lia. cbn. lia.
Qed.

End Handlers.

(** ** Concrete runs *)

#[local] Existing Instance History.toy_postgres.

Definition configured : Handler := MkHandler true true true.
Definition env_up : Env := MkEnv true true true.
Definition demo_world : FUP.world := FUP.MkWorld History.after_update FUP.no_tasks.

Lemma disconnect_hits_newest_witness :
  exists r, History.open_for "s1" r = true /\
    FUP.hist (DisconnectSession 40 configured env_up "s1" demo_world).2 = FUP.hist demo_world.
Proof.
  destruct (disconnect_hits_newest 40 configured env_up "s1" demo_world
    (DisconnectSession 40 configured env_up "s1" demo_world).2) as (r & _ & Ho & Hh & _).
  - vm_compute. reflexivity.
  - intros r Hr. vm_compute in Hr. apply list_elem_of_In in Hr as [<- | []]. reflexivity.
  - exists r. split; [exact Ho | exact Hh].
Defined.

(** Two open sessions: the operator names the first, the second is dropped. *)
Definition two_sessions : History.DB :=
  (History.StartSession 20 true 7 "s2" "10.0.0.2" "100.64.0.10" EmptyString History.after_update).2.

Example wrong_session_dropped :
  (FUP.cp_session ∘ FUP.packet <$>
     (FUP.process_pod (fun _ => None) 41 true FUP.demo_handler (bytes_of_string (pod_payload 7))
        two_sessions).2) = Some "s2"%string.
Proof. vm_compute. reflexivity. Qed.

Lemma speed_override_is_time_boxed_witness :
  exists s', History.subscribers (FUP.hist
    (SpeedOverride 40 configured env_up (Some 7) (Some ("90M/90M"%string, 5)) demo_world).2) !! 7 = Some s' /\
    History.rate_in_force 41 s' (History.MkPlanRow "50M/50M" 1000 None) = "90M/90M"%string.
Proof.
  destruct (speed_override_is_time_boxed 40 configured env_up 7 "90M/90M" 5 demo_world
    (SpeedOverride 40 configured env_up (Some 7) (Some ("90M/90M"%string, 5)) demo_world).2
    (History.MkSubscriberRow "bob" "active" 1 false None None) (History.MkPlanRow "50M/50M" 1000 None))
    as (s' & Hs & Hrate & _).
  - vm_compute. reflexivity.
  - vm_compute. reflexivity.
  - vm_compute. reflexivity.
  - exists s'. split; [exact Hs |]. rewrite Hrate. reflexivity.
Defined.

End SessionControl.
