(* ===== verification/Accounting.v ===== *)
(** * internal/radius/accounting.go: the accounting handler

    [handleAccounting] with the stores it writes: the deduplication set
    ([Store.TrySet]), the session history ([History]), the hotspot grants
    ([HotspotStore]), the live table ([LiveSessions]) and the subscriber
    lookup ([Daemon.DBQuerier], which may be the cache). The counters and the
    acknowledgements are an event trace. A record is what the attribute getters
    of the RADIUS library read from the packet. *)

From S2P Require Import Prelude GoStrings LocalCache Identity Nas RadiusDaemon SessionHistory LiveSessions HotspotStore.
From Stdlib Require Import Ascii.

Local Open Scope Z_scope.

Module Accounting.

(** [rfc2866.AcctStatusType] *)
Definition StatusStart : Z := 1.
Definition StatusStop : Z := 2.
Definition StatusInterimUpdate : Z := 3.
Definition StatusAccountingOn : Z := 7.
Definition StatusAccountingOff : Z := 8.

Record AcctRequest : Type := MkAcct {
  statusType : Z;
  AcctSessionID : string;
  UserName : string;
  InputOctets : Z;
  InputGigawords : Z;
  OutputOctets : Z;
  OutputGigawords : Z;
  NASIPAddress : option string;
  FramedIPAddress : option string;
  DelegatedIPv6Prefix : option string;
  FramedIPv6Prefix : option string;
  TerminateCause : string;
  RemoteAddr : Nas.Addr;
  RemoteHost : string
}.

Definition acctStatusLabel (t : Z) : string :=
  if t =? StatusStart then "start"
  else if t =? StatusInterimUpdate then "interim"
  else if t =? StatusStop then "stop"
  else if t =? StatusAccountingOn then "on"
  else if t =? StatusAccountingOff then "off"
  else "other".

(** The low words are uint32s; the shift and the or are on int64. *)
Definition total_octets (gigawords octets : Z) : Z := Z.lor (i64 (Z.shiftl gigawords 32)) octets.

Definition acctOctets (r : AcctRequest) : Z * Z :=
  (total_octets (InputGigawords r) (InputOctets r), total_octets (OutputGigawords r) (OutputOctets r)).

(** [RemoteHost] is the remote address's host, its whole text when it has no
    port, and empty when there is no address. *)
Definition accountingNASIP (r : AcctRequest) : string :=
  match NASIPAddress r with
  | Some ip => ip
  | None => RemoteHost r
  end.

Definition framedIP (r : AcctRequest) : string := default EmptyString (FramedIPAddress r).

Definition framedIPv6Prefix (r : AcctRequest) : string :=
  match DelegatedIPv6Prefix r with
  | Some p => p
  | None => default EmptyString (FramedIPv6Prefix r)
  end.

Inductive event : Type :=
| Ack
| Processed (status outcome : string)
| UnmatchedRecord
| DedupSkipped.

(** What the daemon was configured with. *)
Record Config : Type := MkConfig {
  acctDedup : bool;
  acctDB : bool;
  grantUsageDB : bool;
  mabDB : bool;
  nasResolver : option Nas.Resolver;
  liveSessions : bool
}.

(** Which calls of one request can be executed. *)
Record Env : Type := MkEnv {
  now : Z;
  meter_up : bool;
  meter_seen : bool;
  grant_up : bool;
  resolve_up : bool;
  resolve_seen : bool;
  store_up : bool;
  live_up : bool
}.

Definition dedupKey (sessionID status : string) (input output : Z) : string :=
  "acct_dedup:" +:+ sessionID +:+ String ":" (status +:+ String ":"
    (format_int input +:+ String ":" (format_int output))).

Definition dedupWindow : Z := 30 * 1000000000.

Definition bytesPerGB : Z := 1024 * 1024 * 1024.

Section Handler.
Context `{History.Postgres} {DB : Type} `{Daemon.DBQuerier DB}.

Record World : Type := MkWorld {
  dedup : gmap string (Store.entry unit);
  hist : History.DB;
  hotspot : HotspotStore.DB;
  live : LiveSessions.table;
  subs : DB;
  trace : list event
}.

Definition log (ev : event) (w : World) : World :=
  MkWorld (dedup w) (hist w) (hotspot w) (live w) (subs w) (trace w ++ [ev]).
Definition set_dedup x (w : World) : World :=
  MkWorld x (hist w) (hotspot w) (live w) (subs w) (trace w).
Definition set_hist x (w : World) : World :=
  MkWorld (dedup w) x (hotspot w) (live w) (subs w) (trace w).
Definition set_hotspot x (w : World) : World :=
  MkWorld (dedup w) (hist w) x (live w) (subs w) (trace w).
Definition set_live x (w : World) : World :=
  MkWorld (dedup w) (hist w) (hotspot w) x (subs w) (trace w).
Definition set_subs x (w : World) : World :=
  MkWorld (dedup w) (hist w) (hotspot w) (live w) x (trace w).

Definition nas_id (c : Config) (r : AcctRequest) : Z :=
  match nasResolver c with None => 0 | Some res => Nas.ID (Nas.ResolveAddr res (RemoteAddr r)) end.

(** Reports whether it took the record. *)
Definition meterVoucherSession (c : Config) (e : Env) (r : AcctRequest) (sessionID status : string)
    (totalOctets : Z) (w : World) : bool * World :=
  if negb (grantUsageDB c) then (false, w)
  else
    match Identity.NormaliseMAC (UserName r) with
    | None => (false, w)
    | Some mac =>
        let '(subscriber, w) :=
          if mabDB c then
            let '(res, h) := HotspotStore.AuthorizeMAC (now e) (meter_up e) (meter_seen e) mac
                               (nas_id c r) (hotspot w) in
            (match res with
             | Err _ => true
             | Ok (Some sub) => negb (Identity.ID sub =? 0)
             | Ok None => false
             end, set_hotspot h w)
          else (false, w) in
        if subscriber then (false, w)
        else
          let '(res, h) := HotspotStore.RecordGrantUsage History.inet (now e) (grant_up e) mac sessionID
                             (accountingNASIP r) totalOctets (hotspot w) in
          let w := set_hotspot h w in
          match res with
          | Err _ => (true, log (Processed status "error") w)
          | Ok false => (true, log (Processed status "unmatched") (log UnmatchedRecord w))
          | Ok true => (true, log (Processed status "metered_voucher") w)
          end
    end.

Definition resolveAccountingSubscriber (c : Config) (e : Env) (r : AcctRequest) (w : World) :
    option Identity.Subscriber * World :=
  if String.eqb (UserName r) EmptyString then (None, w)
  else
    match (if mabDB c then Identity.NormaliseMAC (UserName r) else None) with
    | Some mac =>
        let '(res, h) := HotspotStore.AuthorizeMAC (now e) (resolve_up e) (resolve_seen e) mac
                           (nas_id c r) (hotspot w) in
        let w := set_hotspot h w in
        match res with
        | Ok (Some sub) => if Identity.ID sub =? 0 then (None, w) else (Some sub, w)
        | _ => (None, w)
        end
    | None =>
        let '(res, s) := Daemon.GetSubscriberByUsername (now e) (UserName r) (subs w) in
        let w := set_subs s w in
        match res with Ok (Some sub) => (Some sub, w) | _ => (None, w) end
    end.

Definition live_of (r : AcctRequest) (sub : Identity.Subscriber) : LiveSessions.LiveSession :=
  LiveSessions.MkLive (AcctSessionID r) (Identity.ID sub) (accountingNASIP r) (framedIP r)
    (i64 (Identity.VolumeGB sub * bytesPerGB)) (Identity.RateLimitStr sub) (Identity.FUPActive sub).

Definition known (w : World) (id : Z) : bool := bool_decide (is_Some (History.subscribers (hist w) !! id)).

Definition acctStart (c : Config) (e : Env) (r : AcctRequest) (status : string) (w : World) : World :=
  match resolveAccountingSubscriber c e r w with
  | (None, w) => log (Processed status "unresolved_subscriber") w
  | (Some sub, w) =>
      let '(res, h) := History.StartSession (now e) (store_up e) (Identity.ID sub) (AcctSessionID r)
                         (accountingNASIP r) (framedIP r) (framedIPv6Prefix r) (hist w) in
      let w := set_hist h w in
      match res with
      | Err _ => log (Processed status "error") w
      | Ok _ =>
          let w := log (Processed status "persisted") w in
          if liveSessions c
          then set_live (LiveSessions.Put (known w) (now e) (live_up e) (live_of r sub) (live w)).2 w
          else w
      end
  end.

(** The two records that close or update a row share their error handling. *)
Definition settle (status : string) (res : result History.error bool) (live_write : World -> World)
    (w : World) : World :=
  match res with
  | Err _ => log (Processed status "error") w
  | Ok false => log (Processed status "unmatched") (log UnmatchedRecord w)
  | Ok true => live_write (log (Processed status "persisted") w)
  end.

Definition acctUpdate (c : Config) (e : Env) (r : AcctRequest) (status : string) (input output : Z)
    (w : World) : World :=
  let '(res, h) := History.UpdateSessionOctets (store_up e) (AcctSessionID r) input output (hist w) in
  settle status res
    (fun w => if liveSessions c
              then set_live (LiveSessions.UpdateOctets (now e) (live_up e) (AcctSessionID r) input output (live w)).2 w
              else w)
    (set_hist h w).

Definition acctStop (c : Config) (e : Env) (r : AcctRequest) (status : string) (input output : Z)
    (w : World) : World :=
  let '(res, h) := History.StopSession (now e) (store_up e) (AcctSessionID r) input output
                     (TerminateCause r) (hist w) in
  settle status res
    (fun w => if liveSessions c
              then set_live (LiveSessions.DeleteBySessionID (live_up e) (AcctSessionID r) (live w)).2 w
              else w)
    (set_hist h w).

(** Everything after deduplication. *)
Definition persist (c : Config) (e : Env) (r : AcctRequest) (w : World) : World :=
  let status := acctStatusLabel (statusType r) in
  let '(input, output) := acctOctets r in
  if negb (acctDB c) then log (Processed status "no_store") w
  else
    let '(taken, w) := meterVoucherSession c e r (AcctSessionID r) status (i64 (input + output)) w in
    if taken then w
    else if statusType r =? StatusStart then acctStart c e r status w
    else if statusType r =? StatusInterimUpdate then acctUpdate c e r status input output w
    else if statusType r =? StatusStop then acctStop c e r status input output w
    else log (Processed status "ignored") w.

Definition request_key (r : AcctRequest) : string :=
  let '(input, output) := acctOctets r in
  dedupKey (AcctSessionID r) (acctStatusLabel (statusType r)) input output.

(** The handler; the acknowledgement is deferred, hence last. *)
Definition handleAccounting (c : Config) (e : Env) (r : AcctRequest) (w : World) : World :=
  let status := acctStatusLabel (statusType r) in
  log Ack
    (if (statusType r =? StatusAccountingOn) || (statusType r =? StatusAccountingOff)
     then log (Processed status "acknowledged") w
     else if String.eqb (AcctSessionID r) EmptyString then log (Processed status "no_session_id") w
     else if acctDedup c then
       let '(isNew, s) := Store.TrySet (now e) (request_key r) tt dedupWindow (dedup w) in
       let w := set_dedup s w in
       if isNew then persist c e r w else log DedupSkipped w
     else persist c e r w).

(** ** Every request is answered and counted once *)

(** What one request may add to the trace before its acknowledgement. *)
Inductive counted (status : string) : list event -> Prop :=
| counted_skip : counted status [DedupSkipped]
| counted_unmatched : counted status [UnmatchedRecord; Processed status "unmatched"]
| counted_one outcome :
    outcome ∈ ["acknowledged"; "no_session_id"; "no_store"; "error"; "metered_voucher";
               "unresolved_subscriber"; "persisted"; "ignored"]%string ->
    counted status [Processed status outcome].

(** A step that only adds such an entry. *)
Definition adds (status : string) (w w' : World) : Prop :=
  exists evs, counted status evs /\ trace w' = trace w ++ evs.

Lemma adds_one status outcome w w' :
  outcome ∈ ["acknowledged"; "no_session_id"; "no_store"; "error"; "metered_voucher";
             "unresolved_subscriber"; "persisted"; "ignored"]%string ->
  trace w' = trace w ++ [Processed status outcome] -> adds status w w'.
Proof. intros Ho Ht. exists [Processed status outcome]. split; [by constructor | done]. Qed.

Lemma adds_unmatched status w w' :
  trace w' = trace w ++ [UnmatchedRecord; Processed status "unmatched"] -> adds status w w'.
Proof. intros Ht. eexists. split; [constructor | done]. Qed.

Ltac one_outcome := eapply adds_one; [| reflexivity]; by repeat constructor.

Lemma settle_adds status res f w :
  (forall x, trace (f x) = trace x) -> adds status w (settle status res f w).
Proof.
  intros Hf. unfold settle. destruct res as [[]|].
  - eapply adds_one; [| rewrite Hf; reflexivity]. by repeat constructor.
  - apply adds_unmatched. cbn. by rewrite <- app_assoc.
  - one_outcome.
Qed.

Lemma adds_same status w w1 w' : trace w1 = trace w -> adds status w1 w' -> adds status w w'.
Proof. intros E (evs & Hc & Ht). exists evs. split; [done |]. by rewrite <- E. Qed.

Lemma meter_adds c e r sid status n w taken w' :
  meterVoucherSession c e r sid status n w = (taken, w') ->
  if taken then adds status w w' else trace w' = trace w.
Proof.
  unfold meterVoucherSession. destruct (grantUsageDB c); cbn [negb]; [| by intros [= <- <-]].
  destruct (Identity.NormaliseMAC _) as [mac|]; [| by intros [= <- <-]].
  assert (forall (b : bool) w1, trace w1 = trace w ->
    (if b then (false, w1)
     else let '(res, h) := HotspotStore.RecordGrantUsage History.inet (now e) (grant_up e) mac sid
                             (accountingNASIP r) n (hotspot w1) in
          match res with
          | Err _ => (true, log (Processed status "error") (set_hotspot h w1))
          | Ok false => (true, log (Processed status "unmatched") (log UnmatchedRecord (set_hotspot h w1)))
          | Ok true => (true, log (Processed status "metered_voucher") (set_hotspot h w1))
          end) = (taken, w') -> if taken then adds status w w' else trace w' = trace w) as Hgo.
  { intros b w1 Hw1. destruct b; [by intros [= <- <-] |].
    destruct (HotspotStore.RecordGrantUsage _ _ _ _ _ _ _ _) as [[[]|] h]; intros [= <- <-];
      (apply (adds_same status w w1); [done |]);
      [one_outcome | apply adds_unmatched; cbn; by rewrite <- app_assoc | one_outcome]. }
  destruct (mabDB c).
  - destruct (HotspotStore.AuthorizeMAC _ _ _ _ _ _) as [res h]. by apply Hgo.
  - by apply (Hgo false w).
Qed.

Lemma resolve_trace c e r w : trace (resolveAccountingSubscriber c e r w).2 = trace w.
Proof.
  unfold resolveAccountingSubscriber. destruct (String.eqb _ _); [done |].
  destruct (if mabDB c then _ else None) as [mac|].
  - destruct (HotspotStore.AuthorizeMAC _ _ _ _ _ _) as [[[sub|]|] h]; [| done | done].
    by destruct (_ =? 0).
  - by destruct (Daemon.GetSubscriberByUsername _ _ _) as [[[sub|]|] x].
Qed.

Lemma acctStart_adds c e r status w : adds status w (acctStart c e r status w).
Proof.
  unfold acctStart. pose proof (resolve_trace c e r w) as Ht.
  destruct (resolveAccountingSubscriber c e r w) as [[sub|] w1]; cbn [snd] in Ht;
    (apply (adds_same status w w1); [done |]); [| one_outcome].
  destruct (History.StartSession _ _ _ _ _ _ _ _) as [[u|] h]; [| one_outcome].
  destruct (liveSessions c); one_outcome.
Qed.

Lemma persist_adds c e r w : adds (acctStatusLabel (statusType r)) w (persist c e r w).
Proof.
  unfold persist. destruct (acctOctets r) as [input output].
  destruct (acctDB c); cbn [negb]; [| one_outcome].
  destruct (meterVoucherSession _ _ _ _ _ _ _) as [taken w1] eqn:Hm. apply meter_adds in Hm.
  destruct taken; [done |]. eapply adds_same; [exact Hm |].
  destruct (_ =? StatusStart); [apply acctStart_adds |].
  destruct (_ =? StatusInterimUpdate).
  { unfold acctUpdate. destruct (History.UpdateSessionOctets _ _ _ _ _) as [res h].
    apply (adds_same _ w1 (set_hist h w1)); [done |]. apply settle_adds. intros x. by destruct (liveSessions c). }
  destruct (_ =? StatusStop); [| one_outcome].
  unfold acctStop. destruct (History.StopSession _ _ _ _ _ _ _) as [res h].
  apply (adds_same _ w1 (set_hist h w1)); [done |]. apply settle_adds. intros x. by destruct (liveSessions c).
Qed.

(** The NAS is answered exactly once whatever happens - no store, a store
    that fails, a duplicate, a record of an unknown kind - and each request is
    counted exactly once, under one of six status labels and one of nine
    outcomes. *)
Theorem every_record_is_acknowledged c e r w :
  exists evs, counted (acctStatusLabel (statusType r)) evs /\
    trace (handleAccounting c e r w) = trace w ++ evs ++ [Ack] /\
    acctStatusLabel (statusType r) ∈ ["start"; "interim"; "stop"; "on"; "off"; "other"]%string.
Proof.
  assert (acctStatusLabel (statusType r) ∈ ["start"; "interim"; "stop"; "on"; "off"; "other"]%string) as Hlab
    by (unfold acctStatusLabel; repeat case_match; by repeat constructor).
  assert (forall w', adds (acctStatusLabel (statusType r)) w w' ->
    exists evs, counted (acctStatusLabel (statusType r)) evs /\
      trace (log Ack w') = trace w ++ evs ++ [Ack] /\
      acctStatusLabel (statusType r) ∈ ["start"; "interim"; "stop"; "on"; "off"; "other"]%string) as Hgo.
  { intros w' (evs & Hc & Ht). exists evs. split; [done |]. split; [| done]. cbn. by rewrite Ht, app_assoc. }
  unfold handleAccounting. apply Hgo. destruct (_ || _); [one_outcome |].
  destruct (String.eqb _ _); [one_outcome |].
  destruct (acctDedup c); [| apply persist_adds].
  destruct (Store.TrySet _ _ _ _ _) as [[] s].
  - apply (adds_same _ w (set_dedup s w)); [done | apply persist_adds].
  - exists [DedupSkipped]. split; [constructor | done].
Qed.

(** ** Retransmissions *)

Definition colon_free (s : string) : bool := string_forall (fun d => negb (Ascii.eqb d ":")) s.

Lemma format_int_colon_free z : colon_free (format_int z) = true.
Proof.
  unfold colon_free. eapply string_forall_impl; [| apply format_int_chars].
  intros ch Hc. by destruct (Ascii.eqb_spec ch ":") as [-> |].
Qed.

Lemma label_colon_free t : colon_free (acctStatusLabel t) = true.
Proof. unfold acctStatusLabel. by repeat case_match. Qed.

#[local] Arguments String.append : simpl nomatch.

Lemma dedupKey_inj sid st i o sid' st' i' o' :
  colon_free st = true -> colon_free st' = true ->
  dedupKey sid st i o = dedupKey sid' st' i' o' -> sid = sid' /\ st = st' /\ i = i' /\ o = o'.
Proof.
  intros Hst Hst'. unfold dedupKey. cbn [String.append].
  assert (forall a b x y, a +:+ String ":" (b +:+ String ":" (x +:+ String ":" y)) =
    ((a +:+ String ":" b) +:+ String ":" x) +:+ String ":" y) as Hassoc
    by (intros; by rewrite !string_app_assoc).
  rewrite !Hassoc. intros E. repeat (injection E as E).
  apply app_sep_inj in E as [E Ho]; try apply format_int_colon_free.
  apply app_sep_inj in E as [E Hi]; try apply format_int_colon_free.
  apply app_sep_inj in E as [E Hs]; try done.
  apply format_int_inj in Ho, Hi. done.
Qed.

(** The same session, the same kind of record, the same counters. *)
Definition same_record (r r' : AcctRequest) : Prop :=
  AcctSessionID r = AcctSessionID r' /\
  acctStatusLabel (statusType r) = acctStatusLabel (statusType r') /\ acctOctets r = acctOctets r'.

Lemma request_key_same r r' : request_key r = request_key r' <-> same_record r r'.
Proof.
  unfold request_key, same_record. destruct (acctOctets r) as [i o], (acctOctets r') as [i' o']. split.
  - intros E. apply dedupKey_inj in E as (-> & -> & -> & ->); [done | apply label_colon_free..].
  - by intros (-> & -> & [= -> ->]).
Qed.

Lemma meter_dedup c e r sid status n w : dedup (meterVoucherSession c e r sid status n w).2 = dedup w.
Proof.
  unfold meterVoucherSession. destruct (negb (grantUsageDB c)); [done |].
  destruct (Identity.NormaliseMAC _) as [mac|]; [| done].
  destruct (mabDB c).
  - destruct (HotspotStore.AuthorizeMAC _ _ _ _ _ _) as [[[sub|]|] h]; [destruct (negb _); [done |] | | done];
      by destruct (HotspotStore.RecordGrantUsage _ _ _ _ _ _ _ _) as [[[]|] h'].
  - by destruct (HotspotStore.RecordGrantUsage _ _ _ _ _ _ _ _) as [[[]|] h'].
Qed.

Lemma resolve_dedup c e r w : dedup (resolveAccountingSubscriber c e r w).2 = dedup w.
Proof.
  unfold resolveAccountingSubscriber. destruct (String.eqb _ _); [done |].
  destruct (if mabDB c then _ else None) as [mac|].
  - destruct (HotspotStore.AuthorizeMAC _ _ _ _ _ _) as [[[sub|]|] h]; [| done | done].
    by destruct (_ =? 0).
  - by destruct (Daemon.GetSubscriberByUsername _ _ _) as [[[sub|]|] x].
Qed.

Lemma settle_dedup status res f w : (forall x, dedup (f x) = dedup x) -> dedup (settle status res f w) = dedup w.
Proof. intros Hf. unfold settle. destruct res as [[]|]; [by rewrite Hf | done | done]. Qed.

Lemma persist_dedup c e r w : dedup (persist c e r w) = dedup w.
Proof.
  unfold persist. destruct (acctOctets r) as [input output]. destruct (negb (acctDB c)); [done |].
  pose proof (meter_dedup c e r (AcctSessionID r) (acctStatusLabel (statusType r)) (i64 (input + output)) w) as Hm.
  destruct (meterVoucherSession _ _ _ _ _ _ _) as [taken w1]. cbn [snd] in Hm. rewrite <- Hm.
  destruct taken; [done |].
  destruct (_ =? StatusStart); [| destruct (_ =? StatusInterimUpdate); [| destruct (_ =? StatusStop); [| done]]].
  - unfold acctStart. pose proof (resolve_dedup c e r w1) as Ht.
    destruct (resolveAccountingSubscriber c e r w1) as [[sub|] w2]; cbn [snd] in Ht; [| done].
    rewrite <- Ht. destruct (History.StartSession _ _ _ _ _ _ _ _) as [[u|] h]; [| done].
    by destruct (liveSessions c).
  - unfold acctUpdate. destruct (History.UpdateSessionOctets _ _ _ _ _) as [res h].
    rewrite settle_dedup; [done |]. intros x. by destruct (liveSessions c).
  - unfold acctStop. destruct (History.StopSession _ _ _ _ _ _ _) as [res h].
    rewrite settle_dedup; [done |]. intros x. by destruct (liveSessions c).
Qed.

(** Until it lapses, an entry of the deduplication set stays. *)
Lemma handle_dedup_keeps c e r w k x :
  dedup w !! k = Some (Store.Entry tt (Some x)) -> now e < x ->
  dedup (handleAccounting c e r w) !! k = Some (Store.Entry tt (Some x)).
Proof.
  intros Hk Hx. unfold handleAccounting. cbn [log dedup]. destruct (_ || _); [done |].
  destruct (String.eqb _ _); [done |]. destruct (acctDedup c); [| by rewrite persist_dedup].
  unfold Store.TrySet. destruct (Store.holds _ _ _) eqn:Hh; [done |].
  rewrite persist_dedup. cbn [set_dedup dedup]. rewrite lookup_insert_ne; [done |].
  intros <-. unfold Store.holds in Hh. rewrite Hk in Hh. cbn in Hh. lia.
Qed.

(** A retransmitted record is processed once. After a record that was not
    itself a duplicate, and whatever other requests arrive meanwhile, a record
    of the same session, kind and counters within the thirty-second window
    changes nothing but the acknowledgement and the duplicates counter; and
    only such a record shares its deduplication key, so no other session's
    record, and no later counter value, is ever taken for it. *)
Theorem retransmit_processed_once c e r w rs e' r' :
  acctDedup c = true -> AcctSessionID r <> EmptyString ->
  statusType r <> StatusAccountingOn -> statusType r <> StatusAccountingOff ->
  Store.holds (now e) (request_key r) (dedup w) = false ->
  (forall p, p ∈ rs -> now p.1 < now e + dedupWindow) ->
  now e' < now e + dedupWindow ->
  let w1 := foldl (fun w p => handleAccounting c p.1 p.2 w) (handleAccounting c e r w) rs in
  (same_record r r' -> statusType r' <> StatusAccountingOn -> statusType r' <> StatusAccountingOff ->
     handleAccounting c e' r' w1 = log Ack (log DedupSkipped w1)) /\
  (request_key r' = request_key r -> same_record r r').
Proof.
  intros Hc Hsid Hon Hoff Hnew Hrs He' w1. split; [| intros E; by apply request_key_same].
  intros Hsame Hon' Hoff'.
  assert (dedup w1 !! request_key r = Some (Store.Entry tt (Some (now e + dedupWindow)))) as Hw1.
  { unfold w1. assert (dedup (handleAccounting c e r w) !! request_key r =
      Some (Store.Entry tt (Some (now e + dedupWindow)))) as H1.
    { unfold handleAccounting. cbn [log dedup].
      replace ((statusType r =? StatusAccountingOn) || (statusType r =? StatusAccountingOff)) with false by lia.
      rewrite (proj2 (String.eqb_neq _ _) Hsid), Hc. unfold Store.TrySet. rewrite Hnew, persist_dedup. cbn.
      by rewrite lookup_insert_eq. }
    revert H1 Hrs. generalize (handleAccounting c e r w). clear Hnew w1 w.
    induction rs as [|[e1 r1] rs IH]; intros w H1 Hrs; [done |]. cbn [foldl].
    apply IH; [| intros p Hp; apply Hrs; by right]. apply handle_dedup_keeps; [done |].
    apply (Hrs (e1, r1)). by left. }
  pose proof Hsame as (Hs & _ & _). apply request_key_same in Hsame.
  unfold handleAccounting.
  replace ((statusType r' =? StatusAccountingOn) || (statusType r' =? StatusAccountingOff)) with false by lia.
  rewrite <- Hs, (proj2 (String.eqb_neq _ _) Hsid), Hc. unfold Store.TrySet.
  rewrite <- Hsame. unfold Store.holds. rewrite Hw1. cbn. replace (now e' <? now e + dedupWindow) with true by lia.
  by destruct w1.
Qed.

(** ** What a record changes *)

Lemma total_octets_exact g o :
  0 <= g < 2 ^ 31 -> 0 <= o < 2 ^ 32 -> total_octets g o = g * 2 ^ 32 + o.
Proof.
  intros Hg Ho. unfold total_octets. rewrite Z.shiftl_mul_pow2 by lia.
  rewrite i64_small by (unfold max_int64; lia).
  rewrite <- Z.shiftl_mul_pow2 at 1 by lia. apply lor_shiftl_add; lia.
Qed.

Lemma AuthorizeMAC_grants t up seen mac nas d :
  HotspotStore.grants (HotspotStore.AuthorizeMAC t up seen mac nas d).2 = HotspotStore.grants d.
Proof.
  unfold HotspotStore.AuthorizeMAC. destruct (negb up); [done |].
  destruct (match HotspotStore.device_match mac nas d with Some _ => _ | None => _ end); [| done].
  by destruct seen.
Qed.

(** The session history and the live table, or the grants, stay as they are. *)
Definition one_ledger (w w' : World) : Prop :=
  (hist w' = hist w /\ live w' = live w) \/
  HotspotStore.grants (hotspot w') = HotspotStore.grants (hotspot w).

Lemma meter_ledger c e r sid status n w taken w' :
  meterVoucherSession c e r sid status n w = (taken, w') ->
  hist w' = hist w /\ live w' = live w /\
  (taken = false -> HotspotStore.grants (hotspot w') = HotspotStore.grants (hotspot w)).
Proof.
  unfold meterVoucherSession. destruct (negb (grantUsageDB c)); [by intros [= <- <-] |].
  destruct (Identity.NormaliseMAC _) as [mac|]; [| by intros [= <- <-]].
  pose proof (AuthorizeMAC_grants (now e) (meter_up e) (meter_seen e) mac (nas_id c r) (hotspot w)) as Hg.
  destruct (mabDB c).
  - destruct (HotspotStore.AuthorizeMAC _ _ _ _ _ _) as [[[sub|]|] h]; cbn [snd] in Hg;
      [destruct (negb _); [by intros [= <- <-] |] | | by intros [= <- <-]];
      destruct (HotspotStore.RecordGrantUsage _ _ _ _ _ _ _ _) as [[[]|] h']; by intros [= <- <-].
  - destruct (HotspotStore.RecordGrantUsage _ _ _ _ _ _ _ _) as [[[]|] h']; by intros [= <- <-].
Qed.

Lemma resolve_ledger c e r w :
  let w' := (resolveAccountingSubscriber c e r w).2 in
  hist w' = hist w /\ live w' = live w /\ HotspotStore.grants (hotspot w') = HotspotStore.grants (hotspot w).
Proof.
  unfold resolveAccountingSubscriber. destruct (String.eqb _ _); [done |].
  destruct (if mabDB c then _ else None) as [mac|].
  - pose proof (AuthorizeMAC_grants (now e) (resolve_up e) (resolve_seen e) mac (nas_id c r) (hotspot w)) as Hg.
    destruct (HotspotStore.AuthorizeMAC _ _ _ _ _ _) as [[[sub|]|] h]; [| done | done].
    by destruct (_ =? 0).
  - by destruct (Daemon.GetSubscriberByUsername _ _ _) as [[[sub|]|] x].
Qed.

Lemma settle_hotspot status res f w :
  (forall x, hotspot (f x) = hotspot x) -> hotspot (settle status res f w) = hotspot w.
Proof. intros Hf. unfold settle. destruct res as [[]|]; [by rewrite Hf | done | done]. Qed.

Lemma persist_ledger c e r w : one_ledger w (persist c e r w).
Proof.
  unfold persist. destruct (acctOctets r) as [input output]. destruct (negb (acctDB c)); [by right |].
  destruct (meterVoucherSession _ _ _ _ _ _ _) as [taken w1] eqn:Hm.
  apply meter_ledger in Hm as (Hh & Hl & Hg). destruct taken; [by left |].
  specialize (Hg eq_refl). right. rewrite <- Hg.
  destruct (_ =? StatusStart); [| destruct (_ =? StatusInterimUpdate); [| destruct (_ =? StatusStop); [| done]]].
  - unfold acctStart. pose proof (resolve_ledger c e r w1) as (_ & _ & Ht).
    destruct (resolveAccountingSubscriber c e r w1) as [[sub|] w2]; cbn [snd] in Ht; [| done].
    rewrite <- Ht. destruct (History.StartSession _ _ _ _ _ _ _ _) as [[u|] h]; [| done].
    by destruct (liveSessions c).
  - unfold acctUpdate. destruct (History.UpdateSessionOctets _ _ _ _ _) as [res h].
    rewrite settle_hotspot; [done |]. intros x. by destruct (liveSessions c).
  - unfold acctStop. destruct (History.StopSession _ _ _ _ _ _ _) as [res h].
    rewrite settle_hotspot; [done |]. intros x. by destruct (liveSessions c).
Qed.

(** The records this daemon processes for a subscriber's session. *)
Definition processed (c : Config) (e : Env) (r : AcctRequest) (w : World) : Prop :=
  acctDB c = true /\ AcctSessionID r <> EmptyString /\
  (acctDedup c = true -> Store.holds (now e) (request_key r) (dedup w) = false) /\
  (grantUsageDB c = false \/ Identity.NormaliseMAC (UserName r) = None).

Lemma handle_processed c e r w :
  processed c e r w -> statusType r <> StatusAccountingOn -> statusType r <> StatusAccountingOff ->
  exists x, handleAccounting c e r w = log Ack (persist c e r (set_dedup x w)) /\
    forall n, meterVoucherSession c e r (AcctSessionID r) (acctStatusLabel (statusType r)) n (set_dedup x w) =
      (false, set_dedup x w).
Proof.
  intros (Hdb & Hsid & Hnew & Hm) Hon Hoff.
  assert (forall x n, meterVoucherSession c e r (AcctSessionID r) (acctStatusLabel (statusType r)) n (set_dedup x w) =
      (false, set_dedup x w)) as Hmeter.
  { intros x n. unfold meterVoucherSession. destruct Hm as [-> | ->]; [done |]. by destruct (negb _). }
  unfold handleAccounting.
  replace ((statusType r =? StatusAccountingOn) || (statusType r =? StatusAccountingOff)) with false by lia.
  rewrite (proj2 (String.eqb_neq _ _) Hsid). destruct (acctDedup c).
  - unfold Store.TrySet. rewrite Hnew by done. by eexists.
  - exists (dedup w). by destruct w.
Qed.

(** Each record is charged to one ledger: it leaves the hotspot grants as
    they were, or the session history and the live table. And a subscriber's
    Accounting-Stop closes exactly the open rows of its session, with the cause
    and the true totals - the gigaword count times 2^32 plus the low word, so
    usage never appears to restart at 4 GiB - removes the session from the
    live table, and is counted as persisted or, when no row was open, as
    unmatched. *)
Theorem stop_settles_the_session c e r w :
  let w' := handleAccounting c e r w in
  one_ledger w w' /\
  (statusType r = StatusStop -> processed c e r w -> store_up e = true ->
   0 <= InputGigawords r < 2 ^ 31 -> 0 <= OutputGigawords r < 2 ^ 31 ->
   0 <= InputOctets r < 2 ^ 32 -> 0 <= OutputOctets r < 2 ^ 32 ->
   let opened := existsb (History.open_for (AcctSessionID r)) (History.history (hist w)) in
   History.history (hist w') =
     map (fun row => if History.open_for (AcctSessionID r) row
                     then History.stopped (now e) (InputGigawords r * 2 ^ 32 + InputOctets r)
                            (OutputGigawords r * 2 ^ 32 + OutputOctets r) (TerminateCause r) row
                     else row) (History.history (hist w)) /\
   History.subscribers (hist w') = History.subscribers (hist w) /\
   trace w' = trace w ++ (if opened then [Processed "stop" "persisted"]
                          else [UnmatchedRecord; Processed "stop" "unmatched"]) ++ [Ack] /\
   (opened = true -> liveSessions c = true -> live_up e = true -> forall id row,
      live w' !! id = Some row -> LiveSessions.SessionID (LiveSessions.sess row) <> AcctSessionID r)).
Proof.
  intros w'. split.
  { unfold w', handleAccounting, one_ledger. cbn [log hist live hotspot].
    destruct (_ || _); [by left |]. destruct (String.eqb _ _); [by left |].
    destruct (acctDedup c); [| apply persist_ledger].
    destruct (Store.TrySet _ _ _ _ _) as [[] s]; [apply (persist_ledger c e r (set_dedup s w)) | by left]. }
  intros Hst Hp Hup Hig Hog Hio Hoo opened.
  destruct (handle_processed c e r w Hp ltac:(by rewrite Hst) ltac:(by rewrite Hst)) as (x & Hw' & Hmeter).
  destruct Hp as (Hdb & _). unfold w'. rewrite Hw'. unfold persist, acctOctets.
  rewrite !total_octets_exact by done. rewrite Hdb, Hmeter, Hst. cbn [negb].
  change (StatusStop =? StatusStart) with false. change (StatusStop =? StatusInterimUpdate) with false.
  change (StatusStop =? StatusStop) with true. change (acctStatusLabel StatusStop) with "stop"%string.
  cbn iota. unfold acctStop, History.StopSession. rewrite Hup. cbn [negb set_dedup hist].
  fold opened. unfold settle. destruct opened.
  - destruct (liveSessions c); cbn [log set_live set_hist hist trace live History.with_history History.history History.subscribers].
    + split; [done |]. split; [done |]. split; [by rewrite <- app_assoc |]. intros _ _ Hl id row.
      unfold LiveSessions.DeleteBySessionID. rewrite Hl. cbn [snd]. intros [_ Hf]%map_lookup_filter_Some.
      by apply String.eqb_neq.
    + split; [done |]. split; [done |]. split; [by rewrite <- app_assoc |]. done.
  - cbn. split; [done |]. split; [done |]. split; [by rewrite <- !app_assoc |]. done.
Qed.

End Handler.

(** ** Concrete runs *)

#[local] Existing Instance History.toy_postgres.

Definition bob : Identity.Subscriber :=
  Identity.MkSubscriber 7 "bob" EmptyString "active" "50M/50M" false "2M/2M" EmptyString None 1 [] 100.

#[local] Instance toy_lookup : Daemon.DBQuerier unit :=
  fun _ username d => (Ok (if String.eqb username "bob" then Some bob else None), d).

Definition demo_config : Config := MkConfig true true true true None true.
Definition all_up (t : Z) : Env := MkEnv t true true true true true true true.
Definition record (kind giga low : Z) : AcctRequest :=
  MkAcct kind "s1" "bob" low giga 5 0 None (Some "100.64.0.9"%string) None None "User-Request"
    (Nas.UDPAddr "10.0.0.1") "10.0.0.1".

Definition demo_world : World := MkWorld ∅ History.demo_db HotspotStore.demo ∅ tt [].
Definition started : World := handleAccounting demo_config (all_up 10) (record StatusStart 0 0) demo_world.

Lemma retransmit_processed_once_witness :
  let w1 := handleAccounting demo_config (all_up 20) (record StatusInterimUpdate 0 900) started in
  handleAccounting demo_config (all_up 25) (record StatusStart 0 0) w1 = log Ack (log DedupSkipped w1).
Proof.
  refine (proj1 (retransmit_processed_once demo_config (all_up 10) (record StatusStart 0 0) demo_world
    [(all_up 20, record StatusInterimUpdate 0 900)] (all_up 25) (record StatusStart 0 0)
    eq_refl _ _ _ eq_refl _ eq_refl) _ _ _); try discriminate.
  - intros p Hp. apply list_elem_of_In in Hp as [<- | []]. reflexivity.
  - split; [reflexivity | split; reflexivity].
Defined.

Lemma stop_settles_the_session_witness :
  let w' := handleAccounting demo_config (all_up 90) (record StatusStop 1 6) started in
  map History.input_octets (History.history (hist w')) = [4294967302] /\ live w' !! 7 = None.
Proof.
  destruct (stop_settles_the_session demo_config (all_up 90) (record StatusStop 1 6) started)
    as [_ Hstop].
  assert (processed demo_config (all_up 90) (record StatusStop 1 6) started) as Hp.
  { split; [reflexivity |]. split; [discriminate |].
    split; [vm_compute; reflexivity | right; vm_compute; reflexivity]. }
  destruct (Hstop eq_refl Hp eq_refl ltac:(done) ltac:(done) ltac:(done) ltac:(done))
    as (Hh & _ & _ & Hlive).
  split; [rewrite Hh; vm_compute; reflexivity |].
  destruct (live _ !! 7) as [row|] eqn:E; [| reflexivity].
  exfalso. eapply (Hlive ltac:(vm_compute; reflexivity) eq_refl eq_refl 7 row E).
  vm_compute in E. discriminate E.
Defined.

End Accounting.
