(* ===== verification/Gst.v ===== *)
(** * internal/billing/state.go and gst.go: states and tax heads

    The registry of GST states with its lookup tables, [NormaliseState], the
    filing code and name of a state, and the invoice arithmetic. Strings are
    ASCII, as everywhere in the development. *)

From S2P Require Import Prelude GoStrings Decimal.
From Stdlib Require Import Ascii QArith.

Local Open Scope Z_scope.

Module Gst.

(** ** The state registry (state.go) *)

Record State : Type := MkState { Code : string; GSTCode : string; Name : string }.

Definition gstStates : list State := [
  MkState "JK" "01" "Jammu and Kashmir";
  MkState "HP" "02" "Himachal Pradesh";
  MkState "PB" "03" "Punjab";
  MkState "CH" "04" "Chandigarh";
  MkState "UK" "05" "Uttarakhand";
  MkState "HR" "06" "Haryana";
  MkState "DL" "07" "Delhi";
  MkState "RJ" "08" "Rajasthan";
  MkState "UP" "09" "Uttar Pradesh";
  MkState "BR" "10" "Bihar";
  MkState "SK" "11" "Sikkim";
  MkState "AR" "12" "Arunachal Pradesh";
  MkState "NL" "13" "Nagaland";
  MkState "MN" "14" "Manipur";
  MkState "MZ" "15" "Mizoram";
  MkState "TR" "16" "Tripura";
  MkState "ML" "17" "Meghalaya";
  MkState "AS" "18" "Assam";
  MkState "WB" "19" "West Bengal";
  MkState "JH" "20" "Jharkhand";
  MkState "OD" "21" "Odisha";
  MkState "CG" "22" "Chhattisgarh";
  MkState "MP" "23" "Madhya Pradesh";
  MkState "GJ" "24" "Gujarat";
  MkState "DD" "25" "Daman and Diu";
  MkState "DN" "26" "Dadra and Nagar Haveli and Daman and Diu";
  MkState "MH" "27" "Maharashtra";
  MkState "KA" "29" "Karnataka";
  MkState "GA" "30" "Goa";
  MkState "LD" "31" "Lakshadweep";
  MkState "KL" "32" "Kerala";
  MkState "TN" "33" "Tamil Nadu";
  MkState "PY" "34" "Puducherry";
  MkState "AN" "35" "Andaman and Nicobar Islands";
  MkState "TS" "36" "Telangana";
  MkState "AP" "37" "Andhra Pradesh";
  MkState "LA" "38" "Ladakh";
  MkState "OT" "97" "Other Territory"
]%string.

Definition legacyGSTCodes : list (string * string) := [("28", "AP")]%string.

Definition normaliseKey (s : string) : string := to_upper (remove_char " " (trim_space s)).

Definition index_by (key : State -> string) (l : list State) : gmap string State :=
  foldl (fun m s => <[key s := s]> m) ∅ l.

(** The tables [init] builds. *)
Definition byCode : gmap string State := index_by Code gstStates.

Definition byGSTCode : gmap string State :=
  foldl (fun m p => match byCode !! p.2 with Some s => <[p.1 := s]> m | None => m end)
    (index_by GSTCode gstStates) legacyGSTCodes.

Definition byName : gmap string State := index_by (fun s => normaliseKey (Name s)) gstStates.

(** [NormaliseState] after its first line. *)
Definition resolve (key : string) : option string :=
  if String.eqb key EmptyString then None
  else match byCode !! key with
       | Some s => Some (Code s)
       | None =>
           match byGSTCode !! key with
           | Some s => Some (Code s)
           | None => match byName !! key with Some s => Some (Code s) | None => None end
           end
       end.

Definition NormaliseState (input : string) : option string := resolve (normaliseKey input).

Definition GSTCodeFor (stateCode : string) : option string :=
  GSTCode <$> byCode !! to_upper (trim_space stateCode).

Definition StateName (stateCode : string) : option string :=
  Name <$> byCode !! to_upper (trim_space stateCode).

Definition States : list State := gstStates.

(** ** Invoices (gst.go) *)

Section Invoices.
Context `{Decimal}.

Record GstRate : Type := MkRate { rate_ID : Z; CgstRate : dec; SgstRate : dec; IgstRate : dec }.

Record Invoice : Type := MkInvoice {
  inv_SubscriberID : Z;
  BaseAmount : dec;
  CgstAmount : dec;
  SgstAmount : dec;
  IgstAmount : dec;
  TotalAmount : dec;
  GstRateID : Z;
  GbIncluded : Z;
  GbUsed : dec
}.

Definition DefaultHomeState : string := "TN".

Definition tax_of (baseAmount rate : dec) : dec :=
  Round (Div (Mul baseAmount rate) (NewFromInt 100)) 2.

Definition intrastate (subscriberState homeState : string) : bool :=
  match NormaliseState subscriberState, NormaliseState homeState with
  | Some subCode, Some homeCode => String.eqb subCode homeCode
  | _, _ => false
  end.

Definition CalculateGstInvoiceFrom (baseAmount : dec) (subscriberState homeState : string)
    (rate : GstRate) : Invoice :=
  let zero := NewFromInt 0 in
  let '(cgst, sgst, igst) :=
    if intrastate subscriberState homeState
    then (tax_of baseAmount (CgstRate rate), tax_of baseAmount (SgstRate rate), zero)
    else (zero, zero, tax_of baseAmount (IgstRate rate)) in
  MkInvoice 0 baseAmount cgst sgst igst (Add (Add (Add baseAmount cgst) sgst) igst) (rate_ID rate) 0 zero.

Definition CalculateGstInvoice (baseAmount : dec) (subscriberState : string) (rate : GstRate) : Invoice :=
  CalculateGstInvoiceFrom baseAmount subscriberState DefaultHomeState rate.

End Invoices.

(** ** Lemmas on the registry *)

Lemma index_by_lookup key l (m : gmap string State) k s :
  foldl (fun m s => <[key s := s]> m) m l !! k = Some s ->
  m !! k = Some s \/ (s ∈ l /\ key s = k).
Proof.
  revert m. induction l as [| x l IH]; intros m; simpl; [by left |].
  intros [Hm | [Hin Hk]]%IH; [| by right; set_solver].
  apply lookup_insert_Some in Hm as [[<- <-] | [_ Hm]]; [right; set_solver | by left].
Qed.

Lemma index_by_Some key l k s : index_by key l !! k = Some s -> s ∈ l /\ key s = k.
Proof. intros [Hm | Hs]%index_by_lookup; [by rewrite lookup_empty in Hm | done]. Qed.

(** The ways a state is named: its code, its GST code, its name, or 28 for
    Andhra Pradesh. *)
Definition names (s : State) (key : string) : Prop :=
  key = Code s \/ key = GSTCode s \/ key = normaliseKey (Name s) \/
  (key = "28" /\ Code s = "AP")%string.

Lemma byGSTCode_Some k s :
  byGSTCode !! k = Some s -> s ∈ gstStates /\ (GSTCode s = k \/ (k = "28" /\ Code s = "AP")%string).
Proof.
  unfold byGSTCode, legacyGSTCodes. cbn [foldl fst snd].
  destruct (byCode !! "AP"%string) as [ap |] eqn:Hap; [| intros [? ?]%index_by_Some; by split; [| left]].
  apply index_by_Some in Hap as [Hin Hc].
  intros [[<- <-] | [_ [? ?]%index_by_Some]]%lookup_insert_Some; (split; [done |]); [right | left]; done.
Qed.

(** Every name resolves, computed over the registry. *)
Lemma registry_resolves :
  forallb (fun s =>
    bool_decide (resolve (Code s) = Some (Code s)) &&
    bool_decide (resolve (GSTCode s) = Some (Code s)) &&
    bool_decide (resolve (normaliseKey (Name s)) = Some (Code s)) &&
    bool_decide (NormaliseState (Code s) = Some (Code s)) &&
    bool_decide (GSTCodeFor (Code s) = Some (GSTCode s)) &&
    bool_decide (StateName (Code s) = Some (Name s)) &&
    bool_decide (NormaliseState (GSTCode s) = Some (Code s)) &&
    bool_decide (NormaliseState (Name s) = Some (Code s))) gstStates = true.
Proof. vm_compute. reflexivity. Qed.

Lemma registry_entry s : s ∈ gstStates ->
  resolve (Code s) = Some (Code s) /\ resolve (GSTCode s) = Some (Code s) /\
  resolve (normaliseKey (Name s)) = Some (Code s) /\ NormaliseState (Code s) = Some (Code s) /\
  GSTCodeFor (Code s) = Some (GSTCode s) /\ StateName (Code s) = Some (Name s) /\
  NormaliseState (GSTCode s) = Some (Code s) /\ NormaliseState (Name s) = Some (Code s).
Proof.
  intros Hs. pose proof registry_resolves as Hall. rewrite forallb_forall in Hall.
  specialize (Hall s (proj1 (list_elem_of_In _ _) Hs)).
  rewrite !andb_true_iff, !bool_decide_eq_true in Hall. tauto.
Qed.

Lemma resolve_exact key c :
  resolve key = Some c <-> exists s, s ∈ gstStates /\ Code s = c /\ names s key.
Proof.
  split.
  - unfold resolve. destruct (String.eqb key EmptyString); [done |].
    destruct (byCode !! key) as [s |] eqn:H1.
    { intros [= <-]. apply index_by_Some in H1 as [Hs <-]. exists s. unfold names. auto. }
    destruct (byGSTCode !! key) as [s |] eqn:H2.
    { intros [= <-]. apply byGSTCode_Some in H2 as [Hs [<- | Hap]]; exists s; unfold names; tauto. }
    destruct (byName !! key) as [s |] eqn:H3; [| done].
    intros [= <-]. apply index_by_Some in H3 as [Hs <-]. exists s. unfold names. tauto.
  - intros (s & Hs & <- & Hn). destruct (registry_entry s Hs) as (H1 & H2 & H3 & _).
    destruct Hn as [-> | [-> | [-> | [-> Hap]]]]; [exact H1 | exact H2 | exact H3 |]. rewrite Hap. by vm_compute.
Qed.

(** ** Lemmas on the tax *)

(** [n] hundredths at [r] hundredths of a percent, to the nearest hundredth. *)
Definition tax (n r : Z) : Z := half_away (n * r) 10000.

Section Arithmetic.
Context `{DecimalLaws}.

Lemma tax_of_paise b r n k : is_paise b n -> is_paise r k -> is_paise (tax_of b r) (tax n k).
Proof.
  unfold is_paise. intros Hb Hr. unfold tax_of.
  assert (~ val (NewFromInt 100) == 0)%Q as Hne by (rewrite val_NewFromInt; discriminate).
  assert (val (Div (Mul b r) (NewFromInt 100)) == n * k # 1000000)%Q as Hd.
  { rewrite val_Div, val_Mul, val_NewFromInt, Hb, Hr by done.
    assert ((n # 100) * (k # 100) / inject_Z 100 == n * k # 1000000)%Q as ->.
    { unfold Qeq. simpl. lia. }
    unfold round_half_away, Qnum, Qden. change (Zpos (pow10 16)) with (10000000000 * 1000000).
    rewrite Z.mul_assoc, half_away_exact. unfold Qeq, pow10. simpl. lia. }
  rewrite val_Round, Hd. unfold round_half_away, Qnum, Qden, tax.
  change (Zpos (pow10 2)) with 100. change 1000000%positive with (10000 * 100)%positive.
  by rewrite half_away_scale.
Qed.

(** The amounts of an invoice on whole hundredths. *)
Lemma invoice_paise base n rate c s i sub home :
  is_paise base n -> is_paise (CgstRate rate) c -> is_paise (SgstRate rate) s ->
  is_paise (IgstRate rate) i ->
  let inv := CalculateGstInvoiceFrom base sub home rate in
  let cg := if intrastate sub home then tax n c else 0 in
  let sg := if intrastate sub home then tax n s else 0 in
  let ig := if intrastate sub home then 0 else tax n i in
  BaseAmount inv = base /\ GstRateID inv = rate_ID rate /\
  is_paise (CgstAmount inv) cg /\ is_paise (SgstAmount inv) sg /\ is_paise (IgstAmount inv) ig /\
  is_paise (TotalAmount inv) (n + cg + sg + ig).
Proof.
  intros Hb Hc Hs Hi inv cg sg ig. subst inv cg sg ig. unfold CalculateGstInvoiceFrom.
  destruct (intrastate sub home); simpl; split_and!; try done;
    repeat first [apply paise_add | apply tax_of_paise | apply paise_zero]; done.
Qed.

End Arithmetic.

Lemma half_away_nonneg n d : 0 <= n -> 0 <= half_away n d.
Proof.
  intros Hn. unfold half_away. pose proof (Z.sgn_nonneg n) as Hs.
  apply Z.mul_nonneg_nonneg; [lia | apply Z.div_pos; lia].
Qed.

Lemma intrastate_spec a b :
  intrastate a b = true <-> exists c, NormaliseState a = Some c /\ NormaliseState b = Some c.
Proof.
  unfold intrastate. destruct (NormaliseState a) as [c |], (NormaliseState b) as [c' |];
    try (split; [done | naive_solver]).
  rewrite String.eqb_eq. naive_solver.
Qed.

(** ** Properties *)

(** [NormaliseState] accepts exactly the registry's codes, GST codes and
    names (and 28 for Andhra Pradesh), in any case and with any spaces, and
    gives the two-letter code; a code normalises to itself, has a filing code
    and a name, and both of these normalise back to it. *)
Theorem states_canonical (input c : string) :
  (NormaliseState input = Some c <->
   exists s, s ∈ gstStates /\ Code s = c /\ names s (normaliseKey input)) /\
  (NormaliseState input = Some c ->
   NormaliseState c = Some c /\
   exists g n, GSTCodeFor c = Some g /\ StateName c = Some n /\
     NormaliseState g = Some c /\ NormaliseState n = Some c).
Proof.
  unfold NormaliseState at 1 3. split; [apply resolve_exact |].
  intros (s & Hs & <- & _)%resolve_exact.
  destruct (registry_entry s Hs) as (_ & _ & _ & H1 & H2 & H3 & H4 & H5).
  split; [exact H1 |]. exists (GSTCode s), (Name s). auto.
Qed.

Lemma states_canonical_witness :
  NormaliseState "  Tamil nadu" = Some "TN"%string /\ GSTCodeFor "TN" = Some "33"%string.
Proof.
  assert (NormaliseState "  Tamil nadu" = Some "TN"%string) as Hn by (vm_compute; reflexivity).
  destruct (proj2 (states_canonical _ _) Hn) as (_ & g & n & Hg & _ & _ & _).
  split; [exact Hn |]. rewrite Hg. vm_compute in Hg. symmetry. exact Hg.
Defined.

(** The exact heads: each is the percentage rounded half away from zero, where
    the source's comment asks for banker's rounding; the two differ on ties. *)
Theorem gst_invoice_exact `{DecimalLaws} base n rate c s i (sub home : string) :
  is_paise base n -> is_paise (CgstRate rate) c -> is_paise (SgstRate rate) s ->
  is_paise (IgstRate rate) i ->
  let inv := CalculateGstInvoiceFrom base sub home rate in
  let same := exists code, NormaliseState sub = Some code /\ NormaliseState home = Some code in
  exists cg sg ig,
    is_paise (CgstAmount inv) cg /\ is_paise (SgstAmount inv) sg /\ is_paise (IgstAmount inv) ig /\
    is_paise (BaseAmount inv) n /\ is_paise (TotalAmount inv) (n + cg + sg + ig) /\
    (same -> cg = tax n c /\ sg = tax n s /\ ig = 0) /\
    (~ same -> cg = 0 /\ sg = 0 /\ ig = tax n i) /\
    (0 <= n -> 0 <= c -> 0 <= s -> 0 <= i -> 0 <= cg /\ 0 <= sg /\ 0 <= ig).
Proof.
  intros Hb Hc Hs Hi inv same.
  destruct (invoice_paise base n rate c s i sub home Hb Hc Hs Hi) as (Hbase & _ & H1 & H2 & H3 & H4).
  fold inv in Hbase, H1, H2, H3, H4.
  pose proof (intrastate_spec sub home) as Hsame. fold same in Hsame.
  eexists _, _, _. split; [exact H1 |]. split; [exact H2 |]. split; [exact H3 |].
  rewrite Hbase. split; [exact Hb |]. split; [exact H4 |].
  destruct (intrastate sub home).
  - split; [done |]. split; [intros Hn; destruct Hn; by apply Hsame |].
    intros. split_and!; [apply half_away_nonneg; nia .. | done].
  - split; [intros Hx; apply Hsame in Hx; done |]. split; [done |].
    intros. split_and!; [done | done | apply half_away_nonneg; nia].
Qed.

(** The paisa nearest to the percentage: at most half a paisa off. *)
Definition nearest (amount rate head : Z) : Prop := 2 * Z.abs (10000 * head - amount * rate) <= 10000.

Lemma tax_nearest n r : nearest n r (tax n r).
Proof.
  unfold nearest, tax, half_away. set (m := n * r). change (2 * Z.pos 10000) with 20000.
  pose proof (Z.div_mod (2 * Z.abs m + 10000) 20000 ltac:(lia)) as Hd.
  pose proof (Z.mod_pos_bound (2 * Z.abs m + 10000) 20000 ltac:(lia)) as Hm.
  remember ((2 * Z.abs m + 10000) / 20000) as q eqn:Hq. remember ((2 * Z.abs m + 10000) mod 20000) as k eqn:Hk.
  clear Hq Hk. destruct (Z.sgn_spec m) as [[Hs ->] | [[Hs ->] | [Hs ->]]]; lia.
Qed.

(** C13: An invoice on whole paise carries CGST and SGST exactly when both
    states normalise to the same code and IGST otherwise, never both; each tax
    is a whole number of paise nearest to the exact percentage, never more than
    half a paisa off, and the total is exactly the base plus the taxes. Which
    way a tie of exactly half a paisa goes is left open here. *)
Theorem gst_invoice_nearest `{DecimalLaws} base n rate c s i (sub home : string) :
  is_paise base n -> is_paise (CgstRate rate) c -> is_paise (SgstRate rate) s ->
  is_paise (IgstRate rate) i ->
  let inv := CalculateGstInvoiceFrom base sub home rate in
  let same := exists code, NormaliseState sub = Some code /\ NormaliseState home = Some code in
  exists cg sg ig,
    is_paise (CgstAmount inv) cg /\ is_paise (SgstAmount inv) sg /\ is_paise (IgstAmount inv) ig /\
    is_paise (BaseAmount inv) n /\ is_paise (TotalAmount inv) (n + cg + sg + ig) /\
    (same -> nearest n c cg /\ nearest n s sg /\ ig = 0) /\
    (~ same -> cg = 0 /\ sg = 0 /\ nearest n i ig) /\
    (0 <= n -> 0 <= c -> 0 <= s -> 0 <= i -> 0 <= cg /\ 0 <= sg /\ 0 <= ig).
Proof.
  intros Hb Hc Hs Hi inv same.
  destruct (gst_invoice_exact base n rate c s i sub home Hb Hc Hs Hi)
    as (cg & sg & ig & H1 & H2 & H3 & H4 & H5 & Hin & Hout & Hpos).
  exists cg, sg, ig. split_and!; auto.
  - intros (-> & -> & ->)%Hin. auto using tax_nearest.
  - intros (-> & -> & ->)%Hout. auto using tax_nearest.
Qed.

Lemma gst_invoice_nearest_witness :
  let rate := @MkRate RationalDecimal 1 (9 # 1)%Q (9 # 1)%Q (18 # 1)%Q in
  exists cg sg ig, nearest 49905 900 cg /\ nearest 49905 900 sg /\ ig = 0 /\
  is_paise (H0 := RationalLaws) (TotalAmount (H := RationalDecimal)
    (CalculateGstInvoiceFrom (H := RationalDecimal) (49905 # 100)%Q "tamilnadu" "TN" rate)) (49905 + cg + sg + ig).
Proof.
  destruct (gst_invoice_nearest (H0 := RationalLaws) (49905 # 100)%Q 49905
    (@MkRate RationalDecimal 1 (9 # 1)%Q (9 # 1)%Q (18 # 1)%Q) 900 900 1800 "tamilnadu" "TN")
    as (cg & sg & ig & _ & _ & _ & _ & Ht & Hin & _ & _);
    [reflexivity | reflexivity | reflexivity | reflexivity |].
  destruct Hin as (Hcg & Hsg & Hig); [exists "TN"%string; split; vm_compute; reflexivity |].
  exists cg, sg, ig. exact (conj Hcg (conj Hsg (conj Hig Ht))).
Defined.

(** A tie: 4.5 paise of tax on 50 paise at 9 per cent become 5, where banker's
    rounding gives 4. *)
Example ties_go_away_from_zero : tax 50 900 = 5 /\ nearest 50 900 4 /\ nearest 50 900 5.
Proof. vm_compute. split; [done |]. split; discriminate. Qed.

End Gst.
