(* ===== verification/Billing.v ===== *)
(** * internal/billing/wallet.go and internal/db/billing.go: the wallet

    The billing tables, the transaction [RecordRecharge] with its
    general-ledger posting, and the two wallet operations [Recharge] and
    [Post]. Money columns hold hundredths; Go-side amounts are decimals.
    A statement's outcome is an argument; a failing transaction restores
    every table but the id sequences. Columns no billing operation touches,
    lengths of VARCHAR columns and the status-history trigger are left out. *)

From S2P Require Import Prelude GoStrings Decimal Gst.
From Stdlib Require Import QArith.

Local Open Scope Z_scope.

Module Billing.

(** ** Tables *)

Record SubscriberRow : Type := MkSubscriber {
  username : string;
  mobile_number : string;
  franchise_id : option Z;
  registered_state : string;
  status : string;
  dunning_state : string;
  wallet_balance : Z;
  plan_id : Z;
  plan_expiry : option Z
}.

Record PlanRow : Type := MkPlan { p_name : string; price : Z; validity_days : Z; volume_gb : Z }.

Record LedgerRow : Type := MkLedger {
  lg_id : Z;
  lg_subscriber_id : Z;
  lg_franchise_id : option Z;
  lg_account : string;
  lg_entry_type : string;
  lg_amount : Z;
  lg_balance_after : Z;
  lg_transaction_token : option string;
  lg_description : string;
  lg_adjusted_by : option string;
  lg_created_at : Z
}.

Record JournalEntry : Type := MkJournal {
  je_id : Z; je_description : string; je_source_type : string; je_source_id : Z; je_created_by : string
}.

Record JournalLine : Type := MkLine {
  jl_entry : Z; jl_account : Z; jl_debit : Z; jl_credit : Z
}.

Record GstRow : Type := MkGst {
  gr_id : Z; gr_cgst : Z; gr_sgst : Z; gr_igst : Z; gr_effective_from : Z
}.

Record InvoiceRow : Type := MkInvoiceRow {
  iv_id : Z;
  iv_subscriber_id : Z;
  iv_base : Z;
  iv_cgst : Z;
  iv_sgst : Z;
  iv_igst : Z;
  iv_total : Z;
  iv_gst_rate_id : Z;
  iv_gb_included : Z;
  iv_gb_used : Z;
  iv_created_at : Z
}.

Record DB : Type := MkDB {
  subscribers : gmap Z SubscriberRow;
  plans : gmap Z PlanRow;
  franchises : gset Z;
  wallet_ledgers : list LedgerRow;
  next_ledger : Z;
  chart_of_accounts : gmap string Z;
  journal_entries : list JournalEntry;
  next_entry : Z;
  journal_lines : list JournalLine;
  gst_rates : list GstRow;
  invoices : list InvoiceRow;
  next_invoice : Z
}.

Definition with_subscribers (f : gmap Z SubscriberRow -> gmap Z SubscriberRow) (d : DB) : DB :=
  MkDB (f (subscribers d)) (plans d) (franchises d) (wallet_ledgers d) (next_ledger d)
    (chart_of_accounts d) (journal_entries d) (next_entry d) (journal_lines d) (gst_rates d)
    (invoices d) (next_invoice d).
Definition with_ledgers (f : list LedgerRow -> list LedgerRow) (n : Z) (d : DB) : DB :=
  MkDB (subscribers d) (plans d) (franchises d) (f (wallet_ledgers d)) n
    (chart_of_accounts d) (journal_entries d) (next_entry d) (journal_lines d) (gst_rates d)
    (invoices d) (next_invoice d).
Definition with_entries (f : list JournalEntry -> list JournalEntry) (n : Z) (d : DB) : DB :=
  MkDB (subscribers d) (plans d) (franchises d) (wallet_ledgers d) (next_ledger d)
    (chart_of_accounts d) (f (journal_entries d)) n (journal_lines d) (gst_rates d)
    (invoices d) (next_invoice d).
Definition with_lines (f : list JournalLine -> list JournalLine) (d : DB) : DB :=
  MkDB (subscribers d) (plans d) (franchises d) (wallet_ledgers d) (next_ledger d)
    (chart_of_accounts d) (journal_entries d) (next_entry d) (f (journal_lines d)) (gst_rates d)
    (invoices d) (next_invoice d).
Definition with_invoices (f : list InvoiceRow -> list InvoiceRow) (n : Z) (d : DB) : DB :=
  MkDB (subscribers d) (plans d) (franchises d) (wallet_ledgers d) (next_ledger d)
    (chart_of_accounts d) (journal_entries d) (next_entry d) (journal_lines d) (gst_rates d)
    (f (invoices d)) n.

Inductive error : Type :=
| ErrNotPositive
| ErrDirection
| ErrTaxRange
| ErrInsufficientBalance
| ErrNotFound
| ErrNoGLAccount
| ErrTaxAccount
| ErrConstraint
| ErrQuery.

(** ** Account labels (wallet.go) *)

Definition AccountSubscriberWallet : string := "subscriber_wallet".
Definition AccountGatewayClearing : string := "payment_gateway_clearing".
Definition AccountRevenueClearing : string := "revenue_clearing".
Definition AccountAdjustmentClearing : string := "adjustment_clearing".

Definition GLAccountCode (account : string) : string :=
  if String.eqb account AccountSubscriberWallet then "1200"
  else if String.eqb account AccountGatewayClearing then "1000"
  else if String.eqb account AccountRevenueClearing then "4000"
  else if String.eqb account AccountAdjustmentClearing then "5200"
  else EmptyString.

Definition GLAccountGSTPayable : string := "2200".
Definition glRevenueAccount : string := "4000".

(** ** Transactions: statements that thread the tables and may fail *)

Definition M (A : Type) : Type := DB -> result error A * DB.
Definition ret {A} (a : A) : M A := fun d => (Ok a, d).
Definition fail {A} (e : error) : M A := fun d => (Err e, d).
Definition bind {A B} (m : M A) (k : A -> M B) : M B := fun d =>
  match m d with (Ok a, d') => k a d' | (Err e, d') => (Err e, d') end.

Notation "'do!' x := m 'in' k" := (bind m (fun x => k))
  (at level 10, x binder, m at level 100, k at level 200).

(** The statements of [RecordRecharge]'s transaction. *)
Inductive stage : Type :=
| BeginTx | DebitLeg | CreditLeg | UpdateBalance | InsertEntry | FindAccount (code : string)
| InsertLine (code : string) | CommitTx.

(** A rollback restores the tables, not the sequences. *)
Definition rollback (before after : DB) : DB :=
  with_entries id (next_entry after) (with_ledgers id (next_ledger after) before).

(** The deferred trigger [check_gl_journal_balanced]: the lines of every entry
    written to in the transaction, which here is the one entry inserted. *)
Definition entry_debits (e : Z) (l : list JournalLine) : Z :=
  foldr (fun r acc => (if jl_entry r =? e then jl_debit r else 0) + acc) 0 l.
Definition entry_credits (e : Z) (l : list JournalLine) : Z :=
  foldr (fun r acc => (if jl_entry r =? e then jl_credit r else 0) + acc) 0 l.
Definition gl_balanced (e : Z) (d : DB) : bool :=
  entry_debits e (journal_lines d) =? entry_credits e (journal_lines d).

Definition inTx {A} (up : stage -> bool) (touched : A -> Z) (fn : M A) : M A := fun d =>
  if negb (up BeginTx) then (Err ErrQuery, d)
  else match fn d with
       | (Ok a, d') => if gl_balanced (touched a) d' && up CommitTx then (Ok a, d')
                       else (Err (if up CommitTx then ErrConstraint else ErrQuery), rollback d d')
       | (Err e, d') => (Err e, rollback d d')
       end.

Section Store.
Context `{Decimal}.

Record Transaction : Type := MkTransaction {
  tx_ID : Z;
  tx_SubscriberID : Z;
  tx_EntryType : string;
  tx_Amount : dec;
  tx_BalanceAfter : dec;
  tx_TransactionToken : string;
  tx_Description : string
}.

Record WalletEntry : Type := MkEntry {
  we_SubscriberID : Z;
  we_FranchiseID : option Z;
  we_Account : string;
  we_EntryType : string;
  we_Amount : dec;
  we_BalanceAfter : dec;
  we_TransactionToken : option string;
  we_Description : string;
  we_AdjustedBy : string
}.

Record RechargePosting : Type := MkPosting {
  po_SubscriberID : Z;
  po_Debit : WalletEntry;
  po_Credit : WalletEntry;
  po_NewBalance : dec;
  po_TaxAmount : dec
}.

(** ** The store (db/billing.go) *)

Definition GetSubscriberBalance (up : bool) (id : Z) (d : DB) : result error dec :=
  if negb up then Err ErrQuery
  else match subscribers d !! id with
       | None => Err ErrNotFound
       | Some r => Ok (of_paise (wallet_balance r))
       end.

Definition has_token (token : string) (r : LedgerRow) : bool :=
  bool_decide (lg_transaction_token r = Some token).

Definition transaction_of_row (r : LedgerRow) : Transaction :=
  MkTransaction (lg_id r) (lg_subscriber_id r) (lg_entry_type r) (of_paise (lg_amount r))
    (of_paise (lg_balance_after r)) (default EmptyString (lg_transaction_token r)) (lg_description r).

Definition GetTransactionByToken (up : bool) (token : string) (d : DB) :
    result error (option Transaction) :=
  if String.eqb token EmptyString then Ok None
  else if negb up then Err ErrQuery
  else Ok (transaction_of_row <$> head (List.filter (has_token token) (wallet_ledgers d))).

Definition token_free (token : option string) (d : DB) : bool :=
  match token with
  | None => true
  | Some t => negb (existsb (has_token t) (wallet_ledgers d))
  end.

Definition known_account (a : string) : bool :=
  negb (String.eqb (GLAccountCode a) EmptyString).

Definition franchise_ok (f : option Z) (d : DB) : bool :=
  match f with None => true | Some f => bool_decide (f ∈ franchises d) end.

Definition nullif_empty (s : string) : option string :=
  if String.eqb s EmptyString then None else Some s.

Definition leg_row (now id : Z) (e : WalletEntry) (token : option string) (amount balance_after : Z) :
    LedgerRow :=
  MkLedger id (we_SubscriberID e) (we_FranchiseID e) (we_Account e) (we_EntryType e) amount
    balance_after token (we_Description e) (nullif_empty (we_AdjustedBy e)) now.

(** [INSERT INTO wallet_ledgers], with the table's constraints. *)
Definition insertLeg (now : Z) (ok : bool) (e : WalletEntry) (token : option string) : M Z := fun d =>
  if negb ok then (Err ErrQuery, d)
  else
    let id := next_ledger d in
    let d := with_ledgers (fun l => l) (id + 1) d in
    match numeric 12 (we_Amount e), numeric 12 (we_BalanceAfter e) with
    | Some amount, Some balance_after =>
        if bool_decide (is_Some (subscribers d !! we_SubscriberID e)) && franchise_ok (we_FranchiseID e) d &&
           known_account (we_Account e) &&
           (String.eqb (we_EntryType e) "credit" || String.eqb (we_EntryType e) "debit") &&
           token_free token d
        then (Ok id, with_ledgers (fun l => l ++ [leg_row now id e token amount balance_after]) (id + 1) d)
        else (Err ErrConstraint, d)
    | _, _ => (Err ErrConstraint, d)
    end.

Definition set_balance (b : Z) (r : SubscriberRow) : SubscriberRow :=
  MkSubscriber (username r) (mobile_number r) (franchise_id r) (registered_state r) (status r)
    (dunning_state r) b (plan_id r) (plan_expiry r).

Definition updateBalance (ok : bool) (id : Z) (b : dec) : M unit := fun d =>
  if negb ok then (Err ErrQuery, d)
  else match numeric 12 b with
       | Some b => if 0 <=? b then (Ok tt, with_subscribers (alter (set_balance b) id) d)
                   else (Err ErrConstraint, d)
       | None => (Err ErrConstraint, d)
       end.

(** *** The general ledger *)

Record glLeg : Type := MkLeg { gl_code : string; gl_entryType : string; gl_amount : dec }.

Definition split_one (counterCode : string) (tax : dec) (leg : glLeg) : option (list glLeg) :=
  if negb (String.eqb (gl_code leg) counterCode) then Some [leg]
  else
    let net := Sub (gl_amount leg) tax in
    if less_eq net (NewFromInt 0) then None
    else Some [MkLeg (gl_code leg) (gl_entryType leg) net;
               MkLeg GLAccountGSTPayable (gl_entryType leg) tax].

Fixpoint split_legs (counterCode : string) (tax : dec) (legs : list glLeg) : option (list glLeg) :=
  match legs with
  | [] => Some []
  | leg :: legs =>
      match split_one counterCode tax leg with
      | None => None
      | Some out => option_map (app out) (split_legs counterCode tax legs)
      end
  end.

Definition splitTaxLeg (legs : list glLeg) (counterCode : string) (tax : dec) :
    result error (list glLeg) :=
  if is_zero tax then Ok legs
  else if negb (String.eqb counterCode glRevenueAccount) then Err ErrTaxAccount
  else match split_legs counterCode tax legs with
       | None => Err ErrTaxRange
       | Some out => Ok out
       end.

Definition insertEntry (ok : bool) (description source_type : string) (source_id : Z) (created_by : string) : M Z :=
  fun d =>
    if negb ok then (Err ErrQuery, d)
    else let id := next_entry d in
         (Ok id, with_entries (fun l => l ++ [MkJournal id description source_type source_id created_by]) (id + 1) d).

Definition glAccountID (ok : bool) (code : string) : M Z := fun d =>
  if negb ok then (Err ErrQuery, d)
  else match chart_of_accounts d !! code with
       | None => (Err ErrNoGLAccount, d)
       | Some id => (Ok id, d)
       end.

(** [INSERT INTO gl_journal_lines], with chk_gl_line_nonzero (a line is never
    both a debit and a credit by construction). *)
Definition insertLine (ok : bool) (entryID accountID : Z) (leg : glLeg) : M unit := fun d =>
  if negb ok then (Err ErrQuery, d)
  else match numeric 14 (gl_amount leg) with
       | None => (Err ErrConstraint, d)
       | Some a =>
           if 0 <? a
           then let '(debit, credit) := if String.eqb (gl_entryType leg) "debit" then (a, 0) else (0, a) in
                (Ok tt, with_lines (fun l => l ++ [MkLine entryID accountID debit credit]) d)
           else (Err ErrConstraint, d)
       end.

Fixpoint insertLines (up : stage -> bool) (entryID : Z) (legs : list glLeg) : M unit :=
  match legs with
  | [] => ret tt
  | leg :: legs =>
      do! accountID := glAccountID (up (FindAccount (gl_code leg))) (gl_code leg) in
      do! _ := insertLine (up (InsertLine (gl_code leg))) entryID accountID leg in
      insertLines up entryID legs
  end.

Definition postWalletGLEntry (up : stage -> bool) (p : RechargePosting) (walletLegID : Z) : M Z :=
  let debitCode := GLAccountCode (we_Account (po_Debit p)) in
  let creditCode := GLAccountCode (we_Account (po_Credit p)) in
  if String.eqb debitCode EmptyString || String.eqb creditCode EmptyString then fail ErrNoGLAccount else
  let createdBy := if String.eqb (we_AdjustedBy (po_Credit p)) EmptyString then "system"%string
                   else we_AdjustedBy (po_Credit p) in
  do! entryID := insertEntry (up InsertEntry) (we_Description (po_Credit p)) "wallet_ledger" walletLegID createdBy in
  match splitTaxLeg [MkLeg debitCode (we_EntryType (po_Debit p)) (we_Amount (po_Debit p));
                     MkLeg creditCode (we_EntryType (po_Credit p)) (we_Amount (po_Credit p))]
          debitCode (po_TaxAmount p) with
  | Err e => fail e
  | Ok legs => do! _ := insertLines up entryID legs in ret entryID
  end.

(** The function [RecordRecharge] runs in its transaction; the entry's id is
    kept for the deferred trigger. *)
Definition recordRechargeTx (now : Z) (up : stage -> bool) (p : RechargePosting) : M (Transaction * Z) :=
  do! _ := insertLeg now (up DebitLeg) (po_Debit p) None in
  do! creditID := insertLeg now (up CreditLeg) (po_Credit p) (we_TransactionToken (po_Credit p)) in
  do! _ := updateBalance (up UpdateBalance) (po_SubscriberID p) (po_NewBalance p) in
  do! entryID := postWalletGLEntry up p creditID in
  ret (MkTransaction creditID (we_SubscriberID (po_Credit p)) (we_EntryType (po_Credit p))
         (we_Amount (po_Credit p)) (po_NewBalance p)
         (default EmptyString (we_TransactionToken (po_Credit p))) (we_Description (po_Credit p)), entryID).

Definition RecordRecharge (now : Z) (up : stage -> bool) (p : RechargePosting) : M Transaction :=
  do! r := inTx up snd (recordRechargeTx now up p) in ret r.1.

(** ** The wallet service (wallet.go) *)

Record RechargeRequest : Type := MkRecharge {
  rq_SubscriberID : Z;
  rq_Amount : dec;
  rq_TransactionToken : string;
  rq_FranchiseID : option Z;
  rq_Description : string
}.

Record PostRequest : Type := MkPost {
  pr_SubscriberID : Z;
  pr_FranchiseID : option Z;
  pr_Amount : dec;
  pr_Direction : string;
  pr_CounterAccount : string;
  pr_TransactionToken : string;
  pr_AdjustedBy : string;
  pr_Description : string;
  pr_TaxAmount : dec
}.

(** The idempotency check both operations start with: an error of the lookup
    is treated as an unknown token. *)
Definition existing (token_up : bool) (token : string) (d : DB) : option Transaction :=
  if String.eqb token EmptyString then None
  else match GetTransactionByToken token_up token d with Ok t => t | Err _ => None end.

Definition recharge_posting (req : RechargeRequest) (currentBalance : dec) : RechargePosting :=
  let newBalance := Add currentBalance (rq_Amount req) in
  MkPosting (rq_SubscriberID req)
    (MkEntry (rq_SubscriberID req) (rq_FranchiseID req) AccountGatewayClearing "debit" (rq_Amount req)
       newBalance None ("counter-entry: " +:+ rq_Description req) EmptyString)
    (MkEntry (rq_SubscriberID req) (rq_FranchiseID req) AccountSubscriberWallet "credit" (rq_Amount req)
       newBalance (nullif_empty (rq_TransactionToken req)) (rq_Description req) EmptyString)
    newBalance (NewFromInt 0).

(** [Recharge] up to its transaction: the answer, or what it will post. *)
Definition recharge_begin (token_up balance_up : bool) (req : RechargeRequest) (d : DB) :
    result error (Transaction + RechargePosting) :=
  if less_eq (rq_Amount req) (NewFromInt 0) then Err ErrNotPositive
  else match existing token_up (rq_TransactionToken req) d with
       | Some t => Ok (inl t)
       | None =>
           match GetSubscriberBalance balance_up (rq_SubscriberID req) d with
           | Err e => Err e
           | Ok b => Ok (inr (recharge_posting req b))
           end
       end.

Definition post_posting (req : PostRequest) (newBalance : dec) : RechargePosting :=
  MkPosting (pr_SubscriberID req)
    (MkEntry (pr_SubscriberID req) (pr_FranchiseID req) (pr_CounterAccount req)
       (if String.eqb (pr_Direction req) "debit" then "credit" else "debit") (pr_Amount req)
       newBalance None ("counter-entry: " +:+ pr_Description req) EmptyString)
    (MkEntry (pr_SubscriberID req) (pr_FranchiseID req) AccountSubscriberWallet (pr_Direction req)
       (pr_Amount req) newBalance (nullif_empty (pr_TransactionToken req)) (pr_Description req)
       (pr_AdjustedBy req))
    newBalance (pr_TaxAmount req).

Definition post_begin (token_up balance_up : bool) (req : PostRequest) (d : DB) :
    result error (Transaction + RechargePosting) :=
  if less_eq (pr_Amount req) (NewFromInt 0) then Err ErrNotPositive
  else if negb (String.eqb (pr_Direction req) "credit") && negb (String.eqb (pr_Direction req) "debit")
  then Err ErrDirection
  else if is_negative (pr_TaxAmount req) || less_eq (pr_Amount req) (pr_TaxAmount req)
  then Err ErrTaxRange
  else match existing token_up (pr_TransactionToken req) d with
       | Some t => Ok (inl t)
       | None =>
           match GetSubscriberBalance balance_up (pr_SubscriberID req) d with
           | Err e => Err e
           | Ok b =>
               if String.eqb (pr_Direction req) "credit"
               then Ok (inr (post_posting req (Add b (pr_Amount req))))
               else let newBalance := Sub b (pr_Amount req) in
                    if is_negative newBalance then Err ErrInsufficientBalance
                    else Ok (inr (post_posting req newBalance))
           end
       end.

(** What both do with it. *)
Definition settle (now : Z) (up : stage -> bool) (r : result error (Transaction + RechargePosting)) :
    M Transaction :=
  match r with
  | Err e => fail e
  | Ok (inl t) => ret t
  | Ok (inr p) =>
      do! tx := RecordRecharge now up p in
      ret (MkTransaction (tx_ID tx) (tx_SubscriberID tx) (tx_EntryType tx) (tx_Amount tx)
             (po_NewBalance p) (tx_TransactionToken tx) (tx_Description tx))
  end.

Record WalletEnv : Type := MkEnv { token_up : bool; balance_up : bool; tx_up : stage -> bool }.
Definition all_up : WalletEnv := MkEnv true true (fun _ => true).

Definition Recharge (now : Z) (e : WalletEnv) (req : RechargeRequest) : M Transaction := fun d =>
  settle now (tx_up e) (recharge_begin (token_up e) (balance_up e) req d) d.

Definition Post (now : Z) (e : WalletEnv) (req : PostRequest) : M Transaction := fun d =>
  settle now (tx_up e) (post_begin (token_up e) (balance_up e) req d) d.

(** ** What a statement does when it succeeds, and when it fails *)

(** Only sequences moved, and only forward. *)
Definition same_tables (d d' : DB) : Prop :=
  d' = rollback d d' /\ next_ledger d <= next_ledger d' /\ next_entry d <= next_entry d'.

Definition forward {A} (m : M A) : Prop :=
  forall d, next_ledger d <= next_ledger (m d).2 /\ next_entry d <= next_entry (m d).2.

Lemma forward_bind {A B} (m : M A) (k : A -> M B) :
  forward m -> (forall a, forward (k a)) -> forward (bind m k).
Proof.
  intros Hm Hk d. unfold bind. pose proof (Hm d) as H1. destruct (m d) as [[a | e] d1]; [| done].
  pose proof (Hk a d1) as H2. simpl in *. lia.
Qed.

Lemma bind_Ok {A B} (m : M A) (k : A -> M B) d b d' :
  bind m k d = (Ok b, d') -> exists a d1, m d = (Ok a, d1) /\ k a d1 = (Ok b, d').
Proof. unfold bind. destruct (m d) as [[a | e] d1]; [eauto | done]. Qed.

Lemma insertLeg_forward now ok e token : forward (insertLeg now ok e token).
Proof. intros d. unfold insertLeg. repeat (case_match || simplify_eq/=); simpl; lia. Qed.

Lemma insertLeg_Ok now ok e token d id d' :
  insertLeg now ok e token d = (Ok id, d') ->
  exists a b, numeric 12 (we_Amount e) = Some a /\ numeric 12 (we_BalanceAfter e) = Some b /\
    id = next_ledger d /\ token_free token d = true /\ is_Some (subscribers d !! we_SubscriberID e) /\
    d' = with_ledgers (fun l => l ++ [leg_row now id e token a b]) (id + 1) d.
Proof.
  unfold insertLeg. destruct ok; [| done]. simpl.
  destruct (numeric 12 (we_Amount e)) as [a |]; [| done].
  destruct (numeric 12 (we_BalanceAfter e)) as [b |]; [| done].
  destruct (_ && _) eqn:Hc; [| done]. intros [= <- <-].
  rewrite !andb_true_iff, bool_decide_eq_true in Hc. exists a, b. naive_solver.
Qed.

Lemma updateBalance_forward ok id b : forward (updateBalance ok id b).
Proof. intros d. unfold updateBalance. repeat case_match; simpl; lia. Qed.

Lemma updateBalance_Ok ok id b d u d' :
  updateBalance ok id b d = (Ok u, d') ->
  exists nb, numeric 12 b = Some nb /\ 0 <= nb /\
    d' = with_subscribers (alter (set_balance nb) id) d.
Proof.
  unfold updateBalance. destruct ok; [| done]. simpl. destruct (numeric 12 b) as [nb |]; [| done].
  destruct (0 <=? nb) eqn:Hnb; [| done]. intros [= <- <-]. exists nb. split_and!; [done | lia | done].
Qed.

Lemma insertLines_forward up entryID legs : forward (insertLines up entryID legs).
Proof.
  induction legs as [| leg legs IH]; intros d; [simpl; lia |].
  apply forward_bind; [| intros a; apply forward_bind; [| intros _; exact IH]].
  - intros d1. unfold glAccountID. repeat case_match; simpl; lia.
  - intros d1. unfold insertLine. repeat (case_match || simplify_eq/=); simpl; lia.
Qed.

(** The line a leg becomes. *)
Definition line_of (chart : gmap string Z) (entryID : Z) (leg : glLeg) (r : JournalLine) : Prop :=
  exists a, numeric 14 (gl_amount leg) = Some a /\ 0 < a /\
    chart !! gl_code leg = Some (jl_account r) /\ jl_entry r = entryID /\
    if String.eqb (gl_entryType leg) "debit" then jl_debit r = a /\ jl_credit r = 0
    else jl_debit r = 0 /\ jl_credit r = a.

Lemma insertLines_Ok up entryID legs d u d' :
  insertLines up entryID legs d = (Ok u, d') ->
  exists rs, Forall2 (line_of (chart_of_accounts d) entryID) legs rs /\
    d' = with_lines (fun l => l ++ rs) d.
Proof.
  revert d. induction legs as [| leg legs IH]; simpl; intros d.
  { unfold ret. intros [= _ <-]. exists []. split; [constructor |]. unfold with_lines. rewrite app_nil_r.
    by destruct d. }
  intros (acc & d1 & H1 & (u1 & d2 & H2 & H3)%bind_Ok)%bind_Ok.
  unfold glAccountID in H1. destruct (up _); [| done]. simpl in H1.
  destruct (chart_of_accounts d !! gl_code leg) as [id |] eqn:Hc; [| done]. injection H1 as -> <-.
  unfold insertLine in H2. destruct (up _); [| done]. simpl in H2.
  destruct (numeric 14 (gl_amount leg)) as [a |] eqn:Ha; [| done].
  destruct (0 <? a) eqn:Hpos; [| done].
  destruct (if String.eqb (gl_entryType leg) "debit" then (a, 0) else (0, a)) as [db cr] eqn:Hs.
  injection H2 as _ <-. destruct (IH _ H3) as (rs & Hrs & ->).
  exists (MkLine entryID acc db cr :: rs). split.
  - constructor; [| done]. exists a. split_and!; [done | lia | done | done |].
    case_match; by injection Hs as <- <-.
  - unfold with_lines. simpl. by rewrite <- app_assoc.
Qed.

Lemma postWalletGLEntry_forward up p id : forward (postWalletGLEntry up p id).
Proof.
  intros d. unfold postWalletGLEntry. case_match; [simpl; lia |]. apply forward_bind.
  - intros d1. unfold insertEntry. case_match; simpl; lia.
  - intros e d1. case_match; [| simpl; lia].
    apply forward_bind; [apply insertLines_forward | intros u d2; simpl; lia].
Qed.

Lemma recordRechargeTx_forward now up p : forward (recordRechargeTx now up p).
Proof.
  unfold recordRechargeTx. apply forward_bind; [apply insertLeg_forward | intros _].
  apply forward_bind; [apply insertLeg_forward | intros id].
  apply forward_bind; [apply updateBalance_forward | intros _].
  apply forward_bind; [apply postWalletGLEntry_forward | intros e d; simpl; lia].
Qed.

Lemma RecordRecharge_Err now up p d e d' :
  RecordRecharge now up p d = (Err e, d') -> same_tables d d'.
Proof.
  unfold RecordRecharge, bind at 1, inTx. destruct (negb (up BeginTx)).
  { intros [= _ <-]. split; [by destruct d | lia]. }
  pose proof (recordRechargeTx_forward now up p d) as Hf.
  destruct (recordRechargeTx now up p d) as [r d1]. simpl in Hf. destruct r as [r | e1].
  - destruct (_ && _); intros [= _ <-]. split; simpl; [done | lia].
  - intros [= _ <-]. split; simpl; [done | lia].
Qed.

(** The legs the general ledger gets. *)
Definition gl_legs (p : RechargePosting) : list glLeg :=
  [MkLeg (GLAccountCode (we_Account (po_Debit p))) (we_EntryType (po_Debit p)) (we_Amount (po_Debit p));
   MkLeg (GLAccountCode (we_Account (po_Credit p))) (we_EntryType (po_Credit p)) (we_Amount (po_Credit p))].

Record posted (now : Z) (p : RechargePosting) (d d' : DB) : Type := {
  ps_a1 : Z; ps_b1 : Z; ps_a2 : Z; ps_b2 : Z; ps_nb : Z;
  ps_legs : list glLeg; ps_lines : list JournalLine; ps_by : string;
  ps_debit_amount : numeric 12 (we_Amount (po_Debit p)) = Some ps_a1;
  ps_debit_after : numeric 12 (we_BalanceAfter (po_Debit p)) = Some ps_b1;
  ps_credit_amount : numeric 12 (we_Amount (po_Credit p)) = Some ps_a2;
  ps_credit_after : numeric 12 (we_BalanceAfter (po_Credit p)) = Some ps_b2;
  ps_balance : numeric 12 (po_NewBalance p) = Some ps_nb;
  ps_nonneg : 0 <= ps_nb;
  ps_token : token_free (we_TransactionToken (po_Credit p)) d = true;
  ps_split : splitTaxLeg (gl_legs p) (GLAccountCode (we_Account (po_Debit p))) (po_TaxAmount p) =
    Ok ps_legs;
  ps_rows : Forall2 (line_of (chart_of_accounts d) (next_entry d)) ps_legs ps_lines;
  ps_balanced : gl_balanced (next_entry d) d' = true;
  ps_db : d' = MkDB (alter (set_balance ps_nb) (po_SubscriberID p) (subscribers d)) (plans d)
    (franchises d)
    (wallet_ledgers d ++ [leg_row now (next_ledger d) (po_Debit p) None ps_a1 ps_b1;
       leg_row now (next_ledger d + 1) (po_Credit p) (we_TransactionToken (po_Credit p)) ps_a2 ps_b2])
    (next_ledger d + 2) (chart_of_accounts d)
    (journal_entries d ++ [MkJournal (next_entry d) (we_Description (po_Credit p)) "wallet_ledger" (next_ledger d + 1) ps_by])
    (next_entry d + 1) (journal_lines d ++ ps_lines) (gst_rates d) (invoices d) (next_invoice d)
}.

Lemma token_free_leg t now id e a b n d :
  token_free t (with_ledgers (fun l => l ++ [leg_row now id e None a b]) n d) = token_free t d.
Proof.
  destruct t as [t |]; [| done]. unfold token_free. simpl. rewrite existsb_app. simpl.
  unfold has_token at 2. simpl. by rewrite !orb_false_r.
Qed.

Lemma RecordRecharge_Ok now up p d tx d' :
  RecordRecharge now up p d = (Ok tx, d') ->
  inhabited (posted now p d d') /\
  tx = MkTransaction (next_ledger d + 1) (we_SubscriberID (po_Credit p)) (we_EntryType (po_Credit p))
         (we_Amount (po_Credit p)) (po_NewBalance p)
         (default EmptyString (we_TransactionToken (po_Credit p))) (we_Description (po_Credit p)).
Proof.
  intros ([t e] & d1 & Hin & [= -> ->])%bind_Ok. unfold inTx in Hin.
  destruct (up BeginTx); [| done]. simpl in Hin.
  destruct (recordRechargeTx now up p d) as [[r | x] d2] eqn:Htx; [| done].
  destruct (gl_balanced r.2 d2 && up CommitTx) eqn:Hb; [| done]. injection Hin as -> ->.
  apply andb_true_iff in Hb as [Hb _].
  apply bind_Ok in Htx as (id1 & d3 & (a1 & b1 & Ha1 & Hb1 & -> & _ & _ & ->)%insertLeg_Ok & Htx).
  apply bind_Ok in Htx as (id2 & d4 & (a2 & b2 & Ha2 & Hb2 & -> & Htok & _ & ->)%insertLeg_Ok & Htx).
  rewrite token_free_leg in Htok.
  apply bind_Ok in Htx as (u & d5 & (nb & Hnb & Hpos & ->)%updateBalance_Ok & Htx).
  apply bind_Ok in Htx as (entry & d6 & Hgl & [= <- <- <-]).
  unfold postWalletGLEntry in Hgl. case_match; [done |]. apply bind_Ok in Hgl as (e1 & d7 & He & Hgl).
  unfold insertEntry in He. destruct (up InsertEntry); [| done]. injection He as <- <-.
  destruct (splitTaxLeg _ _ _) as [legs | x] eqn:Hs; [| done].
  apply bind_Ok in Hgl as (u2 & d8 & (rs & Hrs & ->)%insertLines_Ok & [= <- <-]).
  split; [constructor | simpl; f_equal; lia].
  econstructor; try eassumption.
  unfold with_lines, with_entries, with_subscribers, with_ledgers. simpl.
  rewrite <- app_assoc. simpl. f_equal. lia.
Qed.

(** Enough for a posting to succeed. *)
Lemma insertLines_run entryID legs rs d :
  Forall2 (line_of (chart_of_accounts d) entryID) legs rs ->
  insertLines (fun _ => true) entryID legs d = (Ok tt, with_lines (fun l => l ++ rs) d).
Proof.
  revert d rs. induction legs as [| leg legs IH]; intros d rs Hrs; inversion Hrs as [| ? r ? rs' Hr Hrest]; subst.
  - simpl. unfold ret, with_lines. rewrite app_nil_r. by destruct d.
  - destruct Hr as (a & Ha & Hpos & Hc & He & Hside). simpl. unfold bind at 1, glAccountID. simpl.
    rewrite Hc. unfold bind, insertLine. simpl. rewrite Ha, (proj2 (Z.ltb_lt 0 a) Hpos).
    assert ((if String.eqb (gl_entryType leg) "debit" then (a, 0) else (0, a)) = (jl_debit r, jl_credit r)) as Hs
      by (destruct (String.eqb (gl_entryType leg) "debit"); destruct Hside as [-> ->]; done).
    rewrite Hs. rewrite (IH _ rs') by done. unfold with_lines. simpl. rewrite <- app_assoc. simpl.
    do 3 f_equal. destruct r; simpl in *; by subst.
Qed.

Lemma insertLeg_run now e token a b d :
  numeric 12 (we_Amount e) = Some a -> numeric 12 (we_BalanceAfter e) = Some b ->
  is_Some (subscribers d !! we_SubscriberID e) -> franchise_ok (we_FranchiseID e) d = true ->
  known_account (we_Account e) = true ->
  String.eqb (we_EntryType e) "credit" || String.eqb (we_EntryType e) "debit" = true ->
  token_free token d = true ->
  insertLeg now true e token d =
    (Ok (next_ledger d), with_ledgers (fun l => l ++ [leg_row now (next_ledger d) e token a b])
       (next_ledger d + 1) d).
Proof.
  intros Ha Hb Hs Hf Hk He Ht. unfold insertLeg. cbn [negb]. rewrite Ha, Hb.
  replace (bool_decide _ && _ && _ && _ && _) with true; [done |].
  symmetry. rewrite !andb_true_iff, bool_decide_eq_true. tauto.
Qed.

Lemma RecordRecharge_run now p d legs rs a1 b1 a2 b2 nb :
  let by_ := if String.eqb (we_AdjustedBy (po_Credit p)) EmptyString then "system"%string
             else we_AdjustedBy (po_Credit p) in
  let d' := MkDB (alter (set_balance nb) (po_SubscriberID p) (subscribers d)) (plans d) (franchises d)
    (wallet_ledgers d ++ [leg_row now (next_ledger d) (po_Debit p) None a1 b1;
       leg_row now (next_ledger d + 1) (po_Credit p) (we_TransactionToken (po_Credit p)) a2 b2])
    (next_ledger d + 2) (chart_of_accounts d)
    (journal_entries d ++ [MkJournal (next_entry d) (we_Description (po_Credit p)) "wallet_ledger" (next_ledger d + 1) by_])
    (next_entry d + 1) (journal_lines d ++ rs) (gst_rates d) (invoices d) (next_invoice d) in
  numeric 12 (we_Amount (po_Debit p)) = Some a1 -> numeric 12 (we_BalanceAfter (po_Debit p)) = Some b1 ->
  numeric 12 (we_Amount (po_Credit p)) = Some a2 -> numeric 12 (we_BalanceAfter (po_Credit p)) = Some b2 ->
  numeric 12 (po_NewBalance p) = Some nb -> 0 <= nb ->
  (forall e, e ∈ [po_Debit p; po_Credit p] -> is_Some (subscribers d !! we_SubscriberID e) /\
     franchise_ok (we_FranchiseID e) d = true /\ known_account (we_Account e) = true /\
     String.eqb (we_EntryType e) "credit" || String.eqb (we_EntryType e) "debit" = true) ->
  token_free (we_TransactionToken (po_Credit p)) d = true ->
  splitTaxLeg (gl_legs p) (GLAccountCode (we_Account (po_Debit p))) (po_TaxAmount p) = Ok legs ->
  Forall2 (line_of (chart_of_accounts d) (next_entry d)) legs rs ->
  gl_balanced (next_entry d) d' = true ->
  RecordRecharge now (fun _ => true) p d =
    (Ok (MkTransaction (next_ledger d + 1) (we_SubscriberID (po_Credit p)) (we_EntryType (po_Credit p))
           (we_Amount (po_Credit p)) (po_NewBalance p)
           (default EmptyString (we_TransactionToken (po_Credit p))) (we_Description (po_Credit p))), d').
Proof.
  intros by_ d' Ha1 Hb1 Ha2 Hb2 Hnb Hpos Hlegs Htok Hsplit Hrs Hbal.
  destruct (Hlegs (po_Debit p)) as (Hs1 & Hf1 & Hk1 & He1); [set_solver |].
  destruct (Hlegs (po_Credit p)) as (Hs2 & Hf2 & Hk2 & He2); [set_solver |].
  assert (recordRechargeTx now (fun _ => true) p d = (Ok (MkTransaction (next_ledger d + 1)
    (we_SubscriberID (po_Credit p)) (we_EntryType (po_Credit p)) (we_Amount (po_Credit p)) (po_NewBalance p)
    (default EmptyString (we_TransactionToken (po_Credit p))) (we_Description (po_Credit p)), next_entry d), d'))
    as Htx.
  { unfold recordRechargeTx, bind at 1. rewrite (insertLeg_run now _ None a1 b1) by done.
    unfold bind at 1. rewrite (insertLeg_run now _ _ a2 b2) by (done || by rewrite token_free_leg).
    unfold bind at 1, updateBalance. cbn [negb]. rewrite Hnb, (proj2 (Z.leb_le 0 nb) Hpos).
    unfold bind, postWalletGLEntry.
    unfold known_account in Hk1, Hk2. apply negb_true_iff in Hk1, Hk2. rewrite Hk1, Hk2. cbn [orb].
    fold (gl_legs p). rewrite Hsplit. unfold bind, insertEntry. cbn [negb].
    rewrite (insertLines_run _ legs rs) by done. unfold ret, d'.
    unfold with_lines, with_entries, with_subscribers, with_ledgers. simpl.
    rewrite <- app_assoc. by replace (next_ledger d + 1 + 1) with (next_ledger d + 2) by lia. }
  unfold RecordRecharge, bind, inTx. cbn [negb]. rewrite Htx. cbn [snd]. by rewrite Hbal.
Qed.

(** ** The books *)

(** What a ledger row does to a subscriber's wallet. *)
Definition leg_effect (id : Z) (r : LedgerRow) : Z :=
  if (lg_subscriber_id r =? id) && String.eqb (lg_account r) AccountSubscriberWallet
  then if String.eqb (lg_entry_type r) "credit" then lg_amount r else - lg_amount r
  else 0.
Definition ledger_sum (id : Z) (l : list LedgerRow) : Z :=
  foldr (fun r acc => leg_effect id r + acc) 0 l.

Definition tokens (l : list LedgerRow) : list string := omap lg_transaction_token l.

Record books (d : DB) : Prop := {
  bk_nonneg id r : subscribers d !! id = Some r -> 0 <= wallet_balance r;
  bk_tokens : NoDup (tokens (wallet_ledgers d));
  bk_balanced je : je ∈ journal_entries d -> gl_balanced (je_id je) d = true;
  bk_entries je : je ∈ journal_entries d -> je_id je < next_entry d;
  bk_lines r : r ∈ journal_lines d -> jl_entry r < next_entry d
}.

Lemma ledger_sum_app id l1 l2 : ledger_sum id (l1 ++ l2) = ledger_sum id l1 + ledger_sum id l2.
Proof. induction l1 as [| r l1 IH]; simpl; [done | rewrite IH; lia]. Qed.

Lemma entry_debits_app e l1 l2 : entry_debits e (l1 ++ l2) = entry_debits e l1 + entry_debits e l2.
Proof. induction l1 as [| r l1 IH]; simpl; [done | rewrite IH; lia]. Qed.
Lemma entry_credits_app e l1 l2 : entry_credits e (l1 ++ l2) = entry_credits e l1 + entry_credits e l2.
Proof. induction l1 as [| r l1 IH]; simpl; [done | rewrite IH; lia]. Qed.

Lemma entry_other e l :
  (forall r, r ∈ l -> jl_entry r <> e) -> entry_debits e l = 0 /\ entry_credits e l = 0.
Proof.
  induction l as [| r l IH]; simpl; [done |]. intros Hl.
  destruct IH as [-> ->]; [set_solver |]. rewrite (proj2 (Z.eqb_neq _ _)) by set_solver. done.
Qed.

Lemma has_token_elem t l : existsb (has_token t) l = true <-> t ∈ tokens l.
Proof.
  rewrite existsb_exists. unfold tokens. rewrite list_elem_of_omap.
  split; intros (r & Hr & Ht); exists r; unfold has_token in *.
  - rewrite bool_decide_eq_true in Ht. by rewrite list_elem_of_In.
  - rewrite bool_decide_eq_true. by rewrite <- list_elem_of_In.
Qed.

Lemma same_tables_books d d' : same_tables d d' -> books d -> books d'.
Proof.
  intros (-> & Hl & He) [H1 H2 H3 H4 H5]. simpl in *. split; simpl; try done.
  - intros je Hje. specialize (H4 je Hje). lia.
  - intros r Hr. specialize (H5 r Hr). simpl in *. lia.
Qed.

Lemma line_of_entry chart e leg r : line_of chart e leg r -> jl_entry r = e.
Proof. intros (a & _ & _ & _ & He & _). done. Qed.

Lemma lines_of_entry chart e legs rs r : Forall2 (line_of chart e) legs rs -> r ∈ rs -> jl_entry r = e.
Proof.
  induction 1 as [| leg r' legs rs Hr _ IH]; [by intros ?%not_elem_of_nil |].
  intros [-> | Hin]%elem_of_cons; eauto using line_of_entry.
Qed.

Lemma posted_books now p d d' : posted now p d d' -> books d -> books d'.
Proof.
  intros Hp [H1 H2 H3 H4 H5]. destruct Hp. subst d'.
  assert (forall r, r ∈ ps_lines0 -> jl_entry r = next_entry d) as Hnew
    by eauto using lines_of_entry.
  split; simpl.
  - intros i r. rewrite lookup_alter_Some. intros [(_ & r0 & _ & ->) | [_ Hr]]; [done | by eapply H1].
  - unfold tokens. rewrite omap_app. simpl.
    destruct (we_TransactionToken (po_Credit p)) as [t |]; simpl; [| by rewrite app_nil_r].
    simpl in ps_token0. rewrite negb_true_iff, <- not_true_iff_false, has_token_elem in ps_token0.
    apply NoDup_app. split_and!; [done | | apply NoDup_singleton].
    by intros t' Ht' ->%list_elem_of_singleton.
  - intros je [Hje | ->%list_elem_of_singleton]%elem_of_app; [| exact ps_balanced0].
    pose proof (H4 je Hje) as Hlt. specialize (H3 je Hje). unfold gl_balanced in *. simpl.
    rewrite entry_debits_app, entry_credits_app.
    destruct (entry_other (je_id je) ps_lines0) as [-> ->]; [| lia].
    intros r Hr. rewrite (Hnew r Hr). lia.
  - intros je [Hje | ->%list_elem_of_singleton]%elem_of_app; simpl; [specialize (H4 je Hje) |]; lia.
  - intros r [Hr | Hr]%elem_of_app; [specialize (H5 r Hr) | rewrite (Hnew r Hr)]; lia.
Qed.

Lemma RecordRecharge_books now up p d : books d -> books (RecordRecharge now up p d).2.
Proof.
  intros Hd. destruct (RecordRecharge now up p d) as [[tx | e] d'] eqn:Hr; simpl.
  - apply RecordRecharge_Ok in Hr as [[Hp] _]. eauto using posted_books.
  - apply RecordRecharge_Err in Hr. eauto using same_tables_books.
Qed.

(** A posting adds exactly its legs to the ledger and sets the balance. *)
Lemma posted_ledger now p d d' :
  posted now p d d' ->
  exists r1 r2 nb, wallet_ledgers d' = wallet_ledgers d ++ [r1; r2] /\
    numeric 12 (po_NewBalance p) = Some nb /\
    numeric 12 (we_Amount (po_Debit p)) = Some (lg_amount r1) /\
    numeric 12 (we_Amount (po_Credit p)) = Some (lg_amount r2) /\
    r1 = leg_row now (next_ledger d) (po_Debit p) None (lg_amount r1) (lg_balance_after r1) /\
    r2 = leg_row now (next_ledger d + 1) (po_Credit p) (we_TransactionToken (po_Credit p))
           (lg_amount r2) (lg_balance_after r2) /\
    subscribers d' = alter (set_balance nb) (po_SubscriberID p) (subscribers d).
Proof. intros Hp. destruct Hp. subst d'. simpl. do 3 eexists. split_and!; done. Qed.

Lemma settle_inl now up t d : settle now up (Ok (inl t)) d = (Ok t, d).
Proof. done. Qed.

Lemma settle_tables now up r d :
  (settle now up r d).2 = d \/ exists p, r = Ok (inr p) /\
    (settle now up r d).2 = (RecordRecharge now up p d).2.
Proof.
  destruct r as [[t | p] | e]; [by left | right | by left]. exists p. split; [done |].
  simpl. unfold bind. by destruct (RecordRecharge now up p d) as [[tx | e] d'].
Qed.

Lemma wallet_op_books now up r d : books d -> books (settle now up r d).2.
Proof.
  intros Hd. destruct (settle_tables now up r d) as [-> | (p & -> & ->)]; [done |].
  by apply RecordRecharge_books.
Qed.

End Store.

(** ** Movements *)

Section Movements.
Context `{DecimalLaws}.

(** The posting moves [n] hundredths into the wallet of [id], computed from
    the balance [b]. *)
Record moves (p : RechargePosting) (id b n : Z) : Prop := {
  mv_id : po_SubscriberID p = id;
  mv_credit : we_SubscriberID (po_Credit p) = id;
  mv_account : we_Account (po_Credit p) = AccountSubscriberWallet;
  mv_counter : String.eqb (we_Account (po_Debit p)) AccountSubscriberWallet = false;
  mv_amount : exists a, is_paise (we_Amount (po_Credit p)) a /\
    n = if String.eqb (we_EntryType (po_Credit p)) "credit" then a else - a;
  mv_balance : is_paise (po_NewBalance p) (b + n)
}.

Lemma posted_effect now p d d' id b n :
  posted now p d d' -> moves p id b n ->
  (forall i, ledger_sum i (wallet_ledgers d') =
     ledger_sum i (wallet_ledgers d) + (if i =? id then n else 0)) /\
  subscribers d' = alter (set_balance (b + n)) id (subscribers d).
Proof.
  intros (r1 & r2 & nb & Hl & Hnb & _ & Ha2 & Hr1 & Hr2 & Hs)%posted_ledger Hm.
  destruct Hm as [Hi Hc Hacc Hctr (a & Ha & Hn) Hb].
  apply (numeric_inv 12 _ a) in Ha2; [| lia | done]. apply (numeric_inv 12 _ (b + n)) in Hnb; [| lia | done].
  subst nb. rewrite Hi in Hs. split; [| exact Hs]. intros i. rewrite Hl, ledger_sum_app. f_equal.
  simpl. unfold leg_effect. rewrite Hr1, Hr2. simpl. rewrite Hctr, andb_false_r, Hacc, String.eqb_refl.
  rewrite andb_true_r, Hc, Ha2. destruct (Z.eqb_spec id i) as [-> | Hne].
  - rewrite Z.eqb_refl. case_match; lia.
  - rewrite (proj2 (Z.eqb_neq i id)) by lia. lia.
Qed.

Lemma GetSubscriberBalance_Ok up id d b :
  GetSubscriberBalance up id d = Ok b ->
  exists r, subscribers d !! id = Some r /\ b = of_paise (wallet_balance r).
Proof.
  unfold GetSubscriberBalance. destruct up; [| done]. simpl.
  destruct (subscribers d !! id) as [r |]; [| done]. intros [= <-]. eauto.
Qed.

Lemma recharge_begin_moves tu bu req d p n :
  is_paise (rq_Amount req) n -> recharge_begin tu bu req d = Ok (inr p) ->
  0 < n /\ exists r, subscribers d !! rq_SubscriberID req = Some r /\
    moves p (rq_SubscriberID req) (wallet_balance r) n.
Proof.
  intros Hn. unfold recharge_begin. rewrite (paise_less_eq _ _ n 0 Hn paise_zero).
  destruct (n <=? 0) eqn:Hpos; [done |]. destruct (existing _ _ _); [done |].
  destruct (GetSubscriberBalance _ _ _) as [b | e] eqn:Hb; [| done]. intros [= <-].
  apply GetSubscriberBalance_Ok in Hb as (r & Hr & ->). split; [lia |]. exists r. split; [done |].
  split; simpl; try done; [by exists n |]. apply paise_add; [apply paise_of | done].
Qed.

(** The counter account is one of the two its comment names. *)
Definition counter_ok (account : string) : Prop :=
  account = AccountRevenueClearing \/ account = AccountAdjustmentClearing.

Lemma post_begin_moves tu bu req d p n :
  is_paise (pr_Amount req) n -> counter_ok (pr_CounterAccount req) ->
  post_begin tu bu req d = Ok (inr p) ->
  0 < n /\ exists r, subscribers d !! pr_SubscriberID req = Some r /\
    moves p (pr_SubscriberID req) (wallet_balance r)
      (if String.eqb (pr_Direction req) "credit" then n else - n).
Proof.
  intros Hn Hctr. unfold post_begin. rewrite (paise_less_eq _ _ n 0 Hn paise_zero).
  destruct (n <=? 0) eqn:Hpos; [done |]. destruct (negb _ && negb _); [done |].
  destruct (_ || _); [done |]. destruct (existing _ _ _); [done |].
  destruct (GetSubscriberBalance _ _ _) as [b | e] eqn:Hb; [| done].
  apply GetSubscriberBalance_Ok in Hb as (r & Hr & ->). intros Hp. split; [lia |]. exists r.
  split; [done |].
  assert (String.eqb (pr_CounterAccount req) AccountSubscriberWallet = false) as Hc
    by (destruct Hctr as [-> | ->]; reflexivity).
  destruct (String.eqb (pr_Direction req) "credit") eqn:Hd.
  - injection Hp as <-. split; simpl; try done; [by exists n; rewrite Hd |].
    apply paise_add; [apply paise_of | done].
  - destruct (is_negative _); [done |]. injection Hp as <-.
    split; simpl; try done; [by exists n; rewrite Hd |].
    rewrite Z.add_opp_r. apply paise_sub; [apply paise_of | done].
Qed.

(** One wallet operation run without interruption, on whole hundredths. *)
Inductive wallet_step : DB -> DB -> Prop :=
| step_recharge d now e req n :
    is_paise (rq_Amount req) n -> wallet_step d (Recharge now e req d).2
| step_post d now e req n :
    is_paise (pr_Amount req) n -> counter_ok (pr_CounterAccount req) ->
    wallet_step d (Post now e req d).2.

(** The balance column and the ledger changed by the same amount. *)
Definition in_step (d d' : DB) : Prop :=
  forall id r, subscribers d !! id = Some r -> exists b,
    subscribers d' !! id = Some (set_balance b r) /\
    b - ledger_sum id (wallet_ledgers d') = wallet_balance r - ledger_sum id (wallet_ledgers d).

Lemma set_balance_same r : set_balance (wallet_balance r) r = r.
Proof. by destruct r. Qed.

Lemma in_step_refl d d' :
  subscribers d' = subscribers d -> wallet_ledgers d' = wallet_ledgers d -> in_step d d'.
Proof.
  unfold in_step. intros -> -> id r Hr. exists (wallet_balance r). by rewrite set_balance_same.
Qed.

Lemma in_step_trans d d' d'' : in_step d d' -> in_step d' d'' -> in_step d d''.
Proof.
  intros H1 H2 id r Hr. destruct (H1 id r Hr) as (b & Hb & Hd).
  destruct (H2 id _ Hb) as (b' & Hb' & Hd'). exists b'. simpl in *. split; [done | lia].
Qed.

Lemma settle_in_step now up r d :
  (forall p, r = Ok (inr p) -> exists id row n,
     subscribers d !! id = Some row /\ moves p id (wallet_balance row) n) ->
  in_step d (settle now up r d).2.
Proof.
  intros Hr. destruct (settle_tables now up r d) as [-> | (p & -> & ->)]; [by apply in_step_refl |].
  destruct (Hr p eq_refl) as (id & row & n & Hrow & Hm).
  destruct (RecordRecharge now up p d) as [[tx | e] d'] eqn:Hrec; simpl.
  - apply RecordRecharge_Ok in Hrec as [[Hp] _]. destruct (posted_effect _ _ _ _ _ _ _ Hp Hm) as [Hl Hs].
    intros i ri Hi. rewrite Hl, Hs. destruct (Z.eqb_spec i id) as [-> | Hne].
    + rewrite lookup_alter, decide_True, Hi by done. simplify_eq.
      exists (wallet_balance row + n). split; [done | lia].
    + rewrite lookup_alter, decide_False, Hi by done. exists (wallet_balance ri). rewrite set_balance_same.
      split; [done | lia].
  - apply RecordRecharge_Err in Hrec as (-> & _ & _). by apply in_step_refl.
Qed.

Lemma wallet_step_sound d d' : wallet_step d d' -> in_step d d' /\ (books d -> books d').
Proof.
  intros [d0 now e req n Hn | d0 now e req n Hn Hc]; (split; [| intros; by apply wallet_op_books]);
    apply settle_in_step; intros p Hp.
  - apply (recharge_begin_moves _ _ _ _ _ n) in Hp as (_ & r & Hr & Hm); eauto.
  - apply (post_begin_moves _ _ _ _ _ n) in Hp as (_ & r & Hr & Hm); eauto.
Qed.

(** C3: Recharges, and postings against the revenue or the adjustment clearing
    account, of whole hundredths, however many run one after another and
    whichever of their statements fail: every subscriber's balance has changed
    by exactly the sum of their wallet legs, no balance is negative, every
    journal entry has equal debits and credits, and no idempotency token occurs
    twice. Operations that overlap are another matter
    ([overlapping_recharges_lose_one]). *)
Theorem wallet_reconciles d d' :
  star wallet_step d d' -> books d -> in_step d d' /\ books d'.
Proof.
  intros Hs Hd. induction Hs as [d | d d1 d' Hstep _ IH]; [split; [by apply in_step_refl | done] |].
  apply wallet_step_sound in Hstep as [H1 H2]. destruct (IH (H2 Hd)) as [H3 H4].
  split; [by eapply in_step_trans | done].
Qed.

(** ** Successful operations *)

(** The chart holds the wallet, cash, revenue and tax accounts. *)
Definition charted (d : DB) : Prop :=
  forall code, code ∈ ["1000"; "1200"; "2200"; "4000"]%string -> is_Some (chart_of_accounts d !! code).

Definition account (d : DB) (code : string) : Z := default 0 (chart_of_accounts d !! code).

Lemma charted_account d code :
  charted d -> code ∈ ["1000"; "1200"; "2200"; "4000"]%string ->
  chart_of_accounts d !! code = Some (account d code).
Proof. intros Hd [id Hid]%Hd. unfold account. by rewrite Hid. Qed.

(** The journal lines of a charge of [n] of which [t] is tax. *)
Definition charge_lines (d : DB) (n t : Z) : list JournalLine :=
  let e := next_entry d in
  if t =? 0 then [MkLine e (account d "4000") 0 n; MkLine e (account d "1200") n 0]
  else [MkLine e (account d "4000") 0 (n - t); MkLine e (account d "2200") 0 t;
        MkLine e (account d "1200") n 0].

Lemma new_entry_balanced d d' rs :
  books d -> journal_lines d' = journal_lines d ++ rs ->
  entry_debits (next_entry d) rs = entry_credits (next_entry d) rs ->
  gl_balanced (next_entry d) d' = true.
Proof.
  intros Hb Hl Hrs. unfold gl_balanced. rewrite Hl, entry_debits_app, entry_credits_app, Hrs.
  destruct (entry_other (next_entry d) (journal_lines d)) as [-> ->]; [| lia].
  intros r Hr. pose proof (bk_lines _ Hb r Hr). lia.
Qed.

Lemma line_paise d code leg e a acc db cr :
  gl_code leg = code -> chart_of_accounts d !! code = Some acc -> is_paise (gl_amount leg) a ->
  0 < a < 10 ^ 12 ->
  (if String.eqb (gl_entryType leg) "debit" then db = a /\ cr = 0 else db = 0 /\ cr = a) ->
  line_of (chart_of_accounts d) e leg (MkLine e acc db cr).
Proof.
  intros <- Hc Ha Hr Hs. exists a. split_and!; try done; [| lia].
  apply numeric_paise; [lia | done |]. assert (10 ^ 12 < 10 ^ 14) by done. lia.
Qed.

Lemma Post_charge_run now req n t d r :
  books d -> charted d -> is_paise (pr_Amount req) n -> is_paise (pr_TaxAmount req) t ->
  0 <= t < n -> pr_Direction req = "debit"%string -> pr_CounterAccount req = AccountRevenueClearing ->
  pr_TransactionToken req = EmptyString -> subscribers d !! pr_SubscriberID req = Some r ->
  n <= wallet_balance r < 10 ^ 12 -> franchise_ok (pr_FranchiseID req) d = true ->
  exists tx d', Post now all_up req d = (Ok tx, d') /\
    subscribers d' = alter (set_balance (wallet_balance r - n)) (pr_SubscriberID req) (subscribers d) /\
    plans d' = plans d /\ franchises d' = franchises d /\ gst_rates d' = gst_rates d /\
    invoices d' = invoices d /\ next_invoice d' = next_invoice d /\
    chart_of_accounts d' = chart_of_accounts d /\
    journal_lines d' = journal_lines d ++ charge_lines d n t.
Proof.
  intros Hbk Hch Hn Ht Htn Hdir Hctr Htok Hr Hbal Hfr.
  assert (is_paise (Sub (of_paise (wallet_balance r)) (pr_Amount req)) (wallet_balance r - n)) as Hnew
    by (apply paise_sub; [apply paise_of | done]).
  assert (post_begin true true req d =
    Ok (inr (post_posting req (Sub (of_paise (wallet_balance r)) (pr_Amount req))))) as Hbegin.
  { unfold post_begin. rewrite (paise_less_eq _ _ n 0 Hn paise_zero), (proj2 (Z.leb_gt n 0)) by lia.
    rewrite Hdir. cbn [negb andb String.eqb Ascii.eqb Bool.eqb].
    rewrite (paise_is_negative _ t Ht), (proj2 (Z.ltb_ge t 0)) by lia.
    rewrite (paise_less_eq _ _ n t Hn Ht), (proj2 (Z.leb_gt n t)) by lia. cbn [orb].
    unfold existing. rewrite Htok. cbn [String.eqb]. unfold GetSubscriberBalance. cbn [negb]. rewrite Hr.
    by rewrite (paise_is_negative _ _ Hnew), (proj2 (Z.ltb_ge _ 0)) by lia. }
  unfold Post. cbn [all_up token_up balance_up tx_up]. rewrite Hbegin. unfold settle, bind.
  assert (forall z, 0 <= z < 10 ^ 12 -> forall dd, is_paise dd z -> numeric 12 dd = Some z) as Hnum
    by (intros z Hz dd Hdd; apply numeric_paise; [lia | done | lia]).
  rewrite (RecordRecharge_run now _ d
    (if t =? 0 then [MkLeg "4000" "credit" (pr_Amount req); MkLeg "1200" "debit" (pr_Amount req)]
     else [MkLeg "4000" "credit" (Sub (pr_Amount req) (pr_TaxAmount req));
           MkLeg GLAccountGSTPayable "credit" (pr_TaxAmount req); MkLeg "1200" "debit" (pr_Amount req)])
    (charge_lines d n t) n (wallet_balance r - n) n (wallet_balance r - n) (wallet_balance r - n)).
  - eexists _, _. split; [reflexivity |]. simpl. split_and!; reflexivity.
  - simpl. apply Hnum; [lia | done].
  - simpl. apply Hnum; [lia | done].
  - simpl. apply Hnum; [lia | done].
  - simpl. apply Hnum; [lia | done].
  - simpl. apply Hnum; [lia | done].
  - lia.
  - intros e. simpl. rewrite Hdir, Hctr. intros Hin.
    assert (we_SubscriberID e = pr_SubscriberID req /\ we_FranchiseID e = pr_FranchiseID req /\
      known_account (we_Account e) = true /\
      String.eqb (we_EntryType e) "credit" || String.eqb (we_EntryType e) "debit" = true) as (-> & -> & Hk & He).
    { apply elem_of_cons in Hin as [-> | ->%list_elem_of_singleton]; done. }
    split_and!; eauto.
  - simpl. by rewrite Htok.
  - simpl. unfold gl_legs. simpl. rewrite Hdir, Hctr. unfold splitTaxLeg.
    rewrite (paise_is_zero _ t Ht). destruct (t =? 0); [done |]. simpl.
    unfold split_one. simpl.
    assert (is_paise (Sub (pr_Amount req) (pr_TaxAmount req)) (n - t)) as Hnet by by apply paise_sub.
    rewrite (paise_less_eq _ _ _ 0 Hnet paise_zero), (proj2 (Z.leb_gt (n - t) 0)) by lia. done.
  - assert (forall code, code ∈ ["1000"; "1200"; "2200"; "4000"]%string ->
      chart_of_accounts d !! code = Some (account d code)) as Hacc by (intros; by apply charted_account).
    unfold charge_lines. destruct (Z.eqb_spec t 0) as [-> | Hne].
    + repeat constructor; eapply line_paise; try reflexivity; try (apply Hacc; set_solver); simpl; eauto; lia.
    + constructor; [| constructor; [| constructor; [| constructor]]]; eapply line_paise;
        try reflexivity; try (apply Hacc; set_solver); simpl; eauto using paise_sub; lia.
  - apply (new_entry_balanced d _ (charge_lines d n t)); [done | done |].
    unfold charge_lines. destruct (t =? 0); simpl; rewrite Z.eqb_refl; lia.
Qed.

Lemma Post_short now req n t d r :
  is_paise (pr_Amount req) n -> is_paise (pr_TaxAmount req) t -> 0 <= t < n ->
  pr_Direction req = "debit"%string -> pr_TransactionToken req = EmptyString ->
  subscribers d !! pr_SubscriberID req = Some r -> wallet_balance r < n ->
  Post now all_up req d = (Err ErrInsufficientBalance, d).
Proof.
  intros Hn Ht Htn Hdir Htok Hr Hbal.
  assert (is_paise (Sub (of_paise (wallet_balance r)) (pr_Amount req)) (wallet_balance r - n)) as Hnew
    by (apply paise_sub; [apply paise_of | done]).
  unfold Post, post_begin. cbn [all_up token_up balance_up tx_up].
  rewrite (paise_less_eq _ _ n 0 Hn paise_zero), (proj2 (Z.leb_gt n 0)) by lia.
  rewrite Hdir. cbn [negb andb String.eqb Ascii.eqb Bool.eqb].
  rewrite (paise_is_negative _ t Ht), (proj2 (Z.ltb_ge t 0)) by lia.
  rewrite (paise_less_eq _ _ n t Hn Ht), (proj2 (Z.leb_gt n t)) by lia. cbn [orb].
  unfold existing. rewrite Htok. cbn [String.eqb]. unfold GetSubscriberBalance. cbn [negb]. rewrite Hr.
  by rewrite (paise_is_negative _ _ Hnew), (proj2 (Z.ltb_lt _ 0)) by lia.
Qed.

Lemma Recharge_run now req n d r :
  books d -> charted d -> is_paise (rq_Amount req) n -> 0 < n ->
  (forall row, row ∈ wallet_ledgers d -> lg_transaction_token row <> Some (rq_TransactionToken req)) ->
  subscribers d !! rq_SubscriberID req = Some r ->
  0 <= wallet_balance r -> wallet_balance r + n < 10 ^ 12 -> franchise_ok (rq_FranchiseID req) d = true ->
  exists tx d', Recharge now all_up req d = (Ok tx, d') /\
    tx_BalanceAfter tx = Add (of_paise (wallet_balance r)) (rq_Amount req) /\
    subscribers d' = alter (set_balance (wallet_balance r + n)) (rq_SubscriberID req) (subscribers d) /\
    plans d' = plans d /\ franchises d' = franchises d /\ gst_rates d' = gst_rates d /\
    invoices d' = invoices d /\ next_invoice d' = next_invoice d /\
    exists r1 r2, wallet_ledgers d' = wallet_ledgers d ++ [r1; r2] /\ lg_transaction_token r1 = None /\
      lg_transaction_token r2 = nullif_empty (rq_TransactionToken req) /\ tx_ID tx = lg_id r2.
Proof.
  intros Hbk Hch Hn Hpos Htok Hr Hb0 Hmax Hfr.
  assert (is_paise (Add (of_paise (wallet_balance r)) (rq_Amount req)) (wallet_balance r + n)) as Hnew
    by (apply paise_add; [apply paise_of | done]).
  assert (token_free (nullif_empty (rq_TransactionToken req)) d = true) as Hfree.
  { unfold nullif_empty. destruct (String.eqb (rq_TransactionToken req) EmptyString); [done |].
    unfold token_free. rewrite negb_true_iff, <- not_true_iff_false, existsb_exists.
    intros (row & Hrow & Hht). unfold has_token in Hht. rewrite bool_decide_eq_true in Hht.
    by apply (Htok row); [apply list_elem_of_In |]. }
  assert (recharge_begin true true req d = Ok (inr (recharge_posting req (of_paise (wallet_balance r))))) as Hbegin.
  { unfold recharge_begin. rewrite (paise_less_eq _ _ n 0 Hn paise_zero), (proj2 (Z.leb_gt n 0)) by lia.
    unfold existing, GetTransactionByToken, nullif_empty in *.
    destruct (String.eqb (rq_TransactionToken req) EmptyString).
    - unfold GetSubscriberBalance. cbn [negb]. by rewrite Hr.
    - cbn [negb]. destruct (List.filter (has_token _) (wallet_ledgers d)) as [| row l] eqn:Hf.
      + simpl. unfold GetSubscriberBalance. cbn [negb]. by rewrite Hr.
      + assert (row ∈ List.filter (has_token (rq_TransactionToken req)) (wallet_ledgers d)) as Hin
          by (rewrite Hf; apply list_elem_of_here).
        apply elem_of_filterb in Hin as [Hin Hht]. unfold has_token in Hht.
        rewrite bool_decide_eq_true in Hht. by destruct (Htok row Hin). }
  unfold Recharge. cbn [all_up token_up balance_up tx_up]. rewrite Hbegin. unfold settle, bind.
  assert (forall z, 0 <= z < 10 ^ 12 -> forall dd, is_paise dd z -> numeric 12 dd = Some z) as Hnum
    by (intros z Hz dd Hdd; apply numeric_paise; [lia | done | lia]).
  set (rs := [MkLine (next_entry d) (account d "1000") n 0; MkLine (next_entry d) (account d "1200") 0 n]).
  rewrite (RecordRecharge_run now _ d
    [MkLeg "1000" "debit" (rq_Amount req); MkLeg "1200" "credit" (rq_Amount req)] rs
    n (wallet_balance r + n) n (wallet_balance r + n) (wallet_balance r + n)).
  - eexists _, _. split; [reflexivity |]. simpl. split_and!; try reflexivity.
    eexists _, _. split_and!; reflexivity.
  - simpl. apply Hnum; [lia | done].
  - simpl. apply Hnum; [lia | done].
  - simpl. apply Hnum; [lia | done].
  - simpl. apply Hnum; [lia | done].
  - simpl. apply Hnum; [lia | done].
  - lia.
  - intros e. simpl. intros Hin.
    assert (we_SubscriberID e = rq_SubscriberID req /\ we_FranchiseID e = rq_FranchiseID req /\
      known_account (we_Account e) = true /\
      String.eqb (we_EntryType e) "credit" || String.eqb (we_EntryType e) "debit" = true) as (-> & -> & Hk & He).
    { apply elem_of_cons in Hin as [-> | ->%list_elem_of_singleton]; done. }
    split_and!; eauto.
  - exact Hfree.
  - simpl. unfold splitTaxLeg. by rewrite (paise_is_zero _ 0 paise_zero).
  - assert (forall code, code ∈ ["1000"; "1200"; "2200"; "4000"]%string ->
      chart_of_accounts d !! code = Some (account d code)) as Hacc by (intros; by apply charted_account).
    repeat constructor; eapply line_paise; try reflexivity; try (apply Hacc; set_solver); simpl; eauto; lia.
  - apply (new_entry_balanced d _ rs); [done | done |]. subst rs. simpl. rewrite Z.eqb_refl. lia.
Qed.

(** ** Overlapping operations *)

(** Operations between their read and their transaction. *)
Record system : Type := MkSystem { db : DB; inflight : list RechargePosting }.

Inductive step : system -> system -> Prop :=
| step_recharge_begin s tu bu req p :
    recharge_begin tu bu req (db s) = Ok (inr p) -> step s (MkSystem (db s) (p :: inflight s))
| step_post_begin s tu bu req p :
    post_begin tu bu req (db s) = Ok (inr p) -> step s (MkSystem (db s) (p :: inflight s))
| step_commit s l1 p l2 now up :
    inflight s = l1 ++ p :: l2 ->
    step s (MkSystem (RecordRecharge now up p (db s)).2 (l1 ++ l2)).

Lemma RecordRecharge_grows now up p d :
  exists l, wallet_ledgers (RecordRecharge now up p d).2 = wallet_ledgers d ++ l.
Proof.
  destruct (RecordRecharge now up p d) as [[tx | e] d'] eqn:Hr; simpl.
  - apply RecordRecharge_Ok in Hr as [[Hp] _].
    destruct (posted_ledger _ _ _ _ Hp) as (r1 & r2 & nb & -> & _). eauto.
  - apply RecordRecharge_Err in Hr as (-> & _ & _). exists []. by rewrite app_nil_r.
Qed.

Lemma step_sound s s' :
  step s s' -> (books (db s) -> books (db s')) /\
  exists l, wallet_ledgers (db s') = wallet_ledgers (db s) ++ l.
Proof.
  destruct 1; simpl; (split; [intros Hb | ]); try done;
    [exists []; by rewrite app_nil_r | exists []; by rewrite app_nil_r | |].
  - by apply RecordRecharge_books.
  - apply RecordRecharge_grows.
Qed.

Lemma token_row_first l r t :
  NoDup (tokens l) -> r ∈ l -> lg_transaction_token r = Some t ->
  head (List.filter (has_token t) l) = Some r.
Proof.
  induction l as [| x l IH]; [by intros _ ?%not_elem_of_nil |].
  intros Hnd Hin Ht. simpl. unfold has_token at 1. case_bool_decide as Hx.
  - simpl. apply elem_of_cons in Hin as [-> | Hin]; [done |]. exfalso.
    unfold tokens in Hnd. simpl in Hnd. rewrite Hx in Hnd. apply NoDup_cons in Hnd as [Hn _].
    apply Hn. apply list_elem_of_omap. eauto.
  - apply elem_of_cons in Hin as [-> | Hin]; [done |]. apply IH; try done.
    unfold tokens in *. simpl in Hnd. destruct (lg_transaction_token x); [| done].
    by apply NoDup_cons in Hnd as [_ ?].
Qed.

Lemma used_token_refused now up p d r t :
  r ∈ wallet_ledgers d -> lg_transaction_token r = Some t ->
  we_TransactionToken (po_Credit p) = Some t ->
  exists e, (RecordRecharge now up p d).1 = Err e /\ same_tables d (RecordRecharge now up p d).2.
Proof.
  intros Hr Ht Hp. destruct (RecordRecharge now up p d) as [[tx | e] d'] eqn:Hrec.
  - apply RecordRecharge_Ok in Hrec as [[Hpo] _]. exfalso. destruct Hpo as [? ? ? ? ? ? ? ? ? ? ? ? ? ? Htok].
    rewrite Hp in Htok. simpl in Htok. apply negb_true_iff, not_true_iff_false in Htok. apply Htok.
    apply has_token_elem. apply list_elem_of_omap. eauto.
  - exists e. split; [done |]. by eapply RecordRecharge_Err.
Qed.

(** C4: Under any interleaving of wallet operations a token is recorded at
    most once, and for good: a recharge that repeats it answers the original
    transaction and changes nothing; and if its lookup failed, the unique
    index refuses the posting and no table changes. *)
Theorem token_pays_once s s' row t :
  star step s s' -> books (db s) -> row ∈ wallet_ledgers (db s) ->
  lg_transaction_token row = Some t -> t <> EmptyString ->
  row ∈ wallet_ledgers (db s') /\
  (forall row', row' ∈ wallet_ledgers (db s') -> lg_transaction_token row' = Some t -> row' = row) /\
  forall now e req, rq_TransactionToken req = t -> less_eq (rq_Amount req) (NewFromInt 0) = false ->
    if token_up e then Recharge now e req (db s') = (Ok (transaction_of_row row), db s')
    else exists x, (Recharge now e req (db s')).1 = Err x /\ same_tables (db s') (Recharge now e req (db s')).2.
Proof.
  intros Hs Hb Hrow Ht Hne.
  assert (books (db s') /\ row ∈ wallet_ledgers (db s')) as [Hb' Hrow'].
  { induction Hs as [s | s s1 s' Hstep _ IH]; [done |].
    apply step_sound in Hstep as [H1 (l & Hl)]. apply IH; [by apply H1 |]. rewrite Hl. set_solver. }
  pose proof (bk_tokens _ Hb') as Hnd.
  split; [done |]. split.
  - intros row' Hin Ht'. pose proof (token_row_first _ _ _ Hnd Hin Ht') as H1.
    pose proof (token_row_first _ _ _ Hnd Hrow' Ht) as H2. congruence.
  - intros now e req Hreq Hamt. unfold Recharge, recharge_begin. rewrite Hamt. unfold existing.
    rewrite Hreq, (proj2 (String.eqb_neq _ _) Hne). unfold GetTransactionByToken.
    rewrite (proj2 (String.eqb_neq _ _) Hne). destruct (token_up e); simpl.
    + by rewrite (token_row_first _ _ _ Hnd Hrow' Ht).
    + destruct (GetSubscriberBalance _ _ _) as [b | x]; simpl; [| exists x; split; [done |];
        split; [by destruct (db s') | lia]].
      destruct (used_token_refused now (tx_up e) (recharge_posting req b) (db s') row t)
        as (x & Hx & Hsame); try done.
      { simpl. unfold nullif_empty. by rewrite Hreq, (proj2 (String.eqb_neq _ _) Hne). }
      unfold bind. destruct (RecordRecharge _ _ _ _) as [[tx | y] d']; simpl in *; [done | eauto].
Qed.

(** Two recharges of one subscriber that both read the balance before
    either commits both succeed and both stand in the ledger, but the balance
    keeps only the second: the first payment is lost. *)
Theorem overlapping_recharges_lose_one d id r req1 req2 p1 p2 n1 n2 now1 now2 up1 up2 tu1 tu2 bu1 bu2
    tx1 tx2 d1 d2 :
  subscribers d !! id = Some r ->
  rq_SubscriberID req1 = id -> rq_SubscriberID req2 = id ->
  is_paise (rq_Amount req1) n1 -> is_paise (rq_Amount req2) n2 ->
  recharge_begin tu1 bu1 req1 d = Ok (inr p1) -> recharge_begin tu2 bu2 req2 d = Ok (inr p2) ->
  RecordRecharge now1 up1 p1 d = (Ok tx1, d1) -> RecordRecharge now2 up2 p2 d1 = (Ok tx2, d2) ->
  0 < n1 /\
  wallet_balance <$> subscribers d2 !! id = Some (wallet_balance r + n2) /\
  ledger_sum id (wallet_ledgers d2) = ledger_sum id (wallet_ledgers d) + n1 + n2.
Proof.
  intros Hr <- Hid Hn1 Hn2 Hb1 Hb2 Hc1 Hc2.
  apply (recharge_begin_moves _ _ _ _ _ n1 Hn1) in Hb1 as (Hpos & r1 & Hr1 & Hm1).
  apply (recharge_begin_moves _ _ _ _ _ n2 Hn2) in Hb2 as (_ & r2 & Hr2 & Hm2).
  rewrite Hid in Hr2, Hm2. simplify_eq.
  apply RecordRecharge_Ok in Hc1 as [[Hp1] _]. apply RecordRecharge_Ok in Hc2 as [[Hp2] _].
  destruct (posted_effect _ _ _ _ _ _ _ Hp1 Hm1) as [Hl1 Hs1].
  destruct (posted_effect _ _ _ _ _ _ _ Hp2 Hm2) as [Hl2 Hs2].
  split; [done |]. rewrite Hl2, Hl1, Z.eqb_refl. split; [| lia].
  rewrite Hs2, Hs1, !lookup_alter, !decide_True by done. by rewrite Hr.
Qed.

End Movements.

(** ** A small database for examples *)

Definition demo_subscriber : SubscriberRow :=
  MkSubscriber "asha" "+919800000001" None "Tamil Nadu" "grace_period" "grace_period" 100000 7 (Some 0).

Definition demo_chart : gmap string Z :=
  list_to_map [("1000", 1); ("1200", 2); ("2200", 3); ("4000", 4); ("5200", 5)]%string.

Definition demo_db : DB :=
  MkDB {[ 1 := demo_subscriber ]} {[ 7 := MkPlan "Home 100" 49900 30 500 ]} ∅ [] 1 demo_chart [] 1 []
    [MkGst 1 900 900 1800 0] [] 1.

Definition demo_recharge (token : string) (rupees : Z) : @RechargeRequest RationalDecimal :=
  @MkRecharge RationalDecimal 1 (inject_Z rupees) token None "top-up".

Lemma demo_books : books demo_db.
Proof.
  split; simpl; try (intros ? ?%not_elem_of_nil; done); [| constructor].
  intros id r Hr. apply lookup_singleton_Some in Hr as [_ <-]. done.
Qed.

Lemma wallet_reconciles_witness :
  let d' := (Recharge (H := RationalDecimal) 5 all_up (demo_recharge "pay_1" 250) demo_db).2 in
  wallet_balance <$> subscribers d' !! 1 = Some 125000 /\ in_step demo_db d' /\ books d'.
Proof.
  cbv zeta. split; [vm_compute; reflexivity |].
  apply (wallet_reconciles (H := RationalDecimal) (H0 := RationalLaws)); [| apply demo_books].
  apply star_one. apply (step_recharge (H0 := RationalLaws) _ 5 all_up _ 25000). reflexivity.
Defined.

(** The database after one recharge, and the row that records it. *)
Definition demo_paid : DB :=
  Eval vm_compute in (Recharge (H := RationalDecimal) 5 all_up (demo_recharge "pay_1" 250) demo_db).2.

Definition demo_row : LedgerRow :=
  MkLedger 2 1 None AccountSubscriberWallet "credit" 25000 125000 (Some "pay_1"%string) "top-up" None 5.

Lemma demo_paid_books : books demo_paid.
Proof.
  replace demo_paid with (Recharge (H := RationalDecimal) 5 all_up (demo_recharge "pay_1" 250) demo_db).2
    by (vm_compute; reflexivity).
  apply wallet_op_books, demo_books.
Qed.

Lemma demo_row_paid : demo_row ∈ wallet_ledgers demo_paid.
Proof. apply list_elem_of_further, list_elem_of_here. Qed.

Lemma token_pays_once_witness :
  (Recharge (H := RationalDecimal) 9 all_up (demo_recharge "pay_1" 250) demo_paid).1 =
    Ok (transaction_of_row (H := RationalDecimal) demo_row) /\
  demo_row ∈ wallet_ledgers demo_paid.
Proof.
  destruct (token_pays_once (H := RationalDecimal) (MkSystem demo_paid []) (MkSystem demo_paid []) demo_row
    "pay_1" (star_refl _ _) demo_paid_books demo_row_paid eq_refl ltac:(discriminate)) as (Hin & _ & Hpay).
  split; [| exact Hin].
  assert (less_eq (rq_Amount (demo_recharge "pay_1" 250)) (NewFromInt 0) = false) as Hpos
    by (vm_compute; reflexivity).
  specialize (Hpay 9 all_up (demo_recharge "pay_1" 250) eq_refl Hpos).
  cbn [token_up all_up db] in Hpay. rewrite Hpay. reflexivity.
Defined.

Lemma overlapping_recharges_lose_one_witness :
  exists d2 : DB,
    wallet_balance <$> subscribers d2 !! 1 = Some (100000 + 5000) /\
    ledger_sum 1 (wallet_ledgers d2) = 0 + 25000 + 5000.
Proof.
  pose (p1 := @recharge_posting RationalDecimal (demo_recharge "pay_1" 250) (@of_paise RationalDecimal 100000)).
  pose (p2 := @recharge_posting RationalDecimal (demo_recharge "pay_2" 50) (@of_paise RationalDecimal 100000)).
  pose (c1 := @RecordRecharge RationalDecimal 5 (fun _ => true) p1 demo_db).
  pose (c2 := @RecordRecharge RationalDecimal 6 (fun _ => true) p2 c1.2).
  assert (exists t1, c1 = (Ok t1, c1.2)) as [t1 Ht1] by (eexists; vm_compute; reflexivity).
  assert (exists t2, c2 = (Ok t2, c2.2)) as [t2 Ht2] by (eexists; vm_compute; reflexivity).
  exists c2.2.
  exact (proj2 (overlapping_recharges_lose_one (H0 := RationalLaws) demo_db 1 demo_subscriber
    (demo_recharge "pay_1" 250) (demo_recharge "pay_2" 50) p1 p2 25000 5000 5 6 (fun _ => true)
    (fun _ => true) true true true true t1 t2 c1.2 c2.2
    eq_refl eq_refl eq_refl eq_refl eq_refl eq_refl eq_refl Ht1 Ht2)).
Defined.

End Billing.
