(* ===== verification/Dunning.v ===== *)
(** * internal/billing/dunning*.go: the collection ladder

    The dunning state machine, the hourly scanner that walks subscribers along
    it, its two statements in internal/db/billing.go, and the handlers of the
    notices. Instants and durations are nanoseconds. [time.Duration.Hours] is a
    float64; a quotient of a duration by 24 hours compares with a whole number
    of days exactly as the duration does with that many nanoseconds, because a
    nanosecond is far above the float's spacing at these magnitudes, so the
    thresholds are written on nanoseconds. *)

From S2P Require Import Prelude GoStrings Json Identity Jobqueue Decimal Gst Billing.
From Stdlib Require Import Ascii.
From stdpp Require Import sorting.

Local Open Scope Z_scope.

Module Dunning.

Definition hour : Z := 3600 * 1000000000.
Definition day : Z := 24 * hour.

(** [Time.Sub]: a saturating difference. *)
Definition time_sub (a b : Z) : Z := Z.max (- 2 ^ 63) (Z.min max_int64 (a - b)).

(** ** The state machine (dunning.go) *)

Definition DunningActive : string := "active".
Definition DunningRemind7d : string := "remind_7d".
Definition DunningRemind3d : string := "remind_3d".
Definition DunningRemind1d : string := "remind_1d".
Definition DunningGracePeriod : string := "grace_period".
Definition DunningSoftSuspended : string := "soft_suspended".
Definition DunningHardSuspended : string := "hard_suspended".

Definition validTransitions : list (string * string) := [
  (DunningActive, DunningRemind7d);
  (DunningRemind7d, DunningRemind3d);
  (DunningRemind3d, DunningRemind1d);
  (DunningRemind1d, DunningGracePeriod);
  (DunningGracePeriod, DunningSoftSuspended);
  (DunningSoftSuspended, DunningHardSuspended);
  (DunningGracePeriod, DunningActive);
  (DunningSoftSuspended, DunningActive);
  (DunningHardSuspended, DunningActive);
  (DunningRemind7d, DunningActive);
  (DunningRemind3d, DunningActive);
  (DunningRemind1d, DunningActive)
].

Definition permitted (from to : string) : bool :=
  existsb (fun t => String.eqb t.1 from && String.eqb t.2 to) validTransitions.

Definition dunningToSubscriberStatus (d : string) : string :=
  if String.eqb d DunningActive || String.eqb d DunningRemind7d || String.eqb d DunningRemind3d ||
     String.eqb d DunningRemind1d then "active"
  else if String.eqb d DunningGracePeriod then "grace_period"
  else if String.eqb d DunningSoftSuspended then "soft_suspended"
  else if String.eqb d DunningHardSuspended then "hard_suspended"
  else "active".

Inductive error : Type :=
| ErrNotFound | ErrQuery | ErrConstraint | ErrInvalidTransition | ErrNoPath | ErrMaxSteps | ErrEnqueue.

(** ** The store's statements (db/billing.go) *)

Definition GetSubscriberDunningState (now : Z) (up : bool) (id : Z) (d : Billing.DB) :
    result error (string * Z) :=
  if negb up then Err ErrQuery
  else match Billing.subscribers d !! id with
       | None => Err ErrNotFound
       | Some r => Ok (Billing.dunning_state r, default now (Billing.plan_expiry r))
       end.

Definition statuses : list string :=
  ["pending_payment"; "active"; "grace_period"; "soft_suspended"; "hard_suspended"; "terminated"]%string.

(** The table's checks on a status: its domain, and
    chk_authorised_subscriber_is_billable. *)
Definition status_ok (status : string) (expiry : option Z) : bool :=
  existsb (String.eqb status) statuses &&
  (existsb (String.eqb status) ["pending_payment"; "hard_suspended"; "terminated"]%string ||
   bool_decide (is_Some expiry)).

Definition set_dunning (state status : string) (r : Billing.SubscriberRow) : Billing.SubscriberRow :=
  Billing.MkSubscriber (Billing.username r) (Billing.mobile_number r) (Billing.franchise_id r)
    (Billing.registered_state r) status state (Billing.wallet_balance r) (Billing.plan_id r)
    (Billing.plan_expiry r).

Definition update (f : Billing.SubscriberRow -> Billing.SubscriberRow) (id : Z) : Billing.DB -> Billing.DB :=
  Billing.with_subscribers (alter f id).

Definition SetSubscriberDunningState (up : bool) (id : Z) (state status : string) (d : Billing.DB) :
    result error unit * Billing.DB :=
  if negb up then (Err ErrQuery, d)
  else match Billing.subscribers d !! id with
       | None => (Err ErrNotFound, d)
       | Some r =>
           if status_ok status (Billing.plan_expiry r)
           then (Ok tt, update (set_dunning state status) id d)
           else (Err ErrConstraint, d)
       end.

Record Candidate : Type := MkCandidate {
  c_SubscriberID : Z;
  c_Username : string;
  c_MobileNumber : string;
  c_State : string;
  c_PlanExpiry : Z
}.

Definition is_candidate (now : Z) (r : Billing.SubscriberRow) : bool :=
  match Billing.plan_expiry r with
  | None => false
  | Some e => negb (String.eqb (Billing.status r) "terminated") &&
              ((e <=? now + 7 * day) || negb (String.eqb (Billing.dunning_state r) "active"))
  end.

Definition candidate_of (now id : Z) (r : Billing.SubscriberRow) : option Candidate :=
  if is_candidate now r
  then e ← Billing.plan_expiry r;
       Some (MkCandidate id (Billing.username r) (Billing.mobile_number r) (Billing.dunning_state r) e)
  else None.

(** [ORDER BY plan_expiry DESC] *)
Definition later_expiry (a b : Candidate) : Prop := c_PlanExpiry b <= c_PlanExpiry a.
#[local] Instance later_expiry_dec : RelDecision later_expiry.
Proof. intros a b. unfold later_expiry. apply _. Defined.

Definition candidates (now : Z) (d : Billing.DB) : list Candidate :=
  omap (fun p => candidate_of now p.1 p.2) (map_to_list (Billing.subscribers d)).

Definition ListDunningCandidates (now : Z) (up : bool) (d : Billing.DB) : result error (list Candidate) :=
  if negb up then Err ErrQuery else Ok (merge_sort later_expiry (candidates now d)).

(** ** One transition (dunning.go) *)

(** The two calls' outcomes. *)
Definition TransitionDunning (now : Z) (get_up set_up : bool) (id : Z) (target : string)
    (d : Billing.DB) : result error unit * Billing.DB :=
  match GetSubscriberDunningState now get_up id d with
  | Err e => (Err e, d)
  | Ok (current, _) =>
      if permitted current target
      then SetSubscriberDunningState set_up id target (dunningToSubscriberStatus target) d
      else (Err ErrInvalidTransition, d)
  end.

(** ** The scanner (dunning_scanner.go) *)

Definition TaskTypeDunningNotice : string := "notif:dunning".
Definition QueueNotifications : string := "notifications".
Definition TemplateDunningReminder : string := "TMPL-003".
Definition TemplateSoftSuspended : string := "TMPL-004".
Definition TemplateHardSuspended : string := "TMPL-005".
Definition TemplateServiceRestored : string := "TMPL-006".
Definition TemplatePaymentReceived : string := "TMPL-007".
Definition GracePeriodDays : Z := 3.
Definition SoftSuspendDays : Z := 3.
Definition remind7dDays : Z := 7.
Definition remind3dDays : Z := 3.
Definition remind1dDays : Z := 1.

Definition NextDunningState (current : string) (planExpiry now : Z) : string :=
  if (now <? planExpiry) &&
     (String.eqb current DunningGracePeriod || String.eqb current DunningSoftSuspended ||
      String.eqb current DunningHardSuspended)
  then DunningActive
  else
    let untilExpiry := time_sub planExpiry now in
    if untilExpiry <=? - (GracePeriodDays + SoftSuspendDays) * day then DunningHardSuspended
    else if untilExpiry <=? - GracePeriodDays * day then DunningSoftSuspended
    else if untilExpiry <=? 0 then DunningGracePeriod
    else if untilExpiry <=? remind1dDays * day then DunningRemind1d
    else if untilExpiry <=? remind3dDays * day then DunningRemind3d
    else if untilExpiry <=? remind7dDays * day then DunningRemind7d
    else DunningActive.

Definition TemplateForDunningState (s : string) : option string :=
  if String.eqb s DunningRemind7d || String.eqb s DunningRemind3d || String.eqb s DunningRemind1d ||
     String.eqb s DunningGracePeriod then Some TemplateDunningReminder
  else if String.eqb s DunningSoftSuspended then Some TemplateSoftSuspended
  else if String.eqb s DunningHardSuspended then Some TemplateHardSuspended
  else None.

Definition ladder : list string := [
  DunningActive; DunningRemind7d; DunningRemind3d; DunningRemind1d;
  DunningGracePeriod; DunningSoftSuspended; DunningHardSuspended].

(** The last position of a state on the ladder (every state is there once). *)
Definition position (s : string) : option nat := fst <$> list_find (fun x => x = s) ladder.

Definition stepToward (current target : string) : option string :=
  if String.eqb target DunningActive then Some DunningActive
  else match position current, position target with
       | Some ci, Some ti => if (ti <=? ci)%nat then None else ladder !! S ci
       | _, _ => None
       end.

Record NoticePayload : Type := MkNotice {
  n_SubscriberID : Z;
  n_Username : string;
  n_State : string;
  n_TemplateID : string;
  n_DaysOverdue : Z
}.

Definition marshal_notice (p : NoticePayload) : string :=
  Json.Marshal [("subscriber_id", Json.VInt (n_SubscriberID p)); ("username", Json.VStr (n_Username p));
    ("state", Json.VStr (n_State p)); ("template_id", Json.VStr (n_TemplateID p));
    ("days_overdue", Json.VInt (n_DaysOverdue p))]%string.

Definition unix (t : Z) : Z := t / 1000000000.

Definition DunningNoticeTaskID (subscriberID : Z) (state : string) (planExpiry : Z) : string :=
  "dunning-" +:+ format_int subscriberID +:+ "-" +:+ state +:+ "-" +:+ format_int (unix planExpiry).

Record world : Type := MkWorld { bdb : Billing.DB; tasks : Jobqueue.table }.

(** Which of a scan's calls can be executed; [client]: a queue is configured. *)
Record ScanEnv : Type := MkScanEnv {
  list_up : bool;
  get_up : Z -> string -> bool;
  set_up : Z -> string -> bool;
  enqueue_up : Z -> bool;
  client : bool
}.

Definition all_up : ScanEnv := MkScanEnv true (fun _ _ => true) (fun _ _ => true) (fun _ => true) true.

Definition maxSteps : nat := 8.

Fixpoint walk (steps : nat) (now : Z) (e : ScanEnv) (id : Z) (state target : string) (d : Billing.DB) :
    result error unit * Billing.DB :=
  if String.eqb state target then (Ok tt, d)
  else match steps with
       | O => (Err ErrMaxSteps, d)
       | S steps =>
           match stepToward state target with
           | None => (Err ErrNoPath, d)
           | Some next =>
               match TransitionDunning now (get_up e id next) (set_up e id next) id next d with
               | (Err x, d) => (Err x, d)
               | (Ok _, d) => walk steps now e id next target d
               end
           end
       end.

Definition days_overdue (now planExpiry : Z) : Z := Z.max 0 (Z.quot (time_sub now planExpiry) day).

Definition notice_task (c : Candidate) (target templateID : string) (now : Z) : Jobqueue.Task :=
  Jobqueue.NewTask TaskTypeDunningNotice
    (bytes_of_string (marshal_notice (MkNotice (c_SubscriberID c) (c_Username c) target templateID
       (days_overdue now (c_PlanExpiry c)))))
    [Jobqueue.Queue QueueNotifications;
     Jobqueue.TaskID (DunningNoticeTaskID (c_SubscriberID c) target (c_PlanExpiry c));
     Jobqueue.MaxRetry 3; Jobqueue.Retention (24 * hour)].

Definition advance (now : Z) (e : ScanEnv) (c : Candidate) (target : string) (w : world) :
    result error unit * world :=
  match walk maxSteps now e (c_SubscriberID c) (c_State c) target (bdb w) with
  | (Err x, d) => (Err x, MkWorld d (tasks w))
  | (Ok _, d) =>
      match TemplateForDunningState target with
      | None => (Ok tt, MkWorld d (tasks w))
      | Some templateID =>
          if negb (client e) then (Ok tt, MkWorld d (tasks w))
          else
            let '(r, t) := Jobqueue.EnqueueContext now (enqueue_up e (c_SubscriberID c))
                             (notice_task c target templateID now) [] (tasks w) in
            (match r with
             | Ok _ | Err Jobqueue.ErrTaskIDConflict => Ok tt
             | Err _ => Err ErrEnqueue
             end, MkWorld d t)
      end
  end.

Definition scan_one (now : Z) (e : ScanEnv) (w : world) (c : Candidate) : world :=
  let target := NextDunningState (c_State c) (c_PlanExpiry c) now in
  if String.eqb target (c_State c) then w else (advance now e c target w).2.

(** The loop over the listed candidates; a failed one is logged. *)
Definition scan_all (now : Z) (e : ScanEnv) (l : list Candidate) (w : world) : world :=
  foldl (scan_one now e) w l.

Definition Scan (now : Z) (e : ScanEnv) (w : world) : result error unit * world :=
  match ListDunningCandidates now (list_up e) (bdb w) with
  | Err x => (Err x, w)
  | Ok l => (Ok tt, scan_all now e l w)
  end.

(** ** The notices (dunning_task.go) *)

Definition notice_of (o : Json.object) : option NoticePayload :=
  id ← Json.field_int "subscriber_id" o; u ← Json.field_str "username" o;
  s ← Json.field_str "state" o; t ← Json.field_str "template_id" o;
  days ← Json.field_int "days_overdue" o; Some (MkNotice id u s t days).

Record PaymentReceiptPayload : Type := MkReceipt {
  pp_SubscriberID : Z;
  pp_Username : string;
  pp_Amount : string;
  pp_NewBalance : string;
  pp_WasSuspended : bool
}.

Definition marshal_receipt (p : PaymentReceiptPayload) : string :=
  Json.Marshal [("subscriber_id", Json.VInt (pp_SubscriberID p)); ("username", Json.VStr (pp_Username p));
    ("amount", Json.VStr (pp_Amount p)); ("new_balance", Json.VStr (pp_NewBalance p));
    ("was_suspended", Json.VBool (pp_WasSuspended p))]%string.

Definition receipt_of (o : Json.object) : option PaymentReceiptPayload :=
  id ← Json.field_int "subscriber_id" o; u ← Json.field_str "username" o;
  a ← Json.field_str "amount" o; b ← Json.field_str "new_balance" o;
  w ← Json.field_bool "was_suspended" o; Some (MkReceipt id u a b w).

Record ServiceRestoredPayload : Type := MkRestored {
  sr_SubscriberID : Z;
  sr_Username : string;
  sr_PlanName : string;
  sr_ValidUntil : string
}.

Definition marshal_restored (p : ServiceRestoredPayload) : string :=
  Json.Marshal [("subscriber_id", Json.VInt (sr_SubscriberID p)); ("username", Json.VStr (sr_Username p));
    ("plan_name", Json.VStr (sr_PlanName p)); ("valid_until", Json.VStr (sr_ValidUntil p))]%string.

Definition restored_of (o : Json.object) : option ServiceRestoredPayload :=
  id ← Json.field_int "subscriber_id" o; u ← Json.field_str "username" o;
  p ← Json.field_str "plan_name" o; v ← Json.field_str "valid_until" o; Some (MkRestored id u p v).

(** One call of [Notify]. *)
Record Notice : Type := MkMessage {
  m_subscriber : Z; m_template : string; m_event : string; m_vars : list string; m_channels : list string
}.

Section Handlers.
(** The dispatcher; [None] when none is configured. *)
Variable notifier : option (Notice -> bool).

Definition dispatch (n : Notice) : Jobqueue.outcome :=
  match notifier with
  | None => Jobqueue.Failed "notifier not configured" false
  | Some send => if send n then Jobqueue.Succeeded else Jobqueue.Failed "dispatch" false
  end.

(** [DunningNoticeHandler.ProcessTask]; [policy] is the channel policy, if set. *)
Definition channelsFor (policy : option (string -> list string)) (state : string) : list string :=
  match policy with None => [] | Some p => p state end.

Definition process_notice (policy : option (string -> list string)) (payload : list Z) : Jobqueue.outcome :=
  match Json.unmarshal notice_of payload with
  | None => Jobqueue.Failed "dunning notice: unmarshal payload" true
  | Some p => dispatch (MkMessage (n_SubscriberID p) (n_TemplateID p) ("dunning_" +:+ n_State p)
                [n_Username p; format_int (n_DaysOverdue p)] (channelsFor policy (n_State p)))
  end.

(** [PaymentReceiptHandler.ProcessTask] *)
Definition process_receipt (channels : list string) (payload : list Z) : Jobqueue.outcome :=
  match Json.unmarshal receipt_of payload with
  | None => Jobqueue.Failed "payment receipt: unmarshal payload" true
  | Some p =>
      let triggerEvent := if pp_WasSuspended p then "payment_received_while_suspended"%string
                          else "payment_received"%string in
      dispatch (MkMessage (pp_SubscriberID p) TemplatePaymentReceived triggerEvent
                  [pp_Username p; pp_Amount p; pp_NewBalance p] channels)
  end.

(** [ServiceRestoredHandler.ProcessTask] *)
Definition process_restored (channels : list string) (payload : list Z) : Jobqueue.outcome :=
  match Json.unmarshal restored_of payload with
  | None => Jobqueue.Failed "service restored notice: unmarshal payload" true
  | Some p => dispatch (MkMessage (sr_SubscriberID p) TemplateServiceRestored "service_restored"
                [sr_Username p; sr_PlanName p; sr_ValidUntil p] channels)
  end.

End Handlers.

(** ** The ladder *)

Definition walkable (s t : string) : bool :=
  String.eqb t DunningActive ||
  match position s, position t with Some i, Some j => (i <? j)%nat | _, _ => false end.

(** How many transitions lead from [s] to [t]. *)
Definition distance (s t : string) : nat :=
  if String.eqb s t then 0
  else if String.eqb t DunningActive then 1
  else match position s, position t with Some i, Some j => (j - i)%nat | _, _ => O end.

(** Each step of [stepToward] is a permitted transition to a state of the
    ladder that is nearer the target; computed for every pair of states. *)
Lemma ladder_steps :
  forallb (fun s => forallb (fun t =>
    String.eqb s t ||
    match stepToward s t with
    | None => negb (walkable s t)
    | Some n => walkable s t && permitted s n && existsb (String.eqb n) ladder &&
                (String.eqb n t || walkable n t) && (distance s t =? S (distance n t))%nat
    end) ladder) ladder = true.
Proof. vm_compute. reflexivity. Qed.

Lemma distance_bound :
  forallb (fun s => forallb (fun t => (distance s t <=? 6)%nat) ladder) ladder = true.
Proof. vm_compute. reflexivity. Qed.

Lemma existsb_ladder s : existsb (String.eqb s) ladder = true <-> s ∈ ladder.
Proof.
  rewrite existsb_exists. split; [intros (x & Hx & ->%String.eqb_eq); by apply list_elem_of_In |].
  intros Hs. exists s. split; [by apply list_elem_of_In | apply String.eqb_refl].
Qed.

Lemma forallb_ladder (f : string -> string -> bool) s t :
  forallb (fun s => forallb (f s) ladder) ladder = true -> s ∈ ladder -> t ∈ ladder -> f s t = true.
Proof.
  intros Hf Hs%list_elem_of_In Ht%list_elem_of_In.
  rewrite forallb_forall in Hf. specialize (Hf s Hs). rewrite forallb_forall in Hf. by apply Hf.
Qed.

Lemma step_toward_cases s t :
  s ∈ ladder -> t ∈ ladder -> String.eqb s t = false ->
  match stepToward s t with
  | None => walkable s t = false
  | Some n => walkable s t = true /\ permitted s n = true /\ n ∈ ladder /\
              (n = t \/ walkable n t = true) /\ distance s t = S (distance n t)
  end.
Proof.
  intros Hs Ht Hne. pose proof (forallb_ladder _ s t ladder_steps Hs Ht) as Hf.
  cbv beta in Hf. rewrite Hne, orb_false_l in Hf. destruct (stepToward s t) as [n |]; [| by apply negb_true_iff in Hf].
  rewrite !andb_true_iff, orb_true_iff, existsb_ladder, String.eqb_eq, Nat.eqb_eq in Hf. tauto.
Qed.

Lemma mapped_status_ok t e : status_ok (dunningToSubscriberStatus t) (Some e) = true.
Proof. unfold dunningToSubscriberStatus. repeat case_match; reflexivity. Qed.

Lemma update_update f g id d : update f id (update g id d) = update (fun r => f (g r)) id d.
Proof. unfold update, Billing.with_subscribers. simpl. f_equal. apply alter_alter_eq. Qed.

(** A transition whose calls succeed. *)
Lemma transition_ok now id r e t d :
  Billing.subscribers d !! id = Some r -> Billing.plan_expiry r = Some e ->
  permitted (Billing.dunning_state r) t = true ->
  TransitionDunning now true true id t d =
    (Ok tt, update (set_dunning t (dunningToSubscriberStatus t)) id d).
Proof.
  intros Hr He Hp. unfold TransitionDunning, GetSubscriberDunningState, SetSubscriberDunningState.
  cbn [negb]. rewrite Hr. cbv beta iota. by rewrite Hp, He, mapped_status_ok.
Qed.

Lemma lookup_update f id d r :
  Billing.subscribers d !! id = Some r -> Billing.subscribers (update f id d) !! id = Some (f r).
Proof. intros Hr. unfold update. simpl. by rewrite lookup_alter, decide_True, Hr by done. Qed.

Lemma walk_spec now id r expiry steps s t d :
  s ∈ ladder -> t ∈ ladder -> (distance s t <= steps)%nat ->
  Billing.subscribers d !! id = Some r -> Billing.dunning_state r = s ->
  Billing.plan_expiry r = Some expiry ->
  walk (S steps) now all_up id s t d =
    if String.eqb s t then (Ok tt, d)
    else if walkable s t
         then (Ok tt, update (set_dunning t (dunningToSubscriberStatus t)) id d)
         else (Err ErrNoPath, d).
Proof.
  intros Hs Ht Hd Hr Hst He. revert Hd.
  revert s d r Hs Hr Hst He. induction steps as [| steps IH]; intros s d r Hs Hr Hst He Hd.
  - simpl. destruct (String.eqb s t) eqn:Hne; [done |].
    pose proof (step_toward_cases s t Hs Ht Hne) as Hc. destruct (stepToward s t) as [n |]; [| by rewrite Hc].
    destruct Hc as (_ & _ & _ & _ & Hc). lia.
  - cbn [walk]. destruct (String.eqb s t) eqn:Hne; [done |].
    pose proof (step_toward_cases s t Hs Ht Hne) as Hc. destruct (stepToward s t) as [n |]; [| by rewrite Hc].
    destruct Hc as (Hw & Hp & Hn & Hnt & Hdist). rewrite Hw. cbn [get_up set_up all_up].
    rewrite (transition_ok now id r expiry n d) by (done || by rewrite Hst).
    assert (walk (S steps) now all_up id n t (update (set_dunning n (dunningToSubscriberStatus n)) id d) =
            (Ok tt, update (set_dunning t (dunningToSubscriberStatus t)) id d)) as Hrest; [| exact Hrest].
    rewrite (IH n _ (set_dunning n (dunningToSubscriberStatus n) r)); try done; [| by apply lookup_update | lia].
    destruct (String.eqb_spec n t) as [-> | Hne']; [done |].
    destruct Hnt as [-> | ->]; [done |]. by rewrite update_update.
Qed.



(** ** A scan *)

(** Where a scan at [now] leaves a subscriber. *)
Definition settled (now : Z) (r : Billing.SubscriberRow) : Billing.SubscriberRow :=
  if is_candidate now r then
    match Billing.plan_expiry r with
    | None => r
    | Some e =>
        let t := NextDunningState (Billing.dunning_state r) e now in
        if negb (String.eqb (Billing.dunning_state r) t) && walkable (Billing.dunning_state r) t
        then set_dunning t (dunningToSubscriberStatus t) r else r
    end
  else r.

(** Every dunning state of the table is a stage of the ladder. *)
Definition staged (d : Billing.DB) : Prop :=
  forall id r, Billing.subscribers d !! id = Some r -> Billing.dunning_state r ∈ ladder.

Lemma next_on_ladder s e now : NextDunningState s e now ∈ ladder.
Proof. apply existsb_ladder. unfold NextDunningState. repeat case_match; reflexivity. Qed.

Lemma candidate_of_Some now id r c :
  candidate_of now id r = Some c ->
  is_candidate now r = true /\ Billing.plan_expiry r = Some (c_PlanExpiry c) /\
  c_SubscriberID c = id /\ c_State c = Billing.dunning_state r.
Proof.
  unfold candidate_of. destruct (is_candidate now r); [| done].
  destruct (Billing.plan_expiry r); [| done]. by intros [= <-].
Qed.

Lemma is_candidate_of now id r : is_candidate now r = true -> is_Some (candidate_of now id r).
Proof.
  unfold candidate_of. intros Hr. rewrite Hr. unfold is_candidate in Hr.
  destruct (Billing.plan_expiry r); [by eexists | done].
Qed.

Lemma advance_db now e c t w :
  bdb (advance now e c t w).2 = (walk maxSteps now e (c_SubscriberID c) (c_State c) t (bdb w)).2.
Proof.
  unfold advance. destruct (walk _ _ _ _ _ _ _) as [[u | x] d]; [| done].
  destruct (TemplateForDunningState t); [| done]. destruct (negb (client e)); [done |].
  by destruct (Jobqueue.EnqueueContext _ _ _ _ _).
Qed.

Lemma update_id f id d :
  (forall r, Billing.subscribers d !! id = Some r -> f r = r) -> update f id d = d.
Proof.
  intros Hf. unfold update, Billing.with_subscribers. rewrite alter_id by done. by destruct d.
Qed.

Lemma update_lookup_ext f g id d :
  (forall r, Billing.subscribers d !! id = Some r -> f r = g r) -> update f id d = update g id d.
Proof. intros Hf. unfold update, Billing.with_subscribers. f_equal. by apply alter_ext. Qed.

Lemma scan_one_db now w c r :
  Billing.subscribers (bdb w) !! c_SubscriberID c = Some r ->
  candidate_of now (c_SubscriberID c) r = Some c -> Billing.dunning_state r ∈ ladder ->
  bdb (scan_one now all_up w c) = update (settled now) (c_SubscriberID c) (bdb w).
Proof.
  intros Hr (Hcand & He & _ & Hs)%candidate_of_Some Hst. unfold scan_one. rewrite Hs, String.eqb_sym.
  assert (settled now r = let t := NextDunningState (Billing.dunning_state r) (c_PlanExpiry c) now in
    if negb (String.eqb (Billing.dunning_state r) t) && walkable (Billing.dunning_state r) t
    then set_dunning t (dunningToSubscriberStatus t) r else r) as Hset
    by (unfold settled; by rewrite Hcand, He).
  cbv zeta in Hset |- *. set (t := NextDunningState _ _ _) in *.
  destruct (String.eqb (Billing.dunning_state r) t) eqn:Heq; cbn [negb andb] in Hset.
  - symmetry. apply update_id. intros r' Hr'. congruence.
  - rewrite advance_db, Hs.
    rewrite (walk_spec now _ r (c_PlanExpiry c) 7) by
      (done || apply next_on_ladder ||
       (pose proof (forallb_ladder _ _ t distance_bound Hst (next_on_ladder _ _ _)) as H6;
        apply Nat.leb_le in H6; lia)).
    rewrite Heq. destruct (walkable _ t); cbn [snd]; [apply update_lookup_ext | symmetry; apply update_id];
      intros r' Hr'; congruence.
Qed.

Lemma scan_all_db now l w :
  NoDup (map c_SubscriberID l) ->
  Forall (fun c => exists r, Billing.subscribers (bdb w) !! c_SubscriberID c = Some r /\
     candidate_of now (c_SubscriberID c) r = Some c /\ Billing.dunning_state r ∈ ladder) l ->
  bdb (scan_all now all_up l w) = foldr (update (settled now)) (bdb w) (map c_SubscriberID l).
Proof.
  revert w. induction l as [| c l IH] using rev_ind; intros w Hnd Hall; [done |].
  rewrite map_app in Hnd |- *. apply NoDup_app in Hnd as (Hnd & Hout & _).
  apply Forall_app in Hall as [Hall Hc]. apply Forall_singleton in Hc as (r & Hr & Hco & Hst).
  unfold scan_all in *. rewrite foldl_app. simpl foldl.
  rewrite (scan_one_db now _ c r); [| | done | done].
  - rewrite (IH w) by done. rewrite foldr_app. simpl.
    clear. induction (map c_SubscriberID l) as [| i ids IH]; [done |]. simpl. rewrite <- IH.
    unfold update, Billing.with_subscribers. simpl. f_equal. destruct (decide (i = c_SubscriberID c)) as [-> | Hne].
    + done.
    + by apply alter_alter_ne.
  - rewrite (IH w) by done.
    assert (c_SubscriberID c ∉ map c_SubscriberID l) as Hni
      by (intros Hx; apply (Hout _ Hx), list_elem_of_singleton; done).
    clear -Hr Hni. induction l as [| c' l IH]; [done |]. simpl in Hni |- *.
    apply not_elem_of_cons in Hni as [Hne Hni]. rewrite lookup_alter_ne by done. by apply IH.
Qed.

Lemma candidates_NoDup now (l : list (Z * Billing.SubscriberRow)) :
  NoDup l.*1 -> NoDup (map c_SubscriberID (omap (fun p => candidate_of now p.1 p.2) l)).
Proof.
  induction l as [| [id r] l IH]; simpl; [constructor |]. intros [Hnot Hnd]%NoDup_cons.
  destruct (candidate_of now id r) as [c |] eqn:Hc; [| by apply IH]. simpl. constructor; [| by apply IH].
  apply candidate_of_Some in Hc as (_ & _ & -> & _). contradict Hnot.
  apply list_elem_of_fmap in Hnot as (c' & -> & Hin).
  apply list_elem_of_omap in Hin as ([id' r'] & Hin & Hc').
  apply candidate_of_Some in Hc' as (_ & _ & -> & _). apply list_elem_of_fmap. by exists (id', r').
Qed.

Lemma foldr_update_lookup f (ids : list Z) d i :
  NoDup ids ->
  Billing.subscribers (foldr (update f) d ids) !! i =
    (if decide (i ∈ ids) then f <$> Billing.subscribers d !! i else Billing.subscribers d !! i).
Proof.
  induction ids as [| j ids IH]; intros Hnd; [done |]. simpl foldr. unfold update at 1. simpl.
  apply NoDup_cons in Hnd as [Hj Hnd]. rewrite lookup_alter.
  destruct (decide (j = i)) as [-> | Hne]; rewrite IH by done; repeat case_decide; done || set_solver.
Qed.

Lemma foldr_update_rest f (ids : list Z) d :
  exists m, foldr (update f) d ids = Billing.with_subscribers (fun _ => m) d.
Proof.
  induction ids as [| j ids [m IH]]; simpl; [exists (Billing.subscribers d); by destruct d |].
  rewrite IH. by eexists.
Qed.

Lemma not_candidate_settled now r : is_candidate now r = false -> settled now r = r.
Proof. unfold settled. by intros ->. Qed.

(** The scan as one map over the table. *)
Lemma scan_db now w :
  staged (bdb w) ->
  (Scan now all_up w).1 = Ok tt /\
  bdb (Scan now all_up w).2 = Billing.with_subscribers (fmap (settled now)) (bdb w).
Proof.
  intros Hst. unfold Scan, ListDunningCandidates. simpl. split; [done |].
  set (l := merge_sort later_expiry (candidates now (bdb w))).
  assert (Permutation l (candidates now (bdb w))) as Hl by apply merge_sort_Permutation.
  assert (NoDup (map c_SubscriberID l)) as Hnd.
  { rewrite Hl. unfold candidates. apply candidates_NoDup, NoDup_fst_map_to_list. }
  assert (forall c, c ∈ l <-> exists r, Billing.subscribers (bdb w) !! c_SubscriberID c = Some r /\
            candidate_of now (c_SubscriberID c) r = Some c) as Hin.
  { intros c. rewrite Hl. unfold candidates. rewrite list_elem_of_omap. split.
    - intros ([i r] & Hi%elem_of_map_to_list & Hc). simpl in Hc.
      pose proof (candidate_of_Some _ _ _ _ Hc) as (_ & _ & Hid & _). rewrite Hid. eauto.
    - intros (r & Hr & Hc). exists (c_SubscriberID c, r). split; [by apply elem_of_map_to_list | done]. }
  rewrite scan_all_db; [| done |].
  2: { apply Forall_forall. intros c (r & Hr & Hc)%Hin. exists r. eauto. }
  destruct (foldr_update_rest (settled now) (map c_SubscriberID l) (bdb w)) as [m Hm].
  rewrite Hm. unfold Billing.with_subscribers. f_equal. apply map_eq. intros i.
  pose proof (foldr_update_lookup (settled now) (map c_SubscriberID l) (bdb w) i Hnd) as Hlk.
  rewrite Hm in Hlk. simpl in Hlk. rewrite Hlk, lookup_fmap.
  destruct (Billing.subscribers (bdb w) !! i) as [r |] eqn:Hr; [| by case_decide].
  case_decide as Hi; [done |]. simpl. f_equal. symmetry. apply not_candidate_settled.
  destruct (is_candidate now r) eqn:Hc; [| done]. destruct Hi.
  destruct (is_candidate_of now i r Hc) as [c Hco].
  pose proof (candidate_of_Some _ _ _ _ Hco) as (_ & _ & Hid & _). subst i.
  apply list_elem_of_fmap. exists c. split; [done |]. apply Hin. eauto.
Qed.

(** *** The scan on stages *)

(** Which of the seven intervals the time to expiry falls in, and the stage
    each asks for. *)
Definition bucket (e now : Z) : nat :=
  let u := time_sub e now in
  if u <=? - 6 * day then 0 else if u <=? - 3 * day then 1 else if u <=? 0 then 2
  else if u <=? day then 3 else if u <=? 3 * day then 4 else if u <=? 7 * day then 5 else 6.

Definition stage_at (b : nat) : string :=
  default DunningActive ([DunningHardSuspended; DunningSoftSuspended; DunningGracePeriod; DunningRemind1d;
    DunningRemind3d; DunningRemind7d] !! b).

Definition next_of (s : string) (b : nat) : string :=
  if (2 <? b)%nat &&
     (String.eqb s DunningGracePeriod || String.eqb s DunningSoftSuspended || String.eqb s DunningHardSuspended)
  then DunningActive else stage_at b.

Definition stage_step (b : nat) (s : string) : string :=
  if (b <? 6)%nat || negb (String.eqb s DunningActive)
  then let t := next_of s b in if walkable s t then t else s
  else s.

Lemma next_of_spec s e now : NextDunningState s e now = next_of s (bucket e now).
Proof.
  unfold NextDunningState, next_of, bucket.
  assert ((now <? e) = (0 <? time_sub e now)) as -> by (unfold time_sub, max_int64; lia).
  set (u := time_sub e now). change (- (GracePeriodDays + SoftSuspendDays) * day) with (- 6 * day).
  change (- GracePeriodDays * day) with (- 3 * day). change (remind1dDays * day) with day.
  change (remind3dDays * day) with (3 * day). change (remind7dDays * day) with (7 * day).
  set (c := String.eqb s DunningGracePeriod || _ || _).
  assert (0 < day) as Hday by done.
  destruct (u <=? - 6 * day) eqn:H0; [replace (0 <? u) with false by lia; done |].
  destruct (u <=? - 3 * day) eqn:H1; [replace (0 <? u) with false by lia; done |].
  destruct (u <=? 0) eqn:H2; [replace (0 <? u) with false by lia; done |].
  replace (0 <? u) with true by lia.
  destruct (u <=? day), (u <=? 3 * day), (u <=? 7 * day), c; reflexivity.
Qed.

Lemma bucket_lt e now : (bucket e now < 7)%nat.
Proof. unfold bucket. repeat case_match; lia. Qed.

Lemma candidate_bucket now r e :
  Billing.plan_expiry r = Some e -> String.eqb (Billing.status r) "terminated" = false ->
  is_candidate now r = ((bucket e now <? 6)%nat || negb (String.eqb (Billing.dunning_state r) DunningActive)).
Proof.
  intros He Hst. unfold is_candidate. rewrite He, Hst. simpl negb. rewrite andb_true_l. f_equal.
  unfold bucket. assert (0 < 7 * day < max_int64) as Hd by done.
  assert ((e <=? now + 7 * day) = (time_sub e now <=? 7 * day)) as -> by (unfold time_sub; lia).
  assert (0 < day) as Hday by done. set (u := time_sub e now).
  destruct (u <=? - 6 * day) eqn:H0; [replace (u <=? 7 * day) with true by lia; done |].
  destruct (u <=? - 3 * day) eqn:H1; [replace (u <=? 7 * day) with true by lia; done |].
  destruct (u <=? 0) eqn:H2; [replace (u <=? 7 * day) with true by lia; done |].
  destruct (u <=? day) eqn:H3; [replace (u <=? 7 * day) with true by lia; done |].
  destruct (u <=? 3 * day) eqn:H4; [replace (u <=? 7 * day) with true by lia; done |].
  by destruct (u <=? 7 * day).
Qed.

(** A settled row: the stage moved by [stage_step], with its status, or the
    same row. *)
Lemma settled_spec now r e :
  Billing.plan_expiry r = Some e -> String.eqb (Billing.status r) "terminated" = false ->
  let s := Billing.dunning_state r in
  let t := stage_step (bucket e now) s in
  settled now r = if String.eqb s t then r else set_dunning t (dunningToSubscriberStatus t) r.
Proof.
  intros He Hst s t. unfold settled. rewrite (candidate_bucket now r e), He by done.
  subst t. unfold stage_step. fold s. destruct (_ || _); [| by rewrite String.eqb_refl].
  rewrite next_of_spec. set (n := next_of s (bucket e now)). cbv zeta.
  destruct (walkable s n); [| by rewrite andb_false_r, String.eqb_refl].
  rewrite andb_true_r. by destruct (String.eqb s n).
Qed.

Lemma mapped_not_terminated t : String.eqb (dunningToSubscriberStatus t) "terminated" = false.
Proof. unfold dunningToSubscriberStatus. repeat case_match; reflexivity. Qed.

(** All forty-nine combinations of interval and stage, computed. *)
Definition stage_table (P : nat -> string -> bool) : bool :=
  forallb (fun b => forallb (P b) ladder) (seq 0 7).

Lemma stage_table_all P b s : stage_table P = true -> (b < 7)%nat -> s ∈ ladder -> P b s = true.
Proof.
  intros Ht Hb Hs. unfold stage_table in Ht. rewrite forallb_forall in Ht.
  specialize (Ht b ltac:(apply in_seq; lia)). rewrite forallb_forall in Ht. by apply Ht, list_elem_of_In.
Qed.

Lemma stage_step_ladder :
  stage_table (fun b s => existsb (String.eqb (stage_step b s)) ladder) = true.
Proof. vm_compute. reflexivity. Qed.
Lemma stage_step_converges :
  stage_table (fun b s => let s2 := stage_step b (stage_step b s) in
    String.eqb s2 (stage_step b s2)) = true.
Proof. vm_compute. reflexivity. Qed.

Lemma settled_fields now r :
  Billing.plan_expiry (settled now r) = Billing.plan_expiry r /\
  (String.eqb (Billing.status r) "terminated" = false ->
   String.eqb (Billing.status (settled now r)) "terminated" = false).
Proof.
  unfold settled. repeat case_match; simpl; try done. split; [done | intros _; apply mapped_not_terminated].
Qed.

Lemma settled_terminated now r : String.eqb (Billing.status r) "terminated" = true -> settled now r = r.
Proof.
  intros Hst. apply not_candidate_settled. unfold is_candidate. rewrite Hst.
  by destruct (Billing.plan_expiry r).
Qed.

Lemma settled_stage now r e :
  Billing.plan_expiry r = Some e -> String.eqb (Billing.status r) "terminated" = false ->
  Billing.dunning_state (settled now r) = stage_step (bucket e now) (Billing.dunning_state r).
Proof.
  intros He Hst. rewrite (settled_spec now r e He Hst). cbv zeta.
  destruct (String.eqb_spec (Billing.dunning_state r) (stage_step (bucket e now) (Billing.dunning_state r)));
    done.
Qed.

Lemma settled_ladder now r : Billing.dunning_state r ∈ ladder -> Billing.dunning_state (settled now r) ∈ ladder.
Proof.
  intros Hs. unfold settled. repeat case_match; try done. simpl. apply next_on_ladder.
Qed.

Lemma settled_converges now r :
  Billing.dunning_state r ∈ ladder ->
  settled now (settled now (settled now r)) = settled now (settled now r).
Proof.
  intros Hs. destruct (String.eqb (Billing.status r) "terminated") eqn:Hst.
  { by rewrite !(settled_terminated now r). }
  destruct (Billing.plan_expiry r) as [e |] eqn:He.
  2: { assert (settled now r = r) as Hr by (apply not_candidate_settled; unfold is_candidate; by rewrite He).
       by rewrite !Hr. }
  destruct (settled_fields now r) as [He1 Hst1]. specialize (Hst1 Hst). rewrite He in He1.
  destruct (settled_fields now (settled now r)) as [He2 Hst2]. specialize (Hst2 Hst1). rewrite He1 in He2.
  rewrite (settled_spec now (settled now (settled now r)) e He2 Hst2). cbv zeta.
  rewrite (settled_stage now _ e He1 Hst1), (settled_stage now _ e He Hst).
  pose proof (stage_table_all _ _ _ stage_step_converges (bucket_lt e now) Hs) as Hc. cbv beta zeta in Hc.
  by rewrite Hc.
Qed.

Lemma scan_staged now w : staged (bdb w) -> staged (bdb (Scan now all_up w).2).
Proof.
  intros Hst. destruct (scan_db now w Hst) as [_ Hdb]. rewrite Hdb. intros id r. simpl. rewrite lookup_fmap.
  destruct (Billing.subscribers (bdb w) !! id) as [r0 |] eqn:Hr; [| done]. intros [= <-].
  apply settled_ladder. eauto.
Qed.

(** ** Properties *)

(** A scan whose calls succeed moves every candidate whose stage does not
    match its expiry to the stage [NextDunningState] gives when the ladder
    leads there, setting stage and status together, and leaves every other
    row and every other table as it was; after two scans at an instant a third
    changes nothing. *)
Theorem scan_settles now w :
  staged (bdb w) ->
  (Scan now all_up w).1 = Ok tt /\
  bdb (Scan now all_up w).2 = Billing.with_subscribers (fmap (settled now)) (bdb w) /\
  let w2 := (Scan now all_up (Scan now all_up w).2).2 in
  bdb (Scan now all_up w2).2 = bdb w2.
Proof.
  intros Hst. destruct (scan_db now w Hst) as [Hok Hdb]. split; [done |]. split; [done |]. intros w2.
  pose proof (scan_staged now w Hst) as Hst1. pose proof (scan_staged now _ Hst1) as Hst2. fold w2 in Hst2.
  destruct (scan_db now _ Hst1) as [_ Hdb2]. destruct (scan_db now w2 Hst2) as [_ Hdb3].
  fold w2 in Hdb2. rewrite Hdb3. rewrite Hdb2, Hdb. unfold Billing.with_subscribers. simpl. f_equal.
  apply map_eq. intros id. rewrite !lookup_fmap.
  destruct (Billing.subscribers (bdb w) !! id) as [r |] eqn:Hr; [| done]. simpl. f_equal.
  apply settled_converges. eauto.
Qed.





(** A hard suspended subscriber whose status somebody set to active stays
    served, however long overdue: the scanner compares stages only. *)
Theorem status_by_hand_outlives_scans now w id r e :
  staged (bdb w) -> Billing.subscribers (bdb w) !! id = Some r -> Billing.plan_expiry r = Some e ->
  Billing.dunning_state r = DunningHardSuspended -> e + 6 * day <= now ->
  Billing.subscribers (bdb (Scan now all_up w).2) !! id = Some r.
Proof.
  intros Hst Hr He Hs Hlate. destruct (scan_db now w Hst) as [_ ->]. simpl. rewrite lookup_fmap, Hr. simpl. f_equal.
  destruct (String.eqb (Billing.status r) "terminated") eqn:Hne; [by apply settled_terminated |].
  rewrite (settled_spec now r e He Hne). cbv zeta. rewrite Hs.
  assert (bucket e now = 0%nat) as ->; [| reflexivity].
  unfold bucket. assert (7 * day < max_int64) as Hmax by done. assert (0 < day) as Hday by done.
  replace (time_sub e now <=? - 6 * day) with true; [done |]. unfold time_sub, max_int64 in *. lia.
Qed.

(** [TerminateSubscriber] (internal/db/subscribers.go). *)
Definition terminated (r : Billing.SubscriberRow) : Billing.SubscriberRow :=
  set_dunning (Billing.dunning_state r) "terminated" r.

(** SetSubscriberDunningState is not guarded by the status it overwrites:
    a subscriber terminated after the scanner listed them, and due for a step
    the ladder has, is taken out of 'terminated' by the same scan, into a
    status RADIUS authorises unless the step is hard suspension. *)
Theorem stale_scan_revives_terminated now id r c w :
  let target := NextDunningState (c_State c) (c_PlanExpiry c) now in
  candidate_of now id r = Some c -> Billing.dunning_state r ∈ ladder ->
  String.eqb (c_State c) target = false -> walkable (c_State c) target = true ->
  Billing.subscribers (bdb w) !! id = Some (terminated r) ->
  Billing.subscribers (bdb (scan_one now all_up w c)) !! id =
    Some (set_dunning target (dunningToSubscriberStatus target) r) /\
  (target <> DunningHardSuspended -> Identity.AuthorisesService (dunningToSubscriberStatus target) = true).
Proof.
  intros target Hc Hs Hne Hw Hr. pose proof (candidate_of_Some _ _ _ _ Hc) as (_ & He & Hid & Hst).
  assert (target ∈ ladder) as Ht by apply next_on_ladder.
  split.
  - unfold scan_one. fold target. rewrite String.eqb_sym, Hne, advance_db, Hid.
    rewrite (walk_spec now id (terminated r) (c_PlanExpiry c) 7); try (done || by rewrite Hst).
    + rewrite Hne, Hw. simpl. by rewrite lookup_alter, decide_True, Hr by done.
    + pose proof (forallb_ladder _ _ target distance_bound Hs Ht) as H6. cbv beta in H6.
      apply Nat.leb_le in H6. rewrite Hst. lia.
  - intros Hh. apply existsb_ladder in Ht. clearbody target. unfold ladder in Ht. simpl in Ht.
    rewrite !orb_true_iff, !String.eqb_eq in Ht. destruct Ht as [-> | [-> | [-> | [-> | [-> | [-> | [-> | Ht]]]]]]];
      done.
Qed.

Definition no_dash (c : ascii) : bool := negb (Ascii.eqb c "-").

Lemma stage_text t : t ∈ ladder -> string_forall no_dash t = true /\
  (forall u, stops numeral_char (t +:+ u)) /\ Json.ascii_text t = true.
Proof.
  intros Ht%existsb_ladder. unfold ladder in Ht. simpl in Ht. rewrite !orb_true_iff, !String.eqb_eq in Ht.
  destruct Ht as [-> | [-> | [-> | [-> | [-> | [-> | [-> | Ht]]]]]]]; try done; (split; [done |]); by split.
Qed.

Lemma notice_key_inj id id' t t' e e' :
  t ∈ ladder -> t' ∈ ladder -> DunningNoticeTaskID id t e = DunningNoticeTaskID id' t' e' ->
  id = id' /\ t = t' /\ unix e = unix e'.
Proof.
  intros Ht Ht'. destruct (stage_text t Ht) as (Hd & Hs & _). destruct (stage_text t' Ht') as (Hd' & Hs' & _).
  unfold DunningNoticeTaskID. intros E.
  assert (forall x y : string, ("dunning-" +:+ x = "dunning-" +:+ y)%string -> x = y) as Hpre
    by (intros x y Hxy; by injection Hxy).
  apply Hpre in E. clear Hpre. rewrite <- !(string_app_assoc (format_int _) "-") in E.
  apply (span_inj numeral_char) in E as [E1 E2]; try done;
    [| by rewrite string_forall_app, format_int_chars .. ].
  assert (id = id') as -> by (apply format_int_inj, (app_sep_inj "-" _ _ EmptyString EmptyString eq_refl eq_refl E1)).
  apply (span_inj no_dash) in E2 as [-> E2]; try done. injection E2 as E2.
  split; [done |]. split; [done |]. by apply format_int_inj.
Qed.

(** Moving a subscriber to a stage that has a template queues one notice,
    keyed by subscriber, stage and expiry, unless that notice is on the queue
    already; its handler sends exactly the stage's template and event, the
    username and the days overdue, on the channels the policy gives; and no
    other subscriber, stage or cycle shares the key. *)
Theorem notice_says_stage now c t templateID w d :
  t ∈ ladder -> TemplateForDunningState t = Some templateID ->
  walk maxSteps now all_up (c_SubscriberID c) (c_State c) t (bdb w) = (Ok tt, d) ->
  Json.ascii_text (c_Username c) = true -> Json.in_int64 (c_SubscriberID c) = true ->
  let key := DunningNoticeTaskID (c_SubscriberID c) t (c_PlanExpiry c) in
  let '(r, w') := advance now all_up c t w in
  r = Ok tt /\ bdb w' = d /\
  (if Jobqueue.id_taken key (tasks w) then Jobqueue.rows (tasks w') = Jobqueue.rows (tasks w)
   else exists row, Jobqueue.rows (tasks w') = <[Jobqueue.next_id (tasks w) := row]> (Jobqueue.rows (tasks w)) /\
     Jobqueue.task_id row = Some key /\
     forall send policy, process_notice (Some send) policy (Jobqueue.row_payload row) =
       if send (MkMessage (c_SubscriberID c) templateID ("dunning_" +:+ t)
                 [c_Username c; format_int (days_overdue now (c_PlanExpiry c))] (channelsFor policy t))
       then Jobqueue.Succeeded else Jobqueue.Failed "dispatch" false) /\
  (forall id' t' e', t' ∈ ladder -> DunningNoticeTaskID id' t' e' = key ->
     id' = c_SubscriberID c /\ t' = t /\ unix e' = unix (c_PlanExpiry c)).
Proof.
  intros Ht Htpl Hwalk Hu Hid key.
  assert (forall id' t' e', t' ∈ ladder -> DunningNoticeTaskID id' t' e' = key ->
    id' = c_SubscriberID c /\ t' = t /\ unix e' = unix (c_PlanExpiry c)) as Hinj
    by (intros ? ? ? Ht' E; by apply notice_key_inj).
  destruct (stage_text t Ht) as (_ & _ & Hta). unfold advance. rewrite Hwalk, Htpl. cbn [negb client all_up enqueue_up].
  unfold Jobqueue.EnqueueContext. cbn [negb].
  assert (Jobqueue.o_taskID (Jobqueue.apply_options [] (Jobqueue.opts (notice_task c t templateID now))) = key)
    as Hkey by reflexivity.
  rewrite Hkey. replace (String.eqb key EmptyString) with false by done. cbn [negb andb].
  destruct (Jobqueue.id_taken key (tasks w)); (split; [done |]); (split; [done |]); (split; [| done]).
  - done.
  - eexists. split; [reflexivity |]. split; [reflexivity |]. intros send policy. unfold process_notice.
    change (Jobqueue.row_payload _) with (bytes_of_string (marshal_notice (MkNotice (c_SubscriberID c)
      (c_Username c) t templateID (days_overdue now (c_PlanExpiry c))))).
    assert (Json.ascii_text templateID = true) as Htp.
    { clear -Htpl. unfold TemplateForDunningState in Htpl. repeat case_match; simplify_eq; done. }
    assert (Json.in_int64 (days_overdue now (c_PlanExpiry c)) = true) as Hdays.
    { unfold days_overdue. set (u := time_sub _ _). assert (- 2 ^ 63 <= u <= max_int64) as Hu2.
      { subst u. unfold time_sub, max_int64. lia. }
      assert (0 < day) as Hday by done.
      unfold Json.in_int64. unfold max_int64 in *.
      assert (Z.quot u day <= 2 ^ 63 - 1) as Hle by (destruct (Z.leb_spec 0 u) as [H0 | H0];
        [rewrite Z.quot_div_nonneg by lia; apply Z.div_le_upper_bound; nia
        | pose proof (Z.quot_opp_l u day ltac:(lia)) as Ho; pose proof (Z.quot_pos (- u) day ltac:(lia) ltac:(lia)); lia]).
      lia. }
    unfold marshal_notice. rewrite Json.unmarshal_marshal by by repeat constructor. done.
Qed.

(** ** Examples *)

Definition demo_world : world := MkWorld Billing.demo_db (Jobqueue.MkTable ∅ 1).

Lemma demo_staged : staged (bdb demo_world).
Proof.
  intros id r Hr. change (({[1 := Billing.demo_subscriber]} : gmap Z Billing.SubscriberRow) !! id = Some r) in Hr.
  apply lookup_singleton_Some in Hr as [_ <-]. apply existsb_ladder. reflexivity.
Qed.

Definition demo_candidate : Candidate :=
  MkCandidate 1 "asha" "+919800000001" DunningGracePeriod 0.


Lemma scan_settles_witness :
  Billing.subscribers (bdb (Scan (8 * day) all_up demo_world).2) !! 1 =
    Some (set_dunning DunningHardSuspended "hard_suspended" Billing.demo_subscriber).
Proof.
  destruct (scan_settles (8 * day) demo_world demo_staged) as (_ & Hdb & _).
  rewrite Hdb. vm_compute. reflexivity.
Defined.


Lemma stale_scan_revives_terminated_witness :
  Identity.AuthorisesService "terminated" = false /\
  Billing.subscribers (bdb (scan_one (4 * day) all_up
    (MkWorld (update terminated 1 Billing.demo_db) (Jobqueue.MkTable ∅ 1)) demo_candidate)) !! 1 =
    Some (set_dunning DunningSoftSuspended "soft_suspended" Billing.demo_subscriber).
Proof.
  split; [reflexivity |].
  exact (proj1 (stale_scan_revives_terminated (4 * day) 1 Billing.demo_subscriber demo_candidate
    (MkWorld (update terminated 1 Billing.demo_db) (Jobqueue.MkTable ∅ 1))
    eq_refl (demo_staged 1 Billing.demo_subscriber eq_refl) eq_refl eq_refl eq_refl)).
Defined.

Lemma notice_says_stage_witness :
  exists row, Jobqueue.rows (tasks (advance (8 * day) all_up demo_candidate DunningHardSuspended demo_world).2) =
    <[1 := row]> ∅ /\
  Jobqueue.task_id row = Some "dunning-1-hard_suspended-0"%string.
Proof.
  assert (DunningHardSuspended ∈ ladder) as Ht by (apply existsb_ladder; reflexivity).
  assert (exists d, walk maxSteps (8 * day) all_up 1 DunningGracePeriod DunningHardSuspended Billing.demo_db =
    (Ok tt, d)) as [d Hd] by (eexists; vm_compute; reflexivity).
  pose proof (notice_says_stage (8 * day) demo_candidate DunningHardSuspended TemplateHardSuspended demo_world d
    Ht eq_refl Hd eq_refl eq_refl) as Hn. cbv zeta in Hn.
  destruct (advance _ _ _ _ _) as [x w']. destruct Hn as (_ & _ & (row & Hrow & Hid & _) & _).
  exists row. split; [exact Hrow |]. exact Hid.
Defined.

End Dunning.
