(* ===== verification/Renewal.v ===== *)
(** * Renewals: the recurring-billing scanner and the portal's renewal

    internal/billing/recurring_billing_scanner.go with its statements in
    internal/db/billing.go, and the portal path: [RenewalCallback]
    (internal/portal/portal.go), [ApplyRenewal], [extendPlanExpiry] and
    [createRenewalInvoice] (cmd/api/main.go). Calendar days are 24 hours: the
    server's zone has no daylight saving; [zone] is its offset in seconds.
    The franchise settlement [ApplyRenewal] ends with touches other tables and
    is left out (no franchise store configured). *)

From S2P Require Import Prelude GoStrings Dates Json Identity Jobqueue Decimal Gst Billing Dunning.
From Stdlib Require Import Ascii QArith.

Local Open Scope Z_scope.

Module Renewal.

(** ** Dates *)

(** [AddDate(0, 0, n)] *)
Definition add_days (t n : Z) : Z := t + n * Dunning.day.

Definition pad (width : nat) (z : Z) : string :=
  let s := format_int z in zeros (width - String.length s) +:+ s.

(** [Format("2006-01-02")] *)
Definition format_date (zone t : Z) : string :=
  let '(y, m, d) := Dates.civil ((Dunning.unix t + zone) / 86400) in
  pad 4 y +:+ "-" +:+ pad 2 m +:+ "-" +:+ pad 2 d.

(** ** The store (db/billing.go, db/subscribers.go) *)

Definition StatusPendingPayment : string := "pending_payment".
Definition StatusActive : string := "active".

Inductive error : Type :=
| ErrNotFound | ErrQuery | ErrConstraint
| ErrPrice | ErrDebit (e : Billing.error) | ErrActivate | ErrExtend.

Definition set_expiry (expiry : Z) (r : Billing.SubscriberRow) : Billing.SubscriberRow :=
  Billing.MkSubscriber (Billing.username r) (Billing.mobile_number r) (Billing.franchise_id r)
    (Billing.registered_state r) (Billing.status r) (Billing.dunning_state r) (Billing.wallet_balance r)
    (Billing.plan_id r) (Some expiry).

Definition activated (expiry : Z) (r : Billing.SubscriberRow) : Billing.SubscriberRow :=
  Billing.MkSubscriber (Billing.username r) (Billing.mobile_number r) (Billing.franchise_id r)
    (Billing.registered_state r) StatusActive (Billing.dunning_state r) (Billing.wallet_balance r)
    (Billing.plan_id r) (Some expiry).

(** An update that matches no row is not an error here. *)
Definition SetPlanExpiry (up : bool) (id expiry : Z) (d : Billing.DB) : result error unit * Billing.DB :=
  if negb up then (Err ErrQuery, d) else (Ok tt, Dunning.update (set_expiry expiry) id d).

Definition ActivateSubscriber (up : bool) (id expiry : Z) (d : Billing.DB) : result error unit * Billing.DB :=
  if negb up then (Err ErrQuery, d)
  else match Billing.subscribers d !! id with
       | Some r => if String.eqb (Billing.status r) StatusPendingPayment
                   then (Ok tt, Dunning.update (activated expiry) id d)
                   else (Err ErrNotFound, d)
       | None => (Err ErrNotFound, d)
       end.

Section Renewals.
Context `{Decimal}.
Variable zone : Z.

(** [ORDER BY effective_from DESC LIMIT 1] *)
Definition later_rate (a b : Billing.GstRow) : bool :=
  Billing.gr_effective_from b <=? Billing.gr_effective_from a.

Definition GetActiveGstRate (now : Z) (up : bool) (d : Billing.DB) : result error Gst.GstRate :=
  if negb up then Err ErrQuery
  else match min_by later_rate
               (List.filter (fun g => Billing.gr_effective_from g <=? now) (Billing.gst_rates d)) with
       | None => Err ErrNotFound
       | Some g => Ok (Gst.MkRate (Billing.gr_id g) (of_paise (Billing.gr_cgst g))
                         (of_paise (Billing.gr_sgst g)) (of_paise (Billing.gr_igst g)))
       end.

(** chk_gst_logic *)
Definition gst_logic (cgst igst : Z) : bool :=
  ((0 <? cgst) && (igst =? 0)) || ((0 <? igst) && (cgst =? 0)) || ((cgst =? 0) && (igst =? 0)).

Definition CreateInvoice (now : Z) (up : bool) (inv : Gst.Invoice) (d : Billing.DB) :
    result error Z * Billing.DB :=
  if negb up then (Err ErrQuery, d)
  else
    let id := Billing.next_invoice d in
    let d := Billing.with_invoices (fun l => l) (id + 1) d in
    match numeric 12 (Gst.BaseAmount inv), numeric 12 (Gst.CgstAmount inv), numeric 12 (Gst.SgstAmount inv),
          numeric 12 (Gst.IgstAmount inv), numeric 12 (Gst.TotalAmount inv), numeric 10 (Gst.GbUsed inv) with
    | Some base, Some cgst, Some sgst, Some igst, Some total, Some used =>
        if gst_logic cgst igst && bool_decide (is_Some (Billing.subscribers d !! Gst.inv_SubscriberID inv)) &&
           existsb (fun g => Billing.gr_id g =? Gst.GstRateID inv) (Billing.gst_rates d)
        then (Ok id, Billing.with_invoices (fun l => l ++ [Billing.MkInvoiceRow id (Gst.inv_SubscriberID inv)
                base cgst sgst igst total (Gst.GstRateID inv) (Gst.GbIncluded inv) used now]) (id + 1) d)
        else (Err ErrConstraint, d)
    | _, _, _, _, _, _ => (Err ErrConstraint, d)
    end.

(** ** The recurring-billing scanner *)

Record RenewalCandidate : Type := MkCandidate {
  rc_SubscriberID : Z;
  rc_Username : string;
  rc_FranchiseID : option Z;
  rc_RegisteredState : string;
  rc_PlanName : string;
  rc_PlanPrice : dec;
  rc_PlanValidityDays : Z;
  rc_PlanVolumeGB : Z;
  rc_PlanExpiry : option Z;
  rc_DunningState : string;
  rc_Status : string
}.

Definition renewable (now : Z) (r : Billing.SubscriberRow) (p : Billing.PlanRow) : bool :=
  negb (String.eqb (Billing.status r) "terminated") && (Billing.price p <=? Billing.wallet_balance r) &&
  match Billing.plan_expiry r with
  | Some e => e <=? now
  | None => String.eqb (Billing.status r) StatusPendingPayment
  end.

Definition candidate_of (now id : Z) (r : Billing.SubscriberRow) (d : Billing.DB) : option RenewalCandidate :=
  p ← Billing.plans d !! Billing.plan_id r;
  if renewable now r p
  then Some (MkCandidate id (Billing.username r) (Billing.franchise_id r) (Billing.registered_state r)
         (Billing.p_name p) (of_paise (Billing.price p)) (Billing.validity_days p) (Billing.volume_gb p)
         (Billing.plan_expiry r) (Billing.dunning_state r) (Billing.status r))
  else None.

Definition ListRenewalCandidates (now : Z) (up : bool) (d : Billing.DB) : result error (list RenewalCandidate) :=
  if negb up then Err ErrQuery
  else Ok (omap (fun p => candidate_of now p.1 p.2 d) (map_to_list (Billing.subscribers d))).

Definition TaskTypeServiceRestored : string := "notif:service_restored".

Record world : Type := MkWorld {
  bdb : Billing.DB;
  tasks : Jobqueue.table;
  emitted : list (string * Z)
}.

(** Which of the scan's calls can be executed; [has_tasks] and [has_events]:
    a queue and an emitter are configured. *)
Record Env : Type := MkEnv {
  list_up : bool;
  rate_up : bool;
  wallet_env : Billing.WalletEnv;
  activate_up : bool;
  extend_up : bool;
  invoice_up : bool;
  get_up : bool;
  set_up : bool;
  notice_up : bool;
  has_tasks : bool;
  has_events : bool
}.

Definition all_up : Env := MkEnv true true Billing.all_up true true true true true true true true.

(** The counter [autorenewalTotal]'s label. *)
Inductive outcome : Type := Renewed | InsufficientBalance | Failed (e : error).

Definition buildInvoice (now : Z) (e : Env) (c : RenewalCandidate) (d : Billing.DB) : result error Gst.Invoice :=
  match GetActiveGstRate now (rate_up e) d with
  | Err x => Err x
  | Ok rate =>
      let inv := Gst.CalculateGstInvoice (rc_PlanPrice c) (rc_RegisteredState c) rate in
      Ok (Gst.MkInvoice (rc_SubscriberID c) (Gst.BaseAmount inv) (Gst.CgstAmount inv) (Gst.SgstAmount inv)
            (Gst.IgstAmount inv) (Gst.TotalAmount inv) (Gst.GstRateID inv) (rc_PlanVolumeGB c) (NewFromInt 0))
  end.

Definition charge (c : RenewalCandidate) (inv : Gst.Invoice) : Billing.PostRequest :=
  Billing.MkPost (rc_SubscriberID c) (rc_FranchiseID c) (Gst.TotalAmount inv) "debit"
    Billing.AccountRevenueClearing EmptyString EmptyString ("auto-renewal: " +:+ rc_PlanName c)
    (Add (Add (Gst.CgstAmount inv) (Gst.SgstAmount inv)) (Gst.IgstAmount inv)).

Definition next_expiry (now : Z) (c : RenewalCandidate) : Z :=
  let base := match rc_PlanExpiry c with
              | Some e => if now <? e then e else now
              | None => now
              end in
  add_days base (rc_PlanValidityDays c).

Definition persistInvoice (now : Z) (e : Env) (inv : Gst.Invoice) (w : world) : world :=
  match CreateInvoice now (invoice_up e) inv (bdb w) with
  | (Err _, d) => MkWorld d (tasks w) (emitted w)
  | (Ok id, d) => MkWorld d (tasks w)
                    (if has_events e then emitted w ++ [("invoice.generated"%string, id)] else emitted w)
  end.

Definition wasCutOff (state : string) : bool :=
  String.eqb state Dunning.DunningSoftSuspended || String.eqb state Dunning.DunningHardSuspended.

Definition restored_task (c : RenewalCandidate) (newExpiry : Z) : Jobqueue.Task :=
  Jobqueue.NewTask TaskTypeServiceRestored
    (bytes_of_string (Dunning.marshal_restored (Dunning.MkRestored (rc_SubscriberID c) (rc_Username c)
       (rc_PlanName c) (format_date zone newExpiry))))
    [Jobqueue.Queue Dunning.QueueNotifications;
     Jobqueue.TaskID ("restored-" +:+ format_int (rc_SubscriberID c) +:+ "-" +:+
                      format_int (Dunning.unix newExpiry));
     Jobqueue.MaxRetry 3; Jobqueue.Retention (24 * Dunning.hour)].

(** Failures are logged and swallowed. *)
Definition enqueueRestorationNotice (now : Z) (e : Env) (c : RenewalCandidate) (newExpiry : Z) (w : world) :
    world :=
  if negb (has_tasks e) then w
  else MkWorld (bdb w)
         (Jobqueue.EnqueueContext now (notice_up e) (restored_task c newExpiry) [] (tasks w)).2 (emitted w).

Definition with_db (d : Billing.DB) (w : world) : world := MkWorld d (tasks w) (emitted w).

(** The dunning restore [renew] ends with. *)
Definition restore (now : Z) (e : Env) (c : RenewalCandidate) (newExpiry : Z) (w : world) : world :=
  if String.eqb (rc_DunningState c) Dunning.DunningActive then w
  else match Dunning.TransitionDunning now (get_up e) (set_up e) (rc_SubscriberID c) Dunning.DunningActive
               (bdb w) with
       | (Err _, d) => with_db d w
       | (Ok _, d) =>
           if wasCutOff (rc_DunningState c)
           then enqueueRestorationNotice now e c newExpiry (with_db d w) else with_db d w
       end.

Definition extend (e : Env) (c : RenewalCandidate) (newExpiry : Z) (d : Billing.DB) :
    result error unit * Billing.DB :=
  if String.eqb (rc_Status c) StatusPendingPayment
  then match ActivateSubscriber (activate_up e) (rc_SubscriberID c) newExpiry d with
       | (Err _, d) => (Err ErrActivate, d) | r => r end
  else match SetPlanExpiry (extend_up e) (rc_SubscriberID c) newExpiry d with
       | (Err _, d) => (Err ErrExtend, d) | r => r end.

Definition renew (now : Z) (e : Env) (c : RenewalCandidate) (w : world) : outcome * world :=
  match buildInvoice now e c (bdb w) with
  | Err _ => (Failed ErrPrice, w)
  | Ok inv =>
      match Billing.Post now (wallet_env e) (charge c inv) (bdb w) with
      | (Err Billing.ErrInsufficientBalance, d) => (InsufficientBalance, with_db d w)
      | (Err x, d) => (Failed (ErrDebit x), with_db d w)
      | (Ok _, d) =>
          let newExpiry := next_expiry now c in
          match extend e c newExpiry d with
          | (Err x, d) => (Failed x, with_db d w)
          | (Ok _, d) =>
              (Renewed, restore now e c newExpiry (persistInvoice now e inv (with_db d w)))
          end
      end
  end.

Definition Scan (now : Z) (e : Env) (w : world) : result error (list outcome) * world :=
  match ListRenewalCandidates now (list_up e) (bdb w) with
  | Err x => (Err x, w)
  | Ok l =>
      let '(os, w) := foldl (fun '(os, w) c => let '(o, w) := renew now e c w in (os ++ [o], w)) ([], w) l in
      (Ok os, w)
  end.

(** ** The portal's renewal *)

Definition GetPlanRenewalInfo (up : bool) (id : Z) (d : Billing.DB) : result error (Z * option Z) :=
  if negb up then Err ErrQuery
  else match Billing.subscribers d !! id with
       | None => Err ErrNotFound
       | Some r => match Billing.plans d !! Billing.plan_id r with
                   | None => Err ErrNotFound
                   | Some p => Ok (Billing.validity_days p, Billing.plan_expiry r)
                   end
       end.

Definition GetInvoiceInputs (up : bool) (id : Z) (d : Billing.DB) : result error (string * Z) :=
  if negb up then Err ErrQuery
  else match Billing.subscribers d !! id with
       | None => Err ErrNotFound
       | Some r => match Billing.plans d !! Billing.plan_id r with
                   | None => Err ErrNotFound
                   | Some p => Ok (Billing.registered_state r, Billing.volume_gb p)
                   end
       end.

Record PortalEnv : Type := MkPortalEnv {
  p_wallet : Billing.WalletEnv;
  info_up : bool;
  p_extend_up : bool;
  inputs_up : bool;
  p_rate_up : bool;
  p_invoice_up : bool;
  has_expiry : bool;
  has_invoicing : bool
}.

Definition portal_up : PortalEnv := MkPortalEnv Billing.all_up true true true true true true true.

Definition extendPlanExpiry (now : Z) (e : PortalEnv) (id : Z) (d : Billing.DB) :
    result error unit * Billing.DB :=
  match GetPlanRenewalInfo (info_up e) id d with
  | Err x => (Err x, d)
  | Ok (validityDays, currentExpiry) =>
      let base := match currentExpiry with Some c => if now <? c then c else now | None => now end in
      SetPlanExpiry (p_extend_up e) id (add_days base validityDays) d
  end.

Definition createRenewalInvoice (now : Z) (e : PortalEnv) (id : Z) (amount : dec) (d : Billing.DB) :
    result error unit * Billing.DB :=
  match GetInvoiceInputs (inputs_up e) id d with
  | Err x => (Err x, d)
  | Ok (registeredState, planVolumeGB) =>
      match GetActiveGstRate now (p_rate_up e) d with
      | Err x => (Err x, d)
      | Ok rate =>
          let inv := Gst.CalculateGstInvoice amount registeredState rate in
          match CreateInvoice now (p_invoice_up e)
                  (Gst.MkInvoice id (Gst.BaseAmount inv) (Gst.CgstAmount inv) (Gst.SgstAmount inv)
                     (Gst.IgstAmount inv) (Gst.TotalAmount inv) (Gst.GstRateID inv) planVolumeGB
                     (NewFromInt 0)) d with
          | (Ok _, d) => (Ok tt, d)
          | (Err x, d) => (Err x, d)
          end
      end
  end.

(** The failures after the credit are logged. *)
Definition ApplyRenewal (now : Z) (e : PortalEnv) (id : Z) (amount : dec) (paymentID : string) (d : Billing.DB) :
    result Billing.error (Z * dec) * Billing.DB :=
  match Billing.Recharge now (p_wallet e)
          (Billing.MkRecharge id amount paymentID None "portal one-tap renewal") d with
  | (Err x, d) => (Err x, d)
  | (Ok tx, d) =>
      let d := if has_expiry e then (extendPlanExpiry now e id d).2 else d in
      let d := if has_invoicing e then (createRenewalInvoice now e id amount d).2 else d in
      (Ok (Billing.tx_ID tx, Billing.tx_BalanceAfter tx), d)
  end.

(** The decoded body: [None] is a body that does not decode; an amount that is
    not a decimal is [None]. *)
Record CallbackRequest : Type := MkCallback { PaymentID : string; cb_Amount : option dec }.

Inductive response : Type :=
| StatusOK (transaction : Z) (balance : dec)
| StatusUnauthorized | StatusBadRequest | StatusUnprocessable | StatusUnavailable | StatusInternal.

Definition RenewalCallback (now : Z) (e : PortalEnv) (configured : bool) (subID : Z)
    (body : option CallbackRequest) (d : Billing.DB) : response * Billing.DB :=
  if subID =? 0 then (StatusUnauthorized, d)
  else match body with
       | None => (StatusBadRequest, d)
       | Some req =>
           if String.eqb (PaymentID req) EmptyString then (StatusUnprocessable, d)
           else match cb_Amount req with
                | None => (StatusUnprocessable, d)
                | Some amount =>
                    if less_eq amount (NewFromInt 0) then (StatusUnprocessable, d)
                    else if negb configured then (StatusUnavailable, d)
                    else match ApplyRenewal now e subID amount (PaymentID req) d with
                         | (Err _, d) => (StatusInternal, d)
                         | (Ok (id, balance), d) => (StatusOK id balance, d)
                         end
                end
       end.

End Renewals.

(** ** Lemmas on the store *)


Section Store.
Context `{DecimalLaws}.

(** The rate columns, in hundredths of a percent, of the row a rate was read
    from. *)
Record rate_columns (d : Billing.DB) (rate : Gst.GstRate) (c s i : Z) : Prop := {
  rc_cgst : is_paise (Gst.CgstRate rate) c;
  rc_sgst : is_paise (Gst.SgstRate rate) s;
  rc_igst : is_paise (Gst.IgstRate rate) i;
  rc_row : existsb (fun g => Billing.gr_id g =? Gst.rate_ID rate) (Billing.gst_rates d) = true
}.

Lemma GetActiveGstRate_columns now up d rate :
  GetActiveGstRate now up d = Ok rate ->
  exists g, g ∈ Billing.gst_rates d /\ Billing.gr_effective_from g <= now /\
    (forall g', g' ∈ Billing.gst_rates d -> Billing.gr_effective_from g' <= now ->
       Billing.gr_effective_from g' <= Billing.gr_effective_from g) /\
    rate_columns d rate (Billing.gr_cgst g) (Billing.gr_sgst g) (Billing.gr_igst g).
Proof.
  unfold GetActiveGstRate. destruct up; [| done]. cbn [negb].
  pose proof (min_by_spec later_rate) as Hmin.
  specialize (Hmin ltac:(intros; unfold later_rate; lia) ltac:(unfold later_rate; lia) ltac:(unfold later_rate; lia)
    (List.filter (fun g => Billing.gr_effective_from g <=? now) (Billing.gst_rates d))).
  destruct (min_by later_rate _) as [g |]; [| done]. intros [= <-].
  destruct Hmin as [Hg Hmin]. apply elem_of_filterb in Hg as [Hg Hnow]. exists g. split_and!; try done.
  - lia.
  - intros g' Hg' Hnow'. specialize (Hmin g'). unfold later_rate in Hmin.
    apply Z.leb_le, Hmin, elem_of_filterb. split; [done | lia].
  - split; simpl; try apply paise_of. apply existsb_exists. exists g. split; [by apply list_elem_of_In | lia].
Qed.

Lemma CreateInvoice_run now inv d base cg sg ig total :
  is_paise (Gst.BaseAmount inv) base -> is_paise (Gst.CgstAmount inv) cg -> is_paise (Gst.SgstAmount inv) sg ->
  is_paise (Gst.IgstAmount inv) ig -> is_paise (Gst.TotalAmount inv) total ->
  is_paise (Gst.GbUsed inv) 0 ->
  0 <= base <= total -> 0 <= cg <= total -> 0 <= sg <= total -> 0 <= ig <= total -> total < 10 ^ 12 ->
  cg = 0 \/ ig = 0 ->
  is_Some (Billing.subscribers d !! Gst.inv_SubscriberID inv) ->
  existsb (fun g => Billing.gr_id g =? Gst.GstRateID inv) (Billing.gst_rates d) = true ->
  CreateInvoice now true inv d =
    (Ok (Billing.next_invoice d),
     Billing.with_invoices (fun l => l ++ [Billing.MkInvoiceRow (Billing.next_invoice d)
       (Gst.inv_SubscriberID inv) base cg sg ig total (Gst.GstRateID inv) (Gst.GbIncluded inv) 0 now])
       (Billing.next_invoice d + 1) d).
Proof.
  intros Hb Hc Hs Hi Ht Hu ? ? ? ? ? Hlogic Hsub Hrate. unfold CreateInvoice. cbn [negb].
  assert (forall z dd, is_paise dd z -> 0 <= z <= total -> numeric 12 dd = Some z) as Hnum
    by (intros z dd Hd Hz; apply numeric_paise; [lia | done | lia]).
  rewrite (Hnum base), (Hnum cg), (Hnum sg), (Hnum ig), (Hnum total) by (done || lia).
  rewrite (numeric_paise 10 _ 0) by done.
  replace (gst_logic cg ig) with true by (unfold gst_logic; lia).
  cbn [Billing.with_invoices Billing.subscribers Billing.gst_rates andb].
  rewrite bool_decide_true by done. rewrite Hrate. done.
Qed.

End Store.

(** ** One renewal *)

Section Renew.
Context `{DecimalLaws}.
Variable zone : Z.

(** The taxes of a renewal at [price], in hundredths. *)
Definition taxes (state : string) (price c s i : Z) : Z * Z * Z :=
  if Gst.intrastate state Gst.DefaultHomeState then (Gst.tax price c, Gst.tax price s, 0)
  else (0, 0, Gst.tax price i).


Lemma due_candidate_Some now id r d c :
  candidate_of now id r d = Some c ->
  exists p, Billing.plans d !! Billing.plan_id r = Some p /\ renewable now r p = true /\
    c = MkCandidate id (Billing.username r) (Billing.franchise_id r) (Billing.registered_state r)
          (Billing.p_name p) (of_paise (Billing.price p)) (Billing.validity_days p) (Billing.volume_gb p)
          (Billing.plan_expiry r) (Billing.dunning_state r) (Billing.status r).
Proof.
  unfold candidate_of. destruct (Billing.plans d !! Billing.plan_id r) as [p |]; simpl; [| done].
  destruct (renewable now r p) eqn:Hr; [| done]. intros [= <-]. eauto.
Qed.


(** The invoice of a candidate, and the request that charges it. *)
Lemma buildInvoice_paise now c w rate p st cr sr ir :
  GetActiveGstRate now true (bdb w) = Ok rate -> rate_columns (bdb w) rate cr sr ir ->
  rc_PlanPrice c = of_paise p -> rc_RegisteredState c = st ->
  let '(cg, sg, ig) := taxes st p cr sr ir in
  exists inv, buildInvoice now all_up c (bdb w) = Ok inv /\
    Gst.inv_SubscriberID inv = rc_SubscriberID c /\ Gst.GbIncluded inv = rc_PlanVolumeGB c /\
    Gst.GstRateID inv = Gst.rate_ID rate /\ is_paise (Gst.GbUsed inv) 0 /\
    is_paise (Gst.BaseAmount inv) p /\ is_paise (Gst.CgstAmount inv) cg /\ is_paise (Gst.SgstAmount inv) sg /\
    is_paise (Gst.IgstAmount inv) ig /\ is_paise (Gst.TotalAmount inv) (p + cg + sg + ig) /\
    is_paise (Billing.pr_TaxAmount (charge c inv)) (cg + sg + ig).
Proof.
  intros Hrate [Hc Hs Hi _] Hp <-.
  pose proof (Gst.invoice_paise (rc_PlanPrice c) p rate cr sr ir (rc_RegisteredState c) Gst.DefaultHomeState
    ltac:(rewrite Hp; apply paise_of) Hc Hs Hi) as Hinv. cbv zeta in Hinv.
  unfold buildInvoice. cbn [rate_up all_up]. rewrite Hrate. unfold Gst.CalculateGstInvoice.
  set (inv0 := Gst.CalculateGstInvoiceFrom _ _ _ _) in *. clearbody inv0.
  destruct Hinv as (Hbase & Hid & H1 & H2 & H3 & H4). unfold taxes.
  destruct (Gst.intrastate _ _); (eexists; split; [reflexivity |]);
    cbn [Gst.inv_SubscriberID Gst.GbIncluded Gst.GstRateID Gst.GbUsed Gst.BaseAmount Gst.CgstAmount
         Gst.SgstAmount Gst.IgstAmount Gst.TotalAmount charge Billing.pr_TaxAmount];
    (split_and!; try done; [apply paise_zero | rewrite Hbase, Hp; apply paise_of |
       repeat apply paise_add; done]).
Qed.

Lemma taxes_nonneg st p c s i :
  0 <= p -> 0 <= c -> 0 <= s -> 0 <= i ->
  let '(cg, sg, ig) := taxes st p c s i in 0 <= cg /\ 0 <= sg /\ 0 <= ig /\ (cg = 0 \/ ig = 0).
Proof.
  intros. unfold taxes. destruct (Gst.intrastate _ _); split_and!; try lia;
    try (unfold Gst.tax; apply Gst.half_away_nonneg; nia); auto.
Qed.



(** What a renewal at [now] needs: sound books, a charted ledger, a listed
    candidate on the ladder, a rate in force, and a balance that covers the
    taxed total. *)
Definition total_of (t : Z * Z * Z) (price : Z) : Z := let '(cg, sg, ig) := t in price + cg + sg + ig.

Record ready (now id : Z) (r : Billing.SubscriberRow) (p : Billing.PlanRow) (c : RenewalCandidate)
    (rate : Gst.GstRate) (t : Z * Z * Z) (d : Billing.DB) : Prop := {
  rd_books : Billing.books d;
  rd_charted : Billing.charted d;
  rd_row : Billing.subscribers d !! id = Some r;
  rd_plan : Billing.plans d !! Billing.plan_id r = Some p;
  rd_candidate : candidate_of now id r d = Some c;
  rd_ladder : Billing.dunning_state r ∈ Dunning.ladder;
  rd_rate : GetActiveGstRate now true d = Ok rate;
  rd_columns : exists cr sr ir, rate_columns d rate cr sr ir /\ 0 <= cr /\ 0 <= sr /\ 0 <= ir /\
    t = taxes (Billing.registered_state r) (Billing.price p) cr sr ir;
  rd_price : 0 < Billing.price p;
  rd_days : 0 < Billing.validity_days p;
  rd_balance : total_of t (Billing.price p) <= Billing.wallet_balance r < 10 ^ 12;
  rd_franchise : Billing.franchise_ok (Billing.franchise_id r) d = true
}.





(** The same calls, but the extension cannot be written. *)
Definition no_extend : Env :=
  MkEnv true true Billing.all_up true false true true true true true true.

(** The debit carries no idempotency token: when the wallet has been
    debited and the expiry cannot be written, the renewal fails with the money
    taken, no invoice stored and the expiry as it was, so that the subscriber
    is listed again, with the same cycle to pay, while the balance covers the
    price. *)
Theorem failed_extension_keeps_the_charge now id r p c rate t w :
  ready now id r p c rate t (bdb w) -> Billing.status r <> StatusPendingPayment ->
  let total := total_of t (Billing.price p) in
  let r' := Billing.set_balance (Billing.wallet_balance r - total) r in
  exists w', renew zone now no_extend c w = (Failed ErrExtend, w') /\ 0 < total /\
    Billing.subscribers (bdb w') = <[id := r']> (Billing.subscribers (bdb w)) /\
    Billing.plan_expiry r' = Billing.plan_expiry r /\
    Billing.invoices (bdb w') = Billing.invoices (bdb w) /\
    (Billing.price p <= Billing.wallet_balance r' -> candidate_of now id r' (bdb w') = Some c).
Proof.
  intros [Hbk Hch Hr Hp Hc Hl Hrate (cr & sr & ir & Hcols & ? & ? & ? & Ht) Hprice Hdays Hbal Hfr] Hst total r'.
  pose proof (due_candidate_Some _ _ _ _ _ Hc) as (p' & Hp' & Hren & Hcc). assert (p' = p) as -> by congruence.
  pose proof (buildInvoice_paise now c w rate (Billing.price p) (Billing.registered_state r) cr sr ir Hrate Hcols)
    as Hinv.
  pose proof (taxes_nonneg (Billing.registered_state r) (Billing.price p) cr sr ir) as Hnn.
  rewrite <- Ht in Hinv, Hnn. clear Ht. subst r' total. destruct t as [[cg sg] ig]. cbn [total_of] in *.
  destruct Hinv as (inv & Hb & _ & _ & _ & _ & _ & _ & _ & _ & Htot & Htaxa);
    [by rewrite Hcc | by rewrite Hcc |].
  destruct Hnn as (Hcg0 & Hsg0 & Hig0 & _); [lia .. |].
  set (total := Billing.price p + cg + sg + ig) in *. set (d := bdb w) in *.
  destruct (Billing.Post_charge_run now (charge c inv) total (cg + sg + ig) d r) as
    (tx & d1 & Hpost & Hsubs & Hplans & _ & _ & Hinvs & _); try done;
    [lia | by rewrite Hcc | by rewrite Hcc |].
  cbn [Billing.pr_SubscriberID charge] in Hsubs. replace (rc_SubscriberID c) with id in Hsubs by by rewrite Hcc.
  unfold renew. fold d.
  assert (buildInvoice now no_extend c d = Ok inv) as -> by exact Hb.
  cbn [wallet_env no_extend]. rewrite Hpost. unfold extend. replace (rc_Status c) with (Billing.status r) by by rewrite Hcc.
  rewrite (proj2 (String.eqb_neq _ _) Hst). unfold SetPlanExpiry. cbn [extend_up no_extend negb].
  eexists. split; [reflexivity |]. cbn [bdb with_db]. split_and!; try done; [lia | |].
  - rewrite Hsubs. apply map_eq. intros i. rewrite lookup_insert, lookup_alter. case_decide as Hi'; [| done].
    subst i. by rewrite Hr.
  - intros Hcov. unfold candidate_of. simpl. rewrite Hplans, Hp. simpl.
    assert (renewable now (Billing.set_balance (Billing.wallet_balance r - total) r) p = true) as ->;
      [| by rewrite Hcc].
    unfold renewable in *. simpl in *. rewrite !andb_true_iff in Hren |- *. split; [split; [tauto | lia] | tauto].
Qed.

(** ** The portal's renewal *)

(** What follows the credit: the extension and the invoice. *)
Definition after_credit (now id : Z) (amount : dec) (d : Billing.DB) : Billing.DB :=
  (createRenewalInvoice now portal_up id amount (extendPlanExpiry now portal_up id d).2).2.

(** The expiry a portal renewal sets. *)
Definition portal_expiry (now days : Z) (r : Billing.SubscriberRow) : Z :=
  add_days (match Billing.plan_expiry r with Some e => if now <? e then e else now | None => now end) days.

Lemma after_credit_run now id amount n r p rate cr sr ir d :
  Billing.subscribers d !! id = Some r -> Billing.plans d !! Billing.plan_id r = Some p ->
  GetActiveGstRate now true d = Ok rate -> rate_columns d rate cr sr ir ->
  0 <= cr -> 0 <= sr -> 0 <= ir -> is_paise amount n -> 0 <= n ->
  let t := taxes (Billing.registered_state r) n cr sr ir in
  total_of t n < 10 ^ 12 ->
  let d' := after_credit now id amount d in
  Billing.subscribers d' =
    <[id := set_expiry (portal_expiry now (Billing.validity_days p) r) r]> (Billing.subscribers d) /\
  Billing.plans d' = Billing.plans d /\ Billing.gst_rates d' = Billing.gst_rates d /\
  Billing.wallet_ledgers d' = Billing.wallet_ledgers d /\
  exists row, Billing.invoices d' = Billing.invoices d ++ [row] /\
    Billing.iv_subscriber_id row = id /\ Billing.iv_base row = n /\ Billing.iv_total row = total_of t n.
Proof.
  intros Hr Hp Hrate [Hc Hs Hi Hrow] ? ? ? Hn Hn0 t Htot d'. subst d' t. unfold after_credit, extendPlanExpiry.
  cbn [info_up p_extend_up portal_up]. unfold GetPlanRenewalInfo. cbn [negb]. rewrite Hr, Hp. unfold SetPlanExpiry.
  cbn [negb snd]. fold (portal_expiry now (Billing.validity_days p) r).
  set (d1 := Dunning.update _ id d).
  assert (Billing.subscribers d1 !! id = Some (set_expiry (portal_expiry now (Billing.validity_days p) r) r)) as Hr1
    by by apply Dunning.lookup_update.
  pose proof (Gst.invoice_paise amount n rate cr sr ir (Billing.registered_state r) Gst.DefaultHomeState
    Hn Hc Hs Hi) as Hinv. cbv zeta in Hinv.
  pose proof (taxes_nonneg (Billing.registered_state r) n cr sr ir Hn0) as Hnn.
  unfold createRenewalInvoice, GetInvoiceInputs. cbn [inputs_up p_rate_up p_invoice_up portal_up negb].
  rewrite Hr1. cbn [Billing.plan_id set_expiry].
  replace (Billing.plans d1 !! Billing.plan_id r) with (Some p).
  replace (GetActiveGstRate now true d1) with (Ok (E := error) rate) by exact (eq_sym Hrate).
  unfold Gst.CalculateGstInvoice. cbn [Billing.registered_state set_expiry].
  set (inv0 := Gst.CalculateGstInvoiceFrom _ _ _ _) in *. clearbody inv0.
  destruct Hinv as (Hbase & Hid & H4 & H5 & H6 & H7).
  assert (exists cg sg ig, taxes (Billing.registered_state r) n cr sr ir = (cg, sg, ig) /\
    is_paise (Gst.CgstAmount inv0) cg /\ is_paise (Gst.SgstAmount inv0) sg /\
    is_paise (Gst.IgstAmount inv0) ig /\ is_paise (Gst.TotalAmount inv0) (n + cg + sg + ig))
    as (cg & sg & ig & Htx & Hcg & Hsg & Hig & Ht)
    by (unfold taxes; destruct (Gst.intrastate _ _); eauto 10).
  rewrite Htx in Hnn, Htot |- *. cbn [total_of] in Htot |- *. destruct Hnn as (? & ? & ? & Hone); [lia .. |].
  rewrite (CreateInvoice_run now _ d1 n cg sg ig (n + cg + sg + ig)); simpl; try done; try lia.
  - split_and!; try done; [| by eexists]. unfold d1, Dunning.update, Billing.with_subscribers. simpl.
    apply map_eq. intros i. rewrite lookup_insert, lookup_alter. case_decide as Hi'; [| done].
    subst i. by rewrite Hr.
  - by rewrite Hbase.
  - apply paise_zero.
  - by rewrite Hid.
Qed.

Lemma ApplyRenewal_credited now id amount pid d tx d1 :
  Billing.Recharge now Billing.all_up (Billing.MkRecharge id amount pid None "portal one-tap renewal") d = (Ok tx, d1) ->
  ApplyRenewal now portal_up id amount pid d =
    (Ok (Billing.tx_ID tx, Billing.tx_BalanceAfter tx), after_credit now id amount d1).
Proof. unfold ApplyRenewal. cbn [p_wallet portal_up]. intros ->. reflexivity. Qed.

Lemma RenewalCallback_run now subID req amount n d tx d1 :
  subID <> 0 -> PaymentID req <> EmptyString -> cb_Amount req = Some amount -> is_paise amount n -> 0 < n ->
  Billing.Recharge now Billing.all_up
    (Billing.MkRecharge subID amount (PaymentID req) None "portal one-tap renewal") d = (Ok tx, d1) ->
  RenewalCallback now portal_up true subID (Some req) d =
    (StatusOK (Billing.tx_ID tx) (Billing.tx_BalanceAfter tx), after_credit now subID amount d1).
Proof.
  intros Hid Hpid Ham Hn Hpos Hrun. unfold RenewalCallback.
  rewrite (proj2 (Z.eqb_neq _ _) Hid), (proj2 (String.eqb_neq _ _) Hpid), Ham.
  rewrite (paise_less_eq _ _ n 0 Hn paise_zero), (proj2 (Z.leb_gt n 0)) by lia.
  cbn [negb]. by rewrite (ApplyRenewal_credited _ _ _ _ _ _ _ Hrun).
Qed.

(** A payment that is already in the ledger is answered from it. *)
Lemma Recharge_replay now id amount pid n d row l :
  is_paise amount n -> 0 < n -> pid <> EmptyString ->
  List.filter (Billing.has_token pid) (Billing.wallet_ledgers d) = row :: l ->
  Billing.Recharge now Billing.all_up (Billing.MkRecharge id amount pid None "portal one-tap renewal") d =
    (Ok (Billing.transaction_of_row row), d).
Proof.
  intros Hn Hpos Hpid Hf. unfold Billing.Recharge, Billing.recharge_begin. cbn [Billing.rq_Amount].
  rewrite (paise_less_eq _ _ n 0 Hn paise_zero), (proj2 (Z.leb_gt n 0)) by lia.
  cbn [Billing.rq_TransactionToken Billing.token_up Billing.all_up].
  unfold Billing.existing, Billing.GetTransactionByToken. rewrite (proj2 (String.eqb_neq _ _) Hpid).
  cbn [negb]. by rewrite Hf.
Qed.

(** The subscriber after a portal renewal. *)
Definition portal_row (now n days : Z) (r : Billing.SubscriberRow) : Billing.SubscriberRow :=
  set_expiry (portal_expiry now days r) (Billing.set_balance (Billing.wallet_balance r + n) r).

(** The portal's renewal callback believes its body: with no call to the
    gateway, any subscriber who is logged in is credited the amount they name
    under a payment id they choose, their expiry moves a whole cycle whatever
    the amount, their wallet is never charged, and an invoice is stored whose
    base is the amount paid, so that its total is the amount plus tax.
    Delivered twice the callback answers with the same transaction and credits
    nothing, but it extends the expiry by another cycle and stores another
    invoice. *)
Theorem portal_callback_unchecked now id req amount n r p rate cr sr ir d :
  Billing.books d -> Billing.charted d ->
  id <> 0 -> PaymentID req <> EmptyString -> cb_Amount req = Some amount -> is_paise amount n -> 0 < n ->
  (forall row, row ∈ Billing.wallet_ledgers d -> Billing.lg_transaction_token row <> Some (PaymentID req)) ->
  Billing.subscribers d !! id = Some r -> Billing.plans d !! Billing.plan_id r = Some p ->
  GetActiveGstRate now true d = Ok rate -> rate_columns d rate cr sr ir ->
  0 <= cr -> 0 <= sr -> 0 <= ir ->
  0 <= Billing.wallet_balance r -> Billing.wallet_balance r + n < 10 ^ 12 ->
  let t := taxes (Billing.registered_state r) n cr sr ir in
  total_of t n < 10 ^ 12 ->
  let r1 := portal_row now n (Billing.validity_days p) r in
  let r2 := set_expiry (portal_expiry now (Billing.validity_days p) r1) r1 in
  exists tx b1 b2 d1 d2 i1 i2,
    RenewalCallback now portal_up true id (Some req) d = (StatusOK tx b1, d1) /\
    is_paise b1 (Billing.wallet_balance r + n) /\
    Billing.subscribers d1 = <[id := r1]> (Billing.subscribers d) /\
    Billing.invoices d1 = Billing.invoices d ++ [i1] /\
    RenewalCallback now portal_up true id (Some req) d1 = (StatusOK tx b2, d2) /\
    Billing.wallet_ledgers d2 = Billing.wallet_ledgers d1 /\
    Billing.subscribers d2 = <[id := r2]> (Billing.subscribers d) /\
    Billing.invoices d2 = Billing.invoices d ++ [i1; i2] /\
    Forall (fun i => Billing.iv_subscriber_id i = id /\ Billing.iv_base i = n /\
                     Billing.iv_total i = total_of t n) [i1; i2].
Proof.
  intros Hbk Hch Hid Hpid Ham Hn Hpos Hfresh Hr Hp Hrate Hcols ? ? ? Hb0 Hmax t Htot r1 r2.
  destruct (Billing.Recharge_run now (Billing.MkRecharge id amount (PaymentID req) None "portal one-tap renewal")
    n d r) as (tx & d1 & Hrun & Hbal & Hs1 & Hp1 & _ & Hg1 & Hi1 & _ & g1 & g2 & Hl1 & Hg1t & Hg2t & Htx);
    try done.
  cbn [Billing.rq_SubscriberID Billing.rq_Amount Billing.rq_TransactionToken] in *.
  set (rc := Billing.set_balance (Billing.wallet_balance r + n) r) in *.
  assert (Billing.subscribers d1 !! id = Some rc) as Hr1
    by by rewrite Hs1, lookup_alter, decide_True, Hr by done.
  assert (forall d', Billing.gst_rates d' = Billing.gst_rates d ->
    GetActiveGstRate now true d' = Ok rate /\ rate_columns d' rate cr sr ir) as Hrates.
  { intros d' Hg. unfold GetActiveGstRate in *. rewrite Hg. split; [done |].
    destruct Hcols as [? ? ? Hrow]. split; try done. by rewrite Hg. }
  destruct (Hrates d1 Hg1) as [Hrate1 Hcols1].
  destruct (after_credit_run now id amount n rc p rate cr sr ir d1) as (Hs2 & Hp2 & Hg2 & Hl2 & i1 & Hi2 & Hi1r);
    try done; [by rewrite Hp1 | lia |].
  set (d2 := after_credit now id amount d1) in *. change (set_expiry _ rc) with r1 in Hs2.
  destruct (Hrates d2 ltac:(by rewrite Hg2)) as [Hrate2 Hcols2].
  assert (Billing.subscribers d2 !! id = Some r1) as Hr2 by by rewrite Hs2, lookup_insert, decide_True by done.
  destruct (after_credit_run now id amount n r1 p rate cr sr ir d2) as (Hs3 & Hp3 & Hg3 & Hl3 & i2 & Hi3 & Hi2r);
    try done; [by rewrite Hp2, Hp1 | lia |].
  assert (List.filter (Billing.has_token (PaymentID req)) (Billing.wallet_ledgers d2) = [g2]) as Hf.
  { rewrite Hl2, Hl1, List.filter_app, filter_none.
    - simpl. unfold Billing.has_token. rewrite Hg1t, Hg2t. unfold Billing.nullif_empty.
      by rewrite (proj2 (String.eqb_neq _ _) Hpid), bool_decide_false, bool_decide_true.
    - intros row Hrow. unfold Billing.has_token. rewrite bool_decide_eq_false. auto. }
  pose proof (Recharge_replay now id amount (PaymentID req) n d2 g2 [] Hn Hpos Hpid Hf) as Hrun2.
  exists (Billing.tx_ID tx), (Billing.tx_BalanceAfter tx), (of_paise (Billing.lg_balance_after g2)), d2,
    (after_credit now id amount d2), i1, i2. split_and!.
  - by rewrite (RenewalCallback_run now id req amount n d tx d1).
  - rewrite Hbal. apply paise_add; [apply paise_of | done].
  - rewrite Hs2, Hs1. apply map_eq. intros i. rewrite !lookup_insert, lookup_alter. by repeat case_decide.
  - by rewrite Hi2, Hi1.
  - rewrite (RenewalCallback_run now id req amount n d2 _ d2 Hid Hpid Ham Hn Hpos Hrun2). by rewrite Htx.
  - done.
  - rewrite Hs3, Hs2, Hs1. apply map_eq. intros i. rewrite !lookup_insert, lookup_alter. by repeat case_decide.
  - by rewrite Hi3, Hi2, Hi1, <- app_assoc.
  - constructor; [exact Hi1r | constructor; [exact Hi2r | constructor]].
Qed.

End Renew.

(** ** Witnesses *)

Definition demo_now : Z := 8 * Dunning.day.
Definition demo_rate : @Gst.GstRate RationalDecimal :=
  @Gst.MkRate RationalDecimal 1 (@of_paise RationalDecimal 900) (@of_paise RationalDecimal 900)
    (@of_paise RationalDecimal 1800).
Definition demo_plan : Billing.PlanRow := Billing.MkPlan "Home 100" 49900 30 500.
Definition demo_candidate : @RenewalCandidate RationalDecimal :=
  @MkCandidate RationalDecimal 1 "asha" None "Tamil Nadu" "Home 100" (@of_paise RationalDecimal 49900) 30 500
    (Some 0) "grace_period" "grace_period".
Definition demo_world : world := MkWorld Billing.demo_db (Jobqueue.MkTable ∅ 1) [].

Lemma demo_charted : Billing.charted Billing.demo_db.
Proof.
  intros code Hc. repeat (apply elem_of_cons in Hc as [-> | Hc]; [by eexists |]). by apply elem_of_nil in Hc.
Qed.

Lemma demo_columns : rate_columns (H0 := RationalLaws) Billing.demo_db demo_rate 900 900 1800.
Proof. by split. Qed.

Lemma demo_ready :
  ready (H0 := RationalLaws) demo_now 1 Billing.demo_subscriber demo_plan demo_candidate demo_rate
    (4491, 4491, 0) (bdb demo_world).
Proof.
  split; try done; [apply Billing.demo_books | apply demo_charted | by apply Dunning.existsb_ladder |].
  exists 900, 900, 1800. split; [apply demo_columns | done].
Qed.


Lemma failed_extension_keeps_the_charge_witness :
  exists w', renew (H := RationalDecimal) 19800 demo_now no_extend demo_candidate demo_world =
      (Failed ErrExtend, w') /\
    Billing.wallet_balance <$> Billing.subscribers (bdb w') !! 1 = Some 41118.
Proof.
  destruct (failed_extension_keeps_the_charge (H0 := RationalLaws) 19800 demo_now 1 Billing.demo_subscriber
    demo_plan demo_candidate demo_rate (4491, 4491, 0) demo_world demo_ready ltac:(discriminate))
    as (w' & Hrun & _ & Hsubs & _).
  exists w'. split; [exact Hrun |]. rewrite Hsubs, lookup_insert, decide_True by done. reflexivity.
Defined.

Lemma portal_callback_unchecked_witness :
  exists tx b1 b2 d1 d2,
    let req := @MkCallback RationalDecimal "made-up" (Some (@of_paise RationalDecimal 100)) in
    RenewalCallback demo_now portal_up true 1 (Some req) Billing.demo_db = (StatusOK tx b1, d1) /\
    RenewalCallback demo_now portal_up true 1 (Some req) d1 = (StatusOK tx b2, d2) /\
    Billing.plan_expiry <$> Billing.subscribers d2 !! 1 = Some (Some (add_days demo_now 60)).
Proof.
  assert (is_paise (H := RationalDecimal) (@of_paise RationalDecimal 100) 100) as Hn by apply (paise_of (H0 := RationalLaws)).
  assert (forall row, row ∈ Billing.wallet_ledgers Billing.demo_db ->
    Billing.lg_transaction_token row <> Some "made-up"%string) as Hfresh by by intros row ?%not_elem_of_nil.
  destruct (portal_callback_unchecked (H0 := RationalLaws) demo_now 1
    (@MkCallback RationalDecimal "made-up" (Some (@of_paise RationalDecimal 100)))
    (@of_paise RationalDecimal 100) 100 Billing.demo_subscriber demo_plan demo_rate 900 900 1800 Billing.demo_db
    Billing.demo_books demo_charted ltac:(discriminate) ltac:(discriminate) eq_refl Hn eq_refl Hfresh
    eq_refl eq_refl eq_refl demo_columns ltac:(vm_compute; discriminate) ltac:(vm_compute; discriminate)
    ltac:(vm_compute; discriminate) ltac:(vm_compute; discriminate) eq_refl ltac:(vm_compute; reflexivity))
    as (tx & b1 & b2 & d1 & d2 & i1 & i2 & H1 & _ & _ & _ & H2 & _ & Hs & _).
  exists tx, b1, b2, d1, d2. split; [exact H1 | split; [exact H2 |]].
  rewrite Hs, lookup_insert, decide_True by done. reflexivity.
Defined.

Example format_date_leap : format_date 19800 (Dunning.day * 11016) = "2000-02-29"%string.
Proof. vm_compute. reflexivity. Qed.

End Renewal.
