(* ===== verification/Subscribers.v ===== *)
(** * Subscriber records: signup, updates, plan changes, bulk operations

    internal/api/routes.go (the subscriber handlers),
    internal/api/subscribers_lifecycle.go and subscribers_bulk.go with their
    statements in internal/db/subscribers.go, and pkg/validate. The columns of
    the subscribers table that billing reads are [Billing.SubscriberRow]; the
    identity columns are [Account]s under the same ids. The audit log holds
    each entry's action and target. A handler's result is its HTTP status. *)

From S2P Require Import Prelude GoStrings Json Identity Decimal Jobqueue VerifierCache LiveSessions SessionHistory FUP SessionControl Gst Billing Dunning Renewal.
From Stdlib Require Import Ascii QArith Qround Qabs Lqa.

Local Open Scope Z_scope.

(** [regexp] [^\+[1-9]\d{1,14}$] (pkg/validate). *)
Definition E164 (s : string) : bool :=
  match s with
  | String p (String c rest) =>
      Ascii.eqb p "+" && is_decimal c && negb (Ascii.eqb c "0") && string_forall is_decimal rest &&
      (1 <=? String.length rest)%nat && (String.length rest <=? 14)%nat
  | _ => false
  end.

Module Subscribers.

(** ** State *)

Record Account : Type := MkAccount {
  caf_number : string;
  email : option string;
  password_hash : string;
  kyc_status : string
}.

Record KycRow : Type := MkKyc {
  aadhaar_encrypted : option string;
  pan_encrypted : option string;
  key_version_id : string
}.

Record world : Type := MkWorld {
  bdb : Billing.DB;
  accounts : gmap Z Account;
  next_subscriber : Z;
  kyc_verifications : gmap Z KycRow;
  live : LiveSessions.table;
  tasks : Jobqueue.table;
  verifiers : VerifierCache.table;
  events : list (string * Z);
  audit : list (string * Z)
}.

Definition with_bdb (d : Billing.DB) (w : world) : world :=
  MkWorld d (accounts w) (next_subscriber w) (kyc_verifications w) (live w) (tasks w) (verifiers w)
    (events w) (audit w).
Definition with_tasks (t : Jobqueue.table) (w : world) : world :=
  MkWorld (bdb w) (accounts w) (next_subscriber w) (kyc_verifications w) (live w) t (verifiers w)
    (events w) (audit w).
Definition with_verifiers (t : VerifierCache.table) (w : world) : world :=
  MkWorld (bdb w) (accounts w) (next_subscriber w) (kyc_verifications w) (live w) (tasks w) t
    (events w) (audit w).
Definition with_kyc (k : gmap Z KycRow) (w : world) : world :=
  MkWorld (bdb w) (accounts w) (next_subscriber w) k (live w) (tasks w) (verifiers w) (events w) (audit w).
Definition Audit (action : string) (target : Z) (w : world) : world :=
  MkWorld (bdb w) (accounts w) (next_subscriber w) (kyc_verifications w) (live w) (tasks w) (verifiers w)
    (events w) (audit w ++ [(action, target)]).

(** What is configured on the handler; [kyc]: the encryption, when both the
    key store and the KYC store are there and the encryptor can be built. *)
Record Config : Type := MkConfig {
  has_db : bool;
  has_lifecycle : bool;
  has_sessions : bool;
  has_tasks : bool;
  has_cache : bool;
  has_events : bool;
  kyc : option (string -> string);
  kyc_key : string
}.

(** Which calls can be executed. *)
Record Env : Type := MkEnv {
  create_up : bool;
  kyc_up : bool;
  update_up : bool;
  info_up : bool;
  plan_up : bool;
  set_plan_up : bool;
  cache_up : bool;
  session_up : bool;
  enqueue_up : bool
}.
Definition all_up : Env := MkEnv true true true true true true true true true.

Inductive error : Type :=
| ErrSubscriberInvalid (field : string) | ErrSubscriberExists | ErrHash | ErrQuery
| ErrUnique | ErrNotBillable | ErrConstraint | ErrInvalidPlan | ErrSubscriberNotFound.

(** [h.emit] *)
Definition emit (c : Config) (event : string) (id : Z) (w : world) : world :=
  if has_events c
  then MkWorld (bdb w) (accounts w) (next_subscriber w) (kyc_verifications w) (live w) (tasks w) (verifiers w)
         (events w ++ [(event, id)]) (audit w)
  else w.

(** ** Records and rows *)

Record CreateSubscriberRequest : Type := MkCreate {
  CAFNumber : string;
  Username : string;
  Password : string;
  MobileNumber : string;
  Email : string;
  PlanID : Z;
  RegisteredState : string;
  Aadhaar : string;
  PAN : string
}.

(** [SubscriberRecord], as far as an insert reads it; the balance, a decimal
    string in the code, in hundredths. *)
Record SubscriberRecord : Type := MkRecord {
  s_CAFNumber : string;
  s_Username : string;
  s_MobileNumber : string;
  s_Email : string;
  s_PlanID : Z;
  s_FranchiseID : option Z;
  s_Status : string;
  s_DunningState : string;
  s_WalletBalance : Z;
  s_RegisteredState : string;
  s_KYCStatus : string;
  s_PlanExpiry : option Z
}.

Definition validateCreateSubscriber (req : CreateSubscriberRequest) : option error :=
  if String.eqb (CAFNumber req) EmptyString then Some (ErrSubscriberInvalid "caf_number")
  else if String.eqb (Username req) EmptyString then Some (ErrSubscriberInvalid "username")
  else if String.eqb (MobileNumber req) EmptyString then Some (ErrSubscriberInvalid "mobile_number")
  else if negb (E164 (MobileNumber req)) then Some (ErrSubscriberInvalid "mobile_number")
  else if PlanID req =? 0 then Some (ErrSubscriberInvalid "plan_id")
  else if String.eqb (RegisteredState req) EmptyString then Some (ErrSubscriberInvalid "registered_state")
  else match Gst.NormaliseState (RegisteredState req) with
       | None => Some (ErrSubscriberInvalid "registered_state")
       | Some _ => None
       end.

Definition subscriberRecordFrom (req : CreateSubscriberRequest) : SubscriberRecord :=
  MkRecord (CAFNumber req) (Username req) (MobileNumber req) (Email req) (PlanID req) None
    Renewal.StatusPendingPayment Dunning.DunningActive 0
    (default (RegisteredState req) (Gst.NormaliseState (RegisteredState req))) "pending" None.

Definition billing_row (s : SubscriberRecord) : Billing.SubscriberRow :=
  Billing.MkSubscriber (s_Username s) (s_MobileNumber s) (s_FranchiseID s) (s_RegisteredState s) (s_Status s)
    (s_DunningState s) (s_WalletBalance s) (s_PlanID s) (s_PlanExpiry s).

(** The statuses chk_authorised_subscriber_is_billable lets go without an
    expiry. *)
Definition unbilled_statuses : list string := ["pending_payment"; "hard_suspended"; "terminated"]%string.

Definition not_billable (status : string) (expiry : option Z) : bool :=
  negb (existsb (String.eqb status) unbilled_statuses) && negb (bool_decide (is_Some expiry)).

(** The columns' widths; a value that is longer only by trailing spaces,
    which the database cuts, is not told apart. *)
Definition varchar (n : nat) (s : string) : bool := (String.length s <=? n)%nat.

Definition widths_ok (r : Billing.SubscriberRow) : bool :=
  varchar 100 (Billing.username r) && varchar 10 (Billing.registered_state r) &&
  varchar 20 (Billing.dunning_state r) && varchar 20 (Billing.mobile_number r) && varchar 20 (Billing.status r).

(** What the table refuses in a row: a value too wide, then its CHECK
    constraints in the order they are tested. *)
Definition row_checks (r : Billing.SubscriberRow) : option error :=
  if negb (widths_ok r) then Some ErrConstraint
  else if not_billable (Billing.status r) (Billing.plan_expiry r) then Some ErrNotBillable
  else if negb (E164 (Billing.mobile_number r)) then Some ErrConstraint
  else if Billing.wallet_balance r <? 0 then Some ErrConstraint
  else if negb (existsb (String.eqb (Billing.status r)) Dunning.statuses) then Some ErrConstraint
  else None.

Definition identity_taken (s : SubscriberRecord) (w : world) : bool :=
  bool_decide (map_Exists (fun _ a => caf_number a = s_CAFNumber s) (accounts w)) ||
  bool_decide (map_Exists (fun _ r => Billing.username r = s_Username s) (Billing.subscribers (bdb w))).

(** [INSERT INTO subscribers]: the id sequence, the CHECKs, the unique keys,
    the foreign keys. *)
Definition insertSubscriber (up : bool) (s : SubscriberRecord) (hash : string) (w : world) :
    result error Z * world :=
  if negb up then (Err ErrQuery, w)
  else
    let id := next_subscriber w in
    let w := MkWorld (bdb w) (accounts w) (id + 1) (kyc_verifications w) (live w) (tasks w) (verifiers w)
               (events w) (audit w) in
    match row_checks (billing_row s) with
    | Some e => (Err e, w)
    | None =>
        if negb (varchar 50 (s_CAFNumber s) && varchar 255 (s_Email s) && varchar 20 (s_KYCStatus s))
        then (Err ErrConstraint, w)
        else if identity_taken s w then (Err ErrUnique, w)
        else if negb (bool_decide (is_Some (Billing.plans (bdb w) !! s_PlanID s))) ||
                negb (Billing.franchise_ok (s_FranchiseID s) (bdb w))
        then (Err ErrConstraint, w)
        else
          let d := Billing.with_subscribers <[id := billing_row s]> (bdb w) in
          let a := MkAccount (s_CAFNumber s) (Billing.nullif_empty (s_Email s)) hash (s_KYCStatus s) in
          (Ok id, MkWorld d (<[id := a]> (accounts w)) (id + 1) (kyc_verifications w) (live w) (tasks w)
                    (verifiers w) (events w) (audit w))
    end.

Definition default_empty (d s : string) : string := if String.eqb s EmptyString then d else s.

(** The store's [CreateSubscriber]: empty columns take their defaults. *)
Definition CreateSubscriber (up : bool) (s : SubscriberRecord) (hash : string) (w : world) :
    result error Z * world :=
  insertSubscriber up
    (MkRecord (s_CAFNumber s) (s_Username s) (s_MobileNumber s) (s_Email s) (s_PlanID s) (s_FranchiseID s)
       (default_empty "active" (s_Status s)) (default_empty "active" (s_DunningState s)) (s_WalletBalance s)
       (s_RegisteredState s) (default_empty "pending" (s_KYCStatus s)) (s_PlanExpiry s)) hash w.

(** [INSERT … ON CONFLICT DO UPDATE] *)
Definition UpsertKYC (up : bool) (id : Z) (aadhaarEnc panEnc keyVersion : string) (w : world) :
    result error unit * world :=
  if negb up then (Err ErrQuery, w)
  else match Billing.subscribers (bdb w) !! id with
       | None => (Err ErrConstraint, w)
       | Some _ =>
           let a := Billing.nullif_empty aadhaarEnc in
           let p := Billing.nullif_empty panEnc in
           let row := match kyc_verifications w !! id with
                      | None => MkKyc a p keyVersion
                      | Some old => MkKyc (match a with Some _ => a | None => aadhaar_encrypted old end)
                                      (match p with Some _ => p | None => pan_encrypted old end) keyVersion
                      end in
           (Ok tt, with_kyc (<[id := row]> (kyc_verifications w)) w)
       end.

(** Errors are logged. *)
Definition persistKYC (c : Config) (e : Env) (id : Z) (aadhaar pan : string) (w : world) : world :=
  if String.eqb aadhaar EmptyString && String.eqb pan EmptyString then w
  else match kyc c with
       | None => w
       | Some enc =>
           let seal s := if String.eqb s EmptyString then EmptyString else enc s in
           (UpsertKYC (kyc_up e) id (seal aadhaar) (seal pan) (kyc_key c) w).2
       end.

Definition EventSubscriberCreated : string := "subscriber.created".
Definition EventSubscriberStatusChanged : string := "subscriber.status_changed".

Fixpoint contains (s sub : string) : bool :=
  String.prefix sub s || match s with EmptyString => false | String _ s => contains s sub end.

(** [isUniqueViolation]: the error's text, which quotes the username, holds
    one of the two words. *)
Definition isUniqueViolation (quoted : string) (e : error) : bool :=
  match e with
  | ErrUnique => true
  | _ => contains quoted "unique" || contains quoted "duplicate"
  end.

(** [hash]: bcrypt at cost 12, which may refuse the password. *)
Definition ProvisionSubscriber (c : Config) (e : Env) (hash : string -> option string)
    (req : CreateSubscriberRequest) (w : world) : result error Z * world :=
  match validateCreateSubscriber req with
  | Some x => (Err x, w)
  | None =>
      match hash (Password req) with
      | None => (Err ErrHash, w)
      | Some h =>
          match CreateSubscriber (create_up e) (subscriberRecordFrom req) h w with
          | (Err x, w) => (Err (if isUniqueViolation (Username req) x then ErrSubscriberExists else x), w)
          | (Ok id, w) =>
              let w := persistKYC c e id (Aadhaar req) (PAN req) w in
              (Ok id, emit c EventSubscriberCreated id (Audit "subscriber.create" id w))
          end
      end
  end.

(** The handler; a body that does not decode is [None]. *)
Definition CreateSubscriberHandler (c : Config) (e : Env) (hash : string -> option string)
    (body : option CreateSubscriberRequest) (w : world) : Z * world :=
  match body with
  | None => (400, w)
  | Some req =>
      match ProvisionSubscriber c e hash req w with
      | (Err (ErrSubscriberInvalid _), w) => (422, w)
      | (Err ErrSubscriberExists, w) => (409, w)
      | (Err _, w) => (500, w)
      | (Ok _, w) => (201, w)
      end
  end.

(** ** Updates *)

Definition updated_row (planID : option Z) (status : option string) (planExpiry : option Z)
    (r : Billing.SubscriberRow) : Billing.SubscriberRow :=
  Billing.MkSubscriber (Billing.username r) (Billing.mobile_number r) (Billing.franchise_id r)
    (Billing.registered_state r) (default (Billing.status r) status) (Billing.dunning_state r)
    (Billing.wallet_balance r) (default (Billing.plan_id r) planID)
    (match planExpiry with Some t => Some t | None => Billing.plan_expiry r end).

(** The store's [UpdateSubscriber]; a missing row is [None]. *)
Definition UpdateSubscriber (up : bool) (id : Z) (planID : option Z) (status : option string)
    (planExpiry : option Z) (w : world) : result error (option Billing.SubscriberRow) * world :=
  if negb up then (Err ErrQuery, w)
  else match Billing.subscribers (bdb w) !! id with
       | None => (Ok None, w)
       | Some r =>
           let r' := updated_row planID status planExpiry r in
           match row_checks r' with
           | Some x => (Err x, w)
           | None =>
               if (Billing.plan_id r' =? Billing.plan_id r) ||
                  bool_decide (is_Some (Billing.plans (bdb w) !! Billing.plan_id r'))
               then (Ok (Some r'), with_bdb (Billing.with_subscribers <[id := r']> (bdb w)) w)
               else (Err ErrConstraint, w)
           end
       end.

Record PatchBody : Type := MkPatch { pt_PlanID : option Z; pt_Status : option string; pt_PlanExpiry : option Z }.

(** PATCH /subscribers/{id}: an id that is not a number and a body that does
    not decode are [None]; the answer to a missing subscriber is an empty
    200. *)
Definition UpdateSubscriberHandler (c : Config) (e : Env) (id : option Z) (body : option PatchBody) (w : world) :
    Z * world :=
  match id with
  | None => (400, w)
  | Some id =>
      match body with
      | None => (400, w)
      | Some b =>
          match UpdateSubscriber (update_up e) id (pt_PlanID b) (pt_Status b) (pt_PlanExpiry b) w with
          | (Err ErrNotBillable, w) => (400, w)
          | (Err _, w) => (500, w)
          | (Ok _, w) =>
              let w := Audit "subscriber.update" id w in
              (200, match pt_Status b with
                    | Some _ => emit c EventSubscriberStatusChanged id w
                    | None => w
                    end)
          end
      end
  end.

(** The store's [TerminateSubscriber]. *)
Definition TerminateSubscriber (up : bool) (id : Z) (w : world) :
    result error (option Billing.SubscriberRow) * world :=
  if negb up then (Err ErrQuery, w)
  else match Billing.subscribers (bdb w) !! id with
       | None => (Ok None, w)
       | Some r => (Ok (Some (Dunning.terminated r)), with_bdb (Dunning.update Dunning.terminated id (bdb w)) w)
       end.

(** ** Session control *)

(** [subCache.InvalidateSubscriber]: the shared verifier rows; an error is
    logged. *)
Definition invalidate (c : Config) (e : Env) (username : string) (w : world) : world :=
  if has_cache c && cache_up e then with_verifiers (VerifierCache.DeleteByUsername username (verifiers w)) w
  else w.

Section Sessions.
Context `{Decimal}.

(** The payload of [sess], when a session is active, queued as a task of
    [taskType]; errors are logged. *)
Definition enqueue_if_active (now : Z) (c : Config) (e : Env) (taskType : string)
    (payload : LiveSessions.SessionSummary -> string) (id : Z) (w : world) : world :=
  if negb (has_sessions c) || negb (has_tasks c) then w
  else match LiveSessions.GetActiveSession now (session_up e) id (live w) with
       | Ok (Some sess) =>
           with_tasks (Jobqueue.EnqueueContext now (enqueue_up e)
             (SessionControl.control_task taskType (payload sess)) [] (tasks w)).2 w
       | _ => w
       end.

Definition enqueueCoAIfSessionActive (now : Z) (c : Config) (e : Env) (id : Z) : world -> world :=
  enqueue_if_active now c e FUP.TaskTypeCoA
    (fun sess => FUP.marshal_coa (FUP.MkCoA id (LiveSessions.h_NasIP sess))) id.

Definition enqueuePoDIfSessionActive (now : Z) (c : Config) (e : Env) (id : Z) : world -> world :=
  enqueue_if_active now c e FUP.TaskTypePoD (fun _ => SessionControl.pod_payload id) id.

(** ** Plan changes *)

Record PlanChangeInfo : Type := MkInfo {
  pc_Username : string;
  CurrentExpiry : option Z;
  OldPrice : dec;
  OldValidityDays : Z;
  NewPrice : dec;
  NewValidityDays : Z
}.

Definition GetPlanChangeInfo (e : Env) (id newPlanID : Z) (d : Billing.DB) :
    result error (option PlanChangeInfo) :=
  if negb (info_up e) then Err ErrQuery
  else match r ← Billing.subscribers d !! id; p ← Billing.plans d !! Billing.plan_id r; Some (r, p) with
       | None => Ok None
       | Some (r, p) =>
           if negb (plan_up e) then Err ErrQuery
           else match Billing.plans d !! newPlanID with
                | None => Err ErrInvalidPlan
                | Some p' => Ok (Some (MkInfo (Billing.username r) (Billing.plan_expiry r)
                    (of_paise (Billing.price p)) (Billing.validity_days p)
                    (of_paise (Billing.price p')) (Billing.validity_days p')))
                end
       end.

Definition remaining (now : Z) (expiry : option Z) : Z :=
  match expiry with
  | None => 0
  | Some t => let d := Dunning.time_sub t now in if 0 <? d then d else 0
  end.

Definition bonus_days (info : PlanChangeInfo) (remaining : Z) : Z :=
  if (0 <? OldValidityDays info) && (0 <? NewValidityDays info) && Less (NewFromInt 0) (NewPrice info)
  then
    let remainingDays := Div (NewFromInt remaining) (NewFromInt Dunning.day) in
    let oldDaily := Div (OldPrice info) (NewFromInt (OldValidityDays info)) in
    let credit := Mul oldDaily remainingDays in
    let newDaily := Div (NewPrice info) (NewFromInt (NewValidityDays info)) in
    IntPart (Floor (Div credit newDaily))
  else 0.

Definition computePlanChangeExpiry (info : PlanChangeInfo) (now : Z) : Z :=
  Renewal.add_days now (NewValidityDays info + bonus_days info (remaining now (CurrentExpiry info))).

(** An unknown plan violates the foreign key; an unknown subscriber is
    [None]. *)
Definition SetSubscriberPlan (up : bool) (id newPlanID newExpiry : Z) (w : world) :
    result error (option Billing.SubscriberRow) * world :=
  UpdateSubscriber up id (Some newPlanID) None (Some newExpiry) w.

Definition changeSubscriberPlan (now : Z) (c : Config) (e : Env) (id newPlanID : Z) (w : world) :
    result error Billing.SubscriberRow * world :=
  match GetPlanChangeInfo e id newPlanID (bdb w) with
  | Err x => (Err x, w)
  | Ok None => (Err ErrSubscriberNotFound, w)
  | Ok (Some info) =>
      match SetSubscriberPlan (set_plan_up e) id newPlanID (computePlanChangeExpiry info now) w with
      | (Err x, w) => (Err x, w)
      | (Ok None, w) => (Err ErrSubscriberNotFound, w)
      | (Ok (Some r), w) =>
          let w := enqueueCoAIfSessionActive now c e id (invalidate c e (pc_Username info) w) in
          (Ok r, Audit "subscriber.plan_change" id w)
      end
  end.

Definition ChangeSubscriberPlan (now : Z) (c : Config) (e : Env) (id : option Z) (newPlanID : option Z)
    (w : world) : Z * world :=
  match id with
  | None => (400, w)
  | Some id =>
      if negb (has_lifecycle c) then (503, w)
      else match newPlanID with
           | None => (400, w)
           | Some newPlanID =>
               if newPlanID <=? 0 then (422, w)
               else match changeSubscriberPlan now c e id newPlanID w with
                    | (Err ErrInvalidPlan, w) => (422, w)
                    | (Err ErrSubscriberNotFound, w) => (404, w)
                    | (Err _, w) => (500, w)
                    | (Ok _, w) => (200, w)
                    end
           end
  end.

(** ** Bulk operations *)

Definition maxBulkSubscribers : Z := 500.

(** The subscriber and, when it failed, the error. *)
Definition BulkResult : Type := (Z * option error)%type.

Definition validateBulkIDs (ids : list Z) : bool :=
  negb (Z.of_nat (length ids) =? 0) && (Z.of_nat (length ids) <=? maxBulkSubscribers).

Definition for_many (one : Z -> world -> option error * world) (ids : list Z) (w : world) :
    list BulkResult * world :=
  foldl (fun '(rs, w) id => let '(r, w) := one id w in (rs ++ [(id, r)], w)) ([], w) ids.

Definition ChangePlanForMany (now : Z) (c : Config) (e : Z -> Env) (ids : list Z) (newPlanID : Z) (w : world) :
    list BulkResult * world :=
  for_many (fun id w => match changeSubscriberPlan now c (e id) id newPlanID w with
                        | (Err x, w) => (Some x, w)
                        | (Ok _, w) => (None, w)
                        end) ids w.

Definition BulkChangeSubscriberPlan (now : Z) (c : Config) (e : Z -> Env)
    (body : option (list Z * Z)) (w : world) : Z * list BulkResult * world :=
  if negb (has_lifecycle c) then (503, [], w)
  else match body with
       | None => (400, [], w)
       | Some (ids, newPlanID) =>
           if negb (validateBulkIDs ids) then (422, [], w)
           else if newPlanID <=? 0 then (422, [], w)
           else let '(rs, w) := ChangePlanForMany now c e ids newPlanID w in (200, rs, w)
       end.

Definition BulkAllowedStatuses : list string := ["active"; "soft_suspended"; "hard_suspended"]%string.

Definition UpdateStatusForMany (c : Config) (e : Z -> Env) (ids : list Z) (status : string) (w : world) :
    list BulkResult * world :=
  for_many (fun id w => match UpdateSubscriber (update_up (e id)) id None (Some status) None w with
                        | (Err x, w) => (Some x, w)
                        | (Ok None, w) => (Some ErrSubscriberNotFound, w)
                        | (Ok (Some _), w) =>
                            (None, emit c EventSubscriberStatusChanged id (Audit "subscriber.update" id w))
                        end) ids w.

Definition BulkUpdateStatus (c : Config) (e : Z -> Env) (body : option (list Z * string)) (w : world) :
    Z * list BulkResult * world :=
  if negb (has_db c) then (503, [], w)
  else match body with
       | None => (400, [], w)
       | Some (ids, status) =>
           if negb (validateBulkIDs ids) then (422, [], w)
           else if negb (existsb (String.eqb status) BulkAllowedStatuses) then (422, [], w)
           else let '(rs, w) := UpdateStatusForMany c e ids status w in (200, rs, w)
       end.

End Sessions.

(** ** The arithmetic of a plan change *)

Section Proration.
Local Open Scope Q_scope.

Lemma Qmult_bound x y d : 0 <= x -> - d <= y <= d -> - (x * d) <= x * y <= x * d.
Proof. intros ? [? ?]. split; nra. Qed.

Lemma quotient_near (eps a A r R b B q y X : Q) :
  eps == 1 # 20000000000000000 ->
  0 <= A <= 1000000 # 1 -> 0 <= R <= 10000 # 1 -> 1 # 100 <= B ->
  - eps <= a - A <= eps -> - eps <= r - R <= eps -> - eps <= b - B <= eps -> - eps <= q - y <= eps ->
  y * b == a * r -> X * B == A * R ->
  - (1 # 2) <= q - X <= 1 # 2.
Proof.
  intros He [HA0 HA1] [HR0 HR1] HB Ha Hr Hb [Hq0 Hq1] Hy HX.
  assert (0 <= X) as HX0 by nra.
  assert (X <= 1000000000000 # 1) as HX1.
  { assert (0 <= X * (B - (1 # 100))) by (apply Qmult_le_0_compat; lra).
    assert (0 <= ((1000000 # 1) - A) * R) by (apply Qmult_le_0_compat; lra). nra. }
  assert (- (1 # 1000000000) <= a * r - A * R <= 1 # 1000000000) as Har.
  { pose proof (Qmult_bound A (r - R) eps ltac:(lra) Hr). pose proof (Qmult_bound R (a - A) eps ltac:(lra) Ha).
    assert (- (eps * eps) <= (a - A) * (r - R) <= eps * eps) by (destruct Ha, Hr; split; nra).
    assert (eps * eps <= 1 # 10000000000) by nra.
    assert (a * r - A * R == A * (r - R) + R * (a - A) + (a - A) * (r - R)) as -> by ring.
    assert (A * eps <= 1 # 10000000000) by nra. assert (R * eps <= 1 # 10000000000) by nra. lra. }
  pose proof (Qmult_bound X (b - B) eps HX0 Hb) as [Hxb0 Hxb1].
  assert (X * eps <= 1 # 10000) as Hxe by nra.
  assert (1 # 200 <= b) as Hb2 by (destruct Hb; lra).
  assert ((y - X) * b == (a * r - A * R) - X * (b - B)) as Hyx by (rewrite <- Hy, <- HX; ring).
  assert (- (1 # 1000) <= (y - X) * b <= 1 # 1000) as [Hd0 Hd1] by (destruct Har; split; lra).
  assert (- (1 # 4) <= y - X <= 1 # 4) as [? ?] by (split; nra).
  split; lra.
Qed.

(** What one division of decimals loses. *)
Lemma div_near `{DecimalLaws} a b :
  ~ val b == 0 -> - (1 # 20000000000000000) <= val (Div a b) - val a / val b <= 1 # 20000000000000000.
Proof.
  intros Hb. rewrite (val_Div a b Hb). apply Qabs_Qle_condition, (round_half_away_near 16).
Qed.

Lemma floor_near q x : - (1 # 2) <= q - x <= 1 # 2 -> (Qfloor x - 1 <= Qfloor q <= Qfloor x + 1)%Z.
Proof.
  intros [H1 H2]. pose proof (Qfloor_le q). pose proof (Qlt_floor q). pose proof (Qfloor_le x).
  pose proof (Qlt_floor x). rewrite inject_Z_plus in *. change (inject_Z 1) with 1 in *.
  assert (inject_Z (Qfloor x) < inject_Z (Qfloor q + 2)) as Hx
    by (rewrite inject_Z_plus; change (inject_Z 2) with (2 # 1); lra).
  assert (inject_Z (Qfloor q) < inject_Z (Qfloor x + 2)) as Hq
    by (rewrite inject_Z_plus; change (inject_Z 2) with (2 # 1); lra).
  rewrite <- Zlt_Qlt in Hx, Hq. lia.
Qed.

End Proration.

(** The bonus days as exact arithmetic would give them. *)
Definition exact_bonus (p1 v1 p2 v2 rem : Z) : Z := p1 * rem * v2 / (v1 * Dunning.day * p2).

(** The bounds of the prices, in hundredths, the validities and the time left
    within which the quotients keep enough digits: at most a million rupees a
    day on the old plan, at least a paisa a day on the new one, and ten
    thousand days left. *)
Record prorated `{DecimalLaws} (info : PlanChangeInfo) (p1 p2 rem : Z) : Prop := {
  pr_old : is_paise (OldPrice info) p1;
  pr_new : is_paise (NewPrice info) p2;
  pr_validity : 0 < OldValidityDays info /\ 0 < NewValidityDays info;
  pr_daily : 0 <= p1 <= 100000000 * OldValidityDays info;
  pr_cheapest : NewValidityDays info <= p2;
  pr_rem : 0 <= rem <= 10000 * Dunning.day
}.

Section PlanChange.
Context `{DecimalLaws}.

Lemma over_pos z : 0 < z -> ~ (inject_Z z == 0)%Q.
Proof. unfold Qeq. simpl. lia. Qed.

Lemma quotient_val (a b : dec) (x : Q) (z : Z) :
  (val a == x)%Q -> (val b == inject_Z z)%Q -> 0 < z ->
  (- (1 # 20000000000000000) <= val (Div a b) - x / inject_Z z <= 1 # 20000000000000000)%Q.
Proof.
  intros Ha Hb Hz. rewrite <- Ha, <- Hb. apply div_near. rewrite Hb. by apply over_pos.
Qed.

(** The unrounded bonus. *)
Lemma bonus_quotient info p1 p2 rem :
  prorated info p1 p2 rem ->
  let q := val (Div (Mul (Div (OldPrice info) (NewFromInt (OldValidityDays info)))
                         (Div (NewFromInt rem) (NewFromInt Dunning.day)))
                    (Div (NewPrice info) (NewFromInt (NewValidityDays info)))) in
  (- (1 # 2) <= q - inject_Z (p1 * rem * NewValidityDays info) /
                    inject_Z (OldValidityDays info * Dunning.day * p2) <= 1 # 2)%Q.
Proof.
  intros [Hp1 Hp2 [Hv1 Hv2] Hd Hc Hr] q.
  set (v1 := OldValidityDays info) in *. set (v2 := NewValidityDays info) in *.
  assert (0 < Dunning.day) as Hday by done.
  pose proof (quotient_val (OldPrice info) (NewFromInt v1) _ v1 Hp1 (val_NewFromInt v1) Hv1) as Ha.
  pose proof (quotient_val (NewPrice info) (NewFromInt v2) _ v2 Hp2 (val_NewFromInt v2) Hv2) as Hb.
  pose proof (quotient_val (NewFromInt rem) (NewFromInt Dunning.day) _ _ (val_NewFromInt rem)
    (val_NewFromInt Dunning.day) Hday) as Hrd.
  set (a := val (Div (OldPrice info) _)) in *. set (b := val (Div (NewPrice info) _)) in *.
  set (r := val (Div (NewFromInt rem) _)) in *.
  assert (1 # 100 <= (p2 # 100) / inject_Z v2)%Q as HB.
  { apply Qle_shift_div_l; [unfold Qlt; simpl; lia |]. unfold Qle, Qmult. simpl. lia. }
  assert (~ b == 0)%Q as Hb0.
  { set (B := ((p2 # 100) / inject_Z v2)%Q) in *. clearbody B. intros E. destruct Hb. lra. }
  assert (- (1 # 20000000000000000) <= q - a * r / b <= 1 # 20000000000000000)%Q as Hq.
  { unfold q. pose proof (div_near (Mul (Div (OldPrice info) (NewFromInt v1)) (Div (NewFromInt rem)
      (NewFromInt Dunning.day))) (Div (NewPrice info) (NewFromInt v2)) Hb0) as Hn.
    rewrite val_Mul in Hn. exact Hn. }
  eapply (quotient_near _ a ((p1 # 100) / inject_Z v1) r (inject_Z rem / inject_Z Dunning.day) b
    ((p2 # 100) / inject_Z v2) q (a * r / b)%Q); try done.
  - split; [apply Qle_shift_div_l | apply Qle_shift_div_r]; try (unfold Qlt; simpl; lia);
      unfold Qle, Qmult; simpl; lia.
  - split; [apply Qle_shift_div_l | apply Qle_shift_div_r]; try (unfold Qlt; simpl; lia);
      unfold Qle, Qmult; simpl; lia.
  - field. exact Hb0.
  - assert (~ inject_Z v1 == 0)%Q by by apply over_pos. assert (~ inject_Z v2 == 0)%Q by by apply over_pos.
    assert (~ inject_Z p2 == 0)%Q by (apply over_pos; lia).
    rewrite !inject_Z_mult. rewrite (Qmake_Qdiv p1), (Qmake_Qdiv p2). field. repeat split; try done.
Qed.

Lemma div_nonneg a b : (0 <= val a -> 0 < val b -> 0 <= val (Div a b))%Q.
Proof.
  intros Ha Hb. assert (~ val b == 0)%Q as Hb0 by lra. rewrite (val_Div a b Hb0).
  assert (0 <= val a / val b)%Q as Hq by (apply Qle_shift_div_l; [done | lra]).
  set (q := (val a / val b)%Q) in *. clearbody q. destruct q as [n d]. unfold Qle in *. simpl in Hq.
  unfold round_half_away. simpl. rewrite Z.mul_1_r. apply Gst.half_away_nonneg. nia.
Qed.

Lemma div_zero a b : (val a == 0 -> ~ val b == 0 -> val (Div a b) == 0)%Q.
Proof.
  intros Ha Hb. rewrite (val_Div a b Hb). assert (val a / val b == 0)%Q as -> by (rewrite Ha; field; done).
  reflexivity.
Qed.

Lemma trunc_inject z : trunc (inject_Z z) = z.
Proof. unfold trunc. simpl. case_match; unfold Qfloor; simpl; rewrite Z.div_1_r; lia. Qed.

Lemma new_daily_pos info p1 p2 rem :
  prorated info p1 p2 rem -> (0 < val (Div (NewPrice info) (NewFromInt (NewValidityDays info))))%Q.
Proof.
  intros [_ Hp2 [_ Hv2] _ Hc _].
  pose proof (quotient_val (NewPrice info) (NewFromInt (NewValidityDays info)) _ _ Hp2 (val_NewFromInt _) Hv2)
    as [Hn _].
  assert (1 # 100 <= (p2 # 100) / inject_Z (NewValidityDays info))%Q as HB
    by (apply Qle_shift_div_l; unfold Qle, Qlt, Qmult; simpl; lia).
  set (B := ((p2 # 100) / _)%Q) in *. clearbody B. lra.
Qed.

Lemma bonus_bounds info p1 p2 rem :
  prorated info p1 p2 rem ->
  let exact := exact_bonus p1 (OldValidityDays info) p2 (NewValidityDays info) rem in
  let bonus := bonus_days info rem in
  0 <= bonus /\ exact - 1 <= bonus <= exact + 1 /\ (rem = 0 -> bonus = 0).
Proof.
  intros Hp exact bonus. subst bonus. pose proof (bonus_quotient info p1 p2 rem Hp) as Hq. cbv zeta in Hq.
  pose proof (new_daily_pos _ _ _ _ Hp) as Hdaily. destruct Hp as [Hp1 Hp2 [Hv1 Hv2] Hd Hc Hr].
  unfold bonus_days.
  assert (Less (NewFromInt 0) (NewPrice info) = true) as ->
    by (rewrite (paise_less _ _ 0 p2 paise_zero Hp2); lia).
  replace ((0 <? OldValidityDays info) && (0 <? NewValidityDays info) && true) with true by lia.
  set (quo := Div (Mul _ _) (Div _ _)) in *.
  assert (exact = Qfloor (inject_Z (p1 * rem * NewValidityDays info) /
                          inject_Z (OldValidityDays info * Dunning.day * p2))) as Hexact by apply Zdiv_Qdiv.
  assert (0 <= exact <= 10 ^ 12) as Hb.
  { unfold exact, exact_bonus. assert (0 < OldValidityDays info * Dunning.day * p2) as Hpos
      by (repeat apply Z.mul_pos_pos; done || lia).
    split; [apply Z.div_pos; nia | apply Z.div_le_upper_bound; [done |]].
    set (D := Dunning.day) in *. set (v1 := OldValidityDays info) in *. set (v2 := NewValidityDays info) in *.
    transitivity (100000000 * v1 * (rem * v2)); [nia |].
    transitivity (100000000 * v1 * (10000 * D * v2)); [| nia].
    apply Z.mul_le_mono_nonneg_l; [lia | apply Z.mul_le_mono_nonneg_r; lia]. }
  pose proof (floor_near _ _ Hq) as Hf. rewrite <- Hexact in Hf.
  assert (0 <= Qfloor (val quo)) as Hq0.
  { change 0 with (Qfloor 0). apply Qfloor_resp_le. apply div_nonneg.
    - unfold is_paise in Hp1. rewrite val_Mul. apply Qmult_le_0_compat; apply div_nonneg;
        rewrite ?Hp1, ?val_NewFromInt; try (unfold Qle, Qlt; cbn [Qnum Qden inject_Z]; lia). reflexivity.
    - exact Hdaily. }
  assert (trunc (val (Floor quo)) = Qfloor (val quo)) as Ht by (rewrite val_Floor; apply trunc_inject).
  rewrite val_IntPart; rewrite Ht; [| lia]. split_and!; try lia.
  intros Hz. assert (val quo == 0)%Q as ->; [| done]. apply div_zero.
  - rewrite val_Mul, (div_zero (NewFromInt rem)); [ring | rewrite Hz; apply val_NewFromInt |].
    by rewrite val_NewFromInt; apply over_pos.
  - intros E. rewrite E in Hdaily. by apply Qlt_irrefl in Hdaily.
Qed.

(** Changing plan gives the new plan's full validity from now and, for
    the unused part of the old one, bonus days: never negative, and never more
    than one day from what exact arithmetic gives, the quotients being rounded
    to sixteen digits; with nothing unused there is no bonus. *)
Theorem bonus_within_a_day info p1 p2 now :
  let rem := remaining now (CurrentExpiry info) in
  prorated info p1 p2 rem ->
  let exact := exact_bonus p1 (OldValidityDays info) p2 (NewValidityDays info) rem in
  exists bonus, computePlanChangeExpiry info now = now + (NewValidityDays info + bonus) * Dunning.day /\
    0 <= bonus /\ exact - 1 <= bonus <= exact + 1 /\ (rem = 0 -> bonus = 0).
Proof. intros rem Hp exact. exists (bonus_days info rem). split; [done |]. by apply bonus_bounds. Qed.

End PlanChange.

(** ** What the statements leave *)

Lemma insertSubscriber_spec up s h w :
  let '(r, w') := insertSubscriber up s h w in
  match r with
  | Ok id =>
      id = next_subscriber w /\ next_subscriber w' = id + 1 /\ row_checks (billing_row s) = None /\
      identity_taken s w = false /\ is_Some (Billing.plans (bdb w) !! s_PlanID s) /\
      bdb w' = Billing.with_subscribers <[id := billing_row s]> (bdb w) /\
      accounts w' = <[id := MkAccount (s_CAFNumber s) (Billing.nullif_empty (s_Email s)) h (s_KYCStatus s)]>
                      (accounts w)
  | Err _ => bdb w' = bdb w /\ accounts w' = accounts w /\ next_subscriber w <= next_subscriber w'
  end.
Proof.
  unfold insertSubscriber. destruct up; simpl; [| split_and!; done || lia].
  destruct (row_checks (billing_row s)) as [x |]; [split_and!; simpl; done || lia |].
  unfold identity_taken. cbn [bdb accounts].
  destruct (varchar 50 _ && _ && _); cbn [negb]; [| split_and!; simpl; done || lia].
  destruct (bool_decide (map_Exists _ (accounts w)) || _) eqn:Hid; [split_and!; simpl; done || lia |].
  destruct (bool_decide (is_Some (Billing.plans (bdb w) !! s_PlanID s))) eqn:Hp; simpl;
    [| split_and!; simpl; done || lia].
  destruct (Billing.franchise_ok _ _); simpl; [| split_and!; simpl; done || lia].
  apply bool_decide_eq_true in Hp. done.
Qed.

(** Logging, events, queues and caches are not the subscriber tables. *)
Definition same_subscribers (w w' : world) : Prop :=
  bdb w' = bdb w /\ accounts w' = accounts w /\ next_subscriber w' = next_subscriber w.

Lemma persistKYC_same c e id a p w : same_subscribers w (persistKYC c e id a p w).
Proof.
  unfold persistKYC, UpsertKYC, same_subscribers. repeat (case_match; simpl; try done).
Qed.

Lemma emit_same c ev id w : same_subscribers w (emit c ev id w).
Proof. unfold emit, same_subscribers. by destruct (has_events c). Qed.

Lemma invalidate_same c e u w : same_subscribers w (invalidate c e u w).
Proof. unfold invalidate, same_subscribers. by destruct (has_cache c && cache_up e). Qed.

Lemma enqueue_if_active_same `{Decimal} now c e t p id w :
  same_subscribers w (enqueue_if_active now c e t p id w).
Proof. unfold enqueue_if_active, same_subscribers. repeat (case_match; simpl; try done). Qed.

(** ** The subscriber tables stay well formed *)

Record well_formed (w : world) : Prop := {
  wf_row id r : Billing.subscribers (bdb w) !! id = Some r ->
    row_checks r = None /\ is_Some (Billing.plans (bdb w) !! Billing.plan_id r) /\ is_Some (accounts w !! id);
  wf_account id : is_Some (accounts w !! id) -> id < next_subscriber w;
  wf_caf i j a b : accounts w !! i = Some a -> accounts w !! j = Some b -> caf_number a = caf_number b -> i = j;
  wf_username i j r r' : Billing.subscribers (bdb w) !! i = Some r -> Billing.subscribers (bdb w) !! j = Some r' ->
    Billing.username r = Billing.username r' -> i = j
}.

Lemma wf_same w w' : same_subscribers w w' -> well_formed w -> well_formed w'.
Proof.
  intros (Hb & Ha & Hn) [H1 H2 H3 H4]. split; rewrite ?Hb, ?Ha, ?Hn; eauto.
Qed.

Lemma wf_later w w' :
  bdb w' = bdb w -> accounts w' = accounts w -> next_subscriber w <= next_subscriber w' ->
  well_formed w -> well_formed w'.
Proof.
  intros Hb Ha Hn [H1 H2 H3 H4]. split; rewrite ?Hb, ?Ha; eauto. intros id Hid%H2. lia.
Qed.

Lemma wf_update w id r r' :
  Billing.subscribers (bdb w) !! id = Some r -> row_checks r' = None ->
  is_Some (Billing.plans (bdb w) !! Billing.plan_id r') -> Billing.username r' = Billing.username r ->
  well_formed w -> well_formed (with_bdb (Billing.with_subscribers <[id := r']> (bdb w)) w).
Proof.
  intros Hr Hc Hp Hu [H1 H2 H3 H4]. split; simpl; try done.
  - intros i ri. rewrite lookup_insert. case_decide as Hi; [intros [= <-]; subst i |]; [| by apply H1].
    destruct (H1 id r Hr) as (_ & _ & ?). done.
  - intros i j ri rj. rewrite !lookup_insert.
    case_decide as Hi; case_decide as Hj; subst; [done | intros [= <-] | intros ? [= <-] | eauto].
    + rewrite Hu. eauto.
    + rewrite Hu. eauto.
Qed.

Lemma UpdateSubscriber_wf up id p st ex w :
  well_formed w -> well_formed (UpdateSubscriber up id p st ex w).2.
Proof.
  intros Hw. unfold UpdateSubscriber. destruct up; [| done].
  destruct (Billing.subscribers (bdb w) !! id) as [r |] eqn:Hr; [| done]. cbn [negb].
  destruct (row_checks _) eqn:Hc; [done |].
  destruct ((_ =? _) || _) eqn:Hp; [| done]. eapply wf_update; try done.
  apply orb_true_iff in Hp as [Hp | Hp].
  - apply Z.eqb_eq in Hp. rewrite Hp. by destruct (wf_row w Hw id r Hr) as (_ & ? & _).
  - by apply bool_decide_eq_true in Hp.
Qed.

Lemma row_checks_None r :
  row_checks r = None <->
  not_billable (Billing.status r) (Billing.plan_expiry r) = false /\ E164 (Billing.mobile_number r) = true /\
  0 <= Billing.wallet_balance r /\ existsb (String.eqb (Billing.status r)) Dunning.statuses = true /\
  widths_ok r = true.
Proof.
  unfold row_checks. destruct (widths_ok r); cbn [negb]; [| split; [done | by intros (_ & _ & _ & _ & ?)]].
  destruct (not_billable _ _); [split; [done | by intros (? & _)] |].
  destruct (E164 (Billing.mobile_number r)); cbn [negb]; [| split; [done | by intros (_ & ? & _)]].
  destruct (Z.ltb_spec (Billing.wallet_balance r) 0); [split; [done | lia] |].
  destruct (existsb (String.eqb (Billing.status r)) Dunning.statuses); cbn [negb];
    [split; [intros _; by split_and! | done] | split; [done | by intros (_ & _ & _ & ? & _)]].
Qed.

Lemma TerminateSubscriber_wf up id w : well_formed w -> well_formed (TerminateSubscriber up id w).2.
Proof.
  intros Hw. unfold TerminateSubscriber. destruct up; [| done].
  destruct (Billing.subscribers (bdb w) !! id) as [r |] eqn:Hr; [| done]. simpl.
  destruct (wf_row w Hw id r Hr) as (Hc & Hp & _).
  replace (Dunning.update Dunning.terminated id (bdb w))
    with (Billing.with_subscribers <[id := Dunning.terminated r]> (bdb w)).
  - eapply wf_update; try done. apply row_checks_None in Hc as (_ & ? & ? & _ & Hw').
    apply row_checks_None. split_and!; try done. unfold widths_ok in *. simpl. revert Hw'.
    rewrite !andb_true_iff. by intros ((((? & ?) & ?) & ?) & _).
  - unfold Dunning.update, Billing.with_subscribers. f_equal. apply map_eq. intros i.
    rewrite lookup_insert, lookup_alter. case_decide; [subst i; by rewrite Hr | done].
Qed.

Section Steps.
Context `{DecimalLaws}.

Lemma changeSubscriberPlan_same now c e id q w :
  exists w', (w' = w \/ exists ex, w' = (SetSubscriberPlan (set_plan_up e) id q ex w).2) /\
    same_subscribers w' (changeSubscriberPlan now c e id q w).2.
Proof.
  unfold changeSubscriberPlan. destruct (GetPlanChangeInfo e id q (bdb w)) as [[info |] | x];
    [| exists w; split; [by left | done] ..].
  exists (SetSubscriberPlan (set_plan_up e) id q (computePlanChangeExpiry info now) w).2.
  split; [right; eauto |].
  destruct (SetSubscriberPlan _ _ _ _ _) as [[[r |] | x] w']; simpl; try done.
  destruct (enqueue_if_active_same now c e FUP.TaskTypeCoA
    (fun sess => FUP.marshal_coa (FUP.MkCoA id (LiveSessions.h_NasIP sess))) id
    (invalidate c e (pc_Username info) w')) as (Hb & Ha & Hn).
  destruct (invalidate_same c e (pc_Username info) w') as (Hb' & Ha' & Hn').
  unfold same_subscribers, enqueueCoAIfSessionActive. simpl. split_and!; congruence.
Qed.

Lemma changeSubscriberPlan_wf now c e id q w :
  well_formed w -> well_formed (changeSubscriberPlan now c e id q w).2.
Proof.
  intros Hw. destruct (changeSubscriberPlan_same now c e id q w) as (w' & Hw' & Hs).
  eapply wf_same; [exact Hs |]. destruct Hw' as [-> | [ex ->]]; [done | by apply UpdateSubscriber_wf].
Qed.

Lemma for_many_wf one ids w :
  (forall id w, well_formed w -> well_formed (one id w).2) -> well_formed w ->
  well_formed (for_many one ids w).2.
Proof.
  intros Hone Hw. unfold for_many. apply (foldl_invariant (fun x : list BulkResult * world => well_formed x.2)); [| done].
  intros [rs w'] id Hw'. simpl in *. specialize (Hone id w' Hw'). by destruct (one id w').
Qed.

Lemma CreateSubscriber_wf up s h w : well_formed w -> well_formed (CreateSubscriber up s h w).2.
Proof.
  intros Hw. unfold CreateSubscriber. set (s' := MkRecord _ _ _ _ _ _ _ _ _ _ _ _).
  pose proof (insertSubscriber_spec up s' h w) as Hs. destruct (insertSubscriber up s' h w) as [[id | x] w'].
  2: { destruct Hs as (Hb & Ha & Hn). by eapply wf_later. }
  destruct Hs as (-> & Hn & Hc & Hi & Hp & Hb & Ha). destruct Hw as [H1 H2 H3 H4].
  unfold identity_taken in Hi. apply orb_false_iff in Hi as [Hcaf Hname].
  apply bool_decide_eq_false in Hcaf, Hname. unfold map_Exists in Hcaf, Hname.
  simpl. split; rewrite ?Hb, ?Ha, ?Hn; simpl.
  - intros i r. rewrite !lookup_insert. case_decide; [intros [= <-]; split_and!; try done; by eexists |].
    intros (? & ? & ?)%H1. done.
  - intros i. rewrite lookup_insert. case_decide; [lia |]. intros ?%H2. lia.
  - intros i j a b. rewrite !lookup_insert. repeat case_decide; subst; try done; eauto.
    + intros [= <-] Hb' Hcn. destruct Hcaf. exists j, b. by rewrite <- Hcn.
    + intros Ha' [= <-] Hcn. destruct Hcaf. by exists i, a.
  - intros i j r r'. rewrite !lookup_insert. repeat case_decide; subst; try done; eauto.
    + intros [= <-] Hb' Hcn. destruct Hname. exists j, r'. by rewrite <- Hcn.
    + intros Ha' [= <-] Hcn. destruct Hname. by exists i, r.
Qed.

Lemma ProvisionSubscriber_same c e hash req w :
  exists w', (w' = w \/ exists h, w' = (CreateSubscriber (create_up e) (subscriberRecordFrom req) h w).2) /\
    same_subscribers w' (ProvisionSubscriber c e hash req w).2.
Proof.
  unfold ProvisionSubscriber. destruct (validateCreateSubscriber req); [exists w; split; [by left | done] |].
  destruct (hash (Password req)) as [h |]; [| exists w; split; [by left | done]].
  exists (CreateSubscriber (create_up e) (subscriberRecordFrom req) h w).2. split; [right; eauto |].
  destruct (CreateSubscriber _ _ _ _) as [[id | x] w']; simpl; [| done].
  destruct (persistKYC_same c e id (Aadhaar req) (PAN req) w') as (Hb & Ha & Hn).
  destruct (emit_same c EventSubscriberCreated id
    (Audit "subscriber.create" id (persistKYC c e id (Aadhaar req) (PAN req) w'))) as (Hb' & Ha' & Hn').
  simpl in *. unfold same_subscribers. split_and!; congruence.
Qed.

(** The operations of this file, and a direct termination. *)
Inductive step : world -> world -> Prop :=
| step_create c e hash body w : step w (CreateSubscriberHandler c e hash body w).2
| step_update c e id body w : step w (UpdateSubscriberHandler c e id body w).2
| step_plan now c e id q w : step w (ChangeSubscriberPlan now c e id q w).2
| step_bulk_plan now c e body w : step w (BulkChangeSubscriberPlan now c e body w).2
| step_bulk_status c e body w : step w (BulkUpdateStatus c e body w).2
| step_terminate up id w : step w (TerminateSubscriber up id w).2.

Lemma status_one_wf c e id st w :
  well_formed w -> well_formed (match UpdateSubscriber (update_up e) id None (Some st) None w with
    | (Err x, w) => (Some x, w)
    | (Ok None, w) => (Some ErrSubscriberNotFound, w)
    | (Ok (Some _), w) => (None, emit c EventSubscriberStatusChanged id (Audit "subscriber.update" id w))
    end).2.
Proof.
  intros Hw. pose proof (UpdateSubscriber_wf (update_up e) id None (Some st) None w Hw) as Hu.
  destruct (UpdateSubscriber _ _ _ _ _ _) as [[[r |] | x] w']; simpl in *; try done.
  eapply wf_same; [apply emit_same |]. by eapply wf_same; [| exact Hu].
Qed.

Lemma step_wf w w' : well_formed w -> step w w' -> well_formed w'.
Proof.
  intros Hw Hstep. revert Hw.
  destruct Hstep as [c e hash body w0 | c e id body w0 | now c e id q w0 | now c e body w0 | c e body w0 | up id w0];
    intros Hw.
  - destruct body as [req |]; [| done]. simpl.
    destruct (ProvisionSubscriber_same c e hash req w0) as (w1 & Hw1 & Hs).
    assert (well_formed (ProvisionSubscriber c e hash req w0).2) as Hp.
    { eapply wf_same; [exact Hs |]. destruct Hw1 as [-> | [h ->]]; [done | by apply CreateSubscriber_wf]. }
    destruct (ProvisionSubscriber c e hash req w0) as [[id | []] w2]; done.
  - destruct id as [id |], body as [b |]; try done. simpl.
    pose proof (UpdateSubscriber_wf (update_up e) id (pt_PlanID b) (pt_Status b) (pt_PlanExpiry b) w0 Hw) as Hu.
    destruct (UpdateSubscriber _ _ _ _ _ _) as [[o | []] w1]; simpl in *; try done.
    destruct (pt_Status b); [eapply wf_same; [apply emit_same |] |]; by eapply wf_same; [| exact Hu].
  - destruct id as [id |]; [| done]. simpl. destruct (has_lifecycle c); [| done]. destruct q as [q |]; [| done].
    simpl. destruct (q <=? 0); [done |]. pose proof (changeSubscriberPlan_wf now c e id q w0 Hw) as Hp.
    destruct (changeSubscriberPlan _ _ _ _ _ _) as [[r | []] w1]; done.
  - unfold BulkChangeSubscriberPlan. destruct (has_lifecycle c), body as [[ids q] |]; simpl; try done.
    destruct (validateBulkIDs ids); [| done]. simpl. destruct (q <=? 0); [done |].
    assert (well_formed (ChangePlanForMany now c e ids q w0).2) as Hp.
    { apply for_many_wf; [| done]. intros id w1 Hw1. pose proof (changeSubscriberPlan_wf now c (e id) id q w1 Hw1).
      by destruct (changeSubscriberPlan _ _ _ _ _ _) as [[r | x] w2]. }
    by destruct (ChangePlanForMany _ _ _ _ _ _).
  - unfold BulkUpdateStatus. destruct (has_db c), body as [[ids st] |]; simpl; try done.
    destruct (validateBulkIDs ids); [| done]. simpl. destruct (negb _); [done |].
    assert (well_formed (UpdateStatusForMany c e ids st w0).2) as Hp
      by (apply for_many_wf; [intros; by apply status_one_wf | done]).
    by destruct (UpdateStatusForMany _ _ _ _ _).
  - by apply TerminateSubscriber_wf.
Qed.

(** C14: Whatever the subscriber operations do and however they fail, the
    subscriber tables stay well formed: every row satisfies its checks and has
    its plan and its identity, no CAF number and no username occurs twice,
    new ids are fresh; so nobody ever holds a status RADIUS serves without an
    expiry, the state neither billing scanner can see. *)
Theorem subscribers_stay_billable w w' :
  star step w w' -> well_formed w ->
  well_formed w' /\
  forall id r, Billing.subscribers (bdb w') !! id = Some r ->
    Identity.AuthorisesService (Billing.status r) = true -> is_Some (Billing.plan_expiry r).
Proof.
  intros Hs Hw. assert (well_formed w') as Hw' by (revert Hs Hw; apply star_invariant; eauto using step_wf).
  split; [done |]. intros id r Hr Ha. destruct (wf_row w' Hw' id r Hr) as (Hc & _ & _).
  apply row_checks_None in Hc as (Hb & _). unfold not_billable in Hb. apply andb_false_iff in Hb as [Hb | Hb].
  - apply negb_false_iff, existsb_exists in Hb as (st & Hin & Heq%String.eqb_eq). rewrite Heq in Ha.
    by destruct Hin as [<- | [<- | [<- | []]]].
  - by apply negb_false_iff, bool_decide_eq_true in Hb.
Qed.

(** A successful signup adds one subscriber and touches no other: on an
    existing plan, waiting for its payment, with no expiry, no money, a status
    RADIUS does not serve, an E.164 number and a registered state in its
    canonical spelling, so that the GST of every later invoice can be
    decided. A signup that fails leaves the billing tables and the accounts as
    they were. *)
Theorem signup_grants_nothing c e hash req w :
  let '(res, w') := ProvisionSubscriber c e hash req w in
  match res with
  | Ok id =>
      id = next_subscriber w /\
      exists r h, hash (Password req) = Some h /\
        bdb w' = Billing.with_subscribers <[id := r]> (bdb w) /\
        (exists a, accounts w' = <[id := a]> (accounts w) /\ password_hash a = h /\ caf_number a = CAFNumber req) /\
        Billing.username r = Username req /\ Billing.plan_id r = PlanID req /\
        is_Some (Billing.plans (bdb w) !! PlanID req) /\
        Billing.status r = Renewal.StatusPendingPayment /\ Billing.plan_expiry r = None /\
        Billing.wallet_balance r = 0 /\ Identity.AuthorisesService (Billing.status r) = false /\
        E164 (Billing.mobile_number r) = true /\
        Gst.NormaliseState (RegisteredState req) = Some (Billing.registered_state r)
  | Err _ => bdb w' = bdb w /\ accounts w' = accounts w
  end.
Proof.
  unfold ProvisionSubscriber. destruct (validateCreateSubscriber req) as [x |] eqn:Hv; [done |].
  destruct (hash (Password req)) as [h |]; [| done].
  unfold CreateSubscriber. set (s' := MkRecord _ _ _ _ _ _ _ _ _ _ _ _).
  pose proof (insertSubscriber_spec (create_up e) s' h w) as Hs.
  destruct (insertSubscriber (create_up e) s' h w) as [[id | x] w1]; [| by destruct Hs as (? & ? & _)].
  destruct Hs as (-> & Hn & Hc & Hi & Hp & Hb & Ha). split; [done |].
  destruct (persistKYC_same c e (next_subscriber w) (Aadhaar req) (PAN req) w1) as (Hb1 & Ha1 & _).
  destruct (emit_same c EventSubscriberCreated (next_subscriber w) (Audit "subscriber.create" (next_subscriber w)
    (persistKYC c e (next_subscriber w) (Aadhaar req) (PAN req) w1))) as (Hb2 & Ha2 & _).
  exists (billing_row s'), h. apply row_checks_None in Hc as (_ & HE & _).
  unfold validateCreateSubscriber in Hv.
  destruct (Gst.NormaliseState (RegisteredState req)) as [st |] eqn:Hg; [| by repeat case_match].
  split_and!; try done.
  - by rewrite Hb2; simpl; rewrite Hb1.
  - eexists. rewrite Ha2. simpl. rewrite Ha1. by split_and!.
  - simpl. by rewrite Hg.
Qed.

(** A change that goes through dates the row from now, with the bonus. *)
Lemma plan_change_row now c e id q w r p p' :
  Billing.subscribers (bdb w) !! id = Some r -> Billing.plans (bdb w) !! Billing.plan_id r = Some p ->
  Billing.plans (bdb w) !! q = Some p' -> row_checks r = None ->
  info_up e = true -> plan_up e = true -> set_plan_up e = true ->
  exists info, OldPrice info = of_paise (Billing.price p) /\ NewPrice info = of_paise (Billing.price p') /\
    OldValidityDays info = Billing.validity_days p /\ NewValidityDays info = Billing.validity_days p' /\
    CurrentExpiry info = Billing.plan_expiry r /\
    bdb (changeSubscriberPlan now c e id q w).2 =
      Billing.with_subscribers <[id := updated_row (Some q) None (Some (computePlanChangeExpiry info now)) r]> (bdb w).
Proof.
  intros Hr Hp Hq Hc Hi Hpu Hs. unfold changeSubscriberPlan, GetPlanChangeInfo.
  rewrite Hi, Hr. cbn [negb mbind option_bind]. rewrite Hp. cbn [mbind option_bind]. rewrite Hpu, Hq.
  cbn [negb]. set (info := MkInfo _ _ _ _ _ _). exists info. do 5 (split; [reflexivity |]).
  unfold SetSubscriberPlan, UpdateSubscriber. rewrite Hs, Hr. cbn [negb].
  assert (row_checks (updated_row (Some q) None (Some (computePlanChangeExpiry info now)) r) = None) as ->.
  { apply row_checks_None in Hc as (_ & ? & ? & ? & ?). apply row_checks_None. split_and!; try done.
    unfold not_billable. simpl. apply andb_false_r. }
  assert (bool_decide (is_Some (Billing.plans (bdb w) !! q)) = true) as Hb
    by (apply bool_decide_eq_true; by rewrite Hq).
  cbn [Billing.plan_id updated_row default from_option Datatypes.id]. rewrite Hb, orb_true_r.
  etransitivity; [apply enqueue_if_active_same |]. by etransitivity; [apply invalidate_same |].
Qed.

(** A row whose expiry is less than a week ahead leaves a scan active. *)
Lemma settled_dated t r ex :
  Billing.plan_expiry r = Some ex -> Billing.dunning_state r = Dunning.DunningActive ->
  Billing.status r <> "terminated"%string -> ex - 7 * Dunning.day <= t < ex ->
  Billing.status (Dunning.settled t r) = "active"%string /\
  Billing.plan_expiry (Dunning.settled t r) = Some ex /\
  Billing.wallet_balance (Dunning.settled t r) = Billing.wallet_balance r.
Proof.
  intros He Hd Hst%String.eqb_neq Ht. rewrite (Dunning.settled_spec t r ex He Hst). cbv zeta. rewrite Hd.
  assert (Dunning.bucket ex t = 3 \/ Dunning.bucket ex t = 4 \/ Dunning.bucket ex t = 5)%nat as Hb.
  { unfold Dunning.bucket. assert (0 < Dunning.time_sub ex t <= 7 * Dunning.day) as Hu.
    { unfold Dunning.time_sub, max_int64. assert (7 * Dunning.day < 2 ^ 63 - 1) by done. lia. }
    repeat (case_match; [lia || auto |]). lia. }
  destruct Hb as [-> | [-> | ->]]; split_and!; try done.
Qed.

(** A subscriber who never paid, moved to another plan, is served for
    nothing: the change dates the row, so no renewal scan charges it before
    that date, whatever is in the wallet, and any dunning scan in the last week
    before the date makes it active, which RADIUS serves, with the wallet, the
    ledger and the invoices as they were. *)
Theorem plan_change_serves_unpaid now t c e id q w ts r p p' :
  Billing.subscribers (bdb w) !! id = Some r -> Billing.plans (bdb w) !! Billing.plan_id r = Some p ->
  Billing.plans (bdb w) !! q = Some p' ->
  Billing.status r = Renewal.StatusPendingPayment -> Billing.plan_expiry r = None ->
  Billing.dunning_state r = Dunning.DunningActive -> row_checks r = None -> Dunning.staged (bdb w) ->
  info_up e = true -> plan_up e = true -> set_plan_up e = true ->
  0 < Billing.validity_days p -> 0 < Billing.validity_days p' <= Billing.price p' ->
  0 <= Billing.price p <= 100000000 * Billing.validity_days p ->
  let ex := now + Billing.validity_days p' * Dunning.day in
  ex - 7 * Dunning.day <= t < ex ->
  let w1 := (changeSubscriberPlan now c e id q w).2 in
  let d := Dunning.bdb (Dunning.Scan t Dunning.all_up (Dunning.MkWorld (bdb w1) ts)).2 in
  (exists r', Billing.subscribers d !! id = Some r' /\ Billing.status r' = "active"%string /\
     Billing.plan_expiry r' = Some ex /\ Identity.AuthorisesService (Billing.status r') = true /\
     Billing.wallet_balance r' = Billing.wallet_balance r) /\
  (exists r1, Billing.subscribers (bdb w1) !! id = Some r1 /\
     forall u p, u < ex -> Renewal.renewable u r1 p = false) /\
  Billing.wallet_ledgers d = Billing.wallet_ledgers (bdb w) /\
  Billing.invoices d = Billing.invoices (bdb w).
Proof.
  intros Hr Hp Hq Hst He Hd Hc Hsg Hi Hpu Hs Hv Hv' Hpr ex Ht w1 d.
  destruct (plan_change_row now c e id q w r p p' Hr Hp Hq Hc Hi Hpu Hs)
    as (info & Ho & Hn & Hov & Hnv & Hce & Hw1). fold w1 in Hw1.
  assert (prorated info (Billing.price p) (Billing.price p') 0) as Hpro.
  { split; rewrite ?Ho, ?Hn, ?Hov, ?Hnv; try apply paise_of; lia. }
  assert (computePlanChangeExpiry info now = ex) as Hex.
  { unfold computePlanChangeExpiry, Renewal.add_days, remaining. rewrite Hce, He, Hnv.
    destruct (bonus_bounds info _ _ 0 Hpro) as (_ & _ & ->); [| done]. unfold ex. lia. }
  rewrite Hex in Hw1. set (r1 := updated_row (Some q) None (Some ex) r) in *.
  assert (Dunning.staged (bdb w1)) as Hsg1.
  { rewrite Hw1. intros i ri. simpl. rewrite lookup_insert.
    case_decide; [intros [= <-]; simpl; by eapply Hsg | apply Hsg]. }
  destruct (Dunning.scan_db t (Dunning.MkWorld (bdb w1) ts) Hsg1) as [_ Hdb]. fold d in Hdb. cbn in Hdb.
  assert (Billing.subscribers (bdb w1) !! id = Some r1) as Hr1
    by (rewrite Hw1; simpl; by rewrite lookup_insert, decide_True by done).
  assert (Billing.status r1 <> "terminated"%string) as Hnt by (simpl; by rewrite Hst).
  destruct (settled_dated t r1 ex eq_refl Hd Hnt Ht) as (Ha & Hx & Hb).
  split_and!.
  - exists (Dunning.settled t r1). rewrite Ha, Hdb. split_and!; try done. simpl. by rewrite lookup_fmap, Hr1.
  - exists r1. split; [done |]. intros u p0 Hu. unfold Renewal.renewable. simpl.
    replace (ex <=? u) with false by lia. by rewrite andb_false_r.
  - by rewrite Hdb, Hw1.
  - by rewrite Hdb, Hw1.
Qed.

End Steps.

(** ** Witnesses *)

Definition demo_config : Config := MkConfig true true true true true true None "v1".

Definition demo_row : Billing.SubscriberRow :=
  Billing.MkSubscriber "ravi" "+919800000002" None "Kerala" "pending_payment" "active" 0 7 None.

(** The billing database with a second subscriber, who has not paid, and a
    five-day plan. *)
Definition demo_db : Billing.DB :=
  let d := Billing.with_subscribers <[2 := demo_row]> Billing.demo_db in
  Billing.MkDB (Billing.subscribers d) (<[8 := Billing.MkPlan "Week" 9900 5 10]> (Billing.plans d))
    (Billing.franchises d) (Billing.wallet_ledgers d) (Billing.next_ledger d) (Billing.chart_of_accounts d)
    (Billing.journal_entries d) (Billing.next_entry d) (Billing.journal_lines d) (Billing.gst_rates d)
    (Billing.invoices d) (Billing.next_invoice d).

Definition demo_world : world :=
  MkWorld demo_db {[ 1 := MkAccount "CAF-1" None "h1" "pending"; 2 := MkAccount "CAF-2" None "h2" "pending" ]} 3 ∅
    ∅ (Jobqueue.MkTable ∅ 1) ∅ [] [].

Lemma demo_subscribers id r :
  Billing.subscribers demo_db !! id = Some r -> id = 1 /\ r = Billing.demo_subscriber \/ id = 2 /\ r = demo_row.
Proof.
  simpl. rewrite lookup_insert. case_decide; [intros [= <-]; by right |].
  intros [<- <-]%lookup_singleton_Some. by left.
Qed.

Lemma demo_wf : well_formed demo_world.
Proof.
  split; simpl.
  - intros id r [[-> ->] | [-> ->]]%demo_subscribers; split_and!; vm_compute; eauto.
  - intros id [a Ha]. apply lookup_insert_Some in Ha as [[<- _] | [_ [<- _]%lookup_singleton_Some]]; lia.
  - intros i j a b Ha Hb.
    apply lookup_insert_Some in Ha as [[<- <-] | [_ [<- <-]%lookup_singleton_Some]];
    apply lookup_insert_Some in Hb as [[<- <-] | [_ [<- <-]%lookup_singleton_Some]]; done.
  - intros i j r r' [[-> ->] | [-> ->]]%demo_subscribers [[-> ->] | [-> ->]]%demo_subscribers; done.
Qed.

Lemma demo_subscribers_staged : Dunning.staged demo_db.
Proof.
  intros id r [[-> ->] | [-> ->]]%demo_subscribers; apply Dunning.existsb_ladder; reflexivity.
Qed.

Lemma subscribers_stay_billable_witness :
  let w' := (ChangeSubscriberPlan (H := RationalDecimal) 0 demo_config all_up (Some 2) (Some 8) demo_world).2 in
  well_formed w' /\ Billing.plan_expiry <$> Billing.subscribers (bdb w') !! 2 = Some (Some (5 * Dunning.day)).
Proof.
  split; [| vm_compute; reflexivity].
  apply (subscribers_stay_billable (H := RationalDecimal) demo_world).
  - apply star_one. apply step_plan.
  - apply demo_wf.
Defined.

Definition demo_info (now : Z) : @PlanChangeInfo RationalDecimal :=
  @MkInfo RationalDecimal "asha" (Some (now + 30 * Dunning.day)) (@of_paise RationalDecimal 10000) 30
    (@of_paise RationalDecimal 5000) 10.

(** A month bought for 100 and changed at once to ten days for 50 is worth
    twenty of those days; the subscriber gets nineteen. *)
Example plan_change_loses_a_day :
  exact_bonus 10000 30 5000 10 (30 * Dunning.day) = 20 /\
  bonus_days (H := RationalDecimal) (demo_info 0) (30 * Dunning.day) = 19.
Proof. vm_compute. done. Qed.

Lemma bonus_within_a_day_witness :
  exists bonus, computePlanChangeExpiry (H := RationalDecimal) (demo_info 0) 0 = (10 + bonus) * Dunning.day /\
    19 <= bonus <= 21.
Proof.
  assert (@prorated RationalDecimal RationalLaws (demo_info 0) 10000 5000 (remaining 0 (CurrentExpiry (demo_info 0)))) as Hp
    by (split; try apply (paise_of (H0 := RationalLaws)); vm_compute; try split; discriminate || reflexivity).
  destruct (bonus_within_a_day (H0 := RationalLaws) (demo_info 0) 10000 5000 0 Hp) as (b & Hb & _ & Hn & _).
  exists b. split; [exact Hb | exact Hn].
Defined.

Lemma plan_change_serves_unpaid_witness :
  let w1 := (changeSubscriberPlan (H := RationalDecimal) 0 demo_config all_up 2 8 demo_world).2 in
  let d := Dunning.bdb (Dunning.Scan 1 Dunning.all_up (Dunning.MkWorld (bdb w1) (Jobqueue.MkTable ∅ 1))).2 in
  exists r', Billing.subscribers d !! 2 = Some r' /\ Identity.AuthorisesService (Billing.status r') = true.
Proof.
  cbv zeta.
  assert (Billing.plans demo_db !! 7 = Some (Billing.MkPlan "Home 100" 49900 30 500)) as Hp by (vm_compute; reflexivity).
  assert (Billing.plans demo_db !! 8 = Some (Billing.MkPlan "Week" 9900 5 10)) as Hq by (vm_compute; reflexivity).
  assert (Billing.subscribers demo_db !! 2 = Some demo_row) as Hr0 by (vm_compute; reflexivity).
  assert (row_checks demo_row = None) as Hc by (vm_compute; reflexivity).
  pose proof (plan_change_serves_unpaid (H := RationalDecimal) (H0 := RationalLaws) 0 1 demo_config all_up 2 8
    demo_world (Jobqueue.MkTable ∅ 1) demo_row _ _ Hr0 Hp Hq eq_refl eq_refl eq_refl Hc demo_subscribers_staged
    eq_refl eq_refl eq_refl
    ltac:(simpl; lia) ltac:(simpl; lia) ltac:(simpl; lia) ltac:(simpl; unfold Dunning.day, Dunning.hour; lia)) as Hw.
  cbv zeta in Hw. destruct Hw as ((r' & Hr & _ & _ & Ha & _) & _).
  exists r'. split; [exact Hr | exact Ha].
Defined.

End Subscribers.
