(* ===== verification/Inventory.v ===== *)
(** * Customer premises equipment: stock, issue, return, purchases

    internal/inventory, internal/api/inventory.go and internal/db/inventory.go
    over the tables of migration 027. Subscribers exist in another component:
    [subscribed] tells which ids the foreign key accepts. A handler's result is
    its HTTP status; the audit log holds each entry's action and target. *)

From S2P Require Import Prelude GoStrings Decimal Subscribers.
From stdpp Require Import sorting.

Local Open Scope Z_scope.

Module Inventory.

Definition StatusInStock : string := "in_stock".
Definition StatusIssued : string := "issued".
Definition StatusReturned : string := "returned".
Definition StatusFaulty : string := "faulty".

Definition ValidStatus (s : string) : bool :=
  String.eqb s StatusInStock || String.eqb s StatusReturned || String.eqb s StatusFaulty.

(** ** State *)

Record DeviceType : Type := MkType { t_Name : string; t_Vendor : string; ReorderThreshold : Z }.

Record Device : Type := MkDevice {
  DeviceTypeID : Z;
  SerialNumber : string;
  MACAddress : option string;
  Status : string;
  Location : option string;
  SubscriberID : option Z;
  IssuedAt : option Z;
  Notes : option string
}.

(** The unit cost is in hundredths. *)
Record Purchase : Type := MkPurchase {
  p_DeviceTypeID : Z;
  p_Vendor : string;
  Quantity : Z;
  UnitCost : Z;
  InvoiceRef : option string;
  PurchasedBy : string
}.

Record stock : Type := MkStock {
  types : gmap Z DeviceType;
  next_type : Z;
  devices : gmap Z Device;
  next_device : Z;
  purchases : gmap Z Purchase;
  next_purchase : Z;
  IssuedTotal : Z;
  LowStockTypes : Z;
  audit : list (string * string)
}.

Definition with_devices (m : gmap Z Device) (n : Z) (s : stock) : stock :=
  MkStock (types s) (next_type s) m n (purchases s) (next_purchase s) (IssuedTotal s) (LowStockTypes s) (audit s).
Definition with_types (m : gmap Z DeviceType) (n : Z) (s : stock) : stock :=
  MkStock m n (devices s) (next_device s) (purchases s) (next_purchase s) (IssuedTotal s) (LowStockTypes s) (audit s).
Definition with_purchases (m : gmap Z Purchase) (n : Z) (s : stock) : stock :=
  MkStock (types s) (next_type s) (devices s) (next_device s) m n (IssuedTotal s) (LowStockTypes s) (audit s).
Definition set_gauge (n : Z) (s : stock) : stock :=
  MkStock (types s) (next_type s) (devices s) (next_device s) (purchases s) (next_purchase s) (IssuedTotal s) n (audit s).
Definition count_issue (s : stock) : stock :=
  MkStock (types s) (next_type s) (devices s) (next_device s) (purchases s) (next_purchase s) (IssuedTotal s + 1)
    (LowStockTypes s) (audit s).
Definition Audit (action target : string) (s : stock) : stock :=
  MkStock (types s) (next_type s) (devices s) (next_device s) (purchases s) (next_purchase s) (IssuedTotal s)
    (LowStockTypes s) (audit s ++ [(action, target)]).

Inductive error : Type := ErrQuery | ErrUnique | ErrConstraint.

(** [isUniqueViolation] on an error whose text quotes [name]. *)
Definition conflicts (name : string) (e : error) : bool :=
  Subscribers.isUniqueViolation name
    (match e with ErrUnique => Subscribers.ErrUnique | _ => Subscribers.ErrQuery end).

(** An INTEGER column or parameter. *)
Definition int4 (z : Z) : bool := (- 2 ^ 31 <=? z) && (z <? 2 ^ 31).

Definition nullif_empty (s : string) : option string := if String.eqb s EmptyString then None else Some s.

(** ** The store *)

Definition CreateDeviceType (up : bool) (t : DeviceType) (s : stock) : result error Z * stock :=
  if negb (up && int4 (ReorderThreshold t)) then (Err ErrQuery, s)
  else
    let id := next_type s in
    let s' := with_types (types s) (id + 1) s in
    if negb (Subscribers.varchar 100 (t_Name t) && Subscribers.varchar 100 (t_Vendor t) &&
             (0 <=? ReorderThreshold t))
    then (Err ErrConstraint, s')
    else if bool_decide (map_Exists (fun _ u => t_Name u = t_Name t) (types s)) then (Err ErrUnique, s')
    else (Ok id, with_types (<[id := t]> (types s)) (id + 1) s).

(** A row already has the serial number, or the MAC address. *)
Definition device_taken (d : Device) (s : stock) : bool :=
  bool_decide (map_Exists (fun _ u => SerialNumber u = SerialNumber d) (devices s)) ||
  bool_decide (map_Exists (fun _ u => is_Some (MACAddress d) /\ MACAddress u = MACAddress d) (devices s)).

Definition CreateDevice (up : bool) (typeID : Z) (serial mac location notes : string) (s : stock) :
    result error Z * stock :=
  if negb (up && int4 typeID) then (Err ErrQuery, s)
  else
    let id := next_device s in
    let d := MkDevice typeID serial (nullif_empty mac) StatusInStock (nullif_empty location) None None
               (nullif_empty notes) in
    let s' := with_devices (devices s) (id + 1) s in
    if negb (Subscribers.varchar 100 serial && Subscribers.varchar 17 mac && Subscribers.varchar 100 location)
    then (Err ErrConstraint, s')
    else if device_taken d s then (Err ErrUnique, s')
    else if negb (bool_decide (is_Some (types s !! typeID))) then (Err ErrConstraint, s')
    else (Ok id, with_devices (<[id := d]> (devices s)) (id + 1) s).

(** The row with a serial number; there is at most one. *)
Definition find_device (serial : string) (s : stock) : option (Z * Device) :=
  head (filter (fun p => SerialNumber p.2 = serial) (map_to_list (devices s))).

Definition GetDeviceBySerial (up : bool) (serial : string) (s : stock) : result error (option Device) :=
  if negb up then Err ErrQuery else Ok (snd <$> find_device serial s).

(** An absent filter matches everything. *)
Definition matches {A} `{EqDecision A} (filter : option A) (x : option A) : bool :=
  match filter with None => true | Some _ => bool_decide (x = filter) end.

Definition type_name (s : stock) (d : Device) : string :=
  default EmptyString (t_Name <$> types s !! DeviceTypeID d).

(** [ORDER BY t.name, d.serial_number], in the order of the bytes. *)
Definition by_type_and_serial (s : stock) (a b : Device) : Prop :=
  match String.compare (type_name s a) (type_name s b) with
  | Lt => true
  | Eq => String.leb (SerialNumber a) (SerialNumber b)
  | Gt => false
  end = true.
#[local] Instance by_type_and_serial_dec s : RelDecision (by_type_and_serial s).
Proof. intros a b. unfold by_type_and_serial. apply _. Defined.

Definition ListDevices (up : bool) (status : option string) (typeID holder : option Z) (s : stock) :
    result error (list Device) :=
  if negb up then Err ErrQuery
  else Ok (merge_sort (by_type_and_serial s)
    (filter (fun d => matches status (Some (Status d)) && matches typeID (Some (DeviceTypeID d)) &&
                      matches holder (SubscriberID d)) (snd <$> map_to_list (devices s)))).

Section Store.
Variable subscribed : Z -> bool.

(** The claim: a device that is not in stock is [None]. *)
Definition IssueDevice (now : Z) (up : bool) (serial : string) (subscriberID : Z) (s : stock) :
    result error (option Device) * stock :=
  if negb (up && int4 subscriberID) then (Err ErrQuery, s)
  else match find_device serial s with
       | None => (Ok None, s)
       | Some (id, d) =>
           if negb (String.eqb (Status d) StatusInStock) then (Ok None, s)
           else if negb (subscribed subscriberID) then (Err ErrConstraint, s)
           else
             let d := MkDevice (DeviceTypeID d) (SerialNumber d) (MACAddress d) StatusIssued (Location d)
                        (Some subscriberID) (Some now) (Notes d) in
             (Ok (Some d), with_devices (<[id := d]> (devices s)) (next_device s) s)
       end.

Definition device_statuses : list string := [StatusInStock; StatusIssued; StatusReturned; StatusFaulty].

(** The tables' checks refuse an unknown status, and [issued] without a
    holder. *)
Definition ReturnDevice (up : bool) (serial newStatus : string) (s : stock) :
    result error (option Device) * stock :=
  if negb up then (Err ErrQuery, s)
  else match find_device serial s with
       | None => (Ok None, s)
       | Some (id, d) =>
           if negb (String.eqb (Status d) StatusIssued) then (Ok None, s)
           else if negb (existsb (String.eqb newStatus) device_statuses) || String.eqb newStatus StatusIssued
           then (Err ErrConstraint, s)
           else
             let d := MkDevice (DeviceTypeID d) (SerialNumber d) (MACAddress d) newStatus (Location d)
                        None None (Notes d) in
             (Ok (Some d), with_devices (<[id := d]> (devices s)) (next_device s) s)
       end.

Record StockLevel : Type := MkLevel {
  l_DeviceTypeID : Z;
  l_DeviceType : DeviceType;
  InStock : Z;
  Issued : Z;
  Faulty : Z;
  IsLow : bool
}.

(** [COUNT(d.id) FILTER (WHERE d.status = …)] within one type. *)
Definition count (s : stock) (typeID : Z) (status : string) : Z :=
  Z.of_nat (length (filter (fun d => DeviceTypeID d = typeID /\ Status d = status)
    (snd <$> map_to_list (devices s)))).

Definition level (s : stock) (typeID : Z) (t : DeviceType) : StockLevel :=
  let n := count s typeID StatusInStock in
  MkLevel typeID t n (count s typeID StatusIssued) (count s typeID StatusFaulty) (n <=? ReorderThreshold t).

Definition by_name (a b : StockLevel) : Prop :=
  String.leb (t_Name (l_DeviceType a)) (t_Name (l_DeviceType b)) = true.
#[local] Instance by_name_dec : RelDecision by_name.
Proof. intros a b. unfold by_name. apply _. Defined.

Definition GetStockLevels (up lowOnly : bool) (s : stock) : result error (list StockLevel) :=
  if negb up then Err ErrQuery
  else Ok (filter (fun l => negb (lowOnly && negb (IsLow l)))
    (merge_sort by_name ((fun p => level s p.1 p.2) <$> map_to_list (types s)))).

Definition RecordPurchase `{Decimal} (up : bool) (typeID : Z) (vendor : string) (quantity : Z) (unitCost : dec)
    (invoiceRef by_ : string) (s : stock) : result error Z * stock :=
  if negb (up && int4 typeID && int4 quantity) then (Err ErrQuery, s)
  else
    let id := next_purchase s in
    let s' := with_purchases (purchases s) (id + 1) s in
    match numeric 12 unitCost with
    | None => (Err ErrConstraint, s')
    | Some cost =>
        if Subscribers.varchar 100 vendor && Subscribers.varchar 100 invoiceRef &&
           Subscribers.varchar 100 by_ && (0 <? quantity) && (0 <=? cost) &&
           bool_decide (is_Some (types s !! typeID))
        then let p := MkPurchase typeID vendor quantity cost (nullif_empty invoiceRef) by_ in
             (Ok id, with_purchases (<[id := p]> (purchases s)) (id + 1) s)
        else (Err ErrConstraint, s')
    end.

(** ** The handlers *)

Record Env : Type := MkEnv { get_up : bool; write_up : bool; levels_up : bool }.
Definition all_up : Env := MkEnv true true true.

(** [refreshLowStockGauge]; a failure is logged. *)
Definition refreshLowStockGauge (e : Env) (s : stock) : stock :=
  match GetStockLevels (levels_up e) true s with
  | Err _ => s
  | Ok low => set_gauge (Z.of_nat (length low)) s
  end.

Record createDeviceTypeRequest : Type := MkTypeReq { q_Name : string; q_Vendor : string; q_Threshold : option Z }.

(** A body that does not decode is [None], and so is a store that is not
    configured; the handlers share the first checks. *)
Definition CreateDeviceTypeHandler (configured : bool) (e : Env) (body : option createDeviceTypeRequest) (s : stock) :
    Z * stock :=
  if negb configured then (503, s)
  else match body with
       | None => (400, s)
       | Some req =>
           if String.eqb (q_Name req) EmptyString || String.eqb (q_Vendor req) EmptyString then (422, s)
           else if bool_decide (is_Some (q_Threshold req)) && (default 0 (q_Threshold req) <? 0) then (422, s)
           else match CreateDeviceType (write_up e)
                        (MkType (q_Name req) (q_Vendor req) (default 5 (q_Threshold req))) s with
                | (Err x, s) => (if conflicts (q_Name req) x then 409 else 500, s)
                | (Ok id, s) => (201, Audit "cpe.type_create" (format_int id) s)
                end
       end.

Record createDeviceRequest : Type := MkDeviceReq {
  q_DeviceTypeID : Z; q_SerialNumber : string; q_MACAddress : string; q_Location : string; q_Notes : string
}.

Definition CreateDeviceHandler (configured : bool) (e : Env) (body : option createDeviceRequest) (s : stock) :
    Z * stock :=
  if negb configured then (503, s)
  else match body with
       | None => (400, s)
       | Some req =>
           if String.eqb (q_SerialNumber req) EmptyString || (q_DeviceTypeID req <=? 0) then (422, s)
           else match CreateDevice (write_up e) (q_DeviceTypeID req) (q_SerialNumber req) (q_MACAddress req)
                        (q_Location req) (q_Notes req) s with
                | (Err x, s) => (if conflicts (q_SerialNumber req) x then 409 else 500, s)
                | (Ok id, s) => (201, Audit "cpe.device_create" (q_SerialNumber req) s)
                end
       end.

Definition IssueDeviceHandler (now : Z) (configured : bool) (e : Env) (serial : string) (body : option Z) (s : stock) :
    Z * stock :=
  if String.eqb serial EmptyString then (400, s)
  else if negb configured then (503, s)
  else match body with
       | None => (400, s)
       | Some subscriberID =>
           if subscriberID <=? 0 then (422, s)
           else match GetDeviceBySerial (get_up e) serial s with
                | Err _ => (500, s)
                | Ok None => (404, s)
                | Ok (Some _) =>
                    match IssueDevice now (write_up e) serial subscriberID s with
                    | (Err _, s) => (500, s)
                    | (Ok None, s) => (409, s)
                    | (Ok (Some _), s) =>
                        (200, Audit "cpe.issue" serial (refreshLowStockGauge e (count_issue s)))
                    end
                end
       end.

Definition ReturnDeviceHandler (configured : bool) (e : Env) (serial : string) (body : option string) (s : stock) :
    Z * stock :=
  if String.eqb serial EmptyString then (400, s)
  else if negb configured then (503, s)
  else match body with
       | None => (400, s)
       | Some status =>
           let newStatus := if String.eqb status EmptyString then StatusReturned else status in
           if negb (String.eqb newStatus StatusReturned) && negb (String.eqb newStatus StatusFaulty)
           then (422, s)
           else match ReturnDevice (write_up e) serial newStatus s with
                | (Err _, s) => (500, s)
                | (Ok None, s) => (409, s)
                | (Ok (Some _), s) => (200, Audit "cpe.return" serial s)
                end
       end.

Record recordPurchaseRequest `{Decimal} : Type := MkPurchaseReq {
  r_DeviceTypeID : Z; r_Vendor : string; r_Quantity : Z; r_UnitCost : option dec; r_InvoiceRef : string
}.

(** The unit cost is what the decimal library parses. *)
Definition RecordPurchaseHandler `{Decimal} (configured : bool) (e : Env) (subject : string)
    (body : option recordPurchaseRequest) (s : stock) : Z * stock :=
  if negb configured then (503, s)
  else match body with
       | None => (400, s)
       | Some req =>
           if (r_DeviceTypeID req <=? 0) || String.eqb (r_Vendor req) EmptyString then (422, s)
           else if r_Quantity req <=? 0 then (422, s)
           else match r_UnitCost req with
                | None => (422, s)
                | Some cost =>
                    if is_negative cost then (422, s)
                    else match RecordPurchase (write_up e) (r_DeviceTypeID req) (r_Vendor req)
                                 (r_Quantity req) cost (r_InvoiceRef req) subject s with
                         | (Err _, s) => (500, s)
                         | (Ok id, s) =>
                             (201, Audit "cpe.purchase" (format_int id) (refreshLowStockGauge e s))
                         end
                end
       end.

End Store.

(** ** Custody *)

(** The issues ([true]) and returns ([false]) of a device in the audit log. *)
Definition moves (serial : string) (s : stock) : list bool :=
  omap (fun a : string * string =>
    if String.eqb a.2 serial then
      if String.eqb a.1 "cpe.issue" then Some true else if String.eqb a.1 "cpe.return" then Some false else None
    else None) (audit s).

(** Whether the device is out after these moves; [None] when an issue follows
    an issue or a return a return. *)
Definition custody (l : list bool) : option bool :=
  foldl (fun out issued => match out with
                           | Some out => if Bool.eqb issued out then None else Some issued
                           | None => None
                           end) (Some false) l.

Definition held (serial : string) (s : stock) : Prop :=
  exists id d, devices s !! id = Some d /\ SerialNumber d = serial /\ Status d = StatusIssued.

Record rows_ok (subscribed : Z -> bool) (s : stock) : Prop := {
  wf_type id d : devices s !! id = Some d -> is_Some (types s !! DeviceTypeID d);
  wf_fresh id d : devices s !! id = Some d -> id < next_device s;
  wf_serial i j a b : devices s !! i = Some a -> devices s !! j = Some b ->
    SerialNumber a = SerialNumber b -> i = j;
  wf_mac i j a b : devices s !! i = Some a -> devices s !! j = Some b ->
    is_Some (MACAddress a) -> MACAddress b = MACAddress a -> i = j;
  wf_status id d : devices s !! id = Some d -> Status d ∈ device_statuses;
  wf_holder id d : devices s !! id = Some d ->
    match SubscriberID d with
    | Some h => Status d = StatusIssued /\ subscribed h = true
    | None => Status d <> StatusIssued
    end
}.

Record well_formed (subscribed : Z -> bool) (s : stock) : Prop := {
  wf_rows : rows_ok subscribed s;
  wf_log serial : exists out, custody (moves serial s) = Some out /\ (out = true <-> held serial s)
}.

Lemma find_device_Some serial s id d :
  find_device serial s = Some (id, d) -> devices s !! id = Some d /\ SerialNumber d = serial.
Proof.
  unfold find_device. intros Hh. assert ((id, d) ∈ filter (fun p => SerialNumber p.2 = serial)
    (map_to_list (devices s))) as Hin by (destruct (filter _ _); [done | injection Hh as ->; left]).
  apply list_elem_of_filter in Hin as [Hs Hin%elem_of_map_to_list]. done.
Qed.

Lemma find_device_unique subscribed serial s id d :
  rows_ok subscribed s -> devices s !! id = Some d -> SerialNumber d = serial ->
  find_device serial s = Some (id, d).
Proof.
  intros Hw Hd Hs. destruct (find_device serial s) as [[j d'] |] eqn:Hf.
  - apply find_device_Some in Hf as [Hj Hs']. assert (j = id) as -> by (eapply (wf_serial _ _ Hw); [done | done | congruence]).
    congruence.
  - exfalso. unfold find_device in Hf.
    assert ((id, d) ∈ filter (fun p => SerialNumber p.2 = serial) (map_to_list (devices s))) as Hin
      by (apply list_elem_of_filter; split; [done | by apply elem_of_map_to_list]).
    destruct (filter _ _); [by apply not_elem_of_nil in Hin | done].
Qed.

Lemma moves_audit serial action target s :
  moves serial (Audit action target s) =
  moves serial s ++ (if String.eqb target serial then
                       if String.eqb action "cpe.issue" then [true]
                       else if String.eqb action "cpe.return" then [false] else []
                     else []).
Proof.
  unfold moves. simpl. rewrite omap_app. f_equal. simpl. by repeat destruct (String.eqb _ _).
Qed.

Lemma custody_snoc l b : custody (l ++ [b]) =
  match custody l with Some out => if Bool.eqb b out then None else Some b | None => None end.
Proof. unfold custody. by rewrite foldl_app. Qed.

(** Same devices, same types, same moves: the gauge, the counter and the other
    audit entries do not matter. *)
Definition same_custody (s s' : stock) : Prop :=
  types s' = types s /\ devices s' = devices s /\ next_device s' = next_device s /\
  forall serial, moves serial s' = moves serial s.

Lemma rows_same subscribed s s' :
  types s' = types s -> devices s' = devices s -> next_device s' = next_device s ->
  rows_ok subscribed s -> rows_ok subscribed s'.
Proof. intros Ht Hd Hn [H1 H2 H3 H4 H5 H6]. split; rewrite ?Ht, ?Hd, ?Hn; eauto. Qed.

Lemma custody_wf_same subscribed s s' : same_custody s s' -> well_formed subscribed s -> well_formed subscribed s'.
Proof.
  intros (Ht & Hd & Hn & Hm) [Hr Hl]. split; [by eapply rows_same |].
  intros serial. rewrite Hm. unfold held. rewrite Hd. apply Hl.
Qed.

Lemma same_custody_audit s s' action target :
  String.eqb action "cpe.issue" = false -> String.eqb action "cpe.return" = false ->
  same_custody s s' -> same_custody s (Audit action target s').
Proof.
  intros Ha Hb (? & ? & ? & Hm). repeat split; try done. intros serial. rewrite moves_audit, Ha, Hb, Hm.
  case_match; by rewrite app_nil_r.
Qed.

Lemma refresh_same e s : same_custody s (refreshLowStockGauge e s).
Proof. unfold refreshLowStockGauge, same_custody. by destruct (GetStockLevels _ _ _). Qed.

Section Custody.
Variable subscribed : Z -> bool.
Notation wf := (well_formed subscribed).
Notation rows := (rows_ok subscribed).

Lemma CreateDeviceType_wf up t s : wf s -> wf (CreateDeviceType up t s).2.
Proof.
  intros [[H1 H2 H3 H4 H5 H6] Hl]. unfold CreateDeviceType.
  repeat case_match; simpl; split; try split; simpl; eauto. intros id d Hd%H1. rewrite lookup_insert.
  by case_decide.
Qed.

Lemma device_taken_false d s :
  device_taken d s = false ->
  (forall id u, devices s !! id = Some u -> SerialNumber u <> SerialNumber d) /\
  (forall id u, devices s !! id = Some u -> is_Some (MACAddress d) -> MACAddress u <> MACAddress d).
Proof.
  unfold device_taken. rewrite orb_false_iff, !bool_decide_eq_false. unfold map_Exists.
  intros [Hs Hm]. split; intros id u Hu; [intros E; apply Hs | intros Hmac E; apply Hm]; eauto 6.
Qed.

Lemma wf_bumped s : wf s -> wf (with_devices (devices s) (next_device s + 1) s).
Proof.
  intros [[H1 H2 H3 H4 H5 H6] Hl]. split; [split; simpl; eauto | exact Hl]. intros id d' Hd'%H2. lia.
Qed.

(** A new row that nobody holds. *)
Lemma wf_insert d s :
  wf s -> is_Some (types s !! DeviceTypeID d) ->
  (forall id u, devices s !! id = Some u -> SerialNumber u <> SerialNumber d) ->
  (forall id u, devices s !! id = Some u -> is_Some (MACAddress d) -> MACAddress u <> MACAddress d) ->
  Status d ∈ device_statuses -> Status d <> StatusIssued -> SubscriberID d = None ->
  wf (with_devices (<[next_device s := d]> (devices s)) (next_device s + 1) s).
Proof.
  intros [[H1 H2 H3 H4 H5 H6] Hl] Ht Hser Hmac Hst Hni Hholder.
  assert (devices s !! next_device s = None) as Hnew.
  { destruct (devices s !! next_device s) eqn:E; [| done]. apply H2 in E. lia. }
  split; [split; simpl |].
  - intros id d'. rewrite lookup_insert. case_decide; [by intros [= <-] | eauto].
  - intros id d'. rewrite lookup_insert. case_decide; [lia |]. intros ?%H2. lia.
  - intros i j a b. rewrite !lookup_insert. case_decide; case_decide; subst; try done; eauto.
    + intros [= <-] Hb E. by destruct (Hser j b Hb).
    + intros Ha [= <-] E. by destruct (Hser i a Ha).
  - intros i j a b. rewrite !lookup_insert. case_decide; case_decide; subst; try done; eauto.
    + intros [= <-] Hb Hm E. by destruct (Hmac j b Hb Hm).
    + intros Ha [= <-] Hm E. destruct (Hmac i a Ha); [by rewrite E | by rewrite E].
  - intros id d'. rewrite lookup_insert. case_decide; [by intros [= <-] | eauto].
  - intros id d'. rewrite lookup_insert. case_decide; [intros [= <-]; by rewrite Hholder | apply H6].
  - intros serial. destruct (Hl serial) as (o & Ho & Hh). exists o. split; [exact Ho |]. rewrite Hh. unfold held. simpl.
    split; intros (id & d' & Hd' & Hrest); exists id, d'; (split; [| done]).
    + by rewrite lookup_insert_ne by congruence.
    + rewrite lookup_insert in Hd'. case_decide; [| done]. simplify_eq. by destruct Hrest.
Qed.

Lemma CreateDevice_wf up t serial mac loc notes s : wf s -> wf (CreateDevice up t serial mac loc notes s).2.
Proof.
  intros Hw. unfold CreateDevice. destruct (up && int4 t); [| done]. cbn [negb].
  set (d := MkDevice _ _ _ _ _ _ _ _). pose proof (wf_bumped s Hw) as Hbumped.
  destruct (_ && _ && _); [| done]. cbn [negb]. destruct (device_taken d s) eqn:Hd; [done |].
  apply device_taken_false in Hd as [Hser Hmac].
  destruct (bool_decide (is_Some (types s !! t))) eqn:Ht; [| done]. apply bool_decide_eq_true in Ht.
  apply wf_insert; try done. by left.
Qed.

(** A device handed over, taken back or put back on the shelf: same identity,
    another status. *)
Lemma rows_move s id d d' :
  devices s !! id = Some d ->
  SerialNumber d' = SerialNumber d -> MACAddress d' = MACAddress d -> DeviceTypeID d' = DeviceTypeID d ->
  Status d' ∈ device_statuses ->
  match SubscriberID d' with
  | Some h => Status d' = StatusIssued /\ subscribed h = true
  | None => Status d' <> StatusIssued
  end ->
  rows s -> rows (with_devices (<[id := d']> (devices s)) (next_device s) s).
Proof.
  intros Hd Hser Hmac Hty Hst Hh [H1 H2 H3 H4 H5 H6].
  split; simpl; try done.
  - intros i a. rewrite lookup_insert. case_decide; [intros [= <-]; rewrite Hty |]; eauto.
  - intros i a. rewrite lookup_insert. case_decide; [intros [= <-]; subst |]; eauto.
  - intros i j a b. rewrite !lookup_insert. case_decide; case_decide; subst; try done; eauto.
    + intros [= <-] Hb E. apply (H3 i j d b); congruence.
    + intros Ha [= <-] E. apply (H3 i j a d); congruence.
  - intros i j a b. rewrite !lookup_insert. case_decide; case_decide; subst; try done; eauto.
    + intros [= <-] Hb. rewrite Hmac. eauto.
    + intros Ha [= <-]. rewrite Hmac. eauto.
  - intros i a. rewrite lookup_insert. case_decide; [by intros [= <-] | eauto].
  - intros i a. rewrite lookup_insert. case_decide; [by intros [= <-] | apply H6].
Qed.

Lemma held_move s id d d' serial :
  rows s -> devices s !! id = Some d -> SerialNumber d' = SerialNumber d ->
  held serial (with_devices (<[id := d']> (devices s)) (next_device s) s) <->
  if String.eqb (SerialNumber d) serial then Status d' = StatusIssued else held serial s.
Proof.
  intros Hr Hd Hser. unfold held. simpl. destruct (String.eqb_spec (SerialNumber d) serial) as [<- | Hne].
  - split.
    + intros (i & a & Ha & Hs & Hst). rewrite lookup_insert in Ha. case_decide; [by simplify_eq |].
      destruct (wf_serial _ _ Hr i id a d Ha Hd); [congruence | done].
    + intros Hst. exists id, d'. rewrite lookup_insert_eq. split_and!; congruence.
  - split; intros (i & a & Ha & Hs & Hst); exists i, a.
    + rewrite lookup_insert in Ha. case_decide; [simplify_eq; congruence |]. by split_and!.
    + rewrite lookup_insert_ne by congruence. by split_and!.
Qed.

(** A move that is logged: out when the device was not, or back when it was. *)
Lemma moved_wf s s' id d d' (out : bool) :
  wf s -> devices s !! id = Some d ->
  SerialNumber d' = SerialNumber d -> MACAddress d' = MACAddress d -> DeviceTypeID d' = DeviceTypeID d ->
  Status d' ∈ device_statuses ->
  match SubscriberID d' with
  | Some h => Status d' = StatusIssued /\ subscribed h = true
  | None => Status d' <> StatusIssued
  end ->
  (Status d = StatusIssued <-> out = false) -> (Status d' = StatusIssued <-> out = true) ->
  types s' = types s -> devices s' = <[id := d']> (devices s) -> next_device s' = next_device s ->
  (forall serial, moves serial s' = moves serial s ++ (if String.eqb (SerialNumber d) serial then [out] else [])) ->
  wf s'.
Proof.
  intros [Hr Hl] Hd Hser Hmac Hty Hst Hh Hwas His Ht Hdev Hn Hm. split.
  - apply (rows_same subscribed (with_devices (<[id := d']> (devices s)) (next_device s) s)); try done.
    by apply (rows_move s id d d').
  - intros serial. rewrite Hm. pose proof (held_move s id d d' serial Hr Hd Hser) as Hheld.
    assert (held serial (with_devices (<[id := d']> (devices s)) (next_device s) s) <-> held serial s') as Heq
      by (unfold held; by rewrite Hdev).
    rewrite Heq in Hheld. destruct (Hl serial) as (o & Ho & Ho').
    destruct (String.eqb_spec (SerialNumber d) serial) as [Hs |];
      [| rewrite app_nil_r; exists o; split; [done | by rewrite Hheld]]. subst serial.
    rewrite custody_snoc, Ho. exists out. rewrite Hheld, His. split; [| done].
    assert (o = negb out) as ->; [| by destruct out].
    assert (held (SerialNumber d) s <-> Status d = StatusIssued) as Hnow.
    { split; [| intros; by exists id, d]. intros (i & a & Ha & Hs & Hst').
      assert (i = id) as -> by (by eapply (wf_serial _ _ Hr)). congruence. }
    rewrite Hnow, Hwas in Ho'. destruct o, out; naive_solver.
Qed.

(** A claim that lands found the device in stock and leaves it issued. *)
Lemma IssueDevice_spec now up serial h s :
  let '(r, s') := IssueDevice subscribed now up serial h s in
  match r with
  | Ok (Some d') => exists id d, devices s !! id = Some d /\ SerialNumber d = serial /\ Status d = StatusInStock /\
      subscribed h = true /\
      d' = MkDevice (DeviceTypeID d) (SerialNumber d) (MACAddress d) StatusIssued (Location d) (Some h) (Some now) (Notes d) /\
      s' = with_devices (<[id := d']> (devices s)) (next_device s) s
  | _ => s' = s
  end.
Proof.
  unfold IssueDevice. destruct (up && int4 h); [| done]. cbn [negb].
  destruct (find_device serial s) as [[id d] |] eqn:Hf; [| done]. apply find_device_Some in Hf as [Hd Hser].
  destruct (String.eqb_spec (Status d) StatusInStock) as [Hst |]; [| done]. cbn [negb].
  destruct (subscribed h) eqn:Hh; [| done]. cbn [negb]. exists id, d. by split_and!.
Qed.

(** A return that lands found the device issued. *)
Lemma ReturnDevice_spec up serial st s :
  let '(r, s') := ReturnDevice up serial st s in
  match r with
  | Ok (Some d') => exists id d, devices s !! id = Some d /\ SerialNumber d = serial /\ Status d = StatusIssued /\
      st ∈ device_statuses /\ st <> StatusIssued /\
      d' = MkDevice (DeviceTypeID d) (SerialNumber d) (MACAddress d) st (Location d) None None (Notes d) /\
      s' = with_devices (<[id := d']> (devices s)) (next_device s) s
  | _ => s' = s
  end.
Proof.
  unfold ReturnDevice. destruct up; [| done]. cbn [negb].
  destruct (find_device serial s) as [[id d] |] eqn:Hf; [| done]. apply find_device_Some in Hf as [Hd Hser].
  destruct (String.eqb_spec (Status d) StatusIssued) as [Hi |]; [| done]. cbn [negb].
  destruct (existsb (String.eqb st) device_statuses) eqn:Hin; [| done].
  destruct (String.eqb_spec st StatusIssued); [done |]. cbn [negb orb]. exists id, d.
  apply existsb_exists in Hin as (x & Hx%list_elem_of_In & ->%String.eqb_eq). by split_and!.
Qed.

Context `{Decimal}.

(** The handlers, and somebody outside them who puts a device that came back
    on the shelf again. *)
Inductive step : stock -> stock -> Prop :=
| step_type c e body s : step s (CreateDeviceTypeHandler c e body s).2
| step_device c e body s : step s (CreateDeviceHandler c e body s).2
| step_issue now c e serial body s : step s (IssueDeviceHandler subscribed now c e serial body s).2
| step_return c e serial body s : step s (ReturnDeviceHandler c e serial body s).2
| step_purchase c e subject body s : step s (RecordPurchaseHandler c e subject body s).2
| step_restock id d s :
    devices s !! id = Some d -> Status d = StatusReturned ->
    step s (with_devices (<[id := MkDevice (DeviceTypeID d) (SerialNumber d) (MACAddress d) StatusInStock (Location d)
                                    (SubscriberID d) None (Notes d)]> (devices s)) (next_device s) s).

Lemma issued_wf now e serial h s s' d' :
  wf s -> IssueDevice subscribed now (write_up e) serial h s = (Ok (Some d'), s') ->
  wf (Audit "cpe.issue" serial (refreshLowStockGauge e (count_issue s'))).
Proof.
  intros Hw Hi. pose proof (IssueDevice_spec now (write_up e) serial h s) as Hs. rewrite Hi in Hs.
  destruct Hs as (id & d & Hd & Hser & Hst & Hh & -> & ->).
  match goal with |- wf (Audit _ _ (refreshLowStockGauge e ?s1)) => destruct (refresh_same e s1) as (Ht1 & Hd1 & Hn1 & Hm1) end.
  eapply (moved_wf s _ id d _ true Hw Hd); [| | | | | | | exact Ht1 | exact Hd1 | exact Hn1 |]; simpl; try done.
  - apply list_elem_of_further, list_elem_of_here.
  - by rewrite Hst.
  - intros x. rewrite moves_audit, Hm1, Hser. done.
Qed.

Lemma returned_wf up serial st s s' d' :
  wf s -> ReturnDevice up serial st s = (Ok (Some d'), s') -> wf (Audit "cpe.return" serial s').
Proof.
  intros Hw Hi. pose proof (ReturnDevice_spec up serial st s) as Hs. rewrite Hi in Hs.
  destruct Hs as (id & d & Hd & Hser & Hst & Hin & Hne & -> & ->).
  eapply (moved_wf s _ id d (MkDevice (DeviceTypeID d) (SerialNumber d) (MACAddress d) st (Location d) None None (Notes d))
    false Hw Hd); simpl; try done.
  intros x. by rewrite moves_audit, Hser.
Qed.

Lemma custody_step_wf s s' : step s s' -> wf s -> wf s'.
Proof.
  intros [c e body s0 | c e body s0 | now c e serial body s0 | c e serial body s0 | c e subject body s0 | id d s0 Hd Hst] Hw.
  - unfold CreateDeviceTypeHandler. destruct c, body as [req |]; try done. cbn [negb].
    destruct (_ || _); [done |]. destruct (_ && _); [done |].
    match goal with |- context [CreateDeviceType ?u ?t s0] => pose proof (CreateDeviceType_wf u t s0 Hw) as Hc;
      destruct (CreateDeviceType u t s0) as [[id | x] s1] end; [| done].
    by eapply custody_wf_same; [apply same_custody_audit |].
  - unfold CreateDeviceHandler. destruct c, body as [req |]; try done. cbn [negb].
    destruct (_ || _); [done |].
    match goal with |- context [CreateDevice ?u ?a ?b ?c ?d ?f s0] =>
      pose proof (CreateDevice_wf u a b c d f s0 Hw) as Hc; destruct (CreateDevice u a b c d f s0) as [[id | x] s1]
    end; [| done].
    by eapply custody_wf_same; [apply same_custody_audit |].
  - unfold IssueDeviceHandler. destruct (String.eqb serial EmptyString), c, body as [h |]; try done. cbn [negb].
    destruct (h <=? 0); [done |]. destruct (GetDeviceBySerial _ _ _) as [[d |] |]; try done.
    pose proof (IssueDevice_spec now (write_up e) serial h s0) as Hs.
    destruct (IssueDevice subscribed now (write_up e) serial h s0) as [[[d' |] | x] s1] eqn:Hi;
      [by eapply issued_wf | by subst s1 ..].
  - unfold ReturnDeviceHandler. destruct (String.eqb serial EmptyString), c, body as [st |]; try done. cbn [negb].
    destruct (negb _ && negb _); [done |].
    match goal with |- context [ReturnDevice ?u ?a ?b s0] =>
      pose proof (ReturnDevice_spec u a b s0) as Hs; destruct (ReturnDevice u a b s0) as [[[d |] | x] s1] eqn:Hr end;
      [by eapply returned_wf | by subst s1 ..].
  - unfold RecordPurchaseHandler. destruct c, body as [req |]; try done. cbn [negb].
    destruct (_ || _); [done |]. destruct (_ <=? 0); [done |]. destruct (r_UnitCost req) as [cost |]; [| done].
    destruct (is_negative cost); [done |].
    match goal with |- context [RecordPurchase ?u ?a ?b ?c ?d ?f ?g s0] =>
      assert (same_custody s0 (RecordPurchase u a b c d f g s0).2) as Hc
        by (unfold RecordPurchase, same_custody; repeat case_match; done);
      destruct (RecordPurchase u a b c d f g s0) as [[id | x] s1] end; [| by eapply custody_wf_same].
    eapply custody_wf_same; [apply same_custody_audit, refresh_same; done |]. by eapply custody_wf_same.
  - destruct Hw as [Hr Hl]. pose proof (wf_holder _ _ Hr id d Hd) as Hh. rewrite Hst in Hh.
    destruct (SubscriberID d); [by destruct Hh |]. split; [eapply rows_move; try done; by left |].
    intros serial. destruct (Hl serial) as (o & Ho & Ho'). exists o. split; [exact Ho |].
    rewrite Ho', held_move by done. destruct (String.eqb_spec (SerialNumber d) serial) as [<- |]; [| done]. simpl.
    split; [| done]. intros (i & a & Ha & Hs & Hst'). assert (i = id) as -> by (by eapply (wf_serial _ _ Hr)). congruence.
Qed.

(** C15: One physical device is never in two hands. Under any sequence of the
    inventory handlers, failing or not, and of returned devices being put back
    on the shelf in between: a device is issued exactly when it has a holder,
    an existing subscriber; serial numbers and MAC addresses stay unique; in
    the audit log the issues and returns of a serial number strictly
    alternate, the last being an issue exactly while the device is issued; and
    an attempt to issue a device that is out, returned or faulty is refused. *)
Theorem device_issued_once s s' :
  star step s s' -> wf s ->
  wf s' /\
  forall id d, devices s' !! id = Some d ->
    (Status d = StatusIssued <-> exists h, SubscriberID d = Some h /\ subscribed h = true) /\
    custody (moves (SerialNumber d) s') = Some (String.eqb (Status d) StatusIssued) /\
    (Status d <> StatusInStock -> forall now c e body,
       (IssueDeviceHandler subscribed now c e (SerialNumber d) body s').1 <> 200).
Proof.
  intros Hs Hw. assert (wf s') as Hw'.
  { revert s s' Hs Hw. apply star_invariant. intros a b Hst Ha. by eapply custody_step_wf. }
  split; [done |]. intros id d Hd. pose proof (wf_rows _ _ Hw') as Hr. split_and!.
  - pose proof (wf_holder _ _ Hr id d Hd) as Hh. destruct (SubscriberID d) as [h |]; naive_solver.
  - destruct (wf_log _ _ Hw' (SerialNumber d)) as (o & -> & Ho). f_equal.
    destruct (String.eqb_spec (Status d) StatusIssued) as [Hi | Hi]; [apply Ho; by exists id, d |].
    apply not_true_is_false. intros (i & a & Ha & Hs' & Hst)%Ho.
    assert (i = id) as -> by (by eapply (wf_serial _ _ Hr)). congruence.
  - intros Hst now c e body.
    unfold IssueDeviceHandler. destruct (String.eqb (SerialNumber d) EmptyString), c, body as [h |]; try done. cbn [negb].
    destruct (h <=? 0); [done |]. destruct (GetDeviceBySerial _ _ _) as [[d0 |] |]; try done.
    unfold IssueDevice. destruct (write_up e && int4 h); [| done]. cbn [negb].
    rewrite (find_device_unique subscribed (SerialNumber d) s' id d Hr Hd eq_refl).
    by destruct (String.eqb_spec (Status d) StatusInStock).
Qed.

End Custody.

(** ** Witnesses *)

Definition demo_stock : stock :=
  MkStock {[ 1 := MkType "ONU" "Vendor" 0 ]} 2 ∅ 1 ∅ 1 0 0 [].

Lemma demo_stock_wf subscribed : well_formed subscribed demo_stock.
Proof.
  assert (forall i d, devices demo_stock !! i <> Some d) as Hnone by (intros i d; apply lookup_empty_Some).
  split; [split; try (intros ? ? ?; by edestruct Hnone); intros ? ? ? ? ?; by edestruct Hnone |].
  intros serial. exists false. split; [done |]. split; [done |]. intros (id & d & Hd & _). by edestruct Hnone.
Qed.

Definition demo_device : createDeviceRequest := MkDeviceReq 1 "SN-1" "AA:BB:CC:00:00:01" "" "".

Definition returned_stock : stock :=
  let s1 := (CreateDeviceHandler true all_up (Some demo_device) demo_stock).2 in
  let s2 := (IssueDeviceHandler (fun _ => true) 0 true all_up "SN-1" (Some 1) s1).2 in
  (ReturnDeviceHandler true all_up "SN-1" (Some ""%string) s2).2.

(** No handler takes a returned device back into stock, so without somebody's
    hand in the table it is never issued again. *)
Example returned_device_waits :
  moves "SN-1" returned_stock = [true; false] /\
  (IssueDeviceHandler (fun _ => true) 1 true all_up "SN-1" (Some 2) returned_stock).1 = 409.
Proof. vm_compute. done. Qed.

Lemma device_issued_once_witness :
  (IssueDeviceHandler (fun _ => true) 1 true all_up "SN-1" (Some 2) returned_stock).1 <> 200 /\
  custody (moves "SN-1" returned_stock) = Some false.
Proof.
  destruct (device_issued_once (H := RationalDecimal) (fun _ => true) demo_stock returned_stock) as [_ Hd].
  - eapply star_step; [apply (step_device _ true all_up (Some demo_device)) |].
    eapply star_step; [apply (step_issue _ 0 true all_up "SN-1" (Some 1)) |].
    apply star_one. apply (step_return _ true all_up "SN-1" (Some ""%string)).
  - apply demo_stock_wf.
  - destruct (Hd 1 (MkDevice 1 "SN-1" (Some "AA:BB:CC:00:00:01"%string) StatusReturned None None None None))
      as (_ & Hc & Hno); [by vm_compute |].
    split; [apply Hno; discriminate | exact Hc].
Defined.

(** The gauge is refreshed on purchases, which change no stock, and not when a
    device is added: a type that has been restocked is still counted low. *)
Example gauge_misses_restock :
  let s0 := refreshLowStockGauge all_up demo_stock in
  let s1 := (CreateDeviceHandler true all_up (Some demo_device) s0).2 in
  LowStockTypes s1 = 1 /\ GetStockLevels true true s1 = Ok [].
Proof. vm_compute. done. Qed.

End Inventory.
