(* ===== verification/Crm.v ===== *)
(** * Leads and their conversion into subscribers

    internal/crm, internal/api/crm.go and internal/db/crm.go over the leads
    table of migration 027, with the franchise scope of
    internal/api/franchises.go. A conversion inserts a subscriber
    (Subscribers), claims the lead and may issue a device (Inventory). A
    handler's result is its HTTP status. *)

From S2P Require Import Prelude GoStrings Identity Decimal Gst Billing Renewal Subscribers Inventory.
From stdpp Require Import sorting.

Local Open Scope Z_scope.

Module Crm.

Definition StatusNew : string := "new".
Definition StatusContacted : string := "contacted".
Definition StatusQualified : string := "qualified".
Definition StatusConverted : string := "converted".
Definition StatusLost : string := "lost".

Definition validSources : list string :=
  ["walk_in"; "referral"; "website"; "campaign"; "franchise"; "other"]%string.

Definition ValidSource (s : string) : bool := existsb (String.eqb s) validSources.
Definition ValidStatus (s : string) : bool :=
  existsb (String.eqb s) [StatusNew; StatusContacted; StatusQualified; StatusLost].

Record Lead : Type := MkLead {
  FullName : string;
  MobileNumber : string;
  Email : option string;
  Source : string;
  Status : string;
  FranchiseID : option Z;
  AssignedTo : option string;
  Notes : option string;
  LostReason : option string;
  ConvertedSubscriberID : option Z;
  ConvertedAt : option Z
}.

Record world : Type := MkWorld {
  subs : Subscribers.world;
  leads : gmap Z Lead;
  next_lead : Z;
  stock : Inventory.stock;
  LeadsTotal : list string;
  ConversionConflictsTotal : Z
}.

Definition with_leads (m : gmap Z Lead) (n : Z) (w : world) : world :=
  MkWorld (subs w) m n (stock w) (LeadsTotal w) (ConversionConflictsTotal w).
Definition with_subs (s : Subscribers.world) (w : world) : world :=
  MkWorld s (leads w) (next_lead w) (stock w) (LeadsTotal w) (ConversionConflictsTotal w).
Definition with_stock (s : Inventory.stock) (w : world) : world :=
  MkWorld (subs w) (leads w) (next_lead w) s (LeadsTotal w) (ConversionConflictsTotal w).
Definition count_lead (status : string) (w : world) : world :=
  MkWorld (subs w) (leads w) (next_lead w) (stock w) (LeadsTotal w ++ [status]) (ConversionConflictsTotal w).
Definition count_conflict (w : world) : world :=
  MkWorld (subs w) (leads w) (next_lead w) (stock w) (LeadsTotal w) (ConversionConflictsTotal w + 1).
Definition Audit (action : string) (id : Z) (w : world) : world := with_subs (Subscribers.Audit action id (subs w)) w.

(** ** The caller's franchise *)

Definition franchiseScopedRole (role : string) : bool :=
  existsb (String.eqb role) ["lco"; "franchise_admin"; "franchise_staff"]%string.

Record Caller : Type := MkCaller { role : string; franchise_claim : Z }.

(** [None]: a scoped role without a franchise; [Some None]: all franchises. *)
Definition callerFranchiseScope (c : Caller) : option (option Z) :=
  if negb (franchiseScopedRole (role c)) then Some None
  else if franchise_claim c =? 0 then None else Some (Some (franchise_claim c)).

Definition callerMaySeeLead (c : Caller) (l : Lead) : bool :=
  match callerFranchiseScope c with
  | None => false
  | Some None => true
  | Some (Some f) => bool_decide (FranchiseID l = Some f)
  end.

(** ** The store *)

Inductive error : Type := ErrQuery | ErrConstraint | ErrSubscriber (e : Subscribers.error).

(** chk_leads_mobile_e164: at least eight digits. *)
Definition lead_mobile (s : string) : bool := Subscribers.E164 s && (9 <=? String.length s)%nat.

(** What the table refuses. *)
Definition lead_ok (l : Lead) (w : world) : bool :=
  Subscribers.varchar 200 (FullName l) && Subscribers.varchar 20 (MobileNumber l) &&
  Subscribers.varchar 255 (default EmptyString (Email l)) &&
  Subscribers.varchar 100 (default EmptyString (AssignedTo l)) &&
  ValidSource (Source l) &&
  existsb (String.eqb (Status l)) [StatusNew; StatusContacted; StatusQualified; StatusConverted; StatusLost] &&
  lead_mobile (MobileNumber l) &&
  Bool.eqb (String.eqb (Status l) StatusConverted) (bool_decide (is_Some (ConvertedSubscriberID l))) &&
  Billing.franchise_ok (FranchiseID l) (Subscribers.bdb (subs w)).

Definition CreateLead (up : bool) (l : Lead) (w : world) : result error Z * world :=
  if negb up then (Err ErrQuery, w)
  else
    let id := next_lead w in
    if lead_ok l w then (Ok id, with_leads (<[id := l]> (leads w)) (id + 1) w)
    else (Err ErrConstraint, with_leads (leads w) (id + 1) w).

Definition GetLead (up : bool) (id : Z) (w : world) : result error (option Lead) :=
  if negb up then Err ErrQuery else Ok (leads w !! id).

(** The newest first; the id stands for the creation time. *)
Definition newer (a b : Z * Lead) : Prop := b.1 <= a.1.
#[local] Instance newer_dec : RelDecision newer.
Proof. intros a b. unfold newer. apply _. Defined.

Definition ListLeads (up : bool) (status source : option string) (franchiseID : option Z) (w : world) :
    result error (list (Z * Lead)) :=
  if negb up then Err ErrQuery
  else Ok (merge_sort newer
    (filter (fun p => Inventory.matches status (Some (Status p.2)) && Inventory.matches source (Some (Source p.2)) &&
                      Inventory.matches franchiseID (FranchiseID p.2)) (map_to_list (leads w)))).

Definition or_keep {A} (new old : option A) : option A := match new with Some _ => new | None => old end.

Definition UpdateLead (up : bool) (id : Z) (status assignedTo notes lostReason : option string) (w : world) :
    result error (option Lead) * world :=
  if negb up then (Err ErrQuery, w)
  else match leads w !! id with
       | None => (Ok None, w)
       | Some l =>
           let l := MkLead (FullName l) (MobileNumber l) (Email l) (Source l) (default (Status l) status)
                      (FranchiseID l) (or_keep assignedTo (AssignedTo l)) (or_keep notes (Notes l))
                      (or_keep lostReason (LostReason l)) (ConvertedSubscriberID l) (ConvertedAt l) in
           if lead_ok l w then (Ok (Some l), with_leads (<[id := l]> (leads w)) (next_lead w) w)
           else (Err ErrConstraint, w)
       end.

(** Which of the transaction's statements and its commit can be executed. *)
Record ConvertEnv : Type := MkConvertEnv { insert_up : bool; claim_up : bool; read_up : bool; commit_up : bool }.

(** The row the conversion inserts: its status and its expiry are written in
    the statement, whatever the record says. *)
Definition converted_record (s : Subscribers.SubscriberRecord) : Subscribers.SubscriberRecord :=
  Subscribers.MkRecord (Subscribers.s_CAFNumber s) (Subscribers.s_Username s) (Subscribers.s_MobileNumber s)
    (Subscribers.s_Email s) (Subscribers.s_PlanID s) (Subscribers.s_FranchiseID s) "active" "active" 0
    (Subscribers.s_RegisteredState s) "pending" None.

Definition claim (now : Z) (subscriberID : Z) (l : Lead) : Lead :=
  MkLead (FullName l) (MobileNumber l) (Email l) (Source l) StatusConverted (FranchiseID l) (AssignedTo l)
    (Notes l) (LostReason l) (Some subscriberID) (Some now).

(** What a transaction that is rolled back leaves: the sequence moved on. *)
Definition with_next (n : Z) (s : Subscribers.world) : Subscribers.world :=
  Subscribers.MkWorld (Subscribers.bdb s) (Subscribers.accounts s) n (Subscribers.kyc_verifications s)
    (Subscribers.live s) (Subscribers.tasks s) (Subscribers.verifiers s) (Subscribers.events s) (Subscribers.audit s).

Definition ConvertLead (now : Z) (e : ConvertEnv) (id : Z) (s : Subscribers.SubscriberRecord) (hash : string)
    (w : world) : result error (option (Lead * Z)) * world :=
  let '(r, s') := Subscribers.insertSubscriber (insert_up e) (converted_record s) hash (subs w) in
  let rolled_back := with_subs (with_next (Subscribers.next_subscriber s') (subs w)) w in
  match r with
  | Err x => (Err (ErrSubscriber x), rolled_back)
  | Ok subscriberID =>
      if negb (claim_up e) then (Err ErrQuery, rolled_back)
      else match leads w !! id with
           | None => (Ok None, rolled_back)
           | Some l =>
               if String.eqb (Status l) StatusConverted then (Ok None, rolled_back)
               else if read_up e && commit_up e
               then let l := claim now subscriberID l in
                    (Ok (Some (l, subscriberID)), with_leads (<[id := l]> (leads w)) (next_lead w) (with_subs s' w))
               else (Err ErrQuery, rolled_back)
           end
  end.

(** ** The funnel *)

Definition in_scope (franchiseID : option Z) (w : world) : list Lead :=
  filter (fun l => Inventory.matches franchiseID (FranchiseID l)) (snd <$> map_to_list (leads w)).

(** The report's totals and its rate, before it is printed with two digits. *)
Record FunnelReport `{Decimal} : Type := MkFunnel {
  TotalLeads : Z; ConvertedLeads : Z; ConversionRatePct : dec
}.

Definition GetFunnel `{Decimal} (up : bool) (franchiseID : option Z) (w : world) : result error FunnelReport :=
  if negb up then Err ErrQuery
  else
    let l := in_scope franchiseID w in
    let total := Z.of_nat (length l) in
    let converted := Z.of_nat (length (filter (fun x => Status x = StatusConverted) l)) in
    let rate := if 0 <? total
                then Round (Mul (Div (NewFromInt converted) (NewFromInt total)) (NewFromInt 100)) 2
                else NewFromInt 0 in
    Ok (MkFunnel _ total converted rate).

(** ** The handlers *)

Record createLeadRequest : Type := MkCreate {
  q_FullName : string; q_MobileNumber : string; q_Email : string; q_Source : string;
  q_FranchiseID : option Z; q_AssignedTo : string; q_Notes : string
}.

Definition CreateLeadHandler (configured up : bool) (c : Caller) (body : option createLeadRequest) (w : world) :
    Z * world :=
  if negb configured then (503, w)
  else match body with
       | None => (400, w)
       | Some req =>
           if String.eqb (q_FullName req) EmptyString then (422, w)
           else if negb (Subscribers.E164 (q_MobileNumber req)) then (422, w)
           else if negb (ValidSource (q_Source req)) then (422, w)
           else match callerFranchiseScope c with
                | None => (403, w)
                | Some scope =>
                    let franchiseID := or_keep scope (q_FranchiseID req) in
                    match CreateLead up (MkLead (q_FullName req) (q_MobileNumber req)
                            (Billing.nullif_empty (q_Email req)) (q_Source req) StatusNew franchiseID
                            (Billing.nullif_empty (q_AssignedTo req)) (Billing.nullif_empty (q_Notes req))
                            None None None) w with
                    | (Err _, w) => (500, w)
                    | (Ok id, w) => (201, Audit "lead.create" id (count_lead StatusNew w))
                    end
                end
       end.

Record updateLeadRequest : Type := MkUpdate {
  u_Status : option string; u_AssignedTo : option string; u_Notes : option string; u_LostReason : option string
}.

Definition UpdateLeadHandler (configured get_up up : bool) (c : Caller) (id : option Z)
    (body : option updateLeadRequest) (w : world) : Z * world :=
  match id with
  | None => (400, w)
  | Some id =>
      if negb configured then (503, w)
      else match body with
           | None => (400, w)
           | Some req =>
               if bool_decide (is_Some (u_Status req)) && negb (ValidStatus (default EmptyString (u_Status req)))
               then (422, w)
               else match GetLead get_up id w with
                    | Err _ => (500, w)
                    | Ok None => (404, w)
                    | Ok (Some l) =>
                        if negb (callerMaySeeLead c l) then (403, w)
                        else match UpdateLead up id (u_Status req) (u_AssignedTo req) (u_Notes req)
                                     (u_LostReason req) w with
                             | (Err _, w) => (500, w)
                             | (Ok None, w) => (404, w)
                             | (Ok (Some _), w) =>
                                 let w := match u_Status req with Some s => count_lead s w | None => w end in
                                 (200, Audit "lead.update" id w)
                             end
                    end
           end
  end.

Record convertLeadRequest : Type := MkConvert {
  v_CAFNumber : string; v_Username : string; v_Password : string; v_PlanID : Z; v_RegisteredState : string;
  v_Aadhaar : string; v_PAN : string; v_CPESerial : string
}.

Record HandlerEnv : Type := MkHandlerEnv {
  lead_up : bool; convert : ConvertEnv; kyc_env : Subscribers.Env; issue_up : bool; has_inventory : bool
}.

Definition subscribed (w : world) (id : Z) : bool :=
  bool_decide (is_Some (Billing.subscribers (Subscribers.bdb (subs w)) !! id)).

(** [issueCPEForConversion]; its answer is a warning at most. *)
Definition issueCPEForConversion (now : Z) (e : HandlerEnv) (serial : string) (subscriberID : Z) (w : world) : world :=
  if negb (has_inventory e) then w
  else match Inventory.IssueDevice (subscribed w) now (issue_up e) serial subscriberID (stock w) with
       | (Ok (Some _), s) => with_stock (Inventory.count_issue s) w
       | (_, s) => with_stock s w
       end.

Definition subscriberRequest (l : Lead) (req : convertLeadRequest) : Subscribers.CreateSubscriberRequest :=
  Subscribers.MkCreate (v_CAFNumber req) (v_Username req) (v_Password req) (MobileNumber l)
    (default EmptyString (Email l)) (v_PlanID req) (v_RegisteredState req) EmptyString EmptyString.

Definition with_franchise (f : option Z) (s : Subscribers.SubscriberRecord) : Subscribers.SubscriberRecord :=
  Subscribers.MkRecord (Subscribers.s_CAFNumber s) (Subscribers.s_Username s) (Subscribers.s_MobileNumber s)
    (Subscribers.s_Email s) (Subscribers.s_PlanID s) f (Subscribers.s_Status s) (Subscribers.s_DunningState s)
    (Subscribers.s_WalletBalance s) (Subscribers.s_RegisteredState s) (Subscribers.s_KYCStatus s)
    (Subscribers.s_PlanExpiry s).

(** The transaction's errors quote nothing of the request. *)
Definition is_unique (e : error) : bool :=
  match e with ErrSubscriber x => Subscribers.isUniqueViolation EmptyString x | _ => false end.

Definition ConvertLeadHandler (now : Z) (configured : bool) (cfg : Subscribers.Config) (e : HandlerEnv)
    (hash : string -> option string) (c : Caller) (id : option Z) (body : option convertLeadRequest) (w : world) :
    Z * world :=
  match id with
  | None => (400, w)
  | Some id =>
      if negb configured then (503, w)
      else match body with
           | None => (400, w)
           | Some req =>
               match GetLead (lead_up e) id w with
               | Err _ => (500, w)
               | Ok None => (404, w)
               | Ok (Some l) =>
                   if negb (callerMaySeeLead c l) then (403, w)
                   else if String.eqb (Status l) StatusConverted then (409, count_conflict w)
                   else if String.eqb (Status l) StatusLost then (409, w)
                   else
                     let subReq := subscriberRequest l req in
                     match Subscribers.validateCreateSubscriber subReq with
                     | Some _ => (422, w)
                     | None =>
                         match hash (v_Password req) with
                         | None => (500, w)
                         | Some h =>
                             let rec := with_franchise (FranchiseID l) (Subscribers.subscriberRecordFrom subReq) in
                             match ConvertLead now (convert e) id rec h w with
                             | (Err x, w) => (if is_unique x then 409 else 500, w)
                             | (Ok None, w) => (409, count_conflict w)
                             | (Ok (Some (_, subscriberID)), w) =>
                                 let w := with_subs (Subscribers.persistKYC cfg (kyc_env e) subscriberID
                                            (v_Aadhaar req) (v_PAN req) (subs w)) w in
                                 let w := if String.eqb (v_CPESerial req) EmptyString then w
                                          else issueCPEForConversion now e (v_CPESerial req) subscriberID w in
                                 (201, Audit "lead.convert" id (count_lead StatusConverted w))
                             end
                         end
                     end
               end
           end
  end.

(** ** No lead is ever converted *)

Lemma converted_row_refused s :
  exists x, Subscribers.row_checks (Subscribers.billing_row (converted_record s)) = Some x /\
    (x = Subscribers.ErrNotBillable \/ x = Subscribers.ErrConstraint).
Proof.
  unfold Subscribers.row_checks. destruct (Subscribers.widths_ok _); cbn [negb]; [| eauto].
  exists Subscribers.ErrNotBillable. split; [reflexivity | by left].
Qed.

Lemma ConvertLead_refused now e id s h w :
  exists x n, ConvertLead now e id s h w = (Err x, with_subs (with_next n (subs w)) w) /\ is_unique x = false.
Proof.
  destruct (converted_row_refused s) as (x & Hx & Hu).
  unfold ConvertLead, Subscribers.insertSubscriber. destruct (insert_up e); cbn [negb].
  - rewrite Hx. do 2 eexists. split; [reflexivity |]. by destruct Hu as [-> | ->].
  - do 2 eexists. by split.
Qed.

(** An answer given before the transaction. *)
Ltac refused := split_and!; intros; simplify_eq; congruence || done.

(** A lead cannot be converted. The conversion inserts an active subscriber
    without an expiry, which the table refuses since migration 048: whatever
    the lead, the caller and the request, the answer is never 201, no lead,
    subscriber or device changes and nothing is logged as converted; a
    well-formed request on an open lead is answered 500. *)
Theorem conversion_never_succeeds now configured cfg e hash c id body w :
  let '(code, w') := ConvertLeadHandler now configured cfg e hash c id body w in
  code <> 201 /\ leads w' = leads w /\ stock w' = stock w /\ LeadsTotal w' = LeadsTotal w /\
  (exists n, subs w' = with_next n (subs w)) /\
  forall i req l h, id = Some i -> configured = true -> body = Some req -> lead_up e = true ->
    leads w !! i = Some l -> callerMaySeeLead c l = true ->
    Status l <> StatusConverted -> Status l <> StatusLost ->
    Subscribers.validateCreateSubscriber (subscriberRequest l req) = None -> hash (v_Password req) = Some h ->
    code = 500.
Proof.
  assert (exists n, subs w = with_next n (subs w)) as Hsame
    by (exists (Subscribers.next_subscriber (subs w)); by destruct w as [[] ? ? ? ? ?]).
  unfold ConvertLeadHandler, GetLead.
  destruct id as [i |], configured, body as [req |]; cbn [negb]; try (by refused).
  destruct (lead_up e); cbn [negb]; [| by refused].
  destruct (leads w !! i) as [l |] eqn:Hl; [| by refused].
  destruct (callerMaySeeLead c l) eqn:Hsee; cbn [negb]; [| by refused].
  destruct (String.eqb_spec (Status l) StatusConverted); [by refused |].
  destruct (String.eqb_spec (Status l) StatusLost); [by refused |].
  destruct (Subscribers.validateCreateSubscriber (subscriberRequest l req)) eqn:Hv; [by refused |].
  destruct (hash (v_Password req)) as [h |] eqn:Hh; [| by refused].
  destruct (ConvertLead_refused now (convert e) i (with_franchise (FranchiseID l)
    (Subscribers.subscriberRecordFrom (subscriberRequest l req))) h w) as (x & k & Hc & Hu).
  rewrite Hc, Hu. split_and!; try done. by exists k.
Qed.

(** ** A lead's number is checked twice, differently *)

(** A lead whose number passes the handler's check but has fewer than eight
    digits is refused by the table: the answer is 500, and nothing is stored. *)
Theorem short_number_is_an_internal_error up c req w :
  Subscribers.E164 (q_MobileNumber req) = true -> lead_mobile (q_MobileNumber req) = false ->
  q_FullName req <> EmptyString -> ValidSource (q_Source req) = true -> is_Some (callerFranchiseScope c) ->
  let '(code, w') := CreateLeadHandler true up c (Some req) w in
  code = 500 /\ leads w' = leads w.
Proof.
  intros He Hm Hn Hsrc [scope Hs]. apply String.eqb_neq in Hn.
  unfold CreateLeadHandler, CreateLead. rewrite Hn, He, Hsrc, Hs. cbn [negb].
  destruct up; cbn [negb]; [| done]. unfold lead_ok. cbn [MobileNumber]. rewrite Hm.
  by rewrite andb_false_r.
Qed.

End Crm.
