(* ===== verification/Workflow.v ===== *)
(** * Two-person approval of sensitive actions, and field tasks

    internal/workflow, internal/api/workflow.go, internal/db/workflow.go, the
    requesting handlers of internal/api/subscribers_lifecycle.go and
    subscribers_bulk.go, and the refund statement of internal/db/billing.go,
    over the tables of migrations 025 and 026. An approved action moves money
    through the wallet service (Billing) or terminates a subscriber
    (Subscribers) and files tasks for the devices they hold (Inventory). A
    handler's result is its HTTP status; an execution error is kept as a value,
    not as its text. *)

From S2P Require Import Prelude GoStrings Dates Identity Decimal Jobqueue VerifierCache LiveSessions Billing Dunning Subscribers Inventory.
From Stdlib Require Import Ascii QArith.

Local Open Scope Z_scope.

Module Workflow.

Definition ActionWalletCredit : string := "wallet_credit".
Definition ActionRefund : string := "refund".
Definition ActionTerminate : string := "terminate".
Definition StatusPending : string := "pending".
Definition StatusApproved : string := "approved".
Definition StatusExecuted : string := "executed".
Definition StatusExecutionFailed : string := "execution_failed".
Definition TaskOpen : string := "open".
Definition TaskInProgress : string := "in_progress".
Definition TaskCompleted : string := "completed".
Definition TaskCancelled : string := "cancelled".

Inductive error : Type :=
| ErrQuery | ErrConstraint | ErrNotFound | ErrAlreadyDecided | ErrSelfApproval
| ErrNotConfigured | ErrNoAmount | ErrNoSubscriber | ErrUnknownAction
| ErrWallet (e : Billing.error) | ErrTerminate (e : Subscribers.error).

(** ** State *)

(** The amount is in hundredths. *)
Record ApprovalRequest : Type := MkApproval {
  ActionType : string;
  a_SubscriberID : Z;
  Amount : option Z;
  Reason : string;
  Status : string;
  RequestedBy : string;
  DecidedBy : option string;
  DecisionReason : option string;
  ExecutionError : option error;
  LedgerEntryID : option Z;
  DecidedAt : option Z
}.

(** A DATE as year, month and day. *)
Record FieldTask : Type := MkTask {
  Title : string;
  Description : option string;
  t_SubscriberID : option Z;
  t_FranchiseID : option Z;
  AssignedTo : string;
  CreatedBy : string;
  t_Status : string;
  DueDate : option Dates.date;
  CompletedAt : option Z
}.

Record Refund : Type := MkRefund {
  f_SubscriberID : Z; f_LedgerEntryID : Z; f_Amount : Z; f_Reason : string; f_RefundedBy : string
}.

(** An entry of [auditGatedAction], with its detail. *)
Record GatedEntry : Type := MkGated {
  g_Action : string; g_SubscriberID : Z; g_ApprovalID : Z; g_RequestedBy : string; g_Amount : option Z
}.

Record world : Type := MkWorld {
  subs : Subscribers.world;
  stock : Inventory.stock;
  approvals : gmap Z ApprovalRequest;
  next_approval : Z;
  refunds : list Refund;
  field_tasks : gmap Z FieldTask;
  next_task : Z;
  gated : list GatedEntry
}.

Definition with_subs (s : Subscribers.world) (w : world) : world :=
  MkWorld s (stock w) (approvals w) (next_approval w) (refunds w) (field_tasks w) (next_task w) (gated w).
Definition with_db (d : Billing.DB) (w : world) : world := with_subs (Subscribers.with_bdb d (subs w)) w.
Definition with_stock (s : Inventory.stock) (w : world) : world :=
  MkWorld (subs w) s (approvals w) (next_approval w) (refunds w) (field_tasks w) (next_task w) (gated w).
Definition with_approvals (m : gmap Z ApprovalRequest) (n : Z) (w : world) : world :=
  MkWorld (subs w) (stock w) m n (refunds w) (field_tasks w) (next_task w) (gated w).
Definition with_refunds (l : list Refund) (w : world) : world :=
  MkWorld (subs w) (stock w) (approvals w) (next_approval w) l (field_tasks w) (next_task w) (gated w).
Definition with_tasks (m : gmap Z FieldTask) (n : Z) (w : world) : world :=
  MkWorld (subs w) (stock w) (approvals w) (next_approval w) (refunds w) m n (gated w).
Definition with_gated (l : list GatedEntry) (w : world) : world :=
  MkWorld (subs w) (stock w) (approvals w) (next_approval w) (refunds w) (field_tasks w) (next_task w) l.
Definition Audit (action : string) (id : Z) (w : world) : world := with_subs (Subscribers.Audit action id (subs w)) w.

Definition bdb (w : world) : Billing.DB := Subscribers.bdb (subs w).

(** What is configured, and which calls can be executed. *)
Record Config : Type := MkConfig {
  scfg : Subscribers.Config;
  has_wallet : bool;
  has_refunds : bool;
  has_approvals : bool;
  has_inventory : bool;
  has_field_tasks : bool
}.

Record Env : Type := MkEnv {
  create_up : bool;
  get_up : bool;
  claim_up : bool;
  reject_up : bool;
  finalize_up : bool;
  wallet_env : Billing.WalletEnv;
  refund_up : bool;
  terminate_up : bool;
  senv : Subscribers.Env;
  list_up : bool;
  task_up : string -> bool
}.

Definition all_up : Env :=
  MkEnv true true true true true Billing.all_up true true Subscribers.all_up true (fun _ => true).

Definition ValidateDecision (req : ApprovalRequest) (actor : string) : option error :=
  if negb (String.eqb (Status req) StatusPending) then Some ErrAlreadyDecided
  else if String.eqb actor (RequestedBy req) then Some ErrSelfApproval
  else None.

(** ** The approvals' statements *)

(** chk_approval_distinct_approver *)
Definition distinct_approver (a : ApprovalRequest) : bool :=
  match DecidedBy a with None => true | Some d => negb (String.eqb d (RequestedBy a)) end.

(** chk_approval_amount_by_type, and the domain of the action. *)
Definition amount_by_type (a : ApprovalRequest) : bool :=
  if String.eqb (ActionType a) ActionTerminate then bool_decide (Amount a = None)
  else existsb (String.eqb (ActionType a)) [ActionWalletCredit; ActionRefund] &&
       match Amount a with None => false | Some n => 0 <? n end.

Definition subscribed (w : world) (id : Z) : bool :=
  bool_decide (is_Some (Billing.subscribers (bdb w) !! id)).

Definition GetApprovalRequest (up : bool) (id : Z) (w : world) : result error (option ApprovalRequest) :=
  if negb up then Err ErrQuery else Ok (approvals w !! id).

Definition set_decision (status by_ : string) (reason : option string) (now : Z) (a : ApprovalRequest) :
    ApprovalRequest :=
  MkApproval (ActionType a) (a_SubscriberID a) (Amount a) (Reason a) status (RequestedBy a) (Some by_) reason
    (ExecutionError a) (LedgerEntryID a) (Some now).

(** The conditional update both decisions make: a row that is no longer
    pending is [None]. *)
Definition decide_pending (now : Z) (up : bool) (id : Z) (status by_ : string) (reason : option string) (w : world) :
    result error (option ApprovalRequest) * world :=
  if negb up then (Err ErrQuery, w)
  else match approvals w !! id with
       | None => (Ok None, w)
       | Some a =>
           if negb (String.eqb (Status a) StatusPending) then (Ok None, w)
           else let a := set_decision status by_ reason now a in
                if Subscribers.varchar 100 by_ && distinct_approver a
                then (Ok (Some a), with_approvals (<[id := a]> (approvals w)) (next_approval w) w)
                else (Err ErrConstraint, w)
       end.

Definition ClaimApprovalRequest (now : Z) (up : bool) (id : Z) (decidedBy : string) :
    world -> result error (option ApprovalRequest) * world :=
  decide_pending now up id StatusApproved decidedBy None.


Definition set_outcome (status : string) (err : option error) (ledger : option Z) (a : ApprovalRequest) :
    ApprovalRequest :=
  MkApproval (ActionType a) (a_SubscriberID a) (Amount a) (Reason a) status (RequestedBy a) (DecidedBy a)
    (DecisionReason a) err ledger (DecidedAt a).

Definition FinalizeApprovalExecution (up : bool) (id : Z) (status : string) (err : option error)
    (ledger : option Z) (w : world) : result error unit * world :=
  if negb up then (Err ErrQuery, w)
  else match approvals w !! id with
       | None => (Err ErrNotFound, w)
       | Some a => (Ok tt, with_approvals (<[id := set_outcome status err ledger a]> (approvals w)) (next_approval w) w)
       end.

(** ** Field tasks *)

Definition field_statuses : list string := [TaskOpen; TaskInProgress; TaskCompleted; TaskCancelled].
Definition validFieldTaskStatus (s : string) : bool := existsb (String.eqb s) field_statuses.

(** What the table refuses. *)
Definition task_ok (t : FieldTask) (w : world) : bool :=
  Subscribers.varchar 200 (Title t) && Subscribers.varchar 100 (AssignedTo t) &&
  Subscribers.varchar 100 (CreatedBy t) && validFieldTaskStatus (t_Status t) &&
  match t_SubscriberID t with None => true | Some id => subscribed w id end &&
  Billing.franchise_ok (t_FranchiseID t) (bdb w).

Definition CreateFieldTask (up : bool) (t : FieldTask) (w : world) : result error Z * world :=
  if negb up then (Err ErrQuery, w)
  else let id := next_task w in
       if task_ok t w then (Ok id, with_tasks (<[id := t]> (field_tasks w)) (id + 1) w)
       else (Err ErrConstraint, with_tasks (field_tasks w) (id + 1) w).





Section Actions.
Context `{Decimal}.

Definition CreateApprovalRequest (up : bool) (action : string) (subscriberID : Z) (amount : option dec)
    (reason by_ : string) (w : world) : result error Z * world :=
  if negb up then (Err ErrQuery, w)
  else
    let id := next_approval w in
    let w' := with_approvals (approvals w) (id + 1) w in
    match (match amount with None => Some None | Some d => Some <$> numeric 12 d end) with
    | None => (Err ErrConstraint, w')
    | Some amount =>
        let a := MkApproval action subscriberID amount reason StatusPending by_ None None None None None in
        if amount_by_type a && Subscribers.varchar 30 action && Subscribers.varchar 100 by_ && subscribed w subscriberID
        then (Ok id, with_approvals (<[id := a]> (approvals w)) (id + 1) w)
        else (Err ErrConstraint, w')
    end.

(** ** Requests *)

Definition createApprovalRequest (e : Env) (requestedBy action : string) (subscriberID : Z) (amount : option dec)
    (reason : string) (w : world) : result error Z * world :=
  match CreateApprovalRequest (create_up e) action subscriberID amount reason requestedBy w with
  | (Err x, w) => (Err x, w)
  | (Ok id, w) => (Ok id, Audit "approval.request" id w)
  end.

Definition requestApproval (e : Env) (actor action : string) (subscriberID : Z) (amount : option dec)
    (reason : string) (w : world) : Z * world :=
  match createApprovalRequest e actor action subscriberID amount reason w with
  | (Err _, w) => (500, w)
  | (Ok _, w) => (202, w)
  end.

(** The body's reason; an empty body is an empty reason. *)
Definition TerminateSubscriber (c : Config) (e : Env) (actor : string) (id : option Z) (body : option string) (w : world) :
    Z * world :=
  match id with
  | None => (400, w)
  | Some id =>
      if negb (Subscribers.has_lifecycle (scfg c)) || negb (has_approvals c) then (503, w)
      else match body with
           | None => (400, w)
           | Some reason =>
               if String.eqb reason EmptyString then (422, w)
               else requestApproval e actor ActionTerminate id None reason w
           end
  end.

Record adjustmentRequest : Type := MkAdjustment {
  j_Amount : option dec; j_Direction : string; j_Reason : string
}.

Definition positive (amount : option dec) : option dec :=
  a ← amount; if less_eq a (NewFromInt 0) then None else Some a.

Definition adjustment_post (id : Z) (amount : dec) (direction by_ description : string) : Billing.PostRequest :=
  Billing.MkPost id None amount direction Billing.AccountAdjustmentClearing EmptyString by_ description
    (NewFromInt 0).

Definition CreateAdjustment (now : Z) (c : Config) (e : Env) (actor : string) (id : option Z)
    (body : option adjustmentRequest) (w : world) : Z * world :=
  match id with
  | None => (400, w)
  | Some id =>
      if negb (has_wallet c) then (503, w)
      else match body with
           | None => (400, w)
           | Some req =>
               if negb (String.eqb (j_Direction req) "credit") && negb (String.eqb (j_Direction req) "debit")
               then (422, w)
               else if String.eqb (j_Reason req) EmptyString then (422, w)
               else match positive (j_Amount req) with
                    | None => (422, w)
                    | Some amount =>
                        if String.eqb (j_Direction req) "credit" then
                          if negb (has_approvals c) then (503, w)
                          else requestApproval e actor ActionWalletCredit id (Some amount) (j_Reason req) w
                        else match Billing.Post now (wallet_env e)
                                     (adjustment_post id amount (j_Direction req) actor
                                        ("staff adjustment: " +:+ j_Reason req)) (bdb w) with
                             | (Err Billing.ErrInsufficientBalance, d) => (422, with_db d w)
                             | (Err _, d) => (500, with_db d w)
                             | (Ok _, d) => (201, Audit "subscriber.adjustment" id (with_db d w))
                             end
                    end
           end
  end.





(** ** Execution *)

Definition auditGatedAction (id : Z) (req : ApprovalRequest) (w : world) : world :=
  Audit ("subscriber." +:+ ActionType req) (a_SubscriberID req)
    (with_gated (gated w ++ [MkGated (ActionType req) (a_SubscriberID req) id (RequestedBy req) (Amount req)]) w).

(** [INSERT INTO payment_refunds] *)
Definition insertRefund (up : bool) (subscriberID ledgerEntryID : Z) (amount : dec) (reason by_ : string) (w : world) :
    result error unit * world :=
  if negb up then (Err ErrQuery, w)
  else match numeric 12 amount with
       | None => (Err ErrConstraint, w)
       | Some n =>
           if (0 <? n) && subscribed w subscriberID && Subscribers.varchar 100 by_ &&
              existsb (fun r => Billing.lg_id r =? ledgerEntryID) (Billing.wallet_ledgers (bdb w))
           then (Ok tt, with_refunds (refunds w ++ [MkRefund subscriberID ledgerEntryID n reason by_]) w)
           else (Err ErrConstraint, w)
       end.

(** The approved amount as the store reads it back. *)
Definition gated_post (req : ApprovalRequest) (n : Z) : Billing.PostRequest :=
  let refund := String.eqb (ActionType req) ActionRefund in
  adjustment_post (a_SubscriberID req) (of_paise n) (if refund then "debit" else "credit")%string (RequestedBy req)
    ((if refund then "refund: " else "staff adjustment: ")%string +:+ Reason req +:+
       " (approved by " +:+ default EmptyString (DecidedBy req) +:+ ")").

Definition cpeRecoveryQueue : string := "field_queue".

Definition recovery_task (actor username : string) (subscriberID : Z) (type_name : Inventory.Device -> string)
    (d : Inventory.Device) : FieldTask :=
  MkTask ("Recover CPE " +:+ Inventory.SerialNumber d +:+ " from " +:+ username)
    (Some ("Subscriber terminated. Collect " +:+ type_name d +:+ " (serial " +:+ Inventory.SerialNumber d +:+
       ") and mark it returned or faulty in inventory."))
    (Some subscriberID) None cpeRecoveryQueue actor TaskOpen None None.

(** Errors are logged. *)
Definition openCPERecoveryTasks (c : Config) (e : Env) (actor : string) (subscriberID : Z) (username : string)
    (w : world) : world :=
  if negb (has_inventory c) || negb (has_field_tasks c) then w
  else match Inventory.ListDevices (list_up e) (Some Inventory.StatusIssued) None (Some subscriberID) (stock w) with
       | Err _ => w
       | Ok devices =>
           let name := Inventory.type_name (stock w) in
           foldl (fun w d => (CreateFieldTask (task_up e (Inventory.SerialNumber d))
             (recovery_task actor username subscriberID name d) w).2) w devices
       end.

(** The ledger entry and the error, as Go's two results. *)
Definition performGatedAction (now : Z) (c : Config) (e : Env) (actor : string) (id : Z) (req : ApprovalRequest)
    (w : world) : option Z * option error * world :=
  if String.eqb (ActionType req) ActionWalletCredit || String.eqb (ActionType req) ActionRefund then
    if negb (has_wallet c) then (None, Some ErrNotConfigured, w)
    else match Amount req with
         | None => (None, Some ErrNoAmount, w)
         | Some n =>
             match Billing.Post now (wallet_env e) (gated_post req n) (bdb w) with
             | (Err x, d) => (None, Some (ErrWallet x), with_db d w)
             | (Ok tx, d) =>
                 let w := auditGatedAction id req (with_db d w) in
                 if negb (String.eqb (ActionType req) ActionRefund) then (Some (Billing.tx_ID tx), None, w)
                 else if negb (has_refunds c) then (Some (Billing.tx_ID tx), Some ErrNotConfigured, w)
                 else match insertRefund (refund_up e) (a_SubscriberID req) (Billing.tx_ID tx) (of_paise n)
                              (Reason req) (RequestedBy req) w with
                      | (Err x, w) => (Some (Billing.tx_ID tx), Some x, w)
                      | (Ok _, w) => (Some (Billing.tx_ID tx), None, w)
                      end
             end
         end
  else if String.eqb (ActionType req) ActionTerminate then
    if negb (Subscribers.has_lifecycle (scfg c)) then (None, Some ErrNotConfigured, w)
    else match Subscribers.TerminateSubscriber (terminate_up e) (a_SubscriberID req) (subs w) with
         | (Err x, s) => (None, Some (ErrTerminate x), with_subs s w)
         | (Ok None, s) => (None, Some ErrNoSubscriber, with_subs s w)
         | (Ok (Some r), s) =>
             let s := Subscribers.invalidate (scfg c) (senv e) (Billing.username r) s in
             let w := auditGatedAction id req (with_subs s w) in
             let w := with_subs (Subscribers.enqueuePoDIfSessionActive now (scfg c) (senv e) (a_SubscriberID req)
                        (subs w)) w in
             (None, None, openCPERecoveryTasks c e actor (a_SubscriberID req) (Billing.username r) w)
         end
  else (None, Some ErrUnknownAction, w).

Definition final_status (err : option error) : string :=
  match err with None => StatusExecuted | Some _ => StatusExecutionFailed end.

Definition executeApprovedAction (now : Z) (c : Config) (e : Env) (actor : string) (id : Z) (req : ApprovalRequest)
    (w : world) : ApprovalRequest * world :=
  let '(ledger, err, w) := performGatedAction now c e actor id req w in
  let w := (FinalizeApprovalExecution (finalize_up e) id (final_status err) err ledger w).2 in
  (set_outcome (final_status err) err ledger req, w).

Definition ExecuteApprovedRequest (now : Z) (c : Config) (e : Env) (id : Z) (actor : string) (w : world) :
    result error ApprovalRequest * world :=
  if negb (has_approvals c) then (Err ErrNotConfigured, w)
  else match ClaimApprovalRequest now (claim_up e) id actor w with
       | (Err x, w) => (Err x, w)
       | (Ok None, w) => (Err ErrAlreadyDecided, w)
       | (Ok (Some claimed), w) =>
           let '(executed, w) := executeApprovedAction now c e actor id claimed w in
           (Ok executed, Audit "approval.approve" id w)
       end.

Definition ApproveRequest (now : Z) (c : Config) (e : Env) (actor : string) (id : option Z) (w : world) : Z * world :=
  match id with
  | None => (400, w)
  | Some id =>
      if negb (has_approvals c) then (503, w)
      else match GetApprovalRequest (get_up e) id w with
           | Err _ => (500, w)
           | Ok None => (404, w)
           | Ok (Some existing) =>
               match ValidateDecision existing actor with
               | Some ErrSelfApproval => (403, w)
               | Some _ => (409, w)
               | None =>
                   match ExecuteApprovedRequest now c e id actor w with
                   | (Err ErrAlreadyDecided, w) => (409, w)
                   | (Err _, w) => (500, w)
                   | (Ok _, w) => (200, w)
                   end
               end
           end
  end.


(** ** Field-task handlers *)





End Actions.

(** ** What the statements leave *)


(** Requests and tasks touch neither the log of executed actions nor money. *)
Definition same_control (w w' : world) : Prop :=
  approvals w' = approvals w /\ next_approval w' = next_approval w /\ gated w' = gated w.

Lemma CreateFieldTask_control up t w :
  same_control w (CreateFieldTask up t w).2 /\ subs (CreateFieldTask up t w).2 = subs w /\
  refunds (CreateFieldTask up t w).2 = refunds w.
Proof. unfold CreateFieldTask, same_control. repeat (case_match; simpl; try done). Qed.

Lemma recovery_control c e actor id u w :
  same_control w (openCPERecoveryTasks c e actor id u w) /\ subs (openCPERecoveryTasks c e actor id u w) = subs w /\
  refunds (openCPERecoveryTasks c e actor id u w) = refunds w.
Proof.
  unfold openCPERecoveryTasks. destruct (_ || _); [done |]. destruct (Inventory.ListDevices _ _ _ _ _) as [l |]; [| done].
  apply (foldl_invariant (fun w' => same_control w w' /\ subs w' = subs w /\ refunds w' = refunds w)); [| done].
  intros w' d [(Ha & Hn & Hg) [Hs Hf]].
  destruct (CreateFieldTask_control (task_up e (Inventory.SerialNumber d))
    (recovery_task actor u id (Inventory.type_name (stock w)) d) w') as [(Ha' & Hn' & Hg') [Hs' Hf']].
  unfold same_control. split_and!; congruence.
Qed.


(** ** Executions, step by step *)


Section Control.
Context `{DecimalLaws}.

(** What the rest of the platform may do to the subscribers meanwhile. *)
Variable other : Subscribers.world -> Subscribers.world -> Prop.






(** *** Two people, and once *)











(** The log after an execution: the same, or one entry more. *)
Definition entry_of (id : Z) (a : ApprovalRequest) : GatedEntry :=
  MkGated (ActionType a) (a_SubscriberID a) id (RequestedBy a) (Amount a).


(** *** What moves money *)

Definition wallet (d : Billing.DB) (i : Z) : option Z := Billing.wallet_balance <$> Billing.subscribers d !! i.














(** *** One step *)
































End Control.

(** ** Termination *)

Definition recovery_fits (actor username serial : string) : Prop :=
  (String.length serial + String.length username <= 182)%nat /\ Subscribers.varchar 100 actor = true.

Lemma length_append (s t : string) : String.length (s +:+ t) = (String.length s + String.length t)%nat.
Proof. induction s as [| c s IH]; [done |]. simpl. by rewrite <- IH. Qed.

Lemma recovery_task_ok actor u id name d w :
  recovery_fits actor u (Inventory.SerialNumber d) -> subscribed w id = true ->
  task_ok (recovery_task actor u id name d) w = true.
Proof.
  intros [Hl Ha] Hs. unfold task_ok, recovery_task. cbn [Title AssignedTo CreatedBy t_Status t_SubscriberID t_FranchiseID].
  rewrite Ha, Hs. unfold Subscribers.varchar at 1. rewrite !length_append. simpl.
  rewrite !andb_true_r. apply Nat.leb_le. lia.
Qed.

(** Filing the tasks: nothing filed is lost, and each one that fits is filed. *)
Lemma recovery_files actor u id name (up : string -> bool) l w d :
  d ∈ l -> recovery_fits actor u (Inventory.SerialNumber d) -> subscribed w id = true ->
  up (Inventory.SerialNumber d) = true ->
  let w' := foldl (fun w d => (CreateFieldTask (up (Inventory.SerialNumber d)) (recovery_task actor u id name d) w).2) w l in
  exists tid, next_task w <= tid /\ field_tasks w' !! tid = Some (recovery_task actor u id name d).
Proof.
  intros Hd Hfit Hs Hup. revert w Hs.
  assert (forall l w tid t, tid < next_task w -> field_tasks w !! tid = Some t ->
    field_tasks (foldl (fun w d => (CreateFieldTask (up (Inventory.SerialNumber d))
      (recovery_task actor u id name d) w).2) w l) !! tid = Some t) as Hkeep.
  { clear. intros l. induction l as [| x l IH]; intros w tid t Ht Hl; [done |]. simpl. apply IH.
    - unfold CreateFieldTask. repeat (case_match; simpl; try lia).
    - unfold CreateFieldTask. repeat (case_match; simpl; try done).
      rewrite lookup_insert_ne by lia. done. }
  induction l as [| x l IH]; intros w Hs; [by apply not_elem_of_nil in Hd |]. simpl.
  destruct (CreateFieldTask_control (up (Inventory.SerialNumber x)) (recovery_task actor u id name x) w) as [_ [Hsub _]].
  apply elem_of_cons in Hd as [-> | Hd].
  - exists (next_task w). split; [lia |]. apply Hkeep.
    + unfold CreateFieldTask. rewrite Hup. cbn [negb]. case_match; simpl; lia.
    + unfold CreateFieldTask. rewrite Hup, recovery_task_ok by done. simpl. by rewrite lookup_insert, decide_True by done.
  - destruct (IH Hd (CreateFieldTask (up (Inventory.SerialNumber x)) (recovery_task actor u id name x) w).2)
      as (tid & Hle & Ht); [unfold subscribed, bdb in *; by rewrite Hsub |].
    exists tid. split; [| done]. revert Hle. unfold CreateFieldTask. repeat (case_match; simpl; try lia).
Qed.

Lemma ListDevices_holds st up holder did d :
  Inventory.devices st !! did = Some d -> Inventory.Status d = Inventory.StatusIssued ->
  Inventory.SubscriberID d = Some holder ->
  match Inventory.ListDevices up (Some Inventory.StatusIssued) None (Some holder) st with
  | Ok l => d ∈ l
  | Err _ => up = false
  end.
Proof.
  intros Hd Hs Hh. unfold Inventory.ListDevices. destruct up; [| done]. cbn [negb].
  rewrite sorting.merge_sort_Permutation. apply list_elem_of_filter. split.
  - unfold Inventory.matches. rewrite Hs, Hh, !bool_decide_true by done. done.
  - apply list_elem_of_fmap. exists (did, d). split; [done | by apply elem_of_map_to_list].
Qed.

Section Termination.
Context `{DecimalLaws}.

Definition full_config (c : Config) : Prop :=
  has_approvals c = true /\ has_inventory c = true /\ has_field_tasks c = true /\
  Subscribers.has_lifecycle (scfg c) = true /\ Subscribers.has_cache (scfg c) = true.

Lemma enqueue_verifiers now cfg e t p id s :
  Subscribers.verifiers (Subscribers.enqueue_if_active now cfg e t p id s) = Subscribers.verifiers s.
Proof. unfold Subscribers.enqueue_if_active. repeat (case_match; simpl; try done). Qed.

Lemma recovery_stock c e actor id u w : stock (openCPERecoveryTasks c e actor id u w) = stock w.
Proof.
  unfold openCPERecoveryTasks. destruct (_ || _); [done |]. destruct (Inventory.ListDevices _ _ _ _ _) as [l |]; [| done].
  apply (foldl_invariant (fun w' => stock w' = stock w)); [| done]. intros w' d <-.
  unfold CreateFieldTask. repeat (case_match; simpl; try done).
Qed.

(** What the execution of a termination does before the tasks are filed. *)
Lemma terminate_performs now c actor id a r w :
  Subscribers.has_lifecycle (scfg c) = true -> ActionType a = ActionTerminate ->
  Billing.subscribers (bdb w) !! a_SubscriberID a = Some r ->
  exists w', performGatedAction now c all_up actor id a w =
      (None, None, openCPERecoveryTasks c all_up actor (a_SubscriberID a) (Billing.username r) w') /\
    (Billing.subscribers (Subscribers.bdb (subs w')) !! a_SubscriberID a = Some (Dunning.terminated r) /\
     Subscribers.verifiers (subs w') =
       (if Subscribers.has_cache (scfg c)
        then VerifierCache.DeleteByUsername (Billing.username r) (Subscribers.verifiers (subs w))
        else Subscribers.verifiers (subs w))) /\
    approvals w' = approvals w /\ next_approval w' = next_approval w /\
    gated w' = gated w ++ [entry_of id a] /\ stock w' = stock w /\
    field_tasks w' = field_tasks w /\ next_task w' = next_task w.
Proof.
  intros Hl Ht Hr. unfold performGatedAction. rewrite Ht.
  change (String.eqb ActionTerminate ActionWalletCredit || String.eqb ActionTerminate ActionRefund) with false.
  change (String.eqb ActionTerminate ActionTerminate) with true. cbv iota. rewrite Hl. cbn [negb].
  unfold Subscribers.TerminateSubscriber. cbn [terminate_up all_up negb].
  change (Subscribers.bdb (subs w)) with (bdb w). rewrite Hr. cbv zeta iota.
  eexists. split; [reflexivity |]. cbn [subs with_subs approvals next_approval gated stock field_tasks next_task].
  split; [| by split_and!]. split.
  - unfold Subscribers.enqueuePoDIfSessionActive.
    match goal with |- context [Subscribers.enqueue_if_active ?a ?b ?c ?d ?f ?g ?h] =>
      destruct (Subscribers.enqueue_if_active_same a b c d f g h) as (-> & _) end.
    cbn [subs with_subs auditGatedAction Audit Subscribers.Audit with_gated Subscribers.bdb].
    match goal with |- context [Subscribers.invalidate ?a ?b ?c ?d] =>
      destruct (Subscribers.invalidate_same a b c d) as (-> & _) end.
    simpl. by rewrite lookup_alter, decide_True, Hr by done.
  - unfold Subscribers.enqueuePoDIfSessionActive. rewrite enqueue_verifiers.
    cbn [subs with_subs auditGatedAction Audit Subscribers.Audit with_gated Subscribers.verifiers].
    unfold Subscribers.invalidate. cbn [senv all_up Subscribers.cache_up Subscribers.all_up].
    by destruct (Subscribers.has_cache (scfg c)).
Qed.

(** A termination approved by a second person takes effect: the request is
    recorded as executed and decided by them, the subscriber has a status
    RADIUS refuses, their cached verifiers are gone, one action is logged, and
    a task is filed for every device they hold whose serial number and
    username together have at most 182 characters; the devices themselves stay
    issued. *)
Theorem termination_complete now c actor id a r w :
  full_config c -> approvals w !! id = Some a -> Status a = StatusPending -> ActionType a = ActionTerminate ->
  actor <> RequestedBy a -> Subscribers.varchar 100 actor = true ->
  Billing.subscribers (bdb w) !! a_SubscriberID a = Some r ->
  let '(code, w') := ApproveRequest now c all_up actor (Some id) w in
  code = 200 /\
  approvals w' !! id = Some (set_outcome StatusExecuted None None (set_decision StatusApproved actor None now a)) /\
  gated w' = gated w ++ [entry_of id a] /\
  Billing.subscribers (bdb w') !! a_SubscriberID a = Some (Dunning.terminated r) /\
  Identity.AuthorisesService (Billing.status (Dunning.terminated r)) = false /\
  Subscribers.verifiers (subs w') = VerifierCache.DeleteByUsername (Billing.username r) (Subscribers.verifiers (subs w)) /\
  stock w' = stock w /\
  forall did d, Inventory.devices (stock w) !! did = Some d -> Inventory.Status d = Inventory.StatusIssued ->
    Inventory.SubscriberID d = Some (a_SubscriberID a) ->
    (String.length (Inventory.SerialNumber d) + String.length (Billing.username r) <= 182)%nat ->
    exists tid, next_task w <= tid /\ field_tasks w' !! tid =
      Some (recovery_task actor (Billing.username r) (a_SubscriberID a) (Inventory.type_name (stock w)) d).
Proof.
  intros (Hca & Hci & Hcf & Hcl & Hcc) Ha Hp Ht Hne Hact Hr.
  set (a1 := set_decision StatusApproved actor None now a).
  assert (ClaimApprovalRequest now true id actor w =
    (Ok (Some a1), with_approvals (<[id := a1]> (approvals w)) (next_approval w) w)) as Hclaim.
  { unfold ClaimApprovalRequest, decide_pending. cbn [negb]. rewrite Ha, Hp, String.eqb_refl. cbn [negb].
    fold a1. rewrite Hact. unfold distinct_approver. simpl. by rewrite (proj2 (String.eqb_neq _ _) Hne). }
  set (w1 := with_approvals (<[id := a1]> (approvals w)) (next_approval w) w) in *.
  destruct (terminate_performs now c actor id a1 r w1 Hcl Ht Hr) as (w2 & Hperf & Hsub & Hap & Hna & Hg & Hst & Ht2 & Hnt).
  change (a_SubscriberID a1) with (a_SubscriberID a) in *.
  set (w3 := openCPERecoveryTasks c all_up actor (a_SubscriberID a) (Billing.username r) w2) in Hperf.
  destruct (recovery_control c all_up actor (a_SubscriberID a) (Billing.username r) w2) as [(Ha3 & Hn3 & Hg3) [Hs3 _]].
  fold w3 in Ha3, Hn3, Hg3, Hs3. change (stock w1) with (stock w) in Hst. change (next_task w1) with (next_task w) in Hnt.
  assert (approvals w3 !! id = Some a1) as Hrow
    by (rewrite Ha3, Hap; simpl; by rewrite lookup_insert, decide_True by done).
  unfold ApproveRequest, GetApprovalRequest. rewrite Hca, Ha. cbn [negb get_up all_up].
  unfold ValidateDecision. rewrite Hp, String.eqb_refl, (proj2 (String.eqb_neq _ _) Hne). cbn [negb].
  unfold ExecuteApprovedRequest. rewrite Hca. cbn [negb claim_up all_up]. rewrite Hclaim.
  unfold executeApprovedAction. rewrite Hperf. cbv iota.
  unfold FinalizeApprovalExecution. cbn [finalize_up all_up negb]. rewrite Hrow.
  cbn [snd Audit with_subs with_approvals approvals gated stock field_tasks subs bdb].
  split_and!; try done.
  - by rewrite lookup_insert, decide_True by done.
  - by rewrite Hg3, Hg.
  - unfold bdb. simpl. rewrite Hs3. apply Hsub.
  - simpl. rewrite Hs3. destruct Hsub as [_ Hv]. rewrite Hv. by rewrite Hcc.
  - etransitivity; [apply recovery_stock | exact Hst].
  - intros did d Hd Hds Hh Hl.
    pose proof (ListDevices_holds (stock w2) true (a_SubscriberID a) did d) as Hin. rewrite Hst in Hin.
    specialize (Hin Hd Hds Hh). unfold w3, openCPERecoveryTasks. rewrite Hci, Hcf. cbn [negb orb list_up all_up].
    rewrite Hst. destruct (Inventory.ListDevices _ _ _ _ _) as [l |]; [| done].
    rewrite <- Hnt. apply (recovery_files actor (Billing.username r) (a_SubscriberID a)
      (Inventory.type_name (stock w)) (task_up all_up) l w2 d Hin); [by split | | done].
    unfold subscribed, bdb. apply bool_decide_eq_true. destruct Hsub as [-> _]. by eexists.
Qed.

End Termination.

(** ** The other way to terminate *)

(** One member of staff can terminate a subscriber alone: a PATCH of the
    status is answered 200 and stores the same row as an approved termination,
    with no approval; and unlike the approved one it leaves the live session,
    the cached verifiers and the task queue as they were, so whoever is online
    stays online. *)
Theorem patch_terminates_alone c e id r s :
  Subscribers.update_up e = true -> Billing.subscribers (Subscribers.bdb s) !! id = Some r ->
  Subscribers.row_checks r = None ->
  let '(code, s') := Subscribers.UpdateSubscriberHandler c e (Some id)
                       (Some (Subscribers.MkPatch None (Some "terminated"%string) None)) s in
  code = 200 /\
  Billing.subscribers (Subscribers.bdb s') =
    Billing.subscribers (Dunning.update Dunning.terminated id (Subscribers.bdb s)) /\
  Subscribers.live s' = Subscribers.live s /\ Subscribers.tasks s' = Subscribers.tasks s /\
  Subscribers.verifiers s' = Subscribers.verifiers s.
Proof.
  intros Hup Hr Hc. unfold Subscribers.UpdateSubscriberHandler, Subscribers.UpdateSubscriber.
  rewrite Hup, Hr. cbn [negb Subscribers.pt_PlanID Subscribers.pt_Status Subscribers.pt_PlanExpiry].
  assert (Subscribers.row_checks (Subscribers.updated_row None (Some "terminated"%string) None r) = None) as ->.
  { apply Subscribers.row_checks_None in Hc as (_ & HE & Hb & _ & Hw). apply Subscribers.row_checks_None.
    split_and!; try done. unfold Subscribers.widths_ok in *. simpl. revert Hw.
    rewrite !andb_true_iff. by intros ((((? & ?) & ?) & ?) & _). }
  assert (Billing.plan_id (Subscribers.updated_row None (Some "terminated"%string) None r) = Billing.plan_id r) as -> by done.
  rewrite Z.eqb_refl. cbn [orb]. split; [done |]. unfold Subscribers.emit.
  assert (<[id := Subscribers.updated_row None (Some "terminated"%string) None r]>
      (Billing.subscribers (Subscribers.bdb s)) =
    alter Dunning.terminated id (Billing.subscribers (Subscribers.bdb s))) as Hm.
  { apply map_eq. intros j. rewrite lookup_insert, lookup_alter. case_decide; [subst; by rewrite Hr | done]. }
  destruct (Subscribers.has_events c); simpl; rewrite Hm; by split_and!.
Qed.

(** ** Witnesses *)

Definition demo_world : world := MkWorld Subscribers.demo_world Inventory.demo_stock ∅ 1 [] ∅ 1 [].
Definition demo_config : Config := MkConfig Subscribers.demo_config true true true true true.


Definition demo_adjustment : @adjustmentRequest RationalDecimal :=
  @MkAdjustment RationalDecimal (Some (inject_Z 50)) "credit" "goodwill".

(** A credit asked for by one and approved by another. *)
Definition demo_requested : world :=
  (CreateAdjustment (H := RationalDecimal) 0 demo_config all_up "asha" (Some 1) (Some demo_adjustment) demo_world).2.


(** The one who asked is refused. *)
Example no_self_approval :
  (ApproveRequest (H := RationalDecimal) 1 demo_config all_up "asha" (Some 1) demo_requested).1 = 403.
Proof. vm_compute. reflexivity. Qed.

Definition demo_held : Inventory.stock :=
  Inventory.with_devices {[ 1 := Inventory.MkDevice 1 "SN-1" None "issued" None (Some 1) (Some 0) None ]} 2
    Inventory.demo_stock.
Definition demo_termination : ApprovalRequest :=
  MkApproval ActionTerminate 1 None "moved away" StatusPending "asha" None None None None None.
Definition demo_leaving : world :=
  with_stock demo_held (with_approvals {[ 1 := demo_termination ]} 2 demo_world).

Lemma termination_complete_witness :
  let w' := (ApproveRequest (H := RationalDecimal) 1 demo_config all_up "bala" (Some 1) demo_leaving).2 in
  (ApproveRequest (H := RationalDecimal) 1 demo_config all_up "bala" (Some 1) demo_leaving).1 = 200 /\
  exists tid t, field_tasks w' !! tid = Some t /\ Title t = "Recover CPE SN-1 from asha"%string.
Proof.
  assert (Billing.subscribers (bdb demo_leaving) !! 1 = Some Billing.demo_subscriber) as Hr by (vm_compute; reflexivity).
  pose proof (termination_complete (H := RationalDecimal) 1 demo_config "bala" 1 demo_termination
    Billing.demo_subscriber demo_leaving ltac:(vm_compute; split_and!; reflexivity) eq_refl eq_refl eq_refl
    ltac:(discriminate) eq_refl Hr) as Ht.
  destruct (ApproveRequest _ _ _ _ _ _) as [code w']. destruct Ht as (Hc & _ & _ & _ & _ & _ & _ & Hd).
  intros w''. split; [exact Hc |].
  destruct (Hd 1 (Inventory.MkDevice 1 "SN-1" None "issued" None (Some 1) (Some 0) None) eq_refl eq_refl eq_refl
    ltac:(simpl; lia)) as (tid & _ & Htid).
  exists tid. eexists. split; [exact Htid | reflexivity].
Defined.

Lemma patch_terminates_alone_witness :
  (Subscribers.UpdateSubscriberHandler Subscribers.demo_config Subscribers.all_up (Some 1)
     (Some (Subscribers.MkPatch None (Some "terminated"%string) None)) Subscribers.demo_world).1 = 200.
Proof.
  assert (Billing.subscribers (Subscribers.bdb Subscribers.demo_world) !! 1 = Some Billing.demo_subscriber) as Hr
    by (vm_compute; reflexivity).
  pose proof (patch_terminates_alone Subscribers.demo_config Subscribers.all_up 1 Billing.demo_subscriber
    Subscribers.demo_world eq_refl Hr ltac:(vm_compute; reflexivity)) as Hp.
  destruct (Subscribers.UpdateSubscriberHandler _ _ _ _ _) as [code s']. exact (proj1 Hp).
Defined.

Fixpoint repeat_char (n : nat) (c : ascii) : string :=
  match n with O => EmptyString | S n => String c (repeat_char n c) end.

(** A title that is too long for its column is refused, and the task with it:
    the device of a terminated subscriber is not recovered. *)
Example recovery_task_lost :
  let d := Inventory.MkDevice 1 (repeat_char 100 "9") None "issued" None (Some 1) (Some 0) None in
  task_ok (recovery_task "bala" (repeat_char 90 "u") 1 (fun _ => "ONU"%string) d) demo_world = false.
Proof. vm_compute. reflexivity. Qed.

(** An amount of half a paisa: the ledger books one and the balance none. *)
Example subpaisa_debit_drifts :
  let '(r, d) := Billing.Post (H := RationalDecimal) 0 Billing.all_up
    (adjustment_post (H := RationalDecimal) 1 (5 # 1000)%Q "debit" "asha" "") Billing.demo_db in
  is_ok r = true /\ wallet d 1 = wallet Billing.demo_db 1 /\
  Billing.ledger_sum 1 (Billing.wallet_ledgers d) = Billing.ledger_sum 1 (Billing.wallet_ledgers Billing.demo_db) - 1.
Proof. vm_compute. done. Qed.

End Workflow.
