(* ===== verification/Revenue.v ===== *)
(** * Franchise revenue: commissions, statements, reconciliation, forecasts

    internal/revenue, internal/db/revenue.go, internal/api/franchises.go, and
    the paths that take a payment and settle a commission on it: the operator's
    recharge (internal/api/routes.go), the gateway's webhook
    (internal/api/webhook_razorpay.go, internal/billing/webhook.go) and the
    portal's renewal (cmd/api/main.go). The wallet and the journal are Billing's
    tables; the identity tables and the task queue are Subscribers'. Amounts in
    columns are hundredths. A handler's result is its HTTP status. *)

From S2P Require Import Prelude Rows GoStrings Dates Json Decimal Jobqueue VerifierCache LiveSessions Hotspot Gst Billing Dunning Renewal Subscribers Inventory Crm.
From stdpp Require Import sorting.
From Stdlib Require Import Ascii QArith Qabs Lqa.

Local Open Scope Z_scope.

Module Revenue.

(** ** State *)

Record Partner : Type := MkPartner {
  pt_Name : string;
  pt_OwnerName : string;
  pt_MobileNumber : string;
  pt_CommissionRatePct : Z;
  pt_Status : string;
  pt_CreatedAt : Z
}.

Record CommissionRow : Type := MkCommission {
  lc_id : Z;
  lc_franchise_id : Z;
  lc_subscriber_id : Z;
  lc_recharge_amount : Z;
  lc_commission_amount : Z;
  lc_transaction_ref : option string;
  lc_created_at : Z
}.

(** Days are counted from 1970-01-01. *)
Record SnapshotRow : Type := MkSnapshotRow {
  sn_date : Z; sn_unbilled : Z; sn_variance : Z; sn_total : Z
}.

Record ForecastRow : Type := MkForecastRow {
  fr_date : Z; fr_for_date : Z; fr_expected : Z; fr_at_risk : Z; fr_expected_revenue : Z; fr_at_risk_revenue : Z
}.

Record world : Type := MkWorld {
  subs : Subscribers.world;
  partners : gmap Z Partner;
  next_partner : Z;
  lco_ledger : list CommissionRow;
  next_commission : Z;
  revenue_snapshots : list SnapshotRow;
  collections_forecast : list ForecastRow;
  alerts : list string
}.

Definition bdb (w : world) : Billing.DB := Subscribers.bdb (subs w).

Definition with_subs (s : Subscribers.world) (w : world) : world :=
  MkWorld s (partners w) (next_partner w) (lco_ledger w) (next_commission w) (revenue_snapshots w)
    (collections_forecast w) (alerts w).
Definition with_bdb (d : Billing.DB) (w : world) : world := with_subs (Subscribers.with_bdb d (subs w)) w.
Definition with_lco (l : list CommissionRow) (n : Z) (w : world) : world :=
  MkWorld (subs w) (partners w) (next_partner w) l n (revenue_snapshots w) (collections_forecast w) (alerts w).
Definition with_snapshots (l : list SnapshotRow) (w : world) : world :=
  MkWorld (subs w) (partners w) (next_partner w) (lco_ledger w) (next_commission w) l (collections_forecast w)
    (alerts w).
Definition with_forecast (l : list ForecastRow) (w : world) : world :=
  MkWorld (subs w) (partners w) (next_partner w) (lco_ledger w) (next_commission w) (revenue_snapshots w) l
    (alerts w).
(** [Alerter.Trigger] *)
Definition Trigger (event : string) (w : world) : world :=
  MkWorld (subs w) (partners w) (next_partner w) (lco_ledger w) (next_commission w) (revenue_snapshots w)
    (collections_forecast w) (alerts w ++ [event]).
Definition Audit (action : string) (target : Z) (w : world) : world :=
  with_subs (Subscribers.Audit action target (subs w)) w.

Inductive error : Type :=
| ErrQuery | ErrNotFound | ErrConstraint | ErrInactive | ErrPosting (e : Billing.error).

(** The statements of [CalculateAndStoreLCOCommission]'s transaction. *)
Inductive stage : Type :=
| BeginTx | InsertLedger | InsertEntry | FindExpense | FindPayable | ExpenseLine | PayableLine | CommitTx.

(** Which calls can be executed, and what is configured. *)
Record Env : Type := MkEnv {
  wallet_env : Billing.WalletEnv;
  scope_up : bool;
  partner_up : bool;
  commission_up : stage -> bool;
  get_up : bool;
  notice_up : bool;
  has_franchises : bool
}.
Definition all_up : Env := MkEnv Billing.all_up true true (fun _ => true) true true true.

(** ** Statements of profit and loss *)

Record FranchisePnL : Type := MkPnL {
  pl_FranchiseID : Z;
  pl_FranchiseName : string;
  pl_Status : string;
  pl_CommissionRatePct : Z;
  pl_SubscriberCount : Z;
  pl_RechargeCount : Z;
  pl_TotalRecharges : Z;
  pl_CommissionEarned : Z;
  pl_NetToISP : Z
}.

Definition in_window (from to : option Z) (t : Z) : bool :=
  match from with None => true | Some a => a <=? t end && match to with None => true | Some b => t <? b end.

Definition earned (f : Z) (from to : option Z) (w : world) : list CommissionRow :=
  List.filter (fun r => (lc_franchise_id r =? f) && in_window from to (lc_created_at r)) (lco_ledger w).

Definition members (f : Z) (w : world) : list (Z * Billing.SubscriberRow) :=
  List.filter (fun p => bool_decide (Billing.franchise_id p.2 = Some f))
    (map_to_list (Billing.subscribers (bdb w))).

(** The cast to NUMERIC(14,2). *)
Definition money14 (z : Z) : option Z := if Z.abs z <? 10 ^ 14 then Some z else None.

Definition pnl_row (from to : option Z) (w : world) (p : Z * Partner) : option FranchisePnL :=
  let l := earned p.1 from to w in
  let total := sum_by lc_recharge_amount l in
  let commission := sum_by lc_commission_amount l in
  t ← money14 total; c ← money14 commission; n ← money14 (total - commission);
  Some (MkPnL p.1 (pt_Name p.2) (pt_Status p.2) (pt_CommissionRatePct p.2) (Z.of_nat (length (members p.1 w)))
          (Z.of_nat (length l)) t c n).

(** Partners in a scope, by id. *)
Definition scoped_partners (scope : option Z) (w : world) : list (Z * Partner) :=
  merge_sort by_id (List.filter (fun p => Inventory.matches scope (Some p.1)) (map_to_list (partners w))).

Definition listPnL (up : bool) (franchiseID from to : option Z) (w : world) : result error (list FranchisePnL) :=
  if negb up then Err ErrQuery
  else match mapM (pnl_row from to w) (scoped_partners franchiseID w) with
       | None => Err ErrConstraint
       | Some l => Ok l
       end.

Definition GetFranchisePnL (up : bool) (franchiseID : Z) (from to : option Z) (w : world) :
    result error (option FranchisePnL) :=
  match listPnL up (Some franchiseID) from to w with Err x => Err x | Ok l => Ok (head l) end.

Definition ListFranchises (up : bool) (scope : option Z) (w : world) : result error (list (Z * Partner)) :=
  if negb up then Err ErrQuery else Ok (scoped_partners scope w).

(** Franchise-scoped subscribers: id, username, franchise. *)
Definition ListSubscribers (up : bool) (scope : option Z) (w : world) :
    result error (list (Z * string * option Z)) :=
  if negb up then Err ErrQuery
  else Ok (map (fun p => (p.1, Billing.username p.2, Billing.franchise_id p.2))
         (merge_sort by_id (List.filter (fun p => Inventory.matches scope (Billing.franchise_id p.2))
            (map_to_list (Billing.subscribers (bdb w)))))).

(** *** The caller's scope and the date window *)

(** revenue.[FranchiseMiddleware]: [None] refuses the request; otherwise the
    franchise the handler is confined to. *)
Definition franchiseScopedRoles : list string := ["lco"; "franchise_admin"; "franchise_staff"]%string.

Definition FranchiseMiddleware (c : Crm.Caller) : option (option Z) :=
  if existsb (String.eqb (Crm.role c)) franchiseScopedRoles
  then if Crm.franchise_claim c =? 0 then None else Some (Some (Crm.franchise_claim c))
  else Some None.

(** The status, and the rows of a 200. *)
Definition ListSubscribersHandler (up : bool) (c : Crm.Caller) (w : world) : Z * list (Z * string * option Z) :=
  match FranchiseMiddleware c with
  | None => (403, [])
  | Some scope => match ListSubscribers up scope w with Err _ => (500, []) | Ok rows => (200, rows) end
  end.

(** The query's two parameters, empty when absent; instants, or [None] for a
    refused window. *)
Definition parseDateWindow (from to : string) : option (option Z * option Z) :=
  a ← (if String.eqb from EmptyString then Some None
       else d ← Dates.parse_date from; Some (Some (Dates.midnight d)));
  b ← (if String.eqb to EmptyString then Some None
       else d ← Dates.parse_date to; Some (Some (Renewal.add_days (Dates.midnight d) 1)));
  match a, b with
  | Some f, Some t => if t <? f then None else Some (a, b)
  | _, _ => Some (a, b)
  end.

(** The reading endpoints: the status, and what a 200 carries. *)
Definition ListFranchisesHandler (configured up : bool) (c : Crm.Caller) (w : world) : Z * list (Z * Partner) :=
  if negb configured then (503, [])
  else match Crm.callerFranchiseScope c with
       | None => (403, [])
       | Some scope => match ListFranchises up scope w with Err _ => (500, []) | Ok l => (200, l) end
       end.

Definition GetFranchisePnLHandler (configured up : bool) (c : Crm.Caller) (id : option Z) (from to : string)
    (w : world) : Z * option FranchisePnL :=
  if negb configured then (503, None)
  else match id with
       | None => (400, None)
       | Some id =>
           match Crm.callerFranchiseScope c with
           | None => (403, None)
           | Some scope =>
               if negb (Inventory.matches scope (Some id)) then (403, None)
               else match parseDateWindow from to with
                    | None => (422, None)
                    | Some (a, b) =>
                        match GetFranchisePnL up id a b w with
                        | Err _ => (500, None)
                        | Ok None => (404, None)
                        | Ok (Some p) => (200, Some p)
                        end
                    end
           end
       end.

Section Store.
Context `{Decimal}.

(** ** Commissions *)

Record Franchise : Type := MkFranchise { f_ID : Z; f_CommissionRatePct : dec; f_Status : string }.

Record LCOCommissionEntry : Type := MkLCO {
  le_FranchiseID : Z;
  le_SubscriberID : Z;
  le_RechargeAmount : dec;
  le_CommissionRate : dec;
  le_CommissionAmount : dec;
  le_TransactionRef : string
}.

Definition GetFranchiseByID (up : bool) (id : Z) (w : world) : result error Franchise :=
  if negb up then Err ErrQuery
  else match partners w !! id with
       | None => Err ErrNotFound
       | Some p => Ok (MkFranchise id (of_paise (pt_CommissionRatePct p)) (pt_Status p))
       end.

Definition GetSubscriberFranchiseID (up : bool) (id : Z) (w : world) : result error (option Z) :=
  if negb up then Err ErrQuery
  else match Billing.subscribers (bdb w) !! id with
       | None => Err ErrNotFound
       | Some r => Ok (Billing.franchise_id r)
       end.

Definition ref_taken (ref : option string) (l : list CommissionRow) : bool :=
  match ref with
  | None => false
  | Some _ => existsb (fun r => bool_decide (lc_transaction_ref r = ref)) l
  end.

(** [INSERT INTO lco_ledger … ON CONFLICT DO NOTHING RETURNING id]: nothing is
    returned when the reference is taken. *)
Definition insertLedger (now : Z) (ok : bool) (entry : LCOCommissionEntry) (w : world) :
    result error (option Z) * world :=
  if negb ok then (Err ErrQuery, w)
  else
    let id := next_commission w in
    let ref := Billing.nullif_empty (le_TransactionRef entry) in
    let w := with_lco (lco_ledger w) (id + 1) w in
    match numeric 12 (le_RechargeAmount entry), numeric 12 (le_CommissionAmount entry) with
    | Some amount, Some commission =>
        if negb (Subscribers.varchar 100 (le_TransactionRef entry)) then (Err ErrConstraint, w)
        else if ref_taken ref (lco_ledger w) then (Ok None, w)
        else if bool_decide (le_FranchiseID entry ∈ Billing.franchises (bdb w)) &&
                bool_decide (is_Some (Billing.subscribers (bdb w) !! le_SubscriberID entry))
        then (Ok (Some id),
              with_lco (lco_ledger w ++ [MkCommission id (le_FranchiseID entry) (le_SubscriberID entry) amount
                                           commission ref now]) (id + 1) w)
        else (Err ErrConstraint, w)
    | _, _ => (Err ErrConstraint, w)
    end.

Definition commission_description (entry : LCOCommissionEntry) : string :=
  "Franchise commission — partner " +:+ format_int (le_FranchiseID entry) +:+ ", subscriber " +:+
  format_int (le_SubscriberID entry).

(** The journal entry: commission expense against what is owed to partners. *)
Definition commission_journal (up : stage -> bool) (entry : LCOCommissionEntry) (ledgerID : Z) : Billing.M Z :=
  let amount := le_CommissionAmount entry in
  Billing.bind (Billing.insertEntry (up InsertEntry) (commission_description entry) "lco_commission" ledgerID "system")
    (fun journalID =>
  Billing.bind (Billing.glAccountID (up FindExpense) "5000") (fun expenseID =>
  Billing.bind (Billing.glAccountID (up FindPayable) "2100") (fun payableID =>
  Billing.bind (Billing.insertLine (up ExpenseLine) journalID expenseID (Billing.MkLeg "5000" "debit" amount))
    (fun _ =>
  Billing.bind (Billing.insertLine (up PayableLine) journalID payableID (Billing.MkLeg "2100" "credit" amount))
    (fun _ => Billing.ret journalID))))).

(** A rollback restores the tables, not the sequences. *)
Definition undo (before after : world) : world :=
  with_lco (lco_ledger before) (next_commission after)
    (with_bdb (Billing.rollback (bdb before) (bdb after)) before).

Definition CalculateAndStoreLCOCommission (now : Z) (up : stage -> bool) (entry : LCOCommissionEntry) (w : world) :
    result error unit * world :=
  if negb (up BeginTx) then (Err ErrQuery, w)
  else
    let commit w' := if up CommitTx then (Ok tt, w') else (Err ErrQuery, undo w w') in
    match insertLedger now (up InsertLedger) entry w with
    | (Err x, w') => (Err x, undo w w')
    | (Ok None, w') => commit w'
    | (Ok (Some ledgerID), w') =>
        if is_zero (le_CommissionAmount entry) then commit w'
        else match commission_journal up entry ledgerID (bdb w') with
             | (Err x, d) => (Err (ErrPosting x), undo w (with_bdb d w'))
             | (Ok journalID, d) =>
                 if Billing.gl_balanced journalID d then commit (with_bdb d w')
                 else (Err ErrConstraint, undo w (with_bdb d w'))
             end
    end.

Definition commission_of (amount rate : dec) : dec := Round (Div (Mul amount rate) (NewFromInt 100)) 2.

Definition CalculateLCOCommission (now : Z) (e : Env) (entry : LCOCommissionEntry) (w : world) :
    result error dec * world :=
  match GetFranchiseByID (partner_up e) (le_FranchiseID entry) w with
  | Err x => (Err x, w)
  | Ok franchise =>
      if negb (String.eqb (f_Status franchise) "active") then (Err ErrInactive, w)
      else
        let commission := commission_of (le_RechargeAmount entry) (f_CommissionRatePct franchise) in
        let ledgerRow := MkLCO (le_FranchiseID entry) (le_SubscriberID entry) (le_RechargeAmount entry)
                           (f_CommissionRatePct franchise) commission (le_TransactionRef entry) in
        match CalculateAndStoreLCOCommission now (commission_up e) ledgerRow w with
        | (Err x, w) => (Err x, w)
        | (Ok _, w) => (Ok commission, w)
        end
  end.

(** Errors are logged. *)
Definition SettleCommissionForRecharge (now : Z) (e : Env) (subscriberID : Z) (amount : dec)
    (transactionRef : string) (w : world) : world :=
  match GetSubscriberFranchiseID (scope_up e) subscriberID w with
  | Err _ | Ok None => w
  | Ok (Some franchiseID) =>
      (CalculateLCOCommission now e
         (MkLCO franchiseID subscriberID amount (NewFromInt 0) (NewFromInt 0) transactionRef) w).2
  end.

(** ** The consolidated statement *)

Record ConsolidatedPnL : Type := MkConsolidated {
  co_Partners : list FranchisePnL; co_TotalRecharges : dec; co_CommissionEarned : dec; co_NetToISP : dec
}.

(** The totals are summed from the rows; they are printed with [StringFixed]. *)
Definition ListConsolidatedPnL (up : bool) (from to : option Z) (w : world) : result error ConsolidatedPnL :=
  match listPnL up None from to w with
  | Err x => Err x
  | Ok partners =>
      let total f := fold_left (fun acc p => Decimal.Add acc (of_paise (f p))) partners (NewFromInt 0) in
      Ok (MkConsolidated partners (total pl_TotalRecharges) (total pl_CommissionEarned) (total pl_NetToISP))
  end.

Definition GetConsolidatedPnLHandler (configured up : bool) (c : Crm.Caller) (from to : string) (w : world) :
    Z * option ConsolidatedPnL :=
  if negb configured then (503, None)
  else if Crm.franchiseScopedRole (Crm.role c) then (403, None)
  else match parseDateWindow from to with
       | None => (422, None)
       | Some (a, b) => match ListConsolidatedPnL up a b w with Err _ => (500, None) | Ok p => (200, Some p) end
       end.

(** ** Taking a payment *)

(** [dec_String] and [StringFixed] print a decimal, [NewFromString] reads one. *)
Context (dec_String : dec -> string) (StringFixed : dec -> Z -> string) (NewFromString : string -> option dec).

Definition wasSuspended (status : string) : bool :=
  existsb (String.eqb status) ["grace_period"; "soft_suspended"; "hard_suspended"]%string.

Definition TaskTypePaymentReceipt : string := "notif:payment_receipt".

Definition receipt_task (id : Z) (r : Billing.SubscriberRow) (amount newBalance : string) : Jobqueue.Task :=
  Jobqueue.NewTask TaskTypePaymentReceipt
    (bytes_of_string (Dunning.marshal_receipt (Dunning.MkReceipt id (Billing.username r) amount newBalance
       (wasSuspended (Billing.status r)))))
    [Jobqueue.Queue Dunning.QueueNotifications; Jobqueue.MaxRetry 3; Jobqueue.Retention (24 * Dunning.hour)].

(** Failures are logged. *)
Definition enqueuePaymentReceipt (now : Z) (c : Subscribers.Config) (e : Env) (id : Z) (amount newBalance : string)
    (w : world) : world :=
  if negb (Subscribers.has_tasks c) || negb (Subscribers.has_db c) then w
  else if negb (get_up e) then w
  else match Billing.subscribers (bdb w) !! id with
       | None => w
       | Some r =>
           with_subs (Subscribers.with_tasks
             (Jobqueue.EnqueueContext now (notice_up e) (receipt_task id r amount newBalance) []
                (Subscribers.tasks (subs w))).2 (subs w)) w
       end.

Definition settle_if (now : Z) (e : Env) (id : Z) (amount : dec) (ref : string) (w : world) : world :=
  if has_franchises e then SettleCommissionForRecharge now e id amount ref w else w.

Record RechargeBody : Type := MkBody {
  rb_SubscriberID : Z; rb_Amount : string; rb_PaymentMethod : string; rb_TransactionToken : string
}.

Definition recharge_request (req : RechargeBody) (amount : dec) : Billing.RechargeRequest :=
  Billing.MkRecharge (rb_SubscriberID req) amount (rb_TransactionToken req) None
    ("recharge via " +:+ rb_PaymentMethod req).

(** POST /wallets/recharge; a body that does not decode is [None]. *)
Definition WalletRecharge (now : Z) (c : Subscribers.Config) (e : Env) (body : option RechargeBody) (w : world) :
    Z * world :=
  match body with
  | None => (400, w)
  | Some req =>
      match NewFromString (rb_Amount req) with
      | None => (422, w)
      | Some amount =>
          match Billing.Recharge now (wallet_env e) (recharge_request req amount) (bdb w) with
          | (Err _, d) => (500, with_bdb d w)
          | (Ok tx, d) =>
              let w := Audit "wallet.recharge" (rb_SubscriberID req) (with_bdb d w) in
              let w := settle_if now e (rb_SubscriberID req) amount (rb_TransactionToken req) w in
              (200, enqueuePaymentReceipt now c e (rb_SubscriberID req) (rb_Amount req)
                      (dec_String (Billing.tx_BalanceAfter tx)) w)
          end
      end
  end.

(** ** Partners *)

(** [CreateFranchiseRequest]; the rate is a decimal in text. *)
Record CreateFranchiseRequest : Type := MkCreate {
  cf_Name : string; cf_OwnerName : string; cf_MobileNumber : string; cf_CommissionRatePct : string
}.

Definition add_franchise (id : Z) (d : Billing.DB) : Billing.DB :=
  Billing.MkDB (Billing.subscribers d) (Billing.plans d) ({[ id ]} ∪ Billing.franchises d)
    (Billing.wallet_ledgers d) (Billing.next_ledger d) (Billing.chart_of_accounts d) (Billing.journal_entries d)
    (Billing.next_entry d) (Billing.journal_lines d) (Billing.gst_rates d) (Billing.invoices d)
    (Billing.next_invoice d).

(** The store's [CreateFranchise]; [rate] is what the column casts the text
    to. *)
Definition CreateFranchise (now : Z) (up : bool) (req : CreateFranchiseRequest) (rate : dec) (w : world) :
    result error Z * world :=
  if negb up then (Err ErrQuery, w)
  else
    let id := next_partner w in
    let next := MkWorld (subs w) (partners w) (id + 1) (lco_ledger w) (next_commission w) (revenue_snapshots w)
                  (collections_forecast w) (alerts w) in
    match numeric 5 rate with
    | Some pct =>
        if Subscribers.varchar 100 (cf_Name req) && Subscribers.varchar 100 (cf_OwnerName req) &&
           E164 (cf_MobileNumber req)
        then let p := MkPartner (cf_Name req) (cf_OwnerName req) (cf_MobileNumber req) pct "active" now in
             (Ok id, MkWorld (Subscribers.with_bdb (add_franchise id (bdb w)) (subs w)) (<[id := p]> (partners w))
                       (id + 1) (lco_ledger w) (next_commission w) (revenue_snapshots w) (collections_forecast w)
                       (alerts w))
        else (Err ErrConstraint, next)
    | None => (Err ErrConstraint, next)
    end.

(** POST /franchises *)
Definition CreateFranchiseHandler (now : Z) (configured up : bool) (body : option CreateFranchiseRequest) (w : world) :
    Z * world :=
  if negb configured then (503, w)
  else match body with
       | None => (400, w)
       | Some req =>
           if String.eqb (cf_Name req) EmptyString || String.eqb (cf_OwnerName req) EmptyString then (422, w)
           else if String.eqb (cf_MobileNumber req) EmptyString then (422, w)
           else if negb (E164 (cf_MobileNumber req)) then (422, w)
           else match NewFromString (cf_CommissionRatePct req) with
                | None => (422, w)
                | Some rate =>
                    if is_negative rate || Less (NewFromInt 100) rate then (422, w)
                    else match CreateFranchise now up req rate w with
                         | (Err _, w) => (500, w)
                         | (Ok id, w) => (201, Audit "franchise.create" id w)
                         end
                end
       end.

(** *** The gateway's webhook *)

(** [hmac_hex secret body]: HMAC-SHA256 in lower-case hexadecimal. *)
Context (hmac_hex : string -> string -> string).

Definition ValidateRazorpaySignature (payload signature secret : string) : bool :=
  String.eqb (hmac_hex secret payload) signature.

Record razorpayWebhookPayload : Type := MkPayload {
  rz_Event : string; rz_ID : string; rz_Amount : Z; rz_SubscriberID : string
}.

(** [json.Unmarshal] into the payload; other members are ignored. *)
Context (decode : string -> option razorpayWebhookPayload).

Definition maxRazorpayWebhookBody : Z := Z.shiftl 1 20.

Definition EventPaymentReceived : string := "payment.received".

Definition webhook_subscriber (p : razorpayWebhookPayload) : option Z :=
  match atoi (rz_SubscriberID p) with
  | Some id => if id <=? 0 then None else Some id
  | None => None
  end.

Definition paise_amount (amount : Z) : dec := Div (NewFromInt amount) (NewFromInt 100).

(** What a captured payment does. *)
Definition captured (now : Z) (c : Subscribers.Config) (e : Env) (p : razorpayWebhookPayload) (subscriberID : Z)
    (w : world) : Z * world :=
  let amount := paise_amount (rz_Amount p) in
  match Billing.Recharge now (wallet_env e)
          (Billing.MkRecharge subscriberID amount (rz_ID p) None "recharge via razorpay webhook") (bdb w) with
  | (Err _, d) => (500, with_bdb d w)
  | (Ok tx, d) =>
      let w := settle_if now e subscriberID amount (rz_ID p) (with_bdb d w) in
      let w := enqueuePaymentReceipt now c e subscriberID (StringFixed amount 2)
                 (dec_String (Billing.tx_BalanceAfter tx)) w in
      (200, with_subs (Subscribers.emit c EventPaymentReceived subscriberID (subs w)) w)
  end.

(** POST /webhooks/razorpay; a body that cannot be read is [None]. *)
Definition RazorpayWebhook (now : Z) (c : Subscribers.Config) (e : Env) (secret : string) (body : option string)
    (signature : string) (w : world) : Z * world :=
  if String.eqb secret EmptyString then (503, w)
  else match limited maxRazorpayWebhookBody <$> body with
       | None => (400, w)
       | Some body =>
           if negb (ValidateRazorpaySignature body signature secret) then (400, w)
           else match decode body with
                | None => (400, w)
                | Some p =>
                    if negb (String.eqb (rz_Event p) "payment.captured") then (200, w)
                    else match webhook_subscriber p with
                         | None => (200, w)
                         | Some id => captured now c e p id w
                         end
                end
       end.

(** *** The portal's renewal (cmd/api/main.go), with the settlement it ends with *)

Definition ApplyRenewal (now : Z) (e : Env) (pe : Renewal.PortalEnv) (id : Z) (amount : dec) (paymentID : string)
    (w : world) : result Billing.error (Z * dec) * world :=
  match Renewal.ApplyRenewal now pe id amount paymentID (bdb w) with
  | (Err x, d) => (Err x, with_bdb d w)
  | (Ok r, d) => (Ok r, settle_if now e id amount paymentID (with_bdb d w))
  end.

End Store.

(** ** Isolation of franchises *)

(** The two worlds agree on what belongs to a franchise. *)
Record same_franchise (f : Z) (w1 w2 : world) : Prop := {
  sf_partner : partners w1 !! f = partners w2 !! f;
  sf_ledger : List.filter (fun r => lc_franchise_id r =? f) (lco_ledger w1) =
              List.filter (fun r => lc_franchise_id r =? f) (lco_ledger w2);
  sf_members id r : Billing.franchise_id r = Some f ->
    Billing.subscribers (bdb w1) !! id = Some r <-> Billing.subscribers (bdb w2) !! id = Some r
}.

Lemma scoped_same f w1 w2 : same_franchise f w1 w2 -> scoped_partners (Some f) w1 = scoped_partners (Some f) w2.
Proof.
  intros Hs. apply sorted_rows. intros i x. unfold Inventory.matches. rewrite bool_decide_eq_true.
  intros [= ->]. by rewrite (sf_partner _ _ _ Hs).
Qed.

Lemma members_same f w1 w2 : same_franchise f w1 w2 -> length (members f w1) = length (members f w2).
Proof.
  intros Hs. unfold members.
  rewrite <- (merge_sort_Permutation by_id (List.filter _ (map_to_list (Billing.subscribers (bdb w1))))).
  rewrite <- (merge_sort_Permutation by_id (List.filter _ (map_to_list (Billing.subscribers (bdb w2))))).
  f_equal. apply sorted_rows. intros i r. rewrite bool_decide_eq_true. apply (sf_members _ _ _ Hs).
Qed.

Lemma earned_same f from to w1 w2 : same_franchise f w1 w2 -> earned f from to w1 = earned f from to w2.
Proof. intros Hs. unfold earned. rewrite !filter_andb. by rewrite (sf_ledger _ _ _ Hs). Qed.

Lemma scoped_partner_id f w p : p ∈ scoped_partners (Some f) w -> p.1 = f.
Proof.
  unfold scoped_partners. rewrite merge_sort_Permutation, elem_of_filterb. unfold Inventory.matches.
  rewrite bool_decide_eq_true. by intros [_ [= ->]].
Qed.

Lemma pnl_same up f from to w1 w2 :
  same_franchise f w1 w2 -> GetFranchisePnL up f from to w1 = GetFranchisePnL up f from to w2.
Proof.
  intros Hs. unfold GetFranchisePnL, listPnL. rewrite (scoped_same f w1 w2 Hs). destruct up; [| done]. cbn [negb].
  assert (forall l, (forall p, p ∈ l -> p.1 = f) -> mapM (pnl_row from to w1) l = mapM (pnl_row from to w2) l) as Hl.
  { induction l as [| p l IH]; intros Hp; [done |]. simpl.
    assert (pnl_row from to w1 p = pnl_row from to w2 p) as ->.
    { unfold pnl_row. rewrite (Hp p (list_elem_of_here p l)), (earned_same f from to w1 w2 Hs).
      by rewrite (members_same f w1 w2 Hs). }
    by rewrite IH by (intros; apply Hp; by right). }
  rewrite Hl; [done |]. intros p Hp. by apply (scoped_partner_id f w2).
Qed.

(** A caller with a franchise role sees their own franchise and nothing
    else: without a franchise in the token every endpoint refuses, and with
    one the partner list, the subscriber list and the statements answer the
    same in any two worlds that agree on that franchise's own rows. The
    consolidated statement is refused to them altogether. *)
Theorem franchise_isolated c f configured up id from to w1 w2 :
  Crm.franchiseScopedRole (Crm.role c) = true -> Crm.franchise_claim c = f -> same_franchise f w1 w2 ->
  (f = 0 -> ListFranchisesHandler true up c w1 = (403, []) /\ ListSubscribersHandler up c w1 = (403, []) /\
     GetFranchisePnLHandler true up c (Some id) from to w1 = (403, None)) /\
  ListFranchisesHandler configured up c w1 = ListFranchisesHandler configured up c w2 /\
  ListSubscribersHandler up c w1 = ListSubscribersHandler up c w2 /\
  GetFranchisePnLHandler configured up c (Some id) from to w1 =
    GetFranchisePnLHandler configured up c (Some id) from to w2 /\
  (id <> f -> (GetFranchisePnLHandler true up c (Some id) from to w1).1 = 403).
Proof.
  intros Hrole <- Hs. unfold ListFranchisesHandler, ListSubscribersHandler, GetFranchisePnLHandler, FranchiseMiddleware,
    Crm.callerFranchiseScope. change (existsb (String.eqb (Crm.role c)) franchiseScopedRoles) with
    (Crm.franchiseScopedRole (Crm.role c)). rewrite Hrole. cbn [negb].
  destruct (Z.eqb_spec (Crm.franchise_claim c) 0) as [H0 | Hne].
  { split; [done |]. split; [by destruct configured |]. split; [done |]. by destruct configured. }
  split; [done |]. split; [| split; [| split]].
  - destruct configured; [| done]. cbn [negb]. unfold ListFranchises. by rewrite (scoped_same _ w1 w2 Hs).
  - unfold ListSubscribers. destruct up; [| done]. cbn [negb].
    rewrite (sorted_rows _ (Billing.subscribers (bdb w1)) (Billing.subscribers (bdb w2))); [done |].
    intros i r. unfold Inventory.matches. rewrite bool_decide_eq_true. apply (sf_members _ _ _ Hs).
  - destruct configured; [| done]. cbn [negb]. unfold Inventory.matches.
    case_bool_decide as Hid; [| done]. injection Hid as ->. cbn [negb].
    destruct (parseDateWindow from to) as [[a b] |]; [| done]. by rewrite (pnl_same up _ a b w1 w2 Hs).
  - intros Hid. unfold Inventory.matches. rewrite bool_decide_false by congruence. done.
Qed.

(** ** Settling a commission *)

Section Commissions.
Context `{DecimalLaws}.

(** Only sequences moved. *)
Record quiet (w w' : world) : Prop := {
  qu_ledger : lco_ledger w' = lco_ledger w;
  qu_next : next_commission w <= next_commission w';
  qu_partners : partners w' = partners w;
  qu_tables : Billing.same_tables (bdb w) (bdb w')
}.

Definition commission_lines (d : Billing.DB) (c : Z) : list Billing.JournalLine :=
  [Billing.MkLine (Billing.next_entry d) (Billing.account d "5000") c 0;
   Billing.MkLine (Billing.next_entry d) (Billing.account d "2100") 0 c].

(** The billing tables after a commission of [c] recorded as row [id]. *)
Definition journalled (desc : string) (id c : Z) (d : Billing.DB) : Billing.DB :=
  if c =? 0 then d
  else Billing.with_lines (fun l => l ++ commission_lines d c)
         (Billing.with_entries
            (fun l => l ++ [Billing.MkJournal (Billing.next_entry d) desc "lco_commission" id "system"])
            (Billing.next_entry d + 1) d).

Definition description (f id : Z) : string :=
  "Franchise commission — partner " +:+ format_int f +:+ ", subscriber " +:+ format_int id.

Record booked (now f id n c : Z) (ref : string) (w w' : world) : Prop := {
  bo_free : ref_taken (Billing.nullif_empty ref) (lco_ledger w) = false;
  bo_ledger : lco_ledger w' =
    lco_ledger w ++ [MkCommission (next_commission w) f id n c (Billing.nullif_empty ref) now];
  bo_next : next_commission w' = next_commission w + 1;
  bo_partners : partners w' = partners w;
  bo_bdb : bdb w' = journalled (description f id) (next_commission w) c (bdb w)
}.

Lemma bdb_with_lco l n w : bdb (with_lco l n w) = bdb w.
Proof. done. Qed.

Lemma same_tables_refl d : Billing.same_tables d d.
Proof. split; [by destruct d | lia]. Qed.

Lemma undo_quiet w w' :
  next_commission w <= next_commission w' -> Billing.next_ledger (bdb w) <= Billing.next_ledger (bdb w') ->
  Billing.next_entry (bdb w) <= Billing.next_entry (bdb w') -> quiet w (undo w w').
Proof. intros. split; simpl; [done | done | done | by split]. Qed.

Lemma insertEntry_forward ok desc ty id who : Billing.forward (Billing.insertEntry ok desc ty id who).
Proof. intros d. unfold Billing.insertEntry. case_match; simpl; lia. Qed.

Lemma glAccountID_forward ok code : Billing.forward (Billing.glAccountID ok code).
Proof. intros d. unfold Billing.glAccountID. repeat case_match; simpl; lia. Qed.

Lemma insertLine_forward ok j x leg : Billing.forward (Billing.insertLine ok j x leg).
Proof. intros d. unfold Billing.insertLine. repeat (case_match || simplify_eq/=); simpl; lia. Qed.

Lemma commission_journal_forward up entry id : Billing.forward (commission_journal up entry id).
Proof.
  unfold commission_journal.
  apply Billing.forward_bind; [apply insertEntry_forward | intros j].
  apply Billing.forward_bind; [apply glAccountID_forward | intros x].
  apply Billing.forward_bind; [apply glAccountID_forward | intros y].
  apply Billing.forward_bind; [apply insertLine_forward | intros _].
  apply Billing.forward_bind; [apply insertLine_forward | intros _ d; simpl; lia].
Qed.

Lemma commission_journal_Ok up entry id d j d' c :
  is_paise (le_CommissionAmount entry) c -> commission_journal up entry id d = (Ok j, d') ->
  0 < c /\ j = Billing.next_entry d /\
  d' = journalled (description (le_FranchiseID entry) (le_SubscriberID entry)) id c d.
Proof.
  intros Hc. unfold commission_journal.
  intros (j0 & d1 & H1 & Hr)%Billing.bind_Ok.
  apply Billing.bind_Ok in Hr as (x & d2 & H2 & Hr). apply Billing.bind_Ok in Hr as (y & d3 & H3 & Hr).
  apply Billing.bind_Ok in Hr as (u & d4 & H4 & Hr). apply Billing.bind_Ok in Hr as (v & d5 & H5 & Hr).
  injection Hr as <- <-.
  unfold Billing.insertEntry in H1. destruct (up InsertEntry); [| done]. injection H1 as <- <-.
  unfold Billing.glAccountID in H2, H3. destruct (up FindExpense); [| done]. simpl in H2.
  destruct (Billing.chart_of_accounts d !! "5000") as [a5 |] eqn:H5000; [| done]. injection H2 as <- <-.
  destruct (up FindPayable); [| done]. simpl in H3.
  destruct (Billing.chart_of_accounts d !! "2100") as [a2 |] eqn:H2100; [| done]. injection H3 as <- <-.
  unfold Billing.insertLine in H4, H5. cbn [Billing.gl_amount Billing.gl_entryType] in H4, H5.
  destruct (up ExpenseLine); [| done]. cbn [negb] in H4.
  destruct (numeric 14 (le_CommissionAmount entry)) as [a |] eqn:Ha; [| done].
  pose proof (numeric_inv 14 _ c a ltac:(lia) Hc Ha) as ->.
  destruct (0 <? c) eqn:Hpos; [| done]. injection H4 as _ <-.
  destruct (up PayableLine); [| done]. cbn [negb] in H5. injection H5 as _ <-.
  split; [lia |]. split; [done |]. unfold journalled. rewrite (proj2 (Z.eqb_neq c 0)) by lia.
  unfold commission_lines, Billing.account. rewrite H5000, H2100.
  unfold Billing.with_lines, Billing.with_entries. simpl. by rewrite <- app_assoc.
Qed.

(** The insert alone: refused, a conflict, or one row. *)
Lemma insertLedger_cases now ok entry n c w r w' :
  is_paise (le_RechargeAmount entry) n -> is_paise (le_CommissionAmount entry) c ->
  insertLedger now ok entry w = (r, w') ->
  bdb w' = bdb w /\ partners w' = partners w /\ next_commission w <= next_commission w' /\
  match r with
  | Ok (Some id) =>
      let ref := Billing.nullif_empty (le_TransactionRef entry) in
      ref_taken ref (lco_ledger w) = false /\ id = next_commission w /\ next_commission w' = id + 1 /\
      lco_ledger w' = lco_ledger w ++ [MkCommission id (le_FranchiseID entry) (le_SubscriberID entry) n c ref now]
  | _ => lco_ledger w' = lco_ledger w
  end.
Proof.
  intros Hn Hc. unfold insertLedger. destruct ok; cbn [negb]; [| intros [= <- <-]; split_and!; done || lia].
  destruct (numeric 12 (le_RechargeAmount entry)) as [a |] eqn:Ha;
    [pose proof (numeric_inv 12 _ n a ltac:(lia) Hn Ha) as -> | intros [= <- <-]; simpl; split_and!; done || lia].
  destruct (numeric 12 (le_CommissionAmount entry)) as [b |] eqn:Hb;
    [pose proof (numeric_inv 12 _ c b ltac:(lia) Hc Hb) as -> | intros [= <- <-]; simpl; split_and!; done || lia].
  destruct (negb _); [intros [= <- <-]; simpl; split_and!; done || lia |].
  destruct (ref_taken _ _) eqn:Href; [intros [= <- <-]; simpl; split_and!; done || lia |].
  simpl in Href. destruct (_ && _); intros [= <- <-]; simpl; split_and!; done || lia.
Qed.

Lemma CalculateAndStore_cases now up entry n c w :
  is_paise (le_RechargeAmount entry) n -> is_paise (le_CommissionAmount entry) c ->
  let w' := (CalculateAndStoreLCOCommission now up entry w).2 in
  quiet w w' \/ booked now (le_FranchiseID entry) (le_SubscriberID entry) n c (le_TransactionRef entry) w w'.
Proof.
  intros Hn Hc. unfold CalculateAndStoreLCOCommission. destruct (up BeginTx); cbn [negb].
  2: { left. split; [done | simpl; lia | done | apply same_tables_refl]. }
  destruct (insertLedger now (up InsertLedger) entry w) as [r w1] eqn:Hi.
  apply (insertLedger_cases _ _ _ n c) in Hi as (Hbdb & Hpart & Hnext & Hr); [| done | done].
  assert (forall d, Billing.next_ledger (bdb w) <= Billing.next_ledger d -> Billing.next_entry (bdb w) <= Billing.next_entry d ->
    quiet w (undo w (with_bdb d w1))) as Hundo by (intros; by apply undo_quiet).
  assert (quiet w (undo w w1)) as Hundo1 by (apply undo_quiet; rewrite ?Hbdb; done || lia).
  destruct r as [[id |] | x]; [| | by left].
  2: { left. destruct (up CommitTx); [| done]. split; try done. simpl. rewrite Hbdb. apply same_tables_refl. }
  destruct Hr as (Href & -> & Hn1 & Hl). rewrite (paise_is_zero _ c Hc). destruct (Z.eqb_spec c 0) as [-> | Hne].
  { destruct (up CommitTx); [right | by left]. split; try done. }
  rewrite Hbdb. destruct (commission_journal up entry (next_commission w) (bdb w)) as [rj d] eqn:Hj.
  pose proof (commission_journal_forward up entry (next_commission w) (bdb w)) as Hf. rewrite Hj in Hf. simpl in Hf.
  destruct rj as [j | x]; [| left; apply Hundo; lia].
  destruct (Billing.gl_balanced j d) eqn:Hbal; [| left; apply Hundo; lia].
  destruct (up CommitTx); [right | left; apply Hundo; lia].
  apply (commission_journal_Ok _ _ _ _ _ _ c Hc) in Hj as (_ & _ & ->). split; try done.
Qed.

Lemma commission_paise amount n k : is_paise amount n -> is_paise (commission_of amount (of_paise k)) (Gst.tax n k).
Proof. intros Hn. exact (Gst.tax_of_paise amount (of_paise k) n k Hn (paise_of k)). Qed.

(** Settling does nothing, or books one commission at the partner's rate. *)
Lemma Settle_cases now e id amount n ref w :
  is_paise amount n ->
  let w' := SettleCommissionForRecharge now e id amount ref w in
  quiet w w' \/ exists r f p, Billing.subscribers (bdb w) !! id = Some r /\ Billing.franchise_id r = Some f /\
    partners w !! f = Some p /\ pt_Status p = "active"%string /\
    booked now f id n (Gst.tax n (pt_CommissionRatePct p)) ref w w'.
Proof.
  intros Hn. assert (quiet w w) as Hq by (split; [done | lia | done | apply same_tables_refl]).
  unfold SettleCommissionForRecharge, GetSubscriberFranchiseID.
  destruct (scope_up e); cbn [negb]; [| by left].
  destruct (Billing.subscribers (bdb w) !! id) as [r |] eqn:Hr; [| by left].
  destruct (Billing.franchise_id r) as [f |] eqn:Hf; [| by left].
  unfold CalculateLCOCommission, GetFranchiseByID. cbn [le_FranchiseID].
  destruct (partner_up e); cbn [negb]; [| by left]. destruct (partners w !! f) as [p |] eqn:Hp; [| by left].
  cbn [f_Status f_CommissionRatePct]. destruct (String.eqb_spec (pt_Status p) "active") as [Hs | _]; [| by left].
  cbn [negb]. match goal with |- context [CalculateAndStoreLCOCommission now ?up ?en w] =>
    destruct (CalculateAndStore_cases now up en n (Gst.tax n (pt_CommissionRatePct p)) w) as [H1 | H1] end.
  - done.
  - simpl. by apply commission_paise.
  - left. by destruct (CalculateAndStoreLCOCommission _ _ _ _) as [[] w1].
  - right. exists r, f, p. split_and!; try done.
    by destruct (CalculateAndStoreLCOCommission _ _ _ _) as [[] w1].
Qed.

(** ** The commission ledger and its journal *)

Definition is_commission (je : Billing.JournalEntry) : bool := String.eqb (Billing.je_source_type je) "lco_commission".

Definition commission_entries (id : Z) (d : Billing.DB) : list Billing.JournalEntry :=
  List.filter (fun je => is_commission je && (Billing.je_source_id je =? id)) (Billing.journal_entries d).

(** No entry for a commission of nothing, else one entry of its amount. *)
Definition journal_of (d : Billing.DB) (r : CommissionRow) : Prop :=
  if lc_commission_amount r =? 0 then commission_entries (lc_id r) d = []
  else exists je, commission_entries (lc_id r) d = [je] /\
    Billing.entry_debits (Billing.je_id je) (Billing.journal_lines d) = lc_commission_amount r /\
    Billing.entry_credits (Billing.je_id je) (Billing.journal_lines d) = lc_commission_amount r.

Record settled (w : world) : Prop := {
  st_books : Billing.books (bdb w);
  st_refs : NoDup (omap lc_transaction_ref (lco_ledger w));
  st_ids r : r ∈ lco_ledger w -> lc_id r < next_commission w;
  st_rates f p : partners w !! f = Some p -> 0 <= pt_CommissionRatePct p <= 10000;
  st_amounts r : r ∈ lco_ledger w -> 0 <= lc_commission_amount r <= lc_recharge_amount r;
  st_journal r : r ∈ lco_ledger w -> journal_of (bdb w) r;
  st_entries je : je ∈ Billing.journal_entries (bdb w) -> is_commission je = true ->
    Billing.je_source_id je < next_commission w
}.

(** The journal grew by entries of other kinds. *)
Record grown (d d' : Billing.DB) : Prop := {
  gw_entries : exists l, Billing.journal_entries d' = Billing.journal_entries d ++ l /\
    forall je, je ∈ l -> is_commission je = false;
  gw_lines : exists l, Billing.journal_lines d' = Billing.journal_lines d ++ l /\
    forall r, r ∈ l -> Billing.next_entry d <= Billing.jl_entry r;
  gw_books : Billing.books d -> Billing.books d';
  gw_next : Billing.next_entry d <= Billing.next_entry d'
}.

Lemma grown_same d d' :
  Billing.journal_entries d' = Billing.journal_entries d -> Billing.journal_lines d' = Billing.journal_lines d ->
  Billing.next_entry d <= Billing.next_entry d' -> (Billing.books d -> Billing.books d') -> grown d d'.
Proof.
  intros H1 H2 H3 H4. split; [exists [] | exists [] | done | done]; rewrite app_nil_r;
    (split; [done | by intros ? ?%not_elem_of_nil]).
Qed.

Lemma grown_refl d : grown d d.
Proof. apply grown_same; done || lia. Qed.

Lemma grown_trans d1 d2 d3 : grown d1 d2 -> grown d2 d3 -> grown d1 d3.
Proof.
  intros [(l1 & H1 & H1') (k1 & H2 & H2') H3 H4] [(l2 & G1 & G1') (k2 & G2 & G2') G3 G4]. split.
  - exists (l1 ++ l2). rewrite G1, H1, app_assoc. split; [done |]. intros je [?|?]%elem_of_app; auto.
  - exists (k1 ++ k2). rewrite G2, H2, app_assoc. split; [done |].
    intros r [Hr | Hr]%elem_of_app; [auto | specialize (G2' r Hr); lia].
  - auto.
  - lia.
Qed.

Lemma same_tables_grown d d' : Billing.same_tables d d' -> grown d d'.
Proof.
  intros Hs. pose proof (Billing.same_tables_books _ _ Hs) as Hb. destruct Hs as (Heq & _ & He).
  apply grown_same; [by rewrite Heq | by rewrite Heq | done | done].
Qed.

Lemma posted_grown now p d d' : Billing.posted now p d d' -> grown d d'.
Proof.
  intros Hp. pose proof (Billing.posted_books _ _ _ _ Hp) as Hb. destruct Hp. subst d'.
  split; simpl; [| | done | lia].
  - eexists. split; [reflexivity |]. by intros je ->%list_elem_of_singleton.
  - eexists. split; [reflexivity |]. intros r Hr. by rewrite (Billing.lines_of_entry _ _ _ _ r ps_rows Hr).
Qed.

Lemma Recharge_grown now e req d : grown d (Billing.Recharge now e req d).2.
Proof.
  unfold Billing.Recharge.
  destruct (Billing.settle_tables now (Billing.tx_up e) (Billing.recharge_begin (Billing.token_up e)
    (Billing.balance_up e) req d) d) as [-> | (p & _ & ->)]; [apply grown_refl |].
  destruct (Billing.RecordRecharge now (Billing.tx_up e) p d) as [[tx | x] d'] eqn:Hr; simpl.
  - apply Billing.RecordRecharge_Ok in Hr as [[Hp] _]. by eapply posted_grown.
  - apply Billing.RecordRecharge_Err in Hr. by apply same_tables_grown.
Qed.

Lemma commission_entries_app id d l :
  (forall je, je ∈ l -> is_commission je = false) ->
  List.filter (fun je => is_commission je && (Billing.je_source_id je =? id)) (d ++ l) =
  List.filter (fun je => is_commission je && (Billing.je_source_id je =? id)) d.
Proof.
  intros Hl. rewrite List.filter_app, (filter_none _ l), app_nil_r; [done |].
  intros je Hje. by rewrite Hl.
Qed.

Lemma commission_entry_in id d je :
  je ∈ commission_entries id d -> je ∈ Billing.journal_entries d /\ is_commission je = true /\
    Billing.je_source_id je = id.
Proof.
  unfold commission_entries. intros [Hin Hc]%elem_of_filterb. rewrite andb_true_iff, Z.eqb_eq in Hc. naive_solver.
Qed.

(** Lines of later entries leave an earlier one alone. *)
Lemma lines_later d l je :
  Billing.books d -> je ∈ Billing.journal_entries d ->
  (forall r, r ∈ l -> Billing.next_entry d <= Billing.jl_entry r) ->
  Billing.entry_debits (Billing.je_id je) (Billing.journal_lines d ++ l) =
    Billing.entry_debits (Billing.je_id je) (Billing.journal_lines d) /\
  Billing.entry_credits (Billing.je_id je) (Billing.journal_lines d ++ l) =
    Billing.entry_credits (Billing.je_id je) (Billing.journal_lines d).
Proof.
  intros Hb Hje Hl. rewrite Billing.entry_debits_app, Billing.entry_credits_app.
  destruct (Billing.entry_other (Billing.je_id je) l) as [-> ->]; [| lia].
  intros r Hr He. specialize (Hl r Hr). pose proof (Billing.bk_entries _ Hb je Hje). lia.
Qed.

Lemma journal_of_grown d d' r : Billing.books d -> grown d d' -> journal_of d r -> journal_of d' r.
Proof.
  intros Hb [(l & Hl & Hl') (k & Hk & Hk') _ _]. unfold journal_of.
  assert (commission_entries (lc_id r) d' = commission_entries (lc_id r) d) as Hce
    by (unfold commission_entries; rewrite Hl; by apply commission_entries_app).
  rewrite Hce. case_match; [done |]. intros (je & Hje & Hdb & Hcr). exists je. split; [done |].
  rewrite Hk. destruct (lines_later d k je) as [-> ->]; try done.
  apply (commission_entry_in (lc_id r)). rewrite Hje. by apply list_elem_of_singleton.
Qed.

(** The parts of the world the settlement reads did not move. *)
Record kept (w w' : world) : Prop := {
  kp_ledger : lco_ledger w' = lco_ledger w;
  kp_next : next_commission w <= next_commission w';
  kp_partners : partners w' = partners w;
  kp_grown : grown (bdb w) (bdb w')
}.

Lemma settled_kept w w' : kept w w' -> settled w -> settled w'.
Proof.
  intros [Hl Hn Hp Hg] [H1 H2 H3 H4 H5 H6 H7].
  split; rewrite ?Hl, ?Hp; try done; [by apply Hg | | |].
  - intros r Hr. specialize (H3 r Hr). lia.
  - intros r Hr. by apply (journal_of_grown (bdb w)); auto.
  - destruct (gw_entries _ _ Hg) as (l & -> & Hl'). intros je [Hje | Hje]%elem_of_app Hc.
    + specialize (H7 je Hje Hc). lia.
    + by rewrite Hl' in Hc.
Qed.

Lemma quiet_kept w w' : quiet w w' -> kept w w'.
Proof. intros [H1 H2 H3 H4]. split; try done. by apply same_tables_grown. Qed.

Lemma journalled_balanced desc id c d :
  Billing.books d -> c <> 0 ->
  Billing.entry_debits (Billing.next_entry d) (Billing.journal_lines (journalled desc id c d)) = c /\
  Billing.entry_credits (Billing.next_entry d) (Billing.journal_lines (journalled desc id c d)) = c.
Proof.
  intros Hb Hc. unfold journalled. rewrite (proj2 (Z.eqb_neq c 0) Hc). simpl.
  rewrite Billing.entry_debits_app, Billing.entry_credits_app. simpl. rewrite Z.eqb_refl.
  destruct (Billing.entry_other (Billing.next_entry d) (Billing.journal_lines d)) as [-> ->]; [| lia].
  intros r Hr. pose proof (Billing.bk_lines _ Hb r Hr). lia.
Qed.

Lemma journalled_lines desc id c d je :
  Billing.books d -> je ∈ Billing.journal_entries d ->
  Billing.entry_debits (Billing.je_id je) (Billing.journal_lines (journalled desc id c d)) =
    Billing.entry_debits (Billing.je_id je) (Billing.journal_lines d) /\
  Billing.entry_credits (Billing.je_id je) (Billing.journal_lines (journalled desc id c d)) =
    Billing.entry_credits (Billing.je_id je) (Billing.journal_lines d).
Proof.
  intros Hb Hje. unfold journalled. case_match; [done |]. simpl. apply lines_later; [done | done |].
  intros r [-> | [-> | []%not_elem_of_nil]%elem_of_cons]%elem_of_cons; simpl; lia.
Qed.

Lemma journalled_books desc id c d : Billing.books d -> Billing.books (journalled desc id c d).
Proof.
  intros Hb. destruct (Z.eq_dec c 0) as [-> | Hc]; [done |].
  pose proof (journalled_balanced desc id c d Hb Hc) as [Hd Hcr].
  pose proof (fun je Hje => journalled_lines desc id c d je Hb Hje) as Hold.
  assert (journalled desc id c d = Billing.with_lines (fun l => l ++ commission_lines d c)
         (Billing.with_entries
            (fun l => l ++ [Billing.MkJournal (Billing.next_entry d) desc "lco_commission" id "system"])
            (Billing.next_entry d + 1) d)) as Heq
    by (unfold journalled; by rewrite (proj2 (Z.eqb_neq c 0) Hc)).
  destruct Hb as [H1 H2 H3 H4 H5]. split.
  - rewrite Heq. exact H1.
  - rewrite Heq. exact H2.
  - intros je Hje. unfold Billing.gl_balanced. rewrite Heq in Hje. simpl in Hje.
    apply elem_of_app in Hje as [Hje | ->%list_elem_of_singleton]; simpl; [| lia].
    destruct (Hold je Hje) as [-> ->]. exact (H3 je Hje).
  - rewrite Heq. simpl. intros je [Hje | ->%list_elem_of_singleton]%elem_of_app; simpl; [specialize (H4 je Hje) |]; lia.
  - rewrite Heq. simpl. intros r [Hr | [-> | [-> | []%not_elem_of_nil]%elem_of_cons]%elem_of_cons]%elem_of_app; simpl;
      [specialize (H5 r Hr) | |]; lia.
Qed.

Lemma journalled_entries desc id c d :
  Billing.journal_entries (journalled desc id c d) = Billing.journal_entries d ++
    (if c =? 0 then [] else [Billing.MkJournal (Billing.next_entry d) desc "lco_commission" id "system"]).
Proof. unfold journalled. case_match; [by rewrite app_nil_r | done]. Qed.

Lemma ref_taken_elem ref l :
  ref_taken (Some ref) l = true <-> ref ∈ omap lc_transaction_ref l.
Proof.
  unfold ref_taken. rewrite existsb_exists, list_elem_of_omap.
  split; intros (r & Hr & Hs); exists r; rewrite bool_decide_eq_true in *; by rewrite ?list_elem_of_In in *.
Qed.

Lemma settled_booked now f id n c ref w w' :
  booked now f id n c ref w w' -> 0 <= c <= n -> settled w -> settled w'.
Proof.
  intros [Hfree Hl Hn Hp Hb] Hc [H1 H2 H3 H4 H5 H6 H7].
  split; rewrite ?Hl, ?Hn, ?Hp, ?Hb.
  - by apply journalled_books.
  - rewrite omap_app. simpl. destruct (Billing.nullif_empty ref) as [t |]; [| by rewrite app_nil_r].
    apply NoDup_app. split_and!; [done | | apply NoDup_singleton].
    intros t' Ht' ->%list_elem_of_singleton. apply ref_taken_elem in Ht'. congruence.
  - intros r [Hr | ->%list_elem_of_singleton]%elem_of_app; simpl; [specialize (H3 r Hr) |]; lia.
  - done.
  - intros r [Hr | ->%list_elem_of_singleton]%elem_of_app; simpl; [auto | lia].
  - intros r [Hr | ->%list_elem_of_singleton]%elem_of_app; unfold journal_of, commission_entries;
      rewrite journalled_entries.
    + specialize (H6 r Hr). specialize (H3 r Hr). unfold journal_of, commission_entries in H6.
      rewrite List.filter_app. replace (List.filter _ (if c =? 0 then [] else _)) with (@nil Billing.JournalEntry).
      2: { destruct (c =? 0); [done |]. simpl. by rewrite (proj2 (Z.eqb_neq (next_commission w) (lc_id r))) by lia. }
      rewrite app_nil_r. case_match; [done |]. destruct H6 as (je & Hje & Hd & Hcr). exists je. split; [done |].
      destruct (journalled_lines (description f id) (next_commission w) c (bdb w) je H1) as [-> ->]; [| done].
      apply (commission_entry_in (lc_id r)). unfold commission_entries. rewrite Hje. by apply list_elem_of_singleton.
    + simpl. rewrite List.filter_app. replace (List.filter _ (Billing.journal_entries (bdb w)))
        with (@nil Billing.JournalEntry).
      2: { symmetry. apply filter_none. intros je Hje. apply andb_false_iff.
        destruct (is_commission je) eqn:Hic; [right | by left]. specialize (H7 je Hje Hic). lia. }
      simpl. destruct (Z.eqb_spec c 0) as [-> | Hne]; [done |]. simpl. rewrite Z.eqb_refl.
      eexists. split; [reflexivity |]. simpl. by apply journalled_balanced.
  - rewrite journalled_entries. intros je [Hje | Hje]%elem_of_app Hic; [specialize (H7 je Hje Hic); lia |].
    case_match; [by apply not_elem_of_nil in Hje |]. apply list_elem_of_singleton in Hje as ->. simpl. lia.
Qed.

Lemma tax_bounds n k : 0 < n -> 0 <= k <= 10000 -> 0 <= Gst.tax n k <= n.
Proof.
  intros Hn Hk. split; [apply Gst.half_away_nonneg; nia |].
  unfold Gst.tax. pose proof (half_away_near (n * k) 10000) as Hh. nia.
Qed.

Lemma Settle_settled now e id amount n ref w :
  is_paise amount n -> 0 < n -> settled w -> settled (SettleCommissionForRecharge now e id amount ref w).
Proof.
  intros Hn Hpos Hw. destruct (Settle_cases now e id amount n ref w Hn) as [Hq | (r & f & p & _ & _ & Hp & _ & Hb)].
  - apply (settled_kept w); [by apply quiet_kept | done].
  - eapply settled_booked; [exact Hb | | done]. apply tax_bounds; [done |]. by eapply st_rates.
Qed.

Lemma Settle_keeps now e id amount n ref w :
  is_paise amount n ->
  exists l, lco_ledger (SettleCommissionForRecharge now e id amount ref w) = lco_ledger w ++ l.
Proof.
  intros Hn. destruct (Settle_cases now e id amount n ref w Hn) as [Hq | (r & f & p & _ & _ & _ & _ & Hb)].
  - exists []. rewrite app_nil_r. apply Hq.
  - eexists. apply Hb.
Qed.

(** What is proved of every handler: the invariant, and that no row goes. *)
Definition sound (w w' : world) : Prop :=
  (settled w -> settled w') /\ exists l, lco_ledger w' = lco_ledger w ++ l.

Lemma sound_trans w1 w2 w3 : sound w1 w2 -> sound w2 w3 -> sound w1 w3.
Proof.
  intros [H1 (l1 & H2)] [H3 (l2 & H4)]. split; [auto |]. exists (l1 ++ l2). by rewrite H4, H2, app_assoc.
Qed.

Lemma kept_sound w w' : kept w w' -> sound w w'.
Proof. intros Hk. split; [by apply settled_kept |]. exists []. rewrite app_nil_r. apply Hk. Qed.

Lemma kept_refl w : kept w w.
Proof. split; done || lia || apply grown_refl. Qed.

Lemma settle_if_sound now e id amount n ref w :
  is_paise amount n -> 0 < n -> sound w (settle_if now e id amount ref w).
Proof.
  intros Hn Hpos. unfold settle_if. case_match; [| apply kept_sound, kept_refl].
  split; [by eapply Settle_settled | by eapply Settle_keeps].
Qed.

Lemma with_bdb_kept d w : grown (bdb w) d -> kept w (with_bdb d w).
Proof. intros Hd. split; simpl; done || lia. Qed.

Lemma enqueuePaymentReceipt_kept now c e id amount bal w : kept w (enqueuePaymentReceipt now c e id amount bal w).
Proof.
  unfold enqueuePaymentReceipt. repeat case_match; try apply kept_refl. split; simpl; try done; lia || apply grown_refl.
Qed.

Lemma Recharge_positive now e req d n tx d' :
  is_paise (Billing.rq_Amount req) n -> Billing.Recharge now e req d = (Ok tx, d') -> 0 < n.
Proof.
  intros Hn. unfold Billing.Recharge, Billing.recharge_begin.
  rewrite (paise_less_eq _ _ n 0 Hn paise_zero). destruct (n <=? 0) eqn:Hpos; [done | lia].
Qed.

Lemma paise_amount_exact n : is_paise (paise_amount n) n.
Proof.
  unfold is_paise, paise_amount. rewrite val_Div, !val_NewFromInt by (rewrite val_NewFromInt; discriminate).
  assert (inject_Z n / inject_Z 100 == n # 100)%Q as -> by (unfold Qeq; simpl; lia).
  unfold round_half_away, Qnum, Qden. change (Zpos (pow10 16)) with (100000000000000 * 100).
  rewrite Z.mul_assoc, half_away_exact. unfold Qeq, pow10. simpl. lia.
Qed.

(** ** A settlement that succeeds *)

Record payable (w : world) (id f n : Z) (ref : string) (p : Partner) : Prop := {
  py_member : exists r, Billing.subscribers (bdb w) !! id = Some r /\ Billing.franchise_id r = Some f;
  py_partner : partners w !! f = Some p;
  py_active : pt_Status p = "active"%string;
  py_known : f ∈ Billing.franchises (bdb w);
  py_books : Billing.books (bdb w);
  py_expense : is_Some (Billing.chart_of_accounts (bdb w) !! "5000"%string);
  py_liability : is_Some (Billing.chart_of_accounts (bdb w) !! "2100"%string);
  py_width : Subscribers.varchar 100 ref = true;
  py_free : ref_taken (Billing.nullif_empty ref) (lco_ledger w) = false;
  py_rate : 0 <= pt_CommissionRatePct p <= 10000;
  py_amount : 0 < n < 10 ^ 12
}.

Lemma commission_journal_run entry id c d :
  is_paise (le_CommissionAmount entry) c -> 0 < c < 10 ^ 12 ->
  is_Some (Billing.chart_of_accounts d !! "5000"%string) -> is_Some (Billing.chart_of_accounts d !! "2100"%string) ->
  commission_journal (fun _ => true) entry id d =
    (Ok (Billing.next_entry d), journalled (description (le_FranchiseID entry) (le_SubscriberID entry)) id c d).
Proof.
  intros Hc Hpos [a5 H5] [a2 H2].
  assert (numeric 14 (le_CommissionAmount entry) = Some c) as Hn.
  { apply numeric_paise; [lia | done |]. assert (10 ^ 12 < 10 ^ 14) by done. lia. }
  unfold commission_journal, Billing.bind at 1, Billing.insertEntry. cbn [negb].
  unfold Billing.bind at 1, Billing.glAccountID. cbn [negb]. simpl. rewrite H5.
  unfold Billing.bind at 1. cbn [negb]. simpl. rewrite H2.
  unfold Billing.bind, Billing.insertLine, Billing.ret. simpl. rewrite Hn, (proj2 (Z.ltb_lt 0 c)) by lia.
  unfold journalled. rewrite (proj2 (Z.eqb_neq c 0)) by lia. unfold commission_lines, Billing.account.
  rewrite H5, H2. unfold Billing.with_lines, Billing.with_entries. simpl. by rewrite <- app_assoc.
Qed.

Lemma store_run now entry n c w p :
  payable w (le_SubscriberID entry) (le_FranchiseID entry) n (le_TransactionRef entry) p ->
  is_paise (le_RechargeAmount entry) n -> is_paise (le_CommissionAmount entry) c -> 0 <= c <= n ->
  exists w', CalculateAndStoreLCOCommission now (fun _ => true) entry w = (Ok tt, w') /\
    booked now (le_FranchiseID entry) (le_SubscriberID entry) n c (le_TransactionRef entry) w w' /\
    (exists d, w' = with_lco (lco_ledger w') (next_commission w') (with_bdb d w)).
Proof.
  intros [(r & Hr & Hf) Hp Hs Hk Hb H5 H2 Hw Hfree Hrate Hn] Han Hac Hc.
  unfold CalculateAndStoreLCOCommission, insertLedger. cbn [negb].
  rewrite (numeric_paise 12 _ n), (numeric_paise 12 _ c), Hw by (done || lia). cbn [negb lco_ledger with_lco].
  rewrite Hfree, !bdb_with_lco, bool_decide_true, bool_decide_true by (done || by eexists). cbn [andb].
  rewrite (paise_is_zero _ c Hac). destruct (Z.eqb_spec c 0) as [-> | Hne].
  - eexists. split; [reflexivity |]. split; [by split |]. exists (bdb w). by destruct w as [[]].
  - rewrite !bdb_with_lco, (commission_journal_run entry _ c) by (done || lia).
    unfold Billing.gl_balanced.
    destruct (journalled_balanced (description (le_FranchiseID entry) (le_SubscriberID entry)) (next_commission w) c
      (bdb w) Hb Hne) as [-> ->]. rewrite Z.eqb_refl.
    eexists. split; [reflexivity |]. split; [by split |]. by eexists.
Qed.

Lemma Settle_run now id f n ref p amount w :
  payable w id f n ref p -> is_paise amount n ->
  let w' := SettleCommissionForRecharge now all_up id amount ref w in
  booked now f id n (Gst.tax n (pt_CommissionRatePct p)) ref w w' /\
  exists d, w' = with_lco (lco_ledger w') (next_commission w') (with_bdb d w).
Proof.
  intros Hpy Hn. pose proof Hpy as [(r & Hr & Hf) Hp Hs Hk Hb H5 H2 Hw Hfree Hrate Hpos].
  unfold SettleCommissionForRecharge, GetSubscriberFranchiseID. cbn [scope_up all_up negb]. rewrite Hr, Hf.
  unfold CalculateLCOCommission, GetFranchiseByID. cbn [le_FranchiseID partner_up all_up negb]. rewrite Hp.
  cbn [f_Status f_CommissionRatePct]. rewrite Hs. cbn [String.eqb Ascii.eqb Bool.eqb negb commission_up all_up].
  match goal with |- context [CalculateAndStoreLCOCommission now _ ?en w] =>
    destruct (store_run now en n (Gst.tax n (pt_CommissionRatePct p)) w p) as (w' & -> & Hbk & Hd) end;
    simpl; try done; [by apply commission_paise | apply tax_bounds; lia].
Qed.

Lemma Recharge_repeats now e req n row d :
  is_paise (Billing.rq_Amount req) n -> 0 < n -> row ∈ Billing.wallet_ledgers d ->
  Billing.lg_transaction_token row = Some (Billing.rq_TransactionToken req) ->
  Billing.rq_TransactionToken req <> EmptyString -> Billing.token_up e = true ->
  exists tx, Billing.Recharge now e req d = (Ok tx, d).
Proof.
  intros Hn Hpos Hrow Ht Hne Hup. unfold Billing.Recharge, Billing.recharge_begin.
  rewrite (paise_less_eq _ _ n 0 Hn paise_zero), (proj2 (Z.leb_gt n 0)) by lia.
  unfold Billing.existing, Billing.GetTransactionByToken.
  rewrite (proj2 (String.eqb_neq _ _) Hne), Hup. cbn [negb].
  destruct (List.filter _ (Billing.wallet_ledgers d)) as [| row0 l] eqn:Hf; [| by eexists].
  assert (row ∈ List.filter (Billing.has_token (Billing.rq_TransactionToken req)) (Billing.wallet_ledgers d)) as Hin.
  { apply elem_of_filterb. split; [done |]. unfold Billing.has_token. by rewrite bool_decide_eq_true. }
  rewrite Hf in Hin. by apply not_elem_of_nil in Hin.
Qed.

Lemma journalled_tables desc id c d :
  let d' := journalled desc id c d in
  Billing.subscribers d' = Billing.subscribers d /\ Billing.wallet_ledgers d' = Billing.wallet_ledgers d /\
  Billing.journal_lines d' = Billing.journal_lines d ++ (if c =? 0 then [] else commission_lines d c).
Proof. unfold journalled. case_match; simpl; by rewrite ?app_nil_r. Qed.

Definition wallet_same (d d' : Billing.DB) : Prop :=
  Billing.subscribers d' = Billing.subscribers d /\ Billing.wallet_ledgers d' = Billing.wallet_ledgers d.

Lemma Settle_wallet now e id amount n ref w :
  is_paise amount n -> wallet_same (bdb w) (bdb (SettleCommissionForRecharge now e id amount ref w)).
Proof.
  intros Hn. destruct (Settle_cases now e id amount n ref w Hn) as [[_ _ _ (-> & _ & _)] | (r & f & p & _ & _ & _ & _ & Hb)];
    [done |]. unfold wallet_same. rewrite (bo_bdb _ _ _ _ _ _ _ _ Hb).
  by destruct (journalled_tables (description f id) (next_commission w) (Gst.tax n (pt_CommissionRatePct p)) (bdb w))
    as (-> & -> & _).
Qed.

(** A recharge leaves the wallet alone, or credits it once. *)
Lemma Recharge_effect now e req n d r d' :
  is_paise (Billing.rq_Amount req) n -> Billing.Recharge now e req d = (r, d') ->
  wallet_same d d' \/
  exists tx row l, r = Ok tx /\ 0 < n /\ Billing.subscribers d !! Billing.rq_SubscriberID req = Some row /\
    (Billing.rq_TransactionToken req <> EmptyString ->
       Billing.rq_TransactionToken req ∉ Billing.tokens (Billing.wallet_ledgers d)) /\
    Billing.subscribers d' =
      alter (Billing.set_balance (Billing.wallet_balance row + n)) (Billing.rq_SubscriberID req) (Billing.subscribers d) /\
    Billing.wallet_ledgers d' = Billing.wallet_ledgers d ++ l /\
    forall i, Billing.ledger_sum i l = if i =? Billing.rq_SubscriberID req then n else 0.
Proof.
  intros Hn Hr. unfold Billing.Recharge in Hr.
  destruct (Billing.recharge_begin (Billing.token_up e) (Billing.balance_up e) req d) as [[t | p] | x] eqn:Hb;
    simpl in Hr; try (injection Hr as _ <-; by left).
  apply (Billing.recharge_begin_moves _ _ _ _ _ n Hn) in Hb as Hm.
  destruct Hm as (Hpos & row & Hrow & Hm). unfold Billing.bind in Hr.
  destruct (Billing.RecordRecharge now (Billing.tx_up e) p d) as [[tx | x] d1] eqn:Hrec.
  2: { injection Hr as _ <-. left. by apply Billing.RecordRecharge_Err in Hrec as (-> & _ & _). }
  injection Hr as <- <-. right. apply Billing.RecordRecharge_Ok in Hrec as [[Hp] _].
  destruct (Billing.posted_effect _ _ _ _ _ _ _ Hp Hm) as [Hl Hs].
  destruct (Billing.posted_ledger _ _ _ _ Hp) as (r1 & r2 & nb & Hlg & _).
  eexists _, row, [r1; r2]. split_and!; try done.
  - intros Hne Hin. destruct Hp as [? ? ? ? ? ? ? ? ? ? ? ? ? ? Htok]. unfold Billing.recharge_begin in Hb.
    destruct (less_eq _ _); [done |]. destruct (Billing.existing _ _ _); [done |].
    destruct (Billing.GetSubscriberBalance _ _ _); [| done]. injection Hb as <-. simpl in Htok.
    unfold Billing.nullif_empty in Htok. rewrite (proj2 (String.eqb_neq _ _) Hne) in Htok. simpl in Htok.
    apply Billing.has_token_elem in Hin. by rewrite Hin in Htok.
  - intros i. specialize (Hl i). rewrite Hlg, Billing.ledger_sum_app in Hl. lia.
Qed.

(** ** The consolidated statement *)

Lemma fold_add_paise {A} (f : A -> Z) l d z :
  is_paise d z -> is_paise (fold_left (fun acc x => Decimal.Add acc (of_paise (f x))) l d) (z + sum_by f l).
Proof.
  revert d z. induction l as [| x l IH]; simpl; intros d z Hd; [by rewrite Z.add_0_r |].
  rewrite Z.add_assoc. apply IH. apply paise_add; [done | apply paise_of].
Qed.

Lemma money14_inv z z' : money14 z = Some z' -> z' = z.
Proof. unfold money14. case_match; congruence. Qed.

Lemma pnl_row_Some from to w p row :
  pnl_row from to w p = Some row ->
  pl_FranchiseID row = p.1 /\ pl_TotalRecharges row = sum_by lc_recharge_amount (earned p.1 from to w) /\
  pl_CommissionEarned row = sum_by lc_commission_amount (earned p.1 from to w) /\
  pl_NetToISP row = pl_TotalRecharges row - pl_CommissionEarned row.
Proof.
  unfold pnl_row. set (a := sum_by lc_recharge_amount _). set (b := sum_by lc_commission_amount _).
  destruct (money14 a) as [t |] eqn:Ha; [apply money14_inv in Ha as -> | done].
  destruct (money14 b) as [u |] eqn:Hb; [apply money14_inv in Hb as -> | done].
  destruct (money14 (a - b)) as [v |] eqn:Hab; [apply money14_inv in Hab as -> | done].
  by intros [= <-].
Qed.

Lemma scoped_all w : scoped_partners None w ≡ₚ map_to_list (partners w).
Proof.
  unfold scoped_partners. rewrite merge_sort_Permutation.
  assert (forall l : list (Z * Partner), List.filter (fun p => Inventory.matches None (Some p.1)) l = l) as ->; [| done].
  induction l as [| p l IH]; [done |].
  change (p :: List.filter (fun q => Inventory.matches None (Some q.1)) l = p :: l). by rewrite IH.
Qed.

Lemma listPnL_sum (g : FranchisePnL -> Z) (h : CommissionRow -> Z) from to w l :
  (forall p row, pnl_row from to w p = Some row -> g row = sum_by h (earned p.1 from to w)) ->
  (forall r, r ∈ lco_ledger w -> is_Some (partners w !! lc_franchise_id r)) ->
  listPnL true None from to w = Ok l ->
  sum_by g l = sum_by h (List.filter (fun r => in_window from to (lc_created_at r)) (lco_ledger w)).
Proof.
  intros Hg Hk. unfold listPnL. cbn [negb]. destruct (mapM _ _) as [rows |] eqn:Hm; [| done]. intros [= <-].
  apply mapM_Some in Hm. set (win := List.filter _ _).
  rewrite <- (sum_by_keys lc_franchise_id h (map fst (scoped_partners None w)) win).
  - assert (forall l : list (Z * Partner), sum_by (fun k => sum_by h (List.filter (fun x => lc_franchise_id x =? k) win))
      (map fst l) = sum_by (fun p => sum_by h (earned p.1 from to w)) l) as ->.
    { induction l as [| p l IH]; simpl; [done |]. rewrite IH. do 2 f_equal. subst win. unfold earned.
      by rewrite filter_andb, filter_comm. }
    symmetry. eapply sum_by_ext; [exact Hm |]. intros p row Hrow. symmetry. by apply Hg.
  - change (map fst) with (fmap (M := list) (A := Z * Partner) fst). rewrite scoped_all. apply NoDup_fst_map_to_list.
  - intros r Hr. subst win. apply elem_of_filterb in Hr as [Hr _]. destruct (Hk r Hr) as [p Hp].
    change (map fst) with (fmap (M := list) (A := Z * Partner) fst). rewrite scoped_all.
    apply list_elem_of_fmap. exists (lc_franchise_id r, p). split; [done |]. by apply elem_of_map_to_list.
Qed.

(** The consolidated statement lists every partner once, and its three
    totals are exactly the payments, the commissions and their difference over
    all rows of the commission ledger in the window: nothing is counted twice
    and nothing is lost between the rows and the totals. *)
Theorem consolidated_pnl_adds_up from to w p :
  (forall r, r ∈ lco_ledger w -> is_Some (partners w !! lc_franchise_id r)) ->
  ListConsolidatedPnL true from to w = Ok p ->
  let rows := List.filter (fun r => in_window from to (lc_created_at r)) (lco_ledger w) in
  let paid := sum_by lc_recharge_amount rows in
  let earned := sum_by lc_commission_amount rows in
  (map pl_FranchiseID (co_Partners p) ≡ₚ map fst (map_to_list (partners w))) /\
  is_paise (co_TotalRecharges p) paid /\ is_paise (co_CommissionEarned p) earned /\
  is_paise (co_NetToISP p) (paid - earned).
Proof.
  intros Hk Heq rows paid earn. unfold ListConsolidatedPnL in Heq.
  destruct (listPnL true None from to w) as [l | x] eqn:Hl; [| done]. injection Heq as <-. cbn [co_Partners co_TotalRecharges co_CommissionEarned co_NetToISP].
  assert (sum_by pl_TotalRecharges l = paid) as H1
    by (apply (listPnL_sum _ lc_recharge_amount from to w); [by intros q row (_ & -> & _)%pnl_row_Some | done | done]).
  assert (sum_by pl_CommissionEarned l = earn) as H2
    by (apply (listPnL_sum _ lc_commission_amount from to w); [by intros q row (_ & _ & -> & _)%pnl_row_Some | done | done]).
  pose proof Hl as Hm. unfold listPnL in Hm. cbn [negb] in Hm. destruct (mapM _ _) as [rs |] eqn:Hrs; [| done].
  injection Hm as ->. apply mapM_Some in Hrs.
  assert (sum_by pl_NetToISP l = sum_by pl_TotalRecharges l - sum_by pl_CommissionEarned l) as H3.
  { clear -Hrs. induction Hrs as [| q row qs rs Hrow _ IH]; simpl; [done |].
    apply pnl_row_Some in Hrow as (_ & _ & _ & ->). lia. }
  split.
  - assert (map pl_FranchiseID l = map fst (scoped_partners None w)) as ->.
    { clear -Hrs. induction Hrs as [| q row qs rs Hrow _ IH]; simpl; [done |].
      apply pnl_row_Some in Hrow as (-> & _). by rewrite IH. }
    change (map fst) with (fmap (M := list) (A := Z * Partner) fst). by rewrite scoped_all.
  - split_and!.
    + rewrite <- H1. apply (fold_add_paise pl_TotalRecharges l _ 0), paise_zero.
    + rewrite <- H2. apply (fold_add_paise pl_CommissionEarned l _ 0), paise_zero.
    + rewrite <- H1, <- H2, <- H3. apply (fold_add_paise pl_NetToISP l _ 0), paise_zero.
Qed.

Section Handlers.
Context (dec_String : dec -> string) (StringFixed : dec -> Z -> string) (NewFromString : string -> option dec).
Context (hmac_hex : string -> string -> string) (decode : string -> option razorpayWebhookPayload).

(** The operations that touch the commission ledger or what it depends on;
    amounts are whole hundredths. *)
Inductive step : world -> world -> Prop :=
| step_recharge w now c e body :
    (forall req a, body = Some req -> NewFromString (rb_Amount req) = Some a -> exists n, is_paise a n) ->
    step w (WalletRecharge dec_String NewFromString now c e body w).2
| step_webhook w now c e secret body signature :
    step w (RazorpayWebhook dec_String StringFixed hmac_hex decode now c e secret body signature w).2
| step_portal w now e pe id amount n paymentID :
    is_paise amount n -> step w (ApplyRenewal now e pe id amount paymentID w).2
| step_partner w now configured up body :
    step w (CreateFranchiseHandler NewFromString now configured up body w).2.

Lemma WalletRecharge_sound w now c e body :
  (forall req a, body = Some req -> NewFromString (rb_Amount req) = Some a -> exists n, is_paise a n) ->
  sound w (WalletRecharge dec_String NewFromString now c e body w).2.
Proof.
  intros Hb. unfold WalletRecharge. destruct body as [req |]; [| apply kept_sound, kept_refl].
  destruct (NewFromString (rb_Amount req)) as [a |] eqn:Ha; [| apply kept_sound, kept_refl].
  destruct (Hb req a eq_refl Ha) as (n & Hn).
  pose proof (Recharge_grown now (wallet_env e) (recharge_request req a) (bdb w)) as Hg.
  destruct (Billing.Recharge _ _ _ _) as [[tx | x] d] eqn:Hr; simpl in *; [| by apply kept_sound, with_bdb_kept].
  apply Recharge_positive with (n := n) in Hr; [| done].
  eapply sound_trans; [| apply kept_sound, enqueuePaymentReceipt_kept].
  eapply sound_trans; [| by eapply settle_if_sound].
  apply kept_sound. split; simpl; done || lia.
Qed.

Lemma RazorpayWebhook_sound w now c e secret body signature :
  sound w (RazorpayWebhook dec_String StringFixed hmac_hex decode now c e secret body signature w).2.
Proof.
  pose proof (kept_sound _ _ (kept_refl w)) as Hw. unfold RazorpayWebhook.
  destruct (String.eqb secret _); [done |]. destruct (limited _ <$> body) as [b |]; [| done].
  destruct (negb _); [done |]. destruct (decode b) as [p |]; [| done]. destruct (negb _); [done |].
  destruct (webhook_subscriber p) as [id |]; [| done]. unfold captured.
  match goal with |- context [Billing.Recharge ?a ?b ?r ?d] => pose proof (Recharge_grown a b r d) as Hg end.
  destruct (Billing.Recharge _ _ _ _) as [[tx | x] d] eqn:Hr; simpl in *; [| by apply kept_sound, with_bdb_kept].
  apply Recharge_positive with (n := rz_Amount p) in Hr; [| apply paise_amount_exact].
  eapply (sound_trans _ (with_bdb d w)); [by apply kept_sound, with_bdb_kept |].
  eapply sound_trans; [eapply settle_if_sound; [apply paise_amount_exact | done] |].
  eapply sound_trans; [apply kept_sound, enqueuePaymentReceipt_kept |].
  apply kept_sound. unfold Subscribers.emit. case_match; split; simpl; try done; lia || apply grown_refl.
Qed.

Lemma extendPlanExpiry_grown now pe id d : grown d (Renewal.extendPlanExpiry now pe id d).2.
Proof.
  unfold Renewal.extendPlanExpiry. destruct (Renewal.GetPlanRenewalInfo _ _ _) as [[v o] |]; [| apply grown_refl].
  unfold Renewal.SetPlanExpiry. case_match; [apply grown_refl |]. apply grown_same; try done.
  intros [B1 B2 B3 B4 B5]. split; try done. simpl. intros i r. rewrite lookup_alter_Some.
  intros [(-> & r0 & Hr0 & ->) | [_ Hr]]; [exact (B1 _ _ Hr0) | by eapply B1].
Qed.

Lemma createRenewalInvoice_grown now pe id amount d : grown d (Renewal.createRenewalInvoice now pe id amount d).2.
Proof.
  assert (forall f n, grown d (Billing.with_invoices f n d)) as Hi.
  { intros f n. apply grown_same; try done. by intros [B1 B2 B3 B4 B5]. }
  unfold Renewal.createRenewalInvoice. destruct (Renewal.GetInvoiceInputs _ _ _) as [[st v] |]; [| apply grown_refl].
  destruct (Renewal.GetActiveGstRate _ _ _) as [rate |]; [| apply grown_refl].
  destruct (Renewal.CreateInvoice _ _ _ _) as [r d1] eqn:Hc. assert (grown d d1) as Hd1.
  { revert Hc. unfold Renewal.CreateInvoice. case_match; [intros [= <- <-]; apply grown_refl |].
    repeat match goal with |- context [numeric ?p ?a] => destruct (numeric p a) end;
      try (intros [= <- <-]; apply Hi). case_match; intros [= <- <-]; [| apply Hi].
    apply (grown_trans _ (Billing.with_invoices (fun l => l) (Billing.next_invoice d + 1) d)); [apply Hi |].
    apply grown_same; try done. by intros [B1 B2 B3 B4 B5]. }
  by destruct r.
Qed.

Lemma ApplyRenewal_sound w now e pe id amount n paymentID :
  is_paise amount n -> sound w (ApplyRenewal now e pe id amount paymentID w).2.
Proof.
  intros Hn. unfold ApplyRenewal, Renewal.ApplyRenewal.
  match goal with |- context [Billing.Recharge ?a ?b ?r ?d] => pose proof (Recharge_grown a b r d) as Hg end.
  destruct (Billing.Recharge _ _ _ _) as [[tx | x] d] eqn:Hr; simpl in *; [| by apply kept_sound, with_bdb_kept].
  apply Recharge_positive with (n := n) in Hr; [| done].
  eapply sound_trans; [| by eapply settle_if_sound]. apply kept_sound, with_bdb_kept.
  eapply grown_trans; [exact Hg |]. eapply grown_trans.
  - instantiate (1 := if Renewal.has_expiry pe then (Renewal.extendPlanExpiry now pe id d).2 else d).
    destruct (Renewal.has_expiry pe); [apply extendPlanExpiry_grown | apply grown_refl].
  - destruct (Renewal.has_invoicing pe); [apply createRenewalInvoice_grown | apply grown_refl].
Qed.

Lemma rate_in_range rate pct :
  is_negative rate = false -> Less (NewFromInt 100) rate = false -> numeric 5 rate = Some pct -> 0 <= pct <= 10000.
Proof.
  unfold is_negative. intros H1 H2 [Hp _]%numeric_Some; [| lia].
  rewrite <- not_true_iff_false, val_Less, val_NewFromInt in H1, H2. apply Qnot_lt_le in H1, H2.
  pose proof (round_half_away_near 2 (val rate)) as Hn. rewrite <- Hp in Hn.
  change (1 # 2 * pow10 2)%Q with (1 # 200)%Q in Hn. apply Qabs_Qle_condition in Hn as [Hlo Hhi].
  change (inject_Z 0) with 0%Q in *. change (inject_Z 100) with 100%Q in *.
  assert ((pct # 100) <= 20001 # 200)%Q as Hup by lra. assert (-1 # 200 <= (pct # 100))%Q as Hdown by lra.
  unfold Qle in Hup, Hdown. simpl in Hup, Hdown. lia.
Qed.

Lemma CreateFranchiseHandler_sound w now configured up body :
  sound w (CreateFranchiseHandler NewFromString now configured up body w).2.
Proof.
  pose proof (kept_sound _ _ (kept_refl w)) as Hw. unfold CreateFranchiseHandler.
  destruct (negb configured); [done |]. destruct body as [req |]; [| done].
  repeat (destruct (_ || _); [done |]). destruct (String.eqb (cf_MobileNumber req) _); [done |].
  destruct (negb _); [done |]. destruct (NewFromString _) as [rate |]; [| done].
  destruct (is_negative rate) eqn:H1; [done |]. destruct (Less _ rate) eqn:H2; [done |]. simpl.
  unfold CreateFranchise. destruct (negb up); [done |].
  assert (sound w (MkWorld (subs w) (partners w) (next_partner w + 1) (lco_ledger w) (next_commission w)
    (revenue_snapshots w) (collections_forecast w) (alerts w))) as Hnext
    by (split; [intros []; by split | exists []; by rewrite app_nil_r]).
  destruct (numeric 5 rate) as [pct |] eqn:Hpct; [| done].
  destruct (_ && _); [| done]. simpl. split; [| exists []; by rewrite app_nil_r].
  intros [B1 B2 B3 B4 B5 B6 B7]. split; simpl; try done; [by destruct B1 |].
  intros f p. rewrite lookup_insert_Some. intros [[_ <-] | [_ Hp]]; [| by eapply B4].
  simpl. by apply (rate_in_range rate).
Qed.

(** *** A settled reference is a payment in the ledger *)

Definition paid (w : world) : Prop :=
  forall r t, r ∈ lco_ledger w -> lc_transaction_ref r = Some t -> t ∈ Billing.tokens (Billing.wallet_ledgers (bdb w)).

(** The wallet's ledger, and with it its tokens, only grows. *)
Definition ledger_grows (d d' : Billing.DB) : Prop :=
  exists l, Billing.wallet_ledgers d' = Billing.wallet_ledgers d ++ l.

Lemma ledger_same d d' : Billing.wallet_ledgers d' = Billing.wallet_ledgers d -> ledger_grows d d'.
Proof. intros Hl. exists []. by rewrite app_nil_r. Qed.

Lemma token_grows d d' t :
  ledger_grows d d' -> t ∈ Billing.tokens (Billing.wallet_ledgers d) -> t ∈ Billing.tokens (Billing.wallet_ledgers d').
Proof. intros [l ->]. unfold Billing.tokens. rewrite omap_app. set_solver. Qed.

Lemma Recharge_paid now e req d r d' :
  Billing.Recharge now e req d = (r, d') ->
  ledger_grows d d' /\
  (is_ok r = true -> forall t, Billing.nullif_empty (Billing.rq_TransactionToken req) = Some t ->
     t ∈ Billing.tokens (Billing.wallet_ledgers d')).
Proof.
  unfold Billing.Recharge, Billing.recharge_begin. destruct (less_eq _ _); [intros [= <- <-]; split; [by apply ledger_same | done] |].
  destruct (Billing.existing _ _ _) as [tx |] eqn:He.
  { intros [= <- <-]. split; [by apply ledger_same |]. intros _ t Ht. unfold Billing.existing in He.
    unfold Billing.nullif_empty in Ht. destruct (String.eqb _ EmptyString) eqn:Hemp; [done |]. injection Ht as <-.
    unfold Billing.GetTransactionByToken in He. rewrite Hemp in He. destruct (negb _); [done |].
    destruct (List.filter _ (Billing.wallet_ledgers d)) as [| row l] eqn:Hf; [done |].
    assert (row ∈ row :: l) as Hin by left. rewrite <- Hf in Hin. apply elem_of_filterb in Hin as [Hin Hh].
    unfold Billing.has_token in Hh. apply bool_decide_eq_true in Hh. apply list_elem_of_omap. by exists row. }
  destruct (Billing.GetSubscriberBalance _ _ _) as [b | x]; [| intros [= <- <-]; split; [by apply ledger_same | done]].
  simpl. unfold Billing.bind. destruct (Billing.RecordRecharge now (Billing.tx_up e) _ d) as [[tx | x] d1] eqn:Hrec;
    intros [= <- <-].
  - apply Billing.RecordRecharge_Ok in Hrec as [[Hp] _].
    destruct (Billing.posted_ledger _ _ _ _ Hp) as (r1 & r2 & nb & Hl & _ & _ & _ & _ & Hr2 & _).
    split; [by eexists |]. intros _ t Ht. apply list_elem_of_omap. exists r2. rewrite Hl.
    split; [set_solver |]. by rewrite Hr2.
  - apply Billing.RecordRecharge_Err in Hrec as [-> _]. split; [by apply ledger_same | done].
Qed.

Lemma paid_kept w w' : lco_ledger w' = lco_ledger w -> ledger_grows (bdb w) (bdb w') -> paid w -> paid w'.
Proof. intros Hl Hg Hw r t Hr Ht. rewrite Hl in Hr. eapply token_grows; [exact Hg | by eapply Hw]. Qed.

Lemma settle_if_paid now e id amount n ref w :
  is_paise amount n ->
  (forall t, Billing.nullif_empty ref = Some t -> t ∈ Billing.tokens (Billing.wallet_ledgers (bdb w))) ->
  paid w -> paid (settle_if now e id amount ref w).
Proof.
  intros Hn Href Hw. unfold settle_if. case_match; [| done].
  destruct (Settle_wallet now e id amount n ref w Hn) as [_ Hl].
  destruct (Settle_cases now e id amount n ref w Hn) as [Hq | (r & f & p & _ & _ & _ & _ & Hb)].
  - eapply paid_kept; [apply Hq | by apply ledger_same | done].
  - intros r' t Hr' Ht. rewrite Hl. rewrite (bo_ledger _ _ _ _ _ _ _ _ Hb) in Hr'.
    apply elem_of_app in Hr' as [Hr' | ->%list_elem_of_singleton]; [by eapply Hw | by apply Href].
Qed.

Lemma paid_audited c e id now amount bal w :
  paid w -> paid (enqueuePaymentReceipt now c e id amount bal w).
Proof.
  intros Hw. apply (paid_kept w); [| apply ledger_same |]; try done; unfold enqueuePaymentReceipt; by repeat case_match.
Qed.

Lemma step_paid w w' : step w w' -> paid w -> paid w'.
Proof.
  intros [w0 now c e body Hb | w0 now c e secret body signature | w0 now e pe id amount n paymentID Hn
         | w0 now configured up body] Hw.
  - unfold WalletRecharge. destruct body as [req |]; [| done].
    destruct (NewFromString (rb_Amount req)) as [a |] eqn:Ha; [| done]. destruct (Hb req a eq_refl Ha) as (n & Hn).
    pose proof (Recharge_paid now (wallet_env e) (recharge_request req a) (bdb w0)) as Hr.
    destruct (Billing.Recharge _ _ _ _) as [[tx | x] d]; destruct (Hr _ _ eq_refl) as [Hg Ht]; [| by apply (paid_kept w0)].
    apply paid_audited, (settle_if_paid _ _ _ _ n); [done | by apply Ht | by apply (paid_kept w0)].
  - unfold RazorpayWebhook. destruct (String.eqb secret _); [done |]. destruct (limited _ <$> body) as [b |]; [| done].
    destruct (negb _); [done |]. destruct (decode b) as [p |]; [| done]. destruct (negb _); [done |].
    destruct (webhook_subscriber p) as [id |]; [| done]. unfold captured.
    match goal with |- context [Billing.Recharge ?a ?b ?r ?d] => pose proof (Recharge_paid a b r d) as Hr end.
    destruct (Billing.Recharge _ _ _ _) as [[tx | x] d]; destruct (Hr _ _ eq_refl) as [Hg Ht]; [| by apply (paid_kept w0)].
    cbn [snd]. match goal with |- paid (with_subs _ ?w1) => apply (paid_kept w1) end;
      [done | apply ledger_same; unfold Subscribers.emit; by case_match |].
    apply paid_audited, (settle_if_paid _ _ _ _ (rz_Amount p)); [apply paise_amount_exact | by apply Ht | by apply (paid_kept w0)].
  - unfold ApplyRenewal, Renewal.ApplyRenewal.
    match goal with |- context [Billing.Recharge ?a ?b ?r ?d] => pose proof (Recharge_paid a b r d) as Hr end.
    destruct (Billing.Recharge _ _ _ _) as [[tx | x] d]; destruct (Hr _ _ eq_refl) as [Hg Ht]; [| by apply (paid_kept w0)].
    cbn [snd]. match goal with |- context [with_bdb ?d1 w0] => assert (Billing.wallet_ledgers d1 = Billing.wallet_ledgers d) as Hd end.
    { transitivity (Billing.wallet_ledgers (if Renewal.has_expiry pe then (Renewal.extendPlanExpiry now pe id d).2 else d)).
      - case_match; [| done]. unfold Renewal.createRenewalInvoice, Renewal.CreateInvoice. by repeat (case_match; simplify_eq/=).
      - unfold Renewal.extendPlanExpiry, Renewal.SetPlanExpiry. by repeat case_match. }
    apply (settle_if_paid _ _ _ _ n); [done | intros t Href; unfold bdb; simpl; rewrite Hd; by apply Ht |].
    apply (paid_kept w0); [done | | done]. destruct Hg as [l Hl]. exists l. unfold bdb at 1. simpl. by rewrite Hd.
  - unfold CreateFranchiseHandler, CreateFranchise. repeat (case_match; simplify_eq/=; try done).
Qed.

(** C17: Under any sequence of operator recharges, gateway webhooks, portal
    renewals and partner onboardings, with amounts in whole hundredths and
    failing where they may: a payment reference is settled at most once and for
    good, and is the token of an entry in the wallet's ledger; the commission a
    row records is between nothing and the amount it records; a commission of
    nothing has no journal entry and every other has exactly one, whose debits
    and credits are its amount; and the books stay balanced. The amount of a
    row is the one the request named: see [commission_without_money]. *)
Theorem commission_settled_once w w' :
  star step w w' -> settled w -> paid w ->
  settled w' /\ paid w' /\
  forall r t, r ∈ lco_ledger w -> lc_transaction_ref r = Some t ->
    r ∈ lco_ledger w' /\ forall r', r' ∈ lco_ledger w' -> lc_transaction_ref r' = Some t -> r' = r.
Proof.
  intros Hs Hw Hp. assert (sound w w') as [Hset (l & Hl)].
  { clear Hw Hp. induction Hs as [w | w w1 w' Hstep _ IH]; [apply kept_sound, kept_refl |].
    eapply sound_trans; [| exact IH]. destruct Hstep; eauto using WalletRecharge_sound, RazorpayWebhook_sound,
      ApplyRenewal_sound, CreateFranchiseHandler_sound. }
  specialize (Hset Hw). split; [done |]. split.
  { clear Hw Hset l Hl. revert w w' Hs Hp. apply star_invariant. intros a b ? ?. by eapply step_paid. }
  intros r t Hr Ht. assert (r ∈ lco_ledger w') as Hr' by (rewrite Hl; set_solver).
  split; [done |]. intros r' Hin Ht'. by apply (omap_NoDup_inj lc_transaction_ref (lco_ledger w') r' r t (st_refs _ Hset)).
Qed.

Lemma enqueuePaymentReceipt_frame now c e id amount bal w :
  let w' := enqueuePaymentReceipt now c e id amount bal w in
  bdb w' = bdb w /\ lco_ledger w' = lco_ledger w /\ next_commission w' = next_commission w /\ partners w' = partners w.
Proof. unfold enqueuePaymentReceipt. by repeat case_match. Qed.

(** A recharge that repeats a payment token answers the old transaction
    and credits nothing, whoever the token belongs to; the commission is
    settled all the same, on the amount the request names: when the token's
    payment owed no commission, the partner is booked a commission on money
    that never arrived. *)
Theorem commission_without_money now c req amount n f p row w :
  payable w (rb_SubscriberID req) f n (rb_TransactionToken req) p ->
  NewFromString (rb_Amount req) = Some amount -> is_paise amount n ->
  row ∈ Billing.wallet_ledgers (bdb w) ->
  Billing.lg_transaction_token row = Some (rb_TransactionToken req) -> rb_TransactionToken req <> EmptyString ->
  let commission := Gst.tax n (pt_CommissionRatePct p) in
  exists w', WalletRecharge dec_String NewFromString now c all_up (Some req) w = (200, w') /\
    Billing.subscribers (bdb w') = Billing.subscribers (bdb w) /\
    Billing.wallet_ledgers (bdb w') = Billing.wallet_ledgers (bdb w) /\
    lco_ledger w' = lco_ledger w ++ [MkCommission (next_commission w) f (rb_SubscriberID req) n commission
                                       (Some (rb_TransactionToken req)) now] /\
    Billing.journal_lines (bdb w') = Billing.journal_lines (bdb w) ++
      (if commission =? 0 then [] else commission_lines (bdb w) commission).
Proof.
  intros Hpy Ha Hn Hrow Ht Hne commission. subst commission. unfold WalletRecharge. rewrite Ha.
  destruct (Recharge_repeats now Billing.all_up (recharge_request req amount) n row (bdb w)) as (tx & Htx);
    try done; [apply Hpy |]. cbn [wallet_env all_up]. rewrite Htx. cbn [settle_if has_franchises all_up].
  set (w1 := Audit "wallet.recharge" (rb_SubscriberID req) (with_bdb (bdb w) w)).
  assert (payable w1 (rb_SubscriberID req) f n (rb_TransactionToken req) p) as Hpy1 by (destruct Hpy; by split).
  destruct (Settle_run now _ _ _ _ _ amount w1 Hpy1 Hn) as [Hb _]. set (w2 := SettleCommissionForRecharge _ _ _ _ _ _) in *.
  eexists. split; [reflexivity |].
  destruct (enqueuePaymentReceipt_frame now c all_up (rb_SubscriberID req) (rb_Amount req)
    (dec_String (Billing.tx_BalanceAfter tx)) w2) as (-> & -> & _ & _).
  destruct Hb as [_ Hl _ _ Hd]. rewrite Hd.
  destruct (journalled_tables (description f (rb_SubscriberID req)) (next_commission w1)
    (Gst.tax n (pt_CommissionRatePct p)) (bdb w1)) as (-> & -> & ->). split_and!; try done. rewrite Hl. unfold Billing.nullif_empty.
  by rewrite (proj2 (String.eqb_neq _ _) Hne).
Qed.

(** C18: A delivery to the gateway's webhook changes no balance and no ledger
    row unless its body, as far as it is read, carries the signature of the
    configured secret and is a captured payment of a positive amount with a
    subscriber's id; then it answers 200 and credits exactly that amount to
    exactly that subscriber, and only when the payment's id was never recorded
    before. *)
Theorem webhook_credits_captured_payments now c e secret body signature w :
  let '(code, w') := RazorpayWebhook dec_String StringFixed hmac_hex decode now c e secret body signature w in
  wallet_same (bdb w) (bdb w') \/
  exists b p id row l,
    secret <> EmptyString /\ limited maxRazorpayWebhookBody <$> body = Some b /\ signature = hmac_hex secret b /\
    decode b = Some p /\ rz_Event p = "payment.captured"%string /\ atoi (rz_SubscriberID p) = Some id /\
    0 < id /\ 0 < rz_Amount p /\ code = 200 /\ Billing.subscribers (bdb w) !! id = Some row /\
    (rz_ID p <> EmptyString -> rz_ID p ∉ Billing.tokens (Billing.wallet_ledgers (bdb w))) /\
    Billing.subscribers (bdb w') =
      alter (Billing.set_balance (Billing.wallet_balance row + rz_Amount p)) id (Billing.subscribers (bdb w)) /\
    Billing.wallet_ledgers (bdb w') = Billing.wallet_ledgers (bdb w) ++ l /\
    forall i, Billing.ledger_sum i l = if i =? id then rz_Amount p else 0.
Proof.
  unfold RazorpayWebhook. destruct (String.eqb_spec secret EmptyString) as [| Hsec]; [by left |].
  destruct (limited _ <$> body) as [b |] eqn:Hbody; [| by left].
  unfold ValidateRazorpaySignature. destruct (String.eqb_spec (hmac_hex secret b) signature) as [<- |]; [| by left].
  cbn [negb]. destruct (decode b) as [p |] eqn:Hp; [| by left].
  destruct (String.eqb_spec (rz_Event p) "payment.captured") as [Hev |]; [| by left]. cbn [negb].
  unfold webhook_subscriber. destruct (atoi (rz_SubscriberID p)) as [id |] eqn:Hid; [| by left].
  destruct (Z.leb_spec id 0) as [| Hpos]; [by left |]. unfold captured.
  destruct (Billing.Recharge _ _ _ _) as [r d] eqn:Hr.
  pose proof (fun Hn => Recharge_effect _ _ _ (rz_Amount p) _ _ _ Hn Hr) as Hcases.
  specialize (Hcases (paise_amount_exact (rz_Amount p))).
  assert (forall w1, bdb w1 = d -> wallet_same d (bdb (settle_if now e id (paise_amount (rz_Amount p)) (rz_ID p) w1))) as Hset.
  { intros w1 <-. unfold settle_if. case_match; [| done]. eapply Settle_wallet, paise_amount_exact. }
  destruct r as [tx | x]; [| by destruct Hcases as [Hsame | (tx & row & l & [=] & _)]; left].
  specialize (Hset (with_bdb d w) eq_refl). set (w1 := settle_if _ _ _ _ _ _) in *.
  match goal with |- context [enqueuePaymentReceipt now c e id ?a ?b w1] =>
    destruct (enqueuePaymentReceipt_frame now c e id a b w1) as (Hfr & _); set (w2 := enqueuePaymentReceipt now c e id a b w1) in * end.
  assert (bdb (with_subs (Subscribers.emit c EventPaymentReceived id (subs w2)) w2) = bdb w1) as ->
    by (rewrite <- Hfr; unfold Subscribers.emit; by destruct (Subscribers.has_events c)).
  destruct Hset as [Hs1 Hs2]. unfold wallet_same. rewrite Hs1, Hs2.
  destruct Hcases as [Hsame | (tx' & row & l & [= <-] & Hn & Hrow & Htok & Hs & Hl & Hsum)]; [by left | right].
  exists b, p, id, row, l. split_and!; done.
Qed.

End Handlers.

End Commissions.

(** ** A small world for examples *)

Definition demo_member : Billing.SubscriberRow :=
  Billing.MkSubscriber "ravi" "+919800000002" (Some 5) "Kerala" "active" "active" 0 7 (Some 0).

(** Subscriber 1 bought directly and has paid once; subscriber 2 belongs to
    partner 5. *)
Definition demo_bdb : Billing.DB :=
  let d := Billing.demo_paid in
  Billing.MkDB (<[2 := demo_member]> (Billing.subscribers d)) (Billing.plans d) {[ 5 ]} (Billing.wallet_ledgers d)
    (Billing.next_ledger d) (<["5000"%string := 6]> (<["2100"%string := 7]> (Billing.chart_of_accounts d)))
    (Billing.journal_entries d) (Billing.next_entry d) (Billing.journal_lines d) (Billing.gst_rates d)
    (Billing.invoices d) (Billing.next_invoice d).

Definition demo_partner : Partner := MkPartner "Coastal" "Devi" "+919800000009" 1000 "active" 0.

Definition demo_world : world :=
  MkWorld (Subscribers.with_bdb demo_bdb Subscribers.demo_world) {[ 5 := demo_partner ]} 6 [] 1 [] [] [].

Definition demo_body (id : Z) (token : string) : RechargeBody := MkBody id "100" "cash" token.
Definition demo_parse (_ : string) : option (@dec RationalDecimal) := Some (@of_paise RationalDecimal 10000).
Definition demo_print (_ : @dec RationalDecimal) : string := "".

Lemma demo_bdb_books : Billing.books demo_bdb.
Proof.
  destruct Billing.demo_paid_books as [H1 H2 H3 H4 H5]. split; try done.
  intros id r. cbn [Billing.subscribers demo_bdb]. rewrite lookup_insert_Some.
  intros [[_ <-] | [_ Hr]]; [done | by eapply H1].
Qed.

Lemma demo_settled : settled demo_world.
Proof.
  split; try (intros ? ?%not_elem_of_nil; done); [apply demo_bdb_books | constructor | |].
  - intros f p Hp. cbn [partners demo_world] in Hp. apply lookup_singleton_Some in Hp as [_ <-]. done.
  - intros je Hje Hc. exfalso. apply list_elem_of_singleton in Hje as ->. done.
Qed.

Lemma commission_settled_once_witness :
  let w' := (WalletRecharge demo_print demo_parse 9 Subscribers.demo_config (all_up) (Some (demo_body 2 "pay_2"))
    demo_world).2 in
  lc_commission_amount <$> lco_ledger w' = [1000] /\ settled w'.
Proof.
  cbv zeta. split; [vm_compute; reflexivity |].
  refine (proj1 (commission_settled_once (H := RationalDecimal) (H0 := RationalLaws) demo_print
    (fun _ _ => EmptyString) demo_parse (fun _ _ => EmptyString) (fun _ => None) demo_world _ _ demo_settled
    (fun r t Hr _ => False_ind _ (not_elem_of_nil r Hr)))).
  apply star_one. apply (step_recharge (H0 := RationalLaws)). intros req a _ [= <-]. by exists 10000.
Defined.

Lemma demo_payable : payable demo_world 2 5 10000 "pay_1" demo_partner.
Proof.
  split; try done.
  - exists demo_member. split; [by vm_compute | done].
  - apply demo_bdb_books.
Qed.

(** The direct subscriber's token, named again for the partner's. *)
Lemma commission_without_money_witness :
  exists w', WalletRecharge demo_print demo_parse 9 Subscribers.demo_config all_up (Some (demo_body 2 "pay_1"))
      demo_world = (200, w') /\
    Billing.wallet_balance <$> Billing.subscribers (bdb w') !! 2 = Some 0 /\
    lc_commission_amount <$> lco_ledger w' = [1000].
Proof.
  destruct (commission_without_money (H := RationalDecimal) (H0 := RationalLaws) demo_print demo_parse 9
    Subscribers.demo_config (demo_body 2 "pay_1") (@of_paise RationalDecimal 10000) 10000 5 demo_partner
    Billing.demo_row demo_world demo_payable eq_refl (paise_of (H0 := RationalLaws) 10000) Billing.demo_row_paid eq_refl
    ltac:(discriminate)) as (w' & Hw & Hs & _ & Hl & _).
  exists w'. split; [exact Hw |]. rewrite Hs, Hl. split; vm_compute; reflexivity.
Defined.

Definition demo_row : CommissionRow := MkCommission 1 5 2 10000 1000 (Some "pay_2"%string) 9.

Lemma consolidated_pnl_adds_up_witness :
  exists p, ListConsolidatedPnL (H := RationalDecimal) true None (Some 10) (with_lco [demo_row] 2 demo_world) = Ok p /\
    is_paise (H0 := RationalLaws) (co_NetToISP p) 9000.
Proof.
  eexists. split; [vm_compute; reflexivity |].
  refine (proj2 (proj2 (proj2 (consolidated_pnl_adds_up (H0 := RationalLaws) None (Some 10)
    (with_lco [demo_row] 2 demo_world) _ _ _)))); [| vm_compute; reflexivity].
  intros r Hr. apply list_elem_of_singleton in Hr as ->. by eexists.
Defined.

(** Another partner with a sale of their own. *)
Definition demo_other : world :=
  MkWorld (subs demo_world) (<[6 := MkPartner "Hills" "Anu" "+919800000010" 500 "active" 0]> (partners demo_world)) 7
    [MkCommission 1 6 1 5000 250 None 3] 2 [] [] [].

Lemma franchise_isolated_witness :
  let c := Crm.MkCaller "lco" 5 in
  ListFranchisesHandler true true c demo_world = (200, [(5, demo_partner)]) /\
  ListFranchisesHandler true true c demo_world = ListFranchisesHandler true true c demo_other.
Proof.
  cbv zeta. split; [vm_compute; reflexivity |].
  assert (same_franchise 5 demo_world demo_other) as Hs by (split; [by vm_compute | reflexivity | done]).
  exact (proj1 (proj2 (franchise_isolated (Crm.MkCaller "lco" 5) 5 true true 5 "" "" demo_world demo_other
    eq_refl eq_refl Hs))).
Defined.

(** A window that ends the day before it starts is taken. *)
Example inverted_window_accepted :
  parseDateWindow "2026-08-14" "2026-08-13" = Some (Some (20679 * Dunning.day), Some (20679 * Dunning.day)).
Proof. vm_compute. reflexivity. Qed.

(** A captured payment whose note names no subscriber on file is answered 500
    at every delivery, so the gateway keeps delivering it. *)
Example orphan_payment_refused :
  let p := MkPayload "payment.captured" "pay_9" 5000 "99" in
  let deliver w := RazorpayWebhook (H := RationalDecimal) demo_print (fun _ _ => EmptyString) (fun _ _ => EmptyString)
    (fun _ => Some p) 9 Subscribers.demo_config all_up "secret" (Some "body"%string) "" w in
  (deliver demo_world).1 = 500 /\ (deliver (deliver demo_world).2).1 = 500.
Proof. vm_compute. done. Qed.

End Revenue.
