(* ===== verification/Reconcile.v ===== *)
(** * Nightly reconciliation, the collections forecast and recovery reports

    internal/revenue/reconcile.go, scheduler.go and collections.go with their
    statements in internal/db/revenue.go, over the tables of Revenue and
    Billing. [zone] is the offset in seconds of the time zone the database
    session and the scheduler use. A month is counted as [12 * year + month - 1]. *)

From S2P Require Import Prelude Rows GoStrings Dates Identity Decimal Jobqueue Gst Billing Dunning Renewal Subscribers Revenue.
From stdpp Require Import sorting.
From Stdlib Require Import QArith.

Local Open Scope Z_scope.

Module Reconcile.

(** ** Calendar *)

(** [CURRENT_DATE] and [::date] *)
Definition date_of (zone t : Z) : Z := (Dunning.unix t + zone) / 86400.

(** [date_trunc('month', …)] *)
Definition month_of (zone t : Z) : Z :=
  let '(y, m, _) := Dates.civil (date_of zone t) in 12 * y + m - 1.

(** ** Which calls can be executed *)

Record Env : Type := MkEnv {
  unbilled_up : bool;
  variance_up : bool;
  total_up : bool;
  snapshot_up : bool;
  build_up : bool;
  forecast_up : bool
}.
Definition all_up : Env := MkEnv true true true true true true.

(** ** The figures *)

Definition billed_this_month (zone now id : Z) (d : Billing.DB) : bool :=
  existsb (fun i => (Billing.iv_subscriber_id i =? id) && (month_of zone now <=? month_of zone (Billing.iv_created_at i)))
    (Billing.invoices d).

Definition GetUnbilledActiveSubscribers (zone now : Z) (up : bool) (d : Billing.DB) : result Revenue.error Z :=
  if negb up then Err Revenue.ErrQuery
  else Ok (Z.of_nat (length (List.filter
         (fun p => String.eqb (Billing.status p.2) "active" && negb (billed_this_month zone now p.1 d))
         (map_to_list (Billing.subscribers d))))).

(** How far a balance is from the wallet legs of the ledger. *)
Definition drift (d : Billing.DB) (p : Z * Billing.SubscriberRow) : Z :=
  Billing.wallet_balance p.2 - Billing.ledger_sum p.1 (Billing.wallet_ledgers d).

Definition total_drift (d : Billing.DB) : Z :=
  sum_by (drift d) (map_to_list (Billing.subscribers d)).

Definition total_balance (d : Billing.DB) : Z :=
  sum_by (fun p => Billing.wallet_balance p.2) (map_to_list (Billing.subscribers d)).

(** *** Forecast candidates: date, at risk, price *)

Definition at_risk (r : Billing.SubscriberRow) (p : Billing.PlanRow) : bool :=
  (Billing.wallet_balance r <? Billing.price p) ||
  existsb (String.eqb (Billing.dunning_state r)) ["soft_suspended"; "hard_suspended"; "grace_period"]%string.

Record Upcoming : Type := MkUpcoming { up_id : Z; up_date : Z; up_at_risk : bool; up_price : Z }.

Definition upcoming_of (zone now days : Z) (d : Billing.DB) (p : Z * Billing.SubscriberRow) : option Upcoming :=
  expiry ← Billing.plan_expiry p.2;
  plan ← Billing.plans d !! Billing.plan_id p.2;
  let today := date_of zone now in
  let date := date_of zone expiry in
  if (today <=? date) && (date <=? today + days) && negb (String.eqb (Billing.status p.2) "terminated")
  then Some (MkUpcoming p.1 date (at_risk p.2 plan) (Billing.price plan)) else None.

Definition upcoming (zone now days : Z) (d : Billing.DB) : list Upcoming :=
  omap (upcoming_of zone now days d) (map_to_list (Billing.subscribers d)).

Definition on_date (date : Z) (risk : bool) (l : list Upcoming) : list Upcoming :=
  List.filter (fun u => (up_date u =? date) && Bool.eqb (up_at_risk u) risk) l.

(** ** Collections by stage (collections.go) *)

Definition ServiceStoppedIn (dunningState : string) : bool :=
  String.eqb dunningState Dunning.DunningSoftSuspended || String.eqb dunningState Dunning.DunningHardSuspended.

Record CollectionsStageRow : Type := MkStage {
  cs_DunningState : string; cs_Subscribers : Z; cs_Outstanding : Z; cs_ServiceStopped : bool
}.

(** The stages in the order the statement lists them. *)
Definition stage_order : list string :=
  ["remind_7d"; "remind_3d"; "remind_1d"; "grace_period"; "soft_suspended"; "hard_suspended"]%string.

Definition lapsed (d : Billing.DB) : list (Z * Billing.SubscriberRow) :=
  List.filter (fun p => negb (String.eqb (Billing.dunning_state p.2) "active") &&
                        negb (String.eqb (Billing.status p.2) "terminated")) (map_to_list (Billing.subscribers d)).

(** A subscriber whose plan is missing counts, with no price. *)
Definition owed (d : Billing.DB) (p : Z * Billing.SubscriberRow) : Z :=
  default 0 (Billing.price <$> Billing.plans d !! Billing.plan_id p.2).

Definition stage_row (d : Billing.DB) (state : string) : option CollectionsStageRow :=
  let l := List.filter (fun p => String.eqb (Billing.dunning_state p.2) state) (lapsed d) in
  if bool_decide (l = []) then None
  else Some (MkStage state (Z.of_nat (length l)) (sum_by (owed d) l) (ServiceStoppedIn state)).

(** Stages off the ladder come last. *)
Definition GetCollectionsByDunningStage (up : bool) (d : Billing.DB) :
    result Revenue.error (list CollectionsStageRow) :=
  if negb up then Err Revenue.ErrQuery
  else
    let others := List.filter (fun s => negb (existsb (String.eqb s) stage_order))
                    (remove_dups (map (fun p => Billing.dunning_state p.2) (lapsed d))) in
    Ok (omap (stage_row d) (stage_order ++ others)).

(** ** Monthly recovery *)

Record RecoveryMonth : Type := MkRecovery { rm_Month : Z; rm_Collected : Z; rm_Payers : Z }.

Definition receipts (zone now months : Z) (d : Billing.DB) : list Billing.LedgerRow :=
  List.filter (fun r => String.eqb (Billing.lg_entry_type r) "credit" &&
                        bool_decide (is_Some (Billing.lg_transaction_token r)) &&
                        (month_of zone now - (months - 1) <=? month_of zone (Billing.lg_created_at r)))
    (Billing.wallet_ledgers d).

Definition later (a b : Z) : Prop := b <= a.
#[local] Instance later_dec : RelDecision later.
Proof. intros a b. unfold later. apply _. Defined.

Definition GetMonthlyRecovery (zone now : Z) (up : bool) (months : Z) (d : Billing.DB) :
    result Revenue.error (list RecoveryMonth) :=
  if negb up then Err Revenue.ErrQuery
  else
    let l := receipts zone now (if months <=? 0 then 2 else months) d in
    let month r := month_of zone (Billing.lg_created_at r) in
    Ok (map (fun m =>
          let rows := List.filter (fun r => month r =? m) l in
          MkRecovery m (sum_by Billing.lg_amount rows)
            (Z.of_nat (length (remove_dups (map Billing.lg_subscriber_id rows)))))
        (merge_sort later (remove_dups (map month l)))).

(** ** The scheduler (scheduler.go) *)

Definition reconcileHourIST : Z := 2.

Definition untilNextRun (zone from : Z) : Z :=
  let local := from + zone * 1000000000 in
  let next := local / Dunning.day * Dunning.day + reconcileHourIST * Dunning.hour in
  let next := if local <? next then next else next + Dunning.day in
  next - local.

(** When the job starts, given how long each run takes. *)
Fixpoint run_starts (zone from : Z) (durations : list Z) : list Z :=
  match durations with
  | [] => []
  | took :: rest =>
      let start := from + untilNextRun zone from in
      start :: run_starts zone (start + took) rest
  end.

Section Job.
Context `{Decimal}.

Definition GetLedgerVariance (up : bool) (d : Billing.DB) : result Revenue.error dec :=
  if negb up then Err Revenue.ErrQuery else Ok (of_paise (total_drift d)).

Definition GetTotalWalletBalance (up : bool) (d : Billing.DB) : result Revenue.error dec :=
  if negb up then Err Revenue.ErrQuery else Ok (of_paise (total_balance d)).

Record RevenueSnapshot : Type := MkSnapshot {
  ss_SnapshotDate : Z; ss_UnbilledSubscriberCount : Z; ss_LedgerVariance : dec; ss_TotalWalletBalance : dec
}.

(** Clears the date, then inserts; either both or neither. *)
Definition UpsertRevenueSnapshot (up : bool) (snap : RevenueSnapshot) (w : Revenue.world) :
    result Revenue.error unit * Revenue.world :=
  if negb up then (Err Revenue.ErrQuery, w)
  else match numeric 12 (ss_LedgerVariance snap), numeric 14 (ss_TotalWalletBalance snap) with
       | Some variance, Some total =>
           (Ok tt, Revenue.with_snapshots
              (List.filter (fun r => negb (Revenue.sn_date r =? ss_SnapshotDate snap)) (Revenue.revenue_snapshots w) ++
               [Revenue.MkSnapshotRow (ss_SnapshotDate snap) (ss_UnbilledSubscriberCount snap) variance total]) w)
       | _, _ => (Err Revenue.ErrConstraint, w)
       end.

Record CollectionsForecast : Type := MkForecast {
  cf_ForecastDate : Z;
  cf_ForecastForDate : Z;
  cf_ExpectedRenewals : Z;
  cf_AtRiskRenewals : Z;
  cf_ExpectedRevenue : dec;
  cf_AtRiskRevenue : dec
}.

Definition forecast_row (today : Z) (l : list Upcoming) (k : nat) : option CollectionsForecast :=
  let date := today + Z.of_nat k in
  let expected := on_date date false l in
  let risky := on_date date true l in
  if bool_decide (expected = []) && bool_decide (risky = []) then None
  else Some (MkForecast today date (Z.of_nat (length expected)) (Z.of_nat (length risky))
               (of_paise (sum_by up_price expected)) (of_paise (sum_by up_price risky))).

Definition BuildCollectionsForecast (zone now : Z) (up : bool) (days : Z) (d : Billing.DB) :
    result Revenue.error (list CollectionsForecast) :=
  let days := if days <=? 0 then 30 else days in
  if negb up then Err Revenue.ErrQuery
  else Ok (omap (forecast_row (date_of zone now) (upcoming zone now days d)) (seq 0 (Z.to_nat days + 1))).

Definition forecast_record (f : CollectionsForecast) : option Revenue.ForecastRow :=
  e ← numeric 14 (cf_ExpectedRevenue f); r ← numeric 14 (cf_AtRiskRevenue f);
  Some (Revenue.MkForecastRow (cf_ForecastDate f) (cf_ForecastForDate f) (cf_ExpectedRenewals f)
          (cf_AtRiskRenewals f) e r).

(** Clears what was forecast today, then inserts the rows; all or nothing. *)
Definition UpsertCollectionsForecast (zone now : Z) (up : bool) (forecasts : list CollectionsForecast)
    (w : Revenue.world) : result Revenue.error unit * Revenue.world :=
  if negb up then (Err Revenue.ErrQuery, w)
  else match mapM forecast_record forecasts with
       | None => (Err Revenue.ErrConstraint, w)
       | Some rows =>
           (Ok tt, Revenue.with_forecast
              (List.filter (fun r => negb (Revenue.fr_date r =? date_of zone now)) (Revenue.collections_forecast w) ++
               rows) w)
       end.

(** [Abs] *)
Definition Abs (d : dec) : dec := if is_negative d then Sub (NewFromInt 0) d else d.

Definition breaches (variance : dec) : bool := Less (NewFromRatio 1 100) (Abs variance).

(** [ReconcileJob.Run] *)
Definition Run (zone now : Z) (e : Env) (w : Revenue.world) : result Revenue.error unit * Revenue.world :=
  match GetUnbilledActiveSubscribers zone now (unbilled_up e) (Revenue.bdb w) with
  | Err x => (Err x, w)
  | Ok unbilled =>
      match GetLedgerVariance (variance_up e) (Revenue.bdb w) with
      | Err x => (Err x, w)
      | Ok variance =>
          let w := if breaches variance then Revenue.Trigger "ledger_variance_detected" w else w in
          match GetTotalWalletBalance (total_up e) (Revenue.bdb w) with
          | Err x => (Err x, w)
          | Ok total =>
              let snap := MkSnapshot (now / Dunning.day) unbilled variance total in
              match UpsertRevenueSnapshot (snapshot_up e) snap w with
              | (Err x, w) => (Err x, w)
              | (Ok _, w) =>
                  match BuildCollectionsForecast zone now (build_up e) 30 (Revenue.bdb w) with
                  | Err x => (Err x, w)
                  | Ok forecasts => UpsertCollectionsForecast zone now (forecast_up e) forecasts w
                  end
              end
          end
      end
  end.

(** [RecoveryRate]: nothing when the prior month collected nothing. *)
Definition RecoveryRate (current prior : dec) : option dec :=
  if is_zero prior then None
  else Some (Round (Mul (Div (Sub current prior) prior) (NewFromInt 100)) 1).

End Job.

(** ** The schedule *)

Lemma untilNextRun_spec zone from :
  let start := from + untilNextRun zone from in
  0 < untilNextRun zone from <= Dunning.day /\
  (start + zone * 1000000000) mod Dunning.day = reconcileHourIST * Dunning.hour.
Proof.
  unfold untilNextRun. set (l := from + zone * 1000000000).
  assert (Dunning.day = 86400000000000) as Hd by reflexivity.
  assert (reconcileHourIST * Dunning.hour = 7200000000000) as Hh by reflexivity. rewrite Hd, Hh.
  pose proof (Z.div_mod l 86400000000000 ltac:(lia)) as Hl.
  pose proof (Z.mod_pos_bound l 86400000000000 ltac:(lia)) as Hm.
  set (q := l / 86400000000000) in *. set (t := l mod 86400000000000) in *.
  destruct (Z.ltb_spec l (q * 86400000000000 + 7200000000000)) as [Hlt | Hge]; (split; [lia |]).
  - replace (from + _ + _) with (7200000000000 + q * 86400000000000) by lia. rewrite Z.mod_add by lia. done.
  - replace (from + _ + _) with (7200000000000 + (q + 1) * 86400000000000) by lia. rewrite Z.mod_add by lia. done.
Qed.

(** From 02:00 of a night, the next run is 02:00 of the next. *)
Lemma next_night zone start took :
  (start + zone * 1000000000) mod Dunning.day = reconcileHourIST * Dunning.hour -> 0 <= took < Dunning.day ->
  start + took + untilNextRun zone (start + took) = start + Dunning.day.
Proof.
  unfold untilNextRun. intros Hs Ht.
  assert (Dunning.day = 86400000000000) as Hd by reflexivity.
  assert (reconcileHourIST * Dunning.hour = 7200000000000) as Hh by reflexivity. rewrite Hd, Hh in *.
  set (z := zone * 1000000000) in *. set (l := start + took + z).
  pose proof (Z.div_mod (start + z) 86400000000000 ltac:(lia)) as Hq. rewrite Hs in Hq.
  set (q := (start + z) / 86400000000000) in *.
  pose proof (Z.div_mod l 86400000000000 ltac:(lia)) as Hl.
  pose proof (Z.mod_pos_bound l 86400000000000 ltac:(lia)) as Hm.
  set (p := l / 86400000000000) in *. set (m := l mod 86400000000000) in *.
  assert (p = q \/ p = q + 1) as [-> | ->] by (subst l; lia).
  - destruct (Z.ltb_spec l (q * 86400000000000 + 7200000000000)); subst l; lia.
  - destruct (Z.ltb_spec l ((q + 1) * 86400000000000 + 7200000000000)); subst l; lia.
Qed.

(** The reconciliation starts within a day of the scheduler, at 02:00 in
    its zone, and then at 02:00 of every following night, once each, however
    long the runs take, as long as each ends within a day. *)
Theorem one_run_each_night zone from durations :
  Forall (fun took => 0 <= took < Dunning.day) durations ->
  let first := from + untilNextRun zone from in
  from < first <= from + Dunning.day /\
  (first + zone * 1000000000) mod Dunning.day = reconcileHourIST * Dunning.hour /\
  run_starts zone from durations = map (fun k => first + Z.of_nat k * Dunning.day) (seq 0 (length durations)).
Proof.
  intros Hd first. destruct (untilNextRun_spec zone from) as [Hb Hm].
  split; [subst first; lia |]. split; [exact Hm |]. subst first.
  assert (forall l k from, Forall (fun took => 0 <= took < Dunning.day) l ->
    run_starts zone from l = map (fun j => from + untilNextRun zone from + Z.of_nat (j - k) * Dunning.day)
      (seq k (length l))) as Hgen.
  2: { rewrite (Hgen durations 0%nat from Hd). apply map_ext. intros j. by rewrite Nat.sub_0_r. }
  clear. induction l as [| took l IH]; intros k from Hl; [done |]. inversion Hl as [| ? ? Ht Hl']; subst.
  simpl. rewrite Nat.sub_diag. f_equal; [lia |]. rewrite (IH (S k)) by done.
  destruct (untilNextRun_spec zone from) as [_ Hm]. rewrite (next_night zone _ took Hm Ht).
  apply map_ext_in. intros j Hj%in_seq. replace (Z.of_nat (j - k)) with (Z.of_nat (j - S k) + 1) by lia. lia.
Qed.

(** ** The variance *)

Section Variance.
Context `{DecimalLaws}.

Lemma wallet_step_absent d d' i :
  Billing.wallet_step d d' -> Billing.subscribers d !! i = None -> Billing.subscribers d' !! i = None.
Proof.
  intros Hs Hi. assert (exists now up r, d' = (Billing.settle now up r d).2) as (now & up & r & ->)
    by (destruct Hs; do 3 eexists; reflexivity).
  destruct (Billing.settle_tables now up r d) as [-> | (p & _ & ->)]; [done |].
  destruct (Billing.RecordRecharge now up p d) as [[tx | x] d'] eqn:Hr; simpl.
  - apply Billing.RecordRecharge_Ok in Hr as [[Hp] _].
    destruct (Billing.posted_ledger _ _ _ _ Hp) as (r1 & r2 & nb & _ & _ & _ & _ & _ & _ & ->).
    rewrite lookup_alter. case_decide as Hd; [subst | done]. by rewrite Hi.
  - by apply Billing.RecordRecharge_Err in Hr as (-> & _ & _).
Qed.

Lemma wallet_step_drift d d' : Billing.wallet_step d d' -> total_drift d' = total_drift d.
Proof.
  intros Hs. unfold total_drift. symmetry. apply sum_tables. intros i.
  destruct (Billing.subscribers d !! i) as [r |] eqn:Hr.
  - destruct (proj1 (Billing.wallet_step_sound d d' Hs) i r Hr) as (b & -> & Hb). unfold drift. simpl. lia.
  - by rewrite (wallet_step_absent d d' i Hs Hr).
Qed.

Lemma breaches_drift z : breaches (of_paise z) = (1 <? Z.abs z).
Proof.
  unfold breaches, Abs. rewrite (paise_is_negative _ z (paise_of z)).
  assert (is_paise (NewFromRatio 1 100) 1) as H1 by apply val_NewFromRatio.
  assert (is_paise (if z <? 0 then Sub (NewFromInt 0) (of_paise z) else of_paise z) (Z.abs z)) as H2.
  { destruct (Z.ltb_spec z 0); [| rewrite Z.abs_eq by done; apply paise_of].
    rewrite Z.abs_neq by lia. rewrite <- Z.sub_0_l. apply paise_sub; [apply paise_zero | apply paise_of]. }
  apply (paise_less _ _ 1 (Z.abs z) H1 H2).
Qed.

Lemma Run_alerts zone now e w :
  Revenue.alerts (Run zone now e w).2 = Revenue.alerts w ++
    (if unbilled_up e && variance_up e && (1 <? Z.abs (total_drift (Revenue.bdb w)))
     then ["ledger_variance_detected"%string] else []).
Proof.
  unfold Run, GetUnbilledActiveSubscribers, GetLedgerVariance.
  destruct (unbilled_up e); cbn [negb andb]; [| by rewrite app_nil_r].
  destruct (variance_up e); cbn [negb andb]; [| by rewrite app_nil_r].
  rewrite breaches_drift. set (w1 := if 1 <? _ then _ else w).
  assert (Revenue.alerts w1 = Revenue.alerts w ++ (if 1 <? Z.abs (total_drift (Revenue.bdb w))
    then ["ledger_variance_detected"%string] else [])) as <- by (subst w1; case_match; by rewrite ?app_nil_r).
  destruct (GetTotalWalletBalance _ _) as [total | x]; [| done].
  unfold UpsertRevenueSnapshot. destruct (negb (snapshot_up e)); [done |].
  destruct (numeric 12 _); [| done]. destruct (numeric 14 _); [| done].
  destruct (BuildCollectionsForecast _ _ _ _ _) as [l | x]; [| done].
  unfold UpsertCollectionsForecast. destruct (negb (forecast_up e)); [done |]. by destruct (mapM _ _).
Qed.

(** However many wallet operations run, one at a time and failing where
    they may, the total drift the nightly job measures does not move; the job
    alerts, once it can read its figures, exactly when that drift is more than
    one hundredth in either direction. Books that start honest never alert. *)
Theorem reconciliation_alerts_on_drift zone now e d w :
  star Billing.wallet_step d (Revenue.bdb w) ->
  total_drift (Revenue.bdb w) = total_drift d /\
  Revenue.alerts (Run zone now e w).2 = Revenue.alerts w ++
    (if unbilled_up e && variance_up e && (1 <? Z.abs (total_drift d))
     then ["ledger_variance_detected"%string] else []).
Proof.
  intros Hs. assert (total_drift (Revenue.bdb w) = total_drift d) as Hd.
  { generalize dependent (Revenue.bdb w). intros d' Hs.
    induction Hs as [d | d d1 d' Hstep _ IH]; [done |]. rewrite IH. by apply wallet_step_drift. }
  split; [done |]. by rewrite Run_alerts, Hd.
Qed.

(** ** The forecast *)

Lemma on_date_keys date risk l :
  on_date date risk l = List.filter (fun u => up_date u =? date) (List.filter (fun u => Bool.eqb (up_at_risk u) risk) l).
Proof. unfold on_date. by rewrite filter_andb, filter_comm. Qed.

(** Adding up a figure of the rows adds it up over the renewals. *)
Lemma forecast_sum (fig : CollectionsForecast -> Z) (g : Upcoming -> Z) risk today l n :
  (forall k f, forecast_row today l k = Some f -> fig f = sum_by g (on_date (today + Z.of_nat k) risk l)) ->
  (forall u, u ∈ l -> today <= up_date u < today + Z.of_nat n) ->
  sum_by fig (omap (forecast_row today l) (seq 0 n)) =
  sum_by g (List.filter (fun u => Bool.eqb (up_at_risk u) risk) l).
Proof.
  intros Hfig Hl. set (lr := List.filter _ l).
  rewrite <- (sum_by_keys up_date g (map (fun k => today + Z.of_nat k) (seq 0 n)) lr).
  - generalize (seq 0 n). induction l0 as [| k ks IH]; [done |]. simpl.
    assert (sum_by g (List.filter (fun x => up_date x =? today + Z.of_nat k) lr) =
      sum_by g (on_date (today + Z.of_nat k) risk l)) as -> by (by rewrite on_date_keys).
    rewrite <- IH. destruct (forecast_row today l k) as [f |] eqn:Hf; simpl; [by rewrite (Hfig k f Hf) |].
    unfold forecast_row in Hf. destruct (_ && _) eqn:Hb; [| done].
    apply andb_true_iff in Hb as [H1%bool_decide_eq_true H2%bool_decide_eq_true].
    destruct risk; by rewrite ?H1, ?H2.
  - apply NoDup_fmap; [intros x y; lia | apply NoDup_seq].
  - intros u Hu. subst lr. apply elem_of_filterb in Hu as [Hu _]. specialize (Hl u Hu).
    apply list_elem_of_fmap. exists (Z.to_nat (up_date u - today)). split; [lia |].
    apply elem_of_seq. lia.
Qed.

Lemma elem_of_upcoming zone now days d u :
  u ∈ upcoming zone now days d <->
  exists r p e, Billing.subscribers d !! up_id u = Some r /\ Billing.plan_expiry r = Some e /\
    Billing.plans d !! Billing.plan_id r = Some p /\ Billing.status r <> "terminated"%string /\
    date_of zone now <= date_of zone e <= date_of zone now + days /\
    up_date u = date_of zone e /\ up_at_risk u = at_risk r p /\ up_price u = Billing.price p.
Proof.
  unfold upcoming. rewrite list_elem_of_omap. split.
  - intros ([id r] & Hin%elem_of_map_to_list & Hu). unfold upcoming_of in Hu. simpl in Hu.
    destruct (Billing.plan_expiry r) as [e |] eqn:He; simpl in Hu; [| done].
    destruct (Billing.plans d !! Billing.plan_id r) as [p |] eqn:Hp; simpl in Hu; [| done].
    destruct (_ && _) eqn:Hc; [| done]. injection Hu as <-. exists r, p, e. simpl.
    rewrite !andb_true_iff, negb_true_iff, String.eqb_neq in Hc. destruct Hc as [[H1 H2] H3]. split_and!; done || lia.
  - intros (r & p & e & Hin & He & Hp & Hs & Hd & H1 & H2 & H3). exists (up_id u, r).
    split; [by apply elem_of_map_to_list |]. unfold upcoming_of. simpl. rewrite He. simpl. rewrite Hp. simpl.
    rewrite (proj2 (Z.leb_le _ _)), (proj2 (Z.leb_le _ _)), (proj2 (String.eqb_neq _ _) Hs) by lia.
    destruct u. simpl in *. by subst.
Qed.

Lemma upcoming_NoDup zone now days d : NoDup (map up_id (upcoming zone now days d)).
Proof.
  unfold upcoming. pose proof (NoDup_fst_map_to_list (Billing.subscribers d)) as Hn. revert Hn.
  generalize (map_to_list (Billing.subscribers d)). intros l.
  assert (forall p u, upcoming_of zone now days d p = Some u -> up_id u = p.1) as Hid.
  { intros p u. unfold upcoming_of. destruct (Billing.plan_expiry _); simpl; [| done].
    destruct (Billing.plans d !! _); simpl; [| done]. case_match; [| done]. by intros [= <-]. }
  induction l as [| p l IH]; simpl; [constructor |]. intros [Hp Hl]%NoDup_cons. specialize (IH Hl).
  destruct (upcoming_of zone now days d p) as [u |] eqn:Hu; simpl; [| done]. apply NoDup_cons. split; [| done].
  intros (v & Hv & Hin)%list_elem_of_fmap. apply list_elem_of_omap in Hin as (q & Hq & Hqv).
  apply Hp. apply list_elem_of_fmap. exists q. split; [| done].
  by rewrite <- (Hid _ _ Hu), <- (Hid _ _ Hqv).
Qed.

Lemma forecast_row_Some today l k f :
  forecast_row today l k = Some f ->
  let date := today + Z.of_nat k in
  cf_ForecastDate f = today /\ cf_ForecastForDate f = date /\
  cf_ExpectedRenewals f = Z.of_nat (length (on_date date false l)) /\
  cf_AtRiskRenewals f = Z.of_nat (length (on_date date true l)) /\
  is_paise (cf_ExpectedRevenue f) (sum_by up_price (on_date date false l)) /\
  is_paise (cf_AtRiskRevenue f) (sum_by up_price (on_date date true l)).
Proof. unfold forecast_row. case_match; [done |]. intros [= <-]. split_and!; try done; apply paise_of. Qed.

(** The forecast counts every renewal that falls in the window, today and
    the last day included, exactly once: one row a date, each with the number
    and the plan prices of the subscribers whose plan ends that day, split by
    risk; the rows' counts add up to all of them. *)
Theorem forecast_counts_renewals_once zone now days d fs :
  0 < days -> BuildCollectionsForecast zone now true days d = Ok fs ->
  let l := upcoming zone now days d in
  NoDup (map up_id l) /\ NoDup (map cf_ForecastForDate fs) /\
  (forall f, f ∈ fs ->
     cf_ExpectedRenewals f = Z.of_nat (length (on_date (cf_ForecastForDate f) false l)) /\
     cf_AtRiskRenewals f = Z.of_nat (length (on_date (cf_ForecastForDate f) true l)) /\
     is_paise (cf_ExpectedRevenue f) (sum_by up_price (on_date (cf_ForecastForDate f) false l)) /\
     is_paise (cf_AtRiskRevenue f) (sum_by up_price (on_date (cf_ForecastForDate f) true l))) /\
  sum_by (fun f => cf_ExpectedRenewals f + cf_AtRiskRenewals f) fs = Z.of_nat (length l).
Proof.
  intros Hdays. unfold BuildCollectionsForecast. rewrite (proj2 (Z.leb_gt days 0)) by lia. cbn [negb].
  set (today := date_of zone now). set (l := upcoming zone now days d). set (n := (Z.to_nat days + 1)%nat).
  intros [= <-]. cbv zeta. split; [apply upcoming_NoDup |].
  assert (forall u, u ∈ l -> today <= up_date u < today + Z.of_nat n) as Hr.
  { intros u (r & p & e & _ & _ & _ & _ & Hd & -> & _)%elem_of_upcoming. subst n today. lia. }
  split; [| split].
  - generalize (NoDup_seq 0 n). generalize (seq 0 n). induction l0 as [| k ks IH]; [constructor |].
    intros [Hk Hks]%NoDup_cons. simpl. destruct (forecast_row today l k) as [f |] eqn:Hf; simpl; [| by apply IH].
    apply NoDup_cons. split; [| by apply IH]. intros (g & Hg & (j & Hj & Hgj)%list_elem_of_omap)%list_elem_of_fmap.
    apply forecast_row_Some in Hf as (_ & Hf & _), Hgj as (_ & Hgj & _).
    assert (j = k) as -> by lia. done.
  - intros f (k & _ & (_ & -> & -> & -> & H1 & H2)%forecast_row_Some)%list_elem_of_omap. done.
  - assert (forall (f g : CollectionsForecast -> Z) fs, sum_by (fun x => f x + g x) fs =
      sum_by f fs + sum_by g fs) as -> by (intros f g; induction fs as [| x fs IH]; simpl; lia).
    rewrite (forecast_sum cf_ExpectedRenewals (fun _ => 1) false today l n),
      (forecast_sum cf_AtRiskRenewals (fun _ => 1) true today l n), <- !length_sum; try done.
    + clear. induction l as [| u l IH]; simpl; [done |]. destruct (up_at_risk u); simpl; lia.
    + intros k f (_ & _ & _ & -> & _)%forecast_row_Some. apply length_sum.
    + intros k f (_ & _ & -> & _)%forecast_row_Some. apply length_sum.
Qed.

(** A subscriber whose wallet covers the plan's price but not its tax, and
    whose stage is not one of suspension, is forecast among the expected
    renewals of the day their plan ends; when that day comes with the wallet as
    it is, the renewal is refused for want of balance. *)
Theorem forecast_expects_unpayable_renewals zone now t id r p e rate cr sr ir w :
  let d := Renewal.bdb w in
  let '(cg, sg, ig) := Renewal.taxes (Billing.registered_state r) (Billing.price p) cr sr ir in
  Billing.subscribers d !! id = Some r -> Billing.plans d !! Billing.plan_id r = Some p ->
  Billing.plan_expiry r = Some e -> Billing.status r <> "terminated"%string ->
  existsb (String.eqb (Billing.dunning_state r)) ["soft_suspended"; "hard_suspended"; "grace_period"]%string = false ->
  0 < Billing.price p <= Billing.wallet_balance r -> Billing.wallet_balance r < Billing.price p + cg + sg + ig ->
  date_of zone now <= date_of zone e <= date_of zone now + 30 -> e <= t ->
  Renewal.GetActiveGstRate t true d = Ok rate -> Renewal.rate_columns d rate cr sr ir ->
  0 <= cr -> 0 <= sr -> 0 <= ir ->
  MkUpcoming id (date_of zone e) false (Billing.price p) ∈ upcoming zone now 30 d /\
  exists c, Renewal.candidate_of t id r d = Some c /\
    Renewal.renew zone t Renewal.all_up c w = (Renewal.InsufficientBalance, w).
Proof.
  intros d. destruct (Renewal.taxes _ _ _ _ _) as [[cg sg] ig] eqn:Htax.
  intros Hr Hp He Hst Hdun Hprice Hshort Hdate Het Hrate Hcol Hc Hs Hi. split.
  - apply elem_of_upcoming. exists r, p, e. simpl. split_and!; try done; try lia.
    unfold at_risk. rewrite Hdun, orb_false_r. symmetry. lia.
  - unfold Renewal.candidate_of. rewrite Hp. simpl. unfold Renewal.renewable.
    rewrite (proj2 (String.eqb_neq _ _) Hst), He, (proj2 (Z.leb_le _ _)), (proj2 (Z.leb_le e t)) by lia. cbn [negb andb].
    eexists. split; [reflexivity |]. set (c := Renewal.MkCandidate _ _ _ _ _ _ _ _ _ _ _).
    pose proof (Renewal.buildInvoice_paise t c w rate (Billing.price p) (Billing.registered_state r) cr sr ir Hrate Hcol
      eq_refl eq_refl) as Hinv. rewrite Htax in Hinv. destruct Hinv as (inv & Hb & _ & _ & _ & _ & _ & _ & _ & _ & Htot & Htx).
    pose proof (Renewal.taxes_nonneg (Billing.registered_state r) (Billing.price p) cr sr ir ltac:(lia) Hc Hs Hi) as Hnn.
    rewrite Htax in Hnn. unfold Renewal.renew. rewrite Hb. cbn [Renewal.all_up Renewal.wallet_env].
    rewrite (Billing.Post_short t (Renewal.charge c inv) _ _ (Renewal.bdb w) r Htot Htx) by (done || lia). by destruct w.
Qed.

End Variance.

(** ** Examples *)

Definition with_balance (b : Z) (d : Billing.DB) : Billing.DB :=
  Billing.with_subscribers (alter (Billing.set_balance b) 1) d.

Definition in_world (d : Billing.DB) : Revenue.world := Revenue.with_bdb d Revenue.demo_world.

(** Books that start empty, and one recharge. *)
Lemma reconciliation_alerts_on_drift_witness :
  let d := with_balance 0 Billing.demo_db in
  let d' := (Billing.Recharge (H := RationalDecimal) 5 Billing.all_up (Billing.demo_recharge "pay_1" 250) d).2 in
  Billing.wallet_balance <$> Billing.subscribers d' !! 1 = Some 25000 /\
  Revenue.alerts (Run (H := RationalDecimal) 19800 9 all_up (in_world d')).2 = [].
Proof.
  cbv zeta. split; [vm_compute; reflexivity |].
  destruct (reconciliation_alerts_on_drift (H0 := RationalLaws) 19800 9 all_up (with_balance 0 Billing.demo_db)
    (in_world (Billing.Recharge (H := RationalDecimal) 5 Billing.all_up (Billing.demo_recharge "pay_1" 250)
       (with_balance 0 Billing.demo_db)).2)) as [_ Ha].
  - apply star_one. apply (Billing.step_recharge (H0 := RationalLaws) _ 5 Billing.all_up _ 25000). reflexivity.
  - rewrite Ha. vm_compute. reflexivity.
Defined.

(** One balance five rupees over its ledger and another five under: the sum is
    zero and nobody is told. *)
Example opposite_drifts_cancel :
  let row := Billing.MkLedger 1 2 None Billing.AccountSubscriberWallet "credit" 500 500 (Some "pay_7"%string) "" None 3 in
  let d := Billing.with_ledgers (fun _ => [row]) 2
    (Billing.with_subscribers (fun m => <[2 := Revenue.demo_member]> m) (with_balance 500 Billing.demo_db)) in
  map (fun p => (p.1, drift d p)) (merge_sort by_id (map_to_list (Billing.subscribers d))) = [(1, 500); (2, -500)] /\
  Revenue.alerts (Run (H := RationalDecimal) 19800 9 all_up (in_world d)).2 = [].
Proof. vm_compute. done. Qed.

Lemma one_run_each_night_witness :
  run_starts 19800 0 [Dunning.hour; 3 * Dunning.hour] = [73800000000000; 160200000000000].
Proof.
  destruct (one_run_each_night 19800 0 [Dunning.hour; 3 * Dunning.hour]) as (_ & _ & ->).
  - repeat constructor; vm_compute; done.
  - vm_compute. reflexivity.
Defined.

(** A subscriber with 500.00 in the wallet, on a plan of 499.00. *)
Definition demo_row : Billing.SubscriberRow :=
  Billing.MkSubscriber "asha" "+919800000001" None "Tamil Nadu" "active" "active" 50000 7 (Some (5 * Dunning.day)).
Definition demo_renewal : Renewal.world :=
  Renewal.MkWorld (Billing.with_subscribers <[1 := demo_row]> Billing.demo_db) (Jobqueue.MkTable ∅ 1) [].

Lemma forecast_counts_renewals_once_witness :
  exists fs, BuildCollectionsForecast (H := RationalDecimal) 19800 0 true 30 (Renewal.bdb demo_renewal) = Ok fs /\
    sum_by (fun f => cf_ExpectedRenewals f + cf_AtRiskRenewals f) fs = 1.
Proof.
  eexists. split; [vm_compute; reflexivity |].
  refine (proj2 (proj2 (proj2 (forecast_counts_renewals_once (H0 := RationalLaws) 19800 0 30
    (Renewal.bdb demo_renewal) _ _ _)))); [lia | vm_compute; reflexivity].
Defined.

Lemma forecast_expects_unpayable_renewals_witness :
  MkUpcoming 1 5 false 49900 ∈ upcoming 19800 0 30 (Renewal.bdb demo_renewal) /\
  exists c, Renewal.candidate_of (H := RationalDecimal) (6 * Dunning.day) 1 demo_row (Renewal.bdb demo_renewal) = Some c /\
    Renewal.renew (H := RationalDecimal) 19800 (6 * Dunning.day) Renewal.all_up c demo_renewal =
      (Renewal.InsufficientBalance, demo_renewal).
Proof.
  refine (forecast_expects_unpayable_renewals (H0 := RationalLaws) 19800 0 (6 * Dunning.day) 1 demo_row
    Renewal.demo_plan (5 * Dunning.day) Renewal.demo_rate 900 900 1800 demo_renewal eq_refl eq_refl eq_refl
    _ eq_refl _ _ _ _ _ _ _ _ _);
    [discriminate | vm_compute; split; done | vm_compute; done | vm_compute; split; discriminate
    | discriminate | vm_compute; reflexivity | by split | lia | lia | lia].
Defined.

(** A soft suspension is reported as a stop of service; RADIUS serves it. *)
Example soft_suspension_is_served :
  ServiceStoppedIn "soft_suspended" = true /\ Identity.AuthorisesService "soft_suspended" = true.
Proof. done. Qed.

(** A cash recharge has no token and is not counted as collected. *)
Example cash_is_not_collected :
  let d := (Billing.Recharge (H := RationalDecimal) 5 Billing.all_up (Billing.demo_recharge "" 250) Billing.demo_db).2 in
  Billing.wallet_balance <$> Billing.subscribers d !! 1 = Some 125000 /\
  GetMonthlyRecovery 19800 9 true 1 d = Ok [].
Proof. vm_compute. done. Qed.

End Reconcile.
