(* ===== verification/Egress.v ===== *)
(** * Where a partner's webhook may point (internal/partner/ssrf.go)

    An [net.IP] is its bytes, [[]] the nil address; [ParseIP] and
    [SplitHostPort] are the standard library's on ASCII text. What the URL
    parser and the resolver answer are arguments. [Do] is the client of
    [NewSafeHTTPClient] up to the first response: the addresses the dialler
    tries, those it opens a connection to, and no redirect. *)

From S2P Require Import Prelude GoStrings Json.
From Stdlib Require Import Ascii Btauto.

Local Open Scope Z_scope.

Module Egress.

(** ** net.IP *)

Abbreviation IP := (list Z).

Definition v4InV6Prefix : IP := [0; 0; 0; 0; 0; 0; 0; 0; 0; 0; 255; 255].

Definition IPv4 (a b c d : Z) : IP := v4InV6Prefix ++ [a; b; c; d].

Definition has_prefix (p b : list Z) : bool := bool_decide (take (length p) b = p).

Definition To4 (ip : IP) : option IP :=
  if (length ip =? 4)%nat then Some ip
  else if (length ip =? 16)%nat && has_prefix v4InV6Prefix ip then Some (drop 12 ip)
  else None.

Definition To16 (ip : IP) : option IP :=
  if (length ip =? 4)%nat then Some (v4InV6Prefix ++ ip)
  else if (length ip =? 16)%nat then Some ip
  else None.

Definition Equal (ip x : IP) : bool :=
  if (length ip =? length x)%nat then bool_decide (ip = x)
  else if (length ip =? 4)%nat && (length x =? 16)%nat then bool_decide (x = v4InV6Prefix ++ ip)
  else if (length ip =? 16)%nat && (length x =? 4)%nat then bool_decide (ip = v4InV6Prefix ++ x)
  else false.

Definition byte (ip : IP) (i : nat) : Z := default 0 (ip !! i).

Definition IPv6loopback : IP := replicate 15 0 ++ [1].
Definition IPv6unspecified : IP := replicate 16 0.
Definition IPv4zero : IP := IPv4 0 0 0 0.

Definition IsUnspecified (ip : IP) : bool := Equal ip IPv4zero || Equal ip IPv6unspecified.

Definition IsLoopback (ip : IP) : bool :=
  match To4 ip with Some ip4 => byte ip4 0 =? 127 | None => Equal ip IPv6loopback end.

Definition IsLinkLocalUnicast (ip : IP) : bool :=
  match To4 ip with
  | Some ip4 => (byte ip4 0 =? 169) && (byte ip4 1 =? 254)
  | None => (length ip =? 16)%nat && (byte ip 0 =? 254) && (Z.land (byte ip 1) 192 =? 128)
  end.

Definition IsLinkLocalMulticast (ip : IP) : bool :=
  match To4 ip with
  | Some ip4 => (byte ip4 0 =? 224) && (byte ip4 1 =? 0) && (byte ip4 2 =? 0)
  | None => (length ip =? 16)%nat && (byte ip 0 =? 255) && (Z.land (byte ip 1) 15 =? 2)
  end.

(** [net.CIDRMask(ones, 8 * n)] *)
Fixpoint CIDRMask (ones : Z) (n : nat) : list Z :=
  match n with
  | O => []
  | S n => (if 8 <=? ones then 255 else 256 - 2 ^ (8 - Z.max 0 ones)) :: CIDRMask (ones - 8) n
  end.

Record IPNet : Type := MkNet { n_IP : IP; n_Mask : list Z }.

(** [net.ParseCIDR] of an address given by its bytes. *)
Definition cidr (ip : IP) (ones : Z) : IPNet :=
  let m := CIDRMask ones (length ip) in MkNet (zip_with Z.land ip m) m.

(** [IPNet.Contains], for a network whose mask is as long as its address and
    whose address is not an IPv4-mapped one. *)
Definition Contains (n : IPNet) (ip : IP) : bool :=
  let ip := default ip (To4 ip) in
  (length ip =? length (n_IP n))%nat &&
  bool_decide (zip_with Z.land ip (n_Mask n) = zip_with Z.land (n_IP n) (n_Mask n)).

(** ** The blocked ranges *)

Definition v6 (head : list Z) : IP := head ++ replicate (16 - length head) 0.

Definition blockedNets : list IPNet :=
  [cidr [0; 0; 0; 0] 8; cidr [10; 0; 0; 0] 8; cidr [100; 64; 0; 0] 10; cidr [127; 0; 0; 0] 8;
   cidr [169; 254; 0; 0] 16; cidr [172; 16; 0; 0] 12; cidr [192; 0; 0; 0] 24; cidr [192; 168; 0; 0] 16;
   cidr [198; 18; 0; 0] 15; cidr [224; 0; 0; 0] 4; cidr [240; 0; 0; 0] 4;
   cidr IPv6loopback 128; cidr (v6 [252]) 7; cidr (v6 [254; 128]) 10; cidr (v6 [32; 1; 13; 184]) 32].

Definition embeddedIPv4Compatible (ip : IP) : option IP :=
  match To16 ip, To4 ip with
  | Some ip16, None =>
      if negb (has_prefix (replicate 10 0) ip16) then None
      else if (byte ip16 12 =? 0) && (byte ip16 13 =? 0) && (byte ip16 14 =? 0) &&
              ((byte ip16 15 =? 0) || (byte ip16 15 =? 1)) then None
      else Some (IPv4 (byte ip16 12) (byte ip16 13) (byte ip16 14) (byte ip16 15))
  | _, _ => None
  end.

(** The nil address is [None]. *)
Definition IsBlockedIP (ip : option IP) : bool :=
  match ip with
  | None => true
  | Some ip =>
      if IsLoopback ip || IsUnspecified ip || IsLinkLocalUnicast ip || IsLinkLocalMulticast ip then true
      else if existsb (fun n => Contains n ip) blockedNets then true
      else match embeddedIPv4Compatible ip with
           | Some v4 => existsb (fun n => Contains n v4) blockedNets
           | None => false
           end
  end.

(** ** net.ParseIP and net.SplitHostPort *)

Definition dot : ascii := "."%char.
Definition colon : ascii := ":"%char.

(** One decimal field of a dotted address: no leading zero, at most 255. *)
Definition octet (s : string) : option Z :=
  match s with
  | String "0" (String _ _) => None
  | _ => parse_uint 255 s
  end.

Definition parseIPv4 (s : string) : option IP :=
  match mapM octet (split_on dot s) with
  | Some [a; b; c; d] => Some [a; b; c; d]
  | _ => None
  end.

(** The leading hexadecimal digits of [s]: how many, their value, the rest. *)
Fixpoint hex_run (n acc : Z) (s : string) : Z * Z * string :=
  match s with
  | String c s' =>
      match Json.hex_value c with
      | Some d => hex_run (n + 1) (acc * 16 + d) s'
      | None => (n, acc, s)
      end
  | EmptyString => (n, acc, s)
  end.

(** The groups of an IPv6 address: the bytes read and where the double colon
    stood among them. [fuel] bounds the groups, eight at most. *)
Fixpoint groups (fuel : nat) (ip : IP) (ellipsis : option nat) (s : string) : option (IP * option nat) :=
  match fuel with
  | O => if String.eqb s EmptyString then Some (ip, ellipsis) else None
  | S fuel =>
      let '(n, acc, rest) := hex_run 0 0 s in
      if (n =? 0) || (4 <? n) then None
      else match rest with
           | EmptyString => Some (ip ++ [acc / 256; acc mod 256], ellipsis)
           | String c rest =>
               if Ascii.eqb c dot then
                 if (bool_decide (ellipsis = None) && negb (length ip =? 12)%nat) || (16 <? length ip + 4)%nat then None
                 else v4 ← parseIPv4 s; Some (ip ++ v4, ellipsis)
               else
                 let ip := ip ++ [acc / 256; acc mod 256] in
                 match Ascii.eqb c colon, rest with
                 | true, String c' rest' =>
                     if negb (Ascii.eqb c' colon) then groups fuel ip ellipsis rest
                     else if bool_decide (ellipsis <> None) then None
                     else if String.eqb rest' EmptyString then Some (ip, Some (length ip))
                     else groups fuel ip (Some (length ip)) rest'
                 | _, _ => None
                 end
           end
  end.

Definition expand (ip : IP) (ellipsis : option nat) : option IP :=
  match ellipsis with
  | None => if (length ip =? 16)%nat then Some ip else None
  | Some e => if (length ip <? 16)%nat then Some (take e ip ++ replicate (16 - length ip) 0 ++ drop e ip) else None
  end.

Definition has_double_colon (s : string) : option string :=
  match s with
  | String a (String b r) => if Ascii.eqb a colon && Ascii.eqb b colon then Some r else None
  | _ => None
  end.

Definition parseIPv6 (s : string) : option IP :=
  match has_double_colon s with
  | Some r =>
      if String.eqb r EmptyString then Some IPv6unspecified
      else '(ip, e) ← groups 8 [] (Some 0%nat) r; expand ip e
  | None => '(ip, e) ← groups 8 [] None s; expand ip e
  end.

Fixpoint first_of (cs : list ascii) (s : string) : option ascii :=
  match s with
  | EmptyString => None
  | String c s => if existsb (Ascii.eqb c) cs then Some c else first_of cs s
  end.

(** [net.ParseIP]: sixteen bytes, or nil; a zone is refused. *)
Definition ParseIP (s : string) : option IP :=
  match first_of [dot; colon; "%"%char] s with
  | Some c =>
      if Ascii.eqb c dot then app v4InV6Prefix <$> parseIPv4 s
      else if Ascii.eqb c colon then parseIPv6 s else None
  | None => None
  end.

Definition contains_char (c : ascii) (s : string) : bool := negb (string_forall (fun d => negb (Ascii.eqb d c)) s).

(** Cutting at the last [c]. *)
Fixpoint cut_last (c : ascii) (s : string) : option (string * string) :=
  match s with
  | EmptyString => None
  | String a s =>
      match cut_last c s with
      | Some (x, y) => Some (String a x, y)
      | None => if Ascii.eqb a c then Some (EmptyString, s) else None
      end
  end.

Definition no_brackets (s : string) : bool := negb (contains_char "[" s) && negb (contains_char "]" s).

(** [net.SplitHostPort] *)
Definition SplitHostPort (hostport : string) : option (string * string) :=
  match hostport with
  | String "[" s =>
      match cut "]" s with
      | Some (host, String ":" port) =>
          if negb (contains_char "[" host) && negb (contains_char colon port) && no_brackets port
          then Some (host, port) else None
      | _ => None
      end
  | _ =>
      match cut_last colon hostport with
      | Some (host, port) =>
          if negb (contains_char colon host) && no_brackets host && no_brackets port then Some (host, port) else None
      | None => None
      end
  end.

(** ** Registration and delivery *)

Inductive error : Type :=
| ErrParse | ErrScheme | ErrNoHost | ErrBlockedAddress (addr : string) | ErrDialAddress | ErrConnect.

#[global] Instance error_eq_dec : EqDecision error.
Proof. solve_decision. Defined.

(** What [url.Parse] keeps of a URL. *)
Record URL : Type := MkURL { Scheme : string; Host : string; Hostname : string }.

(** [resolved] is what [net.LookupIP] answers, [IP_String] prints an address. *)
Definition ValidateWebhookURL (IP_String : IP -> string) (u : option URL) (resolved : option (list IP)) :
    option error :=
  match u with
  | None => Some ErrParse
  | Some u =>
      if negb (String.eqb (Scheme u) "https") then Some ErrScheme
      else if String.eqb (Host u) EmptyString then Some ErrNoHost
      else match ParseIP (Hostname u) with
           | Some ip => if IsBlockedIP (Some ip) then Some (ErrBlockedAddress (Hostname u)) else None
           | None =>
               match resolved with
               | None => None
               | Some addrs =>
                   match List.find (fun ip => IsBlockedIP (Some ip)) addrs with
                   | Some ip => Some (ErrBlockedAddress (IP_String ip))
                   | None => None
                   end
               end
           end
  end.

(** The dialler's [Control]. *)
Definition Control (address : string) : option error :=
  match SplitHostPort address with
  | None => Some ErrDialAddress
  | Some (host, _) => if IsBlockedIP (ParseIP host) then Some (ErrBlockedAddress host) else None
  end.

Definition DialIsBlocked (address : string) : bool :=
  let host := match SplitHostPort address with Some (host, _) => host | None => address end in
  IsBlockedIP (ParseIP host).

(** What the network does, per address: no connection, or a connection and
    the response the exchange ends with, if there is one. *)
Record Response : Type := MkResponse { StatusCode : Z; Location : option string; Body : string }.

Inductive peer : Type := Refuses | Accepts (r : option Response).

(** net's [dialSerial]: the addresses in turn, the first error is kept, the
    first connection wins. The second result lists the connections opened. *)
Fixpoint dialSerial (net : string -> peer) (first : option error) (addresses : list string) :
    (error + option Response) * list string :=
  match addresses with
  | [] => (inl (default ErrConnect first), [])
  | a :: rest =>
      match Control a with
      | Some e => dialSerial net (Some (default e first)) rest
      | None =>
          match net a with
          | Refuses => dialSerial net (Some (default ErrConnect first)) rest
          | Accepts r => (inr r, [a])
          end
      end
  end.

(** The dialler leaves [FallbackDelay] at its default, so a host with addresses
    of both families is raced: the family of its first address, then the other
    once the delay has passed or the first has failed. *)
Definition isIPv4 (address : string) : bool :=
  match SplitHostPort address with
  | Some (host, _) => match ParseIP host with Some ip => bool_decide (is_Some (To4 ip)) | None => false end
  | None => false
  end.

Definition primaries (addresses : list string) : list string :=
  match addresses with
  | [] => []
  | a :: _ => List.filter (fun b => Bool.eqb (isIPv4 b) (isIPv4 a)) addresses
  end.
Definition fallbacks (addresses : list string) : list string :=
  match addresses with
  | [] => []
  | a :: _ => List.filter (fun b => negb (Bool.eqb (isIPv4 b) (isIPv4 a))) addresses
  end.

(** How a race goes: whose result comes first, and whether the loser got as far
    as a connection, which is closed unused. *)
Record race : Type := MkRace { fallback_first : bool; loser_connects : bool }.

(** The winner's result; the error is the primaries'. *)
Definition settled (r : race) (winner loser : (error + option Response) * list string)
    (failed : error + option Response) : (error + option Response) * list string :=
  match winner.1 with
  | inr resp => (inr resp, winner.2 ++ if loser_connects r then loser.2 else [])
  | inl _ => match loser.1 with inr resp => (inr resp, loser.2) | inl _ => (failed, []) end
  end.

(** [DialContext], by [dialParallel]. *)
Definition dial (net : string -> peer) (r : race) (addresses : list string) :
    (error + option Response) * list string :=
  let p := dialSerial net None (primaries addresses) in
  match fallbacks addresses with
  | [] => p
  | others =>
      let f := dialSerial net None others in
      if fallback_first r then settled r f p p.1 else settled r p f p.1
  end.

(** [client.Do]: [CheckRedirect] hands a redirect back as the response. *)
Definition Do (net : string -> peer) (r : race) (addresses : list string) : result error Response * list string :=
  match dial net r addresses with
  | (inl e, opened) => (Err e, opened)
  | (inr None, opened) => (Err ErrConnect, opened)
  | (inr (Some r), opened) => (Ok r, opened)
  end.

(** ** Facts *)

Example parse_samples :
  ParseIP "10.0.0.1" = Some (IPv4 10 0 0 1) /\ ParseIP "::1" = Some IPv6loopback /\
  ParseIP "::ffff:169.254.169.254" = Some (IPv4 169 254 169 254) /\
  ParseIP "64:ff9b::a9fe:a9fe" = Some ([0; 100; 255; 155] ++ replicate 8 0 ++ [169; 254; 169; 254]) /\
  ParseIP "010.0.0.1" = None /\ ParseIP "fe80::1%eth0" = None /\ ParseIP "1:2:3:4:5:6:7:8::" = None /\
  ParseIP "1::2::3" = None /\ ParseIP "2001:db8::" = Some (v6 [32; 1; 13; 184]) /\
  SplitHostPort "[::1]:443" = Some ("::1"%string, "443"%string) /\ SplitHostPort "::1:443" = None /\
  SplitHostPort "10.0.0.1:5432" = Some ("10.0.0.1"%string, "5432"%string).
Proof. vm_compute. repeat split. Qed.

(** *** A reference for the ranges *)

Definition reserved_v4 (a b c : Z) : bool :=
  (a =? 0) || (a =? 10) || (a =? 127) || (224 <=? a) || ((a =? 100) && (64 <=? b) && (b <? 128)) ||
  ((a =? 169) && (b =? 254)) || ((a =? 172) && (16 <=? b) && (b <? 32)) ||
  ((a =? 192) && (((b =? 0) && (c =? 0)) || (b =? 168))) || ((a =? 198) && ((b =? 18) || (b =? 19))).

(** A byte-wise claim is checked on the 256 bytes. *)
Lemma byte_cases (p : Z -> bool) z :
  forallb p (seqZ 0 256) = true -> is_byte z -> p z = true.
Proof.
  intros Hp Hz. rewrite forallb_forall in Hp. apply Hp. apply list_elem_of_In, elem_of_seqZ.
  unfold is_byte in Hz. lia.
Qed.

Ltac by_bytes z :=
  match goal with
  | |- ?l = ?r =>
      let p := eval pattern z in (Bool.eqb l r) in
      match p with ?f _ => apply eqb_prop; apply (byte_cases f z); [vm_compute; reflexivity | assumption] end
  end.

Lemma list4_eqb (a b c d a' b' c' d' : Z) :
  bool_decide ([a; b; c; d] = [a'; b'; c'; d']) = (a =? a') && (b =? b') && (c =? c') && (d =? d').
Proof.
  destruct (Z.eqb_spec a a'), (Z.eqb_spec b b'), (Z.eqb_spec c c'), (Z.eqb_spec d d'); simpl;
    first [apply bool_decide_eq_true_2; congruence | apply bool_decide_eq_false_2; congruence].
Qed.

Lemma contains_v4 a b c d n m :
  To4 [a; b; c; d] = Some [a; b; c; d] /\
  (length n = 4%nat -> Contains (cidr n m) [a; b; c; d] =
    bool_decide (zip_with Z.land [a; b; c; d] (CIDRMask m 4) =
                 zip_with Z.land (zip_with Z.land n (CIDRMask m 4)) (CIDRMask m 4))) /\
  (length n = 16%nat -> Contains (cidr n m) [a; b; c; d] = false).
Proof.
  split; [done |]. unfold Contains, cidr. cbn [n_IP n_Mask To4 length Nat.eqb default].
  assert (forall k z, length (CIDRMask z k) = k) as Hm by (induction k; simpl; intros; by rewrite ?IHk).
  rewrite length_zip_with, Hm. split; intros ->; [| done]. by rewrite Nat.min_id.
Qed.

Lemma land_255 z : is_byte z -> Z.land z 255 = z.
Proof. intros. change 255 with (Z.ones 8). rewrite Z.land_ones by lia. by apply Z.mod_small. Qed.

(** Evaluates the masks and the masked networks. *)
Ltac fold_masks :=
  repeat match goal with
  | |- context [256 - ?e] => let v := eval vm_compute in (256 - e) in change (256 - e) with v
  | |- context [Z.land (Z.land ?x ?y) ?z] =>
      let v := eval vm_compute in (Z.land (Z.land x y) z) in change (Z.land (Z.land x y) z) with v
  end.

Section V4.
Context (a b c d : Z) (Ha : is_byte a) (Hb : is_byte b) (Hc : is_byte c) (Hd : is_byte d).

Lemma blocked_v4_nets :
  existsb (fun n => Contains n [a; b; c; d]) blockedNets = reserved_v4 a b c.
Proof.
  assert (forall n m, length n = 4%nat -> Contains (cidr n m) [a; b; c; d] =
    bool_decide (zip_with Z.land [a; b; c; d] (CIDRMask m 4) =
                 zip_with Z.land (zip_with Z.land n (CIDRMask m 4)) (CIDRMask m 4))) as H4
    by (intros; by apply contains_v4).
  assert (forall n m, length n = 16%nat -> Contains (cidr n m) [a; b; c; d] = false) as H6
    by (intros; by apply contains_v4).
  unfold blockedNets. cbn [existsb]. rewrite !H4, !H6 by reflexivity.
  simpl. rewrite !list4_eqb, !land_255, !Z.land_0_r by done.
  fold_masks. simpl.
  assert ((Z.land b 192 =? 64) = (64 <=? b) && (b <? 128)) as -> by by_bytes b.
  assert ((Z.land b 240 =? 16) = (16 <=? b) && (b <? 32)) as -> by by_bytes b.
  assert ((Z.land b 254 =? 18) = (b =? 18) || (b =? 19)) as -> by by_bytes b.
  assert ((Z.land a 240 =? 224) = (224 <=? a) && (a <? 240)) as -> by by_bytes a.
  assert ((Z.land a 240 =? 240) = (240 <=? a)) as -> by by_bytes a.
  assert ((224 <=? a) = (224 <=? a) && (a <? 240) || (240 <=? a)) as Hm by lia.
  unfold reserved_v4. rewrite Hm. btauto.
Qed.

Lemma blocked_v4 : IsBlockedIP (Some [a; b; c; d]) = reserved_v4 a b c.
Proof.
  unfold IsBlockedIP. rewrite blocked_v4_nets.
  destruct (reserved_v4 a b c) eqn:Hr; [by destruct (_ || _) |].
  replace (IsLoopback _ || _ || _ || _) with false; [done |]. symmetry.
  unfold IsLoopback, IsUnspecified, IsLinkLocalUnicast, IsLinkLocalMulticast, Equal, byte.
  cbn [To4 length Nat.eqb andb lookup list_lookup default].
  rewrite bool_decide_eq_false_2, bool_decide_eq_false_2;
    unfold reserved_v4 in Hr; simpl; try lia; intros [=]; lia.
Qed.
End V4.

Lemma To4_mapped a b c d : To4 (IPv4 a b c d) = Some [a; b; c; d].
Proof. reflexivity. Qed.

Lemma Contains_mapped n a b c d : Contains n (IPv4 a b c d) = Contains n [a; b; c; d].
Proof. unfold Contains. by rewrite To4_mapped. Qed.

Lemma existsb_ext {A} (f g : A -> bool) l : (forall x, f x = g x) -> existsb f l = existsb g l.
Proof. intros Hfg. induction l as [| x l IH]; simpl; [done | by rewrite Hfg, IH]. Qed.

Lemma blocked_mapped a b c d : IsBlockedIP (Some (IPv4 a b c d)) = IsBlockedIP (Some [a; b; c; d]).
Proof.
  unfold IsBlockedIP.
  replace (existsb _ _) with (existsb (fun n => Contains n [a; b; c; d]) blockedNets)
    by (apply existsb_ext; intros; by rewrite Contains_mapped).
  replace (embeddedIPv4Compatible (IPv4 a b c d)) with (@None IP) by done.
  unfold IsLoopback, IsUnspecified, IsLinkLocalUnicast, IsLinkLocalMulticast. rewrite To4_mapped.
  replace (Equal (IPv4 a b c d) IPv6unspecified) with false
    by (symmetry; apply bool_decide_eq_false_2; intros [=]).
  replace (Equal (IPv4 a b c d) IPv4zero) with (Equal [a; b; c; d] IPv4zero); [done |].
  unfold Equal. cbn [length Nat.eqb andb app IPv4zero IPv4 v4InV6Prefix]. apply bool_decide_ext. split; intros E; by symmetry.
Qed.

(** *** Sixteen-byte addresses *)

Lemma contains_v6 ip n m :
  length ip = 16%nat -> To4 ip = None ->
  (length n = 16%nat -> Contains (cidr n m) ip =
    bool_decide (zip_with Z.land ip (CIDRMask m 16) =
                 zip_with Z.land (zip_with Z.land n (CIDRMask m 16)) (CIDRMask m 16))) /\
  (length n = 4%nat -> Contains (cidr n m) ip = false).
Proof.
  intros Hl H4. unfold Contains, cidr. cbn [n_IP n_Mask]. rewrite H4. cbn [default]. rewrite Hl.
  assert (forall k z, length (CIDRMask z k) = k) as Hm by (induction k; simpl; intros; by rewrite ?IHk).
  rewrite length_zip_with, Hm. split; intros ->; [| done]. by rewrite Nat.min_id.
Qed.

Definition reserved_v6 (ip : IP) : bool :=
  bool_decide (ip = IPv6loopback) || bool_decide (ip = IPv6unspecified) ||
  (byte ip 0 =? 252) || (byte ip 0 =? 253) ||
  ((byte ip 0 =? 254) && (128 <=? byte ip 1) && (byte ip 1 <? 192)) ||
  ((byte ip 0 =? 255) && (byte ip 1 mod 16 =? 2)) ||
  ((byte ip 0 =? 32) && (byte ip 1 =? 1) && (byte ip 2 =? 13) && (byte ip 3 =? 184)).

Lemma land_zeros t k : length t = k -> zip_with Z.land t (replicate k 0) = replicate k 0.
Proof. intros <-. induction t as [| z t IH]; simpl; [done |]. by rewrite Z.land_0_r, IH. Qed.

Lemma land_ones_id b k : Forall is_byte b -> length b = k -> zip_with Z.land b (replicate k 255) = b.
Proof.
  intros Hb <-. induction Hb as [| z l Hz _ IH]; simpl; [done |]. by rewrite land_255, IH.
Qed.

Lemma head4_eqb (a b c d a' b' c' d' : Z) t :
  bool_decide (a :: b :: c :: d :: t = a' :: b' :: c' :: d' :: t) =
  (a =? a') && (b =? b') && (c =? c') && (d =? d').
Proof.
  rewrite <- list4_eqb. apply bool_decide_ext. split; congruence.
Qed.

Section V6.
Context (b0 b1 b2 b3 : Z) (t : IP).
Let ip := b0 :: b1 :: b2 :: b3 :: t.
Context (Ht : length t = 12%nat) (Hv4 : To4 ip = None) (Hb : Forall is_byte ip).

Lemma contains_v6_head n m m0 m1 m2 m3 n0 n1 n2 n3 :
  length n = 16%nat -> CIDRMask m 16 = m0 :: m1 :: m2 :: m3 :: replicate 12 0 ->
  zip_with Z.land (zip_with Z.land n (CIDRMask m 16)) (CIDRMask m 16) = n0 :: n1 :: n2 :: n3 :: replicate 12 0 ->
  Contains (cidr n m) ip =
  (Z.land b0 m0 =? n0) && (Z.land b1 m1 =? n1) && (Z.land b2 m2 =? n2) && (Z.land b3 m3 =? n3).
Proof using Ht Hv4.
  intros Hn Hm HE. rewrite (proj1 (contains_v6 ip n m ltac:(simpl; lia) Hv4) Hn), HE, Hm.
  subst ip. cbn [zip_with]. by rewrite land_zeros, head4_eqb.
Qed.

Lemma blocked_v6_nets :
  existsb (fun n => Contains n ip) blockedNets =
  bool_decide (ip = IPv6loopback) || (b0 =? 252) || (b0 =? 253) ||
  ((b0 =? 254) && (128 <=? b1) && (b1 <? 192)) || ((b0 =? 32) && (b1 =? 1) && (b2 =? 13) && (b3 =? 184)).
Proof using Ht Hv4 Hb.
  assert (length ip = 16%nat) as Hl by (simpl; lia).
  unfold blockedNets. cbn [existsb].
  rewrite !(fun n m => proj2 (contains_v6 ip n m Hl Hv4)) by reflexivity.
  rewrite (proj1 (contains_v6 ip _ _ Hl Hv4)) by reflexivity.
  rewrite (contains_v6_head (v6 [252]) 7 254 0 0 0 252 0 0 0), (contains_v6_head (v6 [254; 128]) 10 255 192 0 0 254 128 0 0),
    (contains_v6_head (v6 [32; 1; 13; 184]) 32 255 255 255 255 32 1 13 184) by reflexivity.
  change (CIDRMask 128 16) with (replicate 16 255).
  rewrite (land_ones_id ip 16) by done.
  change (zip_with Z.land _ (replicate 16 255)) with IPv6loopback.
  pose proof Hb as (B0 & (B1 & (B2 & (B3 & Bt)%Forall_cons)%Forall_cons)%Forall_cons)%Forall_cons.
  rewrite !land_255, !Z.land_0_r by done.
  assert ((Z.land b0 254 =? 252) = (b0 =? 252) || (b0 =? 253)) as -> by by_bytes b0.
  assert ((Z.land b1 192 =? 128) = (128 <=? b1) && (b1 <? 192)) as -> by by_bytes b1.
  cbn [orb]. rewrite ?andb_true_r, ?orb_false_r, ?orb_assoc, ?andb_assoc. reflexivity.
Qed.
End V6.

(** The reference for the whole check: a literal or mapped IPv4 address by
    [reserved_v4], an IPv6 one by [reserved_v6] or, when its first ten bytes
    are zero, by the IPv4 address it ends with. *)
Definition reserved (ip : IP) : bool :=
  match To4 ip with
  | Some ip4 => reserved_v4 (byte ip4 0) (byte ip4 1) (byte ip4 2)
  | None =>
      reserved_v6 ip ||
      match embeddedIPv4Compatible ip with
      | Some _ => reserved_v4 (byte ip 12) (byte ip 13) (byte ip 14)
      | None => false
      end
  end.

Definition wf (ip : IP) : Prop := (length ip = 4%nat \/ length ip = 16%nat) /\ Forall is_byte ip.

Lemma byte_wf ip i : Forall is_byte ip -> is_byte (byte ip i).
Proof.
  intros Hb. unfold byte. destruct (ip !! i) as [z|] eqn:Hz; [| simpl; unfold is_byte; lia].
  by eapply Forall_lookup_1 in Hb.
Qed.

Lemma To4_some ip ip4 : To4 ip = Some ip4 -> 
  exists a b c d, ip4 = [a; b; c; d] /\ (ip = ip4 \/ ip = IPv4 a b c d).
Proof.
  unfold To4. destruct (length ip =? 4)%nat eqn:H4.
  - intros [= <-]. apply Nat.eqb_eq in H4. destruct ip as [|a [|b [|c [|d [|]]]]]; try done. naive_solver.
  - destruct (length ip =? 16)%nat eqn:H6; [| done]. destruct (has_prefix _ _) eqn:Hp; [| done]. intros [= <-].
    apply bool_decide_eq_true in Hp. apply Nat.eqb_eq in H6.
    assert (ip = v4InV6Prefix ++ drop 12 ip) as E
      by (rewrite <- Hp at 1; change (length v4InV6Prefix) with 12%nat; by rewrite take_drop).
    assert (length (drop 12 ip) = 4%nat) as Hd by (rewrite length_drop; lia).
    destruct (drop 12 ip) as [|a [|b [|c [|d [|]]]]]; try done. exists a, b, c, d. auto.
Qed.

Lemma blocked_not_v4 ip :
  length ip = 16%nat -> Forall is_byte ip -> To4 ip = None -> IsBlockedIP (Some ip) = reserved ip.
Proof.
  intros Hl Hb H4. unfold IsBlockedIP, reserved. rewrite H4.
  assert (existsb (fun n => Contains n ip) blockedNets || (IsLoopback ip || IsUnspecified ip ||
    IsLinkLocalUnicast ip || IsLinkLocalMulticast ip) = reserved_v6 ip) as <-.
  { destruct ip as [|b0 [|b1 [|b2 [|b3 t]]]]; try done.
    assert (length t = 12%nat) as Ht by (by injection Hl).
    rewrite blocked_v6_nets by done.
    unfold IsLoopback, IsUnspecified, IsLinkLocalUnicast, IsLinkLocalMulticast, reserved_v6, Equal. rewrite H4, Hl.
    replace (bool_decide (_ = IPv4zero)) with false.
    2:{ symmetry. apply bool_decide_eq_false_2. intros E. by rewrite E in H4. }
    cbn [byte lookup list_lookup default Nat.eqb].
    change (length IPv4zero) with 16%nat. change (length IPv6loopback) with 16%nat.
    change (length IPv6unspecified) with 16%nat. cbn [Nat.eqb andb orb].
    unfold id. pose proof (byte_wf _ 1 Hb) as B1. cbn in B1.
    assert ((Z.land b1 192 =? 128) = (128 <=? b1) && (b1 <? 192)) as -> by by_bytes b1.
    assert ((Z.land b1 15 =? 2) = (b1 mod 16 =? 2)) as -> by by_bytes b1.
    generalize (bool_decide (b0 :: b1 :: b2 :: b3 :: t = IPv6loopback)),
      (bool_decide (b0 :: b1 :: b2 :: b3 :: t = IPv6unspecified)). intros x y.
    destruct x, y, (b0 =? 252), (b0 =? 253); try reflexivity; simpl; btauto. }
  destruct (IsLoopback ip || _ || _ || _), (existsb _ blockedNets) eqn:He; try done. cbn [orb].
  destruct (embeddedIPv4Compatible ip) as [v4|] eqn:Hv; [| done].
  unfold embeddedIPv4Compatible in Hv. unfold To16 in Hv. rewrite H4, Hl in Hv. simpl in Hv.
  destruct (has_prefix _ ip); [| done]. simpl in Hv. destruct (_ && _); [done |]. injection Hv as <-.
  rewrite (existsb_ext _ (fun n => Contains n [byte ip 12; byte ip 13; byte ip 14; byte ip 15]))
    by (intros; apply Contains_mapped).
  apply blocked_v4_nets; by apply byte_wf.
Qed.

(** The check is the reference on every address. *)
Lemma blocked_reserved ip : wf ip -> IsBlockedIP (Some ip) = reserved ip.
Proof.
  intros [Hl Hb]. destruct (To4 ip) as [ip4|] eqn:H4.
  - unfold reserved. rewrite H4. destruct (To4_some _ _ H4) as (a & b & c & d & -> & Hip).
    assert (Forall is_byte [a; b; c; d]) as H4b.
    { destruct Hip as [-> | ->]; [done |]. by apply Forall_app in Hb as [_ Hb]. }
    repeat (apply Forall_cons in H4b as [? H4b]).
    destruct Hip as [-> | ->]; [| rewrite blocked_mapped]; by apply blocked_v4.
  - apply blocked_not_v4; [| done | done]. destruct Hl as [Hl | Hl]; [| done].
    unfold To4 in H4. by rewrite Hl in H4.
Qed.

(** *** What the parser yields *)

Lemma octet_byte s z : octet s = Some z -> is_byte z.
Proof.
  unfold octet, is_byte. intros Hz.
  assert (parse_uint 255 s = Some z) as Hp%parse_uint_range; [| lia].
  destruct s as [| c s]; [done |]. destruct c as [[] [] [] [] [] [] [] []]; try done. by destruct s.
Qed.

Lemma parseIPv4_wf s ip : parseIPv4 s = Some ip -> length ip = 4%nat /\ Forall is_byte ip.
Proof.
  unfold parseIPv4. destruct (mapM octet _) as [l|] eqn:Hl; [| done].
  apply mapM_Some in Hl. intros H.
  assert (ip = l /\ length l = 4%nat) as [-> H4] by (destruct l as [|a [|b [|c [|d [|]]]]]; naive_solver).
  split; [done |]. clear - Hl. induction Hl; constructor; [by eapply octet_byte | done].
Qed.

Lemma hex_run_bound s n acc n' acc' rest :
  hex_run n acc s = (n', acc', rest) -> 0 <= n -> 0 <= acc < 16 ^ n -> 0 <= acc' < 16 ^ n'.
Proof.
  revert n acc. induction s as [| c s IH]; simpl; intros n acc H Hn Ha; [by simplify_eq |].
  destruct (Json.hex_value c) as [d|] eqn:Hd; [| by simplify_eq].
  eapply IH; [done | lia |]. rewrite Z.pow_add_r by lia.
  unfold Json.hex_value, in_range in Hd. repeat case_match; simplify_eq; destruct_guards; lia.
Qed.

Lemma group_bytes acc : 0 <= acc < 65536 -> Forall is_byte [acc / 256; acc mod 256].
Proof.
  intros. repeat constructor; unfold is_byte.
  - apply Z.div_pos; lia.
  - apply Z.div_lt_upper_bound; lia.
  - apply Z.mod_pos_bound. lia.
  - apply Z.mod_pos_bound. lia.
Qed.

Lemma groups_bytes fuel ip e s ip' e' :
  groups fuel ip e s = Some (ip', e') -> Forall is_byte ip -> Forall is_byte ip'.
Proof.
  revert ip e s. induction fuel as [| fuel IH]; cbn [groups]; intros ip e s H Hip; [by case_match; simplify_eq |].
  destruct (hex_run 0 0 s) as [[n acc] rest] eqn:Hr.
  destruct ((n =? 0) || (4 <? n)) eqn:Hn; [done |].
  assert (Forall is_byte [acc / 256; acc mod 256]) as Hg.
  { apply group_bytes. apply hex_run_bound in Hr; [| lia | simpl; lia].
    assert (16 ^ n <= 16 ^ 4) by (apply Z.pow_le_mono_r; lia). lia. }
  assert (Forall is_byte (ip ++ [acc / 256; acc mod 256])) as Hi by (by apply Forall_app).
  destruct rest as [| c rest]; [by simplify_eq |]. destruct (Ascii.eqb c dot).
  - destruct ((bool_decide _ && _) || _); [done |]. destruct (parseIPv4 s) as [v4|] eqn:Hv; simplify_eq/=.
    apply Forall_app. split; [done | by eapply parseIPv4_wf].
  - destruct (Ascii.eqb c colon); [| done]. destruct rest as [| c' rest]; [done |].
    destruct (negb _); [by eapply IH |]. destruct (bool_decide _); [done |].
    destruct (String.eqb rest EmptyString); [by simplify_eq | by eapply IH].
Qed.

Lemma expand_wf ip e ip' : expand ip e = Some ip' -> Forall is_byte ip -> length ip' = 16%nat /\ Forall is_byte ip'.
Proof.
  unfold expand. intros H Hb. destruct e as [e|].
  - destruct (Nat.ltb_spec (length ip) 16); [| done]. injection H as <-. split.
    + rewrite !length_app, length_replicate, length_take, length_drop. lia.
    + apply Forall_app. split; [by apply Forall_take |]. apply Forall_app. split; [| by apply Forall_drop].
      apply Forall_replicate. unfold is_byte. lia.
  - destruct (Nat.eqb_spec (length ip) 16); [| done]. by injection H as <-.
Qed.

Lemma parseIPv6_wf s ip : parseIPv6 s = Some ip -> length ip = 16%nat /\ Forall is_byte ip.
Proof.
  assert (forall e s, ('(ip, e) ← groups 8 [] e s; expand ip e) = Some ip -> length ip = 16%nat /\ Forall is_byte ip)
    as Hg.
  { intros e s' H. destruct (groups 8 [] e s') as [[ip' e']|] eqn:Hr; [| done]. simpl in H.
    eapply expand_wf; [done |]. by eapply groups_bytes. }
  unfold parseIPv6. destruct (has_double_colon s) as [r|]; [| apply Hg].
  destruct (String.eqb r EmptyString); [| apply Hg].
  intros [= <-]. split; [done |]. apply Forall_replicate. unfold is_byte. lia.
Qed.

Lemma ParseIP_wf s ip : ParseIP s = Some ip -> wf ip.
Proof.
  unfold ParseIP, wf. destruct (first_of _ s) as [c|]; [| done].
  destruct (Ascii.eqb c dot).
  - destruct (parseIPv4 s) as [v4|] eqn:Hv; [| done]. simpl. intros [= <-].
    destruct (parseIPv4_wf _ _ Hv) as [Hl Hb]. split; [right; simpl; lia |].
    apply (Forall_app is_byte v4InV6Prefix). split; [| done].
    repeat constructor; unfold is_byte; lia.
  - destruct (Ascii.eqb c colon); [| done]. intros H%parseIPv6_wf. tauto.
Qed.

(** ** What the checks guarantee *)












(** What registration accepts. *)
Lemma webhook_url_accepted IP_String u resolved :
  (forall addrs, resolved = Some addrs -> Forall wf addrs) ->
  ValidateWebhookURL IP_String u resolved = None <->
  exists url, u = Some url /\ Scheme url = "https"%string /\ Host url <> EmptyString /\
    match ParseIP (Hostname url) with
    | Some ip => reserved ip = false
    | None => forall addrs ip, resolved = Some addrs -> ip ∈ addrs -> reserved ip = false
    end.
Proof.
  intros Hw. unfold ValidateWebhookURL. destruct u as [url|]; [| naive_solver].
  destruct (String.eqb_spec (Scheme url) "https") as [Hs |]; cbn [negb]; [| naive_solver].
  destruct (String.eqb_spec (Host url) EmptyString) as [|Hh]; [naive_solver |].
  destruct (ParseIP (Hostname url)) as [ip|] eqn:Hp.
  { rewrite blocked_reserved by (by eapply ParseIP_wf). destruct (reserved ip) eqn:Hr.
    - split; [done |]. intros (url' & [= <-] & _ & _ & Hx). rewrite Hp in Hx. congruence.
    - split; [| done]. intros _. exists url. by rewrite Hp. }
  destruct resolved as [addrs|].
  2:{ split; [| done]. intros _. exists url. by rewrite Hp. } specialize (Hw _ eq_refl).
  destruct (List.find _ addrs) as [ip|] eqn:Hf.
  - apply find_some in Hf as [Hin Hb]. split; [done |]. intros (url' & [= <-] & _ & _ & Hall).
    rewrite Hp in Hall. apply list_elem_of_In in Hin. rewrite Forall_forall in Hw.
    rewrite blocked_reserved, (Hall _ _ eq_refl Hin) in Hb by auto. done.
  - split; [intros _ | done]. exists url. rewrite Hp. do 3 (split; [done |]). intros ? ip [= <-] Hin.
    rewrite Forall_forall in Hw. rewrite <- blocked_reserved by auto. eapply find_none in Hf; [done |].
    by apply list_elem_of_In.
Qed.

(** A name that is public at registration and points inside at delivery. *)
Example rebinding_refused :
  let u := Some (MkURL "https" "hook.example" "hook.example") in
  ValidateWebhookURL (fun _ => EmptyString) u (Some [IPv4 8 8 8 8]) = None /\
  Do (fun _ => Accepts (Some (MkResponse 200 None EmptyString))) (MkRace false false) ["169.254.169.254:443"%string] =
    (Err (ErrBlockedAddress "169.254.169.254"), []).
Proof. vm_compute. repeat split. Qed.

(** IPv6 forms that carry an IPv4 address elsewhere are not looked into, and
    multicast is refused on the link only. *)
Example unexamined_forms :
  map Control ["[64:ff9b::a9fe:a9fe]:443"; "[2002:a9fe:a9fe::1]:443"; "[::ffff:0:a9fe:a9fe]:443"; "[ff05::1]:443"]%string =
    [None; None; None; None] /\
  map Control ["[::ffff:a9fe:a9fe]:443"; "[::a9fe:a9fe]:443"; "[ff02::1]:443"; "[fd00::1]:443"]%string =
    [Some (ErrBlockedAddress "::ffff:a9fe:a9fe"); Some (ErrBlockedAddress "::a9fe:a9fe");
     Some (ErrBlockedAddress "ff02::1"); Some (ErrBlockedAddress "fd00::1")].
Proof. vm_compute. repeat split. Qed.

End Egress.
