(* ===== verification/Partner.v ===== *)
(** * The partner surface: API keys, webhook endpoints and their guard

    internal/partner/keys.go and endpoints.go, the statements of
    internal/db/partner.go over the tables of migration 033, the middleware of
    internal/middleware/apikey.go and the handlers of internal/api/partner.go.
    SHA-256 and the random source are arguments; a statement that cannot be
    executed answers [ErrQuery]; instants are nanoseconds. *)

From S2P Require Import Prelude GoStrings Rows Dates Json Egress.
From Stdlib Require Import Ascii.
From stdpp Require Import sorting.

Local Open Scope Z_scope.

Module Partner.

(** ** Keys (keys.go) *)

Definition KeyEnvLive : string := "pk_live".
Definition KeyEnvTest : string := "pk_test".
Definition prefixBytes : nat := 4.
Definition secretBytes : nat := 24.

Definition ScopeReadSubscribers : string := "read:subscribers".
Definition ScopeWriteSubscribers : string := "write:subscribers".
Definition ScopeReadInvoices : string := "read:invoices".
Definition ScopeReadTickets : string := "read:tickets".
Definition ScopeWriteTickets : string := "write:tickets".
Definition ScopeManageWebhooks : string := "manage:webhooks".

Definition ValidScopes : list string :=
  [ScopeReadSubscribers; ScopeWriteSubscribers; ScopeReadInvoices; ScopeReadTickets; ScopeWriteTickets;
   ScopeManageWebhooks].

Record APIKey : Type := MkKey {
  PartnerName : string;
  KeyPrefix : string;
  Scopes : list string;
  Active : bool;
  LastUsedAt : option Z;
  ExpiresAt : option Z;
  CreatedBy : string;
  CreatedAt : Z;
  RevokedAt : option Z
}.

Record GeneratedKey : Type := MkGenerated { Plaintext : string; Prefix : string; Hash : string }.

Definition underscore : ascii := "_"%char.

(** [hex.EncodeToString] *)
Fixpoint hex_encode (b : list Z) : string :=
  match b with
  | [] => EmptyString
  | z :: b => Json.hex2 (char_of z) +:+ hex_encode b
  end.

Section Hash.
Context (sha256_hex : string -> string).

Definition HashKey (plaintext : string) : string := sha256_hex plaintext.

(** The two reads of the random source, [None] when one fails. *)
Definition GenerateKey (env : string) (prefixRaw secretRaw : option (list Z)) : option GeneratedKey :=
  if negb (String.eqb env KeyEnvLive) && negb (String.eqb env KeyEnvTest) then None
  else
    prefixRaw ← prefixRaw; secretRaw ← secretRaw;
    let prefix := env +:+ String underscore (hex_encode prefixRaw) in
    let plaintext := prefix +:+ String underscore (hex_encode secretRaw) in
    Some (MkGenerated plaintext prefix (HashKey plaintext)).

Definition ParsePrefix (presented : string) : option string :=
  match split_on underscore presented with
  | [p0; p1; p2; p3] =>
      if negb (String.eqb p0 "pk") then None
      else if negb (String.eqb p1 "live") && negb (String.eqb p1 "test") then None
      else if negb (String.length p2 =? prefixBytes * 2)%nat || negb (String.length p3 =? secretBytes * 2)%nat then None
      else Some (p0 +:+ String underscore (p1 +:+ String underscore p2))
  | _ => None
  end.

Definition VerifyKey (presented storedHash : string) : bool := String.eqb (HashKey presented) storedHash.

Definition ValidateScopes (scopes : list string) : bool :=
  negb (bool_decide (scopes = [])) && forallb (fun s => existsb (String.eqb s) ValidScopes) scopes.

Definition HasScope (scopes : list string) (want : string) : bool := existsb (fun s => String.eqb s want) scopes.

Definition Usable (k : APIKey) (now : Z) : bool :=
  Active k && bool_decide (RevokedAt k = None) &&
  match ExpiresAt k with Some e => now <? e | None => true end.

(** ** Tables (migration 033) *)

(** The event a delivery carries (webhook.go); its id as printed. *)
Record Event : Type := MkEvent { EventID : string; EventType : string; EntityID : Z; OccurredAt : Z }.

Record WebhookEndpoint : Type := MkEndpoint {
  APIKeyID : Z;
  EndpointURL : string;
  Events : list string;
  e_Active : bool;
  Description : option string;
  e_CreatedAt : Z;
  secret_encrypted : string;
  key_version_id : string
}.

Definition StatusPending : string := "pending".
Definition StatusDelivered : string := "delivered".
Definition StatusFailed : string := "failed".
Definition StatusAbandoned : string := "abandoned".

Record Delivery : Type := MkDelivery {
  EndpointID : Z;
  d_EventID : string;
  d_EventType : string;
  d_Payload : Event;
  Status : string;
  Attempts : Z;
  ResponseStatus : option Z;
  ResponseExcerpt : option string;
  LastError : option string;
  NextAttemptAt : option Z;
  d_CreatedAt : Z;
  DeliveredAt : option Z
}.

(** A key is stored with its hash. *)
Record store : Type := MkStore {
  keys : gmap Z (APIKey * string);
  next_key : Z;
  endpoints : gmap Z WebhookEndpoint;
  next_endpoint : Z;
  deliveries : gmap Z Delivery;
  next_delivery : Z;
  audits : list (string * string)
}.

Definition with_keys (m : gmap Z (APIKey * string)) (n : Z) (s : store) : store :=
  MkStore m n (endpoints s) (next_endpoint s) (deliveries s) (next_delivery s) (audits s).
Definition with_endpoints (m : gmap Z WebhookEndpoint) (n : Z) (s : store) : store :=
  MkStore (keys s) (next_key s) m n (deliveries s) (next_delivery s) (audits s).
Definition with_deliveries (m : gmap Z Delivery) (n : Z) (s : store) : store :=
  MkStore (keys s) (next_key s) (endpoints s) (next_endpoint s) m n (audits s).
Definition Audit (action target : string) (s : store) : store :=
  MkStore (keys s) (next_key s) (endpoints s) (next_endpoint s) (deliveries s) (next_delivery s)
    ((action, target) :: audits s).

Inductive error : Type := ErrQuery | ErrConstraint.

(** ** Statements on the keys (db/partner.go) *)

Definition prefix_taken (prefix : string) (s : store) : bool :=
  existsb (fun p => String.eqb (KeyPrefix p.2.1) prefix) (map_to_list (keys s)).

Definition CreateAPIKey (now : Z) (up : bool) (partnerName prefix hash : string) (scopes : list string)
    (expiresAt : option Z) (createdBy : string) (s : store) : result error (Z * APIKey) * store :=
  if negb up then (Err ErrQuery, s)
  else
    let id := next_key s in
    let k := MkKey partnerName prefix scopes true None expiresAt createdBy now None in
    if negb (fits 100 partnerName) || negb (fits 24 prefix) || negb (fits 100 createdBy) ||
       prefix_taken prefix s || bool_decide (scopes = [])
    then (Err ErrConstraint, with_keys (keys s) (id + 1) s)
    else (Ok (id, k), with_keys (<[id := (k, hash)]> (keys s)) (id + 1) s).

(** The row of the unique active key with the prefix. *)
Definition active_key (prefix : string) (s : store) : option (Z * (APIKey * string)) :=
  List.find (fun p => String.eqb (KeyPrefix p.2.1) prefix && Active p.2.1) (map_to_list (keys s)).

Definition AuthenticateKey (now : Z) (up : bool) (presented : string) (s : store) :
    result error (option (Z * APIKey)) :=
  match ParsePrefix presented with
  | None => Ok None
  | Some prefix =>
      if negb up then Err ErrQuery
      else match active_key prefix s with
           | None => Ok None
           | Some (id, (k, storedHash)) =>
               if negb (VerifyKey presented storedHash) then Ok None
               else if negb (Usable k now) then Ok None
               else Ok (Some (id, k))
           end
  end.

Definition used (now : Z) (k : APIKey) : APIKey :=
  MkKey (PartnerName k) (KeyPrefix k) (Scopes k) (Active k) (Some now) (ExpiresAt k) (CreatedBy k) (CreatedAt k)
    (RevokedAt k).

Definition TouchKeyUsage (now : Z) (up : bool) (keyID : Z) (s : store) : store :=
  if up then with_keys (alter (fun p => (used now p.1, p.2)) keyID (keys s)) (next_key s) s else s.

Definition by_created (a b : Z * APIKey) : Prop := CreatedAt b.2 <= CreatedAt a.2.
#[global] Instance by_created_dec : RelDecision by_created.
Proof. intros a b. unfold by_created. apply _. Defined.

Definition ListAPIKeys (up : bool) (s : store) : result error (list (Z * APIKey)) :=
  if negb up then Err ErrQuery
  else Ok (merge_sort by_created (map (fun p => (p.1, p.2.1)) (map_to_list (keys s)))).

Definition revoked (now : Z) (k : APIKey) : APIKey :=
  MkKey (PartnerName k) (KeyPrefix k) (Scopes k) false (LastUsedAt k) (ExpiresAt k) (CreatedBy k) (CreatedAt k)
    (Some now).

Definition RevokeAPIKey (now : Z) (up : bool) (keyID : Z) (s : store) : result error bool * store :=
  if negb up then (Err ErrQuery, s)
  else match keys s !! keyID with
       | Some (k, h) =>
           if Active k then (Ok true, with_keys (<[keyID := (revoked now k, h)]> (keys s)) (next_key s) s)
           else (Ok false, s)
       | None => (Ok false, s)
       end.

(** ** Statements on the endpoints *)

Definition nullif_empty (s : string) : option string := if String.eqb s EmptyString then None else Some s.

Definition CreateWebhookEndpoint (now : Z) (up : bool) (apiKeyID : Z) (url secretEncrypted keyVersion : string)
    (events : list string) (description : string) (s : store) : result error (Z * WebhookEndpoint) * store :=
  if negb up then (Err ErrQuery, s)
  else
    let id := next_endpoint s in
    let e := MkEndpoint apiKeyID url events true (nullif_empty description) now secretEncrypted keyVersion in
    if negb (bool_decide (is_Some (keys s !! apiKeyID))) || negb (String.prefix "https://" url) ||
       bool_decide (events = []) || negb (pg_text url) || negb (fits 10 keyVersion) || negb (fits 200 description)
    then (Err ErrConstraint, with_endpoints (endpoints s) (id + 1) s)
    else (Ok (id, e), with_endpoints (<[id := e]> (endpoints s)) (id + 1) s).

Definition owned_by (apiKeyID : Z) (p : Z * WebhookEndpoint) : bool := APIKeyID p.2 =? apiKeyID.

Definition ListWebhookEndpoints (up : bool) (apiKeyID : Z) (s : store) : result error (list (Z * WebhookEndpoint)) :=
  if negb up then Err ErrQuery
  else Ok (merge_sort by_id (List.filter (owned_by apiKeyID) (map_to_list (endpoints s)))).

Definition deactivated (e : WebhookEndpoint) : WebhookEndpoint :=
  MkEndpoint (APIKeyID e) (EndpointURL e) (Events e) false (Description e) (e_CreatedAt e) (secret_encrypted e)
    (key_version_id e).

Definition DeactivateWebhookEndpoint (up : bool) (endpointID apiKeyID : Z) (s : store) : result error bool * store :=
  if negb up then (Err ErrQuery, s)
  else match endpoints s !! endpointID with
       | Some e =>
           if (APIKeyID e =? apiKeyID) && e_Active e
           then (Ok true, with_endpoints (<[endpointID := deactivated e]> (endpoints s)) (next_endpoint s) s)
           else (Ok false, s)
       | None => (Ok false, s)
       end.

Definition unexpired (now : Z) (k : APIKey) : bool :=
  match ExpiresAt k with Some e => now <? e | None => true end.

Definition subscribed (now : Z) (eventType : string) (s : store) (p : Z * WebhookEndpoint) : bool :=
  e_Active p.2 && existsb (String.eqb eventType) (Events p.2) &&
  match keys s !! APIKeyID p.2 with Some (k, _) => Active k && unexpired now k | None => false end.

Definition SubscribersFor (now : Z) (up : bool) (eventType : string) (s : store) :
    result error (list (Z * WebhookEndpoint)) :=
  if negb up then Err ErrQuery
  else Ok (merge_sort by_id (List.filter (subscribed now eventType s) (map_to_list (endpoints s)))).

(** ** Statements on the delivery log *)

Definition delivery_of (endpointID : Z) (eventID : string) (d : Delivery) : bool :=
  (EndpointID d =? endpointID) && String.eqb (d_EventID d) eventID.

(** The row the unique index on the pair leaves. *)
Definition find_delivery (endpointID : Z) (eventID : string) (s : store) : option (Z * Delivery) :=
  List.find (fun p => delivery_of endpointID eventID p.2) (map_to_list (deliveries s)).

Definition first_attempt (now endpointID : Z) (ev : Event) (status : string) (responseStatus : option Z)
    (excerpt lastError : string) (nextAttempt : option Z) : Delivery :=
  MkDelivery endpointID (EventID ev) (EventType ev) ev status 1 responseStatus (nullif_empty excerpt)
    (nullif_empty lastError) nextAttempt now (if String.eqb status StatusDelivered then Some now else None).

Definition next_attempt_row (now : Z) (status : string) (responseStatus : option Z) (excerpt lastError : string)
    (nextAttempt : option Z) (d : Delivery) : Delivery :=
  MkDelivery (EndpointID d) (d_EventID d) (d_EventType d) (d_Payload d) status (Attempts d + 1) responseStatus
    (nullif_empty excerpt) (nullif_empty lastError) nextAttempt (d_CreatedAt d)
    (match DeliveredAt d with
     | Some t => Some t
     | None => if String.eqb status StatusDelivered then Some now else None
     end).

Definition valid_status (status : string) : bool :=
  existsb (String.eqb status) [StatusPending; StatusDelivered; StatusFailed; StatusAbandoned].

Definition RecordDeliveryAttempt (now : Z) (up : bool) (endpointID : Z) (ev : Event) (status : string)
    (responseStatus : option Z) (responseExcerpt lastError : string) (nextAttempt : option Z) (s : store) :
    option error * store :=
  if negb up then (Some ErrQuery, s)
  else
    let id := next_delivery s in
    if negb (bool_decide (is_Some (endpoints s !! endpointID))) || negb (valid_status status) ||
       negb (fits 64 (EventType ev)) || negb (pg_text responseExcerpt) || negb (pg_text lastError)
    then (Some ErrConstraint, with_deliveries (deliveries s) (id + 1) s)
    else match find_delivery endpointID (EventID ev) s with
         | Some (i, d) =>
             (None, with_deliveries (<[i := next_attempt_row now status responseStatus responseExcerpt lastError
                                              nextAttempt d]> (deliveries s)) (id + 1) s)
         | None =>
             (None, with_deliveries (<[id := first_attempt now endpointID ev status responseStatus responseExcerpt
                                               lastError nextAttempt]> (deliveries s)) (id + 1) s)
         end.

Definition by_recent (a b : Z * Delivery) : Prop := d_CreatedAt b.2 <= d_CreatedAt a.2.
#[global] Instance by_recent_dec : RelDecision by_recent.
Proof. intros a b. unfold by_recent. apply _. Defined.

Definition page_size (limit : Z) : Z := if (limit <=? 0) || (200 <? limit) then 50 else limit.

Definition ListDeliveries (up : bool) (endpointID limit : Z) (s : store) : result error (list (Z * Delivery)) :=
  if negb up then Err ErrQuery
  else Ok (take (Z.to_nat (page_size limit))
             (merge_sort by_recent (List.filter (fun p => EndpointID p.2 =? endpointID) (map_to_list (deliveries s))))).

(** ** The middleware (middleware/apikey.go) *)

(** What the middleware puts into the request's context. No role is among it. *)
Record PartnerContext : Type := MkContext { c_KeyID : Z; c_Scopes : list string; c_Partner : string; c_Subject : string }.

Definition bearer : string := "Bearer ".

Fixpoint trim_prefix (p s : string) : string :=
  match p, s with
  | String a p', String b s' => if Ascii.eqb a b then trim_prefix p' s' else s
  | _, _ => s
  end.

(** The status it answers with, or the context the next handler runs in. *)
Definition APIKeyMiddleware (now : Z) (auth_up touch_up : bool) (header : string) (s : store) :
    (Z + PartnerContext) * store :=
  if negb (String.prefix bearer header) then (inl 401, s)
  else
    let presented := trim_prefix bearer header in
    match AuthenticateKey now auth_up presented s with
    | Err _ => (inl 500, s)
    | Ok None => (inl 401, s)
    | Ok (Some (id, k)) =>
        (inr (MkContext id (Scopes k) (PartnerName k) ("partner:" +:+ PartnerName k)), TouchKeyUsage now touch_up id s)
    end.

Definition RequireScope (scope : string) (ctx : PartnerContext) : bool := HasScope (c_Scopes ctx) scope.

(** ** The handlers (api/partner.go) *)

Record createKeyRequest : Type := MkKeyRequest {
  k_PartnerName : string; k_Scopes : list string; ExpiresInDays : option Z; Test : bool
}.

Record createEndpointRequest : Type := MkEndpointRequest {
  q_URL : string; q_Events : list string; q_Description : string
}.

Inductive reply : Type :=
| RNone
| RKey (id : Z) (k : APIKey) (plaintext : string)
| RKeys (l : list (Z * APIKey))
| REndpoint (id : Z) (e : WebhookEndpoint) (secret : string)
| REndpoints (l : list (Z * WebhookEndpoint))
| RDone (id : Z)
| RDeliveries (l : list (Z * Delivery)).

Definition EventSubscriberCreated : string := "subscriber.created".
Definition EventSubscriberStatusChanged : string := "subscriber.status_changed".
Definition EventPaymentReceived : string := "payment.received".
Definition EventInvoiceGenerated : string := "invoice.generated".
Definition EventTicketCreated : string := "ticket.created".
Definition EventTicketResolved : string := "ticket.resolved".

Definition ValidEvents : list string :=
  [EventSubscriberCreated; EventSubscriberStatusChanged; EventPaymentReceived; EventInvoiceGenerated;
   EventTicketCreated; EventTicketResolved].

Definition ValidateEvents (events : list string) : bool :=
  negb (bool_decide (events = [])) && forallb (fun e => existsb (String.eqb e) ValidEvents) events.

(** [base64.RawURLEncoding] *)
Definition b64_char (n : Z) : ascii :=
  if n <? 26 then char_of (65 + n) else if n <? 52 then char_of (71 + n) else if n <? 62 then char_of (n - 4)
  else if n =? 62 then "-"%char else underscore.

Fixpoint base64url (b : list Z) : string :=
  match b with
  | [] => EmptyString
  | [x] => String (b64_char (x / 4)) (String (b64_char (x mod 4 * 16)) EmptyString)
  | [x; y] =>
      String (b64_char (x / 4)) (String (b64_char (x mod 4 * 16 + y / 16))
        (String (b64_char (y mod 16 * 4)) EmptyString))
  | x :: y :: z :: b =>
      String (b64_char (x / 4)) (String (b64_char (x mod 4 * 16 + y / 16))
        (String (b64_char (y mod 16 * 4 + z / 64)) (String (b64_char (z mod 64)) (base64url b))))
  end.

Definition generateWebhookSecret (raw : option (list Z)) : option string :=
  raw ← raw; Some ("whsec_" +:+ base64url raw).

(** The keystore: its cipher and the version it encrypts under. *)
Record SecretEncryptor : Type := MkEncryptor { Encrypt : string -> option string; ActiveVersion : string }.

(** What is configured, which statements can be executed, what the random
    source, the URL parser and the resolver answer. *)
Record Env : Type := MkEnv {
  has_partners : bool;
  encryptor : option SecretEncryptor;
  auth_up : bool;
  touch_up : bool;
  write_up : bool;
  read_up : bool;
  log_up : bool;
  prefixRaw : option (list Z);
  secretRaw : option (list Z);
  webhookRaw : option (list Z);
  parse_url : string -> option Egress.URL;
  lookup_ip : string -> option (list Egress.IP);
  ip_string : Egress.IP -> string
}.

Definition ValidateWebhookURL (e : Env) (raw : string) : option Egress.error :=
  Egress.ValidateWebhookURL (ip_string e) (parse_url e raw)
    (match parse_url e raw with Some u => lookup_ip e (Egress.Hostname u) | None => None end).

(** POST /api/v1/partner-keys *)
Definition CreateAPIKeyHandler (now : Z) (e : Env) (subject : string) (body : option createKeyRequest) (s : store) :
    (Z * reply) * store :=
  if negb (has_partners e) then ((503, RNone), s)
  else match body with
       | None => ((400, RNone), s)
       | Some req =>
           if String.eqb (k_PartnerName req) EmptyString then ((422, RNone), s)
           else if negb (ValidateScopes (k_Scopes req)) then ((422, RNone), s)
           else match GenerateKey (if Test req then KeyEnvTest else KeyEnvLive) (prefixRaw e) (secretRaw e) with
                | None => ((500, RNone), s)
                | Some generated =>
                    let expiresAt :=
                      match ExpiresInDays req with
                      | Some n => if 0 <? n then Some (now + n * Dates.day) else None
                      | None => None
                      end in
                    match CreateAPIKey now (write_up e) (k_PartnerName req) (Prefix generated) (Hash generated)
                            (k_Scopes req) expiresAt subject s with
                    | (Err _, s) => ((500, RNone), s)
                    | (Ok (id, key), s) =>
                        ((201, RKey id key (Plaintext generated)), Audit "partner.key_created" (k_PartnerName req) s)
                    end
                end
       end.

(** GET /api/v1/partner-keys *)
Definition ListAPIKeysHandler (e : Env) (s : store) : Z * reply :=
  if negb (has_partners e) then (503, RNone)
  else match ListAPIKeys (read_up e) s with Err _ => (500, RNone) | Ok l => (200, RKeys l) end.

(** DELETE /api/v1/partner-keys/{id} *)
Definition RevokeAPIKeyHandler (now : Z) (e : Env) (path_id : string) (s : store) : (Z * reply) * store :=
  if negb (has_partners e) then ((503, RNone), s)
  else match atoi path_id with
       | None => ((400, RNone), s)
       | Some id =>
           match RevokeAPIKey now (write_up e) id s with
           | (Err _, s) => ((500, RNone), s)
           | (Ok false, s) => ((404, RNone), s)
           | (Ok true, s) => ((200, RDone id), Audit "partner.key_revoked" (format_int id) s)
           end
       end.

(** POST /api/v1/partner/webhooks *)
Definition CreateWebhookEndpointHandler (now : Z) (e : Env) (body : option createEndpointRequest)
    (ctx : PartnerContext) (s : store) : (Z * reply) * store :=
  match encryptor e with
  | None => ((503, RNone), s)
  | Some enc =>
      if negb (has_partners e) then ((503, RNone), s)
      else if c_KeyID ctx =? 0 then ((401, RNone), s)
      else match body with
           | None => ((400, RNone), s)
           | Some req =>
               if negb (ValidateEvents (q_Events req)) then ((422, RNone), s)
               else if bool_decide (is_Some (ValidateWebhookURL e (q_URL req))) then ((422, RNone), s)
               else match generateWebhookSecret (webhookRaw e) with
                    | None => ((500, RNone), s)
                    | Some secret =>
                        match Encrypt enc secret with
                        | None => ((500, RNone), s)
                        | Some encrypted =>
                            match CreateWebhookEndpoint now (write_up e) (c_KeyID ctx) (q_URL req) encrypted
                                    (ActiveVersion enc) (q_Events req) (q_Description req) s with
                            | (Err _, s) => ((500, RNone), s)
                            | (Ok (id, ep), s) =>
                                ((201, REndpoint id ep secret), Audit "partner.webhook_registered" (q_URL req) s)
                            end
                        end
                    end
           end
  end.

(** GET /api/v1/partner/webhooks *)
Definition ListWebhookEndpointsHandler (e : Env) (ctx : PartnerContext) (s : store) : (Z * reply) * store :=
  if negb (has_partners e) then ((503, RNone), s)
  else match ListWebhookEndpoints (read_up e) (c_KeyID ctx) s with
       | Err _ => ((500, RNone), s)
       | Ok l => ((200, REndpoints l), s)
       end.

(** DELETE /api/v1/partner/webhooks/{id} *)
Definition DeleteWebhookEndpointHandler (e : Env) (path_id : string) (ctx : PartnerContext) (s : store) :
    (Z * reply) * store :=
  if negb (has_partners e) then ((503, RNone), s)
  else match atoi path_id with
       | None => ((400, RNone), s)
       | Some id =>
           match DeactivateWebhookEndpoint (write_up e) id (c_KeyID ctx) s with
           | (Err _, s) => ((500, RNone), s)
           | (Ok false, s) => ((404, RNone), s)
           | (Ok true, s) => ((200, RDone id), Audit "partner.webhook_removed" (format_int id) s)
           end
       end.

(** GET /api/v1/partner/webhooks/{id}/deliveries *)
Definition ListWebhookDeliveriesHandler (e : Env) (path_id limit : string) (ctx : PartnerContext) (s : store) :
    (Z * reply) * store :=
  if negb (has_partners e) then ((503, RNone), s)
  else match atoi path_id with
       | None => ((400, RNone), s)
       | Some id =>
           match ListWebhookEndpoints (read_up e) (c_KeyID ctx) s with
           | Err _ => ((500, RNone), s)
           | Ok owned =>
               if negb (existsb (fun p => p.1 =? id) owned) then ((404, RNone), s)
               else match ListDeliveries (log_up e) id (default 0 (atoi limit)) s with
                    | Err _ => ((500, RNone), s)
                    | Ok l => ((200, RDeliveries l), s)
                    end
           end
       end.

(** The partner's routes: the key first, then its scope (routes.go). *)
Definition partner_route (now : Z) (e : Env) (scope header : string)
    (handler : PartnerContext -> store -> (Z * reply) * store) (s : store) : (Z * reply) * store :=
  match APIKeyMiddleware now (auth_up e) (touch_up e) header s with
  | (inl code, s) => ((code, RNone), s)
  | (inr ctx, s) => if RequireScope scope ctx then handler ctx s else ((403, RNone), s)
  end.

Inductive partner_request : Type :=
| PCreate (body : option createEndpointRequest)
| PList
| PDelete (id : string)
| PDeliveries (id limit : string).

Definition manageWebhooks (now : Z) (e : Env) (header : string) (r : partner_request) : store -> (Z * reply) * store :=
  partner_route now e ScopeManageWebhooks header
    (match r with
     | PCreate body => CreateWebhookEndpointHandler now e body
     | PList => ListWebhookEndpointsHandler e
     | PDelete id => DeleteWebhookEndpointHandler e id
     | PDeliveries id limit => ListWebhookDeliveriesHandler e id limit
     end).
End Hash.

(** ** Generated keys parse *)

Definition hex_char (c : ascii) : bool := in_range 48 57 c || in_range 97 102 c.

Lemma hex2_chars c : string_forall hex_char (Json.hex2 c) = true /\ String.length (Json.hex2 c) = 2%nat.
Proof. split; [| done]. destruct c as [[] [] [] [] [] [] [] []]; reflexivity. Qed.

Lemma hex_encode_chars b :
  string_forall hex_char (hex_encode b) = true /\ String.length (hex_encode b) = (2 * length b)%nat.
Proof.
  induction b as [| z b [IHc IHl]]; [done |]. destruct (hex2_chars (char_of z)) as [Hc Hl].
  cbn [hex_encode length]. rewrite string_forall_app, string_app_length, Hc, IHc, Hl, IHl. split; [done | lia].
Qed.

Lemma hex_no_underscore b :
  string_forall (fun d => negb (Ascii.eqb d underscore)) (hex_encode b) = true.
Proof.
  eapply string_forall_impl; [| by destruct (hex_encode_chars b)].
  intros c. destruct (Ascii.eqb_spec c underscore) as [-> |]; [| done]. vm_compute. done.
Qed.

Definition env_label (test : bool) : string := if test then KeyEnvTest else KeyEnvLive.

(** Plain ASCII text is stored as it is. *)
Lemma ascii_fits n s : string_forall (in_range 1 127) s = true -> (String.length s <= n)%nat -> fits n s = true.
Proof.
  intros Hs Hn. unfold fits. apply andb_true_iff. split.
  - clear Hn. unfold pg_text. induction s as [| c s IH]; simpl in *; [done |].
    apply andb_true_iff in Hs as [Hc Hs]. unfold in_range in Hc. by rewrite Hc, IH.
  - apply Nat.leb_le. unfold runes. etransitivity; [apply List.filter_length_le |].
    by rewrite length_bytes_of_string.
Qed.

Lemma generated_parses sha test p q :
  length p = prefixBytes -> length q = secretBytes ->
  exists g, GenerateKey sha (env_label test) (Some p) (Some q) = Some g /\
    ParsePrefix (Plaintext g) = Some (Prefix g) /\ Hash g = sha (Plaintext g) /\ fits 24 (Prefix g) = true.
Proof.
  intros Hp Hq. destruct (hex_encode_chars p) as [Hpc Hpl], (hex_encode_chars q) as [Hqc Hql].
  unfold GenerateKey. replace (negb _ && negb _) with false by (by destruct test). eexists. split; [done |].
  cbn [Plaintext Prefix Hash]. split; [| split; [done |]].
  - set (lbl := (if test then "test" else "live")%string).
    assert ((env_label test +:+ String underscore (hex_encode p)) +:+ String underscore (hex_encode q) =
      "pk" +:+ String underscore (lbl +:+ String underscore (hex_encode p +:+ String underscore (hex_encode q))))%string
      as -> by (rewrite string_app_assoc; by destruct test).
    unfold ParsePrefix. rewrite !split_on_app, split_on_none by (apply hex_no_underscore || by destruct test).
    rewrite Hpl, Hql, Hp, Hq. by destruct test.
  - apply ascii_fits.
    + rewrite string_forall_app. replace (string_forall _ (env_label test)) with true by (by destruct test). simpl.
      eapply string_forall_impl; [| exact Hpc]. unfold hex_char, in_range. intros c. lia.
    + rewrite string_app_length. simpl. rewrite Hpl, Hp. destruct test; simpl; lia.
Qed.

(** ** The keys' invariant *)

Record key_inv (s : store) : Prop := {
  ki_fresh id k h : keys s !! id = Some (k, h) -> id < next_key s;
  ki_prefix i j k1 h1 k2 h2 : keys s !! i = Some (k1, h1) -> keys s !! j = Some (k2, h2) ->
    KeyPrefix k1 = KeyPrefix k2 -> i = j;
  ki_active id k h : keys s !! id = Some (k, h) -> Active k = bool_decide (RevokedAt k = None)
}.

(** A key's row later: what issued it stays, and a revoked key stays revoked
    at the time it was. *)
Definition kept (k k' : APIKey) : Prop :=
  PartnerName k' = PartnerName k /\ KeyPrefix k' = KeyPrefix k /\ Scopes k' = Scopes k /\
  ExpiresAt k' = ExpiresAt k /\ CreatedBy k' = CreatedBy k /\ CreatedAt k' = CreatedAt k /\
  (Active k = false -> Active k' = false /\ RevokedAt k' = RevokedAt k).

Lemma key_kept_refl k : kept k k.
Proof. repeat split; auto. Qed.

Lemma key_kept_trans a b c : kept a b -> kept b c -> kept a c.
Proof.
  unfold kept. intros (?&?&?&?&?&?&H) (?&?&?&?&?&?&H'). do 6 (split; [congruence |]).
  intros [Ha Hr]%H. destruct (H' Ha). split; congruence.
Qed.

(** One statement of one process. *)
Inductive step : store -> store -> Prop :=
| step_create now up name prefix hash scopes expires by_ s :
    step s (CreateAPIKey now up name prefix hash scopes expires by_ s).2
| step_touch now up id s : step s (TouchKeyUsage now up id s)
| step_revoke now up id s : step s (RevokeAPIKey now up id s).2
| step_endpoint now up id url secret version events description s :
    step s (CreateWebhookEndpoint now up id url secret version events description s).2
| step_deactivate up id key s : step s (DeactivateWebhookEndpoint up id key s).2
| step_attempt now up id ev status code excerpt err next s :
    step s (RecordDeliveryAttempt now up id ev status code excerpt err next s).2
| step_audit action target s : step s (Audit action target s).

(** What a statement does to the keys: nothing, one key more, or one row
    replaced by a later state of it. *)
Inductive key_change (s s' : store) : Prop :=
| same_keys : keys s' = keys s -> next_key s <= next_key s' -> key_change s s'
| new_key k h : keys s' = <[next_key s := (k, h)]> (keys s) -> next_key s' = next_key s + 1 ->
    prefix_taken (KeyPrefix k) s = false -> Active k = true -> RevokedAt k = None -> key_change s s'
| later_key id k k' h : keys s !! id = Some (k, h) -> keys s' = <[id := (k', h)]> (keys s) -> kept k k' ->
    (Active k = bool_decide (RevokedAt k = None) -> Active k' = bool_decide (RevokedAt k' = None)) ->
    next_key s' = next_key s -> key_change s s'.

Lemma step_keys s s' : step s s' -> key_change s s'.
Proof.
  destruct 1.
  - unfold CreateAPIKey. destruct up; simpl; [| by apply same_keys].
    destruct (_ || _) eqn:Hg; simpl; [apply same_keys; simpl; [done | lia] |].
    apply orb_false_iff in Hg as [[_ Ht]%orb_false_iff _]. by eapply new_key.
  - unfold TouchKeyUsage. destruct up; [| by apply same_keys].
    destruct (keys s !! id) as [[k h]|] eqn:Hk.
    + eapply (later_key _ _ id k (used now k) h); try done.
      unfold with_keys. cbn [keys]. apply map_eq. intros j. destruct (decide (j = id)) as [-> |].
      * by rewrite lookup_alter_eq, lookup_insert_eq, Hk.
      * by rewrite lookup_alter_ne, lookup_insert_ne.
    + apply same_keys; simpl; [| lia]. apply map_eq. intros j. destruct (decide (j = id)) as [-> |].
      * by rewrite lookup_alter_eq, Hk.
      * by rewrite lookup_alter_ne.
  - unfold RevokeAPIKey. destruct up; simpl; [| by apply same_keys].
    destruct (keys s !! id) as [[k h]|] eqn:Hk; simpl; [| by apply same_keys].
    destruct (Active k) eqn:Ha; [| by apply same_keys].
    eapply (later_key _ _ id k (revoked now k) h); simpl; try done.
    repeat split; simpl; congruence.
  - unfold CreateWebhookEndpoint. destruct up; simpl; [| by apply same_keys]. by case_match; apply same_keys.
  - unfold DeactivateWebhookEndpoint. destruct up; simpl; [| by apply same_keys]. by repeat case_match; apply same_keys.
  - unfold RecordDeliveryAttempt. destruct up; simpl; [| by apply same_keys]. by repeat case_match; apply same_keys.
  - by apply same_keys.
Qed.

Lemma prefix_free p s id k h :
  prefix_taken p s = false -> keys s !! id = Some (k, h) -> KeyPrefix k <> p.
Proof.
  unfold prefix_taken. intros Ht Hk <-. apply not_true_iff_false in Ht. apply Ht. apply existsb_exists.
  exists (id, (k, h)). split; [by apply list_elem_of_In, elem_of_map_to_list | by apply String.eqb_eq].
Qed.

Lemma step_key_inv s s' : step s s' -> key_inv s -> key_inv s'.
Proof.
  intros Hs [Hf Hp Ha]. destruct (step_keys _ _ Hs) as [Hk Hn | k h Hk Hn Ht Hak Hr | id0 k0 k0' h0 H0 Hk Hkept Hact Hn].
  - constructor; rewrite Hk; [| done | done]. intros id k h Hid. pose proof (Hf _ _ _ Hid). lia.
  - constructor; rewrite Hk.
    + intros id k' h' [[<- _] | [_ Hid]]%lookup_insert_Some; [lia |]. pose proof (Hf _ _ _ Hid). lia.
    + intros i j k1 h1 k2 h2 [[<- [= <- <-]] | [_ Hi]]%lookup_insert_Some [[<- [= <- <-]] | [_ Hj]]%lookup_insert_Some;
        [done | | | by eapply Hp]; intros E; exfalso.
      * by eapply (prefix_free _ _ _ _ _ Ht Hj).
      * by eapply (prefix_free _ _ _ _ _ Ht Hi).
    + intros id k' h' [[<- [= <- <-]] | [_ Hid]]%lookup_insert_Some; [by rewrite Hak, Hr | by eapply Ha].
  - destruct Hkept as (_ & Hpre & _).
    assert (forall i k h, keys s' !! i = Some (k, h) -> exists k', keys s !! i = Some (k', h) /\ KeyPrefix k' = KeyPrefix k /\
      (Active k' = bool_decide (RevokedAt k' = None) -> Active k = bool_decide (RevokedAt k = None))) as Hback.
    { intros i k h. rewrite Hk. intros [[<- [= <- <-]] | [_ Hi]]%lookup_insert_Some; eauto. }
    constructor.
    + intros id k h (k' & Hid & _)%Hback. rewrite Hn. by eapply Hf.
    + intros i j k1 h1 k2 h2 (k1' & Hi & E1 & _)%Hback (k2' & Hj & E2 & _)%Hback E. eapply Hp; [done | done | congruence].
    + intros id k h (k' & Hid & _ & Hx)%Hback. eauto.
Qed.

Lemma star_key_inv s s' : star step s s' -> key_inv s -> key_inv s'.
Proof. intros Hs. eapply (star_invariant step key_inv); [| done]. intros. by eapply step_key_inv. Qed.

Lemma step_kept s s' id k h :
  step s s' -> key_inv s -> keys s !! id = Some (k, h) -> exists k', keys s' !! id = Some (k', h) /\ kept k k'.
Proof.
  intros Hs Hi Hid. destruct (step_keys _ _ Hs) as [Hk _ | k0 h0 Hk _ _ _ _ | id0 k0 k0' h0 H0 Hk Hkept _ _]; rewrite Hk.
  - eauto using key_kept_refl.
  - rewrite lookup_insert_ne; [eauto using key_kept_refl |]. pose proof (ki_fresh _ Hi _ _ _ Hid). lia.
  - destruct (decide (id0 = id)) as [-> |].
    + rewrite lookup_insert_eq. rewrite H0 in Hid. injection Hid as -> ->. eauto.
    + rewrite lookup_insert_ne by done. eauto using key_kept_refl.
Qed.

Lemma star_kept s s' id k h :
  star step s s' -> key_inv s -> keys s !! id = Some (k, h) -> exists k', keys s' !! id = Some (k', h) /\ kept k k'.
Proof.
  intros Hs. revert k. induction Hs as [| s1 s2 s3 Hs _ IH]; intros k Hi Hid; [eauto using key_kept_refl |].
  destruct (step_kept _ _ _ _ _ Hs Hi Hid) as (k' & Hid' & Hk').
  destruct (IH k') as (k'' & ? & ?); [by eapply step_key_inv | done |]. eauto using key_kept_trans.
Qed.

Lemma active_key_spec s id k h :
  key_inv s -> keys s !! id = Some (k, h) ->
  active_key (KeyPrefix k) s = if Active k then Some (id, (k, h)) else None.
Proof.
  intros Hi Hid. unfold active_key. destruct (List.find _ _) as [[j [k' h']]|] eqn:Hf.
  - apply find_some in Hf as [Hin Hp]. apply list_elem_of_In, elem_of_map_to_list in Hin. simpl in Hp.
    apply andb_true_iff in Hp as [Hp Ha]. apply String.eqb_eq in Hp.
    assert (j = id) as -> by (by eapply ki_prefix). rewrite Hid in Hin. injection Hin as <- <-. by rewrite Ha.
  - destruct (Active k) eqn:Ha; [| done]. eapply find_none in Hf.
    2:{ by apply list_elem_of_In, elem_of_map_to_list. }
    simpl in Hf. by rewrite String.eqb_refl, Ha in Hf.
Qed.

(** Who a presented key is, for the key whose prefix it carries. *)
Lemma authenticate_spec sha now s id k h presented :
  key_inv s -> keys s !! id = Some (k, h) -> ParsePrefix presented = Some (KeyPrefix k) ->
  AuthenticateKey sha now true presented s =
  Ok (if Active k && String.eqb (sha presented) h && unexpired now k then Some (id, k) else None).
Proof.
  intros Hi Hid Hp. unfold AuthenticateKey. rewrite Hp. cbn [negb]. rewrite (active_key_spec s id k h) by done.
  pose proof (ki_active _ Hi _ _ _ Hid) as Ha. destruct (Active k) eqn:Hk; [| done]. cbn [andb].
  unfold VerifyKey, HashKey. destruct (String.eqb _ h); [| done]. cbn [negb andb].
  unfold Usable, unexpired. rewrite Hk, <- Ha. cbn [andb]. by destruct (match ExpiresAt k with Some _ => _ | None => _ end).
Qed.

Lemma authenticate_sound sha now up presented s id k :
  AuthenticateKey sha now up presented s = Ok (Some (id, k)) ->
  up = true /\ ParsePrefix presented = Some (KeyPrefix k) /\ keys s !! id = Some (k, sha presented) /\
  Active k = true /\ unexpired now k = true.
Proof.
  unfold AuthenticateKey. destruct (ParsePrefix presented) as [p|] eqn:Hp; [| done]. destruct up; [| done]. cbn [negb].
  unfold active_key. destruct (List.find _ _) as [[j [k' h']]|] eqn:Hf; [| done].
  apply find_some in Hf as [Hin Hm]. apply list_elem_of_In, elem_of_map_to_list in Hin. simpl in Hm.
  apply andb_true_iff in Hm as [Hm Ha]. apply String.eqb_eq in Hm.
  unfold VerifyKey, HashKey. destruct (String.eqb_spec (sha presented) h') as [<- |]; [| done]. cbn [negb].
  destruct (Usable k' now) eqn:Hu; [| done]. intros [= -> ->]. rewrite <- Hm.
  unfold Usable in Hu. rewrite Ha in Hu. apply andb_true_iff in Hu as [_ Hu]. auto.
Qed.

Lemma issued_row sha now e subject req s1 id k plaintext s2 :
  key_inv s1 -> option_map length (prefixRaw e) = Some prefixBytes -> option_map length (secretRaw e) = Some secretBytes ->
  CreateAPIKeyHandler sha now e subject (Some req) s1 = ((201, RKey id k plaintext), s2) ->
  key_inv s2 /\ keys s2 !! id = Some (k, sha plaintext) /\ ParsePrefix plaintext = Some (KeyPrefix k) /\
  Active k = true /\ Scopes k = k_Scopes req /\ ValidateScopes (k_Scopes req) = true /\
  ExpiresAt k = match ExpiresInDays req with
                | Some n => if 0 <? n then Some (now + n * Dates.day) else None | None => None end.
Proof.
  intros Hi Hp Hq. unfold CreateAPIKeyHandler. destruct (has_partners e); [| done]. cbn [negb].
  destruct (String.eqb _ _); [done |]. destruct (ValidateScopes _) eqn:Hs; [| done]. cbn [negb].
  destruct (prefixRaw e) as [p|], (secretRaw e) as [q|]; try done. injection Hp as Hp. injection Hq as Hq.
  destruct (generated_parses sha (Test req) p q Hp Hq) as (g & Hg & Hparse & Hh & _).
  change (if Test req then KeyEnvTest else KeyEnvLive) with (env_label (Test req)). rewrite Hg.
  destruct (CreateAPIKey _ _ _ _ _ _ _ _ _) as [r s'] eqn:Hc.
  pose proof (step_key_inv _ _ (step_create now (write_up e) (k_PartnerName req) (Prefix g) (Hash g) (k_Scopes req)
    (match ExpiresInDays req with Some n => if 0 <? n then Some (now + n * Dates.day) else None | None => None end)
    subject s1) Hi) as Hi'. rewrite Hc in Hi'. cbn [snd] in Hi'.
  destruct r as [[id' k']|]; [| done]. intros [= -> -> <- <-].
  split; [by destruct Hi' |]. unfold CreateAPIKey in Hc. destruct (write_up e); [| done]. cbn [negb] in Hc.
  destruct (_ || _) in Hc; [done |]. injection Hc as <- <- <-. cbn. rewrite lookup_insert_eq. by rewrite Hh.
Qed.

Lemma revoked_for_good sha now up id s1 s2 s3 :
  key_inv s1 -> RevokeAPIKey now up id s1 = (Ok true, s2) -> star step s2 s3 ->
  (exists k h, keys s3 !! id = Some (k, h) /\ Active k = false /\ RevokedAt k = Some now) /\
  (forall now' up' presented k, AuthenticateKey sha now' up' presented s3 <> Ok (Some (id, k))) /\
  (forall now', RevokeAPIKey now' true id s3 = (Ok false, s3)) /\
  (forall now' event p, APIKeyID p.2 = id -> subscribed now' event s3 p = false).
Proof.
  intros Hi Hr Hs. pose proof (step_key_inv _ _ (step_revoke now up id s1) Hi) as Hi2. rewrite Hr in Hi2. cbn [snd] in Hi2.
  unfold RevokeAPIKey in Hr. destruct up; [| done]. cbn [negb] in Hr.
  destruct (keys s1 !! id) as [[k h]|] eqn:Hk; [| done]. destruct (Active k); [| done]. injection Hr as <-.
  destruct (star_kept _ _ id (revoked now k) h Hs Hi2) as (k' & Hk' & _ & _ & _ & _ & _ & _ & [Ha Hrev]);
    [by cbn; rewrite lookup_insert_eq | done |]. cbn in Hrev.
  split; [eauto |]. split; [| split].
  - intros now' up' presented k2 (_ & _ & Hk2 & Ha2 & _)%authenticate_sound. congruence.
  - intros now'. unfold RevokeAPIKey. cbn [negb]. by rewrite Hk', Ha.
  - intros now' event p Hp. unfold subscribed. rewrite Hp, Hk', Ha. cbn [andb]. by rewrite andb_false_r.
Qed.

(** C20: A key handed out with 201 authenticates from then on, whatever else
    happens to the tables, exactly until it expires or is revoked, with the
    scopes it was created with; nothing else authenticates as that key unless
    its SHA-256 is the same; and once it is revoked it never authenticates
    again, the time of its revocation is never overwritten, and no event is
    addressed to its endpoints any more. *)
Theorem issued_key_until_revoked sha now e subject req s1 id k plaintext s2 s3 :
  key_inv s1 -> option_map length (prefixRaw e) = Some prefixBytes -> option_map length (secretRaw e) = Some secretBytes ->
  CreateAPIKeyHandler sha now e subject (Some req) s1 = ((201, RKey id k plaintext), s2) -> star step s2 s3 ->
  (exists k', keys s3 !! id = Some (k', sha plaintext) /\ kept k k' /\ Scopes k' = k_Scopes req /\
     forall now', AuthenticateKey sha now' true plaintext s3 =
       Ok (if Active k' && unexpired now' k' then Some (id, k') else None)) /\
  (forall now' up presented k2, AuthenticateKey sha now' up presented s3 = Ok (Some (id, k2)) ->
     sha presented = sha plaintext /\ ParsePrefix presented = ParsePrefix plaintext) /\
  (forall t up s4 s5, RevokeAPIKey t up id s3 = (Ok true, s4) -> star step s4 s5 ->
     (exists k5, fst <$> keys s5 !! id = Some k5 /\ RevokedAt k5 = Some t) /\
     (forall now' up' presented k2, AuthenticateKey sha now' up' presented s5 <> Ok (Some (id, k2))) /\
     (forall now' event p, APIKeyID p.2 = id -> subscribed now' event s5 p = false)).
Proof.
  intros Hi Hp Hq Hc Hs. destruct (issued_row _ _ _ _ _ _ _ _ _ _ Hi Hp Hq Hc) as (Hi2 & Hk & Hparse & Ha & Hsc & _).
  destruct (star_kept _ _ _ _ _ Hs Hi2 Hk) as (k' & Hk' & Hkept). pose proof (star_key_inv _ _ Hs Hi2) as Hi3.
  pose proof Hkept as (_ & Hpre & Hscopes & _). split; [| split].
  - exists k'. do 2 (split; [done |]). split; [congruence |]. intros now'.
    rewrite (authenticate_spec sha now' s3 id k' (sha plaintext)) by (done || congruence).
    by rewrite String.eqb_refl, andb_true_r.
  - intros now' up presented k2 (_ & Hp2 & Hk2 & _ & _)%authenticate_sound. rewrite Hk' in Hk2.
    injection Hk2 as <- <-. split; [done | congruence].
  - intros t up s4 s5 Hr Hs5. destruct (revoked_for_good sha _ _ _ _ _ _ Hi3 Hr Hs5) as ((k5 & h5 & Hk5 & _ & Ht) & H2 & _ & H4).
    split; [| by split]. exists k5. by rewrite Hk5.
Qed.

Lemma prefix_app p s : String.prefix p s = true -> s = (p +:+ trim_prefix p s)%string.
Proof.
  revert s. induction p as [| a p IH]; intros [| b s]; simpl; try done.
  destruct (ascii_dec a b) as [-> | Hne]; [| done]. rewrite Ascii.eqb_refl. intros Hp%IH. by rewrite Hp at 1.
Qed.

(** ** One partner cannot reach another's endpoints *)

(** What a reply may show of the tables to the key [id]. *)
Definition own_reply (id : Z) (s s' : store) (r : reply) : Prop :=
  match r with
  | RNone => True
  | REndpoint i ep _ => endpoints s' !! i = Some ep /\ APIKeyID ep = id
  | REndpoints l => forall p, p ∈ l <-> endpoints s !! p.1 = Some p.2 /\ APIKeyID p.2 = id
  | RDone i => exists ep, endpoints s !! i = Some ep /\ APIKeyID ep = id
  | RDeliveries l => forall p, p ∈ l -> deliveries s !! p.1 = Some p.2 /\
      exists ep, endpoints s !! EndpointID p.2 = Some ep /\ APIKeyID ep = id
  | RKey _ _ _ | RKeys _ => False
  end.

(** Only endpoints of the key [id] may differ. *)
Definition others_kept (id : Z) (s s' : store) : Prop :=
  deliveries s' = deliveries s /\ next_key s' = next_key s /\
  forall i, endpoints s' !! i = endpoints s !! i \/
    exists ep, endpoints s' !! i = Some ep /\ APIKeyID ep = id /\
      forall ep0, endpoints s !! i = Some ep0 -> APIKeyID ep0 = id.

Lemma others_kept_refl id s : others_kept id s s.
Proof. repeat split; auto. Qed.

Lemma listed_endpoints up id s l :
  ListWebhookEndpoints up id s = Ok l -> forall p, p ∈ l <-> endpoints s !! p.1 = Some p.2 /\ APIKeyID p.2 = id.
Proof.
  unfold ListWebhookEndpoints. destruct up; [| done]. cbn [negb]. intros [= <-] [i ep].
  rewrite merge_sort_Permutation, elem_of_filterb, elem_of_map_to_list. unfold owned_by. simpl.
  by rewrite Z.eqb_eq.
Qed.

Definition request_handler (now : Z) (e : Env) (r : partner_request) (ctx : PartnerContext) (s : store) :
    (Z * reply) * store :=
  match r with
  | PCreate body => CreateWebhookEndpointHandler now e body ctx s
  | PList => ListWebhookEndpointsHandler e ctx s
  | PDelete id => DeleteWebhookEndpointHandler e id ctx s
  | PDeliveries id limit => ListWebhookDeliveriesHandler e id limit ctx s
  end.

Lemma create_endpoint_own now e body ctx s :
  (forall i ep, endpoints s !! i = Some ep -> i < next_endpoint s) ->
  let '((_, rep), s') := CreateWebhookEndpointHandler now e body ctx s in
  own_reply (c_KeyID ctx) s s' rep /\ others_kept (c_KeyID ctx) s s'.
Proof.
  intros Hf. unfold CreateWebhookEndpointHandler.
  assert (own_reply (c_KeyID ctx) s s RNone /\ others_kept (c_KeyID ctx) s s) as Hsame
    by (split; [done | apply others_kept_refl]).
  destruct (encryptor e) as [enc|]; [| by apply Hsame]. destruct (has_partners e); [| by apply Hsame].
  cbn [negb]. destruct (c_KeyID ctx =? 0); [by apply Hsame |]. destruct body as [req|]; [| by apply Hsame].
  destruct (negb _); [by apply Hsame |]. destruct (bool_decide _); [by apply Hsame |].
  destruct (generateWebhookSecret _) as [secret|]; [| by apply Hsame].
  destruct (Encrypt enc secret) as [cipher|]; [| by apply Hsame]. unfold CreateWebhookEndpoint.
  destruct (write_up e); [| by apply Hsame]. cbn [negb]. destruct (_ || _).
  { split; [done |]. repeat split; auto. }
  cbn. split; [by rewrite lookup_insert_eq |]. split; [done |]. split; [done |]. intros i. cbn.
  destruct (decide (i = next_endpoint s)) as [-> |]; [right | left; by rewrite lookup_insert_ne].
  eexists. rewrite lookup_insert_eq. split; [done |]. split; [done |]. intros ep0 H%Hf. lia.
Qed.

Lemma request_own now e r ctx s :
  (forall i ep, endpoints s !! i = Some ep -> i < next_endpoint s) ->
  let '((_, rep), s') := request_handler now e r ctx s in
  own_reply (c_KeyID ctx) s s' rep /\ others_kept (c_KeyID ctx) s s'.
Proof.
  intros Hf. destruct r as [body | | pid | pid limit]; cbn [request_handler].
  - by apply create_endpoint_own.
  - unfold ListWebhookEndpointsHandler. destruct (negb _); [split; [done | apply others_kept_refl] |].
    destruct (ListWebhookEndpoints _ _ _) as [l|] eqn:Hl; (split; [| apply others_kept_refl]); [| done].
    exact (listed_endpoints _ _ _ _ Hl).
  - unfold DeleteWebhookEndpointHandler. destruct (negb _); [split; [done | apply others_kept_refl] |].
    destruct (atoi pid) as [id|]; [| split; [done | apply others_kept_refl]]. unfold DeactivateWebhookEndpoint.
    destruct (write_up e); [| split; [done | apply others_kept_refl]]. cbn [negb].
    destruct (endpoints s !! id) as [ep|] eqn:He; [| split; [done | apply others_kept_refl]].
    destruct (Z.eqb_spec (APIKeyID ep) (c_KeyID ctx)) as [Ho |]; [| split; [done | apply others_kept_refl]].
    destruct (e_Active ep); [| split; [done | apply others_kept_refl]]. cbn. split; [eauto |].
    do 2 (split; [done |]). intros i. cbn. destruct (decide (i = id)) as [-> |]; [right | left; by rewrite lookup_insert_ne].
    eexists. rewrite lookup_insert_eq. split; [done |]. split; [done |]. intros ep0. rewrite He. congruence.
  - unfold ListWebhookDeliveriesHandler. destruct (negb _); [split; [done | apply others_kept_refl] |].
    destruct (atoi pid) as [id|]; [| split; [done | apply others_kept_refl]].
    destruct (ListWebhookEndpoints _ _ _) as [l|] eqn:Hl; [| split; [done | apply others_kept_refl]].
    destruct (existsb _ l) eqn:Hx; [| split; [done | apply others_kept_refl]]. cbn [negb]. unfold ListDeliveries.
    destruct (log_up e); (split; [| apply others_kept_refl]); [| done]. cbn [negb own_reply].
    apply existsb_exists in Hx as ([i ep] & Hin & Hi). apply list_elem_of_In, (listed_endpoints _ _ _ _ Hl) in Hin as [He Ho].
    cbn in *. apply Z.eqb_eq in Hi as ->. intros [j d] Hd%elem_of_take. destruct Hd as (n & Hd & _).
    apply list_elem_of_lookup_2 in Hd. rewrite merge_sort_Permutation in Hd.
    apply elem_of_filterb in Hd as [Hd Hdi]. apply elem_of_map_to_list in Hd. cbn in *. apply Z.eqb_eq in Hdi. split; [done |].
    rewrite Hdi. eauto.
Qed.

(** Every request on the partner's webhook routes answers 401, 403 or 500
    and leaves the tables alone, or carries a live key with the scope
    [manage:webhooks], and then shows and changes only endpoints registered
    under that key and deliveries to them. *)
Theorem partner_isolated sha now e header r s :
  (forall i ep, endpoints s !! i = Some ep -> i < next_endpoint s) ->
  let '((code, rep), s') := manageWebhooks sha now e header r s in
  (exists id k, header = (bearer +:+ trim_prefix bearer header)%string /\
     AuthenticateKey sha now (auth_up e) (trim_prefix bearer header) s = Ok (Some (id, k)) /\
     Active k = true /\ unexpired now k = true /\ ScopeManageWebhooks ∈ Scopes k /\
     own_reply id s s' rep /\ others_kept id s s') \/
  ((code = 401 \/ code = 403 \/ code = 500) /\ rep = RNone /\ endpoints s' = endpoints s /\
   deliveries s' = deliveries s).
Proof.
  intros Hf. unfold manageWebhooks, partner_route, APIKeyMiddleware.
  destruct (String.prefix bearer header) eqn:Hb; [| right; auto 10]. cbn [negb].
  destruct (AuthenticateKey _ _ _ _ _) as [[[id k]|]|] eqn:Ha; [| right; auto 10 | right; auto 10].
  set (s1 := TouchKeyUsage now (touch_up e) id s).
  assert (endpoints s1 = endpoints s /\ deliveries s1 = deliveries s /\ next_endpoint s1 = next_endpoint s /\
    next_key s1 = next_key s) as (He & Hd & Hn & Hnk) by (unfold s1, TouchKeyUsage; by destruct (touch_up e)).
  destruct (RequireScope _ _) eqn:Hscope; [| right; auto 10].
  set (ctx := MkContext _ _ _ _) in *.
  replace ((match r with PCreate body => _ | PList => _ | PDelete id => _ | PDeliveries id limit => _ end) ctx s1)
    with (request_handler now e r ctx s1) by (by destruct r).
  pose proof (request_own now e r ctx s1 ltac:(by rewrite He, Hn)) as Ho.
  destruct (request_handler now e r ctx s1) as [[code rep] s']. destruct Ho as [Hr (Hod & Hok & Hoe)]. left. exists id, k.
  split; [by apply prefix_app |]. apply authenticate_sound in Ha as Hs. destruct Hs as (_ & _ & _ & Hact & Hexp).
  split; [done |]. do 2 (split; [done |]). split.
  { unfold RequireScope, HasScope in Hscope. apply existsb_exists in Hscope as (x & Hx & ->%String.eqb_eq).
    by apply list_elem_of_In. }
  split; [| split; [congruence | split; [congruence |]]].
  - unfold own_reply in *. destruct rep; rewrite ?He, ?Hd in Hr; done.
  - intros i. specialize (Hoe i). by rewrite He in Hoe.
Qed.

(** ** The delivery log *)

Lemma find_delivery_some ep ev s i d :
  find_delivery ep ev s = Some (i, d) -> deliveries s !! i = Some d /\ EndpointID d = ep /\ d_EventID d = ev.
Proof.
  unfold find_delivery. intros [Hin Hd]%find_some. apply list_elem_of_In, elem_of_map_to_list in Hin. simpl in Hd.
  unfold delivery_of in Hd. apply andb_true_iff in Hd as [?%Z.eqb_eq ?%String.eqb_eq]. auto.
Qed.

Lemma find_delivery_none ep ev s i d :
  find_delivery ep ev s = None -> deliveries s !! i = Some d -> EndpointID d = ep -> d_EventID d = ev -> False.
Proof.
  unfold find_delivery. intros Hf Hd He Hv. eapply find_none in Hf.
  2:{ by apply list_elem_of_In, elem_of_map_to_list. }
  simpl in Hf. unfold delivery_of in Hf. by rewrite He, Hv, Z.eqb_refl, String.eqb_refl in Hf.
Qed.

Record log_inv (s : store) : Prop := {
  li_fresh i d : deliveries s !! i = Some d -> i < next_delivery s;
  li_pair i j d1 d2 : deliveries s !! i = Some d1 -> deliveries s !! j = Some d2 ->
    EndpointID d1 = EndpointID d2 -> d_EventID d1 = d_EventID d2 -> i = j;
  li_attempts i d : deliveries s !! i = Some d -> 1 <= Attempts d;
  li_delivered i d : deliveries s !! i = Some d -> Status d = StatusDelivered -> DeliveredAt d <> None
}.

(** A delivery's row later. *)
Definition log_kept (d d' : Delivery) : Prop :=
  EndpointID d' = EndpointID d /\ d_EventID d' = d_EventID d /\ d_EventType d' = d_EventType d /\
  d_Payload d' = d_Payload d /\ d_CreatedAt d' = d_CreatedAt d /\ Attempts d <= Attempts d' /\
  (Attempts d' = Attempts d -> d' = d) /\ (DeliveredAt d <> None -> DeliveredAt d' = DeliveredAt d).

Lemma log_kept_refl d : log_kept d d.
Proof. repeat split; auto; lia. Qed.

Lemma log_kept_trans a b c : log_kept a b -> log_kept b c -> log_kept a c.
Proof.
  unfold log_kept. intros (?&?&?&?&?&?&Hx&Hy) (?&?&?&?&?&?&Hx'&Hy').
  do 5 (split; [congruence |]). split; [lia |]. split.
  - intros. rewrite Hx' by lia. apply Hx. lia.
  - intros Hd. rewrite Hy'; rewrite Hy by done; done.
Qed.

(** What one statement does to the log. *)
Inductive log_change (s s' : store) : Prop :=
| same_log : deliveries s' = deliveries s -> next_delivery s <= next_delivery s' -> log_change s s'
| new_delivery d : deliveries s' = <[next_delivery s := d]> (deliveries s) -> next_delivery s' = next_delivery s + 1 ->
    find_delivery (EndpointID d) (d_EventID d) s = None -> Attempts d = 1 ->
    (Status d = StatusDelivered -> DeliveredAt d <> None) -> log_change s s'
| later_delivery i d d' : deliveries s !! i = Some d -> deliveries s' = <[i := d']> (deliveries s) ->
    next_delivery s' = next_delivery s + 1 -> log_kept d d' -> 
    (Status d' = StatusDelivered -> DeliveredAt d' <> None) -> log_change s s'.

Lemma attempt_change now up id ev status code excerpt err next s :
  log_change s (RecordDeliveryAttempt now up id ev status code excerpt err next s).2.
Proof.
  unfold RecordDeliveryAttempt. destruct up; [| by apply same_log]. cbn [negb].
  destruct (_ || _); [apply same_log; simpl; [done | lia] |].
  destruct (find_delivery _ _ _) as [[i d]|] eqn:Hf.
  - apply find_delivery_some in Hf as (Hi & _). eapply (later_delivery _ _ i d); try done; cbn.
    + unfold log_kept. cbn. do 5 (split; [done |]). split; [lia |]. split; [lia |]. by destruct (DeliveredAt d).
    + intros ->. by destruct (DeliveredAt d).
  - eapply new_delivery; try done. cbn. by intros ->.
Qed.

Lemma step_log s s' : step s s' -> log_change s s'.
Proof.
  destruct 1; try (by apply attempt_change);
    unfold CreateAPIKey, TouchKeyUsage, RevokeAPIKey, CreateWebhookEndpoint, DeactivateWebhookEndpoint;
    repeat case_match; by apply same_log.
Qed.

Lemma step_log_inv s s' : step s s' -> log_inv s -> log_inv s'.
Proof.
  intros Hs [Hf Hp Ha Hd]. destruct (step_log _ _ Hs) as [He Hn | d He Hn Hfind H1 Hdel | i d d' Hi He Hn Hk Hdel].
  - constructor; rewrite He; eauto. intros i d Hi. pose proof (Hf _ _ Hi). lia.
  - constructor; rewrite He.
    + intros j x [[<- _] | [_ Hj]]%lookup_insert_Some; [lia |]. pose proof (Hf _ _ Hj). lia.
    + intros i j x y [[<- <-] | [_ Hi]]%lookup_insert_Some [[<- <-] | [_ Hj]]%lookup_insert_Some; [done | | | eauto];
        intros E1 E2; exfalso; [eapply (find_delivery_none _ _ _ j y) | eapply (find_delivery_none _ _ _ i x)]; done.
    + intros j x [[<- <-] | [_ Hj]]%lookup_insert_Some; [lia | eauto].
    + intros j x [[<- <-] | [_ Hj]]%lookup_insert_Some; eauto.
  - destruct Hk as (K1 & K2 & _ & _ & _ & K3 & _).
    assert (forall j x, deliveries s' !! j = Some x -> exists x0, deliveries s !! j = Some x0 /\
      EndpointID x0 = EndpointID x /\ d_EventID x0 = d_EventID x /\ Attempts x0 <= Attempts x) as Hback.
    { intros j x. rewrite He. intros [[<- <-] | [_ Hj]]%lookup_insert_Some; eauto 10. exists x. repeat split; auto; lia. }
    constructor.
    + intros j x (x0 & Hj & _)%Hback. pose proof (Hf _ _ Hj). lia.
    + intros j1 j2 x1 x2 (y1 & Hj1 & E1 & E2 & _)%Hback (y2 & Hj2 & E3 & E4 & _)%Hback F1 F2.
      eapply Hp; [done | done | congruence | congruence].
    + intros j x (x0 & Hj & _ & _ & Hle)%Hback. pose proof (Ha _ _ Hj). lia.
    + intros j x. rewrite He. intros [[<- <-] | [_ Hj]]%lookup_insert_Some; eauto.
Qed.

Lemma step_log_kept s s' i d :
  step s s' -> log_inv s -> deliveries s !! i = Some d -> exists d', deliveries s' !! i = Some d' /\ log_kept d d'.
Proof.
  intros Hs Hi Hd. destruct (step_log _ _ Hs) as [He _ | d0 He _ _ _ _ | i0 d0 d0' Hi0 He _ Hk _]; rewrite He.
  - eauto using log_kept_refl.
  - rewrite lookup_insert_ne; [eauto using log_kept_refl |]. pose proof (li_fresh _ Hi _ _ Hd). lia.
  - destruct (decide (i0 = i)) as [-> |].
    + rewrite lookup_insert_eq. rewrite Hi0 in Hd. injection Hd as ->. eauto.
    + rewrite lookup_insert_ne by done. eauto using log_kept_refl.
Qed.

Lemma star_log s s' i d :
  star step s s' -> log_inv s -> log_inv s' /\
  (deliveries s !! i = Some d -> exists d', deliveries s' !! i = Some d' /\ log_kept d d').
Proof.
  intros Hs. revert d. induction Hs as [| s1 s2 s3 Hs _ IH]; intros d Hi; [split; eauto using log_kept_refl |].
  destruct (IH d (step_log_inv _ _ Hs Hi)) as [Hi3 _]. split; [done |]. intros Hd.
  destruct (step_log_kept _ _ _ _ Hs Hi Hd) as (d' & Hd' & Hk).
  destruct (IH d' (step_log_inv _ _ Hs Hi)) as [_ Hlater]. destruct (Hlater Hd') as (d'' & ? & ?).
  eauto using log_kept_trans.
Qed.

(** The delivery log is an audit trail: whatever the processes do, there is
    one row per endpoint and event, a row is never removed and keeps its
    event, every change to it is one more counted attempt, and the time of
    the first delivery is never lost. *)
Theorem delivery_log_kept s s' :
  log_inv s -> star step s s' ->
  log_inv s' /\
  forall i d, deliveries s !! i = Some d -> exists d', deliveries s' !! i = Some d' /\ log_kept d d'.
Proof.
  intros Hi Hs. split.
  - by destruct (star_log _ _ 0 (MkDelivery 0 EmptyString EmptyString (MkEvent EmptyString EmptyString 0 0) EmptyString
      0 None None None None 0 None) Hs Hi).
  - intros i d. by apply star_log.
Qed.

(** What an accepted statement records. *)
Lemma attempt_recorded now ep ev status code excerpt err next s :
  is_Some (endpoints s !! ep) -> valid_status status = true -> fits 64 (EventType ev) = true ->
  pg_text excerpt = true -> pg_text err = true ->
  let s' := (RecordDeliveryAttempt now true ep ev status code excerpt err next s).2 in
  exists i d, deliveries s' !! i = Some d /\ EndpointID d = ep /\ d_EventID d = EventID ev /\ Status d = status /\
    ResponseStatus d = code /\ LastError d = nullif_empty err /\ NextAttemptAt d = next /\
    Attempts d = 1 + match find_delivery ep (EventID ev) s with Some (_, d0) => Attempts d0 | None => 0 end /\
    (status = StatusDelivered -> DeliveredAt d <> None).
Proof.
  intros He Hs Ht Hx Hr. unfold RecordDeliveryAttempt. rewrite bool_decide_eq_true_2 by done. rewrite Hs, Ht, Hx, Hr.
  cbn [negb orb]. destruct (find_delivery _ _ _) as [[i d]|] eqn:Hf.
  - apply find_delivery_some in Hf as (Hi & ? & ?). exists i. eexists. cbn. rewrite lookup_insert_eq. split; [done |].
    cbn. repeat (split; [done || lia |]). intros ->. by destruct (DeliveredAt d).
  - exists (next_delivery s). eexists. cbn. rewrite lookup_insert_eq. split; [done |].
    cbn. repeat (split; [done || lia |]). by intros ->.
Qed.

(** ** At a concrete input *)

Definition empty_store : store := MkStore ∅ 1 ∅ 1 ∅ 1 [].

Lemma empty_inv : key_inv empty_store /\ log_inv empty_store.
Proof. split; constructor; intros *; unfold empty_store; cbn; rewrite lookup_empty; done. Qed.

Definition sample_env : Env :=
  MkEnv true (Some (MkEncryptor (fun s => Some ("enc:" +:+ s)) "v1")) true true true true true
    (Some [1; 2; 3; 4]) (Some (replicate 24 171)) (Some (replicate 32 7))
    (fun _ => Some (Egress.MkURL "https" "hook.example" "hook.example")) (fun _ => Some [Egress.IPv4 93 184 216 34])
    (fun _ => EmptyString).

Definition sample_request : createKeyRequest := MkKeyRequest "acme" [ScopeManageWebhooks] (Some 30) false.

Definition sample_key : APIKey :=
  MkKey "acme" "pk_live_01020304" [ScopeManageWebhooks] true None (Some (30 * Dates.day)) "owner" 0 None.

Definition sample_plaintext : string := "pk_live_01020304_abababababababababababababababababababababababab".

Definition sample_store : store := MkStore {[1 := (sample_key, sample_plaintext)]} 2 ∅ 1 ∅ 1 [("partner.key_created", "acme")]%string.

Lemma issued_key_until_revoked_witness :
  AuthenticateKey (fun s => s) 0 true sample_plaintext sample_store = Ok (Some (1, sample_key)) /\
  (exists k', keys sample_store !! 1 = Some (k', sample_plaintext) /\ kept sample_key k' /\
     Scopes k' = [ScopeManageWebhooks] /\
     forall now', AuthenticateKey (fun s => s) now' true sample_plaintext sample_store =
       Ok (if Active k' && unexpired now' k' then Some (1, k') else None)).
Proof.
  split; [vm_compute; reflexivity |].
  exact (proj1 (issued_key_until_revoked (fun s => s) 0 sample_env "owner" sample_request empty_store 1 sample_key
    sample_plaintext sample_store sample_store (proj1 empty_inv) eq_refl eq_refl ltac:(vm_compute; reflexivity)
    (star_refl _ _))).
Defined.

Lemma partner_isolated_witness :
  let '((code, rep), s') := manageWebhooks (fun s => s) 0 sample_env (bearer +:+ sample_plaintext) PList sample_store in
  code = 200 /\ rep = REndpoints [] /\
  ((exists id, own_reply id sample_store s' rep /\ others_kept id sample_store s') \/ rep = RNone).
Proof.
  pose proof (partner_isolated (fun s => s) 0 sample_env (bearer +:+ sample_plaintext) PList sample_store
    ltac:(intros i ep; cbn; rewrite lookup_empty; done)) as H.
  destruct (manageWebhooks _ _ _ _ _ _) as [[code rep] s'] eqn:E.
  apply (f_equal fst) in E. vm_compute in E. injection E as <- <-.
  split; [done |]. split; [done |]. left. destruct H as [(id & k & _ & _ & _ & _ & _ & H) | (_ & H & _)]; [eauto | done].
Defined.

Lemma delivery_log_kept_witness :
  let s' := (RecordDeliveryAttempt 5 true 1 (MkEvent "e" EventSubscriberCreated 7 0) StatusPending None EmptyString
               EmptyString None empty_store).2 in
  log_inv s' /\
  (forall i d, deliveries empty_store !! i = Some d -> exists d', deliveries s' !! i = Some d' /\ log_kept d d').
Proof.
  exact (delivery_log_kept empty_store _ (proj2 empty_inv) (star_one _ _ _ (step_attempt 5 true 1
    (MkEvent "e" EventSubscriberCreated 7 0) StatusPending None EmptyString EmptyString None empty_store))).
Defined.
End Partner.
