(* ===== verification/Webhooks.v ===== *)
(** * Outbound webhooks: signing, fan-out and delivery

    internal/partner/webhook.go and dispatch.go over the tables of Partner, the
    client of Egress and the queue of Jobqueue. HMAC-SHA256, encoding/json, the
    keystore's cipher, the random event id and what the network answers are
    arguments; instants and durations are nanoseconds. *)

From S2P Require Import Prelude GoStrings Rows Dates Json Jobqueue Egress Partner.
From Stdlib Require Import Ascii.
From stdpp Require Import sorting.

Local Open Scope Z_scope.

Module Webhooks.

Import Partner.

Definition second : Z := Dates.second.
Definition minute : Z := 60 * second.
Definition hour : Z := 3600 * second.

(** ** Signatures (webhook.go) *)

Definition comma : ascii := ","%char.

(** [time.Unix(unix, 0)], whose seconds since year 1 wrap. *)
Definition unixToInternal : Z := 62135596800.
Definition unix_instant (unix : Z) : Z := (i64 (unix + unixToInternal) - unixToInternal) * second.

(** [now.Sub(u)] saturates. *)
Definition Sub (t u : Z) : Z := Z.max (- 2 ^ 63) (Z.min max_int64 (t - u)).

(** The scan of the header's parts: the last of each kind counts. *)
Definition signature_part (acc : string * string) (part : string) : string * string :=
  if (2 <? String.length part)%nat && String.prefix "t=" part then (trim_prefix "t=" part, acc.2)
  else if (3 <? String.length part)%nat && String.prefix "v1=" part then (acc.1, trim_prefix "v1=" part)
  else acc.

Definition splitComma (s : string) : list string := split_on comma s.

Section Crypto.
(** [hmac_hex secret message]: HMAC-SHA256 in lower-case hexadecimal. *)
Context (hmac_hex : string -> string -> string).

Definition sign_at (secret : string) (unix : Z) (body : string) : string :=
  "t=" +:+ (format_int unix +:+
    (",v1=" +:+ hmac_hex secret (format_int unix +:+ String "." body))).

Definition Sign (secret : string) (timestamp : Z) (body : string) : string :=
  sign_at secret (timestamp / second) body.

Definition VerifySignature (secret header body : string) (now tolerance : Z) : bool :=
  let '(ts, sig) := foldl signature_part (EmptyString, EmptyString) (splitComma header) in
  if String.eqb ts EmptyString || String.eqb sig EmptyString then false
  else match atoi ts with
       | None => false
       | Some unix =>
           let age := Sub now (unix_instant unix) in
           if (age <? i64 (- tolerance)) || (tolerance <? age) then false
           else String.eqb (sign_at secret unix body) header
       end.

(** ** Events and their fan-out *)

Definition NewEvent (eventType : string) (entityID occurredAt : Z) (id : string) : option Event :=
  if existsb (String.eqb eventType) ValidEvents then Some (MkEvent id eventType entityID occurredAt) else None.

Definition TaskTypeWebhook : string := "partner:webhook".
Definition QueueWebhooks : string := "webhooks".
Definition MaxAttempts : Z := 8.
Definition deliveryTimeout : Z := 20 * second.
Definition excerptLimit : nat := 512.

Record TaskPayload : Type := MkPayload {
  p_EndpointID : Z; p_URL : string; SecretEncrypted : string; p_Event : Event
}.

Context (marshal_task : TaskPayload -> option (list Z)) (unmarshal_task : list Z -> option TaskPayload)
  (marshal_event : Event -> option string).

Definition task_of (p : TaskPayload) (payload : list Z) : Jobqueue.Task :=
  Jobqueue.NewTask TaskTypeWebhook payload
    [Jobqueue.Queue QueueWebhooks; Jobqueue.MaxRetry MaxAttempts; Jobqueue.Timeout_ (deliveryTimeout + 10 * second)].

Definition payload_of (ev : Event) (p : Z * WebhookEndpoint) : TaskPayload :=
  MkPayload p.1 (EndpointURL p.2) (secret_encrypted p.2) ev.

Definition enqueue_one (now : Z) (up : Z -> bool) (ev : Event) (q : Jobqueue.table) (p : Z * WebhookEndpoint) :
    Jobqueue.table :=
  match marshal_task (payload_of ev p) with
  | None => q
  | Some payload => (Jobqueue.EnqueueContext now (up p.1) (task_of (payload_of ev p) payload) [] q).2
  end.

(** [enabled]: a store and a queue client are configured. *)
Definition Emit (now : Z) (enabled read_up : bool) (enqueue_up : Z -> bool) (uuid : string) (eventType : string)
    (entityID : Z) (s : store) (q : Jobqueue.table) : Jobqueue.table :=
  if negb enabled then q
  else match NewEvent eventType entityID now uuid with
       | None => q
       | Some ev =>
           match SubscribersFor now read_up eventType s with
           | Err _ => q
           | Ok endpoints => foldl (enqueue_one now enqueue_up ev) q endpoints
           end
       end.

(** ** Delivery (dispatch.go) *)

Record Request : Type := MkRequest {
  r_URL : string; r_Body : string; r_Signature : string; r_EventID : string; r_EventType : string; r_Timestamp : string
}.

Inductive outcome : Type := outcomeOK | outcomeBlocked | outcomeFailed.

(** [dial_addresses]: what the dialler is given for a URL, [None] when no
    request can be built; [net]: what the peer at an address does with the
    request; [race]: how dialling both families goes; [error_text]: how an error of the client prints. *)
Record SendEnv : Type := MkSendEnv {
  decrypt : string -> option string;
  dial_addresses : string -> option (list string);
  net : Request -> string -> Egress.peer;
  race : Egress.race;
  error_text : Egress.error -> string;
  record_up : bool
}.

Definition blocked_text (host : string) : string :=
  "partner: webhook target " +:+ (host +:+ " is in a private or reserved range").

(** The first [n] bytes. *)
Definition first_bytes (n : nat) (s : string) : string := String.substring 0 n s.

Definition request_of (now : Z) (p : TaskPayload) (secret body : string) : Request :=
  MkRequest (p_URL p) body (Sign secret now body) (EventID (p_Event p)) (EventType (p_Event p))
    (format_int (now / second)).

(** The outcome, the response's status and excerpt, the error's text, and the
    addresses a connection was opened to. *)
Definition send (now : Z) (e : SendEnv) (p : TaskPayload) (secret body : string) :
    (outcome * option Z * string * option string) * list string :=
  match dial_addresses e (p_URL p) with
  | None => ((outcomeFailed, None, EmptyString, Some "build request"%string), [])
  | Some addresses =>
      match Egress.Do (net e (request_of now p secret body)) (race e) addresses with
      | (Err (Egress.ErrBlockedAddress host), opened) =>
          ((outcomeBlocked, None, EmptyString, Some (blocked_text host)), opened)
      | (Err x, opened) => ((outcomeFailed, None, EmptyString, Some (error_text e x)), opened)
      | (Ok resp, opened) =>
          let status := Egress.StatusCode resp in
          let excerpt := first_bytes excerptLimit (Egress.Body resp) in
          if (200 <=? status) && (status <? 300) then ((outcomeOK, Some status, excerpt, None), opened)
          else ((outcomeFailed, Some status, excerpt, Some ("partner returned HTTP " +:+ format_int status)%string), opened)
      end
  end.

Definition backoffSchedule : list Z :=
  [1 * minute; 2 * minute; 4 * minute; 8 * minute; 16 * minute; 32 * minute; 64 * minute; 2 * hour].

Definition backoff (attempt : Z) : Z :=
  if attempt <? 0 then default 0 (backoffSchedule !! 0%nat)
  else if Z.of_nat (length backoffSchedule) <=? attempt then 6 * hour
  else default 0 (backoffSchedule !! Z.to_nat attempt).

Definition recordWithNext (now : Z) (e : SendEnv) (p : TaskPayload) (status : string) (respStatus : option Z)
    (excerpt errStr : string) (next : option Z) (s : store) : store :=
  (RecordDeliveryAttempt now (record_up e) (p_EndpointID p) (p_Event p) status respStatus excerpt errStr next s).2.

Definition record (now : Z) (e : SendEnv) (p : TaskPayload) (status : string) (respStatus : option Z)
    (excerpt errStr : string) (s : store) : store :=
  recordWithNext now e p status respStatus excerpt errStr None s.

(** What the queue is told, and what is recorded; the last component is what
    went out and where to. *)
Definition ProcessTask (now : Z) (e : SendEnv) (attempt : Z) (payload : list Z) (s : store) :
    (Jobqueue.outcome * store) * list string :=
  match unmarshal_task payload with
  | None => ((Jobqueue.Failed "partner: unmarshal webhook task" true, s), [])
  | Some p =>
      match decrypt e (SecretEncrypted p) with
      | None =>
          ((Jobqueue.Failed "partner: decrypt webhook secret" true,
            record now e p StatusAbandoned None EmptyString "signing secret could not be decrypted" s), [])
      | Some secret =>
          match marshal_event (p_Event p) with
          | None => ((Jobqueue.Failed "partner: marshal webhook body" true, s), [])
          | Some body =>
              let '((o, status, excerpt, sendErr), opened) := send now e p secret body in
              (match sendErr with
               | None => (Jobqueue.Succeeded, record now e p StatusDelivered status excerpt EmptyString s)
               | Some err =>
                   match o with
                   | outcomeBlocked =>
                       (Jobqueue.Failed ("partner: " +:+ err) true, record now e p StatusAbandoned status excerpt err s)
                   | _ =>
                       if MaxAttempts <=? attempt + 1
                       then (Jobqueue.Failed
                               ("partner: webhook abandoned after " +:+ (format_int (attempt + 1) +:+ (" attempts: " +:+ err)))
                               false,
                             record now e p StatusAbandoned status excerpt err s)
                       else (Jobqueue.Failed err false,
                             recordWithNext now e p StatusPending status excerpt err (Some (now + backoff attempt)) s)
                   end
               end, opened)
          end
      end
  end.

(** One claimed task run to its end by a worker. *)
Definition deliver (now : Z) (e : SendEnv) (ct : Jobqueue.claimedTask) (s : store) (q : Jobqueue.table) :
    store * Jobqueue.table :=
  let '((o, s'), _) := ProcessTask now e (Jobqueue.ct_retryCount ct) (Jobqueue.ct_payload ct) s in
  (s', Jobqueue.finish now None ct o q).
End Crypto.

(** ** Signatures *)

Lemma parse_uint_pretty max (x : N) : Z.of_N x <= max -> parse_uint max (pretty x) = Some (Z.of_N x).
Proof.
  intros Hx. pose proof (Json.digits_value_pretty x) as Hv. unfold parse_uint.
  destruct (pretty x) eqn:Hp; [by apply Json.pretty_nonempty in Hp |]. rewrite Hv.
  by rewrite (proj2 (Z.leb_le _ _) Hx).
Qed.

Lemma atoi_range s z : atoi s = Some z -> - 2 ^ 63 <= z <= max_int64.
Proof.
  unfold atoi, max_int64. destruct s as [| c t]; [done |]. destruct (Ascii.eqb c "+"); [| destruct (Ascii.eqb c "-")].
  - intros H%parse_uint_range. lia.
  - destruct (parse_uint _ t) as [n|] eqn:Hn; [| done]. apply parse_uint_range in Hn. intros [= <-]. lia.
  - intros H%parse_uint_range. lia.
Qed.

Lemma atoi_format_int z : - 2 ^ 63 <= z <= max_int64 -> atoi (format_int z) = Some z.
Proof.
  intros Hz. unfold format_int.
  assert (forall x : N, Z.of_N x <= max_int64 -> atoi (pretty x) = Some (Z.of_N x)) as Hpos.
  { intros x Hx. pose proof (parse_uint_pretty max_int64 x Hx) as Hp. pose proof (Json.pretty_decimal x) as Hd.
    unfold atoi. destruct (pretty x) as [| c t]; [done |]. simpl in Hd. apply andb_true_iff in Hd as [Hc _].
    destruct (Ascii.eqb_spec c "+") as [-> |]; [done |]. by destruct (Ascii.eqb_spec c "-") as [-> |]. }
  destruct z as [| p | p].
  - done.
  - apply (Hpos (N.pos p)). lia.
  - change (atoi (String "-" (pretty (N.pos p))) = Some (Z.neg p)). unfold atoi. cbn [Ascii.eqb Bool.eqb].
    rewrite parse_uint_pretty by (unfold max_int64; lia). done.
Qed.

Lemma format_int_no_comma z : string_forall (fun d => negb (Ascii.eqb d comma)) (format_int z) = true.
Proof.
  eapply string_forall_impl; [| apply format_int_chars]. intros c Hc.
  destruct (Ascii.eqb_spec c comma) as [-> |]; [by vm_compute in Hc | done].
Qed.

Lemma format_int_nonempty z : format_int z <> EmptyString.
Proof. destruct z as [| p | p]; [done | | done]. apply (Json.pretty_nonempty (N.pos p)). Qed.

Section Signatures.
Context (hmac_hex : string -> string -> string).

(** The digest in hexadecimal: sixty-four characters, none of them a comma. *)
Hypothesis hmac_hex_spec : forall secret message,
  string_forall hex_char (hmac_hex secret message) = true /\ String.length (hmac_hex secret message) = 64%nat.

Lemma header_parts secret unix body :
  foldl signature_part (EmptyString, EmptyString) (splitComma (sign_at hmac_hex secret unix body)) =
  (format_int unix, hmac_hex secret (format_int unix +:+ String "." body)).
Proof using hmac_hex_spec.
  destruct (hmac_hex_spec secret (format_int unix +:+ String "." body)) as [Hc Hl].
  set (sig := hmac_hex _ _) in *. unfold sign_at, splitComma. fold sig.
  change ("t=" +:+ (format_int unix +:+ (",v1=" +:+ sig)))%string with
    (("t=" +:+ format_int unix) +:+ String comma ("v1=" +:+ sig))%string.
  rewrite split_on_app by (simpl; apply format_int_no_comma). rewrite split_on_none.
  2:{ simpl. eapply string_forall_impl; [| exact Hc]. intros c. destruct (Ascii.eqb_spec c comma) as [-> |]; [| done].
      by vm_compute. }
  simpl. pose proof (format_int_nonempty unix).
  destruct (format_int unix) as [| c t]; [done |]. destruct sig as [| d r]; [done |]. simpl. 
  done.
Qed.

(** The seconds [Sign] writes are read back. *)
Definition fresh (unix now tolerance : Z) : bool :=
  negb ((Sub now (unix_instant unix) <? i64 (- tolerance)) || (tolerance <? Sub now (unix_instant unix))).

Lemma verify_exact secret header body now tolerance :
  VerifySignature hmac_hex secret header body now tolerance = true <->
  exists unix, - 2 ^ 63 <= unix <= max_int64 /\ header = sign_at hmac_hex secret unix body /\
    fresh unix now tolerance = true.
Proof using hmac_hex_spec.
  unfold VerifySignature. split.
  - destruct (foldl _ _ _) as [ts sig]. destruct (_ || _); [done |]. destruct (atoi ts) as [unix|] eqn:Ha; [| done].
    unfold fresh. destruct ((_ <? _) || _) eqn:Hf; [done |]. intros He%String.eqb_eq. exists unix.
    split; [by eapply atoi_range |]. by rewrite Hf.
  - intros (unix & Hr & -> & Hf). rewrite header_parts. pose proof (format_int_nonempty unix) as Hn.
    apply String.eqb_neq in Hn. rewrite Hn.
    destruct (hmac_hex_spec secret (format_int unix +:+ String "." body)) as [_ Hl].
    set (sig := hmac_hex _ _) in *. replace (String.eqb sig EmptyString) with false by (by destruct sig).
    cbn [orb]. rewrite atoi_format_int by done. unfold fresh in Hf. apply negb_true_iff in Hf. rewrite Hf.
    apply String.eqb_refl.
Qed.

Lemma sign_at_inj s1 s2 u1 u2 b1 b2 :
  sign_at hmac_hex s1 u1 b1 = sign_at hmac_hex s2 u2 b2 ->
  u1 = u2 /\ hmac_hex s1 (format_int u1 +:+ String "." b1) = hmac_hex s2 (format_int u1 +:+ String "." b2).
Proof using hmac_hex_spec.
  intros E. pose proof (header_parts s1 u1 b1) as H1. rewrite E, header_parts in H1.
  injection H1 as Hu Hh. apply format_int_inj in Hu as ->. done.
Qed.

Lemma fresh_window unix now tolerance :
  - 2 ^ 63 <= unix <= max_int64 -> 0 <= now <= max_int64 -> 0 <= tolerance < max_int64 ->
  fresh unix now tolerance = true <-> Z.abs (now - unix * second) <= tolerance.
Proof.
  intros Hu Hn Ht. unfold fresh, Sub, unix_instant, unixToInternal.
  rewrite i64_small with (z := - tolerance) by (unfold max_int64 in *; lia).
  destruct (Z.le_gt_cases unix (max_int64 - 62135596800)).
  - rewrite i64_small by (unfold max_int64 in *; lia).
    replace (unix + 62135596800 - 62135596800) with unix by lia.
    rewrite negb_true_iff, orb_false_iff, Z.ltb_ge, Z.ltb_ge. unfold max_int64 in *. lia.
  - replace (i64 (unix + 62135596800)) with (unix + 62135596800 - 2 ^ 64).
    2:{ unfold i64, max_int64 in *. rewrite <- (Z.mod_add (unix + 62135596800 + 2 ^ 63) (-1) (2 ^ 64)) by lia.
        rewrite Z.mod_small; lia. }
    rewrite negb_true_iff, orb_false_iff, Z.ltb_ge, Z.ltb_ge. unfold max_int64, second, Dates.second in *. lia.
Qed.

Lemma sign_window secret body now tolerance t :
  0 <= now <= max_int64 -> 0 <= tolerance < max_int64 -> - 2 ^ 63 <= t / second <= max_int64 ->
  VerifySignature hmac_hex secret (Sign hmac_hex secret t body) body now tolerance = true <->
  Z.abs (now - t / second * second) <= tolerance.
Proof using hmac_hex_spec.
  intros Hn Ht Hu. rewrite verify_exact. rewrite <- fresh_window by done. split.
  - by intros (unix & _ & [-> _]%sign_at_inj & Hf).
  - intros Hf. eauto.
Qed.


(** The receiver's check accepts what [Sign] made with the same secret and
    body exactly while the signing second is within the tolerance, and
    accepts nothing else: an accepted header is one [Sign] makes with that
    secret for that very body at a second within the tolerance, so a captured
    delivery passes with another body only if HMAC collides. *)
Theorem webhook_signature_exact secret body now tolerance :
  0 <= now <= max_int64 -> 0 <= tolerance < max_int64 ->
  (forall t, - 2 ^ 63 <= t / second <= max_int64 ->
     VerifySignature hmac_hex secret (Sign hmac_hex secret t body) body now tolerance = true <->
     Z.abs (now - t / second * second) <= tolerance) /\
  (forall header, VerifySignature hmac_hex secret header body now tolerance = true ->
     exists t, header = Sign hmac_hex secret t body /\ Z.abs (now - t) <= tolerance) /\
  (forall secret0 t body0,
     VerifySignature hmac_hex secret (Sign hmac_hex secret0 t body0) body now tolerance = true ->
     let signed b := format_int (t / second) +:+ String "." b in
     hmac_hex secret (signed body) = hmac_hex secret0 (signed body0)).
Proof using hmac_hex_spec.
  intros Hn Ht. split; [| split].
  - intros t Hu. by apply sign_window.
  - intros header (unix & Hu & -> & Hf)%verify_exact. exists (unix * second). unfold Sign.
    rewrite Z.div_mul by done. split; [done | by apply fresh_window].
  - intros secret0 t body0 (unix & _ & E & _)%verify_exact. unfold Sign in E. apply sign_at_inj in E as [_ E]. by symmetry.
Qed.
End Signatures.

(** ** Delivery *)

Section Deliver.
Context (hmac_hex : string -> string -> string) (unmarshal_task : list Z -> option TaskPayload)
  (marshal_event : Event -> option string).




End Deliver.

(** ** Fan-out *)

Lemma NoDup_filter_fst {A B} (f : A * B -> bool) (l : list (A * B)) : NoDup l.*1 -> NoDup (List.filter f l).*1.
Proof.
  induction l as [| p l IH]; simpl; [done |]. intros [Hn Hl]%NoDup_cons. destruct (f p); [| by apply IH].
  simpl. constructor; [| by apply IH]. intros (x & Hx & Hin)%list_elem_of_fmap. apply Hn, list_elem_of_fmap.
  exists x. split; [done |]. by apply elem_of_filterb in Hin as [? _].
Qed.


Section FanOut.
Context (marshal_task : TaskPayload -> option (list Z)).

(** [json.Marshal] does not fail on this type. *)
Hypothesis marshal_total : forall p, is_Some (marshal_task p).

Definition webhook_row (now : Z) (ev : Event) (p : Z * WebhookEndpoint) : Jobqueue.TaskRow :=
  Jobqueue.MkRow None QueueWebhooks TaskTypeWebhook (default [] (marshal_task (payload_of ev p))) Jobqueue.Pending
    MaxAttempts 0 (Some 30) now None None None None None.

Lemma enqueue_one_spec now up ev q p :
  enqueue_one marshal_task now up ev q p =
  if up p.1 then Jobqueue.MkTable (<[Jobqueue.next_id q := webhook_row now ev p]> (Jobqueue.rows q)) (Jobqueue.next_id q + 1)
  else q.
Proof using marshal_total.
  unfold enqueue_one, webhook_row. destruct (marshal_total (payload_of ev p)) as [bytes ->].
  unfold Jobqueue.EnqueueContext. destruct (up p.1); [| done]. unfold Jobqueue.with_rows, Jobqueue.enqueued_row. cbn. by rewrite Z.add_0_r.
Qed.

Lemma fan_out_rows now up ev eps q :
  let q' := foldl (enqueue_one marshal_task now up ev) q eps in
  let sent := List.filter (fun p => up p.1) eps in
  Jobqueue.next_id q' = Jobqueue.next_id q + Z.of_nat (length sent) /\
  (forall i, i < Jobqueue.next_id q -> Jobqueue.rows q' !! i = Jobqueue.rows q !! i) /\
  (forall n p, sent !! n = Some p -> Jobqueue.rows q' !! (Jobqueue.next_id q + Z.of_nat n) = Some (webhook_row now ev p)) /\
  (forall i, Jobqueue.next_id q' <= i -> Jobqueue.rows q' !! i = Jobqueue.rows q !! i).
Proof using marshal_total.
  revert q. induction eps as [| p eps IH]; intros q; simpl.
  { split; [lia |]. by repeat split. }
  destruct (IH (enqueue_one marshal_task now up ev q p)) as (Hn & Hlow & Hmid & Hhigh).
  rewrite enqueue_one_spec in *. destruct (up p.1); simpl in *; [| by repeat split]. split; [lia |]. split; [| split].
  - intros i Hi. rewrite Hlow by lia. by rewrite lookup_insert_ne by lia.
  - intros [| n] p' Hp'; simpl in Hp'.
    + injection Hp' as <-. rewrite Z.add_0_r, Hlow by lia. by rewrite lookup_insert_eq.
    + rewrite <- (Hmid _ _ Hp'). f_equal. lia.
  - intros i Hi. rewrite Hhigh by lia. by rewrite lookup_insert_ne by lia.
Qed.

(** An event of a known type puts exactly one task per subscribed endpoint
    into the queue - the endpoints that are active, list the type and belong
    to a key neither revoked nor expired, in id order - each with the retries,
    time limit and queue of webhooks and the endpoint's own copy; one that
    cannot be enqueued does not touch the others, and nothing already queued
    changes. An unknown type enqueues nothing. *)
Theorem one_task_per_subscriber now up uuid eventType entityID s q :
  let q' := Emit marshal_task now true true up uuid eventType entityID s q in
  if existsb (String.eqb eventType) ValidEvents then
    let ev := MkEvent uuid eventType entityID now in
    exists eps, NoDup eps.*1 /\ StronglySorted by_id eps /\
      (forall id ep, (id, ep) ∈ eps <-> endpoints s !! id = Some ep /\ e_Active ep = true /\ eventType ∈ Events ep /\
         exists k h, keys s !! APIKeyID ep = Some (k, h) /\ Active k = true /\ unexpired now k = true) /\
      let sent := List.filter (fun p => up p.1) eps in
      Jobqueue.next_id q' = Jobqueue.next_id q + Z.of_nat (length sent) /\
      (forall n p, sent !! n = Some p ->
         Jobqueue.rows q' !! (Jobqueue.next_id q + Z.of_nat n) = Some (webhook_row now ev p)) /\
      (forall i, i < Jobqueue.next_id q \/ Jobqueue.next_id q' <= i -> Jobqueue.rows q' !! i = Jobqueue.rows q !! i)
  else q' = q.
Proof using marshal_total.
  unfold Emit, NewEvent. cbn [negb]. destruct (existsb _ ValidEvents); [| done]. cbv zeta. unfold SubscribersFor. cbn [negb].
  set (ev := MkEvent uuid eventType entityID now). set (l := List.filter _ _).
  exists (merge_sort by_id l). split.
  { rewrite merge_sort_Permutation. unfold l. apply NoDup_filter_fst, NoDup_fst_map_to_list. }
  split; [apply StronglySorted_merge_sort; apply _ |]. split.
  { intros id ep. rewrite merge_sort_Permutation. unfold l. rewrite elem_of_filterb, elem_of_map_to_list.
    apply and_iff_compat_l. unfold subscribed. cbn [snd]. rewrite !andb_true_iff, existsb_exists. split.
    - intros [[Ha (x & Hx & ->%String.eqb_eq)] Hk]. split; [done |]. split; [by apply list_elem_of_In |].
      destruct (keys s !! _) as [[k h]|]; [| done]. apply andb_true_iff in Hk. eauto.
    - intros (Ha & Hin & k & h & -> & Hact & Hexp). split; [split; [done |] | by rewrite Hact, Hexp].
      exists eventType. split; [by apply list_elem_of_In | apply String.eqb_refl]. }
  destruct (fan_out_rows now up ev (merge_sort by_id l) q) as (Hn & Hlow & Hmid & Hhigh).
  split; [done |]. split; [done |]. intros i [Hi | Hi]; auto.
Qed.
End FanOut.

(** ** Where the log and the queue disagree *)

(** The log announces the next attempt later than the queue will make it. *)
Lemma schedules_differ attempt : 0 <= attempt < 7 -> Jobqueue.backoff attempt < backoff attempt.
Proof.
  intros Ha. assert (exists n, (n < 7)%nat /\ attempt = Z.of_nat n) as (n & Hn & ->)
    by (exists (Z.to_nat attempt); lia).
  do 7 (destruct n as [| n]; [by vm_compute |]). lia.
Qed.

(** The eighth failure is logged as abandoned, and the queue, which counts
    eight retries after the first attempt, puts the task back. *)
Lemma abandoned_goes_back hmac_hex unmarshal_task marshal_event now e ct s q r m s' opened :
  Jobqueue.rows q !! Jobqueue.ct_id ct = Some r -> Jobqueue.ct_retryCount ct = MaxAttempts - 1 ->
  Jobqueue.ct_maxRetry ct = MaxAttempts ->
  ProcessTask hmac_hex unmarshal_task marshal_event now e (MaxAttempts - 1) (Jobqueue.ct_payload ct) s =
    ((Jobqueue.Failed m false, s'), opened) ->
  Jobqueue.rows (deliver hmac_hex unmarshal_task marshal_event now e ct s q).2 !! Jobqueue.ct_id ct =
    Some (Jobqueue.retried_row now (2 * hour) m r).
Proof.
  intros Hr Hc Hm Hp. unfold deliver. rewrite Hc, Hp. cbn [snd Jobqueue.finish orb]. rewrite Hc, Hm.
  change (MaxAttempts <=? MaxAttempts - 1) with false. cbn iota. unfold Jobqueue.with_rows. cbn [Jobqueue.rows].
  assert (Jobqueue.backoff (MaxAttempts - 1) = 2 * hour) as -> by (vm_compute; reflexivity).
  rewrite lookup_alter_eq, Hr. reflexivity.
Qed.

(** What a run tells the queue and whom it connects to does not depend on
    the tables: a task queued before its key was revoked, or its endpoint
    removed, is still delivered. *)
Lemma queued_ignores_revocation hmac_hex unmarshal_task marshal_event now e attempt payload s1 s2 :
  (ProcessTask hmac_hex unmarshal_task marshal_event now e attempt payload s1).1.1 =
    (ProcessTask hmac_hex unmarshal_task marshal_event now e attempt payload s2).1.1 /\
  (ProcessTask hmac_hex unmarshal_task marshal_event now e attempt payload s1).2 =
    (ProcessTask hmac_hex unmarshal_task marshal_event now e attempt payload s2).2.
Proof.
  unfold ProcessTask. destruct (unmarshal_task payload) as [p|]; [| done].
  destruct (decrypt e _) as [secret|]; [| done]. destruct (marshal_event _) as [body|]; [| done].
  destruct (send _ _ _ _ _ _) as [[[[o code] excerpt] [err|]] opened]; [| done]. by destruct o, (MaxAttempts <=? attempt + 1).
Qed.

(** ** A delivery, run *)

Module Sample.
Definition hmac (secret message : string) : string := string_of_bytes (replicate 64 48).
Definition ev : Event := MkEvent "e-1" EventSubscriberCreated 7 0.
Definition task : TaskPayload := MkPayload 1 "https://hook.example/x" "cipher" ev.
Definition marshal (p : TaskPayload) : option (list Z) := Some [p_EndpointID p].
Definition unmarshal (b : list Z) : option TaskPayload := match b with [1] => Some task | _ => None end.
Definition body (ev : Event) : option string := Some "{}"%string.
Definition key : APIKey := MkKey "acme" "pk_live_00000000" [ScopeManageWebhooks] true None None "owner" 0 None.
Definition endpoint : WebhookEndpoint :=
  MkEndpoint 1 "https://hook.example/x" [EventSubscriberCreated] true None 0 "cipher" "v1".
Definition tables : store := MkStore {[1 := (key, EmptyString)]} 2 {[1 := endpoint]} 2 ∅ 1 [].
Definition queue : Jobqueue.table := Jobqueue.MkTable ∅ 1.
Definition answering (status : Z) (text : string) : SendEnv :=
  MkSendEnv Some (fun _ => Some ["93.184.216.34:443"%string])
    (fun _ _ => Egress.Accepts (Some (Egress.MkResponse status None text))) (Egress.MkRace false false) (fun _ => EmptyString) true.

(** One worker: claims what is due and runs it. *)
Definition work (now : Z) (e : SendEnv) (s : store) (q : Jobqueue.table) : store * Jobqueue.table :=
  match Jobqueue.claimNext now (60 * second) "w" [QueueWebhooks] q with
  | (None, _) => (s, q)
  | (Some ct, q) => deliver hmac unmarshal body now e ct s q
  end.

Fixpoint failing (n : nat) (now : Z) (sq : store * Jobqueue.table) : store * Jobqueue.table :=
  match n with O => sq | S n => failing n (now + 2 * hour) (work now (answering 500 EmptyString) sq.1 sq.2) end.

Definition emitted : Jobqueue.table := Emit marshal 0 true true (fun _ => true) "e-1" EventSubscriberCreated 7 tables queue.

(** How the log has the delivery, and how the queue has its task. *)
Definition shown (sq : store * Jobqueue.table) : list (string * Z) * list (Jobqueue.Status * Z) :=
  (map (fun p => (Status p.2, Attempts p.2)) (map_to_list (deliveries sq.1)),
   map (fun p => (Jobqueue.status p.2, Jobqueue.retry_count p.2)) (map_to_list (Jobqueue.rows sq.2))).
End Sample.

(** Abandoned after eight attempts, delivered at the ninth. *)
Example ninth_attempt :
  let eight := Sample.failing 8 0 (Sample.tables, Sample.emitted) in
  Sample.shown eight = ([(StatusAbandoned, 8)], [(Jobqueue.Pending, 8)]) /\
  Sample.shown (Sample.work (24 * hour) (Sample.answering 200 EmptyString) eight.1 eight.2) =
    ([(StatusDelivered, 9)], []).
Proof. vm_compute. split; reflexivity. Qed.

(** A response cut at 512 bytes inside a character cannot be stored: the
    delivery succeeds and leaves no row. *)
Example cut_excerpt_is_not_logged :
  let text := string_of_bytes (replicate 511 97 ++ [195; 169]) in
  pg_text text = true /\
  Sample.shown (Sample.work 0 (Sample.answering 200 text) Sample.tables Sample.emitted) = ([], []).
Proof. vm_compute. split; reflexivity. Qed.

(** ** At a concrete input *)

Lemma sample_hmac_spec secret message :
  string_forall hex_char (Sample.hmac secret message) = true /\ String.length (Sample.hmac secret message) = 64%nat.
Proof. split; reflexivity. Qed.

Lemma webhook_signature_exact_witness :
  let now := 1755000000 * second in
  VerifySignature Sample.hmac "s" (Sign Sample.hmac "s" now "{}") "{}" (now + 299 * second) (300 * second) = true /\
  VerifySignature Sample.hmac "s" (Sign Sample.hmac "s" now "{}") "{}" (now + 301 * second) (300 * second) = false.
Proof.
  intros now. split; [| vm_compute; reflexivity].
  apply (proj1 (webhook_signature_exact Sample.hmac sample_hmac_spec "s" "{}" (now + 299 * second) (300 * second)
    ltac:(vm_compute; split; discriminate) ltac:(vm_compute; split; [discriminate | reflexivity])) now);
    vm_compute; [split |]; discriminate.
Defined.


Lemma one_task_per_subscriber_witness :
  Jobqueue.next_id Sample.emitted = 2 /\
  Jobqueue.rows Sample.emitted !! 1 = Some (webhook_row Sample.marshal 0 Sample.ev (1, Sample.endpoint)) /\
  exists eps : list (Z * WebhookEndpoint), NoDup eps.*1.
Proof.
  split; [vm_compute; reflexivity |]. split; [vm_compute; reflexivity |].
  destruct (one_task_per_subscriber Sample.marshal ltac:(intros p; eexists; reflexivity) 0 (fun _ => true) "e-1"
    EventSubscriberCreated 7 Sample.tables Sample.queue) as (eps & H & _). by exists eps.
Defined.
End Webhooks.
