(* ===== verification/Tickets.v ===== *)
(** * Support tickets and their SLA clocks

    internal/db/tickets.go, ticket_sla.go and sla.go over the tables of
    migrations 009, 023 and 031, internal/tickets (scanner and notification
    task), internal/api/tickets.go, the portal's ticket endpoints and the
    console's status change. The history of migration 031's trigger is part of
    each statement. Instants are nanoseconds, SLA windows minutes; the warning
    fraction is a ratio of integers, exact on whole minutes. *)

From S2P Require Import Prelude GoStrings Rows Dates Json Jobqueue Billing Dunning.
From Stdlib Require Import Ascii.
From stdpp Require Import sorting.

Local Open Scope Z_scope.

Module Tickets.

Definition second : Z := Dates.second.
Definition minute : Z := 60 * second.

Definition ticketCategories : list string := ["connectivity"; "billing"; "plan_change"; "other"]%string.
Definition ticketStatuses : list string := ["open"; "in_progress"; "resolved"; "closed"]%string.
Definition ticketPriorities : list string := ["low"; "medium"; "high"; "critical"]%string.

Definition one_of (l : list string) (s : string) : bool := existsb (String.eqb s) l.

(** ** Tables *)

Record Ticket : Type := MkTicket {
  SubscriberID : Z;
  Category : string;
  Description : string;
  Status : string;
  AssignedTo : option Z;
  CreatedAt : Z;
  UpdatedAt : Z;
  Priority : string;
  SLAResponseDueAt : option Z;
  SLAResolutionDueAt : option Z;
  FranchiseID : option Z;
  RoutedRole : option string
}.

Record Policy : Type := MkPolicy { response_minutes : Z; resolution_minutes : Z }.

Record RoutingRule : Type := MkRule {
  r_category : option string; r_franchise : option Z; target_role : string; priority_order : Z
}.

Record HistoryRow : Type := MkHistory {
  h_ticket : Z; old_status : option string; new_status : string; changed_by : string; h_occurred_at : Z
}.

Record world : Type := MkWorld {
  subscribers : gmap Z Billing.SubscriberRow;
  staff : gset Z;
  defaults : gmap string string;
  policies : gmap (string * string) Policy;
  rules : gmap Z RoutingRule;
  tickets : gmap Z Ticket;
  next_ticket : Z;
  history : list HistoryRow;
  sla_events : gset (Z * string);
  alerts : list (Z * string);
  tasks : Jobqueue.table;
  events : list (string * Z);
  audit : list (string * Z)
}.

Definition with_tickets (m : gmap Z Ticket) (n : Z) (h : list HistoryRow) (w : world) : world :=
  MkWorld (subscribers w) (staff w) (defaults w) (policies w) (rules w) m n h (sla_events w) (alerts w) (tasks w)
    (events w) (audit w).
Definition with_sla (s : gset (Z * string)) (a : list (Z * string)) (w : world) : world :=
  MkWorld (subscribers w) (staff w) (defaults w) (policies w) (rules w) (tickets w) (next_ticket w) (history w) s a
    (tasks w) (events w) (audit w).
Definition with_tasks (t : Jobqueue.table) (w : world) : world :=
  MkWorld (subscribers w) (staff w) (defaults w) (policies w) (rules w) (tickets w) (next_ticket w) (history w)
    (sla_events w) (alerts w) t (events w) (audit w).
Definition emit (has_events : bool) (event : string) (id : Z) (w : world) : world :=
  if has_events
  then MkWorld (subscribers w) (staff w) (defaults w) (policies w) (rules w) (tickets w) (next_ticket w) (history w)
         (sla_events w) (alerts w) (tasks w) (events w ++ [(event, id)]) (audit w)
  else w.
Definition Audit (action : string) (id : Z) (w : world) : world :=
  MkWorld (subscribers w) (staff w) (defaults w) (policies w) (rules w) (tickets w) (next_ticket w) (history w)
    (sla_events w) (alerts w) (tasks w) (events w) (audit w ++ [(action, id)]).

Inductive error : Type := ErrQuery | ErrNotFound | ErrNoDefault | ErrNoPolicy | ErrConstraint.

(** ** The SLA of a new ticket (ticket_sla.go) *)

Record ticketSLAResolution : Type := MkResolution {
  s_Priority : string; s_Response : Z; s_Resolution : Z; s_Franchise : option Z; s_Role : option string
}.

Definition null_or {A} `{EqDecision A} (pattern value : option A) : bool :=
  bool_decide (pattern = None) || (bool_decide (pattern = value) && negb (bool_decide (value = None))).

Definition rule_matches (category : string) (franchise : option Z) (r : RoutingRule) : bool :=
  null_or (r_category r) (Some category) && null_or (r_franchise r) franchise.

Definition rule_before (a b : Z * RoutingRule) : bool :=
  (priority_order a.2 <? priority_order b.2) || ((priority_order a.2 =? priority_order b.2) && (a.1 <=? b.1)).

Definition routed_role (category : string) (franchise : option Z) (w : world) : option string :=
  p ← min_by rule_before (List.filter (fun p => rule_matches category franchise p.2) (map_to_list (rules w)));
  Some (target_role p.2).

Definition resolveTicketSLA (up : bool) (subscriberID : Z) (category : string) (overridePriority : option string)
    (w : world) : result error ticketSLAResolution :=
  if negb up then Err ErrQuery
  else match subscribers w !! subscriberID with
       | None => Err ErrNotFound
       | Some s =>
           match (match overridePriority with Some p => Some p | None => defaults w !! category end) with
           | None => Err ErrNoDefault
           | Some priority =>
               match policies w !! (category, priority) with
               | None => Err ErrNoPolicy
               | Some pol =>
                   Ok (MkResolution priority (response_minutes pol) (resolution_minutes pol) (Billing.franchise_id s)
                         (routed_role category (Billing.franchise_id s) w))
               end
           end
       end.

(** ** Creation and update (tickets.go) *)

Definition due (createdAt minutes : Z) : Z := createdAt + minutes * minute.

(** The insert of both creation paths, with the trigger's history row. *)
Definition insertTicket (now : Z) (up : bool) (actor : string) (subscriberID : Z) (category description : string)
    (sla : ticketSLAResolution) (w : world) : result error (Z * Ticket) * world :=
  if negb up then (Err ErrQuery, w)
  else
    let id := next_ticket w in
    let t := MkTicket subscriberID category description "open" None now now (s_Priority sla)
               (Some (due now (s_Response sla))) (Some (due now (s_Resolution sla))) (s_Franchise sla) (s_Role sla) in
    if negb (one_of ticketCategories category) || negb (one_of ticketPriorities (s_Priority sla))
    then (Err ErrConstraint, with_tickets (tickets w) (id + 1) (history w) w)
    else (Ok (id, t),
          with_tickets (<[id := t]> (tickets w)) (id + 1) (history w ++ [MkHistory id None "open" actor now]) w).

Definition CreateTicketAdmin (now : Z) (look_up insert_up : bool) (actor : string) (subscriberID : Z)
    (category description : string) (priority : option string) (w : world) : result error (Z * Ticket) * world :=
  match resolveTicketSLA look_up subscriberID category priority w with
  | Err e => (Err e, w)
  | Ok sla => insertTicket now insert_up actor subscriberID category description sla w
  end.

(** A priority that is given re-derives both deadlines from the policy of the
    pair, NULL when there is none. *)
Definition updated_ticket (now : Z) (status : option string) (assignedTo : option Z) (priority : option string)
    (w : world) (t : Ticket) : Ticket :=
  let new_priority := default (Priority t) priority in
  let pol := policies w !! (Category t, new_priority) in
  MkTicket (SubscriberID t) (Category t) (Description t) (default (Status t) status)
    (match assignedTo with Some a => Some a | None => AssignedTo t end) (CreatedAt t) now new_priority
    (match priority with
     | None => SLAResponseDueAt t | Some _ => (fun p => due (CreatedAt t) (response_minutes p)) <$> pol end)
    (match priority with
     | None => SLAResolutionDueAt t | Some _ => (fun p => due (CreatedAt t) (resolution_minutes p)) <$> pol end)
    (FranchiseID t) (RoutedRole t).

Definition ticket_allowed (w : world) (t : Ticket) : bool :=
  one_of ticketStatuses (Status t) && one_of ticketPriorities (Priority t) &&
  match AssignedTo t with Some a => bool_decide (a ∈ staff w) | None => true end.

Definition status_change (now : Z) (actor : string) (id : Z) (t t' : Ticket) : list HistoryRow :=
  if String.eqb (Status t) (Status t') then [] else [MkHistory id (Some (Status t)) (Status t') actor now].

(** The statement is committed before its result is examined. *)
Definition UpdateTicketAdmin (now : Z) (up : bool) (actor : string) (ticketID : Z) (status : option string)
    (assignedTo : option Z) (priority : option string) (w : world) : result error (option Ticket) * world :=
  if negb up then (Err ErrQuery, w)
  else match tickets w !! ticketID with
       | None => (Ok None, w)
       | Some t =>
           let t' := updated_ticket now status assignedTo priority w t in
           if negb (ticket_allowed w t') then (Err ErrConstraint, w)
           else
             let w' := with_tickets (<[ticketID := t']> (tickets w)) (next_ticket w)
                         (history w ++ status_change now actor ticketID t t') w in
             if bool_decide (is_Some priority) &&
                (bool_decide (SLAResponseDueAt t' = None) || bool_decide (SLAResolutionDueAt t' = None))
             then (Err ErrNoPolicy, w')
             else (Ok (Some t'), w')
       end.

(** ** Breaches (sla.go) *)

Definition clock_open (t : Ticket) : bool := String.eqb (Status t) "open".
Definition clock_running (t : Ticket) : bool := negb (String.eqb (Status t) "resolved") && negb (String.eqb (Status t) "closed").

Definition warning_at (fraction : Z * Z) (createdAt dueAt : Z) : Z := createdAt + fraction.1 * (dueAt - createdAt) / fraction.2.

Definition thresholds (fraction : Z * Z) (t : Ticket) : list (string * option Z * bool) :=
  [("response_breach"%string, SLAResponseDueAt t, clock_open t);
   ("response_warning"%string, warning_at fraction (CreatedAt t) <$> SLAResponseDueAt t, clock_open t);
   ("resolution_breach"%string, SLAResolutionDueAt t, clock_running t);
   ("resolution_warning"%string, warning_at fraction (CreatedAt t) <$> SLAResolutionDueAt t, clock_running t)].

Definition crossed (now : Z) (e : string * option Z * bool) : bool :=
  let '(_, at_, applies) := e in applies && match at_ with Some x => x <=? now | None => false end.

Definition candidates (now : Z) (fraction : Z * Z) (w : world) : list (Z * string) :=
  flat_map (fun p => map (fun e => (p.1, e.1.1)) (List.filter (crossed now) (thresholds fraction p.2)))
    (map_to_list (tickets w)).

Definition fresh_events (now : Z) (fraction : Z * Z) (w : world) : list (Z * string) :=
  List.filter (fun e => negb (bool_decide (e ∈ sla_events w))) (candidates now fraction w).

Definition ClaimSLAEvents (now : Z) (up : bool) (fraction : Z * Z) (w : world) :
    result error (list (Z * string)) * world :=
  if negb up then (Err ErrQuery, w)
  else let l := fresh_events now fraction w in (Ok l, with_sla (sla_events w ∪ list_to_set l) (alerts w) w).

Definition slaWarningFraction : Z * Z := (4, 5).

Definition IsBreach (e : Z * string) : bool :=
  String.eqb e.2 "response_breach" || String.eqb e.2 "resolution_breach".

(** [Scan]; of the breaches claimed, the first [told] reach the alerter: all of
    them, unless the process stops in between. *)
Definition Scan (now : Z) (up has_alerter : bool) (told : nat) (w : world) : result error unit * world :=
  match ClaimSLAEvents now up slaWarningFraction w with
  | (Err e, w) => (Err e, w)
  | (Ok l, w) =>
      (Ok tt, if has_alerter then with_sla (sla_events w) (alerts w ++ take told (List.filter IsBreach l)) w else w)
  end.

Definition response_breached (now : Z) (t : Ticket) : bool :=
  clock_open t && match SLAResponseDueAt t with Some x => x <=? now | None => false end.
Definition resolution_breached (now : Z) (t : Ticket) : bool :=
  clock_running t && match SLAResolutionDueAt t with Some x => x <=? now | None => false end.

Definition CountOpenSLABreaches (now : Z) (up : bool) (w : world) : result error (Z * Z) :=
  if negb up then Err ErrQuery
  else Ok (Z.of_nat (length (List.filter (fun p => response_breached now p.2) (map_to_list (tickets w)))),
           Z.of_nat (length (List.filter (fun p => resolution_breached now p.2) (map_to_list (tickets w))))).

(** ** The notification of a status change (notify_task.go) *)

Definition TaskTypeTicketUpdate : string := "notif:ticket_update".

Definition UpdatePayload (subscriberID : Z) (username : string) (ticketID : Z) (status : string) : string :=
  Json.Marshal [("subscriber_id", Json.VInt subscriberID); ("username", Json.VStr username);
                ("ticket_id", Json.VInt ticketID); ("status", Json.VStr status)]%string.

Definition TemplateTicketUpdate : string := "TMPL-008".

Definition payload_of (o : Json.object) : option (Z * string * Z * string) :=
  id ← Json.field_int "subscriber_id" o; u ← Json.field_str "username" o;
  t ← Json.field_int "ticket_id" o; s ← Json.field_str "status" o; Some (id, u, t, s).

(** [UpdateHandler.ProcessTask]; the notifier as in Dunning. *)
Definition process_update (notifier : option (Dunning.Notice -> bool)) (payload : list Z) : Jobqueue.outcome :=
  match Json.unmarshal payload_of payload with
  | None => Jobqueue.Failed "ticket update: unmarshal payload" true
  | Some (id, username, ticket, status) =>
      Dunning.dispatch notifier
        (Dunning.MkMessage id TemplateTicketUpdate "ticket_update" [username; format_int ticket; status] [])
  end.

Record Config : Type := MkConfig { has_tickets : bool; has_tasks : bool; has_db : bool; has_events : bool }.
Record Env : Type := MkEnv { look_up : bool; insert_up : bool; update_up : bool; name_up : bool; enqueue_up : bool }.

(** [enqueueTicketUpdate], of the API and of the console; [names]: where the
    username is looked up is configured. *)
Definition enqueueTicketUpdate (now : Z) (tasks_set names : bool) (e : Env) (id : Z) (t : Ticket) (w : world) : world :=
  if negb tasks_set then w
  else
    let username :=
      if names && name_up e
      then match subscribers w !! SubscriberID t with Some s => Billing.username s | None => EmptyString end
      else EmptyString in
    let task := Jobqueue.NewTask TaskTypeTicketUpdate
                  (bytes_of_string (UpdatePayload (SubscriberID t) username id (Status t)))
                  [Jobqueue.Queue "notifications"; Jobqueue.MaxRetry 3; Jobqueue.Retention (24 * 3600 * second)] in
    with_tasks (Jobqueue.EnqueueContext now (enqueue_up e) task [] (tasks w)).2 w.

(** ** The handlers *)

Record createRequest : Type := MkCreate {
  q_SubscriberID : Z; q_Category : string; q_Description : string; q_Priority : option string
}.
Record updateRequest : Type := MkUpdate {
  u_Status : option string; u_AssignedTo : option Z; u_Priority : option string
}.

Definition EventTicketCreated : string := "ticket.created".
Definition EventTicketResolved : string := "ticket.resolved".

Definition optional (valid : string -> bool) (v : option string) : bool :=
  match v with Some s => valid s | None => true end.

(** POST /api/v1/tickets *)
Definition CreateTicket (now : Z) (c : Config) (e : Env) (actor : string) (body : option createRequest) (w : world) :
    (Z * option (Z * Ticket)) * world :=
  if negb (has_tickets c) then ((503, None), w)
  else match body with
       | None => ((400, None), w)
       | Some req =>
           if q_SubscriberID req =? 0 then ((422, None), w)
           else if negb (one_of ticketCategories (q_Category req)) then ((422, None), w)
           else if String.eqb (q_Description req) EmptyString then ((422, None), w)
           else if negb (optional (one_of ticketPriorities) (q_Priority req)) then ((422, None), w)
           else match CreateTicketAdmin now (look_up e) (insert_up e) actor (q_SubscriberID req) (q_Category req)
                        (q_Description req) (q_Priority req) w with
                | (Err _, w) => ((500, None), w)
                | (Ok (id, t), w) =>
                    ((201, Some (id, t)), emit (has_events c) EventTicketCreated id (Audit "ticket.create" id w))
                end
       end.

(** PATCH /api/v1/tickets/{ticket_id} *)
Definition UpdateTicket (now : Z) (c : Config) (e : Env) (actor : string) (path_id : string) (body : option updateRequest)
    (w : world) : (Z * option Ticket) * world :=
  match atoi path_id with
  | None => ((400, None), w)
  | Some id =>
      if negb (has_tickets c) then ((503, None), w)
      else match body with
           | None => ((400, None), w)
           | Some req =>
               if negb (optional (one_of ticketStatuses) (u_Status req)) then ((422, None), w)
               else if negb (optional (one_of ticketPriorities) (u_Priority req)) then ((422, None), w)
               else match UpdateTicketAdmin now (update_up e) actor id (u_Status req) (u_AssignedTo req)
                            (u_Priority req) w with
                    | (Err _, w) => ((500, None), w)
                    | (Ok None, w) => ((404, None), w)
                    | (Ok (Some t), w) =>
                        let w := if bool_decide (is_Some (u_Status req))
                                 then enqueueTicketUpdate now (has_tasks c && has_db c) true e id t w else w in
                        let w := Audit "ticket.update" id w in
                        let w := if bool_decide (u_Status req = Some "resolved"%string)
                                 then emit (has_events c) EventTicketResolved id w else w in
                        ((200, Some t), w)
                    end
           end
  end.

(** The console's status change, for a user who may open the section: the
    status of the page, or the redirect's 303. *)
Definition UpdateTicketStatus (now : Z) (c : Config) (e : Env) (actor : string) (path_id status : string) (w : world) :
    Z * world :=
  match atoi path_id with
  | None => (400, w)
  | Some id =>
      if negb (has_tickets c) then (503, w)
      else if negb (one_of ticketStatuses status) then (422, w)
      else match UpdateTicketAdmin now (update_up e) actor id (Some status) None None w with
           | (Err _, w) => (500, w)
           | (Ok None, w) => (303, w)
           | (Ok (Some t), w) => (303, enqueueTicketUpdate now (has_tasks c) (has_db c) e id t w)
           end
  end.

(** *** The portal *)

Definition by_newest (a b : Z * Ticket) : Prop := CreatedAt b.2 <= CreatedAt a.2.
#[global] Instance by_newest_dec : RelDecision by_newest.
Proof. intros a b. unfold by_newest. apply _. Defined.

Definition ListTickets (up : bool) (subscriberID : Z) (w : world) : result error (list (Z * Ticket)) :=
  if negb up then Err ErrQuery
  else Ok (merge_sort by_newest (List.filter (fun p => SubscriberID p.2 =? subscriberID) (map_to_list (tickets w)))).

(** GET /portal/tickets; [subID] is the token's. *)
Definition PortalListTickets (up : bool) (subID : Z) (w : world) : Z * list (Z * Ticket) :=
  if subID =? 0 then (401, [])
  else match ListTickets up subID w with Err _ => (500, []) | Ok l => (200, l) end.

(** POST /portal/tickets; the body's own subscriber id is overwritten. *)
Definition PortalCreateTicket (now : Z) (e : Env) (actor : string) (subID : Z) (body : option createRequest) (w : world) :
    (Z * option (Z * Ticket)) * world :=
  if subID =? 0 then ((401, None), w)
  else match body with
       | None => ((400, None), w)
       | Some req =>
           if String.eqb (q_Category req) EmptyString || String.eqb (q_Description req) EmptyString then ((422, None), w)
           else match resolveTicketSLA (look_up e) subID (q_Category req) None w with
                | Err _ => ((500, None), w)
                | Ok sla =>
                    match insertTicket now (insert_up e) actor subID (q_Category req) (q_Description req) sla w with
                    | (Err _, w) => ((500, None), w)
                    | (Ok p, w) => ((201, Some p), w)
                    end
                end
       end.

(** ** What the operations do to the tickets *)

(** A request or a scan, as one process runs it. *)
Inductive step : world -> world -> Prop :=
| step_create now c e actor body w : step w (CreateTicket now c e actor body w).2
| step_patch now c e actor id body w : step w (UpdateTicket now c e actor id body w).2
| step_console now c e actor id status w : step w (UpdateTicketStatus now c e actor id status w).2
| step_portal now e actor subID body w : step w (PortalCreateTicket now e actor subID body w).2
| step_scan now up alerter told w : step w (Scan now up alerter told w).2.

(** The deadlines are those the policy of the ticket's category and priority
    gives from its creation, or both are unset. *)
Definition anchored (w : world) (t : Ticket) : Prop :=
  (SLAResponseDueAt t = None /\ SLAResolutionDueAt t = None) \/
  exists pol, policies w !! (Category t, Priority t) = Some pol /\
    SLAResponseDueAt t = Some (due (CreatedAt t) (response_minutes pol)) /\
    SLAResolutionDueAt t = Some (due (CreatedAt t) (resolution_minutes pol)).

Definition valid_row (t : Ticket) : bool :=
  one_of ticketCategories (Category t) && one_of ticketStatuses (Status t) && one_of ticketPriorities (Priority t).

Inductive ticket_change (w w' : world) : Prop :=
| same_tickets : tickets w' = tickets w -> history w' = history w -> next_ticket w <= next_ticket w' -> ticket_change w w'
| new_ticket t actor now : tickets w' = <[next_ticket w := t]> (tickets w) -> next_ticket w' = next_ticket w + 1 ->
    history w' = history w ++ [MkHistory (next_ticket w) None "open" actor now] ->
    Status t = "open"%string -> anchored w t -> SLAResponseDueAt t <> None -> valid_row t = true -> ticket_change w w'
| changed_ticket now actor id t status assigned priority :
    tickets w !! id = Some t ->
    let t' := updated_ticket now status assigned priority w t in
    ticket_allowed w t' = true -> tickets w' = <[id := t']> (tickets w) -> next_ticket w' = next_ticket w ->
    history w' = history w ++ status_change now actor id t t' -> ticket_change w w'.

(** What notifications, events and the audit leave alone. *)
Definition same_core (w w' : world) : Prop :=
  tickets w' = tickets w /\ history w' = history w /\ next_ticket w' = next_ticket w /\ policies w' = policies w /\
  sla_events w' = sla_events w /\ alerts w' = alerts w.

Lemma enqueue_core now a b e id t w : same_core w (enqueueTicketUpdate now a b e id t w).
Proof. unfold enqueueTicketUpdate. by destruct a. Qed.

Lemma emit_core has event id w : same_core w (emit has event id w).
Proof. unfold emit. by destruct has. Qed.

Lemma core_trans w1 w2 w3 : same_core w1 w2 -> same_core w2 w3 -> same_core w1 w3.
Proof. unfold same_core. intuition congruence. Qed.

Lemma change_core w w1 w2 : ticket_change w w1 -> same_core w1 w2 -> ticket_change w w2.
Proof.
  intros Hc (E1 & E2 & E3 & _). destruct Hc as [H1 H2 H3 | t actor now H1 H2 H3 H4 H5 H6 H7 | now actor id t st asg pr H0 t' H1 H2 H3 H4].
  - apply same_tickets; [congruence | congruence | lia].
  - eapply new_ticket; [by rewrite E1 | lia | by rewrite E2 | done..].
  - eapply changed_ticket; [done | done | by rewrite E1 | lia | by rewrite E2].
Qed.

Lemma resolve_anchored up id category priority w sla :
  resolveTicketSLA up id category priority w = Ok sla ->
  policies w !! (category, s_Priority sla) = Some (MkPolicy (s_Response sla) (s_Resolution sla)).
Proof.
  unfold resolveTicketSLA. destruct up; [| done]. cbn [negb]. destruct (subscribers w !! id); [| done].
  destruct (match priority with Some p => _ | None => _ end) as [p|]; [| done].
  destruct (policies w !! (category, p)) as [[]|] eqn:Hp; [| done]. by intros [= <-].
Qed.

(** The SLA log, the alerts and the policies are the scanner's. *)
Definition same_sla (w w' : world) : Prop :=
  policies w' = policies w /\ sla_events w' = sla_events w /\ alerts w' = alerts w.

Definition request_step (w w' : world) : Prop := ticket_change w w' /\ same_sla w w'.

Lemma request_refl w : request_step w w.
Proof. split; [by apply same_tickets | done]. Qed.

Lemma request_core w w1 w2 : request_step w w1 -> same_core w1 w2 -> request_step w w2.
Proof.
  intros [Hc (P1 & P2 & P3)] Hs. split; [by eapply change_core |]. destruct Hs as (_ & _ & _ & ? & ? & ?).
  unfold same_sla. intuition congruence.
Qed.

Lemma insert_step now up actor id category description sla w :
  policies w !! (category, s_Priority sla) = Some (MkPolicy (s_Response sla) (s_Resolution sla)) ->
  request_step w (insertTicket now up actor id category description sla w).2.
Proof.
  intros Hp. unfold insertTicket. destruct up; cbn [negb]; [| apply request_refl].
  destruct (_ || _) eqn:Hv; cbn [snd]; (split; [| done]); [apply same_tickets; cbn; [done | done | lia] |].
  apply orb_false_iff in Hv as [Hv1%negb_false_iff Hv2%negb_false_iff].
  eapply new_ticket; try done; [right; eauto |]. unfold valid_row. cbn [Category Status Priority]. by rewrite Hv1, Hv2.
Qed.

Lemma update_step now up actor id status assigned priority w :
  request_step w (UpdateTicketAdmin now up actor id status assigned priority w).2.
Proof.
  unfold UpdateTicketAdmin. destruct up; cbn [negb]; [| apply request_refl].
  destruct (tickets w !! id) as [t|] eqn:Ht; [| apply request_refl].
  destruct (ticket_allowed w _) eqn:Ha; cbn [negb]; [| apply request_refl].
  destruct (_ && _); (split; [by eapply changed_ticket | done]).
Qed.

Lemma create_step now c e actor body w : request_step w (CreateTicket now c e actor body w).2.
Proof.
  unfold CreateTicket. destruct (has_tickets c); [| apply request_refl]. cbn [negb].
  destruct body as [req|]; [| apply request_refl]. destruct (_ =? 0); [apply request_refl |].
  destruct (one_of _ _); [| apply request_refl]. destruct (String.eqb _ _); [apply request_refl |].
  destruct (optional _ _); [| apply request_refl]. cbn [negb]. unfold CreateTicketAdmin.
  destruct (resolveTicketSLA _ _ _ _ w) as [sla|] eqn:Hs; [| apply request_refl]. apply resolve_anchored in Hs.
  pose proof (insert_step now (insert_up e) actor (q_SubscriberID req) _ (q_Description req) sla w Hs) as Hi.
  destruct (insertTicket _ _ _ _ _ _ _ w) as [[[id t]|] w']; cbn [snd] in *; [| done].
  eapply request_core; [exact Hi |]. eapply core_trans; [| apply emit_core]. done.
Qed.

Lemma patch_step now c e actor id body w : request_step w (UpdateTicket now c e actor id body w).2.
Proof.
  unfold UpdateTicket. destruct (atoi id) as [n|]; [| apply request_refl].
  destruct (has_tickets c); [| apply request_refl]. destruct body as [req|]; [| apply request_refl]. cbn [negb].
  destruct (optional _ (u_Status req)); [| apply request_refl]. destruct (optional _ _); [| apply request_refl]. cbn [negb].
  pose proof (update_step now (update_up e) actor n (u_Status req) (u_AssignedTo req) (u_Priority req) w) as Hu.
  destruct (UpdateTicketAdmin _ _ _ _ _ _ _ w) as [[[t|]|] w']; cbn [snd] in *; try done.
  eapply request_core; [exact Hu |].
  assert (same_core w' (if bool_decide (is_Some (u_Status req))
    then enqueueTicketUpdate now (has_tasks c && has_db c) true e n t w' else w')) as H1
    by (destruct (bool_decide _); [apply enqueue_core | done]).
  eapply core_trans; [exact H1 |]. destruct (bool_decide (u_Status req = _)); [| done].
  eapply core_trans; [| apply emit_core]. done.
Qed.

Lemma console_step now c e actor id status w : request_step w (UpdateTicketStatus now c e actor id status w).2.
Proof.
  unfold UpdateTicketStatus. destruct (atoi id) as [n|]; [| apply request_refl].
  destruct (has_tickets c); [| apply request_refl]. cbn [negb]. destruct (one_of _ _); [| apply request_refl]. cbn [negb].
  pose proof (update_step now (update_up e) actor n (Some status) None None w) as Hu.
  destruct (UpdateTicketAdmin _ _ _ _ _ _ _ w) as [[[t|]|] w']; cbn [snd] in *; try done.
  eapply request_core; [exact Hu | apply enqueue_core].
Qed.

Lemma portal_step now e actor subID body w : request_step w (PortalCreateTicket now e actor subID body w).2.
Proof.
  unfold PortalCreateTicket. destruct (subID =? 0); [apply request_refl |]. destruct body as [req|]; [| apply request_refl].
  destruct (_ || _); [apply request_refl |].
  destruct (resolveTicketSLA _ _ _ _ w) as [sla|] eqn:Hs; [| apply request_refl]. apply resolve_anchored in Hs.
  pose proof (insert_step now (insert_up e) actor subID _ (q_Description req) sla w Hs) as Hi.
  by destruct (insertTicket _ _ _ _ _ _ _ w) as [[[id t]|] w'].
Qed.

(** A scan leaves the tickets alone and records what it claims. *)
Inductive sla_change (w w' : world) : Prop :=
| scanned (l : list (Z * string)) n :
    tickets w' = tickets w -> history w' = history w -> next_ticket w' = next_ticket w -> policies w' = policies w ->
    NoDup l -> (forall e, e ∈ l -> e ∉ sla_events w) -> sla_events w' = sla_events w ∪ list_to_set l ->
    alerts w' = alerts w ++ take n (List.filter IsBreach l) -> sla_change w w'.

Lemma NoDup_flat_map_keys {A B} (f : Z * A -> list (Z * B)) (l : list (Z * A)) :
  NoDup l.*1 -> (forall p, NoDup (f p)) -> (forall p x, x ∈ f p -> x.1 = p.1) -> NoDup (flat_map f l).
Proof.
  intros Hl Hf Hk. induction l as [| p l IH]; simpl in *; [constructor |]. apply NoDup_cons in Hl as [Hp Hl].
  apply NoDup_app. split; [apply Hf |]. split; [| by apply IH].
  intros x Hx Hin. apply Hp. rewrite list_elem_of_In, in_flat_map in Hin. destruct Hin as (q & Hq & Hxq).
  rewrite <- list_elem_of_In in Hq. rewrite <- list_elem_of_In in Hxq. apply Hk in Hx, Hxq. rewrite <- Hx, Hxq. by apply list_elem_of_fmap_2.
Qed.

Lemma elem_of_sla_candidates now fraction w id event :
  (id, event) ∈ candidates now fraction w <->
  exists t at_ applies, tickets w !! id = Some t /\ (event, at_, applies) ∈ thresholds fraction t /\
    crossed now (event, at_, applies) = true.
Proof.
  unfold candidates. rewrite list_elem_of_In, in_flat_map. split.
  - intros ([i t] & Hi & Hin). rewrite <- list_elem_of_In in Hi. apply elem_of_map_to_list in Hi. cbn [fst snd] in Hin.
    apply in_map_iff in Hin as ([[ev a] b] & [= -> ->] & Hin). apply filter_In in Hin as [Hin Hc].
    rewrite <- list_elem_of_In in Hin. eauto 10.
  - intros (t & a & b & Ht & Hin & Hc). exists (id, t). split; [by apply list_elem_of_In, elem_of_map_to_list |].
    apply in_map_iff. exists (event, a, b). split; [done |]. apply filter_In. by rewrite <- list_elem_of_In.
Qed.

Lemma sla_candidates_NoDup now fraction w : NoDup (candidates now fraction w).
Proof.
  unfold candidates. apply NoDup_flat_map_keys; [apply NoDup_fst_map_to_list | |].
  - intros [i t]. cbn [fst snd]. set (g := fun e : string * option Z * bool => (i, e.1.1)).
    assert (forall l : list (string * option Z * bool), NoDup (map (fun e => e.1.1) l) ->
      NoDup (map g (List.filter (crossed now) l))) as Hg.
    { induction l as [| e l IH]; simpl; [constructor |]. intros [He Hl]%NoDup_cons.
      destruct (crossed now e); [| by apply IH]. simpl. constructor; [| by apply IH].
      intros (x & Hx & Hin)%list_elem_of_fmap. apply elem_of_filterb in Hin as [Hin _].
      apply He. unfold g in Hx. injection Hx as ->. by apply list_elem_of_fmap_2 with (f := fun e => e.1.1). }
    apply Hg. simpl. repeat constructor; set_solver.
  - intros [i t] x Hx. cbn [fst snd] in *. apply list_elem_of_fmap in Hx as (e & -> & _). done.
Qed.

Lemma scan_change now up alerter told w : sla_change w (Scan now up alerter told w).2 \/ (Scan now up alerter told w).2 = w.
Proof.
  unfold Scan, ClaimSLAEvents. destruct up; cbn [negb]; [left | by right].
  set (l := fresh_events _ _ _).
  assert (NoDup l /\ forall e, e ∈ l -> e ∉ sla_events w) as [Hnd Hnew].
  { unfold l, fresh_events. split.
    - apply NoDup_ListNoDup, List.NoDup_filter, NoDup_ListNoDup, sla_candidates_NoDup.
    - intros e [_ Hn]%elem_of_filterb. by apply negb_true_iff, bool_decide_eq_false in Hn. }
  destruct alerter; cbn [snd]; [eapply (scanned _ _ l told) | eapply (scanned _ _ l 0)]; try done.
  cbn. by rewrite app_nil_r.
Qed.

Lemma step_change w w' : step w w' -> request_step w w' \/ sla_change w w'.
Proof.
  destruct 1; [left; apply create_step | left; apply patch_step | left; apply console_step | left; apply portal_step |].
  destruct (scan_change now up alerter told w) as [? | ->]; [by right | left; apply request_refl].
Qed.

(** ** Invariants *)

(** The transitions on record for one ticket, oldest first, lead from nothing
    to a status. *)
Fixpoint chain (id : Z) (from : option string) (h : list HistoryRow) : option (option string) :=
  match h with
  | [] => Some from
  | r :: h =>
      if negb (h_ticket r =? id) then chain id from h
      else if bool_decide (old_status r = from) && negb (bool_decide (from = Some (new_status r)))
           then chain id (Some (new_status r)) h else None
  end.

Lemma chain_app id from h1 h2 :
  chain id from (h1 ++ h2) = match chain id from h1 with Some s => chain id s h2 | None => None end.
Proof.
  revert from. induction h1 as [| r h1 IH]; intros from; simpl; [done |].
  destruct (negb (h_ticket r =? id)); [apply IH |]. destruct (_ && _); [apply IH | done].
Qed.

Record ticket_inv (w : world) : Prop := {
  ti_fresh id t : tickets w !! id = Some t -> id < next_ticket w;
  ti_anchored id t : tickets w !! id = Some t -> anchored w t;
  ti_valid id t : tickets w !! id = Some t -> valid_row t = true;
  ti_history id : chain id None (history w) = Some (Status <$> tickets w !! id);
  ti_alerts : NoDup (alerts w);
  ti_claimed e : e ∈ alerts w -> e ∈ sla_events w /\ IsBreach e = true
}.

Lemma anchored_update w now status assigned priority t :
  anchored w t -> anchored w (updated_ticket now status assigned priority w t).
Proof.
  intros Ha. unfold updated_ticket, anchored in *. destruct priority as [p|]; [| exact Ha].
  cbn [SLAResponseDueAt SLAResolutionDueAt Category Priority CreatedAt default from_option id].
  destruct (policies w !! (Category t, p)) as [pol|]; [right; exists pol; done | by left].
Qed.

Lemma chain_fresh id w :
  (forall i t, tickets w !! i = Some t -> i < next_ticket w) -> chain id None (history w) = Some (Status <$> tickets w !! id) ->
  next_ticket w <= id -> chain id None (history w) = Some None.
Proof.
  intros Hf -> Hid. destruct (tickets w !! id) as [t|] eqn:Ht; [| done]. apply Hf in Ht. lia.
Qed.

Lemma request_inv w w' : request_step w w' -> ticket_inv w -> ticket_inv w'.
Proof.
  intros [Hc (P1 & P2 & P3)] [Hf Ha Hv Hh Hal Hcl].
  assert (forall t, anchored w t -> anchored w' t) as Hanc by (intros t; unfold anchored; by rewrite P1).
  assert (NoDup (alerts w') /\ forall e, e ∈ alerts w' -> e ∈ sla_events w' /\ IsBreach e = true) as [Hal' Hcl']
    by (rewrite P2, P3; done).
  destruct Hc as [H1 H2 H3 | t actor now H1 H2 H3 H4 H5 _ H7 | now actor id t st asg pr H0 t' Hall H1 H2 H3].
  - constructor; try done.
    + intros id t. rewrite H1. intros Ht%Hf. lia.
    + intros id t. rewrite H1. eauto.
    + intros id t. rewrite H1. eauto.
    + intros id. by rewrite H1, H2.
  - constructor; try done.
    + intros id t'. rewrite H1, H2. intros [[<- _] | [_ Ht]]%lookup_insert_Some; [lia |]. apply Hf in Ht. lia.
    + intros id t'. rewrite H1. intros [[<- <-] | [_ Ht]]%lookup_insert_Some; eauto.
    + intros id t'. rewrite H1. intros [[<- <-] | [_ Ht]]%lookup_insert_Some; eauto.
    + intros id. rewrite H3, chain_app. destruct (decide (id = next_ticket w)) as [-> | Hne].
      * rewrite (chain_fresh _ w Hf (Hh _) (Z.le_refl _)), H1, lookup_insert_eq. cbn. by rewrite Z.eqb_refl, H4.
      * rewrite Hh, H1, lookup_insert_ne by done. cbn. by rewrite (proj2 (Z.eqb_neq _ _)) by congruence.
  - assert (anchored w' t') as Hat by (apply Hanc, anchored_update; eauto).
    assert (valid_row t' = true) as Hvt.
    { unfold ticket_allowed in Hall. apply andb_true_iff in Hall as [Hall _]. apply Hv in H0. unfold valid_row in *.
      apply andb_true_iff in Hall as [-> ->]. apply andb_true_iff in H0 as [H0 _]. apply andb_true_iff in H0 as [H0 _].
      change (Category t') with (Category t). by rewrite H0. }
    clearbody t'.
    constructor; try done.
    + intros i x. rewrite H1, H2. intros [[<- _] | [_ Ht]]%lookup_insert_Some; eauto.
    + intros i x. rewrite H1. intros [[<- <-] | [_ Ht]]%lookup_insert_Some; eauto.
    + intros i x. rewrite H1. intros [[<- <-] | [_ Ht]]%lookup_insert_Some; eauto.
    + intros i. rewrite H3, chain_app, Hh, H1. unfold status_change. destruct (decide (i = id)) as [-> | Hne].
      * rewrite H0, lookup_insert_eq. cbn [fmap option_fmap option_map].
        destruct (String.eqb_spec (Status t) (Status t')) as [E | Hst]; cbn; [by rewrite E |].
        rewrite Z.eqb_refl. cbn. rewrite bool_decide_eq_true_2 by done.
        rewrite bool_decide_eq_false_2 by congruence. done.
      * rewrite lookup_insert_ne by done. destruct (String.eqb _ _); cbn; [done |].
        by rewrite (proj2 (Z.eqb_neq _ _)) by congruence.
Qed.

Lemma sla_inv w w' : sla_change w w' -> ticket_inv w -> ticket_inv w'.
Proof.
  intros [l n H1 H2 H3 H4 Hnd Hnew H5 H6] [Hf Ha Hv Hh Hal Hcl].
  assert (forall e, e ∈ take n (List.filter IsBreach l) -> e ∈ l /\ IsBreach e = true) as Htake.
  { intros e (i & Hi & _)%elem_of_take. apply list_elem_of_lookup_2, elem_of_filterb in Hi. done. }
  constructor.
  - intros id t. rewrite H1, H3. apply Hf.
  - intros id t. rewrite H1. intros Ht%Ha. unfold anchored in *. by rewrite H4.
  - intros id t. rewrite H1. apply Hv.
  - intros id. by rewrite H1, H2.
  - rewrite H6. apply NoDup_app. split; [done |]. split.
    + intros e He Hin. apply Hcl in He as [He _]. apply Htake in Hin as [Hin _]. by apply (Hnew e).
    + eapply sublist_NoDup; [| apply sublist_take].
      apply NoDup_ListNoDup, List.NoDup_filter, NoDup_ListNoDup. done.
  - intros e. rewrite H5, H6, elem_of_app, elem_of_union, elem_of_list_to_set.
    intros [He | He]; [apply Hcl in He | apply Htake in He]; tauto.
Qed.

Lemma star_ticket_inv w w' : star step w w' -> ticket_inv w -> ticket_inv w'.
Proof.
  intros Hs. eapply (star_invariant step ticket_inv); [| exact Hs].
  intros w1 w2 Hi [H | H]%step_change; [by eapply request_inv | by eapply sla_inv].
Qed.

(** ** What holds of every ticket *)

(** A ticket later: never removed, created when it was, for whom it was. *)
Definition ticket_kept (t t' : Ticket) : Prop :=
  SubscriberID t' = SubscriberID t /\ Category t' = Category t /\ Description t' = Description t /\
  CreatedAt t' = CreatedAt t /\ FranchiseID t' = FranchiseID t /\ RoutedRole t' = RoutedRole t.

Lemma step_kept_ticket w w' id t :
  ticket_inv w -> step w w' -> tickets w !! id = Some t ->
  policies w' = policies w /\ exists t', tickets w' !! id = Some t' /\ ticket_kept t t'.
Proof.
  intros Hi Hs Ht. assert (forall t, ticket_kept t t) as Hrefl by done.
  destruct (step_change _ _ Hs) as [[Hc (P1 & _)] | [l n H1 _ _ P1 _ _ _ _]]; (split; [done |]).
  - destruct Hc as [H1 _ _ | t0 actor now H1 _ _ _ _ _ _ | now actor i t0 st asg pr H0 t' _ H1 _ _]; rewrite H1.
    + eauto.
    + rewrite lookup_insert_ne; [eauto |]. pose proof (ti_fresh _ Hi _ _ Ht). lia.
    + destruct (decide (i = id)) as [-> | Hne]; [| rewrite lookup_insert_ne by done; eauto].
      rewrite lookup_insert_eq. rewrite H0 in Ht. injection Ht as ->. eexists. split; [done |]. done.
  - rewrite H1. eauto.
Qed.

Lemma star_kept_ticket w w' :
  ticket_inv w -> star step w w' ->
  forall id t, tickets w !! id = Some t -> exists t', tickets w' !! id = Some t' /\ ticket_kept t t'.
Proof.
  intros Hi Hs. induction Hs as [| w1 w2 w3 Hs Hss IH]; intros id t Ht; [by exists t |].
  destruct (step_kept_ticket _ _ _ _ Hi Hs Ht) as (_ & t2 & Ht2 & K).
  assert (ticket_inv w2) as Hi2 by (eapply star_ticket_inv; [by apply star_one | done]).
  destruct (IH Hi2 _ _ Ht2) as (t3 & Ht3 & K'). exists t3. split; [done |]. unfold ticket_kept in *. intuition congruence.
Qed.

Lemma star_policies w w' : star step w w' -> policies w' = policies w.
Proof.
  induction 1 as [| w1 w2 w3 Hs _ IH]; [done |]. rewrite IH.
  by destruct (step_change _ _ Hs) as [[_ (? & _)] | [l n _ _ _ ? _ _ _ _]].
Qed.

(** Every pair of a category and a priority has a policy, as seeded. *)
Definition covered (w : world) : Prop :=
  forall c p, one_of ticketCategories c = true -> one_of ticketPriorities p = true -> is_Some (policies w !! (c, p)).

Definition clocked (w : world) : Prop := forall id t, tickets w !! id = Some t -> SLAResponseDueAt t <> None.

Lemma step_clocked w w' : step w w' -> ticket_inv w -> covered w -> clocked w -> clocked w'.
Proof.
  intros Hs Hi Hcov Hck id t. destruct (step_change _ _ Hs) as [[Hc _] | [l n H1 _ _ _ _ _ _ _]]; [| rewrite H1; apply Hck].
  destruct Hc as [H1 _ _ | t0 actor now H1 _ _ _ _ H6 _ | now actor i t0 st asg pr H0 t' Hall H1 _ _]; rewrite H1.
  - apply Hck.
  - intros [[<- <-] | [_ Ht]]%lookup_insert_Some; [done | by eapply Hck].
  - intros [[<- <-] | [_ Ht]]%lookup_insert_Some; [| by eapply Hck]. unfold t', updated_ticket in *.
    cbn [SLAResponseDueAt]. destruct pr as [p|]; [| by eapply Hck].
    unfold ticket_allowed in Hall. cbn [Status Priority AssignedTo default] in Hall.
    apply andb_true_iff in Hall as [[_ Hp]%andb_true_iff _]. apply (ti_valid _ Hi) in H0. unfold valid_row in H0.
    apply andb_true_iff in H0 as [[Hcat _]%andb_true_iff _]. cbn [default from_option id] in *.
    destruct (Hcov _ _ Hcat Hp) as [pol ->]. done.
Qed.

(** Through any run of requests and scans every ticket keeps its
    subscriber, category, routing and creation time; its status and priority
    are always among the allowed ones; its deadlines are always those its
    current priority gives from its creation, however often it is triaged
    again, and where every pair has a policy none ever loses them; and the
    recorded transitions of every ticket form one chain from its opening to
    the status it has. *)
Theorem tickets_keep_their_clock w w' :
  ticket_inv w -> star step w w' ->
  (forall id t, tickets w' !! id = Some t -> valid_row t = true /\ anchored w t) /\
  (forall id t, tickets w !! id = Some t -> exists t', tickets w' !! id = Some t' /\ ticket_kept t t') /\
  (covered w -> clocked w -> clocked w') /\
  (forall id, chain id None (history w') = Some (Status <$> tickets w' !! id)).
Proof.
  intros Hi Hs. pose proof (star_ticket_inv _ _ Hs Hi) as [_ Ha Hv Hh _ _].
  split; [| split; [by apply star_kept_ticket | split; [| done]]].
  2:{ clear - Hi Hs. induction Hs as [| w1 w2 w3 H12 _ IH]; [done |]. intros Hcov Hck.
      apply IH; [eapply star_ticket_inv; [by apply star_one | done] | | by eapply step_clocked].
      unfold covered in *. by rewrite (star_policies w1 w2) by by apply star_one. }
  intros id t Ht. split; [by eapply Hv |]. apply Ha in Ht. unfold anchored in *.
  by rewrite <- (star_policies _ _ Hs).
Qed.

Lemma breach_candidates now w id t :
  tickets w !! id = Some t ->
  (response_breached now t = true -> (id, "response_breach"%string) ∈ candidates now slaWarningFraction w) /\
  (resolution_breached now t = true -> (id, "resolution_breach"%string) ∈ candidates now slaWarningFraction w).
Proof.
  intros Ht. unfold response_breached, resolution_breached. split; intros H; apply elem_of_sla_candidates.
  - exists t, (SLAResponseDueAt t), (clock_open t). split; [done |]. split; [unfold thresholds; set_solver | done].
  - exists t, (SLAResolutionDueAt t), (clock_running t). split; [done |]. split; [unfold thresholds; set_solver | done].
Qed.

(** In every reachable state no breach has been alerted twice; a scan that
    can read the tables leaves every breach of a running clock on record, and
    alerts exactly the breaches that were not on record before, when the
    process lives to tell them all. *)
Theorem breach_alerted_once w w' now told :
  ticket_inv w -> star step w w' ->
  let w2 := (Scan now true true told w').2 in
  NoDup (alerts w2) /\
  (forall id t, tickets w2 !! id = Some t ->
     (response_breached now t = true -> (id, "response_breach"%string) ∈ sla_events w2) /\
     (resolution_breached now t = true -> (id, "resolution_breach"%string) ∈ sla_events w2)) /\
  ((length (candidates now slaWarningFraction w') <= told)%nat ->
   forall e, e ∈ alerts w2 <->
     e ∈ alerts w' \/ (e ∈ candidates now slaWarningFraction w' /\ e ∉ sla_events w' /\ IsBreach e = true)).
Proof.
  intros Hi Hs w2. assert (ticket_inv w2) as Hi2.
  { apply (star_ticket_inv w); [| done]. eapply star_trans; [exact Hs |]. apply star_one, step_scan. }
  split; [apply Hi2 |]. unfold w2, Scan, ClaimSLAEvents. cbn [negb snd tickets sla_events alerts with_sla].
  set (l := fresh_events now slaWarningFraction w').
  assert (forall e, e ∈ l <-> e ∈ candidates now slaWarningFraction w' /\ e ∉ sla_events w') as Hl.
  { intros e. unfold l, fresh_events. rewrite elem_of_filterb, negb_true_iff, bool_decide_eq_false. done. }
  split.
  - assert (forall e, e ∈ candidates now slaWarningFraction w' -> e ∈ sla_events w' ∪ list_to_set l) as Hin.
    { intros e He. rewrite elem_of_union, elem_of_list_to_set, Hl. destruct (decide (e ∈ sla_events w')); auto. }
    intros id t Ht. destruct (breach_candidates now w' id t Ht) as [H1 H2]. auto.
  - intros Htold e. rewrite take_ge.
    + rewrite elem_of_app, elem_of_filterb, Hl. tauto.
    + etransitivity; [apply List.filter_length_le |]. etransitivity; [apply List.filter_length_le | done].
Qed.

(** ** The seeds (migration 023) *)

Definition seeded_defaults : gmap string string :=
  list_to_map [("connectivity", "high"); ("billing", "medium"); ("plan_change", "low"); ("other", "low")]%string.

Definition seeded_policies : gmap (string * string) Policy :=
  list_to_map
    [(("connectivity", "critical"), MkPolicy 15 240); (("connectivity", "high"), MkPolicy 60 480);
     (("connectivity", "medium"), MkPolicy 240 1440); (("connectivity", "low"), MkPolicy 480 2880);
     (("billing", "critical"), MkPolicy 15 480); (("billing", "high"), MkPolicy 60 1440);
     (("billing", "medium"), MkPolicy 240 2880); (("billing", "low"), MkPolicy 480 4320);
     (("plan_change", "critical"), MkPolicy 15 480); (("plan_change", "high"), MkPolicy 60 1440);
     (("plan_change", "medium"), MkPolicy 240 2880); (("plan_change", "low"), MkPolicy 480 4320);
     (("other", "critical"), MkPolicy 15 480); (("other", "high"), MkPolicy 60 1440);
     (("other", "medium"), MkPolicy 240 2880); (("other", "low"), MkPolicy 480 4320)]%string.

Definition seeded_rules : gmap Z RoutingRule :=
  list_to_map
    [(1, MkRule (Some "connectivity") None "technician" 10); (2, MkRule (Some "billing") None "csr" 10);
     (3, MkRule (Some "plan_change") None "csr" 10); (4, MkRule (Some "other") None "csr" 20)]%string.

Lemma one_of_elem l s : one_of l s = true -> s ∈ l.
Proof. intros (x & Hx & ->%String.eqb_eq)%existsb_exists. by apply list_elem_of_In. Qed.

Lemma seeds_cover w : policies w = seeded_policies -> covered w.
Proof.
  intros Hp c p Hc%one_of_elem Hpr%one_of_elem. rewrite Hp.
  assert (forallb (fun c => forallb (fun p => bool_decide (is_Some (seeded_policies !! (c, p)))) ticketPriorities)
    ticketCategories = true) as H by (vm_compute; reflexivity).
  rewrite forallb_forall in H. apply list_elem_of_In in Hc, Hpr. specialize (H _ Hc).
  rewrite forallb_forall in H. specialize (H _ Hpr). by apply bool_decide_eq_true in H.
Qed.

(** The subscriber is told what the handler queued. *)
Lemma update_notice_read notifier subscriberID username id status :
  Json.ascii_text username = true -> Json.ascii_text status = true ->
  Json.in_int64 subscriberID = true -> Json.in_int64 id = true ->
  process_update notifier (bytes_of_string (UpdatePayload subscriberID username id status)) =
  Dunning.dispatch notifier
    (Dunning.MkMessage subscriberID TemplateTicketUpdate "ticket_update" [username; format_int id; status] []).
Proof.
  intros. unfold process_update, UpdatePayload. rewrite Json.unmarshal_marshal; [done |]. by repeat constructor.
Qed.

(** ** At concrete inputs *)

Module Sample.
Definition row : Billing.SubscriberRow := Billing.MkSubscriber "asha" "+919000000001" None "KA" "active" "active" 0 1 None.
Definition fresh : world :=
  MkWorld {[1 := row]} ∅ seeded_defaults seeded_policies seeded_rules ∅ 1 [] ∅ [] (Jobqueue.MkTable ∅ 1) [] [].
Definition cfg : Config := MkConfig true true true true.
Definition up : Env := MkEnv true true true true true.
Definition outage : option createRequest := Some (MkCreate 1 "connectivity" "no link" None).
Definition opened : world := (CreateTicket 0 cfg up "csr" outage fresh).2.
Definition patch (now : Z) (status priority : option string) (w : world) : world :=
  (UpdateTicket now cfg up "csr" "1" (Some (MkUpdate status None priority)) w).2.
Definition scan (now : Z) (told : nat) (w : world) : world := (Scan now true true told w).2.
End Sample.

Lemma fresh_inv : ticket_inv Sample.fresh.
Proof.
  constructor.
  1-3: intros id t; cbn; by rewrite lookup_empty.
  - intros id. cbn. by rewrite lookup_empty.
  - constructor.
  - intros e H. by apply elem_of_nil in H.
Qed.

Lemma opened_from_fresh : star step Sample.fresh Sample.opened.
Proof. apply star_one. apply (step_create 0 Sample.cfg Sample.up "csr" Sample.outage Sample.fresh). Qed.

(** An opened ticket: the category's default, its policy and its role; the
    deadlines of a later triage still count from the creation. *)
Example opened_and_triaged :
  tickets Sample.opened !! 1 =
    Some (MkTicket 1 "connectivity" "no link" "open" None 0 0 "high" (Some (60 * minute)) (Some (480 * minute)) None
            (Some "technician"%string)) /\
  (SLAResponseDueAt <$> tickets (Sample.patch (59 * minute) None (Some "low"%string) Sample.opened) !! 1) =
    Some (Some (480 * minute)).
Proof. vm_compute. split; reflexivity. Qed.

(** With a policy missing the change of priority answers 500 and is kept: the
    ticket has lost its deadlines and no scan will see it. *)
Example failed_triage_drops_the_clock :
  let w := MkWorld (subscribers Sample.opened) ∅ seeded_defaults (delete ("connectivity", "critical")%string seeded_policies)
             seeded_rules (tickets Sample.opened) 2 (history Sample.opened) ∅ [] (Jobqueue.MkTable ∅ 1) [] [] in
  let '((code, _), w') := UpdateTicket 5 Sample.cfg Sample.up "csr" "1" (Some (MkUpdate None None (Some "critical"%string))) w in
  code = 500 /\ ((fun t => (Priority t, SLAResponseDueAt t)) <$> tickets w' !! 1) = Some ("critical"%string, None) /\
  sla_events (Sample.scan (1000 * minute) 9 w') = ∅.
Proof. vm_compute. repeat split. Qed.

(** A process that stops between recording and alerting loses the alert. *)
Example crash_loses_the_alert :
  alerts (Sample.scan (120 * minute) 9 Sample.opened) = [(1, "response_breach"%string)] /\
  alerts (Sample.scan (125 * minute) 9 (Sample.scan (120 * minute) 0 Sample.opened)) = [].
Proof. vm_compute. split; reflexivity. Qed.

(** A ticket reopened after its breach never alerts again. *)
Example reopened_ticket_is_silent :
  let breached := Sample.scan (500 * minute) 9 Sample.opened in
  let reopened := Sample.patch (600 * minute) (Some "open"%string) None
                    (Sample.patch (550 * minute) (Some "resolved"%string) None breached) in
  length (alerts breached) = 2%nat /\ alerts (Sample.scan (9000 * minute) 9 reopened) = alerts breached.
Proof. vm_compute. split; reflexivity. Qed.

(** Setting a status a ticket already has notifies the subscriber and
    publishes the resolution again; the console reports a ticket that does
    not exist as updated. *)
Example repeated_resolution :
  let resolve := Sample.patch 7 (Some "resolved"%string) None in
  let twice := resolve (resolve Sample.opened) in
  events twice = [(EventTicketCreated, 1); (EventTicketResolved, 1); (EventTicketResolved, 1)] /\
  Jobqueue.next_id (tasks twice) = 3 /\ length (history twice) = 2%nat /\
  (UpdateTicketStatus 7 Sample.cfg Sample.up "csr" "42" "closed" Sample.opened).1 = 303.
Proof. vm_compute. repeat split. Qed.

Lemma tickets_keep_their_clock_witness :
  clocked Sample.opened /\ (forall id, chain id None (history Sample.opened) = Some (Status <$> tickets Sample.opened !! id)).
Proof.
  destruct (tickets_keep_their_clock Sample.fresh Sample.opened fresh_inv opened_from_fresh) as (_ & _ & Hc & Hh).
  split; [| exact Hh]. apply Hc; [by apply seeds_cover |]. intros id t. cbn. by rewrite lookup_empty.
Defined.

Lemma breach_alerted_once_witness :
  NoDup (alerts (Sample.scan (120 * minute) 9 Sample.opened)) /\
  alerts (Sample.scan (120 * minute) 9 Sample.opened) = [(1, "response_breach"%string)].
Proof.
  split; [| vm_compute; reflexivity].
  exact (proj1 (breach_alerted_once Sample.fresh Sample.opened (120 * minute) 9 fresh_inv opened_from_fresh)).
Defined.
End Tickets.
