(* ===== verification/Ledger.v ===== *)
(** * The general ledger

    internal/ledger, internal/db/ledger.go, internal/api/ledger.go and the
    console's two forms over the tables, trigger, view and functions of
    migration 043. Amounts are hundredths, instants nanoseconds. Reports are
    lists of rows without the order their ORDER BY gives them. Postings of
    other components come in through [post]. *)

From S2P Require Import Prelude GoStrings Rows Dates Decimal.
From Stdlib Require Import QArith Ascii.
From Stdlib Require Import SpecFloat.
From stdpp Require Import sorting.

Local Open Scope Z_scope.

Module Ledger.

(** ** Account types (ledger.go) *)

Definition TypeAsset : string := "asset".
Definition TypeLiability : string := "liability".
Definition TypeEquity : string := "equity".
Definition TypeIncome : string := "income".
Definition TypeExpense : string := "expense".
Definition BalanceDebit : string := "debit".
Definition BalanceCredit : string := "credit".

Definition one_of (l : list string) (s : string) : bool := existsb (String.eqb s) l.

Definition ValidAccountType (t : string) : bool :=
  one_of [TypeAsset; TypeLiability; TypeEquity; TypeIncome; TypeExpense] t.

Definition NormalBalanceFor (accountType : string) : string :=
  if one_of [TypeAsset; TypeExpense] accountType then BalanceDebit else BalanceCredit.

(** ** Tables *)

Record AccountRow : Type := MkAccount {
  Code : string; Name : string; AccountType : string; NormalBalance : string; IsActive : bool
}.

Record EntryRow : Type := MkEntry {
  EntryDate : Z; Description : string; SourceType : string; SourceID : option Z; CreatedBy : string
}.

Record Line : Type := MkLine { l_entry : Z; l_account : Z; Debit : Z; Credit : Z }.

Record DB : Type := MkDB {
  chart : gmap Z AccountRow;
  next_account : Z;
  entries : gmap Z EntryRow;
  next_entry : Z;
  lines : list Line
}.

Definition with_chart (m : gmap Z AccountRow) (n : Z) (d : DB) : DB := MkDB m n (entries d) (next_entry d) (lines d).
Definition with_entries (m : gmap Z EntryRow) (n : Z) (d : DB) : DB := MkDB (chart d) (next_account d) m n (lines d).
Definition with_lines (l : list Line) (d : DB) : DB :=
  MkDB (chart d) (next_account d) (entries d) (next_entry d) l.

Inductive error : Type := ErrQuery | ErrConstraint | ErrUnique | ErrNoGLAccount | ErrAmount | ErrUnbalanced.

(** ** Transactions: statements that thread the tables and may fail *)

Definition M (S A : Type) : Type := S -> result error A * S.
Definition ret {S A} (a : A) : M S A := fun s => (Ok a, s).
Definition bind {S A B} (m : M S A) (k : A -> M S B) : M S B := fun s =>
  match m s with (Ok a, s') => k a s' | (Err e, s') => (Err e, s') end.

Notation "'do!' x := m 'in' k" := (bind m (fun x => k))
  (at level 10, x binder, m at level 100, k at level 200).

Inductive stage : Type :=
| BeginTx | UpdateRow | InsertEntry | FindAccount (code : string) | InsertLine (n : nat) | CommitTx.

(** [inTx]: [trigger] is what the deferred triggers check at the commit, and
    [rollback before after] the tables after an abort. *)
Definition inTx {S A} (up : stage -> bool) (trigger : A -> S -> bool) (rollback : S -> S -> S) (fn : M S A) : M S A :=
  fun s =>
    if negb (up BeginTx) then (Err ErrQuery, s)
    else match fn s with
         | (Ok a, s') =>
             if negb (up CommitTx) then (Err ErrQuery, rollback s s')
             else if trigger a s' then (Ok a, s') else (Err ErrConstraint, rollback s s')
         | (Err e, s') => (Err e, rollback s s')
         end.

(** The sequences survive. *)
Definition rollback (before after : DB) : DB :=
  MkDB (chart before) (next_account before) (entries before) (next_entry after) (lines before).

Definition debits (l : list Line) : Z := sum_by Debit l.
Definition credits (l : list Line) : Z := sum_by Credit l.
Definition of_entry (e : Z) (l : list Line) : list Line := List.filter (fun r => l_entry r =? e) l.
Definition of_account (a : Z) (l : list Line) : list Line := List.filter (fun r => l_account r =? a) l.

(** [check_gl_journal_balanced], for the entry the lines belong to. *)
Definition check_gl_journal_balanced (e : Z) (d : DB) : bool :=
  debits (of_entry e (lines d)) =? credits (of_entry e (lines d)).

Definition insert_entry (now : Z) (ok : bool) (description source_type : string) (source_id : option Z)
    (created_by : string) : M DB Z := fun d =>
  if negb ok then (Err ErrQuery, d)
  else
    let id := next_entry d in
    if pg_text description && fits 30 source_type && fits 100 created_by
    then (Ok id, with_entries (<[id := MkEntry now description source_type source_id created_by]> (entries d)) (id + 1) d)
    else (Err ErrConstraint, with_entries (entries d) (id + 1) d).

Definition line_ok (debit credit : Z) : bool :=
  (0 <=? debit) && (0 <=? credit) && negb ((0 <? debit) && (0 <? credit)) && ((0 <? debit) || (0 <? credit)).

(** An amount is absent when it is no number or does not fit the column. *)
Definition insert_line (ok : bool) (e account : Z) (debit credit : option Z) : M DB unit := fun d =>
  if negb ok then (Err ErrQuery, d)
  else match debit, credit with
       | Some db, Some cr =>
           if line_ok db cr && bool_decide (is_Some (chart d !! account)) && bool_decide (is_Some (entries d !! e))
           then (Ok tt, with_lines (lines d ++ [MkLine e account db cr]) d)
           else (Err ErrConstraint, d)
       | _, _ => (Err ErrConstraint, d)
       end.

Definition account_id (code : string) (d : DB) : option Z :=
  fst <$> head (List.filter (fun p => String.eqb (Code p.2) code) (map_to_list (chart d))).

Definition glAccountID (ok : bool) (code : string) : M DB Z := fun d =>
  if negb ok then (Err ErrQuery, d)
  else match account_id code d with None => (Err ErrNoGLAccount, d) | Some id => (Ok id, d) end.

Fixpoint insert_lines (up : stage -> bool) (e : Z) (n : nat) (l : list (Z * option Z * option Z)) : M DB unit :=
  match l with
  | [] => ret tt
  | (account, debit, credit) :: l =>
      do! _ := insert_line (up (InsertLine n)) e account debit credit in
      insert_lines up e (S n) l
  end.

(** A posting of another component: one entry, its accounts found by code. *)
Fixpoint find_accounts (up : stage -> bool) (l : list (string * option Z * option Z)) :
    M DB (list (Z * option Z * option Z)) :=
  match l with
  | [] => ret []
  | (code, debit, credit) :: l =>
      do! id := glAccountID (up (FindAccount code)) code in
      do! rest := find_accounts up l in
      ret ((id, debit, credit) :: rest)
  end.

Definition post (now : Z) (up : stage -> bool) (description source_type : string) (source_id : option Z)
    (created_by : string) (legs : list (string * option Z * option Z)) : M DB Z :=
  do! e := insert_entry now (up InsertEntry) description source_type source_id created_by in
  do! l := find_accounts up legs in
  do! _ := insert_lines up e 0 l in
  ret e.

(** ** The store (db/ledger.go) *)

Definition account_ok (a : AccountRow) : bool :=
  fits 20 (Code a) && fits 100 (Name a) && ValidAccountType (AccountType a) &&
  one_of [BalanceDebit; BalanceCredit] (NormalBalance a).

Definition CreateAccount (ok : bool) (code name accountType normalBalance : string) : M DB (Z * AccountRow) := fun d =>
  if negb ok then (Err ErrQuery, d)
  else
    let id := next_account d in
    let a := MkAccount code name accountType normalBalance true in
    if negb (account_ok a) then (Err ErrConstraint, with_chart (chart d) (id + 1) d)
    else if bool_decide (is_Some (account_id code d)) then (Err ErrUnique, with_chart (chart d) (id + 1) d)
    else (Ok (id, a), with_chart (<[id := a]> (chart d)) (id + 1) d).

Definition ListAccounts (ok : bool) (d : DB) : result error (list (Z * AccountRow)) :=
  if negb ok then Err ErrQuery else Ok (map_to_list (chart d)).

(** An entry as an operator sees it: its lines carry their account. *)
Definition JournalEntry : Type := (Z * EntryRow * list (Line * AccountRow))%type.

Definition join_account (d : DB) (r : Line) : option (Line * AccountRow) := a ← chart d !! l_account r; Some (r, a).

Definition GetJournalEntry (ok : bool) (id : Z) (d : DB) : result error (option JournalEntry) :=
  if negb ok then Err ErrQuery
  else match entries d !! id with
       | None => Ok None
       | Some e => Ok (Some (id, e, omap (join_account d) (of_entry id (lines d))))
       end.

Definition newest_first (a b : Z * EntryRow) : Prop :=
  EntryDate b.2 < EntryDate a.2 \/ (EntryDate b.2 = EntryDate a.2 /\ b.1 <= a.1).
#[global] Instance newest_first_dec : RelDecision newest_first.
Proof. intros a b. unfold newest_first. apply _. Defined.

Definition ListJournalEntries (ok : bool) (limit : Z) (d : DB) : result error (list (Z * EntryRow)) :=
  let limit := if limit <=? 0 then 100 else limit in
  if negb ok then Err ErrQuery
  else Ok (take (Z.to_nat limit) (merge_sort newest_first (map_to_list (entries d)))).

Section Manual.
Context `{Decimal}.

(** [NewFromString] is the decimal library's parser, [Float64] its conversion
    and [to_numeric] PostgreSQL's reading of a text as a number. *)
Context (NewFromString to_numeric : string -> option dec) (Float64 : dec -> spec_float).

Definition parseDecimal (s : string) : option dec :=
  if String.eqb s EmptyString then Some (NewFromInt 0) else NewFromString s.

Record NewJournalLine : Type := MkNewLine { n_AccountID : Z; n_Debit : string; n_Credit : string }.

Definition fadd : spec_float -> spec_float -> spec_float := SFadd 53 1024.

(** The nearest double of 0.005. *)
Definition tolerance : spec_float := S754_finite false 5764607523034235 (-60).

Fixpoint pre_check (sum : spec_float) (l : list NewJournalLine) : result error spec_float :=
  match l with
  | [] => Ok sum
  | line :: l =>
      match parseDecimal (n_Debit line), parseDecimal (n_Credit line) with
      | Some d, Some c => pre_check (fadd sum (Float64 (Sub d c))) l
      | _, _ => Err ErrAmount
      end
  end.

Definition out_of_balance (sum : spec_float) : bool := SFltb tolerance sum || SFltb sum (SFopp tolerance).

Definition stored_line (line : NewJournalLine) : Z * option Z * option Z :=
  (n_AccountID line, d ← to_numeric (n_Debit line); numeric 14 d, c ← to_numeric (n_Credit line); numeric 14 c).

(** The entry's transaction. *)
Definition postManual (now : Z) (up : stage -> bool) (description createdBy : string) (l : list NewJournalLine) : M DB Z :=
  inTx up check_gl_journal_balanced rollback
    (do! e := insert_entry now (up InsertEntry) description "manual" None createdBy in
     do! _ := insert_lines up e 0 (map stored_line l) in
     ret e).

Definition PostJournalEntry (now : Z) (up : stage -> bool) (read_up : bool) (description createdBy : string)
    (l : list NewJournalLine) : M DB (option JournalEntry) := fun d =>
  match pre_check (S754_zero false) l with
  | Err e => (Err e, d)
  | Ok sum =>
      if out_of_balance sum then (Err ErrUnbalanced, d)
      else match postManual now up description createdBy l d with
           | (Err e, d) => (Err e, d)
           | (Ok id, d) => (GetJournalEntry read_up id d, d)
           end
  end.

(** ** The handlers (api/ledger.go) *)

Definition emptyIsZero (s : string) : string := if String.eqb s EmptyString then "0"%string else s.

Record createAccountRequest : Type := MkCreate {
  c_Code : string; c_Name : string; c_AccountType : string; c_NormalBalance : string
}.

(** POST /api/v1/ledger/accounts *)
Definition CreateLedgerAccount (configured ok : bool) (body : option createAccountRequest) (d : DB) :
    (Z * option (Z * AccountRow)) * DB :=
  if negb configured then ((503, None), d)
  else match body with
       | None => ((400, None), d)
       | Some req =>
           if String.eqb (c_Code req) EmptyString || String.eqb (c_Name req) EmptyString then ((422, None), d)
           else if negb (ValidAccountType (c_AccountType req)) then ((422, None), d)
           else
             let given := negb (String.eqb (c_NormalBalance req) EmptyString) in
             if given && negb (one_of [BalanceDebit; BalanceCredit] (c_NormalBalance req)) then ((422, None), d)
             else
               let normal := if given then c_NormalBalance req else NormalBalanceFor (c_AccountType req) in
               match CreateAccount ok (c_Code req) (c_Name req) (c_AccountType req) normal d with
               | (Err ErrUnique, d) => ((409, None), d)
               | (Err _, d) => ((500, None), d)
               | (Ok a, d) => ((201, Some a), d)
               end
       end.

(** The console's form, for a user who may open the section: whether the page
    reports the account as added. *)
Definition CreateLedgerAccountForm (configured ok : bool) (code name accountType : string) (d : DB) : bool * DB :=
  let code := trim_space code in
  let name := trim_space name in
  if negb configured || String.eqb code EmptyString || String.eqb name EmptyString ||
     negb (ValidAccountType accountType)
  then (false, d)
  else match CreateAccount ok code name accountType (NormalBalanceFor accountType) d with
       | (Ok _, d) => (true, d)
       | (Err _, d) => (false, d)
       end.

Record postJournalEntryRequest : Type := MkPost { p_Description : string; p_Lines : list NewJournalLine }.

Definition request_line (l : NewJournalLine) : NewJournalLine :=
  MkNewLine (n_AccountID l) (emptyIsZero (n_Debit l)) (emptyIsZero (n_Credit l)).

(** POST /api/v1/ledger/entries *)
Definition PostJournalEntryHandler (now : Z) (configured : bool) (up : stage -> bool) (read_up : bool) (subject : string)
    (body : option postJournalEntryRequest) (d : DB) : (Z * option JournalEntry) * DB :=
  if negb configured then ((503, None), d)
  else match body with
       | None => ((400, None), d)
       | Some req =>
           if String.eqb (p_Description req) EmptyString then ((422, None), d)
           else if (length (p_Lines req) <? 2)%nat then ((422, None), d)
           else if existsb (fun l => n_AccountID l <=? 0) (p_Lines req) then ((422, None), d)
           else match PostJournalEntry now up read_up (p_Description req) subject (map request_line (p_Lines req)) d with
                | (Err _, d) => ((422, None), d)
                | (Ok created, d) => ((201, created), d)
                end
       end.

(** The console's grid of four lines; [None]: the account is no number. *)
Definition form_line (g : string * string * string) : option (option NewJournalLine) :=
  let '(account, debit, credit) := g in
  let account := trim_space account in
  let debit := trim_space debit in
  let credit := trim_space credit in
  if String.eqb account EmptyString || (String.eqb debit EmptyString && String.eqb credit EmptyString) then Some None
  else match atoi account with
       | None => None
       | Some id => Some (Some (MkNewLine id (emptyIsZero debit) (emptyIsZero credit)))
       end.

Definition PostJournalEntryForm (now : Z) (configured : bool) (up : stage -> bool) (read_up : bool) (user description : string)
    (grid : list (string * string * string)) (d : DB) : bool * DB :=
  let description := trim_space description in
  if negb configured || String.eqb description EmptyString then (false, d)
  else match mapM form_line grid with
       | None => (false, d)
       | Some l =>
           let l := omap id l in
           if (length l <? 2)%nat then (false, d)
           else match PostJournalEntry now up read_up description user l d with
                | (Err _, d) => (false, d)
                | (Ok _, d) => (true, d)
                end
       end.

End Manual.

(** ** The reports (migration 043) *)

(** A line's entry has a date that satisfies [p]; the outer join leaves no
    date when there is no entry. *)
Definition dated (d : DB) (p : Z -> bool) (r : Line) : bool :=
  match entries d !! l_entry r with Some e => p (EntryDate e) | None => false end.

Record TrialBalanceRow : Type := MkTrial {
  t_AccountID : Z; t_Account : AccountRow; DebitTotal : Z; CreditTotal : Z; Balance : Z
}.

Definition v_gl_trial_balance (d : DB) : list TrialBalanceRow :=
  map (fun p =>
         let l := of_account p.1 (lines d) in
         MkTrial p.1 p.2 (debits l) (credits l)
           (if String.eqb (NormalBalance p.2) BalanceDebit then debits l - credits l else credits l - debits l))
    (map_to_list (chart d)).

(** One account's amount in a statement. *)
Definition StatementRow : Type := (Z * AccountRow * Z)%type.

Definition statement (types : list string) (p : Z -> bool) (d : DB) : list StatementRow :=
  map (fun a =>
         let l := List.filter (dated d p) (of_account a.1 (lines d)) in
         (a, if String.eqb (NormalBalance a.2) BalanceCredit then credits l - debits l else debits l - credits l))
    (List.filter (fun a => one_of types (AccountType a.2)) (map_to_list (chart d))).

Definition gl_income_statement (from_date to_date : Z) (d : DB) : list StatementRow :=
  statement [TypeIncome; TypeExpense] (fun t => (from_date <=? t) && (t <? to_date)) d.

Definition gl_balance_sheet (as_of : Z) (d : DB) : list StatementRow :=
  statement [TypeAsset; TypeLiability; TypeEquity] (fun t => t <? as_of) d.

Definition TrialBalance (ok : bool) (d : DB) : result error (list TrialBalanceRow) :=
  if negb ok then Err ErrQuery else Ok (v_gl_trial_balance d).
Definition IncomeStatement (ok : bool) (from_ to_ : Z) (d : DB) : result error (list StatementRow) :=
  if negb ok then Err ErrQuery else Ok (gl_income_statement from_ to_ d).
Definition BalanceSheet (ok : bool) (asOf : Z) (d : DB) : result error (list StatementRow) :=
  if negb ok then Err ErrQuery else Ok (gl_balance_sheet asOf d).

(** [zone]: the process's offset from UTC; a date of the query is midnight UTC. *)
Definition month_start (zone now : Z) : Z :=
  let '(y, m, _) := Dates.civil ((now + zone) / Dates.day) in Dates.midnight (y, m, 1) - zone.
Definition next_month_start (zone now : Z) : Z :=
  let '(y, m, _) := Dates.civil ((now + zone) / Dates.day) in
  Dates.midnight (if m =? 12 then (y + 1, 1, 1) else (y, m + 1, 1)) - zone.

Definition date_or (default_ shift : Z) (v : string) : option Z :=
  if String.eqb v EmptyString then Some default_
  else d ← Dates.parse_date v; Some (Dates.midnight d + shift).

Definition ledgerDateWindow (zone now : Z) (from_ to_ : string) : option (Z * Z) :=
  f ← date_or (month_start zone now) 0 from_;
  t ← date_or (next_month_start zone now) Dates.day to_;
  Some (f, t).

(** *** The reading handlers *)

Definition answer {A} (configured : bool) (r : result error A) : Z * option A :=
  if negb configured then (503, None) else match r with Err _ => (500, None) | Ok a => (200, Some a) end.

(** GET /api/v1/ledger/accounts *)
Definition ListLedgerAccounts (configured ok : bool) (d : DB) : Z * option (list (Z * AccountRow)) :=
  answer configured (ListAccounts ok d).
(** GET /api/v1/ledger/entries *)
Definition ListJournalEntriesHandler (configured ok : bool) (d : DB) : Z * option (list (Z * EntryRow)) :=
  answer configured (ListJournalEntries ok 200 d).
(** GET /api/v1/ledger/entries/{id} *)
Definition GetJournalEntryHandler (configured ok : bool) (path_id : string) (d : DB) : Z * option JournalEntry :=
  if negb configured then (503, None)
  else match atoi path_id with
       | None => (400, None)
       | Some id =>
           match GetJournalEntry ok id d with
           | Err _ => (500, None)
           | Ok None => (404, None)
           | Ok (Some e) => (200, Some e)
           end
       end.
(** GET /api/v1/ledger/trial-balance *)
Definition GetTrialBalance (configured ok : bool) (d : DB) : Z * option (list TrialBalanceRow) :=
  answer configured (TrialBalance ok d).
(** GET /api/v1/ledger/income-statement *)
Definition GetIncomeStatement (zone now : Z) (configured ok : bool) (from_ to_ : string) (d : DB) :
    Z * option (list StatementRow) :=
  if negb configured then (503, None)
  else match ledgerDateWindow zone now from_ to_ with
       | None => (422, None)
       | Some (f, t) => answer true (IncomeStatement ok f t d)
       end.
(** GET /api/v1/ledger/balance-sheet *)
Definition GetBalanceSheet (now : Z) (configured ok : bool) (as_of : string) (d : DB) : Z * option (list StatementRow) :=
  if negb configured then (503, None)
  else match date_or now Dates.day as_of with
       | None => (422, None)
       | Some t => answer true (BalanceSheet ok t d)
       end.

(** ** The books *)

(** The chart of accounts of migrations 043, 045 and 047. *)
Definition starter_chart : gmap Z AccountRow := list_to_map
  [(1, MkAccount "1000" "Cash / Bank" "asset" "debit" true);
   (2, MkAccount "1200" "Subscriber Wallet Liability" "liability" "credit" true);
   (3, MkAccount "2000" "Accounts Payable" "liability" "credit" true);
   (4, MkAccount "3000" "Owner's Equity" "equity" "credit" true);
   (5, MkAccount "4000" "Subscription Revenue" "income" "credit" true);
   (6, MkAccount "5000" "Franchise Commission Expense" "expense" "debit" true);
   (7, MkAccount "5100" "Operating Expenses" "expense" "debit" true);
   (8, MkAccount "5200" "Wallet Adjustments & Refunds" "expense" "debit" true);
   (9, MkAccount "2100" "Commission Payable to Partners" "liability" "credit" true);
   (10, MkAccount "2200" "GST Payable" "liability" "credit" true)]%string.

Definition seed : DB := MkDB starter_chart 11 ∅ 1 [].

Record sound (d : DB) : Prop := {
  so_accounts i : next_account d <= i -> chart d !! i = None;
  so_types i a : chart d !! i = Some a -> account_ok a = true;
  so_entries i : next_entry d <= i -> entries d !! i = None;
  so_line r : r ∈ lines d ->
    is_Some (chart d !! l_account r) /\ is_Some (entries d !! l_entry r) /\ line_ok (Debit r) (Credit r) = true;
  so_balanced e : check_gl_journal_balanced e d = true
}.

(** Every way the books change: the chart, and postings in a transaction of
    their own or of another component. *)
Inductive step (sources : list string) : DB -> DB -> Prop :=
| step_account ok code name typ normal d : step sources d (CreateAccount ok code name typ normal d).2
| step_post now up description source id_ by_ legs d :
    source ∈ sources ->
    step sources d
      (inTx up check_gl_journal_balanced rollback (post now up description source id_ by_ legs) d).2
| step_manual `{Decimal} to_numeric now up description by_ l d :
    step sources d (postManual to_numeric now up description by_ l d).2.

Definition reachable (sources : list string) : DB -> Prop := star (step sources) seed.

(** What a statement does to the books. *)
Record extends (e : Z) (d d' : DB) : Prop := {
  ex_chart : chart d' = chart d;
  ex_account : next_account d' = next_account d;
  ex_next : next_entry d <= next_entry d';
  ex_entries i : i <> e -> entries d' !! i = entries d !! i;
  ex_kept : is_Some (entries d !! e) -> entries d' !! e = entries d !! e;
  ex_lines : exists l, lines d' = lines d ++ l /\
    forall r, r ∈ l -> l_entry r = e /\ is_Some (chart d !! l_account r) /\ is_Some (entries d' !! e) /\
      line_ok (Debit r) (Credit r) = true
}.

Lemma extends_refl e d : extends e d d.
Proof.
  split; try done. exists []. rewrite app_nil_r. split; [done |]. by intros r ?%not_elem_of_nil.
Qed.

Lemma insert_line_extends ok e a db cr d : extends e d (insert_line ok e a db cr d).2.
Proof.
  unfold insert_line. destruct ok; cbn [negb]; [| apply extends_refl].
  destruct db as [db|], cr as [cr|]; try apply extends_refl.
  destruct (_ && _) eqn:Hc; [| apply extends_refl]. rewrite !andb_true_iff, !bool_decide_eq_true in Hc.
  destruct Hc as [[Hl Ha] He]. split; simpl; try done. eexists. split; [done |].
  by intros r ->%list_elem_of_singleton.
Qed.

Lemma extends_trans e d1 d2 d3 : extends e d1 d2 -> extends e d2 d3 -> extends e d1 d3.
Proof.
  intros [A1 A2 A3 A4 A5 (l1 & A6 & A7)] [B1 B2 B3 B4 B5 (l2 & B6 & B7)].
  assert (is_Some (entries d2 !! e) -> is_Some (entries d3 !! e)) as Hk by (intros Hs; by rewrite B5).
  split; [congruence | congruence | lia | | |].
  - intros i Hi. rewrite B4, A4 by done. done.
  - intros Hs. rewrite B5; [by apply A5 |]. by rewrite A5.
  - exists (l1 ++ l2). rewrite B6, A6, <- app_assoc. split; [done |]. intros r [Hr | Hr]%elem_of_app.
    + destruct (A7 r Hr) as (? & ? & ? & ?). auto.
    + destruct (B7 r Hr) as (? & ? & ? & ?). rewrite A1 in *. auto.
Qed.

Lemma insert_lines_extends up e n l d : extends e d (insert_lines up e n l d).2.
Proof.
  revert n d. induction l as [| [[a db] cr] l IH]; intros n d; [apply extends_refl |]. simpl. unfold bind.
  pose proof (insert_line_extends (up (InsertLine n)) e a db cr d) as H1.
  destruct (insert_line _ _ _ _ _ d) as [[u | x] d1]; [| done]. eapply extends_trans; [exact H1 | apply IH].
Qed.

Lemma find_accounts_same up l d : (find_accounts up l d).2 = d.
Proof.
  induction l as [| [[c db] cr] l IH]; [done |]. simpl. unfold bind, glAccountID.
  destruct (up _); [| done]. cbn [negb]. destruct (account_id c d); [| done].
  destruct (find_accounts up l d) as [[]]; done.
Qed.

(** A posting's transaction: everything it writes belongs to one new entry. *)
Definition posting (source : string) (source_id : option Z) (m : M DB Z) : Prop := forall d,
  entries d !! next_entry d = None ->
  extends (next_entry d) d (m d).2 /\
  (forall x, entries (m d).2 !! next_entry d = Some x -> SourceType x = source /\ SourceID x = source_id) /\
  forall e, (m d).1 = Ok e -> e = next_entry d /\ next_entry d < next_entry (m d).2.

Lemma insert_entry_extends now ok desc src sid by_ d :
  entries d !! next_entry d = None ->
  extends (next_entry d) d (insert_entry now ok desc src sid by_ d).2 /\
  match insert_entry now ok desc src sid by_ d with
  | (Ok e, d') => e = next_entry d /\ next_entry d < next_entry d' /\
      entries d' !! next_entry d = Some (MkEntry now desc src sid by_)
  | (Err _, d') => entries d' = entries d
  end.
Proof.
  intros Hf. unfold insert_entry. destruct ok; cbn [negb]; [| by split; [apply extends_refl |]].
  destruct (_ && _); cbn [fst snd].
  - split; [| simpl; rewrite lookup_insert_eq; split_and!; [done | lia | done]]. split; simpl; try done; try lia.
    + intros i Hi. by rewrite lookup_insert_ne.
    + rewrite Hf. by intros [].
    + exists []. rewrite app_nil_r. split; [done |]. by intros r ?%not_elem_of_nil.
  - split; [| done]. split; simpl; try done; try lia.
    exists []. rewrite app_nil_r. split; [done |]. by intros r ?%not_elem_of_nil.
Qed.

Lemma open_posting now up desc src sid by_ (k : Z -> M DB unit) :
  (forall e d, extends e d (k e d).2) ->
  posting src sid (do! e := insert_entry now up desc src sid by_ in do! _ := k e in ret e).
Proof.
  intros Hk d Hf. pose proof (insert_entry_extends now up desc src sid by_ d Hf) as [He Hn]. unfold bind.
  destruct (insert_entry now up desc src sid by_ d) as [[e | x] d1]; cbn [fst snd] in *.
  2: { split_and!; [done | by rewrite Hn, Hf | done]. }
  destruct Hn as (-> & Hlt & Hx). specialize (Hk (next_entry d) d1).
  assert (forall d2, extends (next_entry d) d1 d2 -> forall x, entries d2 !! next_entry d = Some x ->
    SourceType x = src /\ SourceID x = sid) as Hsrc.
  { intros d2 Hd2 x. rewrite (ex_kept _ _ _ Hd2), Hx by (rewrite Hx; done). by intros [= <-]. }
  destruct (k (next_entry d) d1) as [[u | x] d2]; cbn [fst snd ret] in *;
    (split_and!; [by eapply extends_trans | by apply Hsrc |]).
  - intros e [= <-]. split; [done |]. destruct Hk. lia.
  - done.
Qed.

Lemma posting_ext src sid (m1 m2 : M DB Z) : (forall d, m1 d = m2 d) -> posting src sid m2 -> posting src sid m1.
Proof. intros He Hp d Hf. rewrite He. by apply Hp. Qed.

Lemma post_posting now up desc src sid by_ legs : posting src sid (post now up desc src sid by_ legs).
Proof.
  eapply posting_ext; [| eapply (open_posting now (up InsertEntry) desc src sid by_
    (fun e => do! l := find_accounts up legs in insert_lines up e 0 l))].
  - intros d. unfold post, bind. destruct (insert_entry _ _ _ _ _ _ d) as [[e | x] d1]; [| done].
    destruct (find_accounts up legs d1) as [[l | x] d2]; done.
  - intros e d. unfold bind. pose proof (find_accounts_same up legs d) as Hs.
    destruct (find_accounts up legs d) as [[l | x] d1]; simpl in *; subst d1;
      [apply insert_lines_extends | apply extends_refl].
Qed.

Lemma of_entry_app e l1 l2 : of_entry e (l1 ++ l2) = of_entry e l1 ++ of_entry e l2.
Proof. apply List.filter_app. Qed.

Lemma extends_sound e d d' :
  extends e d d' -> next_entry d <= e -> e < next_entry d' -> check_gl_journal_balanced e d' = true ->
  sound d -> sound d'.
Proof.
  intros [X1 X2 X3 X4 X5 (l & X6 & X7)] Hlo Hhi Hb [S1 S2 S3 S4 S5]. split.
  - intros i Hi. rewrite X1. apply S1. lia.
  - intros i a. rewrite X1. apply S2.
  - intros i Hi. rewrite X4 by lia. apply S3. lia.
  - intros r. rewrite X6. intros [Hr | Hr]%elem_of_app.
    + destruct (S4 r Hr) as (Ha & He & Hl). rewrite X1. split_and!; [done | | done].
      destruct (Z.eq_dec (l_entry r) e) as [He' | He']; [| by rewrite X4].
      rewrite He' in *. by rewrite X5.
    + destruct (X7 r Hr) as (-> & Ha & He & Hl). by rewrite X1.
  - intros e'. destruct (Z.eq_dec e' e) as [-> | Hne]; [done |].
    specialize (S5 e'). unfold check_gl_journal_balanced in *. rewrite X6, of_entry_app.
    unfold of_entry at 2 4. rewrite (filter_none (fun r => l_entry r =? e') l), app_nil_r; [done |].
    intros r Hr. destruct (X7 r Hr) as (-> & _). by apply Z.eqb_neq.
Qed.

Lemma rollback_sound d d' : next_entry d <= next_entry d' -> sound d -> sound (rollback d d').
Proof.
  intros Hn [S1 S2 S3 S4 S5]. split; simpl; try done. intros i Hi. apply S3. lia.
Qed.

Lemma tx_sound src sid up m d :
  posting src sid m -> sound d -> sound (inTx up check_gl_journal_balanced rollback m d).2.
Proof.
  intros Hm Hs. unfold inTx. destruct (up BeginTx); [| done]. cbn [negb].
  destruct (Hm d) as (He & _ & Hn); [apply Hs; lia |]. destruct (m d) as [[e | x] d']; cbn [fst snd] in *.
  - assert (next_entry d <= next_entry d') as Hle by (by destruct He).
    destruct (up CommitTx); cbn [negb snd]; [| by apply rollback_sound].
    destruct (check_gl_journal_balanced e d') eqn:Hb; cbn [snd]; [| by apply rollback_sound].
    destruct (Hn e eq_refl) as [-> Hlt]. eapply extends_sound; try done; lia.
  - apply rollback_sound; [by destruct He | done].
Qed.

Lemma postManual_posting `{Decimal} to_numeric now up desc by_ l :
  posting "manual" None (do! e := insert_entry now (up InsertEntry) desc "manual" None by_ in
           do! _ := insert_lines up e 0 (map (stored_line to_numeric) l) in ret e).
Proof. apply (open_posting _ _ _ _ _ _ (fun e => insert_lines up e 0 _)). intros. apply insert_lines_extends. Qed.

Lemma CreateAccount_sound ok code name typ normal d : sound d -> sound (CreateAccount ok code name typ normal d).2.
Proof.
  intros [S1 S2 S3 S4 S5]. unfold CreateAccount. destruct ok; cbn [negb]; [| done].
  assert (sound (with_chart (chart d) (next_account d + 1) d)) as Hsame.
  { split; simpl; try done. intros i Hi. apply S1. lia. }
  destruct (account_ok _) eqn:Hok; cbn [negb snd]; [| done]. destruct (bool_decide _); cbn [snd]; [done |].
  assert (forall i, is_Some (chart d !! i) ->
    is_Some (<[next_account d := MkAccount code name typ normal true]> (chart d) !! i)) as Hk.
  { intros i Hi. rewrite lookup_insert. case_decide; [by eexists | done]. }
  split; simpl; try done.
  - intros i Hi. rewrite lookup_insert_ne by lia. apply S1. lia.
  - intros i a. rewrite lookup_insert_Some. intros [[_ <-] | [_ Ha]]; [exact Hok | by eapply S2].
  - intros r Hr. destruct (S4 r Hr) as (Ha & He & Hl). auto.
Qed.

Lemma ledger_step_sound sources d d' : step sources d d' -> sound d -> sound d'.
Proof.
  intros [ok code name typ normal d0 | now up desc src sid by_ legs d0 _ | D to_numeric now up desc by_ l d0] Hs.
  - by apply CreateAccount_sound.
  - eapply tx_sound; [apply post_posting | done].
  - eapply tx_sound; [apply postManual_posting | done].
Qed.

Lemma seed_sound : sound seed.
Proof.
  split; simpl; try done.
  - intros i Hi. apply not_elem_of_list_to_map_1. simpl. rewrite !not_elem_of_cons. set_unfold. lia.
  - intros i a Ha. apply elem_of_list_to_map_2 in Ha. simpl in Ha.
    repeat (apply elem_of_cons in Ha as [[= -> ->] | Ha]; [by vm_compute |]). by apply not_elem_of_nil in Ha.
  - by intros r ?%not_elem_of_nil.
Qed.

Lemma reachable_sound sources d : reachable sources d -> sound d.
Proof. intros Hr. eapply (star_invariant _ sound); [| exact Hr | apply seed_sound]. eauto using ledger_step_sound. Qed.

(** What a transaction leaves of the earlier books: the accounts, the entries
    and their lines stay; a new entry has the transaction's source. *)
Record grows (sources : list string) (d d' : DB) : Prop := {
  gr_chart : chart d ⊆ chart d';
  gr_entries : entries d ⊆ entries d';
  gr_lines e : is_Some (entries d !! e) -> of_entry e (lines d') = of_entry e (lines d);
  gr_new e x : entries d' !! e = Some x -> entries d !! e = None -> SourceType x ∈ sources
}.

Lemma grows_refl sources d : grows sources d d.
Proof. split; try done. intros e x He1 He2. congruence. Qed.

Lemma grows_same sources d d' :
  chart d' = chart d -> entries d' = entries d -> lines d' = lines d -> grows sources d d'.
Proof. intros E1 E2 E3. split; rewrite ?E1, ?E2, ?E3; try done. intros e x He1 He2. congruence. Qed.

Lemma extends_grows d d' sources :
  sound d -> extends (next_entry d) d d' ->
  (forall x, entries d' !! next_entry d = Some x -> SourceType x ∈ sources) -> grows sources d d'.
Proof.
  intros Hs [X1 X2 X3 X4 X5 (l & X6 & X7)] Hsrc. pose proof (so_entries d Hs (next_entry d) (Z.le_refl _)) as Hf. split.
  - by rewrite X1.
  - apply map_subseteq_spec. intros i x Hx. rewrite X4; [done |]. intros ->. congruence.
  - intros e [x Hx]. rewrite X6, of_entry_app. unfold of_entry at 2. rewrite filter_none, app_nil_r; [done |].
    intros r Hr. destruct (X7 r Hr) as (-> & _). apply Z.eqb_neq. intros <-. congruence.
  - intros e x Hx Hnone. destruct (Z.eq_dec e (next_entry d)) as [-> | Hne]; [eauto |].
    rewrite X4 in Hx by done. congruence.
Qed.

Lemma tx_grows src sid up m d :
  posting src sid m -> sound d -> grows [src] d (inTx up check_gl_journal_balanced rollback m d).2.
Proof.
  intros Hm Hs. unfold inTx. destruct (up BeginTx); [| apply grows_refl]. cbn [negb].
  destruct (Hm d) as (He & Hsrc & _); [apply Hs; lia |].
  assert (grows [src] d (m d).2) as Hg.
  { apply extends_grows; [done | done |]. intros x Hx. destruct (Hsrc x Hx) as [-> _]. by left. }
  destruct (m d) as [[e | x] d']; cbn [fst snd] in *; [| by apply grows_same].
  destruct (up CommitTx); [| by apply grows_same]. by destruct (check_gl_journal_balanced e d'); [| apply grows_same].
Qed.

Lemma grows_more s1 s2 d d' : s1 ⊆ s2 -> grows s1 d d' -> grows s2 d d'.
Proof. intros Hs [G1 G2 G3 G4]. split; try done. intros e x Hx Hn. by apply Hs, (G4 e x). Qed.

Lemma step_grows sources d d' : sound d -> step sources d d' -> grows ("manual"%string :: sources) d d'.
Proof.
  intros Hs Hstep. revert Hs.
  destruct Hstep as [ok code name typ normal d0 | now up desc src sid by_ legs d0 Hin | D to_numeric now up desc by_ l d0];
    intros Hs.
  - unfold CreateAccount. destruct ok; cbn [negb]; [| apply grows_refl].
    destruct (account_ok _); cbn [negb snd]; [| by apply grows_same].
    destruct (bool_decide _); cbn [snd]; [by apply grows_same |]. split; simpl; try done.
    + apply insert_subseteq, (so_accounts d0 Hs). lia.
    + intros e x He1 He2. congruence.
  - eapply grows_more; [| eapply tx_grows; [apply post_posting | done]]. set_solver.
  - eapply grows_more; [| eapply tx_grows; [apply postManual_posting | done]]. set_solver.
Qed.

(** *** What the reports add up to *)

Definition excess (l : list Line) : Z := debits l - credits l.

(** An amount as a debit. *)
Definition debit_sense (r : StatementRow) : Z :=
  if String.eqb (NormalBalance r.1.2) BalanceCredit then - r.2 else r.2.
Definition net (l : list StatementRow) : Z := sum_by debit_sense l.

Lemma excess_sum l : excess l = sum_by (fun r => Debit r - Credit r) l.
Proof. unfold excess, debits, credits. induction l as [| r l IH]; simpl; lia. Qed.

Lemma sum_by_map {A B} (f : B -> Z) (g : A -> B) l : sum_by f (map g l) = sum_by (fun x => f (g x)) l.
Proof. induction l as [| x l IH]; simpl; congruence. Qed.

Lemma sum_by_filter_split {A} (f : A -> Z) (p q : A -> bool) l :
  (forall x, x ∈ l -> q x = negb (p x)) ->
  sum_by f (List.filter p l) + sum_by f (List.filter q l) = sum_by f l.
Proof.
  induction l as [| x l IH]; intros Hpq; simpl; [done |]. rewrite (Hpq x) by by left.
  specialize (IH (fun y Hy => Hpq y (list_elem_of_further _ _ _ Hy))). destruct (p x); simpl; lia.
Qed.

Lemma NoDup_keys {A} (m : gmap Z A) : NoDup (map fst (map_to_list m)).
Proof. apply NoDup_fst_map_to_list. Qed.

Lemma elem_of_keys {A} (m : gmap Z A) i : is_Some (m !! i) -> i ∈ map fst (map_to_list m).
Proof.
  intros [x Hx]. apply list_elem_of_fmap. exists (i, x). split; [done |]. by apply elem_of_map_to_list.
Qed.

(** The lines dated in any set of instants are whole entries. *)
Lemma whole_entries d p : sound d -> excess (List.filter (dated d p) (lines d)) = 0.
Proof.
  intros Hs. rewrite excess_sum, <- (sum_by_keys l_entry _ (map fst (map_to_list (entries d)))).
  - apply sum_by_none. intros e He. apply list_elem_of_fmap in He as ([e' x] & -> & Hx). simpl.
    apply elem_of_map_to_list in Hx. rewrite filter_comm. fold (of_entry e' (lines d)).
    assert (forall r, r ∈ of_entry e' (lines d) -> dated d p r = p (EntryDate x)) as Hd.
    { intros r [_ Hr%Z.eqb_eq]%elem_of_filterb. unfold dated. by rewrite Hr, Hx. }
    destruct (p (EntryDate x)).
    + rewrite List.forallb_filter_id; [| apply forallb_forall; intros r Hr%list_elem_of_In; by apply Hd].
      rewrite <- excess_sum. pose proof (so_balanced d Hs e') as Hb.
      unfold check_gl_journal_balanced in Hb. unfold excess. lia.
    + by rewrite filter_none.
  - apply NoDup_keys.
  - intros r [Hr _]%elem_of_filterb. apply elem_of_keys. by destruct (so_line d Hs r Hr) as (_ & He & _).
Qed.

Lemma by_account d p : sound d ->
  sum_by (fun a => excess (List.filter (dated d p) (of_account a.1 (lines d)))) (map_to_list (chart d)) = 0.
Proof.
  intros Hs. rewrite <- (whole_entries d p Hs), excess_sum.
  rewrite <- (sum_by_keys l_account _ (map fst (map_to_list (chart d)))), sum_by_map.
  - induction (map_to_list (chart d)) as [| a l IH]; simpl; [done |]. rewrite IH, excess_sum. f_equal.
    unfold of_account. by rewrite filter_comm.
  - apply NoDup_keys.
  - intros r [Hr _]%elem_of_filterb. apply elem_of_keys. by destruct (so_line d Hs r Hr).
Qed.

Lemma net_statement types p d :
  net (statement types p d) =
  sum_by (fun a => excess (List.filter (dated d p) (of_account a.1 (lines d))))
    (List.filter (fun a => one_of types (AccountType a.2)) (map_to_list (chart d))).
Proof.
  unfold net, statement. rewrite sum_by_map.
  induction (List.filter _ (map_to_list (chart d))) as [| a l IH]; simpl; [done |]. rewrite IH. f_equal.
  unfold debit_sense. simpl. unfold excess. case_match; lia.
Qed.

(** Income and expense against assets, liabilities and equity. *)
Lemma net_both p d : sound d ->
  net (statement [TypeIncome; TypeExpense] p d) + net (statement [TypeAsset; TypeLiability; TypeEquity] p d) = 0.
Proof.
  intros Hs. rewrite !net_statement, <- (by_account d p Hs). apply sum_by_filter_split.
  intros [i a] Ha%elem_of_map_to_list. apply (so_types d Hs) in Ha. unfold account_ok in Ha.
  rewrite !andb_true_iff in Ha. destruct Ha as [[_ Ht] _]. unfold ValidAccountType, one_of in Ht.
  apply existsb_exists in Ht as (t & Hin & Ht%String.eqb_eq). cbn [snd]. rewrite Ht. clear Ht.
  simpl in Hin. destruct_or! Hin; try subst t; done.
Qed.

Lemma excess_dated d p q r l :
  (forall t, p t = q t || r t) -> (forall t, q t && r t = false) ->
  excess (List.filter (dated d p) l) =
  excess (List.filter (dated d q) l) + excess (List.filter (dated d r) l).
Proof.
  intros Hp Hd. rewrite !excess_sum. induction l as [| x l IH]; simpl; [done |].
  assert (dated d p x = dated d q x || dated d r x) as -> by (unfold dated; case_match; auto).
  assert (dated d q x && dated d r x = false) by (unfold dated; case_match; auto).
  destruct (dated d q x), (dated d r x); simpl in *; try done; lia.
Qed.

Lemma net_dated types d p q r :
  (forall t, p t = q t || r t) -> (forall t, q t && r t = false) ->
  net (statement types p d) = net (statement types q d) + net (statement types r d).
Proof.
  intros Hp Hd. rewrite !net_statement.
  induction (List.filter _ (map_to_list (chart d))) as [| a l IH]; simpl; [done |].
  rewrite (excess_dated d p q r _ Hp Hd). lia.
Qed.

Lemma trial_totals d :
  sum_by (fun r => DebitTotal r - CreditTotal r) (v_gl_trial_balance d) =
  sum_by (fun a => excess (of_account a.1 (lines d))) (map_to_list (chart d)).
Proof. unfold v_gl_trial_balance. by rewrite sum_by_map. Qed.

Lemma sum_by_sub {A} (f g : A -> Z) l : sum_by (fun x => f x - g x) l = sum_by f l - sum_by g l.
Proof. induction l as [| x l IH]; simpl; lia. Qed.

Lemma dated_all d : sound d -> List.filter (dated d (fun _ => true)) (lines d) = lines d.
Proof.
  intros Hs. apply List.forallb_filter_id, forallb_forall. intros r Hr%list_elem_of_In.
  destruct (so_line d Hs r Hr) as (_ & [e He] & _). unfold dated. by rewrite He.
Qed.

(** *** What a posting writes *)

Definition stored (e : Z) (x : Z * option Z * option Z) (r : Line) : Prop :=
  x = (l_account r, Some (Debit r), Some (Credit r)) /\ l_entry r = e.

Lemma insert_lines_Ok up e n l d u d' :
  insert_lines up e n l d = (Ok u, d') -> exists rs, Forall2 (stored e) l rs /\ d' = with_lines (lines d ++ rs) d.
Proof.
  revert n d. induction l as [| [[a db] cr] l IH]; simpl; intros n d.
  - intros [= _ <-]. exists []. split; [constructor |]. rewrite app_nil_r. by destruct d.
  - unfold bind, insert_line. destruct (up _); cbn [negb]; [| done].
    destruct db as [db|], cr as [cr|]; try done. destruct (_ && _); [| done].
    intros (rs & Hrs & ->)%IH. exists (MkLine e a db cr :: rs). split; [by constructor |].
    unfold with_lines. simpl. by rewrite <- app_assoc.
Qed.

Lemma insert_entry_Ok now ok desc src sid by_ d e d' :
  insert_entry now ok desc src sid by_ d = (Ok e, d') ->
  e = next_entry d /\
  d' = with_entries (<[e := MkEntry now desc src sid by_]> (entries d)) (next_entry d + 1) d.
Proof. unfold insert_entry. destruct ok; [| done]. cbn [negb]. destruct (_ && _); [| done]. by intros [= <- <-]. Qed.

(** A leg once its account is found. *)
Definition located (d : DB) (leg : string * option Z * option Z) (x : Z * option Z * option Z) : Prop :=
  exists a, chart d !! x.1.1 = Some a /\ Code a = leg.1.1 /\ x.1.2 = leg.1.2 /\ x.2 = leg.2.

Lemma find_accounts_Ok up legs d l d' :
  find_accounts up legs d = (Ok l, d') -> d' = d /\ Forall2 (located d) legs l.
Proof.
  revert l d'. induction legs as [| [[c db] cr] legs IH]; simpl; intros l d'; [intros [= <- <-]; auto |].
  unfold bind, glAccountID. destruct (up _); [| done]. cbn [negb]. destruct (account_id c d) as [i|] eqn:Hi; [| done].
  destruct (find_accounts up legs d) as [[r | x] d1]; [| done]. destruct (IH r d1 eq_refl) as [-> Hr].
  intros [= <- <-]. split; [done |]. constructor; [| done].
  unfold account_id in Hi. destruct (List.filter _ _) as [| [j a] ?] eqn:Hf; [done |]. injection Hi as ->.
  assert ((i, a) ∈ List.filter (fun p => String.eqb (Code p.2) c) (map_to_list (chart d))) as Hin by (rewrite Hf; by left).
  apply elem_of_filterb in Hin as [Hin%elem_of_map_to_list Hc%String.eqb_eq]. exists a. done.
Qed.

Lemma post_Ok now up desc src sid by_ legs d e d' :
  post now up desc src sid by_ legs d = (Ok e, d') ->
  e = next_entry d /\ exists ls rs, Forall2 (located d) legs ls /\ Forall2 (stored e) ls rs /\
    d' = MkDB (chart d) (next_account d) (<[e := MkEntry now desc src sid by_]> (entries d)) (e + 1) (lines d ++ rs).
Proof.
  unfold post, bind. destruct (insert_entry _ _ _ _ _ _ d) as [[e1 | x] d1] eqn:He; [| done].
  apply insert_entry_Ok in He as [-> ->].
  destruct (find_accounts _ _ _) as [[ls | x] d2] eqn:Hf; [| done]. apply find_accounts_Ok in Hf as [-> Hls].
  destruct (insert_lines _ _ _ _ _) as [[u | x] d3] eqn:Hl; [| done].
  apply insert_lines_Ok in Hl as (rs & Hrs & ->). intros [= <- <-]. split; [done |]. exists ls, rs. done.
Qed.

Lemma inTx_Ok {S A} up (trigger : A -> S -> bool) rb fn s a s' :
  inTx up trigger rb fn s = (Ok a, s') -> fn s = (Ok a, s') /\ trigger a s' = true.
Proof.
  unfold inTx. destruct (up BeginTx); [| done]. cbn [negb]. destruct (fn s) as [[b | e] s1]; [| done].
  destruct (up CommitTx); [| done]. cbn [negb]. destruct (trigger b s1) eqn:Ht; [| done]. by intros [= <- <-].
Qed.

Lemma inTx_Err {S A} up (trigger : A -> S -> bool) rb fn s e s' :
  inTx up trigger rb fn s = (Err e, s') -> s' = s \/ exists s1, s' = rb s s1 /\ s1 = (fn s).2.
Proof.
  unfold inTx. destruct (up BeginTx); cbn [negb]; [| intros [= _ <-]; by left].
  destruct (fn s) as [[b | x] s1]; [| intros [= _ <-]; right; eauto].
  destruct (up CommitTx); cbn [negb]; [| intros [= _ <-]; right; eauto].
  destruct (trigger b s1); [done | intros [= _ <-]; right; eauto].
Qed.

(** The tables are as before, up to the sequences. *)
Definition same_tables (d d' : DB) : Prop :=
  chart d' = chart d /\ entries d' = entries d /\ lines d' = lines d.

Lemma postManual_cases `{Decimal} to_numeric now up desc by_ l d :
  match postManual to_numeric now up desc by_ l d with
  | (Err _, d') => same_tables d d'
  | (Ok e, d') =>
      e = next_entry d /\ exists rs, Forall2 (stored e) (map (stored_line to_numeric) l) rs /\
        check_gl_journal_balanced e d' = true /\
        d' = MkDB (chart d) (next_account d) (<[e := MkEntry now desc "manual" None by_]> (entries d)) (e + 1)
               (lines d ++ rs)
  end.
Proof.
  destruct (postManual _ _ _ _ _ _ d) as [[e | x] d'] eqn:Hp.
  - apply inTx_Ok in Hp as [Hp Hb]. unfold bind in Hp.
    destruct (insert_entry _ _ _ _ _ _ d) as [[e1 | x] d1] eqn:He; [| done].
    apply insert_entry_Ok in He as [-> ->].
    destruct (insert_lines _ _ _ _ _) as [[u | x] d2] eqn:Hl; [| done].
    apply insert_lines_Ok in Hl as (rs & Hrs & ->). injection Hp as <- <-. eauto.
  - by apply inTx_Err in Hp as [-> | (d1 & -> & _)].
Qed.

Lemma own_lines e l rs :
  (forall r, r ∈ l -> l_entry r <> e) -> (forall r, r ∈ rs -> l_entry r = e) -> of_entry e (l ++ rs) = rs.
Proof.
  intros Hl Hrs. rewrite of_entry_app. unfold of_entry.
  rewrite filter_none by (intros r Hr; by apply Z.eqb_neq, Hl).
  apply List.forallb_filter_id, forallb_forall. intros r Hr%list_elem_of_In. by apply Z.eqb_eq, Hrs.
Qed.

Lemma stored_entry e l rs r : Forall2 (stored e) l rs -> r ∈ rs -> l_entry r = e.
Proof.
  induction 1 as [| x r' l rs [_ He] _ IH]; [by intros ?%not_elem_of_nil |].
  intros [-> | Hr]%elem_of_cons; [done | auto].
Qed.

Lemma old_lines d r : sound d -> r ∈ lines d -> l_entry r <> next_entry d.
Proof.
  intros Hs Hr He. destruct (so_line d Hs r Hr) as (_ & [x Hx] & _). rewrite He in Hx.
  rewrite (so_entries d Hs) in Hx by lia. done.
Qed.

Lemma join_all d l :
  (forall r, r ∈ l -> is_Some (chart d !! l_account r)) -> map fst (omap (join_account d) l) = l.
Proof.
  induction l as [| r l IH]; intros Hl; [done |]. destruct (Hl r) as [a Ha]; [by left |].
  cbn [omap list_omap]. unfold join_account at 1. rewrite Ha. cbn. f_equal. apply IH. intros r' Hr'. apply Hl. by right.
Qed.

(** What a manual entry that reaches the books leaves there. *)
Record entered (now : Z) (desc by_ : string) (l : list (Z * option Z * option Z)) (rs : list Line) (d d' : DB) : Prop := {
  en_lines : Forall2 (stored (next_entry d)) l rs;
  en_balanced : debits rs = credits rs;
  en_sides r : r ∈ rs -> line_ok (Debit r) (Credit r) = true;
  en_db : d' = MkDB (chart d) (next_account d) (<[next_entry d := MkEntry now desc "manual" None by_]> (entries d))
                 (next_entry d + 1) (lines d ++ rs);
  en_read : exists j, GetJournalEntry true (next_entry d) d' =
                      Ok (Some (next_entry d, MkEntry now desc "manual" None by_, j)) /\ map fst j = rs
}.

Lemma postManual_entered `{Decimal} to_numeric now up desc by_ l d e d' :
  sound d -> postManual to_numeric now up desc by_ l d = (Ok e, d') ->
  e = next_entry d /\ exists rs, entered now desc by_ (map (stored_line to_numeric) l) rs d d'.
Proof.
  intros Hs Hp. pose proof (tx_sound _ _ up _ d (postManual_posting to_numeric now up desc by_ l) Hs) as Hs'.
  change (inTx _ _ _ _ d) with (postManual to_numeric now up desc by_ l d) in Hs'.
  pose proof (postManual_cases to_numeric now up desc by_ l d) as Hc. rewrite Hp in Hc, Hs'. cbn [snd] in Hs'.
  destruct Hc as (-> & rs & Hrs & Hb & Hd). split; [done |]. exists rs.
  assert (of_entry (next_entry d) (lines d') = rs) as Hown.
  { rewrite Hd. apply own_lines; [by intros r; apply old_lines | by intros r; apply (stored_entry _ _ _ _ Hrs)]. }
  assert (forall r, r ∈ rs -> r ∈ lines d') as Hin by (rewrite Hd; simpl; set_solver).
  split; [done | | | done |].
  - unfold check_gl_journal_balanced in Hb. rewrite Hown in Hb. by apply Z.eqb_eq.
  - intros r Hr. by destruct (so_line d' Hs' r (Hin r Hr)) as (_ & _ & ?).
  - assert (entries d' !! next_entry d = Some (MkEntry now desc "manual" None by_)) as He
      by (rewrite Hd; apply lookup_insert_eq).
    unfold GetJournalEntry. cbn [negb]. rewrite He, Hown. eexists.
    split; [done |]. apply join_all. intros r Hr. by destruct (so_line d' Hs' r (Hin r Hr)).
Qed.

Lemma PostJournalEntry_cases `{Decimal} NewFromString to_numeric Float64 now up read_up desc by_ l d :
  sound d ->
  match PostJournalEntry NewFromString to_numeric Float64 now up read_up desc by_ l d with
  | (Ok created, d') =>
      read_up = true /\ GetJournalEntry true (next_entry d) d' = Ok created /\
      exists rs, entered now desc by_ (map (stored_line to_numeric) l) rs d d'
  | (Err _, d') =>
      same_tables d d' \/ read_up = false /\ exists rs, entered now desc by_ (map (stored_line to_numeric) l) rs d d'
  end.
Proof.
  intros Hs. unfold PostJournalEntry. destruct (pre_check _ _ _ l) as [sum | x]; [| by left].
  destruct (out_of_balance sum); [by left |].
  pose proof (postManual_cases to_numeric now up desc by_ l d) as Hc.
  destruct (postManual to_numeric now up desc by_ l d) as [[e | x] d'] eqn:Hp; [| by left].
  destruct (postManual_entered to_numeric now up desc by_ l d e d' Hs Hp) as [-> [rs He]].
  destruct read_up; [| right; eauto]. destruct (en_read _ _ _ _ _ _ _ He) as (j & Hj & _). rewrite Hj. eauto.
Qed.

Lemma sum_by_each {A} (f g : A -> Z) l : (forall x, f x = g x) -> sum_by f l = sum_by g l.
Proof. intros Hfg. induction l as [| x l IH]; simpl; congruence. Qed.

(** ** Properties *)

(** C22: whatever accounts are opened and whatever entries are posted, by hand
    or by another component, with any failures: the debit and credit columns of
    the trial balance have the same total, and between any two instants the
    balance sheet's assets less liabilities and equity grow by exactly the
    profit the income statement reports for that window. *)
Theorem books_agree sources d from_ to_ :
  reachable sources d -> from_ <= to_ ->
  sum_by DebitTotal (v_gl_trial_balance d) = sum_by CreditTotal (v_gl_trial_balance d) /\
  net (gl_balance_sheet to_ d) - net (gl_balance_sheet from_ d) = - net (gl_income_statement from_ to_ d).
Proof.
  intros Hs%reachable_sound Hft. split.
  - pose proof (by_account d (fun _ => true) Hs) as Hb.
    rewrite (sum_by_each _ (fun a => excess (of_account a.1 (lines d)))) in Hb
      by (intros a; unfold of_account; by rewrite filter_comm, dated_all).
    rewrite <- trial_totals, sum_by_sub in Hb. lia.
  - unfold gl_balance_sheet.
    rewrite (net_dated _ d (fun t => t <? to_) (fun t => t <? from_) (fun t => (from_ <=? t) && (t <? to_)))
      by (intros t; lia).
    pose proof (net_both (fun t => (from_ <=? t) && (t <? to_)) d Hs). unfold gl_income_statement. lia.
Qed.

(** A conversion of a decimal to the nearest double, and a reader of whole
    hundredths, for concrete runs. *)
Definition rational_float (q : Q) : spec_float :=
  match Qnum q with
  | 0 => S754_zero false
  | Zpos n => SFdiv 53 1024 (S754_finite false n 0) (S754_finite false (Qden q) 0)
  | Zneg n => SFdiv 53 1024 (S754_finite true n 0) (S754_finite false (Qden q) 0)
  end.
Definition read_hundredths (s : string) : option Q := n ← atoi s; Some (n # 100)%Q.

Definition all_up : stage -> bool := fun _ => true.
Definition rent : list NewJournalLine := [MkNewLine 7 "1500000" "0"; MkNewLine 1 "0" "1500000"].
Definition rent_posted : DB :=
  (@postManual RationalDecimal read_hundredths 1000 all_up "Rent" "asha" rent seed).2.

Lemma books_agree_witness :
  sum_by DebitTotal (v_gl_trial_balance rent_posted) = sum_by CreditTotal (v_gl_trial_balance rent_posted) /\
  net (gl_balance_sheet 2000 rent_posted) - net (gl_balance_sheet 500 rent_posted) =
    - net (gl_income_statement 500 2000 rent_posted).
Proof.
  apply (books_agree [] rent_posted 500 2000); [| lia].
  apply star_one. exact (@step_manual [] RationalDecimal read_hundredths 1000 all_up "Rent" "asha" rent seed).
Defined.

(** The rent as the reports show it: a loss of 15,000. *)
Example rent_reported :
  net (gl_income_statement 500 2000 rent_posted) = 1500000 /\
  net (gl_balance_sheet 2000 rent_posted) = -1500000 /\ net (gl_balance_sheet 1000 rent_posted) = 0.
Proof. vm_compute. done. Qed.

(** POST /api/v1/ledger/entries either leaves the books as they were and
    does not answer 201, or adds exactly one manual entry by the caller whose
    lines are, in order, the accounts and amounts asked for as PostgreSQL reads
    and rounds them, each a debit or a credit, with equal totals; it then
    answers 201 with that entry, unless reading it back fails, which answers
    422 although the entry is posted. *)
Theorem manual_entry_exact `{Decimal} NewFromString to_numeric Float64 now configured up read_up subject body d :
  sound d ->
  match PostJournalEntryHandler NewFromString to_numeric Float64 now configured up read_up subject body d with
  | ((code, created), d') =>
      same_tables d d' /\ code <> 201 \/
      exists req rs, body = Some req /\ (2 <= length rs)%nat /\
        entered now (p_Description req) subject (map (stored_line to_numeric) (map request_line (p_Lines req))) rs d d' /\
        if read_up then code = 201 /\ exists j,
          created = Some (next_entry d, MkEntry now (p_Description req) "manual" None subject, j) /\ map fst j = rs
        else code = 422 /\ created = None
  end.
Proof.
  intros Hs. unfold PostJournalEntryHandler. destruct configured; cbn [negb]; [| by left].
  destruct body as [req|]; [| by left]. destruct (String.eqb _ _); [by left |].
  destruct (_ <? 2)%nat eqn:Hlen; [by left |]. destruct (existsb _ _); [by left |].
  pose proof (PostJournalEntry_cases NewFromString to_numeric Float64 now up read_up (p_Description req) subject
    (map request_line (p_Lines req)) d Hs) as Hc.
  assert (forall d' rs, entered now (p_Description req) subject
    (map (stored_line to_numeric) (map request_line (p_Lines req))) rs d d' -> (2 <= length rs)%nat) as Hl.
  { intros d' rs He. apply en_lines, Forall2_length in He. rewrite !length_map in He.
    apply Nat.ltb_ge in Hlen. by rewrite <- He. }
  destruct (PostJournalEntry _ _ _ _ _ _ _ _ _ d) as [[created | x] d'].
  - destruct Hc as (-> & Hg & rs & He). right. exists req, rs. split_and!; [done | eauto | done | done |].
    destruct (en_read _ _ _ _ _ _ _ He) as (j & Hj & Hr). rewrite Hj in Hg. injection Hg as <-. eauto.
  - destruct Hc as [Hd | (-> & rs & He)]; [by left | right]. exists req, rs. eauto 6.
Qed.

Lemma manual_entry_exact_witness :
  match @PostJournalEntryHandler RationalDecimal read_hundredths read_hundredths rational_float 1000 true all_up true "asha"
          (Some (MkPost "Rent" rent)) seed with
  | ((code, created), d') =>
      same_tables seed d' /\ code <> 201 \/
      exists req rs, Some (MkPost "Rent" rent) = Some req /\ (2 <= length rs)%nat /\
        entered 1000 (p_Description req) "asha" (map (@stored_line RationalDecimal read_hundredths) (map request_line (p_Lines req)))
          rs seed d' /\
        code = 201 /\ exists j, created = Some (1, MkEntry 1000 (p_Description req) "manual" None "asha", j) /\ map fst j = rs
  end.
Proof.
  exact (@manual_entry_exact RationalDecimal read_hundredths read_hundredths rational_float 1000 true all_up true "asha"
    (Some (MkPost "Rent" rent)) seed seed_sound).
Defined.

(** The answers, and the entry that a failed read hides. *)
Example manual_answers :
  let post up read body := @PostJournalEntryHandler RationalDecimal read_hundredths read_hundredths rational_float 1000 true
                             up read "asha" body seed in
  (post all_up true (Some (MkPost "Rent" rent))).1.1 = 201 /\
  (post all_up false (Some (MkPost "Rent" rent))).1 = (422, None) /\
  length (lines (post all_up false (Some (MkPost "Rent" rent))).2) = 2%nat /\
  (post all_up true (Some (MkPost "Rent" [MkNewLine 7 "1500000" "0"; MkNewLine 1 "0" "1499999"]))).1 = (422, None) /\
  (post all_up true (Some (MkPost "Rent" [MkNewLine 7 "0" "0"; MkNewLine 1 "0" "0"]))).1 = (422, None) /\
  (post all_up true (Some (MkPost "Rent" [MkNewLine 77 "5" "0"; MkNewLine 1 "0" "5"]))).1 = (422, None).
Proof. vm_compute. done. Qed.

(** A hundred debits and a hundred credits of the largest amount balance, and
    the sum of doubles does not: the entry is refused. *)
Definition largest : list NewJournalLine :=
  repeat (MkNewLine 7 "99999999999999" "0") 100 ++ repeat (MkNewLine 1 "0" "99999999999999") 100.

Example balanced_entry_refused :
  (@PostJournalEntry RationalDecimal read_hundredths read_hundredths rational_float 1000 all_up true "Large" "asha" largest seed).1 =
    Err ErrUnbalanced /\
  is_ok (@postManual RationalDecimal read_hundredths 1000 all_up "Large" "asha" largest seed).1 = true.
Proof. vm_compute. done. Qed.

(** The days of the income statement: named days start at midnight UTC, the
    month it falls back to at the process's own (here India's, five and a half
    hours ahead). *)
Example statement_days :
  let ist := 19800 * Dates.second in
  let august := Dates.midnight (2026, 8, 1) in
  ledgerDateWindow ist (august + 10 * Dates.day) EmptyString EmptyString =
    Some (august - ist, Dates.midnight (2026, 9, 1) - ist) /\
  ledgerDateWindow ist (august + 10 * Dates.day) "2026-08-01" "2026-08-31" =
    Some (august, Dates.midnight (2026, 9, 1)) /\
  ledgerDateWindow ist august "2026-8-1" EmptyString = None.
Proof. vm_compute. done. Qed.
End Ledger.
