(* ===== verification/Procurement.v ===== *)
(** * Purchase orders

    internal/procurement, internal/db/procurement.go, internal/api/procurement.go
    and the console's forms over migration 042's table, with the general ledger
    of Ledger.v beneath. Amounts are hundredths, instants nanoseconds. *)

From S2P Require Import Prelude GoStrings Rows Decimal Ledger.
From Stdlib Require Import QArith.
From stdpp Require Import sorting.

Local Open Scope Z_scope.

Module Procurement.

(** ** Statuses (procurement.go) *)

Definition StatusRequested : string := "requested".
Definition StatusApproved : string := "approved".
Definition StatusRejected : string := "rejected".
Definition StatusOrdered : string := "ordered".
Definition StatusReceived : string := "received".
Definition StatusCancelled : string := "cancelled".

Definition ValidCategory (c : string) : bool := Ledger.one_of ["hardware"; "services"; "other"]%string c.
Definition ValidFulfilmentStatus (s : string) : bool :=
  Ledger.one_of [StatusOrdered; StatusReceived; StatusCancelled] s.
Definition known_status (s : string) : bool :=
  Ledger.one_of [StatusRequested; StatusApproved; StatusRejected; StatusOrdered; StatusReceived; StatusCancelled] s.

(** ** Tables *)

Record PurchaseOrder : Type := MkOrder {
  Description : string;
  Vendor : string;
  Category : string;
  Amount : Z;
  Status : string;
  RequestedBy : string;
  DecidedBy : option string;
  DecisionReason : option string;
  CreatedAt : Z;
  DecidedAt : option Z;
  ReceivedAt : option Z
}.

Record world : Type := MkWorld {
  orders : gmap Z PurchaseOrder;
  next_order : Z;
  books : Ledger.DB;
  audit : list (string * Z * string)
}.

Definition with_orders (m : gmap Z PurchaseOrder) (n : Z) (w : world) : world := MkWorld m n (books w) (audit w).
Definition with_books (b : Ledger.DB) (w : world) : world := MkWorld (orders w) (next_order w) b (audit w).
Definition Audit (action : string) (id : Z) (actor : string) (w : world) : world :=
  MkWorld (orders w) (next_order w) (books w) (audit w ++ [(action, id, actor)]).

(** The row's constraints, chk_po_distinct_approver among them. *)
Definition order_ok (o : PurchaseOrder) : bool :=
  pg_text (Description o) && fits 200 (Vendor o) && ValidCategory (Category o) && (0 <=? Amount o) &&
  known_status (Status o) && fits 100 (RequestedBy o) &&
  match DecidedBy o with Some by_ => fits 100 by_ && negb (String.eqb by_ (RequestedBy o)) | None => true end &&
  match DecisionReason o with Some r => pg_text r | None => true end.

(** ** The store (db/procurement.go) *)

Section Store.
Context `{Decimal}.

Record NewPurchaseOrder : Type := MkNew {
  n_Description : string; n_Vendor : string; n_Category : string; n_Amount : dec; n_RequestedBy : string
}.

(** The amount reaches the statement as [StringFixed(2)]. *)
Definition CreatePurchaseOrder (now : Z) (ok : bool) (po : NewPurchaseOrder) (w : world) :
    result Ledger.error (Z * PurchaseOrder) * world :=
  if negb ok then (Err Ledger.ErrQuery, w)
  else
    let id := next_order w in
    match numeric 12 (n_Amount po) with
    | None => (Err Ledger.ErrConstraint, with_orders (orders w) (id + 1) w)
    | Some amount =>
        let o := MkOrder (n_Description po) (n_Vendor po) (n_Category po) amount StatusRequested (n_RequestedBy po)
                   None None now None None in
        if order_ok o then (Ok (id, o), with_orders (<[id := o]> (orders w)) (id + 1) w)
        else (Err Ledger.ErrConstraint, with_orders (orders w) (id + 1) w)
    end.

End Store.

Definition newest_first (a b : Z * PurchaseOrder) : Prop := CreatedAt b.2 <= CreatedAt a.2.
#[global] Instance newest_first_dec : RelDecision newest_first.
Proof. intros a b. unfold newest_first. apply _. Defined.

Definition ListPurchaseOrders (ok : bool) (status : option string) (w : world) :
    result Ledger.error (list (Z * PurchaseOrder)) :=
  if negb ok then Err Ledger.ErrQuery
  else Ok (merge_sort newest_first
             (List.filter (fun p => match status with Some s => String.eqb (Status p.2) s | None => true end)
                (map_to_list (orders w)))).

Definition GetPurchaseOrder (ok : bool) (id : Z) (w : world) : result Ledger.error (option PurchaseOrder) :=
  if negb ok then Err Ledger.ErrQuery else Ok (orders w !! id).

Definition decided (now : Z) (approve : bool) (by_ reason : string) (o : PurchaseOrder) : PurchaseOrder :=
  MkOrder (Description o) (Vendor o) (Category o) (Amount o) (if approve then StatusApproved else StatusRejected)
    (RequestedBy o) (Some by_) (Some reason) (CreatedAt o) (Some now) (ReceivedAt o).

Definition DecidePurchaseOrder (now : Z) (ok : bool) (id : Z) (approve : bool) (by_ reason : string) (w : world) :
    result Ledger.error (option PurchaseOrder) * world :=
  if negb ok then (Err Ledger.ErrQuery, w)
  else match orders w !! id with
       | Some o =>
           if negb (String.eqb (Status o) StatusRequested) then (Ok None, w)
           else
             let o' := decided now approve by_ reason o in
             if order_ok o' then (Ok (Some o'), with_orders (<[id := o']> (orders w)) (next_order w) w)
             else (Err Ledger.ErrConstraint, w)
       | None => (Ok None, w)
       end.

(** *** Fulfilment *)

Definition fulfilled (now : Z) (status : string) (o : PurchaseOrder) : PurchaseOrder :=
  MkOrder (Description o) (Vendor o) (Category o) (Amount o) status (RequestedBy o) (DecidedBy o) (DecisionReason o)
    (CreatedAt o) (DecidedAt o) (if String.eqb status StatusReceived then Some now else ReceivedAt o).

Definition update_status (now : Z) (ok : bool) (id : Z) (status : string) : Ledger.M world (option PurchaseOrder) := fun w =>
  if negb ok then (Err Ledger.ErrQuery, w)
  else match orders w !! id with
       | Some o =>
           if negb (Ledger.one_of [StatusApproved; StatusRequested] (Status o)) then (Ok None, w)
           else
             let o' := fulfilled now status o in
             if order_ok o' then (Ok (Some o'), with_orders (<[id := o']> (orders w)) (next_order w) w)
             else (Err Ledger.ErrConstraint, w)
       | None => (Ok None, w)
       end.

(** A statement on the books. *)
Definition on_books {A} (m : Ledger.M Ledger.DB A) : Ledger.M world A := fun w =>
  let '(r, b) := m (books w) in (r, with_books b w).

Definition entry_text (id : Z) (o : PurchaseOrder) : string :=
  "Purchase order #" +:+ format_int id +:+ " received — " +:+ Description o +:+ " (" +:+ Vendor o +:+ ")".

(** The entry of a received order: operating expenses against accounts
    payable. *)
Definition post_received (now : Z) (up : Ledger.stage -> bool) (id : Z) (o : PurchaseOrder) (actor : string) :
    Ledger.M Ledger.DB Z :=
  Ledger.post now up (entry_text id o) "purchase_order" (Some id) actor
    [("5100"%string, Some (Amount o), Some 0); ("2000"%string, Some 0, Some (Amount o))].

(** The transaction; the entry written, if any, is kept for the trigger. *)
Definition fulfil (now : Z) (up : Ledger.stage -> bool) (id : Z) (status actor : string) :
    Ledger.M world (option PurchaseOrder * option Z) :=
  Ledger.bind (update_status now (up Ledger.UpdateRow) id status) (fun po =>
    match po with
    | None => Ledger.ret (None, None)
    | Some o =>
        if negb (String.eqb status StatusReceived) then Ledger.ret (Some o, None)
        else Ledger.bind (on_books (post_received now up id o actor)) (fun e => Ledger.ret (Some o, Some e))
    end).

Definition trigger (r : option PurchaseOrder * option Z) (w : world) : bool :=
  match r.2 with Some e => Ledger.check_gl_journal_balanced e (books w) | None => true end.

Definition rollback (before after : world) : world := with_books (Ledger.rollback (books before) (books after)) before.

Definition UpdateFulfilment (now : Z) (up : Ledger.stage -> bool) (id : Z) (status actor : string) :
    Ledger.M world (option PurchaseOrder) :=
  Ledger.bind (Ledger.inTx up trigger rollback (fulfil now up id status actor)) (fun r => Ledger.ret r.1).

(** ** The handlers (api/procurement.go) *)

Section Handlers.
Context `{Decimal} (NewFromString : string -> option dec).

Record createPurchaseOrderRequest : Type := MkCreate {
  c_Description : string; c_Vendor : string; c_Category : string; c_Amount : string
}.

(** POST /api/v1/procurement/orders *)
Definition CreatePurchaseOrderHandler (now : Z) (configured ok : bool) (subject : string)
    (body : option createPurchaseOrderRequest) (w : world) : (Z * option (Z * PurchaseOrder)) * world :=
  if negb configured then ((503, None), w)
  else match body with
       | None => ((400, None), w)
       | Some req =>
           if String.eqb (c_Description req) EmptyString || String.eqb (c_Vendor req) EmptyString then ((422, None), w)
           else if negb (ValidCategory (c_Category req)) then ((422, None), w)
           else match NewFromString (c_Amount req) with
                | None => ((422, None), w)
                | Some amount =>
                    if is_negative amount then ((422, None), w)
                    else match CreatePurchaseOrder now ok (MkNew (c_Description req) (c_Vendor req) (c_Category req)
                                 amount subject) w with
                         | (Err _, w) => ((500, None), w)
                         | (Ok (id, o), w) => ((201, Some (id, o)), Audit "procurement.request" id subject w)
                         end
                end
       end.

(** The console's form, for a user who may open the section. *)
Definition CreatePurchaseOrderForm (now : Z) (configured ok : bool) (user description vendor category amount : string)
    (w : world) : bool * world :=
  let description := trim_space description in
  let vendor := trim_space vendor in
  if negb configured || String.eqb description EmptyString || String.eqb vendor EmptyString || negb (ValidCategory category)
  then (false, w)
  else match NewFromString (trim_space amount) with
       | None => (false, w)
       | Some amount =>
           if is_negative amount then (false, w)
           else match CreatePurchaseOrder now ok (MkNew description vendor category amount user) w with
                | (Err _, w) => (false, w)
                | (Ok _, w) => (true, w)
                end
       end.

End Handlers.

(** GET /api/v1/procurement/orders *)
Definition ListPurchaseOrdersHandler (configured ok : bool) (status : string) (w : world) :
    Z * option (list (Z * PurchaseOrder)) :=
  Ledger.answer configured
    (ListPurchaseOrders ok (if String.eqb status EmptyString then None else Some status) w).

Record decideRequest : Type := MkDecide { d_Approve : bool; d_Reason : string }.

(** POST /api/v1/procurement/orders/{id}/decide *)
Definition DecidePurchaseOrderHandler (now : Z) (configured read_up ok : bool) (actor path_id : string)
    (body : option decideRequest) (w : world) : (Z * option PurchaseOrder) * world :=
  if negb configured then ((503, None), w)
  else match atoi path_id, body with
       | None, _ | _, None => ((400, None), w)
       | Some id, Some req =>
           if negb (d_Approve req) && String.eqb (d_Reason req) EmptyString then ((422, None), w)
           else match GetPurchaseOrder read_up id w with
                | Err _ => ((500, None), w)
                | Ok None => ((404, None), w)
                | Ok (Some existing) =>
                    if String.eqb (RequestedBy existing) actor then ((403, None), w)
                    else match DecidePurchaseOrder now ok id (d_Approve req) actor (d_Reason req) w with
                         | (Err _, w) => ((500, None), w)
                         | (Ok None, w) => ((409, None), w)
                         | (Ok (Some o), w) => ((200, Some o), Audit "procurement.decide" id actor w)
                         end
                end
       end.

Definition DecidePurchaseOrderForm (now : Z) (configured read_up ok : bool) (user path_id decision reason : string)
    (w : world) : bool * world :=
  let reason := trim_space reason in
  let approve := String.eqb decision "approve" in
  if negb configured then (false, w)
  else match atoi path_id with
       | None => (false, w)
       | Some id =>
           if negb approve && String.eqb reason EmptyString then (false, w)
           else match GetPurchaseOrder read_up id w with
                | Err _ | Ok None => (false, w)
                | Ok (Some existing) =>
                    if String.eqb (RequestedBy existing) user then (false, w)
                    else match DecidePurchaseOrder now ok id approve user reason w with
                         | (Ok (Some _), w) => (true, w)
                         | (_, w) => (false, w)
                         end
                end
       end.

(** POST /api/v1/procurement/orders/{id}/fulfilment *)
Definition UpdateFulfilmentStatus (now : Z) (configured : bool) (up : Ledger.stage -> bool) (actor path_id : string)
    (body : option string) (w : world) : (Z * option PurchaseOrder) * world :=
  if negb configured then ((503, None), w)
  else match atoi path_id, body with
       | None, _ | _, None => ((400, None), w)
       | Some id, Some status =>
           if negb (ValidFulfilmentStatus status) then ((422, None), w)
           else match UpdateFulfilment now up id status actor w with
                | (Err _, w) => ((500, None), w)
                | (Ok None, w) => ((409, None), w)
                | (Ok (Some o), w) => ((200, Some o), Audit "procurement.fulfilment" id actor w)
                end
       end.

Definition UpdateFulfilmentForm (now : Z) (configured : bool) (up : Ledger.stage -> bool) (user path_id status : string)
    (w : world) : bool * world :=
  if negb configured then (false, w)
  else match atoi path_id with
       | None => (false, w)
       | Some id =>
           if negb (ValidFulfilmentStatus status) then (false, w)
           else match UpdateFulfilment now up id status user w with
                | (Ok (Some _), w) => (true, w)
                | (_, w) => (false, w)
                end
       end.

(** ** The life of an order *)

Definition other_sources : list string := ["wallet_ledger"; "lco_commission"]%string.
Definition sources : list string := "purchase_order"%string :: other_sources.

(** A request, or any other change of the books. *)
Inductive step : world -> world -> Prop :=
| step_create `{Decimal} NewFromString now c ok subject body w :
    step w (CreatePurchaseOrderHandler NewFromString now c ok subject body w).2
| step_create_form `{Decimal} NewFromString now c ok user d v cat a w :
    step w (CreatePurchaseOrderForm NewFromString now c ok user d v cat a w).2
| step_decide now c r ok actor id body w : step w (DecidePurchaseOrderHandler now c r ok actor id body w).2
| step_decide_form now c r ok user id decision reason w :
    step w (DecidePurchaseOrderForm now c r ok user id decision reason w).2
| step_fulfil now c up actor id body w : step w (UpdateFulfilmentStatus now c up actor id body w).2
| step_fulfil_form now c up user id status w : step w (UpdateFulfilmentForm now c up user id status w).2
| step_books b w : Ledger.step other_sources (books w) b -> step w (with_books b w).

Definition initial : world := MkWorld ∅ 1 Ledger.seed [].

(** The entry [e] is the expense of order [id]. *)
Definition entry_of (id e : Z) (d : Ledger.DB) : Prop :=
  exists x, Ledger.entries d !! e = Some x /\ Ledger.SourceType x = "purchase_order"%string /\
    Ledger.SourceID x = Some id.

Definition expensed (id amount e : Z) (d : Ledger.DB) : Prop :=
  entry_of id e d /\ exists i j a b,
    Ledger.chart d !! i = Some a /\ Ledger.Code a = "5100"%string /\
    Ledger.chart d !! j = Some b /\ Ledger.Code b = "2000"%string /\
    Ledger.of_entry e (Ledger.lines d) = [Ledger.MkLine e i amount 0; Ledger.MkLine e j 0 amount].

Definition open_order (o : PurchaseOrder) : bool := Ledger.one_of [StatusApproved; StatusRequested] (Status o).

(** What a step may do. *)
Inductive change (w w' : world) : Prop :=
| ch_books :
    orders w' = orders w -> next_order w <= next_order w' ->
    Ledger.grows ("manual"%string :: other_sources) (books w) (books w') -> change w w'
| ch_new o :
    orders w' = <[next_order w := o]> (orders w) -> next_order w' = next_order w + 1 -> books w' = books w ->
    Status o = StatusRequested -> DecidedBy o = None -> order_ok o = true -> change w w'
| ch_row id o o' :
    orders w !! id = Some o -> open_order o = true -> order_ok o' = true -> orders w' = <[id := o']> (orders w) ->
    next_order w' = next_order w -> RequestedBy o' = RequestedBy o -> Amount o' = Amount o ->
    Status o' <> StatusRequested ->
    (Status o = StatusRequested /\ is_Some (DecidedBy o') \/
     ValidFulfilmentStatus (Status o') = true /\ DecidedBy o' = DecidedBy o) ->
    (if String.eqb (Status o') StatusReceived
     then exists e, expensed id (Amount o) e (books w') /\
            Ledger.grows ["purchase_order"]%string (books w) (books w') /\
            forall i e', entry_of i e' (books w') -> entry_of i e' (books w) \/ (i = id /\ e' = e)
     else books w' = books w) ->
    change w w'.

Lemma change_refl w : change w w.
Proof. apply ch_books; [done | lia | apply Ledger.grows_refl]. Qed.

Lemma change_audit w w1 action id actor : change w w1 -> change w (Audit action id actor w1).
Proof.
  intros Hc. inversion Hc as [E1 E2 E3 | o E1 E2 E3 E4 E5 E6 | i o o' E1 E2 E3 E4 E5 E6 E7 E8 E9 E10].
  - by apply ch_books.
  - by eapply ch_new.
  - by eapply (ch_row _ _ i o o').
Qed.

Lemma change_next w m : change w (with_orders (orders w) (next_order w + 1) w) -> m = next_order w + 1 ->
  change w (with_orders (orders w) m w).
Proof. by intros Hc ->. Qed.

Lemma create_change `{Decimal} now ok po w : change w (CreatePurchaseOrder now ok po w).2.
Proof.
  unfold CreatePurchaseOrder. destruct ok; cbn [negb]; [| apply change_refl].
  assert (change w (with_orders (orders w) (next_order w + 1) w)) as Hsame
    by (apply ch_books; simpl; [done | lia | apply Ledger.grows_refl]).
  destruct (numeric 12 (n_Amount po)) as [a|]; [| done].
  destruct (order_ok _) eqn:Hok; [| done]. by eapply ch_new.
Qed.

Lemma decide_change now ok id approve by_ reason w : change w (DecidePurchaseOrder now ok id approve by_ reason w).2.
Proof.
  unfold DecidePurchaseOrder. destruct ok; cbn [negb]; [| apply change_refl].
  destruct (orders w !! id) as [o|] eqn:Ho; [| apply change_refl].
  destruct (String.eqb (Status o) StatusRequested) eqn:Hs; cbn [negb]; [| apply change_refl].
  destruct (order_ok _) eqn:Hok; [| apply change_refl]. apply String.eqb_eq in Hs.
  eapply (ch_row _ _ id o); try done.
  - unfold open_order. by rewrite Hs.
  - by destruct approve.
  - left. split; [done | by eexists].
  - by destruct approve.
Qed.

(** *** Fulfilment *)

Lemma rollback_same d : Ledger.rollback d d = d.
Proof. by destruct d. Qed.

Lemma with_books_same w : with_books (books w) w = w.
Proof. by destruct w. Qed.

Lemma update_status_books now ok id status w :
  match update_status now ok id status w with
  | (Ok (Some o'), w') => exists o, orders w !! id = Some o /\ open_order o = true /\ order_ok o' = true /\
      o' = fulfilled now status o /\ w' = with_orders (<[id := o']> (orders w)) (next_order w) w
  | (_, w') => w' = w
  end.
Proof.
  unfold update_status. destruct ok; [| done]. cbn [negb]. destruct (orders w !! id) as [o|] eqn:Ho; [| done].
  unfold open_order. destruct (Ledger.one_of _ (Status o)) eqn:Hs; [| done]. cbn [negb].
  destruct (order_ok _) eqn:Hok; [| done]. exists o. done.
Qed.

Lemma fulfil_run now up id status actor w :
  fulfil now up id status actor w =
  match update_status now (up Ledger.UpdateRow) id status w with
  | (Ok None, w1) => (Ok (None, None), w1)
  | (Ok (Some o), w1) =>
      if negb (String.eqb status StatusReceived) then (Ok (Some o, None), w1)
      else match post_received now up id o actor (books w1) with
           | (Ok e, b) => (Ok (Some o, Some e), with_books b w1)
           | (Err x, b) => (Err x, with_books b w1)
           end
  | (Err x, w1) => (Err x, w1)
  end.
Proof.
  unfold fulfil, Ledger.bind, on_books. destruct (update_status _ _ _ _ w) as [[[o|]|] w1]; [| done..].
  destruct (negb _); [done |]. by destruct (post_received _ _ _ _ _ _) as [[e | x] b].
Qed.

(** The books after a fulfilment: as they were, or as the order's posting
    leaves them in a transaction of its own. *)
Lemma fulfilment_books now up id status actor w :
  let r := UpdateFulfilment now up id status actor w in
  books r.2 = books w \/ exists o, books r.2 = (Ledger.inTx up Ledger.check_gl_journal_balanced Ledger.rollback
    (post_received now up id o actor) (books w)).2.
Proof.
  unfold UpdateFulfilment, Ledger.bind, Ledger.inTx. destruct (up Ledger.BeginTx); [| by left]. cbn [negb].
  rewrite fulfil_run. pose proof (update_status_books now (up Ledger.UpdateRow) id status w) as Hu.
  destruct (update_status now _ id status w) as [[[o|]|] w1]; subst; cbn [fst snd Ledger.ret].
  - destruct Hu as (o0 & _ & _ & _ & _ & ->). destruct (String.eqb status StatusReceived); cbn [negb].
    + right. exists o. cbn [books with_orders].
      destruct (post_received now up id o actor (books w)) as [[e | x] b]; [| done].
      unfold trigger. cbn [snd books with_books]. destruct (up Ledger.CommitTx); cbn [negb]; [| done].
      by destruct (Ledger.check_gl_journal_balanced e b).
    + left. destruct (up Ledger.CommitTx); [done |]. apply rollback_same.
  - left. destruct (up Ledger.CommitTx); [done |]. apply rollback_same.
  - left. apply rollback_same.
Qed.

Lemma post_received_expensed now up id o actor d e d' :
  Ledger.sound d -> post_received now up id o actor d = (Ok e, d') ->
  expensed id (Amount o) e d' /\
  forall i e', entry_of i e' d' -> entry_of i e' d \/ (i = id /\ e' = e).
Proof.
  intros Hs (He & ls & rs & Hls & Hrs & Hd)%Ledger.post_Ok. subst e.
  assert (forall i e', entry_of i e' d' -> entry_of i e' d \/ (i = id /\ e' = Ledger.next_entry d)) as Hnew.
  { intros i e' (x & Hx & Ht & Hid). rewrite Hd in Hx. simpl in Hx. apply lookup_insert_Some in Hx as [[<- <-] | [_ Hx]].
    - right. simpl in Hid. by injection Hid.
    - left. exists x. done. }
  split; [| done]. split.
  - rewrite Hd. eexists. simpl. rewrite lookup_insert_eq. done.
  - inversion Hls as [| ? [[i db] cr] ? l1 (a & Ha & Hca & Hdb & Hcr) Hl1]; subst.
    inversion Hl1 as [| ? [[j db'] cr'] ? l2 (b & Hb & Hcb & Hdb' & Hcr') Hl2]; subst. inversion Hl2; subst. clear Hls Hl1 Hl2.
    inversion Hrs as [| ? r1 ? l1 [Hr1 He1] Hl1]; subst. inversion Hl1 as [| ? r2 ? l2 [Hr2 He2] Hl2]; subst.
    inversion Hl2; subst. clear Hrs Hl1 Hl2. simpl in *. subst. exists i, j, a, b. split_and!; try done. cbn [Ledger.lines].
    rewrite Ledger.own_lines.
    + destruct r1, r2. simpl in *. by simplify_eq.
    + intros r Hr. by apply Ledger.old_lines.
    + set_solver.
Qed.

Lemma fulfil_change now up id status actor w :
  ValidFulfilmentStatus status = true -> Ledger.sound (books w) ->
  change w (UpdateFulfilment now up id status actor w).2.
Proof.
  intros Hv Hs. pose proof (fulfilment_books now up id status actor w) as Hb. cbn zeta in Hb.
  unfold UpdateFulfilment, Ledger.bind in *.
  destruct (Ledger.inTx _ _ _ _ w) as [[r | x] w'] eqn:Htx; cbn [Ledger.ret snd] in *.
  2: { apply Ledger.inTx_Err in Htx as [-> | (w1 & -> & _)]; [apply change_refl |].
       apply ch_books; cbn; [done | lia | by apply Ledger.grows_same]. }
  apply Ledger.inTx_Ok in Htx as [Hf _]. rewrite fulfil_run in Hf.
  pose proof (update_status_books now (up Ledger.UpdateRow) id status w) as Hu.
  destruct (update_status now _ id status w) as [[[o'|]|] w1]; [| injection Hf as _ <-; subst w1; apply change_refl | done].
  destruct Hu as (o & Ho & Hopen & Hok & -> & ->).
  assert (status <> StatusRequested) as Hne by (intros ->; done).
  destruct (String.eqb status StatusReceived) eqn:Hrec; cbn [negb] in Hf.
  - destruct (post_received _ _ _ _ _ _) as [[e | x] b] eqn:Hp; [| done]. injection Hf as _ <-.
    cbn [books with_books] in Hb. destruct (post_received_expensed _ _ _ _ _ _ _ _ Hs Hp) as [He Hnew].
    eapply (ch_row _ _ id o (fulfilled now status o)); try done; [by right |]. cbn [Status fulfilled]. rewrite Hrec.
    exists e. cbn [books with_books]. split_and!; [done | | done].
    destruct Hb as [-> | (o1 & ->)]; [apply Ledger.grows_refl |].
    eapply Ledger.tx_grows; [apply Ledger.post_posting | done].
  - injection Hf as _ <-. eapply (ch_row _ _ id o (fulfilled now status o)); try done; [by right |].
    cbn [Status fulfilled]. by rewrite Hrec.
Qed.

Lemma procurement_step_change w w' : Ledger.sound (books w) -> step w w' -> change w w'.
Proof.
  intros Hs Hstep. revert Hs. destruct Hstep; intros Hs.
  - unfold CreatePurchaseOrderHandler. destruct c; [| apply change_refl]. destruct body as [req|]; [| apply change_refl].
    cbn [negb]. destruct (_ || _); [apply change_refl |]. destruct (negb _); [apply change_refl |].
    destruct (NewFromString _) as [a|]; [| apply change_refl]. destruct (is_negative a); [apply change_refl |].
    pose proof (create_change now ok (MkNew (c_Description req) (c_Vendor req) (c_Category req) a subject) w) as Hc.
    destruct (CreatePurchaseOrder _ _ _ w) as [[[id o] | x] w1]; [by apply change_audit | done].
  - unfold CreatePurchaseOrderForm. destruct (_ || _); [apply change_refl |].
    destruct (NewFromString _) as [b|]; [| apply change_refl]. destruct (is_negative b); [apply change_refl |].
    pose proof (create_change now ok (MkNew (trim_space d) (trim_space v) cat b user) w) as Hc.
    by destruct (CreatePurchaseOrder _ _ _ w) as [[[id o] | x] w1].
  - unfold DecidePurchaseOrderHandler. destruct c; [| apply change_refl]. cbn [negb].
    destruct (atoi id) as [i|], body as [req|]; try apply change_refl. destruct (_ && _); [apply change_refl |].
    destruct (GetPurchaseOrder r i w) as [[ex|]|]; try apply change_refl. destruct (String.eqb _ _); [apply change_refl |].
    pose proof (decide_change now ok i (d_Approve req) actor (d_Reason req) w) as Hc.
    destruct (DecidePurchaseOrder _ _ _ _ _ _ w) as [[[o|]|] w1]; [by apply change_audit | done..].
  - unfold DecidePurchaseOrderForm. destruct c; [| apply change_refl]. cbn [negb].
    destruct (atoi id) as [i|]; [| apply change_refl]. destruct (_ && _); [apply change_refl |].
    destruct (GetPurchaseOrder r i w) as [[ex|]|]; try apply change_refl. destruct (String.eqb _ user); [apply change_refl |].
    pose proof (decide_change now ok i (String.eqb decision "approve") user (trim_space reason) w) as Hc.
    by destruct (DecidePurchaseOrder _ _ _ _ _ _ w) as [[[o|]|] w1].
  - unfold UpdateFulfilmentStatus. destruct c; [| apply change_refl]. cbn [negb].
    destruct (atoi id) as [i|], body as [status|]; try apply change_refl.
    destruct (ValidFulfilmentStatus status) eqn:Hv; [| apply change_refl]. cbn [negb].
    pose proof (fulfil_change now up i status actor w Hv Hs) as Hc.
    destruct (UpdateFulfilment _ _ _ _ _ w) as [[[o|]|] w1]; [by apply change_audit | done..].
  - unfold UpdateFulfilmentForm. destruct c; [| apply change_refl]. cbn [negb].
    destruct (atoi id) as [i|]; [| apply change_refl].
    destruct (ValidFulfilmentStatus status) eqn:Hv; [| apply change_refl]. cbn [negb].
    pose proof (fulfil_change now up i status user w Hv Hs) as Hc.
    by destruct (UpdateFulfilment _ _ _ _ _ w) as [[[o|]|] w1].
  - apply ch_books; cbn; [done | lia |]. by apply Ledger.step_grows.
Qed.

(** *** The books stay those of Ledger.v *)

Lemma ledger_more d d' : Ledger.step other_sources d d' -> Ledger.step sources d d'.
Proof.
  intros Hs. destruct Hs; [constructor | | apply Ledger.step_manual].
  constructor. unfold sources. set_solver.
Qed.

Lemma books_same w w' : books w' = books w -> star (Ledger.step sources) (books w) (books w').
Proof. intros ->. constructor. Qed.

Lemma fulfilment_step now up id status actor w :
  star (Ledger.step sources) (books w) (books (UpdateFulfilment now up id status actor w).2).
Proof.
  destruct (fulfilment_books now up id status actor w) as [-> | (o & ->)]; [constructor |].
  apply star_one, Ledger.step_post. unfold sources. set_solver.
Qed.

Lemma create_books `{Decimal} now ok po w : books (CreatePurchaseOrder now ok po w).2 = books w.
Proof. unfold CreatePurchaseOrder. by repeat case_match. Qed.
Lemma decide_books now ok id approve by_ reason w : books (DecidePurchaseOrder now ok id approve by_ reason w).2 = books w.
Proof. unfold DecidePurchaseOrder. by repeat case_match. Qed.

(** The handlers that write orders only. *)
Ltac books_kept :=
  apply books_same; repeat case_match; try done;
  match goal with
  | E : CreatePurchaseOrder ?n ?o ?p ?w = _ |- _ =>
      pose proof (create_books n o p w) as Hb; rewrite E in Hb; exact Hb
  | E : DecidePurchaseOrder ?n ?o ?i ?a ?b ?r ?w = _ |- _ =>
      pose proof (decide_books n o i a b r w) as Hb; rewrite E in Hb; exact Hb
  end.

Lemma step_ledger w w' : step w w' -> star (Ledger.step sources) (books w) (books w').
Proof.
  intros Hstep. destruct Hstep.
  - unfold CreatePurchaseOrderHandler. books_kept.
  - unfold CreatePurchaseOrderForm. books_kept.
  - unfold DecidePurchaseOrderHandler. books_kept.
  - unfold DecidePurchaseOrderForm. books_kept.
  - unfold UpdateFulfilmentStatus. destruct c; [| constructor]. cbn [negb].
    destruct (atoi id) as [i|], body as [status|]; try constructor.
    destruct (ValidFulfilmentStatus status); [| constructor]. cbn [negb].
    pose proof (fulfilment_step now up i status actor w) as Hf. by destruct (UpdateFulfilment _ _ _ _ _ w) as [[[o|]|] w1].
  - unfold UpdateFulfilmentForm. destruct c; [| constructor]. cbn [negb].
    destruct (atoi id) as [i|]; [| constructor].
    destruct (ValidFulfilmentStatus status); [| constructor]. cbn [negb].
    pose proof (fulfilment_step now up i status user w) as Hf. by destruct (UpdateFulfilment _ _ _ _ _ w) as [[[o|]|] w1].
  - apply star_one. cbn. by apply ledger_more.
Qed.

Lemma books_reachable w : star step initial w -> Ledger.reachable sources (books w).
Proof.
  intros Hr. enough (forall w1, star step w1 w -> Ledger.reachable sources (books w1) -> Ledger.reachable sources (books w)) as Hall
    by (apply (Hall initial); [done | constructor]).
  induction 1 as [w1 | w1 w2 w3 Hs _ IH]; intros H1; [done |]. apply IH; [done |].
  eapply star_trans; [exact H1 | by apply step_ledger].
Qed.

(** *** The invariant *)

Lemma entry_of_grows l i e d d' : Ledger.grows l d d' -> entry_of i e d -> entry_of i e d'.
Proof. intros Hg (x & Hx & Hr). exists x. split; [| done]. eapply lookup_weaken; [done | apply Hg]. Qed.

Lemma entry_of_quiet i e d d' :
  Ledger.grows ("manual"%string :: other_sources) d d' -> entry_of i e d' -> entry_of i e d.
Proof.
  intros Hg (x & Hx & Hsrc & Hid). exists x. split; [| done].
  destruct (Ledger.entries d !! e) as [y|] eqn:Hy.
  - rewrite <- Hx. symmetry. eapply lookup_weaken; [exact Hy | apply Hg].
  - pose proof (Ledger.gr_new _ _ _ Hg e x Hx Hy) as Hin. rewrite Hsrc in Hin. unfold other_sources in Hin.
    rewrite !elem_of_cons in Hin. by destruct Hin as [? | [? | [? | ?%not_elem_of_nil]]].
Qed.

Lemma expensed_grows l i a e d d' : Ledger.grows l d d' -> expensed i a e d -> expensed i a e d'.
Proof.
  intros Hg [He (i1 & i2 & a1 & a2 & H1 & H2 & H3 & H4 & H5)]. split; [by eapply entry_of_grows |].
  exists i1, i2, a1, a2. split_and!; try done; [eapply lookup_weaken; [done | apply Hg].. |].
  rewrite (Ledger.gr_lines _ _ _ Hg); [done |]. destruct He as (x & Hx & _). by eexists.
Qed.

Definition settled (id : Z) (o : PurchaseOrder) (d : Ledger.DB) : Prop :=
  exists e, expensed id (Amount o) e d /\ forall e', entry_of id e' d -> e' = e.

Record inv (w : world) : Prop := {
  iv_sound : Ledger.sound (books w);
  iv_ids i : next_order w <= i -> orders w !! i = None;
  iv_row i o : orders w !! i = Some o -> order_ok o = true;
  iv_decided i o : orders w !! i = Some o -> Ledger.one_of [StatusApproved; StatusRejected] (Status o) = true ->
    is_Some (DecidedBy o);
  iv_received i o : orders w !! i = Some o -> Status o = StatusReceived -> settled i o (books w);
  iv_none i : (forall o, orders w !! i = Some o -> Status o <> StatusReceived) -> forall e, ~ entry_of i e (books w)
}.

Lemma row_inv w w' id o o' :
  inv w -> Ledger.sound (books w') -> orders w !! id = Some o -> open_order o = true -> order_ok o' = true ->
  orders w' = <[id := o']> (orders w) -> next_order w' = next_order w -> Amount o' = Amount o ->
  (Ledger.one_of [StatusApproved; StatusRejected] (Status o') = true -> is_Some (DecidedBy o')) ->
  (if String.eqb (Status o') StatusReceived
   then exists e, expensed id (Amount o) e (books w') /\
          Ledger.grows ["purchase_order"]%string (books w) (books w') /\
          forall i e', entry_of i e' (books w') -> entry_of i e' (books w) \/ (i = id /\ e' = e)
   else books w' = books w) ->
  inv w'.
Proof.
  intros [I1 I2 I3 I4 I5 I6] Hs' Ho Hopen Hok Ho' Hn Ha Hd Hb.
  assert (Status o <> StatusReceived) as Hnot by (intros Hr; unfold open_order in Hopen; by rewrite Hr in Hopen).
  assert (forall e, ~ entry_of id e (books w)) as Hnone by (apply I6; intros o1 Ho1; by simplify_eq).
  split; rewrite ?Ho', ?Hn.
  - done.
  - intros i Hi. rewrite lookup_insert_ne; [by apply I2 |]. intros <-. rewrite I2 in Ho; done.
  - intros i o1. rewrite lookup_insert_Some. intros [[_ <-] | [_ H1]]; [done | by eapply I3].
  - intros i o1. rewrite lookup_insert_Some. intros [[_ <-] | [_ H1]]; [done | by eapply I4].
  - intros i o1. rewrite lookup_insert_Some. intros [[<- <-] | [Hne H1]] Hr.
    + rewrite Hr, String.eqb_refl in Hb. destruct Hb as (e & He & _ & Hnew). exists e. rewrite Ha.
      split; [done |]. intros e' He'. destruct (Hnew _ _ He') as [Hold | [_ ->]]; [by destruct (Hnone e') | done].
    + destruct (I5 i o1 H1 Hr) as (e & He & Hu). exists e. destruct (String.eqb (Status o') StatusReceived).
      * destruct Hb as (e1 & _ & Hg & Hnew). split; [by eapply expensed_grows |]. intros e' He'.
        destruct (Hnew _ _ He') as [Hold | [-> _]]; [auto | done].
      * by rewrite Hb.
  - intros i Hi e He. assert (forall o1, orders w !! i = Some o1 -> Status o1 <> StatusReceived) as Hold.
    { intros o1 H1. destruct (Z.eq_dec i id) as [-> | Hne]; [by simplify_eq |]. apply Hi. by rewrite lookup_insert_ne. }
    destruct (String.eqb_spec (Status o') StatusReceived) as [Hr | Hr].
    + destruct Hb as (e1 & _ & _ & Hnew). destruct (Hnew _ _ He) as [H1 | [-> _]]; [by apply (I6 i Hold e) |].
      apply (Hi o'); [apply lookup_insert_eq | done].
    + rewrite Hb in He. by apply (I6 i Hold e).
Qed.

Lemma change_inv w w' : inv w -> Ledger.sound (books w') -> change w w' -> inv w'.
Proof.
  intros Hinv Hs' [E1 E2 Hg | o E1 E2 E3 E4 E5 E6 | id o o' E1 E2 E3 E4 E5 E6 E7 E8 E9 E10].
  - destruct Hinv as [I1 I2 I3 I4 I5 I6]. split; rewrite ?E1; try done.
    + intros i Hi. apply I2. lia.
    + intros i o Ho Hr. destruct (I5 i o Ho Hr) as (e & He & Hu). exists e. split; [by eapply expensed_grows |].
      intros e' He'. apply Hu. by eapply entry_of_quiet.
    + intros i Hi e He. apply (I6 i Hi e). by eapply entry_of_quiet.
  - destruct Hinv as [I1 I2 I3 I4 I5 I6]. split; rewrite ?E1, ?E2, ?E3; try done.
    + intros i Hi. rewrite lookup_insert_ne by lia. apply I2. lia.
    + intros i o1. rewrite lookup_insert_Some. intros [[_ <-] | [_ H1]]; [done | by eapply I3].
    + intros i o1. rewrite lookup_insert_Some. intros [[_ <-] | [_ H1]]; [by rewrite E4 | by eapply I4].
    + intros i o1. rewrite lookup_insert_Some. intros [[_ <-] | [_ H1]]; [by rewrite E4 | by eapply I5].
    + intros i Hi. apply I6. intros o1 Ho1. apply Hi. rewrite lookup_insert_ne; [done |]. intros <-.
      rewrite I2 in Ho1 by lia. done.
  - eapply row_inv; try done. intros Hst. destruct E9 as [[_ ?] | [Hv _]]; [done |].
    unfold ValidFulfilmentStatus, Ledger.one_of in *. apply existsb_exists in Hst as (s & Hin & Hs%String.eqb_eq).
    rewrite Hs in Hv. simpl in Hin. destruct_or! Hin; try subst s; done.
Qed.

Lemma initial_inv : inv initial.
Proof. split; try done; [apply Ledger.seed_sound | by intros i _ e (x & Hx & _)]. Qed.

Lemma procurement_inv w : star step initial w -> inv w.
Proof.
  intros Hr. enough (inv w /\ Ledger.reachable sources (books w)) by tauto.
  eapply (star_invariant _ (fun w => inv w /\ Ledger.reachable sources (books w)));
    [| exact Hr | split; [apply initial_inv | constructor]].
  intros w1 w2 [Hi Hb] Hs. assert (Ledger.reachable sources (books w2)) as Hb2
    by (eapply star_trans; [exact Hb | by apply step_ledger]).
  split; [| done]. eapply change_inv; [done | by eapply Ledger.reachable_sound |]. apply procurement_step_change; [apply Hi | done].
Qed.

(** ** Properties *)

(** C23: through any requests, decisions, fulfilment updates, other postings and
    failures, a purchase order that is marked received has exactly one entry in
    the general ledger - its amount as an operating expense against accounts
    payable - and any other order has none; an approved or rejected order was
    decided by somebody other than its requester. *)
Theorem order_expensed_once w id o :
  star step initial w -> orders w !! id = Some o ->
  (Status o = StatusReceived -> exists e, expensed id (Amount o) e (books w) /\
     forall e', entry_of id e' (books w) -> e' = e) /\
  (Status o <> StatusReceived -> forall e, ~ entry_of id e (books w)) /\
  (Status o = StatusApproved \/ Status o = StatusRejected ->
     exists by_, DecidedBy o = Some by_ /\ by_ <> RequestedBy o).
Proof.
  intros Hi%procurement_inv Ho. split_and!.
  - by apply (iv_received w Hi).
  - intros Hne. apply (iv_none w Hi). intros o1 Ho1. by simplify_eq.
  - intros Hst. destruct (iv_decided w Hi id o Ho) as [by_ Hby]; [destruct Hst as [-> | ->]; done |].
    exists by_. split; [done |]. pose proof (iv_row w Hi id o Ho) as Hok. unfold order_ok in Hok. rewrite Hby in Hok.
    intros ->. rewrite String.eqb_refl in Hok. rewrite !andb_true_iff in Hok. simpl in Hok. intuition discriminate.
Qed.

(** An order that was placed, received, cancelled or rejected never changes
    again: in particular one that was marked ordered is never received. *)
Lemma closed_order_is_final w w' id o :
  star step initial w -> orders w !! id = Some o -> open_order o = false -> star step w w' -> orders w' !! id = Some o.
Proof.
  intros Hi Ho Hc Hr. revert Hi Ho. induction Hr as [w | w w1 w2 Hs _ IH]; intros Hi Ho; [done |].
  assert (star step initial w1) as Hi1 by (eapply star_trans; [exact Hi | by apply star_one]).
  apply procurement_inv in Hi. apply (IH Hi1).
  destruct (procurement_step_change w w1) as [E1 E2 _ | n E1 E2 _ _ _ _ | i p p' Hp Hopen _ E1 E2 _ _ _ _ _];
    [apply Hi | done | by rewrite E1 | |].
  - rewrite E1, lookup_insert_ne; [done |]. intros <-. rewrite (iv_ids w Hi) in Ho by lia. done.
  - rewrite E1, lookup_insert_ne; [done |]. intros ->. simplify_eq. congruence.
Qed.

(** A run: asha asks, ravi approves, the goods arrive. *)
Definition read_hundredths (s : string) : option Q := n ← atoi s; Some (n # 100)%Q.
Definition up : Ledger.stage -> bool := fun _ => true.
Definition asked (amount : string) : world :=
  (@CreatePurchaseOrderHandler RationalDecimal read_hundredths 1 true true "asha"
     (Some (MkCreate "Two desks" "Woodworks" "other" amount)) initial).2.
Definition approved : world :=
  (DecidePurchaseOrderHandler 2 true true true "ravi" "1" (Some (MkDecide true EmptyString)) (asked "2400000")).2.
Definition received : world := (UpdateFulfilmentStatus 3 true up "asha" "1" (Some StatusReceived) approved).2.
Definition desks : PurchaseOrder :=
  MkOrder "Two desks" "Woodworks" "other" 2400000 StatusReceived "asha" (Some "ravi"%string) (Some EmptyString) 1
    (Some 2) (Some 3).

Lemma received_run : star step initial received.
Proof.
  eapply star_step; [apply (@step_create RationalDecimal) |]. eapply star_step; [apply step_decide |].
  apply star_one, step_fulfil.
Qed.

Lemma order_expensed_once_witness :
  (Status desks = StatusReceived -> exists e, expensed 1 (Amount desks) e (books received) /\
     forall e', entry_of 1 e' (books received) -> e' = e) /\
  (Status desks <> StatusReceived -> forall e, ~ entry_of 1 e (books received)) /\
  (Status desks = StatusApproved \/ Status desks = StatusRejected ->
     exists by_, DecidedBy desks = Some by_ /\ by_ <> RequestedBy desks).
Proof. apply (order_expensed_once received 1 desks); [apply received_run | vm_compute; reflexivity]. Defined.

(** The requester cannot decide, and may still receive what nobody approved:
    the expense is booked. *)
Example unapproved_expense :
  let w := asked "2400000" in
  (DecidePurchaseOrderHandler 2 true true true "asha" "1" (Some (MkDecide true EmptyString)) w).1 = (403, None) /\
  let r := UpdateFulfilmentStatus 2 true up "asha" "1" (Some StatusReceived) w in
  r.1.1 = 200 /\ (DecidedBy <$> orders r.2 !! 1) = Some None /\ length (Ledger.lines (books r.2)) = 2%nat.
Proof. vm_compute. done. Qed.

(** An order that was placed can no longer be received, and one that costs
    nothing never could. *)
Example stuck_orders :
  let placed := (UpdateFulfilmentStatus 3 true up "ravi" "1" (Some StatusOrdered) approved).2 in
  (Status <$> orders placed !! 1) = Some StatusOrdered /\
  (UpdateFulfilmentStatus 4 true up "ravi" "1" (Some StatusReceived) placed).1 = (409, None) /\
  (CreatePurchaseOrderHandler (H := RationalDecimal) read_hundredths 1 true true "asha"
     (Some (MkCreate "Sample" "Woodworks" "other" "0")) initial).1.1 = 201 /\
  (UpdateFulfilmentStatus 4 true up "ravi" "1" (Some StatusReceived) (asked "0")).1 = (500, None).
Proof. vm_compute. done. Qed.

End Procurement.
