(* ===== verification/Access.v ===== *)
(** * Who may do what: tokens, routes, console sessions and staff accounts

    internal/middleware/auth.go, the route table of internal/api/routes.go,
    the console's sections, sessions, sign-in and staff accounts
    (internal/staffui, internal/db/staff.go, migrations 021 and 024) and the
    portal's sign-in and cookie (internal/portal, internal/portalui). Instants
    are seconds, which is what a token's NumericDate keeps. Pages are the fact
    that they report success. *)

From S2P Require Import Prelude GoStrings Crm Revenue Partner.
From Stdlib Require Import Ascii.

Local Open Scope Z_scope.

Module Access.

(** ** Tokens *)

Record Claims : Type := MkClaims {
  Subject : string;
  Role : string;
  SubscriberID : Z;
  FranchiseID : Z;
  LeaAccess : bool;
  IssuedAt : Z;
  ExpiresAt : Z
}.

(** The token library: [sign] makes an HS256 token under a secret, [parse] is
    [ParseWithClaims] confined to HMAC methods. *)
Class Tokens : Type := {
  sign : string -> Claims -> string;
  parse : string -> Z -> string -> option Claims
}.

(** A token gives its claims back under its own secret until it expires, and
    nothing under another. *)
Class TokenLaws `{Tokens} : Prop := {
  parse_sign key now c : parse key now (sign key c) = if now <? ExpiresAt c then Some c else None;
  parse_other key key' now c : key <> key' -> parse key' now (sign key c) = None
}.

(** The password hash, with the salt it draws; it refuses passwords of more
    than 72 bytes. *)
Class Bcrypt : Type := {
  GenerateFromPassword : Z -> string -> option string;
  CompareHashAndPassword : string -> string -> bool
}.

Class BcryptLaws `{Bcrypt} : Prop := {
  compare_generated salt p h : GenerateFromPassword salt p = Some h -> CompareHashAndPassword h p = true
}.

Definition one_of (l : list string) (s : string) : bool := existsb (String.eqb s) l.

(** ** The middleware (middleware/auth.go) *)

Section Middleware.
Context `{Tokens}.

(** [JWTMiddleware]: the claims the next handler sees, or 401. *)
Definition JWTMiddleware (secret : string) (now : Z) (header : string) : option Claims :=
  if negb (String.prefix Partner.bearer header) then None
  else parse secret now (Partner.trim_prefix Partner.bearer header).

Definition RequireRole (roles : list string) (c : Claims) : bool := one_of roles (Role c).
Definition RequireLeaAccess (c : Claims) : bool := LeaAccess c.

(** ** The API's routes (api/routes.go) *)

Record Route : Type := MkRoute { method : string; path : string; allowed : list string; needs_lea : bool }.

(** What the wrappers answer, or the claims the handler runs with. *)
Definition guard (secret : string) (now : Z) (r : Route) (header : string) : Z + Claims :=
  match JWTMiddleware secret now header with
  | None => inl 401
  | Some c =>
      if negb (RequireRole (allowed r) c) then inl 403
      else if needs_lea r && negb (RequireLeaAccess c) then inl 403
      else inr c
  end.

End Middleware.

Definition admin : list string := ["billing_admin"; "isp_owner"]%string.
Definition staffRead : list string := ["noc_engineer"; "billing_admin"; "csr"; "technician"; "isp_owner"]%string.
Definition nocOnly : list string := ["noc_engineer"; "isp_owner"]%string.
Definition billingOrCSR : list string := ["billing_admin"; "csr"; "isp_owner"]%string.
Definition csrOrTech : list string := ["csr"; "technician"; "isp_owner"]%string.
Definition leadWrite : list string :=
  ["csr"; "technician"; "billing_admin"; "isp_owner"; "lco"; "franchise_admin"; "franchise_staff"]%string.
Definition nocOrTech : list string := ["noc_engineer"; "technician"; "isp_owner"]%string.
Definition ownerOnly : list string := ["isp_owner"]%string.
Definition subscriberSelf : list string := ["subscriber"]%string.
Definition franchiseRead : list string :=
  ["billing_admin"; "isp_owner"; "lco"; "franchise_admin"; "franchise_staff"]%string.

Definition route (roles : list string) (m p : string) : Route := MkRoute m p roles false.

Local Open Scope string_scope.

Definition subscriber_routes : list Route :=
  [route admin "POST" "/api/v1/subscribers"; route staffRead "GET" "/api/v1/subscribers/{id}";
   route admin "PATCH" "/api/v1/subscribers/{id}"; route staffRead "GET" "/api/v1/subscribers/{id}/health";
   route admin "GET" "/api/v1/subscribers/{id}/eap"; route admin "POST" "/api/v1/subscribers/{id}/eap";
   route admin "DELETE" "/api/v1/subscribers/{id}/eap"; route admin "POST" "/api/v1/subscribers/{id}/plan-change";
   route admin "POST" "/api/v1/subscribers/{id}/terminate"; route admin "POST" "/api/v1/subscribers/{id}/adjustments";
   route admin "POST" "/api/v1/subscribers/bulk/plan-change"; route admin "POST" "/api/v1/subscribers/bulk/status";
   route admin "POST" "/api/v1/subscribers/bulk/credit"; route admin "POST" "/api/v1/subscribers/{id}/refunds"].

Definition workflow_routes : list Route :=
  [route admin "GET" "/api/v1/approvals"; route admin "GET" "/api/v1/approvals/{id}";
   route admin "POST" "/api/v1/approvals/{id}/approve"; route admin "POST" "/api/v1/approvals/{id}/reject";
   route csrOrTech "POST" "/api/v1/field-tasks"; route staffRead "GET" "/api/v1/field-tasks";
   route csrOrTech "PATCH" "/api/v1/field-tasks/{id}"].

Definition lead_routes : list Route :=
  [route leadWrite "GET" "/api/v1/leads/funnel"; route leadWrite "POST" "/api/v1/leads";
   route leadWrite "GET" "/api/v1/leads"; route leadWrite "GET" "/api/v1/leads/{id}";
   route leadWrite "PATCH" "/api/v1/leads/{id}"; route admin "POST" "/api/v1/leads/{id}/convert"].

Definition inventory_routes : list Route :=
  [route staffRead "GET" "/api/v1/cpe/types"; route admin "POST" "/api/v1/cpe/types";
   route staffRead "GET" "/api/v1/cpe/devices"; route csrOrTech "POST" "/api/v1/cpe/devices";
   route csrOrTech "POST" "/api/v1/cpe/devices/{serial}/issue"; route csrOrTech "POST" "/api/v1/cpe/devices/{serial}/return";
   route staffRead "GET" "/api/v1/cpe/stock"; route admin "GET" "/api/v1/cpe/purchases";
   route admin "POST" "/api/v1/cpe/purchases"].

Definition finance_routes : list Route :=
  [route admin "POST" "/api/v1/procurement/orders"; route admin "GET" "/api/v1/procurement/orders";
   route admin "POST" "/api/v1/procurement/orders/{id}/decide"; route admin "POST" "/api/v1/procurement/orders/{id}/fulfilment";
   route admin "POST" "/api/v1/ledger/accounts"; route admin "GET" "/api/v1/ledger/accounts";
   route admin "POST" "/api/v1/ledger/entries"; route admin "GET" "/api/v1/ledger/entries";
   route admin "GET" "/api/v1/ledger/entries/{id}"; route admin "GET" "/api/v1/ledger/trial-balance";
   route admin "GET" "/api/v1/ledger/income-statement"; route admin "GET" "/api/v1/ledger/balance-sheet"].

Definition network_routes : list Route :=
  [route staffRead "GET" "/api/v1/cpe/devices/{serial}/tasks"; route nocOrTech "POST" "/api/v1/cpe/devices/{serial}/reboot";
   route nocOrTech "POST" "/api/v1/cpe/devices/{serial}/firmware";
   route nocOrTech "POST" "/api/v1/cpe/devices/{serial}/parameters";
   route nocOrTech "POST" "/api/v1/cpe/devices/{serial}/reprovision";
   route ownerOnly "POST" "/api/v1/partner-keys"; route ownerOnly "GET" "/api/v1/partner-keys";
   route ownerOnly "DELETE" "/api/v1/partner-keys/{id}"; route nocOnly "GET" "/api/v1/nas";
   route nocOnly "POST" "/api/v1/nas"; route nocOnly "PATCH" "/api/v1/nas/{id}"].

Definition hotspot_routes : list Route :=
  [route admin "POST" "/api/v1/hotspot/vouchers"; route staffRead "GET" "/api/v1/hotspot/vouchers";
   route admin "DELETE" "/api/v1/hotspot/vouchers/{id}"; route admin "GET" "/api/v1/hotspot/vouchers/commissions";
   route csrOrTech "POST" "/api/v1/hotspot/devices"; route csrOrTech "DELETE" "/api/v1/hotspot/devices/{mac}";
   route admin "POST" "/api/v1/announcements"; route staffRead "GET" "/api/v1/announcements";
   route admin "POST" "/api/v1/announcements/{id}/send"; route subscriberSelf "GET" "/api/v1/announcements/portal";
   route subscriberSelf "POST" "/api/v1/push-tokens"].

Definition service_routes : list Route :=
  [route admin "POST" "/api/v1/wallets/recharge"; route billingOrCSR "GET" "/api/v1/wallets/{subscriber_id}/ledger";
   route staffRead "GET" "/api/v1/sessions/{subscriber_id}/active";
   route nocOnly "POST" "/api/v1/sessions/{session_id}/disconnect";
   route nocOnly "POST" "/api/v1/sessions/{session_id}/fup-override";
   route ownerOnly "POST" "/api/v1/subscribers/{id}/speed-override";
   route ownerOnly "POST" "/api/v1/subscribers/{id}/speed-override/clear";
   route billingOrCSR "GET" "/api/v1/invoices/{subscriber_id}"; route billingOrCSR "GET" "/api/v1/invoices/{invoice_id}/pdf";
   route billingOrCSR "POST" "/api/v1/tickets"; route csrOrTech "PATCH" "/api/v1/tickets/{ticket_id}";
   MkRoute "POST" "/api/v1/lea/lookup" nocOnly true].

Definition franchise_routes : list Route :=
  [route franchiseRead "GET" "/api/v1/franchises"; route admin "POST" "/api/v1/franchises";
   route admin "GET" "/api/v1/franchises/consolidated-pnl"; route franchiseRead "GET" "/api/v1/franchises/{franchise_id}/pnl";
   route franchiseRead "GET" "/api/v1/reports/exports/{id}"; route franchiseRead "GET" "/api/v1/reports/{report}";
   route franchiseRead "POST" "/api/v1/reports/{report}/export"; route franchiseRead "GET" "/api/v1/franchises/subscribers"].

Definition api_routes : list Route :=
  subscriber_routes ++ workflow_routes ++ lead_routes ++ inventory_routes ++ finance_routes ++ network_routes ++
  hotspot_routes ++ service_routes ++ franchise_routes.

(** ** The console's sections (staffui.go) *)

Record Section_ : Type := MkSection { Key : string; Path : string; Roles : list string; NeedsLEA : bool }.

Definition sections : list Section_ :=
  [MkSection "subscribers" "/staff/subscribers" ["isp_owner"; "noc_engineer"; "billing_admin"; "csr"; "technician"] false;
   MkSection "billing" "/staff/billing" ["isp_owner"; "billing_admin"; "csr"] false;
   MkSection "tickets" "/staff/tickets" ["isp_owner"; "csr"; "technician"] false;
   MkSection "revenue" "/staff/revenue" ["isp_owner"] false;
   MkSection "catalogue" "/staff/catalogue" ["isp_owner"; "billing_admin"] false;
   MkSection "nas" "/staff/nas" ["isp_owner"; "noc_engineer"] false;
   MkSection "network" "/staff/network" ["isp_owner"; "noc_engineer"] false;
   MkSection "lea" "/staff/lea" ["isp_owner"; "noc_engineer"] true;
   MkSection "demo" "/staff/demo" ["isp_owner"] false;
   MkSection "accounts" "/staff/accounts" ["isp_owner"] false;
   MkSection "franchise" "/staff/franchise" ["isp_owner"] false;
   MkSection "my-subscribers" "/staff/my-subscribers" ["lco"; "franchise_admin"; "franchise_staff"] false;
   MkSection "my-pnl" "/staff/my-pnl" ["lco"; "franchise_admin"; "franchise_staff"] false;
   MkSection "procurement" "/staff/procurement" ["isp_owner"; "billing_admin"] false;
   MkSection "ledger" "/staff/ledger" ["isp_owner"; "billing_admin"] false;
   MkSection "inventory" "/staff/inventory" ["isp_owner"; "noc_engineer"; "technician"; "billing_admin"] false;
   MkSection "reports" "/staff/reports" ["isp_owner"; "billing_admin"] false;
   MkSection "tasks" "/staff/tasks" ["isp_owner"; "noc_engineer"; "billing_admin"; "csr"; "technician"] false].

Definition AllowedSections (role : string) (leaAccess : bool) : list Section_ :=
  List.filter (fun s => negb (NeedsLEA s && negb leaAccess) && one_of (Roles s) role) sections.

Definition canAccess (key role : string) (leaAccess : bool) : bool :=
  existsb (fun s => String.eqb (Key s) key) (AllowedSections role leaAccess).

Local Close Scope string_scope.

(** ** Staff accounts (migrations 021 and 024) *)

Record Account : Type := MkAccount {
  Username : string;
  PasswordHash : string;
  FullName : string;
  a_Role : string;
  a_LeaAccess : bool;
  Active : bool;
  a_FranchiseID : option Z;
  LastLogin : option Z
}.

(** The accounts and the partners; [logins] is the history of sign-ins, kept
    for the theorems: token, instant, account as it then was. *)
Record world : Type := MkWorld {
  staff : gmap Z Account;
  next_staff : Z;
  franchises : gset Z;
  logins : list (string * Z * Account)
}.

Definition with_staff (m : gmap Z Account) (n : Z) (w : world) : world := MkWorld m n (franchises w) (logins w).
Definition with_login (t : string) (now : Z) (a : Account) (w : world) : world :=
  MkWorld (staff w) (next_staff w) (franchises w) (logins w ++ [(t, now, a)]).

Inductive error : Type := ErrQuery | ErrConstraint | ErrUnique | ErrNotFound.

Definition staffRoles : list string := ["isp_owner"; "noc_engineer"; "billing_admin"; "csr"; "technician"]%string.
Definition franchiseRoles : list string := ["lco"; "franchise_admin"; "franchise_staff"]%string.
Definition isStaffRole (role : string) : bool := one_of staffRoles role.
Definition isFranchiseRole (role : string) : bool := one_of franchiseRoles role.
Definition isAssignableRole (role : string) : bool := isStaffRole role || isFranchiseRole role.

(** The columns' widths, chk_staff_role, chk_staff_franchise_binding and the
    reference to the partner. *)
Definition account_ok (w : world) (a : Account) : bool :=
  fits 100 (Username a) && fits 255 (PasswordHash a) && fits 200 (FullName a) && isAssignableRole (a_Role a) &&
  match a_FranchiseID a with
  | Some f => isFranchiseRole (a_Role a) && bool_decide (f ∈ franchises w)
  | None => negb (isFranchiseRole (a_Role a))
  end.

Definition username_taken (u : string) (w : world) : bool :=
  existsb (fun p => String.eqb (Username p.2) u) (map_to_list (staff w)).

(** *** The store (db/staff.go) *)

Definition GetStaffByUsername (up : bool) (username : string) (w : world) : result error (option (Z * Account)) :=
  if negb up then Err ErrQuery
  else Ok (head (List.filter (fun p => String.eqb (Username p.2) username && Active p.2) (map_to_list (staff w)))).

Definition ListStaff (up : bool) (w : world) : result error (list (Z * Account)) :=
  if negb up then Err ErrQuery else Ok (map_to_list (staff w)).

Definition CreateStaff (up : bool) (username fullName hash role : string) (lea : bool) (franchise : option Z) (w : world) :
    result error (Z * Account) * world :=
  if negb up then (Err ErrQuery, w)
  else
    let id := next_staff w in
    let a := MkAccount username hash fullName role lea true franchise None in
    if negb (account_ok w a) then (Err ErrConstraint, with_staff (staff w) (id + 1) w)
    else if username_taken username w then (Err ErrUnique, with_staff (staff w) (id + 1) w)
    else (Ok (id, a), with_staff (<[id := a]> (staff w)) (id + 1) w).

Definition updated (role : option string) (lea active : option bool) (franchise : option Z) (a : Account) : Account :=
  let role := default (a_Role a) role in
  MkAccount (Username a) (PasswordHash a) (FullName a) role (default (a_LeaAccess a) lea) (default (Active a) active)
    (if isFranchiseRole role then match franchise with Some f => Some f | None => a_FranchiseID a end else None)
    (LastLogin a).

Definition UpdateStaff (up : bool) (id : Z) (role : option string) (lea active : option bool) (franchise : option Z)
    (w : world) : result error (option Account) * world :=
  if negb up then (Err ErrQuery, w)
  else match staff w !! id with
       | None => (Ok None, w)
       | Some a =>
           let a' := updated role lea active franchise a in
           if account_ok w a' then (Ok (Some a'), with_staff (<[id := a']> (staff w)) (next_staff w) w)
           else (Err ErrConstraint, w)
       end.

Definition set_password (hash : string) (a : Account) : Account :=
  MkAccount (Username a) hash (FullName a) (a_Role a) (a_LeaAccess a) (Active a) (a_FranchiseID a) (LastLogin a).

Definition SetStaffPassword (up : bool) (id : Z) (hash : string) (w : world) : result error unit * world :=
  if negb up then (Err ErrQuery, w)
  else match staff w !! id with
       | None => (Err ErrNotFound, w)
       | Some a =>
           if account_ok w (set_password hash a)
           then (Ok tt, with_staff (<[id := set_password hash a]> (staff w)) (next_staff w) w)
           else (Err ErrConstraint, w)
       end.

Definition touched (now : Z) (a : Account) : Account :=
  MkAccount (Username a) (PasswordHash a) (FullName a) (a_Role a) (a_LeaAccess a) (Active a) (a_FranchiseID a) (Some now).

Definition TouchStaffLogin (now : Z) (up : bool) (id : Z) (w : world) : world :=
  if up then with_staff (alter (touched now) id (staff w)) (next_staff w) w else w.

(** ** The console's sessions (staffui/auth.go) *)

Section Console.
Context `{Tokens} `{Bcrypt}.

(** [mac key message]: HMAC-SHA256 in hexadecimal; [secret] is the console's. *)
Context (mac : string -> string -> string) (secret : string).

Record Session : Type := MkSession {
  s_Username : string; s_Role : string; s_LeaAccess : bool; s_Token : string; s_FranchiseID : Z
}.

Definition sessionTTL : Z := 8 * 3600.

Definition issued_claims (now : Z) (a : Account) : Claims :=
  MkClaims (Username a) (a_Role a) 0 (default 0 (a_FranchiseID a)) (a_LeaAccess a) now (now + sessionTTL).

Definition issueToken (now : Z) (a : Account) : string := sign secret (issued_claims now a).

(** [authed]: the session a cookie resolves to; without one the request is sent
    to the sign-in page. *)
Definition authed (now : Z) (cookie : string) : option Session :=
  if String.eqb cookie EmptyString then None
  else match parse secret now cookie with
       | None => None
       | Some c => Some (MkSession (Subject c) (Role c) (LeaAccess c) cookie (FranchiseID c))
       end.

Definition requireSection (s : Session) (key : string) : bool := canAccess key (s_Role s) (s_LeaAccess s).

Definition csrfToken (token : string) : string := mac secret ("staffui-csrf:" +:+ token).

Definition requireCSRF (s : Session) (form_token : string) : bool := String.eqb form_token (csrfToken (s_Token s)).

Inductive outcome : Type := SignedIn (token : string) | Refused | Unavailable.

Definition Login (now : Z) (configured lookup_up touch_up : bool) (username password : string) (w : world) :
    outcome * world :=
  if negb configured then (Unavailable, w)
  else match GetStaffByUsername lookup_up username w with
       | Err _ => (Unavailable, w)
       | Ok None => (Refused, w)
       | Ok (Some (id, a)) =>
           if negb (CompareHashAndPassword (PasswordHash a) password) then (Refused, w)
           else let t := issueToken now a in
                (SignedIn t, with_login t now a (TouchStaffLogin now touch_up id w))
       end.

Definition minStaffPasswordLength : nat := 10.

Definition ChangePassword (salt : Z) (configured lookup_up set_up : bool) (s : Session) (current new confirm : string)
    (w : world) : bool * world :=
  if negb configured then (false, w)
  else match GetStaffByUsername lookup_up (s_Username s) w with
       | Err _ | Ok None => (false, w)
       | Ok (Some (id, a)) =>
           if negb (CompareHashAndPassword (PasswordHash a) current) then (false, w)
           else if (String.length new <? minStaffPasswordLength)%nat then (false, w)
           else if negb (String.eqb new confirm) then (false, w)
           else match GenerateFromPassword salt new with
                | None => (false, w)
                | Some hash => match SetStaffPassword set_up id hash w with
                               | (Ok _, w) => (true, w)
                               | (Err _, w) => (false, w)
                               end
                end
       end.

(** *** Staff accounts (accounts.go) *)

(** [None]: refused; [Some None]: no binding given. *)
Definition franchiseIDForRole (role raw : string) (required : bool) : option (option Z) :=
  if negb (isFranchiseRole role) then Some None
  else
    let raw := trim_space raw in
    if String.eqb raw EmptyString then (if required then None else Some None)
    else match atoi raw with
         | Some id => if id <=? 0 then None else Some (Some id)
         | None => None
         end.

Record accountForm : Type := MkForm {
  f_username : string; f_full_name : string; f_password : string; f_role : string; f_lea : bool; f_active : bool;
  f_franchise : string
}.

Definition CreateStaffAccount (salt : Z) (configured up : bool) (s : Session) (f : accountForm) (w : world) : bool * world :=
  let username := trim_space (f_username f) in
  let fullName := trim_space (f_full_name f) in
  if negb (requireSection s "accounts") || negb configured then (false, w)
  else if String.eqb username EmptyString || String.eqb fullName EmptyString then (false, w)
  else if negb (isAssignableRole (f_role f)) then (false, w)
  else if (String.length (f_password f) <? minStaffPasswordLength)%nat then (false, w)
  else match franchiseIDForRole (f_role f) (f_franchise f) true with
       | None => (false, w)
       | Some franchise =>
           match GenerateFromPassword salt (f_password f) with
           | None => (false, w)
           | Some hash => match CreateStaff up username fullName hash (f_role f) (f_lea f) franchise w with
                          | (Ok _, w) => (true, w)
                          | (Err _, w) => (false, w)
                          end
           end
       end.

Definition owner (role : string) (active : bool) : bool := String.eqb role "isp_owner" && active.

(** [blockLastOwnerLockout] *)
Definition blockLastOwnerLockout (up : bool) (id : Z) (role : string) (active : bool) (w : world) : bool :=
  match ListStaff up w with
  | Err _ => true
  | Ok l => negb (existsb (fun p => if p.1 =? id then owner role active else owner (a_Role p.2) (Active p.2)) l)
  end.

(** The checks of [UpdateStaffAccount], on the accounts as it reads them: the
    account and the binding it will write. *)
Definition update_checked (configured list_up : bool) (s : Session) (path_id : string) (f : accountForm) (w : world) :
    option (Z * option Z) :=
  if negb (requireSection s "accounts") || negb configured then None
  else match atoi path_id with
       | None => None
       | Some id =>
           if negb (isAssignableRole (f_role f)) then None
           else if blockLastOwnerLockout list_up id (f_role f) (f_active f) w then None
           else match franchiseIDForRole (f_role f) (f_franchise f) false with
                | None => None
                | Some franchise => Some (id, franchise)
                end
       end.

(** Its writes, a moment later. *)
Definition update_written (salt : Z) (up set_up : bool) (f : accountForm) (id : Z) (franchise : option Z) (w : world) :
    bool * world :=
  match UpdateStaff up id (Some (f_role f)) (Some (f_lea f)) (Some (f_active f)) franchise w with
  | (Ok (Some _), w) =>
      if String.eqb (f_password f) EmptyString then (true, w)
      else if (String.length (f_password f) <? minStaffPasswordLength)%nat then (false, w)
      else match GenerateFromPassword salt (f_password f) with
           | None => (false, w)
           | Some hash => match SetStaffPassword set_up id hash w with
                          | (Ok _, w) => (true, w)
                          | (Err _, w) => (false, w)
                          end
           end
  | (_, w) => (false, w)
  end.

Definition UpdateStaffAccount (salt : Z) (configured list_up up set_up : bool) (s : Session) (path_id : string)
    (f : accountForm) (w : world) : bool * world :=
  match update_checked configured list_up s path_id f w with
  | None => (false, w)
  | Some (id, franchise) => update_written salt up set_up f id franchise w
  end.

(** ** The console's actions *)

(** A screen or form: its section, and the roles its handler asks for besides. *)
Record Action : Type := MkAction { a_path : string; a_section : string; a_roles : option (list string) }.

Definition action_allowed (a : Action) (s : Session) : bool :=
  requireSection s (a_section a) && match a_roles a with Some l => one_of l (s_Role s) | None => true end.

(** A form: its session, its token, then its handler's own checks. *)
Definition perform (now : Z) (cookie form_token : string) (a : Action) : option Session :=
  s ← authed now cookie;
  if requireCSRF s form_token && action_allowed a s then Some s else None.

End Console.

(** The forms that have a counterpart in the API, with it. *)
Definition counterparts : list (Action * (string * string)) :=
  let section s := (fun p roles m q => (MkAction p s roles, (m, q))) in
  [section "subscribers" "/staff/subscribers/new" None "POST" "/api/v1/subscribers";
   section "subscribers" "/staff/subscribers/bulk" (Some ["isp_owner"; "billing_admin"]) "POST"
     "/api/v1/subscribers/bulk/plan-change";
   section "subscribers" "/staff/subscribers/{id}/speed-override" (Some ["isp_owner"]) "POST"
     "/api/v1/subscribers/{id}/speed-override";
   section "subscribers" "/staff/subscribers/{id}/speed-override/clear" (Some ["isp_owner"]) "POST"
     "/api/v1/subscribers/{id}/speed-override/clear";
   section "nas" "/staff/nas/new" None "POST" "/api/v1/nas";
   section "nas" "/staff/nas/{id}/update" None "PATCH" "/api/v1/nas/{id}";
   section "tickets" "/staff/tickets/{id}/status" None "PATCH" "/api/v1/tickets/{ticket_id}";
   section "lea" "/staff/lea" None "POST" "/api/v1/lea/lookup";
   section "franchise" "/staff/franchise/new" None "POST" "/api/v1/franchises";
   section "procurement" "/staff/procurement/new" None "POST" "/api/v1/procurement/orders";
   section "procurement" "/staff/procurement/{id}/decide" None "POST" "/api/v1/procurement/orders/{id}/decide";
   section "procurement" "/staff/procurement/{id}/fulfilment" None "POST" "/api/v1/procurement/orders/{id}/fulfilment";
   section "ledger" "/staff/ledger/accounts/new" None "POST" "/api/v1/ledger/accounts";
   section "ledger" "/staff/ledger/entries/new" None "POST" "/api/v1/ledger/entries";
   section "inventory" "/staff/inventory/types/new" (Some ["isp_owner"; "billing_admin"]) "POST" "/api/v1/cpe/types";
   section "inventory" "/staff/inventory/devices/new" None "POST" "/api/v1/cpe/devices";
   section "inventory" "/staff/inventory/devices/{serial}/issue" None "POST" "/api/v1/cpe/devices/{serial}/issue";
   section "inventory" "/staff/inventory/devices/{serial}/return" None "POST" "/api/v1/cpe/devices/{serial}/return";
   section "inventory" "/staff/inventory/purchases/new" (Some ["isp_owner"; "billing_admin"]) "POST" "/api/v1/cpe/purchases";
   section "tasks" "/staff/tasks/field/new" (Some ["csr"; "technician"; "isp_owner"]) "POST" "/api/v1/field-tasks";
   section "tasks" "/staff/tasks/field/{id}/update" (Some ["csr"; "technician"; "isp_owner"]) "PATCH"
     "/api/v1/field-tasks/{id}";
   section "tasks" "/staff/tasks/approvals/{id}/approve" (Some ["billing_admin"; "isp_owner"]) "POST"
     "/api/v1/approvals/{id}/approve";
   section "tasks" "/staff/tasks/approvals/{id}/reject" (Some ["billing_admin"; "isp_owner"]) "POST"
     "/api/v1/approvals/{id}/reject"]%string.

(** ** The customer portal (portal.go, portalui/auth.go) *)

Section Portal.
Context `{Tokens} `{Bcrypt}.
Context (mac : string -> string -> string) (secret : string).

Record SubscriberAuth : Type := MkAuth { p_ID : Z; p_Username : string; p_PasswordHash : string }.

Definition portalTTL : Z := 24 * 3600.

Definition subscriber_claims (now id : Z) (username : string) : Claims :=
  MkClaims username "subscriber" id 0 false now (now + portalTTL).

Definition issueSubscriberJWT (now id : Z) (username : string) : string := sign secret (subscriber_claims now id username).

(** The lookup's outcome is an argument; a failure is an unknown user. *)
Definition Authenticate {E} (now : Z) (lookup : result E (option SubscriberAuth)) (password : string) : option string :=
  match lookup with
  | Ok (Some sub) =>
      if CompareHashAndPassword (p_PasswordHash sub) password
      then Some (issueSubscriberJWT now (p_ID sub) (p_Username sub)) else None
  | _ => None
  end.

(** POST /portal/login *)
Definition PortalLogin {E} (now : Z) (lookup : string -> result E (option SubscriberAuth))
    (body : option (string * string)) : Z * option string :=
  match body with
  | None => (400, None)
  | Some (username, password) =>
      if String.eqb username EmptyString || String.eqb password EmptyString then (422, None)
      else match Authenticate now (lookup username) password with
           | None => (401, None)
           | Some t => (200, Some t)
           end
  end.

(** POST /ui/login: the page's status, or the redirect with its cookie. *)
Definition UILogin {E} (now : Z) (lookup : string -> result E (option SubscriberAuth)) (form : option (string * string)) :
    Z * option string :=
  match PortalLogin now lookup form with (200, t) => (303, t) | r => r end.

(** The portal's own routes all stand behind the subscriber role. *)
Definition self (now : Z) (header : string) : Z + Claims :=
  guard secret now (route subscriberSelf EmptyString EmptyString) header.

(** A request of the pages: its Authorization header and its cookie. *)
Definition cookieBridge (header cookie : string) : string :=
  if String.eqb header EmptyString && negb (String.eqb cookie EmptyString) then Partner.bearer +:+ cookie else header.

Definition ui_csrfToken (token : string) : string := String.substring 0 32 (mac secret token).

(** [requireCSRF]: it looks at the cookie, whatever authenticated the request. *)
Definition ui_requireCSRF (cookie got : string) : bool :=
  negb (String.eqb cookie EmptyString) && negb (String.eqb got EmptyString) && String.eqb got (ui_csrfToken cookie).

(** A state-changing form of the pages. *)
Definition ui_post (now : Z) (header cookie got : string) : Z + Claims :=
  match self now (cookieBridge header cookie) with
  | inl e => inl e
  | inr c => if ui_requireCSRF cookie got then inr c else inl 403
  end.

(** [redirectToLoginOn401] *)
Definition redirectToLoginOn401 (status : Z) : Z := if status =? 401 then 303 else status.

(** [Me] and every other handler take the subscriber from the claims. *)
Definition Me {A E} (c : Claims) (profile : Z -> result E (option A)) : Z * option A :=
  if SubscriberID c =? 0 then (401, None)
  else match profile (SubscriberID c) with
       | Ok (Some p) => (200, Some p)
       | _ => (404, None)
       end.

End Portal.

(** ** The life of an account *)

Section Life.
Context `{TokenLaws} `{BcryptLaws}.
Context (secret : string).

(** One request at a time. *)
Inductive step : world -> world -> Prop :=
| step_login now c l t username password w : step w (Login secret now c l t username password w).2
| step_change salt c l u s current new confirm w : step w (ChangePassword salt c l u s current new confirm w).2
| step_create salt c u s f w : step w (CreateStaffAccount salt c u s f w).2
| step_update salt c l u sp s id f w : step w (UpdateStaffAccount salt c l u sp s id f w).2
| step_partner f w : f <> 0 -> step w (MkWorld (staff w) (next_staff w) ({[f]} ∪ franchises w) (logins w)).

Record sound (w : world) : Prop := {
  so_ids i : next_staff w <= i -> staff w !! i = None;
  so_rows i a : staff w !! i = Some a -> account_ok w a = true;
  so_names i j a b : staff w !! i = Some a -> staff w !! j = Some b -> Username a = Username b -> i = j;
  so_owner : exists i a, staff w !! i = Some a /\ owner (a_Role a) (Active a) = true;
  so_partners : 0 ∉ franchises w;
  so_logins t now a : (t, now, a) ∈ logins w ->
    t = issueToken secret now a /\ Active a = true /\ isAssignableRole (a_Role a) = true /\
    (isFranchiseRole (a_Role a) = true -> exists f, a_FranchiseID a = Some f /\ f ∈ franchises w)
}.

Definition has_owner (m : gmap Z Account) : Prop := exists i a, m !! i = Some a /\ owner (a_Role a) (Active a) = true.

Lemma taken_elem u w : username_taken u w = false -> forall i a, staff w !! i = Some a -> Username a <> u.
Proof.
  unfold username_taken. intros Ht i a Ha <-. apply not_true_iff_false in Ht. apply Ht, existsb_exists. exists (i, a).
  split; [by apply list_elem_of_In, elem_of_map_to_list | apply String.eqb_refl].
Qed.

Lemma sound_row w i a a' :
  sound w -> staff w !! i = Some a -> account_ok w a' = true -> Username a' = Username a ->
  has_owner (<[i := a']> (staff w)) -> sound (with_staff (<[i := a']> (staff w)) (next_staff w) w).
Proof.
  intros [S1 S2 S3 S4 S0 S5] Ha Hok Hn Ho. split; simpl.
  - intros j Hj. rewrite lookup_insert_ne; [by apply S1 |]. intros <-. rewrite S1 in Ha; done.
  - intros j b. rewrite lookup_insert_Some. intros [[_ <-] | [_ Hb]]; [done | by eapply S2].
  - assert (forall j b, <[i := a']> (staff w) !! j = Some b -> exists c, staff w !! j = Some c /\ Username c = Username b) as Hold.
    { intros j b. rewrite lookup_insert_Some. intros [[<- <-] | [_ Hb]]; eauto. }
    intros j k b c (b' & Hb & Eb)%Hold (c' & Hc & Ec)%Hold Hbc. apply (S3 j k b' c'); congruence.
  - exact Ho.
  - exact S0.
  - exact S5.
Qed.

Lemma insert_owner m i (a a' : Account) :
  m !! i = Some a -> owner (a_Role a') (Active a') = owner (a_Role a) (Active a) -> has_owner m -> has_owner (<[i := a']> m).
Proof.
  intros Ha He (j & b & Hb & Ho). destruct (Z.eq_dec i j) as [<- | Hne].
  - exists i, a'. rewrite lookup_insert_eq. split; [done |]. rewrite He. by simplify_eq.
  - exists j, b. by rewrite lookup_insert_ne.
Qed.

Lemma create_sound up u n h r lea f w : sound w -> sound (CreateStaff up u n h r lea f w).2.
Proof.
  intros Hs. unfold CreateStaff. destruct up; cbn [negb]; [| done].
  assert (sound (with_staff (staff w) (next_staff w + 1) w)) as Hsame.
  { destruct Hs as [S1 S2 S3 S4 S0 S5]. split; simpl; try done. intros i Hi. apply S1. lia. }
  destruct (account_ok w _) eqn:Hok; cbn [negb snd]; [| done].
  destruct (username_taken u w) eqn:Ht; cbn [snd]; [done |]. pose proof (taken_elem u w Ht) as Hfree.
  destruct Hs as [S1 S2 S3 (i0 & a0 & Ha0 & Ho0) S0 S5]. split; simpl.
  - intros i Hi. rewrite lookup_insert_ne by lia. apply S1. lia.
  - intros i a. rewrite lookup_insert_Some. intros [[_ <-] | [_ Ha]]; [exact Hok | by eapply S2].
  - intros i j a b. rewrite !lookup_insert_Some. intros [[<- <-] | [Hi Ha]] [[<- <-] | [Hj Hb]] Hab; try done.
    + destruct (Hfree j b Hb). by simpl in Hab.
    + destruct (Hfree i a Ha). by simpl in Hab.
    + by eapply S3.
  - exists i0, a0. rewrite lookup_insert_ne; [done |]. intros <-. rewrite S1 in Ha0; [done | lia].
  - exact S0.
  - exact S5.
Qed.

Lemma set_password_sound up id h w : sound w -> sound (SetStaffPassword up id h w).2.
Proof.
  intros Hs. unfold SetStaffPassword. destruct up; cbn [negb]; [| done].
  destruct (staff w !! id) as [a|] eqn:Ha; [| done]. destruct (account_ok w _) eqn:Hok; [| done]. cbn [snd].
  eapply sound_row; [done | done | done | done |]. eapply insert_owner; [done | done | apply Hs].
Qed.

Lemma touch_sound now up id w : sound w -> sound (TouchStaffLogin now up id w).
Proof.
  intros Hs. unfold TouchStaffLogin. destruct up; [| done]. destruct (staff w !! id) as [a|] eqn:Ha.
  - assert (alter (touched now) id (staff w) = <[id := touched now a]> (staff w)) as ->.
    { apply map_eq. intros j. rewrite lookup_alter, lookup_insert. case_decide; [subst; by rewrite Ha | done]. }
    eapply sound_row; [done | done | | done | eapply insert_owner; [done | done | apply Hs]].
    by apply (so_rows w Hs) in Ha.
  - assert (alter (touched now) id (staff w) = staff w) as ->.
    { apply map_eq. intros j. rewrite lookup_alter. case_decide; [subst; by rewrite Ha | done]. }
    by destruct w.
Qed.

Lemma lookup_account up u w id a :
  GetStaffByUsername up u w = Ok (Some (id, a)) -> staff w !! id = Some a /\ Username a = u /\ Active a = true.
Proof.
  unfold GetStaffByUsername. destruct up; [| done]. cbn [negb].
  destruct (List.filter _ _) as [| p l] eqn:Hf; [done |]. intros [= ->].
  assert ((id, a) ∈ List.filter (fun p => String.eqb (Username p.2) u && Active p.2) (map_to_list (staff w))) as Hin
    by (rewrite Hf; by left).
  apply elem_of_filterb in Hin as [Hin%elem_of_map_to_list [Hu%String.eqb_eq Ha]%andb_true_iff]. done.
Qed.

Lemma account_binding w a : account_ok w a = true -> isFranchiseRole (a_Role a) = true ->
  exists f, a_FranchiseID a = Some f /\ f ∈ franchises w.
Proof.
  unfold account_ok. rewrite !andb_true_iff. intros [_ Hf] Hr. destruct (a_FranchiseID a) as [f|].
  - rewrite andb_true_iff, bool_decide_eq_true in Hf. exists f. tauto.
  - by rewrite Hr in Hf.
Qed.

Lemma account_role w a : account_ok w a = true -> isAssignableRole (a_Role a) = true.
Proof. unfold account_ok. rewrite !andb_true_iff. tauto. Qed.

Lemma login_sound now c l t u p w : sound w -> sound (Login secret now c l t u p w).2.
Proof.
  intros Hs. unfold Login. destruct c; [| done]. cbn [negb].
  destruct (GetStaffByUsername l u w) as [[[id a]|]|] eqn:Hl; [| done..].
  apply lookup_account in Hl as (Ha & _ & Hact). destruct (CompareHashAndPassword _ p); [| done]. cbn [negb snd].
  pose proof (so_rows w Hs id a Ha) as Hok. pose proof (touch_sound now t id w Hs) as [S1 S2 S3 S4 S0 S5].
  assert (logins (TouchStaffLogin now t id w) = logins w /\ franchises (TouchStaffLogin now t id w) = franchises w) as [El Ef]
    by (by destruct t).
  split; try done. intros t' at_ b. simpl. rewrite El, Ef.
  intros [Hin | Hin]%elem_of_app; [apply (so_logins w Hs _ _ _ Hin) |].
  apply list_elem_of_singleton in Hin as [= -> -> ->]. split_and!; [done | done | by eapply account_role |].
  by apply account_binding.
Qed.

Lemma change_password_sound salt c l u s cur new conf w : sound w -> sound (ChangePassword salt c l u s cur new conf w).2.
Proof.
  intros Hs. unfold ChangePassword. destruct c; [| done]. cbn [negb].
  destruct (GetStaffByUsername l (s_Username s) w) as [[[id a]|]|]; [| done..].
  destruct (CompareHashAndPassword _ cur); [| done]. cbn [negb]. destruct (_ <? _)%nat; [done |].
  destruct (String.eqb new conf); [| done]. cbn [negb]. destruct (GenerateFromPassword salt new) as [h|]; [| done].
  pose proof (set_password_sound u id h w Hs) as Hp. by destruct (SetStaffPassword u id h w) as [[] w'].
Qed.

Lemma create_account_sound salt c u s f w : sound w -> sound (CreateStaffAccount salt c u s f w).2.
Proof.
  intros Hs. unfold CreateStaffAccount. destruct (_ || _); [done |]. destruct (_ || _); [done |].
  destruct (isAssignableRole _); [| done]. cbn [negb]. destruct (_ <? _)%nat; [done |].
  destruct (franchiseIDForRole _ _ _) as [fr|]; [| done]. destruct (GenerateFromPassword _ _) as [h|]; [| done].
  pose proof (create_sound u (trim_space (f_username f)) (trim_space (f_full_name f)) h (f_role f) (f_lea f) fr w Hs) as Hc.
  by destruct (CreateStaff _ _ _ _ _ _ _ w) as [[] w'].
Qed.

(** An update that passed the lockout check leaves an owner. *)
Lemma lockout_owner up id role lea active fr w a :
  staff w !! id = Some a -> blockLastOwnerLockout up id role active w = false ->
  has_owner (<[id := updated (Some role) lea (Some active) fr a]> (staff w)).
Proof.
  unfold blockLastOwnerLockout, ListStaff. intros Ha. destruct up; [| done]. cbn [negb].
  intros Hb%negb_false_iff%existsb_exists. destruct Hb as ([j b] & Hin & Ho). simpl in Ho.
  apply list_elem_of_In, elem_of_map_to_list in Hin. destruct (Z.eqb_spec j id) as [-> | Hne].
  - eexists id, _. by rewrite lookup_insert_eq.
  - exists j, b. by rewrite lookup_insert_ne.
Qed.

Lemma update_account_sound salt c l u sp s id f w : sound w -> sound (UpdateStaffAccount salt c l u sp s id f w).2.
Proof.
  intros Hs. unfold UpdateStaffAccount. destruct (update_checked c l s id f w) as [[i fr]|] eqn:Hu; [| done].
  unfold update_checked in Hu. destruct (_ || _); [done |]. destruct (atoi id) as [i'|]; [| done].
  destruct (isAssignableRole _); [| done]. cbn [negb] in Hu.
  destruct (blockLastOwnerLockout _ _ _ _ w) eqn:Hb; [done |].
  destruct (franchiseIDForRole _ _ _) as [fr'|]; [| done]. injection Hu as -> ->.
  unfold update_written, UpdateStaff. destruct u; cbn [negb]; [| done].
  destruct (staff w !! i) as [a|] eqn:Ha; [| done].
  destruct (account_ok w _) eqn:Hok; [| done].
  pose proof (sound_row w i a _ Hs Ha Hok eq_refl (lockout_owner l i (f_role f) _ (f_active f) _ w a Ha Hb)) as Hs'.
  destruct (String.eqb (f_password f) EmptyString); [done |]. destruct (_ <? _)%nat; [done |].
  destruct (GenerateFromPassword _ _) as [h|]; [| done].
  pose proof (set_password_sound sp i h _ Hs') as Hp. by destruct (SetStaffPassword _ _ _ _) as [[] w'].
Qed.

Lemma partner_sound f w : f <> 0 -> sound w -> sound (MkWorld (staff w) (next_staff w) ({[f]} ∪ franchises w) (logins w)).
Proof.
  intros Hf0 [S1 S2 S3 S4 S0 S5]. split; simpl; try done; [| set_solver |].
  - intros i a Ha. specialize (S2 i a Ha). unfold account_ok in *. simpl. rewrite !andb_true_iff in *.
    destruct S2 as [S2 Hf]. split; [done |]. destruct (a_FranchiseID a) as [g|]; [| done].
    rewrite andb_true_iff, bool_decide_eq_true in *. set_solver.
  - intros t now a Hin. destruct (S5 t now a Hin) as (? & ? & ? & Hf). split_and!; try done.
    intros Hr. destruct (Hf Hr) as (g & Hg & Hin'). exists g. set_solver.
Qed.

Lemma step_accounts w w' : sound w -> step w w' -> sound w'.
Proof.
  intros Hs Hstep. destruct Hstep.
  - by apply login_sound.
  - by apply change_password_sound.
  - by apply create_account_sound.
  - by apply update_account_sound.
  - by apply partner_sound.
Qed.

Lemma reachable_accounts w w' : sound w -> star step w w' -> sound w'.
Proof. intros Hs Hr. eapply (star_invariant _ sound); [| exact Hr | exact Hs]. intros ? ? ? ?. by eapply step_accounts. Qed.

(** *** Sessions *)

Lemma authed_session now at_ a :
  authed secret now (issueToken secret at_ a) =
  if String.eqb (issueToken secret at_ a) EmptyString then None
  else if now <? at_ + sessionTTL
       then Some (MkSession (Username a) (a_Role a) (a_LeaAccess a) (issueToken secret at_ a) (default 0 (a_FranchiseID a)))
       else None.
Proof.
  unfold authed. case_match; [done |]. unfold issueToken at 1. rewrite parse_sign. simpl. by destruct (now <? at_ + sessionTTL).
Qed.

Lemma section_role key role lea : canAccess key role lea = true -> isAssignableRole role = true.
Proof.
  unfold canAccess. intros (s & Hin & _)%existsb_exists. unfold AllowedSections in Hin.
  apply list_elem_of_In, elem_of_filterb in Hin as [Hin [_ Hr]%andb_true_iff].
  assert (forallb (fun s => forallb isAssignableRole (Roles s)) sections = true) as Hall by (vm_compute; reflexivity).
  rewrite forallb_forall in Hall. specialize (Hall s (proj1 (list_elem_of_In _ _) Hin)). rewrite forallb_forall in Hall.
  unfold one_of in Hr. apply existsb_exists in Hr as (r & Hr & ->%String.eqb_eq). by apply Hall.
Qed.

Lemma lea_section role lea : canAccess "lea" role lea = true -> lea = true.
Proof.
  unfold canAccess. intros (s & Hin & Hk%String.eqb_eq)%existsb_exists. unfold AllowedSections in Hin.
  apply list_elem_of_In, elem_of_filterb in Hin as [Hin [Hl _]%andb_true_iff].
  destruct lea; [done |]. rewrite andb_true_r in Hl. exfalso.
  assert (forallb (fun s => negb (String.eqb (Key s) "lea") || NeedsLEA s) sections = true) as Hall by (vm_compute; reflexivity).
  rewrite forallb_forall in Hall. specialize (Hall s (proj1 (list_elem_of_In _ _) Hin)).
  rewrite Hk, String.eqb_refl in Hall. simpl in Hall. by rewrite Hall in Hl.
Qed.

Definition caller_of (s : Session) : Crm.Caller := Crm.MkCaller (s_Role s) (s_FranchiseID s).

(** *** The console beside the API *)

Definition find_route (m q : string) : option Route :=
  List.find (fun r => String.eqb (method r) m && String.eqb (path r) q) api_routes.

(** The forms that some role may use and whose API route refuses it. *)
Definition beyond_api : list string :=
  ["/staff/subscribers/new"; "/staff/inventory/devices/new"; "/staff/inventory/devices/{serial}/issue";
   "/staff/inventory/devices/{serial}/return"]%string.

Definition allowed_for (a : Action) (role : string) (lea : bool) : bool :=
  canAccess (a_section a) role lea && match a_roles a with Some l => one_of l role | None => true end.

Definition route_allows (r : Route) (role : string) (lea : bool) : bool :=
  one_of (allowed r) role && (negb (needs_lea r) || lea).

Definition within_api (role : string) (lea : bool) (p : Action * (string * string)) : bool :=
  implb (allowed_for p.1 role lea)
    match find_route p.2.1 p.2.2 with Some r => route_allows r role lea | None => false end.

Lemma counterparts_within role lea p :
  p ∈ counterparts -> one_of beyond_api (a_path p.1) = false -> isAssignableRole role = true -> within_api role lea p = true.
Proof.
  intros Hp Hb Hr.
  assert (forallb (fun p => one_of beyond_api (a_path p.1) ||
    forallb (fun r => within_api r true p && within_api r false p) (staffRoles ++ franchiseRoles)) counterparts = true) as Hall
    by (vm_compute; reflexivity).
  rewrite forallb_forall in Hall. specialize (Hall p (proj1 (list_elem_of_In _ _) Hp)). rewrite Hb in Hall.
  cbn [orb] in Hall. rewrite forallb_forall in Hall.
  assert (In role (staffRoles ++ franchiseRoles)) as Hin.
  { unfold isAssignableRole, isStaffRole, isFranchiseRole, one_of in Hr. apply orb_true_iff in Hr.
    apply in_or_app. destruct Hr as [Hr | Hr]; apply existsb_exists in Hr as (r & Hr & ->%String.eqb_eq); auto. }
  specialize (Hall role Hin). apply andb_true_iff in Hall as [Hyes Hno]. by destruct lea.
Qed.

Lemma bearer_header key now t : JWTMiddleware key now (Partner.bearer +:+ t) = parse key now t.
Proof. unfold JWTMiddleware, Partner.bearer. by destruct t. Qed.

(** ** Properties *)

(** From any sound set of accounts and through any sign-ins, password
    changes, new and edited accounts, one request at a time and with any
    failures, there is always an active owner, usernames stay unique, every role
    is a known one, and exactly the franchise roles are bound, each to a partner
    that exists. *)
Theorem staff_accounts_hold w w' :
  sound w -> star step w w' ->
  (exists i a, staff w' !! i = Some a /\ a_Role a = "isp_owner"%string /\ Active a = true) /\
  (forall i j a b, staff w' !! i = Some a -> staff w' !! j = Some b -> Username a = Username b -> i = j) /\
  (forall i a, staff w' !! i = Some a -> isAssignableRole (a_Role a) = true /\
     (isFranchiseRole (a_Role a) = true <-> is_Some (a_FranchiseID a)) /\
     forall f, a_FranchiseID a = Some f -> f ∈ franchises w').
Proof.
  intros Hs Hr. pose proof (reachable_accounts w w' Hs Hr) as [S1 S2 S3 (i & a & Ha & Ho) S0 S5].
  unfold owner in Ho. apply andb_true_iff in Ho as [Ho%String.eqb_eq Hact]. split_and!; [eauto | exact S3 |].
  intros j b Hb. specialize (S2 j b Hb). split; [by eapply account_role |].
  unfold account_ok in S2. rewrite !andb_true_iff in S2. destruct S2 as [_ Hf].
  destruct (a_FranchiseID b) as [f|].
  - rewrite andb_true_iff, bool_decide_eq_true in Hf. destruct Hf as [Hf Hin]. split; [| by intros g [= <-]].
    split; [by eexists | done].
  - apply negb_true_iff in Hf. split; [| done]. rewrite Hf. split; [done | by intros []].
Qed.

(** A changed password takes effect: the current one was given, no other
    account changes, and signing in with the new one succeeds. *)
Theorem password_change_takes_effect w salt set_up s current new confirm w' now touch :
  sound w -> ChangePassword salt true true set_up s current new confirm w = (true, w') ->
  exists id a a', staff w !! id = Some a /\ Username a = s_Username s /\
    CompareHashAndPassword (PasswordHash a) current = true /\ (10 <= String.length new)%nat /\ confirm = new /\
    staff w' = <[id := a']> (staff w) /\ Username a' = Username a /\ a_Role a' = a_Role a /\ Active a' = true /\
    (Login secret now true true touch (s_Username s) new w').1 = SignedIn (issueToken secret now a').
Proof.
  intros Hs. pose proof (change_password_sound salt true true set_up s current new confirm w Hs) as Hs'.
  unfold ChangePassword in *. cbn [negb] in *.
  destruct (GetStaffByUsername true (s_Username s) w) as [[[id a]|]|] eqn:Hl; [| done..].
  apply lookup_account in Hl as (Ha & Hu & Hact). destruct (CompareHashAndPassword _ current) eqn:Hcur; [| done].
  cbn [negb] in *. destruct (_ <? _)%nat eqn:Hlen; [done |]. destruct (String.eqb_spec new confirm) as [<- | ?]; [| done].
  cbn [negb] in *. destruct (GenerateFromPassword salt new) as [h|] eqn:Hh; [| done].
  unfold SetStaffPassword in *. destruct set_up; [| done]. cbn [negb] in *. rewrite Ha in *.
  destruct (account_ok w _) eqn:Hok; [| done]. intros [= <-]. cbn [snd] in Hs'.
  exists id, a, (set_password h a). split_and!; try done; [by apply Nat.ltb_ge in Hlen |].
  set (w1 := with_staff _ _ w) in *.
  assert (staff w1 !! id = Some (set_password h a)) as Ha' by apply lookup_insert_eq.
  unfold Login. cbn [negb].
  destruct (GetStaffByUsername true (s_Username s) w1) as [[[j b]|]|x] eqn:Hl; [| exfalso..].
  - apply lookup_account in Hl as (Hb & Hub & Hactb). assert (j = id) as ->
      by (apply (so_names w1 Hs' j id b (set_password h a)); [done | done | by rewrite Hub, <- Hu]).
    rewrite Ha' in Hb. injection Hb as <-. cbn [PasswordHash set_password]. by rewrite (compare_generated salt new h Hh).
  - unfold GetStaffByUsername in Hl. cbn [negb] in Hl. destruct (List.filter _ _) eqn:Hf; [| done].
    apply (not_elem_of_nil (id, set_password h a)). rewrite <- Hf. apply elem_of_filterb. split; [by apply elem_of_map_to_list |].
    simpl. by rewrite Hu, String.eqb_refl, Hact.
  - done.
Qed.

(** A subscriber's token names the subscriber whose password was given and
    holds for a day: until then every portal request under it runs for that
    subscriber and afterwards none does; no route of the API takes it, nor does
    the console. *)
Theorem portal_token_confined {E} portal_secret at_ (lookup : result E (option SubscriberAuth)) password t :
  Authenticate portal_secret at_ lookup password = Some t -> portal_secret <> secret ->
  exists sub, lookup = Ok (Some sub) /\ CompareHashAndPassword (p_PasswordHash sub) password = true /\
    (forall now, self portal_secret now (Partner.bearer +:+ t) =
       if now <? at_ + 24 * 3600 then inr (subscriber_claims at_ (p_ID sub) (p_Username sub)) else inl 401) /\
    (forall now r, guard secret now r (Partner.bearer +:+ t) = inl 401) /\
    (forall now, authed secret now t = None).
Proof.
  unfold Authenticate. destruct lookup as [[sub|]|]; try done.
  destruct (CompareHashAndPassword _ password) eqn:Hp; [| done]. intros [= <-] Hne. exists sub. split_and!; try done.
  - intros now. unfold self, guard. rewrite bearer_header. unfold issueSubscriberJWT. rewrite parse_sign.
    cbn [ExpiresAt subscriber_claims]. change (24 * 3600) with portalTTL. by destruct (now <? at_ + portalTTL).
  - intros now r. unfold guard. rewrite bearer_header. unfold issueSubscriberJWT. by rewrite parse_other.
  - intros now. unfold authed. case_match; [done |]. unfold issueSubscriberJWT. by rewrite parse_other.
Qed.

(** The console's forms carry a keyed digest of their session. *)
Context (mac : string -> string -> string).

(** C24: whatever form of the console is performed under the cookie of a sign-in,
    it is within eight hours of it; the account was active then, and its name,
    role, law-enforcement grant and partner are the ones the action runs with:
    the role may use the section, a law-enforcement lookup needs the grant, a
    partner's staff are confined to their own partner, and the form carries the
    token that belongs to this cookie. *)
Theorem console_action_accountable w0 w t at_ a now form act s :
  sound w0 -> star step w0 w -> (t, at_, a) ∈ logins w ->
  perform mac secret now t form act = Some s ->
  now < at_ + 8 * 3600 /\ Active a = true /\ s_Username s = Username a /\ s_Role s = a_Role a /\
  canAccess (a_section act) (a_Role a) (a_LeaAccess a) = true /\
  (a_section act = "lea"%string -> a_LeaAccess a = true) /\
  Revenue.FranchiseMiddleware (caller_of s) =
    Some (if isFranchiseRole (a_Role a) then a_FranchiseID a else None) /\
  form = mac secret ("staffui-csrf:" +:+ t).
Proof.
  intros Hs Hr Hin. pose proof (reachable_accounts w0 w Hs Hr) as Hsw.
  destruct (so_logins w Hsw t at_ a Hin) as (-> & Hact & Hrole & Hbind).
  unfold perform. rewrite authed_session. destruct (String.eqb _ EmptyString); [done |].
  destruct (now <? at_ + sessionTTL) eqn:Hnow; [| done]. simpl.
  destruct (requireCSRF _ _ _ form && _) eqn:Hc; [| done]. intros [= <-]. cbn [s_Username s_Role caller_of].
  apply andb_true_iff in Hc as [Hcsrf Hall]. unfold action_allowed, requireSection in Hall.
  apply andb_true_iff in Hall as [Hacc _]. cbn [s_Role s_LeaAccess] in Hacc.
  unfold requireCSRF in Hcsrf. apply String.eqb_eq in Hcsrf. cbn [s_Token] in Hcsrf.
  split_and!; try done.
  - unfold sessionTTL in Hnow. lia.
  - intros Hk. rewrite Hk in Hacc. by apply lea_section in Hacc.
  - unfold Revenue.FranchiseMiddleware, caller_of. cbn [Crm.role Crm.franchise_claim s_Role s_FranchiseID].
    change (existsb (String.eqb (a_Role a)) Revenue.franchiseScopedRoles) with (isFranchiseRole (a_Role a)).
    destruct (isFranchiseRole (a_Role a)); [| done]. destruct Hbind as (f & -> & Hf); [done |]. simpl.
    destruct (Z.eqb_spec f 0) as [-> | Hne]; [| done]. by destruct (so_partners w Hsw).
Qed.

(** The console grants no reach the API would refuse, four forms apart: any
    other form that is performed under a cookie has an API route that accepts
    the same token, with the same role, as a bearer token. *)
Theorem console_within_api now cookie form act m q s :
  (act, (m, q)) ∈ counterparts -> one_of beyond_api (a_path act) = false ->
  perform mac secret now cookie form act = Some s ->
  exists r c, find_route m q = Some r /\ guard secret now r (Partner.bearer +:+ cookie) = inr c /\ Role c = s_Role s.
Proof.
  intros Hin Hb. unfold perform, authed. destruct (String.eqb cookie EmptyString); [done |].
  destruct (parse secret now cookie) as [c|] eqn:Hp; [| done]. simpl.
  destruct (requireCSRF _ _ _ form && _) eqn:Hc; [| done]. intros [= <-]. cbn [s_Role].
  apply andb_true_iff in Hc as [_ Hall]. assert (Hacc := Hall). unfold action_allowed, requireSection in Hacc.
  apply andb_true_iff in Hacc as [Hacc _]. apply section_role in Hacc. cbn [s_Role] in Hacc.
  pose proof (counterparts_within (Role c) (LeaAccess c) _ Hin Hb Hacc) as Hw. unfold within_api in Hw. cbn [fst snd] in Hw.
  change (allowed_for act (Role c) (LeaAccess c)) with
    (action_allowed act (MkSession (Subject c) (Role c) (LeaAccess c) cookie (FranchiseID c))) in Hw.
  rewrite Hall in Hw. destruct (find_route m q) as [r|]; [| done]. exists r, c. split; [done |]. split; [| done].
  unfold guard. rewrite bearer_header, Hp. unfold route_allows in Hw. cbn [implb] in Hw.
  apply andb_true_iff in Hw as [Hr Hl]. unfold RequireRole, RequireLeaAccess. rewrite Hr. cbn [negb].
  by destruct (needs_lea r), (LeaAccess c).
Qed.

End Life.

(** ** Concrete runs *)

#[global] Instance claims_eq : EqDecision Claims.
Proof. solve_decision. Defined.
#[global] Program Instance claims_countable : Countable Claims :=
  inj_countable' (fun c => (Subject c, Role c, SubscriberID c, FranchiseID c, LeaAccess c, IssuedAt c, ExpiresAt c))
    (fun '(s, r, i, f, l, a, e) => MkClaims s r i f l a e) _.
Next Obligation. by intros []. Qed.

(** A token that spells its claims in bits and names its secret. *)
Fixpoint bits (p : positive) : string :=
  match p with
  | xH => String "h" EmptyString | xO p => String "0" (bits p) | xI p => String "1" (bits p)
  end%char.

Fixpoint unbits (s : string) : option positive :=
  match s with
  | String "h" EmptyString => Some xH
  | String "0" s => option_map xO (unbits s)
  | String "1" s => option_map xI (unbits s)
  | _ => None
  end%char.

Lemma unbits_bits p : unbits (bits p) = Some p.
Proof. induction p as [p IH | p IH |]; simpl; rewrite ?IH; done. Qed.

Lemma bits_plain p : string_forall (fun d => negb (Ascii.eqb d ".")) (bits p) = true.
Proof. induction p as [p IH | p IH |]; simpl; rewrite ?IH; done. Qed.

#[global] Instance SpelledTokens : Tokens := {|
  sign key c := bits (encode c) +:+ String "." key;
  parse key now t :=
    match cut "." t with
    | Some (b, k) =>
        if String.eqb k key
        then p ← unbits b; c ← decode p; if now <? ExpiresAt c then Some c else None
        else None
    | None => None
    end
|}.

#[global] Instance SpelledLaws : TokenLaws.
Proof.
  split.
  - intros key now c. cbn [sign parse SpelledTokens]. rewrite cut_app by apply bits_plain.
    rewrite String.eqb_refl, unbits_bits. cbn [mbind option_bind]. by rewrite decode_encode.
  - intros key key' now c Hne. cbn [sign parse SpelledTokens]. rewrite cut_app by apply bits_plain.
    by destruct (String.eqb_spec key key').
Qed.

#[global] Instance SpelledBcrypt : Bcrypt := {|
  GenerateFromPassword salt p := if (String.length p <=? 72)%nat then Some ("$" +:+ p) else None;
  CompareHashAndPassword h p := String.eqb h ("$" +:+ p)
|}.

#[global] Instance SpelledBcryptLaws : BcryptLaws.
Proof.
  split. intros salt p h. cbn [GenerateFromPassword CompareHashAndPassword SpelledBcrypt].
  destruct (_ <=? _)%nat; [| done]. intros [= <-]. apply String.eqb_refl.
Qed.

Definition demo_mac (key message : string) : string := key +:+ "/" +:+ message.

Definition root : Account := MkAccount "root" "$rootpassword" "Root" "isp_owner" true true None None.
Definition second : Account := MkAccount "second" "$secondpassword" "Second" "isp_owner" false true None None.
Definition office : world := MkWorld {[1 := root; 2 := second]} 3 {[5]} [].

Lemma office_rows i a : staff office !! i = Some a -> (i = 1 /\ a = root) \/ (i = 2 /\ a = second).
Proof.
  unfold office. cbn [staff]. rewrite lookup_insert_Some, lookup_singleton_Some.
  intros [[<- <-] | [_ [<- <-]]]; auto.
Qed.

Lemma office_sound : sound "key" office.
Proof.
  split.
  - intros i Hi. destruct (staff office !! i) as [a|] eqn:Ha; [| done]. cbn in Hi.
    apply office_rows in Ha as [[-> _] | [-> _]]; lia.
  - intros i a Ha. apply office_rows in Ha as [[_ ->] | [_ ->]]; vm_compute; reflexivity.
  - intros i j a b Ha Hb. apply office_rows in Ha as [[-> ->] | [-> ->]], Hb as [[-> ->] | [-> ->]]; done.
  - exists 1, root. split; [by vm_compute | done].
  - unfold office. cbn. set_solver.
  - by intros t now a ?%not_elem_of_nil.
Qed.

Definition signed_in : world := (Login "key" 1000 true true true "root" "rootpassword" office).2.

Lemma signed_in_run : star (step "key") office signed_in.
Proof. apply star_one. apply (step_login "key"). Qed.

Lemma staff_accounts_hold_witness :
  (exists i a, staff signed_in !! i = Some a /\ a_Role a = "isp_owner"%string /\ Active a = true) /\
  (forall i j a b, staff signed_in !! i = Some a -> staff signed_in !! j = Some b -> Username a = Username b -> i = j) /\
  (forall i a, staff signed_in !! i = Some a -> isAssignableRole (a_Role a) = true /\
     (isFranchiseRole (a_Role a) = true <-> is_Some (a_FranchiseID a)) /\
     forall f, a_FranchiseID a = Some f -> f ∈ franchises signed_in).
Proof. apply (staff_accounts_hold "key" office signed_in); [apply office_sound | apply signed_in_run]. Defined.

Definition root_token : string := issueToken "key" 1000 root.
Definition root_session : Session := MkSession "root" "isp_owner" true root_token 0.
Definition new_entry : Action := MkAction "/staff/ledger/entries/new" "ledger" None.

Lemma console_action_accountable_witness :
  2000 < 1000 + 8 * 3600 /\ Active root = true /\ s_Username root_session = Username root /\
  s_Role root_session = a_Role root /\ canAccess (a_section new_entry) (a_Role root) (a_LeaAccess root) = true /\
  (a_section new_entry = "lea"%string -> a_LeaAccess root = true) /\
  Revenue.FranchiseMiddleware (caller_of root_session) =
    Some (if isFranchiseRole (a_Role root) then a_FranchiseID root else None) /\
  demo_mac "key" ("staffui-csrf:" +:+ root_token) = demo_mac "key" ("staffui-csrf:" +:+ root_token).
Proof.
  apply (console_action_accountable "key" demo_mac office signed_in root_token 1000 root 2000
    (demo_mac "key" ("staffui-csrf:" +:+ root_token)) new_entry root_session).
  - apply office_sound.
  - apply signed_in_run.
  - vm_compute. left.
  - vm_compute. reflexivity.
Defined.

Lemma console_within_api_witness :
  exists r c, find_route "POST" "/api/v1/ledger/entries" = Some r /\
    guard "key" 2000 r (Partner.bearer +:+ root_token) = inr c /\ Role c = s_Role root_session.
Proof.
  apply (console_within_api "key" demo_mac 2000 root_token (demo_mac "key" ("staffui-csrf:" +:+ root_token)) new_entry).
  - apply list_elem_of_In. vm_compute. tauto.
  - vm_compute. reflexivity.
  - vm_compute. reflexivity.
Defined.

Definition changed : world :=
  (ChangePassword 7 true true true root_session "rootpassword" "longer-password" "longer-password" office).2.

Lemma password_change_takes_effect_witness :
  exists id a a', staff office !! id = Some a /\ Username a = "root"%string /\
    CompareHashAndPassword (PasswordHash a) "rootpassword" = true /\ (10 <= String.length "longer-password")%nat /\
    "longer-password"%string = "longer-password"%string /\
    staff changed = <[id := a']> (staff office) /\ Username a' = Username a /\ a_Role a' = a_Role a /\ Active a' = true /\
    (Login "key" 9 true true true "root" "longer-password" changed).1 = SignedIn (issueToken "key" 9 a').
Proof.
  apply (password_change_takes_effect "key" office 7 true root_session "rootpassword" "longer-password" "longer-password"
    changed 9 true); [apply office_sound | vm_compute; reflexivity].
Defined.

Definition arun : SubscriberAuth := MkAuth 12 "arun" "$arunpass".
Definition arun_token : string := issueSubscriberJWT "key_portal" 500 12 "arun".

Lemma portal_token_confined_witness :
  exists sub, (Ok (Some arun) : result error (option SubscriberAuth)) = Ok (Some sub) /\
    CompareHashAndPassword (p_PasswordHash sub) "arunpass" = true /\
    (forall now, self "key_portal" now (Partner.bearer +:+ arun_token) =
       if now <? 500 + 24 * 3600 then inr (subscriber_claims 500 (p_ID sub) (p_Username sub)) else inl 401) /\
    (forall now r, guard "key" now r (Partner.bearer +:+ arun_token) = inl 401) /\
    (forall now, authed "key" now arun_token = None).
Proof.
  apply (portal_token_confined "key" "key_portal" 500 (Ok (Some arun) : result error (option SubscriberAuth)) "arunpass"
    arun_token); [vm_compute; reflexivity | done].
Defined.

(** Two owners demote one another at once: both checks pass before either
    write, and no owner is left. *)
Example two_demotions :
  let csr := MkForm EmptyString EmptyString EmptyString "csr" false true EmptyString in
  let s2 := MkSession "second" "isp_owner" false (issueToken "key" 1000 second) 0 in
  update_checked true true root_session "2" csr office = Some (2, None) /\
  update_checked true true s2 "1" csr office = Some (1, None) /\
  let w := (update_written 7 true true csr 1 None (update_written 7 true true csr 2 None office).2).2 in
  map (fun p => a_Role p.2) (map_to_list (staff w)) = ["csr"; "csr"]%string.
Proof. vm_compute. done. Qed.

(** A deactivated owner's session lives on, and reactivates the account. *)
Example deactivated_owner_returns :
  let out := MkForm EmptyString EmptyString EmptyString "isp_owner" false false EmptyString in
  let back := MkForm EmptyString EmptyString EmptyString "isp_owner" true true EmptyString in
  let accounts := MkAction "/staff/accounts/{id}/update" "accounts" None in
  let t := issueToken "key" 1000 second in
  let w := (UpdateStaffAccount 7 true true true true root_session "2" out office).2 in
  (Login "key" 2000 true true true "second" "secondpassword" w).1 = Refused /\
  match perform demo_mac "key" 2000 t (csrfToken demo_mac "key" t) accounts with
  | Some s => let r := UpdateStaffAccount 7 true true true true s "2" back w in
              r.1 = true /\ (Active <$> staff r.2 !! 2) = Some true
  | None => False
  end.
Proof. vm_compute. done. Qed.

(** Who may use, in the console, what the API keeps from them. *)
Example console_exceeds_api :
  flat_map (fun p => map (fun r => (a_path p.1, r)) (List.filter (fun r => negb (within_api r false p)) staffRoles)) counterparts =
  [("/staff/subscribers/new", "noc_engineer"); ("/staff/subscribers/new", "csr"); ("/staff/subscribers/new", "technician");
   ("/staff/inventory/devices/new", "noc_engineer"); ("/staff/inventory/devices/new", "billing_admin");
   ("/staff/inventory/devices/{serial}/issue", "noc_engineer"); ("/staff/inventory/devices/{serial}/issue", "billing_admin");
   ("/staff/inventory/devices/{serial}/return", "noc_engineer"); ("/staff/inventory/devices/{serial}/return", "billing_admin")]%string.
Proof. vm_compute. done. Qed.

End Access.
