(* ===== verification/Cwmp.v ===== *)
(** * CWMP messages and provisioning templates

    internal/tr069/cwmp.go, rpc.go and provisioning.go: the envelope a device
    sends, with the decoder of encoding/xml as an argument; the messages the
    server builds, byte for byte; a model's template with the subscriber's
    values; and the plan's rate in kilobits. [read_set] is a reference reader of
    the one message that configures a device. *)

From S2P Require Import Prelude GoStrings Json Nas.
From stdpp Require Import sorting.
From Stdlib Require Import Ascii.

Local Open Scope Z_scope.

Module Cwmp.

(** ** What a device sends (cwmp.go) *)

Definition EventBootstrap : string := "0 BOOTSTRAP".
Definition EventBoot : string := "1 BOOT".
Definition EventPeriodic : string := "2 PERIODIC".
Definition EventTransfer : string := "7 TRANSFER COMPLETE".

Record DeviceID : Type := MkDeviceID { Manufacturer : string; OUI : string; ProductClass : string; SerialNumber : string }.
Record EventStruct : Type := MkEvent { EventCode : string; CommandKey : string }.
Record ParameterValue : Type := MkParameter { Name : string; Value : string }.

Record Inform : Type := MkInform {
  DeviceId : DeviceID;
  Event : list EventStruct;
  ParameterList : list ParameterValue
}.

Record CWMPFault : Type := MkFault { FaultCode : string; FaultString : string }.
Record SOAPFault : Type := MkSOAPFault { s_FaultCode : string; s_FaultString : string; Detail : CWMPFault }.

(** The body's members that the server looks at; any other message leaves them
    all absent. *)
Record Body : Type := MkBody {
  b_Inform : option Inform;
  SetParameterValuesResp : option Z;
  Fault : option SOAPFault
}.

Record Envelope : Type := MkEnvelope { Header_ID : string; e_Body : Body }.

Definition HasEvent (i : Inform) (code : string) : bool := existsb (fun e => String.eqb (EventCode e) code) (Event i).

(** [strings.Join] *)
Fixpoint join (sep : string) (l : list string) : string :=
  match l with
  | [] => EmptyString
  | [x] => x
  | x :: l => x +:+ sep +:+ join sep l
  end.

Definition EventCodes (i : Inform) : string := join "," (map EventCode (Event i)).

Definition has_suffix (suffix s : string) : bool :=
  let n := (String.length s - String.length suffix)%nat in
  (String.length suffix <=? String.length s)%nat && String.eqb (String.substring n (String.length suffix) s) suffix.

Definition Param (i : Inform) (suffix : string) : string :=
  match List.find (fun p => String.eqb (Name p) suffix || has_suffix suffix (Name p)) (ParameterList i) with
  | Some p => Value p
  | None => EmptyString
  end.

(** An XML token: an element with its namespace, name and attributes, or
    anything else. *)
Inductive Token : Type :=
| StartElement (space local : string) (attrs : list (string * string))
| EndElement (space local : string)
| Other (text : string).

Definition strip_token (t : Token) : Token :=
  match t with
  | StartElement _ local _ => StartElement EmptyString local []
  | EndElement _ local => EndElement EmptyString local
  | Other text => Other text
  end.

Section Decoding.
(** encoding/xml: the tokens of a document up to its first error, a document
    from tokens, and the value a document decodes to. *)
Context (tokens : string -> list Token) (encode : list Token -> string) (unmarshal : string -> option Envelope).

Definition StripNamespaces (raw : string) : string := encode (map strip_token (tokens raw)).

(** [Err tt]: malformed; [Ok None]: the empty body that has nothing to say. *)
Definition ParseEnvelope (raw : string) : result unit (option Envelope) :=
  if (String.length (trim_space raw) =? 0)%nat then Ok None
  else match unmarshal (StripNamespaces raw) with Some env => Ok (Some env) | None => Err tt end.
End Decoding.

(** ** What the server sends (rpc.go) *)

(** [strings.NewReplacer]: at each position the first pair whose key starts
    there; [skip] bytes of a replaced key are still to be passed over. *)
Fixpoint replace (pairs : list (string * string)) (skip : nat) (s : string) : string :=
  match s with
  | EmptyString => EmptyString
  | String c r =>
      match skip with
      | S k => replace pairs k r
      | O =>
          match List.find (fun p => String.prefix p.1 s) pairs with
          | Some (key, v) => v +:+ replace pairs (String.length key - 1) r
          | None => String c (replace pairs 0 r)
          end
      end
  end.

Definition dq : string := String Json.dquote EmptyString.

(** The pairs of [html.EscapeString]. *)
Definition html_escapes : list (string * string) :=
  [("&", "&amp;"); ("'", "&#39;"); ("<", "&lt;"); (">", "&gt;"); (dq, "&#34;")]%string.

Definition esc (s : string) : string := replace html_escapes 0 s.

Definition attr (name v : string) : string := name +:+ "=" +:+ dq +:+ v +:+ dq.

Definition RPCSetParameterValues : string := "SetParameterValues".
Definition RPCGetParameterValues : string := "GetParameterValues".
Definition RPCReboot : string := "Reboot".
Definition RPCDownload : string := "Download".
Definition RPCFactoryReset : string := "FactoryReset".

Definition NSSOAPEnv : string := "http://schemas.xmlsoap.org/soap/envelope/".
Definition NSSOAPEnc : string := "http://schemas.xmlsoap.org/soap/encoding/".
Definition NSXSD : string := "http://www.w3.org/2001/XMLSchema".
Definition NSXSI : string := "http://www.w3.org/2001/XMLSchema-instance".
Definition NSCWMP10 : string := "urn:dslforum-org:cwmp-1-0".

Definition envelope_open : string :=
  "<?xml " +:+ attr "version" "1.0" +:+ " " +:+ attr "encoding" "UTF-8" +:+ "?>" +:+
  "<soap:Envelope " +:+ attr "xmlns:soap" NSSOAPEnv +:+ " " +:+ attr "xmlns:soap-enc" NSSOAPEnc +:+ " " +:+
  attr "xmlns:xsd" NSXSD +:+ " " +:+ attr "xmlns:xsi" NSXSI +:+ " " +:+ attr "xmlns:cwmp" NSCWMP10 +:+ ">" +:+
  "<soap:Header><cwmp:ID " +:+ attr "soap:mustUnderstand" "1" +:+ ">".

Definition envelope (sessionID body : string) : string :=
  envelope_open +:+ esc sessionID +:+ "</cwmp:ID></soap:Header><soap:Body>" +:+ body +:+ "</soap:Body></soap:Envelope>".

Definition BuildInformResponse (sessionID : string) : string :=
  envelope sessionID "<cwmp:InformResponse><MaxEnvelopes>1</MaxEnvelopes></cwmp:InformResponse>".

(** [sortedKeys], on the keys in the order the map is ranged over. *)
Fixpoint insert_key (k : string) (l : list string) : list string :=
  match l with
  | [] => [k]
  | x :: l => if String.ltb k x then k :: x :: l else x :: insert_key k l
  end.

Definition sortedKeys (range : list string) : list string := fold_left (fun keys k => insert_key k keys) range [].

Definition list_open (kind : string) (n : nat) : string :=
  "soap-enc:arrayType=" +:+ dq +:+ kind +:+ "[" +:+ format_int (Z.of_nat n) +:+ "]" +:+ dq +:+ ">".

Definition struct_open : string := "<ParameterValueStruct><Name>".
Definition struct_value : string := "</Name><Value " +:+ attr "xsi:type" "xsd:string" +:+ ">".
Definition struct_close : string := "</Value></ParameterValueStruct>".

Definition write_struct (p : string * string) : string :=
  struct_open +:+ esc p.1 +:+ struct_value +:+ esc p.2 +:+ struct_close.

Fixpoint write_all {A} (f : A -> string) (l : list A) : string :=
  match l with [] => EmptyString | a :: l => f a +:+ write_all f l end.

Definition sorted_params (params : gmap string string) (range : list string) : list (string * string) :=
  map (fun k => (k, default EmptyString (params !! k))) (sortedKeys range).

Definition BuildSetParameterValues (sessionID : string) (params : gmap string string) (range : list string)
    (commandKey : string) : string :=
  let l := sorted_params params range in
  envelope sessionID
    ("<cwmp:SetParameterValues><ParameterList " +:+ list_open "cwmp:ParameterValueStruct" (length l) +:+
     write_all write_struct l +:+ "</ParameterList><ParameterKey>" +:+ esc commandKey +:+
     "</ParameterKey></cwmp:SetParameterValues>").

Definition BuildGetParameterValues (sessionID : string) (names : list string) : string :=
  envelope sessionID
    ("<cwmp:GetParameterValues><ParameterNames " +:+ list_open "xsd:string" (length names) +:+
     write_all (fun n => "<string>" +:+ esc n +:+ "</string>") names +:+ "</ParameterNames></cwmp:GetParameterValues>").

Definition BuildReboot (sessionID commandKey : string) : string :=
  envelope sessionID ("<cwmp:Reboot><CommandKey>" +:+ esc commandKey +:+ "</CommandKey></cwmp:Reboot>").

Definition BuildFactoryReset (sessionID : string) : string :=
  envelope sessionID "<cwmp:FactoryReset></cwmp:FactoryReset>".

Definition BuildDownload (sessionID url commandKey : string) (fileSize : Z) : string :=
  envelope sessionID
    ("<cwmp:Download><CommandKey>" +:+ esc commandKey +:+ "</CommandKey><FileType>1 Firmware Upgrade Image</FileType><URL>" +:+
     esc url +:+ "</URL><Username></Username><Password></Password><FileSize>" +:+ format_int fileSize +:+
     "</FileSize><TargetFileName></TargetFileName><DelaySeconds>0</DelaySeconds><SuccessURL></SuccessURL>" +:+
     "<FailureURL></FailureURL></cwmp:Download>").

(** [renderTask]: the message, or why there is none. *)
Definition renderTask (id : Z) (rpcType : string) (params : gmap string string) (range : list string) :
    result string string :=
  let commandKey := "task-" +:+ format_int id in
  let values := map (fun k => default EmptyString (params !! k)) range in
  if String.eqb rpcType RPCSetParameterValues then
    if decide (params = ∅) then Err "SetParameterValues with no parameters"%string
    else Ok (BuildSetParameterValues EmptyString params range commandKey)
  else if String.eqb rpcType RPCGetParameterValues then
    if decide (params = ∅) then Err "GetParameterValues with no parameter names"%string
    else Ok (BuildGetParameterValues EmptyString values)
  else if String.eqb rpcType RPCReboot then Ok (BuildReboot EmptyString commandKey)
  else if String.eqb rpcType RPCFactoryReset then Ok (BuildFactoryReset EmptyString)
  else if String.eqb rpcType RPCDownload then
    let url := default EmptyString (params !! "url"%string) in
    if String.eqb url EmptyString then Err "download RPC has no url parameter"%string
    else Ok (BuildDownload EmptyString url commandKey 0)
  else Err ("unsupported RPC type " +:+ Json.go_quote rpcType).

(** ** Provisioning (provisioning.go) *)

Record ProvisioningContext : Type := MkContext {
  PPPoEUsername : string;
  PPPoEPassword : string;
  SSID : string;
  WiFiPassword : string;
  RateLimit : string;
  DownstreamKbps : string;
  UpstreamKbps : string;
  PlanName : string;
  c_SerialNumber : string
}.

Definition placeholders (c : ProvisioningContext) : list (string * string) :=
  [("{{pppoe_username}}", PPPoEUsername c); ("{{pppoe_password}}", PPPoEPassword c); ("{{ssid}}", SSID c);
   ("{{wifi_password}}", WiFiPassword c); ("{{rate_limit}}", RateLimit c); ("{{downstream_kbps}}", DownstreamKbps c);
   ("{{upstream_kbps}}", UpstreamKbps c); ("{{plan_name}}", PlanName c); ("{{serial_number}}", c_SerialNumber c)]%string.

Definition RenderTemplate (template : gmap string string) (c : ProvisioningContext) : gmap string string :=
  omap (fun t => let rendered := replace (placeholders c) 0 t in
                 if String.eqb rendered EmptyString then None else Some rendered) template.

(** [itoa]: the digits written from the end of a buffer of twenty bytes;
    [None] is the panic when they do not fit. *)
Fixpoint itoa_loop (room : nat) (n : Z) (acc : string) : option string :=
  if n <=? 0 then Some acc
  else match room with
       | O => None
       | S room => itoa_loop room (n / 10) (String (char_of (48 + n mod 10)) acc)
       end.

Definition itoa (n : Z) : option string := if n =? 0 then Some "0"%string else itoa_loop 20 n EmptyString.

Fixpoint kbps_digits (n : Z) (v : string) : option Z :=
  match v with
  | EmptyString => Some n
  | String c v => if is_decimal c then kbps_digits (i64 (i64 (n * 10) + (char_code c - 48))) v else None
  end.

Definition kbps_unit (v : string) : Z * string :=
  match last_char v with
  | Some (num, "M"%char) | Some (num, "m"%char) => (1000, num)
  | Some (num, "k"%char) | Some (num, "K"%char) => (1, num)
  | Some (num, "G"%char) | Some (num, "g"%char) => (1000000, num)
  | _ => (1, v)
  end.

Definition toKbps (v : string) : option string :=
  let v := trim_space v in
  if String.eqb v EmptyString then Some EmptyString
  else
    let '(multiplier, v) := kbps_unit v in
    match kbps_digits 0 v with
    | None => Some EmptyString
    | Some n => if n =? 0 then Some EmptyString else itoa (i64 (n * multiplier))
    end.

(** Upstream and downstream; [None] is a panic. *)
Definition RateLimitToKbps (rateLimit : string) : option (string * string) :=
  match split_on "/" rateLimit with
  | [u; d] => u ← toKbps u; d ← toKbps d; Some (u, d)
  | _ => Some (EmptyString, EmptyString)
  end.

(** ** A reference reader *)


Definition unesc (s : string) : string := replace (map (fun p => (p.2, p.1)) html_escapes) 0 s.

(** Text up to the next element. *)
Definition text (s : string) : option (string * string) := '(t, s) ← cut "<" s; Some (unesc t, String "<" s).



(** ** Escaping *)








(** ** Reading back *)





(** ** The order of the parameters *)

Definition string_le (a b : string) : Prop := String.leb a b = true.


#[local] Instance string_le_anti : AntiSymm (=) string_le.
Proof. intros a b. apply String.leb_antisym. Qed.

Lemma ascii_compare_lt_trans a b c : Ascii.compare a b = Lt -> Ascii.compare b c = Lt -> Ascii.compare a c = Lt.
Proof. unfold Ascii.compare. rewrite !N.compare_lt_iff. lia. Qed.

Lemma ascii_compare_eq a b : Ascii.compare a b = Eq -> a = b.
Proof. apply Ascii.compare_eq_iff. Qed.

#[local] Instance string_le_trans : Transitive string_le.
Proof.
  unfold string_le, String.leb. intros a. induction a as [| x a IH]; intros b c.
  - by destruct c.
  - destruct b as [| y b]; [done |]. destruct c as [| z c]; simpl; [by intros |].
    destruct (Ascii.compare x y) eqn:Hxy; [| | done].
    + apply ascii_compare_eq in Hxy as ->. destruct (Ascii.compare y z); [| done | done]. apply IH.
    + destruct (Ascii.compare y z) eqn:Hyz; [| | done].
      * apply ascii_compare_eq in Hyz as ->. by rewrite Hxy.
      * by rewrite (ascii_compare_lt_trans x y z).
Qed.





(** ** The plan's rate *)

Lemma split_on_cut c s :
  split_on c s = match cut c s with Some (a, b) => a :: split_on c b | None => [s] end.
Proof.
  induction s as [| d s IH]; [done |]. simpl. destruct (Ascii.eqb d c); [done |]. rewrite IH.
  by destruct (cut c s) as [[a b]|].
Qed.

Lemma kbps_unit_spec v :
  (kbps_unit v).1 ∈ [1; 1000; 1000000] /\
  Nas.split_unit v = (if String.eqb (kbps_unit v).2 v then 1 else 1000 * (kbps_unit v).1, (kbps_unit v).2).
Proof.
  unfold kbps_unit, Nas.split_unit. destruct (last_char v) as [[num c]|] eqn:Hl; [| rewrite String.eqb_refl; split; [by left | done]].
  assert (String.eqb num v = false) as Hne.
  { apply String.eqb_neq. intros ->. clear -Hl. revert Hl. induction v as [| a v IH]; [done |]. simpl.
    destruct (last_char v) as [[x l]|]; [| done]. intros [= -> ->]. by apply IH. }
  destruct c as [[] [] [] [] [] [] [] []]; cbn [fst snd]; rewrite ?Hne, ?String.eqb_refl; (split; [set_solver | done]).
Qed.

Lemma kbps_digits_value v acc n :
  0 <= acc -> digits_value acc v = Some n -> n <= Nas.max_uint32 -> kbps_digits acc v = Some n.
Proof.
  revert acc. induction v as [| c v IH]; intros acc Ha; simpl; [done |].
  destruct (is_decimal c) eqn:Hc; [| done]. intros Hv Hn.
  assert (0 <= char_code c - 48 <= 9) as Hd.
  { unfold is_decimal, in_range in Hc. apply andb_true_iff in Hc as [?%Z.leb_le ?%Z.leb_le]. lia. }
  assert (10 * acc + (char_code c - 48) <= n) as Hle.
  { clear -Hv Ha Hd. assert (0 <= 10 * acc + (char_code c - 48)) as H0 by lia. revert H0 Hv.
    generalize (10 * acc + (char_code c - 48)) as k. induction v as [| e v IH]; intros k H0; simpl; [intros [= ->]; lia |].
    destruct (is_decimal e) eqn:He; [| done]. unfold is_decimal, in_range in He.
    apply andb_true_iff in He as [?%Z.leb_le ?%Z.leb_le]. intros Hv%IH; lia. }
  unfold Nas.max_uint32 in Hn. unfold max_int64 in *.
  rewrite (i64_small (acc * 10)) by (unfold max_int64; lia).
  replace (acc * 10 + (char_code c - 48)) with (10 * acc + (char_code c - 48)) by lia.
  rewrite i64_small by (unfold max_int64; lia). by apply IH; [lia | | unfold Nas.max_uint32].
Qed.

Lemma itoa_loop_pretty room n acc :
  0 <= n < 10 ^ Z.of_nat room -> itoa_loop room n acc = Some (pretty_N_go (Z.to_N n) acc).
Proof.
  revert n acc. induction room as [| room IH]; intros n acc Hn.
  - simpl in Hn. assert (n = 0) as -> by lia. simpl. by rewrite pretty_N_go_0.
  - cbn [itoa_loop]. destruct (Z.leb_spec n 0).
    + assert (n = 0) as -> by lia. by rewrite pretty_N_go_0.
    + rewrite IH; cycle 1.
      { rewrite Nat2Z.inj_succ, Z.pow_succ_r in Hn by lia. split; [apply Z.div_pos; lia |]. apply Z.div_lt_upper_bound; lia. }
      rewrite (pretty_N_go_step (Z.to_N n)) by lia. f_equal. rewrite Z2N.inj_div by lia. f_equal. f_equal.
      pose proof (Z.mod_pos_bound n 10 ltac:(lia)) as Hm.
      replace (Z.to_N n mod 10)%N with (Z.to_N (n mod 10)) by (rewrite Z2N.inj_mod by lia; done).
      generalize dependent (n mod 10). intros z Hz.
      assert (z = 0 \/ z = 1 \/ z = 2 \/ z = 3 \/ z = 4 \/ z = 5 \/ z = 6 \/ z = 7 \/ z = 8 \/ z = 9) as Hd by lia.
      by destruct_or! Hd; subst z.
Qed.

Lemma itoa_format n : 0 <= n < 10 ^ 20 -> itoa n = Some (format_int n).
Proof.
  intros Hn. unfold itoa, format_int. destruct (Z.eqb_spec n 0) as [-> | Hne]; [done |].
  rewrite itoa_loop_pretty by done. destruct n as [| p | p]; [done | | lia]. done.
Qed.

(** The server's kilobits and the NAS's bits are the same rate, when the rate
    says its unit. *)
Definition kbps (k : Z) : string := if k =? 0 then EmptyString else format_int k.

Definition has_unit (tok : string) : bool := negb ((Nas.split_unit (trim_space tok)).1 =? 1).

Lemma toKbps_agrees tok v :
  Nas.parseRateToken tok = Ok v -> has_unit tok = true -> v mod 1000 = 0 /\ toKbps tok = Some (kbps (v / 1000)).
Proof.
  unfold Nas.parseRateToken, toKbps, has_unit. set (t := trim_space tok).
  destruct (String.eqb t EmptyString); [done |]. destruct (kbps_unit_spec t) as [Hm Hsp]. rewrite Hsp. cbn [fst].
  destruct (kbps_unit t) as [m num]. cbn [fst snd] in *. destruct (String.eqb num t); [done |].
  unfold parse_uint. destruct num as [| c num]; [done |]. destruct (digits_value 0 _) as [n|] eqn:Hd; [| done].
  destruct (Z.leb_spec n Nas.max_uint32) as [Hn |]; [| done]. destruct (Z.ltb_spec Nas.max_uint32 (n * (1000 * m))) as [|Hv]; [done |].
  intros [= <-] _. assert (0 <= n) as Hn0 by (eapply digits_value_nonneg; [| exact Hd]; lia).
  rewrite (kbps_digits_value (String c num) 0 n ltac:(lia) Hd Hn). unfold kbps.
  replace (n * (1000 * m)) with (n * m * 1000) by lia. rewrite Z.div_mul, Z.mod_mul by lia. split; [done |].
  assert (0 < m) as Hm0 by (rewrite !elem_of_cons in Hm; destruct Hm as [-> | [-> | [-> | []%elem_of_nil]]]; lia).
  unfold Nas.max_uint32 in *. destruct (Z.eqb_spec n 0) as [-> | Hne]; [done |].
  destruct (Z.eqb_spec (n * m) 0) as [? | _]; [nia |].
  rewrite i64_small by (unfold max_int64; nia). apply itoa_format. nia.
Qed.

Lemma digits_no_slash v acc n : digits_value acc v = Some n -> string_forall (fun d => negb (Ascii.eqb d "/")) v = true.
Proof.
  revert acc. induction v as [| c v IH]; intros acc; simpl; [done |]. destruct (is_decimal c) eqn:Hc; [| done].
  intros Hv. rewrite (IH _ Hv), andb_true_r. apply negb_true_iff, Ascii.eqb_neq. by intros ->.
Qed.

Definition no_slash (s : string) : bool := string_forall (fun d => negb (Ascii.eqb d "/")) s.

Lemma no_slash_trim s : no_slash (trim_space s) = no_slash s.
Proof.
  assert (forall c, is_space c = true -> negb (Ascii.eqb c "/") = true) as Hsp
    by (intros c Hc; apply negb_true_iff, Ascii.eqb_neq; by intros ->).
  unfold trim_space, no_slash. transitivity (string_forall (fun d => negb (Ascii.eqb d "/")) (trim_left s)).
  - generalize (trim_left s). clear s. intros s. induction s as [| c s IH]; [done |]. simpl.
    destruct (trim_right s) as [| d t] eqn:E.
    + simpl in IH. rewrite <- IH, andb_true_r. destruct (is_space c) eqn:Hc; simpl; [by rewrite Hsp | by rewrite andb_true_r].
    + cbn [string_forall] in IH |- *. by rewrite IH.
  - induction s as [| c s IH]; [done |]. simpl. destruct (is_space c) eqn:Hc; [| done]. by rewrite IH, (Hsp c Hc).
Qed.

Lemma last_char_eq t num c : last_char t = Some (num, c) -> t = num +:+ String c EmptyString.
Proof.
  revert num c. induction t as [| d t IH]; [done |]. simpl.
  destruct (last_char t) as [[x l]|] eqn:E; intros num c [= <- <-]; [by rewrite (IH x l eq_refl) |].
  destruct t as [| e t]; [done |]. simpl in E. by destruct (last_char t) as [[]|].
Qed.

Lemma split_unit_form t :
  (Nas.split_unit t).2 = t \/
  exists c, t = (Nas.split_unit t).2 +:+ String c EmptyString /\ negb (Ascii.eqb c "/") = true.
Proof.
  unfold Nas.split_unit. destruct (last_char t) as [[num c]|] eqn:Hl; [| by left]. apply last_char_eq in Hl.
  destruct c as [[] [] [] [] [] [] [] []]; first [left; reflexivity | right; eexists; split; [exact Hl | reflexivity]].
Qed.

Lemma token_no_slash tok v : Nas.parseRateToken tok = Ok v -> no_slash tok = true.
Proof.
  unfold Nas.parseRateToken. rewrite <- no_slash_trim. set (t := trim_space tok).
  destruct (String.eqb t EmptyString); [done |]. pose proof (split_unit_form t) as Hf.
  destruct (Nas.split_unit t) as [m num]. cbn [snd] in Hf. unfold parse_uint.
  destruct num as [| c num]; [done |]. destruct (digits_value 0 _) as [n|] eqn:Hd; [| done]. intros _.
  apply digits_no_slash in Hd. destruct Hf as [<- | (e & -> & He)]; [exact Hd |].
  unfold no_slash. rewrite string_forall_app, Hd. cbn [string_forall andb]. by rewrite He.
Qed.

Lemma itoa_total n : - 2 ^ 63 <= n <= max_int64 -> is_Some (itoa n).
Proof.
  intros Hn. destruct (Z.leb_spec 0 n).
  - rewrite itoa_format; [by eexists |]. unfold max_int64 in Hn. split; [done |]. transitivity (2 ^ 63); lia.
  - unfold itoa. destruct (Z.eqb_spec n 0); [lia |]. cbn [itoa_loop].
    destruct (Z.leb_spec n 0); [by eexists | lia].
Qed.

Lemma toKbps_total v : is_Some (toKbps v).
Proof.
  unfold toKbps. destruct (String.eqb _ _); [by eexists |]. destruct (kbps_unit _) as [m num].
  destruct (kbps_digits 0 num) as [n|]; [| by eexists]. destruct (n =? 0); [by eexists |]. apply itoa_total, i64_range.
Qed.

Definition says_units (rateLimit : string) : bool :=
  match cut "/" rateLimit with Some (u, d) => has_unit u && has_unit d | None => false end.

(** The device is shaped to the rate the NAS enforces: for every plan rate
    the NAS accepts, both halves with their unit, the kilobits written into the
    device's configuration are exactly a thousandth of the NAS's bits in each
    direction, empty for nothing. Whatever the rate, the conversion ends without
    running over its buffer. *)
Theorem shaping_agrees rateLimit up down :
  Nas.parseRateLimitString rateLimit = Ok (up, down) -> says_units rateLimit = true ->
  up mod 1000 = 0 /\ down mod 1000 = 0 /\
  RateLimitToKbps rateLimit = Some (kbps (up / 1000), kbps (down / 1000)) /\
  forall r, is_Some (RateLimitToKbps r).
Proof.
  unfold Nas.parseRateLimitString, says_units, RateLimitToKbps. rewrite split_on_cut.
  destruct (cut "/" rateLimit) as [[u d]|]; [| done].
  destruct (Nas.parseRateToken u) as [a | x] eqn:Hu; cbn [rbind]; [| done].
  destruct (Nas.parseRateToken d) as [b | x] eqn:Hd; cbn [rbind]; [| done]. intros [= -> ->] [Hs Ht]%andb_true_iff.
  rewrite split_on_none by (eapply token_no_slash; exact Hd).
  destruct (toKbps_agrees u up Hu Hs) as [Mu ->], (toKbps_agrees d down Hd Ht) as [Md ->]. split_and!; try done.
  intros r. destruct (split_on "/" r) as [| p [| q [| ]]]; try by eexists.
  destruct (toKbps_total p) as [kp ->], (toKbps_total q) as [kq ->]. by eexists.
Qed.

Lemma shaping_agrees_witness :
  RateLimitToKbps "40M/1G" = Some ("40000", "1000000")%string /\ forall r, is_Some (RateLimitToKbps r).
Proof. apply (shaping_agrees "40M/1G" 40000000 1000000000); vm_compute; reflexivity. Defined.

(** A rate without a unit is bits for the NAS and kilobits for the device. *)
Example unitless_rates :
  Nas.parseRateLimitString "512000/512000" = Ok (512000, 512000) /\
  RateLimitToKbps "512000/512000" = Some ("512000", "512000")%string.
Proof. split; vm_compute; reflexivity. Qed.

(** ** The message *)





(** ** Templates *)

(** A rendered value is never empty and always comes from the template. *)
Lemma RenderTemplate_spec template c p v :
  RenderTemplate template c !! p = Some v <->
  v <> EmptyString /\ exists t, template !! p = Some t /\ v = replace (placeholders c) 0 t.
Proof.
  unfold RenderTemplate. rewrite lookup_omap. destruct (template !! p) as [t|]; simpl.
  - destruct (String.eqb_spec (replace (placeholders c) 0 t) EmptyString) as [E | E]; split.
    + done.
    + intros (Hv & t' & [= <-] & ->). done.
    + intros [= <-]. eauto.
    + intros (Hv & t' & [= <-] & ->). done.
  - split; [done |]. by intros (_ & t & Ht & _).
Qed.

Example rendered :
  map_to_list (RenderTemplate {["a" := "{{ssid}}-5G"; "b" := "{{pppoe_password}}"; "c" := "{{nothing}}{{plan_name}}"]}%string
    (MkContext "arun" EmptyString "Home" EmptyString "40M/40M" "40000" "40000" "Home" "SN1")) =
  [("c", "{{nothing}}Home"); ("a", "Home-5G")]%string.
Proof. vm_compute. reflexivity. Qed.

End Cwmp.
