(* ===== verification/Tr069.v ===== *)
(** * TR-069: the auto-configuration server and its task queue

    internal/tr069/acs.go, internal/db/tr069.go, internal/api/cpe_rpc.go and
    migration 030. The devices are the equipment rows of [Inventory], with the
    columns the server adds; sessions live in the in-process store. Instants are
    seconds. A statement that fails, or whose answer is lost, is a flag of
    [Env]. *)

From S2P Require Import Prelude GoStrings LocalCache Decimal Inventory Cwmp.
From Stdlib Require Import Ascii.

Local Open Scope Z_scope.

Module Tr069.
Import Cwmp.

Definition StateUnknown : string := "unknown".
Definition StateRegistered : string := "registered".
Definition StateProvisioned : string := "provisioned".
Definition StateNeedsReprovision : string := "needs_reprovision".
Definition StateFault : string := "fault".

Definition TaskPending : string := "pending".
Definition TaskSent : string := "sent".
Definition TaskCompleted : string := "completed".
Definition TaskFailed : string := "failed".
Definition TaskExpired : string := "expired".

(** ** State *)

(** The columns of migration 030. *)
Record Managed : Type := MkManaged {
  m_OUI : option string;
  m_ProductClass : option string;
  ConnectionRequestURL : option string;
  SoftwareVersion : option string;
  HardwareVersion : option string;
  LastInformAt : option Z;
  LastInformEvent : option string;
  ProvisioningState : string;
  LastFault : option string;
  ACSDiscovered : bool
}.

Definition unmanaged : Managed := MkManaged None None None None None None None StateUnknown None false.

Record Task : Type := MkTask {
  t_DeviceID : Z;
  RPCType : string;
  Params : gmap string string;
  Status : string;
  Priority : Z;
  CreatedBy : string;
  t_FaultCode : option string;
  t_FaultString : option string;
  CreatedAt : Z;
  SentAt : option Z;
  CompletedAt : option Z;
  ExpiresAt : Z
}.

Record Session : Type := MkSession { s_DeviceID : Z; s_SerialNumber : string; OutstandingTaskID : Z }.

(** [templates]: a model's template, [Some None] when the column does not hold
    a map of strings. [handed]: the tasks claimed, by device, in order. *)
Record world : Type := MkWorld {
  equipment : Inventory.stock;
  managed : gmap Z Managed;
  templates : gmap Z (option (gmap string string));
  tasks : gmap Z Task;
  next_task : Z;
  sessions : gmap string (@Store.entry Session);
  handed : list (Z * Z * Z)
}.

Definition with_equipment (s : Inventory.stock) (w : world) : world :=
  MkWorld s (managed w) (templates w) (tasks w) (next_task w) (sessions w) (handed w).
Definition with_managed (m : gmap Z Managed) (w : world) : world :=
  MkWorld (equipment w) m (templates w) (tasks w) (next_task w) (sessions w) (handed w).
Definition with_tasks (m : gmap Z Task) (n : Z) (w : world) : world :=
  MkWorld (equipment w) (managed w) (templates w) m n (sessions w) (handed w).
Definition with_sessions (m : gmap string (@Store.entry Session)) (w : world) : world :=
  MkWorld (equipment w) (managed w) (templates w) (tasks w) (next_task w) m (handed w).
Definition hand (id device now : Z) (w : world) : world :=
  MkWorld (equipment w) (managed w) (templates w) (tasks w) (next_task w) (sessions w) (handed w ++ [(id, device, now)]).

Definition acs_row (w : world) (id : Z) : Managed := default unmanaged (managed w !! id).

Inductive error : Type := ErrNoSerial | ErrQuery | ErrConstraint | ErrNotFound | ErrTemplate.

Record Env : Type := MkEnv {
  upsert_up : bool; plan_up : bool; enqueue_up : bool; claim_up : bool; claim_answered : bool;
  complete_up : bool; state_up : bool; get_up : bool
}.

Definition all_up : Env := MkEnv true true true true true true true true.

(** ** The store (db/tr069.go) *)

(** [COALESCE(NULLIF(EXCLUDED.c, ''), c)] *)
Definition refresh (s : string) (old : option string) : option string :=
  if String.eqb s EmptyString then old else Some s.

(** The widths of the columns an Inform fills. *)
Definition inform_fits (i : Inform) : bool :=
  fits 100 (SerialNumber (DeviceId i)) && fits 6 (OUI (DeviceId i)) && fits 64 (ProductClass (DeviceId i)) &&
  pg_text (Param i ".ConnectionRequestURL") && fits 64 (Param i ".SoftwareVersion") &&
  fits 64 (Param i ".HardwareVersion") && fits 32 (EventCodes i).

(** [SELECT id FROM cpe_device_types ORDER BY id LIMIT 1] *)
Definition first_type (s : Inventory.stock) : option Z :=
  min_by Z.leb (map fst (map_to_list (Inventory.types s))).

Definition informed (now : Z) (i : Inform) (state : string) (discovered : bool) (m : Managed) : Managed :=
  MkManaged (refresh (OUI (DeviceId i)) (m_OUI m)) (refresh (ProductClass (DeviceId i)) (m_ProductClass m))
    (refresh (Param i ".ConnectionRequestURL") (ConnectionRequestURL m))
    (refresh (Param i ".SoftwareVersion") (SoftwareVersion m)) (refresh (Param i ".HardwareVersion") (HardwareVersion m))
    (Some now) (Some (EventCodes i)) state (LastFault m) discovered.

Definition UpsertDeviceFromInform (now : Z) (up : bool) (i : Inform) (w : world) : result error Z * world :=
  let serial := SerialNumber (DeviceId i) in
  let s := equipment w in
  let id := Inventory.next_device s in
  let w' := with_equipment (Inventory.with_devices (Inventory.devices s) (id + 1) s) w in
  if String.eqb serial EmptyString then (Err ErrNoSerial, w)
  else if negb up then (Err ErrQuery, w)
  else if negb (inform_fits i) then (Err ErrConstraint, w')
  else
    match first_type s with
    | None => (Err ErrConstraint, w')
    | Some t =>
        match Inventory.find_device serial s with
        | Some (old, _) =>
            let m := acs_row w old in
            let state := if String.eqb (ProvisioningState m) StateUnknown then StateRegistered else ProvisioningState m in
            (Ok old, with_managed (<[old := informed now i state (ACSDiscovered m) m]> (managed w')) w')
        | None =>
            let d := Inventory.MkDevice t serial None Inventory.StatusReturned None None None None in
            (Ok id, with_managed (<[id := informed now i StateRegistered true unmanaged]> (managed w'))
                      (with_equipment (Inventory.with_devices (<[id := d]> (Inventory.devices s)) (id + 1) s) w))
        end
    end.

Definition GetDeviceBySerialACS (up : bool) (serial : string) (w : world) : result error (option Z) :=
  if negb up then Err ErrQuery else Ok (fst <$> Inventory.find_device serial (equipment w)).

Definition provisioning_states : list string :=
  [StateUnknown; StateRegistered; StateProvisioned; StateNeedsReprovision; StateFault].

Definition nullif (s : string) : option string := if String.eqb s EmptyString then None else Some s.

Definition with_state (state : string) (fault : option string) (m : Managed) : Managed :=
  MkManaged (m_OUI m) (m_ProductClass m) (ConnectionRequestURL m) (SoftwareVersion m) (HardwareVersion m) (LastInformAt m)
    (LastInformEvent m) state fault (ACSDiscovered m).

Definition SetProvisioningState (up : bool) (device : Z) (state lastFault : string) (w : world) : result error unit * world :=
  if negb up then (Err ErrQuery, w)
  else match Inventory.devices (equipment w) !! device with
       | None => (Ok tt, w)
       | Some _ =>
           if existsb (String.eqb state) provisioning_states && pg_text lastFault
           then (Ok tt, with_managed (<[device := with_state state (nullif lastFault) (acs_row w device)]> (managed w)) w)
           else (Err ErrConstraint, w)
       end.

Definition rpc_types : list string :=
  [RPCSetParameterValues; RPCGetParameterValues; RPCReboot; RPCDownload; RPCFactoryReset].

(** jsonb holds no zero character. *)
Definition jsonb (params : gmap string string) : bool :=
  forallb (fun p => pg_text p.1 && pg_text p.2) (map_to_list params).

Definition task_life : Z := 7 * 86400.

Definition EnqueueTask (now : Z) (up : bool) (device : Z) (rpcType : string) (params : gmap string string) (priority : Z)
    (createdBy : string) (w : world) : result error Z * world :=
  if negb (up && jsonb params && Inventory.int4 priority && Inventory.int4 device) then (Err ErrQuery, w)
  else
    let id := next_task w in
    let t := MkTask device rpcType params TaskPending priority createdBy None None now None None (now + task_life) in
    if existsb (String.eqb rpcType) rpc_types && fits 100 createdBy &&
       bool_decide (is_Some (Inventory.devices (equipment w) !! device))
    then (Ok id, with_tasks (<[id := t]> (tasks w)) (id + 1) w)
    else (Err ErrConstraint, with_tasks (tasks w) (id + 1) w).

Definition claimable (now device : Z) (p : Z * Task) : bool :=
  (t_DeviceID p.2 =? device) && String.eqb (Status p.2) TaskPending && (now <? ExpiresAt p.2).

(** [ORDER BY priority, created_at] *)
Definition before (a b : Z * Task) : bool :=
  (Priority a.2 <? Priority b.2) || ((Priority a.2 =? Priority b.2) && (CreatedAt a.2 <=? CreatedAt b.2)).

Definition sent (now : Z) (t : Task) : Task :=
  MkTask (t_DeviceID t) (RPCType t) (Params t) TaskSent (Priority t) (CreatedBy t) (t_FaultCode t) (t_FaultString t)
    (CreatedAt t) (Some now) (CompletedAt t) (ExpiresAt t).

(** [answered = false]: the update is made and its answer lost. *)
Definition ClaimNextTask (now : Z) (up answered : bool) (device : Z) (w : world) :
    result error (option (Z * Task)) * world :=
  if negb up then (Err ErrQuery, w)
  else match min_by before (List.filter (claimable now device) (map_to_list (tasks w))) with
       | None => (if answered then Ok None else Err ErrQuery, w)
       | Some (id, t) =>
           (if answered then Ok (Some (id, sent now t)) else Err ErrQuery,
            hand id device now (with_tasks (<[id := sent now t]> (tasks w)) (next_task w) w))
       end.

Definition finished (now : Z) (status : string) (code fault : option string) (t : Task) : Task :=
  MkTask (t_DeviceID t) (RPCType t) (Params t) status (Priority t) (CreatedBy t) code fault (CreatedAt t) (SentAt t)
    (Some now) (ExpiresAt t).

Definition task_statuses : list string := [TaskPending; TaskSent; TaskCompleted; TaskFailed; TaskExpired].

Definition CompleteTask (now : Z) (up : bool) (id : Z) (status faultCode faultString : string) (w : world) :
    result error unit * world :=
  if negb up then (Err ErrQuery, w)
  else match tasks w !! id with
       | None => (Err ErrNotFound, w)
       | Some t =>
           if existsb (String.eqb status) task_statuses && fits 16 faultCode && pg_text faultString
           then (Ok tt, with_tasks (<[id := finished now status (nullif faultCode) (nullif faultString) t]> (tasks w)) (next_task w) w)
           else (Err ErrConstraint, w)
       end.

(** [ORDER BY created_at DESC LIMIT 100] *)
Definition newest (a b : Z * Task) : bool := CreatedAt b.2 <=? CreatedAt a.2.

Fixpoint insert_newest (x : Z * Task) (l : list (Z * Task)) : list (Z * Task) :=
  match l with [] => [x] | y :: l => if newest x y then x :: y :: l else y :: insert_newest x l end.

Definition ListTasks (up : bool) (device : Z) (status : option string) (w : world) : result error (list (Z * Task)) :=
  if negb up then Err ErrQuery
  else Ok (take 100 (foldr insert_newest [] (List.filter
         (fun p => (t_DeviceID p.2 =? device) && match status with Some s => String.eqb (Status p.2) s | None => true end)
         (map_to_list (tasks w))))).

Section Server.
(** The subscribers and their plans: username, rate limit, plan name. *)
Context (holder : Z -> option (string * string * string)).

Definition GetProvisioningPlan (up : bool) (device : Z) (w : world) : result error (gmap string string) :=
  if negb up then Err ErrQuery
  else match Inventory.devices (equipment w) !! device with
       | None => Err ErrNotFound
       | Some d =>
           let '(username, rate, plan) :=
             default (EmptyString, EmptyString, EmptyString) (h ← Inventory.SubscriberID d; holder h) in
           match templates w !! Inventory.DeviceTypeID d with
           | None => Ok ∅
           | Some template =>
               if String.eqb username EmptyString then Ok ∅
               else match template with
                    | None => Err ErrTemplate
                    | Some template =>
                        let '(up_, down) := default (EmptyString, EmptyString) (RateLimitToKbps rate) in
                        Ok (RenderTemplate template
                              (MkContext username EmptyString plan EmptyString rate down up_ plan (Inventory.SerialNumber d)))
                    end
           end
       end.

(** ** Sessions (acs.go) *)

Definition sessionTTL : Z := 600.
Definition maxBodyBytes : Z := 2 ^ 20.
Definition sessionKey (id : string) : string := "tr069_session:" +:+ id.

(** A response: status, body and the session cookie it sets. *)
Record Reply : Type := MkReply { code : Z; body : string; cookie : option string }.
Definition writeEmpty : Reply := MkReply 204 EmptyString None.
Definition writeSOAP (b : string) : Reply := MkReply 200 b None.
Definition http_error (c : Z) : Reply := MkReply c EmptyString None.

Definition loadSession (now : Z) (id : string) (w : world) : option Session :=
  if String.eqb id EmptyString then None else Store.Get now (sessionKey id) (sessions w).

Definition saveSession (now : Z) (id : string) (s : Session) (w : world) : world :=
  with_sessions (Store.Set_ now (sessionKey id) s sessionTTL (sessions w)) w.

Definition clearSession (id : string) (w : world) : world :=
  if String.eqb id EmptyString then w else with_sessions (Store.Delete (sessionKey id) (sessions w)) w.

Definition auto_provision : string := "acs:auto-provision".

Definition queueProvisioning (now : Z) (e : Env) (device : Z) (w : world) : world :=
  match GetProvisioningPlan (plan_up e) device w with
  | Err _ => w
  | Ok params =>
      if decide (params = ∅) then w
      else (EnqueueTask now (enqueue_up e) device RPCSetParameterValues params 10 auto_provision w).2
  end.

Definition wants_provisioning (i : Inform) (m : Managed) : bool :=
  HasEvent i EventBootstrap || HasEvent i EventBoot || String.eqb (ProvisioningState m) StateNeedsReprovision ||
  String.eqb (ProvisioningState m) StateUnknown.

(** [fresh]: the sixteen random bytes in hexadecimal, or their failure. *)
Definition handleInform (now : Z) (e : Env) (fresh : option string) (header : string) (i : Inform) (w : world) :
    Reply * world :=
  match UpsertDeviceFromInform now (upsert_up e) i w with
  | (Err _, w) => (http_error 500, w)
  | (Ok id, w) =>
      let w := if wants_provisioning i (acs_row w id) then queueProvisioning now e id w else w in
      match fresh with
      | None => (http_error 500, w)
      | Some sid =>
          (MkReply 200 (BuildInformResponse header) (Some sid),
           saveSession now sid (MkSession id (SerialNumber (DeviceId i)) 0) w)
      end
  end.

Definition fault_of (f : SOAPFault) : string * string :=
  if String.eqb (FaultCode (Detail f)) EmptyString then (s_FaultCode f, s_FaultString f)
  else (FaultCode (Detail f), FaultString (Detail f)).

Definition recordTaskOutcome (now : Z) (e : Env) (s : Session) (b : Body) (w : world) : world :=
  if OutstandingTaskID s =? 0 then w
  else
    match Fault b with
    | Some f =>
        let '(c, m) := fault_of f in
        let w := (SetProvisioningState (state_up e) (s_DeviceID s) StateFault m w).2 in
        (CompleteTask now (complete_up e) (OutstandingTaskID s) TaskFailed c m w).2
    | None =>
        let w := (CompleteTask now (complete_up e) (OutstandingTaskID s) TaskCompleted EmptyString EmptyString w).2 in
        match SetParameterValuesResp b with
        | Some _ => (SetProvisioningState (state_up e) (s_DeviceID s) StateProvisioned EmptyString w).2
        | None => w
        end
    end.

(** The order in which Go ranges over a task's parameters. *)
Definition range_of (params : gmap string string) : list string := map fst (map_to_list params).

Definition sendNextTaskOrClose (now : Z) (e : Env) (id : string) (s : Session) (w : world) : Reply * world :=
  match ClaimNextTask now (claim_up e) (claim_answered e) (s_DeviceID s) w with
  | (Err _, w) => (writeEmpty, w)
  | (Ok None, w) => (writeEmpty, clearSession id w)
  | (Ok (Some (tid, t)), w) =>
      let s := MkSession (s_DeviceID s) (s_SerialNumber s) tid in
      let w := if String.eqb id EmptyString then w else saveSession now id s w in
      match renderTask tid (RPCType t) (Params t) (range_of (Params t)) with
      | Err msg => (writeEmpty, (CompleteTask now (complete_up e) tid TaskFailed "9003" msg w).2)
      | Ok b => (writeSOAP b, w)
      end
  end.

Section Requests.
Context (tokens : string -> list Token) (encode : list Token -> string) (unmarshal : string -> option Envelope).

(** [body = None]: the read failed; [id]: the session cookie, or empty. *)
Definition ServeHTTP (now : Z) (e : Env) (fresh : option string) (post : bool) (body : option string) (id : string)
    (w : world) : Reply * world :=
  if negb post then (http_error 405, w)
  else match limited maxBodyBytes <$> body with
       | None => (http_error 400, w)
       | Some raw =>
           match ParseEnvelope tokens encode unmarshal raw with
           | Err _ => (http_error 400, w)
           | Ok env =>
               match env ≫= fun env => b_Inform (e_Body env) with
               | Some i => handleInform now e fresh (default EmptyString (Header_ID <$> env)) i w
               | None =>
                   match loadSession now id w with
                   | None => (writeEmpty, w)
                   | Some s =>
                       let w := match env with Some env => recordTaskOutcome now e s (e_Body env) w | None => w end in
                       sendNextTaskOrClose now e id s w
                   end
               end
           end
       end.
End Requests.

(** ** The operator's endpoints (api/cpe_rpc.go) *)

(** [resolveDevice]: the device, or the status already answered. *)
Definition resolveDevice (configured : bool) (e : Env) (serial : string) (w : world) : Z + Z :=
  if String.eqb serial EmptyString then inl 400
  else if negb configured then inl 503
  else match GetDeviceBySerialACS (get_up e) serial w with
       | Err _ => inl 500
       | Ok None => inl 404
       | Ok (Some id) => inr id
       end.

Definition audited (action serial : string) (w : world) : world := with_equipment (Inventory.Audit action serial (equipment w)) w.

Definition queueRPC (now : Z) (e : Env) (device : Z) (serial rpcType : string) (params : gmap string string) (priority : Z)
    (subject action : string) (w : world) : Z * world :=
  match EnqueueTask now (enqueue_up e) device rpcType params priority subject w with
  | (Err _, w) => (500, w)
  | (Ok _, w) => (202, audited action serial w)
  end.

Definition RebootCPE (now : Z) (configured : bool) (e : Env) (subject serial : string) (w : world) : Z * world :=
  match resolveDevice configured e serial w with
  | inl c => (c, w)
  | inr id => queueRPC now e id serial RPCReboot ∅ 10 subject "cpe.reboot" w
  end.

Definition hasHTTPScheme (u : string) : bool :=
  (7 <? String.length u)%nat &&
  (String.eqb (String.substring 0 7 u) "http://" ||
   (8 <? String.length u)%nat && String.eqb (String.substring 0 8 u) "https://").

(** [request]: the decoded URL. *)
Definition UpgradeCPEFirmware (now : Z) (configured : bool) (e : Env) (subject serial : string) (request : option string)
    (w : world) : Z * world :=
  match resolveDevice configured e serial w with
  | inl c => (c, w)
  | inr id =>
      match request with
      | None => (400, w)
      | Some url =>
          if String.eqb url EmptyString || negb (hasHTTPScheme url) then (422, w)
          else queueRPC now e id serial RPCDownload {["url"%string := url]} 20 subject "cpe.firmware" w
      end
  end.

Definition GetCPEParameters (now : Z) (configured : bool) (e : Env) (subject serial : string) (request : option (list string))
    (w : world) : Z * world :=
  match resolveDevice configured e serial w with
  | inl c => (c, w)
  | inr id =>
      match request with
      | None => (400, w)
      | Some [] => (422, w)
      | Some names =>
          let params := list_to_map (imap (fun i n => (format_int (Z.of_nat i), n)) names) in
          queueRPC now e id serial RPCGetParameterValues params 50 subject "cpe.get_parameters" w
      end
  end.

Definition ReprovisionCPE (configured : bool) (e : Env) (serial : string) (w : world) : Z * world :=
  match resolveDevice configured e serial w with
  | inl c => (c, w)
  | inr id =>
      match SetProvisioningState (state_up e) id StateNeedsReprovision EmptyString w with
      | (Err _, w) => (500, w)
      | (Ok _, w) => (202, audited "cpe.reprovision" serial w)
      end
  end.

(** [status]: the query parameter, empty when absent. *)
Definition ListCPETasks (configured list_up : bool) (e : Env) (serial status : string) (w : world) : Z * list (Z * Task) :=
  match resolveDevice configured e serial w with
  | inl c => (c, [])
  | inr id =>
      match ListTasks list_up id (nullif status) w with
      | Err _ => (500, [])
      | Ok l => (200, l)
      end
  end.

End Server.

(** ** The queue's invariant *)

Definition task_ids (w : world) : list Z := map (fun h => h.1.1) (handed w).

Section Queue.
(** The subscribers a device can be issued to, and what they bought. *)
Variable subscribed : Z -> bool.

Record sound (w : world) : Prop := {
  so_stock : Inventory.well_formed subscribed (equipment w);
  so_fresh id t : tasks w !! id = Some t -> 0 < id < next_task w;
  so_next : 0 < next_task w;
  so_status id t : tasks w !! id = Some t ->
    Status t ∈ [TaskPending; TaskSent; TaskCompleted; TaskFailed] /\ RPCType t ∈ rpc_types;
  so_pending id t : tasks w !! id = Some t -> (Status t = TaskPending <-> id ∉ task_ids w);
  so_handed id d at_ : (id, d, at_) ∈ handed w ->
    exists t, tasks w !! id = Some t /\ t_DeviceID t = d /\ SentAt t = Some at_ /\ at_ < CreatedAt t + task_life;
  so_expiry id t : tasks w !! id = Some t -> ExpiresAt t = CreatedAt t + task_life;
  so_once : NoDup (task_ids w);
  so_sessions k s : sessions w !! k = Some s ->
    OutstandingTaskID (Store.val s) = 0 \/
    exists at_, (OutstandingTaskID (Store.val s), s_DeviceID (Store.val s), at_) ∈ handed w
}.

(** A session a request may still hold while others run. *)
Definition known (s : Session) (w : world) : Prop :=
  OutstandingTaskID s = 0 \/ exists at_, (OutstandingTaskID s, s_DeviceID s, at_) ∈ handed w.

(** The parts requests are made of, in any interleaving, with the warehouse's
    own operations and the store's sweeps. *)
Inductive step `{Decimal} : world -> world -> Prop :=
| step_inform holder now e fresh header i w : step w (handleInform holder now e fresh header i w).2
| step_outcome now e s b w : known s w -> step w (recordTaskOutcome now e s b w)
| step_drain now e id s w : known s w -> step w (sendNextTaskOrClose now e id s w).2
| step_reboot now c e subject serial w : step w (RebootCPE now c e subject serial w).2
| step_firmware now c e subject serial r w : step w (UpgradeCPEFirmware now c e subject serial r w).2
| step_parameters now c e subject serial r w : step w (GetCPEParameters now c e subject serial r w).2
| step_reprovision c e serial w : step w (ReprovisionCPE c e serial w).2
| step_warehouse s w : Inventory.step subscribed (equipment w) s -> step w (with_equipment s w)
| step_sweep now w : step w (with_sessions (Store.sweep now (sessions w)) w).

(** *** What changes the equipment, the tasks and the sessions apart *)

Lemma sound_managed m w : sound w -> sound (with_managed m w).
Proof. by intros [? ? ? ? ? ? ? ? ?]. Qed.

Lemma sound_equipment s w : Inventory.well_formed subscribed s -> sound w -> sound (with_equipment s w).
Proof. by intros Hs [? ? ? ? ? ? ? ? ?]. Qed.

Lemma audited_sound action serial w :
  String.eqb action "cpe.issue" = false -> String.eqb action "cpe.return" = false ->
  sound w -> sound (audited action serial w).
Proof.
  intros Ha Hb Hs. apply sound_equipment; [| done]. eapply Inventory.custody_wf_same; [| apply Hs].
  by apply Inventory.same_custody_audit.
Qed.

Lemma set_state_sound up d s f w : sound w -> sound (SetProvisioningState up d s f w).2.
Proof. intros Hs. unfold SetProvisioningState. repeat case_match; try done. by apply sound_managed. Qed.

Lemma set_state_same up d s f w :
  let w' := (SetProvisioningState up d s f w).2 in
  equipment w' = equipment w /\ tasks w' = tasks w /\ sessions w' = sessions w /\ handed w' = handed w.
Proof. unfold SetProvisioningState. by repeat case_match. Qed.

Lemma enqueue_sound now up d r p pr by_ w : sound w -> sound (EnqueueTask now up d r p pr by_ w).2.
Proof.
  intros Hs. unfold EnqueueTask. destruct (_ && _ && _ && _); cbn [negb]; [| done].
  destruct Hs as [S1 S2 S2' S3 S4 S5 S6 S7 S8].
  destruct (_ && _ && _) eqn:Hok; cbn [snd]; cycle 1.
  { split; simpl; try done; [| lia]. intros id t Ht%S2. lia. }
  assert (tasks w !! next_task w = None) as Hnew.
  { destruct (tasks w !! next_task w) eqn:E; [| done]. apply S2 in E. lia. }
  assert (next_task w ∉ task_ids w) as Hnot.
  { unfold task_ids. intros ([[i d'] at_] & Hi & (t & Ht & _)%S5)%list_elem_of_fmap. cbn in Hi. subst i. congruence. }
  apply andb_true_iff in Hok as [[Hr _]%andb_true_iff _].
  apply existsb_exists in Hr as (r' & Hr & ->%String.eqb_eq). apply list_elem_of_In in Hr.
  split; simpl; try done; [| lia | | | |].
  - intros id t. rewrite lookup_insert_Some. intros [[<- <-] | [_ Ht%S2]]; lia.
  - intros id t. rewrite lookup_insert_Some. intros [[<- <-] | [_ Ht]]; [| by eapply S3]. split; [by left | done].
  - intros id t. rewrite lookup_insert_Some. intros [[<- <-] | [_ Ht]]; [| by apply S4]. done.
  - intros id d' at_ Hin. destruct (S5 _ _ _ Hin) as (t & Ht & Hrest). exists t.
    rewrite lookup_insert_ne; [done | congruence].
  - intros id t. rewrite lookup_insert_Some. intros [[<- <-] | [_ Ht]]; [done | by eapply S6].
Qed.

Lemma task_before_refl a : before a a = true.
Proof. unfold before. rewrite Z.eqb_refl, Z.leb_refl. apply orb_true_r. Qed.
Lemma task_before_total a b : before a b = false -> before b a = true.
Proof. unfold before. intros Hab. apply orb_true_iff. rewrite andb_true_iff. lia. Qed.
Lemma task_before_trans a b c : before a b = true -> before b c = true -> before a c = true.
Proof. unfold before. rewrite !orb_true_iff, !andb_true_iff. lia. Qed.

(** What a claim hands over: the best of what waits for the device. *)
Lemma claim_spec now answered d w r w' :
  ClaimNextTask now true answered d w = (r, w') ->
  (w' = w /\ (forall id t, tasks w !! id = Some t -> claimable now d (id, t) = false) /\
   r = if answered then Ok None else Err ErrQuery) \/
  exists id t, tasks w !! id = Some t /\ claimable now d (id, t) = true /\
    (forall id' t', tasks w !! id' = Some t' -> claimable now d (id', t') = true -> before (id, t) (id', t') = true) /\
    w' = hand id d now (with_tasks (<[id := sent now t]> (tasks w)) (next_task w) w) /\
    r = if answered then Ok (Some (id, sent now t)) else Err ErrQuery.
Proof.
  unfold ClaimNextTask. cbn [negb].
  pose proof (min_by_spec before task_before_refl task_before_total task_before_trans (List.filter (claimable now d) (map_to_list (tasks w)))) as Hm.
  destruct (min_by _ _) as [[id t]|].
  - intros [= <- <-]. right. exists id, t. destruct Hm as [[Hin%elem_of_map_to_list Hc]%elem_of_filterb Hbest]. split_and!; try done.
    intros id' t' Ht' Hc'. apply Hbest, elem_of_filterb. split; [by apply elem_of_map_to_list | done].
  - intros [= <- <-]. left. split_and!; try done. intros id t Ht. apply not_true_iff_false. intros Hc.
    apply (not_elem_of_nil (id, t)). rewrite <- Hm. apply elem_of_filterb. split; [by apply elem_of_map_to_list | done].
Qed.

Lemma task_ids_hand id d now w : task_ids (hand id d now w) = task_ids w ++ [id].
Proof. unfold task_ids. simpl. by rewrite map_app. Qed.

Lemma task_ids_elem id w : id ∈ task_ids w <-> exists d at_, (id, d, at_) ∈ handed w.
Proof.
  unfold task_ids. rewrite list_elem_of_fmap. split.
  - intros ([[i d] at_] & -> & Hin). eauto.
  - intros (d & at_ & Hin). by exists (id, d, at_).
Qed.

Lemma hand_sound now d id t w :
  sound w -> tasks w !! id = Some t -> claimable now d (id, t) = true ->
  sound (hand id d now (with_tasks (<[id := sent now t]> (tasks w)) (next_task w) w)).
Proof.
  intros [S1 S2 S2' S3 S4 S5 S6 S7 S8] Ht Hc. unfold claimable in Hc. cbn [snd] in Hc.
  rewrite !andb_true_iff in Hc. destruct Hc as [[Hd%Z.eqb_eq Hp%String.eqb_eq] Hx%Z.ltb_lt].
  pose proof (proj1 (S4 id t Ht) Hp) as Hnew.
  split; simpl; try done.
  - intros i u. rewrite lookup_insert_Some. intros [[<- <-] | [_ Hu]]; [by apply S2 in Ht | by apply S2 in Hu].
  - intros i u. rewrite lookup_insert_Some. intros [[<- <-] | [_ Hu]]; [| by eapply S3].
    apply S3 in Ht as [_ Hr]. split; [by right; left | done].
  - intros i u. rewrite lookup_insert_Some, task_ids_hand, elem_of_app, list_elem_of_singleton.
    change (task_ids (with_tasks _ _ w)) with (task_ids w). intros [[<- <-] | [Hne Hu]].
    + split; [done |]. intros Hn. destruct Hn. by right.
    + rewrite (S4 i u Hu). split; [intros Hn [? | ->]; done | intros Hn ?; apply Hn; by left].
  - intros i d' at_ [Hin | [= -> -> ->]%list_elem_of_singleton]%elem_of_app.
    + destruct (S5 _ _ _ Hin) as (u & Hu & Hrest). exists u. rewrite lookup_insert_ne; [done |].
      intros ->. destruct Hnew. apply task_ids_elem. eauto.
    + exists (sent now t). rewrite lookup_insert_eq. split_and!; [done | done | done |].
      rewrite (S6 id t Ht) in Hx. done.
  - intros i u. rewrite lookup_insert_Some. intros [[<- <-] | [_ Hu]]; [by apply (S6 id t) | by eapply S6].
  - rewrite task_ids_hand. apply NoDup_app. split_and!; [done | | apply NoDup_singleton].
    intros i Hi ->%list_elem_of_singleton. done.
  - intros k s Hs. destruct (S8 k s Hs) as [? | [at_ Hin]]; [by left | right; exists at_; apply elem_of_app; by left].
Qed.

Lemma complete_sound now up id d at_ st c m w :
  st ∈ [TaskCompleted; TaskFailed] -> (id, d, at_) ∈ handed w ->
  sound w -> sound (CompleteTask now up id st c m w).2.
Proof.
  intros Hst Hin Hs. unfold CompleteTask. destruct up; cbn [negb]; [| done].
  destruct (tasks w !! id) as [t|] eqn:Ht; [| done]. destruct (_ && _ && _); [| done]. cbn [snd].
  destruct Hs as [S1 S2 S2' S3 S4 S5 S6 S7 S8]. split; simpl; try done.
  - intros i u. rewrite lookup_insert_Some. intros [[<- <-] | [_ Hu]]; [by apply S2 in Ht | by apply S2 in Hu].
  - intros i u. rewrite lookup_insert_Some. intros [[<- <-] | [_ Hu]]; [| by eapply S3].
    apply S3 in Ht as [_ Hr]. split; [by right; right | done].
  - intros i u. change (task_ids (with_tasks _ _ w)) with (task_ids w). rewrite lookup_insert_Some.
    intros [[<- <-] | [_ Hu]]; [| by apply S4]. simpl. split.
    + intros ->. set_solver.
    + intros Hn. destruct Hn. apply task_ids_elem. eauto.
  - intros i d' a Hi. destruct (S5 _ _ _ Hi) as (u & Hu & Hrest). destruct (Z.eq_dec i id) as [-> | Hne].
    + exists (finished now st (nullif c) (nullif m) t). rewrite lookup_insert_eq. rewrite Ht in Hu. injection Hu as <-. done.
    + exists u. by rewrite lookup_insert_ne.
  - intros i u. rewrite lookup_insert_Some. intros [[<- <-] | [_ Hu]]; [by apply (S6 id t) | by eapply S6].
Qed.

Lemma sessions_sound m w :
  (forall k s, m !! k = Some s -> sessions w !! k = Some s \/ known (Store.val s) w) -> sound w -> sound (with_sessions m w).
Proof.
  intros Hm [S1 S2 S2' S3 S4 S5 S6 S7 S8]. split; try done. intros k s Hs.
  destruct (Hm k s Hs) as [Hold | Hk]; [by eapply S8 | exact Hk].
Qed.

Lemma save_sound now id s w : known s w -> sound w -> sound (saveSession now id s w).
Proof.
  intros Hk. apply sessions_sound. intros k e. unfold Store.Set_. rewrite lookup_insert_Some.
  intros [[_ <-] | [_ He]]; [by right | by left].
Qed.

Lemma clear_sound id w : sound w -> sound (clearSession id w).
Proof.
  intros Hs. unfold clearSession. destruct (String.eqb id EmptyString); [done |]. apply sessions_sound; [| done].
  intros k e. unfold Store.Delete. intros [_ He]%lookup_delete_Some. by left.
Qed.

Lemma sweep_sound now w : sound w -> sound (with_sessions (Store.sweep now (sessions w)) w).
Proof.
  apply sessions_sound. intros k e. rewrite Store.lookup_sweep. destruct (sessions w !! k) as [x|]; [| done].
  cbn [mbind option_bind]. destruct (Store.dead now x); [done |]. intros [= <-]. by left.
Qed.

Lemma load_known now id s w : sound w -> loadSession now id w = Some s -> known s w.
Proof.
  intros Hs. unfold loadSession, Store.Get. destruct (String.eqb id EmptyString); [done |].
  destruct (sessions w !! sessionKey id) as [e|] eqn:He; [| done]. destruct (Store.expires e) as [x|]; [| done].
  destruct (x <? now); [done |]. intros [= <-]. by eapply so_sessions.
Qed.

Lemma known_mono s w w' : handed w' = handed w -> known s w -> known s w'.
Proof. unfold known. by intros ->. Qed.

Lemma complete_same now up id st c m w :
  let w' := (CompleteTask now up id st c m w).2 in
  equipment w' = equipment w /\ managed w' = managed w /\ sessions w' = sessions w /\ handed w' = handed w.
Proof. unfold CompleteTask. by repeat case_match. Qed.

Lemma outcome_sound now e s b w : known s w -> sound w -> sound (recordTaskOutcome now e s b w).
Proof.
  intros Hk Hs. unfold recordTaskOutcome. destruct (Z.eqb_spec (OutstandingTaskID s) 0) as [_ | Hne]; [done |].
  destruct Hk as [? | [at_ Hin]]; [done |]. destruct (Fault b) as [f|].
  - destruct (fault_of f) as [c m]. pose proof (set_state_same (state_up e) (s_DeviceID s) StateFault m w) as (_ & _ & _ & Hh).
    eapply complete_sound; [by right; left | by rewrite Hh | by apply set_state_sound].
  - pose proof (complete_sound now (complete_up e) _ _ _ TaskCompleted EmptyString EmptyString w ltac:(by left) Hin Hs) as Hc.
    destruct (SetParameterValuesResp b); [by apply set_state_sound | done].
Qed.

Lemma outcome_known now e s b w : known s w -> known s (recordTaskOutcome now e s b w).
Proof.
  intros Hk. unfold recordTaskOutcome. destruct (OutstandingTaskID s =? 0); [done |].
  repeat case_match; eapply known_mono; try exact Hk;
    rewrite ?(proj2 (proj2 (proj2 (complete_same _ _ _ _ _ _ _)))), ?(proj2 (proj2 (proj2 (set_state_same _ _ _ _ _))));
    rewrite ?(proj2 (proj2 (proj2 (complete_same _ _ _ _ _ _ _)))); done.
Qed.

Lemma drain_sound now e id s w : known s w -> sound w -> sound (sendNextTaskOrClose now e id s w).2.
Proof.
  intros Hk Hs. unfold sendNextTaskOrClose.
  destruct (claim_up e) eqn:Hup; cycle 1.
  { unfold ClaimNextTask. exact Hs. }
  destruct (ClaimNextTask now true (claim_answered e) (s_DeviceID s) w) as [r w'] eqn:Hc.
  apply claim_spec in Hc as [(-> & _ & ->) | (tid & t & Ht & Hcl & _ & -> & ->)].
  - destruct (claim_answered e); [by apply clear_sound | exact Hs].
  - pose proof (hand_sound now _ tid t w Hs Ht Hcl) as Hh. destruct (claim_answered e); [| exact Hh].
    set (w1 := hand tid _ now _) in *. set (s1 := MkSession (s_DeviceID s) (s_SerialNumber s) tid).
    assert (In (tid, s_DeviceID s, now) (handed w1)) as Hin by (apply in_or_app; right; by left).
    apply list_elem_of_In in Hin.
    assert (sound (if String.eqb id EmptyString then w1 else saveSession now id s1 w1)) as Hsave.
    { destruct (String.eqb id EmptyString); [done |]. apply save_sound; [| done]. right. by exists now. }
    destruct (renderTask _ _ _ _) as [b | msg]; [exact Hsave |].
    eapply complete_sound; [by right; left | | exact Hsave]. destruct (String.eqb id EmptyString); exact Hin.
Qed.

(** *** Inform *)

Lemma find_device_None serial s : Inventory.find_device serial s = None ->
  forall id u, Inventory.devices s !! id = Some u -> Inventory.SerialNumber u <> serial.
Proof.
  unfold Inventory.find_device. intros Hf id u Hu E.
  assert ((id, u) ∈ filter (fun p => Inventory.SerialNumber p.2 = serial) (map_to_list (Inventory.devices s))) as Hin
    by (apply list_elem_of_filter; split; [exact E | by apply elem_of_map_to_list]).
  destruct (filter _ _); [by apply not_elem_of_nil in Hin | done].
Qed.

Lemma first_type_known s t : first_type s = Some t -> is_Some (Inventory.types s !! t).
Proof.
  unfold first_type. intros Hf.
  pose proof (min_by_spec Z.leb ltac:(intros; lia) ltac:(intros; lia) ltac:(intros; lia)
    (map fst (map_to_list (Inventory.types s)))) as Hm.
  rewrite Hf in Hm. destruct Hm as [Hin _]. apply list_elem_of_fmap in Hin as ([k v] & -> & Hin%elem_of_map_to_list). by eexists.
Qed.

Lemma upsert_sound now up i w : sound w -> sound (UpsertDeviceFromInform now up i w).2.
Proof.
  intros Hs. unfold UpsertDeviceFromInform. destruct (String.eqb _ EmptyString); [done |]. destruct up; [| done].
  pose proof (sound_equipment _ w (Inventory.wf_bumped subscribed _ (so_stock w Hs)) Hs) as Hb.
  destruct (inform_fits i); [| exact Hb]. destruct (first_type (equipment w)) as [t|] eqn:Ht; [| exact Hb].
  cbn [negb]. destruct (Inventory.find_device _ _) as [[old d]|] eqn:Hf; cbn [snd]; apply sound_managed; [exact Hb |].
  apply sound_equipment; [| exact Hs]. apply Inventory.wf_insert; try done.
  - apply Hs.
  - by apply first_type_known.
  - by apply find_device_None.
  - by intros ? ? ? [].
  - by right; right; left.
Qed.

Lemma queue_sound holder now e d w : sound w -> sound (queueProvisioning holder now e d w).
Proof.
  intros Hs. unfold queueProvisioning. destruct (GetProvisioningPlan _ _ _ _); [| done]. case_decide; [done |].
  by apply enqueue_sound.
Qed.

Lemma inform_sound holder now e fresh h i w : sound w -> sound (handleInform holder now e fresh h i w).2.
Proof.
  intros Hs. unfold handleInform. pose proof (upsert_sound now (upsert_up e) i w Hs) as Hu.
  destruct (UpsertDeviceFromInform _ _ _ _) as [[id | x] w1]; cbn [snd] in Hu |- *; [| done].
  assert (sound (if wants_provisioning i (acs_row w1 id) then queueProvisioning holder now e id w1 else w1)) as Hq.
  { destruct (wants_provisioning _ _); [by apply queue_sound | done]. }
  destruct fresh as [sid|]; [| exact Hq]. apply save_sound; [by left | exact Hq].
Qed.

(** *** The operator *)

Lemma queueRPC_sound now e d serial r p pr subject action w :
  String.eqb action "cpe.issue" = false -> String.eqb action "cpe.return" = false ->
  sound w -> sound (queueRPC now e d serial r p pr subject action w).2.
Proof.
  intros Ha Hb Hs. unfold queueRPC. pose proof (enqueue_sound now (enqueue_up e) d r p pr subject w Hs) as He.
  destruct (EnqueueTask _ _ _ _ _ _ _ _) as [[id | x] w1]; [by apply audited_sound | done].
Qed.

Lemma queue_step_sound `{Decimal} w w' : step w w' -> sound w -> sound w'.
Proof.
  intros [] Hs.
  - by apply inform_sound.
  - by apply outcome_sound.
  - by apply drain_sound.
  - unfold RebootCPE. destruct (resolveDevice _ _ _ _); [done | by apply queueRPC_sound].
  - unfold UpgradeCPEFirmware. destruct (resolveDevice _ _ _ _); [done |]. destruct r as [url|]; [| done].
    destruct (_ || _); [done | by apply queueRPC_sound].
  - unfold GetCPEParameters. destruct (resolveDevice _ _ _ _); [done |]. destruct r as [[| n l]|]; try done.
    by apply queueRPC_sound.
  - unfold ReprovisionCPE. destruct (resolveDevice _ _ _ _) as [| id]; [done |].
    match goal with |- context [SetProvisioningState ?a ?b ?c ?d ?w] => pose proof (set_state_sound a b c d w Hs) as Hst;
      destruct (SetProvisioningState a b c d w) as [[] w1] end; [by apply audited_sound | done].
  - apply sound_equipment; [| done]. eapply Inventory.custody_step_wf; [done |]. apply Hs.
  - by apply sweep_sound.
Qed.

Lemma queue_reachable `{Decimal} w w' : star step w w' -> sound w -> sound w'.
Proof. intros Hr. eapply (star_invariant step sound); [| exact Hr]. intros a b Hab Ha. by eapply queue_step_sound. Qed.

(** A whole request is a sequence of those parts. *)
Lemma served_by_steps `{Decimal} holder tokens encode unmarshal now e fresh post body id w :
  sound w -> star step w (ServeHTTP holder tokens encode unmarshal now e fresh post body id w).2.
Proof.
  intros Hs. unfold ServeHTTP. destruct post; [| constructor]. cbn [negb].
  destruct (limited _ <$> body) as [raw|]; [| constructor].
  destruct (ParseEnvelope _ _ _ raw) as [env | []]; [| constructor].
  destruct (env ≫= _) as [i|]; [by apply star_one, step_inform |].
  destruct (loadSession now id w) as [s|] eqn:Hl; [| constructor]. apply (load_known now id s w Hs) in Hl.
  destruct env as [env|]; [| by apply star_one, step_drain].
  eapply star_trans; [by apply star_one, (step_outcome now e s (e_Body env)) |].
  by apply star_one, step_drain, outcome_known.
Qed.

(** ** Properties *)

(** C25: however the requests of devices, of operators and of the warehouse
    interleave, and whatever fails, an RPC is handed to a device at most once,
    to the device it was queued for and within seven days of being queued; a
    task is pending exactly while it has not been handed over; the warehouse's
    custody of the equipment stands; and every request to the server, whole, is
    such a sequence of parts. *)
Theorem rpc_handed_once `{Decimal} w0 w :
  sound w0 -> star step w0 w ->
  NoDup (task_ids w) /\
  (forall id d at_, (id, d, at_) ∈ handed w ->
     exists t, tasks w !! id = Some t /\ t_DeviceID t = d /\ at_ < CreatedAt t + 7 * 86400) /\
  (forall id t, tasks w !! id = Some t -> (Status t = TaskPending <-> id ∉ task_ids w)) /\
  Inventory.well_formed subscribed (equipment w) /\
  forall holder tokens encode unmarshal now e fresh post body id,
    star step w (ServeHTTP holder tokens encode unmarshal now e fresh post body id w).2.
Proof.
  intros Hs Hr. pose proof (queue_reachable w0 w Hr Hs) as Hw. split_and!.
  - apply Hw.
  - intros id d at_ Hin. destruct (so_handed w Hw _ _ _ Hin) as (t & ? & ? & _ & ?). by exists t.
  - apply Hw.
  - apply Hw.
  - intros. by apply served_by_steps.
Qed.

(** Recording an outcome leaves what waits for a device as it was. *)
Lemma complete_claimable now up id d0 at_ st c m w now' d i t :
  sound w -> (id, d0, at_) ∈ handed w -> st ∈ [TaskCompleted; TaskFailed] ->
  (tasks (CompleteTask now up id st c m w).2 !! i = Some t /\ claimable now' d (i, t) = true) <->
  (tasks w !! i = Some t /\ claimable now' d (i, t) = true).
Proof.
  intros Hs Hin Hst. unfold CompleteTask. destruct up; [| done]. cbn [negb].
  destruct (tasks w !! id) as [u|] eqn:Hu; [| done]. destruct (_ && _ && _); [| done]. cbn [snd]. simpl tasks.
  assert (Status u <> TaskPending) as Hnp.
  { intros Hp%(so_pending w Hs id u Hu). apply Hp, task_ids_elem. eauto. }
  unfold claimable. cbn [snd]. rewrite lookup_insert_Some, !andb_true_iff, !String.eqb_eq. split.
  - intros [[[<- <-] | [Hne Ht]] Hc]; [| done]. destruct Hc as [[_ Hp] _]. simpl in Hp. subst st. set_solver.
  - intros [Ht Hc]. split; [| done]. right. split; [| done]. intros <-. rewrite Hu in Ht. injection Ht as <-. tauto.
Qed.

Lemma outcome_claimable now e s b w now' d i t :
  sound w -> known s w ->
  (tasks (recordTaskOutcome now e s b w) !! i = Some t /\ claimable now' d (i, t) = true) <->
  (tasks w !! i = Some t /\ claimable now' d (i, t) = true).
Proof.
  intros Hs Hk. unfold recordTaskOutcome. destruct (Z.eqb_spec (OutstandingTaskID s) 0) as [_ | Hne]; [done |].
  destruct Hk as [? | [at_ Hin]]; [done |]. destruct (Fault b) as [f|].
  - destruct (fault_of f) as [c m].
    pose proof (set_state_same (state_up e) (s_DeviceID s) StateFault m w) as (_ & Ht & _ & Hh).
    rewrite (complete_claimable _ _ _ (s_DeviceID s) at_); [by rewrite Ht | by apply set_state_sound | by rewrite Hh | set_solver].
  - assert (forall u, tasks (match SetParameterValuesResp b with
        | Some _ => (SetProvisioningState (state_up e) (s_DeviceID s) StateProvisioned EmptyString u).2 | None => u end) = tasks u)
      as -> by (intros u; destruct (SetParameterValuesResp b); [apply set_state_same | done]).
    apply (complete_claimable _ _ _ (s_DeviceID s) at_); [done | done | set_solver].
Qed.

(** What a device is told outside an Inform's answer is exactly one queued
    RPC: its own, the most urgent of those that wait unexpired for it, the
    oldest among equals, never sent before; and it is on record as handed over
    when the answer leaves. *)
Theorem answer_is_best_task holder tokens encode unmarshal now e fresh post raw id w r w' :
  sound w -> ServeHTTP holder tokens encode unmarshal now e fresh post raw id w = (r, w') ->
  code r = 200 -> cookie r = None ->
  exists s tid t, loadSession now id w = Some s /\ tasks w !! tid = Some t /\
    t_DeviceID t = s_DeviceID s /\ Status t = TaskPending /\ now < ExpiresAt t /\ tid ∉ task_ids w /\
    (forall id' t', tasks w !! id' = Some t' -> claimable now (s_DeviceID s) (id', t') = true ->
       Priority t < Priority t' \/ Priority t = Priority t' /\ CreatedAt t <= CreatedAt t') /\
    renderTask tid (RPCType t) (Params t) (range_of (Params t)) = Ok (body r) /\
    handed w' = handed w ++ [(tid, s_DeviceID s, now)].
Proof.
  intros Hs. unfold ServeHTTP. destruct post; cbn [negb]; [| by intros [= <- _]].
  destruct (limited _ <$> raw) as [b|]; [| by intros [= <- _]].
  destruct (ParseEnvelope _ _ _ b) as [env | []]; [| by intros [= <- _]].
  destruct (env ≫= _) as [i|].
  { unfold handleInform. destruct (UpsertDeviceFromInform _ _ _ _) as [[d | x] w1]; [| by intros [= <- _]].
    destruct fresh as [sid|]; by intros [= <- _]. }
  destruct (loadSession now id w) as [s|] eqn:Hl; [| by intros [= <- _]].
  pose proof (load_known now id s w Hs Hl) as Hk.
  set (w1 := match env with Some env => _ | None => w end).
  assert (sound w1 /\ (forall i t, (tasks w1 !! i = Some t /\ claimable now (s_DeviceID s) (i, t) = true) <->
    (tasks w !! i = Some t /\ claimable now (s_DeviceID s) (i, t) = true)) /\ handed w1 = handed w) as (Hs1 & Hcl & Hh).
  { subst w1. destruct env as [env|]; [| done]. split_and!; [by apply outcome_sound | intros; by apply outcome_claimable |].
    unfold recordTaskOutcome. destruct (OutstandingTaskID s =? 0); [done |].
    destruct (Fault (e_Body env)) as [f|]; [destruct (fault_of f) as [c m] |]; [| destruct (SetParameterValuesResp _)];
      rewrite ?(proj2 (proj2 (proj2 (set_state_same _ _ _ _ _)))), ?(proj2 (proj2 (proj2 (complete_same _ _ _ _ _ _ _))));
      by rewrite ?(proj2 (proj2 (proj2 (set_state_same _ _ _ _ _)))). }
  unfold sendNextTaskOrClose. destruct (claim_up e); [| by intros [= <- _]].
  destruct (ClaimNextTask now true (claim_answered e) (s_DeviceID s) w1) as [rc w2] eqn:Hc.
  apply claim_spec in Hc as [(-> & _ & ->) | (tid & t & Ht & Hc & Hbest & -> & ->)];
    destruct (claim_answered e); try by intros [= <- _].
  destruct (renderTask _ _ _ _) as [msg | x] eqn:Hmsg; [| by intros [= <- _]]. intros [= <- <-] _ _.
  destruct (proj1 (Hcl tid t) (conj Ht Hc)) as [Ht0 Hc0]. exists s, tid, t.
  unfold claimable in Hc0. cbn [snd] in Hc0. rewrite !andb_true_iff in Hc0.
  destruct Hc0 as [[Hd%Z.eqb_eq Hp%String.eqb_eq] Hx%Z.ltb_lt]. split_and!; try done.
  - by apply (so_pending w Hs tid t Ht0).
  - intros id' t' Ht' Hc'. destruct (proj2 (Hcl id' t') (conj Ht' Hc')) as [Ht1 _]. specialize (Hbest id' t' Ht1 Hc').
    unfold before in Hbest. cbn [snd] in Hbest. rewrite orb_true_iff, andb_true_iff in Hbest. lia.
  - cbn [handed]. destruct (String.eqb id EmptyString); simpl; by rewrite Hh.
Qed.

(** *** One session, from boot to configured *)

Section Boot.
Context (holder : Z -> option (string * string * string)).
Context (tokens : string -> list Token) (encode : list Token -> string) (unmarshal : string -> option Envelope).
Notation serve := (ServeHTTP holder tokens encode unmarshal).
Notation parse raw := (ParseEnvelope tokens encode unmarshal (limited maxBodyBytes raw)).

(** What the device's model and its subscriber's plan configure it with. *)
Definition plan_of (template : gmap string string) (username rate plan serial : string) : gmap string string :=
  let '(up_, down) := default (EmptyString, EmptyString) (RateLimitToKbps rate) in
  RenderTemplate template (MkContext username EmptyString plan EmptyString rate down up_ plan serial).

Lemma plan_found up id d h username rate plan template w :
  up = true -> Inventory.devices (equipment w) !! id = Some d -> Inventory.SubscriberID d = Some h ->
  holder h = Some (username, rate, plan) -> username <> EmptyString ->
  templates w !! Inventory.DeviceTypeID d = Some (Some template) ->
  GetProvisioningPlan holder up id w = Ok (plan_of template username rate plan (Inventory.SerialNumber d)).
Proof.
  intros -> Hd Hh Hu Hne Ht. unfold GetProvisioningPlan, plan_of. rewrite Hd, Hh. cbn [negb mbind option_bind].
  rewrite Hu. cbn [from_option Datatypes.id]. rewrite Ht. destruct (String.eqb_spec username EmptyString); [done |].
  by destruct (RateLimitToKbps rate) as [[a b]|].
Qed.

Definition nothing_waits (device : Z) (w : world) : Prop :=
  forall id t, tasks w !! id = Some t -> t_DeviceID t = device -> Status t <> TaskPending.

Lemma nothing_to_claim now d w : nothing_waits d w -> ClaimNextTask now true true d w = (Ok None, w).
Proof.
  intros Hn. destruct (ClaimNextTask now true true d w) as [r w'] eqn:Hc.
  apply claim_spec in Hc as [(-> & _ & ->) | (id & t & Ht & Hcl & _)]; [done |]. exfalso.
  unfold claimable in Hcl. cbn [snd] in Hcl. rewrite !andb_true_iff in Hcl.
  destruct Hcl as [[Hd%Z.eqb_eq Hp%String.eqb_eq] _]. by eapply Hn.
Qed.

Lemma one_to_claim now d id t w :
  nothing_waits d w -> t_DeviceID t = d -> Status t = TaskPending -> now < ExpiresAt t -> forall n,
  ClaimNextTask now true true d (with_tasks (<[id := t]> (tasks w)) n w) =
  (Ok (Some (id, sent now t)), hand id d now (with_tasks (<[id := sent now t]> (tasks w)) n w)).
Proof.
  intros Hn Hd Hp Hx n. destruct (ClaimNextTask now true true d _) as [r w'] eqn:Hc.
  assert (claimable now d (id, t) = true) as Hcl.
  { unfold claimable. cbn [snd]. rewrite Hd, Hp, Z.eqb_refl, String.eqb_refl. cbn [andb]. lia. }
  apply claim_spec in Hc as [(_ & Hnone & _) | (j & u & Hj & Hcu & _ & -> & ->)]; cbn [tasks with_tasks] in *.
  - specialize (Hnone id t (lookup_insert_eq _ _ _)). congruence.
  - rewrite lookup_insert_Some in Hj. destruct Hj as [[<- <-] | [_ Hj]].
    + f_equal. unfold hand, with_tasks. simpl. by rewrite insert_insert_eq.
    + exfalso. unfold claimable in Hcu. cbn [snd] in Hcu. rewrite !andb_true_iff in Hcu.
      destruct Hcu as [[Hu%Z.eqb_eq Hpu%String.eqb_eq] _]. by eapply Hn.
Qed.

Lemma saved_session now t id s w :
  id <> EmptyString -> t <= now + sessionTTL -> loadSession t id (saveSession now id s w) = Some s.
Proof.
  intros Hid Ht. unfold loadSession, saveSession. destruct (String.eqb_spec id EmptyString); [done |].
  cbn [sessions with_sessions]. rewrite Store.Get_Set. destruct (Z.ltb_spec (now + sessionTTL) t); [lia | done].
Qed.

Lemma boot_queued t1 sid header i w id d h username rate plan template :
  Inventory.find_device (SerialNumber (DeviceId i)) (equipment w) = Some (id, d) ->
  SerialNumber (DeviceId i) <> EmptyString -> inform_fits i = true -> is_Some (first_type (equipment w)) ->
  HasEvent i EventBoot = true -> Inventory.SubscriberID d = Some h -> holder h = Some (username, rate, plan) ->
  username <> EmptyString -> templates w !! Inventory.DeviceTypeID d = Some (Some template) ->
  let params := plan_of template username rate plan (SerialNumber (DeviceId i)) in
  params <> ∅ -> jsonb params = true -> Inventory.int4 id = true ->
  exists m s, Inventory.devices s = Inventory.devices (equipment w) /\
    handleInform holder t1 all_up (Some sid) header i w =
    (MkReply 200 (BuildInformResponse header) (Some sid),
     saveSession t1 sid (MkSession id (SerialNumber (DeviceId i)) 0)
       (with_tasks (<[next_task w := MkTask id RPCSetParameterValues params TaskPending 10 auto_provision None None t1 None None
                        (t1 + task_life)]> (tasks w)) (next_task w + 1) (with_managed m (with_equipment s w)))).
Proof.
  intros Hf Hser Hfit [ty Hty] Hboot Hh Hhold Hu Htpl params Hne Hjson Hid.
  destruct (Inventory.find_device_Some _ _ _ _ Hf) as [Hd Hsd].
  unfold handleInform, UpsertDeviceFromInform. destruct (String.eqb_spec (SerialNumber (DeviceId i)) EmptyString); [done |].
  cbn [upsert_up all_up negb]. rewrite Hfit, Hty, Hf. cbn [negb].
  set (wU := with_managed _ _). assert (wants_provisioning i (acs_row wU id) = true) as ->
    by (unfold wants_provisioning; rewrite Hboot; by rewrite orb_true_r).
  assert (queueProvisioning holder t1 all_up id wU =
    with_tasks (<[next_task w := MkTask id RPCSetParameterValues params TaskPending 10 auto_provision None None t1 None None
      (t1 + task_life)]> (tasks w)) (next_task w + 1) wU) as ->.
  { unfold queueProvisioning. rewrite (plan_found _ id d h username rate plan template wU); try done.
    rewrite Hsd. fold params. rewrite decide_False by done. unfold EnqueueTask. cbn [enqueue_up all_up].
    rewrite Hjson, Hid. cbn [andb negb]. change (Inventory.int4 10) with true. cbn [andb negb].
    rewrite bool_decide_true by (subst wU; cbn; by eexists). done. }
  do 2 eexists. split; [| reflexivity]. done.
Qed.

Lemma serve_empty now e sid w s :
  loadSession now sid w = Some s -> serve now e None true (Some EmptyString) sid w = sendNextTaskOrClose now e sid s w.
Proof. intros Hl. unfold ServeHTTP. cbn -[sendNextTaskOrClose loadSession]. by rewrite Hl. Qed.

Lemma serve_response now e raw env sid w s :
  parse raw = Ok (Some env) -> b_Inform (e_Body env) = None -> loadSession now sid w = Some s ->
  serve now e None true (Some raw) sid w = sendNextTaskOrClose now e sid s (recordTaskOutcome now e s (e_Body env) w).
Proof.
  intros Hp Hb Hl. unfold ServeHTTP. cbn [negb fmap option_fmap option_map]. rewrite Hp. cbn [mbind option_bind].
  by rewrite Hb, Hl.
Qed.

(** The only task that waits is sent. *)
Lemma drain_one now sid ser o id n tk w k :
  nothing_waits id w -> t_DeviceID tk = id -> Status tk = TaskPending -> now < ExpiresAt tk -> sid <> EmptyString ->
  RPCType tk = RPCSetParameterValues -> Params tk <> ∅ ->
  sendNextTaskOrClose now all_up sid (MkSession id ser o) (with_tasks (<[n := tk]> (tasks w)) k w) =
  (writeSOAP (BuildSetParameterValues EmptyString (Params tk) (range_of (Params tk)) ("task-" +:+ format_int n)),
   saveSession now sid (MkSession id ser n) (hand n id now (with_tasks (<[n := sent now tk]> (tasks w)) k w))).
Proof.
  intros Hn Hd Hp Hx Hsid Hr Hne. unfold sendNextTaskOrClose. cbn [claim_up claim_answered all_up s_DeviceID].
  rewrite (one_to_claim now id n tk w Hn Hd Hp Hx). destruct (String.eqb_spec sid EmptyString); [done |].
  unfold renderTask. cbn [RPCType Params sent s_SerialNumber]. by rewrite Hr, String.eqb_refl, decide_False.
Qed.

(** The device's yes, and the end of the session. *)
Lemma close_applied now sid ser id n tk d status w k at_ :
  nothing_waits id w -> n <> 0 -> Inventory.devices (equipment w) !! id = Some d -> sid <> EmptyString ->
  let s := MkSession id ser n in
  let w2 := saveSession at_ sid s (hand n id at_ (with_tasks (<[n := sent at_ tk]> (tasks w)) k w)) in
  exists w3, sendNextTaskOrClose now all_up sid s (recordTaskOutcome now all_up s (MkBody None (Some status) None) w2) = (writeEmpty, w3) /\
    ProvisioningState (acs_row w3 id) = StateProvisioned /\
    tasks w3 = <[n := finished now TaskCompleted None None (sent at_ tk)]> (tasks w) /\ loadSession now sid w3 = None.
Proof.
  intros Hn Hn0 Hd Hsid s w2. unfold recordTaskOutcome. cbn [OutstandingTaskID s Fault SetParameterValuesResp s_DeviceID].
  destruct (Z.eqb_spec n 0); [done |]. unfold CompleteTask. cbn [complete_up all_up negb].
  assert (tasks w2 !! n = Some (sent at_ tk)) as -> by apply lookup_insert_eq.
  change (existsb _ task_statuses && fits 16 EmptyString && pg_text EmptyString) with true. cbn [snd].
  unfold SetProvisioningState. cbn [state_up all_up negb equipment with_tasks w2 saveSession with_sessions hand].
  rewrite Hd. change (existsb _ provisioning_states && pg_text EmptyString) with true. cbn [snd].
  set (w3 := with_managed _ _).
  assert (tasks w3 = <[n := finished now TaskCompleted None None (sent at_ tk)]> (tasks w)) as Ht3
    by (subst w3; simpl; by rewrite insert_insert_eq).
  assert (nothing_waits id w3) as Hn3.
  { intros j u. rewrite Ht3, lookup_insert_Some. intros [[_ <-] | [_ Hu]]; [done | by apply (Hn j u)]. }
  exists (clearSession sid w3). unfold sendNextTaskOrClose. cbn [claim_up claim_answered all_up s s_DeviceID].
  rewrite (nothing_to_claim now id w3 Hn3). unfold clearSession, loadSession.
  destruct (String.eqb_spec sid EmptyString); [done |]. split_and!; [done | | exact Ht3 | apply Store.Get_Delete].
  unfold acs_row. subst w3. simpl. by rewrite lookup_insert_eq.
Qed.

(** C26: a device that restarts is configured when nothing is in the way: a
    boot Inform of an issued device arrives, whose model has a template with at
    least one parameter, no other task waits for the device, every statement
    succeeds, and the device acknowledges the setting without a fault. The next
    two requests of its session, each within the session's life, are then
    answered with exactly the plan's parameters and with the end of the session;
    the device is on record as provisioned and the task as completed. A reboot
    or another task queued before goes first, and the plan waits for a later
    request. *)
Theorem boot_configures_the_device t1 t2 t3 sid raw1 raw3 header i other fault status w id d h username rate plan template :
  parse raw1 = Ok (Some (MkEnvelope header (MkBody (Some i) other fault))) ->
  (exists header', parse raw3 = Ok (Some (MkEnvelope header' (MkBody None (Some status) None)))) ->
  t2 <= t1 + sessionTTL -> t3 <= t2 + sessionTTL -> sid <> EmptyString -> nothing_waits id w -> 0 < next_task w ->
  Inventory.find_device (SerialNumber (DeviceId i)) (equipment w) = Some (id, d) ->
  SerialNumber (DeviceId i) <> EmptyString -> inform_fits i = true -> is_Some (first_type (equipment w)) ->
  HasEvent i EventBoot = true -> Inventory.SubscriberID d = Some h -> holder h = Some (username, rate, plan) ->
  username <> EmptyString -> templates w !! Inventory.DeviceTypeID d = Some (Some template) ->
  let params := plan_of template username rate plan (SerialNumber (DeviceId i)) in
  params <> ∅ -> jsonb params = true -> Inventory.int4 id = true ->
  exists w1 w2 w3 t,
    serve t1 all_up (Some sid) true (Some raw1) EmptyString w = (MkReply 200 (BuildInformResponse header) (Some sid), w1) /\
    serve t2 all_up None true (Some EmptyString) sid w1 =
      (writeSOAP (BuildSetParameterValues EmptyString params (range_of params) ("task-" +:+ format_int (next_task w))), w2) /\
    serve t3 all_up None true (Some raw3) sid w2 = (writeEmpty, w3) /\
    ProvisioningState (acs_row w3 id) = StateProvisioned /\ tasks w3 = <[next_task w := t]> (tasks w) /\
    Status t = TaskCompleted /\ Params t = params /\ loadSession t3 sid w3 = None.
Proof.
  intros Hp1 [header' Hp3] H12 H23 Hsid Hwait Hnext Hf Hser Hfit Hty Hboot Hh Hhold Hu Htpl params Hne Hjson Hid.
  destruct (boot_queued t1 sid header i w id d h username rate plan template Hf Hser Hfit Hty Hboot Hh Hhold Hu Htpl Hne Hjson Hid)
    as (m & s & Hdev & Hq). fold params in Hq.
  destruct (Inventory.find_device_Some _ _ _ _ Hf) as [Hd _].
  set (tk := MkTask id _ params TaskPending 10 _ _ _ _ _ _ _) in Hq. set (wm := with_managed m (with_equipment s w)) in Hq.
  set (ser := SerialNumber (DeviceId i)) in *. set (n := next_task w) in *.
  assert (nothing_waits id (saveSession t1 sid (MkSession id ser 0) wm)) as Hwait1 by exact Hwait.
  assert (Inventory.devices (equipment (saveSession t1 sid (MkSession id ser 0) wm)) !! id = Some d) as Hd1
    by (cbn; by rewrite Hdev).
  assert (n <> 0) as Hn0 by lia.
  destruct (close_applied t3 sid ser id n tk d status _ (n + 1) t2 Hwait1 Hn0 Hd1 Hsid) as (w3 & Hclose & Hst & Ht3 & Hl3).
  do 2 eexists. exists w3, (finished t3 TaskCompleted None None (sent t2 tk)). split; [| split; [| split]].
  - unfold ServeHTTP. cbn [negb fmap option_fmap option_map]. rewrite Hp1. cbn [mbind option_bind e_Body b_Inform]. apply Hq.
  - rewrite (serve_empty _ _ _ _ (MkSession id ser 0)) by (by apply saved_session).
    apply (drain_one t2 sid ser 0 id n tk _ (n + 1) Hwait1); try done. cbn. unfold sessionTTL, task_life in *. lia.
  - rewrite (serve_response t3 all_up raw3 _ sid _ (MkSession id ser n) Hp3); [exact Hclose | done | by apply saved_session].
  - done.
Qed.

End Boot.

End Queue.

(** ** Concrete runs *)

Definition demo_tokens (s : string) : list Token := [StartElement "cwmp" "Body" []; Other s].
Definition demo_encode (l : list Token) : string := write_all (fun t => match t with Other s => s | _ => EmptyString end) l.

Definition demo_inform (serial : string) (events : list string) : Inform :=
  MkInform (MkDeviceID "TP-Link" "00259E" "AX1500" serial) (map (fun e => MkEvent e EmptyString) events)
    [MkParameter "Device.DeviceInfo.SoftwareVersion" "1.2"].

Definition demo_unmarshal (s : string) : option Envelope :=
  let message i r f := Some (MkEnvelope "17" (MkBody i r f)) in
  if String.eqb s "boot" then message (Some (demo_inform "SN-9" [EventBoot])) None None
  else if String.eqb s "periodic" then message (Some (demo_inform "SN-9" [EventPeriodic])) None None
  else if String.eqb s "upgraded" then
    message (Some (demo_inform "SN-9" [EventBoot; "4 VALUE CHANGE"; EventTransfer]%string)) None None
  else if String.eqb s "set" then message None (Some 0) None
  else if String.eqb s "fault" then message None None (Some (MkSOAPFault "Client" "CWMP fault" (MkFault "9005" "Invalid name")))
  else if String.eqb s "odd fault" then
    message None None (Some (MkSOAPFault "Client" "CWMP fault" (MkFault "9005.InvalidParameterName" "Invalid name")))
  else if String.eqb s "other" then message None None None
  else None.

Definition nobody (h : Z) : option (string * string * string) := None.
Definition arun_plan (h : Z) : option (string * string * string) :=
  if h =? 12 then Some ("arun", "40M/40M", "Home 40")%string else None.

Definition demo_serve (now : Z) (raw id : string) (w : world) : Reply * world :=
  ServeHTTP arun_plan demo_tokens demo_encode demo_unmarshal now all_up (Some "s1"%string) true (Some raw) id w.

Definition warehouse : world := MkWorld Inventory.demo_stock ∅ ∅ ∅ 1 ∅ [].

Lemma warehouse_sound subscribed : sound subscribed warehouse.
Proof.
  split; [apply Inventory.demo_stock_wf | try done ..]; [by intros ? ? ? ?%not_elem_of_nil | apply NoDup_nil_2].
Qed.

(** A discovered device, told to restart, comes back for the message. *)
Definition contacted : world := (handleInform arun_plan 100 all_up (Some "s1"%string) "17" (demo_inform "SN-9" [EventPeriodic]) warehouse).2.
Definition reboot_queued : world := (RebootCPE 110 true all_up "noc" "SN-9" contacted).2.

Lemma reboot_run `{Decimal} subscribed : star (step subscribed) warehouse reboot_queued.
Proof.
  eapply star_step; [apply (step_inform _ arun_plan 100 all_up (Some "s1"%string) "17" (demo_inform "SN-9" [EventPeriodic])) |].
  apply star_one. apply (step_reboot _ 110 true all_up "noc" "SN-9").
Qed.

Lemma rpc_handed_once_witness :
  NoDup (task_ids reboot_queued) /\ Inventory.well_formed (fun _ => true) (equipment reboot_queued).
Proof.
  destruct (@rpc_handed_once (fun _ => true) RationalDecimal warehouse reboot_queued (warehouse_sound _) (reboot_run _))
    as (H1 & _ & _ & H4 & _). split; [exact H1 | exact H4].
Defined.

Lemma answer_is_best_task_witness :
  exists t, tasks reboot_queued !! 1 = Some t /\ RPCType t = RPCReboot /\ Status t = TaskPending.
Proof.
  assert (sound (fun _ => true) reboot_queued) as Hs
    by (eapply (@queue_reachable (fun _ => true) RationalDecimal); [apply reboot_run | apply warehouse_sound]).
  destruct (answer_is_best_task (fun _ => true) arun_plan demo_tokens demo_encode demo_unmarshal 120 all_up (Some "s1"%string)
    true (Some EmptyString) "s1" reboot_queued (demo_serve 120 EmptyString "s1" reboot_queued).1
    (demo_serve 120 EmptyString "s1" reboot_queued).2 Hs)
    as (s & tid & t & _ & Ht & _ & Hp & _ & _ & _ & _ & Hh); [apply surjective_pairing | vm_compute; reflexivity.. |].
  assert (tid = 1) as -> by (vm_compute in Hh; congruence). exists t. split; [exact Ht |]. split; [| exact Hp].
  vm_compute in Ht. by injection Ht as <-.
Defined.

(** The device that boots. *)
Definition issued_device : Inventory.Device := Inventory.MkDevice 1 "SN-9" None Inventory.StatusIssued None (Some 12) (Some 50) None.

Definition home : world :=
  MkWorld (Inventory.with_devices {[1 := issued_device]} 2 Inventory.demo_stock) ∅
    {[1 := Some {["Device.WiFi.SSID" := "{{ssid}}"; "Device.WiFi.Key" := "{{wifi_password}}"; "Device.QoS.Down" := "{{downstream_kbps}}"]}%string]}
    ∅ 1 ∅ [].

Definition home_plan : gmap string string := {["Device.WiFi.SSID" := "Home 40"; "Device.QoS.Down" := "40000"]}%string.

Lemma boot_configures_the_device_witness :
  exists w1 w2 w3, demo_serve 100 "boot" EmptyString home = (MkReply 200 (BuildInformResponse "17") (Some "s1"%string), w1) /\
    ServeHTTP arun_plan demo_tokens demo_encode demo_unmarshal 101 all_up None true (Some EmptyString) "s1" w1 =
      (writeSOAP (BuildSetParameterValues EmptyString home_plan (range_of home_plan) "task-1"), w2) /\
    ServeHTTP arun_plan demo_tokens demo_encode demo_unmarshal 102 all_up None true (Some "set"%string) "s1" w2 = (writeEmpty, w3) /\
    ProvisioningState (acs_row w3 1) = StateProvisioned.
Proof.
  destruct (boot_configures_the_device arun_plan demo_tokens demo_encode demo_unmarshal 100 101 102 "s1" "boot" "set" "17"
    (demo_inform "SN-9" [EventBoot]) None None 0 home 1 issued_device 12 "arun" "40M/40M" "Home 40"
    {["Device.WiFi.SSID" := "{{ssid}}"; "Device.WiFi.Key" := "{{wifi_password}}"; "Device.QoS.Down" := "{{downstream_kbps}}"]}%string)
    as (w1 & w2 & w3 & t & H1 & H2 & H3 & Hst & _).
  - reflexivity.
  - eexists. reflexivity.
  - done.
  - done.
  - done.
  - by intros id t Ht.
  - done.
  - vm_compute. reflexivity.
  - done.
  - vm_compute. reflexivity.
  - eexists. vm_compute. reflexivity.
  - reflexivity.
  - reflexivity.
  - reflexivity.
  - done.
  - vm_compute. reflexivity.
  - intros Hp. apply (f_equal (lookup "Device.QoS.Down"%string)) in Hp. vm_compute in Hp. discriminate.
  - vm_compute. reflexivity.
  - reflexivity.
  - exists w1, w2, w3. split_and!; [exact H1 | | exact H3 | exact Hst]. rewrite H2. reflexivity.
Defined.

(** Whoever posts an Inform with a device's serial number is handed its
    configuration: nothing else is asked for. *)
Example anyone_with_the_serial :
  let w1 := (demo_serve 100 "boot" EmptyString home).2 in
  code (demo_serve 101 EmptyString "s1" w1).1 = 200 /\
  option_map Status (tasks (demo_serve 101 EmptyString "s1" w1).2 !! 1) = Some TaskSent.
Proof. vm_compute. done. Qed.

(** A device back from a firmware upgrade reports more events than the column
    holds, and its contact fails. *)
Example upgraded_device_refused :
  code (demo_serve 100 "upgraded" EmptyString home).1 = 500 /\ (demo_serve 100 "upgraded" EmptyString home).2 = 
  with_equipment (Inventory.with_devices (Inventory.devices (equipment home)) 3 (equipment home)) home.
Proof. vm_compute. done. Qed.

(** A device first seen on a periodic Inform is never configured: it is already
    registered when its state is looked at. *)
Example periodic_never_provisions :
  tasks (demo_serve 100 "periodic" EmptyString home).2 = ∅ /\
  ProvisioningState (acs_row (demo_serve 100 "periodic" EmptyString home).2 1) = StateRegistered.
Proof. vm_compute. done. Qed.

(** A refused configuration is completed by the next message of the session,
    when the claim in between failed. *)
Example fault_overwritten :
  let serve e now raw w := (ServeHTTP arun_plan demo_tokens demo_encode demo_unmarshal now e None true (Some raw) "s1" w).2 in
  let no_claim := MkEnv true true true false true true true true in
  let w := serve all_up 101 EmptyString (demo_serve 100 "boot" EmptyString home).2 in
  let w := serve no_claim 102 "fault"%string w in
  option_map Status (tasks w !! 1) = Some TaskFailed /\ ProvisioningState (acs_row w 1) = StateFault /\
  let w := serve all_up 103 "other"%string w in
  option_map Status (tasks w !! 1) = Some TaskCompleted /\ option_map t_FaultCode (tasks w !! 1) = Some None.
Proof. vm_compute. done. Qed.

(** A fault code longer than its column leaves the task sent for ever. *)
Example long_fault_code_lost :
  let serve now raw w := (ServeHTTP arun_plan demo_tokens demo_encode demo_unmarshal now all_up None true (Some raw) "s1" w).2 in
  let w := serve 102 "odd fault"%string (serve 101 EmptyString (demo_serve 100 "boot" EmptyString home).2) in
  option_map Status (tasks w !! 1) = Some TaskSent /\ sessions w = ∅.
Proof. vm_compute. done. Qed.

(** A reboot does not overtake the provisioning that is already queued: both
    have the same priority. *)
Example reboot_waits_its_turn :
  let w := (demo_serve 100 "boot" EmptyString home).2 in
  let w := (RebootCPE 110 true all_up "noc" "SN-9" w).2 in
  let w := (demo_serve 120 EmptyString "s1" w).2 in
  option_map Status (tasks w !! 1) = Some TaskSent /\ option_map (fun t => (RPCType t, Status t)) (tasks w !! 2) = Some (RPCReboot, TaskPending).
Proof. vm_compute. done. Qed.

End Tr069.
