(* ===== verification/Csv.v ===== *)
(** * Comma-separated values

    The writer of encoding/csv with its default settings, as the exports use
    it, with a reference reader. A field whose first character is an ASCII space
    is quoted, like one with a comma, a quote or a line break. *)

From S2P Require Import Prelude GoStrings Json.
From Stdlib Require Import Ascii.

Local Open Scope Z_scope.

Module Csv.

Definition newline : ascii := "010"%char.
Definition return_ : ascii := "013"%char.

Definition special (c : ascii) : bool :=
  Ascii.eqb c newline || Ascii.eqb c return_ || Ascii.eqb c Json.dquote || Ascii.eqb c ",".

(** [fieldNeedsQuotes] *)
Definition needs_quotes (f : string) : bool :=
  match f with
  | EmptyString => false
  | String c _ => String.eqb f "\." || negb (string_forall (fun c => negb (special c)) f) || is_space c
  end.

Definition double (c : ascii) : string :=
  if Ascii.eqb c Json.dquote then String c (String c EmptyString) else String c EmptyString.

Definition write_field (f : string) : string :=
  if needs_quotes f then String Json.dquote (Json.concat_map double f +:+ String Json.dquote EmptyString) else f.

(** The fields of a record from the second on, with the end of the line. *)
Fixpoint write_rest (fields : list string) : string :=
  match fields with
  | [] => String newline EmptyString
  | f :: fields => String "," (write_field f +:+ write_rest fields)
  end.

Definition write_record (fields : list string) : string :=
  match fields with [] => String newline EmptyString | f :: fields => write_field f +:+ write_rest fields end.

Fixpoint write_all (records : list (list string)) : string :=
  match records with [] => EmptyString | r :: records => write_record r +:+ write_all records end.

(** ** A reference reader *)

Inductive mode : Type := Start | Plain | Quoted | QuoteSeen.

(** A field is over at a comma, a record at a line break; a line with nothing
    on it is a record without fields. *)
Fixpoint read (m : mode) (cur : string) (fields : list string) (s : string) : option (list (list string)) :=
  match s with
  | EmptyString => match m, fields with Start, [] => Some [] | _, _ => None end
  | String c s =>
      let fin (_ : unit) :=
        if Ascii.eqb c "," then read Start EmptyString (fields ++ [cur]) s
        else match m, fields with
             | Start, [] => cons [] <$> read Start EmptyString [] s
             | _, _ => cons (fields ++ [cur]) <$> read Start EmptyString [] s
             end in
      match m with
      | Quoted => if Ascii.eqb c Json.dquote then read QuoteSeen cur fields s else read Quoted (cur +:+ String c EmptyString) fields s
      | QuoteSeen =>
          if Ascii.eqb c Json.dquote then read Quoted (cur +:+ String c EmptyString) fields s
          else if Ascii.eqb c "," || Ascii.eqb c newline then fin tt else None
      | Start =>
          if Ascii.eqb c Json.dquote then read Quoted EmptyString fields s
          else if Ascii.eqb c "," || Ascii.eqb c newline then fin tt
          else read Plain (String c EmptyString) fields s
      | Plain =>
          if Ascii.eqb c Json.dquote then None
          else if Ascii.eqb c "," || Ascii.eqb c newline then fin tt
          else read Plain (cur +:+ String c EmptyString) fields s
      end
  end.

Definition read_all (s : string) : option (list (list string)) := read Start EmptyString [] s.

(** ** Reading back *)

Definition cons_rest (c : ascii) (cur : string) (fields : list string) (s : string) : option (list (list string)) :=
  if Ascii.eqb c "," then read Start EmptyString (fields ++ [cur]) s
  else cons (fields ++ [cur]) <$> read Start EmptyString [] s.

Definition ends (c : ascii) : bool := Ascii.eqb c "," || Ascii.eqb c newline.

Lemma app_cons c s t : String c s +:+ t = String c (s +:+ t).
Proof. reflexivity. Qed.
Lemma app_empty s : EmptyString +:+ s = s.
Proof. reflexivity. Qed.

Lemma ends_not_quote c : ends c = true -> Ascii.eqb c Json.dquote = false.
Proof. unfold ends. intros [->%Ascii.eqb_eq | ->%Ascii.eqb_eq]%orb_true_iff; reflexivity. Qed.

Lemma read_quoted f cur fields s :
  read Quoted cur fields (Json.concat_map double f +:+ String Json.dquote s) = read QuoteSeen (cur +:+ f) fields s.
Proof.
  revert cur. induction f as [| c f IH]; intros cur.
  - change (Json.concat_map double EmptyString) with EmptyString. rewrite string_app_nil_r. reflexivity.
  - cbn [Json.concat_map]. rewrite string_app_assoc. unfold double at 1.
    replace (cur +:+ String c f) with ((cur +:+ String c EmptyString) +:+ f) by (by rewrite string_app_assoc).
    rewrite <- (IH (cur +:+ String c EmptyString)). destruct (Ascii.eqb c Json.dquote) eqn:Hc.
    + apply Ascii.eqb_eq in Hc as ->. reflexivity.
    + rewrite ?app_cons, ?app_empty; cbn [read]. by rewrite Hc.
Qed.

Lemma read_plain f cur fields s :
  string_forall (fun c => negb (special c)) f = true ->
  read Plain cur fields (f +:+ s) = read Plain (cur +:+ f) fields s.
Proof.
  revert cur. induction f as [| c f IH]; intros cur; cbn [string_forall].
  - intros _. by rewrite string_app_nil_r.
  - rewrite andb_true_iff, negb_true_iff. unfold special. rewrite !orb_false_iff. intros [[[[Hn _] Hq] Hcm] Hf].
    rewrite ?app_cons, ?app_empty; cbn [read]. rewrite Hq, Hcm, Hn. cbn [orb]. rewrite (IH _ Hf).
    by rewrite string_app_assoc.
Qed.

Lemma read_field f fields c s :
  ends c = true -> f <> EmptyString \/ fields <> [] \/ Ascii.eqb c "," = true ->
  read Start EmptyString fields (write_field f +:+ String c s) = cons_rest c f fields s.
Proof.
  intros Hc Hne. pose proof (ends_not_quote c Hc) as Hq. unfold ends in Hc. unfold write_field, cons_rest.
  destruct (needs_quotes f) eqn:Hf.
  - rewrite ?app_cons, ?app_empty. rewrite string_app_assoc. rewrite ?app_cons, ?app_empty.
    change (read Start EmptyString fields (String Json.dquote ?t)) with (read Quoted EmptyString fields t).
    rewrite read_quoted. rewrite ?app_cons, ?app_empty; cbn [read]. rewrite Hq, Hc. by destruct (Ascii.eqb c ",").
  - destruct f as [| d f].
    + rewrite ?app_cons, ?app_empty; cbn [read]. rewrite Hq, Hc. destruct (Ascii.eqb c ","); [done |].
      destruct fields; [by destruct Hne as [? | [? | ?]] | done].
    + unfold needs_quotes in Hf. rewrite !orb_false_iff, negb_false_iff in Hf. destruct Hf as [[_ Hf] _].
      cbn [string_forall] in Hf. rewrite andb_true_iff, negb_true_iff in Hf. destruct Hf as [Hd Hf].
      unfold special in Hd. rewrite !orb_false_iff in Hd. destruct Hd as [[[Hn _] Hdq] Hcm].
      rewrite ?app_cons, ?app_empty; cbn [read]. rewrite Hdq, Hcm, Hn. cbn [orb]. rewrite (read_plain f _ _ _ Hf).
      rewrite ?app_cons, ?app_empty; cbn [read]. rewrite Hq, Hc. by destruct (Ascii.eqb c ",").
Qed.

Lemma read_rest fields f done s :
  f <> EmptyString \/ done <> [] \/ fields <> [] ->
  read Start EmptyString done (write_field f +:+ write_rest fields +:+ s) =
  cons (done ++ f :: fields) <$> read Start EmptyString [] s.
Proof.
  revert f done. induction fields as [| g fields IH]; intros f done Hne.
  - cbn [write_rest]. change (String newline EmptyString +:+ s) with (String newline s).
    rewrite read_field; [done | done |]. destruct Hne as [? | [? | ?]]; [by left | by right; left | done].
  - cbn [write_rest]. change (String "," (write_field g +:+ write_rest fields) +:+ s)
      with (String "," ((write_field g +:+ write_rest fields) +:+ s)).
    rewrite read_field by (done || (right; right; done)). unfold cons_rest. rewrite Ascii.eqb_refl, string_app_assoc.
    rewrite IH by (right; left; by destruct done). by rewrite <- app_assoc.
Qed.

(** What is exported can be read back: for every table whose records are not
    a single empty field, the reference reader recovers from the written text
    exactly the records, whatever commas, quotes and line breaks their fields
    hold. *)
Theorem csv_roundtrip records :
  Forall (fun r => r <> [EmptyString]) records -> read_all (write_all records) = Some records.
Proof.
  unfold read_all. induction 1 as [| r records Hr _ IH]; [done |]. cbn [write_all]. destruct r as [| f fields].
  - cbn [write_record]. change (String newline EmptyString +:+ ?t) with (String newline t). cbn [read].
    change (Ascii.eqb newline Json.dquote) with false. change (Ascii.eqb newline "," || Ascii.eqb newline newline) with true.
    change (Ascii.eqb newline ",") with false. cbn [orb]. by rewrite IH.
  - unfold write_record. rewrite string_app_assoc, read_rest; [by rewrite IH |].
    destruct (decide (f = EmptyString)) as [-> |]; [| by left]. destruct fields; [done | by right; right].
Qed.

Definition demo_table : list (list string) :=
  [["a,b"; "plain"; EmptyString]; []; [String Json.dquote "quoted"; String newline "x"]; [" space"]]%string.

Lemma csv_roundtrip_witness : read_all (write_all demo_table) = Some demo_table.
Proof. apply csv_roundtrip. repeat constructor; done. Defined.

End Csv.
