(* ===== verification/Gstr1.v ===== *)
(** * GSTR-1: the monthly outward-supplies return

    internal/billing/gstr1.go and gstr1_csv.go, the two queries of
    internal/db/billing.go and the export of internal/staffui/gstr1.go. The five
    amounts every document and line carries are one record. Rows hold hundredths,
    as the columns do; their decimals, and how those are written, are the decimal
    library's. *)

From stdpp Require Import sorting.
From Stdlib Require Import Ascii QArith Qabs Lqa.
From S2P Require Import Prelude Rows GoStrings Dates Decimal Gst Access Csv.

Local Open Scope Z_scope.

Module Gstr1.
Import Gst.

Definition HSNInternetServices : string := "998432".
Definition HSNDescription : string := "Internet telecommunication services".
Definition UQCOther : string := "OTH".

Record Period : Type := MkPeriod { Year : Z; Month : Z }.
Definition period_string (p : Period) : string := padded 2 (Month p) +:+ padded 4 (Year p).

Record Supplier : Type := MkSupplier { s_GSTIN : string; s_State : string; s_Name : string }.

Definition InvoiceNumber (id : Z) : string := "INV-" +:+ padded 6 id.
Definition CreditNoteNumber (id : Z) : string := "CRN-" +:+ padded 6 id.

Section Returns.
Context `{Decimal}.

(** [String] and [StringFixed] of a decimal. *)
Context (decimal_string : dec -> string) (StringFixed : dec -> Z -> string).

Record Amounts : Type := MkAmounts { TaxableValue : dec; CGST : dec; SGST : dec; IGST : dec; Total : dec }.

Definition on_amounts (f : dec -> dec -> dec) (a b : Amounts) : Amounts :=
  MkAmounts (f (TaxableValue a) (TaxableValue b)) (f (CGST a) (CGST b)) (f (SGST a) (SGST b)) (f (IGST a) (IGST b))
    (f (Total a) (Total b)).
Definition add_amounts : Amounts -> Amounts -> Amounts := on_amounts Add.
Definition sub_amounts : Amounts -> Amounts -> Amounts := on_amounts Sub.
Definition zero : dec := NewFromInt 0.
Definition no_amounts : Amounts := MkAmounts zero zero zero zero zero.

Record InvoiceRow : Type := MkInvoiceRow {
  InvoiceID : Z;
  InvoiceDate : Dates.date;
  i_SubscriberName : string;
  i_RecipientGSTIN : string;
  i_RecipientState : string;
  i_Amounts : Amounts
}.

Record CreditNoteRow : Type := MkNoteRow {
  CreditNoteID : Z;
  OriginalInvoiceID : Z;
  OriginalInvoiceDate : Dates.date;
  NoteDate : Dates.date;
  n_SubscriberName : string;
  n_RecipientGSTIN : string;
  n_RecipientState : string;
  n_Amounts : Amounts
}.

Definition is_b2b (gstin : string) : bool := negb (String.eqb gstin EmptyString).
Definition IsB2B (r : InvoiceRow) : bool := is_b2b (i_RecipientGSTIN r).
Definition NoteIsB2B (n : CreditNoteRow) : bool := is_b2b (n_RecipientGSTIN n).

(** ** Rates *)

Definition standardGSTRates : list dec :=
  [NewFromInt 0; NewFromRatio 25 100; NewFromInt 3; NewFromInt 5; NewFromInt 12; NewFromInt 18; NewFromInt 28].
Definition rateSnapTolerance : dec := NewFromRatio 5 10.

Definition Abs (d : dec) : dec := if is_negative d then Sub zero d else d.

Definition derivedGSTRate (taxableValue tax : dec) : dec :=
  if is_zero taxableValue then zero
  else
    let derived := Round (Mul (Div tax taxableValue) (NewFromInt 100)) 2 in
    default derived (List.find (fun std => less_eq (Abs (Sub derived std)) rateSnapTolerance) standardGSTRates).

Definition rate_of (a : Amounts) : dec := derivedGSTRate (TaxableValue a) (Add (Add (CGST a) (SGST a)) (IGST a)).
Definition Rate (r : InvoiceRow) : dec := rate_of (i_Amounts r).
Definition NoteRate (n : CreditNoteRow) : dec := rate_of (n_Amounts n).

(** ** The return *)

Record B2BLine : Type := MkB2B {
  b_Number : string; b_Date : Dates.date; b_GSTIN : string; b_Name : string; b_Place : string; b_PlaceName : string;
  b_Rate : dec; b_Amounts : Amounts
}.

Record B2CLine : Type := MkB2C {
  c_Place : string; c_PlaceName : string; c_Rate : dec; InvoiceCount : Z; c_Amounts : Amounts
}.

Record CDNLine : Type := MkCDN {
  d_Number : string; d_Date : Dates.date; OriginalInvoice : string; OriginalDate : Dates.date; d_GSTIN : string;
  d_Name : string; d_Place : string; d_PlaceName : string; d_Rate : dec; d_Amounts : Amounts; Registered : bool
}.

Record HSNLine : Type := MkHSN { HSN : string; Description : string; UQC : string; Quantity : dec; h_Amounts : Amounts }.
Record Totals : Type := MkTotals { Invoices : Z; CreditNotes : Z; t_Amounts : Amounts }.

Record Return : Type := MkReturn {
  r_Period : Period; r_Supplier : Supplier; B2B : list B2BLine; B2C : list B2CLine; r_CreditNotes : list CDNLine;
  r_HSN : list HSNLine; r_Totals : Totals
}.

Definition gst_code (state : string) : string := default EmptyString (GSTCodeFor state).
Definition state_name (state : string) : string := default EmptyString (StateName state).

Definition b2b_line (r : InvoiceRow) : B2BLine :=
  MkB2B (InvoiceNumber (InvoiceID r)) (InvoiceDate r) (i_RecipientGSTIN r) (i_SubscriberName r)
    (gst_code (i_RecipientState r)) (state_name (i_RecipientState r)) (Rate r) (i_Amounts r).

Definition b2c_key (r : InvoiceRow) : string * string := (gst_code (i_RecipientState r), decimal_string (Rate r)).

Definition b2c_line (r : InvoiceRow) (l : option B2CLine) : B2CLine :=
  let l := default (MkB2C (gst_code (i_RecipientState r)) (state_name (i_RecipientState r)) (Rate r) 0 no_amounts) l in
  MkB2C (c_Place l) (c_PlaceName l) (c_Rate l) (InvoiceCount l + 1) (add_amounts (c_Amounts l) (i_Amounts r)).

Definition cdn_line (n : CreditNoteRow) : CDNLine :=
  MkCDN (CreditNoteNumber (CreditNoteID n)) (NoteDate n) (InvoiceNumber (OriginalInvoiceID n)) (OriginalInvoiceDate n)
    (n_RecipientGSTIN n) (n_SubscriberName n) (gst_code (n_RecipientState n)) (state_name (n_RecipientState n)) (NoteRate n)
    (n_Amounts n) (NoteIsB2B n).

(** What the two loops accumulate. *)
Record Work : Type := MkWork {
  w_b2b : list B2BLine; w_b2c : gmap (string * string) B2CLine; w_cdn : list CDNLine; w_quantity : dec; w_hsn : Amounts;
  w_totals : Totals
}.

Definition add_invoice (w : Work) (r : InvoiceRow) : Work :=
  MkWork (if IsB2B r then w_b2b w ++ [b2b_line r] else w_b2b w)
    (if IsB2B r then w_b2c w else <[b2c_key r := b2c_line r (w_b2c w !! b2c_key r)]> (w_b2c w))
    (w_cdn w) (Add (w_quantity w) (NewFromInt 1)) (add_amounts (w_hsn w) (i_Amounts r))
    (MkTotals (Invoices (w_totals w) + 1) (CreditNotes (w_totals w)) (add_amounts (t_Amounts (w_totals w)) (i_Amounts r))).

Definition add_note (w : Work) (n : CreditNoteRow) : Work :=
  MkWork (w_b2b w) (w_b2c w) (w_cdn w ++ [cdn_line n]) (w_quantity w) (sub_amounts (w_hsn w) (n_Amounts n))
    (MkTotals (Invoices (w_totals w)) (CreditNotes (w_totals w) + 1) (sub_amounts (t_Amounts (w_totals w)) (n_Amounts n))).

Definition no_work : Work := MkWork [] ∅ [] zero no_amounts (MkTotals 0 0 no_amounts).

Definition by_number (a b : B2BLine) : Prop := String.leb (b_Number a) (b_Number b) = true.
#[global] Instance by_number_dec : RelDecision by_number.
Proof. intros a b. unfold by_number. apply _. Defined.

Definition by_note (a b : CDNLine) : Prop := String.leb (d_Number a) (d_Number b) = true.
#[global] Instance by_note_dec : RelDecision by_note.
Proof. intros a b. unfold by_note. apply _. Defined.

(** Place of supply, then rate. *)
Definition by_place (a b : B2CLine) : Prop :=
  (if String.eqb (c_Place a) (c_Place b) then negb (Less (c_Rate b) (c_Rate a)) else String.leb (c_Place a) (c_Place b)) = true.
#[global] Instance by_place_dec : RelDecision by_place.
Proof. intros a b. unfold by_place. apply _. Defined.

Definition BuildReturn (period : Period) (supplier : Supplier) (rows : list InvoiceRow) (notes : list CreditNoteRow) : Return :=
  let w := fold_left add_note notes (fold_left add_invoice rows no_work) in
  MkReturn period supplier (merge_sort by_number (w_b2b w)) (merge_sort by_place (map snd (map_to_list (w_b2c w))))
    (merge_sort by_note (w_cdn w))
    (if (0 <? Invoices (w_totals w)) || (0 <? CreditNotes (w_totals w))
     then [MkHSN HSNInternetServices HSNDescription UQCOther (w_quantity w) (w_hsn w)] else [])
    (w_totals w).

(** ** The file (gstr1_csv.go) *)

Definition money (d : dec) : string := StringFixed d 2.
Definition day_month_year (d : Dates.date) : string :=
  let '(y, m, d) := d in padded 2 d +:+ "-" +:+ padded 2 m +:+ "-" +:+ padded 4 y.
Definition tax_fields (a : Amounts) : list string := [money (CGST a); money (SGST a); money (IGST a)].
Definition or_none (l : list (list string)) : list (list string) := match l with [] => [["(none)"%string]] | _ => l end.

Definition b2b_fields (l : B2BLine) : list string :=
  [b_Number l; day_month_year (b_Date l); b_GSTIN l; b_Name l; b_Place l; b_PlaceName l; money (b_Rate l);
   money (TaxableValue (b_Amounts l))] ++ tax_fields (b_Amounts l) ++ [money (Total (b_Amounts l))].

Definition b2c_fields (l : B2CLine) : list string :=
  [c_Place l; c_PlaceName l; money (c_Rate l); format_int (InvoiceCount l); money (TaxableValue (c_Amounts l))] ++
  tax_fields (c_Amounts l) ++ [money (Total (c_Amounts l))].

Definition cdn_fields (l : CDNLine) : list string :=
  [d_Number l; day_month_year (d_Date l); OriginalInvoice l; day_month_year (OriginalDate l);
   if Registered l then "CDNR (registered)" else "CDNUR (unregistered)"; d_GSTIN l; d_Name l; d_Place l; d_PlaceName l;
   money (d_Rate l); money (TaxableValue (d_Amounts l))]%string ++ tax_fields (d_Amounts l) ++ [money (Total (d_Amounts l))].

Definition hsn_fields (l : HSNLine) : list string :=
  [HSN l; Description l; UQC l; money (Quantity l); money (Total (h_Amounts l)); money (TaxableValue (h_Amounts l))] ++
  tax_fields (h_Amounts l).

Definition totals_fields (t : Totals) : list string :=
  [format_int (Invoices t); format_int (CreditNotes t); money (TaxableValue (t_Amounts t))] ++ tax_fields (t_Amounts t) ++
  [money (Total (t_Amounts t))].

Definition accountant_records (ret : Return) : list (list string) :=
  [["GSTR-1 outward supplies"]; ["Supplier"; s_Name (r_Supplier ret)]; ["GSTIN"; s_GSTIN (r_Supplier ret)];
    ["Home state"; s_State (r_Supplier ret)]; ["Period (MMYYYY)"; period_string (r_Period ret)]; [];
    ["B2B - supplies to registered persons (Table 4)"];
    ["Invoice number"; "Invoice date"; "Recipient GSTIN"; "Recipient name"; "Place of supply"; "State"; "Rate %";
     "Taxable value"; "CGST"; "SGST"; "IGST"; "Invoice total"]]%string ++
   or_none (map b2b_fields (B2B ret)) ++
   [[]; ["B2C - supplies to unregistered persons, aggregated by state and rate"];
    ["Place of supply"; "State"; "Rate %"; "Invoices"; "Taxable value"; "CGST"; "SGST"; "IGST"; "Total"]]%string ++
   or_none (map b2c_fields (B2C ret)) ++
   [[]; ["Credit notes (Table 9B) - reduce the supplies above"];
    ["Note number"; "Note date"; "Original invoice"; "Original date"; "Recipient type"; "Recipient GSTIN"; "Recipient name";
     "Place of supply"; "State"; "Rate %"; "Taxable value"; "CGST"; "SGST"; "IGST"; "Note total"]]%string ++
   or_none (map cdn_fields (r_CreditNotes ret)) ++
   [[]; ["HSN summary (Table 12), net of credit notes"];
    ["HSN/SAC"; "Description"; "UQC"; "Quantity"; "Total value"; "Taxable value"; "CGST"; "SGST"; "IGST"]]%string ++
   or_none (map hsn_fields (r_HSN ret)) ++
   [[]; ["Totals (net of credit notes)"];
    ["Invoices"; "Credit notes"; "Taxable value"; "CGST"; "SGST"; "IGST"; "Total"]; totals_fields (r_Totals ret)]%string.

Definition WriteAccountantCSV (ret : Return) : string := Csv.write_all (accountant_records ret).

(** ** The documents of a month (db/billing.go) *)

(** A stored invoice or credit note: its instant, its subscriber and the amounts
    in hundredths; [Original] is the invoice a note adjusts. *)
Record Document : Type := MkDocument {
  CreatedAt : Z; SubscriberID : Z; Original : Z; base_amount : Z; cgst_amount : Z; sgst_amount : Z; igst_amount : Z;
  total_amount : Z
}.

Record books : Type := MkBooks {
  invoices : gmap Z Document;
  credit_notes : gmap Z Document;
  (** username, GSTIN and state *)
  recipients : gmap Z (string * option string * string)
}.

Definition amounts_of (d : Document) : Amounts :=
  MkAmounts (of_paise (base_amount d)) (of_paise (cgst_amount d)) (of_paise (sgst_amount d)) (of_paise (igst_amount d))
    (of_paise (total_amount d)).

Definition date_of (t : Z) : Dates.date := Dates.civil (t / Dates.day).

Definition in_month (year month : Z) (d : Document) : bool :=
  let to := if month =? 12 then (year + 1, 1, 1) else (year, month + 1, 1) in
  (Dates.midnight (year, month, 1) <=? CreatedAt d) && (CreatedAt d <? Dates.midnight to).

Definition of_month (year month : Z) (m : gmap Z Document) : list (Z * Document) :=
  merge_sort by_id (List.filter (fun p => in_month year month p.2) (map_to_list m)).

Definition ListInvoicesForGSTR1 (up : bool) (year month : Z) (b : books) : result unit (list InvoiceRow) :=
  if negb up then Err tt
  else Ok (omap (fun p =>
      '(name, gstin, state) ← recipients b !! SubscriberID p.2;
      Some (MkInvoiceRow p.1 (date_of (CreatedAt p.2)) name (default EmptyString gstin) state (amounts_of p.2)))
    (of_month year month (invoices b))).

Definition ListCreditNotesForGSTR1 (up : bool) (year month : Z) (b : books) : result unit (list CreditNoteRow) :=
  if negb up then Err tt
  else Ok (omap (fun p =>
      i ← invoices b !! Original p.2; '(name, gstin, state) ← recipients b !! SubscriberID p.2;
      Some (MkNoteRow p.1 (Original p.2) (date_of (CreatedAt i)) (date_of (CreatedAt p.2)) name (default EmptyString gstin) state
              (amounts_of p.2)))
    (of_month year month (credit_notes b))).

(** ** The export (staffui/gstr1.go) *)

(** [time.Now().AddDate(0, -1, 0)]: a day the month before does not have runs
    over into the month it came from. *)
Definition month_before (today : Dates.date) : Z * Z :=
  let '(y, m, d) := today in
  let '(py, pm) := if m =? 1 then (y - 1, 12) else (y, m - 1) in
  if d <=? Dates.days_in_month py pm then (py, pm) else (y, m).

Definition parsePeriod (today : Dates.date) (raw : string) : option (Z * Z) :=
  let raw := trim_space raw in
  if String.eqb raw EmptyString then Some (month_before today)
  else
    '(y, m) ← cut "-" raw;
    year ← atoi y;
    if (year <? 2000) || (2200 <? year) then None
    else month ← atoi m; if (month <? 1) || (12 <? month) then None else Some (year, month).

(** The status, and the file when it is 200. *)
Definition GSTR1Export (s : Access.Session) (configured invoices_up notes_up : bool) (supplier : Supplier) (today : Dates.date)
    (raw : string) (b : books) : Z * string :=
  if negb (Access.requireSection s "billing") then (403, EmptyString)
  else if negb configured then (503, EmptyString)
  else match parsePeriod today raw with
       | None => (400, EmptyString)
       | Some (year, month) =>
           match ListInvoicesForGSTR1 invoices_up year month b with
           | Err _ => (500, EmptyString)
           | Ok rows =>
               match ListCreditNotesForGSTR1 notes_up year month b with
               | Err _ => (500, EmptyString)
               | Ok notes => (200, WriteAccountantCSV (BuildReturn (MkPeriod year month) supplier rows notes))
               end
           end
       end.

End Returns.

(** ** Sums of rationals *)

Definition Qsum {A} (f : A -> Q) (l : list A) : Q := foldr (fun x acc => (f x + acc)%Q) 0%Q l.

Lemma Qsum_app {A} (f : A -> Q) l1 l2 : (Qsum f (l1 ++ l2) == Qsum f l1 + Qsum f l2)%Q.
Proof. induction l1 as [| x l1 IH]; simpl; [ring |]. rewrite IH. ring. Qed.

Lemma Qsum_perm {A} (f : A -> Q) l1 l2 : l1 ≡ₚ l2 -> (Qsum f l1 == Qsum f l2)%Q.
Proof.
  induction 1 as [| x l1 l2 _ IH | x y l | l1 l2 l3 _ IH1 _ IH2]; simpl; [reflexivity | by rewrite IH | ring | by rewrite IH1].
Qed.

Lemma Qsum_map {A B} (f : B -> Q) (g : A -> B) l : Qsum f (map g l) = Qsum (fun x => f (g x)) l.
Proof. induction l as [| x l IH]; simpl; [done | by rewrite IH]. Qed.

Lemma Qsum_ext {A} (f g : A -> Q) l : (forall x, x ∈ l -> (f x == g x)%Q) -> (Qsum f l == Qsum g l)%Q.
Proof.
  induction l as [| x l IH]; intros Hfg; simpl; [reflexivity |]. rewrite IH by (intros; apply Hfg; by right).
  rewrite Hfg by by left. reflexivity.
Qed.

Lemma Qsum_split {A} (f : A -> Q) (p : A -> bool) l :
  (Qsum f l == Qsum f (List.filter p l) + Qsum f (List.filter (fun x => negb (p x)) l))%Q.
Proof. induction l as [| x l IH]; simpl; [ring |]. rewrite IH. destruct (p x); simpl; ring. Qed.

Lemma Qsum_insert `{Countable K} {A} (f : A -> Q) (m : gmap K A) k v :
  (Qsum (fun p => f p.2) (map_to_list (<[k := v]> m)) ==
   Qsum (fun p => f p.2) (map_to_list m) + f v - match m !! k with Some o => f o | None => 0 end)%Q.
Proof.
  assert (forall u, (Qsum (fun p : K * A => f p.2) (map_to_list (<[k := u]> (delete k m))) ==
    f u + Qsum (fun p => f p.2) (map_to_list (delete k m)))%Q) as Hins.
  { intros u. rewrite Qsum_perm by (apply map_to_list_insert, lookup_delete_eq). reflexivity. }
  rewrite <- (insert_delete_eq m k v), Hins. destruct (m !! k) as [o|] eqn:Ho.
  - rewrite <- (insert_delete_id m k o Ho) at 2. rewrite Hins. ring.
  - rewrite delete_id by done. ring.
Qed.

(** ** The columns *)

Inductive column : Type := Taxable_ | Cgst_ | Sgst_ | Igst_ | Total_.

Section Reconcile.
Context `{DecimalLaws} (decimal_string : dec -> string).

Definition value (c : column) (a : Amounts) : Q :=
  val (match c with Taxable_ => TaxableValue a | Cgst_ => CGST a | Sgst_ => SGST a | Igst_ => IGST a | Total_ => Total a end).

Lemma value_add c a b : (value c (add_amounts a b) == value c a + value c b)%Q.
Proof. destruct c; apply val_Add. Qed.
Lemma value_sub c a b : (value c (sub_amounts a b) == value c a - value c b)%Q.
Proof. destruct c; apply val_Sub. Qed.
Lemma value_none c : (value c no_amounts == 0)%Q.
Proof. destruct c; apply val_NewFromInt. Qed.

Notation key := (b2c_key decimal_string).
Notation invoice_step := (add_invoice decimal_string).

(** The unregistered supplies of one state and rate. *)
Definition in_bucket (k : string * string) (r : InvoiceRow) : bool := negb (IsB2B r) && bool_decide (key r = k).

(** A bucket's line stands for the supplies in it. *)
Record bucket_of (k : string * string) (rows : list InvoiceRow) (l : B2CLine) : Prop := {
  bu_place : c_Place l = k.1;
  bu_rate : decimal_string (c_Rate l) = k.2;
  bu_count : InvoiceCount l = Z.of_nat (length rows);
  bu_sum c : (value c (c_Amounts l) == Qsum (fun r => value c (i_Amounts r)) rows)%Q
}.

Record loop_spec (rows : list InvoiceRow) (w : Work) : Prop := {
  lo_b2b : w_b2b w = map b2b_line (List.filter IsB2B rows);
  lo_cdn : w_cdn w = [];
  lo_quantity : (val (w_quantity w) == inject_Z (Z.of_nat (length rows)))%Q;
  lo_hsn c : (value c (w_hsn w) == Qsum (fun r => value c (i_Amounts r)) rows)%Q;
  lo_totals c : (value c (t_Amounts (w_totals w)) == Qsum (fun r => value c (i_Amounts r)) rows)%Q;
  lo_counts : Invoices (w_totals w) = Z.of_nat (length rows) /\ CreditNotes (w_totals w) = 0;
  lo_buckets k : match w_b2c w !! k with
                 | Some l => List.filter (in_bucket k) rows <> [] /\ bucket_of k (List.filter (in_bucket k) rows) l
                 | None => List.filter (in_bucket k) rows = []
                 end;
  lo_b2c_sum c : (Qsum (fun p => value c (c_Amounts p.2)) (map_to_list (w_b2c w)) ==
                  Qsum (fun r => value c (i_Amounts r)) (List.filter (fun r => negb (IsB2B r)) rows))%Q;
  lo_b2c_count : sum_by (fun p => InvoiceCount p.2) (map_to_list (w_b2c w)) =
                 Z.of_nat (length (List.filter (fun r => negb (IsB2B r)) rows))
}.

Lemma count_insert (m : gmap (string * string) B2CLine) k v :
  sum_by (fun p => InvoiceCount p.2) (map_to_list (<[k := v]> m)) =
  sum_by (fun p => InvoiceCount p.2) (map_to_list m) + InvoiceCount v - match m !! k with Some o => InvoiceCount o | None => 0 end.
Proof.
  assert (forall u, sum_by (fun p => InvoiceCount p.2) (map_to_list (<[k := u]> (delete k m))) =
    InvoiceCount u + sum_by (fun p => InvoiceCount p.2) (map_to_list (delete k m))) as Hins.
  { intros u. rewrite (sum_by_Permutation _ _ ((k, u) :: map_to_list (delete k m)))
      by (apply map_to_list_insert, lookup_delete_eq). done. }
  rewrite <- (insert_delete_eq m k v), Hins. destruct (m !! k) as [o|] eqn:Ho.
  - rewrite <- (insert_delete_id m k o Ho) at 2. rewrite Hins. lia.
  - rewrite delete_id by done. lia.
Qed.

Lemma bucket_snoc k rows r l :
  in_bucket k r = true -> match l with Some l => bucket_of k rows l | None => rows = [] end ->
  bucket_of k (rows ++ [r]) (b2c_line r l).
Proof.
  unfold in_bucket. rewrite andb_true_iff, bool_decide_eq_true. intros [_ <-] Hl. unfold b2c_line. destruct l as [l|]; simpl.
  - destruct Hl as [P R C S]. split; simpl; [exact P | exact R | rewrite C, length_app; simpl; lia |].
    intros c. rewrite value_add, S, Qsum_app. simpl. ring.
  - subst rows. split; simpl; try done. intros c. rewrite value_add, value_none. simpl. ring.
Qed.

Lemma loop_invariant rows : loop_spec rows (fold_left invoice_step rows no_work).
Proof.
  induction rows as [| r rows IH] using rev_ind.
  { split; try done; try (intros c; apply value_none). apply val_NewFromInt. }
  rewrite fold_left_app. cbn [fold_left]. set (w := fold_left invoice_step rows no_work) in *.
  destruct IH as [I1 I2 I3 I4 I5 [I6 I6'] I7 I8 I9].
  assert (forall (p : InvoiceRow -> bool), List.filter p (rows ++ [r]) = List.filter p rows ++ (if p r then [r] else [])) as Hf
    by (intros p; by rewrite List.filter_app).
  split; unfold add_invoice; cbn [w_b2b w_b2c w_cdn w_quantity w_hsn w_totals t_Amounts Invoices CreditNotes].
  - rewrite Hf, map_app. destruct (IsB2B r); [by rewrite I1 | by rewrite app_nil_r].
  - exact I2.
  - rewrite val_Add, I3, val_NewFromInt, length_app, Nat2Z.inj_add, inject_Z_plus. reflexivity.
  - intros c. rewrite value_add, I4, Qsum_app. simpl. ring.
  - intros c. rewrite value_add, I5, Qsum_app. simpl. ring.
  - rewrite length_app, Nat2Z.inj_add. simpl. split; [lia | done].
  - intros k. rewrite Hf. specialize (I7 k). change (in_bucket k r) with (negb (IsB2B r) && bool_decide (key r = k)).
    destruct (IsB2B r) eqn:Hb; cbn [negb andb].
    { by rewrite app_nil_r. }
    destruct (decide (key r = k)) as [<- | Hne].
    + rewrite lookup_insert_eq, bool_decide_true by done. split; [by intros [_ ?]%app_eq_nil |].
      apply bucket_snoc; [unfold in_bucket; rewrite Hb; by apply bool_decide_true |]. revert I7.
      by destruct (w_b2c w !! key r); [intros [_ ?] |].
    + rewrite lookup_insert_ne, bool_decide_false by done. by rewrite app_nil_r.
  - intros c. rewrite Hf. destruct (IsB2B r) eqn:Hb; cbn [negb]; [by rewrite app_nil_r |].
    rewrite Qsum_app, <- I8, (Qsum_insert (fun l => value c (c_Amounts l))). unfold b2c_line.
    destruct (w_b2c w !! key r) as [l|]; simpl; rewrite value_add, ?value_none; ring.
  - rewrite Hf. destruct (IsB2B r) eqn:Hb; cbn [negb]; [by rewrite app_nil_r |].
    rewrite length_app, Nat2Z.inj_add, <- I9, count_insert. unfold b2c_line.
    destruct (w_b2c w !! key r) as [l|]; simpl; lia.
Qed.

Lemma notes_invariant notes w0 :
  let w := fold_left add_note notes w0 in
  w_b2b w = w_b2b w0 /\ w_b2c w = w_b2c w0 /\ w_quantity w = w_quantity w0 /\ w_cdn w = w_cdn w0 ++ map cdn_line notes /\
  (forall c, (value c (w_hsn w) == value c (w_hsn w0) - Qsum (fun n => value c (n_Amounts n)) notes)%Q) /\
  (forall c, (value c (t_Amounts (w_totals w)) ==
              value c (t_Amounts (w_totals w0)) - Qsum (fun n => value c (n_Amounts n)) notes)%Q) /\
  Invoices (w_totals w) = Invoices (w_totals w0) /\
  CreditNotes (w_totals w) = CreditNotes (w_totals w0) + Z.of_nat (length notes).
Proof.
  revert w0. induction notes as [| n notes IH]; intros w0; cbn [fold_left].
  { rewrite app_nil_r. split_and!; try done; [intros c; simpl; ring.. | simpl; lia]. }
  destruct (IH (add_note w0 n)) as (A1 & A2 & A3 & A4 & A5 & A6 & A7 & A8). rewrite A1, A2, A3, A4, A7, A8. simpl.
  rewrite <- app_assoc. split_and!; try done; [| | lia].
  - intros c. rewrite A5. simpl. rewrite value_sub. ring.
  - intros c. rewrite A6. simpl. rewrite value_sub. ring.
Qed.

#[local] Instance by_place_total : base.Total by_place.
Proof.
  intros a b. unfold by_place. rewrite (String.eqb_sym (c_Place b)). destruct (String.eqb (c_Place a) (c_Place b)).
  - rewrite !negb_true_iff, <- !not_true_iff_false, !val_Less.
    destruct (Qlt_le_dec (val (c_Rate b)) (val (c_Rate a))) as [Hlt | Hle]; [right | left].
    + intros Hx. by eapply Qlt_irrefl, Qlt_trans.
    + intros Hx. by apply Qle_not_lt in Hle.
  - apply String.leb_total.
Qed.

Lemma filter_length_split {A} (p : A -> bool) l :
  (length (List.filter p l) + length (List.filter (fun x => negb (p x)) l) = length l)%nat.
Proof. induction l as [| x l IH]; simpl; [done |]. destruct (p x); simpl; lia. Qed.

(** *** The buckets *)

Definition buckets (rows : list InvoiceRow) : list ((string * string) * B2CLine) :=
  map_to_list (w_b2c (fold_left invoice_step rows no_work)).

Lemma bucket_lines rows p :
  p ∈ buckets rows -> List.filter (in_bucket p.1) rows <> [] /\ bucket_of p.1 (List.filter (in_bucket p.1) rows) p.2.
Proof.
  destruct p as [k l]. intros Hk%elem_of_map_to_list. pose proof (lo_buckets _ _ (loop_invariant rows) k) as Hb. by rewrite Hk in Hb.
Qed.

Lemma bucket_key rows p : p ∈ buckets rows -> (c_Place p.2, decimal_string (c_Rate p.2)) = p.1.
Proof. intros [_ Hb]%bucket_lines. rewrite (bu_place _ _ _ Hb), (bu_rate _ _ _ Hb). by destruct p as [[]]. Qed.

Lemma bucket_keys_differ rows :
  NoDup (map (fun l => (c_Place l, decimal_string (c_Rate l))) (map snd (buckets rows))).
Proof.
  rewrite map_map. apply (NoDup_fmap_2_strong _ (buckets rows)); [| apply NoDup_map_to_list].
  intros x y Hx Hy E. rewrite (bucket_key rows x Hx), (bucket_key rows y Hy) in E.
  destruct x as [k x], y as [k' y]. cbn in E. subst k'. apply elem_of_map_to_list in Hx, Hy. congruence.
Qed.

Lemma bucket_found rows r :
  r ∈ rows -> IsB2B r = false -> exists l, l ∈ map snd (buckets rows) /\ key r = (c_Place l, decimal_string (c_Rate l)).
Proof.
  intros Hr Hreg. pose proof (lo_buckets _ _ (loop_invariant rows) (key r)) as Hb.
  destruct (w_b2c _ !! key r) as [l|] eqn:Hk.
  - assert ((key r, l) ∈ buckets rows) as Hin by (by apply elem_of_map_to_list). exists l. split.
    + apply list_elem_of_fmap. by exists (key r, l).
    + symmetry. apply (bucket_key rows (key r, l) Hin).
  - exfalso. apply (not_elem_of_nil r). rewrite <- Hb. apply elem_of_filterb. split; [done |].
    unfold in_bucket. rewrite Hreg. by apply bool_decide_true.
Qed.

Lemma count_by_line (l : list ((string * string) * B2CLine)) :
  sum_by InvoiceCount (map snd l) = sum_by (fun p => InvoiceCount p.2) l.
Proof. induction l as [| x l IH]; simpl; [done | by rewrite IH]. Qed.

(** C28: the return's three routes to a figure meet: in every column the totals
    are the B2B invoices plus the B2C buckets less the credit notes, and the HSN
    summary is the same figure; nothing is counted twice or left out: every
    registered supply is one B2B line, every note one line, and the B2C buckets
    are one for each state and rate, as written, in order, each the sum of its
    supplies; and a return of an empty month has no HSN row. *)
Theorem return_reconciles period supplier rows notes :
  let ret := BuildReturn decimal_string period supplier rows notes in
  (forall c, (value c (t_Amounts (r_Totals ret)) ==
              Qsum (fun l => value c (b_Amounts l)) (B2B ret) + Qsum (fun l => value c (c_Amounts l)) (B2C ret) -
              Qsum (fun l => value c (d_Amounts l)) (r_CreditNotes ret))%Q) /\
  (forall c h, h ∈ r_HSN ret -> (value c (h_Amounts h) == value c (t_Amounts (r_Totals ret)))%Q) /\
  (r_HSN ret = [] <-> rows = [] /\ notes = []) /\
  Invoices (r_Totals ret) = Z.of_nat (length rows) /\
  Z.of_nat (length (B2B ret)) + sum_by InvoiceCount (B2C ret) = Z.of_nat (length rows) /\
  CreditNotes (r_Totals ret) = Z.of_nat (length notes) /\
  B2B ret ≡ₚ map b2b_line (List.filter IsB2B rows) /\ r_CreditNotes ret ≡ₚ map cdn_line notes /\
  NoDup (map (fun l => (c_Place l, decimal_string (c_Rate l))) (B2C ret)) /\ Sorted by_place (B2C ret) /\
  (forall l, l ∈ B2C ret -> let supplies := List.filter (in_bucket (c_Place l, decimal_string (c_Rate l))) rows in
     supplies <> [] /\ InvoiceCount l = Z.of_nat (length supplies) /\
     forall c, (value c (c_Amounts l) == Qsum (fun r => value c (i_Amounts r)) supplies)%Q) /\
  (forall r, r ∈ rows -> IsB2B r = false -> exists l, l ∈ B2C ret /\ key r = (c_Place l, decimal_string (c_Rate l))).
Proof.
  intros ret. pose proof (loop_invariant rows) as [I1 I2 I3 I4 I5 [I6 I6'] I7 I8 I9].
  destruct (notes_invariant notes (fold_left invoice_step rows no_work)) as (A1 & A2 & A3 & A4 & A5 & A6 & A7 & A8).
  subst ret. unfold BuildReturn. set (w0 := fold_left invoice_step rows no_work) in *. set (w := fold_left add_note notes w0) in *.
  cbn [r_Totals B2B B2C r_CreditNotes r_HSN]. rewrite I1 in A1. rewrite I2 in A4. cbn [app] in A4.
  pose proof (merge_sort_Permutation by_number (w_b2b w)) as P1. pose proof (merge_sort_Permutation by_note (w_cdn w)) as P2.
  pose proof (merge_sort_Permutation by_place (map snd (map_to_list (w_b2c w)))) as P3. rewrite A1 in P1 at 2. rewrite A4 in P2 at 2.
  rewrite A2 in P3 |- *. fold (buckets rows) in P3, I8, I9 |- *.
  split_and!.
  - intros c. rewrite A6, I5, (Qsum_perm _ _ _ P1), (Qsum_perm _ _ _ P2), (Qsum_perm _ _ _ P3), !Qsum_map. cbn [b2b_line b_Amounts cdn_line d_Amounts].
    rewrite I8, (Qsum_split _ IsB2B rows). reflexivity.
  - intros c h. destruct (_ || _); [| by intros ?%not_elem_of_nil]. intros ->%list_elem_of_singleton. cbn [h_Amounts].
    by rewrite A5, A6, I4, I5.
  - rewrite A7, A8, I6, I6'. destruct rows, notes; simpl; (split; [done || intros | done || intros []]); try done; by case_match.
  - by rewrite A7.
  - rewrite P1, length_map, (sum_by_Permutation _ _ _ P3), count_by_line, I9.
    rewrite <- (filter_length_split IsB2B rows). lia.
  - rewrite A8, I6'. lia.
  - exact P1.
  - exact P2.
  - rewrite P3. apply bucket_keys_differ.
  - apply (Sorted_merge_sort by_place).
  - intros l. rewrite P3. intros (p & -> & Hin)%list_elem_of_fmap. rewrite (bucket_key rows p Hin).
    destruct (bucket_lines rows p Hin) as [Hn [_ _ C S]]. done.
  - intros r Hr Hreg. destruct (bucket_found rows r Hr Hreg) as (l & Hin & Hk). exists l. by rewrite P3.
Qed.

(** ** The rate a line is filed at *)

Lemma val_Abs d : (val (Abs d) == Qabs (val d))%Q.
Proof.
  unfold Abs, is_negative, zero. destruct (Less d (NewFromInt 0)) eqn:Hd.
  - apply val_Less in Hd. rewrite val_NewFromInt in Hd. rewrite val_Sub, val_NewFromInt, Qabs_neg by (by apply Qlt_le_weak).
    unfold inject_Z. ring.
  - apply not_true_iff_false in Hd. rewrite val_Less, val_NewFromInt in Hd. apply Qnot_lt_le in Hd. by rewrite Qabs_pos.
Qed.

Definition near (derived std : dec) : bool := less_eq (Abs (Sub derived std)) rateSnapTolerance.

Lemma near_spec derived std : near derived std = true <-> (Qabs (val derived - val std) <= 1 # 2)%Q.
Proof.
  unfold near, less_eq, rateSnapTolerance. rewrite negb_true_iff, <- not_true_iff_false, val_Less, val_Abs, val_NewFromRatio, val_Sub.
  assert (5 # 10 == 1 # 2)%Q as -> by reflexivity. split; [apply Qnot_lt_le | apply Qle_not_lt].
Qed.

Lemma near_yes derived std x :
  (Qabs (val derived - x) <= 41 # 100)%Q -> (val std == x)%Q -> near derived std = true.
Proof. intros Hd Hs. apply near_spec. rewrite Hs. eapply Qle_trans; [exact Hd | discriminate]. Qed.

Lemma near_no derived std x y :
  (Qabs (val derived - x) <= 41 # 100)%Q -> (val std == y)%Q -> (1 <= x - y)%Q -> near derived std = false.
Proof.
  intros Hd Hs Hxy. apply not_true_iff_false. rewrite near_spec, Hs. apply Qabs_Qle_condition in Hd.
  intros [_ Hx]%Qabs_Qle_condition. destruct Hd. lra.
Qed.

(** What two rounded taxes, or one, can be off by. *)
Lemma tax_near n r : 0 <= n -> 0 <= r -> Z.abs (10000 * tax n r - n * r) <= 5000.
Proof. intros Hn Hr. unfold tax. pose proof (half_away_near (n * r) 10000). lia. Qed.

Lemma derived_near a n t r :
  is_paise (TaxableValue a) n -> is_paise (Add (Add (CGST a) (SGST a)) (IGST a)) t ->
  250 <= n -> 0 <= t -> Z.abs (10000 * t - n * r) <= 10000 ->
  (Qabs (val (Round (Mul (Div (Add (Add (CGST a) (SGST a)) (IGST a)) (TaxableValue a)) (NewFromInt 100)) 2) - (r # 100)) <= 41 # 100)%Q.
Proof.
  unfold is_paise. intros Hn Ht Hbig Ht0 Hoff. rewrite val_Round.
  set (m := Mul _ _). assert (val m == round_half_away 16 (t # Z.to_pos n) * 100)%Q as Hm.
  { subst m. rewrite val_Mul, val_NewFromInt, val_Div, Ht, Hn; cycle 1.
    { rewrite Hn. unfold Qeq. simpl. lia. }
    assert ((t # 100) / (n # 100) == t # Z.to_pos n)%Q as ->; [| reflexivity].
    unfold Qeq, Qdiv, Qmult, Qinv. destruct n as [| p |]; simpl; lia. }
  pose proof (round_half_away_near 2 (val m)) as H2. pose proof (round_half_away_near 16 (t # Z.to_pos n)) as H16.
  assert (Qabs ((t # Z.to_pos n) * 100 - (r # 100)) <= 4 # 10)%Q as Hq.
  { apply Qabs_Qle_condition. unfold Qle, Qminus, Qmult, Qplus, Qopp. simpl. destruct n as [| p |]; simpl in *; lia. }
  apply Qabs_Qle_condition in H2, H16, Hq. apply Qabs_Qle_condition.
  change (1 # 2 * pow10 2)%Q with (1 # 200)%Q in H2. change (1 # 2 * pow10 16)%Q with (1 # 20000000000000000)%Q in H16.
  set (x := round_half_away 2 (val m)) in *. set (y := round_half_away 16 (t # Z.to_pos n)) in *. rewrite Hm in H2.
  set (z := (t # Z.to_pos n)%Q) in *. destruct H2, H16, Hq. split; lra.
Qed.

Lemma filed_at a n t r :
  r ∈ [300; 500; 1200; 1800; 2800] ->
  is_paise (TaxableValue a) n -> is_paise (Add (Add (CGST a) (SGST a)) (IGST a)) t ->
  250 <= n -> 0 <= t -> Z.abs (10000 * t - n * r) <= 10000 -> (val (rate_of a) == r # 100)%Q.
Proof.
  intros Hr Hn Ht Hbig Ht0 Hoff. pose proof (derived_near a n t r Hn Ht Hbig Ht0 Hoff) as Hd.
  unfold rate_of, derivedGSTRate. rewrite (paise_is_zero _ n Hn). destruct (Z.eqb_spec n 0); [lia |].
  set (d := Round _ _) in *. change (fun std => less_eq (Abs (Sub d std)) rateSnapTolerance) with (near d).
  unfold standardGSTRates. cbn [List.find].

  rewrite !elem_of_cons in Hr. destruct Hr as [-> | [-> | [-> | [-> | [-> | []%elem_of_nil]]]]];
    repeat (erewrite near_no; [| exact Hd | first [apply val_NewFromInt | apply val_NewFromRatio] | vm_compute; discriminate]);
    (erewrite near_yes; [| exact Hd | etransitivity; [apply val_NewFromInt | reflexivity]]);
    (etransitivity; [apply val_NewFromInt | reflexivity]).
Qed.

Definition amounts_of_invoice (inv : Invoice) : Amounts :=
  MkAmounts (BaseAmount inv) (CgstAmount inv) (SgstAmount inv) (IgstAmount inv) (TotalAmount inv).

(** C29: an invoice is filed at the rate it was issued at: whenever the tax is
    computed at one of the standard rates from 3 to 28 per cent on at least two
    and a half rupees, inside the state or across, the rate derived from the
    rounded amounts is that rate, not one off by the rounding. *)
Theorem filed_at_the_issued_rate base n rate c s i (sub home : string) :
  is_paise base n -> is_paise (CgstRate rate) c -> is_paise (SgstRate rate) s -> is_paise (IgstRate rate) i ->
  0 <= c -> 0 <= s -> c + s = i -> i ∈ [300; 500; 1200; 1800; 2800] -> 250 <= n ->
  (val (rate_of (amounts_of_invoice (CalculateGstInvoiceFrom base sub home rate))) == i # 100)%Q.
Proof.
  intros Hb Hc Hs Hi Hc0 Hs0 Hcs Hin Hn.
  destruct (invoice_paise base n rate c s i sub home Hb Hc Hs Hi) as (Hbase & _ & Hcg & Hsg & Hig & _).
  set (inv := CalculateGstInvoiceFrom base sub home rate) in *.
  assert (0 <= i) as Hi0 by lia.
  pose proof (tax_near n c ltac:(lia) Hc0). pose proof (tax_near n s ltac:(lia) Hs0). pose proof (tax_near n i ltac:(lia) Hi0).
  pose proof (half_away_nonneg (n * c) 10000 ltac:(nia)). pose proof (half_away_nonneg (n * s) 10000 ltac:(nia)).
  pose proof (half_away_nonneg (n * i) 10000 ltac:(nia)). fold (tax n c) in *. fold (tax n s) in *. fold (tax n i) in *.
  eapply (filed_at _ n); [exact Hin | by cbn; rewrite Hbase | apply paise_add; [apply paise_add |]; [exact Hcg | exact Hsg | exact Hig] | exact Hn | |];
    destruct (intrastate sub home); subst i; lia.
Qed.

End Reconcile.

(** ** The export *)

Section Export.
Context `{Decimal} (decimal_string : dec -> string) (StringFixed : dec -> Z -> string).

Lemma or_none_records l : Forall (fun r => r <> [EmptyString]) l -> Forall (fun r => r <> [EmptyString]) (or_none l).
Proof. intros Hl. destruct l; [by repeat constructor | done]. Qed.

Lemma fields_records {A} (f : A -> list string) l : (forall a, f a <> [EmptyString]) -> Forall (fun r => r <> [EmptyString]) (map f l).
Proof. intros Hf. apply Forall_forall. intros r (a & -> & _)%list_elem_of_fmap. apply Hf. Qed.

(** The file an operator downloads is the month's return: the export answers
    200 only to a role that may see billing, for the period it was asked for or,
    when none was named, the one before today's, and with both of the month's
    queries answered; and a reader of the file gets back exactly the records of
    the return built from them. *)
Theorem export_reads_back s configured invoices_up notes_up supplier today raw b file :
  GSTR1Export decimal_string StringFixed s configured invoices_up notes_up supplier today raw b = (200, file) ->
  Access.canAccess "billing" (Access.s_Role s) (Access.s_LeaAccess s) = true /\
  exists year month rows notes, parsePeriod today raw = Some (year, month) /\
    ListInvoicesForGSTR1 true year month b = Ok rows /\ ListCreditNotesForGSTR1 true year month b = Ok notes /\
    Csv.read_all file =
      Some (accountant_records StringFixed (BuildReturn decimal_string (MkPeriod year month) supplier rows notes)).
Proof.
  unfold GSTR1Export. destruct (Access.requireSection s "billing") eqn:Hs; [| done]. destruct configured; [| done].
  cbn [negb]. destruct (parsePeriod today raw) as [[year month]|]; [| done].
  destruct invoices_up; [| done]. destruct (ListInvoicesForGSTR1 true year month b) as [rows | []] eqn:Hr; [| done].
  destruct notes_up; [| done]. destruct (ListCreditNotesForGSTR1 true year month b) as [notes | []] eqn:Hn; [| done].
  intros [= <-]. split; [exact Hs |]. exists year, month, rows, notes. split_and!; try done.
  apply Csv.csv_roundtrip. unfold accountant_records.
  repeat first [apply Forall_app; split | apply or_none_records, fields_records; by intros [] | by repeat constructor].
Qed.

End Export.

(** ** Concrete runs *)

#[local] Existing Instance RationalDecimal.

(** Rationals are written in lowest terms. *)
Definition demo_string (q : Q) : string :=
  let r := Qred q in format_int (Qnum r) +:+ "/" +:+ format_int (Zpos (Qden r)).

Definition demo_fixed (q : Q) (places : Z) : string := format_int (Qnum (round_half_away places q)).

Definition january : Z := Dates.midnight (2026, 1, 15).
Definition month_books : books :=
  MkBooks {[1 := MkDocument january 12 0 79900 7191 7191 0 94282; 2 := MkDocument january 13 0 49900 0 0 8982 58882]}
    {[1 := MkDocument january 12 1 9138 822 822 0 10782]}
    {[12 := ("arun", None, "TN"); 13 := ("beta, Ltd", Some "29AAAAA0000A1Z5", "KA")]}%string.

Definition january_rows : list InvoiceRow := match ListInvoicesForGSTR1 true 2026 1 month_books with Ok l => l | Err _ => [] end.
Definition january_notes : list CreditNoteRow := match ListCreditNotesForGSTR1 true 2026 1 month_books with Ok l => l | Err _ => [] end.

Definition clerk : Access.Session := Access.MkSession "clerk" "billing_admin" false "token" 0.
Definition isp : Supplier := MkSupplier "33AAAAA0000A1Z5" "TN" "Net".

Lemma return_reconciles_witness :
  let ret := BuildReturn demo_string (MkPeriod 2026 1) isp january_rows january_notes in
  length (B2B ret) = 1%nat /\ length (B2C ret) = 1%nat /\
  (val (DecimalLaws := RationalLaws) (Total (t_Amounts (r_Totals ret))) ==
   Qsum (fun l => value (H0 := RationalLaws) Total_ (b_Amounts l)) (B2B ret) +
   Qsum (fun l => value (H0 := RationalLaws) Total_ (c_Amounts l)) (B2C ret) -
   Qsum (fun l => value (H0 := RationalLaws) Total_ (d_Amounts l)) (r_CreditNotes ret))%Q.
Proof.
  intros ret. split; [vm_compute; reflexivity |]. split; [vm_compute; reflexivity |].
  exact (proj1 (return_reconciles (H0 := RationalLaws) demo_string (MkPeriod 2026 1) isp january_rows january_notes)
    Total_).
Defined.

Lemma filed_at_the_issued_rate_witness :
  (val (DecimalLaws := RationalLaws) (rate_of (amounts_of_invoice
     (CalculateGstInvoiceFrom (9138 # 100)%Q "TN" "TN" (MkRate 1 (9 # 1)%Q (9 # 1)%Q (18 # 1)%Q)))) == 1800 # 100)%Q.
Proof.
  apply (filed_at_the_issued_rate (H0 := RationalLaws) (9138 # 100)%Q 9138 _ 900 900 1800 "TN" "TN");
    first [reflexivity | lia | (by repeat (first [left | right])) | idtac].
Defined.

Lemma export_reads_back_witness :
  let out := GSTR1Export demo_string demo_fixed clerk true true true isp (2026, 2, 10) EmptyString month_books in
  out.1 = 200 /\ option_map length (Csv.read_all out.2) = Some 25%nat.
Proof.
  intros out. destruct (export_reads_back (H := RationalDecimal) demo_string demo_fixed clerk true true true isp (2026, 2, 10) EmptyString month_books out.2)
    as (_ & year & month & rows & notes & Hp & Hr & Hn & Hread); [vm_compute; reflexivity |].
  split; [vm_compute; reflexivity |]. rewrite Hread. vm_compute in Hp. injection Hp as <- <-. vm_compute in Hr, Hn.
  injection Hr as <-. injection Hn as <-. vm_compute. reflexivity.
Defined.

(** A supply at a quarter of a per cent is filed as exempt: the tolerance is
    wider than the gap between the first two rates. *)
Example quarter_percent_filed_as_nil :
  rate_of (MkAmounts (100000 # 100) (125 # 1000) (125 # 1000) 0 (100250 # 100))%Q = inject_Z 0 /\
  rate_of (MkAmounts (100000 # 100) (125 # 100) (125 # 100) 0 (100250 # 100))%Q = inject_Z 0.
Proof. vm_compute. done. Qed.

(** On the last day of March the default period is March, not over yet. *)
Example default_period_at_month_end :
  parsePeriod (2026, 3, 31) EmptyString = Some (2026, 3) /\ parsePeriod (2026, 3, 15) EmptyString = Some (2026, 2).
Proof. vm_compute. done. Qed.

(** The millionth invoice sorts before the others. *)
Example millionth_invoice_first :
  map b_Number (B2B (BuildReturn demo_string (MkPeriod 2026 1) isp
    (map (fun id => MkInvoiceRow id (2026, 1, 1) "x" "29AAAAA0000A1Z5" "KA" no_amounts) [999999; 1000000]) [])) =
  ["INV-1000000"; "INV-999999"]%string.
Proof. vm_compute. done. Qed.
End Gstr1.
