(* ===== verification/Archive.v ===== *)
(** * internal/archive and db/archive.go: documents kept and purged

    The local store over a file system of directories and files, the archiver
    with its retention policy, the [document_archives] table (migration 034)
    and the retention sweep. Paths are the ones of path/filepath on Unix; every
    call the operating system can refuse is an argument, a crash is a write cut
    short after any of its steps, and SHA-256 is a function of the contents. *)

From S2P Require Import Prelude GoStrings Dates Json.
From stdpp Require Import sorting.
From Stdlib Require Import Ascii.

Local Open Scope Z_scope.

(** ** path.Clean, path.Join and path/filepath's Dir *)

Module Path.

Definition slash : ascii := "/".
Definition sep : string := "/".

Fixpoint join (segs : list string) : string :=
  match segs with
  | [] => EmptyString
  | x :: segs => match segs with [] => x | _ :: _ => x +:+ sep +:+ join segs end
  end.

(** The segments kept so far, the last first. *)
Definition clean_step (rooted : bool) (kept : list string) (seg : string) : list string :=
  if String.eqb seg EmptyString || String.eqb seg "." then kept
  else if String.eqb seg ".." then
    match kept with
    | [] => if rooted then [] else [seg]
    | top :: rest => if String.eqb top ".." then seg :: kept else rest
    end
  else seg :: kept.

Definition clean_segments (rooted : bool) (segs : list string) : list string :=
  rev (foldl (clean_step rooted) [] segs).

Definition is_rooted (p : string) : bool :=
  match p with String c _ => Ascii.eqb c slash | EmptyString => false end.

Definition Clean (p : string) : string :=
  let segs := clean_segments (is_rooted p) (split_on slash p) in
  if is_rooted p then sep +:+ join segs
  else match segs with [] => "."%string | _ :: _ => join segs end.

Definition nonempty (s : string) : bool := negb (String.eqb s EmptyString).

Definition Join (elems : list string) : string :=
  match List.filter nonempty elems with [] => EmptyString | l => Clean (join l) end.

Definition Dir (p : string) : string :=
  match removelast (split_on slash p) with [] => "."%string | segs => Clean (join segs +:+ sep) end.

(** *** Facts *)

Definition no_slash : string -> bool := string_forall (fun c => negb (Ascii.eqb c slash)).

(** A segment [Clean] keeps as it is. *)
Definition plain (seg : string) : bool :=
  nonempty seg && negb (String.eqb seg ".") && negb (String.eqb seg "..") && no_slash seg.


Lemma split_plain s : no_slash s = true -> split_on slash s = [s].
Proof.
  unfold no_slash. induction s as [| c s IH]; [done |]. cbn [string_forall split_on].
  intros [Hc Hs]%andb_true_iff. apply negb_true_iff in Hc. by rewrite Hc, IH.
Qed.

Lemma split_app_slash s t :
  no_slash s = true -> split_on slash (s +:+ String slash t) = s :: split_on slash t.
Proof.
  unfold no_slash. induction s as [| c s IH]; intros Hs.
  - change (EmptyString +:+ String slash t) with (String slash t). reflexivity.
  - cbn [string_forall] in Hs. apply andb_true_iff in Hs as [Hc Hs]. apply negb_true_iff in Hc.
    change (String c s +:+ String slash t) with (String c (s +:+ String slash t)).
    cbn [split_on]. by rewrite Hc, IH.
Qed.

Lemma split_join segs :
  segs <> [] -> Forall (fun s => no_slash s = true) segs -> split_on slash (join segs) = segs.
Proof.
  induction segs as [| x segs IH]; [done |]. intros _ [Hx Hs]%Forall_cons. cbn [join].
  destruct segs as [| y segs]; [by apply split_plain |].
  change (x +:+ sep +:+ join (y :: segs)) with (x +:+ String slash (join (y :: segs))).
  rewrite split_app_slash by done. by rewrite IH.
Qed.

Lemma clean_plain seg kept rooted : plain seg = true -> clean_step rooted kept seg = seg :: kept.
Proof.
  unfold plain, nonempty, clean_step. intros [[[H1 H2]%andb_true_iff H3]%andb_true_iff _]%andb_true_iff.
  apply negb_true_iff in H1, H2, H3. by rewrite H1, H2, H3.
Qed.

Lemma fold_plain rooted segs kept :
  Forall (fun s => plain s = true) segs -> foldl (clean_step rooted) kept segs = rev segs ++ kept.
Proof.
  revert kept. induction segs as [| x segs IH]; intros kept Hs; [done |]. apply Forall_cons in Hs as [Hx Hs].
  cbn [foldl rev]. rewrite clean_plain, IH by done. by rewrite <- app_assoc.
Qed.

Lemma clean_segments_plain rooted segs :
  Forall (fun s => plain s = true) segs -> clean_segments rooted segs = segs.
Proof. intros Hs. unfold clean_segments. by rewrite fold_plain, app_nil_r, rev_involutive. Qed.

Lemma is_rooted_slash s t : is_rooted ((sep +:+ s) +:+ t) = true.
Proof. done. Qed.




Lemma plain_no_slash segs :
  Forall (fun s => plain s = true) segs -> Forall (fun s => no_slash s = true) segs.
Proof. intros Hs. eapply Forall_impl; [exact Hs |]. intros s. unfold plain. by intros [_ ?]%andb_true_iff. Qed.

(** The canonical form of a rooted path, and what [Clean] makes of it. *)
Definition canonical (p : string) : Prop :=
  exists segs, p = sep +:+ join segs /\ Forall (fun s => plain s = true) segs.

Lemma canonical_segments segs :
  Forall (fun s => plain s = true) segs ->
  clean_segments true (split_on slash (sep +:+ join segs)) = segs.
Proof.
  intros Hs. change (sep +:+ join segs) with (String slash (join segs)).
  change (split_on slash (String slash (join segs))) with (EmptyString :: split_on slash (join segs)).
  unfold clean_segments. cbn [foldl]. change (clean_step true [] EmptyString) with (@nil string).
  destruct segs as [| x segs]; [done |]. rewrite split_join; [| done | by apply plain_no_slash].
  by apply clean_segments_plain.
Qed.

Lemma Clean_canonical p : canonical p -> Clean p = p.
Proof.
  intros (segs & -> & Hs). unfold Clean.
  replace (is_rooted (sep +:+ join segs)) with true by reflexivity. by rewrite canonical_segments.
Qed.


Lemma split_nonempty s : split_on slash s <> [].
Proof.
  destruct s as [| c s]; [done |]. cbn [split_on]. destruct (Ascii.eqb c slash); [done |].
  by destruct (split_on slash s).
Qed.

Lemma split_app a t : split_on slash (a +:+ String slash t) = split_on slash a ++ split_on slash t.
Proof.
  induction a as [| c a IH]; [reflexivity |].
  change (String c a +:+ String slash t) with (String c (a +:+ String slash t)). cbn [split_on]. rewrite IH.
  destruct (Ascii.eqb c slash); [done |]. pose proof (split_nonempty a). by destruct (split_on slash a).
Qed.

Lemma split_rooted segs :
  segs <> [] -> Forall (fun s => plain s = true) segs -> split_on slash (sep +:+ join segs) = EmptyString :: segs.
Proof.
  intros Hne Hs. change (sep +:+ join segs) with (String slash (join segs)).
  change (split_on slash (String slash (join segs))) with (EmptyString :: split_on slash (join segs)).
  by rewrite split_join by (try done; by apply plain_no_slash).
Qed.

Lemma join_snoc segs x : segs <> [] -> join (segs ++ [x]) = join segs +:+ sep +:+ x.
Proof.
  induction segs as [| y segs IH]; [done |]. intros _. cbn [app join]. destruct segs as [| z segs]; [done |].
  change ((z :: segs) ++ [x]) with (z :: segs ++ [x]). cbn iota. change (z :: segs ++ [x]) with ((z :: segs) ++ [x]).
  rewrite IH by done. by rewrite !string_app_assoc.
Qed.

Lemma join_app a b : a <> [] -> b <> [] -> join (a ++ b) = join a +:+ sep +:+ join b.
Proof.
  induction a as [| x a IH]; [done |]. intros _ Hb. destruct a as [| y a].
  - cbn [app join]. by destruct b.
  - change ((x :: y :: a) ++ b) with (x :: (y :: a) ++ b). change (join (x :: y :: a)) with (x +:+ sep +:+ join (y :: a)).
    rewrite !string_app_assoc. rewrite <- IH by done. done.
Qed.

Lemma join_length x segs : plain x = true -> (0 < String.length (join (x :: segs)))%nat.
Proof.
  intros Hx. destruct x as [| c x]; [by vm_compute in Hx |]. destruct segs as [| y segs]; cbn [join].
  - cbn [String.length]. lia.
  - rewrite string_app_length. cbn [String.length]. lia.
Qed.

Lemma join_inj a b :
  a <> [] -> b <> [] -> Forall (fun s => plain s = true) a -> Forall (fun s => plain s = true) b ->
  join a = join b -> a = b.
Proof.
  intros Ha Hb Pa Pb E. rewrite <- (split_join a), <- (split_join b) by (try done; by apply plain_no_slash).
  by rewrite E.
Qed.

Lemma plain_first segs :
  Forall (fun s => plain s = true) segs -> is_rooted (join segs) = false.
Proof.
  intros Hs. destruct segs as [| x segs]; [done |]. apply Forall_cons in Hs as [Hx _].
  destruct x as [| c x]; [by vm_compute in Hx |]. unfold plain, no_slash in Hx. apply andb_true_iff in Hx as [_ Hx].
  cbn [string_forall] in Hx. apply andb_true_iff in Hx as [Hc _]. apply negb_true_iff in Hc.
  by destruct segs; cbn [join]; cbn.
Qed.

Lemma Clean_plain segs : segs <> [] -> Forall (fun s => plain s = true) segs -> Clean (join segs) = join segs.
Proof.
  intros Hne Hs. unfold Clean. rewrite plain_first, split_join, clean_segments_plain by (try done; by apply plain_no_slash).
  by destruct segs.
Qed.

Lemma removelast_snoc {A} (l : list A) x : removelast (l ++ [x]) = l.
Proof. rewrite removelast_app by done. apply app_nil_r. Qed.

Lemma Dir_snoc segs x :
  segs <> [] -> Forall (fun s => plain s = true) (segs ++ [x]) -> Dir (sep +:+ join (segs ++ [x])) = sep +:+ join segs.
Proof.
  intros Hne Hs. unfold Dir. rewrite split_rooted by (try done; by destruct segs).
  change (EmptyString :: segs ++ [x]) with ((EmptyString :: segs) ++ [x]). rewrite removelast_snoc.
  apply Forall_app in Hs as [Hs _]. destruct segs as [| y segs]; [done |]. cbn iota.
  change (join (EmptyString :: y :: segs) +:+ sep) with ((sep +:+ join (y :: segs)) +:+ String slash EmptyString).
  remember (y :: segs) as l. unfold Clean. rewrite is_rooted_slash, split_app, split_rooted by done.
  change (split_on slash EmptyString) with [EmptyString]. unfold clean_segments. rewrite foldl_app.
  cbn [foldl]. change (clean_step true [] EmptyString) with (@nil string). rewrite fold_plain by done.
  unfold clean_step. cbn [String.eqb orb]. by rewrite app_nil_r, rev_involutive.
Qed.

Lemma numeral_plain s : string_forall numeral_char s = true -> s <> EmptyString -> plain s = true.
Proof.
  intros Hs Hne. unfold plain, nonempty. rewrite (proj2 (String.eqb_neq s EmptyString)) by done. cbn [negb andb].
  assert (no_slash s = true) as ->.
  { eapply string_forall_impl; [| exact Hs]. intros c. by destruct c as [[] [] [] [] [] [] [] []]. }
  destruct (String.eqb_spec s ".") as [-> |]; [by vm_compute in Hs |].
  by destruct (String.eqb_spec s "..") as [-> |]; [vm_compute in Hs |].
Qed.


End Path.

(** ** internal/archive *)

Module Archive.
Import Path Dates.

Definition KindInvoice : string := "invoice".
Definition KindKYC : string := "kyc_document".
Definition KindReport : string := "report".

Definition BackendLocal : string := "local".
Definition BackendS3 : string := "s3".
Definition BackendSFTP : string := "sftp".

Definition ValidKind (kind : string) : bool :=
  String.eqb kind KindInvoice || String.eqb kind KindKYC || String.eqb kind KindReport.

(** *** The file system *)

Record FS : Type := MkFS { files : gmap string (list Z); dirs : gset string }.

Definition with_files (f : gmap string (list Z) -> gmap string (list Z)) (fs : FS) : FS :=
  MkFS (f (files fs)) (dirs fs).

(** The calls [Put] makes, each of which may be refused. *)
Inductive call : Type := CallMkdir | CallTemp | CallChmod | CallWrite | CallSync | CallClose | CallRename.

#[global] Instance call_eq_dec : EqDecision call.
Proof. solve_decision. Defined.

Inductive error : Type :=
  | ErrKey | ErrURL | ErrSystem | ErrEmpty | ErrRead | ErrNotExist
  | ErrKind | ErrEntity | ErrNoContent | ErrChecksumMismatch (want got : string) | ErrDatabase | ErrCancelled.

Fixpoint ancestors_from (base : string) (segs : list string) : list string :=
  match segs with
  | [] => []
  | x :: segs => let d := base +:+ sep +:+ x in d :: ancestors_from d segs
  end.

(** A rooted path and the directories above it. *)
Definition ancestors (p : string) : list string :=
  sep :: ancestors_from EmptyString (List.filter nonempty (split_on slash p)).

Definition MkdirAll (d : string) (fs : FS) : result error FS :=
  if existsb (fun a => bool_decide (is_Some (files fs !! a))) (ancestors d) then Err ErrSystem
  else Ok (MkFS (files fs) (list_to_set (ancestors d) ∪ dirs fs)).

(** [os.CreateTemp] takes a name nobody has. *)
Definition CreateTemp (tmp : string) (fs : FS) : result error FS :=
  if bool_decide (is_Some (files fs !! tmp)) || bool_decide (tmp ∈ dirs fs) then Err ErrSystem
  else Ok (with_files (<[tmp := []]>) fs).

Definition append (p : string) (chunk : list Z) (fs : FS) : result error FS :=
  Ok (with_files (alter (fun b => b ++ chunk) p) fs).

Definition Rename (old new : string) (fs : FS) : result error FS :=
  match files fs !! old with
  | None => Err ErrSystem
  | Some b =>
      if bool_decide (new ∈ dirs fs) then Err ErrSystem
      else Ok (with_files (fun m => <[new := b]> (delete old m)) fs)
  end.

(** [os.Remove]: a file, or a directory with nothing in it. *)
Definition occupied (d : string) (fs : FS) : bool :=
  existsb (fun p => String.prefix (d +:+ sep) p) ((map_to_list (files fs)).*1 ++ elements (dirs fs)).

Definition Remove (p : string) (fs : FS) : result error FS :=
  match files fs !! p with
  | Some _ => Ok (with_files (delete p) fs)
  | None =>
      if bool_decide (p ∈ dirs fs) then
        if occupied p fs then Err ErrSystem else Ok (MkFS (files fs) (dirs fs ∖ {[p]}))
      else Err ErrNotExist
  end.

(** *** LocalStore *)

(** What an [io.Reader] gives: its chunks, then the end or an error, which is
    also what a cancelled context makes of it. *)
Record Reader : Type := MkReader { chunks : list (list Z); broken : bool }.

Definition contents (r : Reader) : list Z := mjoin (chunks r).

Record PutResult : Type := MkPut { URL : string; SizeBytes : Z; ChecksumSHA256 : string }.

Definition inside (root p : string) : bool := String.eqb p root || String.prefix (root +:+ sep) p.

Definition safePath (root key : string) : result error string :=
  if String.eqb key EmptyString then Err ErrKey
  else
    let clean := Clean (Join [root; key]) in
    if inside root clean then Ok clean else Err ErrKey.

Definition scheme : string := "file://".

(** [strings.CutPrefix]: what follows the prefix, where there is one. *)
Fixpoint after_prefix (pre s : string) : option string :=
  match pre, s with
  | EmptyString, _ => Some s
  | String a pre, String b s => if Ascii.eqb a b then after_prefix pre s else None
  | String _ _, EmptyString => None
  end.

Definition pathFromURL (root url : string) : result error string :=
  match after_prefix scheme url with
  | None => Err ErrURL
  | Some path => let clean := Clean path in if inside root clean then Ok clean else Err ErrURL
  end.

Definition temp_path (rel rand : string) : string :=
  let d := Dir rel in
  let name := ".partial-" +:+ rand in
  if String.eqb d sep then d +:+ name else d +:+ sep +:+ name.

(** One step of [Put]: a call that may be refused, then its effect. *)
Definition step : Type := FS -> result error FS.

Definition call_ (fault : option call) (c : call) (f : step) : step :=
  fun fs => if bool_decide (fault = Some c) then Err ErrSystem else f fs.

Definition opening (fault : option call) (rel tmp : string) : list step :=
  [call_ fault CallMkdir (MkdirAll (Dir rel)); call_ fault CallTemp (CreateTemp tmp)].

Definition writing (fault : option call) (rel tmp : string) (r : Reader) : list step :=
  call_ fault CallChmod Ok ::
  map (fun chunk => call_ fault CallWrite (append tmp chunk)) (chunks r) ++
  [(fun fs => if broken r then Err ErrRead else Ok fs);
   (fun fs => match contents r with [] => Err ErrEmpty | _ :: _ => Ok fs end);
   call_ fault CallSync Ok; call_ fault CallClose Ok; call_ fault CallRename (Rename tmp rel)].

(** Steps in order, up to the first that fails. *)
Fixpoint run (steps : list step) (fs : FS) : option error * FS :=
  match steps with
  | [] => (None, fs)
  | f :: steps => match f fs with Ok fs' => run steps fs' | Err e => (Some e, fs) end
  end.

(** The deferred clean-up, whose own failure is ignored. *)
Definition discard (tmp : string) (fs : FS) : FS := match Remove tmp fs with Ok fs' => fs' | Err _ => fs end.

Section Store.
Context (sha256_hex : list Z -> string).

Definition Put (root rand : string) (fault : option call) (key : string) (r : Reader) (fs : FS) :
    result error PutResult * FS :=
  match safePath root key with
  | Err e => (Err e, fs)
  | Ok rel =>
      let tmp := temp_path rel rand in
      match run (opening fault rel tmp) fs with
      | (Some e, fs1) => (Err e, fs1)
      | (None, fs1) =>
          let '(failed, fs2) := run (writing fault rel tmp r) fs1 in
          (match failed with
           | Some e => Err e
           | None => Ok (MkPut (scheme +:+ rel) (Z.of_nat (length (contents r))) (sha256_hex (contents r)))
           end, discard tmp fs2)
      end
  end.

(** A process that dies after [n] steps of [Put] runs no clean-up. *)
Definition crashed_Put (n : nat) (root rand : string) (fault : option call) (key : string) (r : Reader) (fs : FS) : FS :=
  match safePath root key with
  | Err _ => fs
  | Ok rel => let tmp := temp_path rel rand in (run (take n (opening fault rel tmp ++ writing fault rel tmp r)) fs).2
  end.

Definition Get (root : string) (up : bool) (url : string) (fs : FS) : result error (list Z) :=
  match pathFromURL root url with
  | Err e => Err e
  | Ok path =>
      match files fs !! path with
      | Some b => if up then Ok b else Err ErrSystem
      | None => Err (if bool_decide (path ∈ dirs fs) then ErrRead else ErrNotExist)
      end
  end.

Definition Delete (root : string) (up : bool) (url : string) (fs : FS) : result error FS :=
  match pathFromURL root url with
  | Err e => Err e
  | Ok path =>
      if negb up then Err ErrSystem
      else match Remove path fs with
           | Ok fs' => Ok fs'
           | Err ErrNotExist => Ok fs
           | Err e => Err e
           end
  end.

End Store.

(** *** Names and dates *)

(** The bytes of the rune a string starts with: a valid UTF-8 sequence, or one
    byte. *)
Definition rune_width (s : string) : nat :=
  match bytes_of_string s with
  | a :: b :: c :: d :: _ =>
      if utf8 [a] then 1%nat else if utf8 [a; b] then 2%nat else if utf8 [a; b; c] then 3%nat
      else if utf8 [a; b; c; d] then 4%nat else 1%nat
  | [a; b; c] => if utf8 [a] then 1%nat else if utf8 [a; b] then 2%nat else if utf8 [a; b; c] then 3%nat else 1%nat
  | [a; b] => if utf8 [a] then 1%nat else if utf8 [a; b] then 2%nat else 1%nat
  | _ => 1%nat
  end.

Definition file_char (c : ascii) : bool :=
  in_range 97 122 c || in_range 65 90 c || in_range 48 57 c ||
  Ascii.eqb c "-" || Ascii.eqb c "_" || Ascii.eqb c ".".

(** One underscore for each rune outside the alphabet; [skip] bytes of the
    current rune are still to come. *)
Fixpoint cleaned (skip : nat) (s : string) : string :=
  match s with
  | EmptyString => EmptyString
  | String c rest =>
      match skip with
      | S skip => cleaned skip rest
      | O =>
          if file_char c then String c (cleaned 0 rest)
          else String "_" (cleaned (rune_width s - 1) rest)
      end
  end.

Definition separator (c : ascii) : bool := Ascii.eqb c "/" || Ascii.eqb c "\".

(** What follows the last separator. *)
Fixpoint base_name (s : string) : string :=
  match s with
  | EmptyString => EmptyString
  | String c rest => if string_forall (fun c => negb (separator c)) s then s else base_name rest
  end.

Fixpoint trim_dots (s : string) : string :=
  match s with String c rest => if Ascii.eqb c "." then trim_dots rest else s | EmptyString => EmptyString end.

Definition sanitiseFilename (name : string) : string :=
  limited 100 (trim_dots (cleaned 0 (base_name (trim_space name)))).

Record Document : Type := MkDocument { Kind : string; EntityID : Z; Filename : string; Body : option Reader }.

Definition storageKey (doc : Document) (now : Z) : string :=
  let name := sanitiseFilename (Filename doc) in
  let name := if String.eqb name EmptyString then Kind doc else name in
  let '(y, m, _) := civil (now / day) in
  Join [Kind doc; padded 4 y; padded 2 m; format_int (EntityID doc) +:+ "-" +:+ name].

Record Retention : Type := MkRetention { Years : Z; Months : Z; Days : Z }.

Definition IsZero (r : Retention) : bool := (Years r =? 0) && (Months r =? 0) && (Days r =? 0).

Definition RetentionPolicy : Type := gmap string Retention.

Definition DefaultRetention : RetentionPolicy :=
  <[KindInvoice := MkRetention 8 0 0]> (<[KindKYC := MkRetention 5 0 0]> (<[KindReport := MkRetention 1 0 0]> ∅)).

Definition RetainUntil (p : RetentionPolicy) (kind : string) (now : Z) : option Z :=
  match p !! kind with
  | Some r => if IsZero r then None else Some (add_date now (Years r) (Months r) (Days r))
  | None => None
  end.

(** *** db/archive.go: document_archives *)

Record Record_ : Type := MkRecord {
  DocKind : string;
  RecEntity : Z;
  StorageBackend : string;
  StorageURL : string;
  Checksum : string;
  RecSize : Z;
  ArchivedAt : Z;
  RetainUntil_ : option Z;
  PurgedAt : option Z
}.

Record table : Type := MkTable { rows : gmap Z Record_; next_id : Z }.

Definition live (r : Record_) : bool := bool_decide (PurgedAt r = None).

(** The partial unique index: one live row per document and backend. *)
Definition same_document (kind : string) (entity : Z) (backend : string) (r : Record_) : bool :=
  live r && String.eqb (DocKind r) kind && (RecEntity r =? entity) && String.eqb (StorageBackend r) backend.

Definition live_row (kind : string) (entity : Z) (backend : string) (t : table) : option (Z * Record_) :=
  head (List.filter (fun p => same_document kind entity backend p.2) (map_to_list (rows t))).

Definition backend_ok (b : string) : bool :=
  String.eqb b BackendS3 || String.eqb b BackendSFTP || String.eqb b BackendLocal.

Definition int4 (z : Z) : bool := (- 2 ^ 31 <=? z) && (z <=? 2 ^ 31 - 1).

Definition row_ok (r : Record_) : bool :=
  ValidKind (DocKind r) && int4 (RecEntity r) && backend_ok (StorageBackend r) && (0 <? RecSize r).

(** The upsert; the sequence moves on a conflict and on a refused row too. *)
Definition RecordArchive (up : bool) (r : Record_) (t : table) : result error Z * table :=
  if negb up then (Err ErrDatabase, t)
  else if negb (row_ok r) then (Err ErrDatabase, MkTable (rows t) (next_id t + 1))
  else
    match live_row (DocKind r) (RecEntity r) (StorageBackend r) t with
    | Some (id, _) => (Ok id, MkTable (<[id := r]> (rows t)) (next_id t + 1))
    | None => (Ok (next_id t), MkTable (<[next_id t := r]> (rows t)) (next_id t + 1))
    end.

Definition due_at (now : Z) (r : Record_) : bool :=
  live r && match RetainUntil_ r with Some d => d <=? now | None => false end.

Definition oldest_first (a b : Z * Record_) : Prop := default 0 (RetainUntil_ a.2) <= default 0 (RetainUntil_ b.2).

#[global] Instance oldest_first_dec : RelDecision oldest_first.
Proof. intros a b. unfold oldest_first. apply _. Defined.

Definition purge_limit (limit : Z) : Z := if (limit <=? 0) || (1000 <? limit) then 200 else limit.

Definition ListDueForPurge (up : bool) (now limit : Z) (t : table) : result error (list (Z * Record_)) :=
  if up then
    Ok (take (Z.to_nat (purge_limit limit))
          (merge_sort oldest_first (List.filter (fun p => due_at now p.2) (map_to_list (rows t)))))
  else Err ErrDatabase.

Definition purged (now : Z) (r : Record_) : Record_ :=
  MkRecord (DocKind r) (RecEntity r) (StorageBackend r) (StorageURL r) (Checksum r) (RecSize r)
    (ArchivedAt r) (RetainUntil_ r) (Some now).

(** [chk_archive_not_purged_before_retention] *)
Definition retention_over (now : Z) (r : Record_) : bool :=
  match RetainUntil_ r with Some d => d <=? now | None => true end.

Definition MarkPurged (up : bool) (now id : Z) (t : table) : result error bool * table :=
  if negb up then (Err ErrDatabase, t)
  else
    match rows t !! id with
    | Some r =>
        if negb (live r) then (Ok false, t)
        else if negb (retention_over now r) then (Err ErrDatabase, t)
        else (Ok true, MkTable (<[id := purged now r]> (rows t)) (next_id t))
    | None => (Ok false, t)
    end.

Definition newest_first (a b : Z * Record_) : Prop := ArchivedAt b.2 <= ArchivedAt a.2.

#[global] Instance newest_first_dec : RelDecision newest_first.
Proof. intros a b. unfold newest_first. apply _. Defined.

Definition GetArchive (up : bool) (kind : string) (entity : Z) (t : table) : result error (option (Z * Record_)) :=
  if up then
    Ok (head (merge_sort newest_first
          (List.filter (fun p => live p.2 && String.eqb (DocKind p.2) kind && (RecEntity p.2 =? entity))
             (map_to_list (rows t)))))
  else Err ErrDatabase.

(** *** The archiver and the purge scanner *)

Record World : Type := MkWorld { disk : FS; archives : table }.

Section Archiver.
Context (sha256_hex : list Z -> string) (root : string).

(** The bytes first, then the row. *)
Definition Archive (policy : RetentionPolicy) (now : Z) (rand : string) (fault : option call) (db_up : bool)
    (doc : Document) (w : World) : result error (Z * Record_) * World :=
  if negb (ValidKind (Kind doc)) then (Err ErrKind, w)
  else if EntityID doc <=? 0 then (Err ErrEntity, w)
  else
    match Body doc with
    | None => (Err ErrNoContent, w)
    | Some body =>
        let '(put, fs) := Put sha256_hex root rand fault (storageKey doc now) body (disk w) in
        match put with
        | Err e => (Err e, MkWorld fs (archives w))
        | Ok put =>
            let rec := MkRecord (Kind doc) (EntityID doc) BackendLocal (URL put) (ChecksumSHA256 put)
                         (SizeBytes put) now (RetainUntil policy (Kind doc) now) None in
            let '(id, t) := RecordArchive db_up rec (archives w) in
            (match id with Ok id => Ok (id, rec) | Err e => Err e end, MkWorld fs t)
        end
    end.

Definition ArchiveReport (policy : RetentionPolicy) (now : Z) (rand : string) (fault : option call) (db_up : bool)
    (entityID : Z) (filename : string) (body : list Z) (w : World) : result error string * World :=
  let '(r, w) := Archive policy now rand fault db_up
                   (MkDocument KindReport entityID filename (Some (MkReader [body] false))) w in
  (match r with Ok (_, rec) => Ok (StorageURL rec) | Err e => Err e end, w).

Definition Retrieve (up : bool) (rec : Record_) (fs : FS) : result error (list Z) :=
  match Get root up (StorageURL rec) fs with
  | Err e => Err e
  | Ok body =>
      let got := sha256_hex body in
      if String.eqb got (Checksum rec) then Ok body else Err (ErrChecksumMismatch (Checksum rec) got)
  end.

(** The body, where the document has a live row. *)
Definition RetrieveLatest (db_up up : bool) (docKind : string) (entityID : Z) (w : World) :
    result error (option (list Z * (Z * Record_))) :=
  match GetArchive db_up docKind entityID (archives w) with
  | Err e => Err e
  | Ok None => Ok None
  | Ok (Some (id, rec)) =>
      match Retrieve up rec (disk w) with
      | Err e => Err e
      | Ok body => Ok (Some (body, (id, rec)))
      end
  end.

Definition defaultPurgeBatch : Z := 200.

Definition SetBatchSize (n batch : Z) : Z := if 0 <? n then n else batch.

(** What can go wrong in a sweep: the listing, the deletes and the marks of
    some rows, and the shutdown that comes after some records. *)
Record Troubles : Type := MkTroubles {
  list_up : bool;
  delete_up : Z -> bool;
  mark_up : Z -> bool;
  cancelled_after : option nat
}.

Definition no_troubles : Troubles := MkTroubles true (fun _ => true) (fun _ => true) None.

(** One record: the file, then the mark. *)
Definition purge_one (now : Z) (tr : Troubles) (w : World) (p : Z * Record_) : World :=
  match Delete root (delete_up tr p.1) (StorageURL p.2) (disk w) with
  | Err _ => w
  | Ok fs => MkWorld fs (MarkPurged (mark_up tr p.1) now p.1 (archives w)).2
  end.

Definition PurgeOnce (now batch : Z) (tr : Troubles) (w : World) : option error * World :=
  match ListDueForPurge (list_up tr) now batch (archives w) with
  | Err e => (Some e, w)
  | Ok due =>
      match cancelled_after tr with
      | Some n =>
          if (n <? length due)%nat then (Some ErrCancelled, foldl (purge_one now tr) w (take n due))
          else (None, foldl (purge_one now tr) w due)
      | None => (None, foldl (purge_one now tr) w due)
      end
  end.

End Archiver.

(** ** Facts *)

Lemma prefix_spec a b : String.prefix a b = true <-> exists t, b = a +:+ t.
Proof.
  revert b. induction a as [| c a IH]; intros b.
  - split; [by exists b | by destruct b].
  - destruct b as [| d b]; cbn [String.prefix]; [split; [done | by intros [t Ht]] |].
    destruct (ascii_dec c d) as [<- | Hne].
    + rewrite IH. split; intros [t Ht]; exists t; [by rewrite Ht |].
      change (String c a +:+ t) with (String c (a +:+ t)) in Ht. by injection Ht.
    + split; [done |]. intros [t Ht]. change (String c a +:+ t) with (String c (a +:+ t)) in Ht. by injection Ht.
Qed.

Lemma inside_spec root p : inside root p = true <-> p = root \/ exists t, p = root +:+ sep +:+ t.
Proof.
  unfold inside. rewrite orb_true_iff, String.eqb_eq, prefix_spec. split; intros [? | [t Ht]]; auto; right; exists t.
  - by rewrite string_app_assoc in Ht.
  - by rewrite string_app_assoc.
Qed.

(** *** What the steps of a write touch *)

Definition touches (tmp : string) (f : step) : Prop :=
  forall fs fs' p, f fs = Ok fs' -> p <> tmp -> files fs' !! p = files fs !! p.

Lemma call_touches tmp fault c f : touches tmp f -> touches tmp (call_ fault c f).
Proof. intros Hf fs fs' p. unfold call_. case_bool_decide; [done | apply Hf]. Qed.

Lemma append_touches tmp chunk : touches tmp (append tmp chunk).
Proof. intros fs fs' p [= <-] Hp. cbn. by rewrite lookup_alter_ne. Qed.

Lemma still_touches tmp : touches tmp Ok.
Proof. by intros fs fs' p [= <-]. Qed.

Lemma mkdir_touches tmp d : touches tmp (MkdirAll d).
Proof. intros fs fs' p. unfold MkdirAll. destruct (existsb _ _); [done |]. by intros [= <-]. Qed.

Lemma temp_touches tmp : touches tmp (CreateTemp tmp).
Proof. intros fs fs' p. unfold CreateTemp. destruct (_ || _); [done |]. intros [= <-] Hp. cbn. by rewrite lookup_insert_ne. Qed.

#[local] Hint Resolve call_touches append_touches still_touches mkdir_touches temp_touches : archive.

Lemma run_touches tmp steps fs p :
  Forall (touches tmp) steps -> p <> tmp -> files (run steps fs).2 !! p = files fs !! p.
Proof.
  intros Hs Hp. revert fs. induction Hs as [| f steps Hf Hs IH]; intros fs; [done |]. cbn [run].
  destruct (f fs) as [fs' |] eqn:E; [| done]. by rewrite IH, (Hf fs fs' p).
Qed.

Lemma run_app s1 s2 fs :
  run (s1 ++ s2) fs = match run s1 fs with (None, fs') => run s2 fs' | r => r end.
Proof. revert fs. induction s1 as [| f s1 IH]; intros fs; [done |]. cbn [app run]. by destruct (f fs). Qed.

(** The steps of a write before the rename. *)
Definition preparing (fault : option call) (tmp : string) (r : Reader) : list step :=
  call_ fault CallChmod Ok ::
  map (fun chunk => call_ fault CallWrite (append tmp chunk)) (chunks r) ++
  [(fun fs => if broken r then Err ErrRead else Ok fs);
   (fun fs => match contents r with [] => Err ErrEmpty | _ :: _ => Ok fs end);
   call_ fault CallSync Ok; call_ fault CallClose Ok].

Lemma writing_split fault rel tmp r :
  writing fault rel tmp r = preparing fault tmp r ++ [call_ fault CallRename (Rename tmp rel)].
Proof. unfold writing, preparing. cbn [app]. by rewrite <- app_assoc. Qed.

Lemma preparing_touches fault tmp r : Forall (touches tmp) (preparing fault tmp r).
Proof.
  unfold preparing. constructor; [auto with archive |]. apply Forall_app. split.
  - apply Forall_forall. intros f (chunk & <- & _)%list_elem_of_In%in_map_iff. auto with archive.
  - repeat constructor; try (by auto with archive); intros fs fs' p; [destruct (broken r) | destruct (contents r)];
      [done | by intros [= <-] | done | by intros [= <-]].
Qed.

Lemma opening_touches fault rel tmp : Forall (touches tmp) (opening fault rel tmp).
Proof. unfold opening. repeat constructor; auto with archive. Qed.

(** What is in the temporary file, and that nothing else changes. *)
Lemma run_chunks fault tmp m b l fs :
  files fs = <[tmp := b]> m ->
  match run (map (fun chunk => call_ fault CallWrite (append tmp chunk)) l) fs with
  | (None, fs') => files fs' = <[tmp := b ++ mjoin l]> m /\ dirs fs' = dirs fs
  | (Some _, fs') => exists b', files fs' = <[tmp := b']> m /\ dirs fs' = dirs fs
  end.
Proof.
  revert b fs. induction l as [| chunk l IH]; intros b fs Hf.
  { cbn. by rewrite app_nil_r. }
  cbn [map run]. unfold call_ at 1. case_bool_decide; [by exists b |].
  unfold append at 1. specialize (IH (b ++ chunk) (with_files (alter (fun b => b ++ chunk) tmp) fs)).
  assert (files (with_files (alter (fun b => b ++ chunk) tmp) fs) = <[tmp := b ++ chunk]> m) as E.
  { cbn. by rewrite Hf, alter_insert_eq. }
  specialize (IH E). change (dirs (with_files (alter (fun b => b ++ chunk) tmp) fs)) with (dirs fs) in IH.
  change (mjoin (chunk :: l)) with (chunk ++ mjoin l). rewrite app_assoc. exact IH.
Qed.

(** Every way out of [preparing] leaves the temporary file only. *)
Lemma run_preparing fault tmp m r fs :
  files fs = <[tmp := []]> m ->
  match run (preparing fault tmp r) fs with
  | (None, fs') => files fs' = <[tmp := contents r]> m /\ dirs fs' = dirs fs /\ contents r <> []
  | (Some _, fs') => exists b, files fs' = <[tmp := b]> m /\ dirs fs' = dirs fs
  end.
Proof.
  intros Hf. unfold preparing. cbn [run]. unfold call_ at 1. case_bool_decide; [by exists [] |].
  rewrite run_app. pose proof (run_chunks fault tmp m [] (chunks r) fs Hf) as Hc.
  destruct (run _ fs) as [[e |] fs']; [exact Hc |]. destruct Hc as [Hc Hd].
  cbn [run]. destruct (broken r); [by eexists |]. destruct (contents r) as [| z b] eqn:Hb; [by eexists |].
  unfold call_. case_bool_decide; [by eexists |]. case_bool_decide; [by eexists |].
  split_and!; [| done | done]. by rewrite Hc, <- Hb.
Qed.

Lemma discard_temp tmp m b fs : files fs = <[tmp := b]> m -> m !! tmp = None -> files (discard tmp fs) = m.
Proof.
  intros Hf Hm. unfold discard, Remove. rewrite Hf, lookup_insert_eq. cbn. by rewrite Hf, delete_insert_id.
Qed.

Lemma run_opening fault rel tmp fs :
  match run (opening fault rel tmp) fs with
  | (None, fs1) => files fs1 = <[tmp := []]> (files fs) /\ files fs !! tmp = None
  | (Some _, fs1) => files fs1 = files fs
  end.
Proof.
  unfold opening. cbn [run]. unfold call_. case_bool_decide; [done |]. unfold MkdirAll.
  destruct (existsb _ _); [done |]. case_bool_decide; [done |]. unfold CreateTemp. cbn [files dirs].
  destruct (bool_decide (is_Some _)) eqn:Ht; [done |]. destruct (bool_decide (tmp ∈ _)); [done |].
  cbn. split; [done |]. apply bool_decide_eq_false in Ht. by rewrite <- eq_None_not_Some in Ht.
Qed.

(** The rename puts the contents under the key and takes the temporary name
    away. *)
Lemma Rename_files tmp rel m b fs fs' :
  files fs = <[tmp := b]> m -> m !! tmp = None -> Rename tmp rel fs = Ok fs' -> files fs' = <[rel := b]> m.
Proof.
  intros Hf Hm. unfold Rename. rewrite Hf, lookup_insert_eq. case_bool_decide; [done |].
  intros [= <-]. cbn. by rewrite Hf, delete_insert_id.
Qed.

Lemma discard_absent tmp fs : files fs !! tmp = None -> files (discard tmp fs) = files fs.
Proof.
  intros Hn. unfold discard, Remove. rewrite Hn. case_bool_decide; [| done]. by destruct (occupied _ _).
Qed.

Lemma discard_ne tmp fs p : p <> tmp -> files (discard tmp fs) !! p = files fs !! p.
Proof.
  intros Hp. unfold discard, Remove. destruct (files fs !! tmp); [cbn; by rewrite lookup_delete_ne |].
  case_bool_decide; [| done]. by destruct (occupied _ _).
Qed.

(** A write that fails leaves every file as it was; one that succeeds changes
    its own. *)
Lemma Put_files sha root rand fault key r fs :
  match Put sha root rand fault key r fs with
  | (Err _, fs') => files fs' = files fs
  | (Ok put, fs') => exists rel, safePath root key = Ok rel /\ URL put = scheme +:+ rel /\ contents r <> [] /\
      ChecksumSHA256 put = sha (contents r) /\ SizeBytes put = Z.of_nat (length (contents r)) /\
      (temp_path rel rand <> rel -> files fs' = <[rel := contents r]> (files fs)) /\
      (forall p, p <> rel -> files fs' !! p = files fs !! p)
  end.
Proof.
  unfold Put. destruct (safePath root key) as [rel |] eqn:Hs; [| done]. set (tmp := temp_path rel rand).
  pose proof (run_opening fault rel tmp fs) as Ho. destruct (run (opening _ _ _) fs) as [[e |] fs1]; [done |].
  destruct Ho as [Ho Ht]. pose proof (run_preparing fault tmp (files fs) r fs1 Ho) as Hp.
  rewrite writing_split, run_app. destruct (run (preparing fault tmp r) _) as [[e |] fs2].
  { destruct Hp as (b & Hb & _). by apply (discard_temp tmp _ b). }
  destruct Hp as (Hb & Hd & Hne). cbn [run]. unfold call_. case_bool_decide; [by apply (discard_temp tmp _ (contents r)) |].
  destruct (Rename tmp rel fs2) as [fs3 |] eqn:Hr; [| by apply (discard_temp tmp _ (contents r))].
  pose proof (Rename_files _ _ _ _ _ _ Hb Ht Hr) as Hf.
  assert (tmp <> rel -> files (discard tmp fs3) = <[rel := contents r]> (files fs)) as Hall.
  { intros Hne2. rewrite discard_absent; [done |]. by rewrite Hf, lookup_insert_ne. }
  exists rel. split_and!; try done. intros p Hp. destruct (decide (p = tmp)) as [-> | Hpt].
  - by rewrite Hall, lookup_insert_ne.
  - by rewrite discard_ne, Hf, lookup_insert_ne.
Qed.

(** Nothing stands where a document, its temporary file or a directory above
    them should go. *)
Definition clear_way (rel tmp : string) (fs : FS) : Prop :=
  Forall (fun a => files fs !! a = None) (ancestors (Dir rel)) /\
  files fs !! tmp = None /\ tmp ∉ dirs fs /\ tmp ∉ ancestors (Dir rel) /\ rel ∉ dirs fs /\ rel ∉ ancestors (Dir rel).

#[global] Instance clear_way_dec rel tmp fs : Decision (clear_way rel tmp fs).
Proof. unfold clear_way. apply _. Defined.

Lemma run_chunks_ok tmp l fs :
  exists fs', run (map (fun chunk => call_ None CallWrite (append tmp chunk)) l) fs = (None, fs').
Proof. revert fs. induction l as [| chunk l IH]; intros fs; [by exists fs |]. cbn [map run]. unfold call_ at 1. cbn. apply IH. Qed.

(** A write nothing refuses and nothing stands in the way of succeeds. *)
Lemma Put_succeeds sha root rand key r fs rel :
  safePath root key = Ok rel -> clear_way rel (temp_path rel rand) fs -> broken r = false -> contents r <> [] ->
  exists put fs', Put sha root rand None key r fs = (Ok put, fs').
Proof.
  intros Hs (Hanc & Ht & Htd & Hta & Hrd & Hra) Hb Hne. unfold Put. rewrite Hs. set (tmp := temp_path rel rand) in *.
  assert (exists fs1, run (opening None rel tmp) fs = (None, fs1) /\ files fs1 = <[tmp := []]> (files fs) /\ rel ∉ dirs fs1) as (fs1 & -> & Hf1 & Hd1).
  { unfold opening. cbn [run]. unfold call_ at 1. rewrite bool_decide_eq_false_2 by done. unfold MkdirAll.
    replace (existsb _ _) with false.
    2: { symmetry. apply not_true_iff_false. intros (a & Ha & Hx)%List.existsb_exists. apply bool_decide_eq_true in Hx as [b Hx].
         rewrite Forall_forall in Hanc. rewrite (Hanc a) in Hx by (by apply list_elem_of_In). done. }
    unfold call_ at 1. rewrite bool_decide_eq_false_2 by done. unfold CreateTemp. cbn [files dirs].
    rewrite Ht, (bool_decide_eq_false_2 (is_Some None)) by (by intros [? ?]).
    rewrite (bool_decide_eq_false_2 (tmp ∈ _)) by set_solver. cbn [orb]. eexists. split; [reflexivity |]. cbn. split; [done | set_solver]. }
  rewrite writing_split, run_app. pose proof (run_preparing None tmp (files fs) r fs1 Hf1) as Hp.
  assert (exists fs2, run (preparing None tmp r) fs1 = (None, fs2)) as [fs2 Hrun].
  { unfold preparing. cbn [run]. unfold call_ at 1. rewrite bool_decide_eq_false_2 by done. rewrite run_app.
    destruct (run_chunks_ok tmp (chunks r) fs1) as [fs2 ->]. cbn [run]. rewrite Hb.
    destruct (contents r); [done |]. unfold call_. rewrite !bool_decide_eq_false_2 by done. by eexists. }
  rewrite Hrun in Hp |- *. destruct Hp as (Hf2 & Hd2 & _). cbn [run]. unfold call_. rewrite bool_decide_eq_false_2 by done.
  unfold Rename. rewrite Hf2, lookup_insert_eq. rewrite bool_decide_eq_false_2 by (by rewrite Hd2). by eexists _, _.
Qed.

(** C31: A crash during an archival write, after any number of its steps, leaves
    every file either as it was or, for the document's own key, complete: no
    partial document is ever visible under a real name. *)
Theorem crash_leaves_whole_files n root rand fault key r fs rel p :
  safePath root key = Ok rel -> p <> temp_path rel rand ->
  let fs' := crashed_Put n root rand fault key r fs in
  files fs' !! p = files fs !! p \/ (p = rel /\ files fs' !! p = Some (contents r) /\ contents r <> []).
Proof.
  intros Hs Hp. unfold crashed_Put. rewrite Hs. cbv zeta. set (tmp := temp_path rel rand) in *.
  rewrite writing_split, app_assoc. set (pre := opening fault rel tmp ++ preparing fault tmp r).
  assert (Forall (touches tmp) pre) as Hpre by (apply Forall_app; split; [apply opening_touches | apply preparing_touches]).
  destruct (decide (n <= length pre)%nat) as [Hn | Hn].
  { left. rewrite take_app_le by done. apply (run_touches tmp); [by apply Forall_take | done]. }
  rewrite take_ge by (rewrite length_app; cbn [length]; lia). rewrite run_app. unfold pre. rewrite run_app.
  pose proof (run_opening fault rel tmp fs) as Ho.
  destruct (run (opening _ _ _) fs) as [[e |] fs1]; cbn [snd]; [left; by rewrite Ho |].
  destruct Ho as [Ho Ht]. pose proof (run_preparing fault tmp (files fs) r fs1 Ho) as Hq.
  destruct (run (preparing fault tmp r) _) as [[e |] fs2]; cbn [snd].
  { destruct Hq as (b & Hb & _). left. by rewrite Hb, lookup_insert_ne. }
  destruct Hq as (Hb & _ & Hne). cbn [run]. unfold call_. case_bool_decide; cbn [snd].
  { left. by rewrite Hb, lookup_insert_ne. }
  destruct (Rename tmp rel fs2) as [fs3 |] eqn:Hr; cbn [snd]; [| left; by rewrite Hb, lookup_insert_ne].
  rewrite (Rename_files _ _ _ _ _ _ Hb Ht Hr). destruct (decide (p = rel)) as [-> | Hpr].
  - right. by rewrite lookup_insert_eq.
  - left. by rewrite lookup_insert_ne.
Qed.

(** *** What the store reaches *)

(** The archive root: [NewLocalStore] takes the absolute path of a directory
    that is not the root of the file system. *)
Definition archive_root (root : string) (rsegs : list string) : Prop :=
  root = sep +:+ join rsegs /\ rsegs <> [] /\ Forall (fun s => plain s = true) rsegs.






Lemma Remove_changes path fs fs' p :
  Remove path fs = Ok fs' -> p <> path -> files fs' !! p = files fs !! p /\ (p ∈ dirs fs' <-> p ∈ dirs fs).
Proof.
  unfold Remove. intros Hr Hp. destruct (files fs !! path).
  - injection Hr as <-. cbn. by rewrite lookup_delete_ne.
  - case_bool_decide; [| done]. destruct (occupied path fs); [done |]. injection Hr as <-. cbn. set_solver.
Qed.



(** *** Where a document goes *)

Definition key_segments (doc : Document) (now : Z) : list string :=
  let name := sanitiseFilename (Filename doc) in
  let name := if String.eqb name EmptyString then Kind doc else name in
  let '(y, m, _) := civil (now / day) in
  [Kind doc; padded 4 y; padded 2 m; format_int (EntityID doc) +:+ "-" +:+ name].

Definition file_name (s : string) : bool := string_forall file_char s.

Lemma cleaned_file_name n s : file_name (cleaned n s) = true.
Proof.
  unfold file_name. revert n. induction s as [| c s IH]; intros n; [done |]. cbn [cleaned].
  destruct n as [| n]; [| apply IH]. destruct (file_char c) eqn:Hc; cbn [string_forall]; [by rewrite Hc, IH |]. by rewrite IH.
Qed.

Lemma trim_dots_file_name s : file_name s = true -> file_name (trim_dots s) = true.
Proof.
  unfold file_name. induction s as [| c s IH]; [done |]. cbn [trim_dots]. intros Hs.
  destruct (Ascii.eqb c "."); [| done]. cbn [string_forall] in Hs. apply andb_true_iff in Hs as [_ ?]. auto.
Qed.

Lemma limited_file_name n s : file_name s = true -> file_name (limited n s) = true.
Proof.
  unfold file_name. revert n. induction s as [| c s IH]; intros n; [done |]. cbn [limited string_forall].
  intros [Hc Hs]%andb_true_iff. destruct (n <=? 0); [done |]. cbn [string_forall]. by rewrite Hc, IH.
Qed.

Lemma valid_kind_file_name k : ValidKind k = true -> file_name k = true /\ k <> EmptyString.
Proof.
  unfold ValidKind. rewrite !orb_true_iff, !String.eqb_eq. by intros [[-> | ->] | ->]; vm_compute.
Qed.

Lemma file_char_no_slash c : file_char c = true -> negb (Ascii.eqb c slash) = true.
Proof. by destruct c as [[] [] [] [] [] [] [] []]. Qed.

Lemma numeral_no_slash s : string_forall numeral_char s = true -> no_slash s = true.
Proof. intros Hs. eapply string_forall_impl; [| exact Hs]. intros c. by destruct c as [[] [] [] [] [] [] [] []]. Qed.

Lemma last_segment_plain id name : file_name name = true -> plain (format_int id +:+ "-" +:+ name) = true.
Proof.
  intros Hn. destruct (Json.format_int_head id) as (c & t & Hc & Hd). unfold plain, nonempty.
  assert (no_slash (format_int id +:+ "-" +:+ name) = true) as ->.
  { unfold no_slash. rewrite !string_forall_app. fold (no_slash (format_int id)).
    rewrite (numeral_no_slash _ (format_int_chars id)). cbn [andb]. apply andb_true_iff. split; [done |]. eapply string_forall_impl; [exact file_char_no_slash | exact Hn]. }
  rewrite Hc. change (String c t +:+ "-" +:+ name) with (String c (t +:+ "-" +:+ name)).
  destruct (String.eqb_spec (String c (t +:+ "-" +:+ name)) ".") as [E |]; [injection E as -> _; done |].
  by destruct (String.eqb_spec (String c (t +:+ "-" +:+ name)) "..") as [E |]; [injection E as -> _ |].
Qed.

Lemma zeros_numeral n : string_forall numeral_char (zeros n) = true.
Proof. induction n as [| n IH]; [done |]. by cbn. Qed.

Lemma padded_plain n z : plain (padded n z) = true.
Proof.
  assert (forall s, string_forall numeral_char s = true -> string_forall numeral_char (s +:+ format_int (Z.abs z)) = true) as Happ.
  { intros s Hs. by rewrite string_forall_app, Hs, format_int_chars. }
  apply numeral_plain; unfold padded.
  - rewrite string_forall_app. rewrite (Happ _ (zeros_numeral _)). by destruct (z <? 0).
  - destruct (Json.format_int_head (Z.abs z)) as (c & t & -> & _). intros E.
    apply (f_equal String.length) in E. rewrite !string_app_length in E. cbn in E. lia.
Qed.

Lemma kind_plain k : ValidKind k = true -> plain k = true.
Proof. unfold ValidKind. rewrite !orb_true_iff, !String.eqb_eq. by intros [[-> | ->] | ->]. Qed.

Lemma key_segments_plain doc now :
  ValidKind (Kind doc) = true -> Forall (fun s => plain s = true) (key_segments doc now).
Proof.
  intros Hk. unfold key_segments. destruct (civil (now / day)) as [[y m] d].
  set (name := if String.eqb _ _ then _ else _). assert (file_name name = true) as Hn.
  { unfold name. destruct (String.eqb _ _); [by apply valid_kind_file_name |].
    apply limited_file_name, trim_dots_file_name, cleaned_file_name. }
  repeat apply Forall_cons_2; try apply Forall_nil_2; auto using kind_plain, padded_plain, last_segment_plain.
Qed.

Lemma plain_nonempty segs : Forall (fun s => plain s = true) segs -> List.filter nonempty segs = segs.
Proof.
  induction 1 as [| s segs Hs _ IH]; [done |]. cbn [List.filter]. unfold plain in Hs.
  apply andb_true_iff in Hs as [[[Hn _]%andb_true_iff _]%andb_true_iff _]. by rewrite Hn, IH.
Qed.

Lemma storageKey_segments doc now : ValidKind (Kind doc) = true -> storageKey doc now = join (key_segments doc now).
Proof.
  intros Hk. pose proof (key_segments_plain doc now Hk) as Hp. unfold storageKey, key_segments in *.
  destruct (civil (now / day)) as [[y m] d]. unfold Join. rewrite plain_nonempty by done. by apply Clean_plain.
Qed.

Definition document_path (rsegs : list string) (doc : Document) (now : Z) : string :=
  sep +:+ join (rsegs ++ key_segments doc now).

Lemma key_segments_cons doc now : key_segments doc now <> [].
Proof. unfold key_segments. by destruct (civil _) as [[y m] d]. Qed.

Lemma document_canonical root rsegs doc now :
  archive_root root rsegs -> ValidKind (Kind doc) = true ->
  canonical (document_path rsegs doc now) /\ inside root (document_path rsegs doc now) = true.
Proof.
  intros (-> & Hne & Hr) Hk. pose proof (key_segments_plain doc now Hk) as Hp. split.
  - eexists. split; [reflexivity |]. by apply Forall_app.
  - apply inside_spec. right. exists (join (key_segments doc now)). unfold document_path.
    rewrite join_app by (done || apply key_segments_cons). by rewrite !string_app_assoc.
Qed.

Lemma safePath_document root rsegs doc now :
  archive_root root rsegs -> ValidKind (Kind doc) = true ->
  safePath root (storageKey doc now) = Ok (document_path rsegs doc now).
Proof.
  intros Hroot Hk. destruct (document_canonical root rsegs doc now Hroot Hk) as [Hc Hi].
  destruct Hroot as (-> & Hne & Hr). pose proof (key_segments_plain doc now Hk) as Hp.
  rewrite storageKey_segments by done. unfold safePath.
  assert (nonempty (join (key_segments doc now)) = true) as Hn.
  { pose proof (Clean_plain _ (key_segments_cons doc now) Hp) as E. unfold nonempty.
    destruct (String.eqb_spec (join (key_segments doc now)) EmptyString) as [E0 |]; [by rewrite E0 in E | done]. }
  unfold nonempty in Hn. apply negb_true_iff in Hn. rewrite Hn. unfold Join, nonempty. cbn [List.filter].
  rewrite Hn. change (String.eqb (sep +:+ join rsegs) EmptyString) with false. cbn [negb].
  change (join [sep +:+ join rsegs; join (key_segments doc now)])
    with ((sep +:+ join rsegs) +:+ sep +:+ join (key_segments doc now)).
  replace ((sep +:+ join rsegs) +:+ sep +:+ join (key_segments doc now)) with (document_path rsegs doc now).
  - rewrite !(Clean_canonical _ Hc). by rewrite Hi.
  - unfold document_path. rewrite join_app by (done || apply key_segments_cons). by rewrite !string_app_assoc.
Qed.

Lemma after_prefix_app pre s : after_prefix pre (pre +:+ s) = Some s.
Proof.
  induction pre as [| c pre IH]; [done |]. change (String c pre +:+ s) with (String c (pre +:+ s)).
  cbn [after_prefix]. by rewrite Ascii.eqb_refl.
Qed.

Lemma pathFromURL_document root rsegs doc now :
  archive_root root rsegs -> ValidKind (Kind doc) = true ->
  pathFromURL root (scheme +:+ document_path rsegs doc now) = Ok (document_path rsegs doc now).
Proof.
  intros Hroot Hk. destruct (document_canonical root rsegs doc now Hroot Hk) as [Hc Hi].
  unfold pathFromURL. rewrite after_prefix_app, Clean_canonical, Hi by done. done.
Qed.

(** The temporary name never is a document's. *)
Lemma temp_differs root rsegs doc now rand :
  archive_root root rsegs -> ValidKind (Kind doc) = true ->
  temp_path (document_path rsegs doc now) rand <> document_path rsegs doc now.
Proof.
  intros (-> & Hne & Hr) Hk. pose proof (key_segments_plain doc now Hk) as Hp. unfold document_path, key_segments in *.
  destruct (civil (now / day)) as [[y m] d]. set (last := format_int _ +:+ _) in *.
  set (pre := rsegs ++ [Kind doc; padded 4 y; padded 2 m]).
  replace (rsegs ++ [Kind doc; padded 4 y; padded 2 m; last]) with (pre ++ [last]) by (unfold pre; by rewrite <- app_assoc).
  assert (pre <> []) as Hpre by (unfold pre; by destruct rsegs).
  unfold temp_path. rewrite Dir_snoc; [| done |].
  2: { unfold pre. rewrite <- app_assoc. by apply Forall_app. }
  replace (String.eqb (sep +:+ join pre) sep) with false.
  2: { symmetry. apply String.eqb_neq. intros E. apply (f_equal String.length) in E.
       rewrite string_app_length in E. change (String.length sep) with 1%nat in E.
       assert (0 < String.length (join pre))%nat; [| lia]. unfold pre. destruct rsegs as [| x rsegs]; [done |].
       apply Forall_cons in Hr as [Hx _]. by apply join_length. }
  rewrite join_snoc by done. rewrite string_app_assoc. rewrite <- (string_app_assoc sep (join pre) (sep +:+ last)). intros E. rewrite <- (string_app_assoc sep) in E. apply (inj (String.append (sep +:+ join pre))) in E.
  change (sep +:+ ".partial-" +:+ rand) with (String slash (String "." ("partial-" +:+ rand))) in E.
  change (sep +:+ last) with (String slash last) in E. injection E as E. unfold last in E.
  destruct (Json.format_int_head (EntityID doc)) as (c & t & Hc & Hd). rewrite Hc in E.
  change (String c t +:+ "-" +:+ ?n) with (String c (t +:+ "-" +:+ n)) in E. injection E as <- _. by vm_compute in Hd.
Qed.

(** *** One path, one row for a document *)

Lemma document_path_inj rsegs d1 d2 n1 n2 :
  ValidKind (Kind d1) = true -> ValidKind (Kind d2) = true -> 0 < EntityID d1 -> 0 < EntityID d2 ->
  rsegs <> [] -> Forall (fun s => plain s = true) rsegs ->
  document_path rsegs d1 n1 = document_path rsegs d2 n2 -> Kind d1 = Kind d2 /\ EntityID d1 = EntityID d2.
Proof.
  intros Hk1 Hk2 H1 H2 Hne Hr E. unfold document_path in E. apply (inj (String.append sep)) in E.
  pose proof (key_segments_plain d1 n1 Hk1) as P1. pose proof (key_segments_plain d2 n2 Hk2) as P2.
  apply join_inj in E; try (by destruct rsegs); try (by apply Forall_app).
  apply app_inv_head in E. unfold key_segments in E. destruct (civil (n1 / day)) as [[y1 m1] ?].
  destruct (civil (n2 / day)) as [[y2 m2] ?]. injection E as Hkind _ _ Hlast. split; [done |].
  apply (span_inj is_decimal) in Hlast as [Hid _]; try done; try (apply Json.format_int_decimal; lia).
  by apply format_int_inj.
Qed.

Section Documents.
Context (sha256_hex : list Z -> string) (root : string) (rsegs : list string).
Context (Hroot : archive_root root rsegs).

(** What a row of this store says: whose it is, and where. *)
Definition filed (r : Record_) : Prop :=
  exists doc now, ValidKind (Kind doc) = true /\ 0 < EntityID doc /\
    DocKind r = Kind doc /\ RecEntity r = EntityID doc /\ StorageBackend r = BackendLocal /\
    StorageURL r = scheme +:+ document_path rsegs doc now.

Definition same_row_key (r1 r2 : Record_) : Prop := DocKind r1 = DocKind r2 /\ RecEntity r1 = RecEntity r2.

Record wf (t : table) : Prop := {
  wf_filed : forall id r, rows t !! id = Some r -> filed r;
  wf_below : forall id r, rows t !! id = Some r -> id < next_id t;
  wf_unique : forall i1 i2 r1 r2, rows t !! i1 = Some r1 -> rows t !! i2 = Some r2 ->
    live r1 = true -> live r2 = true -> same_row_key r1 r2 -> i1 = i2
}.

Lemma live_row_spec kind entity backend t :
  match live_row kind entity backend t with
  | Some (id, r) => rows t !! id = Some r /\ same_document kind entity backend r = true
  | None => forall id r, rows t !! id = Some r -> same_document kind entity backend r = false
  end.
Proof.
  unfold live_row. destruct (List.filter _ _) as [| [id r] l] eqn:Hf; cbn [head].
  - intros id r Hr. apply not_true_iff_false. intros Hs.
    assert ((id, r) ∈ @nil (Z * Record_)) as []%not_elem_of_nil.
    rewrite <- Hf. apply elem_of_filterb. split; [by apply elem_of_map_to_list | done].
  - assert ((id, r) ∈ (id, r) :: l) as Hin by left. rewrite <- Hf in Hin.
    apply elem_of_filterb in Hin as [Hin Hs]. by apply elem_of_map_to_list in Hin.
Qed.

Lemma same_document_spec kind entity backend r :
  same_document kind entity backend r = true <->
  live r = true /\ DocKind r = kind /\ RecEntity r = entity /\ StorageBackend r = backend.
Proof. unfold same_document. rewrite !andb_true_iff, !String.eqb_eq, Z.eqb_eq. tauto. Qed.

Lemma filed_local r : filed r -> StorageBackend r = BackendLocal.
Proof. by intros (doc & now & _ & _ & _ & _ & ? & _). Qed.

Lemma wf_put t id r n :
  wf t -> filed r -> id < n -> next_id t <= n ->
  (forall i r', rows t !! i = Some r' -> i <> id -> live r = true -> live r' = true -> ~ same_row_key r r') ->
  wf (MkTable (<[id := r]> (rows t)) n).
Proof.
  intros [Hf Hb Hu] Hr Hid Hn Hother. assert (forall r1 r2, same_row_key r1 r2 -> same_row_key r2 r1) as Hsym.
  { by intros r1 r2 [? ?]. }
  split; cbn.
  - intros i r' [[<- <-] | [_ ?]]%lookup_insert_Some; eauto.
  - intros i r' [[<- <-] | [_ Hi]]%lookup_insert_Some; [done |]. specialize (Hb _ _ Hi). lia.
  - intros i1 i2 r1 r2 [[<- <-] | [Hne1 H1]]%lookup_insert_Some [[<- <-] | [Hne2 H2]]%lookup_insert_Some L1 L2 Hs.
    + done.
    + by destruct (Hother i2 r2 H2 ltac:(congruence) L1 L2).
    + by destruct (Hother i1 r1 H1 ltac:(congruence) L2 L1 (Hsym _ _ Hs)).
    + eauto.
Qed.

Lemma wf_same_rows t t' : wf t -> rows t' = rows t -> next_id t <= next_id t' -> wf t'.
Proof.
  intros [Hf Hb Hu] Hr Hn. split; rewrite Hr; [done | | done]. intros id r Hid. specialize (Hb _ _ Hid). lia.
Qed.

Lemma wf_record up r t : wf t -> filed r -> wf (RecordArchive up r t).2.
Proof.
  intros Hwf Hr. unfold RecordArchive. destruct up; cbn [negb]; [| done].
  destruct (row_ok r); cbn [negb]; [| apply (wf_same_rows t); [done | done | cbn; lia]].
  pose proof (live_row_spec (DocKind r) (RecEntity r) (StorageBackend r) t) as Hl.
  destruct (live_row _ _ _ t) as [[id r0] |]; cbn [snd].
  - destruct Hl as [Hid (Hl0 & Hk0 & He0 & _)%same_document_spec].
    pose proof (wf_below _ Hwf _ _ Hid). apply wf_put; try done; try lia.
    intros i r' Hi Hne _ Hl' [Hk He]. apply Hne. eapply (wf_unique _ Hwf); eauto. split; congruence.
  - apply wf_put; try done; try lia. intros i r' Hi _ _ Hl' [Hk He].
    specialize (Hl _ _ Hi). apply not_true_iff_false in Hl. apply Hl, same_document_spec.
    rewrite (filed_local _ Hr), (filed_local _ (wf_filed _ Hwf _ _ Hi)). done.
Qed.

Lemma wf_mark up now id t : wf t -> wf (MarkPurged up now id t).2.
Proof.
  intros Hwf. unfold MarkPurged. destruct up; cbn [negb]; [| done].
  destruct (rows t !! id) as [r |] eqn:Hr; [| done]. destruct (live r) eqn:Hl; cbn [negb]; [| done].
  destruct (retention_over now r); [| done]. cbn [negb snd]. pose proof (wf_below _ Hwf _ _ Hr).
  apply wf_put; try done; [by apply (wf_filed _ Hwf _ _ Hr)].
Qed.

(** *** Histories of the archive *)

(** Any archival, successful or not, and any sweep, troubled or not. *)
Inductive event : Type :=
  | EArchive (policy : RetentionPolicy) (now : Z) (rand : string) (fault : option call) (db_up : bool) (doc : Document)
  | EPurge (now batch : Z) (tr : Troubles).

Definition exec (w : World) (e : event) : World :=
  match e with
  | EArchive policy now rand fault db_up doc => (Archive sha256_hex root policy now rand fault db_up doc w).2
  | EPurge now batch tr => (PurgeOnce root now batch tr w).2
  end.

(** An event that has no business with a document kept until [until]. *)
Definition spares (kind : string) (entity : Z) (until : option Z) (e : event) : Prop :=
  match e with
  | EArchive _ _ _ _ _ doc => ~ (Kind doc = kind /\ EntityID doc = entity)
  | EPurge now _ _ => match until with Some d => now < d | None => True end
  end.

(** A document as it was archived: its live row and its bytes. *)
Definition kept (path : string) (body : list Z) (id : Z) (rec : Record_) (w : World) : Prop :=
  wf (archives w) /\ rows (archives w) !! id = Some rec /\ live rec = true /\ files (disk w) !! path = Some body.

Definition new_record (policy : RetentionPolicy) (now : Z) (doc : Document) (r : Reader) : Record_ :=
  MkRecord (Kind doc) (EntityID doc) BackendLocal (scheme +:+ document_path rsegs doc now) (sha256_hex (contents r))
    (Z.of_nat (length (contents r))) now (RetainUntil policy (Kind doc) now) None.

(** What an archival does: nothing to any row and, but for its own key, to any
    file, or the row of the document and its file. *)
Lemma Archive_world policy now rand fault db_up doc w :
  let '(res, w') := Archive sha256_hex root policy now rand fault db_up doc w in
  (forall p, files (disk w') !! p = files (disk w) !! p \/
     ValidKind (Kind doc) = true /\ 0 < EntityID doc /\ p = document_path rsegs doc now) /\
  match res with
  | Err _ => rows (archives w') = rows (archives w) /\ next_id (archives w) <= next_id (archives w')
  | Ok (id, rec) => exists r, Body doc = Some r /\ ValidKind (Kind doc) = true /\ 0 < EntityID doc /\
      rec = new_record policy now doc r /\ contents r <> [] /\
      files (disk w') !! document_path rsegs doc now = Some (contents r) /\
      RecordArchive true rec (archives w) = (Ok id, archives w')
  end.
Proof.
  unfold Archive. destruct (ValidKind (Kind doc)) eqn:Hk; cbn [negb]; [| split; [by left | done]].
  destruct (EntityID doc <=? 0) eqn:He; [split; [by left | done] |]. destruct (Body doc) as [r |] eqn:Hb; [| split; [by left | done]].
  pose proof (Put_files sha256_hex root rand fault (storageKey doc now) r (disk w)) as Hp.
  destruct (Put _ _ _ _ _ _ _) as [[put | e] fs]; [| split; [intros p; left; cbn; by rewrite Hp | done]].
  destruct Hp as (rel & Hs & Hu & Hne & Hc & Hsz & Hf & Hel). rewrite (safePath_document _ _ _ _ Hroot Hk) in Hs.
  injection Hs as <-. assert (forall p, files fs !! p = files (disk w) !! p \/
    ValidKind (Kind doc) = true /\ 0 < EntityID doc /\ p = document_path rsegs doc now) as Hel'.
  { intros p. destruct (decide (p = document_path rsegs doc now)); [right; split_and!; (done || lia) | left; auto]. }
  rewrite Hk in Hel'. rewrite Hu, Hc, Hsz. fold (new_record policy now doc r).
  destruct (RecordArchive db_up (new_record policy now doc r) (archives w)) as [[id | e] t] eqn:Hr.
  2: { split; [exact Hel' |]. cbn [archives]. unfold RecordArchive in Hr.
       destruct (negb db_up); [injection Hr as _ <-; split; [done | lia] |].
       destruct (negb (row_ok _)); [injection Hr as _ <-; cbn; split; [done | lia] |]. by destruct (live_row _ _ _ _) as [[? ?] |]. }
  split; [exact Hel' |]. exists r. split_and!; try done; [lia | |].
  - cbn [disk]. rewrite Hf by (by eapply temp_differs). by rewrite lookup_insert_eq.
  - cbn [archives]. rewrite <- Hr. destruct db_up; [done |]. done.
Qed.

Lemma new_record_filed policy now doc r :
  ValidKind (Kind doc) = true -> 0 < EntityID doc -> filed (new_record policy now doc r).
Proof. intros Hk He. by exists doc, now. Qed.

Lemma RecordArchive_own r t id t' : RecordArchive true r t = (Ok id, t') -> rows t' !! id = Some r.
Proof.
  unfold RecordArchive. cbn [negb]. destruct (negb (row_ok r)); [done |].
  destruct (live_row _ _ _ t) as [[i r0] |]; intros [= <- <-]; cbn; by rewrite lookup_insert_eq.
Qed.

Lemma RecordArchive_other r t id t' i r' :
  RecordArchive true r t = (Ok id, t') -> wf t -> filed r -> rows t !! i = Some r' -> live r' = true ->
  ~ same_row_key r r' -> rows t' !! i = Some r'.
Proof.
  unfold RecordArchive. cbn [negb]. destruct (negb (row_ok r)); [done |]. intros He Hwf Hr Hi Hl Hne.
  pose proof (live_row_spec (DocKind r) (RecEntity r) (StorageBackend r) t) as Hs.
  destruct (live_row _ _ _ t) as [[j r0] |]; injection He as <- <-; cbn.
  - destruct Hs as [Hj (_ & Hk & Hen & _)%same_document_spec]. rewrite lookup_insert_ne; [done |].
    intros ->. apply Hne. rewrite Hj in Hi. injection Hi as ->. by split.
  - rewrite lookup_insert_ne; [done |]. pose proof (wf_below _ Hwf _ _ Hi). lia.
Qed.

Lemma wf_archive policy now rand fault db_up doc w :
  wf (archives w) -> wf (archives (Archive sha256_hex root policy now rand fault db_up doc w).2).
Proof.
  intros Hwf. pose proof (Archive_world policy now rand fault db_up doc w) as Ha.
  destruct (Archive _ _ _ _ _ _ _ _ _) as [[[id rec] | e] w']; cbn [snd]; [| destruct Ha as (_ & Hr & Hn); by apply (wf_same_rows (archives w))].
  destruct Ha as (_ & r & _ & Hk & He & -> & _ & _ & Hr).
  replace (archives w') with (RecordArchive true (new_record policy now doc r) (archives w)).2 by (by rewrite Hr).
  apply wf_record; [done |]. by apply new_record_filed.
Qed.

(** An archival nothing refuses succeeds. *)
Lemma Archive_succeeds policy now rand doc r w :
  ValidKind (Kind doc) = true -> 0 < EntityID doc <= 2 ^ 31 - 1 -> Body doc = Some r -> broken r = false -> contents r <> [] ->
  clear_way (document_path rsegs doc now) (temp_path (document_path rsegs doc now) rand) (disk w) ->
  exists id w', Archive sha256_hex root policy now rand None true doc w = (Ok (id, new_record policy now doc r), w').
Proof.
  intros Hk [He1 He2] Hbody Hb Hne Hclear. unfold Archive. rewrite Hk, Hbody. cbn [negb].
  rewrite (proj2 (Z.leb_gt _ _) He1).
  destruct (Put_succeeds sha256_hex root rand (storageKey doc now) r (disk w) _ (safePath_document root rsegs doc now Hroot Hk) Hclear Hb Hne)
    as (put & fs & Hp).
  pose proof (Put_files sha256_hex root rand None (storageKey doc now) r (disk w)) as Hf. rewrite Hp in Hf |- *.
  destruct Hf as (rel & Hs & Hu & _ & Hc & Hsz & _). rewrite (safePath_document _ _ _ _ Hroot Hk) in Hs. injection Hs as <-.
  rewrite Hu, Hc, Hsz. fold (new_record policy now doc r). unfold RecordArchive. cbn [negb].
  assert (row_ok (new_record policy now doc r) = true) as ->.
  { unfold row_ok, int4. cbn [new_record DocKind RecEntity StorageBackend RecSize]. rewrite Hk.
    destruct (contents r) as [| b l]; [done |]. cbn [length andb]. rewrite !andb_true_iff. split_and!; try done; lia. }
  cbn [negb]. destruct (live_row _ _ _ _) as [[id r0] |]; by eexists _, _.
Qed.

(** A sweep touches the due rows only. *)
Lemma purge_one_kept now tr path body id rec w p :
  kept path body id rec w ->
  p.1 <> id -> (forall q, pathFromURL root (StorageURL p.2) = Ok q -> q <> path) ->
  kept path body id rec (purge_one root now tr w p).
Proof.
  intros (Hwf & Hid & Hl & Hf) Hp Hq. unfold purge_one.
  destruct (Delete root (delete_up tr p.1) (StorageURL p.2) (disk w)) as [fs |] eqn:Hd; [| done].
  split_and!; cbn [archives disk]; [by apply wf_mark | | done |].
  - unfold MarkPurged. destruct (mark_up tr p.1); cbn [negb]; [| done]. destruct (rows (archives w) !! p.1) as [r |]; [| done].
    destruct (live r); [| done]. destruct (retention_over now r); [| done]. cbn. by rewrite lookup_insert_ne.
  - unfold Delete in Hd. destruct (pathFromURL root (StorageURL p.2)) as [q |]; [| done].
    destruct (delete_up tr p.1); [| done]. cbn [negb] in Hd. specialize (Hq q eq_refl).
    destruct (Remove q (disk w)) as [fs' | e] eqn:Hr.
    + injection Hd as ->. by rewrite (proj1 (Remove_changes _ _ _ path Hr ltac:(congruence))).
    + by destruct e; simplify_eq.
Qed.

Lemma due_listed up now batch t due p :
  ListDueForPurge up now batch t = Ok due -> p ∈ due -> rows t !! p.1 = Some p.2 /\ due_at now p.2 = true.
Proof.
  unfold ListDueForPurge. destruct up; [| done]. intros [= <-] Hp. apply elem_of_take in Hp as (i & Hi & _).
  apply list_elem_of_lookup_2 in Hi. rewrite merge_sort_Permutation in Hi. apply elem_of_filterb in Hi as [Hin Hd].
  destruct p as [i' r]. by apply elem_of_map_to_list in Hin.
Qed.

Lemma sweep_kept policy now0 doc r id now batch tr w :
  let path := document_path rsegs doc now0 in let rec := new_record policy now0 doc r in
  ValidKind (Kind doc) = true -> 0 < EntityID doc ->
  kept path (contents r) id rec w -> match RetainUntil_ rec with Some d => now < d | None => True end ->
  kept path (contents r) id rec (PurgeOnce root now batch tr w).2.
Proof.
  intros path rec Hk He Hkept Hnot. unfold PurgeOnce.
  destruct (ListDueForPurge (list_up tr) now batch (archives w)) as [due |] eqn:Hdue; [| done].
  assert (forall p, p ∈ due -> p.1 <> id /\ forall q, pathFromURL root (StorageURL p.2) = Ok q -> q <> path) as Hsafe.
  { intros p Hp. destruct (due_listed _ _ _ _ _ _ Hdue Hp) as [Hrow Hd]. destruct Hkept as (Hwf & Hid & Hl & _).
    assert (p.1 <> id) as Hne.
    { intros E. rewrite E, Hid in Hrow. injection Hrow as Hrow. rewrite <- Hrow in Hd. unfold due_at in Hd.
      apply andb_true_iff in Hd as [_ Hd]. destruct (RetainUntil_ rec); [lia | done]. }
    split; [done |]. intros q Hq ->. destruct (wf_filed _ Hwf _ _ Hrow) as (doc' & now' & Hk' & He' & Hkd & Hen & _ & Hurl).
    rewrite Hurl, (pathFromURL_document _ _ _ _ Hroot Hk') in Hq. assert (document_path rsegs doc' now' = document_path rsegs doc now0) as Hq' by (unfold path in Hq; congruence).
    destruct Hroot as (_ & Hrne & Hrp).
    destruct (document_path_inj rsegs doc' doc now' now0 Hk' Hk He' He Hrne Hrp Hq') as [Ek Ee].
    apply Hne. unfold due_at in Hd. apply andb_true_iff in Hd as [Hlp _].
    apply (wf_unique _ Hwf _ _ _ _ Hrow Hid Hlp Hl). split; cbn; congruence. }
  clear Hdue. assert (forall l, (forall p, p ∈ l -> p ∈ due) -> kept path (contents r) id rec (foldl (purge_one root now tr) w l)) as Hall.
  { intros l. revert w Hkept. induction l as [| p l IH]; intros w Hkept Hin; [done |]. cbn [foldl]. apply IH.
    - destruct (Hsafe p (Hin p (list_elem_of_here _ _))) as [Hp Hq]. by apply purge_one_kept.
    - intros q Hq. apply Hin. by right. }
  destruct (cancelled_after tr) as [n |]; [destruct (n <? length due)%nat |]; cbn [snd]; apply Hall; try done.
  intros p Hp. apply elem_of_take in Hp as (i & Hi & _). by eapply list_elem_of_lookup_2.
Qed.

Lemma archive_kept policy now0 doc r id e w :
  let path := document_path rsegs doc now0 in let rec := new_record policy now0 doc r in
  ValidKind (Kind doc) = true -> 0 < EntityID doc -> kept path (contents r) id rec w ->
  spares (Kind doc) (EntityID doc) (RetainUntil_ rec) e -> kept path (contents r) id rec (exec w e).
Proof.
  intros path rec Hk He Hkept Hs. destruct e as [policy' now rand fault db_up doc' | now batch tr]; [| by apply sweep_kept].
  destruct Hkept as (Hwf & Hid & Hl & Hf). cbn [exec spares] in *.
  pose proof (Archive_world policy' now rand fault db_up doc' w) as Ha.
  pose proof (wf_archive policy' now rand fault db_up doc' w Hwf) as Hwf'.
  assert (files (disk (Archive sha256_hex root policy' now rand fault db_up doc' w).2) !! path = Some (contents r)) as Hfile.
  { destruct (Archive _ _ _ _ _ _ _ _ _) as [res w']. destruct Ha as [Hel _]. cbn [snd].
    destruct (Hel path) as [-> | (Hk' & He' & E)]; [done |]. destruct Hroot as (_ & Hrne & Hrp).
    destruct (document_path_inj rsegs doc doc' now0 now Hk Hk' He He' Hrne Hrp E). by destruct Hs. }
  split_and!; [done | | done | done].
  destruct (Archive _ _ _ _ _ _ _ _ _) as [[[i rec'] | err] w']; cbn [snd] in *; destruct Ha as [_ Ha].
  - destruct Ha as (r' & _ & Hk' & He' & -> & _ & _ & Hr).
    assert (filed (new_record policy' now doc' r')) as Hfiled by (by apply new_record_filed).
    apply (RecordArchive_other _ _ _ _ _ _ Hr Hwf Hfiled Hid Hl). intros [E1 E2]. by apply Hs.
  - destruct Ha as [Hr _]. by rewrite Hr.
Qed.

Lemma archived_kept policy now rand fault db_up doc w id rec w' :
  wf (archives w) -> Archive sha256_hex root policy now rand fault db_up doc w = (Ok (id, rec), w') ->
  exists r, Body doc = Some r /\ ValidKind (Kind doc) = true /\ 0 < EntityID doc /\ rec = new_record policy now doc r /\
    kept (document_path rsegs doc now) (contents r) id rec w'.
Proof.
  intros Hwf Ha. pose proof (wf_archive policy now rand fault db_up doc w Hwf) as Hwf'.
  pose proof (Archive_world policy now rand fault db_up doc w) as Hw. rewrite Ha in Hw, Hwf'. cbn [snd] in Hwf'.
  destruct Hw as (_ & r & Hb & Hk & He & -> & _ & Hf & Hr). exists r. split_and!; try done.
  by apply RecordArchive_own in Hr.
Qed.

Lemma kept_retrieved policy now doc r id w :
  let rec := new_record policy now doc r in
  ValidKind (Kind doc) = true -> kept (document_path rsegs doc now) (contents r) id rec w ->
  RetrieveLatest sha256_hex root true true (Kind doc) (EntityID doc) w = Ok (Some (contents r, (id, rec))).
Proof.
  intros rec Hk (Hwf & Hid & Hl & Hf). unfold RetrieveLatest, GetArchive.
  set (mine := fun p : Z * Record_ => live p.2 && String.eqb (DocKind p.2) (Kind doc) && (RecEntity p.2 =? EntityID doc)).
  assert (List.filter mine (map_to_list (rows (archives w))) = [(id, rec)]) as ->.
  { assert (forall p, p ∈ List.filter mine (map_to_list (rows (archives w))) -> p = (id, rec)) as Hall.
    { intros [i r'] [Hin Hm]%elem_of_filterb. apply elem_of_map_to_list in Hin. unfold mine in Hm. cbn [snd] in Hm.
      rewrite !andb_true_iff, String.eqb_eq, Z.eqb_eq in Hm. destruct Hm as [[Hl' Hk'] He'].
      assert (i = id) as -> by (eapply (wf_unique _ Hwf); eauto; split; done). congruence. }
    assert ((id, rec) ∈ List.filter mine (map_to_list (rows (archives w)))) as Hin.
    { apply elem_of_filterb. split; [by apply elem_of_map_to_list |]. unfold mine. cbn [snd]. rewrite Hl. cbn.
      by rewrite String.eqb_refl, Z.eqb_refl. }
    assert (NoDup (List.filter mine (map_to_list (rows (archives w))))) as Hnd
      by (apply NoDup_ListNoDup, List.NoDup_filter, NoDup_ListNoDup, NoDup_map_to_list).
    destruct (List.filter mine _) as [| p1 [| p2 l]]; [by apply not_elem_of_nil in Hin | |].
    - f_equal. apply Hall. by left.
    - exfalso. rewrite (Hall p1), (Hall p2) in Hnd by (by repeat constructor). apply NoDup_cons in Hnd as [Hn _]. apply Hn. by left. }
  change (head (merge_sort newest_first [(id, rec)])) with (Some (id, rec)). cbn iota beta.
  unfold Retrieve, Get, rec, new_record. cbn [StorageURL Checksum].
  rewrite (pathFromURL_document root rsegs doc now Hroot Hk), Hf. by rewrite String.eqb_refl.
Qed.

(** C30: A document archived successfully can be fetched, checksum verified and
    byte for byte as it was handed in, through any later history of archivals of
    other documents and retention sweeps, faults and shutdowns included, up to
    the day its retention runs out. *)
Theorem archived_until_due policy now rand fault db_up doc w id rec w' events :
  wf (archives w) -> Archive sha256_hex root policy now rand fault db_up doc w = (Ok (id, rec), w') ->
  Forall (spares (Kind doc) (EntityID doc) (RetainUntil policy (Kind doc) now)) events ->
  exists r, Body doc = Some r /\
    RetrieveLatest sha256_hex root true true (Kind doc) (EntityID doc) (foldl exec w' events) =
    Ok (Some (contents r, (id, rec))).
Proof.
  intros Hwf Ha Hev. destruct (archived_kept _ _ _ _ _ _ _ _ _ _ Hwf Ha) as (r & Hb & Hk & He & -> & Hkept).
  exists r. split; [done |]. apply kept_retrieved; [done |]. clear Ha Hwf w Hb. revert w' Hkept.
  induction Hev as [| e events Hs Hev IH]; intros w' Hkept; [done |]. cbn [foldl]. apply IH. by apply archive_kept.
Qed.

(** *** A sweep without trouble *)

Lemma Remove_gone path fs :
  path ∉ dirs fs -> exists fs', (Remove path fs = Ok fs' \/ Remove path fs = Err ErrNotExist /\ fs' = fs) /\
    files fs' = delete path (files fs) /\ dirs fs' = dirs fs.
Proof.
  intros Hd. unfold Remove. destruct (files fs !! path) eqn:Hf.
  - eexists. split; [by left | done].
  - rewrite bool_decide_eq_false_2 by done. exists fs. split; [by right |]. by rewrite delete_id.
Qed.

(** A due row this store can act on. *)
Definition ready (now : Z) (w : World) (p : Z * Record_) : Prop :=
  rows (archives w) !! p.1 = Some p.2 /\ due_at now p.2 = true /\
  exists path, pathFromURL root (StorageURL p.2) = Ok path /\ path ∉ dirs (disk w).

Lemma purge_one_ready now w p :
  ready now w p ->
  exists path, pathFromURL root (StorageURL p.2) = Ok path /\
    files (disk (purge_one root now no_troubles w p)) = delete path (files (disk w)) /\
    dirs (disk (purge_one root now no_troubles w p)) = dirs (disk w) /\
    rows (archives (purge_one root now no_troubles w p)) = <[p.1 := purged now p.2]> (rows (archives w)).
Proof.
  intros (Hrow & Hdue & path & Hp & Hd). exists path. split; [done |].
  destruct (Remove_gone path (disk w) Hd) as (fs' & Hr & Hf & Hdirs). unfold due_at in Hdue.
  apply andb_true_iff in Hdue as [Hl Hu]. unfold purge_one, Delete. rewrite Hp. cbn [delete_up no_troubles negb].
  assert (rows (MarkPurged true now p.1 (archives w)).2 = <[p.1 := purged now p.2]> (rows (archives w))) as Hm.
  { unfold MarkPurged. cbn [negb]. rewrite Hrow, Hl. cbn [negb]. unfold retention_over.
    by destruct (RetainUntil_ p.2); [rewrite Hu |]. }
  destruct Hr as [-> | [-> ->]]; cbn [disk archives mark_up no_troubles]; done.
Qed.

Lemma sweep_all now l w :
  NoDup l.*1 -> (forall p, p ∈ l -> ready now w p) ->
  let w' := foldl (purge_one root now no_troubles) w l in
  (forall id r, rows (archives w) !! id = Some r ->
     rows (archives w') !! id = Some (if bool_decide (id ∈ l.*1) then purged now r else r)) /\
  (forall p path, p ∈ l -> pathFromURL root (StorageURL p.2) = Ok path -> files (disk w') !! path = None) /\
  (forall path, files (disk w) !! path = None -> files (disk w') !! path = None).
Proof.
  revert w. induction l as [| p l IH]; intros w Hnd Hl; cbn [foldl].
  { cbn. split_and!; [done | by intros ? ? ?%not_elem_of_nil | done]. }
  cbn [fmap list_fmap] in Hnd. apply NoDup_cons in Hnd as [Hn Hnd].
  destruct (purge_one_ready now w p (Hl p (list_elem_of_here _ _))) as (path & Hp & Hf & Hd & Hr).
  set (w1 := purge_one root now no_troubles w p) in *. destruct (IH w1 Hnd) as (IH1 & IH2 & IH3).
  { intros q Hq. destruct (Hl q (list_elem_of_further _ _ _ Hq)) as (Hrow & Hdue & path' & Hp' & Hd'). split_and!; [| done |].
    - rewrite Hr, lookup_insert_ne; [done |]. intros E. apply Hn. rewrite E. by apply list_elem_of_fmap_2.
    - exists path'. by rewrite Hd. }
  split_and!.
  - intros id r Hid. destruct (decide (id = p.1)) as [-> | Hne].
    + destruct (Hl p (list_elem_of_here _ _)) as (Hrow & _). rewrite Hrow in Hid. injection Hid as <-.
      rewrite (IH1 p.1 (purged now p.2)) by (by rewrite Hr, lookup_insert_eq).
      rewrite (bool_decide_eq_false_2 (p.1 ∈ l.*1)) by done. by rewrite bool_decide_eq_true_2 by (by left).
    + rewrite (IH1 id r) by (by rewrite Hr, lookup_insert_ne). f_equal.
      destruct (decide (id ∈ l.*1)) as [Hin | Hin].
      * rewrite !bool_decide_eq_true_2; [done | by right | done].
      * rewrite !bool_decide_eq_false_2; [done | | done]. by intros [? | ?]%elem_of_cons.
  - intros q path' [-> | Hq]%elem_of_cons Hpath; [| by eapply IH2]. apply IH3. rewrite Hf.
    rewrite Hp in Hpath. injection Hpath as ->. by rewrite lookup_delete_eq.
  - intros path' Hnone. apply IH3. rewrite Hf. by apply lookup_delete_None; right.
Qed.

Lemma map_keys_NoDup {A} (f : Z * A -> bool) (m : gmap Z A) : NoDup (List.filter f (map_to_list m)).*1.
Proof.
  pose proof (NoDup_fst_map_to_list m) as Hnd. induction (map_to_list m) as [| p l IH]; [constructor |].
  cbn [List.filter fmap list_fmap] in *. apply NoDup_cons in Hnd as [Hn Hnd]. specialize (IH Hnd).
  destruct (f p); [| done]. cbn [fmap list_fmap]. apply NoDup_cons. split; [| done].
  intros (q & E & Hq)%list_elem_of_fmap. apply elem_of_filterb in Hq as [Hq _]. apply Hn. rewrite E. by apply list_elem_of_fmap_2.
Qed.

(** C33: A sweep without trouble whose batch holds what is due deletes the file
    of every archive whose retention is over, marks exactly those rows purged,
    and leaves every other row alone. *)
Theorem sweep_clears_what_is_due now batch w :
  wf (archives w) ->
  Z.of_nat (length (List.filter (fun p => due_at now p.2) (map_to_list (rows (archives w))))) <= purge_limit batch ->
  (forall id r path, rows (archives w) !! id = Some r -> pathFromURL root (StorageURL r) = Ok path -> path ∉ dirs (disk w)) ->
  let '(failed, w') := PurgeOnce root now batch no_troubles w in
  failed = None /\
  forall id r, rows (archives w) !! id = Some r ->
    rows (archives w') !! id = Some (if due_at now r then purged now r else r) /\
    (due_at now r = true -> forall path, pathFromURL root (StorageURL r) = Ok path -> files (disk w') !! path = None).
Proof.
  intros Hwf Hlen Hdirs. unfold PurgeOnce, ListDueForPurge. cbn [list_up no_troubles cancelled_after].
  set (due := List.filter _ _) in *. set (l := merge_sort oldest_first due).
  assert (l ≡ₚ due) as Hperm by apply merge_sort_Permutation.
  rewrite take_ge by (rewrite Hperm; lia).
  assert (forall p, p ∈ l <-> rows (archives w) !! p.1 = Some p.2 /\ due_at now p.2 = true) as Hin.
  { intros [i r]. rewrite Hperm. unfold due. by rewrite elem_of_filterb, elem_of_map_to_list. }
  destruct (sweep_all now l w) as (Hrows & Hfiles & _).
  { rewrite Hperm. apply map_keys_NoDup. }
  { intros p Hp. apply Hin in Hp as [Hrow Hdue]. split_and!; [done | done |].
    destruct (wf_filed _ Hwf _ _ Hrow) as (doc & n & Hk & _ & _ & _ & _ & Hurl).
    exists (document_path rsegs doc n). assert (pathFromURL root (StorageURL p.2) = Ok (document_path rsegs doc n)) as Hu
      by (rewrite Hurl; by apply pathFromURL_document). split; [done |]. by eapply Hdirs. }
  split; [done |]. intros id r Hid. split; [| intros Hdue path Hp; by apply (Hfiles (id, r)); [apply Hin |]].
  rewrite (Hrows _ _ Hid). f_equal. destruct (due_at now r) eqn:Hdue.
  - rewrite bool_decide_eq_true_2; [done |]. apply list_elem_of_fmap. exists (id, r). split; [done |]. by apply Hin.
  - rewrite bool_decide_eq_false_2; [done |]. intros ([i r'] & -> & Hp)%list_elem_of_fmap. apply Hin in Hp as [Hrow Hd].
    cbn [fst snd] in *. congruence.
Qed.

End Documents.

(** *** Witnesses and examples *)

(** A stand-in for SHA-256. *)
Definition demo_sha (b : list Z) : string :=
  format_int (Z.of_nat (length b)) +:+ "-" +:+ format_int (foldr (fun z acc => z + 31 * acc) 0 b).

Definition demo_root : string := "/var/archive".
Definition demo_segments : list string := ["var"; "archive"]%string.
Definition empty_world : World := MkWorld (MkFS ∅ {["/"; "/var"; "/var/archive"]}%string) (MkTable ∅ 1).
Definition jan : Z := midnight (2026, 1, 20).
Definition feb : Z := midnight (2026, 2, 3).
Definition kyc (version : Z) : Document := MkDocument KindKYC 7 "../scan.pdf" (Some (MkReader [[version]; [2; 3]] false)).
Definition bill : Document := MkDocument KindInvoice 7 "INV-000007.pdf" (Some (MkReader [[9]] false)).
Definition kept_scan : World :=
  (Archive demo_sha demo_root DefaultRetention jan "42" None true (kyc 1) empty_world).2.

Lemma demo_root_ok : archive_root demo_root demo_segments.
Proof. split; [done |]. split; [done |]. repeat constructor. Qed.

Lemma wf_empty rsegs n : wf rsegs (MkTable ∅ n).
Proof. split; cbn; by intros * ?%lookup_empty_Some || (intros * Hi; by rewrite lookup_empty in Hi). Qed.

Lemma crash_leaves_whole_files_witness :
  files (crashed_Put 4 demo_root "42" None "kyc_document/x" (MkReader [[1]; [2]] false) (disk empty_world)) !!
    "/var/archive/kyc_document/x"%string = None.
Proof.
  destruct (crash_leaves_whole_files 4 demo_root "42" None "kyc_document/x" (MkReader [[1]; [2]] false)
    (disk empty_world) "/var/archive/kyc_document/x" "/var/archive/kyc_document/x") as [E | (_ & E & _)].
  - vm_compute. reflexivity.
  - vm_compute. intros E. discriminate E.
  - exact E.
  - vm_compute in E. discriminate E.
Defined.


Lemma archived_until_due_witness :
  exists r, Body (kyc 1) = Some r /\
    RetrieveLatest demo_sha demo_root true true KindKYC 7
      (foldl (exec demo_sha demo_root) kept_scan
         [EArchive DefaultRetention feb "43" (Some CallSync) true bill; EPurge (midnight (2031, 1, 19)) 200 no_troubles]) =
    Ok (Some (contents r, (1, new_record demo_sha demo_segments DefaultRetention jan (kyc 1) (MkReader [[1]; [2; 3]] false)))).
Proof.
  apply (archived_until_due demo_sha demo_root demo_segments demo_root_ok DefaultRetention jan "42" None true (kyc 1)
    empty_world 1 (new_record demo_sha demo_segments DefaultRetention jan (kyc 1) (MkReader [[1]; [2; 3]] false)) kept_scan).
  - apply wf_empty.
  - vm_compute. reflexivity.
  - constructor; [cbn; intros [E _]; discriminate E |]. constructor; [vm_compute; reflexivity | constructor].
Defined.

Definition scan_record : Record_ :=
  new_record demo_sha demo_segments DefaultRetention jan (kyc 1) (MkReader [[1]; [2; 3]] false).

Lemma kept_scan_rows : rows (archives kept_scan) = <[1 := scan_record]> ∅.
Proof. vm_compute. reflexivity. Qed.

Lemma kept_scan_wf : wf demo_segments (archives kept_scan).
Proof. apply (wf_archive demo_sha demo_root demo_segments demo_root_ok), wf_empty. Qed.

Lemma sweep_clears_what_is_due_witness :
  files (disk (PurgeOnce demo_root (midnight (2031, 1, 20)) 200 no_troubles kept_scan).2) !!
    "/var/archive/kyc_document/2026/01/7-scan.pdf"%string = None.
Proof.
  pose proof (sweep_clears_what_is_due demo_root demo_segments demo_root_ok (midnight (2031, 1, 20)) 200 kept_scan
    kept_scan_wf) as Hs.
  destruct (PurgeOnce demo_root (midnight (2031, 1, 20)) 200 no_troubles kept_scan) as [failed w'].
  destruct Hs as [_ Hs].
  - vm_compute. discriminate.
  - intros id r path Hr Hp. rewrite kept_scan_rows in Hr. apply lookup_insert_Some in Hr as [[_ <-] | [_ Hr]].
    + vm_compute in Hp. injection Hp as <-. apply (bool_decide_unpack _). vm_compute. exact I.
    + rewrite lookup_empty in Hr. discriminate Hr.
  - apply (Hs 1 scan_record); [by rewrite kept_scan_rows, lookup_insert_eq | vm_compute; reflexivity | vm_compute; reflexivity].
Defined.

(** A document archived again in another month gets a new key, and the upsert
    forgets the old one: the first copy of the scan outlives every sweep. *)
Definition rescanned : World :=
  (Archive demo_sha demo_root DefaultRetention feb "43" None true (kyc 8) kept_scan).2.

Example first_copy_outlives_retention :
  let swept := (PurgeOnce demo_root (midnight (2099, 1, 1)) 200 no_troubles rescanned).2 in
  RetrieveLatest demo_sha demo_root true true KindKYC 7 swept = Ok None /\
  files (disk swept) !! "/var/archive/kyc_document/2026/02/7-scan.pdf"%string = None /\
  files (disk swept) !! "/var/archive/kyc_document/2026/01/7-scan.pdf"%string = Some [1; 2; 3].
Proof. vm_compute. done. Qed.

(** A second archival in the same month whose row cannot be written leaves the
    first row describing bytes that are gone. *)
Example unrecorded_overwrite_breaks_the_record :
  let w := (Archive demo_sha demo_root DefaultRetention jan "43" None false (kyc 8) kept_scan).2 in
  RetrieveLatest demo_sha demo_root true true KindKYC 7 w = Err (ErrChecksumMismatch (demo_sha [1; 2; 3]) (demo_sha [8; 2; 3])).
Proof. vm_compute. done. Qed.

(** A batch size above a thousand is a batch of two hundred. *)
Example large_batch_is_the_default : purge_limit (SetBatchSize 5000 defaultPurgeBatch) = 200.
Proof. reflexivity. Qed.

(** Rows the store cannot delete stay at the head of the listing: once they
    fill the batch, nothing behind them is ever purged. *)
Definition foreign : Record_ :=
  MkRecord KindReport 1 BackendS3 "s3://bucket/report" "0" 1 0 (Some 1) None.

Example foreign_rows_block_the_sweep :
  let w := MkWorld (disk kept_scan) (MkTable (<[2 := foreign]> (rows (archives kept_scan))) 3) in
  let sweep w := (PurgeOnce demo_root (midnight (2099, 1, 1)) 1 no_troubles w).2 in
  sweep w = w.
Proof. vm_compute. reflexivity. Qed.
End Archive.
