(* ===== verification/Reporting.v ===== *)
(** * internal/reporting, db/reporting.go and api/reports.go: reports

    The four reporting views of migration 032 over the tables of [Revenue],
    [Billing] and [Tickets], the queries that read them, their CSV form, the
    download endpoint, and the scheduled export that a queued task delivers
    into the document archive. Months are counted from year zero, instants are
    nanoseconds and the zone is UTC; the report names a percentile and the
    conversion of a NUMERIC column to a float as the database and its driver
    compute them. *)

From S2P Require Import Prelude Rows GoStrings Dates Json Decimal Jobqueue Billing Subscribers Crm Revenue Tickets Csv Archive.
From stdpp Require Import sorting.
From Stdlib Require Import Ascii SpecFloat QArith.

Local Open Scope Z_scope.

Module Reporting.

(** ** Rows *)

Definition month_of (t : Z) : Z := let '(y, m, _) := Dates.civil (t / Dates.day) in 12 * y + (m - 1).

Section Reports.
Context `{Decimal} (StringFixed : dec -> Z -> string) (percentile : list Z -> spec_float) (numeric_float : Z -> spec_float).

Record PlanMixRow : Type := MkPlanMix {
  pm_PlanID : Z; pm_PlanName : string; pm_Price : dec; pm_FranchiseID : option Z;
  pm_Total : Z; pm_Active : Z; pm_Suspended : Z; pm_MRR : dec
}.

Record GrowthRow : Type := MkGrowth {
  gr_Month : Z; gr_FranchiseID : option Z; gr_PlanID : option Z;
  gr_New : Z; gr_Reactivations : Z; gr_Churned : Z; gr_Suspended : Z; gr_Net : Z
}.

Record TicketResolutionRow : Type := MkTicketRow {
  tr_Month : Z; tr_Category : string; tr_Priority : string; tr_FranchiseID : option Z;
  tr_Raised : Z; tr_Resolved : Z; tr_Reopens : Z; tr_Median : option spec_float; tr_WithinSLA : Z
}.

Record CollectionRow : Type := MkCollection {
  co_FranchiseID : Z; co_Name : string; co_Status : string; co_Month : Z;
  co_Billed : dec; co_Invoices : Z; co_Collected : dec; co_Commission : dec;
  co_Paying : Z; co_Rate : option spec_float
}.

(** ** The views (migration 032) *)

(** subscriber_status_history: [None] is no previous status. *)
Record StatusRow : Type := MkStatus {
  st_old : option string; st_new : string; st_plan : option Z; st_franchise : option Z;
  st_baseline : bool; st_at : Z
}.

(** The tables, and the rows [mv_ticket_resolution] holds since its last
    refresh. No ORDER BY is total, and rows that tie come as the plan yields
    them: [row_order] is where the next row of a scan is picked from what is
    left of it, so every order is one of some [row_order]. *)
Record ReportDB : Type := MkReportDB {
  revenue : Revenue.world;
  status_history : list StatusRow;
  support : Tickets.world;
  materialised : list TicketResolutionRow;
  row_order : list nat
}.

(** The same tables, scanned in another order. *)
Definition rescanned (picks : list nat) (db : ReportDB) : ReportDB :=
  MkReportDB (revenue db) (status_history db) (support db) (materialised db) picks.

Fixpoint arranged {A} (picks : list nat) (l : list A) : list A :=
  match picks with
  | [] => l
  | n :: picks =>
      let k := (n mod length l)%nat in
      match l !! k with Some x => x :: arranged picks (delete k l) | None => l end
  end.

(** The result of an ORDER BY. *)
Definition ordered {A} (R : relation A) `{!RelDecision R} (db : ReportDB) (l : list A) : list A :=
  merge_sort R (arranged (row_order db) l).

Definition count {A} (p : A -> bool) (l : list A) : Z := Z.of_nat (length (List.filter p l)).

Definition suspended (s : string) : bool := existsb (String.eqb s) ["soft_suspended"; "hard_suspended"]%string.

(** What a NUMERIC(14,2) cast accepts, in hundredths. *)
Definition numeric14 (z : Z) : bool := Z.abs z <? 10 ^ 14.

Definition plan_group (plan : Z) (franchise : option Z) (s : Billing.SubscriberRow) : bool :=
  (Billing.plan_id s =? plan) && bool_decide (Billing.franchise_id s = franchise).

Definition plan_mix_row (id : Z) (p : Billing.PlanRow) (franchise : option Z) (subs : list Billing.SubscriberRow) : result unit PlanMixRow :=
  let mine := List.filter (plan_group id franchise) subs in
  let active := count (fun s => String.eqb (Billing.status s) "active") mine in
  let mrr := Billing.price p * active in
  if numeric14 mrr then
    Ok (MkPlanMix id (Billing.p_name p) (of_paise (Billing.price p)) franchise (Z.of_nat (length mine)) active
          (count (fun s => suspended (Billing.status s)) mine) (of_paise mrr))
  else Err tt.

(** The groups that have a member, of the plans that exist. *)
Definition plan_groups (plans : gmap Z Billing.PlanRow) (subs : list Billing.SubscriberRow) : list (Z * Billing.PlanRow * option Z) :=
  omap (fun k => p ← plans !! k.1; Some (k.1, p, k.2))
    (remove_dups (map (fun s => (Billing.plan_id s, Billing.franchise_id s)) subs)).

Fixpoint all_ok {A B} (f : A -> result unit B) (l : list A) : result unit (list B) :=
  match l with
  | [] => Ok []
  | x :: l => match f x, all_ok f l with Ok y, Ok ys => Ok (y :: ys) | _, _ => Err tt end
  end.

Definition subscriber_rows (db : ReportDB) : list Billing.SubscriberRow :=
  (map_to_list (Billing.subscribers (Revenue.bdb (revenue db)))).*2.

Definition v_plan_mix (db : ReportDB) : result unit (list PlanMixRow) :=
  let subs := subscriber_rows db in
  all_ok (fun '(id, p, f) => plan_mix_row id p f subs) (plan_groups (Billing.plans (Revenue.bdb (revenue db))) subs).

Definition growth_key (r : StatusRow) : Z * option Z * option Z := (month_of (st_at r), st_franchise r, st_plan r).

Definition is_new (r : StatusRow) : bool := bool_decide (st_old r = None).
Definition is_reactivation (r : StatusRow) : bool :=
  String.eqb (st_new r) "active" &&
  match st_old r with Some s => suspended s || String.eqb s "grace_period" | None => false end.
Definition is_churn (r : StatusRow) : bool := String.eqb (st_new r) "terminated".

Definition growth_row (events : list StatusRow) (k : Z * option Z * option Z) : GrowthRow :=
  let mine := List.filter (fun r => bool_decide (growth_key r = k)) events in
  let '(m, f, p) := k in
  MkGrowth m f p (count is_new mine) (count is_reactivation mine) (count is_churn mine)
    (count (fun r => suspended (st_new r)) mine) (count is_new mine - count is_churn mine).

Definition v_subscriber_growth_monthly (db : ReportDB) : list GrowthRow :=
  let events := List.filter (fun r => negb (st_baseline r)) (status_history db) in
  map (growth_row events) (remove_dups (map growth_key events)).

(** The first arrival of a ticket at resolved, and its reopenings. *)
Definition first_resolution (history : list Tickets.HistoryRow) (ticket : Z) : option Z :=
  min_by Z.leb (map Tickets.h_occurred_at
    (List.filter (fun h => (Tickets.h_ticket h =? ticket) && String.eqb (Tickets.new_status h) "resolved") history)).

Definition reopens (history : list Tickets.HistoryRow) (ticket : Z) : Z :=
  count (fun h => (Tickets.h_ticket h =? ticket) && bool_decide (Tickets.old_status h = Some "resolved"%string) &&
    negb (String.eqb (Tickets.new_status h) "closed")) history.

Definition ticket_key (t : Tickets.Ticket) : Z * string * string * option Z :=
  (month_of (Tickets.CreatedAt t), Tickets.Category t, Tickets.Priority t, Tickets.FranchiseID t).

Definition resolution_times (history : list Tickets.HistoryRow) (mine : list (Z * Tickets.Ticket)) : list Z :=
  omap (fun p => at_ ← first_resolution history p.1; Some (at_ - Tickets.CreatedAt p.2)) mine.

Definition within_sla (history : list Tickets.HistoryRow) (p : Z * Tickets.Ticket) : bool :=
  match first_resolution history p.1, Tickets.SLAResolutionDueAt p.2 with
  | Some at_, Some due => at_ <=? due
  | _, _ => false
  end.

Definition ticket_row (w : Tickets.world) (k : Z * string * string * option Z) : TicketResolutionRow :=
  let mine := List.filter (fun p => bool_decide (ticket_key p.2 = k)) (map_to_list (Tickets.tickets w)) in
  let times := resolution_times (Tickets.history w) mine in
  let '(m, c, p, f) := k in
  MkTicketRow m c p f (Z.of_nat (length mine)) (Z.of_nat (length times))
    (sum_by (fun p => reopens (Tickets.history w) p.1) mine)
    (match times with [] => None | _ :: _ => Some (percentile times) end)
    (count (within_sla (Tickets.history w)) mine).

Definition mv_ticket_resolution (w : Tickets.world) : list TicketResolutionRow :=
  map (ticket_row w) (remove_dups (map (fun p => ticket_key p.2) (map_to_list (Tickets.tickets w)))).

(** [RefreshTicketResolution] *)
Definition RefreshTicketResolution (up : bool) (db : ReportDB) : result unit unit * ReportDB :=
  if up then (Ok tt, MkReportDB (revenue db) (status_history db) (support db) (mv_ticket_resolution (support db))
                      (row_order db))
  else (Err tt, db).

Definition collection_months (db : ReportDB) : list Z :=
  remove_dups (map (fun r => month_of (Revenue.lc_created_at r)) (Revenue.lco_ledger (revenue db)) ++
               map (fun i => month_of (Billing.iv_created_at i)) (Billing.invoices (Revenue.bdb (revenue db)))).

Definition collected_in (f m : Z) (db : ReportDB) : list Revenue.CommissionRow :=
  List.filter (fun r => (Revenue.lc_franchise_id r =? f) && (month_of (Revenue.lc_created_at r) =? m))
    (Revenue.lco_ledger (revenue db)).

Definition billed_in (f m : Z) (db : ReportDB) : list Billing.InvoiceRow :=
  let d := Revenue.bdb (revenue db) in
  List.filter (fun i =>
    match Billing.subscribers d !! Billing.iv_subscriber_id i with
    | Some s => bool_decide (Billing.franchise_id s = Some f)
    | None => false
    end && (month_of (Billing.iv_created_at i) =? m)) (Billing.invoices d).

(** [round(100.0 * collected / billed, 2)], in hundredths. *)
Definition rate_pct (collected billed : Z) : Z := half_away (10000 * collected) (Z.to_pos billed).

Definition collection_row (db : ReportDB) (k : (Z * Revenue.Partner) * Z) : result unit CollectionRow :=
  let '((f, p), m) := k in
  let c := collected_in f m db in
  let b := billed_in f m db in
  let collected := sum_by Revenue.lc_recharge_amount c in
  let commission := sum_by Revenue.lc_commission_amount c in
  let billed := sum_by Billing.iv_total b in
  if numeric14 collected && numeric14 commission && numeric14 billed then
    Ok (MkCollection f (Revenue.pt_Name p) (Revenue.pt_Status p) m (of_paise billed) (Z.of_nat (length b))
          (of_paise collected) (of_paise commission)
          (Z.of_nat (length (remove_dups (map Revenue.lc_subscriber_id c))))
          (if 0 <? billed then Some (numeric_float (rate_pct collected billed)) else None))
  else Err tt.

Definition v_franchise_collection (db : ReportDB) : result unit (list CollectionRow) :=
  all_ok (collection_row db)
    (list_prod (map_to_list (Revenue.partners (revenue db))) (collection_months db)).

(** ** db/reporting.go *)

Definition wanted (franchise : option Z) (f : option Z) : bool :=
  match franchise with None => true | Some _ => bool_decide (f = franchise) end.

Definition in_window (now months m : Z) : bool := month_of now - months <=? m.

Definition by_active (a b : PlanMixRow) : Prop :=
  pm_Active b < pm_Active a \/ (pm_Active a = pm_Active b /\ String.leb (pm_PlanName a) (pm_PlanName b) = true).
#[global] Instance by_active_dec : RelDecision by_active.
Proof. intros a b. unfold by_active. apply _. Defined.

(** A query over a view that cannot be computed fails. *)
Definition PlanMix (up : bool) (franchise : option Z) (db : ReportDB) : result unit (list PlanMixRow) :=
  if negb up then Err tt
  else match v_plan_mix db with
       | Ok rows => Ok (ordered by_active db (List.filter (fun r => wanted franchise (pm_FranchiseID r)) rows))
       | Err e => Err e
       end.

(** [ORDER BY month DESC, plan_id], with NULL last. *)
Definition by_month_plan (a b : GrowthRow) : Prop :=
  gr_Month b < gr_Month a \/
  (gr_Month a = gr_Month b /\
   match gr_PlanID a, gr_PlanID b with Some x, Some y => x <= y | Some _, None => True | None, None => True | None, Some _ => False end).
#[global] Instance by_month_plan_dec : RelDecision by_month_plan.
Proof. intros a b. unfold by_month_plan. destruct (gr_PlanID a), (gr_PlanID b); apply _. Defined.

Definition GrowthMonthly (up : bool) (now months : Z) (franchise : option Z) (db : ReportDB) : result unit (list GrowthRow) :=
  if negb up then Err tt
  else Ok (ordered by_month_plan db (List.filter (fun r => in_window now months (gr_Month r) && wanted franchise (gr_FranchiseID r))
             (v_subscriber_growth_monthly db))).

Definition by_month_category (a b : TicketResolutionRow) : Prop :=
  tr_Month b < tr_Month a \/
  (tr_Month a = tr_Month b /\
   (String.ltb (tr_Category a) (tr_Category b) = true \/
    (tr_Category a = tr_Category b /\ String.leb (tr_Priority a) (tr_Priority b) = true))).
#[global] Instance by_month_category_dec : RelDecision by_month_category.
Proof. intros a b. unfold by_month_category. apply _. Defined.

Definition TicketResolution (up : bool) (now months : Z) (franchise : option Z) (db : ReportDB) :
    result unit (list TicketResolutionRow) :=
  if negb up then Err tt
  else Ok (ordered by_month_category db
             (List.filter (fun r => in_window now months (tr_Month r) && wanted franchise (tr_FranchiseID r)) (materialised db))).

Definition by_month_name (a b : CollectionRow) : Prop :=
  co_Month b < co_Month a \/ (co_Month a = co_Month b /\ String.leb (co_Name a) (co_Name b) = true).
#[global] Instance by_month_name_dec : RelDecision by_month_name.
Proof. intros a b. unfold by_month_name. apply _. Defined.

Definition FranchiseCollection (up : bool) (now months : Z) (franchise : option Z) (db : ReportDB) :
    result unit (list CollectionRow) :=
  if negb up then Err tt
  else match v_franchise_collection db with
       | Ok rows => Ok (ordered by_month_name db
                          (List.filter (fun r => in_window now months (co_Month r) && wanted franchise (Some (co_FranchiseID r))) rows))
       | Err e => Err e
       end.

(** ** internal/reporting: rendering *)

Definition ReportPlanMix : string := "plan-mix".
Definition ReportGrowth : string := "growth".
Definition ReportTicketResolution : string := "ticket-resolution".
Definition ReportCollection : string := "collection".
Definition Reports_ : list string := [ReportPlanMix; ReportGrowth; ReportTicketResolution; ReportCollection].
Definition ValidReport (name : string) : bool := existsb (fun r => String.eqb r name) Reports_.

Definition month (m : Z) : string := padded 4 (m / 12) +:+ "-" +:+ padded 2 (m mod 12 + 1).
Definition optInt (v : option Z) : string := match v with None => EmptyString | Some z => format_int z end.

(** Halves go to the even neighbour. *)
Definition half_even (n d : Z) : Z :=
  let q := n / d in
  let r := 2 * (n mod d) in
  if r <? d then q else if d <? r then q + 1 else if Z.even q then q else q + 1.

(** [strconv.FormatFloat(v, 'f', 2, 64)] *)
Definition format_fixed2 (v : spec_float) : string :=
  match v with
  | S754_zero s => if s then "-0.00" else "0.00"
  | S754_infinity s => if s then "-Inf" else "+Inf"
  | S754_nan => "NaN"
  | S754_finite s m e =>
      let h := if 0 <=? e then 100 * (Zpos m * 2 ^ e) else half_even (100 * Zpos m) (2 ^ (- e)) in
      (if s then "-" else "") +:+ format_int (h / 100) +:+ "." +:+ padded 2 (h mod 100)
  end.

Definition optFloat (v : option spec_float) : string := match v with None => EmptyString | Some f => format_fixed2 f end.

Definition money (d : dec) : string := StringFixed d 2.

Definition plan_mix_header : list string :=
  ["plan_id"; "plan_name"; "price"; "franchise_id"; "total_subscribers"; "active_subscribers"; "suspended_subscribers"; "mrr"]%string.
Definition plan_mix_fields (r : PlanMixRow) : list string :=
  [format_int (pm_PlanID r); pm_PlanName r; money (pm_Price r); optInt (pm_FranchiseID r);
   format_int (pm_Total r); format_int (pm_Active r); format_int (pm_Suspended r); money (pm_MRR r)].

Definition growth_header : list string :=
  ["month"; "franchise_id"; "plan_id"; "new_connections"; "reactivations"; "churned"; "suspended"; "net_growth"]%string.
Definition growth_fields (r : GrowthRow) : list string :=
  [month (gr_Month r); optInt (gr_FranchiseID r); optInt (gr_PlanID r); format_int (gr_New r);
   format_int (gr_Reactivations r); format_int (gr_Churned r); format_int (gr_Suspended r); format_int (gr_Net r)].

Definition ticket_header : list string :=
  ["month"; "category"; "priority"; "franchise_id"; "raised"; "resolved"; "reopens"; "median_resolution_hours"; "resolved_within_sla"]%string.
Definition ticket_fields (r : TicketResolutionRow) : list string :=
  [month (tr_Month r); tr_Category r; tr_Priority r; optInt (tr_FranchiseID r); format_int (tr_Raised r);
   format_int (tr_Resolved r); format_int (tr_Reopens r); optFloat (tr_Median r); format_int (tr_WithinSLA r)].

Definition collection_header : list string :=
  ["franchise_id"; "franchise_name"; "franchise_status"; "month"; "billed"; "invoices_raised"; "collected"; "commission";
   "paying_subscribers"; "collection_rate_pct"]%string.
Definition collection_fields (r : CollectionRow) : list string :=
  [format_int (co_FranchiseID r); co_Name r; co_Status r; month (co_Month r); money (co_Billed r);
   format_int (co_Invoices r); money (co_Collected r); money (co_Commission r); format_int (co_Paying r); optFloat (co_Rate r)].

Definition WritePlanMixCSV (rows : list PlanMixRow) : string := Csv.write_all (plan_mix_header :: map plan_mix_fields rows).
Definition WriteGrowthCSV (rows : list GrowthRow) : string := Csv.write_all (growth_header :: map growth_fields rows).
Definition WriteTicketResolutionCSV (rows : list TicketResolutionRow) : string := Csv.write_all (ticket_header :: map ticket_fields rows).
Definition WriteCollectionCSV (rows : list CollectionRow) : string := Csv.write_all (collection_header :: map collection_fields rows).

Definition DefaultMonths : Z := 12.
Definition MaxMonths : Z := 120.
Definition NormaliseMonths (months : Z) : Z :=
  if months <=? 0 then DefaultMonths else if MaxMonths <? months then MaxMonths else months.

Record Filter : Type := MkFilter { f_Months : Z; f_FranchiseID : option Z }.

(** The rows of a report, whichever it is. *)
Inductive Rows_ : Type :=
  | PlanMixRows (l : list PlanMixRow) | GrowthRows (l : list GrowthRow)
  | TicketRows (l : list TicketResolutionRow) | CollectionRows (l : list CollectionRow).

Definition map_ok {A B} (f : A -> B) (r : result unit A) : result unit B :=
  match r with Ok x => Ok (f x) | Err e => Err e end.

(** The query behind each report; both forms of a report make it. *)
Definition report_rows (up : bool) (now : Z) (report : string) (f : Filter) (db : ReportDB) : result unit Rows_ :=
  let months := NormaliseMonths (f_Months f) in
  if String.eqb report ReportPlanMix then map_ok PlanMixRows (PlanMix up (f_FranchiseID f) db)
  else if String.eqb report ReportGrowth then map_ok GrowthRows (GrowthMonthly up now months (f_FranchiseID f) db)
  else if String.eqb report ReportTicketResolution then map_ok TicketRows (TicketResolution up now months (f_FranchiseID f) db)
  else if String.eqb report ReportCollection then map_ok CollectionRows (FranchiseCollection up now months (f_FranchiseID f) db)
  else Err tt.

Definition rows_csv (r : Rows_) : string :=
  match r with
  | PlanMixRows l => WritePlanMixCSV l | GrowthRows l => WriteGrowthCSV l
  | TicketRows l => WriteTicketResolutionCSV l | CollectionRows l => WriteCollectionCSV l
  end.

Definition WriteCSV (up : bool) (now : Z) (report : string) (f : Filter) (db : ReportDB) : result unit string :=
  map_ok rows_csv (report_rows up now report f db).

Definition Filename (report : string) (f : Filter) (at_ : Z) : string :=
  let '(y, m, d) := Dates.civil (at_ / Dates.day) in
  let name := report +:+ "-" +:+ padded 4 y +:+ "-" +:+ padded 2 m +:+ "-" +:+ padded 2 d in
  let name := match f_FranchiseID f with Some id => name +:+ "-franchise-" +:+ format_int id | None => name end in
  name +:+ ".csv".

(** ** api/reports.go: downloads *)

(** [reportFilter]: the status of a refusal, or the filter. The parameters are
    empty when absent. *)
Definition reportFilter (c : Crm.Caller) (months franchise : string) : Z + Filter :=
  match Crm.callerFranchiseScope c with
  | None => inl 403
  | Some scope =>
      let m := default 0 (atoi months) in
      match scope with
      | Some _ => inr (MkFilter m scope)
      | None =>
          if String.eqb franchise EmptyString then inr (MkFilter m None)
          else match atoi franchise with
               | Some id => if id <=? 0 then inl 422 else inr (MkFilter m (Some id))
               | None => inl 422
               end
      end
  end.

(** What a response carries: rows as JSON, or a file with its name. *)
Inductive Body : Type := NoBody | JSONRows (r : Rows_) | CSVFile (name text : string).

(** The status of a download is out before its query runs: one that fails is
    200 with nothing in the file. *)
Definition GetReport (configured up : bool) (c : Crm.Caller) (now : Z) (report months franchise format : string)
    (db : ReportDB) : Z * Body :=
  if negb configured then (503, NoBody)
  else if negb (ValidReport report) then (404, NoBody)
  else
    match reportFilter c months franchise with
    | inl status => (status, NoBody)
    | inr f =>
        if String.eqb format "csv" then
          (200, CSVFile (Filename report f now) match WriteCSV up now report f db with Ok text => text | Err _ => EmptyString end)
        else
          match report_rows up now report f db with
          | Ok rows => (200, JSONRows rows)
          | Err _ => (500, NoBody)
          end
    end.

(** ** Scheduled exports (export_task.go) *)

Record ExportPayload : Type := MkExport {
  Report : string; Months : Z; FranchiseID_ : option Z; RequestedBy : string; EntityID_ : Z
}.

Definition TaskTypeReportExport : string := "report:export".
Definition QueueReports : string := "reports".
Definition hour : Z := 3600 * Jobqueue.second.

Definition marshal_export (p : ExportPayload) : string :=
  Json.Marshal (("report"%string, Json.VStr (Report p)) ::
    (if Months p =? 0 then [] else [("months"%string, Json.VInt (Months p))]) ++
    (match FranchiseID_ p with Some id => [("franchise_id"%string, Json.VInt id)] | None => [] end) ++
    (if String.eqb (RequestedBy p) EmptyString then [] else [("requested_by"%string, Json.VStr (RequestedBy p))]) ++
    [("entity_id"%string, Json.VInt (EntityID_ p))]).

(** A pointer field: [nil] when the object has none. *)
Definition field_opt_int (k : string) (o : Json.object) : option (option Z) :=
  match Json.lookup_field k o with None => Some None | Some (Json.VInt z) => Some (Some z) | Some _ => None end.

Definition export_of (o : Json.object) : option ExportPayload :=
  r ← Json.field_str "report" o; m ← Json.field_int "months" o; f ← field_opt_int "franchise_id" o;
  b ← Json.field_str "requested_by" o; e ← Json.field_int "entity_id" o; Some (MkExport r m f b e).

Definition NewExportTask (p : ExportPayload) : Jobqueue.Task :=
  Jobqueue.NewTask TaskTypeReportExport (bytes_of_string (marshal_export p))
    [Jobqueue.Queue QueueReports; Jobqueue.MaxRetry 3; Jobqueue.Retention (48 * hour)].

Record World : Type := MkWorld {
  db : ReportDB; tasks : Jobqueue.table; archive : Archive.World; audit : list (string * string * Z)
}.

Section Export.
Context (sha256_hex : list Z -> string) (root : string) (policy : Archive.RetentionPolicy).

(** What the worker is given: whether the query runs, an archive is configured,
    a random suffix, the system call refused, and whether the row is written. *)
Record ExportEnv : Type := MkExportEnv {
  query_up : bool; has_archiver : bool; suffix : string; fault : option Archive.call; record_up : bool
}.

Definition ProcessTask (now : Z) (e : ExportEnv) (payload : list Z) (w : World) : Jobqueue.outcome * World :=
  match Json.unmarshal export_of payload with
  | None => (Jobqueue.Failed "reporting: unmarshal export payload" true, w)
  | Some p =>
      if negb (ValidReport (Report p)) then (Jobqueue.Failed "reporting: unknown report" true, w)
      else
        let filter := MkFilter (Months p) (FranchiseID_ p) in
        match WriteCSV (query_up e) now (Report p) filter (db w) with
        | Err _ => (Jobqueue.Failed "reporting: generate export" false, w)
        | Ok text =>
            if negb (has_archiver e) then (Jobqueue.Failed "reporting: no archival backend configured" true, w)
            else
              let '(r, a) := Archive.ArchiveReport sha256_hex root policy now (suffix e) (fault e) (record_up e)
                               (EntityID_ p) (Filename (Report p) filter now) (bytes_of_string text) (archive w) in
              (match r with Ok _ => Jobqueue.Succeeded | Err _ => Jobqueue.Failed "reporting: deliver export" false end,
               MkWorld (db w) (tasks w) a (audit w))
        end
  end.
End Export.

Record exportRequest : Type := MkExportRequest { rq_Months : Z; rq_FranchiseID : option Z }.

(** The request's body: absent, unreadable, or read. *)
Inductive ExportBody : Type := NoExportBody | BadExportBody | GoodExportBody (r : exportRequest).

(** The export id is the second of the request. *)
Definition RequestReportExport (configured up : bool) (c : Crm.Caller) (who : string) (now : Z) (report : string)
    (body : ExportBody) (w : World) : Z * option Z * World :=
  if negb configured then (503, None, w)
  else if negb (ValidReport report) then (404, None, w)
  else
    match body with
    | BadExportBody => (400, None, w)
    | _ =>
        let req := match body with GoodExportBody r => r | _ => MkExportRequest 0 None end in
        match Crm.callerFranchiseScope c with
        | None => (403, None, w)
        | Some scope =>
            let refused := match scope, rq_FranchiseID req with None, Some id => id <=? 0 | _, _ => false end in
            if refused then (422, None, w)
            else
              let scope := match scope with None => rq_FranchiseID req | Some _ => scope end in
              let exportID := now / Jobqueue.second in
              match Jobqueue.EnqueueContext now up (NewExportTask (MkExport report (rq_Months req) scope who exportID)) [] (tasks w) with
              | (Err _, t) => (500, None, MkWorld (db w) t (archive w) (audit w))
              | (Ok _, t) => (202, Some exportID, MkWorld (db w) t (archive w) (audit w ++ [("report.export_requested"%string, report, exportID)]))
              end
        end
    end.

(** The status, and where the export is; [None] while it is pending. *)
Definition GetReportExport (configured up : bool) (id : option Z) (w : World) : Z * option Archive.Record_ :=
  if negb configured then (503, None)
  else
    match id with
    | None => (400, None)
    | Some id =>
        match Archive.GetArchive up Archive.KindReport id (Archive.archives (archive w)) with
        | Err _ => (500, None)
        | Ok None => (200, None)
        | Ok (Some (_, rec)) => (200, Some rec)
        end
    end.

End Reports.

(** ** Facts *)

(** *** Groups partition the rows *)

Lemma count_cons {A} (p : A -> bool) x l : count p (x :: l) = (if p x then 1 else 0) + count p l.
Proof. unfold count. cbn [List.filter]. destruct (p x); cbn [length]; lia. Qed.

Lemma count_app {A} (p : A -> bool) l1 l2 : count p (l1 ++ l2) = count p l1 + count p l2.
Proof. induction l1 as [| x l1 IH]; [done |]. cbn [app]. rewrite !count_cons, IH. lia. Qed.

Lemma filter_all {A} (f : A -> bool) l : (forall x, f x = true) -> List.filter f l = l.
Proof. intros Hf. induction l as [| x l IH]; [done |]. cbn [List.filter]. by rewrite Hf, IH. Qed.

Section Groups.
Context {A K : Type} `{EqDecision K} (key : A -> K) (p : A -> bool).

Definition group (k : K) (l : list A) : list A := List.filter (fun x => bool_decide (key x = k)) l.

Lemma group_cons k x l : group k (x :: l) = if bool_decide (key x = k) then x :: group k l else group k l.
Proof. done. Qed.

Lemma sum_groups_miss x l ks :
  key x ∉ ks -> sum_by (fun k => count p (group k (x :: l))) ks = sum_by (fun k => count p (group k l)) ks.
Proof.
  intros Hn. induction ks as [| k ks IH]; [done |]. cbn [sum_by foldr]. fold (sum_by (fun k => count p (group k (x :: l))) ks).
  rewrite IH by set_solver. rewrite group_cons, bool_decide_eq_false_2 by set_solver. done.
Qed.

(** Each row is in the group of its key and in no other. *)
Lemma sum_groups ks l :
  NoDup ks -> (forall x, x ∈ l -> key x ∈ ks) -> sum_by (fun k => count p (group k l)) ks = count p l.
Proof.
  intros Hk. induction l as [| x l IH]; intros Hin.
  { clear Hin. induction ks as [| k ks IHk]; [done |]. cbn [sum_by foldr]. inversion Hk; subst. by apply IHk. }
  specialize (Hin x (list_elem_of_here x l)) as Hx. rewrite count_cons.
  rewrite <- IH by (intros y Hy; apply Hin; by right). clear IH Hin.
  induction Hk as [| k ks Hnk Hk IHk]; [by apply not_elem_of_nil in Hx |].
  cbn [sum_by foldr]. fold (sum_by (fun k => count p (group k (x :: l))) ks). fold (sum_by (fun k => count p (group k l)) ks).
  rewrite group_cons. destruct (decide (key x = k)) as [<- | Hne].
  - rewrite bool_decide_eq_true_2 by done. rewrite count_cons, sum_groups_miss by done. lia.
  - rewrite bool_decide_eq_false_2 by done. apply elem_of_cons in Hx as [? | Hx]; [congruence |]. rewrite (IHk Hx). lia.
Qed.
End Groups.

Section Correctness.
Context `{Decimal} (StringFixed : dec -> Z -> string) (numeric_float : Z -> spec_float).

Notation report_rows := (report_rows numeric_float).
Notation GetReport := (GetReport StringFixed numeric_float).
Notation WriteCSV := (WriteCSV StringFixed numeric_float).

Lemma all_ok_sum {A B} (f : A -> result unit B) (g : B -> Z) (h : A -> Z) l l' :
  all_ok f l = Ok l' -> (forall x y, f x = Ok y -> g y = h x) -> sum_by g l' = sum_by h l.
Proof.
  revert l'. induction l as [| x l IH]; intros l' Hl Hg; cbn [all_ok] in Hl; [by injection Hl as <- |].
  destruct (f x) as [y |] eqn:Hf; [| done]. destruct (all_ok f l) as [ys |]; [| done]. injection Hl as <-.
  cbn. rewrite (Hg x y Hf). f_equal. by apply IH.
Qed.

Lemma arranged_perm {A} picks (l : list A) : arranged picks l ≡ₚ l.
Proof.
  revert l. induction picks as [| n picks IH]; intros l; simpl; [done |].
  destruct (l !! (n mod length l)%nat) as [x |] eqn:Hx; [| done].
  rewrite IH. symmetry. by apply delete_Permutation.
Qed.

Lemma ordered_perm {A} (R : relation A) `{!RelDecision R} db (l : list A) : ordered R db l ≡ₚ l.
Proof. unfold ordered. by rewrite merge_sort_Permutation, arranged_perm. Qed.

Lemma plan_groups_keys plans subs :
  Forall (fun s => is_Some (plans !! Billing.plan_id s)) subs ->
  map (fun g => (g.1.1, g.2)) (plan_groups plans subs) = remove_dups (map (fun s => (Billing.plan_id s, Billing.franchise_id s)) subs).
Proof.
  intros Hs. unfold plan_groups. set (ks := remove_dups _).
  assert (Forall (fun k => is_Some (plans !! k.1)) ks) as Hks.
  { apply Forall_forall. intros k Hk. apply elem_of_remove_dups, list_elem_of_fmap in Hk as (s & -> & Hin).
    rewrite Forall_forall in Hs. by apply Hs. }
  clearbody ks. induction Hks as [| [k f] ks [pl Hp] Hks IH]; [done |]. cbn in *. rewrite Hp. cbn. by f_equal.
Qed.

(** The plan-mix report counts every subscriber on an existing plan exactly
    once, and every active one exactly once, however the base splits into plans
    and franchises. *)
Theorem plan_mix_counts_everyone db rows :
  let subs := subscriber_rows db in
  Forall (fun s => is_Some (Billing.plans (Revenue.bdb (revenue db)) !! Billing.plan_id s)) subs ->
  PlanMix true None db = Ok rows ->
  sum_by pm_Total rows = Z.of_nat (length subs) /\
  sum_by pm_Active rows = count (fun s => String.eqb (Billing.status s) "active") subs /\
  sum_by pm_Suspended rows = count (fun s => suspended (Billing.status s)) subs.
Proof.
  intros subs Hplans. unfold PlanMix. cbn [negb]. destruct (v_plan_mix db) as [l |] eqn:Hv; [| done]. intros [= <-].
  assert (forall f, sum_by f (ordered by_active db (List.filter (fun r => wanted None (pm_FranchiseID r)) l)) = sum_by f l) as Hsort.
  { intros f. rewrite (sum_by_Permutation f _ _ (ordered_perm by_active _ _)). by rewrite filter_all by done. }
  rewrite !Hsort. unfold v_plan_mix in Hv. fold subs in Hv.
  assert (forall g p, (forall id pl f y, plan_mix_row id pl f subs = Ok y -> g y = count p (List.filter (plan_group id f) subs)) ->
    sum_by g l = count p subs) as Hall.
  { intros g p Hg.
    rewrite (all_ok_sum _ g (fun x => count p (List.filter (plan_group x.1.1 x.2) subs)) _ _ Hv) by (intros [[id pl] f] y Hy; by apply Hg in Hy).
    transitivity (sum_by (fun k => count p (group (fun s => (Billing.plan_id s, Billing.franchise_id s)) k subs))
      (map (fun g => (g.1.1, g.2)) (plan_groups (Billing.plans (Revenue.bdb (revenue db))) subs))).
    - generalize (plan_groups (Billing.plans (Revenue.bdb (revenue db))) subs). intros gs.
      induction gs as [| [[id pl] f] gs IH]; [done |]. cbn [map sum_by foldr fst snd]. f_equal; [| exact IH].
      unfold group. f_equal. apply List.filter_ext. intros s. unfold plan_group. cbn [fst snd].
      destruct (Z.eqb_spec (Billing.plan_id s) id) as [<- | Hne]; cbn [andb].
      + apply bool_decide_ext. split; [by intros -> | by intros [= ->]].
      + symmetry. apply bool_decide_eq_false_2. by intros [= ? ?].
    - rewrite plan_groups_keys by done. apply sum_groups; [apply NoDup_remove_dups |].
      intros s Hs. apply elem_of_remove_dups, list_elem_of_fmap. by exists s. }
  assert (forall id pl f y, plan_mix_row id pl f subs = Ok y ->
    pm_Total y = count (fun _ => true) (List.filter (plan_group id f) subs) /\
    pm_Active y = count (fun s => String.eqb (Billing.status s) "active") (List.filter (plan_group id f) subs) /\
    pm_Suspended y = count (fun s => suspended (Billing.status s)) (List.filter (plan_group id f) subs)) as Hrow.
  { intros id pl f y. unfold plan_mix_row. destruct (numeric14 _); [| done]. intros [= <-]. cbn. split_and!; try done.
    unfold count. by rewrite (filter_all (fun _ => true)) by done. }
  split_and!.
  - rewrite (Hall _ (fun _ => true)) by (intros id pl f y Hy; by apply Hrow in Hy as (? & _)).
    unfold count. by rewrite (filter_all (fun _ => true)) by done.
  - apply Hall. intros id pl f y Hy. by apply Hrow in Hy as (_ & ? & _).
  - apply Hall. intros id pl f y Hy. by apply Hrow in Hy as (_ & _ & ?).
Qed.

(** *** A partner's reports *)

(** Every row of a report is of one franchise. *)
Definition confined (f : Z) (r : Rows_) : Prop :=
  match r with
  | PlanMixRows l => Forall (fun x => pm_FranchiseID x = Some f) l
  | GrowthRows l => Forall (fun x => gr_FranchiseID x = Some f) l
  | TicketRows l => Forall (fun x => tr_FranchiseID x = Some f) l
  | CollectionRows l => Forall (fun x => co_FranchiseID x = f) l
  end.

Lemma wanted_spec f x : wanted (Some f) x = true -> x = Some f.
Proof. unfold wanted. by intros ?%bool_decide_eq_true. Qed.

Lemma sorted_confined {A} (R : relation A) `{!RelDecision R} db (p : A -> bool) (P : A -> Prop) l :
  (forall x, p x = true -> P x) -> Forall P (ordered R db (List.filter p l)).
Proof.
  intros Hp. rewrite (ordered_perm R). apply Forall_forall. intros x Hx.
  apply elem_of_filterb in Hx as [_ Hx]. auto.
Qed.

Lemma report_rows_confined up now report m f db rows :
  report_rows up now report (MkFilter m (Some f)) db = Ok rows -> confined f rows.
Proof.
  unfold Reporting.report_rows. cbn [f_FranchiseID f_Months].
  assert (forall p x, p && wanted (Some f) x = true -> x = Some f) as Hw by (by intros p x [_ ?%wanted_spec]%andb_true_iff).
  destruct (String.eqb report ReportPlanMix); [| destruct (String.eqb report ReportGrowth);
    [| destruct (String.eqb report ReportTicketResolution); [| destruct (String.eqb report ReportCollection); [| done]]]].
  - unfold PlanMix. destruct up; [| done]. cbn [negb]. destruct (v_plan_mix db); [| done]. intros [= <-].
    apply sorted_confined. intros x. apply wanted_spec.
  - unfold GrowthMonthly. destruct up; [| done]. intros [= <-]. apply sorted_confined. intros x. apply Hw.
  - unfold TicketResolution. destruct up; [| done]. intros [= <-]. apply sorted_confined. intros x. apply Hw.
  - unfold FranchiseCollection. destruct up; [| done]. cbn [negb]. destruct (v_franchise_collection _ db); [| done].
    intros [= <-]. apply sorted_confined. intros x Hx. apply Hw in Hx. by injection Hx.
Qed.

(** C35: A caller confined to a franchise gets rows of that franchise and no
    other from every report, as JSON and as a file, whatever parameters the
    request carries. *)
Theorem reports_stay_in_the_franchise configured up c f now report months franchise format db :
  Crm.callerFranchiseScope c = Some (Some f) ->
  match (GetReport configured up c now report months franchise format db).2 with
  | NoBody => True
  | JSONRows r => confined f r
  | CSVFile _ text => text = EmptyString \/ exists r, text = rows_csv StringFixed r /\ confined f r
  end.
Proof.
  intros Hc. unfold Reporting.GetReport, reportFilter. destruct configured; [| done]. cbn [negb].
  destruct (ValidReport report); [| done]. cbn [negb]. rewrite Hc.
  pose proof (report_rows_confined up now report (default 0 (atoi months)) f db) as Hr.
  destruct (String.eqb format "csv"); unfold Reporting.WriteCSV.
  - destruct (report_rows _ _ _ _ _) as [rows |]; [right; exists rows; auto | by left].
  - destruct (report_rows _ _ _ _ _) as [rows |]; [| done]. by apply Hr.
Qed.

(** The same rows, in whatever order. *)
Definition same_rows (r r' : Rows_) : Prop :=
  match r, r' with
  | PlanMixRows l, PlanMixRows l' => l ≡ₚ l'
  | GrowthRows l, GrowthRows l' => l ≡ₚ l'
  | TicketRows l, TicketRows l' => l ≡ₚ l'
  | CollectionRows l, CollectionRows l' => l ≡ₚ l'
  | _, _ => False
  end.

Lemma rows_rescanned now report f db picks rows :
  report_rows true now report f db = Ok rows ->
  exists rows', report_rows true now report f (rescanned picks db) = Ok rows' /\ same_rows rows rows'.
Proof.
  unfold Reporting.report_rows, PlanMix, GrowthMonthly, TicketResolution, FranchiseCollection. cbn [negb].
  change (v_plan_mix (rescanned picks db)) with (v_plan_mix db).
  change (Reporting.v_franchise_collection numeric_float (rescanned picks db))
    with (Reporting.v_franchise_collection numeric_float db).
  destruct (String.eqb report ReportPlanMix); [| destruct (String.eqb report ReportGrowth);
    [| destruct (String.eqb report ReportTicketResolution); [| destruct (String.eqb report ReportCollection); [| done]]]].
  1: destruct (v_plan_mix db); [| done].
  4: destruct (Reporting.v_franchise_collection _ _); [| done].
  all: simpl; intros [= <-]; eexists; (split; [reflexivity |]); simpl; by rewrite !ordered_perm.
Qed.

(** The file of every report reads back as its header and its rows. *)
Definition rows_records (r : Rows_) : list (list string) :=
  match r with
  | PlanMixRows l => plan_mix_header :: map (plan_mix_fields StringFixed) l
  | GrowthRows l => growth_header :: map growth_fields l
  | TicketRows l => ticket_header :: map ticket_fields l
  | CollectionRows l => collection_header :: map (collection_fields StringFixed) l
  end.

Lemma rows_csv_reads r : Csv.read_all (rows_csv StringFixed r) = Some (rows_records r).
Proof.
  assert (rows_csv StringFixed r = Csv.write_all (rows_records r)) as -> by (by destruct r).
  apply Csv.csv_roundtrip. destruct r; cbn [rows_records]; constructor; try done.
  all: apply Forall_forall; intros x (y & <- & _)%list_elem_of_In%in_map_iff; done.
Qed.

Lemma rows_csv_nonempty r : bytes_of_string (rows_csv StringFixed r) <> [].
Proof.
  assert (rows_csv StringFixed r <> EmptyString) as Hne.
  { intros E. pose proof (rows_csv_reads r) as Hr. rewrite E in Hr. by destruct r. }
  by destruct (rows_csv StringFixed r).
Qed.

(** *** Exports *)

Lemma export_reads p :
  Json.ascii_text (Report p) = true -> Json.ascii_text (RequestedBy p) = true -> Json.in_int64 (Months p) = true ->
  Json.in_int64 (EntityID_ p) = true -> (forall f, FranchiseID_ p = Some f -> Json.in_int64 f = true) ->
  Json.unmarshal export_of (bytes_of_string (marshal_export p)) = Some p.
Proof.
  destruct p as [r m f b e]. cbn [Report RequestedBy Months EntityID_ FranchiseID_]. intros Hr Hb Hm He Hf.
  unfold marshal_export. rewrite Json.unmarshal_marshal.
  - cbn [Report RequestedBy Months EntityID_ FranchiseID_].
    destruct (Z.eqb_spec m 0) as [-> |]; destruct f; destruct (String.eqb_spec b EmptyString) as [-> |]; reflexivity.
  - cbn [Report RequestedBy Months EntityID_ FranchiseID_]. constructor; [done |].
    apply Forall_app. split; [by destruct (m =? 0); repeat constructor |].
    apply Forall_app. split; [destruct f; repeat constructor; by apply Hf |].
    apply Forall_app. split; [by destruct (String.eqb b EmptyString); repeat constructor |]. by repeat constructor.
Qed.

Section Delivery.
Context (sha256_hex : list Z -> string) (root : string) (rsegs : list string) (policy : Archive.RetentionPolicy).
Context (Hroot : Archive.archive_root root rsegs).

Notation ProcessTask := (ProcessTask StringFixed numeric_float sha256_hex root policy).

(** Nothing fails: the query runs, the archive is there and takes the file. *)
Definition untroubled (e : ExportEnv) : Prop :=
  query_up e = true /\ has_archiver e = true /\ fault e = None /\ record_up e = true.

(** The document an export becomes. *)
Definition export_document (id : Z) (report : string) (f : Filter) (now : Z) (text : string) : Archive.Document :=
  Archive.MkDocument Archive.KindReport id (Filename report f now) (Some (Archive.MkReader [bytes_of_string text] false)).

Lemma enqueued now up task t :
  Jobqueue.o_taskID (Jobqueue.opts task) = EmptyString ->
  match Jobqueue.EnqueueContext now up task [] t with
  | (Ok i, t') => up = true /\ Jobqueue.rows t' !! i = Some (Jobqueue.enqueued_row now task (Jobqueue.opts task))
  | (Err _, _) => True
  end.
Proof.
  intros Ht. unfold Jobqueue.EnqueueContext. cbn [Jobqueue.apply_options foldl]. rewrite Ht. destruct up; [| done].
  cbn. by rewrite lookup_insert_eq.
Qed.

Lemma process_delivers now e p w text :
  Json.unmarshal export_of (bytes_of_string (marshal_export p)) = Some p -> ValidReport (Report p) = true ->
  WriteCSV true now (Report p) (MkFilter (Months p) (FranchiseID_ p)) (db w) = Ok text ->
  untroubled e -> 0 < EntityID_ p <= 2 ^ 31 - 1 -> Archive.wf rsegs (Archive.archives (archive w)) ->
  let doc := export_document (EntityID_ p) (Report p) (MkFilter (Months p) (FranchiseID_ p)) now text in
  Archive.clear_way (Archive.document_path rsegs doc now)
    (Archive.temp_path (Archive.document_path rsegs doc now) (suffix e)) (Archive.disk (archive w)) ->
  exists w' i rec, ProcessTask now e (bytes_of_string (marshal_export p)) w = (Jobqueue.Succeeded, w') /\
    Archive.RetrieveLatest sha256_hex root true true Archive.KindReport (EntityID_ p) (archive w') =
    Ok (Some (bytes_of_string text, (i, rec))).
Proof.
  intros Hdec Hv Htext (Hq & Ha & Hfault & Hup) Hid Hwf doc Hclear.
  assert (Archive.contents (Archive.MkReader [bytes_of_string text] false) = bytes_of_string text) as Hcont.
  { unfold Archive.contents. cbn. by rewrite app_nil_r. }
  destruct (Archive.Archive_succeeds sha256_hex root rsegs Hroot policy now (suffix e) doc
    (Archive.MkReader [bytes_of_string text] false) (archive w)) as (i & a' & Har); try done.
  { rewrite Hcont. unfold Reporting.WriteCSV in Htext. destruct (report_rows _ _ _ _ _); [| done].
    injection Htext as <-. apply rows_csv_nonempty. }
  exists (MkWorld (db w) (tasks w) a' (audit w)), i, (Archive.new_record sha256_hex rsegs policy now doc (Archive.MkReader [bytes_of_string text] false)).
  unfold Reporting.ProcessTask. rewrite Hdec, Hv. cbn [negb]. rewrite Hq, Htext, Ha, Hfault, Hup. cbn [negb].
  unfold Archive.ArchiveReport. fold doc. fold (export_document (EntityID_ p) (Report p) (MkFilter (Months p) (FranchiseID_ p)) now text).
  fold doc. rewrite Har. split; [done |]. cbn [archive].
  destruct (Archive.archived_kept sha256_hex root rsegs Hroot policy now (suffix e) None true doc (archive w) i _ a' Hwf Har)
    as (r & Hb & Hk & He & Hrec & Hkept). injection Hb as <-.
  pose proof (Archive.kept_retrieved sha256_hex root rsegs Hroot policy now doc _ i a' Hk Hkept) as Hret.
  rewrite Hcont in Hret. exact Hret.
Qed.

Lemma retrieved_listed kind id w b x :
  Archive.RetrieveLatest sha256_hex root true true kind id w = Ok (Some (b, x)) ->
  Archive.GetArchive true kind id (Archive.archives w) = Ok (Some x).
Proof.
  unfold Archive.RetrieveLatest. destruct (Archive.GetArchive true kind id (Archive.archives w)) as [[[i rec] |] |]; [| done | done].
  destruct (Archive.Retrieve _ _ _ _ _); [| done]. by intros [= _ <-].
Qed.

(** The franchise an export is limited to: the caller's own, or for staff of
    the ISP the one the request names. *)
Definition request_scope (c : Crm.Caller) (req : exportRequest) : option Z :=
  match Crm.callerFranchiseScope c with Some (Some fr) => Some fr | _ => rq_FranchiseID req end.

(** C34: An accepted export is one row on the reports queue, for the caller's
    own franchise when the caller is confined to one, whatever the request
    names. When a worker runs it and nothing fails, polling the export's id
    right afterwards answers with its archive record, and the archived bytes
    are those of the file the same caller would download then for the same
    report, rows that tie in its ORDER BY coming in the same order; in another
    order the download has the same rows. Exports asked for within one second
    share an id
    (see [exports_of_one_second_collide]), and any caller may poll any id. *)
Theorem scheduled_export_is_the_download c who now report body w id w1 :
  RequestReportExport true true c who now report body w = (202, Some id, w1) ->
  let req := match body with GoodExportBody r => r | _ => MkExportRequest 0 None end in
  Json.ascii_text who = true -> Json.in_int64 (Crm.franchise_claim c) = true -> Json.in_int64 (rq_Months req) = true ->
  (forall f, rq_FranchiseID req = Some f -> Json.in_int64 f = true) -> 0 < now / Jobqueue.second <= 2 ^ 31 - 1 ->
  let f := MkFilter (rq_Months req) (request_scope c req) in
  (forall fr, Crm.callerFranchiseScope c = Some (Some fr) -> f_FranchiseID f = Some fr) /\
  exists row, Jobqueue.rows (tasks w1) !! Jobqueue.next_id (tasks w) = Some row /\ Jobqueue.queue row = QueueReports /\
    forall now2 e w2 text, WriteCSV true now2 report f (db w2) = Ok text ->
      untroubled e -> Archive.wf rsegs (Archive.archives (archive w2)) ->
      let doc := export_document id report f now2 text in
      Archive.clear_way (Archive.document_path rsegs doc now2)
        (Archive.temp_path (Archive.document_path rsegs doc now2) (suffix e)) (Archive.disk (archive w2)) ->
      (forall months franchise, reportFilter c months franchise = inr f ->
         GetReport true true c now2 report months franchise "csv" (db w2) = (200, CSVFile (Filename report f now2) text) /\
         exists rows, text = rows_csv StringFixed rows /\ forall picks, exists rows',
           GetReport true true c now2 report months franchise "csv" (rescanned picks (db w2)) =
           (200, CSVFile (Filename report f now2) (rows_csv StringFixed rows')) /\ same_rows rows rows') /\
      exists w3 i rec, ProcessTask now2 e (Jobqueue.row_payload row) w2 = (Jobqueue.Succeeded, w3) /\
        GetReportExport true true (Some id) w3 = (200, Some rec) /\
        Archive.RetrieveLatest sha256_hex root true true Archive.KindReport id (archive w3) =
        Ok (Some (bytes_of_string text, (i, rec))).
Proof.
  intros Hreq req Hwho Hclaim Hmonths Hfr Hid f. split; [unfold f, request_scope; cbn [f_FranchiseID]; by intros fr -> |].
  unfold RequestReportExport in Hreq. cbn [negb] in Hreq.
  destruct (ValidReport report) eqn:Hv; cbn [negb] in Hreq; [| done].
  assert (body <> BadExportBody) as Hbad by (by intros ->).
  destruct (Crm.callerFranchiseScope c) as [scope |] eqn:Hscope; [| by destruct body].
  set (scope' := match scope with None => rq_FranchiseID req | Some _ => scope end).
  assert (f = MkFilter (rq_Months req) scope') as Ef by (unfold f, request_scope, scope'; rewrite Hscope; by destruct scope).
  clearbody f. subst f.
  set (p := MkExport report (rq_Months req) scope' who (now / Jobqueue.second)).
  pose proof (enqueued now true (NewExportTask p) (tasks w) eq_refl) as Henq.
  assert (Jobqueue.EnqueueContext now true (NewExportTask p) [] (tasks w) = (Ok (Jobqueue.next_id (tasks w)), tasks w1) /\
    id = now / Jobqueue.second) as [Hq ->].
  { destruct body; try done; cbv zeta in Hreq; fold req in Hreq;
      (destruct (match scope, rq_FranchiseID req with None, Some i => i <=? 0 | _, _ => false end); [done |]);
      fold scope' in Hreq; fold p in Hreq; destruct (Jobqueue.EnqueueContext _ _ _ _ _) as [[i |] t] eqn:Ee; try done;
      injection Hreq as <- <-; cbn [tasks]; (split; [| done]); unfold Jobqueue.EnqueueContext in Ee; cbn in Ee;
      by injection Ee as <- <-. }
  rewrite Hq in Henq. destruct Henq as [_ Hrow]. exists (Jobqueue.enqueued_row now (NewExportTask p) (Jobqueue.opts (NewExportTask p))).
  split_and!; [done | done |].
  intros now2 e w2 text Htext He Hwf doc Hclear. split.
  { intros months franchise Hf. unfold Reporting.GetReport. cbn [negb]. rewrite Hv, Hf. cbn [negb].
    rewrite String.eqb_refl, Htext. split; [done |].
    unfold Reporting.WriteCSV in Htext |- *. destruct (report_rows _ _ _ _ _) as [rows |] eqn:Hrows; [| done].
    injection Htext as <-. exists rows. split; [done |]. intros picks.
    destruct (rows_rescanned _ _ _ _ picks _ Hrows) as (rows' & -> & Hsame). by exists rows'. }
  assert (Json.in_int64 (now / Jobqueue.second) = true) as Hid64.
  { unfold Json.in_int64. apply andb_true_iff. change (2 ^ 31 - 1) with 2147483647 in Hid. unfold max_int64. split; lia. }
  assert (Json.unmarshal export_of (bytes_of_string (marshal_export p)) = Some p) as Hdec.
  { apply export_reads; cbn [Report RequestedBy Months EntityID_ FranchiseID_ p]; try done.
    - apply List.existsb_exists in Hv as (r & Hin & <-%String.eqb_eq). unfold Reports_ in Hin.
      by repeat (destruct Hin as [<- | Hin]; [reflexivity |]).
    - intros f Hf. unfold scope' in Hf. destruct scope as [s |]; [| by apply Hfr]. injection Hf as <-.
      unfold Crm.callerFranchiseScope in Hscope. destruct (negb _); [done |]. destruct (_ =? 0); [done |]. by injection Hscope as <-. }
  destruct (process_delivers now2 e p w2 text Hdec Hv Htext He Hid Hwf Hclear) as (w3 & i & rec & Hp & Hret).
  exists w3, i, rec. split_and!; [exact Hp | | exact Hret].
  apply retrieved_listed in Hret. change (EntityID_ p) with (now / Jobqueue.second) in Hret.
  unfold GetReportExport. cbn [negb]. by rewrite Hret.
Qed.

End Delivery.

End Correctness.

(** ** Runs *)

Definition demo_fixed (q : Q) (places : Z) : string := format_int (Qnum (round_half_away places q)).
Definition demo_float (z : Z) : spec_float :=
  match z with Z0 => S754_zero false | Zpos m => S754_finite false m (-3) | Zneg m => S754_finite true m (-3) end.

Definition no_tickets : Tickets.world := Tickets.MkWorld ∅ ∅ ∅ ∅ ∅ ∅ 1 [] ∅ [] (Jobqueue.MkTable ∅ 1) [] [].
Definition mid_january : Z := Dates.midnight (2026, 1, 15).
Definition demo_history : list StatusRow :=
  [MkStatus None "active" (Some 1) (Some 5) false mid_january; MkStatus None "active" (Some 1) (Some 5) true mid_january;
   MkStatus (Some "active"%string) "hard_suspended" (Some 1) (Some 5) false mid_january;
   MkStatus (Some "hard_suspended"%string) "active" (Some 1) (Some 5) false mid_january;
   MkStatus None "active" (Some 2) (Some 6) false mid_january].
Definition demo_db : ReportDB := MkReportDB Revenue.demo_world demo_history no_tickets [] [].
Definition demo_world : World := MkWorld demo_db (Jobqueue.MkTable ∅ 1) Archive.empty_world [].
Definition partner (f : Z) : Crm.Caller := Crm.MkCaller "lco" f.
Definition owner : Crm.Caller := Crm.MkCaller "owner" 0.
Definition monday : Z := Dates.midnight (2026, 1, 19).

Notation demo_report := (@GetReport RationalDecimal demo_fixed demo_float).
Notation demo_request := RequestReportExport.
Notation demo_process := (@ProcessTask RationalDecimal demo_fixed demo_float Archive.demo_sha Archive.demo_root Archive.DefaultRetention).
Definition fine_env (s : string) : ExportEnv := MkExportEnv true true s None true.

Example growth_report :
  demo_report true true (partner 5) monday "growth" "3" "6" "csv" demo_db =
  (200, CSVFile "growth-2026-01-19-franchise-5.csv"
     (Csv.write_all [growth_header; ["2026-01"; "5"; "1"; "1"; "1"; "0"; "1"; "1"]])%string).
Proof. vm_compute. reflexivity. Qed.

Example median_formats :
  map format_fixed2 [S754_finite false 1 (-3); S754_finite true 3 (-3); S754_finite false 5 1; S754_zero false] =
  ["0.12"; "-0.38"; "10.00"; "0.00"]%string.
Proof. vm_compute. reflexivity. Qed.

(** The query of a CSV download runs after the status is out: when it fails, the
    caller gets a 200 and an empty file, where JSON gets a 500. *)
Example failed_query_is_an_empty_file :
  demo_report true false owner monday "growth" "" "" "csv" demo_db = (200, CSVFile "growth-2026-01-19.csv" EmptyString) /\
  demo_report true false owner monday "growth" "" "" "json" demo_db = (500, NoBody).
Proof. vm_compute. done. Qed.

(** Two partners who ask within a second share an export id: the second file
    takes the first one's place, and both are told it is theirs. *)
Definition first_asked := demo_request true true (partner 5) "devi" monday "growth" NoExportBody demo_world.
Definition second_asked := demo_request true true (partner 6) "ravi" (monday + 900000000) "growth" NoExportBody first_asked.2.
Definition payload_of (id : Z) (w : World) : list Z :=
  match Jobqueue.rows (tasks w) !! id with Some r => Jobqueue.row_payload r | None => [] end.
Definition both_delivered : World :=
  (demo_process monday (fine_env "2") (payload_of 2 second_asked.2)
     (demo_process monday (fine_env "1") (payload_of 1 second_asked.2) second_asked.2).2).2.

Example exports_of_one_second_collide :
  first_asked.1 = (202, Some 1768780800) /\ second_asked.1 = (202, Some 1768780800) /\
  (demo_process monday (fine_env "1") (payload_of 1 second_asked.2) second_asked.2).1 = Jobqueue.Succeeded /\
  match GetReportExport true true (Some 1768780800) both_delivered with
  | (200, Some rec) => Archive.StorageURL rec
  | _ => EmptyString
  end = "file:///var/archive/report/2026/01/1768780800-growth-2026-01-19-franchise-6.csv"%string.
Proof. vm_compute. done. Qed.

Lemma reports_stay_in_the_franchise_witness :
  match (demo_report true true (partner 5) monday "growth" "3" "6" "json" demo_db).2 with
  | NoBody => True
  | JSONRows r => confined 5 r
  | CSVFile _ text => text = EmptyString \/ exists r, text = @rows_csv RationalDecimal demo_fixed r /\ confined 5 r
  end.
Proof. apply (@reports_stay_in_the_franchise RationalDecimal demo_fixed demo_float). vm_compute. reflexivity. Defined.

Definition demo_mix : list (@PlanMixRow RationalDecimal) :=
  match @PlanMix RationalDecimal true None demo_db with Ok l => l | Err _ => [] end.

Lemma plan_mix_counts_everyone_witness :
  sum_by (@pm_Total RationalDecimal) demo_mix = 2 /\ length demo_mix = 2%nat.
Proof.
  destruct (@plan_mix_counts_everyone RationalDecimal demo_db demo_mix) as (Htotal & _ & _).
  - apply (bool_decide_unpack _). vm_compute. exact I.
  - vm_compute. reflexivity.
  - split; [rewrite Htotal; vm_compute; reflexivity | vm_compute; reflexivity].
Defined.

Definition growth_text : string :=
  match @WriteCSV RationalDecimal demo_fixed demo_float true monday "growth" (MkFilter 0 (Some 5)) demo_db with
  | Ok text => text | Err _ => EmptyString
  end.

Lemma scheduled_export_is_the_download_witness :
  exists row w3 i rec, Jobqueue.rows (tasks first_asked.2) !! 1 = Some row /\
    demo_process monday (fine_env "1") (Jobqueue.row_payload row) demo_world = (Jobqueue.Succeeded, w3) /\
    Archive.RetrieveLatest Archive.demo_sha Archive.demo_root true true Archive.KindReport 1768780800 (archive w3) =
    Ok (Some (bytes_of_string growth_text, (i, rec))).
Proof.
  destruct (@scheduled_export_is_the_download RationalDecimal demo_fixed demo_float Archive.demo_sha Archive.demo_root
    Archive.demo_segments Archive.DefaultRetention Archive.demo_root_ok (partner 5) "devi" monday "growth" NoExportBody
    demo_world 1768780800 first_asked.2) as (_ & row & Hrow & _ & Hrun).
  - vm_compute. reflexivity.
  - vm_compute. reflexivity.
  - vm_compute. reflexivity.
  - vm_compute. reflexivity.
  - intros f Hf. vm_compute in Hf. discriminate Hf.
  - vm_compute. split; [reflexivity | discriminate].
  - destruct (Hrun monday (fine_env "1") demo_world growth_text) as (_ & w3 & i & rec & Hp & _ & Hr).
    + vm_compute. reflexivity.
    + split_and!; reflexivity.
    + apply Archive.wf_empty.
    + apply (bool_decide_unpack _). vm_compute. exact I.
    + exists row, w3, i, rec. split; [exact Hrow |]. split; [exact Hp | exact Hr].
Defined.

End Reporting.
