(* ===== verification/Announcements.v ===== *)
(** * Announcements: staff broadcasts (internal/notifications/announcement*.go,
    internal/api/announcements.go, internal/db/announcements.go)

    The [announcements] and [announcement_recipients] tables (migrations 028
    and 041), composing, the claim that lets a draft be sent once, the fan-out
    into the task queue, the portal's banners and the worker that hands each
    task to the dispatcher of [Notify]. Sends that overlap, crash or race with
    changes of the subscriber table are the step relation [step]. *)

From S2P Require Import Prelude GoStrings Json Jobqueue Subscribers Notify.
From stdpp Require Import sorting.

Local Open Scope Z_scope.

Module Ann.

Definition AnnouncementDraft : string := "draft".
Definition AnnouncementSending : string := "sending".
Definition AnnouncementSent : string := "sent".
Definition AnnouncementFailed : string := "failed".

(** A row of the table; recipients picked by hand are in a table of their own. *)
Record Announcement : Type := MkAnnouncement {
  Title : string;
  Body : string;
  Channels : list string;
  Class : string;
  SegmentFranchiseID : option Z;
  SegmentPlanID : option Z;
  SegmentStatus : option string;
  ShowInPortal : bool;
  Status : string;
  RecipientCount : Z;
  CreatedBy : string;
  CreatedAt : Z;
  SentAt : option Z
}.

Definition with_status (st : string) (count : Z) (at_ : option Z) (a : Announcement) : Announcement :=
  MkAnnouncement (Title a) (Body a) (Channels a) (Class a) (SegmentFranchiseID a) (SegmentPlanID a) (SegmentStatus a)
    (ShowInPortal a) st count (CreatedBy a) (CreatedAt a) at_.

Definition ValidChannel (c : string) : bool := Notify.one_of Notify.channels_known c.
Definition ValidClass (c : string) : bool := String.eqb c "marketing" || String.eqb c "transactional".

(** What a segment looks at in a subscriber's row. *)
Record Target : Type := MkTarget { franchise_id : option Z; plan_id : Z; status : string }.

Record Tables : Type := MkTables {
  announcements : gmap Z Announcement;
  next_id : Z;
  recipients : gset (Z * Z);
  subscribers : gmap Z Target;
  franchises : gset Z;
  plans : gset Z
}.

Definition with_rows (m : gmap Z Announcement) (t : Tables) : Tables :=
  MkTables m (next_id t) (recipients t) (subscribers t) (franchises t) (plans t).

(** ** db/announcements.go *)

(** A new announcement; a nil [channels] is sent as NULL, which the column refuses. *)
Record Draft : Type := MkDraft {
  d_Title : string;
  d_Body : string;
  d_Channels : option (list string);
  d_Class : string;
  d_SegmentFranchiseID : option Z;
  d_SegmentPlanID : option Z;
  d_SegmentStatus : option string;
  d_ShowInPortal : bool;
  d_SubscriberIDs : list Z;
  d_CreatedBy : string
}.

Definition draft_row (now : Z) (d : Draft) (channels : list string) : Announcement :=
  MkAnnouncement (d_Title d) (d_Body d) channels (d_Class d) (d_SegmentFranchiseID d) (d_SegmentPlanID d)
    (d_SegmentStatus d) (d_ShowInPortal d) AnnouncementDraft 0 (d_CreatedBy d) now None.

(** Widths, references and CHECKs. *)
Definition row_ok (t : Tables) (a : Announcement) : bool :=
  fits 200 (Title a) && pg_text (Body a) && forallb ValidChannel (Channels a) &&
  (ShowInPortal a || negb (Nat.eqb (length (Channels a)) 0)) && ValidClass (Class a) &&
  match SegmentFranchiseID a with None => true | Some f => bool_decide (f ∈ franchises t) end &&
  match SegmentPlanID a with None => true | Some p => bool_decide (p ∈ plans t) end &&
  match SegmentStatus a with None => true | Some s => fits 20 s end && fits 100 (CreatedBy a).

(** The recipients of one announcement, each an insert that the foreign key
    or the primary key can refuse. *)
Fixpoint insert_recipients (t : Tables) (id : Z) (ids : list Z) (r : gset (Z * Z)) : option (gset (Z * Z)) :=
  match ids with
  | [] => Some r
  | s :: ids =>
      if bool_decide (is_Some (subscribers t !! s)) && negb (bool_decide ((id, s) ∈ r))
      then insert_recipients t id ids ({[(id, s)]} ∪ r) else None
  end.

(** [CreateAnnouncement]: the id is drawn even when the insert is refused. *)
Definition CreateAnnouncement (up : bool) (now : Z) (d : Draft) (t : Tables) : option (Z * Announcement) * Tables :=
  if negb up then (None, t)
  else
    let id := next_id t in
    let drawn := MkTables (announcements t) (id + 1) (recipients t) (subscribers t) (franchises t) (plans t) in
    match d_Channels d with
    | None => (None, drawn)
    | Some channels =>
        let a := draft_row now d channels in
        if negb (row_ok t a) then (None, drawn)
        else
          match insert_recipients t id (d_SubscriberIDs d) (recipients t) with
          | None => (None, drawn)
          | Some r =>
              (Some (id, a),
               MkTables (<[id := a]> (announcements t)) (id + 1) r (subscribers t) (franchises t) (plans t))
          end
    end.

Definition GetAnnouncement (id : Z) (t : Tables) : option Announcement := announcements t !! id.

Definition created_first (a b : Z * Announcement) : Prop := CreatedAt b.2 <= CreatedAt a.2.
#[global] Instance created_first_dec : RelDecision created_first.
Proof. intros a b. unfold created_first. apply _. Defined.

Definition ListAnnouncements (st : option string) (t : Tables) : list (Z * Announcement) :=
  merge_sort created_first
    (List.filter (fun p => match st with None => true | Some s => String.eqb (Status p.2) s end)
       (map_to_list (announcements t))).

Definition matches {A} `{EqDecision A} (filter : option A) (v : option A) : bool :=
  match filter with None => true | Some f => bool_decide (v = Some f) end.

Definition in_segment (a : Announcement) (s : Target) : bool :=
  matches (SegmentFranchiseID a) (franchise_id s) && matches (SegmentPlanID a) (Some (plan_id s)) &&
  matches (SegmentStatus a) (Some (status s)).

Definition ListPortalAnnouncements (subscriberID : Z) (t : Tables) : list (Z * Announcement) :=
  take 20
    (merge_sort created_first
       (List.filter
          (fun p => ShowInPortal p.2 && String.eqb (Status p.2) AnnouncementSent &&
             match subscribers t !! subscriberID with None => false | Some s => in_segment p.2 s end)
          (map_to_list (announcements t)))).

Definition ClaimAnnouncementForSending (id : Z) (t : Tables) : option Announcement * Tables :=
  match announcements t !! id with
  | Some a =>
      if String.eqb (Status a) AnnouncementDraft
      then let a := with_status AnnouncementSending (RecipientCount a) (SentAt a) a in
           (Some a, with_rows (<[id := a]> (announcements t)) t)
      else (None, t)
  | None => (None, t)
  end.

Definition FinishAnnouncement (now id : Z) (st : string) (count : Z) (t : Tables) : Tables :=
  with_rows (alter (with_status st count (Some now)) id (announcements t)) t.

Definition listExplicitRecipients (id : Z) (t : Tables) : list Z :=
  merge_sort Z.le (omap (fun p => if p.1 =? id then Some p.2 else None) (elements (recipients t))).

Definition segment_ids (a : Announcement) (t : Tables) : list Z :=
  merge_sort Z.le
    (List.filter (fun p => negb (String.eqb (status p.2) "terminated") && in_segment a p.2) (map_to_list (subscribers t))).*1.

Definition ListSegmentSubscriberIDs (id : Z) (a : Announcement) (t : Tables) : list Z :=
  match listExplicitRecipients id t with [] => segment_ids a t | explicit => explicit end.

(** ** Fan-out (announcement_task.go, api/announcements.go) *)

Definition TaskTypeAnnouncement : string := "notif:announcement".
Definition QueueAnnouncements : string := "announcements".
Definition announcementRetention : Z := 24 * 60 * 60 * Jobqueue.second.

Record AnnouncementPayload : Type := MkPayload {
  p_AnnouncementID : Z; p_SubscriberID : Z; p_Channel : string; p_Title : string; p_Body : string; p_Class : string
}.

Definition marshal_payload (p : AnnouncementPayload) : list Z :=
  bytes_of_string (Json.Marshal
    [("announcement_id", Json.VInt (p_AnnouncementID p)); ("subscriber_id", Json.VInt (p_SubscriberID p));
     ("channel", Json.VStr (p_Channel p)); ("title", Json.VStr (p_Title p)); ("body", Json.VStr (p_Body p));
     ("class", Json.VStr (p_Class p))]%string).

Definition payload_of (o : Json.object) : option AnnouncementPayload :=
  i ← Json.field_int "announcement_id" o; s ← Json.field_int "subscriber_id" o; c ← Json.field_str "channel" o;
  t ← Json.field_str "title" o; b ← Json.field_str "body" o; k ← Json.field_str "class" o;
  Some (MkPayload i s c t b k).

Definition AnnouncementTaskID (announcementID subscriberID : Z) (channel : string) : string :=
  "ann-" +:+ format_int announcementID +:+ "-" +:+ format_int subscriberID +:+ "-" +:+ channel.

(** One message: a recipient and a channel, the recipients outermost. *)
Definition job : Type := Z * string.

Definition jobs (channels : list string) (to_ : list Z) : list job := list_prod to_ channels.

Definition payload_for (id : Z) (a : Announcement) (j : job) : AnnouncementPayload :=
  MkPayload id j.1 j.2 (Title a) (Body a) (Class a).

Definition announcement_task (id : Z) (a : Announcement) (j : job) : Jobqueue.Task :=
  Jobqueue.NewTask TaskTypeAnnouncement (marshal_payload (payload_for id a j))
    [Jobqueue.Queue QueueAnnouncements; Jobqueue.TaskID (AnnouncementTaskID id j.1 j.2); Jobqueue.MaxRetry 3;
     Jobqueue.Retention announcementRetention].

Definition enqueue_job (now : Z) (up : bool) (id : Z) (a : Announcement) (j : job) (t : Jobqueue.table) : bool * Jobqueue.table :=
  let '(r, t) := Jobqueue.EnqueueContext now up (announcement_task id a j) [] t in (is_ok r, t).

(** [up i] is the [i]-th insert's fate. *)
Fixpoint fanOutAnnouncement (now : Z) (up : nat -> bool) (id : Z) (a : Announcement) (js : list job) (t : Jobqueue.table) :
    Z * Jobqueue.table :=
  match js with
  | [] => (0, t)
  | j :: js =>
      let '(ok, t) := enqueue_job now (up 0%nat) id a j t in
      let '(n, t) := fanOutAnnouncement now (fun i => up (S i)) id a js t in
      ((if ok then 1 else 0) + n, t)
  end.

(** *** The worker *)

(** [dispatcher] is [None] when it is not configured. *)
Definition ProcessTask (dispatcher : option Notify.Dispatcher) (a : Notify.Answers) (now : Z) (payload : list Z) (w : Notify.World) :
    Jobqueue.outcome * Notify.World :=
  match Json.unmarshal payload_of payload with
  | None => (Jobqueue.Failed "announcement: unmarshal payload" true, w)
  | Some p =>
      match dispatcher with
      | None => (Jobqueue.Failed "announcement: dispatcher not configured" false, w)
      | Some d =>
          match Notify.Dispatch d a now
                  (Notify.MkTask (p_SubscriberID p) (p_Channel p) EmptyString
                     ("announcement_" +:+ format_int (p_AnnouncementID p)) (p_Class p) [p_Body p] EmptyString (p_Title p)) w with
          | (Ok _, w) => (Jobqueue.Succeeded, w)
          | (Err _, w) => (Jobqueue.Failed "announcement: dispatch" false, w)
          end
      end
  end.

(** ** Endpoints (api/announcements.go) *)

Inductive AuditEntry : Type :=
  | Created (id : Z) (channels : list string) (class : string)
  | Sent (id recipients tasks_enqueued : Z) (bulk : bool).

Record World : Type := MkWorld { db : Tables; tasks : Jobqueue.table; audit : list AuditEntry }.

Definition with_db (t : Tables) (w : World) : World := MkWorld t (tasks w) (audit w).
Definition audited (e : AuditEntry) (w : World) : World := MkWorld (db w) (tasks w) (audit w ++ [e]).

(** What is configured and which statements go through. *)
Record Env : Type := MkEnv {
  has_store : bool; has_tasks : bool; create_up : bool; get_up : bool; claim_up : bool; list_up : bool; finish_up : bool;
  enqueue_up : nat -> bool
}.

Definition nonempty_ids (l : list Z) : bool := negb (Nat.eqb (length l) 0).

Definition validate (req : Draft) : bool :=
  negb (String.eqb (d_Title req) EmptyString || String.eqb (d_Body req) EmptyString) &&
  forallb ValidChannel (default [] (d_Channels req)) &&
  negb (Nat.eqb (length (default [] (d_Channels req))) 0 && negb (d_ShowInPortal req)) &&
  (if nonempty_ids (d_SubscriberIDs req)
   then negb (bool_decide (is_Some (d_SegmentFranchiseID req)) || bool_decide (is_Some (d_SegmentPlanID req)) ||
              bool_decide (is_Some (d_SegmentStatus req))) &&
        (Z.of_nat (length (d_SubscriberIDs req)) <=? Subscribers.maxBulkSubscribers)
   else true) &&
  ValidClass (if String.eqb (d_Class req) EmptyString then "marketing" else d_Class req).

Definition as_drafted (req : Draft) (who : string) : Draft :=
  MkDraft (d_Title req) (d_Body req) (d_Channels req)
    (if String.eqb (d_Class req) EmptyString then "marketing" else d_Class req)
    (d_SegmentFranchiseID req) (d_SegmentPlanID req) (d_SegmentStatus req) (d_ShowInPortal req) (d_SubscriberIDs req) who.

(** The handler [Handler.CreateAnnouncement]; [req] is the decoded body. *)
Definition PostAnnouncement (e : Env) (now : Z) (who : string) (req : option Draft) (w : World) : Z * option Z * World :=
  if negb (has_store e) then (503, None, w)
  else
    match req with
    | None => (400, None, w)
    | Some req =>
        if negb (validate req) then (422, None, w)
        else
          match CreateAnnouncement (create_up e) now (as_drafted req who) (db w) with
          | (None, t) => (500, None, with_db t w)
          | (Some (id, a), t) => (201, Some id, audited (Created id (Channels a) (Class a)) (with_db t w))
          end
    end.

Definition finishAnnouncement (e : Env) (now id : Z) (st : string) (count : Z) (w : World) : World :=
  if finish_up e then with_db (FinishAnnouncement now id st count (db w)) w else w.

(** Resolving, fanning out and recording: what follows a claim. The third
    component is the number of recipients. *)
Definition broadcast (e : Env) (now id : Z) (a : Announcement) (bulk : bool) (w : World) : option (Z * Z) * World :=
  if negb (list_up e) then (None, finishAnnouncement e now id AnnouncementFailed 0 w)
  else
    let to_ := ListSegmentSubscriberIDs id a (db w) in
    let '(n, q) := fanOutAnnouncement now (enqueue_up e) id a (jobs (Channels a) to_) (tasks w) in
    let w := finishAnnouncement e now id AnnouncementSent n (MkWorld (db w) q (audit w)) in
    (Some (Z.of_nat (length to_), n), audited (Sent id (Z.of_nat (length to_)) n bulk) w).

Definition SendAnnouncement (e : Env) (now : Z) (path : option Z) (w : World) : Z * option (Z * Z) * World :=
  match path with
  | None => (400, None, w)
  | Some id =>
      if negb (has_store e && has_tasks e) then (503, None, w)
      else if negb (get_up e) then (500, None, w)
      else match GetAnnouncement id (db w) with
           | None => (404, None, w)
           | Some _ =>
               if negb (claim_up e) then (500, None, w)
               else match ClaimAnnouncementForSending id (db w) with
                    | (None, t) => (409, None, with_db t w)
                    | (Some a, t) =>
                        match broadcast e now id a false (with_db t w) with
                        | (None, w) => (500, None, w)
                        | (Some r, w) => (202, Some r, w)
                        end
                    end
           end
  end.

(** [SendBulkNotification], the console's "notify these": the number of
    messages enqueued, or an error. *)
Definition SendBulkNotification (e : Env) (now : Z) (requestedBy : string) (ids : list Z) (title body : string)
    (channels : option (list string)) (showInPortal : bool) (w : World) : option Z * World :=
  match CreateAnnouncement (create_up e) now
          (MkDraft title body channels "transactional" None None None showInPortal ids requestedBy) (db w) with
  | (None, t) => (None, with_db t w)
  | (Some (id, _), t) =>
      if negb (claim_up e) then (None, with_db t w)
      else match ClaimAnnouncementForSending id t with
           | (None, t) => (None, with_db t w)
           | (Some a, t) =>
               match broadcast e now id a true (with_db t w) with
               | (None, w) => (None, w)
               | (Some (_, n), w) => (Some n, w)
               end
           end
  end.

(** [GetPortalAnnouncements]: the subscriber is the token's, 0 for none. *)
Definition GetPortalAnnouncements (e : Env) (subscriberID : Z) (w : World) : Z * list (Z * Announcement) :=
  if negb (has_store e) then (503, [])
  else if subscriberID =? 0 then (401, [])
  else if negb (list_up e) then (500, [])
  else (200, ListPortalAnnouncements subscriberID (db w)).

Definition GetAnnouncements (e : Env) (st : string) (w : World) : Z * list (Z * Announcement) :=
  if negb (has_store e) then (503, [])
  else if negb (list_up e) then (500, [])
  else (200, ListAnnouncements (if String.eqb st EmptyString then None else Some st) (db w)).

(** ** Sends that overlap *)

(** A send between its claim and its outcome: the messages it has tried and,
    once the recipients are known, those left. *)
Record Sending : Type := MkSending { s_id : Z; s_ann : Announcement; s_done : list job; s_left : option (list job) }.

(** [history] is every message that became a task, in order. *)
Record System : Type := MkSystem { world : World; sending : list Sending; history : list (Z * job) }.

Definition history_of (id : Z) (h : list (Z * job)) : list job :=
  omap (fun p => if p.1 =? id then Some p.2 else None) h.

(** One statement of one send; a crash anywhere; anything else the system does
    to the queue, the subscribers or the recipients meanwhile. *)
Inductive step : System -> System -> Prop :=
  | step_create w ss h up now d r t :
      CreateAnnouncement up now d (db w) = (r, t) -> step (MkSystem w ss h) (MkSystem (with_db t w) ss h)
  | step_claim w ss h id a t :
      ClaimAnnouncementForSending id (db w) = (Some a, t) ->
      step (MkSystem w ss h) (MkSystem (with_db t w) (MkSending id a [] None :: ss) h)
  | step_unresolved w l1 l2 h now id a :
      step (MkSystem w (l1 ++ MkSending id a [] None :: l2) h)
        (MkSystem (with_db (FinishAnnouncement now id AnnouncementFailed 0 (db w)) w) (l1 ++ l2) h)
  | step_resolve w l1 l2 h id a :
      step (MkSystem w (l1 ++ MkSending id a [] None :: l2) h)
        (MkSystem w (l1 ++ MkSending id a [] (Some (jobs (Channels a) (ListSegmentSubscriberIDs id a (db w)))) :: l2) h)
  | step_enqueue w l1 l2 h now up id a done j js ok q :
      enqueue_job now up id a j (tasks w) = (ok, q) ->
      step (MkSystem w (l1 ++ MkSending id a done (Some (j :: js)) :: l2) h)
        (MkSystem (MkWorld (db w) q (audit w)) (l1 ++ MkSending id a (done ++ [j]) (Some js) :: l2)
           (if ok then h ++ [(id, j)] else h))
  | step_finish w l1 l2 h now id a done count :
      step (MkSystem w (l1 ++ MkSending id a done (Some []) :: l2) h)
        (MkSystem (with_db (FinishAnnouncement now id AnnouncementSent count (db w)) w) (l1 ++ l2) h)
  | step_crash w l1 l2 h s :
      step (MkSystem w (l1 ++ s :: l2) h) (MkSystem w (l1 ++ l2) h)
  | step_elsewhere w w' ss h :
      announcements (db w') = announcements (db w) -> next_id (db w') = next_id (db w) ->
      step (MkSystem w ss h) (MkSystem w' ss h).

(** The history of an announcement is part of one fan-out of it. *)
Definition one_fan_out (t : Tables) (h : list (Z * job)) (id : Z) : Prop :=
  history_of id h = [] \/
  exists a to_, announcements t !! id = Some a /\ Status a <> AnnouncementDraft /\ NoDup to_ /\
    sublist (history_of id h) (jobs (Channels a) to_).

Definition claimed_row (t : Tables) (s : Sending) : Prop :=
  exists a, announcements t !! s_id s = Some a /\ Status a <> AnnouncementDraft /\ Channels a = Channels (s_ann s).

Definition in_progress (h : list (Z * job)) (s : Sending) : Prop :=
  sublist (history_of (s_id s) h) (s_done s) /\
  match s_left s with
  | None => s_done s = []
  | Some l => exists to_, NoDup to_ /\ jobs (Channels (s_ann s)) to_ = s_done s ++ l
  end.

Record inv (s : System) : Prop := {
  inv_fresh : forall id, is_Some (announcements (db (world s)) !! id) -> id < next_id (db (world s));
  inv_claimed : Forall (claimed_row (db (world s))) (sending s);
  inv_nodup : NoDup (map s_id (sending s));
  inv_progress : Forall (in_progress (history s)) (sending s);
  inv_once : forall id, one_fan_out (db (world s)) (history s) id
}.

Lemma history_of_snoc id h p :
  history_of id (h ++ [p]) = history_of id h ++ (if p.1 =? id then [p.2] else []).
Proof. unfold history_of. rewrite omap_app. simpl. by destruct (p.1 =? id). Qed.

(** A change of the table that keeps every row, its channels and its having left the draft state. *)
Definition keeps (t t' : Tables) : Prop :=
  next_id t <= next_id t' /\
  (forall id a, announcements t !! id = Some a ->
     exists a', announcements t' !! id = Some a' /\ Channels a' = Channels a /\
       (Status a <> AnnouncementDraft -> Status a' <> AnnouncementDraft)) /\
  (forall id, is_Some (announcements t' !! id) -> id < next_id t').

Lemma claimed_keeps t t' s : keeps t t' -> claimed_row t s -> claimed_row t' s.
Proof.
  intros (_ & Hk & _) (a & Ha & Hst & Hch). destruct (Hk _ _ Ha) as (a' & Ha' & Hc' & Hs').
  exists a'. rewrite Hc'. auto.
Qed.

Lemma once_keeps t t' h id : keeps t t' -> one_fan_out t h id -> one_fan_out t' h id.
Proof.
  intros (_ & Hk & _) [| (a & to_ & Ha & Hst & Hnd & Hsub)]; [by left |]. destruct (Hk _ _ Ha) as (a' & Ha' & Hc' & Hs').
  right. exists a', to_. rewrite Hc'. auto.
Qed.

Lemma inv_keeps w w' ss h : keeps (db w) (db w') -> inv (MkSystem w ss h) -> inv (MkSystem w' ss h).
Proof.
  intros Hk [Hf Hc Hn Hp Ho]. split; simpl in *; auto.
  - apply Hk.
  - eapply Forall_impl; [exact Hc | intros s; by apply claimed_keeps].
  - intros id. by eapply once_keeps.
Qed.

Lemma inv_forget w l1 s l2 h : inv (MkSystem w (l1 ++ s :: l2) h) -> inv (MkSystem w (l1 ++ l2) h).
Proof.
  intros [Hf Hc Hn Hp Ho]. split; simpl in *; auto.
  - apply Forall_app in Hc as [? [_ ?]%Forall_cons]. by apply Forall_app.
  - rewrite map_app in *. cbn [map] in Hn. by apply NoDup_app in Hn as (? & Hd & [_ ?]%NoDup_cons); apply NoDup_app; set_solver.
  - apply Forall_app in Hp as [? [_ ?]%Forall_cons]. by apply Forall_app.
Qed.

Lemma finish_keeps now id st count t :
  (forall id, is_Some (announcements t !! id) -> id < next_id t) -> st <> AnnouncementDraft ->
  keeps t (FinishAnnouncement now id st count t).
Proof.
  intros Hf Hst. unfold FinishAnnouncement, with_rows. split; [done |]. simpl. split.
  - intros id' a Ha. destruct (decide (id = id')) as [<- |].
    + rewrite lookup_alter_eq, Ha. simpl. eexists. split; [done |]. simpl. auto.
    + rewrite lookup_alter_ne by done. eauto.
  - intros id' Hin. apply Hf. destruct (decide (id = id')) as [<- |].
    + rewrite lookup_alter_eq in Hin. by apply fmap_is_Some in Hin.
    + by rewrite lookup_alter_ne in Hin.
Qed.

Lemma create_keeps up now d t r t' :
  (forall id, is_Some (announcements t !! id) -> id < next_id t) -> CreateAnnouncement up now d t = (r, t') -> keeps t t'.
Proof.
  intros Hf. unfold CreateAnnouncement.
  assert (Hsame : forall n x s f p, next_id t <= n -> keeps t (MkTables (announcements t) n x s f p)).
  { intros n x s f p Hn. split; [done |]. simpl. split; [eauto |]. intros id Hin. specialize (Hf id Hin). lia. }
  destruct up; simpl; [| intros [= _ <-]; destruct t; by apply Hsame].
  destruct (d_Channels d) as [ch |]; [| intros [= _ <-]; apply Hsame; lia].
  destruct (row_ok _ _); simpl; [| intros [= _ <-]; apply Hsame; lia].
  destruct (insert_recipients _ _ _ _) as [rs |]; intros [= _ <-]; [| apply Hsame; lia].
  assert (Hnew : announcements t !! next_id t = None).
  { apply eq_None_not_Some. intros Hin. specialize (Hf _ Hin). lia. }
  split; [simpl; lia |]. simpl. split.
  - intros id a Ha. rewrite lookup_insert_ne by congruence. eauto.
  - intros id [a [[<- _] | [_ Ha]]%lookup_insert_Some]; [lia |]. specialize (Hf id (mk_is_Some _ _ Ha)). lia.
Qed.

Lemma claimed_was_draft id t a t' :
  ClaimAnnouncementForSending id t = (Some a, t') ->
  exists a0, announcements t !! id = Some a0 /\ Status a0 = AnnouncementDraft /\ Channels a = Channels a0 /\
    Status a = AnnouncementSending /\ t' = with_rows (<[id := a]> (announcements t)) t.
Proof.
  unfold ClaimAnnouncementForSending. destruct (announcements t !! id) as [a0 |]; [| done].
  destruct (String.eqb_spec (Status a0) AnnouncementDraft); [| done]. intros [= <- <-]. exists a0. auto.
Qed.

Lemma claim_keeps id t a t' :
  (forall id, is_Some (announcements t !! id) -> id < next_id t) ->
  ClaimAnnouncementForSending id t = (Some a, t') -> keeps t t'.
Proof.
  intros Hf (a0 & Ha0 & Hd & Hc & Hs & ->)%claimed_was_draft. split; [done |]. simpl. split.
  - intros id' a' Ha'. destruct (decide (id = id')) as [<- |].
    + rewrite lookup_insert_eq. exists a. split; [done |]. split; [congruence |]. by rewrite Hs.
    + rewrite lookup_insert_ne by done. eauto.
  - intros id' [a' [[<- _] | [_ Ha']]%lookup_insert_Some]; apply Hf; eauto.
Qed.

Lemma NoDup_omap_inj {A B} (f : A -> option B) (l : list A) :
  (forall x y b, f x = Some b -> f y = Some b -> x = y) -> NoDup l -> NoDup (omap f l).
Proof.
  intros Hf. induction 1 as [| x l Hx Hn IH]; simpl; [constructor |]. destruct (f x) as [b |] eqn:Hb; [| done].
  constructor; [| done]. intros (y & Hy & Hb')%list_elem_of_omap. by rewrite (Hf x y b) in Hx.
Qed.

Lemma NoDup_recipients id a t : NoDup (ListSegmentSubscriberIDs id a t).
Proof.
  assert (He : NoDup (listExplicitRecipients id t)).
  { unfold listExplicitRecipients. rewrite merge_sort_Permutation. apply NoDup_omap_inj; [| apply NoDup_elements].
    intros [i1 s1] [i2 s2] b. simpl. destruct (Z.eqb_spec i1 id), (Z.eqb_spec i2 id); naive_solver. }
  unfold ListSegmentSubscriberIDs. destruct (listExplicitRecipients id t); [| done].
  unfold segment_ids. rewrite merge_sort_Permutation.
  apply NoDup_fmap_fst.
  - intros i x y [Hx _]%elem_of_filterb [Hy _]%elem_of_filterb. apply elem_of_map_to_list in Hx, Hy. congruence.
  - apply NoDup_ListNoDup, List.NoDup_filter, NoDup_ListNoDup, NoDup_map_to_list.
Qed.

Lemma inv_advance w l1 id a d d' l l' l2 h :
  inv (MkSystem w (l1 ++ MkSending id a d l :: l2) h) -> in_progress h (MkSending id a d' l') ->
  inv (MkSystem w (l1 ++ MkSending id a d' l' :: l2) h).
Proof.
  intros [Hf Hc Hn Hp Ho] Hs. split; simpl in *; auto.
  - apply Forall_app in Hc as [? [? ?]%Forall_cons]. apply Forall_app. split; [done |]. by constructor.
  - by rewrite map_app in *.
  - apply Forall_app in Hp as [? [_ ?]%Forall_cons]. apply Forall_app. split; [done |]. by constructor.
Qed.

Lemma other_ids l1 id a d l l2 s :
  NoDup (map s_id (l1 ++ MkSending id a d l :: l2)) -> s ∈ l1 ++ l2 -> s_id s <> id.
Proof.
  rewrite map_app. cbn [map]. intros (_ & Hd & [Hnot _]%NoDup_cons)%NoDup_app [Hin | Hin]%elem_of_app <-.
  - apply (Hd (s_id s)); [exact (list_elem_of_fmap_2 s_id _ _ Hin) | apply list_elem_of_here].
  - exact (Hnot (list_elem_of_fmap_2 s_id _ _ Hin)).
Qed.

(** One more message of a send became a task. *)
Lemma inv_enqueued w l1 id a done_ j js l2 h :
  inv (MkSystem w (l1 ++ MkSending id a done_ (Some (j :: js)) :: l2) h) ->
  inv (MkSystem w (l1 ++ MkSending id a (done_ ++ [j]) (Some js) :: l2) (h ++ [(id, j)])).
Proof.
  intros [Hf Hc Hn Hp Ho]. simpl in *.
  assert (Hoth : forall id', id' <> id -> history_of id' (h ++ [(id, j)]) = history_of id' h).
  { intros id' Hne. rewrite history_of_snoc. simpl. destruct (Z.eqb_spec id id'); [congruence |]. by rewrite app_nil_r. }
  assert (Hown : history_of id (h ++ [(id, j)]) = history_of id h ++ [j]) by (rewrite history_of_snoc; simpl; by rewrite Z.eqb_refl).
  pose proof (other_ids l1 id a done_ (Some (j :: js)) l2) as Hids.
  apply Forall_app in Hp as [Hp1 [[Hsub (to_ & Hnd & Hjobs)] Hp2]%Forall_cons]. simpl in Hsub, Hjobs.
  apply Forall_app in Hc as [Hc1 [(a' & Ha' & Hst & Hch) Hc2]%Forall_cons]. simpl in Ha', Hch.
  assert (Hsub' : sublist (history_of id h ++ [j]) (done_ ++ [j])) by by apply sublist_app.
  split; simpl; auto.
  - apply Forall_app. split; [done |]. constructor; [by exists a' | done].
  - by rewrite map_app in *.
  - apply Forall_app. split; [| constructor].
    + eapply Forall_impl; [apply Forall_and; split; [exact Hp1 | apply Forall_forall; intros s Hs; exact (Hids s Hn (proj2 (elem_of_app l1 l2 s) (or_introl Hs)))] |].
      intros s [[H1 H2] Hne]. split; [by rewrite Hoth | done].
    + split; simpl; [by rewrite Hown |]. exists to_. split; [done |]. by rewrite <- app_assoc.
    + eapply Forall_impl; [apply Forall_and; split; [exact Hp2 | apply Forall_forall; intros s Hs; exact (Hids s Hn (proj2 (elem_of_app l1 l2 s) (or_intror Hs)))] |].
      intros s [[H1 H2] Hne]. split; [by rewrite Hoth | done].
  - intros id'. destruct (decide (id' = id)) as [-> | Hne].
    + right. exists a', to_. split_and!; auto. rewrite Hown, Hch, Hjobs. change (j :: js) with ([j] ++ js).
      rewrite app_assoc. by apply sublist_inserts_r.
    + destruct (Ho id') as [| (a0 & t0 & ?)]; [left | right; exists a0, t0]; by rewrite Hoth.
Qed.

Lemma step_once s s' : inv s -> step s s' -> inv s'.
Proof.
  intros Hi Hst. destruct Hst as [w ss h up now d r t Hc | w ss h id a t Hc | w l1 l2 h now id a | w l1 l2 h id a
    | w l1 l2 h now up id a done_ j js ok q Hq | w l1 l2 h now id a done_ count | w l1 l2 h s | w w' ss h Ha Hn].
  - eapply inv_keeps; [| exact Hi]. eapply create_keeps; [apply (inv_fresh _ Hi) | exact Hc].
  - pose proof (claim_keeps _ _ _ _ (inv_fresh _ Hi) Hc) as Hk.
    apply claimed_was_draft in Hc as (a0 & Ha0 & Hd & Hch & Hs & ->).
    assert (Hnone : history_of id h = []).
    { destruct (inv_once _ Hi id) as [| (a1 & t1 & Ha1 & Hs1 & _)]; [done |]. simpl in Ha1. congruence. }
    assert (Hidle : id ∉ map s_id ss).
    { intros (s & -> & Hin)%list_elem_of_fmap. pose proof (inv_claimed _ Hi) as Hcl. rewrite Forall_forall in Hcl.
      destruct (Hcl s Hin) as (a1 & Ha1 & Hs1 & _). simpl in Ha1. congruence. }
    assert (Hi' : inv (MkSystem (with_db (with_rows (<[id:=a]> (announcements (db w))) (db w)) w) ss h))
      by (eapply inv_keeps; [exact Hk | exact Hi]).
    destruct Hi' as [Hf Hcl Hn Hp Ho]. split; simpl in *; auto.
    + constructor; [| done]. exists a. simpl. rewrite lookup_insert_eq, Hs. split_and!; [done .. | by rewrite Hch].
    + by constructor.
    + constructor; [| done]. split; simpl; [by rewrite Hnone | done].
  - eapply inv_keeps; [| exact (inv_forget _ _ _ _ _ Hi)]. apply finish_keeps; [exact (inv_fresh _ Hi) | done].
  - eapply inv_advance; [exact Hi |]. pose proof (inv_progress _ Hi) as Hp. apply Forall_app in Hp as [_ [[Hsub _] _]%Forall_cons].
    split; simpl in *; [done |]. eexists. split; [apply NoDup_recipients | done].
  - eapply (inv_keeps w); [by split; [| split; [eauto | exact (inv_fresh _ Hi)]] |]. destruct ok; [by apply inv_enqueued |].
    eapply inv_advance; [exact Hi |]. pose proof (inv_progress _ Hi) as Hp.
    apply Forall_app in Hp as [_ [[Hsub (to_ & Hnd & Hj)] _]%Forall_cons]. simpl in *.
    split; simpl; [by apply sublist_inserts_r |]. exists to_. split; [done |]. by rewrite <- app_assoc.
  - eapply inv_keeps; [| exact (inv_forget _ _ _ _ _ Hi)]. apply finish_keeps; [exact (inv_fresh _ Hi) | done].
  - exact (inv_forget _ _ _ _ _ Hi).
  - eapply inv_keeps; [| exact Hi]. split; [by rewrite Hn |]. rewrite Ha, Hn. split; [eauto | exact (inv_fresh _ Hi)].
Qed.

Definition idle (w : World) : System := MkSystem w [] [].

Lemma idle_inv w : announcements (db w) = ∅ -> inv (idle w).
Proof.
  intros He. split; simpl; [| constructor .. |].
  - rewrite He. intros id [a Ha]. done.
  - intros id. by left.
Qed.

Lemma reachable_once w s : announcements (db w) = ∅ -> star step (idle w) s -> inv s.
Proof.
  intros He Hs. eapply (star_invariant step inv); [exact step_once | exact Hs | by apply idle_inv].
Qed.

Lemma NoDup_jobs channels to_ : NoDup channels -> NoDup to_ -> NoDup (jobs channels to_).
Proof.
  intros Hc. unfold jobs. induction 1 as [| s to_ Hs Ht IH]; simpl; [constructor |].
  apply NoDup_app. split; [apply NoDup_fmap_2_strong; [by intros ?? _ _ [=] | done] |]. split; [| done].
  intros [s' c] Hin%list_elem_of_In Hin'%list_elem_of_In. apply in_map_iff in Hin as (? & [= <- _] & _).
  apply in_prod_iff in Hin' as [Hs' _]. by apply Hs, list_elem_of_In.
Qed.

(** C37: staff may compose, click "send" as often and as simultaneously as they
    like, sends may crash half way, and the queue, the subscribers and the
    recipient lists may change meanwhile: the messages of an announcement that
    ever became tasks all belong to one fan-out of it, each recipient on each
    of its channels at most once, and only after it left the draft state. *)
Theorem broadcast_once w s id :
  announcements (db w) = ∅ -> star step (idle w) s -> history_of id (history s) <> [] ->
  exists a to_, announcements (db (world s)) !! id = Some a /\ Status a <> AnnouncementDraft /\ NoDup to_ /\
    sublist (history_of id (history s)) (jobs (Channels a) to_) /\
    (NoDup (Channels a) -> NoDup (history_of id (history s))).
Proof.
  intros He Hs Hne. pose proof (reachable_once _ _ He Hs) as Hi.
  destruct (inv_once _ Hi id) as [| (a & to_ & Ha & Hst & Hnd & Hsub)]; [done |]. exists a, to_. split_and!; auto.
  intros Hch. eapply sublist_NoDup; [by apply NoDup_jobs | exact Hsub].
Qed.

(** ** Who is written to, and what *)

Definition addressed_to (t : Tables) (id : Z) (a : Announcement) (s : Z) : Prop :=
  (id, s) ∈ recipients t \/
  (forall s', (id, s') ∉ recipients t) /\
  exists row, subscribers t !! s = Some row /\ status row <> "terminated"%string /\ in_segment a row = true.

Lemma elem_of_explicit id t s : s ∈ listExplicitRecipients id t <-> (id, s) ∈ recipients t.
Proof.
  unfold listExplicitRecipients. rewrite merge_sort_Permutation, list_elem_of_omap. split.
  - intros ([i s'] & Hin%elem_of_elements & Hs). simpl in Hs. destruct (Z.eqb_spec i id); [| done]. by simplify_eq.
  - intros Hin. exists (id, s). rewrite elem_of_elements. simpl. by rewrite Z.eqb_refl.
Qed.

Lemma elem_of_segment a t s :
  s ∈ segment_ids a t <->
  exists row, subscribers t !! s = Some row /\ status row <> "terminated"%string /\ in_segment a row = true.
Proof.
  unfold segment_ids. rewrite merge_sort_Permutation, list_elem_of_fmap. split.
  - intros ([i row] & -> & [Hin [Hst Hseg]%andb_prop]%elem_of_filterb). exists row. apply elem_of_map_to_list in Hin.
    simpl in *. split; [done |]. split; [| done]. intros E. by rewrite E in Hst.
  - intros (row & Hl & Hst & Hseg). exists (s, row). split; [done |]. apply elem_of_filterb.
    split; [by apply elem_of_map_to_list |]. simpl. rewrite Hseg. by destruct (String.eqb_spec (status row) "terminated").
Qed.

Lemma elem_of_recipients id a t s : s ∈ ListSegmentSubscriberIDs id a t <-> addressed_to t id a s.
Proof.
  unfold ListSegmentSubscriberIDs, addressed_to. rewrite <- elem_of_explicit.
  destruct (listExplicitRecipients id t) as [| x l] eqn:He.
  - rewrite elem_of_segment. split; [intros Hs; right; split; [| done] | intros [?%not_elem_of_nil | [_ Hs]]; done].
    intros s' Hin. apply elem_of_explicit in Hin. rewrite He in Hin. by apply not_elem_of_nil in Hin.
  - split; [by left | intros [| [Hno _]]; [done |]]. destruct (Hno x). apply elem_of_explicit. rewrite He. apply list_elem_of_here.
Qed.

Lemma TaskID_inj id s c s' c' :
  0 <= s -> 0 <= s' -> AnnouncementTaskID id s c = AnnouncementTaskID id s' c' -> s = s' /\ c = c'.
Proof.
  unfold AnnouncementTaskID. intros Hs Hs' E.
  apply (inj (String.append "ann-")), (inj (String.append (format_int id))), (inj (String.append "-")) in E.
  apply (span_inj is_decimal) in E as [E1 E2]; [| by apply Json.format_int_decimal .. | done | done].
  apply (inj (String.append "-")) in E2. by apply format_int_inj in E1.
Qed.

Definition row_for (now id : Z) (a : Announcement) (j : job) : Jobqueue.TaskRow :=
  Jobqueue.enqueued_row now (announcement_task id a j) (Jobqueue.opts (announcement_task id a j)).

(** Ids not yet drawn hold no task. *)
Definition fresh (q : Jobqueue.table) : Prop := forall k, Jobqueue.next_id q <= k -> Jobqueue.rows q !! k = None.

Lemma fan_out_spec now up id a js q :
  (forall i, up i = true) -> NoDup js -> (forall j, j ∈ js -> 0 <= j.1) ->
  (forall j, j ∈ js -> Jobqueue.id_taken (AnnouncementTaskID id j.1 j.2) q = false) -> fresh q ->
  let '(n, q') := fanOutAnnouncement now up id a js q in
  n = Z.of_nat (length js) /\
  (forall i j, js !! i = Some j -> Jobqueue.rows q' !! (Jobqueue.next_id q + Z.of_nat i) = Some (row_for now id a j)) /\
  (forall k, k < Jobqueue.next_id q \/ Jobqueue.next_id q + Z.of_nat (length js) <= k ->
     Jobqueue.rows q' !! k = Jobqueue.rows q !! k).
Proof.
  intros Hup Hnd Hpos Hfree Hfresh. revert up q Hup Hfree Hfresh.
  induction Hnd as [| j js Hj Hnd IH]; intros up q Hup Hfree Hfresh; cbn [fanOutAnnouncement]; [done |].
  unfold enqueue_job, Jobqueue.EnqueueContext. rewrite Hup. cbn [negb].
  change (Jobqueue.apply_options [] ?o) with o.
  change (Jobqueue.o_taskID (Jobqueue.opts (announcement_task id a j))) with (AnnouncementTaskID id j.1 j.2).
  rewrite (Hfree j) by apply list_elem_of_here. rewrite andb_false_r. fold (row_for now id a j). cbn [is_ok].
  set (q1 := Jobqueue.with_rows _ _).
  specialize (IH ltac:(intros j' Hj'; apply Hpos; by right) (fun i => up (S i)) q1 ltac:(intros; apply Hup)).
  destruct (fanOutAnnouncement now (fun i => up (S i)) id a js q1) as [n q'].
  destruct IH as (-> & Hrows & Hrest).
  - intros j' Hj'. apply not_true_is_false. intros (i & r & Hi & Hr)%Jobqueue.id_taken_spec. simpl in Hi.
    apply lookup_insert_Some in Hi as [[_ <-] | [_ Hi]].
    + assert (j' = j) as ->; [| done]. change (Some (AnnouncementTaskID id j.1 j.2) = Some (AnnouncementTaskID id j'.1 j'.2)) in Hr.
      apply (inj Some), TaskID_inj in Hr as [E1 E2].
      { by destruct j, j'; simpl in *; subst. }
      all: apply Hpos; [apply list_elem_of_here || by right].
    + specialize (Hfree j' ltac:(by right)). apply not_true_iff_false in Hfree. apply Hfree, Jobqueue.id_taken_spec. eauto.
  - intros k Hk. simpl in *. rewrite lookup_insert_ne by lia. apply Hfresh. lia.
  - simpl in Hrows, Hrest. cbn [length]. split; [lia |]. split.
    + intros [| i] j' Hl; simpl in Hl.
      * injection Hl as <-. rewrite Z.add_0_r, Hrest by lia. apply lookup_insert_eq.
      * rewrite <- (Hrows i j' Hl). f_equal. lia.
    + intros k Hk. rewrite Hrest by lia. rewrite lookup_insert_ne by lia. done.
Qed.

Definition plain_text (a : Announcement) : Prop :=
  Json.ascii_text (Title a) = true /\ Json.ascii_text (Body a) = true.

Lemma known_ascii l c : Forall (fun k => Json.ascii_text k = true) l -> Notify.one_of l c = true -> Json.ascii_text c = true.
Proof.
  intros Hl (k & Hk%list_elem_of_In & ->%String.eqb_eq)%existsb_exists. rewrite Forall_forall in Hl. by apply Hl.
Qed.

Lemma channel_ascii c : ValidChannel c = true -> Json.ascii_text c = true.
Proof. apply known_ascii. by repeat constructor. Qed.

Lemma class_ascii c : ValidClass c = true -> Json.ascii_text c = true.
Proof. intros [->%String.eqb_eq | ->%String.eqb_eq]%orb_prop; reflexivity. Qed.

Lemma payload_reads id a j :
  Json.in_int64 id = true -> Json.in_int64 j.1 = true -> plain_text a -> ValidChannel j.2 = true -> ValidClass (Class a) = true ->
  Json.unmarshal payload_of (Jobqueue.payload (announcement_task id a j)) = Some (payload_for id a j).
Proof.
  intros Hid Hs [Ht Hb] Hc%channel_ascii Hk%class_ascii.
  change (Jobqueue.payload (announcement_task id a j)) with (marshal_payload (payload_for id a j)).
  unfold marshal_payload. rewrite Json.unmarshal_marshal; [by destruct j |].
  repeat constructor; done.
Qed.

Definition serial (z : Z) : Prop := 0 < z <= 2 ^ 31 - 1.

Lemma serial_int64 z : serial z -> Json.in_int64 z = true.
Proof. unfold serial, Json.in_int64, max_int64. intros [? ?]. apply andb_true_iff. split; lia. Qed.

Definition untroubled (e : Env) : Prop :=
  has_store e = true /\ has_tasks e = true /\ get_up e = true /\ claim_up e = true /\ list_up e = true /\
  finish_up e = true /\ forall i, enqueue_up e i = true.

Lemma elem_of_jobs channels to_ j : j ∈ jobs channels to_ <-> j.1 ∈ to_ /\ j.2 ∈ channels.
Proof. unfold jobs. destruct j as [s c]. rewrite !list_elem_of_In. apply in_prod_iff. Qed.

Lemma row_ok_parts t a :
  row_ok t a = true -> (forall c, c ∈ Channels a -> ValidChannel c = true) /\ ValidClass (Class a) = true.
Proof.
  unfold row_ok. rewrite !andb_true_iff. intros H. decompose [and] H. split; [| done].
  intros c Hc. eapply forallb_forall; [eassumption | by apply list_elem_of_In].
Qed.

(** C36: sending a draft, when nothing goes wrong, answers 202 and turns it
    into exactly one pending task for each recipient on each channel, on the
    announcements queue and with a payload the worker reads back as that
    announcement for that recipient; no other task is touched. The recipients
    are those picked by hand or, when none were, the subscribers of its
    segment who have not left, and the row ends up sent with the number of tasks. *)
Theorem send_reaches_recipients e now id a w :
  untroubled e -> announcements (db w) !! id = Some a -> Status a = AnnouncementDraft -> row_ok (db w) a = true ->
  NoDup (Channels a) -> plain_text a -> serial id -> (forall s, addressed_to (db w) id a s -> serial s) ->
  fresh (tasks w) -> (forall s c, Jobqueue.id_taken (AnnouncementTaskID id s c) (tasks w) = false) ->
  let to_ := ListSegmentSubscriberIDs id a (db w) in
  let js := jobs (Channels a) to_ in
  let n := Z.of_nat (length js) in
  let '(code, r, w') := SendAnnouncement e now (Some id) w in
  code = 202 /\ r = Some (Z.of_nat (length to_), n) /\
  (forall s, s ∈ to_ <-> addressed_to (db w) id a s) /\ NoDup js /\
  announcements (db w') = <[id := with_status AnnouncementSent n (Some now) a]> (announcements (db w)) /\
  (forall i j, js !! i = Some j ->
     exists row, Jobqueue.rows (tasks w') !! (Jobqueue.next_id (tasks w) + Z.of_nat i) = Some row /\
       Jobqueue.queue row = QueueAnnouncements /\ Jobqueue.status row = Jobqueue.Pending /\ Jobqueue.run_after row = now /\
       Json.unmarshal payload_of (Jobqueue.row_payload row) = Some (MkPayload id j.1 j.2 (Title a) (Body a) (Class a))) /\
  (forall k, k < Jobqueue.next_id (tasks w) \/ Jobqueue.next_id (tasks w) + n <= k ->
     Jobqueue.rows (tasks w') !! k = Jobqueue.rows (tasks w) !! k).
Proof.
  intros (H1 & H2 & H3 & H4 & H5 & H6 & H7) Ha Hd [Hch Hcl]%row_ok_parts Hnd Htext Hid Hser Hfresh Hfree to_ js n.
  unfold SendAnnouncement, GetAnnouncement, ClaimAnnouncementForSending. rewrite H1, H2, H3, H4, Ha, Hd. cbn [andb negb].
  rewrite String.eqb_refl. set (a1 := with_status AnnouncementSending _ _ a). set (t1 := Ann.with_rows _ _).
  unfold broadcast. rewrite H5. cbn [negb db with_db].
  change (ListSegmentSubscriberIDs id a1 t1) with to_. change (Channels a1) with (Channels a). fold js.
  assert (Hin : forall j, j ∈ js -> serial j.1 /\ ValidChannel j.2 = true).
  { intros j [Hs%elem_of_recipients Hc]%elem_of_jobs. split; auto. }
  assert (Hndj : NoDup js) by (apply NoDup_jobs; [done | apply NoDup_recipients]).
  pose proof (fan_out_spec now (enqueue_up e) id a1 js (tasks w) H7 Hndj) as Hf.
  change (tasks (with_db t1 w)) with (tasks w).
  destruct (fanOutAnnouncement now (enqueue_up e) id a1 js (tasks w)) as [m q].
  destruct Hf as (-> & Hrows & Hrest); auto.
  { intros j [Hs _]%Hin. unfold serial in Hs. lia. }
  unfold finishAnnouncement. rewrite H6. cbn [audited with_db db tasks]. split_and!; auto.
  - intros s. apply elem_of_recipients.
  - unfold FinishAnnouncement. cbn [announcements Ann.with_rows t1]. by rewrite alter_insert_eq.
  - intros i j Hj. specialize (Hrows i j Hj). eexists. split; [exact Hrows |]. split_and!; [done | done | |].
    + apply Z.add_0_r.
    + apply list_elem_of_lookup_2, Hin in Hj as [Hs Hc]. apply (payload_reads id a1 j); auto using serial_int64.
Qed.

(** A payload of class [marketing], handed to the worker. *)
Lemma marketing_suppressed d ans now task w sub :
  Notify.subscribers w !! Notify.k_SubscriberID task = Some sub -> Notify.DndOptOut sub = true ->
  Notify.k_Class task = "marketing"%string -> Notify.outbox (Notify.Dispatch d ans now task w).2 = Notify.outbox w.
Proof.
  intros Hs Hdnd Hk. unfold Notify.Dispatch, Notify.GetSubscriber. destruct (Notify.reads_up ans); [| done]. rewrite Hs.
  unfold Notify.suppressed. rewrite Hdnd, Hk. unfold Notify.record_as, Notify.CreateNotificationLog. simpl. by destruct (_ && _).
Qed.

(** C38: from the composer to the handset: an announcement composed without a
    class, or as marketing, is stored as marketing, and whatever message of its
    fan-out a worker later runs, whenever and with whatever providers, hands
    nothing to any of them for a subscriber who opted out. *)
Theorem opted_out_hear_nothing e now who req w id w1 :
  PostAnnouncement e now who (Some req) w = (201, Some id, w1) ->
  d_Class req = EmptyString \/ d_Class req = "marketing"%string ->
  exists a, announcements (db w1) !! id = Some a /\ Status a = AnnouncementDraft /\
    forall j d ans now2 nw sub,
      plain_text a -> serial id -> serial j.1 -> j.2 ∈ Channels a ->
      Notify.subscribers nw !! j.1 = Some sub -> Notify.DndOptOut sub = true ->
      Notify.outbox (ProcessTask d ans now2 (Jobqueue.row_payload (row_for now2 id a j)) nw).2 = Notify.outbox nw.
Proof.
  unfold PostAnnouncement. destruct (has_store e); [| done]. cbn [negb]. destruct (validate req); [| done]. cbn [negb].
  unfold CreateAnnouncement. destruct (create_up e); cbn [negb]; [| done].
  destruct (d_Channels (as_drafted req who)) as [ch |]; [| done].
  destruct (row_ok (db w) (draft_row now (as_drafted req who) ch)) eqn:Hok; cbn [negb]; [| done].
  destruct (insert_recipients _ _ _ _) as [rs |]; [| done]. intros [= <- <-] Hclass.
  exists (draft_row now (as_drafted req who) ch). split; [apply lookup_insert_eq |]. split; [done |].
  set (a := draft_row now (as_drafted req who) ch) in *. assert (Hm : Class a = "marketing"%string).
  { subst a. simpl. destruct Hclass as [-> | ->]; reflexivity. }
  clearbody a. intros j d ans now2 nw sub Htext Hid Hj Hc Hs Hdnd. apply row_ok_parts in Hok as [Hch Hcl].
  change (Jobqueue.row_payload (row_for now2 (next_id (db w)) a j)) with (Jobqueue.payload (announcement_task (next_id (db w)) a j)).
  unfold ProcessTask. rewrite payload_reads by auto using serial_int64. destruct d as [d |]; [| done].
  match goal with |- context [Notify.Dispatch d ans now2 ?t nw] => pose proof (marketing_suppressed d ans now2 t nw sub Hs Hdnd Hm) as Hout end.
  by destruct (Notify.Dispatch _ _ _ _ _) as [[] ?].
Qed.

(** A banner is seen by subscribers of the segment only, and once sent. *)
Theorem banner_in_segment e s w l id a :
  GetPortalAnnouncements e s w = (200, l) -> (id, a) ∈ l ->
  announcements (db w) !! id = Some a /\ ShowInPortal a = true /\ Status a = AnnouncementSent /\
  exists row, subscribers (db w) !! s = Some row /\ in_segment a row = true.
Proof.
  unfold GetPortalAnnouncements. destruct (negb (has_store e)); [done |]. destruct (s =? 0); [done |].
  destruct (negb (list_up e)); [done |]. intros [= <-].
  intros (i & Hin)%list_elem_of_lookup. apply lookup_take_Some in Hin as [Hin _].
  apply list_elem_of_lookup_2 in Hin. rewrite merge_sort_Permutation in Hin.
  apply elem_of_filterb in Hin as [Hin%elem_of_map_to_list [[Hshow Hst%String.eqb_eq]%andb_prop Hseg]%andb_prop].
  split_and!; [done .. |]. destruct (subscribers (db w) !! s) as [row |]; [by exists row | done].
Qed.

(** ** Concrete runs *)

Definition fine : Env := MkEnv true true true true true true true (fun _ => true).
Definition three : gmap Z Target :=
  list_to_map [(7, MkTarget (Some 1) 2 "active"); (8, MkTarget None 2 "active"); (9, MkTarget (Some 1) 2 "terminated")]%string.
Definition quiet : World := MkWorld (MkTables ∅ 1 ∅ three {[1]} {[2]}) (Jobqueue.MkTable ∅ 1) [].
Definition outage : Draft :=
  MkDraft "Outage" "Tonight" (Some ["sms"; "email"]%string) EmptyString None (Some 2) None true [] "ops".
Definition composed : World := (PostAnnouncement fine 100 "ops" (Some outage) quiet).2.
Definition outage_row : Announcement :=
  MkAnnouncement "Outage" "Tonight" ["sms"; "email"]%string "marketing" None (Some 2) None true AnnouncementDraft 0 "ops" 100 None.

Lemma composed_db : db composed = MkTables {[1 := outage_row]} 2 ∅ three {[1]} {[2]}.
Proof. vm_compute. reflexivity. Qed.

Lemma serial_pos z : bool_decide (0 < z <= 2147483647) = true -> serial z.
Proof. intros H%bool_decide_eq_true. exact H. Qed.

Lemma two_channels : NoDup (Channels outage_row).
Proof. apply (bool_decide_unpack _). vm_compute. exact I. Qed.

Lemma send_reaches_recipients_witness :
  announcements (db composed) !! 1 = Some outage_row /\
  ListSegmentSubscriberIDs 1 outage_row (db composed) = [7; 8] /\
  let '(code, r, w') := SendAnnouncement fine 200 (Some 1) composed in code = 202 /\ r = Some (2, 4).
Proof.
  split; [by vm_compute |]. split; [by vm_compute |].
  pose proof (send_reaches_recipients fine 200 1 outage_row composed) as H. cbv zeta in H.
  destruct (SendAnnouncement fine 200 (Some 1) composed) as [[code r] w'].
  destruct H as (Hc & Hr & _).
  - by repeat split.
  - by vm_compute.
  - reflexivity.
  - by vm_compute.
  - exact two_channels.
  - by split.
  - by apply serial_pos.
  - intros s [Hin | (_ & row & Hl & _)]; rewrite composed_db in *; [by apply not_elem_of_empty in Hin |].
    apply elem_of_list_to_map_2 in Hl. apply serial_pos. by set_unfold in Hl; destruct_or!; simplify_eq.
  - intros k _. by vm_compute.
  - intros s c. by vm_compute.
  - split; [exact Hc |]. rewrite Hr. by vm_compute.
Defined.

Definition dnd_town : Notify.World :=
  Notify.MkWorld {[7 := Notify.MkSubscriber "+919876543210" None true]} ∅ [] ∅ [].

Lemma opted_out_hear_nothing_witness :
  let row := Jobqueue.row_payload (row_for 300 1 outage_row (7, "sms"%string)) in
  fst (fst (PostAnnouncement fine 100 "ops" (Some outage) quiet)) = 201 /\
  Notify.outbox (ProcessTask (Some Notify.office) Notify.fine 300 row dnd_town).2 = Notify.outbox dnd_town.
Proof.
  cbv zeta. split; [by vm_compute |].
  destruct (opted_out_hear_nothing fine 100 "ops" outage quiet 1 composed) as (a & Ha & _ & H).
  - by vm_compute.
  - by left.
  - assert (a = outage_row) as -> by (rewrite composed_db in Ha; by simplify_map_eq).
    apply (H (7, "sms"%string) (Some Notify.office) Notify.fine 300 dnd_town (Notify.MkSubscriber "+919876543210" None true)).
    + by split.
    + by apply serial_pos.
    + by apply serial_pos.
    + set_solver.
    + by vm_compute.
    + reflexivity.
Defined.

(** Two clicks: one send claims the draft, resolves it and enqueues its first
    message; the other finds nothing to claim. *)
Definition claimed_row_ : Announcement := with_status AnnouncementSending 0 None outage_row.
Definition first_queue : Jobqueue.table :=
  (enqueue_job 200 true 1 claimed_row_ (7, "sms"%string) (tasks quiet)).2.

Lemma run_to_first_message :
  exists s, star step (idle quiet) s /\ history_of 1 (history s) = [(7, "sms"%string)] /\
    announcements (db (world s)) !! 1 = Some claimed_row_ /\
    ClaimAnnouncementForSending 1 (db (world s)) = (None, db (world s)).
Proof.
  eexists. split.
  - eapply star_step; [eapply (step_create quiet [] [] true 100 (as_drafted outage "ops")), surjective_pairing |].
    eapply star_step; [eapply (step_claim _ _ _ 1 claimed_row_); vm_compute; reflexivity |].
    eapply star_step; [eapply (step_resolve _ [] []) |].
    match goal with |- context [MkSending 1 claimed_row_ [] (Some ?l)] =>
      change l with (jobs ["sms"; "email"]%string [7; 8]) end.
    eapply star_step; [eapply (step_enqueue _ [] [] _ 200 true), surjective_pairing |]. apply star_refl.
  - by vm_compute.
Qed.

Lemma broadcast_once_witness :
  exists s a to_, star step (idle quiet) s /\ history_of 1 (history s) = [(7, "sms"%string)] /\
    announcements (db (world s)) !! 1 = Some a /\ NoDup to_ /\ sublist (history_of 1 (history s)) (jobs (Channels a) to_).
Proof.
  destruct run_to_first_message as (s & Hs & Hh & _).
  destruct (broadcast_once quiet s 1 eq_refl Hs) as (a & to_ & Ha & _ & Hnd & Hsub & _); [by rewrite Hh |].
  exists s, a, to_. by split_and!.
Defined.

(** A send that dies after its claim leaves the announcement where nobody can
    send it again. *)
Example crash_strands_the_announcement :
  let t := (ClaimAnnouncementForSending 1 (db composed)).2 in
  let w := with_db t composed in
  Status <$> announcements (db w) !! 1 = Some AnnouncementSending /\
  (SendAnnouncement fine 300 (Some 1) w).1 = (409, None).
Proof. vm_compute. auto. Qed.

(** A banner meant for one hand-picked subscriber is on everybody's dashboard:
    its segment filters are all empty. *)
Definition heads_up : Draft :=
  MkDraft "Your dues" "Call us" (Some ["sms"]%string) "transactional" None None None true [7] "ops".
Definition told_one : World :=
  (SendAnnouncement fine 200 (Some 1) (PostAnnouncement fine 100 "ops" (Some heads_up) quiet).2).2.

Example personal_banner_is_public :
  ListSegmentSubscriberIDs 1 (draft_row 100 heads_up ["sms"]%string) (db told_one) = [7] /\
  map (fun p => Title p.2) (GetPortalAnnouncements fine 8 told_one).2 = ["Your dues"%string].
Proof. vm_compute. auto. Qed.

(** A banner without channels, as the console and a body without the field
    send it, is refused by the column: NULL is not an empty array. *)
Example banner_alone_is_refused :
  (SendBulkNotification fine 100 "ops" [7] "Outage" "Tonight" None true quiet).1 = None /\
  (PostAnnouncement fine 100 "ops" (Some (MkDraft "Outage" "Tonight" None "marketing" None None None true [] "ops")) quiet).1 = (500, None) /\
  (SendBulkNotification fine 100 "ops" [7] "Outage" "Tonight" (Some []) true quiet).1 = Some 0.
Proof. vm_compute. auto. Qed.

(** When every hand-picked recipient's row is deleted before the draft is sent
    (removing the demo data deletes subscribers, and the list cascades), the
    announcement goes to the whole base. *)
Definition picked_demo : World := (PostAnnouncement fine 100 "ops" (Some heads_up) quiet).2.
Definition demo_removed : World :=
  with_db (MkTables (announcements (db picked_demo)) 2 ∅ (delete 7 three) {[1]} {[2]}) picked_demo.

Example emptied_list_means_everyone :
  ListSegmentSubscriberIDs 1 (draft_row 100 heads_up ["sms"]%string) (db picked_demo) = [7] /\
  ListSegmentSubscriberIDs 1 (draft_row 100 heads_up ["sms"]%string) (db demo_removed) = [8].
Proof. vm_compute. auto. Qed.

(** A WhatsApp announcement asks Meta for the template with the empty name. *)
Example whatsapp_has_no_template :
  Notify.outbox (ProcessTask (Some Notify.office) Notify.fine 300
    (Jobqueue.row_payload (row_for 300 1 (draft_row 100 heads_up ["whatsapp"]%string) (7, "whatsapp"%string))) dnd_town).2 =
  [Notify.WhatsAppTemplate "+919876543210" EmptyString ["Call us"%string]].
Proof. by vm_compute. Qed.

(** A repeated recipient in one request refuses the whole announcement. *)
Example repeated_recipient_is_refused :
  PostAnnouncement fine 100 "ops" (Some (MkDraft "T" "B" (Some ["sms"]%string) EmptyString None None None false [7; 7] "ops")) quiet =
  (500, None, with_db (MkTables ∅ 2 ∅ three {[1]} {[2]}) quiet).
Proof. by vm_compute. Qed.

End Ann.
